(* ===== verification/_CoqProject ===== *)
-Q . S2P
Prelude.v
CString.v
Murmur.v
HandlePool.v
Channel.v
Socket.v
LogChannel.v
ShmChannel.v
SocketChannel.v
Provision.v
Zcopy.v
Endpoint.v
ShadowBuffer.v
Extraction.v
ThreadPool.v
Dispatch.v
Handler.v
Batching.v
Driver.v
Manager.v
GpuManager.v
GpuPolicy.v
TfOpt.v
HvChannel.v
Startup.v
SpawnDaemon.v
NvManager.v
Fatbin.v
KernelDump.v
Preload.v
Cava.v
Stub.v
Remote.v
RemoteCall.v
RemoteRefinement.v
RemoteSocket.v
SpecCheck.v
BatchedStub.v
ApiSends.v
SpecOpenCL.v
SpecOpenCLAsync.v
SpecOpenCLSched.v
SpecCuda.v
SpecCudaAsync.v
SpecCudart.v
SpecCudartOpt.v
SpecCudartDump.v
SpecTfOpt.v
SpecTfDump.v
SpecOnnxOpt.v
SpecOnnxDump.v
SpecMvnc.v
SpecMvncAsync.v
SpecHip.v
SpecTensorflow.v
SpecTrivial.v
ApiCalls.v
ApiLimits.v
Replay.v
ApiReplay.v
Recording.v
ApiRecording.v
Migration.v
ApiMigration.v
GuestCuda.v
GuestAddress.v
Aborting.v
AbortTfOpt.v
AbortTfDump.v
AbortOnnxOpt.v
AbortOnnxDump.v
ApiAborts.v
