(* ===== verification/Prelude.v ===== *)
(** * Verification of the AvA API-remoting runtime (lapis2)

    AvA forwards the API calls of an application (the guest) to a worker process that owns the
    accelerator.  A generated stub turns a call into a command, a channel carries the command to
    the other side, a shadow thread handles it there, and the reply travels back the same way.
    Both sides share an endpoint library that names remote objects, keeps shadow copies of
    buffers, and records calls so that a worker can be rebuilt (migrated) by replaying them.  A
    resource manager decides on which GPUs of which node an application's worker runs, and daemons
    on the nodes start the workers; the CUDA kernels of an application reach the worker through
    dumped files.  The stubs and the worker's handlers are generated by CAvA from specifications,
    C declarations with annotations.  This library models the C and C++ code of that system, the
    code that CAvA generates and the specifications, with integers at machine width and memory,
    files and sockets as bytes, and proves what its parts promise one another.

    ** Files and what they model

    - [Prelude] (this file): outcomes of C code ([res]: a value, a failed assertion, an exit, a
      wait, an exception, undefined behaviour), machine integers, little-endian bytes, file
      writes, GLib hash tables, shared lemmas, tactics and the hint database [ava].
    - [CString]: the C and C++ string functions the sources use, on Stdlib strings.
    - [Murmur]: common/murmur3.c and the hash and comparison functions of endpoint_lib.
    - [HandlePool]: identifiers ([next_id]) and the handle pool of common/endpoint_lib.c.  The
      global counter and the pool are explicit state; [pool_op_step] composes the operations.
    - [Channel]: struct command_base with its byte layout, blocks of memory ([heap]), and the
      vtable of include/cmd_channel_impl.h as the type class [Channel]; common/cmd_channel.c are
      its methods.  Clients (shadow buffers, extraction, handler, thread pool) are stated for any
      instance.
    - [Socket]: common/socket.cpp over a kernel that transfers any part of what it is asked to
      ([SocketKernel]).
    - [LogChannel]: common/cmd_channel_record.c, an instance of [Channel] whose state is the
      content of the log file, the file position and the reading position.
    - [ShmChannel]: common/cmd_channel_shm.c ([shm_*]) and cmd_channel_shm_worker.c ([shmw_*]),
      two instances over one block of shared memory and a socket (a queue of bytes).
    - [SocketChannel]: common/cmd_channel_socket_utilities.cpp, a third instance of [Channel], and
      the constructors of cmd_channel_socket_tcp.cpp and cmd_channel_socket_vsock.cpp.
    - [Provision]: worker/provision_gpu.cpp, the GPUs and memory one worker may use.
    - [Zcopy]: common/zcopy.c.
    - [Endpoint]: calls in flight, metadata of objects, managed and coupled buffers of
      common/endpoint_lib.c; [ava_endpoint] is the struct of the same name.
    - [ShadowBuffer]: the ava_shadow_buffer_* functions over [Endpoint], with freed records and
      buffers visible so that a use after free is a result.
    - [Extraction]: _ava_extract_traverse, ava_extract_objects and the explicit state protocol.
    - [ThreadPool]: common/shadow_thread_pool.c; the interleavings of the dispatcher and the
      threads are the step relation [pool_step].
    - [Dispatch]: the dispatch loop of common/cmd_handler.c, against the interface [Receiver] that
      the log, the worker's shared memory channel and the socket channel implement; the guest's
      side is the interface [Sender], with instances for the last two.
    - [Handler]: common/cmd_handler.c, registration, the internal API and migration.
    - [Batching]: the batch thread of guestlib/extensions/cmd_batching.c and the execution of
      batches in worker/extensions/cmd_batching.c.
    - [Driver]: guestdrv/vgpu_ldd.c and hostdrv/zerocopy.c; kernel resources as a trace of calls.
    - [Manager]: worker/manager.c and worker/manager_tcp.c.
    - [GpuManager], [GpuPolicy]: the resource managers worker/katana/manager.cpp and
      worker/galvanic/manager.cpp with manager.h, and the client of proto/manager_service.cpp;
      the first file has the model and the lemmas (entries of a GPU list have identities, because
      the code shares them through pointers), the second the theorems.  [mstep] is one RPC with
      any exit report, [known_step] one whose exits are of running servers.
    - [TfOpt]: the descriptor and handle pools of both tf_optimization.c, against the contract
      [DescriptorLib] of the GPU library.
    - [HvChannel]: common/cmd_channel_hv.c.
    - [Startup]: guestlib/src/init.cpp, guestlib/src/guest_config.cpp and worker/worker.cpp: how
      guest library and worker start over each kind of channel.
    - [SpawnDaemon]: worker/katana/spawn_daemon.cpp and worker/galvanic/spawn_daemon.cpp; a
      started worker is its process image (path, arguments, environment).
    - [NvManager]: worker/nvidia_gpu/manager_nv.cpp.
    - [Fatbin]: the parser of mangled kernel names in cava/samples/cudart.opt.c.
    - [KernelDump]: the files of dumped kernels, written by cava/samples/cudart.dump.c and loaded
      by cava/samples/cudart.opt.c, in the worker and in the guest.
    - [Preload]: directories of dumps, written by cava/samples/tensorflow/tf_dump.c, combined by
      tools/dump_combinator/dump_combinator.cpp, preloaded by cava/samples/tensorflow/tf_opt.c.
    - [GuestCuda], [GuestAddress]: the functions that cava/samples/tensorflow/tf_opt.c replaces by
      guest code: pooled descriptors and events; device addresses, launch configurations and the
      last error.
    - [Cava]: the annotated functions of a specification (cava/nightwatch/model.py, parser) and the
      C expressions of annotations with their evaluation.
    - [Stub]: the code that cava/nightwatch/generator/c generates for a function, as a function of
      its annotations: guest stub ([function_implementation_with], over the prologue of the
      function and the send code of the API; [function_implementation] has the generator's own
      send code and no prologue), call handler ([call_command_implementation_with], over the
      API's reply code; [call_command_implementation]), reply handler
      ([return_command_implementation]), dispatch.
    - [BatchedStub]: the send code and the reply code of tf_opt.c and onnx_opt.c, by which stubs
      batch their commands and asynchronous calls are not answered.
    - [Remote], [RemoteCall], [RemoteRefinement], [RemoteSocket]: a call through stub, channel and
      worker ([remote_call]) against the same call in one process ([direct_call]); the channel is
      the interface [Link], which the socket channel implements.
    - [SpecOpenCL], [SpecCuda] and the other Spec files: the declarations of seventeen
      specifications of cava/samples, one [func] each; [SpecCheck]: abbreviations for annotations
      and the check that guest and worker evaluate them alike.
    - [ApiSends], [ApiCalls], [ApiLimits]: the theorems about the specifications.
    - [Recording], [ApiRecording]: the recording code of the generated worker, and what extraction
      finds in its log.  [Replay], [ApiReplay]: the generated replay function (replay.py).
      [Migration], [ApiMigration]: the replay function with its recording code, and a live
      migration: the loop of ava_extract_objects_in_pair in one worker, COMMAND_HANDLER_RECORDED_PAIR
      in the other, a channel with the interface [Link] between them.
    - [Aborting]: the stub of a declared function that is not implemented.  [AbortTfOpt],
      [AbortTfDump], [AbortOnnxOpt], [AbortOnnxDump]: tables of these functions in the four
      specifications for TensorFlow and ONNX Runtime; [ApiAborts]: the theorem about them.

    ** What the theorems show

    - Remote calls: a program that makes synchronous calls of an API computes with the generated
      guest library, a channel and the generated worker what it computes with direct calls
      ([remote_calls_refine_direct]); every call of a checked function of the specifications is sent
      or batched, and arrives with its arguments ([api_calls_sent]); a call of a function that is
      only declared ends the guest before the send code runs ([unimplemented_calls_abort]).
    - Record and replay: the calls that a worker records, but for those of handles that it
      deallocated, are those that extraction sends ([recorded_calls_extracted]), and replaying a history of calls rebuilds the handle table and
      the library's state ([replay_rebuilds_worker]).  All of it together: a live migration gives the
      new worker the handle table and the library's state of the old one
      ([live_migration_rebuilds_worker]), but a log with which it cannot be migrated again
      ([second_migration_aborts]).
    - Names: identifiers are distinct ([draw_ids_distinct]); every sequence of pool operations
      keeps the two tables of a pool consistent, and inverse to each other without re-assignment
      ([pool_ops_consistent], [pool_ops_bijective]); insert, dereference and remove round trips.
    - Transport: the header survives its byte layout; the log channel refines a FIFO queue of
      messages ([log_channel_refines_queue]) and returns what was built, attached or transferred;
      the two ends of the shared memory channel never allocate in each other's half, and a
      command with its buffers arrives unchanged ([shm_send_receive_roundtrip]), over sockets too,
      however the kernel splits it ([socket_send_receive_roundtrip]; [recv_socket_total] that
      receiving ends), and from the log of a migration ([socket_transfer_from_log]); batching and
      unbatching deliver the calls in order ([batching_preserves_calls]).
    - Endpoint state: calls meet their replies, metadata operations refine per-object lists,
      shadow buffers and identifiers stay consistent, buffers round trip over any log.
    - Migration: the traversal collects exactly the reachable objects ([collect_reachable]), the
      calls transferred are theirs, in log order and each once ([extract_transfers_calls]), the
      handler replays exactly these into a new pool and log ([migration_replays_calls]), and
      explicit state reaches the [replace] function ([explicit_state_roundtrip]).
    - Threads: the dispatch loop sorts what any in-order channel delivers by thread
      ([dispatcher_delivers]), so a guest's calls reach its threads' shadows in order
      ([guest_calls_reach_threads]); per thread, commands are handled in the order of dispatch and
      a thread with a non-empty queue can always step ([thread_pool_fifo], [thread_pool_progress]).
    - Provisioning: over any sequence of registrations, assignments and exits each GPU's memory
      is conserved, and its counter is right when exits are reported once ([manager_conserves]); a granted request gets GPUs of one
      node in the requested order ([assign_matches_request]), a refused one changes nothing
      ([assign_all_or_nothing]), an exit undoes its assignment ([assign_exit_roundtrip]), the
      least loaded GPU is taken first ([least_loaded_first]), and the galvanic policy is the
      katana one for a single GPU ([galvanic_is_single_katana]).  What the manager grants is what
      the started worker reads from its environment ([granted_is_provisioned]) and what it
      accounts ([provision_refines_allocator]).  The NVIDIA manager never gives one worker to two
      applications, and gives one that exists when the fork succeeded ([nv_workers_distinct]).
    - Start-up: the guest library that is configured for TCP and the worker agree on connection,
      VM and API, and the channel is ready for commands ([guest_meets_worker]).
    - Kernels: parsing a mangled name finds which arguments are pointers ([mangled_args_parsed])
      and always ends, with a list, an abort or an overflow ([parse_args_terminates]); loading a dump gives back the kernels of the
      program, each linked in its module ([dump_load_roundtrip]), guest and worker agree on the
      identifiers ([guest_and_worker_agree], [preloaded_names_agree]), and combined dumps load as
      the two programs one after the other ([combined_dumps_load]).
    - Guest-side CUDA: pooled descriptors are as good as descriptors of the library and none is left
      behind ([pooled_descriptors_sound]), device pointers are recognised
      ([pointer_attributes_exact]), every kernel stub gets the configuration of its launch
      ([launches_get_configurations]).
    - Surroundings: the manager gives each application its own worker, the guest driver gives
      applications disjoint memory as long as it fits, pooled descriptors are destroyed once.
    - Defects: theorems on inputs on which the code does not do what it means to, each stated as
      the behaviour of the definitions ([replace_state_double_free],
      [exhausted_shm_is_shared], [exiting_thread_loses_commands], [shm_transfer_drops_arguments],
      [grown_coupled_use_after_free], [server_exit_ends_daemon], [exit_does_not_resort],
      [connect_timeout_undefined], [nv_migration_exits], [first_separator_missing_stops],
      [unregistered_first_kernel], [no_devices_abort], [tf_strings_unterminated],
      [device_handles_truncated], [refill_failure_leaks], [stale_range_hides_memory] and others in
      their files).

    ** Fuel and bounds

    Recursion that is not structural has fuel, and the theorems prove results, not "if it
    returns": [next_id_loop] runs at most [counter_count_min] + 1 times before the counter leaves
    the reserved range; [_ava_extract_traverse] gets one more than the number of objects with
    metadata ([traverse_fuel]), since each level adds an object; [new_shadow_rec] needs depth 2,
    the second call finds no record; the replay loop gets one more than the bytes of the transfer
    log, each iteration reads at least 16; [internal_api_handler] nests once, for explicit state;
    [batch_execute_loop] gets one more than the bytes of the batch.  The loops of [send_socket] and
    [recv_socket] get one more than the size, each call of the kernel moves at least a byte or ends
    the loop; the parser of mangled names, the loops over lists in strings and the loops over the
    files of a dump get one more than the bytes, of which every round takes at least one; the
    digits of a number get one more than its value needs; a scan for a terminator gets one more
    than the bytes, and the ordering of arguments one level more than there are arguments.  The stub
    handles at most as many replies as there are calls in its table ([handle_until]).  Only the loop that connects to a TCP
    server takes its fuel as an argument, since it ends by the clock ([tcp_connect_terminates]).  Sizes
    of logs, blocks and batches are bounded below 2^60 where a sum could wrap, and the wrapping cases are theorems of
    their own.

    ** Parameters

    Where the runtime calls generated code (API handlers, replay and extract functions) it is an
    argument; the functions of the accelerator's library are arguments of the generated code.  The
    order in which [toposort] puts independent arguments ([Toposort]), the balance of GLib's trees
    ([GTree]), the kernel, the PCI device, the GPU library, the order in which GLib iterates a table ([HashOrder]) and its sort
    ([PtrArraySort]), [std::sort] ([StdSort]), the order of a set of pointers ([PtrSetOrder]), the
    kernel's sockets ([SocketKernel]), memory that is not initialised ([Uninit], and the arguments
    named garbage or frames), NVML, libconfig, gRPC and the CUDA driver are arguments or type classes with the laws
    the code relies on; every such law has an instance.

    ** Not modelled

    Of the specifications: fields of structs, lifetimes other than that of the call, zero-copy
    buffers, casts under a condition, sizes from [ava_metadata], user data of callbacks and code in
    the body of a declaration; gti.nw.cpp, fpga.nw.c and qat.nw.c consist of such functions.  The tables of
    implemented functions do not have functions with these; the tables of functions that abort are
    complete, with a struct passed by value as a number of its size.  A live migration is modelled for calls that are all recorded and deallocate nothing,
    and in the schedule in which the target handles a pair on arrival.  The programs of
    [remote_calls_refine_direct] call synchronously; [remote_call] leaves the reply to an
    asynchronous call in the channel, for a later call to handle.  CAvA's parser, the printing of
    commands and the build files; of the C helpers in the specifications, launching kernels,
    asynchronous buffers and the parsing of cuobjdump's output; gRPC itself and the concurrency of
    its handlers (each RPC is one step); printing and timing; the release functions that only close
    and unmap; locks inside the endpoint (each function is one step); tests, build and VM files.

    ** Plan

    What would come next, and needs more of the language than the model has: fields of structs and
    manual lifetimes in the generated code; migration of sessions in which handles are deallocated,
    where the library has to be assumed to forget what was created and destroyed; the text that
    cuobjdump prints; interleaved RPCs of the resource manager. *)

From stdpp Require Export prelude gmap list sorting strings.
From Stdlib Require Export ZArith Lia.
Local Open Scope Z_scope.

(** ** Outcomes of C code *)

(** Why an execution does not return: a failed [assert]/[AVA_CHECK_RET], a call of [exit],
    waiting for input that has not arrived, a C++ exception, or behaviour the standard leaves
    undefined. *)
Inductive stop : Type :=
  | AssertFailed (what : string)
  | Exited (code : Z)
  | Blocked (what : string)
  | Thrown (what : string)
  | Undefined (what : string).

Inductive res (A : Type) : Type :=
  | Ok (a : A)
  | Stop (s : stop).
Arguments Ok {A} a.
Arguments Stop {A} s.

Global Instance res_ret : MRet res := λ A a, Ok a.
Global Instance res_bind : MBind res := λ A B f m,
  match m with Ok a => f a | Stop s => Stop s end.
Global Instance stop_eq_dec : EqDecision stop.
Proof. solve_decision. Defined.

(** [assert (b)] with assertions enabled (the build without [NDEBUG]). *)
Definition c_assert (b : bool) (what : string) : res unit :=
  if b then Ok tt else Stop (AssertFailed what).

(** A loop [for (x in l) s = f(x, s)] whose body may stop. *)
Fixpoint foldM {A S} (f : A → S → res S) (l : list A) (s : S) : res S :=
  match l with
  | [] => Ok s
  | x :: l => s' ← f x s; foldM f l s'
  end.

(** ** Machine integers *)

Definition wrap (w z : Z) : Z := z mod 2 ^ w.
Abbreviation u8 := (wrap 8).
Abbreviation u32 := (wrap 32).
Abbreviation u64 := (wrap 64).

(** Two's complement reading of a w-bit pattern. *)
Definition signed (w z : Z) : Z :=
  if wrap w z <? 2 ^ (w - 1) then wrap w z else wrap w z - 2 ^ w.

Definition in_range (w z : Z) : Prop := 0 ≤ z < 2 ^ w.
Definition in_srange (w z : Z) : Prop := - 2 ^ (w - 1) ≤ z < 2 ^ (w - 1).

(** The null pointer; pointers and handles are 64-bit patterns. *)
Definition NULL : Z := 0.

(** ** Bytes in memory and files *)

Definition is_byte (b : Z) : Prop := 0 ≤ b < 256.

(** Little-endian representation of the low [n] bytes of [z], as stored by x86-64. *)
Fixpoint le_bytes (n : nat) (z : Z) : list Z :=
  match n with
  | O => []
  | S n => z mod 256 :: le_bytes n (z / 256)
  end.

Fixpoint le_num (l : list Z) : Z :=
  match l with
  | [] => 0
  | b :: l => b + 256 * le_num l
  end.

(** [len] bytes from offset [off]. *)
Definition slice {A} (off len : nat) (l : list A) : list A := take len (drop off l).

(** [pwrite off data file]: the file after writing [data] at [off]; a hole reads as zeros. *)
Definition pwrite (off : nat) (data file : list Z) : list Z :=
  take off (file ++ replicate (off - length file) 0) ++ data ++ drop (off + length data) file.

(** ** GLib hash tables from pointers to values *)

(** [g_hash_table_lookup]: NULL when the key is absent. *)
Definition ght_lookup (m : gmap Z Z) (k : Z) : Z := default NULL (m !! k).

(** [g_hash_table_insert]: TRUE exactly when the key did not exist yet. *)
Definition ght_insert {V} (m : gmap Z V) (k : Z) (v : V) : bool * gmap Z V :=
  (match m !! k with None => true | Some _ => false end, <[k := v]> m).

(** [g_hash_table_remove] and [g_hash_table_steal]: TRUE exactly when the key was found. *)
Definition ght_remove {V} (m : gmap Z V) (k : Z) : bool * gmap Z V :=
  (match m !! k with None => false | Some _ => true end, delete k m).

(** GLib iterates a table in an unspecified order; the code may rely only on seeing every key
    once. *)
Class HashOrder (V : Type) := {
  iter_keys : gmap Z V → list Z;
  iter_keys_perm : ∀ m, iter_keys m ≡ₚ (map_to_list m).*1
}.

(** ** Lemmas on outcomes *)

Lemma res_bind_Ok {A B} (f : A → res B) (m : res A) (b : B) :
  m ≫= f = Ok b ↔ ∃ a, m = Ok a ∧ f a = Ok b.
Proof. destruct m; cbn; naive_solver. Qed.

Lemma c_assert_Ok b what u : c_assert b what = Ok u ↔ b = true.
Proof. destruct b, u; cbn; naive_solver. Qed.

Lemma foldM_app {A S} (f : A → S → res S) l1 l2 s :
  foldM f (l1 ++ l2) s = foldM f l1 s ≫= foldM f l2.
Proof.
  revert s; induction l1 as [|x l1 IH]; intros s; [done|].
  cbn. destruct (f x s); cbn; [apply IH | done].
Qed.

Lemma foldM_inv {A S} (f : A → S → res S) (P : S → Prop) l s s' :
  (∀ x s s', x ∈ l → P s → f x s = Ok s' → P s') →
  P s → foldM f l s = Ok s' → P s'.
Proof.
  revert s; induction l as [|x l IH]; intros s Hf Hs; cbn; [naive_solver|].
  intros (s1 & H1 & H2)%res_bind_Ok. eapply IH; [| |done].
  - intros y s2 s3 Hy. apply Hf. set_solver.
  - eapply Hf; [|done..]. set_solver.
Qed.

Lemma foldM_fmap {A B S} (g : A → B) (f : B → S → res S) l s :
  foldM f (g <$> l) s = foldM (λ x, f (g x)) l s.
Proof.
  revert s; induction l as [|x l IH]; intros s; [done|].
  cbn. destruct (f (g x) s); cbn; [apply IH | done].
Qed.

(** Inversion of a successful run of a sequence of calls. *)
Ltac res_inv :=
  repeat match goal with
  | H : (_ ≫= _) = Ok _ |- _ => apply res_bind_Ok in H as (? & ? & ?)
  | H : c_assert _ _ = Ok _ |- _ => apply c_assert_Ok in H
  | H : Ok _ = Ok _ |- _ => injection H; clear H; intros; subst
  | H : Stop _ = Ok _ |- _ => discriminate H
  | x : unit |- _ => destruct x
  | p : (_ * _)%type |- _ => destruct p
  end; cbn in *.

(** ** Lemmas on machine integers *)

Lemma wrap_range w z : 0 ≤ w → 0 ≤ wrap w z < 2 ^ w.
Proof. intros. unfold wrap. apply Z.mod_pos_bound. lia. Qed.

Lemma wrap_small w z : in_range w z → wrap w z = z.
Proof. unfold in_range, wrap. intros. apply Z.mod_small. lia. Qed.

Lemma wrap_signed w z : 0 < w → in_srange w z → signed w (wrap w z) = z.
Proof.
  unfold in_srange, signed, wrap. intros Hw Hz.
  assert (2 ^ w = 2 * 2 ^ (w - 1)) as Hp.
  { rewrite <- Z.pow_succ_r by lia. f_equal. lia. }
  rewrite Z.mod_mod by lia.
  destruct (Z_lt_le_dec z 0).
  - rewrite <- (Z.mod_unique z (2 ^ w) (-1) (z + 2 ^ w)) by lia.
    destruct (Z.ltb_spec (z + 2 ^ w) (2 ^ (w - 1))); lia.
  - rewrite Z.mod_small by lia.
    destruct (Z.ltb_spec z (2 ^ (w - 1))); lia.
Qed.

Lemma testbit_high w z n : 0 ≤ w → in_range w z → w ≤ n → Z.testbit z n = false.
Proof.
  intros Hw Hz Hn. rewrite <- (wrap_small w z Hz). by apply Z.mod_pow2_bits_high.
Qed.

Lemma in_range_bits w z :
  0 ≤ w → (∀ n, w ≤ n → Z.testbit z n = false) → in_range w z.
Proof.
  intros Hw Hz. assert (z = wrap w z) as ->; [|by apply wrap_range].
  unfold wrap. apply Z.bits_inj'. intros n Hn. destruct (Z_lt_le_dec n w).
  - by rewrite Z.mod_pow2_bits_low.
  - rewrite Z.mod_pow2_bits_high by lia. by apply Hz.
Qed.

Lemma lxor_range w a b : 0 ≤ w → in_range w a → in_range w b → in_range w (Z.lxor a b).
Proof.
  intros Hw Ha Hb. apply in_range_bits; [done|]. intros n Hn.
  by rewrite Z.lxor_spec, !(testbit_high w) by done.
Qed.

Lemma lor_range w a b : 0 ≤ w → in_range w a → in_range w b → in_range w (Z.lor a b).
Proof.
  intros Hw Ha Hb. apply in_range_bits; [done|]. intros n Hn.
  by rewrite Z.lor_spec, !(testbit_high w) by done.
Qed.

Lemma Z2Nat_nonpos z : z ≤ 0 → Z.to_nat z = 0%nat.
Proof. lia. Qed.

(** ** Lemmas on bytes *)

Lemma length_le_bytes n z : length (le_bytes n z) = n.
Proof. revert z; induction n; intros; cbn; auto. Qed.

Lemma le_bytes_is_byte n z : Forall is_byte (le_bytes n z).
Proof.
  revert z; induction n; intros; cbn; constructor; auto.
  unfold is_byte. apply Z.mod_pos_bound. lia.
Qed.

Lemma le_num_bytes n z : le_num (le_bytes n z) = z mod 256 ^ Z.of_nat n.
Proof.
  revert z; induction n as [|n IH]; intros z; cbn [le_bytes le_num].
  { by rewrite Z.mod_1_r. }
  rewrite IH, Nat2Z.inj_succ, Z.pow_succ_r by lia.
  rewrite Z.rem_mul_r by lia. lia.
Qed.

Lemma le_num_bound l : Forall is_byte l → 0 ≤ le_num l < 256 ^ Z.of_nat (length l).
Proof.
  induction 1 as [|b l Hb _ IH]; cbn [le_num length]; [lia|].
  rewrite Nat2Z.inj_succ, Z.pow_succ_r by lia. unfold is_byte in Hb. lia.
Qed.

Lemma le_bytes_num l : Forall is_byte l → le_bytes (length l) (le_num l) = l.
Proof.
  induction 1 as [|b l Hb _ IH]; cbn [le_num length le_bytes]; [done|].
  unfold is_byte in Hb. f_equal.
  - rewrite (Z.mul_comm 256), Z.mod_add, Z.mod_small by lia. done.
  - rewrite (Z.mul_comm 256), Z.div_add, Z.div_small, Z.add_0_l by lia. done.
Qed.

Lemma le_num_u64 z : in_range 64 z → le_num (le_bytes 8 z) = z.
Proof. intros H. rewrite le_num_bytes. by apply (wrap_small 64). Qed.

Lemma le_num_s64 z : in_srange 64 z → signed 64 (le_num (le_bytes 8 z)) = z.
Proof. intros H. rewrite le_num_bytes. by apply (wrap_signed 64). Qed.

(** ** Lemmas on slices and file writes *)

Lemma slice_app_r {A} (l1 l2 : list A) off len :
  slice (length l1 + off) len (l1 ++ l2) = slice off len l2.
Proof. unfold slice. by rewrite drop_app_add. Qed.

Lemma slice_app_r' {A} (l1 l2 : list A) off len n :
  off = (length l1 + n)%nat → slice off len (l1 ++ l2) = slice n len l2.
Proof. intros ->. apply slice_app_r. Qed.

Lemma slice_skip {A} (l1 l2 : list A) off len :
  (length l1 ≤ off)%nat → slice off len (l1 ++ l2) = slice (off - length l1) len l2.
Proof. intros. apply slice_app_r'. lia. Qed.

Lemma slice_app_l {A} (l1 l2 : list A) off len :
  (off + len ≤ length l1)%nat → slice off len (l1 ++ l2) = slice off len l1.
Proof.
  intros. unfold slice. rewrite drop_app_le by lia.
  by rewrite take_app_le by (rewrite length_drop; lia).
Qed.

Lemma slice_all {A} (l : list A) n : n = length l → slice 0 n l = l.
Proof. intros ->. unfold slice. rewrite drop_0. by rewrite firstn_all. Qed.

Lemma slice_prefix {A} (l1 l2 : list A) n : n = length l1 → slice 0 n (l1 ++ l2) = l1.
Proof. intros ->. rewrite slice_app_l by lia. by apply slice_all. Qed.

Lemma length_slice {A} (l : list A) off len :
  (off + len ≤ length l)%nat → length (slice off len l) = len.
Proof. intros. unfold slice. rewrite length_take, length_drop. lia. Qed.

Lemma pwrite_end off data file : off = length file → pwrite off data file = file ++ data.
Proof.
  intros ->. unfold pwrite.
  rewrite Nat.sub_diag, drop_ge, !app_nil_r by lia. by rewrite firstn_all.
Qed.

Lemma slice_pwrite_same off data file :
  slice off (length data) (pwrite off data file) = data.
Proof.
  unfold pwrite.
  assert (length (take off (file ++ replicate (off - length file) 0)) = off) as Hl
    by (rewrite length_take, length_app, length_replicate; lia).
  rewrite (slice_app_r' _ _ _ _ 0) by lia. by apply slice_prefix.
Qed.

Lemma pwrite_in off data file :
  (off ≤ length file)%nat →
  pwrite off data file = take off file ++ data ++ drop (off + length data) file.
Proof.
  intros. unfold pwrite. replace (off - length file)%nat with 0%nat by lia.
  by rewrite app_nil_r.
Qed.

(** Overwriting the middle of three segments. *)
Lemma pwrite_mid pre old data post off :
  off = length pre → length data = length old →
  pwrite off data (pre ++ old ++ post) = pre ++ data ++ post.
Proof.
  intros -> Hl. rewrite pwrite_in by (rewrite length_app; lia).
  rewrite take_app_length, Hl.
  rewrite drop_app_add. by rewrite drop_app_length.
Qed.

(** ** Lemmas on sorted lists *)

Lemma StronglySorted_weaken {A} (R1 R2 : relation A) l :
  (∀ x y, R1 x y → R2 x y) → StronglySorted R1 l → StronglySorted R2 l.
Proof.
  intros HR. induction 1 as [|x l _ IH Hx]; constructor; [done|].
  eapply Forall_impl; [exact Hx|]. auto.
Qed.

Lemma StronglySorted_unfmap {A B} (f : A → B) (R : relation B) l :
  StronglySorted R (f <$> l) → StronglySorted (λ x y, R (f x) (f y)) l.
Proof.
  induction l as [|x l IH]; intros Hs; [constructor|].
  cbn in Hs. apply StronglySorted_cons in Hs as [Hx Hs]. constructor; [by apply IH|].
  by rewrite Forall_fmap in Hx.
Qed.

Create HintDb ava.
#[export] Hint Resolve length_le_bytes le_bytes_is_byte : ava.
#[export] Hint Rewrite @length_app @length_replicate length_le_bytes : ava.
