(* ===== verification/CString.v ===== *)
(** * Strings of the C and C++ library

    What the sources use of <string.h>, <stdlib.h>, std::string and std::stringstream: searching
    for a character, reading and printing decimal numbers, splitting at a delimiter.  The
    components that exchange text (addresses, environment variables, configuration files) share
    these functions and the round trips proved here. *)

From Stdlib Require Export Ascii.
From S2P Require Import Prelude.
Local Open Scope Z_scope.

(** ** Characters *)

Definition char_code (c : ascii) : Z := Z.of_N (N_of_ascii c).
Definition is_digit (c : ascii) : bool := (48 <=? char_code c) && (char_code c <=? 57).
Definition is_space (c : ascii) : bool :=
  (char_code c =? 32) || ((9 <=? char_code c) && (char_code c <=? 13)).
Definition digit_char (d : Z) : ascii := ascii_of_N (Z.to_N (48 + d)).

(** ** C strings in memory *)

(** The string that starts at a byte; [None] when it is not terminated. *)
Fixpoint c_string (bytes : list Z) : option string :=
  match bytes with
  | [] => None
  | b :: bytes => if b =? 0 then Some EmptyString else String (ascii_of_N (Z.to_N b)) <$> c_string bytes
  end.

(** The bytes of a string with its terminator. *)
Fixpoint cstr_bytes (s : string) : list Z :=
  match s with
  | EmptyString => [0]
  | String c s => char_code c :: cstr_bytes s
  end.

(** No character of it is 0. *)
Fixpoint no_nul (s : string) : bool :=
  match s with
  | EmptyString => true
  | String c s => negb (char_code c =? 0) && no_nul s
  end.

(** ** Searching *)

(** [strchr]/[std::string::find]: what is before and after the first occurrence of [c]. *)
Fixpoint cut (c : ascii) (s : string) : option (string * string) :=
  match s with
  | EmptyString => None
  | String x s =>
      if Ascii.eqb x c then Some (EmptyString, s)
      else match cut c s with
           | None => None
           | Some (pre, post) => Some (String x pre, post)
           end
  end.

Fixpoint has_char (c : ascii) (s : string) : bool :=
  match s with
  | EmptyString => false
  | String x s => Ascii.eqb x c || has_char c s
  end.

Definition str_empty (s : string) : bool := match s with EmptyString => true | _ => false end.

(** ** Decimal numbers *)

(** Reads digits as long as there are some. *)
Fixpoint read_digits (acc : Z) (s : string) : Z * string :=
  match s with
  | String x s' => if is_digit x then read_digits (acc * 10 + (char_code x - 48)) s' else (acc, s)
  | EmptyString => (acc, s)
  end.

Fixpoint skip_spaces (s : string) : string :=
  match s with
  | String x s' => if is_space x then skip_spaces s' else s
  | EmptyString => s
  end.

(** [strtol] in base 10: the number and the rest of the string, [None] when there is no digit. *)
Definition strtol (s : string) : option (Z * string) :=
  let digits sign s :=
    match s with
    | String x _ => if is_digit x then let '(v, r) := read_digits 0 s in Some (sign * v, r) else None
    | EmptyString => None
    end in
  match skip_spaces s with
  | String x s' =>
      if char_code x =? 45 then digits (-1) s'
      else if char_code x =? 43 then digits 1 s'
      else digits 1 (String x s')
  | EmptyString => None
  end.

(** [atoi]: 0 without digits, undefined outside of [int]. *)
Definition atoi (s : string) : res Z :=
  match strtol s with
  | None => Ok 0
  | Some (v, _) =>
      if (- 2 ^ 31 <=? v) && (v <? 2 ^ 31) then Ok v else Stop (Undefined "atoi: out of range")
  end.

(** [std::stoi] (w = 32) and [std::stol] (w = 64). *)
Definition sto (w : Z) (s : string) : res Z :=
  match strtol s with
  | None => Stop (Thrown "std::invalid_argument")
  | Some (v, _) =>
      if (- 2 ^ (w - 1) <=? v) && (v <? 2 ^ (w - 1)) then Ok v
      else Stop (Thrown "std::out_of_range")
  end.
Abbreviation stoi := (sto 32).
Abbreviation stol := (sto 64).

Fixpoint print_digits (fuel : nat) (n : Z) (acc : string) : string :=
  match fuel with
  | O => acc
  | S fuel =>
      let acc := String (digit_char (n mod 10)) acc in
      if n <? 10 then acc else print_digits fuel (n / 10) acc
  end.

(** [std::to_string]; [S (log2 n)] digits are always enough. *)
Definition to_string (n : Z) : string :=
  if n <? 0 then String (ascii_of_N 45) (print_digits (S (Z.to_nat (Z.log2 (- n)))) (- n) EmptyString)
  else print_digits (S (Z.to_nat (Z.log2 n))) n EmptyString.

(** ** Streams and lists of items *)

(** The pieces between the delimiters. *)
Fixpoint split (fuel : nat) (c : ascii) (s : string) : list string :=
  match fuel with
  | O => [s]
  | S fuel => match cut c s with None => [s] | Some (pre, post) => pre :: split fuel c post end
  end.

(** [std::getline] on a string stream that is [good]: the piece, what is left, and whether the
    stream is still good (reading up to the end of the string sets [eof]). *)
Definition getline (c : ascii) (s : string) : string * string * bool :=
  match cut c s with
  | Some (pre, post) => (pre, post, true)
  | None => (s, EmptyString, false)
  end.

(** [result = first; for (i = 1; ...) result += "," + items[i]]. *)
Fixpoint join_with (c : ascii) (first : string) (items : list string) : string :=
  match items with
  | [] => first
  | x :: items => first +:+ String c (join_with c x items)
  end.

(** ** Lemmas *)

Lemma string_app_cons x (a b : string) : String x a +:+ b = String x (a +:+ b).
Proof. done. Qed.

Lemma string_app_nil_l (b : string) : EmptyString +:+ b = b.
Proof. done. Qed.

Lemma cut_None c s : cut c s = None ↔ has_char c s = false.
Proof.
  induction s as [|x s IH]; cbn; [done|]. destruct (Ascii.eqb x c); cbn; [done|].
  destruct (cut c s) as [[]|]; naive_solver.
Qed.

Lemma cut_app c pre post : has_char c pre = false → cut c (pre +:+ String c post) = Some (pre, post).
Proof.
  induction pre as [|x pre IH];
    rewrite ?string_app_nil_l, ?string_app_cons; cbn [cut has_char].
  { intros _. by rewrite Ascii.eqb_refl. }
  destruct (Ascii.eqb x c); cbn [orb]; [done|]. intros H. by rewrite IH.
Qed.

Lemma cut_Some c s pre post :
  cut c s = Some (pre, post) → s = pre +:+ String c post ∧ has_char c pre = false.
Proof.
  revert pre post. induction s as [|x s IH]; intros pre post; cbn [cut]; [done|].
  destruct (Ascii.eqb_spec x c) as [->|Hne].
  - intros [= <- <-]. by split.
  - destruct (cut c s) as [[p q]|]; [|done]. intros [= <- <-].
    destruct (IH p q eq_refl) as [-> Hp]. split; [done|]. cbn [has_char].
    by rewrite (proj2 (Ascii.eqb_neq _ _)).
Qed.

Lemma length_cstr s : length (cstr_bytes s) = S (String.length s).
Proof. induction s as [|c s IH]; [done|]. cbn. by rewrite IH. Qed.

Lemma c_string_bytes s rest : no_nul s = true → c_string (cstr_bytes s ++ rest) = Some s.
Proof.
  induction s as [|c s IH]; [done|]. cbn. intros [Hc Hs]%andb_prop. apply negb_true_iff in Hc. rewrite Hc, IH by done.
  cbn. unfold char_code. by rewrite N2Z.id, ascii_N_embedding.
Qed.

Lemma string_app_assoc (a b c : string) : (a +:+ b) +:+ c = a +:+ (b +:+ c).
Proof. induction a as [|x a IH]; [done|]. rewrite !string_app_cons. by rewrite IH. Qed.

Lemma string_app_nil_r (a : string) : a +:+ EmptyString = a.
Proof. induction a as [|x a IH]; [done|]. rewrite !string_app_cons. by rewrite IH. Qed.

Lemma string_length_app (a b : string) : String.length (a +:+ b) = (String.length a + String.length b)%nat.
Proof. induction a as [|x a IH]; [done|]. rewrite string_app_cons. cbn. by rewrite IH. Qed.

Lemma digit_char_code d : 0 ≤ d < 10 → char_code (digit_char d) = 48 + d.
Proof.
  intros Hd. unfold char_code, digit_char. rewrite N_ascii_embedding by lia. lia.
Qed.

Lemma digit_char_is_digit d : 0 ≤ d < 10 → is_digit (digit_char d) = true.
Proof. intros Hd. unfold is_digit. rewrite digit_char_code by done. lia. Qed.

(** Printing then reading: the digits are consumed and their value is added to what was read
    before. *)
Lemma read_print_digits fuel n acc :
  0 ≤ n < 10 ^ Z.of_nat fuel → (0 < fuel)%nat →
  ∃ k, 0 < k ∧ n < 10 ^ k ∧
    ∀ a, read_digits a (print_digits fuel n acc) = read_digits (a * 10 ^ k + n) acc.
Proof.
  revert n acc. induction fuel as [|fuel IH]; intros n acc Hn Hf; [lia|].
  assert (0 ≤ n mod 10 < 10) as Hm by (apply Z.mod_pos_bound; lia).
  cbn [print_digits]. destruct (Z.ltb_spec n 10).
  - exists 1. split_and!; [lia..|]. intros a. cbn [read_digits].
    rewrite digit_char_is_digit, digit_char_code by lia. rewrite (Z.mod_small n) by lia.
    f_equal. lia.
  - rewrite Nat2Z.inj_succ, Z.pow_succ_r in Hn by lia.
    assert (0 ≤ n / 10 < 10 ^ Z.of_nat fuel).
    { split; [apply Z.div_pos; lia|]. apply Z.div_lt_upper_bound; lia. }
    destruct (IH (n / 10) (String (digit_char (n mod 10)) acc)) as (k & Hk & Hb & Hr); [done| |].
    { destruct fuel; [cbn in *; lia|lia]. }
    pose proof (Z.div_mod n 10 ltac:(lia)).
    exists (k + 1). rewrite Z.pow_add_r by lia. split_and!; [lia| |].
    + rewrite Z.pow_1_r. lia.
    + intros a. rewrite Hr. cbn [read_digits].
      rewrite digit_char_is_digit, digit_char_code by done. f_equal. lia.
Qed.

Lemma print_fuel_enough n : 0 ≤ n → n < 10 ^ Z.of_nat (S (Z.to_nat (Z.log2 n))).
Proof.
  intros Hn. rewrite Nat2Z.inj_succ, Z2Nat.id by apply Z.log2_nonneg.
  destruct (Z.eq_dec n 0) as [->|]; [reflexivity|].
  pose proof (Z.log2_spec n ltac:(lia)) as [_ H]. pose proof (Z.log2_nonneg n).
  eapply Z.lt_le_trans; [exact H|]. apply Z.pow_le_mono_l. lia.
Qed.

Lemma print_digits_head fuel n acc :
  0 ≤ n → (0 < fuel)%nat → n < 10 ^ Z.of_nat fuel →
  ∃ d s, print_digits fuel n acc = String (digit_char d) s ∧ 0 ≤ d < 10.
Proof.
  revert n acc. induction fuel as [|fuel IH]; intros n acc Hn Hf Hb; [lia|].
  assert (0 ≤ n mod 10 < 10) by (apply Z.mod_pos_bound; lia).
  cbn [print_digits]. destruct (Z.ltb_spec n 10); [eauto|].
  rewrite Nat2Z.inj_succ, Z.pow_succ_r in Hb by lia.
  apply IH; [apply Z.div_pos; lia| |apply Z.div_lt_upper_bound; lia].
  destruct fuel; [cbn in *; lia|lia].
Qed.

Lemma digit_not_space c : is_digit c = true → is_space c = false.
Proof. unfold is_digit, is_space. intros H. lia. Qed.

(** A printed number before something that is not a digit: it starts with a digit, and reading the
    digits gives the number and what follows. *)
Lemma read_to_string n post :
  0 ≤ n → (∀ x s, post = String x s → is_digit x = false) →
  (∃ d s, to_string n +:+ post = String (digit_char d) s ∧ 0 ≤ d < 10) ∧
  read_digits 0 (to_string n +:+ post) = (n, post).
Proof.
  intros Hn Hpost. unfold to_string. rewrite (proj2 (Z.ltb_ge _ _)) by done.
  set (f := S (Z.to_nat (Z.log2 n))).
  assert (∀ fuel m acc, print_digits fuel m acc +:+ post = print_digits fuel m (acc +:+ post)) as Happ.
  { induction fuel as [|fuel IH]; intros m acc; [done|]. cbn [print_digits].
    destruct (m <? 10); [done|]. by rewrite IH, string_app_cons. }
  rewrite Happ, string_app_nil_l.
  pose proof (print_fuel_enough n Hn) as Hfu. fold f in Hfu.
  split; [apply print_digits_head; [done|lia|done]|].
  destruct (read_print_digits f n post ltac:(lia) ltac:(lia)) as (k & Hk & _ & Hr).
  rewrite Hr. replace (0 * 10 ^ k + n) with n by lia.
  destruct post as [|x post]; [done|]. cbn. by rewrite (Hpost x post).
Qed.

Lemma strtol_to_string n post :
  0 ≤ n → (∀ x s, post = String x s → is_digit x = false) →
  strtol (to_string n +:+ post) = Some (n, post).
Proof.
  intros Hn Hpost. destruct (read_to_string n post Hn Hpost) as [(d & s & Hs & Hd) Hr].
  unfold strtol. rewrite Hs in *. cbn [skip_spaces].
  assert (is_digit (digit_char d) = true) as Hdig by by apply digit_char_is_digit.
  rewrite digit_not_space, digit_char_code by done.
  rewrite (proj2 (Z.eqb_neq _ _)), (proj2 (Z.eqb_neq _ _)) by lia.
  by rewrite Hdig, Hr, Z.mul_1_l.
Qed.

Lemma strtol_to_string' n : 0 ≤ n → strtol (to_string n) = Some (n, EmptyString).
Proof. intros Hn. rewrite <- (string_app_nil_r (to_string n)). by apply strtol_to_string. Qed.

Lemma sto_to_string w n : 0 ≤ n < 2 ^ (w - 1) → sto w (to_string n) = Ok n.
Proof.
  intros Hn. unfold sto. rewrite strtol_to_string' by lia.
  rewrite (proj2 (Z.leb_le _ _)), (proj2 (Z.ltb_lt _ _)) by lia. done.
Qed.

Lemma to_string_not_empty n : 0 ≤ n → str_empty (to_string n) = false.
Proof. intros Hn. pose proof (strtol_to_string' n Hn) as H. by destruct (to_string n). Qed.

Lemma print_digits_no_char c fuel n acc :
  is_digit c = false → has_char c acc = false → has_char c (print_digits fuel n acc) = false.
Proof.
  intros Hc. revert n acc. induction fuel as [|fuel IH]; intros n acc Hacc; [done|].
  assert (0 ≤ n mod 10 < 10) by (apply Z.mod_pos_bound; lia).
  assert (has_char c (String (digit_char (n mod 10)) acc) = false) as H1.
  { cbn. rewrite Hacc, orb_false_r. apply Ascii.eqb_neq. intros <-.
    by rewrite digit_char_is_digit in Hc. }
  cbn [print_digits]. destruct (n <? 10); [done|]. by apply IH.
Qed.

Lemma to_string_no_char c n : 0 ≤ n → is_digit c = false → has_char c (to_string n) = false.
Proof.
  intros Hn Hc. unfold to_string. rewrite (proj2 (Z.ltb_ge _ _)) by done.
  by apply print_digits_no_char.
Qed.

Lemma to_string_inj n m : 0 ≤ n → 0 ≤ m → to_string n = to_string m → n = m.
Proof.
  intros Hn Hm H. apply (f_equal strtol) in H. rewrite !strtol_to_string' in H by done. congruence.
Qed.

(** Splitting undoes joining when no item contains the delimiter. *)
Lemma split_join c items : ∀ first fuel,
  has_char c first = false → Forall (λ x, has_char c x = false) items →
  (length items ≤ fuel)%nat → split fuel c (join_with c first items) = first :: items.
Proof.
  induction items as [|x items IH]; intros first fuel Hf Hi Hl; cbn [join_with].
  { destruct fuel; cbn; [done|]. by rewrite (proj2 (cut_None _ _)). }
  apply Forall_cons in Hi as [Hx Hi]. destruct fuel as [|fuel]; cbn in Hl; [lia|].
  cbn [split]. rewrite cut_app by done. f_equal. apply IH; [done|done|lia].
Qed.

Lemma cut_length c s pre post :
  cut c s = Some (pre, post) → (String.length post < String.length s)%nat.
Proof. intros [-> _]%cut_Some. rewrite string_length_app. cbn. lia. Qed.

#[export] Hint Resolve cut_length string_app_assoc : ava.
