(* ===== verification/Murmur.v ===== *)
(** * Hash functions (common/murmur3.c, and the hashes of common/endpoint_lib.c)

    MurmurHash3 in its three variants, over a key given as its bytes, and the two hash functions
    the endpoint's hash tables use.  32- and 64-bit arithmetic wraps as the C types do. *)

From S2P Require Import Prelude.
Local Open Scope Z_scope.

Definition rotl32 (x r : Z) : Z := Z.lor (u32 (Z.shiftl x r)) (Z.shiftr x (32 - r)).
Definition rotl64 (x r : Z) : Z := Z.lor (u64 (Z.shiftl x r)) (Z.shiftr x (64 - r)).

(** [getblock(p, i)] on an array of [w]-byte little-endian words. *)
Definition getblock (w : nat) (p : list Z) (i : nat) : Z := le_num (slice (w * i) w p).

Definition fmix32 (h : Z) : Z :=
  let h := Z.lxor h (Z.shiftr h 16) in
  let h := u32 (h * 0x85ebca6b) in
  let h := Z.lxor h (Z.shiftr h 13) in
  let h := u32 (h * 0xc2b2ae35) in
  Z.lxor h (Z.shiftr h 16).

Definition fmix64 (k : Z) : Z :=
  let k := Z.lxor k (Z.shiftr k 33) in
  let k := u64 (k * 0xff51afd7ed558ccd) in
  let k := Z.lxor k (Z.shiftr k 33) in
  let k := u64 (k * 0xc4ceb9fe1a85ec53) in
  Z.lxor k (Z.shiftr k 33).

(** One arm [case n: k ^= tail[n - 1] << shift;] of a falling-through [switch (t)]: it runs
    when [t >= n]. *)
Definition tail_case (wrapw : Z) (t : Z) (tail : list Z) (n : nat) (shift k : Z) : Z :=
  if Z.of_nat n <=? t
  then Z.lxor k (wrap wrapw (Z.shiftl (nth (n - 1) tail 0) shift)) else k.

(** ** 32-bit hash for x86 *)

Definition x86_32_c1 : Z := 0xcc9e2d51.
Definition x86_32_c2 : Z := 0x1b873593.

Definition x86_32_k (k1 : Z) : Z := u32 (rotl32 (u32 (k1 * x86_32_c1)) 15 * x86_32_c2).

Definition x86_32_body (h1 k1 : Z) : Z :=
  let h1 := Z.lxor h1 (x86_32_k k1) in
  u32 (rotl32 h1 13 * 5 + 0xe6546b64).

Definition MurmurHash3_x86_32 (key : list Z) (seed : Z) : Z :=
  let len := Z.of_nat (length key) in
  let nblocks := Z.to_nat (len / 4) in
  let h1 := foldl (λ h i, x86_32_body h (getblock 4 key i)) seed (seq 0 nblocks) in
  let tail := drop (nblocks * 4) key in
  let t := Z.land len 3 in
  let k1 := tail_case 32 t tail 3 16 0 in
  let k1 := tail_case 32 t tail 2 8 k1 in
  let h1 := if 1 <=? t then Z.lxor h1 (x86_32_k (tail_case 32 t tail 1 0 k1)) else h1 in
  fmix32 (Z.lxor h1 (u32 len)).

(** ** 128-bit hash for x86 *)

Definition x86_128_c1 : Z := 0x239b961b.
Definition x86_128_c2 : Z := 0xab0e9789.
Definition x86_128_c3 : Z := 0x38b34ae5.
Definition x86_128_c4 : Z := 0xa1e38b93.

Definition x86_128_k (ca cb r k : Z) : Z := u32 (rotl32 (u32 (k * ca)) r * cb).

Definition x86_128_body (key : list Z) (h : Z * Z * Z * Z) (i : nat) : Z * Z * Z * Z :=
  let '(h1, h2, h3, h4) := h in
  let h1 := Z.lxor h1 (x86_128_k x86_128_c1 x86_128_c2 15 (getblock 4 key (i * 4))) in
  let h1 := u32 (u32 (rotl32 h1 19 + h2) * 5 + 0x561ccd1b) in
  let h2 := Z.lxor h2 (x86_128_k x86_128_c2 x86_128_c3 16 (getblock 4 key (i * 4 + 1))) in
  let h2 := u32 (u32 (rotl32 h2 17 + h3) * 5 + 0x0bcaa747) in
  let h3 := Z.lxor h3 (x86_128_k x86_128_c3 x86_128_c4 17 (getblock 4 key (i * 4 + 2))) in
  let h3 := u32 (u32 (rotl32 h3 15 + h4) * 5 + 0x96cd1c35) in
  let h4 := Z.lxor h4 (x86_128_k x86_128_c4 x86_128_c1 18 (getblock 4 key (i * 4 + 3))) in
  let h4 := u32 (u32 (rotl32 h4 13 + h1) * 5 + 0x32ac3b17) in
  (h1, h2, h3, h4).

Definition MurmurHash3_x86_128 (key : list Z) (seed : Z) : Z * Z * Z * Z :=
  let len := Z.of_nat (length key) in
  let nblocks := Z.to_nat (len / 16) in
  let '(h1, h2, h3, h4) :=
    foldl (x86_128_body key) (seed, seed, seed, seed) (seq 0 nblocks) in
  let tail := drop (nblocks * 16) key in
  let t := Z.land len 15 in
  let k4 := tail_case 32 t tail 15 16 0 in
  let k4 := tail_case 32 t tail 14 8 k4 in
  let k4 := tail_case 32 t tail 13 0 k4 in
  let h4 := if 13 <=? t then Z.lxor h4 (x86_128_k x86_128_c4 x86_128_c1 18 k4) else h4 in
  let k3 := tail_case 32 t tail 12 24 0 in
  let k3 := tail_case 32 t tail 11 16 k3 in
  let k3 := tail_case 32 t tail 10 8 k3 in
  let k3 := tail_case 32 t tail 9 0 k3 in
  let h3 := if 9 <=? t then Z.lxor h3 (x86_128_k x86_128_c3 x86_128_c4 17 k3) else h3 in
  let k2 := tail_case 32 t tail 8 24 0 in
  let k2 := tail_case 32 t tail 7 16 k2 in
  let k2 := tail_case 32 t tail 6 8 k2 in
  let k2 := tail_case 32 t tail 5 0 k2 in
  let h2 := if 5 <=? t then Z.lxor h2 (x86_128_k x86_128_c2 x86_128_c3 16 k2) else h2 in
  let k1 := tail_case 32 t tail 4 24 0 in
  let k1 := tail_case 32 t tail 3 16 k1 in
  let k1 := tail_case 32 t tail 2 8 k1 in
  let k1 := tail_case 32 t tail 1 0 k1 in
  let h1 := if 1 <=? t then Z.lxor h1 (x86_128_k x86_128_c1 x86_128_c2 15 k1) else h1 in
  let h1 := Z.lxor h1 (u32 len) in let h2 := Z.lxor h2 (u32 len) in
  let h3 := Z.lxor h3 (u32 len) in let h4 := Z.lxor h4 (u32 len) in
  let h1 := u32 (h1 + h2) in let h1 := u32 (h1 + h3) in let h1 := u32 (h1 + h4) in
  let h2 := u32 (h2 + h1) in let h3 := u32 (h3 + h1) in let h4 := u32 (h4 + h1) in
  let h1 := fmix32 h1 in let h2 := fmix32 h2 in
  let h3 := fmix32 h3 in let h4 := fmix32 h4 in
  let h1 := u32 (h1 + h2) in let h1 := u32 (h1 + h3) in let h1 := u32 (h1 + h4) in
  let h2 := u32 (h2 + h1) in let h3 := u32 (h3 + h1) in let h4 := u32 (h4 + h1) in
  (h1, h2, h3, h4).

(** ** 128-bit hash for x64 *)

Definition x64_128_c1 : Z := 0x87c37b91114253d5.
Definition x64_128_c2 : Z := 0x4cf5ad432745937f.

Definition x64_128_k (ca cb r k : Z) : Z := u64 (rotl64 (u64 (k * ca)) r * cb).

(** One iteration on the words [k1], [k2]. *)
Definition x64_128_mix (h : Z * Z) (k1 k2 : Z) : Z * Z :=
  let '(h1, h2) := h in
  let h1 := Z.lxor h1 (x64_128_k x64_128_c1 x64_128_c2 31 k1) in
  let h1 := u64 (u64 (rotl64 h1 27 + h2) * 5 + 0x52dce729) in
  let h2 := Z.lxor h2 (x64_128_k x64_128_c2 x64_128_c1 33 k2) in
  let h2 := u64 (u64 (rotl64 h2 31 + h1) * 5 + 0x38495ab5) in
  (h1, h2).

Definition x64_128_body (key : list Z) (h : Z * Z) (i : nat) : Z * Z :=
  x64_128_mix h (getblock 8 key (i * 2)) (getblock 8 key (i * 2 + 1)).

(** The finalization after the tail, on the length [len]. *)
Definition x64_128_final (h : Z * Z) (len : Z) : Z * Z :=
  let '(h1, h2) := h in
  let h1 := Z.lxor h1 (u64 len) in let h2 := Z.lxor h2 (u64 len) in
  let h1 := u64 (h1 + h2) in
  let h2 := u64 (h2 + h1) in
  let h1 := fmix64 h1 in
  let h2 := fmix64 h2 in
  let h1 := u64 (h1 + h2) in
  let h2 := u64 (h2 + h1) in
  (h1, h2).

Definition MurmurHash3_x64_128 (key : list Z) (seed : Z) : Z * Z :=
  let len := Z.of_nat (length key) in
  let nblocks := Z.to_nat (len / 16) in
  let '(h1, h2) := foldl (x64_128_body key) (seed, seed) (seq 0 nblocks) in
  let tail := drop (nblocks * 16) key in
  let t := Z.land len 15 in
  let k2 := tail_case 64 t tail 15 48 0 in
  let k2 := tail_case 64 t tail 14 40 k2 in
  let k2 := tail_case 64 t tail 13 32 k2 in
  let k2 := tail_case 64 t tail 12 24 k2 in
  let k2 := tail_case 64 t tail 11 16 k2 in
  let k2 := tail_case 64 t tail 10 8 k2 in
  let k2 := tail_case 64 t tail 9 0 k2 in
  let h2 := if 9 <=? t then Z.lxor h2 (x64_128_k x64_128_c2 x64_128_c1 33 k2) else h2 in
  let k1 := tail_case 64 t tail 8 56 0 in
  let k1 := tail_case 64 t tail 7 48 k1 in
  let k1 := tail_case 64 t tail 6 40 k1 in
  let k1 := tail_case 64 t tail 5 32 k1 in
  let k1 := tail_case 64 t tail 4 24 k1 in
  let k1 := tail_case 64 t tail 3 16 k1 in
  let k1 := tail_case 64 t tail 2 8 k1 in
  let k1 := tail_case 64 t tail 1 0 k1 in
  let h1 := if 1 <=? t then Z.lxor h1 (x64_128_k x64_128_c1 x64_128_c2 31 k1) else h1 in
  x64_128_final (h1, h2) len.

(** ** Hashes of the endpoint tables *)

(** The 64-bit mixing of [nw_hash_mix64variant13], before the result is cut to a [guint]. *)
Definition mix64variant13 (ptr : Z) : Z :=
  let x := u64 ptr in
  let x := Z.lxor x (Z.shiftr x 30) in
  let x := u64 (x * 0xbf58476d1ce4e5b9) in
  let x := Z.lxor x (Z.shiftr x 27) in
  let x := u64 (x * 0x94d049bb133111eb) in
  Z.lxor x (Z.shiftr x 31).

Definition nw_hash_mix64variant13 (ptr : Z) : Z := u32 (mix64variant13 ptr).

Definition nw_hash_pointer (ptr : Z) : Z := nw_hash_mix64variant13 ptr.

Definition nw_hash_struct (ptr : list Z) (size : Z) : Z :=
  MurmurHash3_x86_32 (take (Z.to_nat size) ptr) (u32 (0xfbcdabc7 + size)).

(** [struct call_id_and_handle_t] in memory: an [int], four bytes of padding the compiler
    leaves alone, and a pointer. *)
Record call_id_and_handle_t := mk_key {
  key_call_id : Z;
  key_padding : list Z;
  key_handle : Z
}.

Definition key_bytes (k : call_id_and_handle_t) : list Z :=
  le_bytes 4 (key_call_id k) ++ key_padding k ++ le_bytes 8 (key_handle k).

Definition nw_hash_call_id_and_handle (k : call_id_and_handle_t) : Z :=
  nw_hash_struct (key_bytes k) 16.

(** [memcmp(ptr1, ptr2, sizeof(struct call_id_and_handle_t)) == 0]. *)
Definition nw_equal_call_id_and_handle (k1 k2 : call_id_and_handle_t) : bool :=
  bool_decide (take 16 (key_bytes k1) = take 16 (key_bytes k2)).

Definition key_wf (k : call_id_and_handle_t) : Prop :=
  in_srange 32 (key_call_id k) ∧ in_range 64 (key_handle k) ∧
  length (key_padding k) = 4%nat ∧ Forall is_byte (key_padding k).

(** ** Reference definitions *)

(** The same hash on a list of words: whole words first, then the zero-padded tail word. *)
Definition words_of (w n : nat) (key : list Z) : list Z :=
  map (λ i, le_num (slice (w * i) w key)) (seq 0 n).

Definition murmur_x86_32_ref (key : list Z) (seed : Z) : Z :=
  let n := (length key / 4)%nat in
  let rest := drop (n * 4) key in
  let h := foldl x86_32_body seed (words_of 4 n key) in
  let h := match rest with [] => h | _ => Z.lxor h (x86_32_k (le_num rest)) end in
  fmix32 (Z.lxor h (u32 (Z.of_nat (length key)))).

Definition murmur_x64_128_ref (key : list Z) (seed : Z) : Z * Z :=
  let n := (length key / 16)%nat in
  let rest := drop (n * 16) key in
  let h := foldl (x64_128_body key) (seed, seed) (seq 0 n) in
  let lo := take 8 rest in
  let hi := drop 8 rest in
  let h2 := match hi with [] => h.2
            | _ => Z.lxor h.2 (x64_128_k x64_128_c2 x64_128_c1 33 (le_num hi)) end in
  let h1 := match lo with [] => h.1
            | _ => Z.lxor h.1 (x64_128_k x64_128_c1 x64_128_c2 31 (le_num lo)) end in
  x64_128_final (h1, h2) (Z.of_nat (length key)).

(** Published test values. *)
Example x86_32_empty_seed1 : MurmurHash3_x86_32 [] 1 = 0x514E28B7.
Proof. vm_compute. reflexivity. Qed.

(** "hello" *)
Example x86_32_hello : MurmurHash3_x86_32 [0x68; 0x65; 0x6c; 0x6c; 0x6f] 0 = 0x248bfa47.
Proof. vm_compute. reflexivity. Qed.

Example x64_128_hello :
  MurmurHash3_x64_128 [0x68; 0x65; 0x6c; 0x6c; 0x6f] 0 =
    (0xcbd8a7b341bd9b02, 0x5b1e906a48ae1d19).
Proof. vm_compute. reflexivity. Qed.

(** ** Injectivity of the mixing steps *)

Lemma xorshift_inj s x y :
  0 < s → 0 ≤ x → 0 ≤ y →
  Z.lxor x (Z.shiftr x s) = Z.lxor y (Z.shiftr y s) → x = y.
Proof.
  intros Hs Hx Hy Heq. apply Z.lxor_eq. set (d := Z.lxor x y).
  assert (Z.lxor d (Z.shiftr d s) = 0) as Hd.
  { unfold d. rewrite Z.shiftr_lxor.
    replace (Z.lxor (Z.lxor x y) (Z.lxor (Z.shiftr x s) (Z.shiftr y s)))
      with (Z.lxor (Z.lxor x (Z.shiftr x s)) (Z.lxor y (Z.shiftr y s))).
    - rewrite Heq. apply Z.lxor_nilpotent.
    - rewrite !Z.lxor_assoc. f_equal. rewrite <- !Z.lxor_assoc. f_equal. apply Z.lxor_comm. }
  apply Z.lxor_eq in Hd. rewrite Z.shiftr_div_pow2 in Hd by lia.
  assert (0 ≤ d) by (apply Z.lxor_nonneg; lia).
  destruct (decide (d = 0)) as [|Hnz]; [done|].
  assert (1 < 2 ^ s) by (apply Z.pow_gt_1; lia).
  pose proof (Z.div_lt d (2 ^ s) ltac:(lia) ltac:(lia)). lia.
Qed.

(** Multiplying by a number that has an inverse modulo [2^w] loses nothing. *)
Lemma mul_inj w a b x y :
  0 ≤ w → wrap w (a * b) = 1 → in_range w x → in_range w y →
  wrap w (x * a) = wrap w (y * a) → x = y.
Proof.
  unfold wrap. intros Hw Hab Hx Hy Heq.
  rewrite <- (wrap_small w x Hx), <- (wrap_small w y Hy). unfold wrap.
  assert (∀ z, z mod 2 ^ w = ((z * a) mod 2 ^ w * b) mod 2 ^ w) as Hz.
  { intros z. rewrite Zmult_mod_idemp_l.
    replace (z * a * b) with (a * b * z) by lia.
    rewrite <- Zmult_mod_idemp_l, Hab. f_equal. lia. }
  rewrite (Hz x), (Hz y), Heq. done.
Qed.

Lemma shiftr_range w s x : 0 ≤ w → 0 ≤ s → in_range w x → in_range w (Z.shiftr x s).
Proof.
  intros Hw Hs Hx. apply in_range_bits; [done|]. intros n Hn.
  rewrite Z.shiftr_spec by lia. apply (testbit_high w); [done..|lia].
Qed.

Lemma xorshift_range w s x :
  0 ≤ w → 0 ≤ s → in_range w x → in_range w (Z.lxor x (Z.shiftr x s)).
Proof. intros. apply lxor_range; [done..|]. by apply shiftr_range. Qed.

#[export] Hint Resolve xorshift_range lxor_range wrap_range : ava.

(** ** Ranges *)

Lemma rotl32_range x r : in_range 32 x → 0 ≤ r ≤ 32 → in_range 32 (rotl32 x r).
Proof.
  intros Hx Hr. unfold rotl32. apply lor_range; [lia| |].
  - by apply wrap_range.
  - apply shiftr_range; [lia..|done].
Qed.

Lemma fmix32_range h : in_range 32 h → in_range 32 (fmix32 h).
Proof. intros. unfold fmix32. apply xorshift_range; [lia..|]. by apply wrap_range. Qed.

Lemma x86_32_body_range h k : in_range 32 (x86_32_body h k).
Proof. unfold x86_32_body. by apply wrap_range. Qed.

Lemma foldl_body_range seed ks : in_range 32 seed → in_range 32 (foldl x86_32_body seed ks).
Proof.
  revert seed. induction ks as [|k ks IH]; intros seed Hs; cbn; [done|].
  apply IH, x86_32_body_range.
Qed.

(** ** The tail *)

Lemma lxor_high_byte a b s :
  0 ≤ s → 0 ≤ b < 256 → Z.lxor (256 * a * 2 ^ s) (b * 2 ^ s) = (b + 256 * a) * 2 ^ s.
Proof.
  intros Hs Hb.
  assert (Z.land (256 * a * 2 ^ s) (b * 2 ^ s) = 0) as Hl.
  { replace (256 * a * 2 ^ s) with (a * 2 ^ (s + 8)) by (rewrite Z.pow_add_r; lia).
    rewrite <- !Z.shiftl_mul_pow2 by lia. apply Z.bits_inj'. intros i Hi.
    rewrite Z.land_spec, Z.bits_0. destruct (Z_lt_le_dec i (s + 8)).
    - by rewrite (Z.shiftl_spec_low _ (s + 8)) by lia.
    - rewrite (Z.shiftl_spec b) by lia. rewrite (testbit_high 8 b); [|lia| |lia].
      + apply andb_false_r.
      + unfold in_range. lia. }
  rewrite <- Z.add_nocarry_lxor by done. lia.
Qed.

(** The arms [lo + m], ..., [lo + 1] of a switch, whose shifts go down to 0 by bytes. *)
Fixpoint tail_chain (wrapw t : Z) (tail : list Z) (lo m : nat) (k : Z) : Z :=
  match m with
  | O => k
  | S j => tail_chain wrapw t tail lo j (tail_case wrapw t tail (S (lo + j)) (8 * Z.of_nat j) k)
  end.

Lemma tail_case_in wrapw t tail n s b a :
  nth n tail 0 = b → Z.of_nat (S n) ≤ t → 0 ≤ s → 0 ≤ b < 256 → s + 8 ≤ wrapw →
  tail_case wrapw t tail (S n) s (256 * a * 2 ^ s) = (b + 256 * a) * 2 ^ s.
Proof.
  intros Hn Ht Hs Hb Hw. unfold tail_case. rewrite (proj2 (Z.leb_le _ _) Ht).
  replace (S n - 1)%nat with n by lia. rewrite Hn, Z.shiftl_mul_pow2 by lia.
  rewrite wrap_small; [by apply lxor_high_byte|].
  unfold in_range. split; [lia|].
  apply Z.lt_le_trans with (2 ^ 8 * 2 ^ s).
  - change (2 ^ 8) with 256. apply Z.mul_lt_mono_pos_r; lia.
  - rewrite <- Z.pow_add_r by lia. apply Z.pow_le_mono_r; lia.
Qed.

(** The arms assemble the little-endian number of the tail bytes they cover. *)
Lemma tail_chain_le wrapw tail lo hi m :
  Forall is_byte tail → (lo + m ≤ hi)%nat → 8 * Z.of_nat m ≤ wrapw →
  tail_chain wrapw (Z.of_nat (length tail)) tail lo m
    (le_num (drop (lo + m) (take hi tail)) * 2 ^ (8 * Z.of_nat m)) =
  le_num (drop lo (take hi tail)).
Proof.
  intros Htl. induction m as [|j IH]; intros Hhi Hw; cbn [tail_chain].
  { by rewrite Nat.add_0_r, Z.mul_1_r. }
  rewrite <- IH by lia. f_equal.
  destruct (decide (lo + j < length tail)%nat) as [Hlt|Hge].
  - destruct (lookup_lt_is_Some_2 tail (lo + j) Hlt) as [b Hb].
    rewrite (drop_S (take hi tail) b (lo + j)) by (by rewrite lookup_take_lt by lia).
    replace (lo + S j)%nat with (S (lo + j)) by lia. cbn [le_num].
    set (a := le_num _).
    replace (a * 2 ^ (8 * Z.of_nat (S j))) with (256 * a * 2 ^ (8 * Z.of_nat j)).
    2: { rewrite Nat2Z.inj_succ, Z.mul_succ_r, Z.pow_add_r by lia. lia. }
    apply tail_case_in; [by apply nth_lookup_Some|lia|lia| |lia].
    rewrite Forall_lookup in Htl. by apply (Htl (lo + j)%nat).
  - rewrite !drop_ge by (rewrite length_take; lia). cbn [le_num]. rewrite !Z.mul_0_l.
    unfold tail_case. rewrite (proj2 (Z.leb_gt _ _)) by lia. done.
Qed.

Lemma tail_chain_word wrapw tail lo m :
  Forall is_byte tail → 8 * Z.of_nat m ≤ wrapw →
  tail_chain wrapw (Z.of_nat (length tail)) tail lo m 0 = le_num (take m (drop lo tail)).
Proof.
  intros Htl Hw. rewrite take_drop_commute.
  rewrite <- (tail_chain_le wrapw tail lo (lo + m) m) by done. f_equal.
  by rewrite drop_ge by (rewrite length_take; lia).
Qed.

Lemma tail_word3 tail :
  Forall is_byte tail →
  tail_case 32 (Z.of_nat (length tail)) tail 1 0
    (tail_case 32 (Z.of_nat (length tail)) tail 2 8
      (tail_case 32 (Z.of_nat (length tail)) tail 3 16 0)) = le_num (take 3 tail).
Proof. intros Ht. exact (tail_chain_word 32 tail 0 3 Ht ltac:(lia)). Qed.

Lemma tail_word0_8 tail (t := Z.of_nat (length tail)) :
  Forall is_byte tail →
  tail_case 64 t tail 1 0 (tail_case 64 t tail 2 8 (tail_case 64 t tail 3 16
   (tail_case 64 t tail 4 24 (tail_case 64 t tail 5 32 (tail_case 64 t tail 6 40
   (tail_case 64 t tail 7 48 (tail_case 64 t tail 8 56 0))))))) = le_num (take 8 tail).
Proof. intros Ht. exact (tail_chain_word 64 tail 0 8 Ht ltac:(lia)). Qed.

Lemma tail_word8_7 tail (t := Z.of_nat (length tail)) :
  Forall is_byte tail →
  tail_case 64 t tail 9 0 (tail_case 64 t tail 10 8 (tail_case 64 t tail 11 16
   (tail_case 64 t tail 12 24 (tail_case 64 t tail 13 32 (tail_case 64 t tail 14 40
   (tail_case 64 t tail 15 48 0)))))) = le_num (take 7 (drop 8 tail)).
Proof. intros Ht. exact (tail_chain_word 64 tail 8 7 Ht ltac:(lia)). Qed.

(** ** Properties *)

Lemma land_pow2_len (k : nat) (key : list Z) :
  Z.land (Z.of_nat (length key)) (Z.ones (Z.of_nat k)) =
  Z.of_nat (length key `mod` 2 ^ k)%nat.
Proof. rewrite Z.land_ones by lia. rewrite Nat2Z.inj_mod, Nat2Z.inj_pow. done. Qed.

Lemma nblocks_eq (key : list Z) (n : nat) :
  (0 < n)%nat → Z.to_nat (Z.of_nat (length key) / Z.of_nat n) = (length key / n)%nat.
Proof. intros. rewrite <- Nat2Z.inj_div. apply Nat2Z.id. Qed.

Lemma foldl_getblock {B} (f : B → Z → B) w n key h :
  foldl (λ h i, f h (getblock w key i)) h (seq 0 n) = foldl f h (words_of w n key).
Proof.
  unfold words_of. generalize (seq 0 n) as l. intros l. revert h.
  induction l as [|i l IH]; intros h; cbn; [done|]. apply IH.
Qed.

Lemma length_tail (key : list Z) n :
  (0 < n)%nat → length (drop (length key / n * n) key) = (length key `mod` n)%nat.
Proof.
  intros. rewrite length_drop. pose proof (Nat.div_mod (length key) n ltac:(lia)). lia.
Qed.

(** [MurmurHash3_x86_32] computes its reference on words: every complete little-endian word
    of the key in order, then the zero-padded tail word when the length is not a multiple of
    four, for keys of any length. *)
Theorem murmur_x86_32_equiv (key : list Z) (seed : Z) :
  Forall is_byte key → MurmurHash3_x86_32 key seed = murmur_x86_32_ref key seed.
Proof.
  intros Hb. unfold MurmurHash3_x86_32, murmur_x86_32_ref.
  pose proof (nblocks_eq key 4 ltac:(lia)) as Hn. change (Z.of_nat 4) with 4 in Hn. rewrite Hn.
  rewrite foldl_getblock.
  set (tail := drop _ key).
  assert (Forall is_byte tail) as Ht by by apply Forall_drop.
  assert (Z.land (Z.of_nat (length key)) 3 = Z.of_nat (length tail)) as ->.
  { unfold tail. rewrite length_tail by lia. apply (land_pow2_len 2). }
  assert (length tail < 4)%nat as Hlt.
  { unfold tail. rewrite length_tail by lia. apply Nat.mod_upper_bound. lia. }
  clearbody tail. rewrite tail_word3, take_ge by (done || lia).
  destruct tail as [|b tail]; [done|]. by rewrite (proj2 (Z.leb_le 1 _)) by (cbn; lia).
Qed.

Lemma murmur_x86_32_equiv_witness :
  MurmurHash3_x86_32 [1; 2; 3; 4; 250; 6; 7] 9 = murmur_x86_32_ref [1; 2; 3; 4; 250; 6; 7] 9.
Proof. apply murmur_x86_32_equiv. repeat constructor; lia. Defined.

(** C39. [MurmurHash3_x64_128] mixes the zero-padded low and high tail words exactly when the
    tail reaches them, for keys of any length. *)
Theorem murmur_x64_128_equiv (key : list Z) (seed : Z) :
  Forall is_byte key → MurmurHash3_x64_128 key seed = murmur_x64_128_ref key seed.
Proof.
  intros Hb. unfold MurmurHash3_x64_128, murmur_x64_128_ref.
  pose proof (nblocks_eq key 16 ltac:(lia)) as Hn. change (Z.of_nat 16) with 16 in Hn. rewrite Hn.
  destruct (foldl _ _ _) as [h1 h2].
  set (tail := drop _ key).
  assert (Forall is_byte tail) as Ht by by apply Forall_drop.
  assert (Z.land (Z.of_nat (length key)) 15 = Z.of_nat (length tail)) as ->.
  { unfold tail. rewrite length_tail by lia. apply (land_pow2_len 4). }
  assert (length tail < 16)%nat as Hlt.
  { unfold tail. rewrite length_tail by lia. apply Nat.mod_upper_bound. lia. }
  clearbody tail. rewrite tail_word8_7, take_ge, tail_word0_8
    by (done || rewrite length_drop; lia). cbn [fst snd].
  assert ((9 <=? Z.of_nat (length tail)) = match drop 8 tail with [] => false | _ => true end)
    as ->.
  { pose proof (length_drop tail 8) as Hd. destruct (drop 8 tail); cbn in Hd;
      [apply Z.leb_gt | apply Z.leb_le]; lia. }
  assert ((1 <=? Z.of_nat (length tail)) = match take 8 tail with [] => false | _ => true end)
    as ->.
  { destruct tail as [|b tail]; [done|]. apply Z.leb_le. cbn. lia. }
  by destruct (drop 8 tail), (take 8 tail).
Qed.

Lemma murmur_x64_128_equiv_witness :
  MurmurHash3_x64_128 [1; 2; 3; 4; 250; 6; 7; 8; 9; 10; 11] 9 =
  murmur_x64_128_ref [1; 2; 3; 4; 250; 6; 7; 8; 9; 10; 11] 9.
Proof. apply murmur_x64_128_equiv. repeat constructor; lia. Defined.

(** The finalizers [fmix32] and [fmix64] and the 64-bit mixing behind
    [nw_hash_mix64variant13] are injective on their machine words, so no two pointers collide
    before the result is cut to 32 bits. *)
Theorem hash_mixers_injective :
  (∀ x y, in_range 32 x → in_range 32 y → fmix32 x = fmix32 y → x = y) ∧
  (∀ x y, in_range 64 x → in_range 64 y → fmix64 x = fmix64 y → x = y) ∧
  (∀ x y, in_range 64 x → in_range 64 y → mix64variant13 x = mix64variant13 y → x = y).
Proof.
  assert (∀ w s a b x y, 0 ≤ w → 0 < s → wrap w (a * b) = 1 → in_range w x → in_range w y →
    wrap w (Z.lxor x (Z.shiftr x s) * a) = wrap w (Z.lxor y (Z.shiftr y s) * a) → x = y)
    as Hstep.
  { intros w s a b x y Hw Hs Hab Hx Hy Heq.
    eapply mul_inj in Heq; [|done|exact Hab|apply xorshift_range; (lia || done)..].
    apply xorshift_inj in Heq; unfold in_range in *; lia. }
  assert (∀ w z, 0 ≤ w → in_range w (wrap w z)) as Hr by (intros; by apply wrap_range).
  split_and!; intros x y Hx Hy Heq.
  - unfold fmix32 in Heq. apply xorshift_inj in Heq; [|lia|apply wrap_range; lia..].
    eapply (Hstep 32 13 _ 0x7ed1b41d) in Heq; [|lia|lia|reflexivity|by apply Hr..].
    by eapply (Hstep 32 16 _ 0xa5cb9243) in Heq; [|lia|lia|reflexivity|..].
  - unfold fmix64 in Heq. apply xorshift_inj in Heq; [|lia|apply wrap_range; lia..].
    eapply (Hstep 64 33 _ 0x9cb4b2f8129337db) in Heq; [|lia|lia|reflexivity|by apply Hr..].
    by eapply (Hstep 64 33 _ 0x4f74430c22a54005) in Heq; [|lia|lia|reflexivity|..].
  - unfold mix64variant13 in Heq. rewrite (wrap_small 64 x), (wrap_small 64 y) in Heq by done.
    apply xorshift_inj in Heq; [|lia|apply wrap_range; lia..].
    eapply (Hstep 64 27 _ 0x319642b2d24d8ec3) in Heq; [|lia|lia|reflexivity|by apply Hr..].
    by eapply (Hstep 64 30 _ 0x96de1b173f119089) in Heq; [|lia|lia|reflexivity|..].
Qed.

Lemma app_inj_len {A} (a b c d : list A) :
  length a = length c → a ++ b = c ++ d → a = c ∧ b = d.
Proof. intros. by apply app_inj_1. Qed.

(** Two keys of the managed-buffer table compare equal exactly when the call id, the handle
    and also the four padding bytes are equal: equal fields are not enough. *)
Theorem nw_equal_compares_padding (k1 k2 : call_id_and_handle_t) :
  key_wf k1 → key_wf k2 →
  nw_equal_call_id_and_handle k1 k2 = true ↔
  key_call_id k1 = key_call_id k2 ∧ key_handle k1 = key_handle k2 ∧
  key_padding k1 = key_padding k2.
Proof.
  intros (Hc1 & Hh1 & Hp1 & _) (Hc2 & Hh2 & Hp2 & _).
  unfold nw_equal_call_id_and_handle, key_bytes. rewrite bool_decide_eq_true.
  rewrite !take_ge by (rewrite !length_app, !length_le_bytes; lia).
  split.
  - intros [Hid [Hp Hh]%app_inj_len]%app_inj_len; [|lia|by rewrite !length_le_bytes].
    split_and!; [| |done].
    + assert (∀ z, in_srange 32 z → signed 32 (le_num (le_bytes 4 z)) = z) as Hs.
      { intros z Hz. rewrite le_num_bytes. by apply (wrap_signed 32). }
      rewrite <- (Hs _ Hc1), <- (Hs _ Hc2), Hid. done.
    + rewrite <- (le_num_u64 _ Hh1), <- (le_num_u64 _ Hh2), Hh. done.
  - by intros (-> & -> & ->).
Qed.

Lemma nw_equal_compares_padding_witness :
  nw_equal_call_id_and_handle (mk_key 3 [0; 0; 0; 0] 4096) (mk_key 3 [0; 7; 0; 0] 4096) = true ↔
  3 = 3 ∧ 4096 = 4096 ∧ [0; 0; 0; 0] = [0; 7; 0; 0].
Proof.
  apply (nw_equal_compares_padding (mk_key 3 [0; 0; 0; 0] 4096) (mk_key 3 [0; 7; 0; 0] 4096));
    (split; [|split; [|split]]; cbn; [unfold in_srange; lia|unfold in_range; lia|done|
     repeat constructor; lia]).
Defined.
