(* ===== verification/HandlePool.v ===== *)
(** * Handle identifiers and the handle pool (common/endpoint_lib.c)

    The process-wide identifier counter ([next_id], [update_next_id], [is_handle]) and the
    two-way table [struct nw_handle_pool] between local handles and identifiers.  A pool
    argument is an [option] because the C functions accept a NULL pool.  The pool mutex makes
    each operation atomic, so an operation is one function on the state; the atomic
    [global_counter] is a field of [counter]. *)

From S2P Require Import Prelude.
Local Open Scope Z_scope.

(** ** Identifier counter *)

Definition counter_tag_mask : Z := 0xf.
Definition counter_count_shift : Z := 4.
Definition counter_count_min : Z := 1024 / Z.shiftl 1 counter_count_shift.
Definition counter_count_prefix : Z := u64 (Z.shiftl 0xffffff 40).

Record counter := mk_counter {
  global_counter : Z;
  global_counter_tag : Z
}.

Definition counter_init (tag : Z) : counter := mk_counter counter_count_min tag.

(** [while ((n = atomic_fetch_add(&global_counter, 1)) < counter_count_min);] returning the
    accepted [n] and the counter after it. *)
Fixpoint next_id_loop (fuel : nat) (c : Z) : option (Z * Z) :=
  match fuel with
  | O => None
  | S fuel =>
      let n := c in
      let c' := u64 (c + 1) in
      if n <? counter_count_min then next_id_loop fuel c' else Some (n, c')
  end.

Definition next_id (g : counter) : res (Z * counter) :=
  match next_id_loop (S (Z.to_nat counter_count_min)) (global_counter g) with
  | Some (n, c') =>
      let tmp := u64 (Z.shiftl n counter_count_shift) in
      Ok (Z.lor (Z.lor tmp (global_counter_tag g)) counter_count_prefix,
          mk_counter c' (global_counter_tag g))
  | None => Stop (Undefined "next_id: out of fuel")
  end.

Definition update_next_id (v : Z) (g : counter) : counter :=
  let v := u64 (Z.shiftr v counter_count_shift + 1) in
  let v := Z.land v (u64 (Z.lnot counter_count_prefix)) in
  let old := global_counter g in
  mk_counter (if old <? v then v else old) (global_counter_tag g).

Definition is_handle (id : Z) : bool :=
  let prefix := Z.land id counter_count_prefix in
  Z.lxor prefix counter_count_prefix =? 0.

(** ** The pool *)

Record nw_handle_pool := mk_pool {
  to_handle : gmap Z Z;
  to_id : gmap Z Z
}.

Definition nw_handle_pool_new : nw_handle_pool := mk_pool ∅ ∅.

(** Both tables lose their only reference and the pool is freed: [None] is a pool that is gone. *)
Definition nw_handle_pool_free (pool : option nw_handle_pool) : res (option nw_handle_pool) :=
  match pool with
  | Some _ => Ok None
  | None => Stop (Undefined "use of a freed handle pool")
  end.

Definition internal_handle_pool_insert (g : counter) (pool : nw_handle_pool) (handle : Z)
    : res (Z * counter * nw_handle_pool) :=
  '(id, g) ← next_id g;
  let '(b, ti) := ght_insert (to_id pool) handle id in
  _ ← c_assert b "handle already exists";
  let '(b, th) := ght_insert (to_handle pool) id handle in
  _ ← c_assert b "id already exists";
  Ok (id, g, mk_pool th ti).

Definition nw_handle_pool_insert (g : counter) (pool : option nw_handle_pool) (handle : Z)
    : res (Z * counter * option nw_handle_pool) :=
  match pool with
  | Some p =>
      if handle =? NULL then Ok (handle, g, pool)
      else '(id, g, p) ← internal_handle_pool_insert g p handle; Ok (id, g, Some p)
  | None => Ok (handle, g, pool)
  end.

Definition nw_handle_pool_lookup_or_insert (g : counter) (pool : option nw_handle_pool)
    (handle : Z) : res (Z * counter * option nw_handle_pool) :=
  match pool with
  | Some p =>
      if handle =? NULL then Ok (handle, g, pool)
      else
        let id := ght_lookup (to_id p) handle in
        if id =? NULL
        then '(id, g, p) ← internal_handle_pool_insert g p handle; Ok (id, g, Some p)
        else Ok (id, g, pool)
  | None => Ok (handle, g, pool)
  end.

Definition nw_handle_pool_get_live_handles `{HashOrder Z} (pool : nw_handle_pool) : list Z :=
  iter_keys (to_id pool).

Definition nw_handle_pool_deref (pool : option nw_handle_pool) (id : Z) : res Z :=
  match pool with
  | Some p =>
      if (id =? NULL) || negb (is_handle id) then Ok id
      else
        let handle := ght_lookup (to_handle p) id in
        _ ← c_assert (negb (handle =? NULL)) "handle != NULL";
        Ok handle
  | None => Ok id
  end.

Definition nw_hash_table_steal_value (t : gmap Z Z) (key : Z) : res (Z * gmap Z Z) :=
  let value := ght_lookup t key in
  let '(b, t') := ght_remove t key in
  if negb b then Ok (NULL, t')
  else _ ← c_assert (negb (value =? NULL)) "value != NULL"; Ok (value, t').

Definition nw_handle_pool_deref_and_remove (pool : option nw_handle_pool) (id : Z)
    : res (Z * option nw_handle_pool) :=
  match pool with
  | Some p =>
      if id =? NULL then Ok (id, pool)
      else
        '(handle, th) ← nw_hash_table_steal_value (to_handle p) id;
        _ ← c_assert (negb (handle =? NULL)) "handle != NULL";
        let '(b, ti) := ght_remove (to_id p) handle in
        _ ← c_assert b "Function returned failure: g_hash_table_remove(pool->to_id, handle)";
        Ok (handle, Some (mk_pool th ti))
  | None => Ok (id, pool)
  end.

Definition nw_handle_pool_assign_handle (g : counter) (pool : option nw_handle_pool)
    (id handle : Z) : res (counter * option nw_handle_pool) :=
  _ ← c_assert (Bool.eqb (id =? NULL) (handle =? NULL))
        "Either id and handle must be NULL or neither";
  match pool with
  | Some p =>
      if id =? NULL then Ok (g, pool)
      else
        let g := update_next_id id g in
        let old_handle := ght_lookup (to_handle p) id in
        _ ← c_assert ((old_handle =? NULL) || (old_handle =? handle))
              "Handle ID assigned to a different handle during replay";
        let ti := (ght_insert (to_id p) handle id).2 in
        let th := if old_handle =? NULL
                  then (ght_insert (to_handle p) id handle).2 else to_handle p in
        Ok (g, Some (mk_pool th ti))
  | None => Ok (g, pool)
  end.

(** ** Operation sequences *)

(** The operations of a pool as a client performs them. *)
Inductive pool_op :=
  | OpInsert (handle : Z)
  | OpLookupOrInsert (handle : Z)
  | OpDerefAndRemove (id : Z)
  | OpAssign (id handle : Z).

Definition pool_op_step (op : pool_op) (st : counter * option nw_handle_pool)
    : res (counter * option nw_handle_pool) :=
  let '(g, p) := st in
  match op with
  | OpInsert h => '(_, g, p) ← nw_handle_pool_insert g p h; Ok (g, p)
  | OpLookupOrInsert h => '(_, g, p) ← nw_handle_pool_lookup_or_insert g p h; Ok (g, p)
  | OpDerefAndRemove id => '(_, p) ← nw_handle_pool_deref_and_remove p id; Ok (g, p)
  | OpAssign id h => nw_handle_pool_assign_handle g p id h
  end.

Definition is_assign (op : pool_op) : bool :=
  match op with OpAssign _ _ => true | _ => false end.

(** [n] identifiers drawn one after the other. *)
Fixpoint draw_ids (n : nat) (g : counter) : res (list Z * counter) :=
  match n with
  | O => Ok ([], g)
  | S n => '(id, g) ← next_id g; '(l, g) ← draw_ids n g; Ok (id :: l, g)
  end.

(** ** Invariants *)

(** Every registered handle is found under the identifier it is registered with; handles and
    identifiers are never NULL. *)
Definition pool_consistent (p : nw_handle_pool) : Prop :=
  (∀ h id, to_id p !! h = Some id → to_handle p !! id = Some h ∧ id ≠ NULL) ∧
  (∀ id h, to_handle p !! id = Some h → h ≠ NULL).

(** The two tables are inverse bijections. *)
Definition pool_bijective (p : nw_handle_pool) : Prop :=
  (∀ h id, to_id p !! h = Some id ↔ to_handle p !! id = Some h) ∧
  (∀ h id, to_id p !! h = Some id → h ≠ NULL ∧ id ≠ NULL).

Definition counter_ok (g : counter) : Prop :=
  in_range 64 (global_counter g) ∧ in_range 4 (global_counter_tag g).

(** The identifier drawn for the count [n]. *)
Definition id_of (n tag : Z) : Z := (2 ^ 64 - 2 ^ 40) + (n mod 2 ^ 36) * 16 + tag.

(** ** The counter *)

Lemma prefix_value : counter_count_prefix = 2 ^ 64 - 2 ^ 40.
Proof. reflexivity. Qed.

Lemma next_id_loop_total c :
  in_range 64 c →
  next_id_loop (S (Z.to_nat counter_count_min)) c =
    Some (Z.max c counter_count_min, u64 (Z.max c counter_count_min + 1)).
Proof.
  intros Hc.
  assert (∀ fuel c, 0 ≤ c → Z.max 0 (counter_count_min - c) < Z.of_nat fuel →
            next_id_loop fuel c =
              Some (Z.max c counter_count_min, u64 (Z.max c counter_count_min + 1))) as Hl.
  { intros fuel. induction fuel as [|fuel IH]; intros d Hd Hf;
      change counter_count_min with 64 in *; cbn [next_id_loop].
    - lia.
    - change counter_count_min with 64.
      destruct (Z.ltb_spec d 64) as [Hlt|Hge].
      + rewrite wrap_small by (unfold in_range; lia).
        rewrite IH by lia. by replace (Z.max (d + 1) 64) with (Z.max d 64) by lia.
      + by replace (Z.max d 64) with d by lia. }
  apply Hl; unfold in_range in Hc; change counter_count_min with 64 in *; lia.
Qed.

Lemma id_bits n tag :
  in_range 64 n → in_range 4 tag →
  Z.lor (Z.lor (u64 (Z.shiftl n counter_count_shift)) tag) counter_count_prefix = id_of n tag.
Proof.
  intros Hn Ht. unfold id_of.
  assert (Z.lor (Z.lor (u64 (Z.shiftl n counter_count_shift)) tag) counter_count_prefix =
          Z.lor (Z.lor ((n mod 2 ^ 36) * 16) tag) (2 ^ 64 - 2 ^ 40)) as ->.
  { change (2 ^ 64 - 2 ^ 40) with (Z.shiftl (Z.ones 24) 40).
    change counter_count_prefix with (Z.shiftl (Z.ones 24) 40).
    change 16 with (2 ^ 4). rewrite <- Z.shiftl_mul_pow2 by lia.
    apply Z.bits_inj'. intros i Hi. rewrite !Z.lor_spec. unfold wrap, counter_count_shift.
    destruct (Z_lt_le_dec i 40).
    - rewrite Z.mod_pow2_bits_low by lia. rewrite !Z.shiftl_spec by lia.
      destruct (Z_lt_le_dec i 4); [by rewrite !(Z.testbit_neg_r _ (i - 4)) by lia|].
      by rewrite Z.mod_pow2_bits_low by lia.
    - destruct (Z_lt_le_dec i 64).
      + rewrite (Z.shiftl_spec _ 40), Z.ones_spec_low by lia. by rewrite !orb_true_r.
      + rewrite Z.mod_pow2_bits_high by lia. rewrite (Z.shiftl_spec _ 4) by lia.
        by rewrite Z.mod_pow2_bits_high by lia. }
  assert (∀ a b, Z.land a b = 0 → Z.lor a b = a + b) as Hadd.
  { intros a b Hab. rewrite Z.add_nocarry_lxor by done. by rewrite Z.lxor_lor. }
  assert (0 ≤ n mod 2 ^ 36 < 2 ^ 36) by (apply Z.mod_pos_bound; lia).
  rewrite (Hadd (_ * 16)).
  - rewrite Hadd; [lia|]. change (2 ^ 64 - 2 ^ 40) with (Z.shiftl (Z.ones 24) 40).
    apply Z.bits_inj'. intros i Hi. rewrite Z.land_spec, Z.bits_0.
    destruct (Z_lt_le_dec i 40).
    + by rewrite (Z.shiftl_spec_low _ 40), andb_false_r by lia.
    + rewrite (testbit_high 40); [done|lia| |lia]. unfold in_range in *. lia.
  - change 16 with (2 ^ 4). rewrite <- Z.shiftl_mul_pow2 by lia.
    apply Z.bits_inj'. intros i Hi. rewrite Z.land_spec, Z.bits_0.
    destruct (Z_lt_le_dec i 4).
    + by rewrite Z.shiftl_spec_low by lia.
    + rewrite (testbit_high 4 tag), andb_false_r by (done || lia). done.
Qed.

Lemma is_handle_iff id : in_range 64 id → is_handle id = (2 ^ 64 - 2 ^ 40 <=? id).
Proof.
  intros Hid. unfold is_handle, in_range in *.
  change counter_count_prefix with (Z.shiftl (Z.ones 24) 40).
  assert (Z.land id (Z.shiftl (Z.ones 24) 40) = Z.shiftl (id / 2 ^ 40) 40) as ->.
  { rewrite <- Z.shiftr_div_pow2 by lia. apply Z.bits_inj'. intros i Hi.
    rewrite Z.land_spec. destruct (Z_lt_le_dec i 40).
    - by rewrite !Z.shiftl_spec_low, andb_false_r by lia.
    - rewrite !Z.shiftl_spec, Z.shiftr_spec by lia. replace (i - 40 + 40) with i by lia.
      destruct (Z_lt_le_dec i 64).
      + by rewrite Z.ones_spec_low, andb_true_r by lia.
      + by rewrite (testbit_high 64 id) by (done || lia). }
  rewrite !Z.shiftl_mul_pow2 by lia. change (Z.ones 24 * 2 ^ 40) with (2 ^ 64 - 2 ^ 40).
  assert (0 ≤ id / 2 ^ 40 < 2 ^ 24).
  { split; [apply Z.div_pos; lia | apply Z.div_lt_upper_bound; lia]. }
  pose proof (Z.div_mod id (2 ^ 40) ltac:(lia)).
  pose proof (Z.mod_pos_bound id (2 ^ 40) ltac:(lia)).
  destruct (Z.leb_spec (2 ^ 64 - 2 ^ 40) id).
  - replace (id / 2 ^ 40) with (2 ^ 24 - 1) by lia. done.
  - apply Z.eqb_neq. rewrite Z.lxor_eq_0_iff. lia.
Qed.

Lemma next_id_eq g :
  counter_ok g →
  next_id g = Ok (id_of (Z.max (global_counter g) counter_count_min) (global_counter_tag g),
                  mk_counter (u64 (Z.max (global_counter g) counter_count_min + 1))
                             (global_counter_tag g)).
Proof.
  intros [Hc Ht]. unfold next_id. rewrite next_id_loop_total by done.
  rewrite id_bits; [done| |done].
  unfold in_range in *. change counter_count_min with 64. lia.
Qed.

Lemma id_of_range n tag :
  in_range 4 tag → 2 ^ 64 - 2 ^ 40 ≤ id_of n tag < 2 ^ 64.
Proof.
  unfold in_range, id_of. intros.
  assert (0 ≤ n mod 2 ^ 36 < 2 ^ 36) by (apply Z.mod_pos_bound; lia). lia.
Qed.

Lemma next_id_ok g id g' :
  counter_ok g → next_id g = Ok (id, g') →
  counter_ok g' ∧ id ≠ NULL ∧ is_handle id = true ∧ in_range 64 id.
Proof.
  intros Hg Heq. rewrite next_id_eq in Heq by done. res_inv.
  destruct Hg as [_ Ht].
  pose proof (id_of_range (Z.max (global_counter g) counter_count_min) _ Ht) as Hr.
  split_and!.
  - split; [apply wrap_range; lia | done].
  - unfold NULL. lia.
  - rewrite is_handle_iff by (unfold in_range; lia). apply Z.leb_le. lia.
  - unfold in_range. lia.
Qed.

Lemma id_of_inj n m tag :
  in_range 4 tag → 0 ≤ m - n < 2 ^ 36 → id_of n tag = id_of m tag → n = m.
Proof.
  unfold id_of. intros Ht Hnm Heq.
  assert (n mod 2 ^ 36 = m mod 2 ^ 36) as Hmod by lia.
  assert ((m - n) mod 2 ^ 36 = 0) as H0.
  { rewrite Zminus_mod, <- Hmod, Z.sub_diag. done. }
  rewrite Z.mod_small in H0 by lia. lia.
Qed.

Lemma draw_ids_eq n c tag :
  in_range 4 tag → counter_count_min ≤ c → c + Z.of_nat n ≤ 2 ^ 64 →
  ∃ c', draw_ids n (mk_counter (u64 c) tag) =
        Ok (map (λ i, id_of (c + Z.of_nat i) tag) (seq 0 n), mk_counter c' tag).
Proof.
  intros Ht. revert c. induction n as [|n IH]; intros c Hc Hn; [by eexists|].
  cbn [draw_ids]. change counter_count_min with 64 in Hc.
  rewrite next_id_eq.
  2: { split; [apply wrap_range; lia | done]. }
  cbn. rewrite (wrap_small 64 c) by (unfold in_range; lia).
  change counter_count_min with 64. replace (Z.max c 64) with c by lia.
  destruct (IH (c + 1)) as (c' & ->); [change counter_count_min with 64; lia | lia |].
  exists c'. cbn. rewrite Z.add_0_r, <- seq_shift, map_map. do 3 f_equal.
  apply map_ext. intros i. f_equal. lia.
Qed.

(** ** The pool *)

Lemma ght_lookup_eq (m : gmap Z Z) k :
  (∀ k v, m !! k = Some v → v ≠ NULL) →
  (ght_lookup m k =? NULL) = match m !! k with None => true | Some _ => false end.
Proof.
  intros Hm. unfold ght_lookup. destruct (m !! k) as [v|] eqn:E; cbn; [|done].
  apply Z.eqb_neq. eauto.
Qed.

(** What an insertion does: it draws an identifier and fails exactly when the handle is already
    registered or the drawn identifier is already in use. *)
Lemma internal_insert_eq g p h :
  internal_handle_pool_insert g p h =
    ('(id, g') ← next_id g;
     match to_id p !! h, to_handle p !! id with
     | Some _, _ => Stop (AssertFailed "handle already exists")
     | None, Some _ => Stop (AssertFailed "id already exists")
     | None, None => Ok (id, g', mk_pool (<[id:=h]> (to_handle p)) (<[h:=id]> (to_id p)))
     end).
Proof.
  unfold internal_handle_pool_insert, ght_insert.
  destruct (next_id g) as [[id g']|]; cbn; [|done].
  destruct (to_id p !! h); cbn; [done|]. by destruct (to_handle p !! id).
Qed.

Lemma internal_insert_inv g p h id g' p' :
  internal_handle_pool_insert g p h = Ok (id, g', p') →
  next_id g = Ok (id, g') ∧ to_id p !! h = None ∧ to_handle p !! id = None ∧
  p' = mk_pool (<[id:=h]> (to_handle p)) (<[h:=id]> (to_id p)).
Proof.
  rewrite internal_insert_eq. intros H. res_inv.
  destruct (to_id p !! h) eqn:?; [done|].
  destruct (to_handle p !! z) eqn:?; [done|]. res_inv. done.
Qed.

Lemma consistent_values p id h : pool_consistent p → to_handle p !! id = Some h → h ≠ NULL.
Proof. intros [_ H]. apply H. Qed.

Lemma insert_consistent g p h id g' p' :
  counter_ok g → h ≠ NULL → pool_consistent p →
  internal_handle_pool_insert g p h = Ok (id, g', p') → pool_consistent p'.
Proof.
  intros Hg Hh [H1 H2] (Hid & Hn1 & Hn2 & ->)%internal_insert_inv.
  apply next_id_ok in Hid as (_ & Hid0 & _); [|done].
  split; cbn.
  - intros h' id'. destruct (decide (h' = h)) as [->|Hne].
    + rewrite lookup_insert_eq. intros [= <-]. by rewrite lookup_insert_eq.
    + rewrite lookup_insert_ne by done. intros Hl. destruct (H1 _ _ Hl) as [Hl' ?].
      split; [|done]. rewrite lookup_insert_ne by congruence. done.
  - intros id' h'. destruct (decide (id' = id)) as [->|Hne].
    + rewrite lookup_insert_eq. by intros [= <-].
    + rewrite lookup_insert_ne by done. apply H2.
Qed.

Lemma insert_bijective g p h id g' p' :
  counter_ok g → h ≠ NULL → pool_bijective p →
  internal_handle_pool_insert g p h = Ok (id, g', p') → pool_bijective p'.
Proof.
  intros Hg Hh [H1 H2] (Hid & Hn1 & Hn2 & ->)%internal_insert_inv.
  apply next_id_ok in Hid as (_ & Hid0 & _); [|done].
  split; cbn; intros h' id'.
  - rewrite !lookup_insert. repeat case_decide; subst; try naive_solver.
  - rewrite lookup_insert. case_decide; [naive_solver | apply H2].
Qed.

Lemma remove_inv p id h q :
  nw_handle_pool_deref_and_remove (Some p) id = Ok (h, q) → id ≠ NULL →
  to_handle p !! id = Some h ∧ h ≠ NULL ∧ is_Some (to_id p !! h) ∧
  q = Some (mk_pool (delete id (to_handle p)) (delete h (to_id p))).
Proof.
  intros H Hid. unfold nw_handle_pool_deref_and_remove, nw_hash_table_steal_value,
    ght_remove, ght_lookup in H.
  rewrite (proj2 (Z.eqb_neq _ _) Hid) in H.
  destruct (to_handle p !! id) as [h'|] eqn:E; cbn in H; [|done].
  destruct (Z.eqb_spec h' NULL) as [|Hh']; cbn in H; [done|].
  rewrite (proj2 (Z.eqb_neq _ _) Hh') in H. cbn in H.
  destruct (to_id p !! h') eqn:E2; cbn in H; [|done]. res_inv. naive_solver.
Qed.

Lemma remove_consistent p id h :
  pool_consistent p →
  pool_consistent (mk_pool (delete id (to_handle p)) (delete h (to_id p))) ∨
  ∃ h', to_handle p !! id = Some h' ∧ h' ≠ h.
Proof.
  intros [H1 H2].
  destruct (to_handle p !! id) as [h'|] eqn:E; [destruct (decide (h' = h)) as [->|]|].
  2: { right. eauto. }
  all: left; split; cbn.
  1,3: intros k v (Hk & Hv)%lookup_delete_Some; destruct (H1 _ _ Hv) as [Hv' ?]; split;
       [rewrite lookup_delete_ne by congruence; done | done].
  all: intros k v (Hk & Hv)%lookup_delete_Some; eauto.
Qed.

Lemma remove_bijective p id h :
  pool_bijective p → to_handle p !! id = Some h →
  pool_bijective (mk_pool (delete id (to_handle p)) (delete h (to_id p))).
Proof.
  intros [H1 H2] Hid. split; cbn; intros h' id'.
  - rewrite !lookup_delete_Some, H1. split; intros [Hne Hl]; (split; [|done]); intros <-.
    + congruence.
    + apply H1 in Hl, Hid. congruence.
  - intros (? & Hl)%lookup_delete_Some. by apply H2.
Qed.

Lemma assign_inv g p id h g' q :
  nw_handle_pool_assign_handle g (Some p) id h = Ok (g', q) → id ≠ NULL →
  (∀ i v, to_handle p !! i = Some v → v ≠ NULL) →
  h ≠ NULL ∧ g' = update_next_id id g ∧
  (to_handle p !! id = None ∨ to_handle p !! id = Some h) ∧
  q = Some (mk_pool (<[id:=h]> (to_handle p)) (<[h:=id]> (to_id p))).
Proof.
  intros H Hid Hv. unfold nw_handle_pool_assign_handle in H.
  rewrite (proj2 (Z.eqb_neq _ _) Hid) in H.
  destruct (Z.eqb_spec h NULL) as [|Hh]; cbn in H; [done|].
  rewrite (ght_lookup_eq _ _ Hv) in H. unfold ght_lookup in H.
  destruct (to_handle p !! id) as [h'|] eqn:E; cbn in H; [|res_inv; naive_solver].
  destruct (Z.eqb_spec h' h) as [->|]; cbn in H; [|done].
  res_inv. rewrite (insert_id (to_handle p) id h) by done. naive_solver.
Qed.

Lemma assign_consistent p id h :
  pool_consistent p → id ≠ NULL → h ≠ NULL →
  (to_handle p !! id = None ∨ to_handle p !! id = Some h) →
  pool_consistent (mk_pool (<[id:=h]> (to_handle p)) (<[h:=id]> (to_id p))).
Proof.
  intros [H1 H2] Hid Hh Hold. split; cbn.
  - intros h' id'. destruct (decide (h' = h)) as [->|Hne].
    + rewrite lookup_insert_eq. intros [= <-]. by rewrite lookup_insert_eq.
    + rewrite lookup_insert_ne by done. intros Hl. destruct (H1 _ _ Hl) as [Hl' ?].
      split; [|done]. rewrite lookup_insert_ne; [done|]. intros ->. naive_solver.
  - intros id' h'. rewrite lookup_insert. case_decide; naive_solver.
Qed.

Lemma update_next_id_ok v g : counter_ok g → counter_ok (update_next_id v g).
Proof.
  intros [Hc Ht]. split; [|done]. unfold update_next_id. cbn.
  case_match; [|done].
  change (u64 (Z.lnot counter_count_prefix)) with (Z.ones 40).
  rewrite Z.land_ones by lia. unfold in_range.
  pose proof (Z.mod_pos_bound (u64 (Z.shiftr v counter_count_shift + 1)) (2 ^ 40)). lia.
Qed.

Lemma assign_fresh g p id h :
  id ≠ NULL → h ≠ NULL → to_handle p !! id = None →
  pool_op_step (OpAssign id h) (g, Some p) =
    Ok (update_next_id id g, Some (mk_pool (<[id:=h]> (to_handle p)) (<[h:=id]> (to_id p)))).
Proof.
  intros Hid%Z.eqb_neq Hh%Z.eqb_neq Hn. cbn. unfold nw_handle_pool_assign_handle, ght_lookup.
  rewrite Hid, Hh, Hn. done.
Qed.

Lemma remove_eq g p id h :
  id ≠ NULL → h ≠ NULL → to_handle p !! id = Some h →
  pool_op_step (OpDerefAndRemove id) (g, Some p) =
    match to_id p !! h with
    | Some _ => Ok (g, Some (mk_pool (delete id (to_handle p)) (delete h (to_id p))))
    | None => Stop (AssertFailed
        "Function returned failure: g_hash_table_remove(pool->to_id, handle)")
    end.
Proof.
  intros Hid%Z.eqb_neq Hh%Z.eqb_neq Hl. cbn.
  unfold nw_hash_table_steal_value, ght_lookup, ght_remove.
  rewrite Hid, Hl. cbn. rewrite Hh. cbn. rewrite Hh. cbn. by destruct (to_id p !! h).
Qed.

(** A pool operation preserves the weak invariant, and the bijection when it is not [assign]. *)
Lemma pool_op_step_consistent op g p g' q :
  counter_ok g → pool_consistent p → pool_op_step op (g, Some p) = Ok (g', q) →
  counter_ok g' ∧ ∃ p', q = Some p' ∧ pool_consistent p'.
Proof.
  intros Hg Hp H.
  assert (∀ h, h ≠ NULL →
    ('(_, g, p) ← ('(id, g, p) ← internal_handle_pool_insert g p h; Ok (id, g, Some p));
     Ok (g, p)) = Ok (g', q) → counter_ok g' ∧ ∃ p', q = Some p' ∧ pool_consistent p') as Hins.
  { intros h Hh Hi. res_inv. split.
    - apply internal_insert_inv in H0 as (Hid & _). by apply next_id_ok in Hid as [? _].
    - eexists; split; [done|]. by eapply insert_consistent. }
  destruct op as [h|h|id|id h]; cbn in H.
  - destruct (Z.eqb_spec h NULL); [res_inv; eauto | eauto].
  - destruct (Z.eqb_spec h NULL); [res_inv; eauto|].
    destruct (ght_lookup (to_id p) h =? NULL); [eauto | res_inv; eauto].
  - destruct (decide (id = NULL)) as [->|Hid]; [cbn in H; res_inv; eauto|].
    res_inv. apply remove_inv in H as (Hl & Hh & _ & ->); [|done].
    split; [done|]. eexists; split; [done|].
    destruct (remove_consistent p id z Hp) as [?|(h' & Hl' & Hne)]; [done|congruence].
  - destruct (decide (id = NULL)) as [->|Hid].
    { unfold nw_handle_pool_assign_handle in H. cbn in H. res_inv; eauto. }
    apply assign_inv in H as (Hh & -> & Hold & ->); [|done|apply Hp].
    split; [by apply update_next_id_ok|]. eexists; split; [done|].
    by apply assign_consistent.
Qed.

Lemma pool_op_step_bijective op g p g' q :
  is_assign op = false → counter_ok g → pool_bijective p →
  pool_op_step op (g, Some p) = Ok (g', q) →
  counter_ok g' ∧ ∃ p', q = Some p' ∧ pool_bijective p'.
Proof.
  intros Hop Hg Hp H.
  assert (∀ h, h ≠ NULL →
    ('(_, g, p) ← ('(id, g, p) ← internal_handle_pool_insert g p h; Ok (id, g, Some p));
     Ok (g, p)) = Ok (g', q) → counter_ok g' ∧ ∃ p', q = Some p' ∧ pool_bijective p') as Hins.
  { intros h Hh Hi. res_inv. split.
    - apply internal_insert_inv in H0 as (Hid & _). by apply next_id_ok in Hid as [? _].
    - eexists; split; [done|]. by eapply insert_bijective. }
  destruct op as [h|h|id|id h]; cbn in H; [| | |done].
  - destruct (Z.eqb_spec h NULL); [res_inv; eauto | eauto].
  - destruct (Z.eqb_spec h NULL); [res_inv; eauto|].
    destruct (ght_lookup (to_id p) h =? NULL); [eauto | res_inv; eauto].
  - destruct (decide (id = NULL)) as [->|Hid]; [cbn in H; res_inv; eauto|].
    res_inv. apply remove_inv in H as (Hl & Hh & _ & ->); [|done].
    split; [done|]. eexists; split; [done|]. by apply remove_bijective.
Qed.

(** ** Properties *)

(** [next_id] always returns: whatever the counter, the skipping loop ends and yields a
    non-NULL 64-bit identifier that [is_handle] recognises and whose low four bits are the tag
    of this endpoint; the counter stays a 64-bit value. *)
Theorem next_id_spec (g : counter) :
  counter_ok g →
  ∃ id g', next_id g = Ok (id, g') ∧ counter_ok g' ∧
    global_counter_tag g' = global_counter_tag g ∧
    id ≠ NULL ∧ in_range 64 id ∧ is_handle id = true ∧
    Z.land id counter_tag_mask = global_counter_tag g.
Proof.
  intros Hg. pose proof (next_id_eq g Hg) as Heq. do 2 eexists. split; [done|].
  destruct (next_id_ok _ _ _ Hg Heq) as (? & ? & ? & ?). split_and!; try done.
  change counter_tag_mask with (Z.ones 4). rewrite Z.land_ones by lia.
  destruct Hg as [_ Ht]. unfold id_of.
  replace (2 ^ 64 - 2 ^ 40 + _ * 16 + global_counter_tag g)
    with (global_counter_tag g +
          ((2 ^ 60 - 2 ^ 36) + Z.max (global_counter g) counter_count_min mod 2 ^ 36) * 2 ^ 4)
    by lia.
  rewrite Z.mod_add by lia. by apply (wrap_small 4).
Qed.

Lemma next_id_spec_witness :
  ∃ id g', next_id (mk_counter 3 1) = Ok (id, g') ∧ counter_ok g' ∧
    global_counter_tag g' = 1 ∧
    id ≠ NULL ∧ in_range 64 id ∧ is_handle id = true ∧ Z.land id counter_tag_mask = 1.
Proof. apply (next_id_spec (mk_counter 3 1)). split; unfold in_range; cbn; lia. Defined.

(** Up to [2^36] identifiers drawn one after the other, without the 64-bit counter wrapping
    round, are pairwise distinct, and drawing them never fails. *)
Theorem draw_ids_distinct (n : nat) (g : counter) :
  counter_ok g → Z.of_nat n ≤ 2 ^ 36 →
  Z.max (global_counter g) counter_count_min + Z.of_nat n ≤ 2 ^ 64 →
  ∃ l g', draw_ids n g = Ok (l, g') ∧ length l = n ∧ NoDup l.
Proof.
  intros [Hc Ht] Hn Hmax.
  destruct n as [|n]; [do 2 eexists; split; [done|]; split; [done|constructor]|].
  set (c := Z.max (global_counter g) counter_count_min) in *.
  destruct (draw_ids_eq (S n) c (global_counter_tag g)) as (c' & Heq); [done|lia|lia|].
  assert (draw_ids (S n) g = draw_ids (S n) (mk_counter (u64 c) (global_counter_tag g))) as ->.
  { cbn [draw_ids]. rewrite !next_id_eq; [|split; [by apply wrap_range|done]|done].
    cbn [global_counter global_counter_tag]. unfold in_range in *.
    change counter_count_min with 64 in *.
    rewrite (wrap_small 64 c) by (unfold in_range; lia).
    by replace (Z.max c 64) with (Z.max (global_counter g) 64) by lia. }
  do 2 eexists. split; [exact Heq|]. split; [by rewrite length_map, length_seq|].
  apply (NoDup_fmap_2_strong _ (seq 0 (S n))); [|apply NoDup_seq].
  intros i j Hi%elem_of_seq Hj%elem_of_seq Hij.
  destruct (Z_le_gt_dec (Z.of_nat i) (Z.of_nat j)).
  - apply id_of_inj in Hij; [lia|done|lia].
  - symmetry in Hij. apply id_of_inj in Hij; [lia|done|lia].
Qed.

Lemma draw_ids_distinct_witness :
  ∃ l g', draw_ids 5 (counter_init 2) = Ok (l, g') ∧ length l = 5%nat ∧ NoDup l.
Proof.
  apply (draw_ids_distinct 5 (counter_init 2)); [|cbn; lia|].
  - split; unfold in_range; vm_compute; split; congruence.
  - vm_compute. congruence.
Defined.

(** C10. After any sequence of pool operations that runs to completion, starting from a new pool,
    every registered handle is found under its identifier and no NULL is stored, also when
    replay assigns identifiers. *)
Theorem pool_ops_consistent (ops : list pool_op) (g g' : counter) q :
  counter_ok g →
  foldM pool_op_step ops (g, Some nw_handle_pool_new) = Ok (g', q) →
  ∃ p, q = Some p ∧ pool_consistent p.
Proof.
  intros Hg H.
  assert (counter_ok (g', q).1 ∧ ∃ p, (g', q).2 = Some p ∧ pool_consistent p) as [_ ?]; [|done].
  eapply (foldM_inv _ (λ st, counter_ok st.1 ∧ ∃ p, st.2 = Some p ∧ pool_consistent p));
    [| |exact H].
  - intros op [g1 q1] [g2 q2] _ [Hg1 (p1 & Hq1 & Hp1)] Hstep. cbn in *. subst q1.
    by eapply pool_op_step_consistent.
  - split; [done|]. eexists; split; [done|]. split; cbn; intros ??; by rewrite lookup_empty.
Qed.

(** Two handles with identifiers given at replay, one removal. *)
Definition sample_ops : list pool_op :=
  [OpInsert 0x1000; OpLookupOrInsert 0x2000; OpAssign 18446742974197924913 0x3000;
   OpDerefAndRemove 18446742974197924881].

Lemma pool_ops_consistent_witness :
  ∃ p, match foldM pool_op_step sample_ops (counter_init 1, Some nw_handle_pool_new) with
       | Ok (_, q) => q | Stop _ => None end = Some p ∧ pool_consistent p.
Proof.
  eapply (pool_ops_consistent sample_ops (counter_init 1)).
  - split; unfold in_range; vm_compute; split; congruence.
  - vm_compute. reflexivity.
Defined.

(** C11. Without replay assignment the two tables of a pool are inverse bijections between
    non-NULL handles and non-NULL identifiers after any sequence of operations. *)
Theorem pool_ops_bijective (ops : list pool_op) (g g' : counter) q :
  counter_ok g → forallb (λ op, negb (is_assign op)) ops = true →
  foldM pool_op_step ops (g, Some nw_handle_pool_new) = Ok (g', q) →
  ∃ p, q = Some p ∧ pool_bijective p.
Proof.
  intros Hg Hops H. rewrite forallb_forall in Hops.
  assert (counter_ok (g', q).1 ∧ ∃ p, (g', q).2 = Some p ∧ pool_bijective p) as [_ ?]; [|done].
  eapply (foldM_inv _ (λ st, counter_ok st.1 ∧ ∃ p, st.2 = Some p ∧ pool_bijective p));
    [| |exact H].
  - intros op [g1 q1] [g2 q2] Hop [Hg1 (p1 & Hq1 & Hp1)] Hstep. cbn in *. subst q1.
    eapply pool_op_step_bijective; [|done..].
    apply negb_true_iff, Hops. by apply list_elem_of_In.
  - split; [done|]. eexists; split; [done|].
    split; cbn; intros ??; rewrite !lookup_empty; naive_solver.
Qed.

Lemma pool_ops_bijective_witness :
  ∃ p, match foldM pool_op_step [OpInsert 0x1000; OpInsert 0x2000; OpLookupOrInsert 0x1000;
                                 OpDerefAndRemove 18446742974197924881]
                   (counter_init 1, Some nw_handle_pool_new) with
       | Ok (_, q) => q | Stop _ => None end = Some p ∧ pool_bijective p.
Proof.
  eapply (pool_ops_bijective [OpInsert 0x1000; OpInsert 0x2000; OpLookupOrInsert 0x1000;
                              OpDerefAndRemove 18446742974197924881] (counter_init 1)).
  - split; unfold in_range; vm_compute; split; congruence.
  - reflexivity.
  - vm_compute. reflexivity.
Defined.

(** Inserting a handle that is not registered, when the drawn identifier is not in use,
    succeeds; the identifier dereferences to the handle, every other identifier dereferences as
    before, and [nw_handle_pool_lookup_or_insert] then returns the same identifier without
    changing anything. *)
Theorem insert_deref_roundtrip (g g1 : counter) (p : nw_handle_pool) (h id : Z) :
  counter_ok g → next_id g = Ok (id, g1) → h ≠ NULL →
  to_id p !! h = None → to_handle p !! id = None →
  ∃ p', nw_handle_pool_insert g (Some p) h = Ok (id, g1, Some p') ∧
    nw_handle_pool_deref (Some p') id = Ok h ∧
    (∀ id', id' ≠ id → nw_handle_pool_deref (Some p') id' = nw_handle_pool_deref (Some p) id') ∧
    nw_handle_pool_lookup_or_insert g1 (Some p') h = Ok (id, g1, Some p').
Proof.
  intros Hg Hid Hh Hn1 Hn2.
  destruct (next_id_ok _ _ _ Hg Hid) as (_ & Hid0 & Hish & _).
  apply Z.eqb_neq in Hh as Hh', Hid0 as Hid0'.
  eexists. split.
  { unfold nw_handle_pool_insert. rewrite Hh', internal_insert_eq, Hid. cbn.
    rewrite Hn1, Hn2. cbn. reflexivity. }
  split_and!.
  - unfold nw_handle_pool_deref, ght_lookup. rewrite Hid0', Hish. cbn.
    rewrite lookup_insert_eq. cbn. by rewrite Hh'.
  - intros id' Hne. unfold nw_handle_pool_deref, ght_lookup. cbn.
    by rewrite lookup_insert_ne by done.
  - unfold nw_handle_pool_lookup_or_insert, ght_lookup. cbn.
    rewrite Hh', lookup_insert_eq. cbn. by rewrite Hid0'.
Qed.

Lemma insert_deref_roundtrip_witness :
  ∃ p', nw_handle_pool_insert (counter_init 1) (Some nw_handle_pool_new) 0x1000 =
      Ok (18446742974197924865, mk_counter 65 1, Some p') ∧
    nw_handle_pool_deref (Some p') 18446742974197924865 = Ok 0x1000 ∧
    (∀ id', id' ≠ 18446742974197924865 →
       nw_handle_pool_deref (Some p') id' =
       nw_handle_pool_deref (Some nw_handle_pool_new) id') ∧
    nw_handle_pool_lookup_or_insert (mk_counter 65 1) (Some p') 0x1000 =
      Ok (18446742974197924865, mk_counter 65 1, Some p').
Proof.
  apply (insert_deref_roundtrip (counter_init 1) (mk_counter 65 1) nw_handle_pool_new).
  - split; unfold in_range; vm_compute; split; congruence.
  - vm_compute. reflexivity.
  - discriminate.
  - reflexivity.
  - reflexivity.
Defined.

(** Removing a registered identifier returns its handle and forgets exactly that pair: the
    identifier no longer dereferences (the assertion fires), the handle is unregistered, every
    other identifier dereferences as before, and the tables stay inverse bijections. *)
Theorem deref_and_remove_spec (p : nw_handle_pool) (id h : Z) :
  pool_bijective p → to_handle p !! id = Some h → is_handle id = true →
  ∃ p', nw_handle_pool_deref_and_remove (Some p) id = Ok (h, Some p') ∧
    pool_bijective p' ∧ to_id p' !! h = None ∧
    nw_handle_pool_deref (Some p') id = Stop (AssertFailed "handle != NULL") ∧
    (∀ id', id' ≠ id → nw_handle_pool_deref (Some p') id' = nw_handle_pool_deref (Some p) id').
Proof.
  intros Hp Hid Hish. destruct Hp as [H1 H2].
  assert (to_id p !! h = Some id) as Hh by by apply H1.
  destruct (H2 _ _ Hh) as [Hh0 Hid0]. apply Z.eqb_neq in Hh0 as Hh0', Hid0 as Hid0'.
  eexists. split.
  { unfold nw_handle_pool_deref_and_remove, nw_hash_table_steal_value, ght_remove, ght_lookup.
    rewrite Hid0', Hid. cbn. rewrite Hh0'. cbn. rewrite Hh0', Hh. cbn. reflexivity. }
  split_and!.
  - by apply remove_bijective.
  - cbn. apply lookup_delete_eq.
  - unfold nw_handle_pool_deref, ght_lookup. cbn. by rewrite Hid0', Hish, lookup_delete_eq.
  - intros id' Hne. unfold nw_handle_pool_deref, ght_lookup. cbn.
    by rewrite lookup_delete_ne by done.
Qed.

Lemma deref_and_remove_spec_witness :
  ∃ p', nw_handle_pool_deref_and_remove
          (Some (mk_pool {[18446742974197924865 := 7]} {[7 := 18446742974197924865]}))
          18446742974197924865 = Ok (7, Some p') ∧
    pool_bijective p' ∧ to_id p' !! 7 = None ∧
    nw_handle_pool_deref (Some p') 18446742974197924865 =
      Stop (AssertFailed "handle != NULL") ∧
    (∀ id', id' ≠ 18446742974197924865 → nw_handle_pool_deref (Some p') id' =
       nw_handle_pool_deref
         (Some (mk_pool {[18446742974197924865 := 7]} {[7 := 18446742974197924865]})) id').
Proof.
  apply (deref_and_remove_spec
           (mk_pool {[18446742974197924865 := 7]} {[7 := 18446742974197924865]})
           18446742974197924865 7).
  - split; cbn; intros h id; rewrite ?lookup_singleton_Some; unfold NULL; naive_solver lia.
  - reflexivity.
  - reflexivity.
Defined.

(** [update_next_id] does not remove the whole prefix: for an identifier with count [c] the
    counter becomes at least [15 * 2^36 + c + 1], so a later smaller count is drawn again.
    Re-assigning the pair (identifier, handle) of the first of two inserted handles, which
    every check of [nw_handle_pool_assign_handle] accepts, makes the next insertion fail with
    "id already exists". *)
Theorem update_next_id_keeps_prefix_bits :
  (∀ c tag g, 0 ≤ c < 2 ^ 36 - 1 → in_range 4 tag →
     global_counter (update_next_id (id_of c tag) g) =
       Z.max (global_counter g) (15 * 2 ^ 36 + c + 1)) ∧
  foldM pool_op_step
    [OpInsert 0x1000; OpInsert 0x2000; OpAssign 18446742974197924865 0x1000; OpInsert 0x3000]
    (counter_init 1, Some nw_handle_pool_new) = Stop (AssertFailed "id already exists").
Proof.
  split; [|vm_compute; reflexivity].
  intros c tag g Hc Ht. unfold update_next_id. cbn [global_counter].
  change (u64 (Z.lnot counter_count_prefix)) with (Z.ones 40).
  rewrite Z.land_ones, Z.shiftr_div_pow2 by (unfold counter_count_shift; lia).
  unfold counter_count_shift, id_of, in_range in *. rewrite (Z.mod_small c) by lia.
  replace (2 ^ 64 - 2 ^ 40 + c * 16 + tag)
    with (tag + (2 ^ 60 - 2 ^ 36 + c) * 2 ^ 4) by lia.
  rewrite Z.div_add, (Z.div_small tag) by lia.
  rewrite wrap_small by (unfold in_range; lia).
  replace (0 + (2 ^ 60 - 2 ^ 36 + c) + 1)
    with ((15 * 2 ^ 36 + c + 1) + (2 ^ 20 - 1) * 2 ^ 40) by lia.
  rewrite Z.mod_add, Z.mod_small by lia.
  destruct (Z.ltb_spec (global_counter g) (15 * 2 ^ 36 + c + 1)); lia.
Qed.

(** A handle that replay gives two identifiers (which [nw_handle_pool_assign_handle]
    documents as legitimate reuse) can be removed only once: removing the second identifier
    aborts, for any two distinct identifiers and any handle. *)
Theorem reused_handle_second_remove_aborts (g : counter) (id1 id2 h : Z) :
  id1 ≠ NULL → id2 ≠ NULL → id1 ≠ id2 → h ≠ NULL →
  foldM pool_op_step [OpAssign id1 h; OpAssign id2 h; OpDerefAndRemove id1; OpDerefAndRemove id2]
    (g, Some nw_handle_pool_new) =
  Stop (AssertFailed "Function returned failure: g_hash_table_remove(pool->to_id, handle)").
Proof.
  intros H1 H2 Hne Hh. cbn [foldM].
  rewrite assign_fresh by done. cbn [mbind res_bind].
  rewrite assign_fresh by (done || by cbn; rewrite lookup_insert_ne). cbn [mbind res_bind].
  rewrite (remove_eq _ _ id1 h)
    by (done || by cbn; rewrite lookup_insert_ne, lookup_insert_eq).
  cbn [to_id to_handle]. rewrite lookup_insert_eq. cbn [mbind res_bind].
  rewrite (remove_eq _ _ id2 h)
    by (done || by cbn; rewrite lookup_delete_ne, lookup_insert_eq).
  cbn [to_id to_handle]. by rewrite lookup_delete_eq.
Qed.

Lemma reused_handle_second_remove_aborts_witness :
  foldM pool_op_step [OpAssign 18446742974197924865 9; OpAssign 18446742974197924881 9;
                      OpDerefAndRemove 18446742974197924865;
                      OpDerefAndRemove 18446742974197924881]
    (counter_init 1, Some nw_handle_pool_new) =
  Stop (AssertFailed "Function returned failure: g_hash_table_remove(pool->to_id, handle)").
Proof. apply reused_handle_second_remove_aborts; unfold NULL; lia. Defined.
