(* ===== verification/Channel.v ===== *)
(** * Commands and the command channel interface (include/cmd_channel.h, common/cmd_channel.c,
      include/cmd_channel_impl.h)

    The command header [struct command_base] with its x86-64 memory layout, commands as memory
    blocks on a heap, the channel vtable, and the dispatching functions of cmd_channel.c. *)

From S2P Require Import Prelude.
Local Open Scope Z_scope.

(** ** Constants shared by the endpoints *)

(** The anonymous enumeration of include/socket.h. *)
Definition CONSUME_RC_UNSPEC : Z := 0.
Definition NW_NEW_WORKER : Z := 1.
Definition NW_NEW_APPLICATION : Z := 2.
Definition NW_NEW_INVOCATION : Z := 3.
Definition COMMAND_SWAP_OUT : Z := 4.
Definition COMMAND_SWAP_IN : Z := 5.
Definition COMMAND_MSG_SWAPPING : Z := 6.
Definition CONSUME_RC_DEVICE_TIME : Z := 7.
Definition CONSUME_RC_COMMAND_RATE : Z := 8.
Definition CONSUME_RC_QAT_THROUGHPUT : Z := 9.
Definition CONSUME_RC_DEVICE_MEMORY : Z := 10.

(** [enum command_handler_command_id] and the internal API id of include/cmd_handler.h. *)
Definition COMMAND_HANDLER_INITIALIZE_API : Z := 0.
Definition COMMAND_HANDLER_SHUTDOWN_API : Z := 1.
Definition COMMAND_HANDLER_REPLACE_EXPLICIT_STATE : Z := 2.
Definition COMMAND_HANDLER_THREAD_EXIT : Z := 3.
Definition COMMAND_HANDLER_RECORDED_PAIR : Z := 4.
Definition COMMAND_START_MIGRATION : Z := 5.
Definition COMMAND_START_LIVE_MIGRATION : Z := 6.
Definition COMMAND_END_MIGRATION : Z := 7.
Definition COMMAND_ACCEPT_LIVE_MIGRATION : Z := 8.
Definition COMMAND_END_LIVE_MIGRATION : Z := 9.
Definition COMMAND_HANDLER_API : Z := 0.
Definition INTERNAL_API : Z := COMMAND_HANDLER_API.
Definition MAX_API_ID : Z := 256.

(** ** [struct command_base] *)

(** [reserved_area] is 64 bytes, which every user of it accesses as 64-bit words. *)
Record command_base := mk_base {
  api_id : Z;
  vm_id : Z;
  command_type : Z;
  thread_id : Z;
  original_thread_id : Z;
  flags : Z;
  command_id : Z;
  command_size : Z;
  data_region : Z;
  region_size : Z;
  reserved_area : list Z
}.

Definition sizeof_command_base : nat := 136.
Definition zero_base : command_base := mk_base 0 0 0 0 0 0 0 0 0 0 (replicate 8 0).

(** Assignments to single fields. *)
Definition set_api_id (v : Z) (b : command_base) : command_base :=
  mk_base v (vm_id b) (command_type b) (thread_id b) (original_thread_id b) (flags b)
    (command_id b) (command_size b) (data_region b) (region_size b) (reserved_area b).
Definition set_vm_id (v : Z) (b : command_base) : command_base :=
  mk_base (api_id b) v (command_type b) (thread_id b) (original_thread_id b) (flags b)
    (command_id b) (command_size b) (data_region b) (region_size b) (reserved_area b).
Definition set_command_type (v : Z) (b : command_base) : command_base :=
  mk_base (api_id b) (vm_id b) v (thread_id b) (original_thread_id b) (flags b)
    (command_id b) (command_size b) (data_region b) (region_size b) (reserved_area b).
Definition set_thread_id (v : Z) (b : command_base) : command_base :=
  mk_base (api_id b) (vm_id b) (command_type b) v (original_thread_id b) (flags b)
    (command_id b) (command_size b) (data_region b) (region_size b) (reserved_area b).
Definition set_flags (v : Z) (b : command_base) : command_base :=
  mk_base (api_id b) (vm_id b) (command_type b) (thread_id b) (original_thread_id b) v
    (command_id b) (command_size b) (data_region b) (region_size b) (reserved_area b).
Definition set_command_id (v : Z) (b : command_base) : command_base :=
  mk_base (api_id b) (vm_id b) (command_type b) (thread_id b) (original_thread_id b) (flags b)
    v (command_size b) (data_region b) (region_size b) (reserved_area b).
Definition set_reserved (i : nat) (v : Z) (b : command_base) : command_base :=
  mk_base (api_id b) (vm_id b) (command_type b) (thread_id b) (original_thread_id b) (flags b)
    (command_id b) (command_size b) (data_region b) (region_size b)
    (<[i := v]> (reserved_area b)).

(** Word [i] of [reserved_area]. *)
Definition get_reserved (i : nat) (b : command_base) : Z := nth i (reserved_area b) 0.

(** The 136 bytes of the struct: [uint8_t] at 0 and 1, 64-bit fields at 8, 16, 24, [int8_t] at
    32, 64-bit fields from 40, [reserved_area] from 72; padding is zero ([memset]). *)
Definition base_bytes (b : command_base) : list Z :=
  le_bytes 1 (api_id b) ++ le_bytes 1 (vm_id b) ++ replicate 6 0 ++
  le_bytes 8 (command_type b) ++ le_bytes 8 (thread_id b) ++
  le_bytes 8 (original_thread_id b) ++ le_bytes 1 (flags b) ++ replicate 7 0 ++
  le_bytes 8 (command_id b) ++ le_bytes 8 (command_size b) ++ le_bytes 8 (data_region b) ++
  le_bytes 8 (region_size b) ++ mjoin (le_bytes 8 <$> reserved_area b).

Definition word_at (off : nat) (l : list Z) : Z := le_num (slice off 8 l).

(** Reading the fields back from memory. *)
Definition base_of_bytes (l : list Z) : command_base :=
  mk_base (le_num (slice 0 1 l)) (le_num (slice 1 1 l)) (word_at 8 l)
    (signed 64 (word_at 16 l)) (signed 64 (word_at 24 l)) (signed 8 (le_num (slice 32 1 l)))
    (word_at 40 l) (word_at 48 l) (word_at 56 l) (word_at 64 l)
    ((λ i : nat, word_at (72 + 8 * i) l) <$> seq 0 8).

Definition base_wf (b : command_base) : Prop :=
  in_range 8 (api_id b) ∧ in_range 8 (vm_id b) ∧ in_range 64 (command_type b) ∧
  in_srange 64 (thread_id b) ∧ in_srange 64 (original_thread_id b) ∧ in_srange 8 (flags b) ∧
  in_range 64 (command_id b) ∧ in_range 64 (command_size b) ∧ in_range 64 (data_region b) ∧
  in_range 64 (region_size b) ∧ length (reserved_area b) = 8%nat ∧
  Forall (in_range 64) (reserved_area b).

(** ** The heap of command blocks *)

(** Addresses of the live blocks; [malloc] never hands out an address that was used before, so
    a second [free] of the same block is visible. *)
Record heap := mk_heap {
  live : gset Z;
  next_addr : Z
}.

Definition heap_empty : heap := mk_heap ∅ 1.

Definition malloc (h : heap) : Z * heap :=
  (next_addr h, mk_heap ({[next_addr h]} ∪ live h) (next_addr h + 1)).

Definition c_free (addr : Z) (h : heap) : res heap :=
  if decide (addr ∈ live h) then Ok (mk_heap (live h ∖ {[addr]}) (next_addr h))
  else Stop (Undefined "free of a block that is not allocated").

(** A command in memory: its address, the header, and the bytes after the header. *)
Record command := mk_cmd {
  cmd_addr : Z;
  cmd_base : command_base;
  cmd_rest : list Z
}.

Definition upd_base (f : command_base → command_base) (c : command) : command :=
  mk_cmd (cmd_addr c) (f (cmd_base c)) (cmd_rest c).

(** Assigns the fields that follow the header. *)
Definition set_fields (l : list Z) (cmd : command) : command :=
  mk_cmd (cmd_addr cmd) (cmd_base cmd) (l ++ drop (length l) (cmd_rest cmd)).

Definition cmd_bytes (c : command) : list Z := base_bytes (cmd_base c) ++ cmd_rest c.

(** A block of bytes read into memory, seen as a command. *)
Definition cmd_of_bytes (addr : Z) (l : list Z) : command :=
  mk_cmd addr (base_of_bytes l) (drop sizeof_command_base l).

(** [n] bytes starting at a pointer whose object holds [l] from there on. *)
Definition read_bytes (n : Z) (l : list Z) : res (list Z) :=
  if n <=? Z.of_nat (length l) then Ok (take (Z.to_nat n) l)
  else Stop (Undefined "read past the end of an object").

(** [memcpy] to offset [dst] of the object [mem]; writing past its end is undefined. *)
Definition mem_copy (dst : Z) (data mem : list Z) : res (list Z) :=
  if dst + Z.of_nat (length data) <=? Z.of_nat (length mem)
  then Ok (pwrite (Z.to_nat dst) data mem)
  else Stop (Undefined "memcpy past the end of an object").

(** ** The vtable *)

(** Pointers returned by [get_buffer] and [get_data_region] are given as the bytes from the
    pointer to the end of the object it points into; [None] is NULL.  [transfer_command] gets
    the data region of the command in its source channel. *)
Record command_channel_vtable (C : Type) := {
  vt_buffer_size : C → Z → Z;
  vt_new_command : C → heap → Z → Z → res (command * C * heap);
  vt_attach_buffer : C → command → option (list Z) → Z → res (Z * command * C);
  vt_send_command : C → heap → command → res (C * heap);
  vt_transfer_command : C → heap → list Z → command → res (C * heap);
  vt_receive_command : C → heap → res (option command * C * heap);
  vt_get_buffer : C → command → Z → option (list Z);
  vt_get_data_region : C → command → list Z;
  vt_free_command : C → heap → command → res heap;
  vt_free : C → res C
}.
Arguments vt_buffer_size {C}.
Arguments vt_new_command {C}.
Arguments vt_attach_buffer {C}.
Arguments vt_send_command {C}.
Arguments vt_transfer_command {C}.
Arguments vt_receive_command {C}.
Arguments vt_get_buffer {C}.
Arguments vt_get_data_region {C}.
Arguments vt_free_command {C}.
Arguments vt_free {C}.

(** [((struct command_channel_base* )chan)->vtable]. *)
Class Channel (C : Type) := vtable : command_channel_vtable C.

Definition command_channel_free `{Channel C} : C → res C := vt_free vtable.
Definition command_channel_buffer_size `{Channel C} : C → Z → Z := vt_buffer_size vtable.
Definition command_channel_new_command `{Channel C}
  : C → heap → Z → Z → res (command * C * heap) := vt_new_command vtable.
Definition command_channel_attach_buffer `{Channel C}
  : C → command → option (list Z) → Z → res (Z * command * C) := vt_attach_buffer vtable.
Definition command_channel_send_command `{Channel C}
  : C → heap → command → res (C * heap) := vt_send_command vtable.
Definition command_channel_transfer_command `{Channel C}
  : C → heap → list Z → command → res (C * heap) := vt_transfer_command vtable.
Definition command_channel_receive_command `{Channel C}
  : C → heap → res (option command * C * heap) := vt_receive_command vtable.
Definition command_channel_get_buffer `{Channel C}
  : C → command → Z → option (list Z) := vt_get_buffer vtable.
Definition command_channel_get_data_region `{Channel C}
  : C → command → list Z := vt_get_data_region vtable.
Definition command_channel_free_command `{Channel C}
  : C → heap → command → res heap := vt_free_command vtable.

(** What every channel of the repository does with a command that was handled: the block that
    [receive_command] allocated for it is given back to [free]. *)
Class FreesCommands (C : Type) `{Channel C} :=
  frees_command : ∀ (c : C) h cmd, command_channel_free_command c h cmd = c_free (cmd_addr cmd) h.

(** ** Lemmas *)

Lemma length_join_le8 l : length (mjoin (le_bytes 8 <$> l)) = (8 * length l)%nat.
Proof.
  induction l as [|x l IH]; [done|].
  change (mjoin (le_bytes 8 <$> x :: l)) with (le_bytes 8 x ++ mjoin (le_bytes 8 <$> l)).
  rewrite length_app, IH, length_le_bytes. cbn. lia.
Qed.

Lemma length_base_bytes b :
  length (reserved_area b) = 8%nat → length (base_bytes b) = sizeof_command_base.
Proof.
  intros H. unfold base_bytes.
  repeat rewrite length_app || rewrite length_le_bytes || rewrite length_replicate.
  rewrite length_join_le8, H. done.
Qed.

Lemma word_at_join l i x :
  l !! i = Some x → in_range 64 x → word_at (8 * i) (mjoin (le_bytes 8 <$> l)) = x.
Proof.
  intros Hl Hx. unfold word_at. revert i Hl. induction l as [|y l IH]; intros i Hl; [done|].
  change (mjoin (le_bytes 8 <$> y :: l)) with (le_bytes 8 y ++ mjoin (le_bytes 8 <$> l)).
  destruct i as [|i]; cbn in Hl.
  - injection Hl as ->. rewrite Nat.mul_0_r, slice_prefix by (by rewrite length_le_bytes).
    by apply le_num_u64.
  - rewrite (slice_app_r' _ _ _ _ (8 * i)) by (rewrite length_le_bytes; lia). by apply IH.
Qed.

(** Walks to the segment of a concatenation where a field starts. *)
Ltac field_slice :=
  repeat (rewrite slice_skip by (rewrite ?length_le_bytes, ?length_replicate; lia);
          rewrite ?length_le_bytes, ?length_replicate; cbn [Nat.sub]);
  rewrite slice_prefix by (by rewrite ?length_le_bytes).

Lemma le_num_1 z : in_range 8 z → le_num (le_bytes 1 z) = z.
Proof. intros H. rewrite le_num_bytes. by apply (wrap_small 8). Qed.

Lemma le_num_s8 z : in_srange 8 z → signed 8 (le_num (le_bytes 1 z)) = z.
Proof. intros H. rewrite le_num_bytes. by apply (wrap_signed 8). Qed.

Lemma base_of_bytes_reserved b rest :
  length (reserved_area b) = 8%nat → Forall (in_range 64) (reserved_area b) →
  ((λ i : nat, word_at (72 + 8 * i) (base_bytes b ++ rest)) <$> seq 0 8) = reserved_area b.
Proof.
  intros Hlen Hr. apply list_eq. intros i. rewrite list_lookup_fmap.
  destruct (decide (i < 8)%nat) as [Hi|Hi].
  2: { rewrite (lookup_ge_None_2 (reserved_area b)) by lia.
       rewrite (lookup_ge_None_2 (seq 0 8)) by (rewrite length_seq; lia). done. }
  rewrite lookup_seq_lt by done. cbn [fmap option_fmap option_map].
  destruct (lookup_lt_is_Some_2 (reserved_area b) i ltac:(lia)) as [x Hx].
  rewrite Hx. f_equal. rewrite <- (word_at_join (reserved_area b) i x) by
    (done || by eapply Forall_lookup_1). unfold word_at. f_equal.
  assert (length (base_bytes b) = sizeof_command_base) as Hb by by apply length_base_bytes.
  change sizeof_command_base with 136%nat in Hb.
  rewrite Nat.add_0_l, slice_app_l by lia. unfold base_bytes.
  repeat (rewrite slice_skip by (rewrite ?length_le_bytes, ?length_replicate; lia);
          rewrite ?length_le_bytes, ?length_replicate). f_equal. lia.
Qed.

Lemma base_of_bytes_of_base b rest : base_wf b → base_of_bytes (base_bytes b ++ rest) = b.
Proof.
  intros (H1 & H2 & H3 & H4 & H5 & H6 & H7 & H8 & H9 & H10 & H11 & H12).
  unfold base_of_bytes. rewrite base_of_bytes_reserved by done.
  unfold word_at, base_bytes. rewrite <- !app_assoc.
  destruct b; cbn [api_id vm_id command_type thread_id original_thread_id flags command_id
    command_size data_region region_size reserved_area] in *.
  f_equal; field_slice; auto using le_num_1, le_num_u64, le_num_s64, le_num_s8.
Qed.

Lemma base_bytes_is_byte b : Forall is_byte (base_bytes b).
Proof.
  unfold base_bytes. rewrite !Forall_app.
  split_and!; auto using le_bytes_is_byte;
    try (apply Forall_replicate; unfold is_byte; lia).
  induction (reserved_area b) as [|x l IH]; [constructor|].
  change (mjoin (le_bytes 8 <$> x :: l)) with (le_bytes 8 x ++ mjoin (le_bytes 8 <$> l)).
  apply Forall_app. auto using le_bytes_is_byte.
Qed.

Lemma cmd_of_bytes_of_cmd addr c :
  base_wf (cmd_base c) →
  cmd_of_bytes addr (cmd_bytes c) = mk_cmd addr (cmd_base c) (cmd_rest c).
Proof.
  intros Hwf. unfold cmd_of_bytes, cmd_bytes. rewrite base_of_bytes_of_base by done.
  rewrite <- (length_base_bytes (cmd_base c)) by apply Hwf. by rewrite drop_app_length.
Qed.

Lemma get_set_reserved_0 v b : length (reserved_area b) = 8%nat → get_reserved 0 (set_reserved 0 v b) = v.
Proof. unfold get_reserved, set_reserved. cbn. by destruct (reserved_area b). Qed.

Lemma read_bytes_prefix n l1 l2 :
  n = Z.of_nat (length l1) → read_bytes n (l1 ++ l2) = Ok l1.
Proof.
  intros ->. unfold read_bytes. rewrite (proj2 (Z.leb_le _ _)).
  - by rewrite Nat2Z.id, take_app_length.
  - rewrite length_app. lia.
Qed.

Lemma read_bytes_ok n l :
  n ≤ Z.of_nat (length l) → read_bytes n l = Ok (take (Z.to_nat n) l).
Proof. intros Hn. unfold read_bytes. by rewrite (proj2 (Z.leb_le _ _)). Qed.

Lemma read_bytes_all n l : n = Z.of_nat (length l) → read_bytes n l = Ok l.
Proof. intros Hn. rewrite <- (app_nil_r l) at 1. by apply read_bytes_prefix. Qed.

(** What a heap promises: freeing a block that [malloc] returned succeeds once. *)
Lemma free_malloc h : (∀ a, a ∈ live h → a < next_addr h) →
  c_free (malloc h).1 (malloc h).2 = Ok (mk_heap (live h) (next_addr h + 1)).
Proof.
  intros Hfresh. unfold c_free, malloc. cbn. rewrite decide_True by set_solver.
  do 2 f_equal. apply set_eq. intros a. specialize (Hfresh a).
  rewrite elem_of_difference, elem_of_union, elem_of_singleton.
  split; [naive_solver|]. intros Ha. split; [by right|]. intros ->. apply Hfresh in Ha. lia.
Qed.

(** ** Properties *)

(** The memory image of a command header reads back as the same header, whatever bytes
    follow it, and occupies exactly [sizeof(struct command_base)] = 136 bytes. *)
Theorem command_base_layout_roundtrip (b : command_base) (rest : list Z) :
  base_wf b →
  length (base_bytes b) = sizeof_command_base ∧
  base_of_bytes (base_bytes b ++ rest) = b ∧
  cmd_of_bytes 0 (base_bytes b ++ rest) = mk_cmd 0 b rest.
Proof.
  intros Hwf. assert (length (reserved_area b) = 8%nat) by apply Hwf.
  split_and!; [by apply length_base_bytes|by apply base_of_bytes_of_base|].
  by apply (cmd_of_bytes_of_cmd 0 (mk_cmd 0 b rest)).
Qed.

Definition sample_base : command_base :=
  mk_base 7 1 NW_NEW_INVOCATION 140737353971456 (-1) (-3) 42 144 4096 12 [1; 2; 3; 4; 5; 6; 7; 8].

Lemma sample_base_wf : base_wf sample_base.
Proof.
  unfold base_wf, in_range, in_srange, sample_base, NW_NEW_INVOCATION; cbn.
  split_and!; try lia. repeat constructor; unfold in_range; lia.
Qed.

Lemma command_base_layout_roundtrip_witness :
  length (base_bytes sample_base) = sizeof_command_base ∧
  base_of_bytes (base_bytes sample_base ++ [9; 9]) = sample_base ∧
  cmd_of_bytes 0 (base_bytes sample_base ++ [9; 9]) = mk_cmd 0 sample_base [9; 9].
Proof. apply command_base_layout_roundtrip, sample_base_wf. Defined.
