(* ===== verification/Socket.v ===== *)
(** * Sockets (common/socket.cpp, include/socket.h)

    A connected stream socket is the bytes that wait to be received and the bytes that were
    sent.  How many bytes a call of [send] or [recv] moves is up to the kernel: the class
    [SocketKernel] gives its answer to the n-th call, and the functions here loop until
    everything is moved.  The other functions of the file open, bind and connect sockets and
    parse the address of a server. *)

From S2P Require Import Prelude CString Channel.
Local Open Scope Z_scope.

(** ** The kernel's part *)

(** How much the kernel is willing to move in the n-th [send] or [recv]; an answer that is not
    positive is an error. *)
Class SocketKernel := {
  k_send : nat → Z;
  k_recv : nat → Z
}.

Record sock := mk_sock {
  s_in : list Z;
  s_out : list Z;
  s_eof : bool;
  s_sends : nat;
  s_recvs : nat
}.

Section Socket.
Context `{SocketKernel}.

(** [send(2)]: moves at most [size] bytes of [buf]. *)
Definition sys_send (buf : list Z) (size : Z) (s : sock) : res (Z * sock) :=
  let a := k_send (s_sends s) in
  if a <=? 0 then Ok (a, mk_sock (s_in s) (s_out s) (s_eof s) (S (s_sends s)) (s_recvs s))
  else
    let n := Z.min a size in
    data ← read_bytes n buf;
    Ok (n, mk_sock (s_in s) (s_out s ++ data) (s_eof s) (S (s_sends s)) (s_recvs s)).

(** [recv(2)]: waits for a byte; 0 when the peer has closed the connection. *)
Definition sys_recv (size : Z) (s : sock) : res (Z * list Z * sock) :=
  let a := k_recv (s_recvs s) in
  let s' d := mk_sock (drop (length d) (s_in s)) (s_out s) (s_eof s) (s_sends s) (S (s_recvs s)) in
  if a <=? 0 then Ok (a, [], s' [])
  else
    match s_in s with
    | [] => if s_eof s then Ok (0, [], s' []) else Stop (Blocked "recv")
    | _ =>
        let d := take (Z.to_nat (Z.min a size)) (s_in s) in
        Ok (Z.of_nat (length d), d, s' d)
    end.

(** ** [send_socket] and [recv_socket] *)

(** The loop moves at least one byte per iteration: [size] iterations are enough. *)
Fixpoint send_loop (fuel : nat) (buf : list Z) (size ret : Z) (s : sock) : res (Z * sock) :=
  if size <=? 0 then Ok (ret, s)
  else
    match fuel with
    | O => Stop (Undefined "send_socket: out of fuel")
    | S fuel =>
        '(ret, s) ← sys_send buf size s;
        if ret <=? 0 then Stop (Exited 0)
        else send_loop fuel (drop (Z.to_nat ret) buf) (size - ret) ret s
    end.

Definition send_socket (buf : list Z) (size : Z) (s : sock) : res (Z * sock) :=
  _ ← c_assert (0 <? size) "size > 0";
  send_loop (Z.to_nat size) buf size (-1) s.

Fixpoint recv_loop (fuel : nat) (left_bytes : Z) (buf : list Z) (s : sock) : res (list Z * sock) :=
  if left_bytes <=? 0 then Ok (buf, s)
  else
    match fuel with
    | O => Stop (Undefined "recv_socket: out of fuel")
    | S fuel =>
        '(ret, data, s) ← sys_recv left_bytes s;
        if ret <=? 0 then Stop (Exited 0)
        else recv_loop fuel (left_bytes - ret) (buf ++ data) s
    end.

(** Returns the bytes stored in [buf]; the C function returns [size]. *)
Definition recv_socket (size : Z) (s : sock) : res (list Z * sock) :=
  recv_loop (Z.to_nat size) size [] s.

(** ** Lemmas *)

Definition kernel_sends : Prop := ∀ i, 0 < k_send i.
Definition kernel_recvs : Prop := ∀ i, 0 < k_recv i.

(** What a completed [send_socket] leaves behind. *)
Definition sock_sent (data : list Z) (s s' : sock) : Prop :=
  s_in s' = s_in s ∧ s_out s' = s_out s ++ data ∧ s_eof s' = s_eof s ∧ s_recvs s' = s_recvs s.

Definition sock_received (data : list Z) (s s' : sock) : Prop :=
  s_in s = data ++ s_in s' ∧ s_out s' = s_out s ∧ s_eof s' = s_eof s ∧ s_sends s' = s_sends s.

Lemma send_loop_spec fuel : ∀ buf size ret s,
  size ≤ Z.of_nat (length buf) → size ≤ Z.of_nat fuel →
  (∃ ret' s', send_loop fuel buf size ret s = Ok (ret', s') ∧
     sock_sent (take (Z.to_nat size) buf) s s') ∨
  (send_loop fuel buf size ret s = Stop (Exited 0) ∧ ∃ i, k_send i ≤ 0).
Proof.
  induction fuel as [|fuel IH]; intros buf size ret s Hb Hf; cbn [send_loop];
    destruct (Z.leb_spec size 0) as [Hs|Hs]; try lia.
  1,2: left; exists ret, s; rewrite Z2Nat_nonpos by lia;
    unfold sock_sent; by rewrite take_0, app_nil_r.
  unfold sys_send. destruct (Z.leb_spec (k_send (s_sends s)) 0) as [Hk|Hk]; cbn [mbind res_bind].
  { right. rewrite (proj2 (Z.leb_le _ _)) by done. split; [done|]. by exists (s_sends s). }
  set (n := Z.min (k_send (s_sends s)) size). assert (0 < n ≤ size) as Hn by lia.
  rewrite read_bytes_ok by lia. cbn [mbind res_bind].
  rewrite (proj2 (Z.leb_gt _ _)) by lia.
  edestruct (IH (drop (Z.to_nat n) buf) (size - n) n) as [(r & s' & Hr & H1 & H2 & H3 & H4)|Hr];
    [rewrite length_drop; lia|lia| |].
  - left. exists r, s'. split; [exact Hr|]. unfold sock_sent in *. cbn in *.
    split_and!; [done| |done|done]. rewrite H2, <- app_assoc. f_equal.
    replace (Z.to_nat size) with (Z.to_nat n + Z.to_nat (size - n))%nat by lia.
    by rewrite <- take_take_drop.
  - right. exact Hr.
Qed.

Lemma sys_recv_spec size s :
  0 < size →
  (∃ n d s', sys_recv size s = Ok (n, d, s') ∧ n = Z.of_nat (length d) ∧ 0 < n ≤ size ∧
     sock_received d s s') ∨
  (∃ n d s', sys_recv size s = Ok (n, d, s') ∧ n ≤ 0 ∧ (s_in s = [] ∨ ∃ i, k_recv i ≤ 0)) ∨
  (sys_recv size s = Stop (Blocked "recv") ∧ s_in s = [] ∧ s_eof s = false).
Proof.
  intros Hs. unfold sys_recv. destruct (Z.leb_spec (k_recv (s_recvs s)) 0) as [Hk|Hk].
  { right. left. eexists _, _, _. split_and!; [done|done|right]. by exists (s_recvs s). }
  destruct (s_in s) as [|b l] eqn:Hin.
  { destruct (s_eof s); [|by right; right]. right. left. eexists _, _, _. split_and!; [done|lia|by left]. }
  left. set (d := take _ (b :: l)).
  assert (length d = Nat.min (Z.to_nat (Z.min (k_recv (s_recvs s)) size)) (S (length l))) as Hd
    by (unfold d; by rewrite length_take).
  eexists _, d, _. split_and!; [done|done|lia|lia|]. unfold sock_received. cbn. rewrite Hin.
  split_and!; try done. unfold d at 2. rewrite length_take. unfold d.
  rewrite <- (take_drop (Z.to_nat (Z.min (k_recv (s_recvs s)) size)) (b :: l)) at 1. f_equal.
  destruct (Nat.min_spec (Z.to_nat (Z.min (k_recv (s_recvs s)) size)) (length (b :: l)))
    as [[_ ->]|[Hle ->]]; [done|]. by rewrite !drop_ge by lia.
Qed.

(** Receiving ends with the bytes, with the process, or waiting for the peer. *)
Lemma recv_loop_spec fuel : ∀ left buf s,
  left ≤ Z.of_nat fuel →
  (∃ d s', recv_loop fuel left buf s = Ok (buf ++ d, s') ∧ length d = Z.to_nat left ∧
     sock_received d s s') ∨
  ((recv_loop fuel left buf s = Stop (Exited 0) ∨ recv_loop fuel left buf s = Stop (Blocked "recv")) ∧
   (Z.of_nat (length (s_in s)) < left ∨ ∃ i, k_recv i ≤ 0)).
Proof.
  induction fuel as [|fuel IH]; intros left buf s Hf; cbn [recv_loop];
    destruct (Z.leb_spec left 0) as [Hs|Hs]; try lia.
  1,2: left; exists [], s; rewrite app_nil_r, Z2Nat_nonpos by lia; by split_and!.
  destruct (sys_recv_spec left s Hs) as [(n & d & s1 & -> & Hn & Hr & H1 & H2 & H3 & H4)
    |[(n & d & s1 & -> & Hn & Hend)|(-> & Hin & _)]]; cbn [mbind res_bind].
  - rewrite (proj2 (Z.leb_gt _ _)) by lia.
    destruct (IH (left - n) (buf ++ d) s1) as [(d' & s' & -> & Hl & G1 & G2 & G3 & G4)|[Hr' Hend]]; [lia| |].
    + left. exists (d ++ d'), s'. rewrite app_assoc, length_app. split_and!; [done|lia|].
      unfold sock_received. rewrite H1, G1, <- app_assoc. split_and!; congruence.
    + right. split; [done|]. destruct Hend as [Hl|Hk]; [left|by right].
      rewrite H1, length_app. lia.
  - right. rewrite (proj2 (Z.leb_le _ _)) by done. split; [by left|].
    destruct Hend as [->|Hk]; [left; cbn; lia|by right].
  - right. split; [by right|]. left. rewrite Hin. cbn. lia.
Qed.

Lemma recv_socket_eq size s data tail :
  kernel_recvs → s_in s = data ++ tail → Z.of_nat (length data) = size →
  ∃ s', recv_socket size s = Ok (data, s') ∧ s_in s' = tail ∧ s_out s' = s_out s ∧
    s_eof s' = s_eof s ∧ s_sends s' = s_sends s.
Proof.
  intros Hk Hin Hl. unfold recv_socket.
  destruct (recv_loop_spec (Z.to_nat size) size [] s) as [(d & s' & -> & Hd & H1 & H2 & H3 & H4)|[_ Hend]];
    [lia| |].
  - exists s'. rewrite Hin in H1. cbn [app]. apply app_inj_1 in H1 as [-> ->]; [done|lia].
  - exfalso. rewrite Hin, length_app in Hend. destruct Hend as [|[i Hi]]; [lia|].
    specialize (Hk i). lia.
Qed.

Lemma send_socket_eq buf size s :
  kernel_sends → 0 < size ≤ Z.of_nat (length buf) →
  ∃ ret s', send_socket buf size s = Ok (ret, s') ∧ sock_sent (take (Z.to_nat size) buf) s s'.
Proof.
  intros Hk Hs. unfold send_socket. rewrite (proj2 (Z.ltb_lt _ _)) by lia. cbn [c_assert mbind res_bind].
  destruct (send_loop_spec (Z.to_nat size) buf size (-1) s) as [Hr|[_ [i Hi]]]; [lia|lia|done|].
  specialize (Hk i). lia.
Qed.
End Socket.

(** ** Addresses *)

(** [parseServerAddress]: [ip] is the capacity of the caller's buffer, [None] for NULL; the
    resolver is a parameter.  Returns what is stored through [info], [ip] and [port]. *)
Definition parseServerAddress {H : Type} (gethostbyname : string → option H) (full_address : string)
    (info : bool) (ip : option nat) (port : bool)
    : res (option (option H) * option string * option Z) :=
  let store s :=
    match ip with
    | None => Ok None
    | Some cap =>
        if (String.length s <? cap)%nat then Ok (Some s)
        else Stop (Undefined "parseServerAddress: ip overflows")
    end in
  '(name, p) ← match cut ":" full_address with
    | None => name ← store "localhost"%string;
              p ← (if port then v ← atoi full_address; Ok (Some v) else Ok None); Ok (name, p)
    | Some (host, port_s) =>
              name ← store host;
              p ← (if port then v ← atoi port_s; Ok (Some v) else Ok None); Ok (name, p)
    end;
  if info
  then match name with
       | None => Stop (Undefined "gethostbyname of NULL")
       | Some name => Ok (Some (gethostbyname name), Some name, p)
       end
  else Ok (None, name, p).

(** ** VM sockets *)

Record sockaddr_vm := mk_sockaddr_vm { svm_family : Z; svm_cid : Z; svm_port : Z }.

Definition AF_VSOCK : Z := 40.

(** The results of the system calls are arguments. *)
Definition init_vm_socket (cid port socket_ret : Z) : res (Z * sockaddr_vm) :=
  let sa := mk_sockaddr_vm AF_VSOCK (u32 cid) (u32 port) in
  if socket_ret <? 0 then Stop (Exited 0) else Ok (socket_ret, sa).

Definition listen_vm_socket (bind_ret listen_ret : Z) : res unit :=
  if negb (bind_ret =? 0) then Stop (Exited 0)
  else if negb (listen_ret =? 0) then Stop (Exited 0) else Ok tt.

Definition accept_vm_socket (accept_ret peer_cid : Z) (client_cid : bool) : res (Z * option Z) :=
  if accept_ret <? 0 then Stop (Exited 0)
  else Ok (accept_ret, if client_cid then Some (signed 32 peer_cid) else None).

(** [connect] is tried until it succeeds, five times at most; [answers i] is the result of try
    [i].  Returns the last result and the number of failures. *)
Fixpoint conn_loop (tries_left : nat) (answers : nat → Z) (num_tries : nat) (ret : Z) : Z * nat :=
  match tries_left with
  | O => (ret, num_tries)
  | S tries_left =>
      let ret := answers num_tries in
      if ret <? 0 then conn_loop tries_left answers (S num_tries) ret else (ret, num_tries)
  end.

Definition conn_vm_socket (answers : nat → Z) : Z * nat := conn_loop 5 answers 0 0.

(** ** Netlink messages *)

Record sockaddr_nl := mk_sockaddr_nl { nl_family : Z; nl_pid : Z; nl_groups : Z }.

Definition AF_NETLINK : Z := 16.

Definition init_netlink_socket (socket_ret setsockopt_ret bind_ret pid : Z)
    : res (Z * sockaddr_nl * sockaddr_nl) :=
  if socket_ret <? 0 then Stop (Exited 0)
  else
    let src := mk_sockaddr_nl AF_NETLINK pid 0 in
    if negb (bind_ret =? 0) then Stop (Exited 0)
    else Ok (socket_ret, src, mk_sockaddr_nl AF_NETLINK 0 0).

(** [NLMSG_SPACE]: the 16 byte header and the payload, rounded up to 4 bytes. *)
Definition NLMSG_SPACE (size : Z) : Z := Z.land (u64 (size + 16 + 3)) (Z.lnot 3).

Record nlmsghdr := mk_nlmsghdr { nlmsg_len : Z; nlmsg_pid : Z; nlmsg_flags : Z }.

(** [struct msghdr] with its one [iovec]; blocks are named by their heap addresses. *)
Record msghdr := mk_msghdr {
  msg_name : sockaddr_nl;
  msg_iov : Z;
  iov_base : Z;
  iov_len : Z
}.

Definition init_netlink_msg (dst : sockaddr_nl) (size pid : Z) (h : heap)
    : nlmsghdr * msghdr * heap :=
  let '(nlh, h) := malloc h in
  let '(iov, h) := malloc h in
  let hdr := mk_nlmsghdr (u32 (NLMSG_SPACE size)) pid 0 in
  (hdr, mk_msghdr dst iov nlh (nlmsg_len hdr), h).

Definition free_netlink_msg (msg_addr : Z) (msg : msghdr) (h : heap) : res heap :=
  h ← c_free (iov_base msg) h;
  h ← c_free (msg_iov msg) h;
  c_free msg_addr h.

(** ** Lemmas *)

Lemma conn_loop_spec tl answers : ∀ i ret,
  let '(r, n) := conn_loop tl answers i ret in
  (i ≤ n ≤ i + tl)%nat ∧ (∀ j, (i ≤ j < n)%nat → answers j < 0) ∧
  ((n < i + tl)%nat → r = answers n ∧ 0 ≤ r) ∧
  (n = i + tl → r = if decide (tl = 0) then ret else answers (n - 1))%nat.
Proof.
  induction tl as [|tl IH]; intros i ret; cbn [conn_loop].
  { split_and!; try lia. intros _. by rewrite decide_True. }
  destruct (Z.ltb_spec (answers i) 0) as [Hn|Hn].
  - specialize (IH (S i) (answers i)). destruct (conn_loop tl answers (S i) (answers i)) as [r n].
    destruct IH as (H1 & H2 & H3 & H4). split_and!; [lia|lia| | |].
    + intros j Hj. destruct (decide (j = i)) as [->|]; [done|]. apply H2. lia.
    + intros Hlt. apply H3. lia.
    + intros He. rewrite decide_False by lia. rewrite H4 by lia.
      destruct (decide (tl = 0%nat)) as [->|]; [|done]. f_equal. lia.
  - split_and!; [lia|lia|lia| |lia]. intros _. done.
Qed.

Lemma string_lt_cap s cap : (String.length s < cap)%nat → (String.length s <? cap)%nat = true.
Proof. intros. by apply Nat.ltb_lt. Qed.

Lemma atoi_to_string n : 0 ≤ n < 2 ^ 31 → atoi (to_string n) = Ok n.
Proof.
  intros Hn. unfold atoi. rewrite strtol_to_string' by lia.
  by rewrite (proj2 (Z.leb_le _ _)), (proj2 (Z.ltb_lt _ _)) by lia.
Qed.

(** ** Properties *)

(** Sending terminates and is complete for every behaviour of the kernel: after at most [size]
    calls of [send], either all the bytes of the buffer are on the wire, in order, or the process
    has exited; no other outcome exists. *)
Theorem send_socket_total `{SocketKernel} (buf : list Z) (size : Z) (s : sock) :
  0 < size ≤ Z.of_nat (length buf) →
  (∃ ret s', send_socket buf size s = Ok (ret, s') ∧
     s_out s' = s_out s ++ take (Z.to_nat size) buf ∧ s_in s' = s_in s) ∨
  (send_socket buf size s = Stop (Exited 0) ∧ ∃ i, k_send i ≤ 0).
Proof.
  intros Hs. unfold send_socket. rewrite (proj2 (Z.ltb_lt _ _)) by lia. cbn [c_assert mbind res_bind].
  destruct (send_loop_spec (Z.to_nat size) buf size (-1) s) as
    [(ret & s' & -> & H1 & H2 & _)|[-> Hk]]; [lia|lia| |].
  - left. by exists ret, s'.
  - by right.
Qed.

Definition sample_kernel (n : Z) : SocketKernel := {| k_send _ := n; k_recv _ := n |}.
Definition empty_sock : sock := mk_sock [] [] false 0 0.

Lemma send_socket_total_witness :
  (∃ ret s', @send_socket (sample_kernel 2) [1; 2; 3; 4; 5] 5 empty_sock = Ok (ret, s') ∧
     s_out s' = [] ++ [1; 2; 3; 4; 5] ∧ s_in s' = []) ∨
  (@send_socket (sample_kernel 2) [1; 2; 3; 4; 5] 5 empty_sock = Stop (Exited 0) ∧ ∃ i : nat, 2 ≤ 0).
Proof.
  apply (@send_socket_total (sample_kernel 2) [1; 2; 3; 4; 5] 5 empty_sock). cbn. lia.
Defined.

(** Receiving terminates for every behaviour of the kernel: [recv_socket] returns exactly the
    next [size] bytes and leaves the rest, or the process exits, or it waits for the peer; it
    never returns fewer bytes, and with [size] bytes waiting and a kernel that makes progress it
    returns them. *)
Theorem recv_socket_total `{SocketKernel} (size : Z) (s : sock) :
  0 ≤ size →
  (∃ data s', recv_socket size s = Ok (data, s') ∧ Z.of_nat (length data) = size ∧
     s_in s = data ++ s_in s' ∧ s_out s' = s_out s) ∨
  ((recv_socket size s = Stop (Exited 0) ∨ recv_socket size s = Stop (Blocked "recv")) ∧
   (Z.of_nat (length (s_in s)) < size ∨ ∃ i, k_recv i ≤ 0)).
Proof.
  intros Hs. unfold recv_socket.
  destruct (recv_loop_spec (Z.to_nat size) size [] s) as [(d & s' & -> & Hd & H1 & H2 & _)|Hr];
    [lia| |by right].
  left. exists d, s'. split_and!; [done|lia|done|done].
Qed.

Lemma recv_socket_total_witness :
  (∃ data s', @recv_socket (sample_kernel 2) 3 (mk_sock [1; 2; 3; 4] [] false 0 0) = Ok (data, s') ∧
     Z.of_nat (length data) = 3 ∧ [1; 2; 3; 4] = data ++ s_in s' ∧ s_out s' = []) ∨
  ((@recv_socket (sample_kernel 2) 3 (mk_sock [1; 2; 3; 4] [] false 0 0) = Stop (Exited 0) ∨
    @recv_socket (sample_kernel 2) 3 (mk_sock [1; 2; 3; 4] [] false 0 0) = Stop (Blocked "recv")) ∧
   (Z.of_nat 4 < 3 ∨ ∃ i : nat, 2 ≤ 0)).
Proof.
  apply (@recv_socket_total (sample_kernel 2) 3 (mk_sock [1; 2; 3; 4] [] false 0 0)). lia.
Defined.

(** The address of a server survives being written as "host:port" and parsed: the host name goes
    to the resolver and the port is read back; an address without a colon is a port on
    "localhost". *)
Theorem parse_address_roundtrip {H} (resolve : string → option H) (host : string) (port : Z) (cap : nat) :
  has_char ":" host = false → (String.length host < cap)%nat → (9 < cap)%nat → 0 ≤ port < 2 ^ 31 →
  parseServerAddress resolve (host +:+ String ":" (to_string port)) true (Some cap) true =
    Ok (Some (resolve host), Some host, Some port) ∧
  parseServerAddress resolve (to_string port) true (Some cap) true =
    Ok (Some (resolve "localhost"%string), Some "localhost"%string, Some port).
Proof.
  intros Hc Hl Hcap Hp. unfold parseServerAddress. split.
  - rewrite cut_app by done. rewrite string_lt_cap by done. cbn [mbind res_bind].
    by rewrite atoi_to_string.
  - rewrite (proj2 (cut_None _ _)) by (by apply to_string_no_char; [lia|]).
    rewrite string_lt_cap by done. cbn [mbind res_bind]. by rewrite atoi_to_string.
Qed.

Lemma parse_address_roundtrip_witness :
  parseServerAddress (λ s, Some s) "10.0.0.7:4000" true (Some 128%nat) true =
    Ok (Some (Some "10.0.0.7"%string), Some "10.0.0.7"%string, Some 4000) ∧
  parseServerAddress (λ s, Some s) "4000" true (Some 128%nat) true =
    Ok (Some (Some "localhost"%string), Some "localhost"%string, Some 4000).
Proof.
  apply (parse_address_roundtrip (λ s, Some s) "10.0.0.7" 4000 128); [reflexivity|cbn; lia..].
Defined.

(** [connect] is tried at most five times; the result is that of the first success, after which
    nothing is tried, or that of the fifth failure. *)
Theorem conn_vm_socket_spec (answers : nat → Z) :
  let '(ret, failures) := conn_vm_socket answers in
  (failures ≤ 5)%nat ∧ (∀ j, (j < failures)%nat → answers j < 0) ∧
  ((failures < 5)%nat → ret = answers failures ∧ 0 ≤ ret) ∧
  (failures = 5%nat → ret = answers 4%nat).
Proof.
  pose proof (conn_loop_spec 5 answers 0 0) as Hc. unfold conn_vm_socket.
  destruct (conn_loop 5 answers 0 0) as [ret n]. destruct Hc as (H1 & H2 & H3 & H4).
  split_and!; [lia| |apply H3|].
  - intros j Hj. apply H2. lia.
  - intros ->. by rewrite H4 by lia.
Qed.

(** Releasing a netlink message releases the three blocks of it and no other. *)
Theorem netlink_msg_released (dst : sockaddr_nl) (size pid : Z) (h : heap) :
  (∀ a, a ∈ live h → a < next_addr h) →
  let '(msg_addr, h1) := malloc h in
  let '(_, msg, h2) := init_netlink_msg dst size pid h1 in
  ∃ h3, free_netlink_msg msg_addr msg h2 = Ok h3 ∧ live h3 = live h.
Proof.
  intros Hf. cbn. unfold free_netlink_msg, c_free. cbn.
  rewrite decide_True by set_solver. cbn.
  rewrite decide_True by (apply elem_of_difference; split; [set_solver|]; rewrite elem_of_singleton; lia).
  cbn. rewrite decide_True by (rewrite !elem_of_difference, !elem_of_union, !elem_of_singleton; lia).
  eexists. split; [done|]. cbn. apply set_eq. intros a. specialize (Hf a).
  rewrite !elem_of_difference, !elem_of_union, !elem_of_singleton.
  split; [naive_solver|]. intros Ha. specialize (Hf Ha). split_and!; try lia. auto.
Qed.
