(* ===== verification/LogChannel.v ===== *)
(** * The record/replay log channel (common/cmd_channel_record.c)

    The log is a file: a byte sequence with a file position.  A record is a
    [struct record_command_metadata] (16 bytes) followed by the command struct and its data
    region.  [disk_ok = false] makes every [write] fail with -1, [fd_open = false] stands for a
    closed or never opened descriptor. *)

From S2P Require Import Prelude Channel.
Local Open Scope Z_scope.

(** ** The file *)

Record command_channel_log := mk_log {
  content : list Z;
  fpos : nat;
  read_offset : Z;
  fd_open : bool;
  disk_ok : bool
}.

Definition EXIT_FAILURE : Z := 1.
Definition sizeof_metadata : Z := 16.

Definition lseek_set (off : Z) (c : command_channel_log) : Z * command_channel_log :=
  if off <? 0 then (-1, c)
  else (off, mk_log (content c) (Z.to_nat off) (read_offset c) (fd_open c) (disk_ok c)).

Definition lseek_end (c : command_channel_log) : Z * command_channel_log :=
  (Z.of_nat (length (content c)),
   mk_log (content c) (length (content c)) (read_offset c) (fd_open c) (disk_ok c)).

(** [write], followed by the check that ends the process when it returns -1. *)
Definition write_or_exit (data : list Z) (c : command_channel_log)
    : res command_channel_log :=
  if fd_open c && disk_ok c
  then Ok (mk_log (pwrite (fpos c) data (content c)) (fpos c + length data)
             (read_offset c) (fd_open c) (disk_ok c))
  else Stop (Exited EXIT_FAILURE).

Definition read_fd (n : nat) (c : command_channel_log) : list Z * command_channel_log :=
  let data := if fd_open c then slice (fpos c) n (content c) else [] in
  (data, mk_log (content c) (fpos c + length data) (read_offset c) (fd_open c) (disk_ok c)).

Definition set_read_offset (off : Z) (c : command_channel_log) : command_channel_log :=
  mk_log (content c) (fpos c) off (fd_open c) (disk_ok c).

(** [struct record_command_metadata]: a [size_t], a [uint32_t] and four bytes of padding. *)
Definition metadata_bytes (size flags : Z) : list Z :=
  le_bytes 8 size ++ le_bytes 4 flags ++ replicate 4 0.

(** [struct command_private] lives in the first two words of [reserved_area]. *)
Definition command_start_offset (b : command_base) : Z := signed 64 (get_reserved 0 b).
Definition current_buffer_offset (b : command_base) : Z := signed 64 (get_reserved 1 b).

(** ** Recording *)

Definition command_channel_log_buffer_size (c : command_channel_log) (size : Z) : Z := size.

Definition command_channel_log_new_command (c : command_channel_log) (h : heap)
    (command_struct_size data_region_size : Z)
    : res (command * command_channel_log * heap) :=
  let '(pos, c) := lseek_end c in
  c ← write_or_exit (metadata_bytes (u64 (command_struct_size + data_region_size)) 0) c;
  let '(addr, h) := malloc h in
  if command_struct_size <? Z.of_nat sizeof_command_base
  then Stop (Undefined "command smaller than struct command_base")
  else
    let start := pos + sizeof_metadata in
    let base := mk_base 0 0 0 0 0 0 0 command_struct_size command_struct_size data_region_size
                  [start; u64 (start + command_struct_size); 0; 0; 0; 0; 0; 0] in
    Ok (mk_cmd addr base (replicate (Z.to_nat command_struct_size - sizeof_command_base) 0),
        c, h).

Definition command_channel_log_attach_buffer (c : command_channel_log) (cmd : command)
    (buffer : option (list Z)) (size : Z) : res (Z * command * command_channel_log) :=
  let '(pos, c) := lseek_set (current_buffer_offset (cmd_base cmd)) c in
  _ ← c_assert (pos =? current_buffer_offset (cmd_base cmd))
        "pos == priv->current_buffer_offset";
  match buffer with
  | None => Stop (Exited EXIT_FAILURE)
  | Some data =>
      bytes ← read_bytes size data;
      c ← write_or_exit bytes c;
      Ok (pos - command_start_offset (cmd_base cmd), cmd, c)
  end.

Definition command_channel_log_send_command (c : command_channel_log) (h : heap)
    (cmd : command) : res (command_channel_log * heap) :=
  let '(pos, c) := lseek_set (command_start_offset (cmd_base cmd)) c in
  _ ← c_assert (pos =? command_start_offset (cmd_base cmd)) "pos == priv->command_start_offset";
  bytes ← read_bytes (command_size (cmd_base cmd)) (cmd_bytes cmd);
  c ← write_or_exit bytes c;
  h ← c_free (cmd_addr cmd) h;
  Ok (c, h).

(** Appends a command of another channel, whose data region there starts with [region]; returns
    the offset of the new record. *)
Definition command_channel_log_transfer_command (c : command_channel_log) (region : list Z)
    (cmd : command) : res (Z * command_channel_log) :=
  let '(pos, c) := lseek_end c in
  let size := u64 (command_size (cmd_base cmd) + region_size (cmd_base cmd)) in
  c ← write_or_exit (metadata_bytes size 0) c;
  bytes ← read_bytes (command_size (cmd_base cmd)) (cmd_bytes cmd);
  c ← write_or_exit bytes c;
  data ← read_bytes (region_size (cmd_base cmd)) region;
  c ← write_or_exit data c;
  Ok (pos, c).

Definition command_channel_log_update_flags (c : command_channel_log) (offset flags : Z)
    : res command_channel_log :=
  _ ← c_assert (0 <=? offset) "offset >= 0";
  let '(r, c) := lseek_set (offset + 8) c in
  _ ← c_assert (r =? offset + 8) "r == offset + sizeof(size_t)";
  write_or_exit (le_bytes 4 flags) c.

(** ** Loading *)

(** The loaded command with the flags of its record; [None] is NULL. *)
Definition command_channel_log_load_command (c : command_channel_log) (h : heap) (offset : Z)
    : res (option (command * Z) * command_channel_log * heap) :=
  let offset := if offset <? 0 then read_offset c else offset in
  let '(_, c) := lseek_set offset c in
  let '(md, c) := read_fd 16 c in
  if negb (Z.of_nat (length md) =? sizeof_metadata) then Ok (None, c, h)
  else
    let size := le_num (slice 0 8 md) in
    let flags := le_num (slice 8 4 md) in
    let c := set_read_offset (offset + size + sizeof_metadata) c in
    let '(addr, h) := malloc h in
    let '(data, c) := read_fd (Z.to_nat size) c in
    if negb (Z.of_nat (length data) =? size)
    then h ← c_free addr h; Ok (None, c, h)
    else if size <? Z.of_nat sizeof_command_base
    then Stop (Undefined "record smaller than struct command_base")
    else Ok (Some (cmd_of_bytes addr data, flags), c, h).

Definition command_channel_load_next_command (c : command_channel_log) (h : heap)
    : res (option command * command_channel_log * heap) :=
  '(r, c, h) ← command_channel_log_load_command c h (-1);
  Ok (option_map fst r, c, h).

Definition command_channel_load_free_command (c : command_channel_log) (h : heap)
    (cmd : command) : res heap := c_free (cmd_addr cmd) h.

Definition command_channel_load_get_buffer (c : command_channel_log) (cmd : command)
    (buffer_id : Z) : option (list Z) := Some (drop (Z.to_nat buffer_id) (cmd_bytes cmd)).

Definition command_channel_load_get_data_region (c : command_channel_log) (cmd : command)
    : list Z := drop (Z.to_nat (command_size (cmd_base cmd))) (cmd_bytes cmd).

Definition command_channel_log_free (c : command_channel_log) : res command_channel_log :=
  Ok (mk_log (content c) (fpos c) (read_offset c) false (disk_ok c)).

Definition command_channel_log_vtable : command_channel_vtable command_channel_log := {|
  vt_buffer_size := command_channel_log_buffer_size;
  vt_new_command := command_channel_log_new_command;
  vt_attach_buffer := command_channel_log_attach_buffer;
  vt_send_command := command_channel_log_send_command;
  vt_transfer_command c h region cmd :=
    '(_, c) ← command_channel_log_transfer_command c region cmd; Ok (c, h);
  vt_receive_command := command_channel_load_next_command;
  vt_get_buffer := command_channel_load_get_buffer;
  vt_get_data_region := command_channel_load_get_data_region;
  vt_free_command := command_channel_load_free_command;
  vt_free := command_channel_log_free
|}.

Global Instance log_channel : Channel command_channel_log := command_channel_log_vtable.

Global Instance log_frees : FreesCommands command_channel_log.
Proof. done. Qed.

(** The file is created, truncated and unlinked; the result of [open] is not checked. *)
Definition command_channel_log_new (opened disk : bool) : command_channel_log :=
  mk_log [] 0 0 opened disk.

(** ** Abstract log: a list of records *)

Record lrec := mk_lrec {
  lr_flags : Z;
  lr_base : command_base;
  lr_rest : list Z
}.

(** A record on disk. *)
Definition lrec_bytes (r : lrec) : list Z :=
  metadata_bytes (Z.of_nat (sizeof_command_base + length (lr_rest r))) (lr_flags r) ++
  base_bytes (lr_base r) ++ lr_rest r.

Definition lrec_wf (r : lrec) : Prop :=
  base_wf (lr_base r) ∧ in_range 32 (lr_flags r) ∧
  Z.of_nat (sizeof_command_base + length (lr_rest r)) < 2 ^ 63.

Definition log_bytes (rs : list lrec) : list Z := mjoin (lrec_bytes <$> rs).

(** Offset of the [i]-th record. *)
Definition log_offset (rs : list lrec) (i : nat) : Z := Z.of_nat (length (log_bytes (take i rs))).

(** The file holds exactly the records [rs], and the next record to be read is number [i]. *)
Definition log_repr (c : command_channel_log) (rs : list lrec) (i : nat) : Prop :=
  content c = log_bytes rs ∧ read_offset c = log_offset rs i ∧ (i ≤ length rs)%nat ∧
  Forall lrec_wf rs ∧ fd_open c = true ∧ disk_ok c = true.

Definition lrec_cmd (addr : Z) (r : lrec) : command := mk_cmd addr (lr_base r) (lr_rest r).

Definition set_lr_flags (v : Z) (r : lrec) : lrec := mk_lrec v (lr_base r) (lr_rest r).

(** Reads commands until the log is exhausted, as the replay loop does. *)
Fixpoint receive_all (fuel : nat) (c : command_channel_log) (h : heap)
    : res (list command * command_channel_log * heap) :=
  match fuel with
  | O => Ok ([], c, h)
  | S fuel =>
      '(r, c, h) ← command_channel_receive_command c h;
      match r with
      | None => Ok ([], c, h)
      | Some cmd => '(l, c, h) ← receive_all fuel c h; Ok (cmd :: l, c, h)
      end
  end.

(** ** Lemmas on the representation *)

Lemma length_metadata_bytes s f : length (metadata_bytes s f) = 16%nat.
Proof. unfold metadata_bytes. by rewrite !length_app, !length_le_bytes, length_replicate. Qed.

Lemma log_bytes_app rs1 rs2 : log_bytes (rs1 ++ rs2) = log_bytes rs1 ++ log_bytes rs2.
Proof. unfold log_bytes. rewrite fmap_app. apply join_app. Qed.

Lemma log_bytes_single r : log_bytes [r] = lrec_bytes r.
Proof. unfold log_bytes. cbn. by rewrite app_nil_r. Qed.

(** The file around record [i]. *)
Lemma log_bytes_split rs i r :
  rs !! i = Some r →
  log_bytes rs = log_bytes (take i rs) ++ lrec_bytes r ++ log_bytes (drop (S i) rs).
Proof.
  intros Hr. rewrite <- (take_drop_middle _ _ _ Hr) at 1.
  by rewrite log_bytes_app.
Qed.

Lemma length_lrec_bytes r :
  base_wf (lr_base r) →
  length (lrec_bytes r) = (16 + (sizeof_command_base + length (lr_rest r)))%nat.
Proof.
  intros Hwf. unfold lrec_bytes. rewrite !length_app, length_metadata_bytes.
  rewrite length_base_bytes by apply Hwf. done.
Qed.

Lemma log_offset_S rs i r :
  rs !! i = Some r → base_wf (lr_base r) →
  log_offset rs (S i) =
    log_offset rs i + Z.of_nat (sizeof_command_base + length (lr_rest r)) + sizeof_metadata.
Proof.
  intros Hr Hwf. unfold log_offset. rewrite (take_S_r _ _ _ Hr), log_bytes_app.
  rewrite length_app, log_bytes_single, length_lrec_bytes by done. unfold sizeof_metadata. lia.
Qed.

Lemma metadata_size_read s f rest :
  in_range 64 s → le_num (slice 0 8 (metadata_bytes s f ++ rest)) = s.
Proof.
  intros Hs. unfold metadata_bytes. rewrite <- !app_assoc.
  rewrite slice_prefix by (by rewrite length_le_bytes). by apply le_num_u64.
Qed.

Lemma metadata_flags_read s f rest :
  in_range 32 f → le_num (slice 8 4 (metadata_bytes s f ++ rest)) = f.
Proof.
  intros Hs. unfold metadata_bytes. rewrite <- !app_assoc.
  rewrite slice_skip by (rewrite length_le_bytes; lia). rewrite length_le_bytes.
  rewrite slice_prefix by (by rewrite length_le_bytes).
  rewrite le_num_bytes. by apply (wrap_small 32).
Qed.

(** Loading at the offset of record [i] returns that record and moves to the next one. *)
Lemma load_at c h rs i r off :
  content c = log_bytes rs → fd_open c = true → rs !! i = Some r → lrec_wf r →
  (if off <? 0 then read_offset c else off) = log_offset rs i →
  ∃ c', command_channel_log_load_command c h off =
          Ok (Some (lrec_cmd (next_addr h) r, lr_flags r), c', (malloc h).2) ∧
    content c' = content c ∧ read_offset c' = log_offset rs (S i) ∧
    fd_open c' = true ∧ disk_ok c' = disk_ok c.
Proof.
  intros Hc Hfd Hr (Hb & Hf & Hsz) Hoff.
  assert (length (reserved_area (lr_base r)) = 8%nat) as Hres by apply Hb.
  unfold command_channel_log_load_command, lseek_set. rewrite Hoff.
  rewrite (proj2 (Z.ltb_ge (log_offset rs i) 0)) by (unfold log_offset; lia).
  unfold read_fd, set_read_offset, malloc.
  cbn beta iota zeta delta [fd_open fpos content read_offset disk_ok].
  rewrite Hfd, Hc, (log_bytes_split rs i r Hr).
  assert (Z.to_nat (log_offset rs i) = length (log_bytes (take i rs))) as ->
    by (unfold log_offset; apply Nat2Z.id).
  set (pre := log_bytes (take i rs)). set (post := log_bytes (drop (S i) rs)).
  assert (slice (length pre) 16 (pre ++ lrec_bytes r ++ post) =
          metadata_bytes (Z.of_nat (sizeof_command_base + length (lr_rest r))) (lr_flags r)) as ->.
  { rewrite (slice_app_r' _ _ _ _ 0) by lia. unfold lrec_bytes. rewrite <- !app_assoc.
    by rewrite slice_prefix by (by rewrite length_metadata_bytes). }
  rewrite length_metadata_bytes.
  pose proof (metadata_size_read (Z.of_nat (sizeof_command_base + length (lr_rest r)))
                (lr_flags r) [] ltac:(unfold in_range; lia)) as Hms.
  pose proof (metadata_flags_read (Z.of_nat (sizeof_command_base + length (lr_rest r)))
                (lr_flags r) [] Hf) as Hmf.
  rewrite app_nil_r in Hms, Hmf. rewrite Hms, Hmf.
  change (negb (Z.of_nat 16 =? sizeof_metadata)) with false. cbn iota.
  rewrite (Nat2Z.id (sizeof_command_base + _)).
  assert (slice (length pre + 16)
           (sizeof_command_base + length (lr_rest r)) (pre ++ lrec_bytes r ++ post) =
          base_bytes (lr_base r) ++ lr_rest r) as ->.
  { rewrite (slice_app_r' _ _ _ _ 16) by lia. unfold lrec_bytes. rewrite <- !app_assoc.
    rewrite slice_skip by (rewrite length_metadata_bytes; lia).
    rewrite length_metadata_bytes, app_assoc.
    apply slice_prefix. by rewrite length_app, length_base_bytes. }
  assert (length (base_bytes (lr_base r) ++ lr_rest r) =
          (sizeof_command_base + length (lr_rest r))%nat) as ->
    by (by rewrite length_app, length_base_bytes).
  rewrite Z.eqb_refl. cbn [negb].
  rewrite (proj2 (Z.ltb_ge _ _)) by lia.
  pose proof (cmd_of_bytes_of_cmd (next_addr h) (lrec_cmd 0 r) Hb) as Hcmd.
  unfold cmd_bytes in Hcmd. cbn [cmd_base cmd_rest lrec_cmd] in Hcmd. rewrite Hcmd.
  eexists. split; [done|].
  cbn. split_and!; [done| |done|done]. by rewrite (log_offset_S _ _ _ Hr Hb).
Qed.

Lemma load_end c h rs :
  content c = log_bytes rs → read_offset c = log_offset rs (length rs) → fd_open c = true →
  ∃ c', command_channel_log_load_command c h (-1) = Ok (None, c', h) ∧
    content c' = content c ∧ read_offset c' = read_offset c ∧ fd_open c' = true ∧
    disk_ok c' = disk_ok c.
Proof.
  intros Hc Hro Hfd. unfold command_channel_log_load_command. cbn [Z.ltb Z.compare].
  unfold log_offset in Hro. rewrite firstn_all, <- Hc in Hro. rewrite Hro. unfold lseek_set.
  rewrite (proj2 (Z.ltb_ge (Z.of_nat (length (content c))) 0)) by lia.
  unfold read_fd. cbn -[slice]. rewrite Hfd, Nat2Z.id.
  assert (slice (length (content c)) 16 (content c) = []) as ->
    by (unfold slice; by rewrite drop_ge by lia).
  cbn. eexists. split; [done|]. by split_and!.
Qed.

(** Runs the straight-line code up to the next call. *)
Ltac log_step :=
  cbn beta iota zeta delta [mbind res_bind content fpos read_offset fd_open disk_ok].

(** Writing at the end of the file. *)
Lemma write_end data c :
  fd_open c = true → disk_ok c = true → fpos c = length (content c) →
  write_or_exit data c =
    Ok (mk_log (content c ++ data) (length (content c ++ data)) (read_offset c) true true).
Proof.
  intros Hfd Hdisk Hpos. unfold write_or_exit. rewrite Hfd, Hdisk. cbn.
  by rewrite (pwrite_end _ data _ Hpos), Hpos, length_app.
Qed.

(** The record a transferred command becomes: the data region follows the command struct. *)
Definition transferred (cmd : command) (region : list Z) : lrec :=
  mk_lrec 0 (cmd_base cmd)
    (take (Z.to_nat (command_size (cmd_base cmd)) - sizeof_command_base) (cmd_rest cmd) ++
     take (Z.to_nat (region_size (cmd_base cmd))) region).

(** The struct has at least its header, and the sizes it states are those of its memory. *)
Definition cmd_wf (cmd : command) (region : list Z) : Prop :=
  base_wf (cmd_base cmd) ∧
  Z.of_nat sizeof_command_base ≤ command_size (cmd_base cmd) ≤
    Z.of_nat (length (cmd_bytes cmd)) ∧
  region_size (cmd_base cmd) ≤ Z.of_nat (length region) ∧
  command_size (cmd_base cmd) + region_size (cmd_base cmd) < 2 ^ 63.

Lemma transfer_eq c cmd region :
  fd_open c = true → disk_ok c = true → cmd_wf cmd region →
  command_channel_log_transfer_command c region cmd =
    Ok (Z.of_nat (length (content c)),
        mk_log (content c ++ lrec_bytes (transferred cmd region))
          (length (content c ++ lrec_bytes (transferred cmd region)))
          (read_offset c) true true).
Proof.
  intros Hfd Hdisk (Hb & Hcs & Hrs & Hsum).
  assert (length (reserved_area (cmd_base cmd)) = 8%nat) as Hres by apply Hb.
  assert (0 ≤ region_size (cmd_base cmd)) as Hr0 by apply Hb.
  set (cs := command_size (cmd_base cmd)) in *. set (rsz := region_size (cmd_base cmd)) in *.
  unfold command_channel_log_transfer_command, lseek_end. fold cs rsz.
  log_step. rewrite write_end by done. log_step.
  rewrite (read_bytes_ok cs) by lia. log_step.
  rewrite write_end by done. log_step.
  rewrite read_bytes_ok by lia. log_step.
  rewrite write_end by done. log_step.
  assert (lrec_bytes (transferred cmd region) =
    metadata_bytes (u64 (cs + rsz)) 0 ++ take (Z.to_nat cs) (cmd_bytes cmd) ++
    take (Z.to_nat rsz) region) as ->.
  { unfold lrec_bytes, transferred. cbn [lr_rest lr_flags lr_base]. fold cs rsz.
    unfold cmd_bytes in Hcs |- *. rewrite length_app, length_base_bytes in Hcs by done.
    rewrite length_app, !length_take.
    rewrite take_app, length_base_bytes by done.
    rewrite (take_ge (base_bytes _)) by (rewrite length_base_bytes by done; lia).
    rewrite <- !app_assoc. f_equal. f_equal.
    rewrite wrap_small by (unfold in_range; lia). lia. }
  by rewrite !app_assoc.
Qed.

Lemma transferred_wf cmd region : cmd_wf cmd region → lrec_wf (transferred cmd region).
Proof.
  intros (Hb & Hcs & Hrs & Hsum). split_and!; [done|cbn; unfold in_range; lia|].
  cbn [transferred lr_rest]. rewrite length_app, !length_take.
  assert (0 ≤ region_size (cmd_base cmd)) by apply Hb. lia.
Qed.

Lemma log_repr_append c rs i r :
  log_repr c rs i → lrec_wf r →
  log_repr (mk_log (content c ++ lrec_bytes r) (length (content c ++ lrec_bytes r))
              (read_offset c) true true) (rs ++ [r]) i.
Proof.
  intros (Hc & Hro & Hi & Hwf & _ & _) Hr. split_and!; cbn; try done.
  - by rewrite log_bytes_app, log_bytes_single, Hc.
  - unfold log_offset in *. by rewrite take_app_le by lia.
  - rewrite length_app. lia.
  - apply Forall_app. auto.
Qed.

Lemma log_offset_flags rs j r f i :
  rs !! j = Some r → log_offset (<[j := set_lr_flags f r]> rs) i = log_offset rs i.
Proof.
  intros Hr. unfold log_offset, log_bytes. f_equal.
  rewrite !length_join, <- !list_fmap_compose, !fmap_take. do 2 f_equal.
  rewrite list_fmap_insert. apply list_insert_id. by rewrite list_lookup_fmap, Hr.
Qed.

(** ** The log as a queue *)

(** What a client of the channel does, and what it sees. *)
Inductive chan_op :=
  | OpTransfer (cmd : command) (region : list Z)
  | OpReceive.

(** A message of the abstract queue: header and following bytes. *)
Definition message : Type := command_base * list Z.

Definition queue_step (op : chan_op) (q : list message) : option message * list message :=
  match op with
  | OpTransfer cmd region =>
      (None, q ++ [(cmd_base cmd, lr_rest (transferred cmd region))])
  | OpReceive =>
      match q with
      | [] => (None, [])
      | m :: q => (Some m, q)
      end
  end.

Definition chan_step (op : chan_op) (st : command_channel_log * heap)
    : res (option message * (command_channel_log * heap)) :=
  let '(c, h) := st in
  match op with
  | OpTransfer cmd region =>
      '(c, h) ← command_channel_transfer_command c h region cmd; Ok (None, (c, h))
  | OpReceive =>
      '(r, c, h) ← command_channel_receive_command c h;
      Ok (option_map (λ cmd, (cmd_base cmd, cmd_rest cmd)) r, (c, h))
  end.

Fixpoint queue_run (ops : list chan_op) (q : list message) : list (option message) :=
  match ops with
  | [] => []
  | op :: ops => let '(o, q) := queue_step op q in o :: queue_run ops q
  end.

Fixpoint chan_run (ops : list chan_op) (st : command_channel_log * heap)
    : res (list (option message)) :=
  match ops with
  | [] => Ok []
  | op :: ops => '(o, st) ← chan_step op st; l ← chan_run ops st; Ok (o :: l)
  end.

Definition op_wf (op : chan_op) : Prop :=
  match op with OpTransfer cmd region => cmd_wf cmd region | OpReceive => True end.

(** The unread part of the log is the queue. *)
Definition log_queue (c : command_channel_log) (q : list message) : Prop :=
  ∃ rs i, log_repr c rs i ∧ q = (λ r, (lr_base r, lr_rest r)) <$> drop i rs.

Lemma transfer_queue c h q cmd region :
  log_queue c q → cmd_wf cmd region →
  ∃ c', chan_step (OpTransfer cmd region) (c, h) = Ok (None, (c', h)) ∧
    log_queue c' (q ++ [(cmd_base cmd, lr_rest (transferred cmd region))]).
Proof.
  intros (rs & i & Hr & ->) Hwf. pose proof Hr as (_ & _ & Hi & _ & Hfd & Hd).
  unfold chan_step, command_channel_transfer_command, vtable, log_channel.
  cbn [vt_transfer_command command_channel_log_vtable].
  rewrite transfer_eq by done. eexists; split; [done|].
  do 2 eexists. split; [by apply log_repr_append; [|apply transferred_wf]|].
  rewrite drop_app_le, fmap_app by lia. done.
Qed.

Lemma receive_queue c h q :
  log_queue c q →
  ∃ c' h', chan_step OpReceive (c, h) = Ok (head q, (c', h')) ∧ log_queue c' (tail q).
Proof.
  intros (rs & i & Hr & ->). pose proof Hr as (Hc & Hro & Hi & Hwf & Hfd & Hd).
  unfold chan_step, command_channel_receive_command, vtable, log_channel.
  cbn [vt_receive_command command_channel_log_vtable].
  unfold command_channel_load_next_command.
  destruct (rs !! i) as [r|] eqn:Hri.
  - destruct (load_at c h rs i r (-1)) as (c' & -> & Hc' & Hro' & Hfd' & Hd'); try done.
    { by eapply Forall_lookup_1. }
    rewrite (drop_S _ _ _ Hri). cbn. do 2 eexists. split; [done|].
    exists rs, (S i). split; [|done]. apply lookup_lt_Some in Hri.
    split_and!; [congruence|done|lia|done|done|congruence].
  - apply lookup_ge_None in Hri. assert (i = length rs) as -> by lia.
    destruct (load_end c h rs) as (c' & -> & Hc' & Hro' & Hfd' & Hd'); try done.
    rewrite drop_all. cbn. do 2 eexists. split; [done|].
    exists rs, (length rs). rewrite drop_all. split; [|done].
    split_and!; [congruence|congruence|lia|done|done|congruence].
Qed.

Lemma chan_run_refines ops : ∀ c h q,
  log_queue c q → Forall op_wf ops → chan_run ops (c, h) = Ok (queue_run ops q).
Proof.
  induction ops as [|op ops IH]; intros c h q Hq Hops; [done|].
  apply Forall_cons in Hops as [Hop Hops]. cbn [chan_run queue_run].
  destruct op as [cmd region|].
  - destruct (transfer_queue c h q cmd region Hq Hop) as (c' & -> & Hq').
    cbn. by rewrite (IH _ _ _ Hq' Hops).
  - destruct (receive_queue c h q Hq) as (c' & h' & -> & Hq').
    cbn. rewrite (IH _ _ _ Hq' Hops). by destruct q.
Qed.

Lemma log_queue_new : log_queue (command_channel_log_new true true) [].
Proof. exists [], 0%nat. split; [|done]. split_and!; try done. Qed.

(** ** Building a command in the log *)

Lemma new_command_eq c h css drs :
  fd_open c = true → disk_ok c = true → Z.of_nat sizeof_command_base ≤ css →
  0 ≤ drs → css + drs < 2 ^ 62 → Z.of_nat (length (content c)) < 2 ^ 62 →
  command_channel_log_new_command c h css drs =
    let start := Z.of_nat (length (content c)) + sizeof_metadata in
    Ok (mk_cmd (next_addr h)
          (mk_base 0 0 0 0 0 0 0 css css drs [start; start + css; 0; 0; 0; 0; 0; 0])
          (replicate (Z.to_nat css - sizeof_command_base) 0),
        mk_log (content c ++ metadata_bytes (css + drs) 0)
          (length (content c ++ metadata_bytes (css + drs) 0)) (read_offset c) true true,
        (malloc h).2).
Proof.
  intros Hfd Hd Hcss Hdrs Hsum Hlen. change (Z.of_nat sizeof_command_base) with 136 in *.
  unfold command_channel_log_new_command, lseek_end. log_step.
  rewrite write_end by done. log_step. unfold malloc.
  change (Z.of_nat sizeof_command_base) with 136.
  rewrite (proj2 (Z.ltb_ge css 136)) by lia. unfold sizeof_metadata.
  rewrite !wrap_small by (unfold in_range; lia). done.
Qed.

Lemma signed_small z : 0 ≤ z < 2 ^ 63 → signed 64 z = z.
Proof.
  intros Hz. unfold signed. rewrite wrap_small by (unfold in_range; lia).
  by rewrite (proj2 (Z.ltb_lt _ _)) by lia.
Qed.

(** Attaching to a command whose bookkeeping words are [start] and [start + css]. *)
Lemma attach_eq c cmd start css data rest :
  fd_open c = true → disk_ok c = true → 0 ≤ start → 0 ≤ css → start + css < 2 ^ 63 →
  reserved_area (cmd_base cmd) = start :: (start + css) :: rest →
  command_channel_log_attach_buffer c cmd (Some data) (Z.of_nat (length data)) =
    Ok (css, cmd,
        mk_log (pwrite (Z.to_nat (start + css)) data (content c))
          (Z.to_nat (start + css) + length data) (read_offset c) true true).
Proof.
  intros Hfd Hd Hs Hc Hsum Hres.
  unfold command_channel_log_attach_buffer, current_buffer_offset, command_start_offset,
    get_reserved. rewrite Hres. cbn [nth]. rewrite !signed_small by lia.
  unfold lseek_set. rewrite (proj2 (Z.ltb_ge (start + css) 0)) by lia. rewrite Z.eqb_refl.
  cbn [c_assert mbind res_bind]. rewrite read_bytes_all by done.
  unfold write_or_exit. log_step. rewrite Hfd, Hd. log_step.
  by replace (start + css - start) with css by lia.
Qed.

Lemma send_eq c h cmd start rest :
  fd_open c = true → disk_ok c = true → 0 ≤ start < 2 ^ 63 →
  reserved_area (cmd_base cmd) = start :: rest →
  command_size (cmd_base cmd) = Z.of_nat (length (cmd_bytes cmd)) →
  command_channel_log_send_command c h cmd =
    (h ← c_free (cmd_addr cmd) h;
     Ok (mk_log (pwrite (Z.to_nat start) (cmd_bytes cmd) (content c))
          (Z.to_nat start + length (cmd_bytes cmd)) (read_offset c) true true, h)).
Proof.
  intros Hfd Hd Hs Hres Hcs.
  unfold command_channel_log_send_command, command_start_offset, get_reserved.
  rewrite Hres. cbn [nth]. rewrite !signed_small by lia.
  unfold lseek_set. rewrite (proj2 (Z.ltb_ge start 0)) by lia. rewrite Z.eqb_refl.
  cbn [c_assert mbind res_bind]. rewrite read_bytes_all by done.
  unfold write_or_exit. log_step. by rewrite Hfd, Hd.
Qed.

(** A write beyond the end leaves a hole of zeros. *)
Lemma pwrite_hole n file data :
  pwrite (length file + n) data file = file ++ replicate n 0 ++ data.
Proof.
  unfold pwrite. replace (length file + n - length file)%nat with n by lia.
  rewrite (drop_ge file) by lia. rewrite app_nil_r.
  rewrite take_ge by (rewrite length_app, length_replicate; lia). by rewrite app_assoc.
Qed.

(** Building a command in the log and sending it. *)
Lemma log_build_send (c : command_channel_log) (h : heap) (rs : list lrec) (i : nat)
    (css : Z) (data rest : list Z) (b : command_base) :
  log_repr c rs i → (∀ a, a ∈ live h → a < next_addr h) →
  Z.of_nat sizeof_command_base ≤ css → css + Z.of_nat (length data) < 2 ^ 62 →
  Z.of_nat (length (content c)) < 2 ^ 61 →
  base_wf b → command_size b = css →
  length rest = (Z.to_nat css - sizeof_command_base)%nat →
  ∃ cmd c1 h1, command_channel_new_command c h css (Z.of_nat (length data)) = Ok (cmd, c1, h1) ∧
    (reserved_area b = reserved_area (cmd_base cmd) →
     let filled := mk_cmd (cmd_addr cmd) b rest in
     let r := mk_lrec 0 b (rest ++ data) in
     ∃ id c2 c3 h3,
       command_channel_attach_buffer c1 filled (Some data) (Z.of_nat (length data)) =
         Ok (id, filled, c2) ∧
       command_channel_send_command c2 h1 filled = Ok (c3, h3) ∧
       log_repr c3 (rs ++ [r]) i ∧ live h3 = live h ∧
       command_channel_get_buffer c3 (lrec_cmd (next_addr h) r) id = Some data).
Proof.
  intros Hr Hfresh Hcss Hsum Hlen Hb Hcs Hrest.
  pose proof Hr as (Hc & Hro & Hi & Hall & Hfd & Hd).
  change (Z.of_nat sizeof_command_base) with 136 in *.
  do 3 eexists. split; [apply new_command_eq; (done || lia)|].
  cbn [cmd_base reserved_area cmd_addr]. intros Hres. unfold sizeof_metadata in *.
  set (start := Z.of_nat (length (content c)) + 16) in *.
  assert (length (cmd_bytes (mk_cmd (next_addr h) b rest)) = Z.to_nat css) as Hlb.
  { unfold cmd_bytes. cbn [cmd_base cmd_rest].
    rewrite length_app, length_base_bytes, Hrest by apply Hb.
    unfold sizeof_command_base. lia. }
  exists css. do 3 eexists. split.
  { eapply (attach_eq _ _ start css); try done; lia. }
  split.
  { unfold command_channel_send_command, vtable, log_channel.
    cbn [vt_send_command command_channel_log_vtable].
    rewrite (send_eq _ _ _ start [start + css; 0; 0; 0; 0; 0; 0])
      by (done || cbn [cmd_base]; lia).
    cbn [cmd_addr]. rewrite (free_malloc h Hfresh : c_free (next_addr h) (malloc h).2 = _). log_step. reflexivity. }
  split; [|split; [done|]].
  - replace (pwrite _ _ _) with (content c ++ lrec_bytes (mk_lrec 0 b (rest ++ data))).
    + assert (lrec_wf (mk_lrec 0 b (rest ++ data))) as Hwf.
      { split_and!; [done|cbn; unfold in_range; lia|]. cbn. rewrite length_app. lia. }
      destruct (log_repr_append c rs i _ Hr Hwf) as (? & ? & ? & ? & ? & ?).
      by split_and!.
    + set (md := metadata_bytes (css + Z.of_nat (length data)) 0).
      assert (length (content c ++ md) = Z.to_nat start) as Hst.
      { rewrite length_app. unfold md. rewrite length_metadata_bytes. lia. }
      replace (Z.to_nat (start + css)) with (length (content c ++ md) + Z.to_nat css)%nat by lia.
      rewrite pwrite_hole, pwrite_mid by (done || by rewrite Hlb, length_replicate).
      unfold lrec_bytes, md, cmd_bytes. cbn [lr_rest lr_flags lr_base cmd_base cmd_rest].
      rewrite <- !app_assoc. do 3 f_equal. rewrite length_app, Hrest.
      unfold sizeof_command_base. lia.
  - unfold command_channel_get_buffer, vtable, log_channel.
    cbn [vt_get_buffer command_channel_log_vtable]. unfold command_channel_load_get_buffer.
    f_equal. unfold cmd_bytes in *. cbn [lrec_cmd cmd_base cmd_rest lr_base lr_rest] in *.
    rewrite app_assoc. by apply drop_app_length'.
Qed.

(** Rewriting the flags of record [j] in place. *)
Lemma update_flags_eq (c : command_channel_log) (rs : list lrec) (i j : nat) (r : lrec)
    (f : Z) :
  log_repr c rs i → rs !! j = Some r → in_range 32 f →
  ∃ c', command_channel_log_update_flags c (log_offset rs j) f = Ok c' ∧
    log_repr c' (<[j := set_lr_flags f r]> rs) i.
Proof.
  intros (Hc & Hro & Hi & Hall & Hfd & Hd) Hr Hf.
  assert (0 ≤ log_offset rs j) as Hoff by (unfold log_offset; lia).
  unfold command_channel_log_update_flags, lseek_set.
  rewrite (proj2 (Z.leb_le 0 _)) by done. cbn [c_assert mbind res_bind].
  rewrite (proj2 (Z.ltb_ge (log_offset rs j + 8) 0)) by lia.
  rewrite Z.eqb_refl. cbn [c_assert mbind res_bind]. unfold write_or_exit. log_step.
  rewrite Hfd, Hd. log_step. eexists; split; [done|].
  pose proof (lookup_lt_Some _ _ _ Hr) as Hj.
  assert (length (log_bytes (take j rs)) = Z.to_nat (log_offset rs j)) as Hlen
    by (unfold log_offset; by rewrite Nat2Z.id).
  split_and!; log_step.
  - rewrite Hc, (log_bytes_split _ _ _ Hr).
    rewrite (log_bytes_split (<[j := set_lr_flags f r]> rs) j (set_lr_flags f r)) by (by apply list_lookup_insert_eq).
    rewrite take_insert_ge, drop_insert_lt by lia.
    unfold lrec_bytes, metadata_bytes. cbn [set_lr_flags lr_flags lr_base lr_rest].
    rewrite <- !app_assoc, (app_assoc (log_bytes _)), (app_assoc (log_bytes _)).
    apply pwrite_mid; [|by rewrite !length_le_bytes].
    rewrite length_app, length_le_bytes. lia.
  - rewrite Hro. symmetry. by apply log_offset_flags.
  - by rewrite length_insert.
  - apply Forall_insert; [done|]. eapply Forall_lookup_1 in Hall as (? & ? & ?); [|done].
    by split_and!.
  - done.
  - done.
Qed.

(** ** Properties *)

(** Recording a command of another channel appends one record and disturbs no other: loading
    it at the returned offset gives back the header, the command struct and the data region,
    with flags 0, from whatever reading position. *)
Theorem log_transfer_load_roundtrip (c : command_channel_log) (h : heap) (rs : list lrec)
    (i : nat) (cmd : command) (region : list Z) :
  log_repr c rs i → cmd_wf cmd region →
  ∃ pos c' c'', command_channel_log_transfer_command c region cmd = Ok (pos, c') ∧
    log_repr c' (rs ++ [transferred cmd region]) i ∧
    command_channel_log_load_command c' h pos =
      Ok (Some (lrec_cmd (next_addr h) (transferred cmd region), 0), c'', (malloc h).2) ∧
    command_channel_load_get_data_region c''
      (lrec_cmd (next_addr h) (transferred cmd region)) =
      take (Z.to_nat (region_size (cmd_base cmd))) region.
Proof.
  intros Hr Hwf. pose proof Hr as (Hc & Hro & Hi & Hall & Hfd & Hd).
  pose proof (transferred_wf _ _ Hwf) as Hrec.
  pose proof (log_repr_append c rs i _ Hr Hrec) as Hr'.
  pose proof Hr' as (Hc' & _ & _ & _ & Hfd' & _).
  destruct (load_at _ h (rs ++ [transferred cmd region]) (length rs)
              (transferred cmd region) (Z.of_nat (length (content c))) Hc' Hfd')
    as (c'' & Hload & _); [|done| |].
  { rewrite lookup_app_r, Nat.sub_diag by lia. done. }
  { rewrite (proj2 (Z.ltb_ge _ _)) by lia. unfold log_offset.
    by rewrite take_app_length, Hc. }
  exists (Z.of_nat (length (content c))). do 2 eexists.
  split; [by apply transfer_eq|]. split; [exact Hr'|]. split; [exact Hload|].
  destruct Hwf as (Hb & Hcs & Hrs & Hsum). unfold cmd_bytes in Hcs.
  rewrite length_app, length_base_bytes in Hcs by apply Hb.
  unfold command_channel_load_get_data_region, cmd_bytes. cbn [lrec_cmd cmd_base cmd_rest].
  cbn [transferred lr_base lr_rest]. rewrite app_assoc.
  apply drop_app_length'. rewrite length_app, length_base_bytes by apply Hb.
  rewrite length_take. lia.
Qed.

(** A 140-byte command (four bytes of arguments) with a three-byte data region. *)
Definition sample_cmd : command :=
  mk_cmd 5 (mk_base 7 1 0 12 0 0 42 140 0 3 [0; 0; 0; 0; 0; 0; 0; 0]) [1; 2; 3; 4].

Lemma sample_cmd_wf : cmd_wf sample_cmd [21; 22; 23].
Proof.
  unfold cmd_wf, sample_cmd, base_wf, in_range, in_srange, sizeof_command_base; cbn.
  split_and!; try lia. repeat constructor; unfold in_range; lia.
Qed.

Lemma log_repr_new : log_repr (command_channel_log_new true true) [] 0.
Proof. by split_and!. Qed.

Lemma log_transfer_load_roundtrip_witness :
  ∃ pos c' c'', command_channel_log_transfer_command (command_channel_log_new true true)
      [21; 22; 23] sample_cmd = Ok (pos, c') ∧
    log_repr c' ([] ++ [transferred sample_cmd [21; 22; 23]]) 0 ∧
    command_channel_log_load_command c' heap_empty pos =
      Ok (Some (lrec_cmd (next_addr heap_empty) (transferred sample_cmd [21; 22; 23]), 0),
          c'', (malloc heap_empty).2) ∧
    command_channel_load_get_data_region c''
      (lrec_cmd (next_addr heap_empty) (transferred sample_cmd [21; 22; 23])) =
      take (Z.to_nat 3) [21; 22; 23].
Proof.
  apply (log_transfer_load_roundtrip (command_channel_log_new true true) heap_empty [] 0
           sample_cmd [21; 22; 23]).
  - apply log_repr_new.
  - apply sample_cmd_wf.
Defined.

(** C9. Refinement: on any sequence of recorded commands and receptions, in any order, a new log
    channel behaves as a first-in first-out queue of messages: it never fails, each reception
    returns the oldest command not yet received with its struct and data region, and NULL
    exactly when there is none. *)
Theorem log_channel_refines_queue (ops : list chan_op) (h : heap) :
  Forall op_wf ops →
  chan_run ops (command_channel_log_new true true, h) = Ok (queue_run ops []).
Proof. intros Hops. apply chan_run_refines; [apply log_queue_new | done]. Qed.

Lemma log_channel_refines_queue_witness :
  chan_run [OpReceive; OpTransfer sample_cmd [21; 22; 23]; OpReceive; OpReceive]
    (command_channel_log_new true true, heap_empty) =
  Ok [None; None; Some (cmd_base sample_cmd, [1; 2; 3; 4; 21; 22; 23]); None].
Proof.
  rewrite (log_channel_refines_queue
    [OpReceive; OpTransfer sample_cmd [21; 22; 23]; OpReceive; OpReceive] heap_empty);
    [reflexivity|]. repeat constructor; apply sample_cmd_wf.
Defined.

(** Marking a record (as [ava_expunge_recorded_calls] does) changes the flags of that record
    and nothing else of the log. *)
Theorem log_update_flags_spec (c : command_channel_log) (rs : list lrec) (i j : nat) (r : lrec)
    (f : Z) :
  log_repr c rs i → rs !! j = Some r → in_range 32 f →
  ∃ c', command_channel_log_update_flags c (log_offset rs j) f = Ok c' ∧
    log_repr c' (<[j := set_lr_flags f r]> rs) i.
Proof. apply update_flags_eq. Qed.

Lemma log_update_flags_spec_witness :
  ∃ c', command_channel_log_update_flags
      (mk_log (log_bytes [transferred sample_cmd [21; 22; 23]; transferred sample_cmd [7; 8; 9]])
         0 0 true true)
      (log_offset [transferred sample_cmd [21; 22; 23]; transferred sample_cmd [7; 8; 9]] 1) 1 =
    Ok c' ∧
    log_repr c' (<[1%nat := set_lr_flags 1 (transferred sample_cmd [7; 8; 9])]>
      [transferred sample_cmd [21; 22; 23]; transferred sample_cmd [7; 8; 9]]) 0.
Proof.
  apply log_update_flags_spec.
  - split_and!; try reflexivity; [cbn; lia|]. apply Forall_cons. split.
    + apply (transferred_wf sample_cmd [21; 22; 23]), sample_cmd_wf.
    + apply Forall_singleton, (transferred_wf sample_cmd [7; 8; 9]). exact sample_cmd_wf.
  - reflexivity.
  - unfold in_range. lia.
Defined.

(** A command built in the log (allocated, filled in, one buffer attached, sent) becomes one
    record: whatever header fields and arguments the caller writes between the calls, the
    record holds them followed by the buffer, the identifier [attach_buffer] returned finds
    the buffer in the loaded command, and the command block is freed exactly once. *)
Theorem log_send_roundtrip (c : command_channel_log) (h : heap) (rs : list lrec) (i : nat)
    (css : Z) (data rest : list Z) (b : command_base) :
  log_repr c rs i → (∀ a, a ∈ live h → a < next_addr h) →
  Z.of_nat sizeof_command_base ≤ css → css + Z.of_nat (length data) < 2 ^ 62 →
  Z.of_nat (length (content c)) < 2 ^ 61 →
  base_wf b → command_size b = css →
  length rest = (Z.to_nat css - sizeof_command_base)%nat →
  ∃ cmd c1 h1, command_channel_new_command c h css (Z.of_nat (length data)) = Ok (cmd, c1, h1) ∧
    (reserved_area b = reserved_area (cmd_base cmd) →
     let filled := mk_cmd (cmd_addr cmd) b rest in
     let r := mk_lrec 0 b (rest ++ data) in
     ∃ id c2 c3 h3,
       command_channel_attach_buffer c1 filled (Some data) (Z.of_nat (length data)) =
         Ok (id, filled, c2) ∧
       command_channel_send_command c2 h1 filled = Ok (c3, h3) ∧
       log_repr c3 (rs ++ [r]) i ∧ live h3 = live h ∧
       command_channel_get_buffer c3 (lrec_cmd (next_addr h) r) id = Some data).
Proof. apply log_build_send. Qed.

(** A 140-byte command as [log_send_roundtrip] builds it at the start of a new log. *)
Definition sample_built : command_base :=
  mk_base 7 1 0 12 0 0 42 140 140 3 [16; 156; 0; 0; 0; 0; 0; 0].

Lemma log_send_roundtrip_witness :
  ∃ cmd c1 h1, command_channel_new_command (command_channel_log_new true true) heap_empty 140 3 =
      Ok (cmd, c1, h1) ∧
    (reserved_area sample_built = reserved_area (cmd_base cmd) →
     let filled := mk_cmd (cmd_addr cmd) sample_built [140; 0; 0; 0] in
     let r := mk_lrec 0 sample_built ([140; 0; 0; 0] ++ [21; 22; 23]) in
     ∃ id c2 c3 h3,
       command_channel_attach_buffer c1 filled (Some [21; 22; 23]) 3 = Ok (id, filled, c2) ∧
       command_channel_send_command c2 h1 filled = Ok (c3, h3) ∧
       log_repr c3 ([] ++ [r]) 0 ∧ live h3 = live heap_empty ∧
       command_channel_get_buffer c3 (lrec_cmd (next_addr heap_empty) r) id =
         Some [21; 22; 23]).
Proof.
  apply (log_send_roundtrip (command_channel_log_new true true) heap_empty [] 0 140
           [21; 22; 23] [140; 0; 0; 0] sample_built).
  - apply log_repr_new.
  - intros a Ha. cbn in Ha. set_solver.
  - vm_compute. congruence.
  - reflexivity.
  - reflexivity.
  - unfold base_wf, sample_built, in_range, in_srange; cbn. split_and!; try lia.
    repeat constructor; unfold in_range; lia.
  - reflexivity.
  - reflexivity.
Defined.

(** [command_channel_log_attach_buffer] does not advance [current_buffer_offset]: two buffers
    attached to the same command get the same identifier, and the second one is written over
    the first. *)
Theorem log_second_attach_overwrites (c : command_channel_log) (cmd : command)
    (start css : Z) (rest d1 d2 : list Z) :
  fd_open c = true → disk_ok c = true → 0 ≤ start → 0 ≤ css → start + css < 2 ^ 63 →
  reserved_area (cmd_base cmd) = start :: (start + css) :: rest →
  ∃ c1 c2,
    command_channel_attach_buffer c cmd (Some d1) (Z.of_nat (length d1)) = Ok (css, cmd, c1) ∧
    command_channel_attach_buffer c1 cmd (Some d2) (Z.of_nat (length d2)) = Ok (css, cmd, c2) ∧
    slice (Z.to_nat (start + css)) (length d2) (content c2) = d2.
Proof.
  intros Hfd Hd Hs Hc Hsum Hres. do 2 eexists. split; [by apply (attach_eq c cmd start css d1 rest)|].
  split; [by eapply (attach_eq _ cmd start css d2 rest)|]. apply slice_pwrite_same.
Qed.

Lemma log_second_attach_overwrites_witness :
  ∃ c1 c2,
    command_channel_attach_buffer (command_channel_log_new true true)
      (mk_cmd 1 sample_built []) (Some [1; 2]) 2 = Ok (140, mk_cmd 1 sample_built [], c1) ∧
    command_channel_attach_buffer c1 (mk_cmd 1 sample_built []) (Some [3; 4]) 2 =
      Ok (140, mk_cmd 1 sample_built [], c2) ∧
    slice (Z.to_nat (16 + 140)) 2 (content c2) = [3; 4].
Proof.
  apply (log_second_attach_overwrites (command_channel_log_new true true)
           (mk_cmd 1 sample_built []) 16 140 [0; 0; 0; 0; 0; 0] [1; 2] [3; 4]);
    reflexivity || lia.
Defined.
