(* ===== verification/ShmChannel.v ===== *)
(** * The shared-memory channel (common/cmd_channel_shm.c, common/cmd_channel_shm_worker.c)

    Guest and worker share one parameter block (a byte array); command structs travel over a
    socket, their data regions stay in the block.  The guest allocates in the first half of the
    block, the worker in the second.  The two source files are near copies; the guest functions
    are [shm_*] here and the worker functions [shmw_*]. *)

From S2P Require Import Prelude Channel LogChannel.
Local Open Scope Z_scope.

(** [struct param_block] without the mapping address: [base] is the start of [shm_mem]. *)
Record param_block := mk_pb {
  pb_size : Z;
  pb_offset : Z;
  pb_cur_offset : Z
}.

(** Outcome of [poll] on the socket. *)
Inductive poll_result := PollError | PollNothing | PollHup | PollIn.

Record command_channel_shm := mk_shm {
  shm_mem : list Z;
  shm_block : param_block;
  shm_vm_id : Z;
  sock_in : list Z;
  sock_out : list Z;
  sock_poll : poll_result
}.

Definition set_block (b : param_block) (c : command_channel_shm) : command_channel_shm :=
  mk_shm (shm_mem c) b (shm_vm_id c) (sock_in c) (sock_out c) (sock_poll c).
Definition set_mem (m : list Z) (c : command_channel_shm) : command_channel_shm :=
  mk_shm m (shm_block c) (shm_vm_id c) (sock_in c) (sock_out c) (sock_poll c).
Definition set_in (s : list Z) (c : command_channel_shm) : command_channel_shm :=
  mk_shm (shm_mem c) (shm_block c) (shm_vm_id c) s (sock_out c) (sock_poll c).
Definition set_out (s : list Z) (c : command_channel_shm) : command_channel_shm :=
  mk_shm (shm_mem c) (shm_block c) (shm_vm_id c) (sock_in c) s (sock_poll c).

(** [struct block_seeker] in [reserved_area]: words 1 and 2. *)
Definition seeker_local (b : command_base) : Z := get_reserved 1 b.
Definition seeker_cur (b : command_base) : Z := get_reserved 2 b.

(** [recv_socket] over a queue of bytes: waits for [n] bytes. *)
Definition queue_recv (n : Z) (c : command_channel_shm) : res (list Z * command_channel_shm) :=
  if n <=? Z.of_nat (length (sock_in c))
  then Ok (take (Z.to_nat n) (sock_in c), set_in (drop (Z.to_nat n) (sock_in c)) c)
  else Stop (Blocked "recv_socket").

Definition queue_send (data : list Z) (c : command_channel_shm) : command_channel_shm :=
  set_out (sock_out c ++ data) c.

(** ** Guest side *)

Definition shm_buffer_size (c : command_channel_shm) (size : Z) : Z := size.

Definition shm_reserve_param_block (block : param_block) (size : Z) : Z * param_block :=
  let cur := if pb_size block / 2 <=? u64 (pb_cur_offset block + size)
             then 0 else pb_cur_offset block in
  (cur, mk_pb (pb_size block) (pb_offset block) (u64 (cur + size))).

Definition shm_new_command (c : command_channel_shm) (h : heap)
    (command_struct_size data_region_size : Z)
    : res (command * command_channel_shm * heap) :=
  let '(addr, h) := malloc h in
  if command_struct_size <? Z.of_nat sizeof_command_base
  then Stop (Undefined "command smaller than struct command_base")
  else
    let rest := replicate (Z.to_nat command_struct_size - sizeof_command_base) 0 in
    if data_region_size =? 0
    then Ok (mk_cmd addr (mk_base 0 (u8 (shm_vm_id c)) 0 0 0 0 0 command_struct_size 0 0
                            (replicate 8 0)) rest, c, h)
    else
      let data_region_size := u64 (data_region_size + 0x4) in
      let '(local, block) := shm_reserve_param_block (shm_block c) data_region_size in
      Ok (mk_cmd addr
            (mk_base 0 (u8 (shm_vm_id c)) 0 0 0 0 0 command_struct_size
               (u64 (local + pb_offset block)) data_region_size
               [0; local; u64 (local + 0x4); 0; 0; 0; 0; 0]) rest,
          set_block block c, h).

Definition shm_attach_buffer (c : command_channel_shm) (cmd : command)
    (buffer : option (list Z)) (size : Z) : res (Z * command * command_channel_shm) :=
  match buffer with
  | None => Stop (AssertFailed "buffer && size != 0")
  | Some data =>
      _ ← c_assert (negb (size =? 0)) "buffer && size != 0";
      let b := cmd_base cmd in
      let offset := u64 (seeker_cur b - seeker_local b) in
      let cmd := upd_base (set_reserved 2 (u64 (seeker_cur b + size))) cmd in
      bytes ← read_bytes size data;
      mem ← mem_copy (seeker_local b + offset) bytes (shm_mem c);
      Ok (offset, cmd, set_mem mem c)
  end.

Definition shm_send_command (c : command_channel_shm) (h : heap) (cmd : command)
    : res (command_channel_shm * heap) :=
  let cmd := upd_base (set_command_type NW_NEW_INVOCATION) cmd in
  bytes ← read_bytes (command_size (cmd_base cmd)) (cmd_bytes cmd);
  let c := queue_send bytes c in
  h ← c_free (cmd_addr cmd) h;
  Ok (c, h).

(** The header fields copied onto a transferred command. *)
Definition transfer_header (cmd new_cmd : command) : command :=
  let b := cmd_base cmd in
  upd_base (λ nb, set_vm_id (vm_id b) (set_flags (flags b) (set_command_type (command_type b)
    (set_command_id (command_id b) (set_api_id (api_id b) nb))))) new_cmd.

Definition shm_transfer_command (c : command_channel_shm) (h : heap) (region : list Z)
    (cmd : command) : res (command_channel_shm * heap) :=
  let b := cmd_base cmd in
  '(new_cmd, c, h) ← shm_new_command c h (command_size b) (region_size b);
  let new_cmd := transfer_header cmd new_cmd in
  '(_, new_cmd, c) ← shm_attach_buffer c new_cmd (Some region) (region_size b);
  shm_send_command c h new_cmd.

(** The two [recv_socket] calls of a reception: the header, then the rest of the struct. *)
Definition shm_recv_message (c : command_channel_shm) (h : heap)
    : res (option command * command_channel_shm * heap) :=
  '(hdr, c) ← queue_recv (Z.of_nat sizeof_command_base) c;
  let size := command_size (base_of_bytes hdr) in
  let '(addr, h) := malloc h in
  if size <? Z.of_nat sizeof_command_base
  then Stop (Undefined "memcpy past the received command")
  else
    '(rest, c) ← queue_recv (size - Z.of_nat sizeof_command_base) c;
    Ok (Some (mk_cmd addr (base_of_bytes hdr) rest), c, h).

Definition shm_receive_command (c : command_channel_shm) (h : heap)
    : res (option command * command_channel_shm * heap) :=
  match sock_poll c with
  | PollError => Stop (Exited 0)
  | PollNothing => Ok (None, c, h)
  | PollHup => Stop (Exited 0)
  | PollIn => shm_recv_message c h
  end.

Definition shm_get_buffer (c : command_channel_shm) (cmd : command) (buffer_id : Z)
    : option (list Z) :=
  if buffer_id =? 0 then None
  else Some (drop (Z.to_nat (seeker_local (cmd_base cmd) + buffer_id)) (shm_mem c)).

Definition shm_get_data_region (c : command_channel_shm) (cmd : command) : list Z :=
  drop (Z.to_nat (seeker_local (cmd_base cmd))) (shm_mem c).

Definition shm_free_command (c : command_channel_shm) (h : heap) (cmd : command) : res heap :=
  c_free (cmd_addr cmd) h.

(** The block is unmapped and the descriptors are closed. *)
Definition shm_free (c : command_channel_shm) : res command_channel_shm :=
  Ok (mk_shm [] (shm_block c) (shm_vm_id c) [] [] PollNothing).

Definition shm_vtable : command_channel_vtable command_channel_shm := {|
  vt_buffer_size := shm_buffer_size;
  vt_new_command := shm_new_command;
  vt_attach_buffer := shm_attach_buffer;
  vt_send_command := shm_send_command;
  vt_transfer_command := shm_transfer_command;
  vt_receive_command := shm_receive_command;
  vt_get_buffer := shm_get_buffer;
  vt_get_data_region := shm_get_data_region;
  vt_free_command := shm_free_command;
  vt_free := shm_free
|}.

(** Both ends free a command they were given. *)
Definition shm_frees : @FreesCommands command_channel_shm shm_vtable := λ c h cmd, eq_refl.

(** ** Worker side *)

Definition shmw_buffer_size (c : command_channel_shm) (size : Z) : Z := size.

Definition shmw_reserve_param_block (block : param_block) (size : Z) : Z * param_block :=
  let cur := if pb_size block <=? u64 (pb_cur_offset block + size)
             then pb_size block / 2 else pb_cur_offset block in
  (cur, mk_pb (pb_size block) (pb_offset block) (u64 (cur + size))).

Definition shmw_new_command (c : command_channel_shm) (h : heap)
    (command_struct_size data_region_size : Z)
    : res (command * command_channel_shm * heap) :=
  let '(addr, h) := malloc h in
  if command_struct_size <? Z.of_nat sizeof_command_base
  then Stop (Undefined "command smaller than struct command_base")
  else
    let rest := replicate (Z.to_nat command_struct_size - sizeof_command_base) 0 in
    if data_region_size =? 0
    then Ok (mk_cmd addr (mk_base 0 (u8 (shm_vm_id c)) 0 0 0 0 0 command_struct_size 0 0
                            (replicate 8 0)) rest, c, h)
    else
      let data_region_size := u64 (data_region_size + 0x4) in
      let '(local, block) := shmw_reserve_param_block (shm_block c) data_region_size in
      Ok (mk_cmd addr
            (mk_base 0 (u8 (shm_vm_id c)) 0 0 0 0 0 command_struct_size
               local data_region_size
               [0; local; u64 (local + 0x4); 0; 0; 0; 0; 0]) rest,
          set_block block c, h).

Definition shmw_attach_buffer (c : command_channel_shm) (cmd : command)
    (buffer : option (list Z)) (size : Z) : res (Z * command * command_channel_shm) :=
  match buffer with
  | None => Stop (AssertFailed "buffer && size != 0")
  | Some data =>
      _ ← c_assert (negb (size =? 0)) "buffer && size != 0";
      let b := cmd_base cmd in
      let offset := u64 (seeker_cur b - seeker_local b) in
      let cmd := upd_base (set_reserved 2 (u64 (seeker_cur b + size))) cmd in
      bytes ← read_bytes size data;
      mem ← mem_copy (seeker_local b + offset) bytes (shm_mem c);
      Ok (offset, cmd, set_mem mem c)
  end.

Definition shmw_send_command (c : command_channel_shm) (h : heap) (cmd : command)
    : res (command_channel_shm * heap) :=
  bytes ← read_bytes (command_size (cmd_base cmd)) (cmd_bytes cmd);
  let c := queue_send bytes c in
  h ← c_free (cmd_addr cmd) h;
  Ok (c, h).

Definition shmw_transfer_command (c : command_channel_shm) (h : heap) (region : list Z)
    (cmd : command) : res (command_channel_shm * heap) :=
  let b := cmd_base cmd in
  '(new_cmd, c, h) ← shmw_new_command c h (command_size b) (region_size b);
  let new_cmd := transfer_header cmd new_cmd in
  '(_, new_cmd, c) ← shmw_attach_buffer c new_cmd (Some region) (region_size b);
  shmw_send_command c h new_cmd.

Definition shmw_receive_command (c : command_channel_shm) (h : heap)
    : res (option command * command_channel_shm * heap) :=
  match sock_poll c with
  | PollError => Stop (Exited (-1))
  | PollNothing => Ok (None, c, h)
  | PollHup => Stop (Exited (-1))
  | PollIn => shm_recv_message c h
  end.

Definition shmw_get_buffer (c : command_channel_shm) (cmd : command) (buffer_id : Z)
    : option (list Z) :=
  if buffer_id =? 0 then None
  else Some (drop (Z.to_nat (seeker_local (cmd_base cmd) + buffer_id)) (shm_mem c)).

Definition shmw_get_data_region (c : command_channel_shm) (cmd : command) : list Z :=
  drop (Z.to_nat (seeker_local (cmd_base cmd))) (shm_mem c).

Definition shmw_free_command (c : command_channel_shm) (h : heap) (cmd : command) : res heap :=
  c_free (cmd_addr cmd) h.

(** The memory is unmapped; the sockets stay open. *)
Definition shmw_free (c : command_channel_shm) : res command_channel_shm :=
  Ok (mk_shm [] (shm_block c) (shm_vm_id c) (sock_in c) (sock_out c) (sock_poll c)).

Definition shmw_vtable : command_channel_vtable command_channel_shm := {|
  vt_buffer_size := shmw_buffer_size;
  vt_new_command := shmw_new_command;
  vt_attach_buffer := shmw_attach_buffer;
  vt_send_command := shmw_send_command;
  vt_transfer_command := shmw_transfer_command;
  vt_receive_command := shmw_receive_command;
  vt_get_buffer := shmw_get_buffer;
  vt_get_data_region := shmw_get_data_region;
  vt_free_command := shmw_free_command;
  vt_free := shmw_free
|}.

Definition shmw_frees : @FreesCommands command_channel_shm shmw_vtable := λ c h cmd, eq_refl.

(** ** Setting a channel up *)

Definition AVA_APP_SHM_SIZE_DEFAULT : Z := 256 * 2 ^ 20.
Definition AVA_GUEST_SHM_SIZE : Z := 512 * 2 ^ 20.

(** [command_channel_shm_new].  The environment: whether the device opens, the results of the two
    ioctls, the mapped block, the content of the [malloc]ed [cur_offset] (which the function does
    not set), the port parsed from AVA_MANAGER_ADDR, the current [nw_worker_id] and the manager's
    reply.  Returns the channel, the message sent to the manager, the new [nw_worker_id] and the
    heap. *)
Definition command_channel_shm_new (opened : bool) (ioctl_vm_id ioctl_shm : Z) (mapped : list Z)
    (uninit : Z) (manager_port : option Z) (nw_worker_id : Z) (h : heap) (reply : list Z)
    : res (command_channel_shm * list Z * Z * heap) :=
  if negb opened then Stop (Exited (-1))
  else if ioctl_vm_id <=? 0 then Stop (Exited (-1))
  else
    let block := mk_pb AVA_APP_SHM_SIZE_DEFAULT (u64 ioctl_shm) uninit in
    let c := mk_shm mapped block ioctl_vm_id [] [] PollNothing in
    match manager_port with
    | None => Stop (AssertFailed "AVA_MANAGER_ADDR is not set")
    | Some port =>
        _ ← c_assert (0 <? port) "Invalid manager port";
        '(msg, c, h) ← shm_new_command c h (Z.of_nat sizeof_command_base) 0;
        let msg := upd_base (set_command_type NW_NEW_APPLICATION) msg in
        let msg := upd_base (set_reserved 0 (pb_offset block)) msg in
        let msg := upd_base (set_reserved 1 (pb_size block)) msg in
        sent ← read_bytes (Z.of_nat sizeof_command_base) (cmd_bytes msg);
        if Z.of_nat (length reply) <? Z.of_nat sizeof_command_base
        then Stop (Blocked "recv_socket")
        else
          let worker_port := get_reserved 0 (base_of_bytes reply) in
          _ ← c_assert (nw_worker_id =? 0) "nw_worker_id == 0";
          h ← shm_free_command c h msg;
          Ok (c, sent, signed 32 worker_port, h)
    end.

(** [struct command_handler_initialize_api_command]: [new_api_id] and [pb_info] follow the base. *)
Definition sizeof_initialize_api_command : nat := 160.
Definition initialize_api_bytes (b : command_base) (new_api_id offset size : Z) : list Z :=
  base_bytes b ++ le_bytes 8 new_api_id ++ le_bytes 8 offset ++ le_bytes 8 size.

(** [command_channel_shm_worker_new]; [host_mem] is the mapped device memory, [init_msg] what
    arrives on the accepted connection.  Returns the channel and the new [nw_worker_id]. *)
Definition command_channel_shm_worker_new (listen_port nw_worker_id : Z) (opened : bool)
    (host_mem : option (list Z)) (init_msg : list Z) (notified : bool)
    : res (command_channel_shm * Z) :=
  _ ← c_assert (nw_worker_id =? 0) "nw_worker_id == 0";
  if negb opened then Stop (Exited 0)
  else
    match host_mem with
    | None => Stop (Exited 0)
    | Some mem =>
        if (length init_msg <? sizeof_initialize_api_command)%nat
        then Stop (Blocked "recv_socket")
        else
          let vm := vm_id (base_of_bytes init_msg) in
          let offset := word_at 144 init_msg in
          let size := word_at 152 init_msg in
          let base := (vm - 1) * AVA_GUEST_SHM_SIZE + offset in
          if (base <? 0) || (Z.of_nat (length mem) <? base)
          then Stop (Undefined "parameter block outside the mapped memory")
          else if negb notified then Stop (Exited 0)
          else Ok (mk_shm (drop (Z.to_nat base) mem) (mk_pb size offset (Z.shiftr size 1)) vm
                     (drop sizeof_initialize_api_command init_msg) [] PollIn,
                   listen_port)
    end.

(** ** Sequences of calls *)

(** Reservations one after the other, with the regions they return. *)
Fixpoint reserve_all (reserve : param_block → Z → Z * param_block) (b : param_block)
    (sizes : list Z) : list (Z * Z) * param_block :=
  match sizes with
  | [] => ([], b)
  | n :: sizes =>
      let '(off, b) := reserve b n in
      let '(l, b) := reserve_all reserve b sizes in
      ((off, n) :: l, b)
  end.

(** Attaches buffers one after the other. *)
Fixpoint attach_all (c : command_channel_shm) (cmd : command) (bufs : list (list Z))
    : res (list Z * command * command_channel_shm) :=
  match bufs with
  | [] => Ok ([], cmd, c)
  | d :: bufs =>
      '(id, cmd, c) ← shm_attach_buffer c cmd (Some d) (Z.of_nat (length d));
      '(ids, cmd, c) ← attach_all c cmd bufs;
      Ok (id :: ids, cmd, c)
  end.

(** The worker that shares the guest's block and reads what the guest sent. *)
Definition worker_of (g : command_channel_shm) (block : param_block) (vm : Z)
    : command_channel_shm :=
  mk_shm (shm_mem g) block vm (sock_out g) [] PollIn.

(** Identifiers of buffers that are laid out one after the other from [start]. *)
Fixpoint buf_ids (start : Z) (bufs : list (list Z)) : list Z :=
  match bufs with
  | [] => []
  | d :: bufs => start :: buf_ids (start + Z.of_nat (length d)) bufs
  end.

(** ** Lemmas *)

Lemma reserve_all_inv reserve (P : param_block → Prop) (Q : Z → Z → Prop) b sizes l b' :
  (∀ b n, P b → n ∈ sizes → Q (fst (reserve b n)) n ∧ P (snd (reserve b n))) →
  P b → reserve_all reserve b sizes = (l, b') → Forall (λ r, Q (fst r) (snd r)) l ∧ P b'.
Proof.
  revert b l b'. induction sizes as [|n sizes IH]; intros b l b' Hstep Hb; cbn [reserve_all].
  { intros [= <- <-]. by split. }
  destruct (Hstep b n Hb ltac:(set_solver)) as [Hq Hp].
  destruct (reserve b n) as [off b1]. destruct (reserve_all reserve b1 sizes) as [l1 b2] eqn:Hr.
  intros [= <- <-]. cbn in *. destruct (IH b1 l1 b2) as [Hl Hb2]; [|done..|].
  - intros b0 m Hb0 Hm. apply Hstep; set_solver.
  - split; [by constructor|done].
Qed.

Lemma seeker_set b v :
  length (reserved_area b) = 8%nat →
  seeker_local (set_reserved 2 v b) = seeker_local b ∧ seeker_cur (set_reserved 2 v b) = v ∧
  length (reserved_area (set_reserved 2 v b)) = 8%nat.
Proof.
  destruct b as [? ? ? ? ? ? ? ? ? ? l]; unfold seeker_local, seeker_cur, get_reserved; cbn.
  intros H. do 8 (destruct l as [|? l]; [done|]). by destruct l.
Qed.

Lemma set_reserved_twice i v w b : set_reserved i v (set_reserved i w b) = set_reserved i v b.
Proof. unfold set_reserved. cbn. by rewrite list_insert_insert, decide_True. Qed.

(** The effect of [attach_buffer] when the buffer fits. *)
Lemma shm_attach_eq c cmd local cur d :
  length (reserved_area (cmd_base cmd)) = 8%nat →
  seeker_local (cmd_base cmd) = local → seeker_cur (cmd_base cmd) = cur →
  d ≠ [] → 0 ≤ local ≤ cur → cur + Z.of_nat (length d) ≤ Z.of_nat (length (shm_mem c)) →
  Z.of_nat (length (shm_mem c)) < 2 ^ 64 →
  shm_attach_buffer c cmd (Some d) (Z.of_nat (length d)) =
    Ok (cur - local, upd_base (set_reserved 2 (cur + Z.of_nat (length d))) cmd,
        set_mem (pwrite (Z.to_nat cur) d (shm_mem c)) c).
Proof.
  intros Hlen Hl Hc Hd Hle Hfit Hmem. unfold shm_attach_buffer. rewrite Hl, Hc.
  assert (length d ≠ 0)%nat by by destruct d.
  rewrite (proj2 (Z.eqb_neq _ _)) by lia. cbn [negb c_assert mbind res_bind].
  rewrite read_bytes_all by done. cbn [mbind res_bind].
  rewrite !wrap_small by (unfold in_range; lia). unfold mem_copy.
  replace (local + (cur - local)) with cur by lia.
  by rewrite (proj2 (Z.leb_le _ _)) by lia.
Qed.

Lemma attach_all_eq c cmd local cur bufs :
  length (reserved_area (cmd_base cmd)) = 8%nat →
  seeker_local (cmd_base cmd) = local → seeker_cur (cmd_base cmd) = cur →
  Forall (λ d, d ≠ []) bufs → 0 ≤ local ≤ cur →
  cur + Z.of_nat (length (mjoin bufs)) ≤ Z.of_nat (length (shm_mem c)) →
  Z.of_nat (length (shm_mem c)) < 2 ^ 64 →
  ∃ cmd' c', attach_all c cmd bufs = Ok (buf_ids (cur - local) bufs, cmd', c') ∧
    cmd_base cmd' = set_reserved 2 (cur + Z.of_nat (length (mjoin bufs))) (cmd_base cmd) ∧
    cmd_addr cmd' = cmd_addr cmd ∧ cmd_rest cmd' = cmd_rest cmd ∧
    c' = set_mem (take (Z.to_nat cur) (shm_mem c) ++ mjoin bufs ++
                  drop (Z.to_nat cur + length (mjoin bufs)) (shm_mem c)) c.
Proof.
  revert c cmd cur. induction bufs as [|d bufs IH]; intros c cmd cur Hlen Hl Hc Hall Hle Hfit Hm.
  - exists cmd, c. destruct c, cmd as [a b r]. cbn in *. rewrite Nat.add_0_r, take_drop, Z.add_0_r.
    split_and!; try done. rewrite <- Hc. destruct b as [? ? ? ? ? ? ? ? ? ? l].
    unfold set_reserved, seeker_cur, get_reserved. cbn in *. f_equal.
    symmetry. apply list_insert_id. do 3 (destruct l as [|? l]; [done|]). done.
  - apply Forall_cons in Hall as [Hd Hall].
    change (mjoin (d :: bufs)) with (d ++ mjoin bufs) in *. rewrite length_app in Hfit.
    cbn [attach_all buf_ids].
    rewrite (shm_attach_eq c cmd local cur d) by (done || lia). cbn [mbind res_bind].
    destruct (seeker_set (cmd_base cmd) (cur + Z.of_nat (length d)) Hlen) as (H1 & H2 & H3).
    set (c1 := set_mem _ c).
    assert (length (shm_mem c1) = length (shm_mem c)) as Hlm.
    { cbn. rewrite pwrite_in by lia.
      rewrite !length_app, length_take, length_drop. lia. }
    destruct (IH c1 (upd_base (set_reserved 2 (cur + Z.of_nat (length d))) cmd)
                (cur + Z.of_nat (length d))) as (cmd' & c' & Heq & Hb & Ha & Hr & ->);
      [done|by rewrite <- Hl|done|done|lia|rewrite Hlm; lia|by rewrite Hlm|].
    rewrite Heq. cbn [mbind res_bind]. eexists _, _. split.
    { do 4 f_equal. by replace (cur + Z.of_nat (length d) - local)
        with (cur - local + Z.of_nat (length d)) by lia. }
    split_and!; [|done..|].
    + rewrite Hb. cbn. rewrite set_reserved_twice. f_equal. rewrite length_app. lia.
    + unfold c1, set_mem. cbn. f_equal. rewrite pwrite_in by lia.
      rewrite take_app, length_take, Nat.min_l, take_take, Nat.min_r by lia.
      replace (Z.to_nat (cur + Z.of_nat (length d)) - Z.to_nat cur)%nat with (length d) by lia.
      rewrite take_app_length, <- !app_assoc. do 3 f_equal.
      rewrite drop_app, length_take, Nat.min_l, drop_ge by (rewrite ?length_take; lia).
      cbn [app]. rewrite drop_app, drop_ge by lia. cbn [app]. rewrite drop_drop.
      f_equal. rewrite length_app. lia.
Qed.

Lemma buf_ids_lookup s bufs i id d :
  buf_ids s bufs !! i = Some id → bufs !! i = Some d →
  ∃ pre post, mjoin bufs = pre ++ d ++ post ∧ id = s + Z.of_nat (length pre).
Proof.
  revert s i. induction bufs as [|b bufs IH]; intros s i Hid Hd; [done|].
  change (mjoin (b :: bufs)) with (b ++ mjoin bufs).
  destruct i as [|i]; cbn in *.
  - simplify_eq. exists [], (mjoin bufs). split; [done|]. cbn. lia.
  - destruct (IH _ _ Hid Hd) as (pre & post & -> & ->). exists (b ++ pre), post.
    rewrite <- app_assoc, length_app. split; [done|]. lia.
Qed.

(** A command that was sent whole is received whole. *)
Lemma recv_message_eq c h addr cmd tail :
  base_wf (cmd_base cmd) → command_size (cmd_base cmd) = Z.of_nat (length (cmd_bytes cmd)) →
  sock_in c = cmd_bytes cmd ++ tail → addr = next_addr h →
  shm_recv_message c h =
    Ok (Some (mk_cmd addr (cmd_base cmd) (cmd_rest cmd)), set_in tail c, snd (malloc h)).
Proof.
  intros Hwf Hsz Hin ->. unfold shm_recv_message, queue_recv. rewrite Hin.
  assert (length (base_bytes (cmd_base cmd)) = sizeof_command_base) as Hlb
    by apply length_base_bytes, Hwf.
  unfold cmd_bytes in *. rewrite length_app, Hlb in Hsz.
  change sizeof_command_base with 136%nat in *.
  rewrite (proj2 (Z.leb_le _ _)) by (rewrite !length_app, Hlb; lia). cbn [mbind res_bind].
  rewrite Nat2Z.id, <- app_assoc, <- Hlb, take_app_length, drop_app_length, Hlb.
  rewrite <- (app_nil_r (base_bytes _)), base_of_bytes_of_base by done.
  unfold malloc. rewrite (proj2 (Z.ltb_ge _ _)) by lia. cbn [set_in sock_in].
  rewrite (proj2 (Z.leb_le _ _)) by (rewrite length_app; lia).
  replace (Z.to_nat _) with (length (cmd_rest cmd)) by lia.
  cbn [mbind res_bind]. by rewrite take_app_length, drop_app_length.
Qed.

(** Offsets of consecutive reservations. *)
Fixpoint consecutive (start : Z) (sizes : list Z) : list (Z * Z) :=
  match sizes with
  | [] => []
  | n :: sizes => (start, n) :: consecutive (start + n) sizes
  end.

Lemma reserve_all_consecutive b sizes :
  Forall (λ n, 0 < n) sizes → 0 ≤ pb_cur_offset b → pb_size b < 2 ^ 64 →
  pb_cur_offset b + Z.of_nat (sum_list_with Z.to_nat sizes) < pb_size b / 2 →
  fst (reserve_all shm_reserve_param_block b sizes) = consecutive (pb_cur_offset b) sizes.
Proof.
  revert b. induction sizes as [|n sizes IH]; intros b Hall H0 Hs Hsum; [done|].
  apply Forall_cons in Hall as [Hn Hall]. cbn [sum_list_with] in Hsum.
  pose proof (Z.div_mod (pb_size b) 2 ltac:(lia)) as Hdiv.
  pose proof (Z.mod_pos_bound (pb_size b) 2 ltac:(lia)) as Hmod.
  cbn [reserve_all consecutive]. unfold shm_reserve_param_block at 1.
  rewrite (wrap_small _ (pb_cur_offset b + n)) by (unfold in_range; lia).
  rewrite (proj2 (Z.leb_gt _ _)) by lia. rewrite wrap_small by (unfold in_range; lia).
  specialize (IH (mk_pb (pb_size b) (pb_offset b) (pb_cur_offset b + n)) Hall).
  destruct (reserve_all _ _ sizes) as [l b']. cbn in *. rewrite IH by lia. done.
Qed.

(** ** Properties *)

(** The two sides never allocate in each other's half of the parameter block.  Whatever
    sequences of regions the guest and the worker reserve, each smaller than half the block,
    every guest region lies below every worker region and both lie inside the block; and as
    long as the guest's requests together fit its half, they are handed out one after the
    other, so the live guest regions do not overlap either. *)
Theorem shm_reservations_disjoint (g w g' w' : param_block) (gsizes wsizes : list Z)
    (gl wl : list (Z * Z)) :
  pb_size g = pb_size w → 0 ≤ pb_size g < 2 ^ 63 →
  0 ≤ pb_cur_offset g < 2 ^ 63 → pb_size g / 2 ≤ pb_cur_offset w < 2 ^ 63 →
  Forall (λ n, 0 < n < pb_size g / 2) gsizes → Forall (λ n, 0 < n < pb_size g / 2) wsizes →
  reserve_all shm_reserve_param_block g gsizes = (gl, g') →
  reserve_all shmw_reserve_param_block w wsizes = (wl, w') →
  (∀ r1 r2, r1 ∈ gl → r2 ∈ wl →
    0 ≤ fst r1 ∧ fst r1 + snd r1 ≤ fst r2 ∧ fst r2 + snd r2 ≤ pb_size g) ∧
  (pb_cur_offset g + Z.of_nat (sum_list_with Z.to_nat gsizes) < pb_size g / 2 →
   gl = consecutive (pb_cur_offset g) gsizes).
Proof.
  intros Hsz Hr Hg Hw Hgs Hws Hgl Hwl. rewrite Forall_forall in Hgs, Hws.
  assert (pb_size g = 2 * (pb_size g / 2) + pb_size g mod 2) as Hdiv by (apply Z.div_mod; lia).
  pose proof (Z.mod_pos_bound (pb_size g) 2 ltac:(lia)) as Hmod.
  split.
  - destruct (reserve_all_inv shm_reserve_param_block
      (λ b, pb_size b = pb_size g ∧ 0 ≤ pb_cur_offset b < 2 ^ 63)
      (λ off n, 0 ≤ off ∧ off + n < pb_size g / 2) g gsizes gl g') as [Hl1 _]; [|by split|done|].
    { intros b n [Hb Hc] Hn%Hgs. unfold shm_reserve_param_block. rewrite Hb.
      rewrite (wrap_small _ (pb_cur_offset b + n)) by (unfold in_range; lia).
      destruct (Z.leb_spec (pb_size g / 2) (pb_cur_offset b + n)); cbn;
        rewrite wrap_small by (unfold in_range; lia); lia. }
    destruct (reserve_all_inv shmw_reserve_param_block
      (λ b, pb_size b = pb_size g ∧ pb_size g / 2 ≤ pb_cur_offset b < 2 ^ 63)
      (λ off n, pb_size g / 2 ≤ off ∧ off + n ≤ pb_size g) w wsizes wl w') as [Hl2 _];
      [|by split|done|].
    { intros b n [Hb Hc] Hn%Hws. unfold shmw_reserve_param_block. rewrite Hb.
      rewrite (wrap_small _ (pb_cur_offset b + n)) by (unfold in_range; lia).
      destruct (Z.leb_spec (pb_size g) (pb_cur_offset b + n)); cbn;
        rewrite wrap_small by (unfold in_range; lia); lia. }
    rewrite Forall_forall in Hl1, Hl2.
    intros r1 r2 H1%Hl1 H2%Hl2. cbn in *. lia.
  - intros Hsum. rewrite <- (reserve_all_consecutive g gsizes); [by rewrite Hgl| |lia..].
    apply Forall_forall. intros n Hn%Hgs. lia.
Qed.

Lemma shm_reservations_disjoint_witness :
  (∀ r1 r2, r1 ∈ [(0, 20); (20, 20); (0, 30)] → r2 ∈ [(50, 40); (50, 45)] →
    0 ≤ fst r1 ∧ fst r1 + snd r1 ≤ fst r2 ∧ fst r2 + snd r2 ≤ 100) ∧
  (0 + Z.of_nat (sum_list_with Z.to_nat [20; 20; 30]) < 100 / 2 →
   [(0, 20); (20, 20); (0, 30)] = consecutive 0 [20; 20; 30]).
Proof.
  apply (shm_reservations_disjoint (mk_pb 100 0 0) (mk_pb 100 0 50) (mk_pb 100 0 30)
           (mk_pb 100 0 95) [20; 20; 30] [40; 45]);
    try (vm_compute; reflexivity); cbn [pb_size pb_cur_offset]; change (100 / 2) with 50;
    try lia; rewrite ?Forall_cons, Forall_nil; lia.
Defined.

(** The parameter block is mapped completely and is large enough to be addressed. *)
Definition block_ok (c : command_channel_shm) : Prop :=
  pb_size (shm_block c) = Z.of_nat (length (shm_mem c)) ∧ pb_size (shm_block c) < 2 ^ 63 ∧
  0 ≤ pb_cur_offset (shm_block c) < 2 ^ 63.

Lemma shm_new_command_eq c h css total :
  block_ok c → Z.of_nat sizeof_command_base ≤ css → 0 < total →
  total + 4 < pb_size (shm_block c) / 2 →
  ∃ local b block, shm_new_command c h css total =
      Ok (mk_cmd (next_addr h) b (replicate (Z.to_nat css - sizeof_command_base) 0),
          set_block block c, snd (malloc h)) ∧
    0 ≤ local ∧ local + 4 + total ≤ Z.of_nat (length (shm_mem c)) ∧
    reserved_area b = [0; local; local + 4; 0; 0; 0; 0; 0].
Proof.
  intros (Hsz & Hlt & Hcur) Hcss Htot Hfit. unfold shm_new_command, malloc.
  rewrite (proj2 (Z.ltb_ge _ _)) by lia. rewrite (proj2 (Z.eqb_neq _ _)) by lia.
  pose proof (Z.div_mod (pb_size (shm_block c)) 2 ltac:(lia)).
  pose proof (Z.mod_pos_bound (pb_size (shm_block c)) 2 ltac:(lia)).
  rewrite (wrap_small _ (total + 4)) by (unfold in_range; lia).
  unfold shm_reserve_param_block.
  rewrite (wrap_small _ (pb_cur_offset (shm_block c) + (total + 4))) by (unfold in_range; lia).
  destruct (Z.leb_spec (pb_size (shm_block c) / 2) (pb_cur_offset (shm_block c) + (total + 4)));
    [exists 0|exists (pb_cur_offset (shm_block c))];
    (eexists _, _; split; [reflexivity|cbn [reserved_area]; split_and!; [lia|lia|]]).
  - done.
  - by rewrite (wrap_small _ (pb_cur_offset _ + 4)) by (unfold in_range; lia).
Qed.

Lemma set_reserved_wf i v b : base_wf b → in_range 64 v → base_wf (set_reserved i v b).
Proof.
  unfold base_wf. cbn. intros (?&?&?&?&?&?&?&?&?&?&?&?) Hv. rewrite length_insert.
  split_and!; try done. by apply Forall_insert.
Qed.

Lemma set_command_type_wf v b : base_wf b → in_range 64 v → base_wf (set_command_type v b).
Proof. unfold base_wf. cbn. naive_solver. Qed.

(** The struct goes over the socket; what the worker receives is the struct, and every attached
    buffer is found in the shared block. *)
Lemma shm_send_receive c h hw cmd local cur bufs wblock wvm :
  sock_out c = [] → (∀ a, a ∈ live h → a < next_addr h) → cmd_addr cmd = next_addr h →
  base_wf (cmd_base cmd) → command_size (cmd_base cmd) = Z.of_nat (length (cmd_bytes cmd)) →
  seeker_local (cmd_base cmd) = local → seeker_cur (cmd_base cmd) = cur →
  Forall (λ d, d ≠ []) bufs → 0 ≤ local < cur →
  cur + Z.of_nat (length (mjoin bufs)) ≤ Z.of_nat (length (shm_mem c)) →
  Z.of_nat (length (shm_mem c)) < 2 ^ 64 →
  ∃ ids cmd' c2 c3 h3 rcvd w' hw',
    attach_all c cmd bufs = Ok (ids, cmd', c2) ∧
    shm_send_command c2 (snd (malloc h)) cmd' = Ok (c3, h3) ∧ live h3 = live h ∧
    shmw_receive_command (worker_of c3 wblock wvm) hw = Ok (Some rcvd, w', hw') ∧
    cmd_rest rcvd = cmd_rest cmd ∧
    cmd_base rcvd = set_command_type NW_NEW_INVOCATION
      (set_reserved 2 (cur + Z.of_nat (length (mjoin bufs))) (cmd_base cmd)) ∧
    ∀ i id d, ids !! i = Some id → bufs !! i = Some d →
      ∃ tail, shmw_get_buffer w' rcvd id = Some (d ++ tail).
Proof.
  intros Hout Hfresh Haddr Hwf Hsz Hl Hc Hall Hlc Hfit Hmem.
  assert (length (reserved_area (cmd_base cmd)) = 8%nat) as Hlen by apply Hwf.
  destruct (attach_all_eq c cmd local cur bufs) as (cmd' & c2 & Hat & Hb' & Ha' & Hr' & ->);
    try done; [lia|].
  set (tot := Z.of_nat (length (mjoin bufs))) in *. set (mem' := take _ _ ++ _) in *.
  assert (0 ≤ tot) by (unfold tot; lia).
  set (b2 := set_command_type NW_NEW_INVOCATION (set_reserved 2 (cur + tot) (cmd_base cmd))).
  assert (base_wf b2) as Hwf2.
  { apply set_command_type_wf; [apply set_reserved_wf; [done|]|]; unfold in_range, NW_NEW_INVOCATION; lia. }
  set (sent := mk_cmd (next_addr h) b2 (cmd_rest cmd)).
  assert (command_size b2 = Z.of_nat (length (cmd_bytes sent))) as Hsz2.
  { change (command_size b2) with (command_size (cmd_base cmd)). rewrite Hsz. f_equal.
    unfold cmd_bytes. rewrite !length_app. cbn [sent cmd_base cmd_rest].
    by rewrite !length_base_bytes by (apply Hwf || apply Hwf2). }
  assert (shm_send_command (set_mem mem' c) (snd (malloc h)) cmd' =
    Ok (set_out (cmd_bytes sent) (set_mem mem' c), mk_heap (live h) (next_addr h + 1))) as Hsend.
  { unfold shm_send_command.
    replace (upd_base _ cmd') with sent
      by (unfold upd_base, sent, b2; by rewrite Hb', Ha', Hr', Haddr).
    rewrite read_bytes_all by done. cbn [mbind res_bind].
    change (cmd_addr sent) with (fst (malloc h)). rewrite (free_malloc h Hfresh).
    cbn [mbind res_bind]. unfold queue_send. do 3 f_equal. cbn. by rewrite Hout. }
  eexists _, _, _, _, _, (mk_cmd (next_addr hw) b2 (cmd_rest cmd)), _, _.
  split; [exact Hat|]. split; [exact Hsend|]. split; [done|]. split.
  { unfold shmw_receive_command. cbn [worker_of sock_poll].
    apply (recv_message_eq _ _ _ sent []); cbn; by rewrite ?app_nil_r. }
  split; [done|]. split; [done|]. intros i id d Hid Hd.
  destruct (buf_ids_lookup _ _ _ _ _ Hid Hd) as (pre & post & Hj & ->).
  unfold shmw_get_buffer. rewrite (proj2 (Z.eqb_neq _ _)) by lia.
  cbn [cmd_base]. assert (seeker_local b2 = local) as ->.
  { unfold b2. rewrite <- Hl. by apply (seeker_set (cmd_base cmd) (cur + tot)). }
  cbn [shm_mem set_in worker_of set_out set_mem]. unfold mem'. rewrite Hj.
  rewrite drop_app_ge by (rewrite length_take; lia). rewrite length_take, <- !app_assoc.
  replace (_ - _)%nat with (length pre) by lia. rewrite drop_app_length. by eexists.
Qed.

(** C12. A command with data goes from the guest to the worker unchanged: the guest allocates it,
    fills in its fields and arguments, attaches any number of non-empty buffers whose total
    fits half the block, and sends it; the worker then receives the same struct (with the type
    NW_NEW_INVOCATION and the seeker advanced), the identifier of every buffer leads it to the
    buffer's bytes in the shared block, and the guest's copy of the struct is freed once. *)
Theorem shm_send_receive_roundtrip (c : command_channel_shm) (h hw : heap) (css : Z)
    (bufs : list (list Z)) (b : command_base) (rest : list Z) (wblock : param_block) (wvm : Z) :
  block_ok c → sock_out c = [] → (∀ a, a ∈ live h → a < next_addr h) →
  Z.of_nat sizeof_command_base ≤ css →
  bufs ≠ [] → Forall (λ d, d ≠ []) bufs →
  Z.of_nat (length (mjoin bufs)) + 4 < pb_size (shm_block c) / 2 →
  base_wf b → command_size b = css →
  length rest = (Z.to_nat css - sizeof_command_base)%nat →
  ∃ cmd c1 h1, shm_new_command c h css (Z.of_nat (length (mjoin bufs))) = Ok (cmd, c1, h1) ∧
    (reserved_area b = reserved_area (cmd_base cmd) →
     ∃ ids cmd' c2 c3 h3 rcvd w' hw' cur,
       attach_all c1 (mk_cmd (cmd_addr cmd) b rest) bufs = Ok (ids, cmd', c2) ∧
       shm_send_command c2 h1 cmd' = Ok (c3, h3) ∧ live h3 = live h ∧
       shmw_receive_command (worker_of c3 wblock wvm) hw = Ok (Some rcvd, w', hw') ∧
       cmd_rest rcvd = rest ∧
       cmd_base rcvd = set_command_type NW_NEW_INVOCATION (set_reserved 2 cur b) ∧
       ∀ i id d, ids !! i = Some id → bufs !! i = Some d →
         ∃ tail, shmw_get_buffer w' rcvd id = Some (d ++ tail)).
Proof.
  intros Hok Hout Hfresh Hcss Hne Hall Hfit Hwf Hcs Hrest.
  assert (0 < length (mjoin bufs))%nat as Hpos.
  { destruct bufs as [|[|] bufs]; [done|by apply Forall_cons in Hall as [? _]|].
    change (mjoin ((z :: l) :: bufs)) with ((z :: l) ++ mjoin bufs). cbn. lia. }
  destruct (shm_new_command_eq c h css (Z.of_nat (length (mjoin bufs))))
    as (local & b0 & block & Hnew & Hl0 & Hlfit & Hres); [done|done|lia|done|].
  eexists _, _, _. split; [exact Hnew|]. cbn [cmd_base cmd_addr]. rewrite Hres. intros Hb.
  destruct Hok as (Hsz & Hlt & _).
  destruct (shm_send_receive (set_block block c) h hw (mk_cmd (next_addr h) b rest) local
    (local + 4) bufs wblock wvm) as (ids & cmd' & c2 & c3 & h3 & rcvd & w' & hw' & Hrun);
    try (done || cbn; lia).
  - cbn [cmd_base]. unfold cmd_bytes. cbn [cmd_base cmd_rest].
    rewrite length_app, length_base_bytes, Hrest, Hcs by apply Hwf. lia.
  - unfold seeker_local, get_reserved. cbn. by rewrite Hb.
  - unfold seeker_cur, get_reserved. cbn. by rewrite Hb.
  - eexists ids, cmd', c2, c3, h3, rcvd, w', hw', _. exact Hrun.
Qed.

(** A fresh guest channel on a block of 64 bytes, and a command for it. *)
Definition sample_guest : command_channel_shm :=
  mk_shm (replicate 64 0) (mk_pb 64 4096 0) 1 [] [] PollNothing.
Definition sample_shm_base : command_base :=
  mk_base 7 1 0 12 0 0 42 140 4096 9 [0; 0; 4; 0; 0; 0; 0; 0].

Lemma shm_send_receive_roundtrip_witness :
  ∃ cmd c1 h1, shm_new_command sample_guest heap_empty 140 5 = Ok (cmd, c1, h1) ∧
    (reserved_area sample_shm_base = reserved_area (cmd_base cmd) →
     ∃ ids cmd' c2 c3 h3 rcvd w' hw' cur,
       attach_all c1 (mk_cmd (cmd_addr cmd) sample_shm_base [4; 6; 0; 0]) [[21; 22]; [23; 24; 25]]
         = Ok (ids, cmd', c2) ∧
       shm_send_command c2 h1 cmd' = Ok (c3, h3) ∧ live h3 = live heap_empty ∧
       shmw_receive_command (worker_of c3 (mk_pb 64 4096 32) 1) heap_empty =
         Ok (Some rcvd, w', hw') ∧
       cmd_rest rcvd = [4; 6; 0; 0] ∧
       cmd_base rcvd = set_command_type NW_NEW_INVOCATION (set_reserved 2 cur sample_shm_base) ∧
       ∀ i id d, ids !! i = Some id → [[21; 22]; [23; 24; 25]] !! i = Some d →
         ∃ tail, shmw_get_buffer w' rcvd id = Some (d ++ tail)).
Proof.
  apply (shm_send_receive_roundtrip sample_guest heap_empty heap_empty 140
           [[21; 22]; [23; 24; 25]] sample_shm_base [4; 6; 0; 0] (mk_pb 64 4096 32) 1).
  - by vm_compute.
  - reflexivity.
  - intros a Ha. cbn in Ha. set_solver.
  - by vm_compute.
  - discriminate.
  - by repeat constructor.
  - by vm_compute.
  - unfold base_wf, sample_shm_base, in_range, in_srange; cbn. split_and!; try lia.
    repeat constructor; unfold in_range; lia.
  - reflexivity.
  - reflexivity.
Defined.

(** [command_channel_shm_transfer_command] is not a transfer of the command: unlike the log's
    (which copies the struct), it sends a struct of the same size whose fields beyond the base,
    the call's arguments, are all zero; and for a command without data it does not return, its
    [attach_buffer] call asserts a non-zero size. *)
Theorem shm_transfer_drops_arguments (c : command_channel_shm) (h : heap) (region : list Z)
    (cmd : command) :
  block_ok c → sock_out c = [] → (∀ a, a ∈ live h → a < next_addr h) →
  Z.of_nat sizeof_command_base ≤ command_size (cmd_base cmd) →
  0 ≤ region_size (cmd_base cmd) ≤ Z.of_nat (length region) →
  region_size (cmd_base cmd) + 4 < pb_size (shm_block c) / 2 →
  (region_size (cmd_base cmd) = 0 →
   shm_transfer_command c h region cmd = Stop (AssertFailed "buffer && size != 0")) ∧
  (0 < region_size (cmd_base cmd) →
   ∃ c' h' b', shm_transfer_command c h region cmd = Ok (c', h') ∧
     sock_out c' = base_bytes b' ++
       replicate (Z.to_nat (command_size (cmd_base cmd)) - sizeof_command_base) 0).
Proof.
  intros Hok Hout Hfresh Hcs Hrs Hfit. set (cs := command_size (cmd_base cmd)) in *.
  set (rs := region_size (cmd_base cmd)) in *. unfold shm_transfer_command. fold cs rs. split.
  - intros ->. unfold shm_new_command, malloc. rewrite (proj2 (Z.ltb_ge _ _)) by lia. done.
  - intros Hpos.
    destruct (shm_new_command_eq c h cs rs) as (local & b0 & block & Hnew & Hl0 & Hlfit & Hres);
      try done.
    assert (command_size b0 = cs) as Hb0.
    { unfold shm_new_command, malloc in Hnew. rewrite (proj2 (Z.ltb_ge _ _)) in Hnew by lia.
      rewrite (proj2 (Z.eqb_neq _ _)) in Hnew by lia.
      destruct (shm_reserve_param_block _ _). by injection Hnew as <- _. }
    rewrite Hnew. cbn [mbind res_bind]. set (new_cmd := transfer_header cmd _).
    destruct Hok as (Hsz & Hlt & Hcur).
    assert (∃ d, length d = Z.to_nat rs ∧ read_bytes rs region = Ok d) as (d & Hd & Hread).
    { eexists. split; [|apply read_bytes_ok; lia]. rewrite length_take. lia. }
    assert (shm_attach_buffer (set_block block c) new_cmd (Some region) rs =
            shm_attach_buffer (set_block block c) new_cmd (Some d) (Z.of_nat (length d))) as ->.
    { unfold shm_attach_buffer. replace (Z.of_nat (length d)) with rs by lia. rewrite Hread.
      by rewrite (read_bytes_all rs d) by lia. }
    rewrite (shm_attach_eq _ _ local (local + 4));
      [|unfold new_cmd, seeker_local, seeker_cur, get_reserved; cbn; rewrite Hres; done..
       |by destruct d; cbn in *; [lia|]|lia|cbn; lia|cbn; lia].
    cbn [mbind res_bind]. unfold shm_send_command. rewrite read_bytes_all.
    2: { unfold cmd_bytes. rewrite length_app. cbn [upd_base cmd_base cmd_rest new_cmd
           transfer_header]. rewrite length_replicate, length_base_bytes.
         - cbn [set_command_type set_reserved set_vm_id set_flags set_command_id set_api_id
             command_size]. rewrite Hb0. lia.
         - cbn. by rewrite length_insert, Hres. }
    cbn [mbind res_bind cmd_addr upd_base new_cmd transfer_header].
    change (next_addr h) with (fst (malloc h)). rewrite (free_malloc h Hfresh).
    cbn [mbind res_bind]. eexists _, _, _. split; [reflexivity|].
    unfold queue_send. cbn [set_out sock_out set_mem set_block]. by rewrite Hout.
Qed.

Lemma shm_transfer_drops_arguments_witness :
  (region_size (mk_base 7 1 3 0 0 0 42 140 0 2 (replicate 8 0)) = 0 →
   shm_transfer_command sample_guest heap_empty [21; 22]
     (mk_cmd 9 (mk_base 7 1 3 0 0 0 42 140 0 2 (replicate 8 0)) [4; 6; 8; 10]) =
     Stop (AssertFailed "buffer && size != 0")) ∧
  (0 < 2 → ∃ c' h' b', shm_transfer_command sample_guest heap_empty [21; 22]
      (mk_cmd 9 (mk_base 7 1 3 0 0 0 42 140 0 2 (replicate 8 0)) [4; 6; 8; 10]) = Ok (c', h') ∧
    sock_out c' = base_bytes b' ++ replicate (Z.to_nat 140 - sizeof_command_base) 0).
Proof.
  apply (shm_transfer_drops_arguments sample_guest heap_empty [21; 22]
    (mk_cmd 9 (mk_base 7 1 3 0 0 0 42 140 0 2 (replicate 8 0)) [4; 6; 8; 10])).
  - by vm_compute.
  - reflexivity.
  - intros a Ha. cbn in Ha. set_solver.
  - by vm_compute.
  - by vm_compute.
  - by vm_compute.
Defined.

(** The NW_NEW_APPLICATION message of a guest. *)
Definition application_base (vm off : Z) : command_base :=
  mk_base 0 (u8 vm) NW_NEW_APPLICATION 0 0 0 0 (Z.of_nat sizeof_command_base) 0 0
    [u64 off; AVA_APP_SHM_SIZE_DEFAULT; 0; 0; 0; 0; 0; 0].

Lemma application_base_wf vm off : base_wf (application_base vm off).
Proof.
  pose proof (wrap_range 8 vm ltac:(lia)). pose proof (wrap_range 64 off ltac:(lia)).
  unfold base_wf, application_base, in_srange. cbn [api_id vm_id command_type thread_id
    original_thread_id flags command_id command_size data_region region_size reserved_area length].
  rewrite !Forall_cons. unfold in_range, AVA_APP_SHM_SIZE_DEFAULT, NW_NEW_APPLICATION.
  change (Z.of_nat sizeof_command_base) with 136. split_and!; try lia. constructor.
Qed.

Lemma shm_new_inv vm off uninit port mapped reply h c sent wid h' :
  command_channel_shm_new true vm off mapped uninit (Some port) 0 h reply =
    Ok (c, sent, wid, h') →
  0 < vm ∧ c = mk_shm mapped (mk_pb AVA_APP_SHM_SIZE_DEFAULT (u64 off) uninit) vm [] [] PollNothing
  ∧ sent = base_bytes (application_base vm off).
Proof.
  unfold command_channel_shm_new. cbn [negb]. destruct (Z.leb_spec vm 0); [done|].
  intros Hrun. apply res_bind_Ok in Hrun as ([] & _ & Hrun).
  unfold shm_new_command in Hrun. cbn [malloc mbind res_bind] in Hrun.
  change (Z.of_nat sizeof_command_base <? Z.of_nat sizeof_command_base) with false in Hrun.
  change (0 =? 0) with true in Hrun. cbn [mbind res_bind] in Hrun.
  apply res_bind_Ok in Hrun as (x & Hx & Hrun).
  destruct (_ <? _); [done|]. apply res_bind_Ok in Hrun as ([] & _ & Hrun).
  apply res_bind_Ok in Hrun as (h2 & _ & Hrun). injection Hrun as <- <- _ _.
  split_and!; [done..|].
  rewrite (read_bytes_prefix _ (base_bytes (application_base vm off)) []) in Hx.
  - by injection Hx.
  - by rewrite length_base_bytes by apply application_base_wf.
Qed.

(** Two ways a guest reservation leaves the guest's half of the block.
    [command_channel_shm_new] never sets [cur_offset], so a new channel starts from whatever
    [malloc] left there, and a value near [2^64] makes the bounds test wrap around and is handed
    out as an offset; and a request that does not fit half the block is not refused: it gets
    offset 0, like the first request of a fresh block, and extends into the worker's half. *)
Theorem shm_reservation_escapes (vm off uninit port : Z) (mapped reply : list Z) (h : heap)
    (c : command_channel_shm) (sent : list Z) (wid : Z) (h' : heap) :
  command_channel_shm_new true vm off mapped uninit (Some port) 0 h reply =
    Ok (c, sent, wid, h') →
  pb_cur_offset (shm_block c) = uninit ∧
  (uninit = 2 ^ 64 - 1 → ∀ n, 1 ≤ n < AVA_APP_SHM_SIZE_DEFAULT / 2 →
   fst (shm_reserve_param_block (shm_block c) n) = 2 ^ 64 - 1) ∧
  (uninit = 0 → ∀ n, AVA_APP_SHM_SIZE_DEFAULT / 2 < n < 2 ^ 63 →
   fst (shm_reserve_param_block (shm_block c) n) = 0 ∧
   fst (shm_reserve_param_block (shm_block c) n) + n > pb_size (shm_block c) / 2).
Proof.
  intros (_ & -> & _)%shm_new_inv. cbn [shm_block pb_cur_offset].
  split; [done|]. change (AVA_APP_SHM_SIZE_DEFAULT / 2) with (2 ^ 27).
  unfold shm_reserve_param_block. cbn [pb_size pb_cur_offset].
  change (AVA_APP_SHM_SIZE_DEFAULT / 2) with (2 ^ 27).
  split; intros -> n Hn.
  - assert (u64 (2 ^ 64 - 1 + n) = n - 1) as ->.
    { unfold wrap. rewrite <- (Z.mod_unique (2 ^ 64 - 1 + n) (2 ^ 64) 1 (n - 1)); lia. }
    by rewrite (proj2 (Z.leb_gt _ _)) by lia.
  - rewrite wrap_small by (unfold in_range; lia). rewrite (proj2 (Z.leb_le _ _)) by lia.
    cbn [fst]. lia.
Qed.

Lemma shm_reservation_escapes_witness :
  ∃ c sent wid h',
  command_channel_shm_new true 1 0 [] (2 ^ 64 - 1) (Some 4000) 0 heap_empty (replicate 136 0) =
    Ok (c, sent, wid, h') ∧
  (pb_cur_offset (shm_block c) = 2 ^ 64 - 1 ∧
   (2 ^ 64 - 1 = 2 ^ 64 - 1 → ∀ n, 1 ≤ n < AVA_APP_SHM_SIZE_DEFAULT / 2 →
    fst (shm_reserve_param_block (shm_block c) n) = 2 ^ 64 - 1) ∧
   (2 ^ 64 - 1 = 0 → ∀ n, AVA_APP_SHM_SIZE_DEFAULT / 2 < n < 2 ^ 63 →
    fst (shm_reserve_param_block (shm_block c) n) = 0 ∧
    fst (shm_reserve_param_block (shm_block c) n) + n > pb_size (shm_block c) / 2)).
Proof.
  do 4 eexists. split; [reflexivity|].
  eapply (shm_reservation_escapes 1 0 (2 ^ 64 - 1) 4000 [] (replicate 136 0) heap_empty).
  reflexivity.
Defined.

(** Guest and worker agree on the parameter block.  The guest announces it to the manager
    (offset and size in the reserved area of an NW_NEW_APPLICATION message) and in the message
    that initializes the API; the worker built from that message works on the guest's block: it
    has the same offset and size, starts allocating at the middle, and its memory is what the
    host device maps at the guest's offset in the VM's region, so whatever the guest has mapped
    there is what the worker sees. *)
Theorem shm_handshake_agrees (vm off uninit port api wport : Z) (pre mapped post reply : list Z)
    (b : command_base) (h : heap) (c : command_channel_shm) (sent : list Z) (wid : Z) (h' : heap) :
  command_channel_shm_new true vm off mapped uninit (Some port) 0 h reply =
    Ok (c, sent, wid, h') →
  vm ≤ 4 → 0 ≤ off < 2 ^ 31 → base_wf b → vm_id b = u8 vm → in_range 64 api →
  Z.of_nat (length pre) = (vm - 1) * AVA_GUEST_SHM_SIZE + off →
  let init := initialize_api_bytes b api (pb_offset (shm_block c)) (pb_size (shm_block c)) in
  (command_type (base_of_bytes sent) = NW_NEW_APPLICATION ∧ vm_id (base_of_bytes sent) = vm ∧
   get_reserved 0 (base_of_bytes sent) = pb_offset (shm_block c) ∧
   get_reserved 1 (base_of_bytes sent) = pb_size (shm_block c)) ∧
  command_channel_shm_worker_new wport 0 true (Some (pre ++ mapped ++ post)) init true =
    Ok (mk_shm (shm_mem c ++ post)
          (mk_pb (pb_size (shm_block c)) (pb_offset (shm_block c)) (pb_size (shm_block c) / 2))
          vm [] [] PollIn, wport).
Proof.
  intros Hrun Hvm Hoff Hwf Hvmb Hapi Hpre. cbv zeta.
  apply shm_new_inv in Hrun as (Hvm0 & -> & ->). cbn [shm_block pb_offset pb_size shm_mem].
  split.
  - rewrite <- (app_nil_r (base_bytes _)), base_of_bytes_of_base by apply application_base_wf.
    split_and!; [done|cbn|done|done]. apply wrap_small. unfold in_range. lia.
  - unfold command_channel_shm_worker_new. cbn [c_assert Z.eqb mbind res_bind negb].
    rewrite (wrap_small 64 off) by (unfold in_range; lia).
    rewrite (wrap_small 8 vm) in Hvmb by (unfold in_range; lia).
    unfold initialize_api_bytes.
    assert (length (base_bytes b) = 136%nat) as Hlb by apply length_base_bytes, Hwf.
    set (init := base_bytes b ++ _).
    assert (length init = 160%nat) as Hli
      by (unfold init; rewrite !length_app, !length_le_bytes, Hlb; done).
    change sizeof_initialize_api_command with 160%nat. rewrite Hli. cbn [Nat.ltb Nat.leb].
    assert (base_of_bytes init = b) as -> by by apply base_of_bytes_of_base. rewrite Hvmb.
    assert (word_at 144 init = off) as Hw1.
    { unfold word_at, init. rewrite slice_skip by lia. rewrite Hlb.
      rewrite slice_skip by (rewrite length_le_bytes; lia). rewrite length_le_bytes.
      rewrite slice_prefix by by rewrite length_le_bytes.
      apply le_num_u64. unfold in_range. lia. }
    assert (word_at 152 init = AVA_APP_SHM_SIZE_DEFAULT) as Hw2.
    { unfold word_at, init. rewrite slice_skip by lia. rewrite Hlb.
      do 2 (rewrite slice_skip by (rewrite length_le_bytes; lia); rewrite length_le_bytes).
      rewrite slice_all by by rewrite length_le_bytes. done. }
    rewrite Hw1, Hw2, <- Hpre. rewrite (proj2 (Z.ltb_ge _ 0)) by lia.
    rewrite (proj2 (Z.ltb_ge (Z.of_nat (length (pre ++ _))) _)) by (rewrite length_app; lia).
    cbn [orb]. rewrite Nat2Z.id, drop_app_length, (drop_ge init) by lia. done.
Qed.

Lemma shm_handshake_agrees_witness :
  ∃ c sent wid h',
    command_channel_shm_new true 1 3 [9; 8; 7] 0 (Some 4000) 0 heap_empty (replicate 136 0) =
      Ok (c, sent, wid, h') ∧
    (let init := initialize_api_bytes sample_shm_base 7 (pb_offset (shm_block c))
                   (pb_size (shm_block c)) in
     (command_type (base_of_bytes sent) = NW_NEW_APPLICATION ∧ vm_id (base_of_bytes sent) = 1 ∧
      get_reserved 0 (base_of_bytes sent) = pb_offset (shm_block c) ∧
      get_reserved 1 (base_of_bytes sent) = pb_size (shm_block c)) ∧
     command_channel_shm_worker_new 4001 0 true (Some ([0; 0; 0] ++ [9; 8; 7] ++ [5])) init true =
       Ok (mk_shm (shm_mem c ++ [5])
             (mk_pb (pb_size (shm_block c)) (pb_offset (shm_block c)) (pb_size (shm_block c) / 2))
             1 [] [] PollIn, 4001)).
Proof.
  do 4 eexists. split; [reflexivity|].
  eapply (shm_handshake_agrees 1 3 0 4000 7 4001 [0; 0; 0] [9; 8; 7] [5] (replicate 136 0)
            sample_shm_base heap_empty).
  - reflexivity.
  - lia.
  - lia.
  - unfold base_wf, sample_shm_base, in_range, in_srange; cbn. split_and!; try lia.
    repeat constructor; unfold in_range; lia.
  - reflexivity.
  - unfold in_range; lia.
  - reflexivity.
Defined.
