(* ===== verification/SocketChannel.v ===== *)
(** * The socket channels (common/cmd_channel_socket_utilities.cpp, cmd_channel_socket_tcp.cpp,
      cmd_channel_socket_vsock.cpp)

    A command and its data region are one block of memory that travels over a stream socket.
    The TCP and the VM socket channel share the vtable modelled here and differ in how they
    connect; the three constructors of the TCP channel and the two of the VM socket channel
    follow, with the answers of the network as arguments. *)

From S2P Require Import Prelude CString Channel Socket LogChannel ShmChannel.
Local Open Scope Z_scope.

(** The content of a block that [malloc] returns is not defined. *)
Class Uninit := {
  uninit : Z → nat → list Z;
  length_uninit : ∀ a n, length (uninit a n) = n
}.

Record command_channel_socket := mk_csock {
  cs_sock : sock;
  cs_poll : poll_result;
  cs_vm_id : Z;
  cs_listen_port : Z;
  cs_init_command_type : Z
}.

Definition set_sock (s : sock) (c : command_channel_socket) : command_channel_socket :=
  mk_csock s (cs_poll c) (cs_vm_id c) (cs_listen_port c) (cs_init_command_type c).

Section SocketChannel.
Context `{SocketKernel, Uninit}.

(** ** Sending *)

Definition command_channel_socket_buffer_size (c : command_channel_socket) (size : Z) : Z := size.

Definition command_channel_socket_new_command (c : command_channel_socket) (h : heap)
    (command_struct_size data_region_size : Z)
    : res (command * command_channel_socket * heap) :=
  if 2 ^ 64 <=? command_struct_size + data_region_size
  then Stop (Undefined "malloc of a size that wraps")
  else if command_struct_size <? Z.of_nat sizeof_command_base
  then Stop (Undefined "command smaller than struct command_base")
  else
    let '(addr, h) := malloc h in
    let base := mk_base 0 (u8 (cs_vm_id c)) 0 0 0 0 0 command_struct_size command_struct_size
                  data_region_size [0; 0; command_struct_size; 0; 0; 0; 0; 0] in
    Ok (mk_cmd addr base (replicate (Z.to_nat command_struct_size - sizeof_command_base) 0 ++
                          uninit addr (Z.to_nat data_region_size)), c, h).

(** The buffer is copied behind the struct, at the offset the seeker has reached. *)
Definition command_channel_socket_attach_buffer (c : command_channel_socket) (cmd : command)
    (buffer : option (list Z)) (size : Z) : res (Z * command * command_channel_socket) :=
  match buffer with
  | None => Stop (AssertFailed "buffer && size != 0")
  | Some data =>
      _ ← c_assert (negb (size =? 0)) "buffer && size != 0";
      let offset := seeker_cur (cmd_base cmd) in
      let cmd := upd_base (set_reserved 2 (u64 (offset + size))) cmd in
      bytes ← read_bytes size data;
      if offset <? Z.of_nat sizeof_command_base
      then Stop (Undefined "buffer attached over the header")
      else
        rest ← mem_copy (offset - Z.of_nat sizeof_command_base) bytes (cmd_rest cmd);
        Ok (offset, mk_cmd (cmd_addr cmd) (cmd_base cmd) rest, c)
  end.

Definition command_channel_socket_send_command (c : command_channel_socket) (h : heap)
    (cmd : command) : res (command_channel_socket * heap) :=
  let cmd := upd_base (set_command_type NW_NEW_INVOCATION) cmd in
  let b := cmd_base cmd in
  '(_, s) ← send_socket (cmd_bytes cmd) (u64 (command_size b + region_size b)) (cs_sock c);
  h ← c_free (cmd_addr cmd) h;
  Ok (set_sock s c, h).

Definition command_channel_socket_transfer_command (c : command_channel_socket) (h : heap)
    (region : list Z) (cmd : command) : res (command_channel_socket * heap) :=
  '(_, s) ← send_socket (cmd_bytes cmd) (command_size (cmd_base cmd)) (cs_sock c);
  '(_, s) ← send_socket region (region_size (cmd_base cmd)) s;
  Ok (set_sock s c, h).

(** ** Receiving *)

Definition command_channel_socket_receive_command (c : command_channel_socket) (h : heap)
    : res (option command * command_channel_socket * heap) :=
  match cs_poll c with
  | PollError => Stop (Exited (-1))
  | PollNothing => Ok (None, c, h)
  | PollHup => Stop (Exited (-1))
  | PollIn =>
      '(hdr, s) ← recv_socket (Z.of_nat sizeof_command_base) (cs_sock c);
      let b := base_of_bytes hdr in
      let size := u64 (command_size b + region_size b) in
      let '(addr, h) := malloc h in
      if size <? Z.of_nat sizeof_command_base
      then Stop (Undefined "memcpy past the received command")
      else
        '(rest, s) ← recv_socket (size - Z.of_nat sizeof_command_base) s;
        Ok (Some (mk_cmd addr b rest), set_sock s c, h)
  end.

Definition command_channel_socket_get_buffer (c : command_channel_socket) (cmd : command)
    (buffer_id : Z) : option (list Z) := Some (drop (Z.to_nat buffer_id) (cmd_bytes cmd)).

Definition command_channel_socket_get_data_region (c : command_channel_socket) (cmd : command)
    : list Z := drop (Z.to_nat (command_size (cmd_base cmd))) (cmd_bytes cmd).

Definition command_channel_socket_free_command (c : command_channel_socket) (h : heap)
    (cmd : command) : res heap := c_free (cmd_addr cmd) h.

(** The socket is closed. *)
Definition command_channel_socket_free (c : command_channel_socket) : res command_channel_socket :=
  Ok (mk_csock (mk_sock [] [] true 0 0) PollHup (cs_vm_id c) (cs_listen_port c)
        (cs_init_command_type c)).

Definition command_channel_socket_vtable : command_channel_vtable command_channel_socket := {|
  vt_buffer_size := command_channel_socket_buffer_size;
  vt_new_command := command_channel_socket_new_command;
  vt_attach_buffer := command_channel_socket_attach_buffer;
  vt_send_command := command_channel_socket_send_command;
  vt_transfer_command := command_channel_socket_transfer_command;
  vt_receive_command := command_channel_socket_receive_command;
  vt_get_buffer := command_channel_socket_get_buffer;
  vt_get_data_region := command_channel_socket_get_data_region;
  vt_free_command := command_channel_socket_free_command;
  vt_free := command_channel_socket_free
|}.

#[global] Instance socket_channel : Channel command_channel_socket := command_channel_socket_vtable.

#[global] Instance socket_frees : FreesCommands command_channel_socket.
Proof. done. Qed.

(** Attaches buffers one after the other. *)
Fixpoint sock_attach_all (c : command_channel_socket) (cmd : command) (bufs : list (list Z))
    : res (list Z * command * command_channel_socket) :=
  match bufs with
  | [] => Ok ([], cmd, c)
  | d :: bufs =>
      '(id, cmd, c) ← command_channel_socket_attach_buffer c cmd (Some d) (Z.of_nat (length d));
      '(ids, cmd, c) ← sock_attach_all c cmd bufs;
      Ok (id :: ids, cmd, c)
  end.

(** ** Lemmas *)

Lemma socket_attach_eq c cmd cur d pre old post :
  length (reserved_area (cmd_base cmd)) = 8%nat → seeker_cur (cmd_base cmd) = cur →
  d ≠ [] → length d = length old → cmd_rest cmd = pre ++ old ++ post →
  cur = Z.of_nat (sizeof_command_base + length pre) → cur + Z.of_nat (length d) < 2 ^ 64 →
  command_channel_socket_attach_buffer c cmd (Some d) (Z.of_nat (length d)) =
    Ok (cur, mk_cmd (cmd_addr cmd) (set_reserved 2 (cur + Z.of_nat (length d)) (cmd_base cmd))
               (pre ++ d ++ post), c).
Proof.
  intros Hlen Hc Hd Hl Hrest Hcur Hb. unfold command_channel_socket_attach_buffer.
  assert (length d ≠ 0)%nat by by destruct d.
  rewrite (proj2 (Z.eqb_neq _ _)) by lia. cbn [negb c_assert mbind res_bind].
  rewrite read_bytes_all by done. cbn [mbind res_bind]. rewrite Hc.
  rewrite (proj2 (Z.ltb_ge _ _)) by lia. rewrite wrap_small by (unfold in_range; lia).
  unfold mem_copy. cbn [upd_base cmd_rest cmd_addr cmd_base].
  rewrite (proj2 (Z.leb_le _ _)) by (rewrite Hrest, !length_app; lia). cbn [mbind res_bind].
  rewrite Hrest, pwrite_mid by (done || lia). done.
Qed.

Lemma sock_attach_all_eq c bufs : ∀ cmd cur pre region,
  length (reserved_area (cmd_base cmd)) = 8%nat → seeker_cur (cmd_base cmd) = cur →
  Forall (λ d, d ≠ []) bufs → cmd_rest cmd = pre ++ region →
  cur = Z.of_nat (sizeof_command_base + length pre) →
  (length (mjoin bufs) ≤ length region)%nat → cur + Z.of_nat (length region) < 2 ^ 64 →
  sock_attach_all c cmd bufs =
    Ok (buf_ids cur bufs,
        mk_cmd (cmd_addr cmd) (set_reserved 2 (cur + Z.of_nat (length (mjoin bufs))) (cmd_base cmd))
          (pre ++ mjoin bufs ++ drop (length (mjoin bufs)) region), c).
Proof.
  induction bufs as [|d bufs IH]; intros cmd cur pre region Hlen Hc Hall Hrest Hcur Hfit Hb.
  - cbn. rewrite Z.add_0_r, drop_0, <- Hrest, <- Hc. destruct cmd as [a b r]. do 4 f_equal.
    destruct b as [? ? ? ? ? ? ? ? ? ? l]. unfold set_reserved, seeker_cur, get_reserved. cbn in *.
    f_equal. symmetry. apply list_insert_id. by do 3 (destruct l as [|? l]; [done|]).
  - apply Forall_cons in Hall as [Hd Hall].
    change (mjoin (d :: bufs)) with (d ++ mjoin bufs) in *. rewrite length_app in Hfit.
    cbn [sock_attach_all buf_ids].
    rewrite (socket_attach_eq c cmd cur d pre (take (length d) region) (drop (length d) region));
      [|done|done|done|rewrite length_take; lia|by rewrite take_drop|done|lia].
    cbn [mbind res_bind].
    destruct (seeker_set (cmd_base cmd) (cur + Z.of_nat (length d)) Hlen) as (H1 & H2 & H3).
    rewrite (IH _ (cur + Z.of_nat (length d)) (pre ++ d) (drop (length d) region));
      [|done|done|done|by rewrite <- app_assoc|rewrite length_app; lia
       |rewrite length_drop; lia|rewrite length_drop; lia].
    cbn [mbind res_bind cmd_addr cmd_base]. rewrite set_reserved_twice, drop_drop, length_app, <- !app_assoc.
    by replace (cur + Z.of_nat (length d) + Z.of_nat (length (mjoin bufs)))
      with (cur + Z.of_nat (length d + length (mjoin bufs))) by lia.
Qed.

(** A block on the wire is received as the command it was. *)
Lemma socket_receive_eq c h b rest tail :
  kernel_recvs → cs_poll c = PollIn → base_wf b →
  command_size b + region_size b = Z.of_nat (length (base_bytes b ++ rest)) →
  command_size b + region_size b < 2 ^ 64 →
  s_in (cs_sock c) = (base_bytes b ++ rest) ++ tail →
  ∃ s', command_channel_socket_receive_command c h =
      Ok (Some (mk_cmd (next_addr h) b rest), set_sock s' c, snd (malloc h)) ∧
    s_in s' = tail ∧ s_out s' = s_out (cs_sock c).
Proof.
  intros Hk Hp Hwf Hsz Hb Hin. unfold command_channel_socket_receive_command. rewrite Hp.
  assert (length (base_bytes b) = sizeof_command_base) as Hl by apply length_base_bytes, Hwf.
  rewrite <- app_assoc in Hin.
  destruct (recv_socket_eq (Z.of_nat sizeof_command_base) (cs_sock c) (base_bytes b) (rest ++ tail))
    as (s1 & -> & Hin1 & Hout1 & _); [done|done|by rewrite Hl|]. cbn [mbind res_bind].
  rewrite <- (app_nil_r (base_bytes b)), base_of_bytes_of_base by done.
  rewrite length_app, Hl in Hsz. rewrite wrap_small by (unfold in_range; lia).
  unfold malloc. rewrite (proj2 (Z.ltb_ge _ _)) by lia.
  destruct (recv_socket_eq (command_size b + region_size b - Z.of_nat sizeof_command_base) s1 rest tail)
    as (s2 & -> & Hin2 & Hout2 & _); [done|done|lia|]. cbn [mbind res_bind].
  exists s2. split_and!; [done|done|congruence].
Qed.

Lemma socket_send_eq c h cmd :
  kernel_sends → length (reserved_area (cmd_base cmd)) = 8%nat →
  command_size (cmd_base cmd) + region_size (cmd_base cmd) = Z.of_nat (length (cmd_bytes cmd)) →
  command_size (cmd_base cmd) + region_size (cmd_base cmd) < 2 ^ 64 → cmd_addr cmd ∈ live h →
  ∃ s', command_channel_socket_send_command c h cmd =
      Ok (set_sock s' c, mk_heap (live h ∖ {[cmd_addr cmd]}) (next_addr h)) ∧
    s_in s' = s_in (cs_sock c) ∧
    s_out s' = s_out (cs_sock c) ++
      base_bytes (set_command_type NW_NEW_INVOCATION (cmd_base cmd)) ++ cmd_rest cmd.
Proof.
  intros Hk Hra Hsz Hb Hlive. unfold command_channel_socket_send_command.
  set (cmd' := upd_base (set_command_type NW_NEW_INVOCATION) cmd).
  change (command_size (cmd_base cmd')) with (command_size (cmd_base cmd)).
  change (region_size (cmd_base cmd')) with (region_size (cmd_base cmd)).
  assert (length (cmd_bytes cmd') = length (cmd_bytes cmd)) as Hl.
  { unfold cmd_bytes, cmd'. cbn [upd_base cmd_base cmd_rest]. by rewrite !length_app, !length_base_bytes. }
  assert (136 ≤ length (cmd_bytes cmd))%nat as H136
    by (unfold cmd_bytes; rewrite length_app, length_base_bytes by done; unfold sizeof_command_base; lia).
  rewrite wrap_small by (unfold in_range; lia).
  destruct (send_socket_eq (cmd_bytes cmd') (command_size (cmd_base cmd) + region_size (cmd_base cmd))
    (cs_sock c)) as (ret & s' & -> & H1 & H2 & _); [done|lia|]. cbn [mbind res_bind].
  unfold c_free. rewrite decide_True by done. cbn [mbind res_bind].
  exists s'. split_and!; [done|done|]. rewrite H2. f_equal.
  rewrite Hsz, Nat2Z.id, <- Hl, firstn_all. done.
Qed.
End SocketChannel.

(** ** Connecting: TCP *)

(** What the network answers: the resolver, the result of the i-th [connect] to an address and
    port, and the milliseconds that have passed when it has failed. *)
Record tcp_net := mk_net {
  net_resolve : string → option Z;
  net_connect : Z → Z → nat → Z;
  net_elapsed : Z → Z → nat → Z
}.

(** Tries to connect until it works or the time is over; as many tries as [fuel]. *)
Fixpoint connect_loop (fuel i : nat) (connect elapsed : nat → Z) (timeout : Z) : res bool :=
  match fuel with
  | O => Stop (Blocked "connect")
  | S fuel =>
      if connect i =? 0 then Ok true
      else if timeout <? u64 (elapsed i) then Ok false
      else connect_loop fuel (S i) connect elapsed timeout
  end.

(** The loop over the assigned API servers; on a timeout all channels are freed and the vector
    is cleared.  Returns the channels and [nw_worker_id]. *)
Fixpoint connect_workers (fuel : nat) (net : tcp_net) (timeout : Z) (worker_address : list string)
    (channels : list command_channel_socket) (nw_worker_id : Z)
    : res (list command_channel_socket * Z) :=
  match worker_address with
  | [] => Ok (channels, nw_worker_id)
  | wa :: worker_address =>
      '(info, _, port) ← parseServerAddress (net_resolve net) wa true (Some 128%nat) true;
      match info, port with
      | Some (Some addr), Some port =>
          _ ← c_assert (0 <? port) "Invalid API server port";
          ok ← connect_loop fuel 0 (net_connect net addr (wrap 16 port))
                 (net_elapsed net addr (wrap 16 port)) timeout;
          if (ok : bool)
          then connect_workers fuel net timeout worker_address
                 (channels ++ [mk_csock empty_sock PollNothing 1 port 0]) port
          else Ok ([], port)
      | _, _ => Stop (AssertFailed "Unknown API server address")
      end
  end.

(** [assign] is [ManagerServiceClient::AssignWorker] for the configured manager. *)
Definition command_channel_socket_tcp_guest_new (fuel : nat) (net : tcp_net)
    (assign : Z → Z → list Z → list string) (gpu_memory : list Z) (connect_timeout nw_worker_id : Z)
    : res (list command_channel_socket * Z) :=
  let gpu_mem_in_bytes := (λ m, u64 (Z.shiftl m 20)) <$> gpu_memory in
  let worker_address := assign 0 (Z.of_nat (length gpu_memory)) gpu_mem_in_bytes in
  _ ← c_assert (negb (bool_decide (worker_address = []))) "No API server is assigned";
  connect_workers fuel net connect_timeout worker_address [] nw_worker_id.

(** The bytes of the accepted connection; failures of the calls before are only printed, and
    without a connection [recv_socket] ends the process. *)
Definition command_channel_socket_tcp_worker_new `{SocketKernel} (worker_port : Z)
    (accepted : option (list Z)) : res command_channel_socket :=
  match accepted with
  | None => Stop (Exited 0)
  | Some incoming =>
      '(init_msg, s) ← recv_socket (Z.of_nat sizeof_initialize_api_command)
                         (mk_sock incoming [] false 0 0);
      Ok (mk_csock s PollIn (vm_id (base_of_bytes init_msg)) worker_port (u8 (word_at 136 init_msg)))
  end.

(** The connection between a migration's source ([is_source]) and target, 2000 ports above the
    worker's; results of the calls are not checked.  [vm_id] is not initialised. *)
Definition command_channel_socket_tcp_migration_new (worker_port uninit_vm_id : Z) (incoming : list Z)
    : command_channel_socket :=
  mk_csock (mk_sock incoming [] false 0 0) PollNothing uninit_vm_id (worker_port + 2000) 0.

(** ** Connecting: VM sockets *)

(** The guest asks the manager for a worker and connects to it.  [manager_addr] is
    AVA_MANAGER_ADDR, [reply] what the manager sends.  Returns the channel, what was sent to the
    manager, the new [nw_worker_id] and the heap. *)
Definition command_channel_socket_new `{SocketKernel, Uninit} (manager_addr : option string)
    (socket1 socket2 : Z) (connect1 connect2 : nat → Z) (reply : list Z) (nw_worker_id : Z) (h : heap)
    : res (command_channel_socket * list Z * Z * heap) :=
  let c := mk_csock empty_sock PollNothing 1 0 0 in
  match manager_addr with
  | None => Stop (AssertFailed "AVA_MANAGER_ADDR is not set")
  | Some addr =>
      '(_, _, port) ← parseServerAddress (λ _, @None unit) addr false None true;
      _ ← c_assert (0 <? default 0 port) "Invalid manager port";
      '(_, _) ← init_vm_socket 2 (default 0 port) socket1;
      if fst (conn_vm_socket connect1) <? 0 then Stop (Exited 0)
      else
        '(msg, c, h) ← command_channel_socket_new_command c h (Z.of_nat sizeof_command_base) 0;
        let msg := upd_base (set_command_type NW_NEW_APPLICATION) msg in
        '(_, m) ← send_socket (cmd_bytes msg) (Z.of_nat sizeof_command_base)
                    (mk_sock reply [] true 0 0);
        '(answer, m) ← recv_socket (Z.of_nat sizeof_command_base) m;
        let worker_port := get_reserved 0 (base_of_bytes answer) in
        _ ← c_assert (nw_worker_id =? 0) "nw_worker_id == 0";
        h ← command_channel_socket_free_command c h msg;
        '(_, _) ← init_vm_socket 2 (signed 32 worker_port) socket2;
        let '(_, _) := conn_vm_socket connect2 in
        Ok (c, s_out m, signed 32 worker_port, h)
  end.

Definition command_channel_socket_worker_new `{SocketKernel} (listen_port nw_worker_id : Z)
    (socket_ret bind_ret listen_ret accept_ret : Z) (incoming : list Z)
    : res (command_channel_socket * Z) :=
  _ ← c_assert (nw_worker_id =? 0) "nw_worker_id == 0";
  '(_, _) ← init_vm_socket (-1) listen_port socket_ret;
  _ ← listen_vm_socket bind_ret listen_ret;
  '(_, _) ← accept_vm_socket accept_ret 0 false;
  '(init_msg, s) ← recv_socket (Z.of_nat sizeof_initialize_api_command)
                     (mk_sock incoming [] false 0 0);
  Ok (mk_csock s PollIn (vm_id (base_of_bytes init_msg)) listen_port (u8 (word_at 136 init_msg)),
      listen_port).

(** ** More lemmas *)

(** The other end of a connection, which receives what [c] has sent. *)
Definition peer_of (c : command_channel_socket) (vm port : Z) : command_channel_socket :=
  mk_csock (mk_sock (s_out (cs_sock c)) [] false 0 0) PollIn vm port 0.

(** Before the first success or timeout the loop goes on; it never passes it. *)
Lemma connect_loop_spec connect elapsed timeout k : ∀ fuel i,
  (i ≤ k < i + fuel)%nat → (connect k = 0 ∨ timeout < u64 (elapsed k)) →
  ∃ j, (i ≤ j ≤ k)%nat ∧ (∀ l, (i ≤ l < j)%nat → connect l ≠ 0 ∧ u64 (elapsed l) ≤ timeout) ∧
    ((connect j = 0 ∧ connect_loop fuel i connect elapsed timeout = Ok true) ∨
     (connect j ≠ 0 ∧ timeout < u64 (elapsed j) ∧
      connect_loop fuel i connect elapsed timeout = Ok false)).
Proof.
  induction fuel as [|fuel IH]; intros i Hik Hk; [lia|]. cbn [connect_loop].
  destruct (Z.eqb_spec (connect i) 0) as [Hc|Hc].
  { exists i. split_and!; [lia|lia|lia|]. by left. }
  destruct (Z.ltb_spec timeout (u64 (elapsed i))) as [Ht|Ht].
  { exists i. split_and!; [lia|lia|lia|]. by right. }
  destruct (decide (i = k)) as [->|Hne]; [destruct Hk; lia|].
  destruct (IH (S i)) as (j & Hj & Hbefore & Hres); [lia|done|].
  exists j. split_and!; [lia|lia| |done]. intros l Hl.
  destruct (decide (l = i)) as [->|]; [by split|apply Hbefore; lia].
Qed.

(** The message that starts an API, as the worker reads it. *)
Lemma init_message_read b api off size rest :
  base_wf b → in_range 64 api →
  vm_id (base_of_bytes (initialize_api_bytes b api off size ++ rest)) = vm_id b ∧
  word_at 136 (initialize_api_bytes b api off size ++ rest) = api ∧
  length (initialize_api_bytes b api off size) = sizeof_initialize_api_command.
Proof.
  intros Hwf Ha. unfold initialize_api_bytes. rewrite <- !app_assoc.
  assert (length (base_bytes b) = 136%nat) as Hl by apply (length_base_bytes b), Hwf.
  split_and!.
  - by rewrite base_of_bytes_of_base.
  - unfold word_at. rewrite (slice_app_r' _ _ _ _ 0) by (rewrite Hl; lia).
    rewrite slice_prefix by (by rewrite length_le_bytes). by apply le_num_u64.
  - rewrite !length_app, !length_le_bytes, Hl. done.
Qed.

(** Sending a block and receiving it at the other end. *)
Lemma socket_send_receive (K1 K2 : SocketKernel) g h hw cmd wvm wport :
  @kernel_sends K1 → @kernel_recvs K2 → s_out (cs_sock g) = [] → cmd_addr cmd ∈ live h →
  base_wf (cmd_base cmd) →
  command_size (cmd_base cmd) + region_size (cmd_base cmd) = Z.of_nat (length (cmd_bytes cmd)) →
  command_size (cmd_base cmd) + region_size (cmd_base cmd) < 2 ^ 64 →
  ∃ g' r', @command_channel_socket_send_command K1 g h cmd =
      Ok (g', mk_heap (live h ∖ {[cmd_addr cmd]}) (next_addr h)) ∧
    @command_channel_socket_receive_command K2 (peer_of g' wvm wport) hw =
      Ok (Some (mk_cmd (next_addr hw) (set_command_type NW_NEW_INVOCATION (cmd_base cmd))
                  (cmd_rest cmd)), r', snd (malloc hw)).
Proof.
  intros Hks Hkr Hout Hlive Hwf Hsz Hb.
  destruct (@socket_send_eq K1 g h cmd) as (s' & Hsend & _ & Hso); [done|apply Hwf|done..|].
  rewrite Hout in Hso. cbn [app] in Hso.
  destruct (@socket_receive_eq K2 (peer_of (set_sock s' g) wvm wport) hw
    (set_command_type NW_NEW_INVOCATION (cmd_base cmd)) (cmd_rest cmd) []) as (r' & Hrcv & _); try done.
  - by apply set_command_type_wf.
  - cbn [peer_of cs_sock s_in set_sock]. by rewrite Hso, app_nil_r.
  - eexists _, _. split; [exact Hsend|exact Hrcv].
Qed.

(** ** Properties *)

(** C30. A command goes over a socket unchanged, however the two kernels cut the stream: the sender
    allocates the block, fills in its fields and arguments, attaches any number of non-empty
    buffers that fill the data region, and sends it; the receiver gets the same struct (marked as
    an invocation, with the seeker advanced), the same arguments and data region, every buffer
    identifier leads to the buffer's bytes, and the sender's block is freed once. *)
Theorem socket_send_receive_roundtrip (K1 K2 : SocketKernel) (U : Uninit)
    (g : command_channel_socket) (h hw : heap) (css : Z) (bufs : list (list Z)) (b : command_base)
    (args : list Z) (wvm wport : Z) :
  @kernel_sends K1 → @kernel_recvs K2 → s_out (cs_sock g) = [] →
  (∀ a, a ∈ live h → a < next_addr h) → Z.of_nat sizeof_command_base ≤ css →
  css + Z.of_nat (length (mjoin bufs)) < 2 ^ 64 → Forall (λ d, d ≠ []) bufs →
  base_wf b → command_size b = css → region_size b = Z.of_nat (length (mjoin bufs)) →
  length args = (Z.to_nat css - sizeof_command_base)%nat →
  ∃ cmd h1, command_channel_socket_new_command g h css (Z.of_nat (length (mjoin bufs))) =
      Ok (cmd, g, h1) ∧
    (reserved_area b = reserved_area (cmd_base cmd) →
     ∃ ids cmd' g' h' rcvd r' hw' cur,
       sock_attach_all g (mk_cmd (cmd_addr cmd) b
         (args ++ uninit (cmd_addr cmd) (length (mjoin bufs)))) bufs = Ok (ids, cmd', g) ∧
       @command_channel_socket_send_command K1 g h1 cmd' = Ok (g', h') ∧ live h' = live h ∧
       @command_channel_socket_receive_command K2 (peer_of g' wvm wport) hw =
         Ok (Some rcvd, r', hw') ∧
       cmd_rest rcvd = args ++ mjoin bufs ∧
       cmd_base rcvd = set_command_type NW_NEW_INVOCATION (set_reserved 2 cur b) ∧
       command_channel_socket_get_data_region r' rcvd = mjoin bufs ∧
       ∀ i id d, ids !! i = Some id → bufs !! i = Some d →
         ∃ tail, command_channel_socket_get_buffer r' rcvd id = Some (d ++ tail)).
Proof.
  intros Hks Hkr Hout Hfresh Hcss Hlt Hall Hwf Hcs Hrs Hargs.
  unfold command_channel_socket_new_command. rewrite (proj2 (Z.leb_gt _ _)) by lia.
  rewrite (proj2 (Z.ltb_ge _ _)) by lia. unfold malloc at 1. eexists _, _. split; [done|].
  cbn [cmd_base reserved_area cmd_addr]. intros Hres. set (tot := length (mjoin bufs)) in *.
  assert (css = Z.of_nat (sizeof_command_base + length args)) as Hcss' by lia.
  assert (length (base_bytes b) = sizeof_command_base) as Hlb by apply length_base_bytes, Hwf.
  set (cur := css + Z.of_nat tot).
  assert (base_wf (set_reserved 2 cur b)) as Hwf2 by (apply set_reserved_wf; [done|unfold in_range; lia]).
  assert (length (base_bytes (set_command_type NW_NEW_INVOCATION (set_reserved 2 cur b))) =
    sizeof_command_base) as Hlb2 by apply length_base_bytes, Hwf2.
  pose proof (sock_attach_all_eq g bufs (mk_cmd (next_addr h) b (args ++ uninit (next_addr h) tot))
    css args (uninit (next_addr h) tot)) as Hat.
  rewrite length_uninit, drop_ge, app_nil_r in Hat by (rewrite length_uninit; unfold tot; lia).
  set (cmd' := mk_cmd (next_addr h) (set_reserved 2 cur b) (args ++ mjoin bufs)) in *.
  destruct (socket_send_receive K1 K2 g (snd (malloc h)) hw cmd' wvm wport) as (g' & r' & Hsend & Hrcv);
    [done|done|done|cbn; set_solver|done| |cbn [cmd' cmd_base set_reserved command_size region_size]; lia|].
  { unfold cmd_bytes, cmd'. cbn [cmd_base cmd_rest set_reserved command_size region_size].
    rewrite !length_app, length_base_bytes by apply Hwf2. fold tot. lia. }
  assert (seeker_cur b = css) as Hseek by (unfold seeker_cur, get_reserved; by rewrite Hres).
  eexists _, cmd', _, _, _, _, _, cur.
  split; [apply Hat; done || apply Hwf || (unfold tot; lia)|].
  split; [exact Hsend|]. split.
  { cbn. apply set_eq. intros a. rewrite elem_of_difference, elem_of_union, elem_of_singleton.
    specialize (Hfresh a). split; [naive_solver|]. intros Ha. specialize (Hfresh Ha). split; [auto|lia]. }
  split; [exact Hrcv|]. split; [done|]. split; [done|]. split.
  { unfold command_channel_socket_get_data_region, cmd_bytes. cbn [cmd' cmd_base cmd_rest].
    change (command_size (set_command_type _ (set_reserved _ _ b))) with (command_size b).
    rewrite Hcs, app_assoc, drop_app_length'; [done|].
    rewrite length_app, Hlb2. lia. }
  intros i id d Hid Hd. destruct (buf_ids_lookup _ _ _ _ _ Hid Hd) as (pre & post & Hj & ->).
  exists post. unfold command_channel_socket_get_buffer, cmd_bytes. cbn [cmd' cmd_base cmd_rest].
  rewrite Hj, !app_assoc, <- (app_assoc _ d), drop_app_length'; [done|].
  rewrite !length_app, Hlb2. lia.
Qed.

Definition zero_uninit : Uninit := {| uninit _ n := replicate n 0; length_uninit _ n := length_replicate n 0 |}.
Definition sample_socket : command_channel_socket := mk_csock empty_sock PollIn 1 4000 0.
Definition sample_sock_base : command_base :=
  mk_base 7 1 0 12 0 0 42 140 140 5 [0; 0; 140; 0; 0; 0; 0; 0].

Lemma socket_send_receive_roundtrip_witness :
  let bufs := [[21; 22]; [23; 24; 25]] in
  ∃ cmd h1, @command_channel_socket_new_command zero_uninit sample_socket heap_empty 140 5 =
      Ok (cmd, sample_socket, h1) ∧
    (reserved_area sample_sock_base = reserved_area (cmd_base cmd) →
     ∃ ids cmd' g' h' rcvd r' hw' cur,
       sock_attach_all sample_socket (mk_cmd (cmd_addr cmd) sample_sock_base
         ([4; 6; 0; 0] ++ @uninit zero_uninit (cmd_addr cmd) 5)) bufs = Ok (ids, cmd', sample_socket) ∧
       @command_channel_socket_send_command (sample_kernel 3) sample_socket h1 cmd' = Ok (g', h') ∧
       live h' = live heap_empty ∧
       @command_channel_socket_receive_command (sample_kernel 50) (peer_of g' 1 4000) heap_empty =
         Ok (Some rcvd, r', hw') ∧
       cmd_rest rcvd = [4; 6; 0; 0] ++ mjoin bufs ∧
       cmd_base rcvd = set_command_type NW_NEW_INVOCATION (set_reserved 2 cur sample_sock_base) ∧
       command_channel_socket_get_data_region r' rcvd = mjoin bufs ∧
       ∀ i id d, ids !! i = Some id → bufs !! i = Some d →
         ∃ tail, command_channel_socket_get_buffer r' rcvd id = Some (d ++ tail)).
Proof.
  intros bufs. apply (socket_send_receive_roundtrip (sample_kernel 3) (sample_kernel 50) zero_uninit
    sample_socket heap_empty heap_empty 140 bufs sample_sock_base [4; 6; 0; 0] 1 4000).
  - intros i. cbn. lia.
  - intros i. cbn. lia.
  - reflexivity.
  - intros a Ha. cbn in Ha. set_solver.
  - by vm_compute.
  - by vm_compute.
  - by repeat constructor.
  - unfold base_wf, sample_sock_base, in_range, in_srange; cbn. split_and!; try lia.
    repeat constructor; unfold in_range; lia.
  - reflexivity.
  - reflexivity.
  - reflexivity.
Defined.

(** Live migration's transport: a recorded command that is transferred from the log to a socket
    arrives with the same struct, arguments and data region, so the identifiers of its buffers
    mean at the target what they meant in the log. *)
Theorem socket_transfer_from_log (K1 K2 : SocketKernel) (log : command_channel_log)
    (c : command_channel_socket) (h hw : heap) (cmd : command) (wvm wport : Z) :
  @kernel_sends K1 → @kernel_recvs K2 → s_out (cs_sock c) = [] → base_wf (cmd_base cmd) →
  Z.of_nat sizeof_command_base ≤ command_size (cmd_base cmd) → 0 < region_size (cmd_base cmd) →
  command_size (cmd_base cmd) + region_size (cmd_base cmd) = Z.of_nat (length (cmd_bytes cmd)) →
  Z.of_nat (length (cmd_bytes cmd)) < 2 ^ 64 →
  ∃ c' rcvd r' hw',
    @command_channel_socket_transfer_command K1 c h (command_channel_load_get_data_region log cmd) cmd =
      Ok (c', h) ∧
    @command_channel_socket_receive_command K2 (peer_of c' wvm wport) hw = Ok (Some rcvd, r', hw') ∧
    cmd_base rcvd = cmd_base cmd ∧ cmd_rest rcvd = cmd_rest cmd ∧
    ∀ id, command_channel_socket_get_buffer r' rcvd id = command_channel_load_get_buffer log cmd id.
Proof.
  intros Hks Hkr Hout Hwf Hcs Hrs Hsz Hlt. unfold command_channel_socket_transfer_command.
  change sizeof_command_base with 136%nat in Hcs.
  set (n := Z.to_nat (command_size (cmd_base cmd))). unfold command_channel_load_get_data_region. fold n.
  destruct (@send_socket_eq K1 (cmd_bytes cmd) (command_size (cmd_base cmd)) (cs_sock c))
    as (ret1 & s1 & -> & _ & Ho1 & _); [done|lia|]. cbn [mbind res_bind].
  destruct (@send_socket_eq K1 (drop n (cmd_bytes cmd)) (region_size (cmd_base cmd)) s1)
    as (ret2 & s2 & -> & _ & Ho2 & _); [done|rewrite length_drop; lia|]. cbn [mbind res_bind].
  rewrite Ho1, Hout, (take_ge (drop n _)) in Ho2 by (rewrite length_drop; lia).
  cbn [app] in Ho2. fold n in Ho2. rewrite take_drop in Ho2.
  destruct (@socket_receive_eq K2 (peer_of (set_sock s2 c) wvm wport) hw (cmd_base cmd) (cmd_rest cmd) [])
    as (r' & Hrcv & _); try done; [lia|cbn [peer_of cs_sock s_in set_sock]; by rewrite Ho2, app_nil_r|].
  eexists _, _, _, _. split; [done|]. split; [exact Hrcv|]. by split_and!.
Qed.

Definition sample_recorded : command :=
  mk_cmd 1 (mk_base 7 1 3 12 0 0 42 138 138 3 [16; 154; 0; 0; 0; 0; 0; 0]) [5; 6; 21; 22; 23].

Lemma sample_recorded_wf : base_wf (cmd_base sample_recorded).
Proof.
  unfold base_wf, sample_recorded, in_range, in_srange; cbn. split_and!; try lia.
  repeat constructor; unfold in_range; lia.
Qed.

Lemma socket_transfer_from_log_witness :
  let log := command_channel_log_new true true in
  ∃ c' rcvd r' hw',
    @command_channel_socket_transfer_command (sample_kernel 7) sample_socket heap_empty
      (command_channel_load_get_data_region log sample_recorded) sample_recorded = Ok (c', heap_empty) ∧
    @command_channel_socket_receive_command (sample_kernel 100) (peer_of c' 0 6000) heap_empty =
      Ok (Some rcvd, r', hw') ∧
    cmd_base rcvd = cmd_base sample_recorded ∧ cmd_rest rcvd = cmd_rest sample_recorded ∧
    ∀ id, command_channel_socket_get_buffer r' rcvd id =
          command_channel_load_get_buffer log sample_recorded id.
Proof.
  intros log. apply (socket_transfer_from_log (sample_kernel 7) (sample_kernel 100) log sample_socket
    heap_empty heap_empty sample_recorded 0 6000).
  - intros i. cbn. lia.
  - intros i. cbn. lia.
  - reflexivity.
  - apply sample_recorded_wf.
  - by vm_compute.
  - by vm_compute.
  - by vm_compute.
  - by vm_compute.
Defined.

(** A command without data cannot be transferred over a socket: the second [send_socket] asserts a
    non-zero size, after the struct has gone out. *)
Theorem socket_transfer_no_data_aborts `{K : SocketKernel} (c : command_channel_socket) (h : heap)
    (region : list Z) (cmd : command) :
  kernel_sends → 0 < command_size (cmd_base cmd) ≤ Z.of_nat (length (cmd_bytes cmd)) →
  region_size (cmd_base cmd) = 0 →
  command_channel_socket_transfer_command c h region cmd = Stop (AssertFailed "size > 0").
Proof.
  intros Hk Hcs Hrs. unfold command_channel_socket_transfer_command.
  destruct (send_socket_eq (cmd_bytes cmd) (command_size (cmd_base cmd)) (cs_sock c))
    as (ret & s & -> & _); [done|done|]. cbn [mbind res_bind]. unfold send_socket. by rewrite Hrs.
Qed.

(** The worker's end of the handshake: whatever follows it on the connection, the message that
    starts an API gives the worker's channel the guest's VM and API identifiers, and exactly what
    follows the message is left to be received. *)
Theorem tcp_worker_reads_handshake `{K : SocketKernel} (worker_port : Z) (b : command_base)
    (api off size : Z) (rest : list Z) :
  kernel_recvs → base_wf b → in_range 8 api →
  ∃ c, command_channel_socket_tcp_worker_new worker_port
         (Some (initialize_api_bytes b api off size ++ rest)) = Ok c ∧
    cs_vm_id c = vm_id b ∧ cs_init_command_type c = api ∧ cs_poll c = PollIn ∧
    cs_listen_port c = worker_port ∧ s_in (cs_sock c) = rest ∧ s_out (cs_sock c) = [].
Proof.
  intros Hk Hwf Ha. assert (in_range 64 api) as Ha64 by (unfold in_range in *; lia).
  destruct (init_message_read b api off size [] Hwf Ha64) as (Hv & Hw & Hl).
  rewrite app_nil_r in Hv, Hw. unfold command_channel_socket_tcp_worker_new.
  destruct (recv_socket_eq (Z.of_nat sizeof_initialize_api_command)
    (mk_sock (initialize_api_bytes b api off size ++ rest) [] false 0 0)
    (initialize_api_bytes b api off size) rest) as (s & -> & Hi & Ho & _); [done|done|by rewrite Hl|].
  cbn [mbind res_bind]. eexists. split; [done|].
  cbn [cs_vm_id cs_init_command_type cs_poll cs_listen_port cs_sock].
  rewrite Hv, Hw, wrap_small by done. by split_and!.
Qed.

(** Connecting ends: if at some try the server accepts or the time is over, the loop stops at the
    first such try, and it reports a connection exactly when that try succeeded. *)
Theorem tcp_connect_terminates (connect elapsed : nat → Z) (timeout : Z) (k fuel : nat) :
  connect k = 0 ∨ timeout < u64 (elapsed k) → (k < fuel)%nat →
  ∃ j, (j ≤ k)%nat ∧ (∀ l, (l < j)%nat → connect l ≠ 0 ∧ u64 (elapsed l) ≤ timeout) ∧
    connect_loop fuel 0 connect elapsed timeout = Ok (bool_decide (connect j = 0)).
Proof.
  intros Hk Hf. destruct (connect_loop_spec connect elapsed timeout k fuel 0) as
    (j & Hj & Hbefore & Hres); [lia|done|].
  exists j. split_and!; [lia|intros l Hl; apply Hbefore; lia|].
  destruct Hres as [[Hc ->]|(Hc & _ & ->)]; [by rewrite bool_decide_true|by rewrite bool_decide_false].
Qed.

(** The byte queues of the shared memory channel are what [send_socket] and [recv_socket] provide
    over any kernel that makes progress. *)
Theorem socket_refines_queue (K : SocketKernel) (c : command_channel_shm) (s : sock) (n : Z) (data : list Z) :
  kernel_sends → kernel_recvs → s_in s = sock_in c → s_out s = sock_out c → 0 ≤ n → data ≠ [] →
  (∃ ret s', send_socket data (Z.of_nat (length data)) s = Ok (ret, s') ∧
     s_in s' = sock_in (queue_send data c) ∧ s_out s' = sock_out (queue_send data c)) ∧
  (∀ d c', queue_recv n c = Ok (d, c') →
     ∃ s', recv_socket n s = Ok (d, s') ∧ s_in s' = sock_in c' ∧ s_out s' = sock_out c').
Proof.
  intros Hks Hkr Hin Hout Hn Hd. assert (length data ≠ 0)%nat by by destruct data. split.
  - destruct (send_socket_eq data (Z.of_nat (length data)) s) as (ret & s' & Hs & H1 & H2 & _);
      [done|lia|]. exists ret, s'. split; [done|]. rewrite H1, H2, Nat2Z.id, firstn_all, Hin, Hout. done.
  - intros d c' Hq. unfold queue_recv in Hq. destruct (Z.leb_spec n (Z.of_nat (length (sock_in c)))); [|done].
    injection Hq as <- <-.
    destruct (recv_socket_eq n s (take (Z.to_nat n) (sock_in c)) (drop (Z.to_nat n) (sock_in c)))
      as (s' & Hr & H1 & H2 & _); [done|by rewrite take_drop|rewrite length_take; lia|].
    exists s'. split; [done|]. rewrite H1, H2, Hout. done.
Qed.
