(* ===== verification/Provision.v ===== *)
(** * GPUs provisioned to a worker (worker/provision_gpu.cpp, worker/include/provision_gpu.h)

    A worker may use some GPUs of its node, each up to an amount of memory; the lists come from
    its environment as comma separated strings.  [ProvisionGpu] is the class of the same name;
    the thread-local current GPU is a map from threads.  Unsigned 32-bit identifiers and 64-bit
    sizes are kept at their width. *)

From S2P Require Import Prelude CString.
Local Open Scope Z_scope.

Record ProvisionGpu := mk_provision {
  index_ : list Z;
  uuid_ : list string;
  memory_ : list Z;
  free_memory_ : list Z
}.

(** ** Parsing *)

(** [while (s_stream.good()) { getline(s_stream, item, ','); if (!item.empty()) ... }]; every
    round consumes a delimiter, so the length of the string is enough fuel. *)
Fixpoint uuid_loop (fuel : nat) (s_stream : string) : list string :=
  match fuel with
  | O => []
  | S fuel =>
      let '(uuid, rest, good) := getline "," s_stream in
      (if str_empty uuid then [] else [uuid]) ++ (if (good : bool) then uuid_loop fuel rest else [])
  end.

Definition ParseGpuUuidList (uuid_list : string) : list string :=
  uuid_loop (S (String.length uuid_list)) uuid_list.

Fixpoint memory_loop (fuel : nat) (s_stream : string) : res (list Z) :=
  match fuel with
  | O => Ok []
  | S fuel =>
      let '(mem, rest, good) := getline "," s_stream in
      l ← (if str_empty mem then Ok [] else v ← stol mem; Ok [u64 v]);
      if (good : bool) then r ← memory_loop fuel rest; Ok (l ++ r) else Ok l
  end.

Definition ParseGpuMemoryList (mem_list : string) : res (list Z) :=
  memory_loop (S (String.length mem_list)) mem_list.

(** ** Construction *)

(** Position of the first equal string. *)
Fixpoint find_uuid (u : string) (l : list string) (j : Z) : option Z :=
  match l with
  | [] => None
  | x :: l => if String.eqb u x then Some j else find_uuid u l (j + 1)
  end.

Fixpoint index_loop (uuids cuda_uuids : list string) (index : list Z) : res (list Z) :=
  match uuids with
  | [] => Ok index
  | u :: uuids =>
      match find_uuid u cuda_uuids 0 with
      | Some j => index_loop uuids cuda_uuids (index ++ [j])
      | None => Stop (Exited 1)
      end
  end.

Definition Init (cuda_uuid_vector uuid_vector : list string) (mem_vector : list Z) : res ProvisionGpu :=
  if negb (length uuid_vector =? length mem_vector)%nat then Stop (Exited 1)
  else
    index ← index_loop uuid_vector cuda_uuid_vector [];
    Ok (mk_provision index uuid_vector mem_vector mem_vector).

(** The constructor from the three strings. *)
Definition new_ProvisionGpu (cuda_uuid_list uuid_list mem_list : string) : res ProvisionGpu :=
  let cuda_uuid_vector := ParseGpuUuidList cuda_uuid_list in
  let uuid_vector := ParseGpuUuidList uuid_list in
  mem_vector ← ParseGpuMemoryList mem_list;
  Init cuda_uuid_vector uuid_vector mem_vector.

(** ** Memory *)

(** Element [gpu_id] of a vector, [None] when out of range. *)
Definition at_id {A} (gpu_id : Z) (l : list A) : option A := l !! Z.to_nat gpu_id.

Definition GetGpuTotalMemory (p : ProvisionGpu) (gpu_id : Z) : Z := default 0 (at_id gpu_id (memory_ p)).
Definition GetGpuFreeMemory (p : ProvisionGpu) (gpu_id : Z) : Z :=
  default 0 (at_id gpu_id (free_memory_ p)).

Definition set_free (gpu_id v : Z) (p : ProvisionGpu) : ProvisionGpu :=
  mk_provision (index_ p) (uuid_ p) (memory_ p) (<[Z.to_nat gpu_id := v]> (free_memory_ p)).

Definition ConsumeGpuMemory (p : ProvisionGpu) (gpu_id size : Z) : Z * ProvisionGpu :=
  match at_id gpu_id (free_memory_ p) with
  | Some f => if size <=? f then (0, set_free gpu_id (u64 (f - size)) p) else (-1, p)
  | None => (-1, p)
  end.

Definition FreeGpuMemory (p : ProvisionGpu) (gpu_id size : Z) : ProvisionGpu :=
  match at_id gpu_id (free_memory_ p) with
  | Some f => set_free gpu_id (u64 (f + size)) p
  | None => p
  end.

(** ** Indices *)

(** Out of range, the number of provisioned GPUs: no valid identifier. *)
Definition GetGpuIndex (p : ProvisionGpu) (gpu_id : Z) : Z :=
  default (u32 (Z.of_nat (length (index_ p)))) (at_id gpu_id (index_ p)).

Definition GetGpuCount (p : ProvisionGpu) : Z := u32 (Z.of_nat (length (index_ p))).

(** The [thread_local] variable; 0 in a new thread. *)
Definition PerThreadCurrentGpuIndex (cur : gmap Z Z) (thread : Z) (get : bool) (index : Z)
    : Z * gmap Z Z :=
  if get then (default 0 (cur !! thread), cur) else (0, <[thread := index]> cur).

Definition GetCurrentGpuIndex (cur : gmap Z Z) (thread : Z) : Z :=
  fst (PerThreadCurrentGpuIndex cur thread true 0).
Definition SetCurrentGpuIndex (cur : gmap Z Z) (thread gpu_id : Z) : gmap Z Z :=
  snd (PerThreadCurrentGpuIndex cur thread false gpu_id).

(** ** The C interface; [None]: [provision_gpu] is NULL *)

Definition provision_gpu_get_gpu_total_memory (p : option ProvisionGpu) (gpu_id : Z) : Z :=
  from_option (λ p, GetGpuTotalMemory p gpu_id) 0 p.
Definition provision_gpu_get_gpu_free_memory (p : option ProvisionGpu) (gpu_id : Z) : Z :=
  from_option (λ p, GetGpuFreeMemory p gpu_id) 0 p.
Definition provision_gpu_consume_gpu_memory (p : option ProvisionGpu) (gpu_id size : Z)
    : Z * option ProvisionGpu :=
  match p with
  | Some p => let '(r, p) := ConsumeGpuMemory p gpu_id size in (r, Some p)
  | None => (-1, None)
  end.
Definition provision_gpu_free_gpu_memory (p : option ProvisionGpu) (gpu_id size : Z)
    : option ProvisionGpu := (λ p, FreeGpuMemory p gpu_id size) <$> p.
Definition provision_gpu_get_gpu_index (p : option ProvisionGpu) (gpu_id : Z) : Z :=
  from_option (λ p, GetGpuIndex p gpu_id) 0 p.
Definition provision_gpu_get_current_gpu_index (p : option ProvisionGpu) (cur : gmap Z Z) (thread : Z) : Z :=
  match p with Some _ => GetCurrentGpuIndex cur thread | None => 0 end.
Definition provision_gpu_set_current_gpu_index (p : option ProvisionGpu) (cur : gmap Z Z)
    (thread gpu_id : Z) : gmap Z Z :=
  match p with Some _ => SetCurrentGpuIndex cur thread gpu_id | None => cur end.
Definition provision_gpu_get_gpu_count (p : option ProvisionGpu) : Z := from_option GetGpuCount 0 p.

(** ** Specification of the memory accounting *)

(** The allocations a worker holds: GPU and size. *)
Definition held (allocs : list (Z * Z)) (gpu : Z) : Z :=
  foldr (λ a n, if fst a =? gpu then snd a + n else n) 0 allocs.

(** What the worker does: take memory, or give back the [i]-th allocation it holds. *)
Inductive mem_op :=
  | Take (gpu size : Z)
  | Give (i : nat).

(** The abstract allocator. *)
Definition spec_step (total : list Z) (op : mem_op) (allocs : list (Z * Z)) : Z * list (Z * Z) :=
  match op with
  | Take gpu size =>
      match at_id gpu total with
      | Some t => if held allocs gpu + size <=? t then (0, (gpu, size) :: allocs) else (-1, allocs)
      | None => (-1, allocs)
      end
  | Give i => (0, delete i allocs)
  end.

(** The same through the class. *)
Definition impl_step (op : mem_op) (allocs : list (Z * Z)) (p : ProvisionGpu) : Z * ProvisionGpu :=
  match op with
  | Take gpu size => ConsumeGpuMemory p gpu size
  | Give i => match allocs !! i with
              | Some (gpu, size) => (0, FreeGpuMemory p gpu size)
              | None => (0, p)
              end
  end.

Fixpoint run_both (ops : list mem_op) (allocs : list (Z * Z)) (p : ProvisionGpu)
    : list (Z * Z) * list (Z * Z) * ProvisionGpu :=
  match ops with
  | [] => ([], allocs, p)
  | op :: ops =>
      let '(r, p') := impl_step op allocs p in
      let '(r', allocs') := spec_step (memory_ p) op allocs in
      let '(rs, allocs, p) := run_both ops allocs' p' in
      ((r, r') :: rs, allocs, p)
  end.

(** Free memory is what is not held, on every GPU. *)
Definition accounts (allocs : list (Z * Z)) (p : ProvisionGpu) : Prop :=
  length (free_memory_ p) = length (memory_ p) ∧ Forall (in_range 64) (memory_ p) ∧
  Forall (λ a, 0 ≤ snd a ∧ 0 ≤ fst a) allocs ∧
  ∀ gpu t, 0 ≤ gpu → at_id gpu (memory_ p) = Some t →
    held allocs gpu ≤ t ∧ at_id gpu (free_memory_ p) = Some (t - held allocs gpu).

(** ** Lemmas *)

Lemma uuid_loop_filter fuel s :
  (String.length s < fuel)%nat →
  uuid_loop fuel s = filter (λ x, str_empty x = false) (split fuel "," s).
Proof.
  revert s. induction fuel as [|fuel IH]; intros s Hl; [lia|]. cbn [uuid_loop split]. unfold getline.
  destruct (cut "," s) as [[pre post]|] eqn:Hc.
  - apply cut_length in Hc. rewrite filter_cons, IH by lia.
    destruct (str_empty pre); [by rewrite decide_False|by rewrite decide_True].
  - rewrite filter_cons, filter_nil. destruct (str_empty s); [by rewrite decide_False|by rewrite decide_True].
Qed.

Lemma memory_loop_mapM fuel s :
  (String.length s < fuel)%nat →
  memory_loop fuel s =
    foldr (λ x r, v ← stol x; l ← r; Ok (u64 v :: l)) (Ok [])
      (filter (λ x, str_empty x = false) (split fuel "," s)).
Proof.
  revert s. induction fuel as [|fuel IH]; intros s Hl; [lia|]. cbn [memory_loop split]. unfold getline.
  destruct (cut "," s) as [[pre post]|] eqn:Hc.
  - apply cut_length in Hc. rewrite filter_cons, IH by lia.
    destruct (str_empty pre); [rewrite decide_False by done|rewrite decide_True by done]; cbn [foldr].
    + cbn. by destruct (foldr _ _ _).
    + destruct (stol pre); [|done]. cbn [mbind res_bind]. by destruct (foldr _ _ _).
  - rewrite filter_cons, filter_nil.
    destruct (str_empty s); [by rewrite decide_False|rewrite decide_True by done]. cbn [foldr].
    by destruct (stol s).
Qed.

Lemma join_length c first items : (length items ≤ String.length (join_with c first items))%nat.
Proof.
  revert first. induction items as [|x items IH]; intros first; cbn [join_with length]; [lia|].
  rewrite string_length_app. cbn [String.length]. specialize (IH x). lia.
Qed.

(** Items without commas that are not empty. *)
Definition plain (s : string) : Prop := str_empty s = false ∧ has_char "," s = false.

Lemma split_items first items :
  Forall plain (first :: items) →
  filter (λ x, str_empty x = false)
    (split (S (String.length (join_with "," first items))) "," (join_with "," first items)) = first :: items.
Proof.
  intros Hp. pose proof Hp as [[Hf1 Hf2] Hi]%Forall_cons. rewrite split_join; [|done| |].
  - clear Hf1 Hf2 Hi. induction Hp as [|x l [Hx _] _ IH]; [done|].
    rewrite filter_cons, decide_True by done. by rewrite IH.
  - eapply Forall_impl; [exact Hi|]. by intros x [_ ?].
  - pose proof (join_length "," first items). lia.
Qed.

Lemma find_uuid_Some u l : ∀ j k, find_uuid u l j = Some k →
  ∃ n, k = j + Z.of_nat n ∧ l !! n = Some u ∧ ∀ m, (m < n)%nat → l !! m ≠ Some u.
Proof.
  induction l as [|x l IH]; intros j k; cbn [find_uuid]; [done|].
  destruct (String.eqb_spec u x) as [->|Hne].
  - intros [= <-]. exists 0%nat. split_and!; [lia|done|lia].
  - intros (n & -> & Hn & Hmin)%IH. exists (S n). split_and!; [lia|done|].
    intros [|m] Hm; cbn; [congruence|]. apply Hmin. lia.
Qed.

Lemma find_uuid_None u l j : find_uuid u l j = None ↔ u ∉ l.
Proof.
  revert j. induction l as [|x l IH]; intros j; cbn [find_uuid]; [set_solver|].
  destruct (String.eqb_spec u x) as [->|Hne]; [set_solver|]. rewrite IH. set_solver.
Qed.

Lemma index_loop_eq uuids cuda index :
  index_loop uuids cuda index =
    if decide (Forall (λ u, u ∈ cuda) uuids)
    then Ok (index ++ ((λ u, default 0 (find_uuid u cuda 0)) <$> uuids)) else Stop (Exited 1).
Proof.
  revert index. induction uuids as [|u uuids IH]; intros index; cbn [index_loop].
  { rewrite decide_True by constructor. cbn. by rewrite app_nil_r. }
  destruct (find_uuid u cuda 0) as [j|] eqn:Hf.
  - assert (u ∈ cuda) by (destruct (decide (u ∈ cuda)) as [|Hn]; [done|by rewrite (proj2 (find_uuid_None u cuda 0) Hn) in Hf]).
    rewrite IH. destruct (decide (Forall (λ u, u ∈ cuda) uuids)) as [Hall|Hall].
    + rewrite decide_True by by constructor. rewrite fmap_cons, Hf. by rewrite <- app_assoc.
    + rewrite decide_False; [done|]. by intros [_ ?]%Forall_cons.
  - rewrite decide_False; [done|]. intros [Hu _]%Forall_cons. by apply find_uuid_None in Hf.
Qed.

Lemma held_cons g s l gpu : held ((g, s) :: l) gpu = held l gpu + if g =? gpu then s else 0.
Proof. unfold held. cbn. destruct (g =? gpu); lia. Qed.

Lemma held_nonneg allocs gpu : Forall (λ a, 0 ≤ snd a ∧ 0 ≤ fst a) allocs → 0 ≤ held allocs gpu.
Proof.
  induction 1 as [|[g s] l [Hs _] _ IH]; [done|]. rewrite held_cons. cbn in Hs.
  destruct (g =? gpu); lia.
Qed.

Lemma held_delete allocs i g s gpu :
  allocs !! i = Some (g, s) →
  held allocs gpu = held (delete i allocs) gpu + if g =? gpu then s else 0.
Proof.
  revert i. induction allocs as [|[g' s'] l IH]; intros [|i]; try done.
  - intros [= -> ->]. apply held_cons.
  - intros Hi. specialize (IH i Hi). change (delete (S i) ((g', s') :: l)) with ((g', s') :: delete i l).
    rewrite !held_cons. lia.
Qed.

Lemma at_id_set_free p gpu gpu' v f :
  0 ≤ gpu → 0 ≤ gpu' → at_id gpu (free_memory_ p) = Some f →
  at_id gpu' (free_memory_ (set_free gpu v p)) = if gpu =? gpu' then Some v else at_id gpu' (free_memory_ p).
Proof.
  intros Hg Hg' Hf. unfold at_id, set_free in *. cbn. apply lookup_lt_Some in Hf.
  destruct (Z.eqb_spec gpu gpu') as [->|Hne].
  - by rewrite list_lookup_insert_eq.
  - rewrite list_lookup_insert_ne by lia. done.
Qed.

Lemma delete_absent {A} (l : list A) i : l !! i = None → delete i l = l.
Proof. revert i. induction l as [|x l IH]; intros [|i]; cbn; try done. intros H. by rewrite IH. Qed.

(** The two vectors have the same indices. *)
Lemma at_id_same {A B} gpu (l : list A) (k : list B) :
  length l = length k → at_id gpu l = None → at_id gpu k = None.
Proof. unfold at_id. rewrite !lookup_ge_None. lia. Qed.

Lemma accounts_take allocs p gpu size :
  accounts allocs p → 0 ≤ gpu → 0 ≤ size →
  fst (ConsumeGpuMemory p gpu size) = fst (spec_step (memory_ p) (Take gpu size) allocs) ∧
  accounts (snd (spec_step (memory_ p) (Take gpu size) allocs)) (snd (ConsumeGpuMemory p gpu size)) ∧
  memory_ (snd (ConsumeGpuMemory p gpu size)) = memory_ p.
Proof.
  intros (Hl & Hr & Hpos & Hacc) Hgpu Hsize. cbn [spec_step]. unfold ConsumeGpuMemory.
  destruct (at_id gpu (memory_ p)) as [t|] eqn:Ht.
  2: { by rewrite (at_id_same gpu (memory_ p) (free_memory_ p)) by done. }
  destruct (Hacc gpu t) as [Hle Hf]; [lia|done|]. rewrite Hf.
  pose proof (held_nonneg allocs gpu Hpos). assert (in_range 64 t) as Ht64
    by (unfold at_id in Ht; by eapply Forall_lookup_1).
  destruct (Z.leb_spec size (t - held allocs gpu)), (Z.leb_spec (held allocs gpu + size) t); try lia;
    cbn [fst snd]; [|done].
  split; [done|]. split; [|done]. split_and!; [by cbn; rewrite length_insert|done|by constructor|].
  cbn [set_free memory_]. intros g t' Hg Ht'. destruct (Hacc g t' Hg Ht') as [Hle' Hf'].
  rewrite (at_id_set_free p gpu g _ _ ltac:(lia) Hg Hf). rewrite held_cons. destruct (Z.eqb_spec gpu g) as [->|]; [|by rewrite Z.add_0_r].
  assert (t' = t) as -> by congruence.
  split; [lia|]. f_equal. rewrite wrap_small; [lia|]. unfold in_range in *. lia.
Qed.

Lemma accounts_give allocs p i gpu size :
  accounts allocs p → allocs !! i = Some (gpu, size) →
  accounts (delete i allocs) (FreeGpuMemory p gpu size) ∧ memory_ (FreeGpuMemory p gpu size) = memory_ p.
Proof.
  intros (Hl & Hr & Hpos & Hacc) Hi. destruct (Forall_lookup_1 _ _ _ _ Hpos Hi) as [Hs0 Hg0]. cbn in Hs0, Hg0.
  assert (Forall (λ a, 0 ≤ snd a ∧ 0 ≤ fst a) (delete i allocs)) as Hpos' by by apply Forall_delete.
  unfold FreeGpuMemory. destruct (at_id gpu (free_memory_ p)) as [f|] eqn:Hf.
  - split; [|done]. split_and!; [by cbn; rewrite length_insert|done|done|].
    cbn [set_free memory_]. intros g t Hg Ht. destruct (Hacc g t Hg Ht) as [Hle Hfg].
    rewrite (at_id_set_free p gpu g _ _ Hg0 Hg Hf). rewrite (held_delete _ _ _ _ g Hi) in Hle, Hfg.
    pose proof (held_nonneg (delete i allocs) g Hpos'). assert (in_range 64 t) as Ht64
      by (unfold at_id in Ht; by eapply Forall_lookup_1). unfold in_range in *.
    destruct (Z.eqb_spec gpu g) as [->|]; [|split; [lia|rewrite Hfg; f_equal; lia]].
    split; [lia|]. assert (f = t - (held (delete i allocs) g + size)) as -> by congruence.
    f_equal. rewrite wrap_small; [lia|]. unfold in_range. lia.
  - split; [|done]. split_and!; [done..|]. intros g t Hg Ht. destruct (Hacc g t Hg Ht) as [Hle Hfg].
    rewrite (held_delete _ _ _ _ g Hi) in Hle, Hfg. destruct (Z.eqb_spec gpu g) as [->|].
    + congruence.
    + split; [lia|]. rewrite Hfg. f_equal. lia.
Qed.

(** One step of the class follows the abstract allocator. *)
Lemma accounts_step op allocs p :
  accounts allocs p →
  match op with Take gpu size => 0 ≤ gpu ∧ 0 ≤ size | Give _ => True end →
  fst (impl_step op allocs p) = fst (spec_step (memory_ p) op allocs) ∧
  accounts (snd (spec_step (memory_ p) op allocs)) (snd (impl_step op allocs p)) ∧
  memory_ (snd (impl_step op allocs p)) = memory_ p.
Proof.
  intros Hacc Hop. destruct op as [gpu size|i]; cbn [impl_step].
  - destruct Hop. by apply accounts_take.
  - cbn [spec_step]. destruct (allocs !! i) as [[gpu size]|] eqn:Hi; cbn [fst snd].
    + destruct (accounts_give allocs p i gpu size Hacc Hi). by split_and!.
    + rewrite delete_absent by done. by split_and!.
Qed.

Lemma accounts_fresh p :
  free_memory_ p = memory_ p → Forall (in_range 64) (memory_ p) → accounts [] p.
Proof.
  intros Hf Hr. split_and!; [by rewrite Hf|done|constructor|]. intros gpu t Hg Ht.
  rewrite Hf, Ht. assert (in_range 64 t) as Ht' by (unfold at_id in Ht; by eapply Forall_lookup_1).
  unfold in_range in Ht'. cbn. split; [lia|]. f_equal. lia.
Qed.

Lemma memory_items_parse mems first :
  Forall (λ m, 0 ≤ m < 2 ^ 63) (first :: mems) →
  foldr (λ x r, v ← stol x; l ← r; Ok (u64 v :: l)) (Ok []) (to_string <$> first :: mems) =
    Ok (first :: mems).
Proof.
  induction 1 as [|m l Hm _ IH]; [done|]. rewrite fmap_cons. cbn [foldr].
  rewrite sto_to_string by done. cbn [mbind res_bind]. rewrite IH. cbn [mbind res_bind].
  rewrite wrap_small; [done|]. unfold in_range. lia.
Qed.

Lemma to_string_plain n : 0 ≤ n → plain (to_string n).
Proof. intros Hn. split; [by apply to_string_not_empty|by apply to_string_no_char]. Qed.

Lemma parse_uuid_list u us : Forall plain (u :: us) → ParseGpuUuidList (join_with "," u us) = u :: us.
Proof. intros Hp. unfold ParseGpuUuidList. rewrite uuid_loop_filter by lia. by apply split_items. Qed.

Lemma parse_memory_list m ms :
  Forall (λ m, 0 ≤ m < 2 ^ 63) (m :: ms) →
  ParseGpuMemoryList (join_with "," (to_string m) (to_string <$> ms)) = Ok (m :: ms).
Proof.
  intros Hp. unfold ParseGpuMemoryList. rewrite memory_loop_mapM by lia.
  rewrite split_items.
  - by apply (memory_items_parse ms m).
  - change (to_string m :: (to_string <$> ms)) with (to_string <$> m :: ms). rewrite Forall_fmap.
    eapply Forall_impl; [exact Hp|]. intros x [Hx _]. by apply to_string_plain.
Qed.

(** ** Properties *)

(** C31. The memory of the provisioned GPUs is accounted exactly: over any sequence of taking memory and
    giving back what was taken, [ConsumeGpuMemory] answers 0 or -1 as an allocator that knows all
    outstanding allocations would (the request fits the GPU's total), and afterwards the free
    memory reported for each GPU is its total less what is held; it never wraps, and never exceeds
    the total. *)
Theorem provision_refines_allocator (ops : list mem_op) (p : ProvisionGpu) :
  free_memory_ p = memory_ p → Forall (in_range 64) (memory_ p) →
  Forall (λ op, match op with Take gpu size => 0 ≤ gpu ∧ 0 ≤ size | Give _ => True end) ops →
  let '(answers, allocs, p') := run_both ops [] p in
  Forall (λ a, fst a = snd a) answers ∧ memory_ p' = memory_ p ∧
  ∀ gpu t, 0 ≤ gpu → at_id gpu (memory_ p) = Some t →
    GetGpuFreeMemory p' gpu = t - held allocs gpu ∧ 0 ≤ held allocs gpu ≤ t.
Proof.
  intros Hf Hr Hops. assert (accounts [] p) as Hacc by by apply accounts_fresh.
  clear Hf Hr. revert Hacc. generalize (@nil (Z * Z)) as allocs. revert p.
  induction Hops as [|op ops Hop _ IH]; intros p allocs Hacc; cbn [run_both].
  - split_and!; [constructor|done|]. intros gpu t Hg Ht. pose proof Hacc as (_ & _ & Hpos & Ha).
    destruct (Ha gpu t Hg Ht) as [Hle Hfr]. unfold GetGpuFreeMemory. rewrite Hfr. cbn.
    pose proof (held_nonneg allocs gpu Hpos). lia.
  - destruct (accounts_step op allocs p Hacc Hop) as (Hans & Hacc' & Hmem).
    destruct (impl_step op allocs p) as [r p1]. destruct (spec_step (memory_ p) op allocs) as [r' allocs1].
    cbn [fst snd] in *. specialize (IH p1 allocs1 Hacc').
    destruct (run_both ops allocs1 p1) as [[rs a2] p2]. rewrite Hmem in IH.
    destruct IH as (H1 & H2 & H3). split_and!; [by constructor|done|done].
Qed.

Definition sample_provision : ProvisionGpu :=
  mk_provision [0; 1] ["GPU-a"; "GPU-b"]%string [100; 50] [100; 50].

Lemma provision_refines_allocator_witness :
  let ops := [Take 0 60; Take 0 60; Take 1 50; Give 1; Take 0 100; Take 7 1] in
  let '(answers, allocs, p') := run_both ops [] sample_provision in
  Forall (λ a, fst a = snd a) answers ∧ memory_ p' = [100; 50] ∧
  ∀ gpu t, 0 ≤ gpu → at_id gpu [100; 50] = Some t →
    GetGpuFreeMemory p' gpu = t - held allocs gpu ∧ 0 ≤ held allocs gpu ≤ t.
Proof.
  intros ops. apply (provision_refines_allocator ops sample_provision).
  - reflexivity.
  - cbn. repeat constructor; unfold in_range; lia.
  - unfold ops. repeat constructor; lia.
Defined.

(** Construction either maps every provisioned UUID to the position of its first occurrence among
    the visible GPUs and starts with all memory free, or exits; it exits exactly when the lists
    differ in length or some UUID is not visible. *)
Theorem provision_init_spec (cuda uuids : list string) (mems : list Z) :
  (length uuids = length mems ∧ Forall (λ u, u ∈ cuda) uuids ∧
   ∃ p, Init cuda uuids mems = Ok p ∧ uuid_ p = uuids ∧ memory_ p = mems ∧ free_memory_ p = mems ∧
     length (index_ p) = length uuids ∧
     ∀ i u, uuids !! i = Some u → ∃ n, index_ p !! i = Some (Z.of_nat n) ∧ cuda !! n = Some u ∧
       ∀ m, (m < n)%nat → cuda !! m ≠ Some u) ∨
  ((length uuids ≠ length mems ∨ ∃ u, u ∈ uuids ∧ u ∉ cuda) ∧ Init cuda uuids mems = Stop (Exited 1)).
Proof.
  unfold Init. destruct (Nat.eqb_spec (length uuids) (length mems)) as [Hl|Hl]; cbn [negb].
  2: { right. split; [by left|done]. }
  rewrite index_loop_eq. destruct (decide (Forall (λ u, u ∈ cuda) uuids)) as [Hall|Hall].
  - left. split_and!; [done|done|]. eexists. split; [done|]. cbn. rewrite length_fmap.
    split_and!; try done. intros i u Hi. rewrite list_lookup_fmap, Hi. cbn.
    destruct (find_uuid u cuda 0) as [k|] eqn:Hk.
    + destruct (find_uuid_Some u cuda 0 k Hk) as (n & -> & Hn & Hmin). exists n. by rewrite Z.add_0_l.
    + apply find_uuid_None in Hk. by pose proof (Forall_lookup_1 _ _ _ _ Hall Hi).
  - right. split; [|done]. right. apply not_Forall_Exists in Hall; [|intros u; apply _].
    apply Exists_exists in Hall as (u & Hu & Hn). by exists u.
Qed.

(** The environment strings are read back as they were written: joining plain items with commas,
    and sizes below 2^63 in decimal, gives strings from which the lists are parsed unchanged. *)
Theorem provision_lists_roundtrip (u : string) (us : list string) (m : Z) (ms : list Z) :
  Forall plain (u :: us) → Forall (λ m, 0 ≤ m < 2 ^ 63) (m :: ms) →
  ParseGpuUuidList (join_with "," u us) = u :: us ∧
  ParseGpuMemoryList (join_with "," (to_string m) (to_string <$> ms)) = Ok (m :: ms).
Proof. intros Hu Hm. split; [by apply parse_uuid_list|by apply parse_memory_list]. Qed.

Lemma provision_lists_roundtrip_witness :
  ParseGpuUuidList "GPU-a,GPU-b,GPU-a" = ["GPU-a"; "GPU-b"; "GPU-a"]%string ∧
  ParseGpuMemoryList "1073741824,0,77" = Ok [1073741824; 0; 77].
Proof.
  apply (provision_lists_roundtrip "GPU-a" ["GPU-b"; "GPU-a"] 1073741824 [0; 77]).
  - repeat constructor; by vm_compute.
  - repeat constructor; lia.
Defined.

(** Sizes of 2^63 bytes and more do not survive: [std::stol] throws although the size is a
    [uint64_t]. *)
Theorem memory_list_out_of_range (m : Z) :
  2 ^ 63 ≤ m → ParseGpuMemoryList (to_string m) = Stop (Thrown "std::out_of_range").
Proof.
  intros Hm. unfold ParseGpuMemoryList. rewrite memory_loop_mapM by lia.
  change (to_string m) with (join_with "," (to_string m) []).
  rewrite split_items by (apply Forall_singleton, to_string_plain; lia). cbn [foldr].
  unfold sto. rewrite strtol_to_string' by lia. rewrite (proj2 (Z.ltb_ge m _)) by lia.
  by rewrite andb_false_r.
Qed.

(** Giving back memory that was not taken raises the free memory above the total. *)
Theorem free_exceeds_total (p : ProvisionGpu) (gpu size t : Z) :
  at_id gpu (memory_ p) = Some t → at_id gpu (free_memory_ p) = Some t → 0 ≤ gpu →
  0 < size → 0 ≤ t → t + size < 2 ^ 64 →
  GetGpuTotalMemory p gpu < GetGpuFreeMemory (FreeGpuMemory p gpu size) gpu.
Proof.
  intros Ht Hf Hg Hs H0 Hb. unfold GetGpuTotalMemory, GetGpuFreeMemory, FreeGpuMemory. rewrite Ht, Hf.
  rewrite (at_id_set_free p gpu gpu _ t), Z.eqb_refl by done. cbn.
  rewrite wrap_small by (unfold in_range; lia). lia.
Qed.

(** The current GPU is per thread: setting it in one thread is seen there and nowhere else. *)
Theorem current_gpu_per_thread (p : ProvisionGpu) (cur : gmap Z Z) (t1 t2 gpu : Z) :
  provision_gpu_get_current_gpu_index (Some p)
    (provision_gpu_set_current_gpu_index (Some p) cur t1 gpu) t2 =
  if decide (t1 = t2) then gpu else provision_gpu_get_current_gpu_index (Some p) cur t2.
Proof.
  cbn. unfold GetCurrentGpuIndex, SetCurrentGpuIndex, PerThreadCurrentGpuIndex. cbn.
  destruct (decide (t1 = t2)) as [->|Hne]; [by rewrite lookup_insert_eq|by rewrite lookup_insert_ne].
Qed.
