(* ===== verification/Zcopy.v ===== *)
(** * Zero-copy regions (common/zcopy.c, include/zcopy.h)

    A bump allocator over a region that guest and worker map at different addresses, the
    physical addresses of its bytes, and the position-independent encoding in which a pointer
    travels from one side to the other.  Pointer arithmetic is on 64-bit patterns and wraps. *)

From S2P Require Import Prelude.
Local Open Scope Z_scope.

Definition VGPU_ZERO_COPY_SIZE : Z := 16 * 2 ^ 20.
Definition ENCODED_PTR_OFFSET : Z := 4096.
Definition ENOMEM : Z := 12.
Definition EFAULT : Z := 14.

Record ava_zcopy_region := mk_region {
  zc_fd : Z;
  physical_base : Z;
  zc_base : Z;
  zc_size : Z;
  allocation_ptr : Z
}.

Definition no_driver : string := "The appropriate zero-copy driver may not be installed.".

(** What the device answers: the descriptor of [open], the physical address the ioctl stores
    ([None] for an error), and the address [mmap] returns ([None] for MAP_FAILED). *)
Record zcopy_device := mk_zdev {
  zd_fd : Z;
  zd_phys : option Z;
  zd_request : Z;
  zd_map : option Z
}.

Definition ava_zcopy_region_new_worker (d : zcopy_device) : option ava_zcopy_region :=
  if zd_fd d <? 0 then None
  else
    match zd_phys d with
    | None => None
    | Some phys =>
        match zd_map d with
        | None => None
        | Some base => Some (mk_region (zd_fd d) phys base VGPU_ZERO_COPY_SIZE base)
        end
    end.

(** The guest falls back on the host driver when the guest driver does not open. *)
Definition ava_zcopy_region_new_guest (guest host : zcopy_device) : option ava_zcopy_region :=
  if zd_fd guest <? 0 then ava_zcopy_region_new_worker host
  else
    match zd_phys guest with
    | None => None
    | Some phys =>
        match zd_map guest with
        | None => None
        | Some base =>
            if zd_request guest <? 0 then None
            else Some (mk_region (zd_fd guest) phys base VGPU_ZERO_COPY_SIZE base)
        end
    end.

(** The addresses that are unmapped; the struct is freed. *)
Definition ava_zcopy_region_free_region (region : option ava_zcopy_region)
    : res (option (Z * Z)) :=
  match region with
  | None => Stop (AssertFailed "region != NULL")
  | Some r => Ok (if 0 <? zc_base r then Some (zc_base r, VGPU_ZERO_COPY_SIZE) else None)
  end.

(** Returns the pointer, the region afterwards and the value [errno] is set to. *)
Definition ava_zcopy_region_alloc (region : option ava_zcopy_region) (size : Z)
    : res (Z * option ava_zcopy_region * option Z) :=
  match region with
  | None => Stop (AssertFailed no_driver)
  | Some r =>
      let ret := allocation_ptr r in
      if negb (zc_base r =? NULL) && (u64 (ret + size) <? u64 (zc_base r + zc_size r))
      then Ok (ret, Some (mk_region (zc_fd r) (physical_base r) (zc_base r) (zc_size r)
                            (u64 (ret + size))), None)
      else Ok (NULL, Some r, Some ENOMEM)
  end.

Definition ava_zcopy_region_free (region : option ava_zcopy_region) (ptr : Z)
    : res (option ava_zcopy_region) :=
  match region with
  | None => Stop (AssertFailed no_driver)
  | Some r => Ok (Some r)
  end.

(** [region->base == NULL || (ptr < region->base || ptr > region->base + region->size)]. *)
Definition outside (r : ava_zcopy_region) (ptr : Z) : bool :=
  (zc_base r =? NULL) || ((ptr <? zc_base r) || (u64 (zc_base r + zc_size r) <? ptr)).

Definition ava_zcopy_region_get_physical_address (region : option ava_zcopy_region) (ptr : Z)
    : res (Z * option Z) :=
  match region with
  | None => Stop (AssertFailed no_driver)
  | Some r =>
      if outside r ptr then Ok (0, Some EFAULT)
      else Ok (u64 (ptr - zc_base r + physical_base r), None)
  end.

Definition ava_zcopy_region_encode_position_independent (region : option ava_zcopy_region)
    (ptr : Z) : res (Z * option Z) :=
  match region with
  | None => Stop (AssertFailed no_driver)
  | Some r =>
      if ptr =? NULL then Ok (NULL, None)
      else if outside r ptr then Ok (0, Some EFAULT)
      else Ok (u64 (ptr - zc_base r + ENCODED_PTR_OFFSET), None)
  end.

Definition ava_zcopy_region_decode_position_independent (region : option ava_zcopy_region)
    (ptr : Z) : res (Z * option Z) :=
  match region with
  | None => Stop (AssertFailed no_driver)
  | Some r =>
      if ptr =? NULL then Ok (NULL, None)
      else if (zc_base r =? NULL) ||
              ((ptr <? ENCODED_PTR_OFFSET) || (u64 (ENCODED_PTR_OFFSET + zc_size r) <? ptr))
      then Ok (0, Some EFAULT)
      else Ok (u64 (zc_base r + ptr - ENCODED_PTR_OFFSET), None)
  end.

(** The wrappers of include/endpoint_lib.h on the endpoint's [zcopy_region]. *)
Definition ava_endpoint_zerocopy_alloc := ava_zcopy_region_alloc.
Definition ava_endpoint_zerocopy_free := ava_zcopy_region_free.
Definition ava_endpoint_zerocopy_get_physical_address := ava_zcopy_region_get_physical_address.

(** Allocations one after the other, with the pointers they return. *)
Fixpoint alloc_all (region : option ava_zcopy_region) (sizes : list Z)
    : res (list (Z * Z) * option ava_zcopy_region) :=
  match sizes with
  | [] => Ok ([], region)
  | n :: sizes =>
      '(p, region, _) ← ava_zcopy_region_alloc region n;
      '(l, region) ← alloc_all region sizes;
      Ok ((p, n) :: l, region)
  end.

(** ** Invariant *)

(** A mapped region that does not reach the end of the address space. *)
Definition region_ok (r : ava_zcopy_region) : Prop :=
  0 < zc_base r ∧ 0 ≤ zc_size r ∧ zc_base r + zc_size r < 2 ^ 63 ∧
  zc_base r ≤ allocation_ptr r ≤ zc_base r + zc_size r.

Lemma region_new_ok d r :
  ava_zcopy_region_new_worker d = Some r →
  (∀ b, zd_map d = Some b → 0 < b < 2 ^ 62) → region_ok r.
Proof.
  unfold ava_zcopy_region_new_worker. intros Hnew Hmap.
  destruct (_ <? 0); [done|]. destruct (zd_phys d); [|done]. destruct (zd_map d) as [b|]; [|done].
  injection Hnew as <-. specialize (Hmap b eq_refl).
  unfold region_ok, VGPU_ZERO_COPY_SIZE. cbn. lia.
Qed.

(** One allocation, on both branches. *)
Lemma alloc_spec r n :
  region_ok r → 0 ≤ n < 2 ^ 63 →
  (allocation_ptr r + n < zc_base r + zc_size r ∧
   ava_zcopy_region_alloc (Some r) n =
     Ok (allocation_ptr r, Some (mk_region (zc_fd r) (physical_base r) (zc_base r) (zc_size r)
                                   (allocation_ptr r + n)), None)) ∨
  (zc_base r + zc_size r ≤ allocation_ptr r + n ∧
   ava_zcopy_region_alloc (Some r) n = Ok (NULL, Some r, Some ENOMEM)).
Proof.
  intros (Hb & Hs & Hlt & Hp) Hn. unfold ava_zcopy_region_alloc, NULL.
  rewrite (proj2 (Z.eqb_neq _ _)) by lia. cbn [negb andb].
  rewrite !wrap_small by (unfold in_range; lia).
  destruct (Z.ltb_spec (allocation_ptr r + n) (zc_base r + zc_size r)); [left|right]; done.
Qed.

Lemma alloc_all_above r sizes :
  region_ok r → Forall (λ n, 0 ≤ n < 2 ^ 63) sizes →
  ∃ l r', alloc_all (Some r) sizes = Ok (l, Some r') ∧ region_ok r' ∧ zc_base r' = zc_base r ∧
    zc_size r' = zc_size r ∧ snd <$> l = sizes ∧
    Forall (λ a, fst a = NULL ∨
      allocation_ptr r ≤ fst a ∧ fst a + snd a < zc_base r + zc_size r) l ∧
    (∀ i j p n q m, (i < j)%nat → l !! i = Some (p, n) → l !! j = Some (q, m) →
      p = NULL ∨ q = NULL ∨ p + n ≤ q).
Proof.
  revert r. induction sizes as [|n sizes IH]; intros r Hok Hall.
  { exists [], r. by split_and!. }
  apply Forall_cons in Hall as [Hn Hall]. cbn [alloc_all].
  pose proof Hok as (Hb & Hs & Hlt & Hp).
  destruct (alloc_spec r n Hok Hn) as [[Hfit ->]|[Hfit ->]]; cbn [mbind res_bind].
  - destruct (IH (mk_region (zc_fd r) (physical_base r) (zc_base r) (zc_size r)
      (allocation_ptr r + n))) as (l & r' & -> & Hok' & H1 & H2 & H3 & H4 & H5);
      [unfold region_ok; cbn; lia|done|]. cbn [mbind res_bind zc_base zc_size allocation_ptr] in *.
    eexists _, r'. split; [reflexivity|]. split_and!; try done.
    + cbn. by f_equal.
    + constructor; [right; cbn; lia|]. eapply Forall_impl; [exact H4|]. cbn. lia.
    + intros i j p m q k Hij Hi Hj. destruct j as [|j]; [lia|]. destruct i as [|i]; cbn in *.
      * simplify_eq. eapply Forall_lookup_1 in H4; [|exact Hj]. cbn in H4. lia.
      * eapply (H5 i j); [lia|done|done].
  - destruct (IH r Hok Hall) as (l & r' & -> & Hok' & H1 & H2 & H3 & H4 & H5).
    cbn [mbind res_bind]. eexists _, r'. split; [reflexivity|]. split_and!; try done.
    + cbn. by f_equal.
    + constructor; [by left|done].
    + intros i j p m q k Hij Hi Hj. destruct j as [|j]; [lia|]. destruct i as [|i]; cbn in *.
      * simplify_eq. by left.
      * eapply (H5 i j); [lia|done|done].
Qed.

Lemma outside_spec r ptr :
  region_ok r → outside r ptr = negb (bool_decide (zc_base r ≤ ptr ≤ zc_base r + zc_size r)).
Proof.
  intros (Hb & Hs & Hlt & _). unfold outside, NULL. rewrite (proj2 (Z.eqb_neq _ _)) by lia.
  rewrite wrap_small by (unfold in_range; lia). cbn [orb].
  destruct (Z.ltb_spec ptr (zc_base r)), (Z.ltb_spec (zc_base r + zc_size r) ptr);
    case_bool_decide; done || lia.
Qed.

Lemma decode_spec r d :
  region_ok r → 0 ≤ d ≤ zc_size r →
  ava_zcopy_region_decode_position_independent (Some r) (d + ENCODED_PTR_OFFSET) =
    Ok (zc_base r + d, None).
Proof.
  intros (Hb & Hs & Hlt & _) Hd.
  unfold ava_zcopy_region_decode_position_independent, ENCODED_PTR_OFFSET, NULL.
  rewrite !(proj2 (Z.eqb_neq _ _)) by lia. rewrite (wrap_small _ (4096 + _)) by (unfold in_range; lia).
  rewrite !(proj2 (Z.ltb_ge _ _)) by lia. cbn [orb].
  rewrite wrap_small by (unfold in_range; lia). do 2 f_equal. lia.
Qed.

(** ** Properties *)

(** The zero-copy allocator on a fresh region: any sequence of requests that do not wrap the
    address space returns, each request gets either NULL or an address inside the region whose
    whole block lies inside it, and the blocks of successful requests do not overlap. *)
Theorem zcopy_alloc_disjoint (d : zcopy_device) (r : ava_zcopy_region) (sizes : list Z) :
  ava_zcopy_region_new_worker d = Some r →
  (∀ b, zd_map d = Some b → 0 < b < 2 ^ 62) → Forall (λ n, 0 ≤ n < 2 ^ 63) sizes →
  ∃ l r', alloc_all (Some r) sizes = Ok (l, Some r') ∧ snd <$> l = sizes ∧
    Forall (λ a, fst a = NULL ∨
      zc_base r ≤ fst a ∧ fst a + snd a < zc_base r + VGPU_ZERO_COPY_SIZE) l ∧
    (∀ i j p n q m, (i < j)%nat → l !! i = Some (p, n) → l !! j = Some (q, m) →
      p = NULL ∨ q = NULL ∨ p + n ≤ q).
Proof.
  intros Hnew Hmap Hall. pose proof (region_new_ok _ _ Hnew Hmap) as Hok.
  assert (zc_size r = VGPU_ZERO_COPY_SIZE) as Hsz.
  { unfold ava_zcopy_region_new_worker in Hnew. destruct (_ <? 0); [done|].
    destruct (zd_phys d); [|done]. destruct (zd_map d); [|done]. by injection Hnew as <-. }
  destruct (alloc_all_above r sizes Hok Hall) as (l & r' & Hrun & _ & _ & _ & Hs & Hl & Hd).
  exists l, r'. split_and!; try done. eapply Forall_impl; [exact Hl|]. cbn.
  destruct Hok as (_ & _ & _ & Hp). rewrite Hsz. lia.
Qed.

Lemma zcopy_alloc_disjoint_witness :
  ∃ l r', alloc_all (Some (mk_region 5 8192 65536 VGPU_ZERO_COPY_SIZE 65536)) [100; 2 ^ 24; 50] =
      Ok (l, Some r') ∧ snd <$> l = [100; 2 ^ 24; 50] ∧
    Forall (λ a, fst a = NULL ∨
      65536 ≤ fst a ∧ fst a + snd a < 65536 + VGPU_ZERO_COPY_SIZE) l ∧
    (∀ i j p n q m, (i < j)%nat → l !! i = Some (p, n) → l !! j = Some (q, m) →
      p = NULL ∨ q = NULL ∨ p + n ≤ q).
Proof.
  apply (zcopy_alloc_disjoint (mk_zdev 5 (Some 8192) 0 (Some 65536))
           (mk_region 5 8192 65536 VGPU_ZERO_COPY_SIZE 65536) [100; 2 ^ 24; 50]).
  - reflexivity.
  - cbn. intros b [= <-]. lia.
  - rewrite !Forall_cons, Forall_nil. lia.
Defined.

(** Pointers survive the trip between the two sides.  For regions of the same size mapped at
    different addresses, a pointer into one is encoded to a non-NULL value without error, the
    other side decodes it to the pointer at the same distance from its own base, decoding on the
    same side gives the pointer back, and when both map the same physical memory the two
    pointers have the same physical address.  A pointer outside the region is refused with
    EFAULT. *)
Theorem zcopy_encode_decode (g w : ava_zcopy_region) (ptr : Z) :
  region_ok g → region_ok w → zc_size g = zc_size w → in_range 64 ptr → ptr ≠ NULL →
  let inside := zc_base g ≤ ptr ≤ zc_base g + zc_size g in
  (inside → ∃ e, e ≠ NULL ∧
    ava_zcopy_region_encode_position_independent (Some g) ptr = Ok (e, None) ∧
    ava_zcopy_region_decode_position_independent (Some w) e =
      Ok (zc_base w + (ptr - zc_base g), None) ∧
    ava_zcopy_region_decode_position_independent (Some g) e = Ok (ptr, None) ∧
    (physical_base g = physical_base w →
     ava_zcopy_region_get_physical_address (Some w) (zc_base w + (ptr - zc_base g)) =
     ava_zcopy_region_get_physical_address (Some g) ptr)) ∧
  (¬ inside → ava_zcopy_region_encode_position_independent (Some g) ptr = Ok (0, Some EFAULT)).
Proof.
  intros Hg Hw Hsz Hptr Hnull inside.
  unfold ava_zcopy_region_encode_position_independent, ava_zcopy_region_get_physical_address.
  rewrite (proj2 (Z.eqb_neq _ _)) by done. rewrite !outside_spec by done. fold inside. split.
  - intros Hin. unfold inside in *. pose proof Hg as (Hg1 & Hg2 & Hg3 & _).
    rewrite bool_decide_true by done. cbn [negb].
    rewrite (wrap_small _ (_ + ENCODED_PTR_OFFSET)) by (unfold in_range, ENCODED_PTR_OFFSET; lia).
    eexists. split; [|split; [reflexivity|]]; [unfold ENCODED_PTR_OFFSET, NULL; lia|].
    rewrite !decode_spec by (done || lia). split_and!; [done|do 2 f_equal; lia|].
    intros ->. rewrite bool_decide_true by lia. cbn [negb]. do 3 f_equal. lia.
  - intros Hout. by rewrite bool_decide_false.
Qed.

Lemma zcopy_encode_decode_witness :
  (65536 ≤ 65600 ≤ 65536 + 4096 → ∃ e, e ≠ NULL ∧
    ava_zcopy_region_encode_position_independent (Some (mk_region 5 8192 65536 4096 65536)) 65600 =
      Ok (e, None) ∧
    ava_zcopy_region_decode_position_independent (Some (mk_region 6 8192 131072 4096 131072)) e =
      Ok (131072 + (65600 - 65536), None) ∧
    ava_zcopy_region_decode_position_independent (Some (mk_region 5 8192 65536 4096 65536)) e =
      Ok (65600, None) ∧
    (8192 = 8192 → ava_zcopy_region_get_physical_address
       (Some (mk_region 6 8192 131072 4096 131072)) (131072 + (65600 - 65536)) =
     ava_zcopy_region_get_physical_address (Some (mk_region 5 8192 65536 4096 65536)) 65600)) ∧
  (¬ (65536 ≤ 65600 ≤ 65536 + 4096) →
   ava_zcopy_region_encode_position_independent (Some (mk_region 5 8192 65536 4096 65536)) 65600 =
     Ok (0, Some EFAULT)).
Proof.
  apply (zcopy_encode_decode (mk_region 5 8192 65536 4096 65536)
           (mk_region 6 8192 131072 4096 131072) 65600);
    unfold region_ok, in_range, NULL; cbn; lia.
Defined.

(** A request so large that [ret + size] wraps around the address space is granted instead of
    failing with ENOMEM, and moves the allocation pointer backwards, below the blocks that are
    already in use. *)
Theorem zcopy_alloc_wraps (r : ava_zcopy_region) (k : Z) :
  region_ok r → 0 < k ≤ allocation_ptr r → k < 2 ^ 63 →
  allocation_ptr r - k < zc_base r + zc_size r →
  ∃ r', ava_zcopy_region_alloc (Some r) (2 ^ 64 - k) = Ok (allocation_ptr r, Some r', None) ∧
    allocation_ptr r' = allocation_ptr r - k.
Proof.
  intros (Hb & Hs & Hlt & Hp) Hk Hk2 Hfit. unfold ava_zcopy_region_alloc, NULL.
  rewrite (proj2 (Z.eqb_neq _ _)) by lia. cbn [negb andb].
  assert (u64 (allocation_ptr r + (2 ^ 64 - k)) = allocation_ptr r - k) as ->.
  { unfold wrap. symmetry. apply (Z.mod_unique _ _ 1); lia. }
  rewrite wrap_small by (unfold in_range; lia).
  rewrite (proj2 (Z.ltb_lt _ _)) by lia. by eexists.
Qed.

Lemma zcopy_alloc_wraps_witness :
  ∃ r', ava_zcopy_region_alloc (Some (mk_region 5 8192 65536 4096 65636)) (2 ^ 64 - 100) =
      Ok (65636, Some r', None) ∧ allocation_ptr r' = 65636 - 100.
Proof.
  apply (zcopy_alloc_wraps (mk_region 5 8192 65536 4096 65636) 100);
    unfold region_ok; cbn; lia.
Defined.
