(* ===== verification/Endpoint.v ===== *)
(** * The endpoint (common/endpoint_lib.c, include/endpoint_lib.h)

    Object metadata, in-flight calls, buffers managed for the generated code, recorded calls and
    dependencies, and the construction and destruction of [struct ava_endpoint].

    The process-wide metadata map is a field of the endpoint state.  Every metadata object belongs
    to one key for the life of the process, so the map holds the objects themselves; a function
    pointer is its address, NULL when unset.  Each operation runs under the mutex of the table it
    changes and is one function on the state. *)

From S2P Require Import Prelude Murmur HandlePool Channel LogChannel Zcopy.
Local Open Scope Z_scope.

(** ** Data *)

Record ava_metadata_base := mk_meta {
  coupled_shadow_buffers : option (list Z);
  shadow : Z;
  extract : Z;
  replace : Z;
  recorded_calls : option (list (Z * Z));
  dependencies : option (list Z);
  deallocator : Z
}.

(** [calloc (1, endpoint->metadata_size)]. *)
Definition metadata_zero : ava_metadata_base := mk_meta None NULL NULL NULL None None NULL.

Definition set_coupled_shadow_buffers v (m : ava_metadata_base) : ava_metadata_base :=
  mk_meta v (shadow m) (extract m) (replace m) (recorded_calls m) (dependencies m) (deallocator m).
Definition set_shadow v (m : ava_metadata_base) : ava_metadata_base :=
  mk_meta (coupled_shadow_buffers m) v (extract m) (replace m) (recorded_calls m)
    (dependencies m) (deallocator m).
Definition set_extract_replace e r (m : ava_metadata_base) : ava_metadata_base :=
  mk_meta (coupled_shadow_buffers m) (shadow m) e r (recorded_calls m) (dependencies m)
    (deallocator m).
Definition set_recorded_calls v (m : ava_metadata_base) : ava_metadata_base :=
  mk_meta (coupled_shadow_buffers m) (shadow m) (extract m) (replace m) v (dependencies m)
    (deallocator m).
Definition set_dependencies v (m : ava_metadata_base) : ava_metadata_base :=
  mk_meta (coupled_shadow_buffers m) (shadow m) (extract m) (replace m) (recorded_calls m) v
    (deallocator m).

(** A [GArray] of bytes with its reference count.  The pointer [buffer->data] that the allocation
    functions return is represented by the array it belongs to. *)
Record garray := mk_ga {
  ga_refs : nat;
  ga_data : list Z
}.

(** [key_list] holds pointers to the keys, given by the 16 bytes of the key. *)
Record ava_coupled_record_t := mk_cr {
  key_list : list (list Z);
  buffer_list : list Z
}.

Record ava_endpoint := mk_ep {
  metadata_size : Z;
  managed_buffer_map : gmap (list Z) Z;
  managed_by_coupled_map : gmap Z ava_coupled_record_t;
  call_map : gmap Z Z;
  call_counter : Z;
  zcopy_region : option ava_zcopy_region;
  buffers_by_id : gmap Z Z;
  arrays : gmap Z garray;
  next_array : Z;
  metadata_map : gmap Z ava_metadata_base
}.

Definition set_managed (mb : gmap (list Z) Z) (mc : gmap Z ava_coupled_record_t)
    (e : ava_endpoint) : ava_endpoint :=
  mk_ep (metadata_size e) mb mc (call_map e) (call_counter e) (zcopy_region e) (buffers_by_id e)
    (arrays e) (next_array e) (metadata_map e).
Definition set_calls (m : gmap Z Z) (n : Z) (e : ava_endpoint) : ava_endpoint :=
  mk_ep (metadata_size e) (managed_buffer_map e) (managed_by_coupled_map e) m n
    (zcopy_region e) (buffers_by_id e) (arrays e) (next_array e) (metadata_map e).
Definition set_buffers_by_id (m : gmap Z Z) (e : ava_endpoint) : ava_endpoint :=
  mk_ep (metadata_size e) (managed_buffer_map e) (managed_by_coupled_map e) (call_map e)
    (call_counter e) (zcopy_region e) m (arrays e) (next_array e) (metadata_map e).
Definition set_arrays (a : gmap Z garray) (n : Z) (e : ava_endpoint) : ava_endpoint :=
  mk_ep (metadata_size e) (managed_buffer_map e) (managed_by_coupled_map e) (call_map e)
    (call_counter e) (zcopy_region e) (buffers_by_id e) a n (metadata_map e).
Definition set_metadata_map (m : gmap Z ava_metadata_base) (e : ava_endpoint) : ava_endpoint :=
  mk_ep (metadata_size e) (managed_buffer_map e) (managed_by_coupled_map e) (call_map e)
    (call_counter e) (zcopy_region e) (buffers_by_id e) (arrays e) (next_array e) m.

(** ** Metadata *)

Definition ava_internal_metadata_unlocked (e : ava_endpoint) (ptr : Z)
    : ava_metadata_base * ava_endpoint :=
  match metadata_map e !! ptr with
  | Some m => (m, e)
  | None => (metadata_zero, set_metadata_map (<[ptr := metadata_zero]> (metadata_map e)) e)
  end.

Definition ava_internal_metadata (e : ava_endpoint) (ptr : Z)
    : ava_metadata_base * ava_endpoint := ava_internal_metadata_unlocked e ptr.

Definition ava_internal_metadata_no_create (e : ava_endpoint) (ptr : Z)
    : option ava_metadata_base := metadata_map e !! ptr.

(** An assignment through the pointer that [ava_internal_metadata] returned. *)
Definition put_metadata (ptr : Z) (m : ava_metadata_base) (e : ava_endpoint) : ava_endpoint :=
  set_metadata_map (<[ptr := m]> (metadata_map e)) e.

(** ** In-flight calls *)

Definition ava_get_call_id (e : ava_endpoint) : Z * ava_endpoint :=
  (call_counter e, set_calls (call_map e) (signed 64 (call_counter e + 1)) e).

Definition ava_add_call (e : ava_endpoint) (id ptr : Z) : res ava_endpoint :=
  let '(b, m) := ght_insert (call_map e) id ptr in
  _ ← c_assert b "Adding a call ID which currently exists.";
  Ok (set_calls m (call_counter e) e).

Definition ava_remove_call (e : ava_endpoint) (id : Z) : res (Z * ava_endpoint) :=
  '(ptr, m) ← nw_hash_table_steal_value (call_map e) id;
  _ ← c_assert (negb (ptr =? NULL)) "Removing a call ID which does not exist";
  Ok (ptr, set_calls m (call_counter e) e).

(** ** Managed buffers *)

(** GLib arrays: [g_array_sized_new], [g_array_set_size] (whose lengths are [guint]; the arrays
    are created with [clear_] set, so new elements are zero) and [g_array_unref]. *)
Definition g_array_sized_new (e : ava_endpoint) : Z * ava_endpoint :=
  (next_array e, set_arrays (<[next_array e := mk_ga 1 []]> (arrays e)) (next_array e + 1) e).

Definition set_size (size : Z) (d : list Z) : list Z :=
  let n := Z.to_nat (u32 size) in take n d ++ replicate (n - length d) 0.

Definition g_array_set_size (a size : Z) (e : ava_endpoint) : res ava_endpoint :=
  match arrays e !! a with
  | None => Stop (Undefined "g_array_set_size on a freed array")
  | Some g => Ok (set_arrays (<[a := mk_ga (ga_refs g) (set_size size (ga_data g))]> (arrays e))
                    (next_array e) e)
  end.

Definition g_array_unref (a : Z) (e : ava_endpoint) : res ava_endpoint :=
  match arrays e !! a with
  | None => Stop (Undefined "g_array_unref of a freed array")
  | Some g =>
      Ok (set_arrays (match ga_refs g with
                      | S (S n) => <[a := mk_ga (S n) (ga_data g)]> (arrays e)
                      | _ => delete a (arrays e)
                      end) (next_array e) e)
  end.

(** [g_hash_table_remove] on [managed_buffer_map], whose values are destroyed with
    [g_array_unref]; [nw_hash_table_remove_flipped] is this function with its arguments swapped. *)
Definition nw_hash_table_remove_flipped (key : list Z) (e : ava_endpoint) : res ava_endpoint :=
  match managed_buffer_map e !! key with
  | None => Ok e
  | Some a =>
      g_array_unref a (set_managed (delete key (managed_buffer_map e))
                         (managed_by_coupled_map e) e)
  end.

Definition ava_coupled_record_new : ava_coupled_record_t := mk_cr [] [].

Definition ava_coupled_record_free (e : ava_endpoint) (r : ava_coupled_record_t)
    : res ava_endpoint :=
  e ← foldM nw_hash_table_remove_flipped (key_list r) e;
  foldM g_array_unref (buffer_list r) e.

(** The destroy notification of [managed_by_coupled_map]: the two-argument function above,
    registered (and called) as a function of one argument. *)
Definition managed_by_coupled_destroy (r : ava_coupled_record_t) : res unit :=
  Stop (Undefined "ava_coupled_record_free called with one argument").

Definition ava_get_coupled_record_unlocked (e : ava_endpoint) (coupled : Z)
    : ava_coupled_record_t * ava_endpoint :=
  match managed_by_coupled_map e !! coupled with
  | Some rec => (rec, e)
  | None => (ava_coupled_record_new,
             set_managed (managed_buffer_map e)
               (<[coupled := ava_coupled_record_new]> (managed_by_coupled_map e)) e)
  end.

(** Assignment through the record pointer. *)
Definition put_coupled (coupled : Z) (r : ava_coupled_record_t) (e : ava_endpoint)
    : ava_endpoint :=
  set_managed (managed_buffer_map e) (<[coupled := r]> (managed_by_coupled_map e)) e.

(** [pad] is what the four padding bytes of the stack variable [key] happen to hold. *)
Definition ava_cached_alloc (e : ava_endpoint) (pad : list Z) (call_id coupled size : Z)
    : res (Z * ava_endpoint) :=
  let key := key_bytes (mk_key call_id pad coupled) in
  let '(buffer, e) :=
    match managed_buffer_map e !! key with
    | Some buffer => (buffer, e)
    | None =>
        let '(buffer, e) := g_array_sized_new e in
        let e := set_managed (<[key := buffer]> (managed_buffer_map e))
                   (managed_by_coupled_map e) e in
        let '(rec, e) := ava_get_coupled_record_unlocked e coupled in
        (buffer, put_coupled coupled (mk_cr (key_list rec ++ [key])
                                        (buffer_list rec ++ [buffer])) e)
    end in
  e ← g_array_set_size buffer size e;
  Ok (buffer, e).

Definition ava_uncached_alloc (e : ava_endpoint) (coupled size : Z) : Z * ava_endpoint :=
  let '(buffer, e) := g_array_sized_new e in
  let '(rec, e) := ava_get_coupled_record_unlocked e coupled in
  (buffer, put_coupled coupled (mk_cr (key_list rec) (buffer_list rec ++ [buffer])) e).

Definition ava_coupled_free (e : ava_endpoint) (coupled : Z) : res ava_endpoint :=
  match managed_by_coupled_map e !! coupled with
  | None => Ok e
  | Some rec =>
      _ ← managed_by_coupled_destroy rec;
      Ok (set_managed (managed_buffer_map e) (delete coupled (managed_by_coupled_map e)) e)
  end.

Definition ava_static_alloc (e : ava_endpoint) (pad : list Z) (call_id size : Z)
    : res (Z * ava_endpoint) := ava_cached_alloc e pad call_id NULL size.

(** ** Recorded calls and dependencies *)

Definition ava_add_recorded_call (e : ava_endpoint) (handle : Z) (pair : Z * Z) : ava_endpoint :=
  let '(m, e) := ava_internal_metadata_unlocked e handle in
  put_metadata handle (set_recorded_calls (Some (default [] (recorded_calls m) ++ [pair])) m) e.

Definition ava_expunge_recorded_calls (e : ava_endpoint) (log : command_channel_log) (handle : Z)
    : res (ava_endpoint * command_channel_log) :=
  let '(m, e) := ava_internal_metadata_unlocked e handle in
  log ← foldM (λ pair log,
          log ← command_channel_log_update_flags log (fst pair) 1;
          command_channel_log_update_flags log (snd pair) 1)
        (default [] (recorded_calls m)) log;
  Ok (e, log).

Definition ava_add_dependency (e : ava_endpoint) (a b : Z) : ava_endpoint :=
  let '(m, e) := ava_internal_metadata_unlocked e a in
  put_metadata a (set_dependencies (Some (default [] (dependencies m) ++ [b])) m) e.

Definition ava_assign_record_replay_functions (e : ava_endpoint) (handle ext rep : Z)
    : ava_endpoint :=
  let '(m, e) := ava_internal_metadata e handle in
  put_metadata handle (set_extract_replace ext rep m) e.

(** ** Construction and destruction *)

(** [ava_endpoint_init]: also sets [global_counter_tag].  The metadata map is process-wide and
    not touched. *)
Definition ava_endpoint_init (g : counter) (metadata : gmap Z ava_metadata_base) (msize tag : Z)
    (zcopy : option ava_zcopy_region) : res (counter * ava_endpoint) :=
  _ ← c_assert (tag =? Z.land tag 0xf) "Only the low 4 bits of the tag may be used.";
  Ok (mk_counter (global_counter g) tag, mk_ep msize ∅ ∅ ∅ 0 zcopy ∅ ∅ 1 metadata).

(** [g_hash_table_unref] of the two managed maps runs the destroy notifications. *)
Definition ava_endpoint_destroy (e : ava_endpoint) : res ava_endpoint :=
  _ ← match zcopy_region e with
      | Some r => _ ← ava_zcopy_region_free_region (Some r); Ok tt
      | None => Ok tt
      end;
  e ← foldM nw_hash_table_remove_flipped ((map_to_list (managed_buffer_map e)).*1) e;
  _ ← foldM (λ rec _, managed_by_coupled_destroy rec)
        ((map_to_list (managed_by_coupled_map e)).*2) tt;
  Ok (set_calls ∅ (call_counter e) e).

(** [struct ava_buffer_with_deallocator]: a deallocator with the buffer it frees. *)
Record ava_buffer_with_deallocator := mk_bwd {
  bwd_deallocator : Z;
  bwd_buffer : Z
}.

Definition ava_buffer_with_deallocator_new (dealloc buffer : Z) : ava_buffer_with_deallocator :=
  mk_bwd dealloc buffer.

(** The calls that are made: the deallocator on the buffer. *)
Definition ava_buffer_with_deallocator_free (b : ava_buffer_with_deallocator) : Z * Z :=
  (bwd_deallocator b, bwd_buffer b).

(** ** Sequences of operations *)

Inductive call_op :=
  | Issue (ptr : Z)
  | Complete (id : Z).

(** A call is issued with a fresh identifier and completed by the identifier in the reply. *)
Definition call_step (op : call_op) (e : ava_endpoint) : res (Z * ava_endpoint) :=
  match op with
  | Issue ptr =>
      let '(id, e) := ava_get_call_id e in
      e ← ava_add_call e id ptr;
      Ok (id, e)
  | Complete id => ava_remove_call e id
  end.

Fixpoint calls_run (ops : list call_op) (e : ava_endpoint) : res (list Z * ava_endpoint) :=
  match ops with
  | [] => Ok ([], e)
  | op :: ops =>
      '(x, e) ← call_step op e;
      '(l, e) ← calls_run ops e;
      Ok (x :: l, e)
  end.

(** Specification: calls are numbered in order; a reply finds the record of its call once. *)
Fixpoint calls_spec (ops : list call_op) (n : Z) (flying : gmap Z Z) : option (list Z * Z * gmap Z Z) :=
  match ops with
  | [] => Some ([], n, flying)
  | Issue ptr :: ops =>
      option_map (λ r, (n :: fst (fst r), snd (fst r), snd r))
        (calls_spec ops (n + 1) (<[n := ptr]> flying))
  | Complete id :: ops =>
      match flying !! id with
      | None => None
      | Some ptr =>
          option_map (λ r, (ptr :: fst (fst r), snd (fst r), snd r))
            (calls_spec ops n (delete id flying))
      end
  end.

(** Operations that build the metadata of objects. *)
Inductive meta_op :=
  | RecordCall (handle : Z) (pair : Z * Z)
  | Depend (a b : Z)
  | Assign (handle ext rep : Z)
  | Touch (handle : Z).

Definition meta_step (op : meta_op) (e : ava_endpoint) : ava_endpoint :=
  match op with
  | RecordCall h p => ava_add_recorded_call e h p
  | Depend a b => ava_add_dependency e a b
  | Assign h x r => ava_assign_record_replay_functions e h x r
  | Touch h => snd (ava_internal_metadata e h)
  end.

Definition meta_run (ops : list meta_op) (e : ava_endpoint) : ava_endpoint :=
  foldl (λ e op, meta_step op e) e ops.

(** What the operations say about one object. *)
Definition recorded_of (h : Z) (ops : list meta_op) : list (Z * Z) :=
  omap (λ op, match op with RecordCall h' p => if decide (h' = h) then Some p else None
                          | _ => None end) ops.
Definition depends_of (h : Z) (ops : list meta_op) : list Z :=
  omap (λ op, match op with Depend h' b => if decide (h' = h) then Some b else None
                          | _ => None end) ops.
Definition functions_of (h : Z) (ops : list meta_op) : option (Z * Z) :=
  last (omap (λ op, match op with Assign h' x r => if decide (h' = h) then Some (x, r) else None
                                | _ => None end) ops).

(** Recorded calls and dependencies of a metadata object, in order; empty when unset. *)
Definition calls_of (e : ava_endpoint) (h : Z) : list (Z * Z) :=
  match metadata_map e !! h with Some m => default [] (recorded_calls m) | None => [] end.
Definition deps_of (e : ava_endpoint) (h : Z) : list Z :=
  match metadata_map e !! h with Some m => default [] (dependencies m) | None => [] end.
Definition functions_in (e : ava_endpoint) (h : Z) : Z * Z :=
  match metadata_map e !! h with Some m => (extract m, replace m) | None => (NULL, NULL) end.

(** Flags of the records at the given positions set to 1. *)
Definition mark_all (js : list nat) (rs : list lrec) : list lrec :=
  foldl (λ rs j, alter (set_lr_flags 1) j rs) rs js.

(** ** Invariant of the managed buffers *)

(** Every cached buffer is a live array of its own. *)
Definition managed_ok (e : ava_endpoint) : Prop :=
  (∀ key a, managed_buffer_map e !! key = Some a → is_Some (arrays e !! a)) ∧
  (∀ a, is_Some (arrays e !! a) → a < next_array e) ∧
  (∀ k1 k2 a, managed_buffer_map e !! k1 = Some a → managed_buffer_map e !! k2 = Some a → k1 = k2).

(** ** Lemmas *)

Lemma calls_refine ops : ∀ e,
  Forall (λ op, match op with Issue p => p ≠ NULL | _ => True end) ops →
  (∀ id p, call_map e !! id = Some p → id < call_counter e ∧ p ≠ NULL) →
  0 ≤ call_counter e → call_counter e + Z.of_nat (length ops) < 2 ^ 63 →
  match calls_spec ops (call_counter e) (call_map e) with
  | Some (out, n, m) => calls_run ops e = Ok (out, set_calls m n e)
  | None => calls_run ops e = Stop (AssertFailed "Removing a call ID which does not exist")
  end.
Proof.
  induction ops as [|op ops IH]; intros e Hops Hinv H0 Hlen.
  { cbn. by destruct e. }
  apply Forall_cons in Hops as [Hop Hops]. cbn [length] in Hlen.
  destruct op as [ptr|id]; cbn [calls_spec calls_run call_step].
  - unfold ava_get_call_id, ava_add_call, ght_insert. cbn [call_map call_counter set_calls].
    destruct (call_map e !! call_counter e) as [p|] eqn:Hl.
    { apply Hinv in Hl. lia. }
    cbn [c_assert mbind res_bind].
    assert (signed 64 (call_counter e + 1) = call_counter e + 1) as -> by (apply signed_small; lia).
    set (e1 := set_calls _ (call_counter e + 1) e).
    specialize (IH (set_calls (<[call_counter e := ptr]> (call_map e)) (call_counter e + 1) e1) Hops).
    cbn in IH.
    destruct (calls_spec ops (call_counter e + 1) _) as [[[out n] m]|]; cbn [option_map];
      rewrite IH; try done; try lia.
    + intros id p [[<- <-]|[? ?%Hinv]]%lookup_insert_Some; [split; [lia|done]|split; [lia|naive_solver]].
    + intros id p [[<- <-]|[? ?%Hinv]]%lookup_insert_Some; [split; [lia|done]|split; [lia|naive_solver]].
  - unfold ava_remove_call, nw_hash_table_steal_value, ght_lookup, ght_remove.
    destruct (call_map e !! id) as [p|] eqn:Hl; cbn; [|done].
    destruct (Hinv _ _ Hl) as [Hid Hp]. unfold Datatypes.id. rewrite (proj2 (Z.eqb_neq p NULL)) by done.
    cbn [negb c_assert mbind res_bind].
    rewrite (proj2 (Z.eqb_neq p NULL)) by done. cbn [negb c_assert mbind res_bind].
    specialize (IH (set_calls (delete id (call_map e)) (call_counter e) e) Hops).
    cbn in IH.
    destruct (calls_spec ops (call_counter e) _) as [[[out n] m]|]; cbn [option_map];
      rewrite IH; try done; try lia;
      intros id' p' [? ?%Hinv]%lookup_delete_Some; done.
Qed.

Lemma metadata_step_eq e h m :
  metadata_map (put_metadata h m (snd (ava_internal_metadata_unlocked e h))) =
    <[h := m]> (metadata_map e).
Proof.
  unfold ava_internal_metadata_unlocked. destruct (metadata_map e !! h); cbn; [done|].
  by rewrite insert_insert_eq.
Qed.

(** The object an operation is about, and what it does to the metadata of that object. *)
Definition meta_key (op : meta_op) : Z :=
  match op with RecordCall h _ | Depend h _ | Assign h _ _ | Touch h => h end.
Definition meta_update (op : meta_op) (m : ava_metadata_base) : ava_metadata_base :=
  match op with
  | RecordCall _ p => set_recorded_calls (Some (default [] (recorded_calls m) ++ [p])) m
  | Depend _ b => set_dependencies (Some (default [] (dependencies m) ++ [b])) m
  | Assign _ x r => set_extract_replace x r m
  | Touch _ => m
  end.

Lemma meta_step_lookup op e h :
  metadata_map (meta_step op e) !! h =
    if decide (meta_key op = h)
    then Some (meta_update op (default metadata_zero (metadata_map e !! h)))
    else metadata_map e !! h.
Proof.
  destruct op as [k p|k b|k x r|k]; cbn [meta_step meta_key meta_update];
    unfold ava_add_recorded_call, ava_add_dependency, ava_assign_record_replay_functions,
      ava_internal_metadata, ava_internal_metadata_unlocked;
    destruct (metadata_map e !! k) as [m|] eqn:Hk; cbn [put_metadata set_metadata_map metadata_map snd];
    destruct (decide (k = h)) as [->|Hne];
    rewrite ?lookup_insert_eq, ?(lookup_insert_ne _ _ _ _ Hne), ?Hk; done.
Qed.

Lemma meta_run_refine ops e h :
  calls_of (meta_run ops e) h = calls_of e h ++ recorded_of h ops ∧
  deps_of (meta_run ops e) h = deps_of e h ++ depends_of h ops ∧
  functions_in (meta_run ops e) h = default (functions_in e h) (functions_of h ops).
Proof.
  induction ops as [|op ops IH] using rev_ind.
  { cbn. by rewrite !app_nil_r. }
  unfold meta_run in *. rewrite foldl_app. cbn [foldl].
  set (e1 := foldl _ e ops) in *. clearbody e1.
  unfold recorded_of, depends_of, functions_of in *. rewrite !omap_app.
  destruct IH as (IH1 & IH2 & IH3).
  assert (calls_of (meta_step op e1) h =
    calls_of e1 h ++ match op with RecordCall h' p => if decide (h' = h) then [p] else [] | _ => [] end
    ∧ deps_of (meta_step op e1) h =
    deps_of e1 h ++ match op with Depend h' b => if decide (h' = h) then [b] else [] | _ => [] end
    ∧ functions_in (meta_step op e1) h =
    match op with Assign h' x r => if decide (h' = h) then (x, r) else functions_in e1 h
             | _ => functions_in e1 h end) as (H1 & H2 & H3).
  { unfold calls_of, deps_of, functions_in. rewrite meta_step_lookup.
    destruct (decide (meta_key op = h)) as [Heq|Hne];
      destruct op as [k p|k b|k x r|k]; cbn [meta_key meta_update] in *; try rewrite decide_True by done;
      try rewrite decide_False by done; destruct (metadata_map e1 !! h) as [m|]; cbn;
      rewrite ?app_nil_r; done. }
  rewrite H1, H2, H3, IH1, IH2, IH3, <- !app_assoc.
  destruct op as [k p|k b|k x r|k]; cbn; try destruct (decide (k = h)); cbn;
    rewrite ?app_nil_r, ?last_snoc; done.
Qed.

Lemma mark_all_lookup js rs j :
  mark_all js rs !! j = (if decide (j ∈ js) then set_lr_flags 1 else id) <$> rs !! j.
Proof.
  revert rs. induction js as [|k js IH]; intros rs; cbn [mark_all foldl].
  { by destruct (rs !! j). }
  unfold mark_all in IH. rewrite IH. destruct (decide (k = j)) as [->|Hne].
  - rewrite list_lookup_alter_eq, (decide_True (P := j ∈ j :: js)) by set_solver.
    destruct (decide (j ∈ js)), (rs !! j) as [r|]; done.
  - rewrite list_lookup_alter_ne by done.
    destruct (decide (j ∈ js)), (decide (j ∈ k :: js)); set_solver || done.
Qed.

(** Marking one record through the log file. *)
Lemma update_flags_mark c rs i j :
  log_repr c rs i → (j < length rs)%nat →
  ∃ c', command_channel_log_update_flags c (log_offset rs j) 1 = Ok c' ∧
    log_repr c' (alter (set_lr_flags 1) j rs) i ∧
    (∀ k, log_offset (alter (set_lr_flags 1) j rs) k = log_offset rs k) ∧
    length (alter (set_lr_flags 1) j rs) = length rs.
Proof.
  intros Hr Hj. destruct (lookup_lt_is_Some_2 rs j Hj) as [r Hl].
  destruct (update_flags_eq c rs i j r 1 Hr Hl) as (c' & Hc & Hr'); [unfold in_range; lia|].
  assert (alter (set_lr_flags 1) j rs = <[j := set_lr_flags 1 r]> rs) as ->.
  { apply list_eq. intros k. destruct (decide (j = k)) as [<-|Hne].
    - by rewrite list_lookup_alter_eq, Hl, list_lookup_insert_eq.
    - by rewrite list_lookup_alter_ne, list_lookup_insert_ne. }
  exists c'. split_and!; [done..| |by rewrite length_insert].
  intros k. by apply log_offset_flags.
Qed.

Lemma mark_pairs js : ∀ c rs i,
  log_repr c rs i →
  Forall (λ p, (fst p < length rs)%nat ∧ (snd p < length rs)%nat) js →
  ∃ c', foldM (λ pair log, log ← command_channel_log_update_flags log (fst pair) 1;
                command_channel_log_update_flags log (snd pair) 1)
          ((λ p, (log_offset rs (fst p), log_offset rs (snd p))) <$> js) c = Ok c' ∧
    log_repr c' (mark_all (mjoin ((λ p, [fst p; snd p]) <$> js)) rs) i.
Proof.
  induction js as [|[j k] js IH]; intros c rs i Hr Hjs; [by exists c|].
  apply Forall_cons in Hjs as [[Hj Hk] Hjs]. cbn [fmap list_fmap foldM fst snd] in *.
  destruct (update_flags_mark c rs i j Hr Hj) as (c1 & -> & Hr1 & Ho1 & Hl1).
  cbn [mbind res_bind]. rewrite <- Ho1.
  destruct (update_flags_mark c1 _ i k Hr1) as (c2 & -> & Hr2 & Ho2 & Hl2); [by rewrite Hl1|].
  cbn [mbind res_bind].
  destruct (IH c2 _ i Hr2) as (c' & Hrun & Hr'). { by rewrite Hl2, Hl1. }
  exists c'. split; [|exact Hr']. rewrite <- Hrun. f_equal. apply list_fmap_ext.
  intros _ [a b] _. cbn. by rewrite !Ho2, !Ho1.
Qed.

Lemma length_set_size size d : length (set_size size d) = Z.to_nat (u32 size).
Proof.
  unfold set_size. rewrite length_app, length_take, length_replicate. lia.
Qed.

(** The buffer exists already: it is resized in place. *)
Lemma cached_alloc_hit e pad cid coupled size a g :
  managed_buffer_map e !! key_bytes (mk_key cid pad coupled) = Some a → arrays e !! a = Some g →
  ava_cached_alloc e pad cid coupled size =
    Ok (a, set_arrays (<[a := mk_ga (ga_refs g) (set_size size (ga_data g))]> (arrays e))
             (next_array e) e).
Proof. intros Hk Ha. unfold ava_cached_alloc, g_array_set_size. by rewrite Hk, Ha. Qed.

(** The buffer does not exist: a new array, entered in both maps. *)
Lemma cached_alloc_miss e pad cid coupled size :
  let key := key_bytes (mk_key cid pad coupled) in
  managed_buffer_map e !! key = None →
  ava_cached_alloc e pad cid coupled size =
    let rec := default ava_coupled_record_new (managed_by_coupled_map e !! coupled) in
    Ok (next_array e,
        mk_ep (metadata_size e) (<[key := next_array e]> (managed_buffer_map e))
          (<[coupled := mk_cr (key_list rec ++ [key]) (buffer_list rec ++ [next_array e])]>
             (managed_by_coupled_map e))
          (call_map e) (call_counter e) (zcopy_region e) (buffers_by_id e)
          (<[next_array e := mk_ga 1 (set_size size [])]> (arrays e)) (next_array e + 1)
          (metadata_map e)).
Proof.
  intros key Hk. unfold ava_cached_alloc. fold key. rewrite Hk. clearbody key.
  unfold g_array_sized_new, ava_get_coupled_record_unlocked, g_array_set_size.
  cbn [set_managed set_arrays managed_by_coupled_map managed_buffer_map arrays].
  destruct (managed_by_coupled_map e !! coupled) as [r|];
    unfold put_coupled, set_managed, set_arrays; cbn; rewrite lookup_insert_eq; cbn;
    by rewrite !insert_insert_eq.
Qed.

Lemma managed_ok_hit e a g d :
  managed_ok e → arrays e !! a = Some g →
  managed_ok (set_arrays (<[a := mk_ga (ga_refs g) d]> (arrays e)) (next_array e) e).
Proof.
  intros (H1 & H2 & H3) Ha. split_and!; cbn; [|intros b|done].
  - intros key b Hb. destruct (decide (a = b)) as [->|Hne]; [rewrite lookup_insert_eq; eauto|].
    rewrite lookup_insert_ne by done. eauto.
  - destruct (decide (a = b)) as [->|Hne]; [eauto|]. rewrite lookup_insert_ne by done. apply H2.
Qed.

Lemma managed_ok_miss e key mc g :
  managed_ok e → managed_buffer_map e !! key = None →
  managed_ok (mk_ep (metadata_size e) (<[key := next_array e]> (managed_buffer_map e)) mc
    (call_map e) (call_counter e) (zcopy_region e) (buffers_by_id e)
    (<[next_array e := g]> (arrays e)) (next_array e + 1) (metadata_map e)).
Proof.
  intros (H1 & H2 & H3) Hk.
  assert (∀ k, managed_buffer_map e !! k ≠ Some (next_array e)) as Hfresh.
  { intros k Hc. apply H1, H2 in Hc. lia. }
  split_and!; cbn [managed_buffer_map arrays next_array].
  - intros k a [[<- <-]|[Hne Hl]]%lookup_insert_Some; [by rewrite lookup_insert_eq|].
    rewrite lookup_insert_ne; [by eapply H1|]. intros <-. by apply (Hfresh k).
  - intros a. destruct (decide (a = next_array e)) as [->|Hne]; [lia|].
    rewrite lookup_insert_ne by done. intros ?%H2. lia.
  - intros k1 k2 a [[<- <-]|[Hne1 Hl1]]%lookup_insert_Some [[<- ?]|[Hne2 Hl2]]%lookup_insert_Some;
      subst; try done; [by apply Hfresh in Hl2|by apply Hfresh in Hl1|by eapply H3].
Qed.

Lemma cached_alloc_lookup e pad cid coupled size a e' :
  managed_ok e → ava_cached_alloc e pad cid coupled size = Ok (a, e') →
  managed_ok e' ∧ managed_buffer_map e' !! key_bytes (mk_key cid pad coupled) = Some a.
Proof.
  intros Hok Hrun. destruct (managed_buffer_map e !! key_bytes (mk_key cid pad coupled)) as [b|] eqn:Hk.
  - destruct Hok as [H1 H2]. destruct (H1 _ _ Hk) as [g Hg].
    rewrite (cached_alloc_hit _ _ _ _ _ _ _ Hk Hg) in Hrun. injection Hrun as <- <-.
    split; [by apply managed_ok_hit|done].
  - rewrite cached_alloc_miss in Hrun by done. cbv zeta in Hrun. injection Hrun as <- <-.
    split; [by apply managed_ok_miss|]. cbn. by rewrite lookup_insert_eq.
Qed.

Lemma managed_ok_init g md ms tag z g' e :
  ava_endpoint_init g md ms tag z = Ok (g', e) → managed_ok e.
Proof.
  unfold ava_endpoint_init. intros H. res_inv.
  split_and!; cbn; intros; rewrite ?lookup_empty in *; (done || by destruct H).
Qed.

(** ** Properties *)

(** In-flight calls.  On an endpoint just initialised, any sequence of issued calls (with
    records that are not NULL) and replies numbers the calls 0, 1, 2, ... in order, and gives
    every reply the record of its own call, once; the run stops exactly when a reply names a call
    that is not in flight, in the assertion of [ava_remove_call]. *)
Theorem calls_match_replies (g g' : counter) (md : gmap Z ava_metadata_base) (ms tag : Z)
    (z : option ava_zcopy_region) (e : ava_endpoint) (ops : list call_op) :
  ava_endpoint_init g md ms tag z = Ok (g', e) →
  Forall (λ op, match op with Issue p => p ≠ NULL | _ => True end) ops →
  Z.of_nat (length ops) < 2 ^ 63 →
  match calls_spec ops 0 ∅ with
  | Some (out, n, m) => calls_run ops e = Ok (out, set_calls m n e)
  | None => calls_run ops e = Stop (AssertFailed "Removing a call ID which does not exist")
  end.
Proof.
  unfold ava_endpoint_init. intros Hinit Hops Hlen. res_inv.
  apply (calls_refine ops (mk_ep ms ∅ ∅ ∅ 0 z ∅ ∅ 1 md)); cbn; [done| |lia|lia].
  intros id p. by rewrite lookup_empty.
Qed.

Lemma calls_match_replies_witness :
  calls_run [Issue 100; Issue 200; Complete 0; Complete 1] (mk_ep 64 ∅ ∅ ∅ 0 None ∅ ∅ 1 ∅) =
    Ok ([0; 1; 100; 200], set_calls ∅ 2 (mk_ep 64 ∅ ∅ ∅ 0 None ∅ ∅ 1 ∅)).
Proof.
  refine (calls_match_replies (counter_init 0) (counter_init 1) ∅ 64 1 None
    (mk_ep 64 ∅ ∅ ∅ 0 None ∅ ∅ 1 ∅) [Issue 100; Issue 200; Complete 0; Complete 1] _ _ _).
  - reflexivity.
  - unfold NULL. rewrite !Forall_cons, Forall_nil. split_and!; try done; lia.
  - cbn. lia.
Defined.

(** Object metadata.  Whatever sequence of recorded calls, dependencies and record/replay
    functions the generated code registers, in any interleaving over objects, the metadata of an
    object holds exactly the calls recorded for it and its dependencies, in the order they were
    added, and the functions assigned last; no operation on one object affects another. *)
Theorem metadata_refines (ops : list meta_op) (e : ava_endpoint) (h : Z) :
  calls_of (meta_run ops e) h = calls_of e h ++ recorded_of h ops ∧
  deps_of (meta_run ops e) h = deps_of e h ++ depends_of h ops ∧
  functions_in (meta_run ops e) h = default (functions_in e h) (functions_of h ops).
Proof. apply meta_run_refine. Qed.

(** Expunging an object.  When the recorded calls of a handle are offsets of records of the
    log, [ava_expunge_recorded_calls] succeeds, sets the flags of exactly those records to 1,
    and leaves every other record and the reading position unchanged. *)
Theorem expunge_marks_calls (e : ava_endpoint) (log : command_channel_log) (rs : list lrec)
    (i : nat) (h : Z) (pairs : list (nat * nat)) :
  log_repr log rs i →
  calls_of e h = (λ p, (log_offset rs (fst p), log_offset rs (snd p))) <$> pairs →
  Forall (λ p, (fst p < length rs)%nat ∧ (snd p < length rs)%nat) pairs →
  ∃ e' log' rs', ava_expunge_recorded_calls e log h = Ok (e', log') ∧ log_repr log' rs' i ∧
    (∀ j, rs' !! j = (if decide (j ∈ mjoin ((λ p, [fst p; snd p]) <$> pairs))
                      then set_lr_flags 1 else id) <$> rs !! j).
Proof.
  intros Hr Hc Hp. destruct (mark_pairs pairs log rs i Hr Hp) as (c' & Hrun & Hr').
  unfold ava_expunge_recorded_calls, ava_internal_metadata_unlocked, calls_of in *.
  destruct (metadata_map e !! h) as [m|].
  - rewrite Hc, Hrun. cbn [mbind res_bind]. eexists _, c', _. split; [reflexivity|].
    split; [exact Hr'|]. apply mark_all_lookup.
  - rewrite <- Hc in Hrun. cbn [recorded_calls metadata_zero from_option].
    change (default [] None) with (@nil (Z * Z)). rewrite Hrun. cbn [mbind res_bind].
    eexists _, c', _. split; [reflexivity|]. split; [exact Hr'|]. apply mark_all_lookup.
Qed.

(** A log with one record, and an object whose recorded call is that record. *)
Definition sample_log : command_channel_log :=
  mk_log (lrec_bytes (mk_lrec 0 sample_base [1; 2])) 154 0 true true.

Lemma sample_log_repr : log_repr sample_log [mk_lrec 0 sample_base [1; 2]] 0.
Proof.
  split_and!; [reflexivity|reflexivity|cbn; lia| |done|done]. constructor; [|constructor].
  split_and!; [|cbn; unfold in_range; lia|cbn; lia].
  unfold base_wf, sample_base, in_range, in_srange, NW_NEW_INVOCATION; cbn. split_and!; try lia.
  repeat constructor; unfold in_range; lia.
Qed.

Lemma expunge_marks_calls_witness :
  ∃ e' log' rs',
    ava_expunge_recorded_calls (ava_add_recorded_call (mk_ep 64 ∅ ∅ ∅ 0 None ∅ ∅ 1 ∅) 7 (0, 0))
      sample_log 7 = Ok (e', log') ∧ log_repr log' rs' 0 ∧
    (∀ j, rs' !! j = (if decide (j ∈ mjoin ((λ p, [fst p; snd p]) <$> [(0%nat, 0%nat)]))
                      then set_lr_flags 1 else id) <$> [mk_lrec 0 sample_base [1; 2]] !! j).
Proof.
  apply (expunge_marks_calls
    (ava_add_recorded_call (mk_ep 64 ∅ ∅ ∅ 0 None ∅ ∅ 1 ∅) 7 (0, 0)) sample_log
    [mk_lrec 0 sample_base [1; 2]] 0 7 [(0%nat, 0%nat)]).
  - apply sample_log_repr.
  - reflexivity.
  - constructor; [cbn; lia|constructor].
Defined.

(** Cached buffers.  [ava_cached_alloc] always returns a live array of the requested size
    (taken modulo 2^32, the width of GLib's lengths): the buffer already cached for this call and
    object, resized in place with new bytes zero, or a new zeroed one.  All other arrays keep
    their content, asking again for the same key returns the same array, and another key never
    gets it. *)
Theorem cached_alloc_spec (e : ava_endpoint) (pad : list Z) (cid coupled size : Z) :
  managed_ok e →
  ∃ a e' refs, ava_cached_alloc e pad cid coupled size = Ok (a, e') ∧ managed_ok e' ∧
    let key := key_bytes (mk_key cid pad coupled) in
    arrays e' !! a = Some (mk_ga refs
      (set_size size match managed_buffer_map e !! key with
                     | Some _ => default [] (ga_data <$> arrays e !! a)
                     | None => [] end)) ∧
    (managed_buffer_map e !! key = None → arrays e !! a = None) ∧
    (∀ b, b ≠ a → arrays e' !! b = arrays e !! b) ∧
    (∀ size2, ∃ e2, ava_cached_alloc e' pad cid coupled size2 = Ok (a, e2)) ∧
    (∀ pad2 cid2 coupled2 size2 a2 e2,
       key_bytes (mk_key cid2 pad2 coupled2) ≠ key →
       ava_cached_alloc e' pad2 cid2 coupled2 size2 = Ok (a2, e2) → a2 ≠ a).
Proof.
  intros Hok.
  assert (∃ a e', ava_cached_alloc e pad cid coupled size = Ok (a, e')) as (a & e' & Hrun).
  { destruct (managed_buffer_map e !! key_bytes (mk_key cid pad coupled)) as [b|] eqn:Hk.
    - destruct (proj1 Hok _ _ Hk) as [g Hg]. eexists _, _. by eapply cached_alloc_hit.
    - eexists _, _. by apply cached_alloc_miss. }
  destruct (cached_alloc_lookup _ _ _ _ _ _ _ Hok Hrun) as [Hok' Hk'].
  set (key := key_bytes (mk_key cid pad coupled)) in *.
  assert (∃ g', arrays e' !! a = Some g') as [g' Hg'] by apply (proj1 Hok' _ _ Hk').
  exists a, e', (ga_refs g'). split; [done|]. split; [done|]. cbv zeta. fold key.
  assert (ga_data g' = set_size size match managed_buffer_map e !! key with
                     | Some _ => default [] (ga_data <$> arrays e !! a) | None => [] end ∧
    (managed_buffer_map e !! key = None → arrays e !! a = None) ∧
    (∀ b, b ≠ a → arrays e' !! b = arrays e !! b)) as (Hd & Hnew & Hother).
  { destruct (managed_buffer_map e !! key) as [b|] eqn:Hk.
    - destruct (proj1 Hok _ _ Hk) as [g Hg]. rewrite (cached_alloc_hit _ _ _ _ _ _ _ Hk Hg) in Hrun.
      injection Hrun as <- <-. cbn in Hg'. rewrite lookup_insert_eq in Hg'. injection Hg' as <-.
      rewrite Hg. split_and!; [done..|]. intros c Hc. cbn. by rewrite lookup_insert_ne.
    - rewrite cached_alloc_miss in Hrun by done. cbv zeta in Hrun. injection Hrun as <- <-.
      cbn in Hg'. rewrite lookup_insert_eq in Hg'. injection Hg' as <-. split_and!; [done| |].
      + intros _. destruct (arrays e !! next_array e) eqn:Ha; [|done].
        pose proof (proj1 (proj2 Hok) (next_array e) ltac:(by eexists)). lia.
      + intros c Hc. cbn. by rewrite lookup_insert_ne. }
  split_and!; [|done..| |].
  - rewrite Hg'. destruct g' as [refs d]. cbn in *. by rewrite Hd.
  - intros size2. eexists. by eapply cached_alloc_hit.
  - intros pad2 cid2 coupled2 size2 a2 e2 Hne Hrun2 ->.
    destruct (cached_alloc_lookup _ _ _ _ _ _ _ Hok' Hrun2) as [Hok2 Hk2].
    apply Hne. eapply (proj2 (proj2 Hok2)); [exact Hk2|].
    destruct (managed_buffer_map e' !! key_bytes (mk_key cid2 pad2 coupled2)) as [b|] eqn:Hkb.
    + destruct (proj1 Hok' _ _ Hkb) as [g Hg]. rewrite (cached_alloc_hit _ _ _ _ _ _ _ Hkb Hg) in Hrun2.
      by injection Hrun2 as _ <-.
    + rewrite cached_alloc_miss in Hrun2 by done. cbv zeta in Hrun2. injection Hrun2 as Ha <-.
      pose proof (proj1 (proj2 Hok') a ltac:(by eexists)). lia.
Qed.

Lemma cached_alloc_spec_witness :
  ∃ a e' refs, ava_cached_alloc (mk_ep 64 ∅ ∅ ∅ 0 None ∅ ∅ 1 ∅) [0; 0; 0; 0] 3 4096 16 = Ok (a, e')
    ∧ managed_ok e' ∧
    let key := key_bytes (mk_key 3 [0; 0; 0; 0] 4096) in
    arrays e' !! a = Some (mk_ga refs
      (set_size 16 match managed_buffer_map (mk_ep 64 ∅ ∅ ∅ 0 None ∅ ∅ 1 ∅) !! key with
                   | Some _ => default [] (ga_data <$> arrays (mk_ep 64 ∅ ∅ ∅ 0 None ∅ ∅ 1 ∅) !! a)
                   | None => [] end)) ∧
    (managed_buffer_map (mk_ep 64 ∅ ∅ ∅ 0 None ∅ ∅ 1 ∅) !! key = None →
     arrays (mk_ep 64 ∅ ∅ ∅ 0 None ∅ ∅ 1 ∅) !! a = None) ∧
    (∀ b, b ≠ a → arrays e' !! b = arrays (mk_ep 64 ∅ ∅ ∅ 0 None ∅ ∅ 1 ∅) !! b) ∧
    (∀ size2, ∃ e2, ava_cached_alloc e' [0; 0; 0; 0] 3 4096 size2 = Ok (a, e2)) ∧
    (∀ pad2 cid2 coupled2 size2 a2 e2,
       key_bytes (mk_key cid2 pad2 coupled2) ≠ key →
       ava_cached_alloc e' pad2 cid2 coupled2 size2 = Ok (a2, e2) → a2 ≠ a).
Proof.
  apply (cached_alloc_spec (mk_ep 64 ∅ ∅ ∅ 0 None ∅ ∅ 1 ∅) [0; 0; 0; 0] 3 4096 16).
  apply (managed_ok_init (counter_init 0) ∅ 64 1 None (counter_init 1)). reflexivity.
Defined.

(** GLib takes array lengths as 32-bit integers: a request for [2^32 + n] bytes succeeds and
    returns a buffer of [n] bytes. *)
Theorem cached_alloc_truncates (e : ava_endpoint) (pad : list Z) (cid coupled n : Z) :
  managed_ok e → in_range 32 n →
  ∃ a e' g, ava_cached_alloc e pad cid coupled (2 ^ 32 + n) = Ok (a, e') ∧
    arrays e' !! a = Some g ∧ length (ga_data g) = Z.to_nat n.
Proof.
  intros Hok Hn. assert (u32 (2 ^ 32 + n) = n) as Hw.
  { unfold wrap. symmetry. unfold in_range in Hn. apply (Z.mod_unique _ _ 1); lia. }
  destruct (managed_buffer_map e !! key_bytes (mk_key cid pad coupled)) as [b|] eqn:Hk.
  - destruct (proj1 Hok _ _ Hk) as [g Hg]. eexists _, _, _.
    split; [by eapply cached_alloc_hit|]. cbn. rewrite lookup_insert_eq. split; [done|].
    cbn. by rewrite length_set_size, Hw.
  - eexists _, _, _. split; [by apply cached_alloc_miss|]. cbn [arrays].
    rewrite lookup_insert_eq. split; [done|]. cbn [ga_data]. by rewrite length_set_size, Hw.
Qed.

Lemma cached_alloc_truncates_witness :
  ∃ a e' g, ava_cached_alloc (mk_ep 64 ∅ ∅ ∅ 0 None ∅ ∅ 1 ∅) [0; 0; 0; 0] 3 4096 (2 ^ 32 + 8) =
      Ok (a, e') ∧ arrays e' !! a = Some g ∧ length (ga_data g) = Z.to_nat 8.
Proof.
  apply (cached_alloc_truncates (mk_ep 64 ∅ ∅ ∅ 0 None ∅ ∅ 1 ∅) [0; 0; 0; 0] 3 4096 8).
  - apply (managed_ok_init (counter_init 0) ∅ 64 1 None (counter_init 1)). reflexivity.
  - unfold in_range. lia.
Defined.

(** Freeing the buffers coupled to an object.  Once a cached buffer was allocated for an object,
    [ava_coupled_free] on the object and [ava_endpoint_destroy] run the destroy notification,
    which calls the two-argument [ava_coupled_record_free] with one argument, an undefined
    behaviour; and called as it is meant to be, that function drops the only reference of the
    buffer twice, once through [managed_buffer_map] and once through [buffer_list]. *)
Theorem coupled_free_undefined (pad : list Z) (cid coupled size ms : Z)
    (md : gmap Z ava_metadata_base) :
  let e := mk_ep ms ∅ ∅ ∅ 0 None ∅ ∅ 1 md in
  ava_endpoint_destroy e = Ok e ∧
  ∃ a e' rec, ava_cached_alloc e pad cid coupled size = Ok (a, e') ∧
    managed_by_coupled_map e' !! coupled = Some rec ∧
    ava_coupled_free e' coupled =
      Stop (Undefined "ava_coupled_record_free called with one argument") ∧
    ava_endpoint_destroy e' =
      Stop (Undefined "ava_coupled_record_free called with one argument") ∧
    ava_coupled_record_free e' rec = Stop (Undefined "g_array_unref of a freed array").
Proof.
  intros e. split; [unfold ava_endpoint_destroy; cbn; by rewrite !map_to_list_empty|].
  set (key := key_bytes (mk_key cid pad coupled)).
  eexists _, _, _. split; [by apply cached_alloc_miss|]. cbn [managed_by_coupled_map e].
  fold key. clearbody key. rewrite lookup_empty. cbn [from_option].
  split; [by rewrite lookup_insert_eq|].
  cbn [metadata_size managed_buffer_map call_map call_counter zcopy_region buffers_by_id arrays
    next_array metadata_map e].
  assert (∀ e0 : ava_endpoint, managed_buffer_map e0 = {[key := 1]} →
    arrays e0 = {[1 := mk_ga 1 (set_size size [])]} →
    nw_hash_table_remove_flipped key e0 =
      Ok (set_arrays ∅ (next_array e0) (set_managed ∅ (managed_by_coupled_map e0) e0))) as Hrem.
  { intros e0 Hm Ha. unfold nw_hash_table_remove_flipped. rewrite Hm, lookup_singleton_eq.
    unfold g_array_unref. cbn [set_managed arrays]. rewrite Ha, lookup_singleton_eq. cbn [ga_refs].
    by rewrite !delete_singleton_eq. }
  split_and!.
  - unfold ava_coupled_free. cbn [managed_by_coupled_map]. by rewrite lookup_insert_eq.
  - unfold ava_endpoint_destroy. cbn [zcopy_region managed_buffer_map mbind res_bind].
    rewrite insert_empty, map_to_list_singleton. cbn [fmap list_fmap fst foldM].
    rewrite Hrem by apply insert_empty. cbn [mbind res_bind set_arrays set_managed
      managed_by_coupled_map]. rewrite insert_empty, map_to_list_singleton. done.
  - unfold ava_coupled_record_free. cbn [key_list ava_coupled_record_new app foldM].
    rewrite Hrem by apply insert_empty. cbn [mbind res_bind buffer_list foldM app].
    reflexivity.
Qed.
