(* ===== verification/ShadowBuffer.v ===== *)
(** * Shadow buffers (common/endpoint_lib.c, from "Shadow buffers"; include/endpoint_lib.h)

    A buffer of one endpoint is known to the other by an identifier; the receiver keeps a shadow
    of it.  Records live on a heap of their own so that the use of a freed record is visible; they
    are found by identifier ([buffers_by_id]), by local address (the [shadow] field of the
    metadata of that address) and through the lists of buffers coupled to an object.  The
    allocator a call receives is a parameter: a function from the current state and the size to
    an address ([None] for a NULL function pointer). *)

From S2P Require Import Prelude Murmur HandlePool Channel LogChannel ShmChannel Zcopy Endpoint.
Local Open Scope Z_scope.

(** ** Data *)

Definition AVA_CALL : Z := 0.
Definition AVA_COUPLED : Z := 1.
Definition AVA_STATIC : Z := 2.
Definition AVA_MANUAL : Z := 3.

Record ava_shadow_record_t := mk_sr {
  sr_size : Z;
  sr_deallocator : Z;
  sr_id : Z;
  sr_local : Z
}.

(** The endpoint, the identifier counter, the live records by address, the next record address,
    and the contents of the live buffers that allocators returned. *)
Record shadow_state := mk_ss {
  ss_ep : ava_endpoint;
  ss_counter : counter;
  ss_records : gmap Z ava_shadow_record_t;
  ss_next : Z;
  ss_bufs : gmap Z (list Z)
}.

Definition ava_allocator : Type := option (shadow_state → Z → Z).

Definition set_ep (e : ava_endpoint) (s : shadow_state) : shadow_state :=
  mk_ss e (ss_counter s) (ss_records s) (ss_next s) (ss_bufs s).
Definition set_bufs (b : gmap Z (list Z)) (s : shadow_state) : shadow_state :=
  mk_ss (ss_ep s) (ss_counter s) (ss_records s) (ss_next s) b.

Definition get_record (a : Z) (s : shadow_state) : res ava_shadow_record_t :=
  match ss_records s !! a with
  | Some r => Ok r
  | None => Stop (Undefined "use of a freed shadow record")
  end.

(** Metadata of an address, created when missing. *)
Definition metadata_of (p : Z) (s : shadow_state) : ava_metadata_base * shadow_state :=
  let '(m, e) := ava_internal_metadata (ss_ep s) p in (m, set_ep e s).
Definition put_meta (p : Z) (m : ava_metadata_base) (s : shadow_state) : shadow_state :=
  set_ep (put_metadata p m (ss_ep s)) s.

(** ** Operations *)

(** The metadata argument of the function is the one of [local]. *)
Definition ava_shadow_buffer_new_record_unlocked (s : shadow_state)
    (id size local dealloc : Z) : res (Z * shadow_state) :=
  let rec := ss_next s in
  let '(b, ids) := ght_insert (buffers_by_id (ss_ep s)) id rec in
  _ ← c_assert b "Function returned failure: g_hash_table_insert";
  let s := mk_ss (set_buffers_by_id ids (ss_ep s)) (ss_counter s)
             (<[rec := mk_sr size dealloc id local]> (ss_records s)) (rec + 1) (ss_bufs s) in
  let '(m, s) := metadata_of local s in
  _ ← c_assert (shadow m =? NULL) "metadata->shadow == NULL";
  Ok (rec, put_meta local (set_shadow rec m) s).

(** [record->deallocator(record->local)]: freeing what is not allocated is undefined. *)
Definition call_deallocator (local : Z) (s : shadow_state) : res shadow_state :=
  match ss_bufs s !! local with
  | None => Stop (Undefined "deallocation of a buffer that is not allocated")
  | Some _ => Ok (set_bufs (delete local (ss_bufs s)) s)
  end.

(** Removing the identifier frees the record (the table's value destructor). *)
Definition ava_shadow_buffer_free_record_unlocked (s : shadow_state) (a : Z)
    : res shadow_state :=
  r ← get_record a s;
  _ ← c_assert (negb (sr_deallocator r =? NULL))
        "solid buffer is not supposed to be deallocated by AvA";
  s ← call_deallocator (sr_local r) s;
  let ids := buffers_by_id (ss_ep s) in
  Ok (mk_ss (set_buffers_by_id (delete (sr_id r) ids) (ss_ep s)) (ss_counter s)
        (match ids !! sr_id r with Some a' => delete a' (ss_records s) | None => ss_records s end)
        (ss_next s) (ss_bufs s)).

Definition ava_shadow_buffer_free_unlocked (s : shadow_state) (local : Z) : res shadow_state :=
  match ava_internal_metadata_no_create (ss_ep s) local with
  | None => Ok s
  | Some m =>
      if shadow m =? NULL then Ok s
      else
        s ← ava_shadow_buffer_free_record_unlocked s (shadow m);
        Ok (put_meta local (set_shadow NULL m) s)
  end.

(** [ava_shadow_buffer_get_unlocked], given the function it calls to reallocate. *)
Definition get_with (new : shadow_state → res (Z * shadow_state)) (s : shadow_state)
    (id size lifetime : Z) : res (Z * shadow_state) :=
  _ ← c_assert (negb (lifetime =? AVA_CALL)) "lifetime != AVA_CALL";
  _ ← c_assert (negb (id =? NULL)) "id != NULL";
  let a := ght_lookup (buffers_by_id (ss_ep s)) id in
  _ ← c_assert (negb (a =? NULL)) "Only call ava_shadow_buffer_get directly when the buffer is known to already exist.";
  r ← get_record a s;
  _ ← c_assert (sr_id r =? id) "record->id == id";
  if (sr_size r <? size) && negb (sr_deallocator r =? NULL)
  then s ← ava_shadow_buffer_free_unlocked s (sr_local r); new s
  else Ok (sr_local r, s).

(** The part of [new_shadow_unlocked] after the test for an existing record. *)
Definition new_shadow_fresh (s : shadow_state) (id size lifetime coupled dealloc : Z)
    (alloc : shadow_state → Z → Z) : res (Z * shadow_state) :=
  let local := alloc s size in
  let s := set_bufs (<[local := replicate (Z.to_nat size) 0]> (ss_bufs s)) s in
  let '(_, s) := metadata_of local s in
  '(rec, s) ← ava_shadow_buffer_new_record_unlocked s id size local dealloc;
  let coupled := if lifetime =? AVA_MANUAL then local else coupled in
  if coupled =? NULL then Ok (local, s)
  else
    let '(m, s) := metadata_of coupled s in
    Ok (local, put_meta coupled
                 (set_coupled_shadow_buffers
                    (Some (default [] (coupled_shadow_buffers m) ++ [rec])) m) s).

(** [get] and [new_shadow] call each other; each call either ends or removes the record first, so
    the recursion is at most two calls deep and [fuel] 2 is enough. *)
Fixpoint new_shadow_rec (fuel : nat) (id size lifetime coupled : Z) (alloc : ava_allocator)
    (dealloc : Z) (s : shadow_state) : res (Z * shadow_state) :=
  match fuel with
  | O => Stop (Undefined "ava_shadow_buffer_new_shadow_unlocked: out of fuel")
  | S fuel =>
      _ ← c_assert (negb (lifetime =? AVA_CALL)) "lifetime != AVA_CALL";
      _ ← c_assert (negb (id =? NULL)) "id != NULL";
      match alloc with
      | None => Stop (AssertFailed "alloc != NULL")
      | Some f =>
          _ ← c_assert (negb (dealloc =? NULL)) "dealloc != NULL";
          match buffers_by_id (ss_ep s) !! id with
          | Some _ => get_with (new_shadow_rec fuel id size lifetime coupled alloc dealloc) s
                        id size lifetime
          | None => new_shadow_fresh s id size lifetime coupled dealloc f
          end
      end
  end.

Definition ava_shadow_buffer_new_shadow_unlocked (s : shadow_state) (id size lifetime coupled : Z)
    (alloc : ava_allocator) (dealloc : Z) : res (Z * shadow_state) :=
  new_shadow_rec 2 id size lifetime coupled alloc dealloc s.

Definition ava_shadow_buffer_get_unlocked (s : shadow_state) (id size lifetime coupled : Z)
    (alloc : ava_allocator) (dealloc : Z) : res (Z * shadow_state) :=
  get_with (new_shadow_rec 2 id size lifetime coupled alloc dealloc) s id size lifetime.

Definition ava_shadow_buffer_new_solid_unlocked (s : shadow_state) (local size lifetime : Z)
    (dealloc : Z) : res shadow_state :=
  _ ← c_assert (dealloc =? NULL) "dealloc == NULL";
  _ ← c_assert (negb (lifetime =? AVA_CALL)) "lifetime != AVA_CALL";
  _ ← c_assert (negb (local =? NULL)) "local != NULL";
  let '(m, s) := metadata_of local s in
  if negb (shadow m =? NULL) then Ok s
  else
    '(id, g) ← next_id (ss_counter s);
    let s := mk_ss (ss_ep s) g (ss_records s) (ss_next s) (ss_bufs s) in
    '(_, s) ← ava_shadow_buffer_new_record_unlocked s id size local NULL;
    Ok s.

Definition ava_shadow_buffer_free_coupled_unlocked (s : shadow_state) (obj : Z)
    : res shadow_state :=
  match ava_internal_metadata_no_create (ss_ep s) obj with
  | None => Ok s
  | Some m =>
      match coupled_shadow_buffers m with
      | None => Ok s
      | Some l =>
          s ← foldM (λ a s, r ← get_record a s; ava_shadow_buffer_free_unlocked s (sr_local r)) l s;
          let '(m, s) := metadata_of obj s in
          Ok (put_meta obj (set_coupled_shadow_buffers None m) s)
      end
  end.

(** The functions above under [shadow_buffers.mutex]; [new_solid] drops its last arguments. *)
Definition ava_shadow_buffer_free := ava_shadow_buffer_free_unlocked.
Definition ava_shadow_buffer_get := ava_shadow_buffer_get_unlocked.
Definition ava_shadow_buffer_new_shadow := ava_shadow_buffer_new_shadow_unlocked.
Definition ava_shadow_buffer_free_coupled := ava_shadow_buffer_free_coupled_unlocked.
Definition ava_shadow_buffer_new_solid (s : shadow_state) (local size lifetime : Z)
    (alloc : ava_allocator) (dealloc : Z) : res shadow_state :=
  ava_shadow_buffer_new_solid_unlocked s local size lifetime NULL.

(** ** Buffers in commands *)

(** [struct ava_buffer_header_t]: [id] at 0, [has_data] at 8, [size] at 16; [pad] stands for the
    seven padding bytes. *)
Definition sizeof_buffer_header : Z := 24.
Definition header_bytes (id has_data size : Z) (pad : list Z) : list Z :=
  le_bytes 8 id ++ le_bytes 1 has_data ++ pad ++ le_bytes 8 size.

Definition ava_shadow_buffer_size `{Channel C} (chan : C) (size : Z) : Z :=
  u64 (command_channel_buffer_size chan sizeof_buffer_header +
       command_channel_buffer_size chan size).
Definition ava_shadow_buffer_size_without_data `{Channel C} (chan : C) (size : Z) : Z :=
  command_channel_buffer_size chan sizeof_buffer_header.

Definition ava_shadow_buffer_attach_buffer `{Channel C} (s : shadow_state) (chan : C)
    (cmd : command) (local : Z) (data_buffer : option (list Z)) (size lifetime : Z)
    (alloc : ava_allocator) (dealloc : Z) (pad : list Z)
    : res (Z * shadow_state * command * C) :=
  s ← ava_shadow_buffer_new_solid s local size lifetime alloc dealloc;
  let '(m, s) := metadata_of local s in
  _ ← c_assert (negb (shadow m =? NULL)) "The shadow buffer should have already been created.";
  r ← get_record (shadow m) s;
  let header := header_bytes (sr_id r) 1 size pad in
  '(header_offset, cmd, chan) ←
    command_channel_attach_buffer chan cmd (Some header) sizeof_buffer_header;
  '(buffer_offset, cmd, chan) ← command_channel_attach_buffer chan cmd data_buffer size;
  _ ← c_assert (buffer_offset - header_offset =? sizeof_buffer_header)
        "buffer_offset - header_offset == sizeof(struct ava_buffer_header_t)";
  Ok (buffer_offset, s, cmd, chan).

Definition ava_shadow_buffer_attach_buffer_without_data `{Channel C} (s : shadow_state) (chan : C)
    (cmd : command) (local size lifetime : Z)
    (alloc : ava_allocator) (dealloc : Z) (pad : list Z)
    : res (Z * shadow_state * command * C) :=
  s ← ava_shadow_buffer_new_solid s local size lifetime alloc dealloc;
  let '(m, s) := metadata_of local s in
  _ ← c_assert (negb (shadow m =? NULL)) "The shadow buffer should have already been created.";
  r ← get_record (shadow m) s;
  let header := header_bytes (sr_id r) 0 size pad in
  '(header_offset, cmd, chan) ←
    command_channel_attach_buffer chan cmd (Some header) sizeof_buffer_header;
  Ok (header_offset + sizeof_buffer_header, s, cmd, chan).

(** Returns the shadow buffer and the size stored through [size_out]. *)
Definition ava_shadow_buffer_get_buffer `{Channel C} (s : shadow_state) (chan : C)
    (cmd : command) (offset lifetime coupled : Z) (alloc : ava_allocator) (dealloc : Z)
    : res (Z * Z * shadow_state) :=
  _ ← c_assert (negb (lifetime =? AVA_CALL)) "lifetime != AVA_CALL";
  match command_channel_get_buffer chan cmd (u64 (offset - sizeof_buffer_header)) with
  | None => Stop (Undefined "header of a NULL buffer")
  | Some bytes =>
      header ← read_bytes sizeof_buffer_header bytes;
      let id := le_num (slice 0 8 header) in
      let size := le_num (slice 16 8 header) in
      '(local, s) ← ava_shadow_buffer_new_shadow s id size lifetime coupled alloc dealloc;
      Ok (local, size, s)
  end.

(** ** Views of the state and its invariant *)

Definition shadow_at (s : shadow_state) (p : Z) : Z :=
  match metadata_map (ss_ep s) !! p with Some m => shadow m | None => NULL end.
Definition coupled_at (s : shadow_state) (p : Z) : list Z :=
  match metadata_map (ss_ep s) !! p with
  | Some m => default [] (coupled_shadow_buffers m) | None => [] end.
Definition ids_of (s : shadow_state) : gmap Z Z := buffers_by_id (ss_ep s).

(** Identifiers, records and local addresses correspond one to one, and every buffer that an
    allocator provided for a live record is allocated with the size of the record. *)
Record shadow_ok (s : shadow_state) : Prop := {
  so_next : 0 < ss_next s;
  so_ids : ∀ id a, ids_of s !! id = Some a → ∃ r, ss_records s !! a = Some r ∧ sr_id r = id;
  so_rec : ∀ a r, ss_records s !! a = Some r →
    ids_of s !! sr_id r = Some a ∧ 0 < a < ss_next s ∧ shadow_at s (sr_local r) = a ∧
    sr_id r ≠ NULL ∧
    (sr_deallocator r ≠ NULL →
     ∃ d, ss_bufs s !! sr_local r = Some d ∧ length d = Z.to_nat (sr_size r));
  so_shadow : ∀ p, shadow_at s p ≠ NULL →
    ∃ r, ss_records s !! shadow_at s p = Some r ∧ sr_local r = p
}.

(** What is documented of an allocator: the address is not NULL and not in use. *)
Definition alloc_fresh (f : shadow_state → Z → Z) : Prop :=
  ∀ s size, f s size ≠ NULL ∧ ss_bufs s !! f s size = None ∧
    ∀ a r, ss_records s !! a = Some r → sr_local r ≠ f s size.

(** An allocator with that property. *)
Definition some_alloc (s : shadow_state) (size : Z) : Z :=
  fresh ({[NULL]} ∪ dom (ss_bufs s) ∪ list_to_set ((sr_local ∘ snd) <$> map_to_list (ss_records s))
         : gset Z).

(** Calls of the API in sequence. *)
Inductive shadow_op :=
  | NewShadow (id size lifetime coupled : Z)
  | Get (id size lifetime coupled : Z)
  | NewSolid (local size lifetime : Z)
  | Free (local : Z)
  | FreeCoupled (obj : Z).

Definition shadow_step (f : shadow_state → Z → Z) (dealloc : Z) (op : shadow_op)
    (s : shadow_state) : res shadow_state :=
  match op with
  | NewShadow id size lt c =>
      '(_, s) ← ava_shadow_buffer_new_shadow s id size lt c (Some f) dealloc; Ok s
  | Get id size lt c => '(_, s) ← ava_shadow_buffer_get s id size lt c (Some f) dealloc; Ok s
  | NewSolid local size lt => ava_shadow_buffer_new_solid s local size lt None NULL
  | Free local => ava_shadow_buffer_free s local
  | FreeCoupled obj => ava_shadow_buffer_free_coupled s obj
  end.

(** The effect of a call that returns: an identifier has a buffer, which is solid or large enough; a
    solid buffer has a record; a release takes away exactly the record of the address, or exactly
    the records that were coupled to the object, and leaves nothing coupled to it. *)
Definition shadow_effect (op : shadow_op) (s s' : shadow_state) : Prop :=
  match op with
  | NewShadow id size _ _ | Get id size _ _ =>
      ∃ a r, ids_of s' !! id = Some a ∧ ss_records s' !! a = Some r ∧
        (sr_deallocator r = NULL ∨ size ≤ sr_size r)
  | NewSolid local _ _ => ∃ r, ss_records s' !! shadow_at s' local = Some r ∧ sr_local r = local
  | Free local =>
      shadow_at s' local = NULL ∧
      ∀ a, ss_records s' !! a = if decide (a = shadow_at s local) then None else ss_records s !! a
  | FreeCoupled obj =>
      coupled_at s' obj = [] ∧
      ∀ a, ss_records s' !! a = if decide (a ∈ coupled_at s obj) then None else ss_records s !! a
  end.

Definition shadow_init (g : counter) : shadow_state :=
  mk_ss (mk_ep 0 ∅ ∅ ∅ 0 None ∅ ∅ 1 ∅) g ∅ 1 ∅.

(** ** Lemmas *)

Lemma some_alloc_fresh : alloc_fresh some_alloc.
Proof.
  intros s size. unfold some_alloc.
  set (X := _ ∪ list_to_set _ : gset Z). pose proof (is_fresh X) as HX. unfold X at 2 in HX.
  set (p := fresh X) in *. clearbody p.
  rewrite !not_elem_of_union, not_elem_of_singleton, not_elem_of_dom in HX.
  destruct HX as [[H1 H2] H3]. split_and!; [done..|]. intros a r Hr Hp. apply H3.
  apply elem_of_list_to_set, list_elem_of_fmap. exists (a, r). split; [done|].
  by apply elem_of_map_to_list.
Qed.

Lemma metadata_of_views q s :
  let '(m, s') := metadata_of q s in
  shadow m = shadow_at s q ∧ default [] (coupled_shadow_buffers m) = coupled_at s q ∧
  (∀ p, shadow_at s' p = shadow_at s p) ∧ (∀ p, coupled_at s' p = coupled_at s p) ∧
  ids_of s' = ids_of s ∧ ss_records s' = ss_records s ∧ ss_next s' = ss_next s ∧
  ss_bufs s' = ss_bufs s ∧ ss_counter s' = ss_counter s ∧
  (metadata_map (ss_ep s') !! q = Some m).
Proof.
  unfold metadata_of, ava_internal_metadata, ava_internal_metadata_unlocked, shadow_at, coupled_at,
    ids_of.
  destruct (metadata_map (ss_ep s) !! q) as [m|] eqn:Hm; cbn.
  - by split_and!.
  - split_and!; try done; [| |by rewrite lookup_insert_eq]; intros p;
      destruct (decide (q = p)) as [<-|Hne];
      rewrite ?lookup_insert_eq, ?(lookup_insert_ne _ _ _ _ Hne), ?Hm; done.
Qed.

Lemma put_meta_views q m s :
  (∀ p, shadow_at (put_meta q m s) p = if decide (q = p) then shadow m else shadow_at s p) ∧
  (∀ p, coupled_at (put_meta q m s) p =
        if decide (q = p) then default [] (coupled_shadow_buffers m) else coupled_at s p) ∧
  ids_of (put_meta q m s) = ids_of s ∧ ss_records (put_meta q m s) = ss_records s ∧
  ss_next (put_meta q m s) = ss_next s ∧ ss_bufs (put_meta q m s) = ss_bufs s ∧
  ss_counter (put_meta q m s) = ss_counter s.
Proof.
  unfold put_meta, shadow_at, coupled_at, ids_of. cbn. split_and!; try done; intros p;
    (destruct (decide (q = p)) as [<-|Hne];
     [by rewrite lookup_insert_eq|by rewrite lookup_insert_ne]).
Qed.

(** The two views that the invariant reads through the metadata. *)
Lemma shadow_ok_ext s s' :
  shadow_ok s → (∀ p, shadow_at s' p = shadow_at s p) → ids_of s' = ids_of s →
  ss_records s' = ss_records s → ss_next s' = ss_next s → ss_bufs s' = ss_bufs s → shadow_ok s'.
Proof.
  intros [H1 H2 H3 H4] Hs Hi Hr Hn Hb. split.
  - by rewrite Hn.
  - rewrite Hi, Hr. done.
  - intros a r. rewrite Hi, Hr, Hn, Hb, Hs. apply H3.
  - intros p. rewrite Hs, Hr. apply H4.
Qed.

Lemma new_record_eq s id size local dealloc :
  ids_of s !! id = None → shadow_at s local = NULL →
  ∃ s', ava_shadow_buffer_new_record_unlocked s id size local dealloc = Ok (ss_next s, s') ∧
    (∀ p, shadow_at s' p = if decide (local = p) then ss_next s else shadow_at s p) ∧
    (∀ p, coupled_at s' p = coupled_at s p) ∧
    ids_of s' = <[id := ss_next s]> (ids_of s) ∧
    ss_records s' = <[ss_next s := mk_sr size dealloc id local]> (ss_records s) ∧
    ss_next s' = ss_next s + 1 ∧ ss_bufs s' = ss_bufs s ∧ ss_counter s' = ss_counter s.
Proof.
  intros Hid Hsh. unfold ava_shadow_buffer_new_record_unlocked, ght_insert.
  unfold ids_of in Hid. rewrite Hid. cbn [c_assert mbind res_bind].
  set (s1 := mk_ss _ _ _ _ _).
  pose proof (metadata_of_views local s1) as Hm. destruct (metadata_of local s1) as [m s2].
  destruct Hm as (Hm1 & Hm2 & Hm3 & Hm4 & Hm5 & Hm6 & Hm7 & Hm8 & Hm9 & _).
  assert (shadow m = NULL) as -> by (rewrite Hm1; exact Hsh). cbn [NULL Z.eqb c_assert mbind res_bind].
  eexists. split; [reflexivity|].
  destruct (put_meta_views local (set_shadow (ss_next s) m) s2) as (P1 & P2 & P3 & P4 & P5 & P6 & P7).
  split_and!.
  - intros p. rewrite P1. destruct (decide (local = p)); [done|]. by rewrite Hm3.
  - intros p. rewrite P2, Hm4. destruct (decide (local = p)) as [<-|]; [|done].
    exact Hm2.
  - by rewrite P3, Hm5.
  - by rewrite P4, Hm6.
  - by rewrite P5, Hm7.
  - by rewrite P6, Hm8.
  - by rewrite P7, Hm9.
Qed.

(** A new record keeps the invariant. *)
Lemma new_record_ok s s' id size local dealloc bufs :
  shadow_ok s → ids_of s !! id = None → id ≠ NULL →
  shadow_at s local = NULL →
  (∀ a r, ss_records s !! a = Some r → sr_deallocator r ≠ NULL →
    bufs !! sr_local r = ss_bufs s !! sr_local r) →
  (dealloc ≠ NULL → ∃ d, bufs !! local = Some d ∧ length d = Z.to_nat size) →
  (∀ p, shadow_at s' p = if decide (local = p) then ss_next s else shadow_at s p) →
  ids_of s' = <[id := ss_next s]> (ids_of s) →
  ss_records s' = <[ss_next s := mk_sr size dealloc id local]> (ss_records s) →
  ss_next s' = ss_next s + 1 → ss_bufs s' = bufs → shadow_ok s'.
Proof.
  intros [H1 H2 H3 H4] Hid Hnn Hsh Hb Hd S1 S2 S3 S4 S5. split.
  - lia.
  - intros i a. rewrite S2, S3. intros [[<- <-]|[Hne Hl]]%lookup_insert_Some.
    + rewrite lookup_insert_eq. by eexists.
    + destruct (H2 _ _ Hl) as (r & Hr & Hrid). destruct (H3 _ _ Hr) as (_ & ? & _).
      rewrite lookup_insert_ne by lia. by exists r.
  - intros a r. rewrite S2, S3, S4, S5. intros [[<- <-]|[Hne Hr]]%lookup_insert_Some; cbn.
    + rewrite lookup_insert_eq, S1, decide_True by done. split_and!; try done; lia.
    + destruct (H3 _ _ Hr) as (Hi & Ha & Hs & Hn & Hbuf).
      assert (sr_id r ≠ id) by (intros <-; congruence).
      assert (sr_local r ≠ local) by (intros <-; unfold NULL in *; lia).
      rewrite lookup_insert_ne, S1, decide_False by done. split_and!; try done; [lia|lia|].
      intros Hdl. rewrite (Hb a r) by done. by apply Hbuf.
  - intros p. rewrite S1, S3. destruct (decide (local = p)) as [<-|Hne]; intros Hp.
    + rewrite lookup_insert_eq. by eexists.
    + destruct (H4 _ Hp) as (r & Hr & Hl). destruct (H3 _ _ Hr) as (_ & ? & _).
      rewrite lookup_insert_ne by lia. by exists r.
Qed.

(** Creating a shadow for an identifier that has none. *)
Lemma new_shadow_fresh_ok s id size lt c dealloc f :
  shadow_ok s → alloc_fresh f → ids_of s !! id = None → id ≠ NULL → dealloc ≠ NULL →
  let local := f s size in
  ∃ s', new_shadow_fresh s id size lt c dealloc f = Ok (local, s') ∧ shadow_ok s' ∧
    ids_of s' = <[id := ss_next s]> (ids_of s) ∧
    ss_records s' = <[ss_next s := mk_sr size dealloc id local]> (ss_records s) ∧
    ss_bufs s' = <[local := replicate (Z.to_nat size) 0]> (ss_bufs s) ∧
    ss_counter s' = ss_counter s ∧ ss_next s' = ss_next s + 1 ∧
    (let q := if lt =? AVA_MANUAL then local else c in
     ∀ p, coupled_at s' p = coupled_at s p ++ (if decide (q = p ∧ q ≠ NULL) then [ss_next s] else [])).
Proof.
  intros Hok Hf Hid Hnn Hdl local. destruct (Hf s size) as (Hl1 & Hl2 & Hl3). fold local in Hl1, Hl2, Hl3.
  assert (shadow_at s local = NULL) as Hsh.
  { destruct (decide (shadow_at s local = NULL)) as [|Hne]; [done|].
    destruct (so_shadow _ Hok _ Hne) as (r & Hr & Hloc). by destruct (Hl3 _ _ Hr). }
  unfold new_shadow_fresh. fold local. set (s1 := set_bufs _ s).
  pose proof (metadata_of_views local s1) as Hm. destruct (metadata_of local s1) as [m s2].
  destruct Hm as (_ & _ & Hm3 & Hm4 & Hm5 & Hm6 & Hm7 & Hm8 & Hm9 & _).
  destruct (new_record_eq s2 id size local dealloc) as (s3 & -> & R1 & R2 & R3 & R4 & R5 & R6 & R7).
  { by rewrite Hm5. } { by rewrite Hm3. }
  rewrite Hm5, Hm6, Hm7, Hm8, Hm9 in *. cbn [mbind res_bind].
  assert (shadow_ok s3) as Hok3.
  { eapply (new_record_ok s s3 id size local dealloc _ Hok Hid Hnn Hsh); [| | |done..].
    - intros a r Hr _. cbn. rewrite lookup_insert_ne; [done|]. intros Heq.
      by destruct (Hl3 _ _ Hr).
    - intros _. exists (replicate (Z.to_nat size) 0). cbn.
      by rewrite lookup_insert_eq, length_replicate.
    - intros p. by rewrite R1, Hm3. }
  set (q := if lt =? AVA_MANUAL then local else c).
  destruct (Z.eqb_spec q NULL) as [Hq|Hq].
  - eexists. split; [reflexivity|]. split_and!; try done. intros p.
    rewrite R2, Hm4, decide_False by naive_solver. by rewrite app_nil_r.
  - pose proof (metadata_of_views q s3) as Hm'. destruct (metadata_of q s3) as [m' s4].
    destruct Hm' as (M1 & M2 & M3 & M4 & M5 & M6 & M7 & M8 & M9 & M10).
    set (m2 := set_coupled_shadow_buffers _ m').
    destruct (put_meta_views q m2 s4) as (P1 & P2 & P3 & P4 & P5 & P6 & P7).
    assert (∀ p, shadow_at (put_meta q m2 s4) p = shadow_at s3 p) as Hsame.
    { intros p. rewrite P1, M3. destruct (decide (q = p)) as [<-|]; [|done]. exact M1. }
    eexists. split; [reflexivity|]. split_and!.
    + eapply (shadow_ok_ext s3); [done|done|congruence..].
    + by rewrite P3, M5.
    + by rewrite P4, M6.
    + by rewrite P6, M8, R6.
    + by rewrite P7, M9, R7.
    + by rewrite P5, M7.
    + intros p. rewrite P2, M4, R2, Hm4. destruct (decide (q = p)) as [<-|Hne].
      * rewrite decide_True by done. unfold m2. cbn [coupled_shadow_buffers set_coupled_shadow_buffers
          from_option]. rewrite M2, R2, Hm4. done.
      * rewrite decide_False by naive_solver. by rewrite app_nil_r.
Qed.

(** Freeing the buffer at a local address. *)
Lemma free_unlocked_ok s local r :
  shadow_ok s → ss_records s !! shadow_at s local = Some r → sr_deallocator r ≠ NULL →
  sr_local r = local →
  ∃ s', ava_shadow_buffer_free_unlocked s local = Ok s' ∧ shadow_ok s' ∧
    ids_of s' = delete (sr_id r) (ids_of s) ∧
    ss_records s' = delete (shadow_at s local) (ss_records s) ∧
    ss_bufs s' = delete local (ss_bufs s) ∧ ss_counter s' = ss_counter s ∧
    ss_next s' = ss_next s ∧ (∀ p, coupled_at s' p = coupled_at s p).
Proof.
  intros Hok Hr Hdl Hloc. destruct (so_rec _ Hok _ _ Hr) as (Hi & Ha & _ & Hnn & Hbuf).
  destruct (Hbuf Hdl) as (d & Hd & _). rewrite Hloc in Hd. clear Hbuf.
  unfold ava_shadow_buffer_free_unlocked, ava_internal_metadata_no_create.
  destruct (metadata_map (ss_ep s) !! local) as [m|] eqn:Hm.
  2: { unfold shadow_at in Ha. rewrite Hm in Ha. unfold NULL in Ha. lia. }
  assert (shadow_at s local = shadow m) as Hsh by (unfold shadow_at; by rewrite Hm).
  rewrite Hsh in Hr, Ha, Hi. rewrite Hsh. rewrite (proj2 (Z.eqb_neq _ _)) by (unfold NULL; lia).
  unfold ava_shadow_buffer_free_record_unlocked, get_record. rewrite Hr. cbn [mbind res_bind].
  rewrite (proj2 (Z.eqb_neq _ _)) by done. cbn [negb c_assert mbind res_bind].
  unfold call_deallocator. rewrite Hloc, Hd. cbn [mbind res_bind set_bufs ss_ep ss_records].
  unfold ids_of in Hi. rewrite Hi. eexists. split; [reflexivity|].
  set (s1 := mk_ss _ _ _ _ _).
  destruct (put_meta_views local (set_shadow NULL m) s1) as (P1 & P2 & P3 & P4 & P5 & P6 & P7).
  assert (∀ p, shadow_at (put_meta local (set_shadow NULL m) s1) p =
            if decide (local = p) then NULL else shadow_at s p) as Hview by (intros p; by rewrite P1).
  assert (∀ a r', ss_records s !! a = Some r' → a ≠ shadow m → sr_local r' ≠ local) as Hother.
  { intros a r' Hr' Hne Heq. destruct (so_rec _ Hok _ _ Hr') as (_ & _ & Hs & _).
    rewrite Heq, Hsh in Hs. congruence. }
  split_and!; [split|done..|].
  - apply Hok.
  - rewrite P3, P4. intros i a. cbn. intros [Hne Hl]%lookup_delete_Some.
    destruct (so_ids _ Hok _ _ Hl) as (r' & Hr' & Hid'). exists r'. split; [|done].
    apply lookup_delete_Some. split; [|done]. intros <-. congruence.
  - rewrite P3, P4, P5, P6. intros a r'. cbn. intros [Hne Hr']%lookup_delete_Some.
    destruct (so_rec _ Hok _ _ Hr') as (Hi' & Ha' & Hs' & Hn' & Hb').
    assert (sr_id r' ≠ sr_id r) by (intros Heq; unfold ids_of in Hi'; congruence).
    rewrite Hview, decide_False by (intros Heq; by eapply Hother).
    split_and!; try done; [by apply lookup_delete_Some|lia|lia|].
    intros Hd'. rewrite lookup_delete_ne by (intros Heq; by eapply Hother). by apply Hb'.
  - intros p. rewrite Hview, P4. destruct (decide (local = p)) as [|Hne]; [done|]. intros Hp.
    destruct (so_shadow _ Hok _ Hp) as (r' & Hr' & Hl'). exists r'. split; [|done].
    cbn. apply lookup_delete_Some. split; [|done]. intros Heq. rewrite <- Heq in Hr'. congruence.
  - intros p. rewrite P2. destruct (decide (local = p)) as [<-|]; [|done].
    unfold coupled_at. by rewrite Hm.
Qed.

(** The record found by identifier. *)
Lemma lookup_id s id a :
  shadow_ok s → ids_of s !! id = Some a →
  ∃ r, ss_records s !! a = Some r ∧ sr_id r = id ∧ shadow_at s (sr_local r) = a ∧ a ≠ NULL.
Proof.
  intros Hok Hl. destruct (so_ids _ Hok _ _ Hl) as (r & Hr & Hid). exists r.
  destruct (so_rec _ Hok _ _ Hr) as (_ & Ha & Hs & _). unfold NULL. split_and!; (done || lia).
Qed.

(** Both [get] and [new_shadow] on an identifier with a record: the record's buffer, or a new
    one when the buffer is a shadow and too small. *)
Lemma get_with_eq new s id size lt a r :
  shadow_ok s → lt ≠ AVA_CALL → ids_of s !! id = Some a → ss_records s !! a = Some r →
  get_with new s id size lt =
    if (sr_size r <? size) && negb (sr_deallocator r =? NULL)
    then s ← ava_shadow_buffer_free_unlocked s (sr_local r); new s
    else Ok (sr_local r, s).
Proof.
  intros Hok Hlt Hid Hr. destruct (lookup_id s id a Hok Hid) as (r' & Hr' & Hrid & _ & Ha).
  rewrite Hr in Hr'. injection Hr' as <-.
  destruct (so_rec _ Hok _ _ Hr) as (_ & _ & _ & Hnn & _). rewrite Hrid in Hnn.
  unfold get_with, ght_lookup, get_record. unfold ids_of in Hid. rewrite Hid.
  change (default NULL (Some a)) with a. rewrite (proj2 (Z.eqb_neq lt _)) by done.
  rewrite (proj2 (Z.eqb_neq id _)) by done. cbn [negb c_assert mbind res_bind].
  rewrite (proj2 (Z.eqb_neq _ NULL)) by done. cbn [negb c_assert mbind res_bind].
  rewrite Hr. cbn [mbind res_bind]. by rewrite Hrid, Z.eqb_refl.
Qed.

Lemma new_shadow_rec_ok n s id size lt c f dealloc :
  shadow_ok s → alloc_fresh f → lt ≠ AVA_CALL → id ≠ NULL → dealloc ≠ NULL →
  ∃ local s' a r, new_shadow_rec (S (S n)) id size lt c (Some f) dealloc s = Ok (local, s') ∧
    shadow_ok s' ∧ ids_of s' !! id = Some a ∧ ss_records s' !! a = Some r ∧ sr_local r = local ∧
    (sr_deallocator r = NULL ∨ size ≤ sr_size r).
Proof.
  intros Hok Hf Hlt Hid Hdl.
  assert (∀ k s, new_shadow_rec (S k) id size lt c (Some f) dealloc s =
    match ids_of s !! id with
    | Some _ => get_with (new_shadow_rec k id size lt c (Some f) dealloc) s id size lt
    | None => new_shadow_fresh s id size lt c dealloc f end) as Hunf.
  { intros k s0. cbn [new_shadow_rec]. rewrite (proj2 (Z.eqb_neq lt _)) by done.
    rewrite (proj2 (Z.eqb_neq id _)) by done. cbn [negb c_assert mbind res_bind].
    by rewrite (proj2 (Z.eqb_neq dealloc _)) by done. }
  assert (∀ k s, shadow_ok s → ids_of s !! id = None →
    ∃ local s' a r, new_shadow_rec (S k) id size lt c (Some f) dealloc s = Ok (local, s') ∧
    shadow_ok s' ∧ ids_of s' !! id = Some a ∧ ss_records s' !! a = Some r ∧ sr_local r = local ∧
    (sr_deallocator r = NULL ∨ size ≤ sr_size r)) as Hfresh.
  { intros k s0 Hok0 Hn. rewrite Hunf, Hn.
    destruct (new_shadow_fresh_ok s0 id size lt c dealloc f Hok0 Hf Hn Hid Hdl)
      as (s' & Hrun & Hok' & Hi & Hr & _).
    eexists _, s', _, _. split; [exact Hrun|]. split; [done|]. rewrite Hi, Hr, !lookup_insert_eq.
    split_and!; [done..|right; cbn; lia]. }
  destruct (ids_of s !! id) as [a|] eqn:Ha; [|by apply Hfresh].
  rewrite Hunf, Ha. destruct (lookup_id s id a Hok Ha) as (r & Hr & Hrid & Hs & Hn).
  rewrite (get_with_eq _ s id size lt a r) by done.
  destruct (Z.ltb_spec (sr_size r) size), (Z.eqb_spec (sr_deallocator r) NULL);
    cbn [andb negb]; try (eexists _, s, a, r; split; [reflexivity|]; split_and!; auto; fail).
  destruct (free_unlocked_ok s (sr_local r) r Hok) as (s1 & -> & Hok1 & Hi1 & _);
    [by rewrite Hs|done|done|]. cbn [mbind res_bind].
  apply Hfresh; [done|]. rewrite Hi1, Hrid. by rewrite lookup_delete_eq.
Qed.

(** A call that reuses the buffer changes nothing. *)
Lemma new_shadow_reuse n s id size lt c f dealloc a r :
  shadow_ok s → lt ≠ AVA_CALL → dealloc ≠ NULL → ids_of s !! id = Some a →
  ss_records s !! a = Some r → (sr_deallocator r = NULL ∨ size ≤ sr_size r) →
  new_shadow_rec (S n) id size lt c (Some f) dealloc s = Ok (sr_local r, s).
Proof.
  intros Hok Hlt Hdl Ha Hr Hsz. destruct (lookup_id s id a Hok Ha) as (r' & Hr' & Hrid & _).
  rewrite Hr in Hr'. injection Hr' as <-.
  destruct (so_rec _ Hok _ _ Hr) as (_ & _ & _ & Hnn & _). rewrite Hrid in Hnn.
  cbn [new_shadow_rec]. rewrite (proj2 (Z.eqb_neq lt _)) by done.
  rewrite (proj2 (Z.eqb_neq id _)) by done. cbn [negb c_assert mbind res_bind].
  rewrite (proj2 (Z.eqb_neq dealloc _)) by done. cbn [negb c_assert mbind res_bind].
  unfold ids_of in Ha. rewrite Ha. rewrite (get_with_eq _ s id size lt a r) by done.
  destruct (Z.ltb_spec (sr_size r) size), (Z.eqb_spec (sr_deallocator r) NULL); cbn; (done || lia).
Qed.

Lemma new_solid_ok s local size lt s' :
  shadow_ok s → ava_shadow_buffer_new_solid s local size lt None NULL = Ok s' → shadow_ok s'.
Proof.
  intros Hok. unfold ava_shadow_buffer_new_solid, ava_shadow_buffer_new_solid_unlocked.
  intros Hrun. apply res_bind_Ok in Hrun as ([] & _ & Hrun). apply res_bind_Ok in Hrun as ([] & _ & Hrun).
  apply res_bind_Ok in Hrun as ([] & Hloc & Hrun).
  pose proof (metadata_of_views local s) as Hm. destruct (metadata_of local s) as [m s1].
  destruct Hm as (M1 & M2 & M3 & M4 & M5 & M6 & M7 & M8 & M9 & _).
  assert (shadow_ok s1) as Hok1 by (eapply shadow_ok_ext; eauto).
  destruct (Z.eqb_spec (shadow m) NULL) as [Hn|Hn]; cbn [negb] in Hrun.
  2: { injection Hrun as <-. done. }
  apply res_bind_Ok in Hrun as ([id g] & Hid & Hrun).
  apply res_bind_Ok in Hrun as ([rec s2] & Hrec & Hrun). injection Hrun as <-.
  set (s1' := mk_ss _ g _ _ _) in Hrec.
  assert (shadow_at s1' local = NULL) as Hsh.
  { change (shadow_at s1' local) with (shadow_at s1 local). by rewrite M3, <- M1. }
  destruct (ids_of s1' !! id) as [a|] eqn:Hfree.
  { unfold ava_shadow_buffer_new_record_unlocked, ght_insert in Hrec.
    unfold ids_of in Hfree. by rewrite Hfree in Hrec. }
  assert (id ≠ NULL) as Hnn.
  { unfold next_id in Hid. destruct (next_id_loop _ _) as [[k c']|]; [|done].
    injection Hid as <- _. intros Hz. apply Z.lor_eq_0_iff in Hz as [_ Hz]. discriminate Hz. }
  destruct (new_record_eq s1' id size local NULL Hfree Hsh) as (s3 & Heq & R1 & R2 & R3 & R4 & R5 & R6 & R7).
  rewrite Heq in Hrec. injection Hrec as _ ->.
  eapply (new_record_ok s1 s2 id size local NULL _ Hok1 Hfree Hnn Hsh); try done.
Qed.

(** After registering a solid buffer its address has a record. *)
Lemma new_solid_record s local size lt s' :
  shadow_ok s → ava_shadow_buffer_new_solid s local size lt None NULL = Ok s' →
  ∃ r, ss_records s' !! shadow_at s' local = Some r ∧ sr_local r = local.
Proof.
  intros Hok Hrun. pose proof (new_solid_ok _ _ _ _ _ Hok Hrun) as Hok'.
  apply (so_shadow _ Hok').
  unfold ava_shadow_buffer_new_solid, ava_shadow_buffer_new_solid_unlocked in Hrun.
  apply res_bind_Ok in Hrun as ([] & _ & Hrun). apply res_bind_Ok in Hrun as ([] & _ & Hrun).
  apply res_bind_Ok in Hrun as ([] & _ & Hrun).
  pose proof (metadata_of_views local s) as Hm. destruct (metadata_of local s) as [m s1].
  destruct Hm as (M1 & _ & M3 & _ & _ & _ & M7 & _).
  destruct (Z.eqb_spec (shadow m) NULL) as [Hn|Hn]; cbn [negb] in Hrun.
  - apply res_bind_Ok in Hrun as ([id g] & _ & Hrun).
    apply res_bind_Ok in Hrun as ([rec s2] & Hrec & Hrun). injection Hrun as ->.
    unfold ava_shadow_buffer_new_record_unlocked, ght_insert in Hrec. cbn [ss_ep] in Hrec.
    destruct (buffers_by_id (ss_ep s1) !! id); [done|]. cbn [c_assert mbind res_bind ss_next] in Hrec.
    destruct (metadata_of local _) as [m2 s3].
    apply res_bind_Ok in Hrec as ([] & _ & Hrec). injection Hrec as _ <-.
    rewrite (proj1 (put_meta_views local _ s3)), decide_True by done. cbn.
    pose proof (so_next _ Hok). unfold NULL. lia.
  - injection Hrun as <-. by rewrite M3, <- M1.
Qed.

(** [free] on any address. *)
Lemma free_step_ok s local s' :
  shadow_ok s → ava_shadow_buffer_free s local = Ok s' →
  shadow_ok s' ∧ shadow_at s' local = NULL ∧
  (∀ a, ss_records s' !! a = if decide (a = shadow_at s local) then None else ss_records s !! a) ∧
  (∀ p, coupled_at s' p = coupled_at s p).
Proof.
  intros Hok Hrun. destruct (decide (shadow_at s local = NULL)) as [Hn|Hn].
  - assert (s' = s) as ->.
    { unfold ava_shadow_buffer_free, ava_shadow_buffer_free_unlocked,
        ava_internal_metadata_no_create in Hrun.
      unfold shadow_at in Hn. destruct (metadata_map (ss_ep s) !! local) as [m|]; [|by injection Hrun as <-].
      rewrite Hn in Hrun. by injection Hrun as <-. }
    split_and!; [done..| |done]. intros a. destruct (decide _) as [->|]; [|done]. rewrite Hn.
    destruct (ss_records s !! NULL) as [r|] eqn:Hr; [|done].
    destruct (so_rec _ Hok _ _ Hr) as (_ & ? & _). unfold NULL in *. lia.
  - destruct (so_shadow _ Hok _ Hn) as (r & Hr & Hl).
    destruct (decide (sr_deallocator r = NULL)) as [Hd|Hd].
    + exfalso. unfold ava_shadow_buffer_free, ava_shadow_buffer_free_unlocked,
        ava_internal_metadata_no_create in Hrun. unfold shadow_at in Hn, Hr.
      destruct (metadata_map (ss_ep s) !! local) as [m|]; [|done].
      rewrite (proj2 (Z.eqb_neq _ _)) in Hrun by done.
      unfold ava_shadow_buffer_free_record_unlocked, get_record in Hrun. rewrite Hr in Hrun.
      cbn [mbind res_bind] in Hrun. by rewrite Hd in Hrun.
    + destruct (free_unlocked_ok s local r Hok Hr Hd Hl) as (s1 & Heq & Hok1 & _ & Hrec & _ & _ & _ & Hc).
      unfold ava_shadow_buffer_free in Hrun. rewrite Heq in Hrun. injection Hrun as <-.
      assert (∀ a, ss_records s1 !! a = if decide (a = shadow_at s local) then None else ss_records s !! a) as Hall.
      { intros a. rewrite Hrec, lookup_delete. destruct (decide (shadow_at s local = a)) as [<-|Hne].
        - by rewrite decide_True.
        - by rewrite decide_False. }
      split_and!; [done| |done|done]. destruct (decide (shadow_at s1 local = NULL)) as [|Hn1]; [done|].
      destruct (so_shadow _ Hok1 _ Hn1) as (r1 & Hr1 & Hl1). rewrite Hall in Hr1.
      destruct (decide _) as [|Hne]; [done|]. destruct (so_rec _ Hok _ _ Hr1) as (_ & _ & Hs & _). congruence.
Qed.

Lemma get_step_ok s id size lt c f dealloc local s' :
  shadow_ok s → alloc_fresh f → dealloc ≠ NULL →
  ava_shadow_buffer_get s id size lt c (Some f) dealloc = Ok (local, s') →
  shadow_ok s' ∧ shadow_effect (Get id size lt c) s s'.
Proof.
  intros Hok Hf Hdl Hrun. unfold ava_shadow_buffer_get, ava_shadow_buffer_get_unlocked in Hrun.
  assert (lt ≠ AVA_CALL ∧ id ≠ NULL) as [Hlt Hid].
  { unfold get_with in Hrun. destruct (Z.eqb_spec lt AVA_CALL); [done|].
    destruct (Z.eqb_spec id NULL); done. }
  destruct (ids_of s !! id) as [a|] eqn:Ha.
  - destruct (lookup_id s id a Hok Ha) as (r & Hr & Hrid & Hs & Hn).
    rewrite (get_with_eq _ s id size lt a r) in Hrun by done.
    destruct (_ && _) eqn:Hb.
    + apply andb_true_iff in Hb as [_ Hd%negb_true_iff%Z.eqb_neq].
      destruct (free_unlocked_ok s (sr_local r) r Hok) as (s1 & Heq & Hok1 & _); [by rewrite Hs|done|done|].
      rewrite Heq in Hrun. cbn [mbind res_bind] in Hrun.
      destruct (new_shadow_rec_ok 0 s1 id size lt c f dealloc)
        as (l & s2 & a2 & r2 & Hr2 & Hok2 & Hi2 & Hrec2 & _ & Hsz2); try done.
      rewrite Hr2 in Hrun. injection Hrun as _ <-. split; [done|]. by exists a2, r2.
    + injection Hrun as _ <-. split; [done|]. exists a, r. split_and!; [done..|].
      apply andb_false_iff in Hb as [Hb%Z.ltb_ge|Hb%negb_false_iff%Z.eqb_eq]; [by right|by left].
  - exfalso. unfold get_with, ght_lookup in Hrun. unfold ids_of in Ha. rewrite Ha in Hrun.
    rewrite (proj2 (Z.eqb_neq lt _)) in Hrun by done. by rewrite (proj2 (Z.eqb_neq id _)) in Hrun.
Qed.

(** A run over a list of records that ends freed exactly these. *)
Lemma free_list_inv l : ∀ s s',
  shadow_ok s →
  foldM (λ a s, r ← get_record a s; ava_shadow_buffer_free_unlocked s (sr_local r)) l s = Ok s' →
  shadow_ok s' ∧
  (∀ a, ss_records s' !! a = if decide (a ∈ l) then None else ss_records s !! a) ∧
  (∀ p, coupled_at s' p = coupled_at s p).
Proof.
  induction l as [|a l IH]; intros s s' Hok; cbn [foldM].
  { intros [= <-]. by split_and!. }
  intros (s1 & H1 & Hrest)%res_bind_Ok. unfold get_record in H1.
  destruct (ss_records s !! a) as [r|] eqn:Hr; [|done]. cbn [mbind res_bind] in H1.
  destruct (so_rec _ Hok _ _ Hr) as (_ & _ & Hs & _).
  destruct (free_step_ok s (sr_local r) s1 Hok H1) as (Hok1 & _ & Hrec & Hc). rewrite Hs in Hrec.
  destruct (IH s1 s' Hok1 Hrest) as (Hok' & Hrec' & Hc'). split_and!; [done| |intros p; by rewrite Hc', Hc].
  intros b. rewrite Hrec', Hrec. destruct (decide (b = a)) as [->|Hne].
  - rewrite (decide_True (P := a ∈ a :: l)) by set_solver. by destruct (decide _).
  - destruct (decide (b ∈ l)), (decide (b ∈ a :: l)); set_solver || done.
Qed.

(** [free_coupled] on any object. *)
Lemma free_coupled_step_ok s obj s' :
  shadow_ok s → ava_shadow_buffer_free_coupled s obj = Ok s' →
  shadow_ok s' ∧ shadow_effect (FreeCoupled obj) s s'.
Proof.
  intros Hok. unfold ava_shadow_buffer_free_coupled, ava_shadow_buffer_free_coupled_unlocked,
    ava_internal_metadata_no_create, shadow_effect.
  assert (coupled_at s obj = match metadata_map (ss_ep s) !! obj with
    Some m => default [] (coupled_shadow_buffers m) | None => [] end) as Hat by done.
  destruct (metadata_map (ss_ep s) !! obj) as [m|]; [destruct (coupled_shadow_buffers m) as [l|]|];
    cbn [default from_option] in Hat; rewrite ?Hat.
  2,3: intros [= <-]; split_and!; [done|done|intros a; by rewrite decide_False by apply not_elem_of_nil].
  intros (s1 & H1 & Hrest)%res_bind_Ok. destruct (free_list_inv l s s1 Hok H1) as (Hok1 & Hrec & Hc).
  pose proof (metadata_of_views obj s1) as Hm. destruct (metadata_of obj s1) as [m1 s2]. injection Hrest as <-.
  destruct Hm as (M1 & _ & M3 & M4 & M5 & M6 & M7 & M8 & _).
  destruct (put_meta_views obj (set_coupled_shadow_buffers None m1) s2) as (P1 & P2 & P3 & P4 & P5 & P6 & _).
  split_and!.
  - eapply (shadow_ok_ext s1); [done| |congruence..]. intros p. rewrite P1, M3.
    destruct (decide (obj = p)) as [<-|]; [exact M1|done].
  - by rewrite P2, decide_True.
  - intros a. change (Datatypes.id l) with l. by rewrite P4, M6, Hrec.
Qed.

Lemma shadow_step_ok f dealloc op s s' :
  alloc_fresh f → dealloc ≠ NULL → shadow_ok s → shadow_step f dealloc op s = Ok s' →
  shadow_ok s' ∧ shadow_effect op s s'.
Proof.
  intros Hf Hdl Hok. destruct op as [id size lt c|id size lt c|local size lt|local|obj]; cbn [shadow_step].
  - intros ([l s1] & Hrun & [= <-])%res_bind_Ok.
    unfold ava_shadow_buffer_new_shadow, ava_shadow_buffer_new_shadow_unlocked in Hrun.
    assert (lt ≠ AVA_CALL ∧ id ≠ NULL) as [Hlt Hid].
    { cbn [new_shadow_rec] in Hrun. destruct (Z.eqb_spec lt AVA_CALL); [done|].
      destruct (Z.eqb_spec id NULL); done. }
    destruct (new_shadow_rec_ok 0 s id size lt c f dealloc)
      as (l' & s2 & a & r & Hr2 & Hok2 & Hi & Hr & _ & Hsz); try done.
    rewrite Hr2 in Hrun. injection Hrun as _ <-. split; [done|]. by exists a, r.
  - intros ([l s1] & Hrun & [= <-])%res_bind_Ok. by eapply get_step_ok.
  - intros Hrun. split; [by eapply new_solid_ok|by eapply new_solid_record].
  - intros Hrun. destruct (free_step_ok s local s' Hok Hrun) as (? & ? & ? & _). by split.
  - by apply free_coupled_step_ok.
Qed.

Lemma shadow_init_ok g : shadow_ok (shadow_init g).
Proof.
  split; cbn; [lia| | |].
  - intros id a. by rewrite lookup_empty.
  - intros a r. by rewrite lookup_empty.
  - intros p. unfold shadow_at. cbn. by rewrite lookup_empty.
Qed.

(** Freeing the records of a list, each live and of a shadow buffer. *)
Lemma free_list_ok l : ∀ s,
  shadow_ok s → NoDup l →
  Forall (λ a, ∃ r, ss_records s !! a = Some r ∧ sr_deallocator r ≠ NULL) l →
  ∃ s', foldM (λ a s, r ← get_record a s; ava_shadow_buffer_free_unlocked s (sr_local r)) l s =
      Ok s' ∧ shadow_ok s' ∧
    (∀ a, ss_records s' !! a = if decide (a ∈ l) then None else ss_records s !! a) ∧
    (∀ p, coupled_at s' p = coupled_at s p).
Proof.
  induction l as [|a l IH]; intros s Hok Hnd Hall.
  { exists s. split; [done|]. split_and!; try done. }
  apply NoDup_cons in Hnd as [Hni Hnd]. apply Forall_cons in Hall as [(r & Hr & Hd) Hall].
  assert (get_record a s = Ok r) as Hget by (unfold get_record; by rewrite Hr).
  cbn [foldM]. rewrite Hget.
  cbn [mbind res_bind].
  destruct (so_rec _ Hok _ _ Hr) as (_ & _ & Hs & _).
  destruct (free_unlocked_ok s (sr_local r) r Hok) as (s1 & -> & Hok1 & _ & Hrec & _ & _ & _ & Hc);
    [by rewrite Hs|done|done|]. cbn [mbind res_bind]. rewrite Hs in Hrec.
  destruct (IH s1 Hok1 Hnd) as (s' & Hrun & Hok' & Hr' & Hc').
  { apply Forall_forall. intros b Hb. rewrite Forall_forall in Hall.
    destruct (Hall b Hb) as (rb & Hrb & Hdb). exists rb. rewrite Hrec. split; [|done].
    rewrite lookup_delete_ne; [done|]. intros <-. done. }
  exists s'. split; [exact Hrun|]. split_and!; [done| |intros p; by rewrite Hc', Hc].
  intros b. rewrite Hr', Hrec. destruct (decide (b = a)) as [->|Hne].
  - rewrite (decide_True (P := a ∈ a :: l)) by set_solver. rewrite decide_False by done.
    by rewrite lookup_delete_eq.
  - rewrite lookup_delete_ne by done.
    destruct (decide (b ∈ l)), (decide (b ∈ a :: l)); set_solver || done.
Qed.

(** [free_coupled] runs over the list of the object. *)
Lemma free_coupled_eq s obj :
  coupled_at s obj ≠ [] →
  ava_shadow_buffer_free_coupled s obj =
    s ← foldM (λ a s, r ← get_record a s; ava_shadow_buffer_free_unlocked s (sr_local r))
          (coupled_at s obj) s;
    let '(m, s) := metadata_of obj s in
    Ok (put_meta obj (set_coupled_shadow_buffers None m) s).
Proof.
  unfold ava_shadow_buffer_free_coupled, ava_shadow_buffer_free_coupled_unlocked,
    ava_internal_metadata_no_create, coupled_at.
  destruct (metadata_map (ss_ep s) !! obj) as [m|]; [|done].
  by destruct (coupled_shadow_buffers m).
Qed.

Lemma length_header id h size pad :
  length pad = 7%nat → length (header_bytes id h size pad) = 24%nat.
Proof.
  intros Hp. unfold header_bytes. rewrite !length_app, !length_le_bytes, Hp. done.
Qed.

Lemma header_read id h size pad :
  length pad = 7%nat → in_range 64 id → in_range 64 size →
  le_num (slice 0 8 (header_bytes id h size pad)) = id ∧
  le_num (slice 16 8 (header_bytes id h size pad)) = size.
Proof.
  intros Hp Hid Hs. unfold header_bytes. split.
  - rewrite slice_prefix by by rewrite length_le_bytes. by apply le_num_u64.
  - do 3 (rewrite slice_skip by (rewrite ?length_le_bytes, ?Hp; cbn; lia);
          rewrite ?length_le_bytes, ?Hp; cbn [Nat.sub]).
    rewrite slice_all by by rewrite length_le_bytes. by apply le_num_u64.
Qed.

(** ** Properties *)

(** C28. Consistency of shadow buffers.  Starting from a new endpoint, after any successful sequence
    of creations, lookups, registrations of solid buffers, releases of a buffer and releases of all
    buffers coupled to an object, identifiers, records and local addresses correspond one to one, no
    identifier or address leads to a freed record, and every shadow buffer is allocated with the
    size of its record; and each of these calls does what it is for: the identifier of a creation
    or lookup has a buffer that is solid or large enough, a release takes away exactly the record of
    its address, and a coupled release exactly the records coupled to its object. *)
Theorem shadow_buffers_consistent (f : shadow_state → Z → Z) (dealloc : Z) (g : counter)
    (ops : list shadow_op) (op : shadow_op) (s s' : shadow_state) :
  alloc_fresh f → dealloc ≠ NULL →
  foldM (shadow_step f dealloc) ops (shadow_init g) = Ok s → shadow_step f dealloc op s = Ok s' →
  shadow_ok s ∧ shadow_ok s' ∧ shadow_effect op s s'.
Proof.
  intros Hf Hdl Hrun Hstep. assert (shadow_ok s) as Hok.
  { revert Hrun. apply foldM_inv; [|apply shadow_init_ok].
    intros op' s1 s2 _ Hok Hs. by apply (shadow_step_ok f dealloc op' s1 s2). }
  split; [done|]. by apply (shadow_step_ok f dealloc).
Qed.

(** A buffer coupled to object 40 is created, another one grown and released, and then all that is
    coupled to the object. *)
Definition sample_shadow_ops : list shadow_op :=
  [NewSolid 500 16 AVA_STATIC; NewShadow 900 8 AVA_MANUAL NULL; Get 900 24 AVA_MANUAL NULL;
   NewShadow 901 8 AVA_COUPLED 40; NewShadow 902 8 AVA_STATIC NULL].

Lemma shadow_buffers_consistent_witness :
  ∃ s s', foldM (shadow_step some_alloc 77) sample_shadow_ops (shadow_init (counter_init 2)) = Ok s ∧
    shadow_step some_alloc 77 (FreeCoupled 40) s = Ok s' ∧
    coupled_at s 40 ≠ [] ∧ is_Some (ids_of s !! 901) ∧ ids_of s' !! 901 = None ∧
    shadow_ok s ∧ shadow_ok s' ∧ shadow_effect (FreeCoupled 40) s s'.
Proof.
  eexists _, _. split; [vm_compute; reflexivity|]. split; [vm_compute; reflexivity|].
  split; [by vm_compute|]. split; [vm_compute; by eexists|]. split; [vm_compute; reflexivity|].
  eapply (shadow_buffers_consistent some_alloc 77 (counter_init 2) sample_shadow_ops (FreeCoupled 40)).
  - apply some_alloc_fresh.
  - done.
  - vm_compute. reflexivity.
  - vm_compute. reflexivity.
Defined.

(** [ava_shadow_buffer_new_shadow] is total and stable: on a consistent endpoint, with an
    allocator that returns fresh memory, it always returns a buffer for the identifier that is
    at least as large as asked (or the user's own buffer, when the identifier names a solid
    one), and asking again for no more than that returns the same buffer and changes nothing. *)
Theorem new_shadow_total_stable (f f2 : shadow_state → Z → Z) (dealloc id size lt c size2 c2 : Z)
    (s : shadow_state) :
  shadow_ok s → alloc_fresh f → lt ≠ AVA_CALL → id ≠ NULL → dealloc ≠ NULL → size2 ≤ size →
  ∃ local s' a r,
    ava_shadow_buffer_new_shadow s id size lt c (Some f) dealloc = Ok (local, s') ∧
    shadow_ok s' ∧ ids_of s' !! id = Some a ∧ ss_records s' !! a = Some r ∧ sr_local r = local ∧
    (sr_deallocator r = NULL ∨ size ≤ sr_size r) ∧
    ava_shadow_buffer_new_shadow s' id size2 lt c2 (Some f2) dealloc = Ok (local, s').
Proof.
  intros Hok Hf Hlt Hid Hdl Hsz.
  destruct (new_shadow_rec_ok 0 s id size lt c f dealloc Hok Hf Hlt Hid Hdl)
    as (local & s' & a & r & Hrun & Hok' & Ha & Hr & Hl & Hb).
  exists local, s', a, r. split_and!; try done. subst local.
  eapply new_shadow_reuse; try done. destruct Hb; [by left|right; lia].
Qed.

Lemma new_shadow_total_stable_witness :
  ∃ local s' a r,
    ava_shadow_buffer_new_shadow (shadow_init (counter_init 2)) 900 8 AVA_MANUAL NULL
      (Some some_alloc) 77 = Ok (local, s') ∧
    shadow_ok s' ∧ ids_of s' !! 900 = Some a ∧ ss_records s' !! a = Some r ∧ sr_local r = local ∧
    (sr_deallocator r = NULL ∨ 8 ≤ sr_size r) ∧
    ava_shadow_buffer_new_shadow s' 900 8 AVA_MANUAL 55 (Some some_alloc) 77 = Ok (local, s').
Proof.
  apply (new_shadow_total_stable some_alloc some_alloc 77 900 8 AVA_MANUAL NULL 8 55
           (shadow_init (counter_init 2))).
  - apply shadow_init_ok.
  - apply some_alloc_fresh.
  - done.
  - done.
  - done.
  - lia.
Defined.

(** Releasing an object.  When the records coupled to an object are live shadow buffers,
    [ava_shadow_buffer_free_coupled] succeeds, frees exactly those records and their buffers,
    empties the list of the object and keeps everything consistent; for an object with nothing
    coupled to it the call does nothing. *)
Theorem free_coupled_spec (s : shadow_state) (obj : Z) :
  shadow_ok s → NoDup (coupled_at s obj) →
  Forall (λ a, ∃ r, ss_records s !! a = Some r ∧ sr_deallocator r ≠ NULL) (coupled_at s obj) →
  ∃ s', ava_shadow_buffer_free_coupled s obj = Ok s' ∧ shadow_ok s' ∧
    (∀ a, ss_records s' !! a = if decide (a ∈ coupled_at s obj) then None else ss_records s !! a) ∧
    (∀ p, coupled_at s' p = if decide (obj = p) then [] else coupled_at s p).
Proof.
  intros Hok Hnd Hall. destruct (decide (coupled_at s obj = [])) as [Hnil|Hne].
  - unfold ava_shadow_buffer_free_coupled, ava_shadow_buffer_free_coupled_unlocked,
      ava_internal_metadata_no_create.
    rewrite Hnil. unfold coupled_at in Hnil |- *.
    destruct (metadata_map (ss_ep s) !! obj) as [m|] eqn:Hm.
    + destruct (coupled_shadow_buffers m) as [l|] eqn:Hl; [cbn in Hnil; subst l; cbn [foldM mbind res_bind]|].
      * pose proof (metadata_of_views obj s) as Hv. destruct (metadata_of obj s) as [m2 s2].
        destruct Hv as (M1 & M2 & M3 & M4 & M5 & M6 & M7 & M8 & M9 & _).
        destruct (put_meta_views obj (set_coupled_shadow_buffers None m2) s2)
          as (P1 & P2 & P3 & P4 & P5 & P6 & P7).
        eexists. split; [reflexivity|]. split_and!.
        -- eapply (shadow_ok_ext s); [done| |congruence..]. intros p. rewrite P1, M3.
           by destruct (decide (obj = p)) as [<-|].
        -- intros a. by rewrite P4, M6, decide_False by set_solver.
        -- intros p. etransitivity; [apply P2|]. destruct (decide (obj = p)); [done|].
           apply M4.
      * exists s. split; [done|]. split_and!; [done|intros; by rewrite decide_False by set_solver|].
        intros p. destruct (decide (obj = p)) as [<-|]; [|done]. by rewrite Hm, Hl.
    + exists s. split; [done|]. split_and!; [done|intros; by rewrite decide_False by set_solver|].
      intros p. destruct (decide (obj = p)) as [<-|]; [|done]. by rewrite Hm.
  - rewrite free_coupled_eq by done.
    destruct (free_list_ok _ s Hok Hnd Hall) as (s1 & -> & Hok1 & Hr1 & Hc1).
    cbn [mbind res_bind].
    pose proof (metadata_of_views obj s1) as Hv. destruct (metadata_of obj s1) as [m2 s2].
    destruct Hv as (M1 & M2 & M3 & M4 & M5 & M6 & M7 & M8 & M9 & _).
    destruct (put_meta_views obj (set_coupled_shadow_buffers None m2) s2)
      as (P1 & P2 & P3 & P4 & P5 & P6 & P7).
    eexists. split; [reflexivity|]. split_and!.
    + eapply (shadow_ok_ext s1); [done| |congruence..]. intros p. rewrite P1, M3.
      by destruct (decide (obj = p)) as [<-|].
    + intros a. by rewrite P4, M6, Hr1.
    + intros p. etransitivity; [apply P2|]. destruct (decide (obj = p)); [done|].
      by rewrite M4, Hc1.
Qed.

(** Growing a coupled shadow buffer leaves a dangling record.  When a buffer coupled to an
    object is requested again with a larger size, the old record is freed but stays in the
    object's list; releasing the object then reads the freed record. *)
Theorem grown_coupled_use_after_free (f : shadow_state → Z → Z) (dealloc id obj size1 size2 : Z)
    (s : shadow_state) :
  shadow_ok s → alloc_fresh f → id ≠ NULL → dealloc ≠ NULL → obj ≠ NULL → size1 < size2 →
  ids_of s !! id = None → coupled_at s obj = [] →
  ∃ l1 s1 l2 s2,
    ava_shadow_buffer_new_shadow s id size1 AVA_COUPLED obj (Some f) dealloc = Ok (l1, s1) ∧
    ava_shadow_buffer_new_shadow s1 id size2 AVA_COUPLED obj (Some f) dealloc = Ok (l2, s2) ∧
    ava_shadow_buffer_free_coupled s2 obj = Stop (Undefined "use of a freed shadow record").
Proof.
  intros Hok Hf Hid Hdl Hobj Hsz Hnone Hc.
  assert (∀ n s size, ids_of s !! id = None →
    new_shadow_rec (S n) id size AVA_COUPLED obj (Some f) dealloc s =
    new_shadow_fresh s id size AVA_COUPLED obj dealloc f) as Hunf.
  { intros n s0 size H0. cbn [new_shadow_rec]. rewrite (proj2 (Z.eqb_neq id _)) by done.
    rewrite (proj2 (Z.eqb_neq dealloc _)) by done. unfold ids_of in H0. by rewrite H0. }
  destruct (new_shadow_fresh_ok s id size1 AVA_COUPLED obj dealloc f Hok Hf Hnone Hid Hdl)
    as (s1 & Hrun1 & Hok1 & Hi1 & Hr1 & _ & _ & Hn1 & Hc1).
  cbn [Z.eqb AVA_COUPLED AVA_MANUAL] in Hc1. specialize (Hc1 obj). rewrite Hc, decide_True in Hc1 by done.
  set (r1 := mk_sr size1 dealloc id (f s size1)) in *.
  assert (ids_of s1 !! id = Some (ss_next s)) as Hid1 by (by rewrite Hi1, lookup_insert_eq).
  assert (ss_records s1 !! ss_next s = Some r1) as Hrec1 by (by rewrite Hr1, lookup_insert_eq).
  destruct (lookup_id s1 id _ Hok1 Hid1) as (r & Hr & _ & Hs & _).
  rewrite Hrec1 in Hr. injection Hr as <-.
  destruct (free_unlocked_ok s1 (sr_local r1) r1 Hok1) as (s2 & Hfree & Hok2 & Hi2 & Hr2 & _ & _ & Hn2 & Hc2);
    [by rewrite Hs|done|done|].
  destruct (new_shadow_fresh_ok s2 id size2 AVA_COUPLED obj dealloc f Hok2 Hf) as
    (s3 & Hrun3 & Hok3 & Hi3 & Hr3 & _ & _ & _ & Hc3); [|done|done|].
  { rewrite Hi2. cbn. by rewrite lookup_delete_eq. }
  cbn [Z.eqb AVA_COUPLED AVA_MANUAL] in Hc3. specialize (Hc3 obj). rewrite Hc2, Hc1, decide_True in Hc3 by done.
  eexists _, s1, _, s3. split; [|split].
  - unfold ava_shadow_buffer_new_shadow, ava_shadow_buffer_new_shadow_unlocked.
    rewrite Hunf by done. exact Hrun1.
  - unfold ava_shadow_buffer_new_shadow, ava_shadow_buffer_new_shadow_unlocked.
    cbn [new_shadow_rec]. rewrite (proj2 (Z.eqb_neq id _)) by done.
    rewrite (proj2 (Z.eqb_neq dealloc _)) by done. cbn [Z.eqb AVA_COUPLED AVA_CALL negb c_assert mbind res_bind].
    pose proof Hid1 as Hid1'. unfold ids_of in Hid1'. rewrite Hid1'.
    rewrite (get_with_eq _ s1 id size2 AVA_COUPLED _ r1) by done.
    rewrite (proj2 (Z.ltb_lt _ _)) by done. rewrite (proj2 (Z.eqb_neq (sr_deallocator r1) _)) by done.
    cbn [andb negb]. rewrite Hfree. cbn [mbind res_bind].
    pose proof (Hunf 0%nat s2 size2) as Hn. cbn [new_shadow_rec] in Hn.
    rewrite (proj2 (Z.eqb_neq id _)) in Hn by done. rewrite (proj2 (Z.eqb_neq dealloc _)) in Hn by done.
    cbn [Z.eqb AVA_COUPLED AVA_CALL negb c_assert mbind res_bind] in Hn. rewrite Hn; [exact Hrun3|].
    rewrite Hi2. cbn. by rewrite lookup_delete_eq.
  - rewrite free_coupled_eq by by rewrite Hc3. rewrite Hc3. cbn [app foldM].
    assert (get_record (ss_next s) s3 = Stop (Undefined "use of a freed shadow record")) as ->.
    { unfold get_record. rewrite Hr3, lookup_insert_ne by lia. by rewrite Hr2, Hs, lookup_delete_eq. }
    done.
Qed.

Lemma grown_coupled_use_after_free_witness :
  ∃ l1 s1 l2 s2,
    ava_shadow_buffer_new_shadow (shadow_init (counter_init 2)) 900 8 AVA_COUPLED 300
      (Some some_alloc) 77 = Ok (l1, s1) ∧
    ava_shadow_buffer_new_shadow s1 900 16 AVA_COUPLED 300 (Some some_alloc) 77 = Ok (l2, s2) ∧
    ava_shadow_buffer_free_coupled s2 300 = Stop (Undefined "use of a freed shadow record").
Proof.
  apply (grown_coupled_use_after_free some_alloc 77 900 300 8 16 (shadow_init (counter_init 2))).
  - apply shadow_init_ok.
  - apply some_alloc_fresh.
  - done.
  - done.
  - done.
  - lia.
  - reflexivity.
  - reflexivity.
Defined.

(** One buffer coupled to object 300. *)
Definition sample_shadow : shadow_state :=
  match ava_shadow_buffer_new_shadow (shadow_init (counter_init 2)) 900 8 AVA_COUPLED 300
          (Some some_alloc) 77 with
  | Ok (_, s) => s
  | Stop _ => shadow_init (counter_init 2)
  end.

Lemma sample_shadow_ok : shadow_ok sample_shadow.
Proof.
  destruct (new_shadow_rec_ok 0 (shadow_init (counter_init 2)) 900 8 AVA_COUPLED 300 some_alloc 77)
    as (l & s & _ & _ & Hrun & Hok & _); try (done || apply shadow_init_ok || apply some_alloc_fresh).
  unfold sample_shadow, ava_shadow_buffer_new_shadow, ava_shadow_buffer_new_shadow_unlocked.
  by rewrite Hrun.
Qed.

Lemma free_coupled_spec_witness :
  ∃ s', ava_shadow_buffer_free_coupled sample_shadow 300 = Ok s' ∧ shadow_ok s' ∧
    (∀ a, ss_records s' !! a =
          if decide (a ∈ coupled_at sample_shadow 300) then None else ss_records sample_shadow !! a) ∧
    (∀ p, coupled_at s' p = if decide (300 = p) then [] else coupled_at sample_shadow p).
Proof.
  apply (free_coupled_spec sample_shadow 300).
  - apply sample_shadow_ok.
  - change (coupled_at sample_shadow 300) with [1]. repeat constructor. set_solver.
  - change (coupled_at sample_shadow 300) with [1]. constructor; [|constructor].
    eexists. split; [vm_compute; reflexivity|done].
Defined.

(** Two buffers attached one after the other lie side by side in the block. *)
Lemma attach_two c cmd lo cur d1 d2 :
  length (reserved_area (cmd_base cmd)) = 8%nat →
  seeker_local (cmd_base cmd) = lo → seeker_cur (cmd_base cmd) = cur →
  d1 ≠ [] → d2 ≠ [] → 0 ≤ lo ≤ cur →
  cur + Z.of_nat (length d1) + Z.of_nat (length d2) ≤ Z.of_nat (length (shm_mem c)) →
  Z.of_nat (length (shm_mem c)) < 2 ^ 64 →
  ∃ cmd1 c1 cmd' c',
    shm_attach_buffer c cmd (Some d1) (Z.of_nat (length d1)) = Ok (cur - lo, cmd1, c1) ∧
    shm_attach_buffer c1 cmd1 (Some d2) (Z.of_nat (length d2)) = Ok (cur - lo + Z.of_nat (length d1), cmd', c') ∧
    seeker_local (cmd_base cmd') = lo ∧
    shm_mem c' = take (Z.to_nat cur) (shm_mem c) ++ d1 ++ d2 ++
                 drop (Z.to_nat cur + length (d1 ++ d2)) (shm_mem c).
Proof.
  intros Hres Hlo Hcur H1 H2 Hle Hfit Hmem.
  destruct (attach_all_eq c cmd lo cur [d1; d2]) as (cmd' & c' & Hat & Hb & _ & _ & Hc'); try done;
    change (mjoin [d1; d2]) with (d1 ++ d2 ++ []) in *; rewrite ?app_nil_r in *.
  { by repeat constructor. } { rewrite length_app. lia. }
  cbn [attach_all buf_ids] in Hat.
  apply res_bind_Ok in Hat as ([[id1 cmd1] c1] & Hat1 & Hat).
  apply res_bind_Ok in Hat as ([[ids cmd2] c2] & Hat2 & Hat). injection Hat as -> -> -> ->.
  apply res_bind_Ok in Hat2 as ([[id2 cmd3] c3] & Hat2 & Hat). cbn [mbind res_bind] in Hat.
  injection Hat as -> -> <-. exists cmd1, c1, cmd', c3. split_and!; [done|done| |].
  - rewrite Hb. etransitivity; [by apply seeker_set|done].
  - rewrite Hc'. cbn [shm_mem set_mem]. by rewrite <- !app_assoc.
Qed.

(** C29. A buffer attached by the guest is found by the worker.  Over the shared-memory channel, after
    [ava_shadow_buffer_attach_buffer] the worker that reads the command gets, from
    [ava_shadow_buffer_get_buffer] at the returned offset, the right size and a shadow buffer
    registered under the guest's identifier for that buffer, large enough for it (or, when the
    worker has a solid buffer under this identifier, that buffer); and the buffer's bytes are at
    the offset in the shared block. *)
Theorem shadow_attach_get_roundtrip (sg sg1 sw : shadow_state) (c : command_channel_shm)
    (cmd : command) (lo cur local lt lt2 cpl dealloc : Z) (data pad : list Z)
    (f : shadow_state → Z → Z) :
  shadow_ok sg →
  ava_shadow_buffer_new_solid sg local (Z.of_nat (length data)) lt None NULL = Ok sg1 →
  (∀ a r, ss_records sg1 !! a = Some r → in_range 64 (sr_id r)) →
  length pad = 7%nat → data ≠ [] → length (reserved_area (cmd_base cmd)) = 8%nat →
  seeker_local (cmd_base cmd) = lo → seeker_cur (cmd_base cmd) = cur → 0 ≤ lo < cur →
  cur + 24 + Z.of_nat (length data) ≤ Z.of_nat (length (shm_mem c)) →
  Z.of_nat (length (shm_mem c)) < 2 ^ 63 →
  shadow_ok sw → alloc_fresh f → lt2 ≠ AVA_CALL → dealloc ≠ NULL →
  ∃ off sg2 cmd' c' rg,
    ava_shadow_buffer_attach_buffer (H := shm_vtable) sg c cmd local (Some data)
      (Z.of_nat (length data)) lt None NULL pad = Ok (off, sg2, cmd', c') ∧
    ss_records sg2 !! shadow_at sg2 local = Some rg ∧ sr_local rg = local ∧
    ∀ w, shm_mem w = shm_mem c' →
      ∃ l sw' a r tail,
        ava_shadow_buffer_get_buffer (H := shmw_vtable) sw w cmd' off lt2 cpl (Some f) dealloc =
          Ok (l, Z.of_nat (length data), sw') ∧
        shadow_ok sw' ∧ ids_of sw' !! sr_id rg = Some a ∧ ss_records sw' !! a = Some r ∧
        sr_local r = l ∧ (sr_deallocator r = NULL ∨ Z.of_nat (length data) ≤ sr_size r) ∧
        shmw_get_buffer w cmd' off = Some (data ++ tail).
Proof.
  intros Hok Hsolid Hrange Hpad Hdata Hres Hlo Hcur Hle Hfit Hmem Hokw Hf Hlt2 Hdl.
  destruct (new_solid_record _ _ _ _ _ Hok Hsolid) as (rg & Hrg & Hlocal).
  pose proof (new_solid_ok _ _ _ _ _ Hok Hsolid) as Hok1.
  destruct (so_rec _ Hok1 _ _ Hrg) as (_ & Hpos & _ & Hnn & _).
  unfold ava_shadow_buffer_attach_buffer. rewrite Hsolid. cbn [mbind res_bind].
  pose proof (metadata_of_views local sg1) as Hm. destruct (metadata_of local sg1) as [m sg2].
  destruct Hm as (M1 & _ & M3 & _ & _ & M6 & _).
  rewrite M1, (proj2 (Z.eqb_neq _ _)) by (unfold NULL; lia). cbn [negb c_assert mbind res_bind].
  assert (get_record (shadow_at sg1 local) sg2 = Ok rg) as -> by (unfold get_record; by rewrite M6, Hrg).
  cbn [mbind res_bind]. set (hdr := header_bytes (sr_id rg) 1 (Z.of_nat (length data)) pad).
  assert (length hdr = 24%nat) as Hh by by apply length_header.
  destruct (attach_two c cmd lo cur hdr data) as (cmd1 & c1 & cmd' & c' & Hat1 & Hat2 & Hlo' & Hc'); try done; try lia.
  rewrite Hh in Hat1, Hat2.
  unfold command_channel_attach_buffer, vtable. cbn [vt_attach_buffer shm_vtable].
  change (Z.of_nat 24) with sizeof_buffer_header in Hat1.
  rewrite Hat1. cbn [mbind res_bind]. rewrite Hat2. cbn [mbind res_bind].
  rewrite (proj2 (Z.eqb_eq _ _)) by (unfold sizeof_buffer_header; lia). cbn [c_assert mbind res_bind].
  eexists _, sg2, cmd', _, rg. split; [reflexivity|]. rewrite M3, M6. split; [done|]. split; [done|].
  intros w Hw. unfold ava_shadow_buffer_get_buffer, command_channel_get_buffer, vtable.
  cbn [vt_get_buffer shmw_vtable]. rewrite (proj2 (Z.eqb_neq lt2 _)) by done.
  cbn [negb c_assert mbind res_bind].
  replace (cur - lo + Z.of_nat 24 - sizeof_buffer_header) with (cur - lo)
    by (unfold sizeof_buffer_header; lia).
  rewrite (wrap_small 64 (cur - lo)) by (unfold in_range; lia).
  unfold shmw_get_buffer. rewrite Hlo'. rewrite !(proj2 (Z.eqb_neq _ 0)) by lia.
  replace (lo + (cur - lo)) with cur by lia. rewrite Hw, Hc'.
  set (tail := drop _ (shm_mem c)).
  assert (Z.to_nat cur ≤ length (shm_mem c))%nat as Hcl by lia.
  rewrite drop_app_length' by (rewrite length_take; lia).
  rewrite read_bytes_prefix by (unfold sizeof_buffer_header; by rewrite Hh). cbn [mbind res_bind].
  destruct (header_read (sr_id rg) 1 (Z.of_nat (length data)) pad) as [R1 R2];
    [done|by eapply Hrange|unfold in_range; lia|]. fold hdr in R1, R2. rewrite R1, R2.
  destruct (new_shadow_rec_ok 0 sw (sr_id rg) (Z.of_nat (length data)) lt2 cpl f dealloc)
    as (l & sw' & a & r & Hrun & Hok' & Hrest); try done.
  unfold ava_shadow_buffer_new_shadow, ava_shadow_buffer_new_shadow_unlocked. rewrite Hrun.
  cbn [mbind res_bind]. destruct Hrest as (Ha & Hr & Hl & Hsz).
  eexists _, sw', a, r, tail. split_and!; try done.
  f_equal. rewrite app_assoc. apply drop_app_length'. rewrite length_app, length_take, Hh. lia.
Qed.

(** A guest whose buffer at address 500 is registered. *)
Definition sample_solid : shadow_state :=
  match ava_shadow_buffer_new_solid (shadow_init (counter_init 2)) 500 3 AVA_STATIC None NULL with
  | Ok s => s
  | Stop _ => shadow_init (counter_init 2)
  end.

Lemma sample_solid_range a r : ss_records sample_solid !! a = Some r → in_range 64 (sr_id r).
Proof.
  assert (ss_records sample_solid = {[1 := mk_sr 3 0 18446742974197924866 500]}) as ->
    by (vm_compute; reflexivity).
  intros [<- <-]%lookup_singleton_Some. unfold in_range. cbn. lia.
Qed.

Lemma shadow_attach_get_roundtrip_witness :
  ∃ off sg2 cmd' c' rg,
    ava_shadow_buffer_attach_buffer (H := shm_vtable) (shadow_init (counter_init 2)) sample_guest
      (mk_cmd 1 sample_shm_base []) 500 (Some [1; 2; 3]) 3 AVA_STATIC None NULL (replicate 7 0) =
      Ok (off, sg2, cmd', c') ∧
    ss_records sg2 !! shadow_at sg2 500 = Some rg ∧ sr_local rg = 500 ∧
    ∀ w, shm_mem w = shm_mem c' →
      ∃ l sw' a r tail,
        ava_shadow_buffer_get_buffer (H := shmw_vtable) (shadow_init (counter_init 1)) w cmd' off
          AVA_MANUAL NULL (Some some_alloc) 77 = Ok (l, 3, sw') ∧
        shadow_ok sw' ∧ ids_of sw' !! sr_id rg = Some a ∧ ss_records sw' !! a = Some r ∧
        sr_local r = l ∧ (sr_deallocator r = NULL ∨ 3 ≤ sr_size r) ∧
        shmw_get_buffer w cmd' off = Some ([1; 2; 3] ++ tail).
Proof.
  apply (shadow_attach_get_roundtrip (shadow_init (counter_init 2)) sample_solid
    (shadow_init (counter_init 1)) sample_guest (mk_cmd 1 sample_shm_base []) 0 4 500 AVA_STATIC
    AVA_MANUAL NULL 77 [1; 2; 3] (replicate 7 0) some_alloc).
  - apply shadow_init_ok.
  - vm_compute. reflexivity.
  - apply sample_solid_range.
  - reflexivity.
  - discriminate.
  - reflexivity.
  - reflexivity.
  - reflexivity.
  - lia.
  - cbn. lia.
  - cbn. lia.
  - apply shadow_init_ok.
  - apply some_alloc_fresh.
  - discriminate.
  - discriminate.
Defined.
