(* ===== verification/Extraction.v ===== *)
(** * State extraction for migration (common/endpoint_lib.c, [ava_extract_objects] and friends)

    The objects to migrate are closed under dependencies by a depth-first traversal of the
    metadata; the calls recorded for them are sorted by log offset and transferred to the output
    channel, each once; then the explicit state of every object that has an [extract] function is
    sent.  [g_ptr_array_sort] and the iteration order of GLib's tables are parameters of which
    only the documented behaviour is assumed; the extract functions of an API are a parameter
    too. *)

From S2P Require Import Prelude Murmur HandlePool Channel LogChannel Zcopy Endpoint.
Local Open Scope Z_scope.

(** ** Traversal *)

(** [g_hash_table_add] to the set [state->dependencies], [g_ptr_array_add] to
    [state->offset_pairs]. *)
Record extraction := mk_ext {
  ex_dependencies : gmap Z Z;
  ex_pairs : list (Z * Z)
}.

Definition add_dependency (root : Z) (st : extraction) : extraction :=
  mk_ext (<[root := root]> (ex_dependencies st)) (ex_pairs st).
Definition add_pairs (l : list (Z * Z)) (st : extraction) : extraction :=
  mk_ext (ex_dependencies st) (ex_pairs st ++ l).

(** The recursion is as deep as a chain of new objects with metadata; [traverse_fuel] below is one
    more than the number of objects with metadata. *)
Fixpoint _ava_extract_traverse (fuel : nat) (md : gmap Z ava_metadata_base) (root : Z)
    (st : extraction) : res extraction :=
  match fuel with
  | O => Stop (Undefined "_ava_extract_traverse: out of fuel")
  | S fuel =>
      match ex_dependencies st !! root with
      | Some _ => Ok st
      | None =>
          let st := add_dependency root st in
          match md !! root with
          | None => Ok st
          | Some m =>
              let st := add_pairs (default [] (recorded_calls m)) st in
              foldM (_ava_extract_traverse fuel md) (default [] (dependencies m)) st
          end
      end
  end.

Definition traverse_fuel (md : gmap Z ava_metadata_base) : nat := S (size md).

(** The traversals of [ava_extract_objects]: the global object NULL, then the given ones. *)
Definition collect (md : gmap Z ava_metadata_base) (to_extract : list Z) : res extraction :=
  foldM (_ava_extract_traverse (traverse_fuel md) md) (NULL :: to_extract) (mk_ext ∅ []).

(** ** Sorting and transferring *)

Definition _ava_order_by_a (x y : Z * Z) : Z :=
  if fst x <? fst y then -1 else if fst y <? fst x then 1 else 0.

(** [g_ptr_array_sort]: a permutation in non-decreasing order of the comparison function. *)
Class PtrArraySort := {
  g_ptr_array_sort : list (Z * Z) → list (Z * Z);
  g_ptr_array_sort_perm : ∀ l, g_ptr_array_sort l ≡ₚ l;
  g_ptr_array_sort_sorted : ∀ l,
    StronglySorted (λ x y, _ava_order_by_a x y ≤ 0) (g_ptr_array_sort l)
}.

Section transfer.
  Context `{Channel C}.

(** State of a transfer: the output channel, the log and the heap. *)
Definition _ava_transfer_command (offset : Z) (st : C * command_channel_log * heap)
    : res (C * command_channel_log * heap) :=
  let '(out, log, h) := st in
  '(r, log, h) ← command_channel_log_load_command log h offset;
  match r with
  | None => Stop (Undefined "flags of a command that was not loaded")
  | Some (msg, flags) =>
      '(out, h) ←
        (if flags =? 1 then Ok (out, h)
         else command_channel_transfer_command out h
                (command_channel_load_get_data_region log msg) msg);
      h ← command_channel_load_free_command log h msg;
      Ok (out, log, h)
  end.

(** [for (i ...) if (pair->a != prev_call_offset) { a; b } prev_call_offset = pair->a]. *)
Fixpoint transfer_loop (step : Z * Z → C * command_channel_log * heap →
                          res (C * command_channel_log * heap))
    (prev : Z) (pairs : list (Z * Z)) (st : C * command_channel_log * heap)
    : res (C * command_channel_log * heap) :=
  match pairs with
  | [] => Ok st
  | p :: pairs =>
      st ← (if fst p =? prev then Ok st else step p st);
      transfer_loop step (fst p) pairs st
  end.

Definition transfer_both (p : Z * Z) (st : C * command_channel_log * heap)
    : res (C * command_channel_log * heap) :=
  st ← _ava_transfer_command (fst p) st;
  _ava_transfer_command (snd p) st.

Definition sizeof_replay_command : Z := 160.
Definition sizeof_replay_command_pair : Z := 152.

(** [api_id] and [command_id] of a new command. *)
Definition set_ids (cid : Z) (cmd : command) : command :=
  upd_base (λ b, set_command_id cid (set_api_id COMMAND_HANDLER_API b)) cmd.

Definition _ava_transfer_command_in_pair (p : Z * Z) (st : C * command_channel_log * heap)
    : res (C * command_channel_log * heap) :=
  let '(out, log, h) := st in
  '(ra, log, h) ← command_channel_log_load_command log h (fst p);
  '(rb, log, h) ← command_channel_log_load_command log h (snd p);
  match ra, rb with
  | Some (call_cmd, flags_a), Some (ret_cmd, flags_b) =>
      '(out, h) ←
        (if (flags_a =? 1) || (flags_b =? 1) then Ok (out, h)
         else
           let sa := u64 (command_size (cmd_base call_cmd) + region_size (cmd_base call_cmd)) in
           let sb := u64 (command_size (cmd_base ret_cmd) + region_size (cmd_base ret_cmd)) in
           let chan_len := u64 (command_channel_buffer_size out sa +
                                command_channel_buffer_size out sb) in
           '(combine, out, h) ←
             command_channel_new_command out h sizeof_replay_command_pair chan_len;
           let combine := set_ids COMMAND_HANDLER_RECORDED_PAIR combine in
           '(ida, combine, out) ←
             command_channel_attach_buffer out combine (Some (cmd_bytes call_cmd)) sa;
           '(idb, combine, out) ←
             command_channel_attach_buffer out combine (Some (cmd_bytes ret_cmd)) sb;
           command_channel_send_command out h
             (set_fields (le_bytes 8 ida ++ le_bytes 8 idb) combine));
      h ← command_channel_load_free_command log h call_cmd;
      h ← command_channel_load_free_command log h ret_cmd;
      Ok (out, log, h)
  | _, _ => Stop (Undefined "flags of a command that was not loaded")
  end.

(** ** Explicit state *)

(** [metadata->extract(obj, &len)]: the bytes, or [None] when [len] is left at -1. *)
Variable extract_fn : Z → Z → option (list Z).

Definition _ava_extract_explicit (md : gmap Z ava_metadata_base) (obj : Z)
    (st : counter * nw_handle_pool * C * heap) : res (counter * nw_handle_pool * C * heap) :=
  let '(g, pool, out, h) := st in
  match md !! obj with
  | None => Ok st
  | Some m =>
      if extract m =? NULL then Ok st
      else
        '(id, g, pool) ← nw_handle_pool_lookup_or_insert g (Some pool) obj;
        match extract_fn (extract m) obj, pool with
        | Some data, Some pool =>
            let len := Z.of_nat (length data) in
            '(cmd, out, h) ← command_channel_new_command out h sizeof_replay_command
                               (command_channel_buffer_size out len);
            let cmd := set_ids COMMAND_HANDLER_REPLACE_EXPLICIT_STATE cmd in
            '(did, cmd, out) ← command_channel_attach_buffer out cmd (Some data) len;
            '(out, h) ← command_channel_send_command out h
              (set_fields (le_bytes 8 id ++ le_bytes 8 did ++ le_bytes 8 len) cmd);
            Ok (g, pool, out, h)
        | _, _ => Stop (AssertFailed "len != -1")
        end
  end.

Context `{PtrArraySort, HashOrder Z}.

(** [prev_call_offset] starts at [(size_t)-1]. *)
Definition extract_with (step : Z * Z → C * command_channel_log * heap →
                           res (C * command_channel_log * heap))
    (md : gmap Z ava_metadata_base) (g : counter) (pool : nw_handle_pool) (out : C)
    (log : command_channel_log) (h : heap) (to_extract : list Z)
    : res (counter * nw_handle_pool * C * command_channel_log * heap) :=
  st ← collect md to_extract;
  '(out, log, h) ← transfer_loop step (2 ^ 64 - 1) (g_ptr_array_sort (ex_pairs st)) (out, log, h);
  '(g, pool, out, h) ← foldM (_ava_extract_explicit md) (iter_keys (ex_dependencies st))
                         (g, pool, out, h);
  Ok (g, pool, out, log, h).

Definition ava_extract_objects := extract_with transfer_both.
Definition ava_extract_objects_in_pair := extract_with _ava_transfer_command_in_pair.

(** The call [metadata->replace(obj, data, length)] that the command makes. *)
Definition ava_handle_replace_explicit_state (md : gmap Z ava_metadata_base)
    (pool : nw_handle_pool) (chan : C) (cmd : command) : res (Z * Z * list Z) :=
  _ ← c_assert (command_id (cmd_base cmd) =? COMMAND_HANDLER_REPLACE_EXPLICIT_STATE)
        "cmd->base.command_id == COMMAND_HANDLER_REPLACE_EXPLICIT_STATE";
  rest ← read_bytes 24 (cmd_rest cmd);
  obj ← nw_handle_pool_deref (Some pool) (le_num (slice 0 8 rest));
  match md !! obj with
  | None => Stop (Undefined "metadata of an unknown object")
  | Some m =>
      let data := command_channel_get_buffer chan cmd (le_num (slice 8 8 rest)) in
      _ ← c_assert (negb (replace m =? NULL)) "metadata->replace";
      match data with
      | None => Ok (replace m, obj, [])
      | Some bytes =>
          bytes ← read_bytes (le_num (slice 16 8 rest)) bytes;
          Ok (replace m, obj, bytes)
      end
  end.

End transfer.

(** ** Specification *)

(** [x] depends on [y]. *)
Definition depends (md : gmap Z ava_metadata_base) (x y : Z) : Prop :=
  ∃ m, md !! x = Some m ∧ y ∈ default [] (dependencies m).

Definition reachable (md : gmap Z ava_metadata_base) (roots : list Z) (x : Z) : Prop :=
  ∃ r, r ∈ roots ∧ rtc (depends md) r x.

Definition calls_in (md : gmap Z ava_metadata_base) (x : Z) : list (Z * Z) :=
  match md !! x with Some m => default [] (recorded_calls m) | None => [] end.

(** Pairs that differ in their offset from the one before. *)
Fixpoint unique_by_a (prev : Z) (pairs : list (Z * Z)) : list (Z * Z) :=
  match pairs with
  | [] => []
  | p :: pairs => (if fst p =? prev then [] else [p]) ++ unique_by_a (fst p) pairs
  end.

(** Transferring one record, without the log file. *)
Definition send_record `{Channel C} (r : lrec) (st : C * heap) : res (C * heap) :=
  let '(out, h) := st in
  let '(addr, h) := malloc h in
  let cmd := lrec_cmd addr r in
  '(out, h) ←
    (if lr_flags r =? 1 then Ok (out, h)
     else command_channel_transfer_command out h
            (drop (Z.to_nat (command_size (lr_base r))) (cmd_bytes cmd)) cmd);
  h ← c_free addr h;
  Ok (out, h).

(** ** Lemmas on the traversal *)

(** What one or several traversals do to the state. *)
Record traversed (md : gmap Z ava_metadata_base) (roots : list Z) (st st' : extraction) : Prop := {
  tr_keeps : dom (ex_dependencies st) ⊆ dom (ex_dependencies st');
  tr_roots : ∀ x, x ∈ roots → x ∈ dom (ex_dependencies st');
  tr_closed : ∀ x y, x ∈ dom (ex_dependencies st') → x ∉ dom (ex_dependencies st) →
    depends md x y → y ∈ dom (ex_dependencies st');
  tr_sound : ∀ x, x ∈ dom (ex_dependencies st') → x ∉ dom (ex_dependencies st) →
    reachable md roots x;
  tr_pairs : ex_pairs st' ≡ₚ ex_pairs st ++
    mjoin (calls_in md <$> elements (dom (ex_dependencies st') ∖ dom (ex_dependencies st)))
}.

Lemma traversed_refl md roots st :
  (∀ x, x ∈ roots → x ∈ dom (ex_dependencies st)) → traversed md roots st st.
Proof.
  intros Hr. split; [done|done|done|done|].
  by rewrite difference_diag_L, elements_empty, app_nil_r.
Qed.

Lemma traversed_trans md r1 r2 st1 st2 st3 :
  traversed md r1 st1 st2 → traversed md r2 st2 st3 → traversed md (r1 ++ r2) st1 st3.
Proof.
  intros [A1 A2 A3 A4 A5] [B1 B2 B3 B4 B5]. split.
  - set_solver.
  - intros x [Hx|Hx]%elem_of_app; [by apply B1, A2|by apply B2].
  - intros x y H3 H1 Hd. destruct (decide (x ∈ dom (ex_dependencies st2))) as [H2|H2];
      [by apply B1, (A3 x)|by apply (B3 x)].
  - intros x H3 H1. destruct (decide (x ∈ dom (ex_dependencies st2))) as [H2|H2].
    + destruct (A4 x H2 H1) as (r & Hr & Hx). exists r. split; [set_solver|done].
    + destruct (B4 x H3 H2) as (r & Hr & Hx). exists r. split; [set_solver|done].
  - rewrite B5, A5, <- app_assoc, <- join_app, <- fmap_app. f_equiv.
    rewrite <- elements_disj_union by set_solver.
    replace (dom (ex_dependencies st2) ∖ dom (ex_dependencies st1) ∪
             dom (ex_dependencies st3) ∖ dom (ex_dependencies st2))
      with (dom (ex_dependencies st3) ∖ dom (ex_dependencies st1)); [done|].
    apply set_eq. intros x. destruct (decide (x ∈ dom (ex_dependencies st2))); set_solver.
Qed.

(** A traversal that finds [root] new: it and everything its dependencies add. *)
Lemma traversed_step md root m st st' :
  root ∉ dom (ex_dependencies st) → md !! root = Some m →
  traversed md (default [] (dependencies m))
    (add_pairs (default [] (recorded_calls m)) (add_dependency root st)) st' →
  traversed md [root] st st'.
Proof.
  intros Hnew Hm [A1 A2 A3 A4 A5]. cbn [ex_dependencies add_pairs add_dependency ex_pairs] in *.
  rewrite dom_insert_L in *. split.
  - set_solver.
  - intros x ->%list_elem_of_singleton. set_solver.
  - intros x y Hx Hn Hd. destruct (decide (x = root)) as [->|Hne].
    + destruct Hd as (m' & Hm' & Hy). rewrite Hm in Hm'. injection Hm' as <-. by apply A2.
    + apply (A3 x y); [done|set_solver|done].
  - intros x Hx Hn. exists root. split; [set_solver|].
    destruct (decide (x = root)) as [->|Hne]; [done|].
    destruct (A4 x Hx ltac:(set_solver)) as (r & Hr & Hrx). eapply rtc_l; [|exact Hrx].
    by exists m.
  - rewrite A5, <- app_assoc. f_equiv.
    replace (dom (ex_dependencies st') ∖ dom (ex_dependencies st))
      with ({[root]} ∪ (dom (ex_dependencies st') ∖ ({[root]} ∪ dom (ex_dependencies st)))).
    2: { apply set_eq. intros x. destruct (decide (x = root)); set_solver. }
    rewrite elements_disj_union, elements_singleton by set_solver.
    cbn [app fmap list_fmap]. change (mjoin (?a :: ?b)) with (a ++ mjoin b).
    unfold calls_in at 2. by rewrite Hm.
Qed.

(** Objects with metadata that were not visited yet. *)
Definition remaining (md : gmap Z ava_metadata_base) (st : extraction) : nat :=
  size (dom md ∖ dom (ex_dependencies st)).

Lemma remaining_mono md st st' :
  dom (ex_dependencies st) ⊆ dom (ex_dependencies st') → (remaining md st' ≤ remaining md st)%nat.
Proof. intros Hsub. apply subseteq_size. set_solver. Qed.

Lemma remaining_step md root m st l :
  root ∉ dom (ex_dependencies st) → md !! root = Some m →
  (remaining md (add_pairs l (add_dependency root st)) < remaining md st)%nat.
Proof.
  intros Hnew Hm. apply subset_size. cbn. rewrite dom_insert_L.
  assert (root ∈ dom md) by by apply elem_of_dom_2 in Hm.
  split; [set_solver|]. intros Hsub. specialize (Hsub root). set_solver.
Qed.

Lemma traverse_ok md : ∀ fuel root st,
  (remaining md st < fuel)%nat →
  ∃ st', _ava_extract_traverse fuel md root st = Ok st' ∧ traversed md [root] st st'.
Proof.
  induction fuel as [|fuel IH]; intros root st Hfuel; [lia|]. cbn [_ava_extract_traverse].
  destruct (ex_dependencies st !! root) as [v|] eqn:Hl.
  { exists st. split; [done|]. apply traversed_refl. intros x ->%list_elem_of_singleton.
    by apply elem_of_dom_2 in Hl. }
  assert (root ∉ dom (ex_dependencies st)) as Hnew by by apply not_elem_of_dom.
  destruct (md !! root) as [m|] eqn:Hm.
  - pose proof (remaining_step md root m st (default [] (recorded_calls m)) Hnew Hm) as Hrem.
    set (st1 := add_pairs _ _) in *.
    assert (∀ l st, (remaining md st < fuel)%nat →
      ∃ st', foldM (_ava_extract_traverse fuel md) l st = Ok st' ∧ traversed md l st st') as Hfold.
    { clear -IH. induction l as [|x l IHl]; intros st Hf.
      - exists st. split; [done|]. apply traversed_refl. set_solver.
      - cbn [foldM]. destruct (IH x st Hf) as (st1 & -> & H1). cbn [mbind res_bind].
        destruct (IHl st1) as (st2 & -> & H2).
        { pose proof (remaining_mono md st st1 (tr_keeps _ _ _ _ H1)). lia. }
        exists st2. split; [done|]. by apply (traversed_trans md [x] l st st1). }
    destruct (Hfold (default [] (dependencies m)) st1) as (st' & -> & Ht); [lia|].
    exists st'. split; [done|]. by eapply traversed_step.
  - eexists. split; [reflexivity|]. cbn. split; cbn; rewrite ?dom_insert_L.
    + set_solver.
    + set_solver.
    + intros x y Hx Hn (m & Hmx & _). assert (x = root) as -> by set_solver. congruence.
    + intros x Hx Hn. exists root. assert (x = root) as -> by set_solver. split; [set_solver|done].
    + replace (({[root]} ∪ dom (ex_dependencies st)) ∖ dom (ex_dependencies st))
        with ({[root]} : gset Z) by set_solver.
      rewrite elements_singleton. cbn. unfold calls_in. by rewrite Hm, app_nil_r.
Qed.

Lemma collect_ok md roots :
  ∃ st, collect md roots = Ok st ∧ traversed md (NULL :: roots) (mk_ext ∅ []) st.
Proof.
  unfold collect.
  assert (∀ l st, ∃ st', foldM (_ava_extract_traverse (traverse_fuel md) md) l st = Ok st' ∧
    traversed md l st st') as Hfold; [|apply Hfold].
  induction l as [|x l IH]; intros st.
  - exists st. split; [done|]. apply traversed_refl. set_solver.
  - cbn [foldM]. destruct (traverse_ok md (traverse_fuel md) x st) as (st1 & -> & H1).
    { unfold traverse_fuel, remaining. rewrite <- size_dom.
      assert (size (dom md ∖ dom (ex_dependencies st)) ≤ size (dom md))%nat
        by (apply subseteq_size; set_solver). lia. }
    cbn [mbind res_bind]. destruct (IH st1) as (st2 & -> & H2). exists st2. split; [done|].
    by apply (traversed_trans md [x] l st st1).
Qed.

(** ** Lemmas on the transfer *)

Lemma transfer_loop_unique {C} (step : Z * Z → C * command_channel_log * heap →
    res (C * command_channel_log * heap)) pairs : ∀ prev st,
  transfer_loop step prev pairs st = foldM step (unique_by_a prev pairs) st.
Proof.
  induction pairs as [|p pairs IH]; intros prev st; [done|].
  cbn [transfer_loop unique_by_a]. destruct (fst p =? prev); [apply IH|].
  cbn [app foldM]. destruct (step p st); [apply IH|done].
Qed.

Lemma order_by_a_le x y : _ava_order_by_a x y ≤ 0 ↔ fst x ≤ fst y.
Proof.
  unfold _ava_order_by_a. destruct (Z.ltb_spec (fst x) (fst y)), (Z.ltb_spec (fst y) (fst x)); lia.
Qed.

Lemma unique_above l : ∀ prev,
  StronglySorted (λ x y, fst x ≤ fst y) l → Forall (λ p, prev ≤ fst p) l →
  StronglySorted (λ x y, fst x < fst y) (unique_by_a prev l) ∧
  Forall (λ p, prev < fst p ∧ p ∈ l) (unique_by_a prev l) ∧
  Forall (λ p, fst p = prev ∨ ∃ q, q ∈ unique_by_a prev l ∧ fst q = fst p) l.
Proof.
  induction l as [|p l IH]; intros prev Hs Hp; [split_and!; constructor|].
  apply StronglySorted_inv in Hs as [Hs Hle]. apply Forall_cons in Hp as [Hp Hl].
  destruct (IH (fst p) Hs Hle) as (H1 & H2 & H3). cbn [unique_by_a].
  destruct (Z.eqb_spec (fst p) prev) as [He|Hne]; cbn [app].
  - rewrite He in *. split; [done|]. split.
    + eapply Forall_impl; [exact H2|]. cbn. intros q [? ?]. split; [done|set_solver].
    + constructor; [by left|done].
  - split; [|split].
    + constructor; [done|]. eapply Forall_impl; [exact H2|]. cbn. naive_solver.
    + constructor; [split; [lia|set_solver]|]. eapply Forall_impl; [exact H2|]. cbn.
      intros q [? ?]. split; [lia|set_solver].
    + constructor; [right; exists p; set_solver|]. eapply Forall_impl; [exact H3|]. cbn.
      intros q [Hq|(q' & Hq' & He)]; right; [exists p|exists q']; set_solver.
Qed.

(** Sorted pairs without their repetitions, when no pair has the initial offset. *)
Lemma unique_sorted l prev :
  StronglySorted (λ x y, fst x ≤ fst y) l → Forall (λ p, fst p < prev) l →
  StronglySorted (λ x y, fst x < fst y) (unique_by_a prev l) ∧
  (∀ p, p ∈ unique_by_a prev l → p ∈ l) ∧
  (∀ p, p ∈ l → ∃ q, q ∈ unique_by_a prev l ∧ fst q = fst p).
Proof.
  intros Hs Hp. destruct l as [|p l]; [split_and!; [constructor|done|set_solver]|].
  apply StronglySorted_inv in Hs as [Hs Hle]. apply Forall_cons in Hp as [Hp Hl].
  destruct (unique_above l (fst p) Hs Hle) as (H1 & H2 & H3). cbn [unique_by_a].
  destruct (Z.eqb_spec (fst p) prev); [lia|]. cbn [app].
  rewrite !Forall_forall in *. split_and!.
  - constructor; [done|]. apply Forall_forall. intros q Hq. by apply H2.
  - intros q [->|Hq]%elem_of_cons; [set_solver|]. apply H2 in Hq. set_solver.
  - intros q [->|Hq]%elem_of_cons; [exists p; set_solver|].
    apply H3 in Hq as [Hq|(q' & Hq' & He)]; [exists p|exists q']; set_solver.
Qed.

Section transfer_lemmas.
  Context `{Channel C}.

Lemma transfer_command_eq (out : C) log h rs i r :
  content log = log_bytes rs → fd_open log = true → Forall lrec_wf rs → rs !! i = Some r →
  ∃ log', content log' = content log ∧ fd_open log' = true ∧ disk_ok log' = disk_ok log ∧
    _ava_transfer_command (log_offset rs i) (out, log, h) =
      ('(out, h) ← send_record r (out, h); Ok (out, log', h)).
Proof.
  intros Hc Hfd Hall Hr. destruct (load_at log h rs i r (log_offset rs i)) as
    (log' & Hload & Hc' & _ & Hfd' & Hd'); [done|done|done|by eapply Forall_lookup_1| |].
  { by rewrite (proj2 (Z.ltb_ge _ _)) by (unfold log_offset; lia). }
  exists log'. split_and!; try done.
  unfold _ava_transfer_command, send_record. rewrite Hload. cbn [mbind res_bind malloc snd].
  destruct (lr_flags r =? 1); cbn [mbind res_bind].
  - unfold command_channel_load_free_command. cbn [lrec_cmd cmd_addr]. by destruct (c_free _ _).
  - unfold command_channel_load_get_data_region. cbn [lrec_cmd cmd_base].
    destruct (command_channel_transfer_command _ _ _ _) as [[out' h']|]; cbn [mbind res_bind]; [|done].
    unfold command_channel_load_free_command. cbn [lrec_cmd cmd_addr]. by destruct (c_free _ _).
Qed.

(** The records a list of index pairs names, call before return. *)
Definition pair_records (rs : list lrec) (idx : list (nat * nat)) : list lrec :=
  mjoin ((λ p, option_list (rs !! fst p) ++ option_list (rs !! snd p)) <$> idx).

Definition pair_offsets (rs : list lrec) (p : nat * nat) : Z * Z :=
  (log_offset rs (fst p), log_offset rs (snd p)).

Lemma transfer_pairs_eq rs idx : ∀ (out : C) log h,
  content log = log_bytes rs → fd_open log = true → Forall lrec_wf rs →
  Forall (λ p, (fst p < length rs)%nat ∧ (snd p < length rs)%nat) idx →
  ∃ log', content log' = content log ∧ fd_open log' = true ∧ disk_ok log' = disk_ok log ∧
    foldM transfer_both (pair_offsets rs <$> idx) (out, log, h) =
      ('(out, h) ← foldM send_record (pair_records rs idx) (out, h); Ok (out, log', h)).
Proof.
  induction idx as [|[i j] idx IH]; intros out log h Hc Hfd Hall Hidx.
  { by exists log. }
  apply Forall_cons in Hidx as [[Hi Hj] Hidx]. cbn [fst snd] in Hi, Hj.
  destruct (lookup_lt_is_Some_2 rs i Hi) as [ri Hri], (lookup_lt_is_Some_2 rs j Hj) as [rj Hrj].
  assert (pair_records rs ((i, j) :: idx) = ri :: rj :: pair_records rs idx) as ->.
  { unfold pair_records. cbn [fmap list_fmap]. change (mjoin (?a :: ?b)) with (a ++ mjoin b).
    cbn [fst snd]. by rewrite Hri, Hrj. }
  cbn [fmap list_fmap foldM].
  change (transfer_both (pair_offsets rs (i, j)) (out, log, h)) with
    (st ← _ava_transfer_command (log_offset rs i) (out, log, h);
     _ava_transfer_command (log_offset rs j) st).
  destruct (transfer_command_eq out log h rs i ri Hc Hfd Hall Hri) as (log1 & Hc1 & Hf1 & Hd1 & ->).
  destruct (send_record ri (out, h)) as [[out1 h1]|]; cbn [mbind res_bind]; [|by exists log].
  rewrite <- Hc1 in Hc.
  destruct (transfer_command_eq out1 log1 h1 rs j rj Hc Hf1 Hall Hrj) as (log2 & Hc2 & Hf2 & Hd2 & ->).
  destruct (send_record rj (out1, h1)) as [[out2 h2]|]; cbn [mbind res_bind]; [|by exists log].
  rewrite <- Hc2 in Hc. destruct (IH out2 log2 h2 Hc Hf2 Hall Hidx) as (log3 & Hc3 & Hf3 & Hd3 & Hrun).
  exists log3. rewrite Hc3, Hc2, Hc1, Hd3, Hd2, Hd1. split_and!; [done..|exact Hrun].
Qed.

End transfer_lemmas.

Lemma log_offset_lt rs i j : (i < j)%nat → (j ≤ length rs)%nat → log_offset rs i < log_offset rs j.
Proof.
  intros Hij Hj. unfold log_offset.
  destruct (lookup_lt_is_Some_2 rs i ltac:(lia)) as [r Hr].
  assert (take j rs = take i rs ++ r :: drop (S i) (take j rs)) as ->.
  { rewrite <- (take_drop_middle (take j rs) i r) at 1 by (rewrite lookup_take_lt by lia; done).
    by rewrite take_take, Nat.min_l by lia. }
  rewrite log_bytes_app, length_app. change (r :: ?l) with ([r] ++ l).
  rewrite log_bytes_app, log_bytes_single, length_app. unfold lrec_bytes.
  rewrite length_app, length_metadata_bytes. lia.
Qed.

Lemma log_offset_inj rs i j :
  (i < length rs)%nat → (j < length rs)%nat → log_offset rs i = log_offset rs j → i = j.
Proof.
  intros Hi Hj He. destruct (Nat.lt_trichotomy i j) as [H|[H|H]]; [|done|];
    apply (log_offset_lt rs) in H; lia.
Qed.

Lemma indices_of rs l :
  (∀ p, p ∈ l → ∃ i j, (i < length rs)%nat ∧ (j < length rs)%nat ∧ p = pair_offsets rs (i, j)) →
  ∃ idx, l = pair_offsets rs <$> idx ∧
    Forall (λ p, (fst p < length rs)%nat ∧ (snd p < length rs)%nat) idx.
Proof.
  induction l as [|p l IH]; intros Hl; [by exists []|].
  destruct (Hl p ltac:(set_solver)) as (i & j & Hi & Hj & ->).
  destruct IH as (idx & -> & Hidx); [intros q Hq; apply Hl; set_solver|].
  exists ((i, j) :: idx). split; [done|]. by constructor.
Qed.

(** A sort and an iteration order as GLib documents them. *)
Definition pair_le (x y : Z * Z) : Prop := fst x ≤ fst y.
Global Instance pair_le_dec : RelDecision pair_le.
Proof. intros x y. unfold pair_le. apply _. Defined.
Global Instance pair_le_total : Total pair_le.
Proof. intros x y. unfold pair_le. lia. Qed.
Global Instance pair_le_trans : Transitive pair_le.
Proof. intros x y z. unfold pair_le. lia. Qed.

Lemma pair_sort_sorted l :
  StronglySorted (λ x y, _ava_order_by_a x y ≤ 0) (merge_sort pair_le l).
Proof.
  eapply StronglySorted_weaken; [|apply StronglySorted_merge_sort; apply _].
  intros x y Hxy. by apply order_by_a_le.
Qed.

Definition pair_sort : PtrArraySort :=
  {| g_ptr_array_sort := merge_sort pair_le;
     g_ptr_array_sort_perm l := merge_sort_Permutation pair_le l;
     g_ptr_array_sort_sorted := pair_sort_sorted |}.

Definition key_order : HashOrder Z :=
  {| iter_keys m := (map_to_list m).*1; iter_keys_perm m := reflexivity _ |}.

(** The steps of an extraction: one for each pair recorded for a reachable object, in the order of
    the log. *)
Lemma extract_with_eq `{Channel C} `{PtrArraySort} `{HashOrder Z}
    (step : Z * Z → C * command_channel_log * heap → res (C * command_channel_log * heap))
    (extract_fn : Z → Z → option (list Z)) (md : gmap Z ava_metadata_base) (rs : list lrec) (roots : list Z) :
  Z.of_nat (length (log_bytes rs)) < 2 ^ 64 - 1 →
  (∀ x p, p ∈ calls_in md x →
    ∃ i j, (i < length rs)%nat ∧ (j < length rs)%nat ∧ p = pair_offsets rs (i, j)) →
  ∃ st idx, collect md roots = Ok st ∧
    StronglySorted (λ p q, log_offset rs (fst p) < log_offset rs (fst q)) idx ∧
    Forall (λ p, (fst p < length rs)%nat ∧ (snd p < length rs)%nat) idx ∧
    (∀ p, p ∈ idx → ∃ x, reachable md (NULL :: roots) x ∧ pair_offsets rs p ∈ calls_in md x) ∧
    (∀ x p, reachable md (NULL :: roots) x → p ∈ calls_in md x →
      ∃ q, q ∈ idx ∧ log_offset rs (fst q) = fst p) ∧
    ∀ g pool out log h, extract_with extract_fn step md g pool out log h roots =
      ('(out, log, h) ← foldM step (pair_offsets rs <$> idx) (out, log, h);
       '(g, pool, out, h) ← foldM (_ava_extract_explicit extract_fn md)
          (iter_keys (ex_dependencies st)) (g, pool, out, h);
       Ok (g, pool, out, log, h)).
Proof.
  intros Hlen Hcalls.
  destruct (collect_ok md roots) as (st & Hrun & Htr). exists st.
  assert (∀ p, p ∈ ex_pairs st ↔ ∃ x, reachable md (NULL :: roots) x ∧ p ∈ calls_in md x) as Hpairs.
  { destruct Htr as [T1 T2 T3 T4 T5]. cbn in *. rewrite dom_empty_L, difference_empty_L in *.
    intros p. rewrite T5, list_elem_of_join. split.
    - intros (l & Hp & (x & -> & Hx)%list_elem_of_fmap). exists x. split; [|done].
      apply T4; [by apply elem_of_elements|set_solver].
    - intros (x & (r & Hr%T2 & Hrx) & Hp). exists (calls_in md x). split; [done|].
      apply list_elem_of_fmap. exists x. split; [done|]. apply elem_of_elements.
      clear -Hr Hrx T3. induction Hrx as [|x y z Hxy _ IH]; [done|]. apply IH, (T3 x y); set_solver. }
  pose proof (g_ptr_array_sort_sorted (ex_pairs st)) as Hsorted.
  pose proof (g_ptr_array_sort_perm (ex_pairs st)) as Hperm.
  set (l := g_ptr_array_sort (ex_pairs st)) in *.
  assert (∀ p, p ∈ l → ∃ i j, (i < length rs)%nat ∧ (j < length rs)%nat ∧ p = pair_offsets rs (i, j))
    as Hl by (intros p Hp; rewrite Hperm in Hp; apply Hpairs in Hp as (x & _ & Hp); by apply (Hcalls x)).
  destruct (unique_sorted l (2 ^ 64 - 1)) as (U1 & U2 & U3).
  { eapply StronglySorted_weaken; [|exact Hsorted]. intros x y Hxy. by apply order_by_a_le. }
  { apply Forall_forall. intros p (i & j & Hi & _ & ->)%Hl. cbn [pair_offsets fst].
    unfold log_offset. rewrite <- (take_drop i rs), log_bytes_app, length_app in Hlen.
    lia. }
  destruct (indices_of rs (unique_by_a (2 ^ 64 - 1) l)) as (idx & Hidx & Hrange).
  { intros p Hp. by apply Hl, U2. }
  exists idx. split_and!; [done| |done| | |].
  - rewrite Hidx in U1. exact (StronglySorted_unfmap _ _ _ U1).
  - intros p Hp. apply Hpairs. rewrite <- Hperm. apply U2. rewrite Hidx.
    apply list_elem_of_fmap. by exists p.
  - intros x p Hx Hp. destruct (U3 p) as (q & Hq & Heq).
    { rewrite Hperm. apply Hpairs. by exists x. }
    rewrite Hidx in Hq. apply list_elem_of_fmap in Hq as (q' & -> & Hq'). by exists q'.
  - intros g pool out log h. unfold extract_with. rewrite Hrun. cbn [mbind res_bind]. fold l.
    by rewrite transfer_loop_unique, Hidx.
Qed.

(** The whole extraction, with the log file abstracted to its records. *)
Lemma extract_objects_eq `{Channel C} `{PtrArraySort} `{HashOrder Z}
    (extract_fn : Z → Z → option (list Z)) (md : gmap Z ava_metadata_base) (g : counter)
    (pool : nw_handle_pool) (out : C) (log : command_channel_log) (rs : list lrec) (k : nat)
    (h : heap) (roots : list Z) :
  log_repr log rs k → Z.of_nat (length (content log)) < 2 ^ 64 - 1 →
  (∀ x p, p ∈ calls_in md x →
    ∃ i j, (i < length rs)%nat ∧ (j < length rs)%nat ∧ p = pair_offsets rs (i, j)) →
  ∃ st log' idx, collect md roots = Ok st ∧ content log' = content log ∧
    StronglySorted (λ p q, log_offset rs (fst p) < log_offset rs (fst q)) idx ∧
    Forall (λ p, (fst p < length rs)%nat ∧ (snd p < length rs)%nat) idx ∧
    (∀ p, p ∈ idx → ∃ x, reachable md (NULL :: roots) x ∧ pair_offsets rs p ∈ calls_in md x) ∧
    (∀ x p, reachable md (NULL :: roots) x → p ∈ calls_in md x →
      ∃ q, q ∈ idx ∧ log_offset rs (fst q) = fst p) ∧
    ava_extract_objects extract_fn md g pool out log h roots =
      ('(out, h) ← foldM send_record (pair_records rs idx) (out, h);
       '(g, pool, out, h) ← foldM (_ava_extract_explicit extract_fn md)
          (iter_keys (ex_dependencies st)) (g, pool, out, h);
       Ok (g, pool, out, log', h)).
Proof.
  intros (Hc & _ & _ & Hall & Hfd & _) Hlen Hcalls. rewrite Hc in Hlen.
  destruct (extract_with_eq transfer_both extract_fn md rs roots Hlen Hcalls) as (st & idx & Hrun & Hs & Hrange & Hsound & Hcompl & Heq).
  destruct (transfer_pairs_eq rs idx out log h Hc Hfd Hall Hrange) as (log' & Hc' & _ & _ & Hfold).
  exists st, log', idx. split_and!; try done. unfold ava_extract_objects. rewrite Heq, Hfold.
  by destruct (foldM send_record _ _) as [[out' h']|].
Qed.

(** ** Properties *)

(** The traversal of [ava_extract_objects] terminates (the recursion is never deeper than the
    number of objects with metadata, plus one) and collects exactly the objects reachable from
    the global object and the given roots through dependencies, cycles included; the collected
    pairs are those of all calls recorded for these objects, each object counted once. *)
Theorem collect_reachable (md : gmap Z ava_metadata_base) (roots : list Z) :
  ∃ st, collect md roots = Ok st ∧
    (∀ x, x ∈ dom (ex_dependencies st) ↔ reachable md (NULL :: roots) x) ∧
    ex_pairs st ≡ₚ mjoin (calls_in md <$> elements (dom (ex_dependencies st))).
Proof.
  destruct (collect_ok md roots) as (st & Hrun & [H1 H2 H3 H4 H5]). cbn in *.
  rewrite dom_empty_L in *. exists st. split; [done|]. split.
  - intros x. split; [intros Hx; apply H4; set_solver|].
    intros (r & Hr%H2 & Hrx). clear -Hr Hrx H3.
    induction Hrx as [|x y z Hxy _ IH]; [done|]. apply IH. apply (H3 x y); set_solver.
  - by rewrite difference_empty_L in H5.
Qed.

(** The objects whose explicit state is sent are those. *)
Lemma collected_reachable `{HashOrder Z} md roots st x :
  collect md roots = Ok st → x ∈ iter_keys (ex_dependencies st) → reachable md (NULL :: roots) x.
Proof.
  intros Hc Hx. destruct (collect_reachable md roots) as (st' & Hc' & Hr & _). rewrite Hc in Hc'. injection Hc' as <-.
  apply Hr, elem_of_dom. rewrite iter_keys_perm in Hx. apply list_elem_of_fmap in Hx as ([y v] & -> & Hy). 
  apply elem_of_map_to_list in Hy. by eexists.
Qed.

(** C16. Migration transfers the right commands.  Given a log and objects whose recorded calls are
    offsets of log records, [ava_extract_objects] behaves exactly like sending, for some list of
    (call, return) pairs: the pairs are in strictly increasing order of their call offset, every
    pair is recorded for a reachable object, and every call recorded for a reachable object is in
    the list once; of each pair the call record is sent before the return record, and records
    whose flags are 1 are skipped.  The log itself keeps its content.  The explicit state of all
    reachable objects is sent afterwards. *)
Theorem extract_transfers_calls `{Channel C} `{PtrArraySort} `{HashOrder Z}
    (extract_fn : Z → Z → option (list Z)) (md : gmap Z ava_metadata_base) (g : counter)
    (pool : nw_handle_pool) (out : C) (log : command_channel_log) (rs : list lrec) (k : nat)
    (h : heap) (roots : list Z) :
  log_repr log rs k → Z.of_nat (length (content log)) < 2 ^ 64 - 1 →
  (∀ x p, p ∈ calls_in md x →
    ∃ i j, (i < length rs)%nat ∧ (j < length rs)%nat ∧ p = pair_offsets rs (i, j)) →
  ∃ st log' idx, collect md roots = Ok st ∧ content log' = content log ∧
    StronglySorted (λ p q, log_offset rs (fst p) < log_offset rs (fst q)) idx ∧
    Forall (λ p, (fst p < length rs)%nat ∧ (snd p < length rs)%nat) idx ∧
    (∀ p, p ∈ idx → ∃ x, reachable md (NULL :: roots) x ∧ pair_offsets rs p ∈ calls_in md x) ∧
    (∀ x p, reachable md (NULL :: roots) x → p ∈ calls_in md x →
      ∃ q, q ∈ idx ∧ log_offset rs (fst q) = fst p) ∧
    ava_extract_objects extract_fn md g pool out log h roots =
      ('(out, h) ← foldM send_record (pair_records rs idx) (out, h);
       '(g, pool, out, h) ← foldM (_ava_extract_explicit extract_fn md)
          (iter_keys (ex_dependencies st)) (g, pool, out, h);
       Ok (g, pool, out, log', h)).
Proof. apply extract_objects_eq. Qed.

(** The global object has one recorded call, the record of [sample_log]. *)
Definition sample_metadata : gmap Z ava_metadata_base :=
  {[ NULL := set_recorded_calls (Some [(0, 0)]) metadata_zero ]}.

Lemma extract_transfers_calls_witness :
  let H1 := pair_sort in let H2 := key_order in
  ∃ st log' idx, collect sample_metadata [7] = Ok st ∧ content log' = content sample_log ∧
    StronglySorted (λ p q, log_offset [mk_lrec 0 sample_base [1; 2]] (fst p) <
                           log_offset [mk_lrec 0 sample_base [1; 2]] (fst q)) idx ∧
    Forall (λ p, (fst p < 1)%nat ∧ (snd p < 1)%nat) idx ∧
    (∀ p, p ∈ idx → ∃ x, reachable sample_metadata [NULL; 7] x ∧
       pair_offsets [mk_lrec 0 sample_base [1; 2]] p ∈ calls_in sample_metadata x) ∧
    (∀ x p, reachable sample_metadata [NULL; 7] x → p ∈ calls_in sample_metadata x →
      ∃ q, q ∈ idx ∧ log_offset [mk_lrec 0 sample_base [1; 2]] (fst q) = fst p) ∧
    ava_extract_objects (λ _ _, None) sample_metadata (counter_init 1) nw_handle_pool_new
      (command_channel_log_new true true) sample_log heap_empty [7] =
      ('(out, h) ← foldM send_record (pair_records [mk_lrec 0 sample_base [1; 2]] idx)
                     (command_channel_log_new true true, heap_empty);
       '(g, pool, out, h) ← foldM (_ava_extract_explicit (λ _ _, None) sample_metadata)
          (iter_keys (ex_dependencies st)) (counter_init 1, nw_handle_pool_new, out, h);
       Ok (g, pool, out, log', h)).
Proof.
  intros H1 H2. apply (extract_transfers_calls (λ _ _, None) sample_metadata (counter_init 1)
    nw_handle_pool_new (command_channel_log_new true true) sample_log
    [mk_lrec 0 sample_base [1; 2]] 0 heap_empty [7]).
  - apply sample_log_repr.
  - vm_compute. reflexivity.
  - intros x p Hp. unfold calls_in in Hp.
    destruct (sample_metadata !! x) as [m|] eqn:Hm; [|by apply elem_of_nil in Hp].
    unfold sample_metadata in Hm. apply lookup_singleton_Some in Hm as [<- <-].
    apply list_elem_of_singleton in Hp as ->. exists 0%nat, 0%nat. cbn. split_and!; [lia|lia|done].
Defined.

(** The replay command of an object in the log: identifier, data identifier and length follow the
    header, then the data. *)
Definition replay_base (start len : Z) : command_base :=
  set_command_id COMMAND_HANDLER_REPLACE_EXPLICIT_STATE
    (set_api_id COMMAND_HANDLER_API
       (mk_base 0 0 0 0 0 0 0 sizeof_replay_command sizeof_replay_command len
          [start; start + sizeof_replay_command; 0; 0; 0; 0; 0; 0])).

(** The three fields after the header. *)
Definition replay_fields (id len : Z) : list Z :=
  le_bytes 8 id ++ le_bytes 8 sizeof_replay_command ++ le_bytes 8 len.

(** Receiving a replay command: its fields, and the call of the [replace] function. *)
Lemma replace_received md' pool2 (chan c3 : command_channel_log) addr a3 start id obj' m' data :
  in_range 64 id → Z.of_nat (length data) < 2 ^ 61 →
  nw_handle_pool_deref (Some pool2) id = Ok obj' → md' !! obj' = Some m' → replace m' ≠ NULL →
  let len := Z.of_nat (length data) in
  let r := mk_lrec 0 (replay_base start len) (replay_fields id len ++ data) in
  command_channel_get_buffer c3 (lrec_cmd a3 r) sizeof_replay_command = Some data →
  ava_handle_replace_explicit_state md' pool2 chan (lrec_cmd addr r) = Ok (replace m', obj', data).
Proof.
  intros Hid Hdata Hderef Hm' Hrep len r Hget.
  unfold ava_handle_replace_explicit_state, r. cbn [lrec_cmd cmd_base cmd_rest].
  change (command_id (lr_base _) =? _) with true. cbn [c_assert mbind res_bind lr_rest].
  assert (length (replay_fields id len) = 24%nat) as Hl24
    by (unfold replay_fields; by rewrite !length_app, !length_le_bytes).
  rewrite read_bytes_prefix by by rewrite Hl24. cbn [mbind res_bind].
  assert (le_num (slice 0 8 (replay_fields id len)) = id) as ->.
  { unfold replay_fields. rewrite slice_prefix by by rewrite length_le_bytes. by apply le_num_u64. }
  rewrite Hderef. cbn [mbind res_bind]. rewrite Hm'.
  rewrite (proj2 (Z.eqb_neq _ _)) by done. cbn [negb c_assert mbind res_bind].
  assert (le_num (slice 8 8 (replay_fields id len)) = sizeof_replay_command) as ->.
  { unfold replay_fields. rewrite slice_skip by (rewrite length_le_bytes; lia). rewrite length_le_bytes.
    rewrite slice_prefix by by rewrite length_le_bytes. done. }
  assert (le_num (slice 16 8 (replay_fields id len)) = len) as ->.
  { unfold replay_fields. do 2 (rewrite slice_skip by (rewrite length_le_bytes; lia);
      rewrite length_le_bytes). rewrite slice_all by by rewrite length_le_bytes.
    apply le_num_u64. unfold in_range, len. lia. }
  unfold command_channel_get_buffer, vtable, log_channel in *.
  cbn [vt_get_buffer command_channel_log_vtable] in *.
  match goal with |- context [command_channel_load_get_buffer ?c ?x ?i] =>
    change (command_channel_load_get_buffer c x i) with
      (command_channel_load_get_buffer c3 (lrec_cmd a3 r) i) end.
  rewrite Hget. by rewrite read_bytes_all.
Qed.

(** Explicit state survives the trip.  The state that [extract] returns for an object is written
    to the output log as one REPLACE_EXPLICIT_STATE command, and on the receiving side, where the
    object's identifier is bound to a new object with a [replace] function, handling that command
    calls this function on the new object with exactly the extracted bytes. *)
Theorem explicit_state_roundtrip (extract_fn : Z → Z → option (list Z))
    (md md' : gmap Z ava_metadata_base) (g g' : counter) (pool pool' pool2 : nw_handle_pool)
    (out : command_channel_log) (rs : list lrec) (k : nat) (h : heap) (obj obj' id : Z)
    (m m' : ava_metadata_base) (data : list Z) :
  log_repr out rs k → (∀ a, a ∈ live h → a < next_addr h) →
  Z.of_nat (length (content out)) < 2 ^ 61 → Z.of_nat (length data) < 2 ^ 61 →
  md !! obj = Some m → extract m ≠ NULL → extract_fn (extract m) obj = Some data →
  nw_handle_pool_lookup_or_insert g (Some pool) obj = Ok (id, g', Some pool') →
  in_range 64 id →
  nw_handle_pool_deref (Some pool2) id = Ok obj' → md' !! obj' = Some m' → replace m' ≠ NULL →
  ∃ out' h' r,
    _ava_extract_explicit extract_fn md obj (g, pool, out, h) = Ok (g', pool', out', h') ∧
    live h' = live h ∧ log_repr out' (rs ++ [r]) k ∧
    ∀ addr chan, ava_handle_replace_explicit_state md' pool2 (chan : command_channel_log)
      (lrec_cmd addr r) = Ok (replace m', obj', data).
Proof.
  intros Hr Hfresh Hlen Hdata Hm Hex Hfn Hpool Hid Hderef Hm' Hrep.
  assert (Z.of_nat sizeof_command_base ≤ sizeof_replay_command) as Hcss by (cbv; discriminate).
  pose proof Hr as (_ & _ & _ & _ & Hfd & Hd).
  set (len := Z.of_nat (length data)) in *.
  set (start := Z.of_nat (length (content out)) + 16).
  set (rest := replay_fields id len).
  assert (base_wf (replay_base start len)) as Hwf.
  { unfold base_wf, replay_base, in_srange. cbn.
    rewrite !Forall_cons. unfold in_range, COMMAND_HANDLER_API, sizeof_replay_command,
      COMMAND_HANDLER_REPLACE_EXPLICIT_STATE, start, len. split_and!; try lia. constructor. }
  destruct (log_build_send out h rs k sizeof_replay_command data rest (replay_base start len))
    as (cmd & c1 & h1 & Hnew & Hsend); try done.
  { unfold sizeof_replay_command. fold len. lia. }
  fold len in Hnew, Hsend. pose proof Hnew as Hnew'.
  unfold command_channel_new_command, vtable, log_channel in Hnew'.
  cbn [vt_new_command command_channel_log_vtable] in Hnew'.
  rewrite new_command_eq in Hnew' by (done || unfold sizeof_replay_command, len in *; lia).
  cbv zeta in Hnew'. change (Z.of_nat (length (content out)) + sizeof_metadata) with start in Hnew'.
  injection Hnew' as <- <- <-. cbn [cmd_base cmd_addr reserved_area] in Hsend.
  destruct (Hsend eq_refl) as (did & c2 & c3 & h3 & Hat & Hsd & Hr3 & Hlive & Hget). clear Hsend.
  set (c1 := mk_log _ _ _ _ _) in *.
  assert (∀ cmd, cmd_base cmd = replay_base start len →
    command_channel_attach_buffer c1 cmd (Some data) len = Ok (sizeof_replay_command, cmd, c2) ∧
    did = sizeof_replay_command) as Hattach.
  { intros cmd Hb. unfold command_channel_attach_buffer, vtable, log_channel in *.
    cbn [vt_attach_buffer command_channel_log_vtable] in *. unfold len in *.
    rewrite (attach_eq c1 _ start sizeof_replay_command data [0; 0; 0; 0; 0; 0]) in Hat
      by (done || unfold sizeof_replay_command, start; lia).
    injection Hat as <- <-. split; [|done].
    apply (attach_eq c1 cmd start sizeof_replay_command data [0; 0; 0; 0; 0; 0]);
      (done || (unfold sizeof_replay_command, start; lia) || by rewrite Hb). }
  destruct (Hattach (mk_cmd (next_addr h) (replay_base start len) (replicate 24 0)) eq_refl)
    as [Hat' ->].
  exists c3, h3, (mk_lrec 0 (replay_base start len) (rest ++ data)). split_and!; [|done|done|].
  - unfold _ava_extract_explicit. rewrite Hm, (proj2 (Z.eqb_neq _ _)) by done.
    rewrite Hpool. cbn [mbind res_bind]. rewrite Hfn. fold len.
    change (command_channel_buffer_size out len) with len. rewrite Hnew. cbn [mbind res_bind].
    change (set_ids _ _) with (mk_cmd (next_addr h) (replay_base start len) (replicate 24 0)).
    rewrite Hat'. cbn [mbind res_bind]. unfold set_fields. cbn [cmd_addr cmd_base cmd_rest]. fold (replay_fields id len). fold rest.
    rewrite (drop_ge (replicate 24 0)) by (unfold rest, replay_fields; rewrite length_replicate, !length_app, !length_le_bytes; lia).
    by rewrite app_nil_r, Hsd.
  - intros addr chan. by eapply replace_received.
Qed.

(** An object 300 whose extract function (number 5) returns three bytes, and the object 400 with
    replace function 6 it becomes on the other side. *)
Definition sample_source : gmap Z ava_metadata_base :=
  {[ 300 := set_extract_replace 5 NULL metadata_zero ]}.
Definition sample_target : gmap Z ava_metadata_base :=
  {[ 400 := set_extract_replace NULL 6 metadata_zero ]}.
Definition sample_id : Z := 18446742974197924866.

Lemma explicit_state_roundtrip_witness :
  ∃ out' h' r,
    _ava_extract_explicit (λ _ _, Some [7; 8; 9]) sample_source 300
      (counter_init 2, nw_handle_pool_new, command_channel_log_new true true, heap_empty) =
      Ok (mk_counter 65 2, mk_pool {[sample_id := 300]} {[300 := sample_id]}, out', h') ∧
    live h' = live heap_empty ∧ log_repr out' ([] ++ [r]) 0 ∧
    ∀ addr chan, ava_handle_replace_explicit_state sample_target
      (mk_pool {[sample_id := 400]} {[400 := sample_id]}) (chan : command_channel_log)
      (lrec_cmd addr r) = Ok (6, 400, [7; 8; 9]).
Proof.
  apply (explicit_state_roundtrip (λ _ _, Some [7; 8; 9]) sample_source sample_target
    (counter_init 2) (mk_counter 65 2) nw_handle_pool_new
    (mk_pool {[sample_id := 300]} {[300 := sample_id]})
    (mk_pool {[sample_id := 400]} {[400 := sample_id]})
    (command_channel_log_new true true) [] 0 heap_empty 300 400 sample_id
    (set_extract_replace 5 NULL metadata_zero) (set_extract_replace NULL 6 metadata_zero)
    [7; 8; 9]).
  - apply log_repr_new.
  - intros a Ha. cbn in Ha. set_solver.
  - reflexivity.
  - reflexivity.
  - reflexivity.
  - discriminate.
  - reflexivity.
  - vm_compute. reflexivity.
  - unfold in_range, sample_id. lia.
  - vm_compute. reflexivity.
  - reflexivity.
  - discriminate.
Defined.
