(* ===== verification/ThreadPool.v ===== *)
(** * Shadow threads (common/shadow_thread_pool.c, include/shadow_thread_pool.h)

    Every thread of one endpoint that makes calls has a shadow on the other: commands are
    dispatched to a queue by their [thread_id] and the shadow handles them in order.  The pool
    operations are functions on the state; the interleaving of the dispatcher with the threads of
    the pool is the step relation [pool_step].  Handling a command (cmd_handler.c) is the event
    [t_handled] here. *)

From S2P Require Import Prelude HandlePool Channel Socket LogChannel ShmChannel SocketChannel.
Local Open Scope Z_scope.

(** ** State *)

(** A thread object.  [t_exiting] holds between the end of [shadow_thread_loop] and the call of
    the destructor of the thread-specific key.  [t_pushed] and [t_handled] record what was put in
    the queue and what was handled; no operation reads them. *)
Record shadow_thread_t := mk_thread {
  t_ava_id : Z;
  t_queue : list command;
  t_thread : Z;
  t_exiting : bool;
  t_pushed : list command;
  t_handled : list command
}.

(** [threads] maps identifiers to objects, [key] is the thread-specific value of each pthread. *)
Record shadow_thread_pool_t := mk_tp {
  tp_threads : gmap Z Z;
  tp_key : gmap Z Z;
  tp_objs : gmap Z shadow_thread_t;
  tp_next : Z
}.

Definition shadow_thread_pool_new : shadow_thread_pool_t := mk_tp ∅ ∅ ∅ 1.

Definition set_obj (o : Z) (t : shadow_thread_t) (p : shadow_thread_pool_t)
    : shadow_thread_pool_t := mk_tp (tp_threads p) (tp_key p) (<[o := t]> (tp_objs p)) (tp_next p).

Definition get_thread (o : Z) (p : shadow_thread_pool_t) : res shadow_thread_t :=
  match tp_objs p !! o with
  | Some t => Ok t
  | None => Stop (Undefined "use of a freed thread object")
  end.

(** ** Operations *)

(** [tid] is the pthread that [pthread_create] starts, [None] when it fails.  The new thread begins
    by storing the object under the key ([shadow_thread_loop]). *)
Definition shadow_thread_new (p : shadow_thread_pool_t) (tid : option Z) (ava_id : Z)
    : res (Z * shadow_thread_pool_t) :=
  _ ← c_assert (ght_lookup (tp_threads p) ava_id =? NULL)
        "g_hash_table_lookup(pool->threads, (gpointer) ava_id) == NULL";
  match tid with
  | None => Stop (AssertFailed "r == 0")
  | Some tid =>
      _ ← c_assert (negb (tid =? ava_id)) "t->thread != ava_id";
      let o := tp_next p in
      let '(b, threads) := ght_insert (tp_threads p) ava_id o in
      _ ← c_assert b "r";
      Ok (o, mk_tp threads (<[tid := o]> (tp_key p))
               (<[o := mk_thread ava_id [] tid false [] []]> (tp_objs p)) (o + 1))
  end.

(** [self] is [pthread_self ()]. *)
Definition shadow_thread_self (p : shadow_thread_pool_t) (self : Z)
    : res (Z * shadow_thread_pool_t) :=
  let o := ght_lookup (tp_key p) self in
  if o =? NULL then
    let ava_id := self in
    _ ← c_assert (ght_lookup (tp_threads p) ava_id =? NULL)
          "g_hash_table_lookup(pool->threads, (gpointer) ava_id) == NULL";
    let o := tp_next p in
    let '(b, threads) := ght_insert (tp_threads p) ava_id o in
    _ ← c_assert b "r";
    Ok (o, mk_tp threads (<[self := o]> (tp_key p))
             (<[o := mk_thread ava_id [] self false [] []]> (tp_objs p)) (o + 1))
  else Ok (o, p).

Definition shadow_thread_id (p : shadow_thread_pool_t) (self : Z)
    : res (Z * shadow_thread_pool_t) :=
  '(o, p) ← shadow_thread_self p self;
  t ← get_thread o p;
  Ok (t_ava_id t, p).

Definition is_thread_exit (cmd : command) : bool :=
  (api_id (cmd_base cmd) =? COMMAND_HANDLER_API) &&
  (command_id (cmd_base cmd) =? COMMAND_HANDLER_THREAD_EXIT).

(** [g_async_queue_push (t->queue, scmd)]. *)
Definition push (cmd : command) (t : shadow_thread_t) : shadow_thread_t :=
  mk_thread (t_ava_id t) (t_queue t ++ [cmd]) (t_thread t) (t_exiting t)
    (t_pushed t ++ [cmd]) (t_handled t).

Definition shadow_thread_pool_dispatch (p : shadow_thread_pool_t) (tid : option Z)
    (cmd : command) : res shadow_thread_pool_t :=
  let o := ght_lookup (tp_threads p) (thread_id (cmd_base cmd)) in
  if o =? NULL then
    if is_thread_exit cmd then Ok p
    else
      '(o, p) ← shadow_thread_new p tid (thread_id (cmd_base cmd));
      t ← get_thread o p;
      Ok (set_obj o (push cmd t) p)
  else
    t ← get_thread o p;
    Ok (set_obj o (push cmd t) p).

(** Returns the exit flag, the command that was handled, if any, and the state. *)
Definition shadow_thread_handle_single_command `{Channel C} (p : shadow_thread_pool_t) (chan : C)
    (h : heap) (self : Z) : res (Z * option command * shadow_thread_pool_t * heap) :=
  '(o, p) ← shadow_thread_self p self;
  t ← get_thread o p;
  match t_queue t with
  | [] => Stop (Blocked "g_async_queue_pop")
  | cmd :: queue =>
      if is_thread_exit cmd then
        h ← command_channel_free_command chan h cmd;
        Ok (1, None, set_obj o (mk_thread (t_ava_id t) queue (t_thread t) (t_exiting t)
                                  (t_pushed t) (t_handled t)) p, h)
      else
        _ ← c_assert (thread_id (cmd_base cmd) =? t_ava_id t) "cmd->thread_id == t->ava_id";
        Ok (0, Some cmd, set_obj o (mk_thread (t_ava_id t) queue (t_thread t) (t_exiting t)
                                      (t_pushed t) (t_handled t ++ [cmd])) p, h)
  end.

(** One iteration of [shadow_thread_loop] on the pthread [self]; when the flag is set the thread
    function returns. *)
Definition shadow_thread_loop_step `{Channel C} (p : shadow_thread_pool_t) (chan : C) (h : heap)
    (self : Z) : res (shadow_thread_pool_t * heap) :=
  '(flag, _, p, h) ← shadow_thread_handle_single_command p chan h self;
  if flag =? 0 then Ok (p, h)
  else
    '(o, p) ← shadow_thread_self p self;
    t ← get_thread o p;
    Ok (set_obj o (mk_thread (t_ava_id t) (t_queue t) (t_thread t) true (t_pushed t)
                     (t_handled t)) p, h).

(** The destructor of the key, run when the pthread ends. *)
Definition shadow_thread_free_from_thread `{Channel C} (p : shadow_thread_pool_t) (chan : C)
    (h : heap) (o : Z) : res (shadow_thread_pool_t * C * heap) :=
  t ← get_thread o p;
  '(chan, h) ←
    (if t_ava_id t =? t_thread t then
       '(cmd, chan, h) ← command_channel_new_command chan h (Z.of_nat sizeof_command_base) 0;
       let cmd := upd_base (λ b, set_thread_id (t_ava_id t)
                     (set_command_id COMMAND_HANDLER_THREAD_EXIT
                        (set_api_id COMMAND_HANDLER_API b))) cmd in
       command_channel_send_command chan h cmd
     else Ok (chan, h));
  Ok (mk_tp (delete (t_ava_id t) (tp_threads p)) (delete (t_thread t) (tp_key p))
        (delete o (tp_objs p)) (tp_next p), chan, h).

(** The table is destroyed; the threads and their queues are not touched. *)
Definition shadow_thread_pool_free (p : shadow_thread_pool_t) : shadow_thread_pool_t :=
  mk_tp ∅ (tp_key p) (tp_objs p) (tp_next p).

(** The macro [shadow_thread_handle_command_until]: commands of this thread are handled until the
    predicate holds; [fuel] bounds the number of commands. *)
Fixpoint shadow_thread_handle_command_until `{Channel C} (fuel : nat)
    (pred : shadow_thread_pool_t → bool) (p : shadow_thread_pool_t) (chan : C) (h : heap)
    (self : Z) : res (shadow_thread_pool_t * heap) :=
  match fuel with
  | O => if pred p then Ok (p, h) else Stop (Blocked "shadow_thread_handle_command_until")
  | S fuel =>
      if pred p then Ok (p, h)
      else
        '(r, _, p, h) ← shadow_thread_handle_single_command p chan h self;
        _ ← c_assert (r =? 0) "Thread exit requested while waiting for predicate";
        shadow_thread_handle_command_until fuel pred p chan h self
  end.

(** ** Interleavings *)

Section steps.
  Context `{Channel C} (chan : C).

(** What can happen next: the dispatcher receives a command, a thread of the pool runs one iteration
    of its loop, or a thread that left its loop is destroyed.  A new pthread has an identifier no
    live pthread has. *)
Inductive pool_step : shadow_thread_pool_t * heap → shadow_thread_pool_t * heap → Prop :=
  | step_dispatch p h tid cmd p' :
      tp_key p !! tid = None →
      shadow_thread_pool_dispatch p (Some tid) cmd = Ok p' →
      pool_step (p, h) (p', h)
  | step_loop p h self o t p' h' :
      tp_key p !! self = Some o → tp_objs p !! o = Some t → t_exiting t = false →
      t_ava_id t ≠ t_thread t →
      shadow_thread_loop_step p chan h self = Ok (p', h') →
      pool_step (p, h) (p', h')
  | step_exit p h o t p' chan' h' :
      tp_objs p !! o = Some t → t_exiting t = true →
      shadow_thread_free_from_thread p chan h o = Ok (p', chan', h') →
      pool_step (p, h) (p', h').

End steps.

(** ** Invariant *)

(** Every object was pushed only commands for its identifier, and has handled, in order, all of
    them except those still in the queue and the exit command that ended it. *)
Definition thread_ok (t : shadow_thread_t) : Prop :=
  Forall (λ cmd, thread_id (cmd_base cmd) = t_ava_id t) (t_pushed t) ∧
  Forall (λ cmd, is_thread_exit cmd = false) (t_handled t) ∧
  ∃ exits, t_pushed t = t_handled t ++ exits ++ t_queue t ∧
    match exits with
    | [] => t_exiting t = false
    | [e] => t_exiting t = true ∧ is_thread_exit e = true
    | _ => False
    end.

Record pool_ok (p : shadow_thread_pool_t) : Prop := {
  po_next : 0 < tp_next p;
  po_objs : ∀ o t, tp_objs p !! o = Some t → thread_ok t ∧ 0 < o < tp_next p ∧
    tp_threads p !! t_ava_id t = Some o ∧ tp_key p !! t_thread t = Some o;
  po_threads : ∀ id o, tp_threads p !! id = Some o →
    ∃ t, tp_objs p !! o = Some t ∧ t_ava_id t = id;
  po_key : ∀ tid o, tp_key p !! tid = Some o → ∃ t, tp_objs p !! o = Some t ∧ t_thread t = tid
}.

(** ** Lemmas *)

Lemma pool_new_ok : pool_ok shadow_thread_pool_new.
Proof. split; cbn; [lia|..]; intros ? ?; by rewrite lookup_empty. Qed.

(** Replacing an object by one with the same identity. *)
Lemma set_obj_ok p o t t' :
  pool_ok p → tp_objs p !! o = Some t → thread_ok t' → t_ava_id t' = t_ava_id t →
  t_thread t' = t_thread t → pool_ok (set_obj o t' p).
Proof.
  intros [H1 H2 H3 H4] Ho Ht Hid Hth. split; cbn.
  - done.
  - intros o' u [[<- <-]|[Hne Hu]]%lookup_insert_Some; [|by apply H2].
    rewrite Hid, Hth. destruct (H2 _ _ Ho) as (_ & Hr). by split.
  - intros id o' Hl. destruct (H3 _ _ Hl) as (u & Hu & Hiu). destruct (decide (o = o')) as [<-|Hne].
    + exists t'. rewrite lookup_insert_eq. split; [done|]. congruence.
    + exists u. by rewrite lookup_insert_ne.
  - intros id o' Hl. destruct (H4 _ _ Hl) as (u & Hu & Hiu). destruct (decide (o = o')) as [<-|Hne].
    + exists t'. rewrite lookup_insert_eq. split; [done|]. congruence.
    + exists u. by rewrite lookup_insert_ne.
Qed.

Lemma push_ok cmd t :
  thread_ok t → thread_id (cmd_base cmd) = t_ava_id t → thread_ok (push cmd t).
Proof.
  intros (Hp & Hh & exits & Heq & He) Hid. split; [|split; [done|]]; cbn.
  - apply Forall_app. by repeat constructor.
  - exists exits. rewrite Heq, <- !app_assoc. by split.
Qed.

(** Adding a thread object. *)
Lemma add_thread_ok p ava tid :
  pool_ok p → tp_threads p !! ava = None → tp_key p !! tid = None →
  pool_ok (mk_tp (<[ava := tp_next p]> (tp_threads p)) (<[tid := tp_next p]> (tp_key p))
             (<[tp_next p := mk_thread ava [] tid false [] []]> (tp_objs p)) (tp_next p + 1)).
Proof.
  intros [H1 H2 H3 H4] Ha Hk. split; cbn.
  - lia.
  - intros o t [[<- <-]|[Hne Ht]]%lookup_insert_Some.
    + cbn. rewrite !lookup_insert_eq. split_and!; try done; [|lia..].
      split_and!; [done..|]. by exists [].
    + destruct (H2 _ _ Ht) as (Hok & Hr & Hta & Htk). split; [done|]. split; [lia|].
      rewrite !lookup_insert_ne by congruence. done.
  - intros id o [[<- <-]|[Hne Hl]]%lookup_insert_Some.
    + rewrite lookup_insert_eq. by eexists.
    + destruct (H3 _ _ Hl) as (t & Ht & Hid). exists t. destruct (H2 _ _ Ht) as (_ & Hr & _).
      by rewrite lookup_insert_ne by lia.
  - intros id o [[<- <-]|[Hne Hl]]%lookup_insert_Some.
    + rewrite lookup_insert_eq. by eexists.
    + destruct (H4 _ _ Hl) as (t & Ht & Hid). exists t. destruct (H2 _ _ Ht) as (_ & Hr & _).
      by rewrite lookup_insert_ne by lia.
Qed.

Lemma ght_lookup_NULL (m : gmap Z Z) k :
  (∀ v, m !! k = Some v → v ≠ NULL) → ght_lookup m k = NULL → m !! k = None.
Proof. unfold ght_lookup. destruct (m !! k) as [v|]; [|done]. cbn. intros H Hv. by destruct (H v). Qed.

Lemma threads_not_null p id o : pool_ok p → tp_threads p !! id = Some o → o ≠ NULL.
Proof.
  intros Hok Hl. destruct (po_threads _ Hok _ _ Hl) as (t & Ht & _).
  destruct (po_objs _ Hok _ _ Ht) as (_ & Hr & _). unfold NULL. lia.
Qed.

Lemma key_not_null p tid o : pool_ok p → tp_key p !! tid = Some o → o ≠ NULL.
Proof.
  intros Hok Hl. destruct (po_key _ Hok _ _ Hl) as (t & Ht & _).
  destruct (po_objs _ Hok _ _ Ht) as (_ & Hr & _). unfold NULL. lia.
Qed.

Lemma dispatch_ok p tid cmd p' :
  pool_ok p → tp_key p !! tid = None →
  shadow_thread_pool_dispatch p (Some tid) cmd = Ok p' → pool_ok p'.
Proof.
  intros Hok Hk Hrun. unfold shadow_thread_pool_dispatch in Hrun.
  set (id := thread_id (cmd_base cmd)) in *.
  destruct (Z.eqb_spec (ght_lookup (tp_threads p) id) NULL) as [Hn|Hn].
  - destruct (is_thread_exit cmd); [by injection Hrun as <-|].
    apply ght_lookup_NULL in Hn; [|intros v Hv; by eapply threads_not_null].
    unfold shadow_thread_new, ght_insert in Hrun. rewrite Hn in Hrun.
    destruct (ght_lookup (tp_threads p) id =? NULL); [|done]. cbn [c_assert mbind res_bind] in Hrun.
    destruct (tid =? id); [done|]. cbn [negb c_assert mbind res_bind] in Hrun.
    unfold get_thread in Hrun. cbn [tp_objs] in Hrun. rewrite lookup_insert_eq in Hrun.
    cbn [mbind res_bind] in Hrun. injection Hrun as <-.
    pose proof (add_thread_ok p id tid Hok Hn Hk) as Hadd.
    eapply set_obj_ok; [exact Hadd|cbn; by rewrite lookup_insert_eq| |done|done].
    apply push_ok; [|done]. split_and!; [done..|]. by exists [].
  - unfold ght_lookup in *. destruct (tp_threads p !! id) as [o|] eqn:Hl; [|done].
    cbn [from_option] in *. destruct (po_threads _ Hok _ _ Hl) as (t & Ht & Hid).
    unfold get_thread in Hrun. change (Datatypes.id o) with o in Hrun. rewrite Ht in Hrun.
    cbn [mbind res_bind] in Hrun. injection Hrun as <-.
    destruct (po_objs _ Hok _ _ Ht) as (Htok & _).
    eapply set_obj_ok; [done|exact Ht| |done|done]. by apply push_ok.
Qed.

Section step_lemmas.
  Context `{Channel C} (chan : C).

Lemma self_eq p self o :
  pool_ok p → tp_key p !! self = Some o → shadow_thread_self p self = Ok (o, p).
Proof.
  intros Hok Hk. unfold shadow_thread_self, ght_lookup. rewrite Hk.
  change (default NULL (Some o)) with o.
  by rewrite (proj2 (Z.eqb_neq _ _)) by by eapply key_not_null.
Qed.

(** One iteration of a thread that is not waiting. *)
Lemma loop_step_eq p h self o t cmd queue :
  pool_ok p → tp_key p !! self = Some o → tp_objs p !! o = Some t → t_exiting t = false →
  t_queue t = cmd :: queue →
  shadow_thread_loop_step p chan h self =
    if is_thread_exit cmd then
      h ← command_channel_free_command chan h cmd;
      Ok (set_obj o (mk_thread (t_ava_id t) queue (t_thread t) true (t_pushed t) (t_handled t)) p, h)
    else Ok (set_obj o (mk_thread (t_ava_id t) queue (t_thread t) false (t_pushed t)
                          (t_handled t ++ [cmd])) p, h).
Proof.
  intros Hok Hk Ho Hex Hq. destruct (po_objs _ Hok _ _ Ho) as ((Hp & Hh & exits & Heq & He) & _).
  unfold shadow_thread_loop_step, shadow_thread_handle_single_command.
  rewrite (self_eq p self o Hok Hk). cbn [mbind res_bind].
  assert (get_thread o p = Ok t) as -> by (unfold get_thread; by rewrite Ho).
  cbn [mbind res_bind]. rewrite Hq.
  destruct (is_thread_exit cmd).
  - destruct (command_channel_free_command chan h cmd) as [h'|]; cbn [mbind res_bind]; [|done].
    change (1 =? 0) with false. cbn iota.
    unfold shadow_thread_self, ght_lookup. cbn [tp_key set_obj]. rewrite Hk.
    change (default NULL (Some o)) with o.
    rewrite (proj2 (Z.eqb_neq _ _)) by by eapply key_not_null.
    cbn [mbind res_bind]. unfold get_thread. cbn [tp_objs set_obj]. rewrite lookup_insert_eq.
    cbn [mbind res_bind t_ava_id t_queue t_thread t_pushed t_handled].
    unfold set_obj. cbn. by rewrite insert_insert_eq.
  - assert (thread_id (cmd_base cmd) = t_ava_id t) as ->.
    { rewrite Forall_forall in Hp. apply Hp. rewrite Heq, Hq. set_solver. }
    rewrite Z.eqb_refl. cbn [c_assert mbind res_bind]. change (0 =? 0) with true.
    cbn iota. by rewrite Hex.
Qed.

Lemma loop_step_ok p h self o t p' h' :
  pool_ok p → tp_key p !! self = Some o → tp_objs p !! o = Some t → t_exiting t = false →
  shadow_thread_loop_step p chan h self = Ok (p', h') → pool_ok p'.
Proof.
  intros Hok Hk Ho Hex Hrun.
  destruct (po_objs _ Hok _ _ Ho) as ((Hp & Hh & exits & Heq & He) & _).
  assert (exits = []) as -> by (destruct exits as [|? [|]]; [done|destruct He; congruence|done]).
  destruct (t_queue t) as [|cmd queue] eqn:Hq.
  { unfold shadow_thread_loop_step, shadow_thread_handle_single_command in Hrun.
    rewrite (self_eq p self o Hok Hk) in Hrun. cbn [mbind res_bind] in Hrun.
    assert (get_thread o p = Ok t) as Hget by (unfold get_thread; by rewrite Ho).
    rewrite Hget in Hrun. cbn [mbind res_bind] in Hrun.
    by rewrite Hq in Hrun. }
  rewrite (loop_step_eq p h self o t cmd queue) in Hrun by done.
  destruct (is_thread_exit cmd) eqn:Hexit.
  - destruct (command_channel_free_command chan h cmd); [|done]. cbn [mbind res_bind] in Hrun.
    injection Hrun as <- <-. eapply set_obj_ok; [done|exact Ho| |done|done].
    split_and!; [done..|]. exists [cmd]. by split.
  - injection Hrun as <- <-. eapply set_obj_ok; [done|exact Ho| |done|done].
    split; [done|]. split; [apply Forall_app; by repeat constructor|].
    exists []. cbn in *. rewrite <- app_assoc. by split.
Qed.

Lemma exit_ok p h o p' chan' h' :
  pool_ok p → shadow_thread_free_from_thread p chan h o = Ok (p', chan', h') → pool_ok p'.
Proof.
  intros Hok Hrun. unfold shadow_thread_free_from_thread, get_thread in Hrun.
  destruct (tp_objs p !! o) as [t|] eqn:Ho; [|done]. cbn [mbind res_bind] in Hrun.
  apply res_bind_Ok in Hrun as ([c1 h1] & _ & Hrun). injection Hrun as <- <- <-.
  destruct Hok as [H1 H2 H3 H4]. destruct (H2 _ _ Ho) as (_ & Hr & Hta & Htk). split; cbn.
  - done.
  - intros o' t' [Hne Ht']%lookup_delete_Some. destruct (H2 _ _ Ht') as (Hok' & Hr' & Ha' & Hk').
    split; [done|]. split; [done|]. rewrite !lookup_delete_ne by congruence. done.
  - intros id o' [Hne Hl]%lookup_delete_Some. destruct (H3 _ _ Hl) as (t' & Ht' & Hid).
    exists t'. rewrite lookup_delete_ne; [done|]. intros <-. congruence.
  - intros id o' [Hne Hl]%lookup_delete_Some. destruct (H4 _ _ Hl) as (t' & Ht' & Hid).
    exists t'. rewrite lookup_delete_ne; [done|]. intros <-. congruence.
Qed.

Lemma pool_step_ok s s' : pool_step chan s s' → pool_ok (fst s) → pool_ok (fst s').
Proof.
  intros Hstep. destruct Hstep as [p h tid cmd p' Hk Hrun|p h self o t p' h' Hk Ho Hex Hne Hrun|
    p h o t p' chan' h' Ho Hex Hrun]; cbn; intros Hok.
  - by eapply dispatch_ok.
  - by eapply loop_step_ok.
  - by eapply exit_ok.
Qed.

Lemma reachable_ok h p h' :
  rtc (pool_step chan) (shadow_thread_pool_new, h) (p, h') → pool_ok p.
Proof.
  intros Hr. assert (pool_ok (fst (shadow_thread_pool_new, h))) as H0 by apply pool_new_ok.
  change p with (fst (p, h')). induction Hr as [|s1 s2 s3 Hs _ IH]; [done|].
  apply IH. by eapply pool_step_ok.
Qed.

End step_lemmas.

(** ** Properties *)

(** C17. Commands of a thread are handled in order.  In every state the pool can reach, through any
    interleaving of dispatches, loop iterations and thread exits, a thread identifier leads to
    one thread object; this object was given only commands with its identifier, what it has
    handled is a prefix of what it was given (so in dispatch order, each command at most once,
    and never an exit command), and as long as it has not been told to exit everything else it
    was given is still in its queue. *)
Theorem thread_pool_fifo `{Channel C} (chan : C) (h h' : heap) (p : shadow_thread_pool_t)
    (id o : Z) :
  rtc (pool_step chan) (shadow_thread_pool_new, h) (p, h') →
  tp_threads p !! id = Some o →
  ∃ t, tp_objs p !! o = Some t ∧ t_ava_id t = id ∧
    Forall (λ cmd, thread_id (cmd_base cmd) = id) (t_pushed t) ∧
    t_handled t `prefix_of` t_pushed t ∧
    Forall (λ cmd, is_thread_exit cmd = false) (t_handled t) ∧
    (t_exiting t = false → t_pushed t = t_handled t ++ t_queue t).
Proof.
  intros Hr Hl. pose proof (reachable_ok chan h p h' Hr) as Hok.
  destruct (po_threads _ Hok _ _ Hl) as (t & Ht & Hid). exists t.
  destruct (po_objs _ Hok _ _ Ht) as ((Hp & Hh & exits & Heq & He) & _).
  split_and!; [done|done|by rewrite <- Hid| |done|].
  - rewrite Heq. by eexists.
  - intros Hex. destruct exits as [|? [|]]; [done|destruct He; congruence|done].
Qed.

(** C36. Progress of a shadow thread.  In every reachable state, a thread that has not been told to
    exit and has a command in its queue can run: the assertion that the command is for this
    thread never fails, the head of the queue is handled and removed, and an exit command (whose
    block is allocated) ends the loop and is freed.  The channel is any that frees a command by
    freeing its block, as the socket channel, both ends of the shared memory channel and the
    record log do ([socket_frees], [shm_frees], [shmw_frees], [log_frees]). *)
Theorem thread_pool_progress `{FreesCommands C} (chan : C) (h h' : heap)
    (p : shadow_thread_pool_t) (self o : Z) (t : shadow_thread_t) (cmd : command)
    (queue : list command) :
  rtc (pool_step chan) (shadow_thread_pool_new, h) (p, h') →
  tp_key p !! self = Some o → tp_objs p !! o = Some t → t_exiting t = false →
  t_queue t = cmd :: queue → cmd_addr cmd ∈ live h' →
  ∃ p2 h2 t2, shadow_thread_loop_step p chan h' self = Ok (p2, h2) ∧ tp_objs p2 !! o = Some t2 ∧
    t_queue t2 = queue ∧ t_exiting t2 = is_thread_exit cmd ∧
    t_handled t2 = t_handled t ++ (if is_thread_exit cmd then [] else [cmd]) ∧
    (is_thread_exit cmd = true → cmd_addr cmd ∉ live h2).
Proof.
  intros Hr Hk Ho Hex Hq Hlive. pose proof (reachable_ok chan h p h' Hr) as Hok.
  rewrite (loop_step_eq chan p h' self o t cmd queue) by done.
  destruct (is_thread_exit cmd).
  - rewrite frees_command. unfold c_free. rewrite decide_True by done. cbn [mbind res_bind]. eexists _, _, _. split; [reflexivity|].
    cbn. rewrite lookup_insert_eq. split_and!; try done; cbn; [by rewrite app_nil_r|set_solver].
  - eexists _, _, _. split; [reflexivity|]. cbn. rewrite lookup_insert_eq. by split_and!.
Qed.

(** A command that is dispatched after a shadow thread took its exit command, and before the
    thread left the pool, is accepted and then lost: it is put in the old queue, and the queue is
    dropped with the thread.  (Thread identifiers are pthread identifiers of the peer, which a new
    thread of the peer can reuse.) *)
Theorem exiting_thread_loses_commands `{Channel C} (chan : C) (h h' : heap)
    (p : shadow_thread_pool_t) (o tid : Z) (t : shadow_thread_t) (cmd : command) :
  rtc (pool_step chan) (shadow_thread_pool_new, h) (p, h') →
  tp_objs p !! o = Some t → t_exiting t = true → t_ava_id t ≠ t_thread t →
  tp_key p !! tid = None →
  thread_id (cmd_base cmd) = t_ava_id t →
  ∃ p1 t1 p2, shadow_thread_pool_dispatch p (Some tid) cmd = Ok p1 ∧
    tp_objs p1 !! o = Some t1 ∧ t_queue t1 = t_queue t ++ [cmd] ∧ t_handled t1 = t_handled t ∧
    shadow_thread_free_from_thread p1 chan h' o = Ok (p2, chan, h') ∧
    tp_objs p2 !! o = None ∧ tp_threads p2 !! t_ava_id t = None.
Proof.
  intros Hr Ho Hex Hne Hk Hid. pose proof (reachable_ok chan h p h' Hr) as Hok.
  destruct (po_objs _ Hok _ _ Ho) as (_ & Hpos & Hta & _).
  unfold shadow_thread_pool_dispatch, ght_lookup. rewrite Hid, Hta.
  change (default NULL (Some o)) with o. rewrite (proj2 (Z.eqb_neq _ _)) by (unfold NULL; lia).
  assert (get_thread o p = Ok t) as -> by (unfold get_thread; by rewrite Ho). cbn [mbind res_bind].
  eexists _, (push cmd t), _. split; [reflexivity|]. cbn. rewrite lookup_insert_eq.
  split_and!; [done..| | |].
  - unfold shadow_thread_free_from_thread, get_thread. cbn. rewrite lookup_insert_eq.
    cbn [mbind res_bind push t_ava_id t_thread]. rewrite (proj2 (Z.eqb_neq _ _)) by done. reflexivity.
  - cbn. by rewrite lookup_delete_eq.
  - cbn. by rewrite lookup_delete_eq.
Qed.

(** [shadow_thread_pool_free] is documented to signal all threads to exit.  It does not: no
    queue changes, so no thread of the pool is given an exit command. *)
Theorem pool_free_signals_nobody (p : shadow_thread_pool_t) (o : Z) (t : shadow_thread_t) :
  tp_objs p !! o = Some t →
  tp_objs (shadow_thread_pool_free p) !! o = Some t ∧
  (t_queue t = [] → ∀ (chan : command_channel_log) h,
   pool_ok p → tp_key p !! t_thread t = Some o →
   shadow_thread_loop_step (shadow_thread_pool_free p) chan h (t_thread t) =
     Stop (Blocked "g_async_queue_pop")).
Proof.
  intros Ho. split; [done|]. intros Hq chan h Hok Hk.
  unfold shadow_thread_loop_step, shadow_thread_handle_single_command, shadow_thread_self, ght_lookup.
  cbn [tp_key shadow_thread_pool_free]. rewrite Hk. change (default NULL (Some o)) with o.
  rewrite (proj2 (Z.eqb_neq _ _)) by by eapply key_not_null.
  cbn [mbind res_bind]. unfold get_thread. cbn [tp_objs shadow_thread_pool_free]. rewrite Ho.
  cbn [mbind res_bind]. by rewrite Hq.
Qed.

(** ** A concrete run: thread 50 of the peer sends a call and an exit command. *)

Definition call_cmd_50 : command := mk_cmd 1 (mk_base 7 1 3 50 0 0 42 136 0 0 (replicate 8 0)) [].
Definition exit_cmd_50 : command := mk_cmd 2 (mk_base 0 1 3 50 0 0 3 136 0 0 (replicate 8 0)) [].
Definition heap_12 : heap := mk_heap {[1; 2]} 3.

(** The pool after the call was dispatched and handled, and after the exit was taken. *)
Definition thread_50 (queue : list command) (exiting : bool) (pushed handled : list command)
    : shadow_thread_pool_t :=
  mk_tp {[50 := 1]} {[900 := 1]} {[1 := mk_thread 50 queue 900 exiting pushed handled]} 2.

Lemma run_dispatch :
  rtc (pool_step (command_channel_log_new true true)) (shadow_thread_pool_new, heap_12)
    (thread_50 [call_cmd_50] false [call_cmd_50] [], heap_12).
Proof. eapply rtc_l; [|reflexivity]. apply (step_dispatch _ _ _ 900 call_cmd_50); reflexivity. Qed.

Lemma run_exit :
  rtc (pool_step (command_channel_log_new true true)) (shadow_thread_pool_new, heap_12)
    (thread_50 [] true [call_cmd_50; exit_cmd_50] [call_cmd_50], mk_heap {[1]} 3).
Proof.
  etrans; [apply run_dispatch|].
  eapply rtc_l; [eapply (step_dispatch _ _ _ 901 exit_cmd_50); reflexivity|].
  eapply rtc_l; [eapply (step_loop _ _ _ 900 1); [reflexivity|reflexivity|reflexivity|discriminate|reflexivity]|].
  eapply rtc_l; [|reflexivity].
  eapply (step_loop _ _ _ 900 1); [reflexivity|reflexivity|reflexivity|discriminate|reflexivity].
Qed.

Lemma thread_pool_fifo_witness :
  ∃ t, tp_objs (thread_50 [call_cmd_50] false [call_cmd_50] []) !! 1 = Some t ∧ t_ava_id t = 50 ∧
    Forall (λ cmd, thread_id (cmd_base cmd) = 50) (t_pushed t) ∧
    t_handled t `prefix_of` t_pushed t ∧
    Forall (λ cmd, is_thread_exit cmd = false) (t_handled t) ∧
    (t_exiting t = false → t_pushed t = t_handled t ++ t_queue t).
Proof.
  apply (thread_pool_fifo (command_channel_log_new true true) heap_12 heap_12
    (thread_50 [call_cmd_50] false [call_cmd_50] []) 50 1).
  - apply run_dispatch.
  - reflexivity.
Defined.

(** The same run on a worker that is connected by a socket, up to the exit command. *)
Definition worker_socket : Channel command_channel_socket := @socket_channel (sample_kernel 50) zero_uninit.

Lemma run_socket :
  rtc (@pool_step _ worker_socket sample_socket) (shadow_thread_pool_new, heap_12)
    (thread_50 [exit_cmd_50] false [call_cmd_50; exit_cmd_50] [call_cmd_50], heap_12).
Proof.
  eapply rtc_l; [apply (step_dispatch _ _ _ 900 call_cmd_50); reflexivity|].
  eapply rtc_l; [eapply (step_dispatch _ _ _ 901 exit_cmd_50); reflexivity|].
  eapply rtc_l; [|reflexivity].
  eapply (step_loop _ _ _ 900 1); [reflexivity|reflexivity|reflexivity|discriminate|reflexivity].
Qed.

Lemma thread_pool_progress_witness :
  ∃ p2 h2 t2, @shadow_thread_loop_step _ worker_socket
      (thread_50 [exit_cmd_50] false [call_cmd_50; exit_cmd_50] [call_cmd_50]) sample_socket
      heap_12 900 = Ok (p2, h2) ∧ tp_objs p2 !! 1 = Some t2 ∧
    t_queue t2 = [] ∧ t_exiting t2 = is_thread_exit exit_cmd_50 ∧
    t_handled t2 = [call_cmd_50] ++ (if is_thread_exit exit_cmd_50 then [] else [exit_cmd_50]) ∧
    (is_thread_exit exit_cmd_50 = true → cmd_addr exit_cmd_50 ∉ live h2).
Proof.
  apply (@thread_pool_progress _ worker_socket socket_frees sample_socket heap_12 heap_12
    (thread_50 [exit_cmd_50] false [call_cmd_50; exit_cmd_50] [call_cmd_50]) 900 1
    (mk_thread 50 [exit_cmd_50] 900 false [call_cmd_50; exit_cmd_50] [call_cmd_50]) exit_cmd_50 []).
  - apply run_socket.
  - reflexivity.
  - reflexivity.
  - reflexivity.
  - reflexivity.
  - cbn. set_solver.
Defined.

Lemma exiting_thread_loses_commands_witness :
  ∃ p1 t1 p2, shadow_thread_pool_dispatch
      (thread_50 [] true [call_cmd_50; exit_cmd_50] [call_cmd_50]) (Some 902) call_cmd_50 = Ok p1 ∧
    tp_objs p1 !! 1 = Some t1 ∧ t_queue t1 = [] ++ [call_cmd_50] ∧ t_handled t1 = [call_cmd_50] ∧
    shadow_thread_free_from_thread p1 (command_channel_log_new true true) (mk_heap {[1]} 3) 1 =
      Ok (p2, command_channel_log_new true true, mk_heap {[1]} 3) ∧
    tp_objs p2 !! 1 = None ∧ tp_threads p2 !! 50 = None.
Proof.
  apply (exiting_thread_loses_commands (command_channel_log_new true true) heap_12
    (mk_heap {[1]} 3) (thread_50 [] true [call_cmd_50; exit_cmd_50] [call_cmd_50]) 1 902
    (mk_thread 50 [] 900 true [call_cmd_50; exit_cmd_50] [call_cmd_50]) call_cmd_50).
  - apply run_exit.
  - reflexivity.
  - reflexivity.
  - discriminate.
  - reflexivity.
  - reflexivity.
Defined.

Lemma pool_free_signals_nobody_witness :
  tp_objs (shadow_thread_pool_free (thread_50 [] false [] [])) !! 1 =
    Some (mk_thread 50 [] 900 false [] []) ∧
  ([] = @nil command → ∀ (chan : command_channel_log) h,
   pool_ok (thread_50 [] false [] []) → tp_key (thread_50 [] false [] []) !! 900 = Some 1 →
   shadow_thread_loop_step (shadow_thread_pool_free (thread_50 [] false [] [])) chan h 900 =
     Stop (Blocked "g_async_queue_pop")).
Proof.
  apply (pool_free_signals_nobody (thread_50 [] false [] []) 1 (mk_thread 50 [] 900 false [] [])).
  reflexivity.
Defined.
