(* ===== verification/Dispatch.v ===== *)
(** * The dispatch loop (common/cmd_handler.c, [_handle_commands_loop])

    The handler thread receives commands from the channel and hands them to the shadow threads.
    What it needs from a channel is the interface [Receiver]: the messages that wait in it are
    received one by one, in order.  The record log, the worker's end of the shared memory channel
    and the socket channel implement it.  [Sender] is the other side: what a channel puts on the
    wire waits at the peer, in order. *)

From S2P Require Import Prelude HandlePool Channel Socket LogChannel ShmChannel SocketChannel ThreadPool.
Local Open Scope Z_scope.

(** ** The loop *)

(** One iteration; [tid] is the identifier of the pthread that is created if the command is the
    first of its thread.  A NULL command is dereferenced. *)
Definition _handle_commands_iteration `{Channel C} (tid : Z)
    (st : shadow_thread_pool_t * C * heap) : res (shadow_thread_pool_t * C * heap) :=
  let '(p, chan, h) := st in
  '(cmd, chan, h) ← command_channel_receive_command chan h;
  match cmd with
  | None => Stop (Undefined "NULL command")
  | Some cmd => p ← shadow_thread_pool_dispatch p (Some tid) cmd; Ok (p, chan, h)
  end.

(** As many iterations as there are identifiers. *)
Definition _handle_commands_loop `{Channel C} (tids : list Z)
    (st : shadow_thread_pool_t * C * heap) : res (shadow_thread_pool_t * C * heap) :=
  foldM _handle_commands_iteration tids st.

(** ** What the loop needs from a channel *)

Class Receiver (C : Type) `{Channel C} := {
  waiting : C → list message → Prop;
  receive_next : ∀ c h m ms, waiting c (m :: ms) →
    ∃ c', command_channel_receive_command c h =
            Ok (Some (mk_cmd (next_addr h) (fst m) (snd m)), c', snd (malloc h)) ∧ waiting c' ms
}.

Global Instance log_receiver : Receiver command_channel_log.
Proof.
  refine {| waiting := log_queue |}.
  intros c h m ms (rs & i & Hr & Hq). pose proof Hr as (Hc & Hro & Hi & Hwf & Hfd & Hd).
  destruct (rs !! i) as [r|] eqn:Hri.
  2: { apply lookup_ge_None in Hri. by rewrite drop_ge in Hq. }
  rewrite (drop_S _ _ _ Hri) in Hq. cbn in Hq. injection Hq as -> ->.
  destruct (load_at c h rs i r (-1)) as (c' & Hload & Hc' & Hro' & Hfd' & Hd'); try done.
  { by eapply Forall_lookup_1. }
  exists c'. unfold command_channel_receive_command, vtable, log_channel.
  cbn [vt_receive_command command_channel_log_vtable]. unfold command_channel_load_next_command.
  rewrite Hload. split; [done|]. exists rs, (S i). split; [|done]. apply lookup_lt_Some in Hri.
  split_and!; [congruence|done|lia|done|done|congruence].
Defined.

(** The worker's end of the shared memory channel. *)
Definition shmw_channel : Channel command_channel_shm := shmw_vtable.

Definition message_bytes (m : message) : list Z := base_bytes (fst m) ++ snd m.
Definition message_wf (m : message) : Prop :=
  base_wf (fst m) ∧ command_size (fst m) = Z.of_nat (length (message_bytes m)).

Definition shm_waiting (c : command_channel_shm) (ms : list message) : Prop :=
  sock_poll c = PollIn ∧ sock_in c = mjoin (message_bytes <$> ms) ∧ Forall message_wf ms.

Definition shmw_receiver : @Receiver command_channel_shm shmw_channel.
Proof.
  refine (@Build_Receiver _ shmw_channel shm_waiting _).
  intros c h m ms (Hp & Hin & (Hm & Hms)%Forall_cons). destruct m as [b rest].
  unfold command_channel_receive_command, vtable, shmw_channel.
  cbn [vt_receive_command shmw_vtable]. unfold shmw_receive_command. rewrite Hp.
  destruct Hm as [Hwf Hsz]. exists (set_in (mjoin (message_bytes <$> ms)) c). split; [|done].
  by apply (recv_message_eq c h (next_addr h) (mk_cmd (next_addr h) b rest)).
Defined.

(** The socket channel; a message carries its data region. *)
Definition socket_message_wf (m : message) : Prop :=
  base_wf (fst m) ∧ command_size (fst m) + region_size (fst m) = Z.of_nat (length (message_bytes m)) ∧
  command_size (fst m) + region_size (fst m) < 2 ^ 64.

Definition socket_waiting `{SocketKernel} (c : command_channel_socket) (ms : list message) : Prop :=
  kernel_recvs ∧ cs_poll c = PollIn ∧ s_in (cs_sock c) = mjoin (message_bytes <$> ms) ∧
  Forall socket_message_wf ms.

Definition socket_receiver (K : SocketKernel) (U : Uninit) :
  @Receiver command_channel_socket socket_channel.
Proof.
  refine (@Build_Receiver _ socket_channel socket_waiting _).
  intros c h m ms (Hk & Hp & Hin & (Hm & Hms)%Forall_cons). destruct m as [b rest], Hm as (Hwf & Hsz & Hlt).
  destruct (socket_receive_eq c h b rest (mjoin (message_bytes <$> ms))) as (s' & Hr & Hi & _); try done.
  exists (set_sock s' c). split; [exact Hr|]. by split_and!.
Defined.

(** ** What a sender promises *)

Definition contents (cmd : command) : message := (cmd_base cmd, cmd_rest cmd).
Definition as_invocation (m : message) : message :=
  (set_command_type NW_NEW_INVOCATION (fst m), snd m).

(** [sent s ms]: exactly [ms] is on the wire; [wire s] is the other end of the connection. *)
Class Sender (G W : Type) `{Channel G} `{Receiver W} := {
  sendable : message → Prop;
  sent : G → list message → Prop;
  wire : G → W;
  send_next : ∀ s h c ms, sent s ms → sendable (contents c) → cmd_addr c ∈ live h →
    ∃ s', command_channel_send_command s h c =
            Ok (s', mk_heap (live h ∖ {[cmd_addr c]}) (next_addr h)) ∧
      sent s' (ms ++ [as_invocation (contents c)]);
  wire_waiting : ∀ s ms, sent s ms → waiting (wire s) ms
}.

Lemma mjoin_snoc {A B} (f : A → list B) l x : mjoin (f <$> l ++ [x]) = mjoin (f <$> l) ++ f x.
Proof. rewrite fmap_app, join_app. cbn. by rewrite app_nil_r. Qed.

Lemma length_invocation_bytes m :
  length (reserved_area (fst m)) = 8%nat →
  length (message_bytes (as_invocation m)) = length (message_bytes m).
Proof. intros H. unfold message_bytes. by rewrite !length_app, !length_base_bytes. Qed.

(** The guest's end of the shared memory channel, connected to a worker with the given block. *)
Definition shm_guest_channel : Channel command_channel_shm := shm_vtable.

Definition shm_sent (c : command_channel_shm) (ms : list message) : Prop :=
  sock_out c = mjoin (message_bytes <$> ms) ∧ Forall message_wf ms.

Definition shm_sender (block : param_block) (vm : Z) :
  @Sender command_channel_shm command_channel_shm shm_guest_channel shmw_channel shmw_receiver.
Proof.
  refine (@Build_Sender _ _ shm_guest_channel shmw_channel shmw_receiver message_wf shm_sent
            (λ g, worker_of g block vm) _ _).
  - intros s h c ms [Hout Hms] [Hwf Hsz] Hl.
    exists (queue_send (message_bytes (as_invocation (contents c))) s).
    unfold command_channel_send_command, vtable, shm_guest_channel. cbn [vt_send_command shm_vtable].
    split.
    + unfold shm_send_command. cbn [upd_base cmd_base cmd_rest cmd_addr]. rewrite read_bytes_all.
      * cbn [mbind res_bind]. unfold c_free. rewrite decide_True by done. done.
      * change (command_size (set_command_type _ ?b)) with (command_size b).
        cbn [contents fst] in Hsz. by rewrite Hsz.
    + split.
      * unfold queue_send. cbn [set_out sock_out]. by rewrite Hout, mjoin_snoc.
      * apply Forall_app. split; [done|]. apply Forall_singleton.
        split; [by apply set_command_type_wf|]. rewrite length_invocation_bytes by apply Hwf. done.
  - intros s ms [Hout Hms]. by split_and!.
Defined.

(** One end of a socket connection; the kernels of the two machines may differ. *)
Definition socket_sent `{SocketKernel} (c : command_channel_socket) (ms : list message) : Prop :=
  kernel_sends ∧ s_out (cs_sock c) = mjoin (message_bytes <$> ms) ∧ Forall socket_message_wf ms.

Definition socket_sender (K1 K2 : SocketKernel) (U : Uninit) (vm port : Z) :
  @kernel_recvs K2 →
  @Sender command_channel_socket command_channel_socket (@socket_channel K1 U) (@socket_channel K2 U)
    (socket_receiver K2 U).
Proof.
  intros Hkr.
  refine (@Build_Sender _ _ (@socket_channel K1 U) (@socket_channel K2 U) (socket_receiver K2 U)
            socket_message_wf (@socket_sent K1) (λ g, peer_of g vm port) _ _).
  - intros s h c ms (Hk & Hout & Hms) (Hwf & Hsz & Hlt) Hl.
    destruct (@socket_send_eq K1 s h c) as (s' & Hsend & _ & Ho); [done|apply Hwf|done..|].
    exists (set_sock s' s). split; [exact Hsend|]. split_and!; [done| |].
    + cbn [set_sock cs_sock]. by rewrite Ho, Hout, mjoin_snoc.
    + apply Forall_app. split; [done|]. apply Forall_singleton. split_and!; [by apply set_command_type_wf| |done].
      rewrite length_invocation_bytes by apply Hwf. done.
  - intros s ms (Hk & Hout & Hms). by split_and!.
Defined.

(** ** Specification *)

(** The contents of the queue of each thread's shadow ([t->queue]). *)
Definition queues (p : shadow_thread_pool_t) : gmap Z (list message) :=
  (λ o, from_option (λ t, contents <$> t_queue t) [] (tp_objs p !! o)) <$> tp_threads p.

Definition is_exit (m : message) : bool :=
  (api_id (fst m) =? COMMAND_HANDLER_API) && (command_id (fst m) =? COMMAND_HANDLER_THREAD_EXIT).

(** Every message goes to the queue of its thread; the exit of an unknown thread is ignored. *)
Definition deliver (q : gmap Z (list message)) (m : message) : gmap Z (list message) :=
  match q !! thread_id (fst m) with
  | Some l => <[thread_id (fst m) := l ++ [m]]> q
  | None => if is_exit m then q else <[thread_id (fst m) := [m]]> q
  end.

(** ** Lemmas *)

Lemma queues_lookup p id o t :
  tp_threads p !! id = Some o → tp_objs p !! o = Some t →
  queues p !! id = Some (contents <$> t_queue t).
Proof. intros Hl Ht. unfold queues. rewrite lookup_fmap, Hl. cbn. by rewrite Ht. Qed.

(** Giving a command to a thread of the pool. *)
Lemma queues_push p o t cmd :
  pool_ok p → tp_objs p !! o = Some t →
  queues (set_obj o (push cmd t) p) =
    <[t_ava_id t := (contents <$> t_queue t) ++ [contents cmd]]> (queues p).
Proof.
  intros Hok Ho. destruct (po_objs _ Hok _ _ Ho) as (_ & _ & Hta & _).
  apply map_eq. intros id. destruct (decide (id = t_ava_id t)) as [->|Hne].
  - rewrite lookup_insert_eq. erewrite queues_lookup; [|exact Hta|cbn; by rewrite lookup_insert_eq].
    cbn. by rewrite fmap_app.
  - rewrite lookup_insert_ne by done. unfold queues. cbn. rewrite !lookup_fmap.
    destruct (tp_threads p !! id) as [o'|] eqn:Hl; [|done]. cbn.
    destruct (po_threads _ Hok _ _ Hl) as (t' & Ht' & Hid).
    rewrite lookup_insert_ne; [done|]. intros <-. congruence.
Qed.

(** Adding a thread without commands. *)
Lemma queues_add p ava tid :
  pool_ok p → tp_threads p !! ava = None →
  queues (mk_tp (<[ava := tp_next p]> (tp_threads p)) (<[tid := tp_next p]> (tp_key p))
            (<[tp_next p := mk_thread ava [] tid false [] []]> (tp_objs p)) (tp_next p + 1)) =
    <[ava := []]> (queues p).
Proof.
  intros Hok Ha. apply map_eq. intros id. unfold queues. cbn. rewrite !lookup_fmap.
  destruct (decide (id = ava)) as [->|Hne].
  - by rewrite !lookup_insert_eq; cbn; rewrite lookup_insert_eq.
  - rewrite !lookup_insert_ne by done. rewrite lookup_fmap.
    destruct (tp_threads p !! id) as [o|] eqn:Hl; [|done]. cbn.
    destruct (po_threads _ Hok _ _ Hl) as (t & Ht & _). destruct (po_objs _ Hok _ _ Ht) as (_ & Hr & _).
    by rewrite lookup_insert_ne by lia.
Qed.

Lemma dispatch_delivers p tid cmd :
  pool_ok p → tp_key p !! tid = None → tid ≠ thread_id (cmd_base cmd) →
  ∃ p', shadow_thread_pool_dispatch p (Some tid) cmd = Ok p' ∧ pool_ok p' ∧
    queues p' = deliver (queues p) (contents cmd) ∧
    (∀ x, tp_key p !! x = None → x ≠ tid → tp_key p' !! x = None).
Proof.
  intros Hok Hk Hne. set (id := thread_id (cmd_base cmd)) in *.
  assert (∃ p', shadow_thread_pool_dispatch p (Some tid) cmd = Ok p' ∧
    queues p' = deliver (queues p) (contents cmd) ∧
    (∀ x, tp_key p !! x = None → x ≠ tid → tp_key p' !! x = None)) as (p' & Hrun & Hq & Hkey).
  2: { exists p'. split_and!; try done. by eapply dispatch_ok. }
  unfold shadow_thread_pool_dispatch, deliver. cbn [contents fst]. fold id.
  destruct (tp_threads p !! id) as [o|] eqn:Hl.
  - destruct (po_threads _ Hok _ _ Hl) as (t & Ht & Hid).
    assert (ght_lookup (tp_threads p) id = o) as -> by (unfold ght_lookup; by rewrite Hl).
    rewrite (proj2 (Z.eqb_neq _ _)) by by eapply threads_not_null.
    unfold get_thread. rewrite Ht. cbn [mbind res_bind]. eexists. split; [done|].
    rewrite (queues_lookup p id o t Hl Ht), (queues_push p o t cmd Hok Ht), Hid. by split.
  - assert (queues p !! id = None) as -> by (unfold queues; by rewrite lookup_fmap, Hl).
    assert (ght_lookup (tp_threads p) id = NULL) as Hnull by (unfold ght_lookup; by rewrite Hl).
    rewrite Hnull. change (is_exit (contents cmd)) with (is_thread_exit cmd).
    change (NULL =? NULL) with true. cbn iota.
    destruct (is_thread_exit cmd); [by exists p|].
    unfold shadow_thread_new, ght_insert. rewrite Hnull, Hl. change (NULL =? NULL) with true.
    cbn [c_assert mbind res_bind].
    rewrite (proj2 (Z.eqb_neq _ _) Hne). cbn [negb c_assert mbind res_bind].
    unfold get_thread. cbn [tp_objs]. rewrite lookup_insert_eq. cbn [mbind res_bind].
    eexists. split; [done|]. split.
    + rewrite (queues_push _ _ (mk_thread id [] tid false [] [])), queues_add by
        (done || (by apply add_thread_ok) || (cbn; by rewrite lookup_insert_eq)).
      cbn. by rewrite insert_insert_eq.
    + intros x Hx Hxt. cbn. by rewrite lookup_insert_ne.
Qed.

Lemma loop_delivers `{Receiver C} tids : ∀ p (c : C) h ms,
  waiting c ms → pool_ok p → length tids = length ms → NoDup tids →
  (∀ x, x ∈ tids → tp_key p !! x = None) →
  (∀ x m, x ∈ tids → m ∈ ms → x ≠ thread_id (fst m)) →
  ∃ p' c' h', _handle_commands_loop tids (p, c, h) = Ok (p', c', h') ∧ pool_ok p' ∧
    waiting c' [] ∧ queues p' = foldl deliver (queues p) ms.
Proof.
  unfold _handle_commands_loop.
  induction tids as [|tid tids IH]; intros p c h ms Hw Hok Hlen Hnd Hk Hne.
  { destruct ms; [|done]. by exists p, c, h. }
  destruct ms as [|m ms]; [done|]. apply NoDup_cons in Hnd as [Hni Hnd].
  destruct (receive_next c h m ms Hw) as (c1 & Hrcv & Hw1). cbn [foldM].
  assert (_handle_commands_iteration tid (p, c, h) =
    (p ← shadow_thread_pool_dispatch p (Some tid) (mk_cmd (next_addr h) (fst m) (snd m));
     Ok (p, c1, snd (malloc h)))) as -> by (unfold _handle_commands_iteration; by rewrite Hrcv).
  destruct (dispatch_delivers p tid (mk_cmd (next_addr h) (fst m) (snd m)) Hok) as
    (p1 & -> & Hok1 & Hq1 & Hk1); [apply Hk; by left|apply (Hne tid m); by left|].
  cbn [mbind res_bind]. destruct (IH p1 c1 (snd (malloc h)) ms Hw1 Hok1) as
    (p' & c' & h' & Hrun & Hok' & Hw' & Hq'); [by injection Hlen|done| | |].
  - intros x Hx. apply Hk1; [apply Hk; by right|]. intros ->. done.
  - intros x m' Hx Hm. apply (Hne x m'); by right.
  - exists p', c', h'. split_and!; try done. rewrite Hq', Hq1. by destruct m.
Qed.

(** Sending commands one after the other puts them on the wire in this order. *)
Lemma send_all_sent `{Sender G W} cmds : ∀ (s : G) h ms,
  sent s ms → Forall (λ c, sendable (contents c)) cmds → NoDup (cmd_addr <$> cmds) →
  (∀ c, c ∈ cmds → cmd_addr c ∈ live h) →
  ∃ s' h', foldM (λ c st, command_channel_send_command (fst st) (snd st) c) cmds (s, h) = Ok (s', h') ∧
    sent s' (ms ++ ((λ c, as_invocation (contents c)) <$> cmds)).
Proof.
  induction cmds as [|c cmds IH]; intros s h ms Hs Hwf Hnd Hl.
  { exists s, h. cbn. by rewrite app_nil_r. }
  apply Forall_cons in Hwf as [Hc Hwf]. apply NoDup_cons in Hnd as [Hni Hnd]. cbn [foldM fst snd].
  destruct (send_next s h c ms Hs Hc) as (s1 & -> & Hs1); [apply Hl; by left|]. cbn [mbind res_bind].
  destruct (IH s1 (mk_heap (live h ∖ {[cmd_addr c]}) (next_addr h)) _ Hs1 Hwf Hnd) as (s' & h' & -> & Hs').
  { intros c' Hc'. cbn. assert (cmd_addr c' ≠ cmd_addr c) as Hne.
    { intros Heq. apply Hni. rewrite <- Heq. by apply list_elem_of_fmap_2. }
    specialize (Hl c' ltac:(by right)). set_solver. }
  exists s', h'. split; [done|]. rewrite fmap_cons. by rewrite <- app_assoc in Hs'.
Qed.

(** ** Properties *)

(** C14. The dispatch loop sorts the messages of the channel by thread.  For every channel that
    receives in order, and every consistent pool, as many iterations as there are messages
    waiting take all of them, none stops, and the queue of each thread grows by exactly its
    messages, in their order; a thread seen for the first time gets a shadow, and only an exit of
    an unknown thread is ignored. *)
Theorem dispatcher_delivers `{Receiver C} (tids : list Z) (p : shadow_thread_pool_t) (c : C)
    (h : heap) (ms : list message) :
  waiting c ms → pool_ok p → length tids = length ms → NoDup tids →
  (∀ x, x ∈ tids → tp_key p !! x = None) →
  (∀ x m, x ∈ tids → m ∈ ms → x ≠ thread_id (fst m)) →
  ∃ p' c' h', _handle_commands_loop tids (p, c, h) = Ok (p', c', h') ∧ pool_ok p' ∧
    waiting c' [] ∧ queues p' = foldl deliver (queues p) ms.
Proof. apply loop_delivers. Qed.

(** Two calls of thread 50 around one of thread 60. *)
Definition thread_msg (t id : Z) : message :=
  (mk_base 7 1 3 t 0 0 id 138 0 0 (replicate 8 0), [1; 2]).

Lemma thread_msg_wf t id : in_range 32 t → in_range 32 id → message_wf (thread_msg t id).
Proof.
  unfold in_range. intros Ht Hid. split.
  - unfold base_wf, in_range, in_srange. cbn [thread_msg fst api_id vm_id command_type
      thread_id original_thread_id flags command_id command_size data_region region_size reserved_area].
    split_and!; try lia; try done. apply Forall_replicate. lia.
  - unfold message_bytes. by rewrite length_app, length_base_bytes.
Qed.

Definition sample_waiting : command_channel_shm :=
  mk_shm [] (mk_pb 0 0 0) 1
    (mjoin (message_bytes <$> [thread_msg 50 1; thread_msg 60 2; thread_msg 50 3])) [] PollIn.

Lemma dispatcher_delivers_witness :
  ∃ p' c' h', @_handle_commands_loop _ shmw_channel [1001; 1002; 1003]
      (shadow_thread_pool_new, sample_waiting, heap_empty) = Ok (p', c', h') ∧ pool_ok p' ∧
    shm_waiting c' [] ∧
    queues p' = foldl deliver (queues shadow_thread_pool_new)
      [thread_msg 50 1; thread_msg 60 2; thread_msg 50 3].
Proof.
  apply (@dispatcher_delivers _ _ shmw_receiver [1001; 1002; 1003] shadow_thread_pool_new
    sample_waiting heap_empty [thread_msg 50 1; thread_msg 60 2; thread_msg 50 3]).
  - split_and!; [done|done|]. rewrite !Forall_cons, Forall_nil.
    split_and!; try done; apply thread_msg_wf; unfold in_range; lia.
  - apply pool_new_ok.
  - reflexivity.
  - by apply (bool_decide_unpack _).
  - intros x _. reflexivity.
  - intros x m Hx Hm. rewrite !elem_of_cons in Hx. rewrite !elem_of_cons in Hm.
    destruct Hx as [->|[->|[->|[]%elem_of_nil]]], Hm as [->|[->|[->|[]%elem_of_nil]]]; discriminate.
Defined.

(** C13. Calls reach the threads that serve them, in order: over every channel that implements the
    interfaces, the commands a guest sends one after the other are all received by the worker's
    dispatch loop, and the queue of each shadow thread holds exactly the commands of its guest
    thread, in sending order (marked as invocations), with their contents unchanged.  The shared
    memory channel ([shm_sender]) and the socket channel ([socket_sender]) are instances. *)
Theorem guest_calls_reach_threads `{Sender G W} (s : G) (h hw : heap) (cmds : list command)
    (tids : list Z) :
  sent s [] → Forall (λ c, sendable (contents c)) cmds → NoDup (cmd_addr <$> cmds) →
  (∀ c, c ∈ cmds → cmd_addr c ∈ live h) →
  (∀ c, c ∈ cmds → thread_id (cmd_base c) ∉ tids) → length tids = length cmds → NoDup tids →
  ∃ s' h' p' w' hw',
    foldM (λ c st, command_channel_send_command (fst st) (snd st) c) cmds (s, h) = Ok (s', h') ∧
    _handle_commands_loop tids (shadow_thread_pool_new, wire s', hw) = Ok (p', w', hw') ∧
    queues p' = foldl deliver ∅ ((λ c, as_invocation (contents c)) <$> cmds).
Proof.
  intros Hs Hwf Hnd Hl Hne Hlen Hndt.
  destruct (send_all_sent cmds s h [] Hs Hwf Hnd Hl) as (s' & h' & Hsend & Hs'). cbn [app] in Hs'.
  destruct (loop_delivers tids shadow_thread_pool_new (wire s') hw
    ((λ c, as_invocation (contents c)) <$> cmds)) as (p' & w' & hw' & Hrun & _ & _ & Hq).
  - by apply wire_waiting.
  - apply pool_new_ok.
  - by rewrite length_fmap.
  - done.
  - done.
  - intros x m Hx (c & -> & Hc)%list_elem_of_fmap. intros ->. by apply (Hne c).
  - exists s', h', p', w', hw'. by split_and!.
Qed.

(** Two calls sent over TCP, with kernels that move 3 and 100 bytes at a time. *)
Definition socket_msg (t id : Z) : message :=
  (mk_base 7 1 0 t 0 0 id 136 136 2 (replicate 8 0), [1; 2]).

Lemma socket_msg_wf t id : in_range 32 t → in_range 32 id → socket_message_wf (socket_msg t id).
Proof.
  unfold in_range. intros Ht Hid. split_and!; [|by unfold message_bytes; rewrite length_app, length_base_bytes|done].
  unfold base_wf, in_range, in_srange. cbn [socket_msg fst api_id vm_id command_type
    thread_id original_thread_id flags command_id command_size data_region region_size reserved_area].
  split_and!; try lia; try done. apply Forall_replicate. lia.
Qed.

Lemma sample_recvs n : 0 < n → @kernel_recvs (sample_kernel n).
Proof. intros Hn i. done. Qed.

Definition sample_sender := socket_sender (sample_kernel 3) (sample_kernel 100) zero_uninit 1 4000
  (sample_recvs 100 eq_refl).

Lemma guest_calls_reach_threads_witness :
  let cmds := [mk_cmd 1 (fst (socket_msg 50 1)) [1; 2]; mk_cmd 2 (fst (socket_msg 60 2)) [1; 2]] in
  ∃ s' h' p' w' hw',
    foldM (λ c st, @command_channel_send_command _ (@socket_channel (sample_kernel 3) zero_uninit)
             (fst st) (snd st) c) cmds (sample_socket, mk_heap {[1; 2]} 3) = Ok (s', h') ∧
    @_handle_commands_loop _ (@socket_channel (sample_kernel 100) zero_uninit) [1001; 1002]
      (shadow_thread_pool_new, peer_of s' 1 4000, heap_empty) = Ok (p', w', hw') ∧
    queues p' = foldl deliver ∅ ((λ c, as_invocation (contents c)) <$> cmds).
Proof.
  intros cmds. apply (@guest_calls_reach_threads _ _ _ _ _ sample_sender sample_socket
    (mk_heap {[1; 2]} 3) heap_empty cmds [1001; 1002]).
  - split_and!; [by intros i|reflexivity|constructor].
  - unfold cmds. rewrite !Forall_cons, Forall_nil.
    split_and!; [apply (socket_msg_wf 50 1)|apply (socket_msg_wf 60 2)|done]; unfold in_range; lia.
  - by apply (bool_decide_unpack _).
  - intros c Hc. unfold cmds in Hc. rewrite !elem_of_cons in Hc.
    destruct Hc as [->|[->|[]%elem_of_nil]]; cbn; set_solver.
  - intros c Hc. unfold cmds in Hc. rewrite !elem_of_cons in Hc.
    destruct Hc as [->|[->|[]%elem_of_nil]]; by apply (bool_decide_unpack _).
  - reflexivity.
  - by apply (bool_decide_unpack _).
Defined.
