(* ===== verification/Handler.v ===== *)
(** * The command handler (common/cmd_handler.c)

    Registration and dispatch of API handlers, the internal API (shutdown, migration, explicit
    state), and the life cycle of the handler thread.  The handlers of an API are generated code:
    they are parameters, functions on the part of the state they can change ([env]), which see
    the content of a command.  The channel of a live migration (a TCP socket) is a parameter. *)

From S2P Require Import Prelude Murmur HandlePool Channel LogChannel Zcopy Endpoint Extraction.
Local Open Scope Z_scope.

(** ** State *)

(** Function pointers of a registered API; NULL when not given. *)
Record command_handler_t := mk_ch {
  ch_replay : Z;
  ch_handle : Z;
  ch_print : Z
}.

Definition no_handler : command_handler_t := mk_ch NULL NULL NULL.

(** What handlers can change: the handle pool and the log they are given, the identifier counter,
    the metadata, the flag that tells the guest library that a migration ended, the calls of
    [replace] functions, in order, and the state [L] of the libraries that generated handlers call. *)
Record env (L : Type) := mk_env {
  e_pool : nw_handle_pool;
  e_log : command_channel_log;
  e_counter : counter;
  e_md : gmap Z ava_metadata_base;
  e_end_flag : Z;
  e_replaced : list (Z * Z * list Z);
  e_lib : L
}.
Arguments mk_env {L}.
Arguments e_pool {L}.
Arguments e_log {L}.
Arguments e_counter {L}.
Arguments e_md {L}.
Arguments e_end_flag {L}.
Arguments e_replaced {L}.
Arguments e_lib {L}.

Definition set_e_pool {L} (p : nw_handle_pool) (e : env L) : env L :=
  mk_env p (e_log e) (e_counter e) (e_md e) (e_end_flag e) (e_replaced e) (e_lib e).
Definition set_e_log {L} (l : command_channel_log) (e : env L) : env L :=
  mk_env (e_pool e) l (e_counter e) (e_md e) (e_end_flag e) (e_replaced e) (e_lib e).
Definition set_e_counter {L} (g : counter) (e : env L) : env L :=
  mk_env (e_pool e) (e_log e) g (e_md e) (e_end_flag e) (e_replaced e) (e_lib e).
Definition set_end_flag {L} (v : Z) (e : env L) : env L :=
  mk_env (e_pool e) (e_log e) (e_counter e) (e_md e) v (e_replaced e) (e_lib e).
Definition add_replaced {L} (c : Z * Z * list Z) (e : env L) : env L :=
  mk_env (e_pool e) (e_log e) (e_counter e) (e_md e) (e_end_flag e) (e_replaced e ++ [c]) (e_lib e).

(** What a handler sees of a command. *)
Definition content_of (cmd : command) : message := (cmd_base cmd, cmd_rest cmd).

(** ** Registration *)

Definition get_api (apis : gmap Z command_handler_t) (id : Z) : command_handler_t :=
  default no_handler (apis !! id).

Definition register_command_handler (apis : gmap Z command_handler_t) (id handle print replay : Z)
    : res (gmap Z command_handler_t) :=
  _ ← c_assert (id <? MAX_API_ID) "api_id < MAX_API_ID";
  _ ← c_assert (ch_handle (get_api apis id) =? NULL)
        "Only one handler can be registered for each API id";
  Ok (<[id := mk_ch replay handle print]> apis).

(** The address of [internal_api_handler]. *)
Definition internal_api_handler_fn : Z := 1.

Definition init_internal_command_handler (apis : gmap Z command_handler_t)
    : res (gmap Z command_handler_t) :=
  register_command_handler apis COMMAND_HANDLER_API internal_api_handler_fn NULL NULL.

(** The print function that is called, if any. *)
Definition print_command (apis : gmap Z command_handler_t) (cmd : command)
    : option (Z * message) :=
  let f := ch_print (get_api apis (api_id (cmd_base cmd))) in
  if f =? NULL then None else Some (f, content_of cmd).

Section handler.
  Context {L : Type}.
  Variable apis : gmap Z command_handler_t.
  Variable api_replay : Z → message → message → env L → res (env L).
  Variable api_handle : Z → message → env L → res (env L).
  Variable extract_fn : Z → Z → option (list Z).
  Context `{PtrArraySort, HashOrder Z}.
  Context {M : Type} {migration_channel : Channel M} (migration_chan : M).

Definition replay_command (call_cmd ret_cmd : message) (e : env L) : res (env L) :=
  _ ← c_assert (api_id (fst call_cmd) =? api_id (fst ret_cmd)) "call_cmd->api_id == ret_cmd->api_id";
  let f := ch_replay (get_api apis (api_id (fst call_cmd))) in
  _ ← c_assert (negb (f =? NULL)) "nw_apis[api_id].replay != NULL";
  api_replay f call_cmd ret_cmd e.

(** A command without data of the internal API, sent on a channel. *)
Definition send_internal `{Channel C} (cid : Z) (tid : option Z) (chan : C) (h : heap)
    : res (C * heap) :=
  '(cmd, chan, h) ← command_channel_new_command chan h (Z.of_nat sizeof_command_base) 0;
  let cmd := upd_base (set_api_id COMMAND_HANDLER_API) cmd in
  let cmd := match tid with Some t => upd_base (set_thread_id t) cmd | None => cmd end in
  let cmd := upd_base (set_command_id cid) cmd in
  command_channel_send_command chan h cmd.

(** The loop of COMMAND_START_MIGRATION over the transferred commands; [handle] is
    [handle_command] on the transfer channel.  [fuel] bounds the number of iterations. *)
Fixpoint replay_loop (handle : command_channel_log → heap → command → env L →
                        res (command_channel_log * heap * env L))
    (fuel : nat) (chan : command_channel_log) (h : heap) (e : env L)
    : res (command_channel_log * heap * env L) :=
  match fuel with
  | O => Stop (Undefined "replay loop: out of fuel")
  | S fuel =>
      '(r, chan, h) ← command_channel_receive_command chan h;
      match r with
      | None => Stop (Undefined "NULL command")
      | Some call_cmd =>
          if api_id (cmd_base call_cmd) =? COMMAND_HANDLER_API then
            if command_id (cmd_base call_cmd) =? COMMAND_END_MIGRATION then Ok (chan, h, e)
            else
              '(chan, h, e) ← handle chan h call_cmd e;
              h ← command_channel_free_command chan h call_cmd;
              replay_loop handle fuel chan h e
          else
            '(r, chan, h) ← command_channel_receive_command chan h;
            match r with
            | None => Stop (Undefined "NULL command")
            | Some ret_cmd =>
                e ← replay_command (content_of call_cmd) (content_of ret_cmd) e;
                h ← command_channel_free_command chan h ret_cmd;
                h ← command_channel_free_command chan h call_cmd;
                replay_loop handle fuel chan h e
            end
      end
  end.

(** The block of commands a buffer id refers to, as a message. *)
Definition buffer_message `{Channel C} (chan : C) (cmd : command) (id : Z) : res message :=
  match command_channel_get_buffer chan cmd id with
  | None => Stop (Undefined "NULL command")
  | Some bytes =>
      _ ← read_bytes (Z.of_nat sizeof_command_base) bytes;
      Ok (base_of_bytes bytes, drop sizeof_command_base bytes)
  end.

(** [internal_api_handler]: the environment's pool and log are the arguments [handle_pool] and
    [log].  The migration commands use the process-wide pool and record log instead; these are the
    same objects, since commands reach the handler through [handle_command_and_notify].  Migration
    calls [handle_command] again on the transfer channel, so [fuel] bounds the nesting. *)
Fixpoint internal_api_handler (fuel : nat) {C} {Ch : Channel C} (chan : C) (h : heap)
    (cmd : command) (e : env L) : res (C * heap * env L) :=
  _ ← c_assert (api_id (cmd_base cmd) =? COMMAND_HANDLER_API) "cmd->api_id == COMMAND_HANDLER_API";
  match fuel with
  | O => Stop (Undefined "internal_api_handler: out of fuel")
  | S fuel =>
    let cid := command_id (cmd_base cmd) in
    if cid =? COMMAND_HANDLER_SHUTDOWN_API then Stop (Exited 0)
    else if cid =? COMMAND_START_MIGRATION then
      let transfer := command_channel_log_new true true in
      '(g, pool, transfer, log, h) ←
        ava_extract_objects extract_fn (e_md e) (e_counter e) (e_pool e) transfer (e_log e) h
          (nw_handle_pool_get_live_handles (e_pool e));
      '(transfer, h) ← send_internal COMMAND_END_MIGRATION None transfer h;
      _ ← command_channel_free log;
      let e := set_e_counter g (set_e_pool nw_handle_pool_new
                 (set_e_log (command_channel_log_new true true) e)) in
      let handle (c : command_channel_log) h cmd e :=
        let f := ch_handle (get_api apis (api_id (cmd_base cmd))) in
        _ ← c_assert (negb (f =? NULL)) "nw_apis[api_id].handle != NULL";
        '(c, h, e) ←
          (if f =? internal_api_handler_fn then internal_api_handler fuel c h cmd e
           else e ← api_handle f (content_of cmd) e; Ok (c, h, e));
        h ← command_channel_free_command c h cmd;
        Ok (c, h, e) in
      '(transfer, h, e) ← replay_loop handle (S (length (content transfer))) transfer h e;
      '(chan, h) ← send_internal COMMAND_END_MIGRATION (Some (thread_id (cmd_base cmd))) chan h;
      _ ← command_channel_free transfer;
      Ok (chan, h, e)
    else if cid =? COMMAND_END_MIGRATION then Ok (chan, h, set_end_flag 1 e)
    else if cid =? COMMAND_HANDLER_REPLACE_EXPLICIT_STATE then
      call ← ava_handle_replace_explicit_state (e_md e) (e_pool e) chan cmd;
      Ok (chan, h, add_replaced call e)
    else if cid =? COMMAND_START_LIVE_MIGRATION then
      '(transfer, h) ← send_internal COMMAND_ACCEPT_LIVE_MIGRATION None migration_chan h;
      '(g, pool, transfer, log, h) ←
        ava_extract_objects_in_pair extract_fn (e_md e) (e_counter e) (e_pool e) transfer (e_log e)
          h (nw_handle_pool_get_live_handles (e_pool e));
      '(transfer, h) ← send_internal COMMAND_END_LIVE_MIGRATION None transfer h;
      '(chan, h) ← send_internal COMMAND_END_MIGRATION (Some (thread_id (cmd_base cmd))) chan h;
      Ok (chan, h, set_e_counter g (set_e_pool pool (set_e_log log e)))
    else if cid =? COMMAND_END_LIVE_MIGRATION then Stop (Exited 0)
    else if cid =? COMMAND_ACCEPT_LIVE_MIGRATION then Ok (chan, h, e)
    else if cid =? COMMAND_HANDLER_RECORDED_PAIR then
      rest ← read_bytes 16 (cmd_rest cmd);
      call_cmd ← buffer_message chan cmd (le_num (slice 0 8 rest));
      ret_cmd ← buffer_message chan cmd (le_num (slice 8 8 rest));
      e ← replay_command call_cmd ret_cmd e;
      Ok (chan, h, e)
    else Stop (Exited 0)
  end.

Definition handle_command (fuel : nat) {C} {Ch : Channel C} (chan : C) (h : heap) (cmd : command)
    (e : env L) : res (C * heap * env L) :=
  let f := ch_handle (get_api apis (api_id (cmd_base cmd))) in
  _ ← c_assert (negb (f =? NULL)) "nw_apis[api_id].handle != NULL";
  '(chan, h, e) ←
    (if f =? internal_api_handler_fn then internal_api_handler fuel chan h cmd e
     else e ← api_handle f (content_of cmd) e; Ok (chan, h, e));
  h ← command_channel_free_command chan h cmd;
  Ok (chan, h, e).

(** With the global pool and record log. *)
Definition handle_command_and_notify {C} {Ch : Channel C} (chan : C) (h : heap) (cmd : command)
    (e : env L) : res (C * heap * env L) := handle_command 2 chan h cmd e.

End handler.

(** ** The handler thread *)

(** [init_command_handler_executed], the channel, and whether the thread runs. *)
Record handler_state (C : Type) := mk_hs {
  hs_executed : bool;
  hs_channel : option C;
  hs_running : bool
}.
Arguments mk_hs {C}.
Arguments hs_executed {C}.
Arguments hs_channel {C}.
Arguments hs_running {C}.

Definition init_command_handler {C} (channel_create : C) (s : handler_state C) : handler_state C :=
  if hs_executed s then s else mk_hs true (Some channel_create) true.

Definition destroy_command_handler `{Channel C} (s : handler_state C) : res (handler_state C) :=
  if hs_executed s then
    match hs_channel s with
    | None => Stop (Undefined "NULL channel")
    | Some c => c ← command_channel_free c; Ok (mk_hs false (Some c) false)
    end
  else Ok s.

(** ** Specification of a migration *)

(** A record whose sizes are those of its bytes. *)
Definition lrec_sized (r : lrec) : Prop :=
  Z.of_nat sizeof_command_base ≤ command_size (lr_base r) ∧
  command_size (lr_base r) + region_size (lr_base r) =
    Z.of_nat (sizeof_command_base + length (lr_rest r)).

Definition msg_of (r : lrec) : message := (lr_base r, lr_rest r).

(** The (call, return) records named by index pairs, without the expunged ones. *)
Definition replay_pairs (rs : list lrec) (idx : list (nat * nat)) : list (lrec * lrec) :=
  omap (λ p, match rs !! fst p, rs !! snd p with
             | Some a, Some b => if lr_flags a =? 1 then None else Some (a, b)
             | _, _ => None
             end) idx.

(** ** Lemmas *)

Lemma lrec_region r :
  lrec_wf r → lrec_sized r →
  let cmd := lrec_cmd 0 r in
  let region := drop (Z.to_nat (command_size (lr_base r))) (cmd_bytes cmd) in
  ∀ a, cmd_wf (lrec_cmd a r) region ∧ transferred (lrec_cmd a r) region = mk_lrec 0 (lr_base r) (lr_rest r).
Proof.
  intros (Hb & Hf & Hl) (Hc & Hsum) cmd region a.
  assert (length (base_bytes (lr_base r)) = sizeof_command_base) as Hlb by apply length_base_bytes, Hb.
  assert (0 ≤ region_size (lr_base r)) as Hr0 by apply Hb.
  assert (region = drop (Z.to_nat (command_size (lr_base r)) - sizeof_command_base) (lr_rest r)) as Hreg.
  { unfold region, cmd, cmd_bytes. cbn [lrec_cmd cmd_base cmd_rest].
    rewrite drop_app_ge by lia. by rewrite Hlb. }
  split.
  - split_and!; cbn [lrec_cmd cmd_base]; [done|done| | |].
    + unfold cmd_bytes. cbn [lrec_cmd cmd_base cmd_rest]. rewrite length_app, Hlb. lia.
    + rewrite Hreg, length_drop. lia.
    + lia.
  - unfold transferred. cbn [lrec_cmd cmd_base cmd_rest]. f_equal.
    rewrite Hreg, (take_ge (drop _ _)) by (rewrite length_drop; lia). apply take_drop.
Qed.

(** Sending records to a log appends those that are not expunged. *)
Lemma send_records_log l : ∀ out (rs' : list lrec) k h,
  log_repr out rs' k → Forall lrec_wf l → Forall lrec_sized l →
  (∀ a, a ∈ live h → a < next_addr h) →
  ∃ out' h', foldM send_record l (out, h) = Ok (out', h') ∧
    log_repr out' (rs' ++ (set_lr_flags 0 <$> filter (λ r, lr_flags r ≠ 1) l)) k ∧
    live h' = live h ∧ (∀ a, a ∈ live h' → a < next_addr h').
Proof.
  induction l as [|r l IH]; intros out rs' k h Hr Hwf Hsz Hfresh.
  { exists out, h. cbn. rewrite app_nil_r. by split_and!. }
  apply Forall_cons in Hwf as [Hw Hwf]. apply Forall_cons in Hsz as [Hs Hsz]. cbn [foldM].
  assert (∃ out1 h1, send_record r (out, h) = Ok (out1, h1) ∧
    log_repr out1 (rs' ++ (if decide (lr_flags r = 1) then [] else [set_lr_flags 0 r])) k ∧
    live h1 = live h ∧ (∀ a, a ∈ live h1 → a < next_addr h1)) as (out1 & h1 & Hrun & Hr1 & Hl1 & Hf1).
  { unfold send_record. cbn [malloc]. pose proof (free_malloc h Hfresh) as Hfree. cbn [malloc fst snd] in Hfree.
    destruct (Z.eqb_spec (lr_flags r) 1) as [He|Hne].
    - cbn [mbind res_bind]. rewrite Hfree. cbn [mbind res_bind]. eexists _, _. split; [reflexivity|].
      rewrite decide_True, app_nil_r by done. split_and!; [done|done|]. cbn. intros a Ha.
      apply Hfresh in Ha. lia.
    - rewrite decide_False by done. destruct (lrec_region r Hw Hs (next_addr h)) as [Hcw Htr].
      pose proof Hr as (_ & _ & _ & _ & Hfd & Hd).
      unfold command_channel_transfer_command, vtable, log_channel.
      cbn [vt_transfer_command command_channel_log_vtable].
      change (cmd_bytes (lrec_cmd (next_addr h) r)) with (cmd_bytes (lrec_cmd 0 r)).
      rewrite transfer_eq by done. cbn [mbind res_bind]. rewrite Hfree. cbn [mbind res_bind].
      eexists _, _. split; [reflexivity|]. rewrite Htr. split_and!; [|done|].
      + apply (log_repr_append out rs' k (set_lr_flags 0 r) Hr).
        destruct Hw as (? & ? & ?). split_and!; [done|unfold in_range; cbn; lia|done].
      + cbn. intros a Ha. apply Hfresh in Ha. lia. }
  rewrite Hrun. cbn [mbind res_bind].
  destruct (IH out1 _ k h1 Hr1 Hwf Hsz Hf1) as (out2 & h2 & Hrun2 & Hr2 & Hl2 & Hf2).
  exists out2, h2. split; [exact Hrun2|]. split_and!; [|by rewrite Hl2|done].
  rewrite filter_cons, <- app_assoc in *. destruct (decide (lr_flags r = 1)) as [He|Hne].
  - by rewrite decide_False by (by intros []).
  - by rewrite decide_True by done.
Qed.

(** Without [extract] functions no explicit state is sent. *)
Lemma explicit_none `{Channel C} (fn : Z → Z → option (list Z)) md l st :
  (∀ x m, x ∈ l → md !! x = Some m → extract m = NULL) →
  foldM (_ava_extract_explicit (C := C) fn md) l st = Ok st.
Proof.
  induction l as [|x l IH]; intros Hn; [done|]. cbn [foldM].
  assert (_ava_extract_explicit fn md x st = Ok st) as ->; [|apply IH; intros y m Hy; apply Hn; by right].
  unfold _ava_extract_explicit. destruct st as [[[g pool] out] h].
  destruct (md !! x) as [m|] eqn:Hm; [|done]. by rewrite (Hn x m (list_elem_of_here _ _) Hm).
Qed.

(** The END_MIGRATION command at the end of a log. *)
Lemma send_end_log cid out rs k h :
  log_repr out rs k → (∀ a, a ∈ live h → a < next_addr h) → in_range 64 cid →
  Z.of_nat (length (content out)) < 2 ^ 61 →
  ∃ out' h' r, send_internal cid None out h = Ok (out', h') ∧ log_repr out' (rs ++ [r]) k ∧
    api_id (lr_base r) = COMMAND_HANDLER_API ∧ command_id (lr_base r) = cid ∧
    live h' = live h ∧ (∀ a, a ∈ live h' → a < next_addr h').
Proof.
  intros Hr Hfresh Hcid Hlen. pose proof Hr as (_ & _ & _ & _ & Hfd & Hd).
  unfold send_internal, command_channel_new_command, command_channel_send_command, vtable, log_channel.
  cbn [vt_new_command vt_send_command command_channel_log_vtable].
  rewrite new_command_eq by (done || cbn; lia). cbv zeta. cbn [mbind res_bind].
  change (Z.of_nat sizeof_command_base) with 136. unfold sizeof_metadata.
  set (start := Z.of_nat (length (content out)) + 16).
  set (b := set_command_id cid (set_api_id COMMAND_HANDLER_API
    (mk_base 0 0 0 0 0 0 0 136 136 0 [start; start + 136; 0; 0; 0; 0; 0; 0]))).
  assert (base_wf b) as Hwf.
  { unfold base_wf, b, in_srange. cbn. rewrite !Forall_cons. unfold in_range, COMMAND_HANDLER_API, start in *.
    split_and!; try lia. constructor. }
  change (upd_base _ (upd_base _ _)) with (mk_cmd (next_addr h) b []).
  assert (length (base_bytes b) = 136%nat) as Hlb by apply length_base_bytes, Hwf.
  erewrite (send_eq _ _ (mk_cmd (next_addr h) b []) start);
    [|reflexivity|reflexivity|unfold start; lia|reflexivity|].
  2: { unfold cmd_bytes. cbn [cmd_base cmd_rest]. rewrite app_nil_r, Hlb. reflexivity. }
  cbn [cmd_addr]. rewrite (free_malloc h Hfresh : c_free (next_addr h) (snd (malloc h)) = _).
  cbn [mbind res_bind]. eexists _, _, (mk_lrec 0 b []). split; [reflexivity|]. split_and!; try done.
  - destruct (log_repr_append out rs k (mk_lrec 0 b []) Hr) as (R1 & R2 & R3 & R4 & R5 & R6).
    { split_and!; [done|cbn; unfold in_range; lia|cbn; lia]. }
    split_and!; try done. cbn [content]. rewrite <- R1. cbn [content].
    rewrite pwrite_end.
    + unfold cmd_bytes, lrec_bytes. cbn [lr_rest lr_flags lr_base cmd_base cmd_rest length].
      rewrite <- app_assoc. do 2 f_equal.
    + rewrite length_app, length_metadata_bytes. unfold start. lia.
  - cbn. intros a Ha. apply Hfresh in Ha. lia.
Qed.

(** Two blocks allocated one after the other and freed in the opposite order. *)
Lemma free_malloc_twice h :
  (∀ a, a ∈ live h → a < next_addr h) →
  c_free (next_addr h + 1) (snd (malloc (snd (malloc h)))) =
    Ok (mk_heap ({[next_addr h]} ∪ live h) (next_addr h + 1 + 1)) ∧
  c_free (next_addr h) (mk_heap ({[next_addr h]} ∪ live h) (next_addr h + 1 + 1)) =
    Ok (mk_heap (live h) (next_addr h + 1 + 1)).
Proof.
  intros Hfresh. split.
  - apply (free_malloc (snd (malloc h))). cbn.
    intros x [->%elem_of_singleton|Hx%Hfresh]%elem_of_union; lia.
  - unfold c_free. cbn [live]. rewrite decide_True by set_solver. do 2 f_equal.
    apply set_eq. intros x. specialize (Hfresh x).
    rewrite elem_of_difference, elem_of_union, elem_of_singleton.
    split; [naive_solver|]. intros Hx. split; [by right|]. intros ->. apply Hfresh in Hx. lia.
Qed.

(** Loading two consecutive records of a log. *)
Lemma load_two chan h all i a b tail :
  log_repr chan all i → drop i all = a :: b :: tail →
  ∃ c1 c2 f1 f2,
    command_channel_log_load_command chan h (-1) = Ok (Some (lrec_cmd (next_addr h) a, f1), c1, snd (malloc h)) ∧
    command_channel_log_load_command c1 (snd (malloc h)) (-1) =
      Ok (Some (lrec_cmd (next_addr h + 1) b, f2), c2, snd (malloc (snd (malloc h)))) ∧
    log_repr c2 all (S (S i)).
Proof.
  intros Hr Hdrop. pose proof Hr as (Hc & Hro & Hi & Hall & Hfd & Hd).
  assert (all !! i = Some a) as Hla by (by rewrite <- (Nat.add_0_r i), <- lookup_drop, Hdrop).
  assert (all !! (i + 1)%nat = Some b) as Hlb by (by rewrite <- lookup_drop, Hdrop).
  destruct (load_at chan h all i a (-1)) as (c1 & Hload & Hc1 & Hro1 & Hf1 & Hd1); try done.
  { by eapply Forall_lookup_1. }
  destruct (load_at c1 (snd (malloc h)) all (S i) b (-1)) as (c2 & Hload2 & Hc2 & Hro2 & Hf2 & Hd2);
    try done; [by rewrite Hc1|by rewrite <- Nat.add_1_r|by eapply Forall_lookup_1|].
  eexists c1, c2, _, _. split; [exact Hload|]. split; [exact Hload2|].
  split_and!; [by rewrite Hc2, Hc1|done| |done|done|by rewrite Hd2, Hd1].
  apply lookup_lt_Some in Hlb. lia.
Qed.

Section replay_lemmas.
  Context {L : Type}.
  Variable apis : gmap Z command_handler_t.
  Variable api_replay : Z → message → message → env L → res (env L).
  Variable handle : command_channel_log → heap → command → env L →
                    res (command_channel_log * heap * env L).

(** The replay loop on a log that holds pairs of API commands and then END_MIGRATION. *)
Lemma replay_loop_eq ps : ∀ fuel chan h all i rend,
  log_repr chan all i →
  drop i all = mjoin ((λ p, [fst p; snd p]) <$> ps) ++ [rend] →
  Forall (λ p, api_id (lr_base (fst p)) ≠ COMMAND_HANDLER_API) ps →
  api_id (lr_base rend) = COMMAND_HANDLER_API → command_id (lr_base rend) = COMMAND_END_MIGRATION →
  (∀ a, a ∈ live h → a < next_addr h) → (length ps < fuel)%nat →
  ∃ chan' h' a, a ∉ live h ∧ live h' = {[a]} ∪ live h ∧
    ∀ e, replay_loop apis api_replay handle fuel chan h e =
      (e ← foldM (λ p e, replay_command apis api_replay (msg_of (fst p)) (msg_of (snd p)) e) ps e;
       Ok (chan', h', e)).
Proof.
  induction ps as [|[a b] ps IH]; intros fuel chan h all i rend Hr Hdrop Hapi Hend1 Hend2 Hfresh Hfuel;
    (destruct fuel as [|fuel]; [lia|]).
  - cbn in Hdrop. pose proof Hr as (Hc & Hro & Hi & Hall & Hfd & Hd).
    assert (all !! i = Some rend) as Hl.
    { rewrite <- (Nat.add_0_r i), <- lookup_drop, Hdrop. done. }
    destruct (load_at chan h all i rend (-1)) as (c1 & Hload & Hc1 & Hro1 & Hf1 & Hd1); try done.
    { by eapply Forall_lookup_1. }
    exists c1, (snd (malloc h)), (next_addr h). split; [intros Hx%Hfresh; lia|]. split; [done|].
    intros e. cbn [replay_loop]. unfold command_channel_receive_command, vtable, log_channel.
    cbn [vt_receive_command command_channel_log_vtable]. unfold command_channel_load_next_command.
    rewrite Hload. cbn [mbind res_bind option_map fst lrec_cmd cmd_base].
    by rewrite Hend1, Hend2.
  - change (mjoin ((λ p, [fst p; snd p]) <$> (a, b) :: ps)) with
      (a :: b :: mjoin ((λ p, [fst p; snd p]) <$> ps)) in Hdrop. cbn [app] in Hdrop.
    apply Forall_cons in Hapi as [Ha Hapi]. cbn [fst] in Ha.
    destruct (load_two chan h all i a b _ Hr Hdrop) as (c1 & c2 & f1 & f2 & Hload & Hload2 & Hr2).
    destruct (free_malloc_twice h Hfresh) as [Hfree1 Hfree2].
    set (h2 := mk_heap (live h) (next_addr h + 1 + 1)) in *.
    destruct (IH fuel c2 h2 all (S (S i)) rend Hr2) as (c' & h' & x & Hx & Hlive & Hrun); try done.
    { replace (S (S i)) with (i + 2)%nat by lia. by rewrite <- drop_drop, Hdrop. }
    { unfold h2. cbn. intros x Hx%Hfresh. lia. } { cbn in Hfuel. lia. }
    exists c', h', x. split; [done|]. split; [done|]. intros e. cbn [replay_loop].
    unfold command_channel_receive_command, command_channel_free_command, vtable, log_channel in *.
    cbn [vt_receive_command vt_free_command command_channel_log_vtable].
    unfold command_channel_load_next_command, command_channel_load_free_command.
    rewrite Hload. cbn [mbind res_bind option_map fst lrec_cmd cmd_base cmd_addr].
    rewrite (proj2 (Z.eqb_neq _ _)) by done. rewrite Hload2.
    cbn [mbind res_bind option_map fst foldM]. cbn [snd].
    change (content_of (lrec_cmd (next_addr h + 1) b)) with (msg_of b).
    match goal with |- context [replay_command _ _ ?x (msg_of b)] =>
      change x with (msg_of a) end.
    destruct (replay_command apis api_replay (msg_of a) (msg_of b) e) as [e1|]; cbn [mbind res_bind]; [|done].
    change (cmd_addr (lrec_cmd (next_addr h + 1) b)) with (next_addr h + 1).
    rewrite Hfree1. cbn [mbind res_bind]. rewrite Hfree2.
    cbn [mbind res_bind]. apply Hrun.
Qed.

End replay_lemmas.

(** The records that reach the transfer log, as pairs. *)
Definition reset_pair (p : lrec * lrec) : lrec * lrec :=
  (set_lr_flags 0 (fst p), set_lr_flags 0 (snd p)).

Lemma filter_pair_records rs idx :
  (∀ p, p ∈ idx → ∃ a b, rs !! fst p = Some a ∧ rs !! snd p = Some b ∧
     (lr_flags a = 1 ↔ lr_flags b = 1)) →
  set_lr_flags 0 <$> filter (λ r, lr_flags r ≠ 1) (pair_records rs idx) =
    mjoin ((λ p, [fst p; snd p]) <$> (reset_pair <$> replay_pairs rs idx)).
Proof.
  induction idx as [|[i j] idx IH]; intros Hidx; [done|].
  destruct (Hidx (i, j) ltac:(set_solver)) as (a & b & Ha & Hb & Hf). cbn [fst snd] in *.
  assert (pair_records rs ((i, j) :: idx) = a :: b :: pair_records rs idx) as ->.
  { unfold pair_records. cbn [fmap list_fmap]. change (mjoin (?x :: ?y)) with (x ++ mjoin y).
    cbn [fst snd]. by rewrite Ha, Hb. }
  specialize (IH ltac:(set_solver)). rewrite !filter_cons.
  unfold replay_pairs in *. cbn [omap list_omap fst snd]. rewrite Ha, Hb.
  destruct (Z.eqb_spec (lr_flags a) 1) as [He|He].
  - rewrite !decide_False by naive_solver. exact IH.
  - rewrite !decide_True by naive_solver. cbn [fmap list_fmap].
    change (mjoin (?x :: ?y)) with (x ++ mjoin y). cbn [app fst snd reset_pair].
    f_equal. f_equal. exact IH.
Qed.

Lemma pair_records_in rs idx r : r ∈ pair_records rs idx → r ∈ rs.
Proof.
  unfold pair_records. rewrite list_elem_of_join. intros (l & Hr & (p & -> & _)%list_elem_of_fmap).
  apply elem_of_app in Hr as [Hr|Hr].
  - destruct (rs !! fst p) eqn:Hl; [|set_solver]. apply list_elem_of_singleton in Hr as ->.
    by apply list_elem_of_lookup_2 in Hl.
  - destruct (rs !! snd p) eqn:Hl; [|set_solver]. apply list_elem_of_singleton in Hr as ->.
    by apply list_elem_of_lookup_2 in Hl.
Qed.

Lemma length_log_bytes_cons r l :
  length (log_bytes (r :: l)) = (length (lrec_bytes r) + length (log_bytes l))%nat.
Proof.
  change (r :: l) with ([r] ++ l). by rewrite log_bytes_app, log_bytes_single, length_app.
Qed.

Lemma log_bytes_count l : (length l ≤ length (log_bytes l))%nat.
Proof.
  induction l as [|r l IH]; [done|]. rewrite length_log_bytes_cons. unfold lrec_bytes.
  rewrite length_app, length_metadata_bytes. cbn. lia.
Qed.

Lemma length_lrec_flags f r : length (lrec_bytes (set_lr_flags f r)) = length (lrec_bytes r).
Proof. unfold lrec_bytes. by rewrite !length_app, !length_metadata_bytes. Qed.

Lemma log_bytes_bound rs l :
  (∀ r, r ∈ l → ∃ r', r' ∈ rs ∧ r = set_lr_flags 0 r') →
  (length (log_bytes l) ≤ length l * length (log_bytes rs))%nat.
Proof.
  induction l as [|r l IH]; intros Hl; [done|]. rewrite length_log_bytes_cons. cbn [length].
  destruct (Hl r ltac:(set_solver)) as (r' & Hr' & ->). rewrite length_lrec_flags.
  assert (length (lrec_bytes r') ≤ length (log_bytes rs))%nat.
  { apply list_elem_of_lookup in Hr' as (i & Hi).
    rewrite (log_bytes_split rs i r' Hi), !length_app. lia. }
  specialize (IH ltac:(set_solver)). lia.
Qed.

(** Strictly increasing offsets name different records. *)
Lemma sorted_indices rs (idx : list (nat * nat)) :
  StronglySorted (λ p q, log_offset rs (fst p) < log_offset rs (fst q)) idx →
  (∀ p, p ∈ idx → (fst p < length rs)%nat) → (length idx ≤ length rs)%nat.
Proof.
  intros Hs Hlt. assert (NoDup (fst <$> idx)) as Hnd.
  { clear Hlt. induction Hs as [|p idx _ IH Hp]; [constructor|]. cbn. constructor; [|done].
    intros (q & Heq & Hq)%list_elem_of_fmap. rewrite Forall_forall in Hp. apply Hp in Hq.
    rewrite Heq in Hq. lia. }
  rewrite <- (length_fmap fst idx).
  replace (length rs) with (length (seq 0 (length rs))) by apply length_seq.
  apply submseteq_length, NoDup_submseteq; [done|].
  intros i (p & -> & Hp%Hlt)%list_elem_of_fmap. apply elem_of_seq. lia.
Qed.

Lemma length_pair_records rs idx : (length (pair_records rs idx) ≤ 2 * length idx)%nat.
Proof.
  induction idx as [|p idx IH]; [done|]. unfold pair_records in *. cbn [fmap list_fmap].
  change (mjoin (?x :: ?y)) with (x ++ mjoin y). rewrite !length_app. cbn [length].
  destruct (rs !! fst p), (rs !! snd p); cbn in *; lia.
Qed.

(** Pairs of offsets found by the extraction name records of the log. *)
Lemma recorded_indices md rs (idx : list (nat * nat)) :
  (∀ x p, p ∈ calls_in md x → ∃ i j a b, rs !! i = Some a ∧ rs !! j = Some b ∧
     p = pair_offsets rs (i, j) ∧ api_id (lr_base a) ≠ COMMAND_HANDLER_API ∧
     (lr_flags a = 1 ↔ lr_flags b = 1)) →
  Forall (λ p, (fst p < length rs)%nat ∧ (snd p < length rs)%nat) idx →
  (∀ p, p ∈ idx → ∃ x, pair_offsets rs p ∈ calls_in md x) →
  ∀ p, p ∈ idx → ∃ a b, rs !! fst p = Some a ∧ rs !! snd p = Some b ∧
    api_id (lr_base a) ≠ COMMAND_HANDLER_API ∧ (lr_flags a = 1 ↔ lr_flags b = 1).
Proof.
  intros Hcalls Hrange Hsound p Hp. destruct (Hsound p Hp) as (x & Hpx).
  destruct (Hcalls x _ Hpx) as (i & j & a & b & Ha & Hb & Heq & Hapi' & Hfl).
  rewrite Forall_forall in Hrange. destruct (Hrange p Hp) as [Hp1 Hp2].
  apply lookup_lt_Some in Ha as Hi. apply lookup_lt_Some in Hb as Hj.
  unfold pair_offsets in Heq. cbn [fst snd] in Heq. injection Heq as He1 He2.
  apply log_offset_inj in He1; [|done|done]. apply log_offset_inj in He2; [|done|done].
  exists a, b. by rewrite He1, He2.
Qed.

(** The transfer log is not much longer than the log it is taken from. *)
Lemma transfer_log_bound rs (idx : list (nat * nat)) :
  StronglySorted (λ p q, log_offset rs (fst p) < log_offset rs (fst q)) idx →
  Forall (λ p, (fst p < length rs)%nat ∧ (snd p < length rs)%nat) idx →
  Z.of_nat (length (log_bytes (set_lr_flags 0 <$> filter (λ r, lr_flags r ≠ 1) (pair_records rs idx)))) ≤
    2 * Z.of_nat (length rs) * Z.of_nat (length (log_bytes rs)).
Proof.
  intros Hsorted Hrange.
  pose proof (log_bytes_bound rs (set_lr_flags 0 <$> filter (λ r, lr_flags r ≠ 1) (pair_records rs idx)))
    as Hb. rewrite length_fmap in Hb.
  pose proof (length_filter (λ r, lr_flags r ≠ 1) (pair_records rs idx)) as Hb2.
  pose proof (length_pair_records rs idx) as Hb3.
  pose proof (sorted_indices rs idx Hsorted) as Hb4. rewrite Forall_forall in Hrange.
  specialize (Hb4 (λ p Hp, proj1 (Hrange p Hp))).
  assert (length (filter (λ r, lr_flags r ≠ 1%Z) (pair_records rs idx)) ≤ 2 * length rs)%nat
    as Hb5 by lia.
  etrans; [apply Nat2Z.inj_le, Hb|].
  - intros r (r' & -> & Hr')%list_elem_of_fmap. apply list_elem_of_filter in Hr' as [_ Hr'].
    exists r'. split; [by eapply pair_records_in|done].
  - rewrite Nat2Z.inj_mul. apply Z.mul_le_mono_nonneg_r; lia.
Qed.

Lemma length_flat_pairs (ps : list (lrec * lrec)) :
  length (mjoin ((λ p, [fst p; snd p]) <$> ps)) = (2 * length ps)%nat.
Proof.
  induction ps as [|p ps IH]; [done|]. cbn [fmap list_fmap].
  change (mjoin (?x :: ?y)) with (x ++ mjoin y). rewrite length_app, IH. cbn. lia.
Qed.

Lemma replay_pairs_api rs idx :
  (∀ p, p ∈ idx → ∃ a b, rs !! fst p = Some a ∧ rs !! snd p = Some b ∧
    api_id (lr_base a) ≠ COMMAND_HANDLER_API ∧ (lr_flags a = 1 ↔ lr_flags b = 1)) →
  Forall (λ p, api_id (lr_base (fst p)) ≠ COMMAND_HANDLER_API) (reset_pair <$> replay_pairs rs idx).
Proof.
  intros Hidx. apply Forall_forall. intros p (q & -> & Hq)%list_elem_of_fmap.
  unfold replay_pairs in Hq. apply list_elem_of_omap in Hq as (ij & Hij & Hq).
  destruct (Hidx ij Hij) as (a & b & Ha & Hb & Hna & _). rewrite Ha, Hb in Hq.
  destruct (lr_flags a =? 1); [done|]. by injection Hq as <-.
Qed.

(** The contents of the transfer log: the pairs to replay, and END_MIGRATION. *)
Lemma transfer_log_built rs idx h :
  Forall lrec_wf rs → Forall lrec_sized rs →
  StronglySorted (λ p q, log_offset rs (fst p) < log_offset rs (fst q)) idx →
  Forall (λ p, (fst p < length rs)%nat ∧ (snd p < length rs)%nat) idx →
  (∀ p, p ∈ idx → ∃ a b, rs !! fst p = Some a ∧ rs !! snd p = Some b ∧
    api_id (lr_base a) ≠ COMMAND_HANDLER_API ∧ (lr_flags a = 1 ↔ lr_flags b = 1)) →
  2 * Z.of_nat (length rs) * Z.of_nat (length (log_bytes rs)) < 2 ^ 60 →
  (∀ a, a ∈ live h → a < next_addr h) →
  ∃ out h1 out2 h2 rend,
    foldM send_record (pair_records rs idx) (command_channel_log_new true true, h) = Ok (out, h1) ∧
    send_internal COMMAND_END_MIGRATION None out h1 = Ok (out2, h2) ∧
    log_repr out2 (mjoin ((λ p, [fst p; snd p]) <$> (reset_pair <$> replay_pairs rs idx)) ++ [rend]) 0 ∧
    api_id (lr_base rend) = COMMAND_HANDLER_API ∧ command_id (lr_base rend) = COMMAND_END_MIGRATION ∧
    live h2 = live h ∧ (∀ a, a ∈ live h2 → a < next_addr h2).
Proof.
  intros Hwf Hsz Hsorted Hrange Hidx Hbound Hfresh.
  assert (∀ r, r ∈ pair_records rs idx → lrec_wf r ∧ lrec_sized r) as Hin.
  { intros r Hr'%pair_records_in. rewrite !Forall_forall in *. auto. }
  destruct (send_records_log (pair_records rs idx) (command_channel_log_new true true) [] 0 h)
    as (out & h1 & Hsend & Hro & Hl1 & Hf1); [apply log_repr_new| | |done|].
  { apply Forall_forall. intros r Hr'. by apply Hin. } { apply Forall_forall. intros r Hr'. by apply Hin. }
  pose proof (transfer_log_bound rs idx Hsorted Hrange) as Hout.
  cbn [app] in Hro. rewrite <- (proj1 Hro) in Hout.
  rewrite filter_pair_records in Hro by (intros p Hp; destruct (Hidx p Hp) as (a & b & ? & ? & ? & ?); eauto).
  destruct (send_end_log COMMAND_END_MIGRATION out _ 0 h1 Hro) as
    (out2 & h2 & rend & Hend & Hro2 & Ha2 & Hc2 & Hl2 & Hf2); [done|by vm_compute|lia|].
  exists out, h1, out2, h2, rend. split_and!; try done. by rewrite Hl2.
Qed.

(** ** Properties *)

(** C6. Migration replays the recorded calls.  When the worker handles COMMAND_START_MIGRATION, and
    no reachable object has explicit state, it builds a new handle pool and a new record log by
    replaying a list of (call, return) pairs of its old log: in strictly increasing order of the
    calls' log offsets, exactly the calls recorded for the global object, the live handles and
    everything they depend on, without the expunged ones, each once.  The blocks of all commands
    that are transferred and replayed are freed; only the command that ends the transfer stays
    allocated.  The peer is notified after the last replay, and the whole handler stops only where
    a replay function, or the notification, does.  The recorded calls are pairs of records of
    API commands in the old log, marked both or neither, and sums of sizes stay below 2^60. *)
Theorem migration_replays_calls `{PtrArraySort} `{HashOrder Z} {L M} {mc : Channel M} (mchan : M)
    `{Ch : Channel C} (apis : gmap Z command_handler_t)
    (api_replay : Z → message → message → env L → res (env L))
    (api_handle : Z → message → env L → res (env L)) (extract_fn : Z → Z → option (list Z))
    (fuel : nat) (chan : C) (h : heap) (cmd : command) (e : env L) (rs : list lrec) (k : nat) :
  api_id (cmd_base cmd) = COMMAND_HANDLER_API →
  command_id (cmd_base cmd) = COMMAND_START_MIGRATION →
  log_repr (e_log e) rs k → Forall lrec_sized rs →
  2 * Z.of_nat (length rs) * Z.of_nat (length (content (e_log e))) < 2 ^ 60 →
  Z.of_nat (length (content (e_log e))) < 2 ^ 60 →
  (∀ a, a ∈ live h → a < next_addr h) →
  let roots := NULL :: nw_handle_pool_get_live_handles (e_pool e) in
  (∀ x m, reachable (e_md e) roots x → e_md e !! x = Some m → extract m = NULL) →
  (∀ x p, p ∈ calls_in (e_md e) x → ∃ i j a b, rs !! i = Some a ∧ rs !! j = Some b ∧
     p = pair_offsets rs (i, j) ∧ api_id (lr_base a) ≠ COMMAND_HANDLER_API ∧
     (lr_flags a = 1 ↔ lr_flags b = 1)) →
  ∃ idx h' a, a ∉ live h ∧ live h' = {[a]} ∪ live h ∧
    StronglySorted (λ p q, log_offset rs (fst p) < log_offset rs (fst q)) idx ∧
    (∀ p, p ∈ idx → ∃ x, reachable (e_md e) roots x ∧ pair_offsets rs p ∈ calls_in (e_md e) x) ∧
    (∀ x p, reachable (e_md e) roots x → p ∈ calls_in (e_md e) x →
      ∃ q, q ∈ idx ∧ log_offset rs (fst q) = fst p) ∧
    internal_api_handler apis api_replay api_handle extract_fn mchan (S fuel) chan h cmd e =
      (e' ← foldM (λ p e, replay_command apis api_replay (msg_of (fst p)) (msg_of (snd p)) e)
              (replay_pairs rs idx)
              (set_e_pool nw_handle_pool_new (set_e_log (command_channel_log_new true true) e));
       '(chan, h) ← send_internal COMMAND_END_MIGRATION (Some (thread_id (cmd_base cmd))) chan h';
       Ok (chan, h, e')).
Proof.
  intros Hapi Hcid Hr Hsz Hbound Hlen Hfresh roots Hnoext Hcalls.
  destruct (extract_objects_eq extract_fn (e_md e) (e_counter e) (e_pool e)
    (command_channel_log_new true true) (e_log e) rs k h (nw_handle_pool_get_live_handles (e_pool e)))
    as (st & log' & idx & Hcol & _ & Hsorted & Hrange & Hsound & Hcompl & Hext); [done|lia| |].
  { intros x p Hp. destruct (Hcalls x p Hp) as (i & j & a & b & Ha & Hb & -> & _).
    exists i, j. split_and!; [by apply lookup_lt_Some in Ha|by apply lookup_lt_Some in Hb|done]. }
  pose proof (recorded_indices (e_md e) rs idx Hcalls Hrange
    (λ p Hp, let '(ex_intro _ x (conj _ Hx)) := Hsound p Hp in ex_intro _ x Hx)) as Hidx.
  destruct (transfer_log_built rs idx h) as
    (out & h1 & out2 & h2 & rend & Hsend & Hend & Hro2 & Ha2 & Hc2 & Hl2 & Hf2); try done;
    [apply Hr|by rewrite <- (proj1 Hr)|].
  set (ps := reset_pair <$> replay_pairs rs idx) in *.
  set (handle := λ (c : command_channel_log) (h : heap) (cmd : command) (e : env L),
    (_ ← c_assert (negb (ch_handle (get_api apis (api_id (cmd_base cmd))) =? NULL))
           "nw_apis[api_id].handle != NULL";
     '(c, h, e) ←
       (if ch_handle (get_api apis (api_id (cmd_base cmd))) =? internal_api_handler_fn
        then internal_api_handler apis api_replay api_handle extract_fn mchan fuel c h cmd e
        else e ← api_handle (ch_handle (get_api apis (api_id (cmd_base cmd)))) (content_of cmd) e;
             Ok (c, h, e));
     h ← command_channel_free_command c h cmd;
     Ok (c, h, e)) : res (command_channel_log * heap * env L)).
  destruct (replay_loop_eq apis api_replay handle ps (S (length (content out2))) out2 h2
    _ 0 rend Hro2) as (out3 & h3 & a & Ha & Hl3 & Hloop); try done; [by apply replay_pairs_api| |].
  { pose proof (log_bytes_count (mjoin ((λ p, [fst p; snd p]) <$> ps) ++ [rend])) as Hcnt.
    rewrite (proj1 Hro2). rewrite length_app, length_flat_pairs in Hcnt. cbn in Hcnt. lia. }
  rewrite Hl2 in Ha, Hl3. exists idx, h3, a. do 5 (split; [done|]).
  cbn [internal_api_handler]. rewrite Hapi, Hcid, Z.eqb_refl. cbn [c_assert mbind res_bind].
  change (COMMAND_START_MIGRATION =? COMMAND_HANDLER_SHUTDOWN_API) with false.
  change (COMMAND_START_MIGRATION =? COMMAND_START_MIGRATION) with true. cbn iota zeta.
  rewrite Hext, Hsend. cbn [mbind res_bind]. rewrite explicit_none. 2: { intros x m Hx. exact (Hnoext x m (collected_reachable _ _ _ _ Hcol Hx)). }
  cbn [mbind res_bind]. rewrite Hend. cbn [mbind res_bind]. unfold command_channel_free at 1, vtable, log_channel.
  cbn [vt_free command_channel_log_vtable]. unfold command_channel_log_free at 1. cbn [mbind res_bind].
  fold handle. rewrite Hloop. unfold ps.
  set (e0 := set_e_counter _ _).
  replace (set_e_pool nw_handle_pool_new (set_e_log (command_channel_log_new true true) e)) with e0
    by (unfold e0; by destruct e).
  rewrite foldM_fmap.
  change (λ x, (λ p e, replay_command apis api_replay (msg_of (fst p)) (msg_of (snd p)) e) (reset_pair x))
    with (λ (p : lrec * lrec) e, replay_command apis api_replay (msg_of (fst p)) (msg_of (snd p)) e).
  destruct (foldM _ (replay_pairs rs idx) e0) as [e'|]; cbn [mbind res_bind]; [|done].
  by destruct (send_internal _ _ chan h3) as [[chan' h']|].
Qed.

(** A log with a call and its return, recorded for the global object. *)
Definition sample_call : lrec := mk_lrec 0 (mk_base 7 1 3 50 0 0 42 138 0 0 (replicate 8 0)) [1; 2].
Definition sample_ret : lrec := mk_lrec 0 (mk_base 7 1 3 50 0 0 43 138 0 0 (replicate 8 0)) [3; 4].
Definition sample_env : env unit :=
  mk_env nw_handle_pool_new
    (mk_log (log_bytes [sample_call; sample_ret]) 308 0 true true) (counter_init 1)
    {[ NULL := set_recorded_calls (Some [(0, 154)]) metadata_zero ]} 0 [] tt.
Definition start_migration : command :=
  mk_cmd 0 (mk_base 0 1 3 50 0 0 COMMAND_START_MIGRATION 136 0 0 (replicate 8 0)) [].

Lemma sample_records_wf : Forall lrec_wf [sample_call; sample_ret].
Proof.
  repeat constructor; unfold in_range, in_srange; cbn; lia.
Qed.

Lemma migration_replays_calls_witness :
  let H1 := pair_sort in let H2 := key_order in
  let replay := λ (_ : Z) (_ _ : message) (e : env unit), Ok (set_end_flag (e_end_flag e + 1) e) in
  let apis := {[ 7 := mk_ch 5 5 NULL ]} in
  let rs := [sample_call; sample_ret] in
  let roots := NULL :: nw_handle_pool_get_live_handles (e_pool sample_env) in
  ∃ idx h' a, a ∉ live heap_empty ∧ live h' = {[a]} ∪ live heap_empty ∧
    StronglySorted (λ p q, log_offset rs (fst p) < log_offset rs (fst q)) idx ∧
    (∀ p, p ∈ idx → ∃ x, reachable (e_md sample_env) roots x ∧
       pair_offsets rs p ∈ calls_in (e_md sample_env) x) ∧
    (∀ x p, reachable (e_md sample_env) roots x → p ∈ calls_in (e_md sample_env) x →
      ∃ q, q ∈ idx ∧ log_offset rs (fst q) = fst p) ∧
    internal_api_handler apis replay (λ _ _ e, Ok e) (λ _ _, None)
      (command_channel_log_new true true) 2 (command_channel_log_new true true) heap_empty
      start_migration sample_env =
      (e' ← foldM (λ p e, replay_command apis replay (msg_of (fst p)) (msg_of (snd p)) e)
              (replay_pairs rs idx)
              (set_e_pool nw_handle_pool_new
                 (set_e_log (command_channel_log_new true true) sample_env));
       '(chan, h) ← send_internal COMMAND_END_MIGRATION (Some 50)
                      (command_channel_log_new true true) h';
       Ok (chan, h, e')).
Proof.
  intros H1 H2 replay apis rs roots.
  apply (migration_replays_calls (command_channel_log_new true true) apis replay (λ _ _ e, Ok e)
    (λ _ _, None) 1 (command_channel_log_new true true) heap_empty start_migration sample_env rs 0).
  - reflexivity.
  - reflexivity.
  - split_and!; [reflexivity|reflexivity|cbn; lia|apply sample_records_wf|reflexivity|reflexivity].
  - unfold rs. rewrite !Forall_cons, Forall_nil. unfold lrec_sized. by split_and!; vm_compute.
  - vm_compute. reflexivity.
  - vm_compute. reflexivity.
  - intros a Ha. cbn in Ha. set_solver.
  - intros x m _ Hm. cbn in Hm. apply lookup_singleton_Some in Hm as [<- <-]. reflexivity.
  - intros x p Hp. unfold calls_in in Hp. cbn [e_md sample_env] in Hp.
    destruct (_ !! x) as [m|] eqn:Hm in Hp; [|by apply elem_of_nil in Hp].
    apply lookup_singleton_Some in Hm as [<- <-]. apply list_elem_of_singleton in Hp as ->.
    exists 0%nat, 1%nat, sample_call, sample_ret. split_and!; try reflexivity; discriminate.
Defined.

(** C40. Migration with explicit state frees a command twice.  [handle_command] frees the command it
    handles; the replay loop of COMMAND_START_MIGRATION frees it again.  So as soon as the
    transferred log reaches a REPLACE_EXPLICIT_STATE command that is handled successfully, the
    loop ends in undefined behaviour. *)
Theorem replace_state_double_free `{PtrArraySort} `{HashOrder Z} {L M} {mc : Channel M} (mchan : M)
    (apis : gmap Z command_handler_t) (api_replay : Z → message → message → env L → res (env L))
    (api_handle : Z → message → env L → res (env L)) (extract_fn : Z → Z → option (list Z))
    (n fuel : nat) (chan : command_channel_log) (h : heap) (e : env L) (all : list lrec) (i : nat)
    (r : lrec) (call : Z * Z * list Z) :
  log_repr chan all i → all !! i = Some r → (∀ a, a ∈ live h → a < next_addr h) →
  api_id (lr_base r) = COMMAND_HANDLER_API →
  command_id (lr_base r) = COMMAND_HANDLER_REPLACE_EXPLICIT_STATE →
  ch_handle (get_api apis COMMAND_HANDLER_API) = internal_api_handler_fn →
  ava_handle_replace_explicit_state (e_md e) (e_pool e) chan (lrec_cmd (next_addr h) r) = Ok call →
  handle_command apis api_replay api_handle extract_fn mchan (S n) chan (snd (malloc h))
    (lrec_cmd (next_addr h) r) e =
    Ok (chan, mk_heap (live h) (next_addr h + 1), add_replaced call e) ∧
  replay_loop apis api_replay (handle_command apis api_replay api_handle extract_fn mchan (S n))
    (S fuel) chan h e = Stop (Undefined "free of a block that is not allocated").
Proof.
  intros Hr Hl Hfresh Hapi Hcid Hreg Hrep. pose proof Hr as (Hc & Hro & Hi & Hall & Hfd & Hd).
  assert (∀ c : command_channel_log, handle_command apis api_replay api_handle extract_fn mchan (S n) c
    (snd (malloc h)) (lrec_cmd (next_addr h) r) e =
    Ok (c, mk_heap (live h) (next_addr h + 1), add_replaced call e)) as Hh.
  { intros c. unfold handle_command. cbn [lrec_cmd cmd_base]. rewrite Hapi, Hreg.
    change (internal_api_handler_fn =? NULL) with false.
    change (internal_api_handler_fn =? internal_api_handler_fn) with true.
    cbn [negb c_assert mbind res_bind internal_api_handler lrec_cmd cmd_base]. rewrite Hapi, Hcid, Z.eqb_refl.
    cbn [c_assert mbind res_bind].
    change (COMMAND_HANDLER_REPLACE_EXPLICIT_STATE =? COMMAND_HANDLER_SHUTDOWN_API) with false.
    change (COMMAND_HANDLER_REPLACE_EXPLICIT_STATE =? COMMAND_START_MIGRATION) with false.
    change (COMMAND_HANDLER_REPLACE_EXPLICIT_STATE =? COMMAND_END_MIGRATION) with false.
    change (COMMAND_HANDLER_REPLACE_EXPLICIT_STATE =? COMMAND_HANDLER_REPLACE_EXPLICIT_STATE)
      with true. cbn iota.
    change (ava_handle_replace_explicit_state (e_md e) (e_pool e) c _) with
      (ava_handle_replace_explicit_state (e_md e) (e_pool e) chan (lrec_cmd (next_addr h) r)).
    rewrite Hrep. cbn [mbind res_bind].
    unfold command_channel_free_command, vtable, log_channel.
    cbn [vt_free_command command_channel_log_vtable]. unfold command_channel_load_free_command.
    change (COMMAND_HANDLER_API =? COMMAND_HANDLER_API) with true. cbn [c_assert mbind res_bind].
    change (cmd_addr (lrec_cmd (next_addr h) r)) with (fst (malloc h)).
    by rewrite (free_malloc h Hfresh). }
  split; [apply Hh|].
  destruct (load_at chan h all i r (-1)) as (c1 & Hload & _); try done.
  { by eapply Forall_lookup_1. }
  cbn [replay_loop]. unfold command_channel_receive_command, vtable, log_channel.
  cbn [vt_receive_command command_channel_log_vtable]. unfold command_channel_load_next_command.
  rewrite Hload. cbn [mbind res_bind option_map fst].
  change (cmd_base (lrec_cmd (next_addr h) r)) with (lr_base r). rewrite Hapi, Hcid.
  change (COMMAND_HANDLER_API =? COMMAND_HANDLER_API) with true.
  change (COMMAND_HANDLER_REPLACE_EXPLICIT_STATE =? COMMAND_END_MIGRATION) with false. cbn iota.
  rewrite Hh. cbn [mbind res_bind]. unfold command_channel_free_command, vtable.
  cbn [vt_free_command command_channel_log_vtable]. unfold command_channel_load_free_command, c_free.
  cbn [cmd_addr lrec_cmd live]. rewrite decide_False; [done|]. intros Ha%Hfresh. lia.
Qed.

(** A log whose only record is the explicit state of object 400 (identifier [sample_id]). *)
Definition sample_state_rec : lrec :=
  mk_lrec 0 (mk_base 0 1 3 0 0 0 COMMAND_HANDLER_REPLACE_EXPLICIT_STATE 160 160 3 (replicate 8 0))
    (le_bytes 8 sample_id ++ le_bytes 8 160 ++ le_bytes 8 3 ++ [7; 8; 9]).
Definition sample_state_log : command_channel_log :=
  mk_log (log_bytes [sample_state_rec]) 0 0 true true.
Definition sample_state_env : env unit :=
  mk_env (mk_pool {[sample_id := 400]} {[400 := sample_id]}) sample_state_log (counter_init 1)
    sample_target 0 [] tt.

Lemma replace_state_double_free_witness :
  let H1 := pair_sort in let H2 := key_order in
  let apis := {[ 0 := mk_ch NULL internal_api_handler_fn NULL ]} in
  let handle := handle_command apis (λ _ _ _ e, Ok e) (λ _ _ e, Ok e) (λ _ _, None)
                  (command_channel_log_new true true) 1 in
  handle sample_state_log (snd (malloc heap_empty))
    (lrec_cmd (next_addr heap_empty) sample_state_rec) sample_state_env =
    Ok (sample_state_log, mk_heap (live heap_empty) (next_addr heap_empty + 1),
        add_replaced (6, 400, [7; 8; 9]) sample_state_env) ∧
  replay_loop apis (λ _ _ _ e, Ok e) handle 2 sample_state_log heap_empty sample_state_env =
    Stop (Undefined "free of a block that is not allocated").
Proof.
  intros H1 H2 apis handle.
  apply (replace_state_double_free (command_channel_log_new true true) apis (λ _ _ _ e, Ok e)
    (λ _ _ e, Ok e) (λ _ _, None) 0 1 sample_state_log heap_empty sample_state_env
    [sample_state_rec] 0 sample_state_rec (6, 400, [7; 8; 9])).
  - split_and!; [reflexivity|reflexivity|cbn; lia| |reflexivity|reflexivity].
    rewrite Forall_singleton. split; [|split; [unfold in_range; cbn; lia|reflexivity]].
    unfold base_wf, in_range, in_srange. cbn [lr_base sample_state_rec api_id vm_id command_type
      thread_id original_thread_id flags command_id command_size data_region region_size reserved_area].
    unfold COMMAND_HANDLER_REPLACE_EXPLICIT_STATE.
    split_and!; try (cbn; lia); try done. apply Forall_replicate. lia.
  - reflexivity.
  - intros a Ha. cbn in Ha. set_solver.
  - reflexivity.
  - reflexivity.
  - reflexivity.
  - vm_compute. reflexivity.
Defined.
