(* ===== verification/Batching.v ===== *)
(** * Command batching (guestlib/extensions/cmd_batching.c, worker/extensions/cmd_batching.c)

    The guest queues commands for a batch processing thread, which sends a batch of them in one
    call of the generated stub [__do_batch_emit]; the stub makes the worker run
    [__do_batch_execute], which takes the batch apart.  What the thread gives to the transport is
    recorded as a list of outputs. *)

From S2P Require Import Prelude Channel.
Local Open Scope Z_scope.

Definition BATCH_SIZE : Z := 50.
Definition BATCH_TIME_OUT_US : Z := 10000.

(** ** Guest: state *)

Record command_wrapper := mk_wrap {
  w_cmd : command;
  w_chan : Z;
  w_is_async : Z
}.

(** [pending_cmds] and [active_cmds] are FIFO queues, the head is popped first. *)
Record command_batch := mk_batch {
  pending_cmds : list command_wrapper;
  active_cmds : list command;
  running : Z
}.

(** What leaves the thread: a command sent on a channel, or a batch given to the stub. *)
Inductive output :=
  | OutCommand (chan : Z) (cmd : command)
  | OutBatch (buffer : list Z).

(** GTimer, in microseconds of the monotonic clock; the first argument is the clock. *)
Record gtimer := mk_timer {
  tm_start : Z;
  tm_end : Z;
  tm_active : bool
}.

Definition G_USEC_PER_SEC : Z := 1000000.
Definition g_timer_new (now : Z) : gtimer := mk_timer now 0 true.
Definition g_timer_start (now : Z) (t : gtimer) : gtimer := mk_timer now (tm_end t) true.
Definition g_timer_stop (now : Z) (t : gtimer) : gtimer := mk_timer (tm_start t) now false.
Definition g_timer_continue (now : Z) (t : gtimer) : gtimer :=
  mk_timer (now - (tm_end t - tm_start t)) (tm_end t) true.

(** [g_timer_elapsed (t, NULL) >= v]: the function returns seconds.  With the quotient rounded to
    a double this is the comparison of the microseconds. *)
Definition g_timer_elapsed_ge (now : Z) (t : gtimer) (v : Z) : bool :=
  v * G_USEC_PER_SEC <=? (if tm_active t then now else tm_end t) - tm_start t.

(** ** Guest: operations *)

(** [cmd->command_size + cmd->region_size], a size_t. *)
Definition total_size (b : command_base) : Z := u64 (command_size b + region_size b).

Definition batch_emit_size (cmds : list command) : Z :=
  foldl (λ acc c, u64 (acc + total_size (cmd_base c))) 0 cmds.

(** One round of the copying loop: the buffer, the offset, the heap. *)
Definition batch_emit_copy (c : command) (st : list Z * Z * heap) : res (list Z * Z * heap) :=
  let '(buf, offset, h) := st in
  data ← read_bytes (total_size (cmd_base c)) (cmd_bytes c);
  buf ← mem_copy offset data buf;
  h ← c_free (cmd_addr c) h;
  Ok (buf, u64 (offset + total_size (cmd_base c)), h).

(** The commands go from [active_cmds] to the head of [queue] and are taken from its tail.  The
    new buffer's bytes are all overwritten. *)
Definition batch_emit (active : list command) (h : heap) : res (output * heap) :=
  let queue := foldl (λ q c, c :: q) [] active in
  let total := batch_emit_size active in
  '(buf, offset, h) ← foldM batch_emit_copy (rev queue) (replicate (Z.to_nat total) 0, 0, h);
  _ ← c_assert (offset =? total) "offset == __total_buffer_size";
  Ok (OutBatch buf, h).

Definition batch_insert_command (b : command_batch) (cmd : command) (chan is_async : Z)
    : command_batch :=
  mk_batch (pending_cmds b ++ [mk_wrap cmd chan is_async]) (active_cmds b) (running b).

Definition is_sync (w : option command_wrapper) : bool :=
  match w with Some w => w_is_async w =? 0 | None => false end.

(** One iteration of the loop of [batch_process_thread] once [running] was tested.  [thread_id] is
    the thread's own identifier; [running'] is the flag after the wait for a command; [t1] and [t2]
    are the clock when the timer is stopped and when it is started again or continued. *)
Definition batch_process_iteration (thread_id running' t1 t2 : Z) (b : command_batch)
    (timer : gtimer) (h : heap) : res (list output * command_batch * gtimer * heap) :=
  let wrap := head (pending_cmds b) in
  let pending := tail (pending_cmds b) in
  if running' =? 0 then Ok ([], mk_batch pending (active_cmds b) 0, timer, h) else
  match wrap, is_sync wrap && (Z.of_nat (length (active_cmds b)) =? 0) with
  | Some w, true =>
      Ok ([OutCommand (w_chan w) (upd_base (set_thread_id thread_id) (w_cmd w))],
          mk_batch pending (active_cmds b) running', g_timer_start t2 timer, h)
  | _, _ =>
      let active := active_cmds b ++ from_option (λ w, [w_cmd w]) [] wrap in
      let timer := g_timer_stop t1 timer in
      if is_sync wrap || (BATCH_SIZE <=? Z.of_nat (length active))
         || g_timer_elapsed_ge t1 timer BATCH_TIME_OUT_US then
        '(out, h) ← batch_emit active h;
        Ok ([out], mk_batch pending [] running', g_timer_start t2 timer, h)
      else Ok ([], mk_batch pending active running', g_timer_continue t2 timer, h)
  end.

(** [cmd_batch_thread_init]: before the thread has started, and after its prologue. *)
Definition cmd_batch_thread_init : command_batch := mk_batch [] [] 0.
Definition batch_process_thread_start (now : Z) (b : command_batch) : command_batch * gtimer :=
  (mk_batch (pending_cmds b) (active_cmds b) 1, g_timer_start now (g_timer_new now)).

(** [cmd_batch_thread_fini]: the thread is cancelled, [active_cmds] is destroyed with its
    elements; [pending_cmds] is leaked. *)
Definition cmd_batch_thread_fini (b : command_batch) (h : heap) : res heap :=
  foldM (λ c h, c_free (cmd_addr c) h) (active_cmds b) h.

(** ** Worker *)

(** The static variables of [__handle_command_cudart_opt_single]. *)
Record single_statics := mk_st {
  st_chan : Z;
  st_handle_pool : Z;
  st_log : Z
}.

Section worker.
Context {E : Type}.

(** The generated handlers of the two API specifications, weak symbols: channel, pool, log, the
    command's header and the bytes from the header's end to the end of the buffer. *)
Definition api_handler : Type := Z → Z → Z → command_base → list Z → E → res E.
Variables (onnx_opt tf_opt : option api_handler).

Definition __handle_command_cudart_opt_single (chan pool log : Z) (cmd : option (list Z))
    (st : single_statics) (e : E) : res (single_statics * E) :=
  let st := if negb (chan =? NULL) then mk_st chan pool log else st in
  match cmd with
  | None => Ok (st, e)
  | Some bytes =>
      _ ← c_assert (negb (st_chan st =? NULL)) "Command channel has not been set";
      hdr ← read_bytes (Z.of_nat sizeof_command_base) bytes;
      let call (f : api_handler) :=
        f (st_chan st) (st_handle_pool st) (st_log st) (base_of_bytes hdr)
          (drop sizeof_command_base bytes) e in
      match onnx_opt, tf_opt with
      | Some f, _ | None, Some f => e ← call f; Ok (st, e)
      | None, None => Ok (st, e)
      end
  end.

(** The loop of [__do_batch_execute]; [offset] is compared as a size_t. *)
Fixpoint batch_execute_loop (fuel : nat) (offset total : Z) (buf : list Z) (st : single_statics)
    (e : E) : res (single_statics * E) :=
  match fuel with
  | O => Stop (Blocked "fuel")
  | S fuel =>
      if offset <? total then
        let bytes := drop (Z.to_nat offset) buf in
        hdr ← read_bytes (Z.of_nat sizeof_command_base) bytes;
        let offset := u64 (offset + total_size (base_of_bytes hdr)) in
        '(st, e) ← __handle_command_cudart_opt_single NULL NULL NULL (Some bytes) st e;
        batch_execute_loop fuel offset total buf st e
      else Ok (st, e)
  end.

Definition __do_batch_execute (fuel : nat) (buf : list Z) (total : Z) (st : single_statics) (e : E)
    : res (single_statics * E) := batch_execute_loop fuel 0 total buf st e.

Definition __do_batch_emit := __do_batch_execute.

End worker.

(** ** Runs of the guest and of the worker *)

(** A call of [batch_insert_command], or an iteration of the thread, in the order in which they
    take effect. *)
Inductive batch_op :=
  | Insert (w : command_wrapper)
  | Iterate (t1 t2 : Z).

Definition batch_state : Type := command_batch * gtimer * heap.

Definition batch_step (tid : Z) (op : batch_op) (s : batch_state) : res (list output * batch_state) :=
  let '(b, timer, h) := s in
  match op with
  | Insert w => Ok ([], (batch_insert_command b (w_cmd w) (w_chan w) (w_is_async w), timer, h))
  | Iterate t1 t2 =>
      '(out, b, timer, h) ← batch_process_iteration tid (running b) t1 t2 b timer h;
      Ok (out, (b, timer, h))
  end.

Fixpoint batch_run (tid : Z) (ops : list batch_op) (s : batch_state)
    : res (list output * batch_state) :=
  match ops with
  | [] => Ok ([], s)
  | op :: ops =>
      '(out, s) ← batch_step tid op s;
      '(outs, s) ← batch_run tid ops s;
      Ok (out ++ outs, s)
  end.

Definition inserted_wraps (ops : list batch_op) : list command_wrapper :=
  omap (λ op, match op with Insert w => Some w | Iterate _ _ => None end) ops.
Definition inserted (ops : list batch_op) : list command := w_cmd <$> inserted_wraps ops.

(** What the worker does with the outputs: a single command reaches the API's handler, a batch
    is taken apart. *)
Definition worker_handle {E} (onnx_opt tf_opt : option (@api_handler E)) (f : api_handler)
    (out : output) (se : single_statics * E) : res (single_statics * E) :=
  let '(st, e) := se in
  match out with
  | OutCommand _ c =>
      e ← f (st_chan st) (st_handle_pool st) (st_log st) (cmd_base c) (cmd_rest c) e; Ok (st, e)
  | OutBatch buf =>
      __do_batch_execute onnx_opt tf_opt (S (length buf)) buf (Z.of_nat (length buf)) st e
  end.

(** A block whose size is the one its header gives, small enough for sums of sizes. *)
Definition cmd_ok (c : command) : Prop :=
  base_wf (cmd_base c) ∧
  Z.of_nat (length (cmd_bytes c)) = command_size (cmd_base c) + region_size (cmd_base c) ∧
  command_size (cmd_base c) + region_size (cmd_base c) < 2 ^ 56.

Definition batch_bytes (cmds : list command) : list Z := mjoin (cmd_bytes <$> cmds).

(** How insertions leave the guest: one alone, or several in a batch. *)
Inductive handover :=
  | Alone (w : command_wrapper)
  | Batched (ws : list command_wrapper).

Definition members (g : handover) : list command_wrapper :=
  match g with Alone w => [w] | Batched ws => ws end.

(** The commands the worker is to handle: batched ones as they were inserted, one that is sent
    alone under the batch thread's identifier. *)
Definition handed (tid : Z) (g : handover) : list command :=
  match g with
  | Alone w => [upd_base (set_thread_id tid) (w_cmd w)]
  | Batched ws => w_cmd <$> ws
  end.

(** Only a synchronous command is sent alone, on its own channel; a synchronous command ends the
    batch it is in, and no batch has more than BATCH_SIZE commands. *)
Definition handover_ok (tid : Z) (g : handover) (out : output) : Prop :=
  match g with
  | Alone w =>
      w_is_async w = 0 ∧ out = OutCommand (w_chan w) (upd_base (set_thread_id tid) (w_cmd w))
  | Batched ws =>
      out = OutBatch (batch_bytes (w_cmd <$> ws)) ∧ Z.of_nat (length ws) ≤ BATCH_SIZE ∧
      Forall (λ w, w_is_async w ≠ 0) (removelast ws)
  end.
Definition addrs (cmds : list command) : list Z := cmd_addr <$> cmds.

(** ** Lemmas *)

Lemma batch_bytes_cons c cmds : batch_bytes (c :: cmds) = cmd_bytes c ++ batch_bytes cmds.
Proof. done. Qed.

Lemma total_size_ok c : cmd_ok c → total_size (cmd_base c) = Z.of_nat (length (cmd_bytes c)).
Proof. intros (_ & Hl & Hb). unfold total_size. rewrite Hl. apply wrap_small. unfold in_range. lia. Qed.

Lemma batch_bytes_bound cmds :
  Forall cmd_ok cmds →
  Z.of_nat (length (batch_bytes cmds)) ≤ Z.of_nat (length cmds) * 2 ^ 56.
Proof.
  induction 1 as [|c cmds (_ & Hl & Hb) _ IH]; [cbn; lia|].
  rewrite batch_bytes_cons, length_app. cbn [length]. lia.
Qed.

Lemma emit_size_eq cmds acc :
  Forall cmd_ok cmds → 0 ≤ acc → acc + Z.of_nat (length (batch_bytes cmds)) < 2 ^ 63 →
  foldl (λ acc c, u64 (acc + total_size (cmd_base c))) acc cmds =
    acc + Z.of_nat (length (batch_bytes cmds)).
Proof.
  intros Hc. revert acc. induction Hc as [|c cmds Hc _ IH]; intros acc Ha Hb; [cbn; lia|].
  rewrite batch_bytes_cons, length_app in *. cbn [foldl].
  rewrite (total_size_ok c Hc), (wrap_small 64) by (unfold in_range; lia).
  rewrite IH; lia.
Qed.

Lemma rev_push_head {A} (l : list A) : rev (foldl (λ q c, c :: q) [] l) = l.
Proof.
  assert (∀ acc, foldl (λ q c, c :: q) acc l = rev l ++ acc) as ->.
  { induction l as [|x l IH]; intros acc; [done|]. cbn. by rewrite IH, <- app_assoc. }
  by rewrite app_nil_r, rev_involutive.
Qed.

Lemma emit_copy_one c pre n h :
  cmd_ok c → cmd_addr c ∈ live h → Z.of_nat (length pre + length (cmd_bytes c)) < 2 ^ 63 →
  batch_emit_copy c (pre ++ replicate (length (cmd_bytes c) + n) 0, Z.of_nat (length pre), h) =
    Ok ((pre ++ cmd_bytes c) ++ replicate n 0, Z.of_nat (length (pre ++ cmd_bytes c)),
        mk_heap (live h ∖ {[cmd_addr c]}) (next_addr h)).
Proof.
  intros Hc Hl Hb. unfold batch_emit_copy.
  rewrite (total_size_ok c Hc), read_bytes_all by done. cbn [mbind res_bind].
  unfold mem_copy. rewrite !length_app, length_replicate.
  rewrite (proj2 (Z.leb_le _ _)) by lia.
  cbn [mbind res_bind]. unfold c_free. rewrite decide_True by done.
  cbn [mbind res_bind]. rewrite replicate_add, Nat2Z.id, pwrite_mid by (rewrite ?length_replicate; done).
  rewrite wrap_small by (unfold in_range; lia). by rewrite app_assoc, <- Nat2Z.inj_add.
Qed.

Lemma emit_copy_loop cmds : ∀ pre h,
  Forall cmd_ok cmds → NoDup (addrs cmds) → (∀ a, a ∈ addrs cmds → a ∈ live h) →
  Z.of_nat (length pre + length (batch_bytes cmds)) < 2 ^ 63 →
  foldM batch_emit_copy cmds
    (pre ++ replicate (length (batch_bytes cmds)) 0, Z.of_nat (length pre), h) =
  Ok (pre ++ batch_bytes cmds, Z.of_nat (length (pre ++ batch_bytes cmds)),
      mk_heap (live h ∖ list_to_set (addrs cmds)) (next_addr h)).
Proof.
  induction cmds as [|c cmds IH]; intros pre h Hok Hnd Hlive Hb.
  { cbn. rewrite app_nil_r. do 2 f_equal. destruct h; cbn. f_equal. set_solver. }
  apply Forall_cons in Hok as [Hc Hok]. apply NoDup_cons in Hnd as [Hnc Hnd].
  rewrite batch_bytes_cons, length_app in *. cbn [foldM].
  rewrite emit_copy_one by (done || lia || (apply Hlive; set_solver)). cbn [mbind res_bind].
  rewrite IH; try done.
  - rewrite <- !app_assoc. cbn. do 3 f_equal. set_solver.
  - intros a Ha. cbn. assert (a ≠ cmd_addr c) by (intros ->; done).
    specialize (Hlive a). set_solver.
  - rewrite length_app. lia.
Qed.

Lemma batch_emit_eq cmds h :
  Forall cmd_ok cmds → NoDup (addrs cmds) → (∀ a, a ∈ addrs cmds → a ∈ live h) →
  Z.of_nat (length (batch_bytes cmds)) < 2 ^ 63 →
  batch_emit cmds h = Ok (OutBatch (batch_bytes cmds),
    mk_heap (live h ∖ list_to_set (addrs cmds)) (next_addr h)).
Proof.
  intros Hok Hnd Hl Hb. unfold batch_emit, batch_emit_size.
  rewrite rev_push_head, emit_size_eq by (done || lia). rewrite Z.add_0_l, Nat2Z.id.
  pose proof (emit_copy_loop cmds [] h Hok Hnd Hl Hb) as Hloop. cbn [length app] in Hloop.
  change (Z.of_nat 0) with 0 in Hloop. rewrite Hloop.
  cbn [mbind res_bind]. by rewrite Z.eqb_refl.
Qed.

(** The command at an offset of a batch. *)
Lemma batch_header c tail :
  cmd_ok c → read_bytes (Z.of_nat sizeof_command_base) (cmd_bytes c ++ tail) = Ok (base_bytes (cmd_base c)).
Proof.
  intros (Hwf & _). unfold cmd_bytes. rewrite <- app_assoc.
  apply read_bytes_prefix. by rewrite length_base_bytes by apply Hwf.
Qed.

Section execute.
Context {E : Type} (onnx_opt tf_opt : option (@api_handler E)) (f : @api_handler E).
Hypothesis chosen : match onnx_opt with Some g => Some g | None => tf_opt end = Some f.
(** The handler reads the command it is given and nothing after it. *)
Hypothesis reads_own : ∀ chan pool log c tail e,
  cmd_ok c → f chan pool log (cmd_base c) (cmd_rest c ++ tail) e =
    f chan pool log (cmd_base c) (cmd_rest c) e.

Definition handle_one (st : single_statics) (c : command) (e : E) : res E :=
  f (st_chan st) (st_handle_pool st) (st_log st) (cmd_base c) (cmd_rest c) e.

Lemma single_eq c tail st e :
  cmd_ok c → st_chan st ≠ NULL →
  __handle_command_cudart_opt_single onnx_opt tf_opt NULL NULL NULL
    (Some (cmd_bytes c ++ tail)) st e = (e' ← handle_one st c e; Ok (st, e')).
Proof.
  intros Hc Hst. unfold __handle_command_cudart_opt_single. cbn [negb NULL Z.eqb].
  rewrite (proj2 (Z.eqb_neq _ _) Hst). cbn [negb c_assert mbind res_bind].
  rewrite (batch_header c tail Hc). cbn [mbind res_bind].
  pose proof Hc as (Hwf & _).
  assert (base_of_bytes (base_bytes (cmd_base c)) = cmd_base c) as ->.
  { rewrite <- (app_nil_r (base_bytes _)). by apply base_of_bytes_of_base. }
  assert (drop sizeof_command_base (cmd_bytes c ++ tail) = cmd_rest c ++ tail) as ->.
  { unfold cmd_bytes. rewrite <- app_assoc.
    replace sizeof_command_base with (length (base_bytes (cmd_base c)));
      [apply drop_app_length|by rewrite length_base_bytes by apply Hwf]. }
  unfold handle_one. rewrite <- (reads_own _ _ _ c tail e Hc).
  destruct onnx_opt; [by simplify_eq/=|]. simplify_eq/=. done.
Qed.

Lemma execute_loop_eq cmds : ∀ fuel pre st e,
  Forall cmd_ok cmds → st_chan st ≠ NULL → (length cmds < fuel)%nat →
  Z.of_nat (length (pre ++ batch_bytes cmds)) < 2 ^ 63 →
  batch_execute_loop onnx_opt tf_opt fuel (Z.of_nat (length pre))
    (Z.of_nat (length (pre ++ batch_bytes cmds))) (pre ++ batch_bytes cmds) st e =
  (e' ← foldM (handle_one st) cmds e; Ok (st, e')).
Proof.
  induction cmds as [|c cmds IH]; intros fuel pre st e Hok Hst Hf Hb;
    (destruct fuel as [|fuel]; [cbn in Hf; lia|]); cbn [batch_execute_loop].
  { change (batch_bytes []) with (@nil Z). rewrite app_nil_r, Z.ltb_irrefl. done. }
  apply Forall_cons in Hok as [Hc Hok]. rewrite batch_bytes_cons in *.
  pose proof Hc as (Hwf & Hl & _). assert (0 < length (cmd_bytes c))%nat as Hpos.
  { unfold cmd_bytes. rewrite length_app, length_base_bytes by apply Hwf. cbn. lia. }
  rewrite !length_app in *. rewrite (proj2 (Z.ltb_lt _ _)) by lia.
  rewrite Nat2Z.id, drop_app_length, (batch_header c _ Hc). cbn [mbind res_bind].
  rewrite single_eq by done. cbn [foldM].
  destruct (handle_one st c e) as [e1|]; cbn [mbind res_bind]; [|done].
  assert (base_of_bytes (base_bytes (cmd_base c)) = cmd_base c) as ->.
  { rewrite <- (app_nil_r (base_bytes _)). by apply base_of_bytes_of_base. }
  rewrite (total_size_ok c Hc), wrap_small by (unfold in_range; lia).
  specialize (IH fuel (pre ++ cmd_bytes c) st e1). rewrite <- app_assoc, !length_app in IH.
  rewrite <- Nat2Z.inj_add. apply IH; try done; cbn in Hf; lia.
Qed.

(** Commands the guest has not given to the transport yet. *)
Definition outstanding (b : command_batch) : list command :=
  active_cmds b ++ (w_cmd <$> pending_cmds b).

Record batch_inv (b : command_batch) (h : heap) (future : list command) : Prop := {
  bi_running : running b ≠ 0;
  bi_active : Z.of_nat (length (active_cmds b)) < BATCH_SIZE;
  bi_ok : Forall cmd_ok (outstanding b ++ future);
  bi_nodup : NoDup (addrs (outstanding b ++ future));
  bi_live : ∀ a, a ∈ addrs (outstanding b ++ future) → a ∈ live h
}.

(** The outputs make the worker handle exactly [done]. *)
Definition delivers (outs : list output) (done : list command) : Prop :=
  ∀ st e, st_chan st ≠ NULL →
    foldM (worker_handle onnx_opt tf_opt f) outs (st, e) =
      (e' ← foldM (handle_one st) done e; Ok (st, e')).

Lemma delivers_app o1 o2 d1 d2 :
  delivers o1 d1 → delivers o2 d2 → delivers (o1 ++ o2) (d1 ++ d2).
Proof.
  intros H1 H2 st e Hst. rewrite !foldM_app, H1 by done.
  destruct (foldM (handle_one st) d1 e); cbn [mbind res_bind]; [by apply H2|done].
Qed.

Lemma delivers_batch cmds :
  Forall cmd_ok cmds → Z.of_nat (length (batch_bytes cmds)) < 2 ^ 63 →
  delivers [OutBatch (batch_bytes cmds)] cmds.
Proof.
  intros Hok Hb st e Hst. cbn [foldM worker_handle]. unfold __do_batch_execute.
  pose proof (execute_loop_eq cmds (S (length (batch_bytes cmds))) [] st e Hok Hst) as Hloop.
  cbn [app length] in Hloop. change (Z.of_nat 0) with 0 in Hloop. rewrite Hloop; [| |done].
  - by destruct (foldM (handle_one st) cmds e).
  - assert (length cmds ≤ length (batch_bytes cmds))%nat; [|lia]. clear -Hok.
    induction Hok as [|c cmds (Hwf & _) _ IH]; [done|].
    rewrite batch_bytes_cons, length_app. unfold cmd_bytes at 1.
    rewrite length_app, length_base_bytes by apply Hwf. cbn. lia.
Qed.

(** Emitting the [n] oldest outstanding commands. *)
Lemma batch_inv_emit b h future cmds rest :
  batch_inv b h future → outstanding b = cmds ++ (w_cmd <$> rest) →
  Z.of_nat (length cmds) ≤ BATCH_SIZE →
  batch_emit cmds h = Ok (OutBatch (batch_bytes cmds),
    mk_heap (live h ∖ list_to_set (addrs cmds)) (next_addr h)) ∧
  batch_inv (mk_batch rest [] (running b)) (mk_heap (live h ∖ list_to_set (addrs cmds)) (next_addr h))
    future ∧
  delivers [OutBatch (batch_bytes cmds)] cmds.
Proof.
  intros [Hrun Hact Hok Hnd Hlive] Heq Hn. rewrite Heq, <- app_assoc in *.
  unfold addrs in Hnd, Hlive. rewrite fmap_app in Hnd, Hlive.
  apply Forall_app in Hok as [Hok Hok']. apply NoDup_app in Hnd as (Hnd & Hdis & Hnd').
  pose proof (batch_bytes_bound cmds Hok) as Hb. unfold BATCH_SIZE in Hn.
  split; [apply batch_emit_eq; try done; [set_solver|lia]|].
  split; [|apply delivers_batch; [done|lia]].
  split; try done. intros a Ha. cbn.
  change (a ∈ cmd_addr <$> (w_cmd <$> rest) ++ future) in Ha.
  apply elem_of_difference. split; [set_solver|]. rewrite elem_of_list_to_set. intros Ha'. by apply (Hdis a).
Qed.

(** The open batch in terms of what was inserted: asynchronous commands only. *)
Definition opened (aw : list command_wrapper) (b : command_batch) : Prop :=
  w_cmd <$> aw = active_cmds b ∧ Forall (λ w, w_is_async w ≠ 0) aw.

Lemma removelast_opened aw (wr : option command_wrapper) :
  Forall (λ w, w_is_async w ≠ 0) aw →
  Forall (λ w, w_is_async w ≠ 0) (removelast (aw ++ from_option (λ w, [w]) [] wr)).
Proof.
  intros Ha. destruct wr as [w|]; cbn [from_option]; [by rewrite removelast_last|].
  rewrite app_nil_r, removelast_firstn_len. by apply Forall_take.
Qed.

(** An iteration that sends nothing alone. *)
Lemma iteration_batch tid t2 b (tm : gtimer) h future aw (wr : option command_wrapper) rest c :
  batch_inv b h future → opened aw b →
  pending_cmds b = from_option (λ w, [w]) [] wr ++ rest →
  let act := active_cmds b ++ from_option (λ w, [w_cmd w]) [] wr in
  ∃ outs b' timer' h' gs aw',
    (if is_sync wr || (BATCH_SIZE <=? Z.of_nat (length act)) || c
     then '(out, h) ← batch_emit act h;
          Ok ([out], mk_batch rest [] (running b), g_timer_start t2 tm, h)
     else Ok ([], mk_batch rest act (running b), g_timer_continue t2 tm, h)) =
      Ok (outs, b', timer', h') ∧
    batch_inv b' h' future ∧ opened aw' b' ∧
    aw ++ pending_cmds b = (gs ≫= members) ++ aw' ++ pending_cmds b' ∧
    Forall2 (handover_ok tid) gs outs ∧ delivers outs (gs ≫= handed tid).
Proof.
  intros Hinv [Hmap Has] Hp act. pose proof Hinv as [Hrun Hact Hok Hnd Hlive].
  set (ws := aw ++ from_option (λ w, [w]) [] wr).
  assert (w_cmd <$> ws = act) as Hws.
  { unfold ws, act. rewrite fmap_app, Hmap. by destruct wr. }
  assert (outstanding b = act ++ (w_cmd <$> rest)) as Hout.
  { unfold outstanding, act. rewrite Hp, fmap_app, <- app_assoc. by destruct wr. }
  assert (Z.of_nat (length act) ≤ BATCH_SIZE) as Hlen.
  { unfold act, BATCH_SIZE in *. rewrite length_app. destruct wr; cbn; lia. }
  destruct (is_sync wr || _ || _) eqn:Hc.
  - destruct (batch_inv_emit b h future act rest Hinv Hout Hlen) as (-> & Hinv' & Hd).
    cbn [mbind res_bind]. eexists _, _, _, _, [Batched ws], []. split; [done|]. split; [done|].
    split; [by split|]. cbn [mbind list_bind members handed app]. rewrite !app_nil_r, Hws.
    split; [unfold ws; cbn [pending_cmds]; by rewrite Hp, app_assoc|]. split; [|done].
    constructor; [|constructor]. cbn. rewrite Hws. split; [done|].
    split; [rewrite <- (length_fmap w_cmd), Hws; done|]. by apply removelast_opened.
  - apply orb_false_iff in Hc as [[Hs Hsz]%orb_false_iff _]. apply Z.leb_gt in Hsz.
    eexists _, _, _, _, [], ws. split; [done|]. split.
    { split; try done; unfold outstanding in *; cbn [active_cmds pending_cmds]; by rewrite <- Hout. }
    split.
    { split; [done|]. apply Forall_app. split; [done|]. destruct wr as [w|]; [|done].
      constructor; [|done]. by apply Z.eqb_neq. }
    cbn [mbind list_bind app pending_cmds]. unfold ws. rewrite Hp, app_assoc.
    split; [done|]. split; [constructor|by intros st e].
Qed.

Lemma iteration_spec tid t1 t2 b timer h future aw :
  batch_inv b h future → opened aw b →
  ∃ outs b' timer' h' gs aw',
    batch_process_iteration tid (running b) t1 t2 b timer h = Ok (outs, b', timer', h') ∧
    batch_inv b' h' future ∧ opened aw' b' ∧
    aw ++ pending_cmds b = (gs ≫= members) ++ aw' ++ pending_cmds b' ∧
    Forall2 (handover_ok tid) gs outs ∧ delivers outs (gs ≫= handed tid).
Proof.
  intros Hinv Haw. pose proof Hinv as [Hrun Hact Hok Hnd Hlive].
  unfold batch_process_iteration. rewrite (proj2 (Z.eqb_neq _ _) Hrun).
  set (wr := head (pending_cmds b)). set (rest := tail (pending_cmds b)).
  assert (pending_cmds b = from_option (λ w, [w]) [] wr ++ rest) as Hp
    by (unfold wr, rest; by destruct (pending_cmds b)).
  pose proof (iteration_batch tid t2 b (g_timer_stop t1 timer) h future aw wr rest
    (g_timer_elapsed_ge t1 (g_timer_stop t1 timer) BATCH_TIME_OUT_US) Hinv Haw Hp) as Hrest.
  destruct wr as [w|]; [|apply Hrest].
  destruct (is_sync (Some w) && _) eqn:Hsolo; [|apply Hrest]. clear Hrest.
  apply andb_true_iff in Hsolo as [Hsync%Z.eqb_eq Hz%Z.eqb_eq].
  assert (active_cmds b = []) as Ha by (destruct (active_cmds b); [done|cbn in Hz; lia]).
  assert (aw = []) as -> by (destruct Haw as [Hm _]; rewrite Ha in Hm; by apply fmap_nil_inv in Hm).
  eexists _, _, _, _, [Alone w], []. split; [done|]. split.
  { unfold outstanding in *. rewrite Ha, Hp in *. cbn in Hok, Hnd, Hlive.
    split; try done; unfold outstanding; cbn [active_cmds pending_cmds app].
    - by apply Forall_cons in Hok as [_ ?].
    - by apply NoDup_cons in Hnd as [_ ?].
    - intros a Hin. apply Hlive. by right. }
  split; [by split|]. split; [by rewrite Hp|]. split; [by repeat constructor|].
  intros st e Hst. cbn. unfold handle_one. cbn. by destruct (f _ _ _ _ _ _).
Qed.

Lemma batch_run_spec tid ops : ∀ b timer h aw,
  batch_inv b h (inserted ops) → opened aw b →
  ∃ outs b' timer' h' gs aw',
    batch_run tid ops (b, timer, h) = Ok (outs, (b', timer', h')) ∧ batch_inv b' h' [] ∧
    opened aw' b' ∧
    aw ++ pending_cmds b ++ inserted_wraps ops = (gs ≫= members) ++ aw' ++ pending_cmds b' ∧
    Forall2 (handover_ok tid) gs outs ∧ delivers outs (gs ≫= handed tid).
Proof.
  induction ops as [|op ops IH]; intros b timer h aw Hinv Haw.
  { exists [], b, timer, h, [], aw. split_and!; try done. cbn. by rewrite app_nil_r. }
  destruct op as [w|t1 t2]; cbn [batch_run batch_step].
  - cbn [mbind res_bind]. destruct (IH (batch_insert_command b (w_cmd w) (w_chan w) (w_is_async w)) timer h aw)
      as (outs & b' & timer' & h' & gs & aw' & -> & Hinv' & Haw' & Hout & Hrest); [|done|].
    { destruct Hinv as [Hrun Hact Hok Hnd Hlive]. split; try done;
        unfold outstanding, batch_insert_command in *; cbn [active_cmds pending_cmds] in *;
        rewrite fmap_app, app_assoc, <- (app_assoc (_ ++ _)); done. }
    cbn [mbind res_bind]. exists outs, b', timer', h', gs, aw'. split_and!; try done; [|apply Hrest..].
    rewrite <- Hout. cbn [batch_insert_command pending_cmds]. rewrite <- app_assoc. by destruct w.
  - destruct (iteration_spec tid t1 t2 b timer h (inserted ops) aw) as
      (o1 & b1 & tm1 & h1 & g1 & aw1 & -> & Hinv1 & Haw1 & Hout1 & Hs1 & Hd1); [done..|].
    cbn [mbind res_bind]. destruct (IH b1 tm1 h1 aw1 Hinv1 Haw1)
      as (outs & b' & timer' & h' & gs & aw' & -> & Hinv' & Haw' & Hout & Hsame & Hd).
    cbn [mbind res_bind]. exists (o1 ++ outs), b', timer', h', (g1 ++ gs), aw'. rewrite !bind_app.
    split_and!; try done; [|by apply Forall2_app|by apply delivers_app].
    change (inserted_wraps (Iterate t1 t2 :: ops)) with (inserted_wraps ops).
    by rewrite app_assoc, Hout1, <- !app_assoc, Hout.
Qed.

End execute.

(** ** Properties *)

(** C15. Batching neither loses, duplicates nor reorders calls.  For every interleaving of
    insertions with iterations of the batch thread and all clock readings, what was inserted is
    split, in order, into what was handed over, the open batch and the pending commands; every
    output of the guest carries one group of the handed-over insertions: a batch of at most
    BATCH_SIZE commands, all but its last asynchronous, or one synchronous command alone, which
    carries the batch thread's identifier instead of its own.  The worker, taking batches apart
    with [__do_batch_execute], handles exactly these commands in this order, the batched ones
    unchanged; fewer than BATCH_SIZE commands, all asynchronous, are in the open batch. *)
Theorem batching_preserves_calls {E} (onnx_opt tf_opt : option (@api_handler E)) (f : @api_handler E)
    (tid now : Z) (ops : list batch_op) (h : heap) (st : single_statics) (e : E) :
  match onnx_opt with Some g => Some g | None => tf_opt end = Some f →
  (∀ chan pool log c tail e, cmd_ok c →
     f chan pool log (cmd_base c) (cmd_rest c ++ tail) e = f chan pool log (cmd_base c) (cmd_rest c) e) →
  Forall cmd_ok (inserted ops) → NoDup (addrs (inserted ops)) →
  (∀ a, a ∈ addrs (inserted ops) → a ∈ live h) → st_chan st ≠ NULL →
  let '(b, timer) := batch_process_thread_start now cmd_batch_thread_init in
  ∃ outs b' timer' h' groups active,
    batch_run tid ops (b, timer, h) = Ok (outs, (b', timer', h')) ∧
    inserted_wraps ops = (groups ≫= members) ++ active ++ pending_cmds b' ∧
    w_cmd <$> active = active_cmds b' ∧ Forall (λ w, w_is_async w ≠ 0) active ∧
    Z.of_nat (length (active_cmds b')) < BATCH_SIZE ∧
    Forall2 (handover_ok tid) groups outs ∧
    foldM (worker_handle onnx_opt tf_opt f) outs (st, e) =
      (e' ← foldM (λ c, f (st_chan st) (st_handle_pool st) (st_log st) (cmd_base c) (cmd_rest c))
              (groups ≫= handed tid) e;
       Ok (st, e')).
Proof.
  intros Hf Hown Hok Hnd Hlive Hst. cbn [batch_process_thread_start].
  destruct (batch_run_spec onnx_opt tf_opt f Hf Hown tid ops (mk_batch [] [] 1)
    (g_timer_start now (g_timer_new now)) h [])
    as (outs & b' & timer' & h' & gs & aw' & Hrun & [_ Hact _ _ _] & [Hm Ha] & Hout & Hs & Hd);
    [by split|by split|].
  exists outs, b', timer', h', gs, aw'. split_and!; try done. by apply Hd.
Qed.

(** Two asynchronous calls and a synchronous one. *)
Definition batch_cmd (addr id : Z) (rest : list Z) : command :=
  mk_cmd addr (mk_base 9 1 3 50 0 0 id (136 + Z.of_nat (length rest)) 0 0 (replicate 8 0)) rest.
Definition sample_batch_ops : list batch_op :=
  [Insert (mk_wrap (batch_cmd 1 40 [1; 2]) 5 1); Insert (mk_wrap (batch_cmd 2 41 [3]) 5 1);
   Iterate 10 11; Iterate 12 13; Insert (mk_wrap (batch_cmd 3 42 []) 5 0); Iterate 14 15].
(** A handler that records the calls it gets. *)
Definition recording_handler : @api_handler (list Z) :=
  λ _ _ _ b rest e, Ok (e ++ [command_id b]).

Lemma batch_cmd_ok addr id rest :
  in_range 64 id → Z.of_nat (length rest) < 1000 → cmd_ok (batch_cmd addr id rest).
Proof.
  intros Hid Hr. unfold in_range in Hid. split; [|split].
  - unfold base_wf, in_range, in_srange. cbn [cmd_base batch_cmd api_id vm_id command_type
      thread_id original_thread_id flags command_id command_size data_region region_size reserved_area].
    split_and!; try lia; try done. apply Forall_replicate. lia.
  - unfold cmd_bytes. rewrite length_app, length_base_bytes by done. cbn [cmd_base cmd_rest batch_cmd
      command_size region_size]. unfold sizeof_command_base. lia.
  - cbn [cmd_base batch_cmd command_size region_size]. lia.
Qed.

Lemma batching_preserves_calls_witness :
  ∃ outs b' timer' h' groups active,
    batch_run 77 sample_batch_ops
      (mk_batch [] [] 1, g_timer_start 0 (g_timer_new 0), mk_heap {[1; 2; 3]} 4) =
      Ok (outs, (b', timer', h')) ∧
    inserted_wraps sample_batch_ops = (groups ≫= members) ++ active ++ pending_cmds b' ∧
    w_cmd <$> active = active_cmds b' ∧ Forall (λ w, w_is_async w ≠ 0) active ∧
    Z.of_nat (length (active_cmds b')) < BATCH_SIZE ∧
    Forall2 (handover_ok 77) groups outs ∧
    foldM (worker_handle (Some recording_handler) None recording_handler) outs (mk_st 5 6 7, []) =
      (e' ← foldM (λ c, recording_handler 5 6 7 (cmd_base c) (cmd_rest c)) (groups ≫= handed 77) [];
       Ok (mk_st 5 6 7, e')).
Proof.
  apply (batching_preserves_calls (Some recording_handler) None recording_handler 77 0
    sample_batch_ops (mk_heap {[1; 2; 3]} 4) (mk_st 5 6 7) []).
  - reflexivity.
  - reflexivity.
  - change (inserted sample_batch_ops) with [batch_cmd 1 40 [1; 2]; batch_cmd 2 41 [3]; batch_cmd 3 42 []].
    rewrite !Forall_cons, Forall_nil.
    split_and!; try done; apply batch_cmd_ok; unfold in_range; cbn; lia.
  - by apply (bool_decide_unpack _).
  - intros a Ha. cbn in Ha. cbn. set_solver.
  - discriminate.
Defined.

(** A synchronous command is never held back: the iteration that takes one from the pending
    queue hands over every command batched before it and the command itself. *)
Theorem sync_command_flushes (tid t1 t2 : Z) (b : command_batch) (timer : gtimer) (h : heap)
    (w : command_wrapper) (rest : list command_wrapper) :
  pending_cmds b = w :: rest → w_is_async w = 0 → batch_inv b h [] →
  ∃ out timer' h',
    batch_process_iteration tid (running b) t1 t2 b timer h =
      Ok ([out], mk_batch rest [] (running b), timer', h') ∧
    out = match active_cmds b with
          | [] => OutCommand (w_chan w) (upd_base (set_thread_id tid) (w_cmd w))
          | cmds => OutBatch (batch_bytes (cmds ++ [w_cmd w]))
          end.
Proof.
  intros Hp Hs Hinv. pose proof Hinv as [Hrun Hact _ _ _].
  unfold batch_process_iteration. rewrite (proj2 (Z.eqb_neq _ _) Hrun), Hp. cbn [head tail is_sync].
  rewrite Hs. cbn [Z.eqb andb orb]. destruct (active_cmds b) as [|c cmds] eqn:Ha.
  { by eexists _, _, _. }
  cbn [length Z.of_nat Z.eqb from_option].
  destruct (batch_inv_emit (E:=unit) (Some (λ _ _ _ _ _ e, Ok e)) None (λ _ _ _ _ _ e, Ok e)
    eq_refl (λ _ _ _ _ _ _ _, eq_refl) b h [] ((c :: cmds) ++ [w_cmd w]) rest)
    as (-> & _); try done.
  - unfold outstanding. by rewrite Ha, Hp, <- app_assoc.
  - rewrite length_app. cbn. unfold BATCH_SIZE in *. cbn in Hact. lia.
  - cbn [mbind res_bind]. by eexists _, _, _.
Qed.

Lemma sync_command_flushes_witness :
  ∃ out timer' h',
    batch_process_iteration 77 1 14 15
      (mk_batch [mk_wrap (batch_cmd 3 42 []) 5 0] [batch_cmd 1 40 [1; 2]] 1) (mk_timer 0 0 true)
      (mk_heap {[1; 3]} 4) = Ok ([out], mk_batch [] [] 1, timer', h') ∧
    out = OutBatch (batch_bytes [batch_cmd 1 40 [1; 2]; batch_cmd 3 42 []]).
Proof.
  apply (sync_command_flushes 77 14 15
    (mk_batch [mk_wrap (batch_cmd 3 42 []) 5 0] [batch_cmd 1 40 [1; 2]] 1) (mk_timer 0 0 true)
    (mk_heap {[1; 3]} 4) (mk_wrap (batch_cmd 3 42 []) 5 0) []).
  - reflexivity.
  - reflexivity.
  - split; [done|done| | |].
    + change (outstanding _ ++ []) with [batch_cmd 1 40 [1; 2]; batch_cmd 3 42 []].
      rewrite !Forall_cons, Forall_nil.
      split_and!; try done; apply batch_cmd_ok; unfold in_range; cbn; lia.
    + by apply (bool_decide_unpack _).
    + intros a Ha. cbn in Ha. cbn. set_solver.
Defined.

(** The time limit of a batch is hours, not milliseconds.  [g_timer_elapsed] returns seconds
    and is compared with BATCH_TIME_OUT_US; the comment at the test promises an emission after
    10 ms.  While no command arrives and less than 10000 seconds have passed since the timer was
    started, no number of iterations emits the commands of an open batch. *)
Theorem batch_timeout_is_seconds (tid : Z) (ticks : list (Z * Z)) (b : command_batch)
    (timer : gtimer) (h : heap) :
  running b ≠ 0 → pending_cmds b = [] → Z.of_nat (length (active_cmds b)) < BATCH_SIZE →
  Forall (λ t, fst t ≤ snd t ∧ fst t - tm_start timer < 10000 * 1000000) ticks →
  ∃ timer', batch_run tid ((λ t, Iterate (fst t) (snd t)) <$> ticks) (b, timer, h) =
    Ok ([], (b, timer', h)).
Proof.
  intros Hrun Hp Hact. revert timer. induction ticks as [|[t1 t2] ticks IH]; intros timer Ht.
  { by exists timer. }
  apply Forall_cons in Ht as [[Ht1 Ht2] Ht]. cbn [fst snd] in Ht1, Ht2.
  cbn [fmap list_fmap batch_run batch_step fst snd]. unfold batch_process_iteration.
  rewrite (proj2 (Z.eqb_neq _ _) Hrun), Hp. cbn [head tail is_sync andb orb from_option].
  rewrite app_nil_r, (proj2 (Z.leb_gt _ _)) by done. cbn [orb].
  unfold g_timer_elapsed_ge. cbn [g_timer_stop tm_active tm_end tm_start].
  rewrite (proj2 (Z.leb_gt _ _)) by (unfold BATCH_TIME_OUT_US, G_USEC_PER_SEC; lia).
  cbn [mbind res_bind]. destruct (IH (g_timer_continue t2 (g_timer_stop t1 timer))) as [tm Htm].
  { eapply Forall_impl; [exact Ht|]. cbn. intros t. lia. }
  exists tm. replace (mk_batch [] (active_cmds b) (running b)) with b by (destruct b; cbn in *; by subst).
  by rewrite Htm.
Qed.

Lemma batch_timeout_is_seconds_witness :
  ∃ timer', batch_run 77 ((λ t, Iterate (fst t) (snd t)) <$> [(5000000, 5000001); (3600000000, 3600000001)])
    (mk_batch [] [batch_cmd 1 40 [1; 2]] 1, mk_timer 0 0 true, mk_heap {[1]} 2) =
    Ok ([], (mk_batch [] [batch_cmd 1 40 [1; 2]] 1, timer', mk_heap {[1]} 2)).
Proof.
  apply (batch_timeout_is_seconds 77 [(5000000, 5000001); (3600000000, 3600000001)]
    (mk_batch [] [batch_cmd 1 40 [1; 2]] 1) (mk_timer 0 0 true) (mk_heap {[1]} 2)).
  - discriminate.
  - reflexivity.
  - reflexivity.
  - rewrite !Forall_cons, Forall_nil. cbn. lia.
Defined.

(** A batch can hang the worker: [__do_batch_execute] advances by the sizes in the header it
    reads, so a header whose sizes are zero is executed again and again; no amount of fuel is
    enough. *)
Theorem batch_execute_zero_size_loops {E} (onnx_opt tf_opt : option (@api_handler E))
    (buf : list Z) (st : single_statics) (e : E) (fuel : nat) :
  (sizeof_command_base ≤ length buf)%nat →
  total_size (base_of_bytes (take sizeof_command_base buf)) = 0 →
  (∀ e, ∃ e', __handle_command_cudart_opt_single onnx_opt tf_opt NULL NULL NULL (Some buf) st e =
    Ok (st, e')) →
  __do_batch_execute onnx_opt tf_opt fuel buf (Z.of_nat (length buf)) st e = Stop (Blocked "fuel").
Proof.
  intros Hl Hz Hok. unfold __do_batch_execute. revert e. induction fuel as [|fuel IH]; intros e; [done|].
  cbn [batch_execute_loop]. unfold sizeof_command_base in Hl.
  rewrite (proj2 (Z.ltb_lt _ _)) by lia. cbn [Z.to_nat]. rewrite drop_0.
  unfold read_bytes. rewrite (proj2 (Z.leb_le _ _)) by (unfold sizeof_command_base; lia).
  cbn [mbind res_bind]. rewrite Nat2Z.id, Hz. destruct (Hok e) as [e' ->].
  cbn [mbind res_bind]. apply IH.
Qed.

Lemma batch_execute_zero_size_loops_witness :
  __do_batch_execute (Some recording_handler) None 1000
    (base_bytes (mk_base 9 1 3 50 0 0 40 0 0 0 (replicate 8 0))) 136 (mk_st 5 6 7) [] =
    Stop (Blocked "fuel").
Proof.
  apply (batch_execute_zero_size_loops (Some recording_handler) None
    (base_bytes (mk_base 9 1 3 50 0 0 40 0 0 0 (replicate 8 0))) (mk_st 5 6 7) [] 1000).
  - vm_compute. reflexivity.
  - vm_compute. reflexivity.
  - intros e. by eexists.
Defined.
