(* ===== verification/Driver.v ===== *)
(** * Device drivers (guestdrv/vgpu_ldd.c, hostdrv/zerocopy.c)

    The guest driver partitions the shared memory BAR among applications ([ioctl], [mmap]) and
    exposes the zero-copy BAR; the host driver owns the zero-copy region.  The kernel and the PCI
    device are parameters: their answers are arguments, and the calls that acquire or release
    something are recorded in a trace. *)

From S2P Require Import Prelude Channel ShmChannel Zcopy.
Local Open Scope Z_scope.

Definition EINVAL : Z := 22.
Definition EAGAIN : Z := 11.
Definition EBUSY : Z := 16.
Definition ENODEV : Z := 19.
Definition PAGE_SHIFT : Z := 12.

(** ** Ioctl numbers (include/ioctl.h) *)

Definition _IOC (dir type nr size : Z) : Z :=
  Z.lor (Z.lor (Z.shiftl dir 30) (Z.shiftl type 8)) (Z.lor nr (Z.shiftl size 16)).
Definition VGPU_DRIVER_MAJOR : Z := 1.
Definition VGPU_DRIVER_MINOR : Z := 0.
Definition VGPU_ZCOPY_DRIVER_MAJOR : Z := 150.
Definition IOCTL_GET_VM_ID : Z := _IOC 0 VGPU_DRIVER_MAJOR 0x17 0.
Definition IOCTL_REQUEST_SHM : Z := _IOC 2 VGPU_DRIVER_MAJOR 0x16 8.
Definition IOCTL_REQUEST_ZCOPY : Z := _IOC 0 VGPU_DRIVER_MAJOR 0x18 0.
Definition IOCTL_GET_ZCOPY_PHY_ADDR : Z := _IOC 1 VGPU_ZCOPY_DRIVER_MAJOR 0x10D 8.
Definition KVM_GET_ZCOPY_PHY_ADDR : Z := _IOC 1 VGPU_ZCOPY_DRIVER_MAJOR 0x10D 8.

(** ** Registers (include/register.h) *)

Definition REG_MOD_INIT : Z := 0x5.
Definition REG_MOD_EXIT : Z := 0x6.
Definition REG_ZERO_COPY : Z := 0x12.
Definition REG_VM_ID : Z := 0x18.
Definition REG_ZERO_COPY_PHYS : Z := 0x20.

(** ** Guest driver: state *)

Record mem_region := mk_bar {
  base_addr : Z;
  start : Z;
  len : Z;
  cur_addr : Z;
  cur_offset : Z
}.

Inductive alloc_type_t := ALLOC_TYPE_UNSPEC | ALLOC_TYPE_SHM | ALLOC_TYPE_ZCOPY.

Record app_info := mk_app {
  alloc_type : alloc_type_t;
  free_pblock_offset : Z;
  pblock_size : Z
}.

(** The three region pointers are NULL until [vgpu_probe] has set them. *)
Record vgpu_dev := mk_dev {
  dev_vm_id : Z;
  reg : option mem_region;
  shm : option mem_region;
  zcopy : option mem_region
}.

(** Open files: [private_data], None when [kzalloc] failed. *)
Record vgpu_state := mk_vs {
  dev : vgpu_dev;
  files : gmap Z (option app_info)
}.

Definition set_app (fd : Z) (a : app_info) (s : vgpu_state) : vgpu_state :=
  mk_vs (dev s) (<[fd := Some a]> (files s)).
Definition set_dev (d : vgpu_dev) (s : vgpu_state) : vgpu_state := mk_vs d (files s).
Definition set_cur_offset (o : Z) (r : mem_region) : mem_region :=
  mk_bar (base_addr r) (start r) (len r) (cur_addr r) o.
Definition set_shm (r : mem_region) (d : vgpu_dev) : vgpu_dev :=
  mk_dev (dev_vm_id d) (reg d) (Some r) (zcopy d).

Definition null_deref {A} : res A := Stop (Undefined "NULL dereference").

(** [filp->private_data], dereferenced. *)
Definition get_app (fd : Z) (s : vgpu_state) : res app_info :=
  match files s !! fd with
  | Some (Some a) => Ok a
  | _ => null_deref
  end.

Definition get_region (r : option mem_region) : res mem_region :=
  match r with Some r => Ok r | None => null_deref end.

(** ** Guest driver: file operations *)

(** [allocated]: whether [kzalloc] returns memory. *)
Definition vgpu_open (minor fd : Z) (allocated : bool) (s : vgpu_state) : Z * vgpu_state :=
  if negb (minor =? VGPU_DRIVER_MINOR) then (- ENODEV, s) else
  (0, mk_vs (dev s) (<[fd := if allocated then Some (mk_app ALLOC_TYPE_UNSPEC 0 0) else None]> (files s))).

Definition vgpu_release (fd : Z) (s : vgpu_state) : Z * vgpu_state :=
  (0, mk_vs (dev s) (delete fd (files s))).

Definition request_shm (fd arg : Z) (s : vgpu_state) : res (Z * vgpu_state) :=
  _ ← get_app fd s;
  r ← get_region (shm (dev s));
  let '(result, offset) :=
    if u64 (cur_offset r + arg) >? AVA_GUEST_SHM_SIZE then (0, 0)
    else (signed 32 (cur_offset r), cur_offset r) in
  Ok (result, set_app fd (mk_app ALLOC_TYPE_SHM offset arg)
                (set_dev (set_shm (set_cur_offset (u64 (cur_offset r + arg)) r) (dev s)) s)).

(** Returns the result, the state, and the value copied to the user's buffer at [arg], if any.
    [mmio] is the value read from a register. *)
Definition vgpu_ioctl (mmio : Z → Z) (fd cmd arg : Z) (s : vgpu_state)
    : res (Z * vgpu_state * option Z) :=
  if cmd =? IOCTL_REQUEST_SHM then
    '(r, s) ← request_shm fd arg s; Ok (r, s, None)
  else if cmd =? IOCTL_GET_VM_ID then Ok (dev_vm_id (dev s), s, None)
  else if cmd =? IOCTL_REQUEST_ZCOPY then
    a ← get_app fd s;
    Ok (0, set_app fd (mk_app ALLOC_TYPE_ZCOPY (free_pblock_offset a) (pblock_size a)) s, None)
  else if cmd =? IOCTL_GET_ZCOPY_PHY_ADDR then
    match zcopy (dev s) with
    | None => Ok (- ENOMEM, s, None)
    | Some _ => Ok (0, s, Some (mmio REG_ZERO_COPY_PHYS))
    end
  else Ok (- EINVAL, s, None).

(** The part of [vgpu_mmap] after the switch: the physical range that becomes visible, as the
    first page frame and the length.  [remapped] is the success of [io_remap_pfn_range]. *)
Definition remap (remapped : bool) (offset vlen : Z) (s : vgpu_state)
    : Z * vgpu_state * option (Z * Z) :=
  if remapped then (0, s, Some (Z.shiftr offset PAGE_SHIFT, vlen)) else (- EAGAIN, s, None).

Definition vgpu_mmap (remapped : bool) (fd vm_start vm_end vm_pgoff : Z) (s : vgpu_state)
    : res (Z * vgpu_state * option (Z * Z)) :=
  a ← get_app fd s;
  let offset := u64 (Z.shiftl vm_pgoff PAGE_SHIFT) in
  match alloc_type a with
  | ALLOC_TYPE_SHM =>
      if negb (pblock_size a =? vm_end - vm_start) then Ok (- EAGAIN, s, None) else
      r ← get_region (shm (dev s));
      let offset := u64 (offset + (start r + free_pblock_offset a)) in
      let s := set_app fd (mk_app ALLOC_TYPE_UNSPEC (free_pblock_offset a) (pblock_size a)) s in
      Ok (remap remapped offset (vm_end - vm_start) s)
  | ALLOC_TYPE_ZCOPY =>
      match zcopy (dev s) with
      | None => Ok (- ENODEV, s, None)
      | Some r =>
          if negb (len r =? vm_end - vm_start) then Ok (- EAGAIN, s, None) else
          let offset := u64 (offset + start r) in
          let s := set_app fd (mk_app ALLOC_TYPE_UNSPEC (free_pblock_offset a) (pblock_size a)) s in
          Ok (remap remapped offset (vm_end - vm_start) s)
      end
  | ALLOC_TYPE_UNSPEC => Ok (- EINVAL, s, None)
  end.

(** ** Guest driver: registration *)

(** What the drivers acquire from the kernel. *)
Inductive kres :=
  | PciEnabled | PciRegions | Iomap (bar : Z)
  | Chrdev | Cdev | DevClass | DeviceNode | PciDriver | RebootNotifier | DmaRegion.
Global Instance kres_eq_dec : EqDecision kres.
Proof. solve_decision. Defined.

(** The kernel calls with an effect on resources, and the register writes. *)
Inductive kcall :=
  | Acquire (r : kres)
  | Release (r : kres)
  | WriteReg (offset v : Z).

(** What is held after a trace. *)
Definition k_step (held : list kres) (c : kcall) : list kres :=
  match c with
  | Acquire r => r :: held
  | Release r => filter (λ x, x ≠ r) held
  | WriteReg _ _ => held
  end.
Definition held (trace : list kcall) : list kres := foldl k_step [] trace.

(** The PCI device: the results of enabling it and of requesting its regions, its BARs, and the
    addresses [pci_iomap] gives (NULL on failure). *)
Record pci_dev := mk_pci {
  enable_err : Z;
  request_err : Z;
  resource_start : Z → Z;
  resource_len : Z → Z;
  iomap : Z → Z
}.

Definition vgpu_bar_probe (p : pci_dev) (bar : mem_region) (num : Z) : Z * mem_region * list kcall :=
  if iomap p num =? NULL
  then (- EBUSY, mk_bar NULL (resource_start p num) (resource_len p num) (cur_addr bar) (cur_offset bar), [])
  else (0, mk_bar (iomap p num) (resource_start p num) (resource_len p num) (iomap p num) 0,
        [Acquire (Iomap num)]).

Definition bar_zero : mem_region := mk_bar NULL 0 0 NULL 0.
Definition set_regions (r m z : option mem_region) (d : vgpu_dev) : vgpu_dev :=
  mk_dev (dev_vm_id d) r m z.

(** Label [pci_release]. *)
Definition pci_release : list kcall := [Release PciRegions; Release PciEnabled].

(** [bar_reg], [bar_shm] and [bar_zcopy] are static and zero when the module is loaded. *)
Definition vgpu_probe (mmio : Z → Z) (p : pci_dev) (d : vgpu_dev) : Z * vgpu_dev * list kcall :=
  if negb (enable_err p =? 0) then (enable_err p, d, []) else
  let t := [Acquire PciEnabled] in
  if request_err p <? 0 then (- EBUSY, d, t ++ [Release PciEnabled]) else
  let t := t ++ [Acquire PciRegions] in
  let '(e, r, t1) := vgpu_bar_probe p bar_zero 2 in
  let d := set_regions (Some r) (shm d) (zcopy d) d in
  if e <? 0 then (- EBUSY, d, t ++ t1 ++ pci_release) else
  let '(e, m, t2) := vgpu_bar_probe p bar_zero 4 in
  let d := set_regions (reg d) (Some m) (zcopy d) d in
  if e <? 0 then (- EBUSY, d, t ++ t1 ++ t2 ++ pci_release) else
  if negb (wrap 8 (mmio REG_ZERO_COPY) =? 0) then
    let '(e, z, t3) := vgpu_bar_probe p bar_zero 5 in
    let d := set_regions (reg d) (shm d) (Some z) d in
    if e <? 0 then (- EBUSY, d, t ++ t1 ++ t2 ++ t3 ++ pci_release)
    else (0, d, t ++ t1 ++ t2 ++ t3)
  else (0, set_regions (reg d) (shm d) None d, t ++ t1 ++ t2).

Definition vgpu_remove : list kcall := Release (Iomap 2) :: pci_release.

(** [DRM_WRITE8] and [DRM_READ32] on the register BAR. *)
Definition drm_write8 (d : vgpu_dev) (offset v : Z) : res (list kcall) :=
  match reg d with
  | Some r => if base_addr r =? NULL then null_deref else Ok [WriteReg offset v]
  | None => null_deref
  end.

(** The answers of the kernel to the calls of [vgpu_init]; [pci_device] is the device the PCI core
    probes during [pci_register_driver], if there is one.  A failing probe does not make the
    registration fail. *)
Record kernel := mk_kernel {
  chrdev_err : Z;
  cdev_err : Z;
  class_ok : bool;
  device_ok : bool;
  pci_err : Z;
  pci_device : option pci_dev
}.

Definition vgpu_init (mmio : Z → Z) (k : kernel) (d : vgpu_dev) : res (Z * vgpu_dev * list kcall) :=
  if chrdev_err k <? 0 then Ok (chrdev_err k, d, []) else
  let t := [Acquire Chrdev] in
  let unregister_dev := [Release Chrdev] in
  let err := cdev_err k in
  if negb (err =? 0) then Ok (err, d, t ++ unregister_dev) else
  let t := t ++ [Acquire Cdev] in
  let delete_dev := Release Cdev :: unregister_dev in
  if negb (class_ok k) then Ok (err, d, t ++ delete_dev) else
  let t := t ++ [Acquire DevClass] in
  let destroy_class := Release DevClass :: delete_dev in
  if negb (device_ok k) then Ok (err, d, t ++ destroy_class) else
  let t := t ++ [Acquire DeviceNode] in
  let destroy_device := Release DeviceNode :: destroy_class in
  let err := pci_err k in
  if err <? 0 then Ok (err, d, t ++ destroy_device) else
  let t := t ++ [Acquire PciDriver] in
  let '(d, t') :=
    match pci_device k with
    | Some p => let '(_, d, t') := vgpu_probe mmio p d in (d, t')
    | None => (d, [])
    end in
  w ← drm_write8 d REG_MOD_INIT 1;
  let d := mk_dev (signed 32 (mmio REG_VM_ID)) (reg d) (shm d) (zcopy d) in
  Ok (0, d, t ++ t' ++ w ++ [Acquire RebootNotifier]).

(** [pci_unregister_driver] calls [vgpu_remove] for the device that was probed successfully. *)
Definition vgpu_fini (probed : bool) (d : vgpu_dev) : res (list kcall) :=
  w ← drm_write8 d REG_MOD_EXIT 1;
  Ok (w ++ (if probed then vgpu_remove else []) ++
      [Release PciDriver; Release DeviceNode; Release DevClass; Release Cdev; Release Chrdev]).

Definition vgpu_reboot_callback (d : vgpu_dev) : res (Z * list kcall) :=
  w ← drm_write8 d REG_MOD_EXIT 1; Ok (0, w).

Definition dev_zero : vgpu_dev := mk_dev 0 None None None.

(** ** Host driver *)

Record zcopy_kernel := mk_zk {
  z_class_ok : bool;
  z_device_ok : bool;
  dma_alloc : Z
}.

(** The result, [zcopy_va] and the trace.  [register_chrdev] is not checked. *)
Definition zcopy_init (k : zcopy_kernel) : Z * Z * list kcall :=
  let err := - ENOMEM in
  let t := [Acquire Chrdev] in
  let unregister_dev := [Release Chrdev] in
  if negb (z_class_ok k) then (err, NULL, t ++ unregister_dev) else
  let t := t ++ [Acquire DevClass] in
  let destroy_class := Release DevClass :: unregister_dev in
  if negb (z_device_ok k) then (err, NULL, t ++ destroy_class) else
  let t := t ++ [Acquire DeviceNode] in
  let destroy_device := Release DeviceNode :: destroy_class in
  let zcopy_va := dma_alloc k in
  if zcopy_va =? NULL then (err, zcopy_va, t ++ destroy_device) else
  (0, zcopy_va, t ++ [Acquire DmaRegion]).

Definition zcopy_fini : list kcall :=
  [Release DmaRegion; Release DeviceNode; Release DevClass; Release Chrdev].

Definition zcopy_open : Z := 0.
Definition zcopy_release : Z := 0.

(** [dma_result] is what [dma_mmap_coherent] returns. *)
Definition zcopy_mmap (dma_result vm_start vm_end : Z) : Z :=
  if negb (VGPU_ZERO_COPY_SIZE =? vm_end - vm_start) then - EAGAIN else dma_result.

Definition zcopy_ioctl (phys cmd : Z) : Z * option Z :=
  if cmd =? KVM_GET_ZCOPY_PHY_ADDR then (0, Some phys) else (- EINVAL, None).

(** ** Clients of the guest driver *)

(** What [command_channel_shm_new] does with its open file: ask for a block and map it.  The
    result of the ioctl, and the physical range that becomes visible. *)
Definition attach_app (mmio : Z → Z) (fd vaddr size : Z) (s : vgpu_state)
    : res (Z * option (Z * Z) * vgpu_state) :=
  '(r, s, _) ← vgpu_ioctl mmio fd IOCTL_REQUEST_SHM size s;
  '(_, s, range) ← vgpu_mmap true fd vaddr (vaddr + size) 0 s;
  Ok (r, range, s).

Fixpoint attach_apps (mmio : Z → Z) (reqs : list (Z * Z * Z)) (s : vgpu_state)
    : res (list (Z * option (Z * Z)) * vgpu_state) :=
  match reqs with
  | [] => Ok ([], s)
  | (fd, vaddr, size) :: reqs =>
      '(r, range, s) ← attach_app mmio fd vaddr size s;
      '(l, s) ← attach_apps mmio reqs s;
      Ok ((r, range) :: l, s)
  end.

(** The shared memory region is mapped at [base] and every file was opened successfully. *)
Definition shm_ready (base cur : Z) (fds : list Z) (s : vgpu_state) : Prop :=
  (∃ r, shm (dev s) = Some r ∧ start r = base ∧ cur_offset r = cur) ∧
  ∀ fd, fd ∈ fds → ∃ a, files s !! fd = Some (Some a).

Definition page_multiple (n : Z) : Prop := n mod 2 ^ PAGE_SHIFT = 0.
Definition total (sizes : list Z) : Z := foldr Z.add 0 sizes.

(** ** Lemmas *)

Lemma attach_app_eq mmio fd vaddr size base cur fds s :
  shm_ready base cur fds s → fd ∈ fds → 0 ≤ base < 2 ^ 62 → 0 ≤ size → 0 ≤ cur →
  cur + size < 2 ^ 62 →
  let off := if cur + size >? AVA_GUEST_SHM_SIZE then 0 else cur in
  ∃ s', attach_app mmio fd vaddr size s =
      Ok (off, Some (Z.shiftr (base + off) PAGE_SHIFT, size), s') ∧
    shm_ready base (cur + size) fds s'.
Proof.
  intros ((r & Hr & Hb & Hc) & Hf) Hfd Hbase Hsize Hcur Hsum off.
  destruct (Hf fd Hfd) as [a Ha].
  assert (get_app fd s = Ok a) as Hga by (unfold get_app; by rewrite Ha).
  unfold attach_app, vgpu_ioctl. rewrite Z.eqb_refl. unfold request_shm. rewrite Hga, Hr.
  cbn [mbind res_bind get_region]. rewrite Hc, wrap_small by (unfold in_range; lia).
  assert (0 ≤ off < 2 ^ 62) as Hoff by (unfold off; destruct (_ >? _); lia).
  assert (off ≤ AVA_GUEST_SHM_SIZE) as Hlim.
  { unfold off. rewrite Z.gtb_ltb. destruct (Z.ltb_spec AVA_GUEST_SHM_SIZE (cur + size)); [done|lia]. }
  assert ((if cur + size >? AVA_GUEST_SHM_SIZE then (0, 0) else (signed 32 cur, cur)) = (off, off)) as ->.
  { unfold off in *. destruct (cur + size >? AVA_GUEST_SHM_SIZE); [done|]. f_equal.
    rewrite <- (wrap_signed 32 cur) at 2 by (unfold in_srange, AVA_GUEST_SHM_SIZE in *; lia).
    f_equal. symmetry. apply wrap_small. unfold in_range, AVA_GUEST_SHM_SIZE in *. lia. }
  cbn [mbind res_bind]. unfold vgpu_mmap, get_app. cbn [set_app files set_dev].
  rewrite lookup_insert_eq. cbn [mbind res_bind alloc_type pblock_size free_pblock_offset].
  replace (vaddr + size - vaddr) with size by lia. rewrite Z.eqb_refl. cbn [negb].
  cbn [set_app set_dev dev set_shm shm get_region mbind res_bind start set_cur_offset].
  rewrite Hb, Z.shiftl_0_l, (wrap_small 64 0) by (unfold in_range; lia).
  rewrite Z.add_0_l, wrap_small by (unfold in_range; lia). cbn [remap mbind res_bind].
  eexists. split; [done|]. split.
  - by eexists.
  - intros fd' Hfd'. cbn. destruct (decide (fd = fd')) as [<-|Hne].
    + rewrite lookup_insert_eq. by eexists.
    + rewrite !lookup_insert_ne by done. by apply Hf.
Qed.

Lemma consecutive_range sizes : ∀ cur p,
  Forall (λ n, 0 < n) sizes → p ∈ consecutive cur sizes →
  cur ≤ fst p ∧ 0 < snd p ∧ fst p + snd p ≤ cur + total sizes.
Proof.
  induction sizes as [|n sizes IH]; intros cur p Hpos Hp; cbn in Hp; [by apply elem_of_nil in Hp|].
  apply Forall_cons in Hpos as [Hn Hpos]. change (total (n :: sizes)) with (n + total sizes).
  assert (0 ≤ total sizes) as Ht.
  { clear -Hpos. induction Hpos; [done|]. cbn. change (foldr Z.add 0 l) with (total l). lia. }
  apply elem_of_cons in Hp as [->|Hp]; [cbn; lia|]. apply (IH _ _ Hpos) in Hp. lia.
Qed.

Lemma consecutive_sorted sizes : ∀ cur,
  Forall (λ n, 0 < n) sizes →
  StronglySorted (λ p q, fst p + snd p ≤ fst q) (consecutive cur sizes).
Proof.
  induction sizes as [|n sizes IH]; intros cur Hpos; cbn; [constructor|].
  apply Forall_cons in Hpos as [Hn Hpos]. constructor; [by apply IH|].
  apply Forall_forall. intros p Hp%consecutive_range; [|done]. cbn. lia.
Qed.

Lemma page_add a b : page_multiple a → page_multiple b → page_multiple (a + b).
Proof. unfold page_multiple, PAGE_SHIFT. intros Ha Hb. by rewrite Z.add_mod, Ha, Hb by lia. Qed.

Lemma shiftr_page n : page_multiple n → Z.shiftr n PAGE_SHIFT * 2 ^ PAGE_SHIFT = n.
Proof.
  unfold page_multiple, PAGE_SHIFT. intros Hn. rewrite Z.shiftr_div_pow2 by lia.
  rewrite Z.mul_comm. symmetry. apply Z.div_exact; [lia|done].
Qed.

Lemma consecutive_pages sizes : ∀ cur p,
  page_multiple cur → Forall page_multiple sizes → p ∈ consecutive cur sizes → page_multiple (fst p).
Proof.
  induction sizes as [|n sizes IH]; intros cur p Hc Hs Hp; cbn in Hp; [by apply elem_of_nil in Hp|].
  apply Forall_cons in Hs as [Hn Hs]. apply elem_of_cons in Hp as [->|Hp]; [done|].
  eapply IH; [|done..]. by apply page_add.
Qed.

Lemma consecutive_snd sizes cur : snd <$> consecutive cur sizes = sizes.
Proof. revert cur. induction sizes as [|n l IH]; intros cur; cbn; [done|]. by rewrite IH. Qed.

Lemma attach_apps_eq mmio reqs : ∀ base cur s,
  shm_ready base cur (fst <$> (fst <$> reqs)) s → 0 ≤ base < 2 ^ 62 → 0 ≤ cur →
  Forall (λ n, 0 < n) (snd <$> reqs) → cur + total (snd <$> reqs) ≤ AVA_GUEST_SHM_SIZE →
  ∃ s', attach_apps mmio reqs s =
    Ok ((λ p, (fst p, Some (Z.shiftr (base + fst p) PAGE_SHIFT, snd p))) <$>
          consecutive cur (snd <$> reqs), s').
Proof.
  induction reqs as [|[[fd vaddr] size] reqs IH]; intros base cur s Hs Hb Hc Hpos Hsum.
  { by exists s. }
  cbn [fmap list_fmap fst snd] in *. apply Forall_cons in Hpos as [Hn Hpos].
  change (total (size :: ?x)) with (size + total x) in Hsum.
  assert (0 ≤ total (snd <$> reqs)) as Ht.
  { clear -Hpos. induction Hpos; [done|]. cbn. change (foldr Z.add 0 l) with (total l). lia. }
  destruct (attach_app_eq mmio fd vaddr size base cur _ s Hs) as (s1 & Heq & Hs1);
    [by left|unfold AVA_GUEST_SHM_SIZE in *; lia..|].
  cbn [attach_apps]. rewrite Heq. cbn [mbind res_bind].
  destruct (IH base (cur + size) s1) as [s' ->]; [|lia..|done|lia|].
  { destruct Hs1 as [? Hf]. split; [done|]. intros fd' ?. apply Hf. by right. }
  cbn [mbind res_bind]. exists s'. rewrite Z.gtb_ltb, (proj2 (Z.ltb_ge _ _)) by lia. done.
Qed.

(** ** Properties *)

(** C38. The guest driver gives applications disjoint blocks as long as they fit.  When the blocks
    asked for are whole pages and together fit the shared memory of the VM, every application's
    mapping is the physical range that starts at the offset the ioctl returned, the ranges lie in
    the VM's region and follow one another without overlap. *)
Theorem app_blocks_disjoint (mmio : Z → Z) (base : Z) (reqs : list (Z * Z * Z)) (s : vgpu_state) :
  shm_ready base 0 (fst <$> (fst <$> reqs)) s → 0 ≤ base < 2 ^ 62 → page_multiple base →
  Forall (λ n, 0 < n ∧ page_multiple n) (snd <$> reqs) →
  total (snd <$> reqs) ≤ AVA_GUEST_SHM_SIZE →
  ∃ offsets blocks s',
    attach_apps mmio reqs s = Ok (zip offsets (Some <$> blocks), s') ∧
    snd <$> blocks = snd <$> reqs ∧
    Forall2 (λ o b, fst b * 2 ^ PAGE_SHIFT = base + o) offsets blocks ∧
    Forall (λ b, base ≤ fst b * 2 ^ PAGE_SHIFT ∧
                 fst b * 2 ^ PAGE_SHIFT + snd b ≤ base + AVA_GUEST_SHM_SIZE) blocks ∧
    StronglySorted (λ b1 b2, fst b1 * 2 ^ PAGE_SHIFT + snd b1 ≤ fst b2 * 2 ^ PAGE_SHIFT) blocks.
Proof.
  intros Hs Hb Hbp Hsz Hsum.
  assert (Forall (λ n, 0 < n) (snd <$> reqs)) as Hpos by (eapply Forall_impl; [exact Hsz|]; by intros ? []).
  destruct (attach_apps_eq mmio reqs base 0 s Hs Hb ltac:(lia) Hpos ltac:(lia)) as [s' Heq].
  set (ps := consecutive 0 (snd <$> reqs)) in *.
  assert (∀ p, p ∈ ps → Z.shiftr (base + fst p) PAGE_SHIFT * 2 ^ PAGE_SHIFT = base + fst p) as Hpage.
  { intros p Hp. apply shiftr_page, page_add; [done|]. revert Hp.
    apply consecutive_pages; [done|]. eapply Forall_impl; [exact Hsz|]. by intros ? []. }
  exists (fst <$> ps), ((λ p, (Z.shiftr (base + fst p) PAGE_SHIFT, snd p)) <$> ps), s'. split_and!.
  - rewrite Heq. do 2 f_equal. clearbody ps. clear. induction ps; [done|]. cbn. by f_equal.
  - rewrite <- list_fmap_compose. apply (consecutive_snd (snd <$> reqs) 0).
  - rewrite Forall2_fmap. apply Forall_Forall2_diag, Forall_forall. intros p Hp. cbn. by apply Hpage.
  - rewrite Forall_fmap. apply Forall_forall. intros p Hp. cbn. rewrite (Hpage p Hp).
    apply consecutive_range in Hp; [|done]. lia.
  - pose proof (consecutive_sorted (snd <$> reqs) 0 Hpos) as Hsort. fold ps in Hsort.
    clearbody ps. clear -Hsort Hpage. induction Hsort as [|p ps Hps IH Hp]; cbn; [constructor|].
    constructor; [apply IH; intros q Hq; apply Hpage; by right|].
    rewrite Forall_fmap. rewrite Forall_forall in Hp |- *. intros q Hq. cbn.
    rewrite !Hpage by set_solver. specialize (Hp q Hq). lia.
Qed.

(** A loaded driver whose shared memory starts at 2^32, with three open files. *)
Definition sample_vgpu (cur : Z) : vgpu_state :=
  mk_vs (mk_dev 1 None (Some (mk_bar 4096 (2 ^ 32) (2 ^ 29) 4096 cur)) None)
    {[ 3 := Some (mk_app ALLOC_TYPE_UNSPEC 0 0); 4 := Some (mk_app ALLOC_TYPE_UNSPEC 0 0);
       5 := Some (mk_app ALLOC_TYPE_UNSPEC 0 0) ]}.

Lemma sample_vgpu_ready cur : shm_ready (2 ^ 32) cur [3; 4; 5] (sample_vgpu cur).
Proof.
  split; [by eexists|]. intros fd Hfd. rewrite !elem_of_cons in Hfd.
  destruct Hfd as [->|[->|[->|[]%elem_of_nil]]]; by eexists.
Qed.

Lemma app_blocks_disjoint_witness :
  let reqs := [(3, 2 ^ 40, 2 ^ 28); (4, 2 ^ 41, 2 ^ 20); (5, 2 ^ 42, 4096)] in
  ∃ offsets blocks s',
    attach_apps (λ _, 0) reqs (sample_vgpu 0) = Ok (zip offsets (Some <$> blocks), s') ∧
    snd <$> blocks = snd <$> reqs ∧
    Forall2 (λ o b, fst b * 2 ^ PAGE_SHIFT = 2 ^ 32 + o) offsets blocks ∧
    Forall (λ b, 2 ^ 32 ≤ fst b * 2 ^ PAGE_SHIFT ∧
                 fst b * 2 ^ PAGE_SHIFT + snd b ≤ 2 ^ 32 + AVA_GUEST_SHM_SIZE) blocks ∧
    StronglySorted (λ b1 b2, fst b1 * 2 ^ PAGE_SHIFT + snd b1 ≤ fst b2 * 2 ^ PAGE_SHIFT) blocks.
Proof.
  intros reqs. apply (app_blocks_disjoint (λ _, 0) (2 ^ 32) reqs (sample_vgpu 0)).
  - apply sample_vgpu_ready.
  - lia.
  - reflexivity.
  - unfold reqs. cbn [fmap list_fmap snd]. rewrite !Forall_cons, Forall_nil. split_and!; done.
  - unfold reqs. vm_compute. discriminate.
Defined.

(** Shared memory that is used up is handed out again from offset 0, over blocks in use.  From
    the first request that does not fit on, every request, however small, is answered with
    offset 0 and mapped at the start of the region: the offset of the next block keeps growing and
    nothing gives blocks back.  With the default block size the third application already shares
    the first one's block. *)
Theorem exhausted_shm_is_shared (mmio : Z → Z) (base cur : Z) (reqs : list (Z * Z * Z))
    (s : vgpu_state) :
  shm_ready base cur (fst <$> (fst <$> reqs)) s → 0 ≤ base < 2 ^ 62 → 0 ≤ cur →
  Forall (λ n, 0 < n) (snd <$> reqs) → cur + total (snd <$> reqs) < 2 ^ 62 →
  match reqs with [] => True | req :: _ => AVA_GUEST_SHM_SIZE < cur + snd req end →
  ∃ s', attach_apps mmio reqs s =
    Ok ((λ req, (0, Some (Z.shiftr base PAGE_SHIFT, snd req))) <$> reqs, s').
Proof.
  revert cur s. induction reqs as [|[[fd vaddr] size] reqs IH]; intros cur s Hs Hb Hc Hpos Hsum Hbig.
  { by exists s. }
  cbn [fmap list_fmap fst snd] in *. apply Forall_cons in Hpos as [Hn Hpos].
  change (total (size :: ?x)) with (size + total x) in Hsum.
  assert (0 ≤ total (snd <$> reqs)) as Ht.
  { clear -Hpos. induction Hpos; [done|]. cbn. change (foldr Z.add 0 l) with (total l). lia. }
  destruct (attach_app_eq mmio fd vaddr size base cur _ s Hs) as (s1 & Heq & Hs1); [by left|lia..|].
  rewrite Z.gtb_ltb, (proj2 (Z.ltb_lt _ _)), Z.add_0_r in Heq by done.
  cbn [attach_apps]. rewrite Heq. cbn [mbind res_bind].
  destruct (IH (cur + size) s1) as [s' ->]; [|lia..|done|lia| |].
  - destruct Hs1 as [? Hf]. split; [done|]. intros fd' ?. apply Hf. by right.
  - destruct reqs as [|[[fd2 va2] n2] reqs]; [done|]. apply Forall_cons in Hpos as [? _]. cbn in *. lia.
  - cbn [mbind res_bind]. by exists s'.
Qed.

Lemma exhausted_shm_is_shared_witness :
  let reqs := [(5, 2 ^ 42, AVA_APP_SHM_SIZE_DEFAULT)] in
  ∃ s', attach_apps (λ _, 0) reqs (sample_vgpu (2 * AVA_APP_SHM_SIZE_DEFAULT)) =
    Ok ((λ req, (0, Some (Z.shiftr (2 ^ 32) PAGE_SHIFT, snd req))) <$> reqs, s').
Proof.
  intros reqs. apply (exhausted_shm_is_shared (λ _, 0) (2 ^ 32) (2 * AVA_APP_SHM_SIZE_DEFAULT) reqs).
  - destruct (sample_vgpu_ready (2 * AVA_APP_SHM_SIZE_DEFAULT)) as [H1 H2]. split; [done|].
    intros fd Hfd. apply H2. set_solver.
  - lia.
  - done.
  - by repeat constructor.
  - reflexivity.
  - reflexivity.
Defined.

(** One request can rewind the allocator: the sum in the bounds check wraps at 64 bits, so a
    request for 2^64 - cur bytes passes it, is answered with the current offset and sets the next
    offset to 0; the following request of any size that fits gets offset 0 although that memory is
    in use. *)
Theorem huge_request_rewinds (base cur n fd fd' : Z) (s : vgpu_state) :
  shm_ready base cur [fd; fd'] s → 0 < cur ≤ AVA_GUEST_SHM_SIZE → 0 < n ≤ AVA_GUEST_SHM_SIZE →
  ∃ s1 s2, request_shm fd (2 ^ 64 - cur) s = Ok (cur, s1) ∧ request_shm fd' n s1 = Ok (0, s2) ∧
    shm_ready base n [fd; fd'] s2.
Proof.
  intros ((r & Hr & Hb & Hc) & Hf) Hcur Hn.
  destruct (Hf fd) as [a Ha]; [by left|]. destruct (Hf fd') as [a' Ha']; [by right; left|].
  unfold request_shm at 1.
  assert (get_app fd s = Ok a) as -> by (unfold get_app; by rewrite Ha). rewrite Hr.
  cbn [mbind res_bind get_region]. rewrite Hc. replace (cur + (2 ^ 64 - cur)) with (2 ^ 64) by lia.
  change (u64 (2 ^ 64)) with 0. change (0 >? AVA_GUEST_SHM_SIZE) with false. cbn iota zeta.
  assert (signed 32 cur = cur) as ->.
  { unfold AVA_GUEST_SHM_SIZE in *. rewrite <- (wrap_signed 32 cur) at 2 by (unfold in_srange; lia).
    f_equal. symmetry. apply wrap_small. unfold in_range. lia. }
  eexists _, _. split; [done|]. unfold request_shm.
  set (s1 := set_app fd _ _).
  assert (∃ b, get_app fd' s1 = Ok b) as [b ->].
  { unfold get_app, s1. cbn. destruct (decide (fd = fd')) as [<-|Hne].
    - rewrite lookup_insert_eq. by eexists.
    - rewrite lookup_insert_ne, Ha' by done. by eexists. }
  cbn [mbind res_bind]. unfold s1. cbn [set_app set_dev dev set_shm shm get_region mbind res_bind
    cur_offset set_cur_offset].
  rewrite Z.add_0_l, wrap_small by (unfold in_range, AVA_GUEST_SHM_SIZE in *; lia).
  rewrite Z.gtb_ltb, (proj2 (Z.ltb_ge _ _)) by lia. split; [done|]. split; [by eexists|].
  intros x Hx. cbn. destruct (decide (fd' = x)) as [<-|Hne].
  { rewrite lookup_insert_eq. by eexists. }
  rewrite lookup_insert_ne by done. destruct (decide (fd = x)) as [<-|Hne'].
  - rewrite lookup_insert_eq. by eexists.
  - rewrite lookup_insert_ne by done. by apply Hf.
Qed.

Lemma huge_request_rewinds_witness :
  ∃ s1 s2, request_shm 3 (2 ^ 64 - 4096) (sample_vgpu 4096) = Ok (4096, s1) ∧
    request_shm 4 8192 s1 = Ok (0, s2) ∧ shm_ready (2 ^ 32) 8192 [3; 4] s2.
Proof.
  apply (huge_request_rewinds (2 ^ 32) 4096 8192 3 4 (sample_vgpu 4096)).
  - destruct (sample_vgpu_ready 4096) as [H1 H2]. split; [done|].
    intros fd Hfd. apply H2. set_solver.
  - unfold AVA_GUEST_SHM_SIZE. lia.
  - unfold AVA_GUEST_SHM_SIZE. lia.
Defined.

(** Loading the guest driver undoes its work on every failure, but does not always report
    it: whichever kernel call fails, everything acquired before it is released again; the result
    is the failing call's error except when the class or the device node cannot be created, in
    which case the module reports success. *)
Theorem vgpu_init_failure_cleans (mmio : Z → Z) (k : kernel) (d : vgpu_dev) :
  (chrdev_err k <? 0) || negb (cdev_err k =? 0) || negb (class_ok k) || negb (device_ok k)
    || (pci_err k <? 0) = true →
  ∃ result trace, vgpu_init mmio k d = Ok (result, d, trace) ∧ held trace = [] ∧
    (result = 0 ↔ 0 ≤ chrdev_err k ∧ cdev_err k = 0 ∧ (class_ok k = false ∨ device_ok k = false)).
Proof.
  intros Hfail. unfold vgpu_init.
  destruct (Z.ltb_spec (chrdev_err k) 0) as [H1|H1].
  { eexists _, _. split; [done|]. split; [done|]. lia. }
  destruct (Z.eqb_spec (cdev_err k) 0) as [H2|H2]; cbn [negb].
  2: { eexists _, _. split; [done|]. split; [done|]. lia. }
  destruct (class_ok k) eqn:H3; cbn [negb].
  2: { eexists _, _. split; [done|]. split; [done|]. naive_solver. }
  destruct (device_ok k) eqn:H4; cbn [negb].
  2: { eexists _, _. split; [done|]. split; [done|]. naive_solver. }
  destruct (Z.ltb_spec (pci_err k) 0) as [H5|H5]; [|done].
  eexists _, _. split; [done|]. split; [done|]. split; [lia|]. intros (_ & _ & [|]); done.
Qed.

(** A device with its three BARs. *)
Definition sample_pci : pci_dev := mk_pci 0 0 (λ n, n * 2 ^ 32) (λ _, 2 ^ 29) (λ n, n * 4096).
Definition sample_kernel (class_ok : bool) : kernel := mk_kernel 0 0 class_ok true 0 (Some sample_pci).

Lemma vgpu_init_failure_cleans_witness :
  ∃ result trace, vgpu_init (λ _, 1) (sample_kernel false) dev_zero = Ok (result, dev_zero, trace) ∧
    held trace = [] ∧ (result = 0 ↔ 0 ≤ 0 ∧ 0 = 0 ∧ (false = false ∨ true = false)).
Proof.
  apply (vgpu_init_failure_cleans (λ _, 1) (sample_kernel false) dev_zero). reflexivity.
Defined.

(** Unloading the guest driver leaves things behind: after a successful load and unload the
    reboot notifier is still registered (its code is gone) and the mappings of the shared memory
    BAR and of the zero-copy BAR are still there; everything else is released. *)
Theorem vgpu_unload_leaks (mmio : Z → Z) (k : kernel) (p : pci_dev) :
  0 ≤ chrdev_err k → cdev_err k = 0 → class_ok k = true → device_ok k = true → 0 ≤ pci_err k →
  pci_device k = Some p → enable_err p = 0 → 0 ≤ request_err p →
  iomap p 2 ≠ NULL → iomap p 4 ≠ NULL → iomap p 5 ≠ NULL →
  ∃ d t t', vgpu_init mmio k dev_zero = Ok (0, d, t) ∧ vgpu_fini true d = Ok t' ∧
    held (t ++ t') = RebootNotifier ::
      (if wrap 8 (mmio REG_ZERO_COPY) =? 0 then [] else [Iomap 5]) ++ [Iomap 4].
Proof.
  intros H1 H2 H3 H4 H5 H6 H7 H8 I2 I4 I5. unfold vgpu_init.
  rewrite (proj2 (Z.ltb_ge _ _) H1), H2, H3, H4, (proj2 (Z.ltb_ge _ _) H5), H6. cbn [Z.eqb negb].
  unfold vgpu_probe, vgpu_bar_probe. rewrite H7, (proj2 (Z.ltb_ge _ _) H8).
  rewrite (proj2 (Z.eqb_neq _ _) I2), (proj2 (Z.eqb_neq _ _) I4), (proj2 (Z.eqb_neq _ _) I5).
  cbn [Z.eqb negb]. change (0 <? 0) with false. cbn iota.
  destruct (wrap 8 (mmio REG_ZERO_COPY) =? 0); cbn [negb];
    unfold drm_write8; cbn [reg set_regions base_addr];
    rewrite (proj2 (Z.eqb_neq _ _) I2); cbn [mbind res_bind]; eexists _, _, _;
    (split; [done|]); unfold vgpu_fini, drm_write8; cbn [reg base_addr];
    rewrite (proj2 (Z.eqb_neq _ _) I2); cbn [mbind res_bind]; by split.
Qed.

Lemma vgpu_unload_leaks_witness :
  ∃ d t t', vgpu_init (λ _, 1) (sample_kernel true) dev_zero = Ok (0, d, t) ∧
    vgpu_fini true d = Ok t' ∧ held (t ++ t') = [RebootNotifier; Iomap 5; Iomap 4].
Proof.
  apply (vgpu_unload_leaks (λ _, 1) (sample_kernel true) sample_pci); try reflexivity; discriminate.
Defined.

(** The host driver's load is all or nothing: it returns 0 and holds the device and the DMA
    region, all released by [zcopy_fini], or it returns -ENOMEM and holds nothing. *)
Theorem zcopy_init_all_or_nothing (k : zcopy_kernel) :
  let '(result, va, t) := zcopy_init k in
  (result = 0 ∧ va = dma_alloc k ∧ va ≠ NULL ∧
   held t = [DmaRegion; DeviceNode; DevClass; Chrdev] ∧ held (t ++ zcopy_fini) = []) ∨
  (result = - ENOMEM ∧ held t = []).
Proof.
  unfold zcopy_init. destruct (z_class_ok k), (z_device_ok k); cbn [negb]; try by right.
  destruct (Z.eqb_spec (dma_alloc k) NULL) as [Hn|Hn]; [by right|by left].
Qed.

(** Without a device there is no register BAR, and loading dereferences NULL. *)
Lemma vgpu_init_needs_device (mmio : Z → Z) (k : kernel) :
  0 ≤ chrdev_err k → cdev_err k = 0 → class_ok k = true → device_ok k = true → 0 ≤ pci_err k →
  pci_device k = None → vgpu_init mmio k dev_zero = null_deref.
Proof.
  intros H1 H2 H3 H4 H5 H6. unfold vgpu_init.
  by rewrite (proj2 (Z.ltb_ge _ _) H1), H2, H3, H4, (proj2 (Z.ltb_ge _ _) H5), H6.
Qed.
