(* ===== verification/Manager.v ===== *)
(** * Worker manager (worker/manager.c, worker/manager_tcp.c)

    The manager accepts applications, tells each the port of its worker and spawns workers, ahead
    of time when the worker pool is enabled.  A process is its local state; what it does to the
    outside (replies, children started with a port) is a list of events. *)

From S2P Require Import Prelude Channel ShmChannel.
Local Open Scope Z_scope.

Definition worker_port_base : Z := 4000.
Definition worker_pool_size : Z := 1.

Inductive m_event :=
  | Reply (response : command_base)
  | Spawn (port : Z).

(** [worker_info] maps ports to the parameter block (offset, size) of their application. *)
Record manager := mk_mgr {
  worker_id : Z;
  assigned_worker_id : Z;
  worker_pool_enabled : bool;
  worker_info : gmap Z (Z * Z)
}.

(** ** Startup *)

(** [worker_pool_enabled]: AVA_WPOOL is set to TRUE. *)
Definition pool_requested (env : option string) : bool :=
  match env with Some v => bool_decide (v = "TRUE"%string) | None => false end.

(** The children forked for the pool; [fuel] bounds the loop. *)
Fixpoint spawn_pool (fuel : nat) (assigned : Z) : list m_event * Z :=
  match fuel with
  | O => ([], assigned)
  | S fuel =>
      if assigned <=? worker_pool_size then
        let '(evs, a) := spawn_pool fuel (assigned + 1) in
        (Spawn (assigned + worker_port_base) :: evs, a)
      else ([], assigned)
  end.

Definition start_manager (wpool : bool) : list m_event * manager :=
  let '(evs, a) := if wpool then spawn_pool (S (Z.to_nat worker_pool_size)) 1 else ([], 1) in
  (evs, mk_mgr 1 a wpool ∅).

Definition is_flag (long short arg : string) : bool := bool_decide (arg = long) || bool_decide (arg = short).

(** [main] of manager.c up to the loop.  [argv] without the program name; [kvm_fd] and [policy_id]
    are the results of opening /dev/kvm-vgpu and of installing the policy.  [None]: the help was
    printed and [main] returned. *)
Definition manager_main (argv : list string) (wpool : option string) (kvm_fd policy_id : Z)
    : res (option (list m_event * manager)) :=
  if existsb (is_flag "--help" "-h") argv then Ok None else
  if existsb (is_flag "--policy" "-p") argv && ((kvm_fd <? 0) || (policy_id <=? 0))
  then Stop (Exited 0)
  else Ok (Some (start_manager (pool_requested wpool))).

Definition manager_tcp_main (wpool : option string) : list m_event * manager :=
  start_manager (pool_requested wpool).

(** ** The loop *)

(** A request as it is received; [None]: the connection ends early and [recv_socket] exits. *)
Definition recv_request (bytes : option (list Z)) : res command_base :=
  match bytes with
  | Some l => if (length l =? sizeof_command_base)%nat then Ok (base_of_bytes l) else Stop (Exited 0)
  | None => Stop (Exited 0)
  end.

(** The switch on the message type: the table, and whether the client's socket is still open. *)
Definition handle_request (m : manager) (msg : command_base) : res (gmap Z (Z * Z) * bool) :=
  if command_type msg =? NW_NEW_APPLICATION then
    Ok (<[worker_id m + worker_port_base := (get_reserved 0 msg, get_reserved 1 msg)]> (worker_info m),
        true)
  else if command_type msg =? COMMAND_START_MIGRATION then
    match worker_info m !! get_reserved 0 msg with
    | None => Stop (Exited 0)
    | Some _ => Ok (worker_info m, true)  (* [*pb_info = *pb_hash] changes the local [msg] only *)
    end
  else Ok (worker_info m, false).

(** One round of the loop in the parent.  [garbage] is the uninitialised [response]; [send_socket]
    on a closed socket fails and exits. *)
Definition manager_iteration (garbage : command_base) (bytes : option (list Z)) (m : manager)
    : res (list m_event * manager) :=
  msg ← recv_request bytes;
  '(info, is_open) ← handle_request m msg;
  let response := set_reserved 0 (u64 (worker_id m + worker_port_base)) (set_api_id INTERNAL_API garbage) in
  if negb is_open then Stop (Exited 0) else
  let port := if worker_pool_enabled m then assigned_worker_id m else worker_id m in
  Ok ([Reply response; Spawn (port + worker_port_base)],
      mk_mgr (worker_id m + 1)
        (if worker_pool_enabled m then assigned_worker_id m + 1 else assigned_worker_id m)
        (worker_pool_enabled m) info).

(** manager_tcp.c has the same loop over a TCP socket. *)
Definition manager_tcp_iteration := manager_iteration.

Fixpoint manager_run (reqs : list (command_base * option (list Z))) (m : manager)
    : res (list m_event * manager) :=
  match reqs with
  | [] => Ok ([], m)
  | (garbage, bytes) :: reqs =>
      '(evs, m) ← manager_iteration garbage bytes m;
      '(evs', m) ← manager_run reqs m;
      Ok (evs ++ evs', m)
  end.

(** [sigint_handler] of manager.c: whether the listening socket is closed, and the policy that is
    removed with KVM_REMOVE_SCHEDULING_POLICY; the signal is then raised again. *)
Definition sigint_handler (listen_fd : Z) (policy_enabled : bool) (policy_id : Z) : bool * option Z :=
  (0 <? listen_fd, if policy_enabled && (0 <? policy_id) then Some policy_id else None).

(** ** Specification *)

Definition replied (evs : list m_event) : list Z :=
  omap (λ ev, match ev with Reply r => Some (get_reserved 0 r) | Spawn _ => None end) evs.
Definition spawned (evs : list m_event) : list Z :=
  omap (λ ev, match ev with Spawn p => Some p | Reply _ => None end) evs.

(** Well-formed requests that register an application. *)
Definition app_request (req : command_base * option (list Z)) (b : command_base) : Prop :=
  snd req = Some (base_bytes b) ∧ base_wf b ∧ command_type b = NW_NEW_APPLICATION ∧
  length (reserved_area (fst req)) = 8%nat.

(** Number of workers started ahead. *)
Definition ahead (m : manager) : Z := assigned_worker_id m - worker_id m.

(** ** Lemmas *)

Lemma iteration_app garbage bytes b m :
  app_request (garbage, bytes) b → 0 ≤ worker_id m < 2 ^ 32 →
  ∃ r, manager_iteration garbage bytes m =
    Ok ([Reply r; Spawn ((if worker_pool_enabled m then assigned_worker_id m else worker_id m)
                          + worker_port_base)],
        mk_mgr (worker_id m + 1)
          (if worker_pool_enabled m then assigned_worker_id m + 1 else assigned_worker_id m)
          (worker_pool_enabled m)
          (<[worker_id m + worker_port_base := (get_reserved 0 b, get_reserved 1 b)]> (worker_info m))) ∧
    get_reserved 0 r = worker_id m + worker_port_base.
Proof.
  intros (Hb & Hwf & Ht & Hl) Hid. cbn [fst snd] in *. subst bytes.
  eexists. unfold manager_iteration, recv_request.
  rewrite length_base_bytes, Nat.eqb_refl by apply Hwf. cbn [mbind res_bind].
  rewrite <- (app_nil_r (base_bytes b)), base_of_bytes_of_base by done.
  unfold handle_request. rewrite Ht. cbn [Z.eqb NW_NEW_APPLICATION Pos.eqb mbind res_bind negb].
  split; [done|]. rewrite get_set_reserved_0 by done. apply wrap_small.
  unfold in_range, worker_port_base. lia.
Qed.

Lemma manager_run_apps reqs bs : ∀ m,
  Forall2 app_request reqs bs → 0 ≤ worker_id m → worker_id m + Z.of_nat (length reqs) < 2 ^ 31 →
  ∃ evs m', manager_run reqs m = Ok (evs, m') ∧
    replied evs = (λ i, worker_id m + worker_port_base + i) <$> seqZ 0 (Z.of_nat (length reqs)) ∧
    spawned evs = (λ i, (if worker_pool_enabled m then assigned_worker_id m else worker_id m)
                        + worker_port_base + i) <$> seqZ 0 (Z.of_nat (length reqs)) ∧
    (∀ p, p < worker_id m + worker_port_base → worker_info m' !! p = worker_info m !! p) ∧
    (∀ (i : nat) b, bs !! i = Some b →
      worker_info m' !! (worker_id m + worker_port_base + Z.of_nat i) =
        Some (get_reserved 0 b, get_reserved 1 b)).
Proof.
  intros m Hreq. revert m. induction Hreq as [|[g bytes] b reqs bs Hb _ IH]; intros m Hid Hlen.
  { exists [], m. split_and!; try done. }
  cbn [length] in Hlen. destruct (iteration_app g bytes b m Hb) as (r & Heq & Hr); [lia|].
  cbn [manager_run]. rewrite Heq. cbn [mbind res_bind].
  set (m1 := mk_mgr _ _ _ _). destruct (IH m1) as (evs & m' & -> & Hrep & Hsp & Hold & Hinfo);
    [cbn; lia..|].
  cbn [mbind res_bind]. exists ([Reply r; Spawn ((if worker_pool_enabled m then assigned_worker_id m
    else worker_id m) + worker_port_base)] ++ evs), m'. split; [done|].
  change (length ((g, bytes) :: reqs)) with (S (length reqs)).
  rewrite (seqZ_cons 0) by lia. replace (Z.pred (Z.of_nat (S (length reqs)))) with (Z.of_nat (length reqs)) by lia.
  rewrite <- (fmap_add_seqZ 1 0), !fmap_cons, <- !list_fmap_compose. split_and!.
  - change (replied ([Reply r; Spawn ?p] ++ evs)) with (get_reserved 0 r :: replied evs).
    rewrite Hr, Hrep, Z.add_0_r. f_equal. apply list_fmap_ext. intros i x _. cbn. lia.
  - change (spawned ([Reply r; Spawn ?p] ++ evs)) with (p :: spawned evs).
    rewrite Hsp, Z.add_0_r. f_equal. apply list_fmap_ext. intros i x _. cbn.
    destruct (worker_pool_enabled m); lia.
  - intros p Hp. rewrite Hold by (cbn; lia). cbn. by rewrite lookup_insert_ne by lia.
  - intros [|i] b' Hi; cbn in Hi.
    + injection Hi as <-. rewrite Z.add_0_r, Hold by (cbn; lia). cbn. by rewrite lookup_insert_eq.
    + rewrite <- (Hinfo i b' Hi). f_equal. cbn. lia.
Qed.

(** ** Properties *)

(** Every application gets a worker of its own.  Whatever applications register, with and
    without the worker pool, the manager starts workers on distinct ports, the i-th application
    is told the port of the i-th worker started, and the manager keeps the application's
    parameter block under that port. *)
Theorem manager_assigns_workers (wpool : bool) (reqs : list (command_base * option (list Z)))
    (bs : list command_base) :
  Forall2 app_request reqs bs → Z.of_nat (length reqs) < 2 ^ 30 →
  let '(evs0, m) := start_manager wpool in
  ∃ evs m', manager_run reqs m = Ok (evs, m') ∧
    NoDup (spawned (evs0 ++ evs)) ∧ replied evs `prefix_of` spawned (evs0 ++ evs) ∧
    length (replied evs) = length reqs ∧
    ∀ (i : nat) b, bs !! i = Some b → ∃ port, replied evs !! i = Some port ∧
      worker_info m' !! port = Some (get_reserved 0 b, get_reserved 1 b).
Proof.
  intros Hreq Hlen. destruct (start_manager wpool) as [evs0 m] eqn:Hs.
  assert (worker_id m = 1 ∧ worker_pool_enabled m = wpool ∧ (wpool = true → assigned_worker_id m = 2) ∧
    spawned evs0 = if wpool then [4001] else []) as (Hid & Hw & Ha & H0)
    by (destruct wpool; cbn in Hs; by injection Hs as <- <-).
  destruct (manager_run_apps reqs bs m Hreq) as (evs & m' & Hrun & Hrep & Hsp & _ & Hinfo); [lia..|].
  exists evs, m'. rewrite Hid in *. split; [done|].
  assert (spawned (evs0 ++ evs) = spawned evs0 ++ spawned evs) as -> by apply omap_app.
  set (n := length reqs) in *.
  assert (replied evs = seqZ 4001 (Z.of_nat n)) as Hrep'.
  { rewrite Hrep. unfold worker_port_base. rewrite <- (fmap_add_seqZ 4001 0). done. }
  assert (spawned evs0 ++ spawned evs = seqZ 4001 (Z.of_nat n + if wpool then 1 else 0)) as ->.
  { rewrite Hsp, H0, Hw. unfold worker_port_base. destruct wpool.
    - rewrite Ha by done. rewrite (seqZ_cons 4001) by lia.
      replace (Z.pred (Z.of_nat n + 1)) with (Z.of_nat n) by lia. cbn [app]. f_equal.
      by rewrite <- (fmap_add_seqZ 4002 0).
    - rewrite Z.add_0_r. by rewrite <- (fmap_add_seqZ 4001 0). }
  split; [apply NoDup_seqZ|]. split; [|split].
  - rewrite Hrep'. rewrite seqZ_app by (destruct wpool; lia). by eexists.
  - rewrite Hrep', length_seqZ. lia.
  - intros i b Hi. exists (4001 + Z.of_nat i). split; [|by apply Hinfo].
    rewrite Hrep'. apply lookup_seqZ. split; [done|].
    apply lookup_lt_Some in Hi. rewrite <- (Forall2_length _ _ _ Hreq) in Hi. fold n in Hi. lia.
Qed.

(** Requests of applications whose block is at [off]. *)
Definition app_msg (off : Z) : command_base :=
  mk_base 0 1 NW_NEW_APPLICATION 0 0 0 0 136 0 0 [off; 4096; 0; 0; 0; 0; 0; 0].

Lemma app_msg_request off : in_range 64 off → app_request (zero_base, Some (base_bytes (app_msg off))) (app_msg off).
Proof.
  intros Hoff. split; [done|]. split; [|done]. unfold base_wf, app_msg. cbn [api_id vm_id command_type
    thread_id original_thread_id flags command_id command_size data_region region_size reserved_area].
  rewrite !Forall_cons, Forall_nil. unfold in_range, in_srange, NW_NEW_APPLICATION in *.
  split_and!; try done; try lia.
Qed.

Lemma manager_assigns_workers_witness :
  let reqs := [(zero_base, Some (base_bytes (app_msg 0))); (zero_base, Some (base_bytes (app_msg 4096)))] in
  let bs := [app_msg 0; app_msg 4096] in
  let '(evs0, m) := start_manager true in
  ∃ evs m', manager_run reqs m = Ok (evs, m') ∧
    NoDup (spawned (evs0 ++ evs)) ∧ replied evs `prefix_of` spawned (evs0 ++ evs) ∧
    length (replied evs) = length reqs ∧
    ∀ (i : nat) b, bs !! i = Some b → ∃ port, replied evs !! i = Some port ∧
      worker_info m' !! port = Some (get_reserved 0 b, get_reserved 1 b).
Proof.
  intros reqs bs. apply (manager_assigns_workers true reqs bs).
  - unfold reqs, bs. rewrite !Forall2_cons, Forall2_nil.
    split_and!; try done; apply app_msg_request; unfold in_range; lia.
  - reflexivity.
Defined.

(** An application can be migrated once only.  The request to migrate from a known worker
    succeeds and names a new worker, but the parameter block is copied into the local message and
    not into the table; a request to migrate from the new worker ends the manager process. *)
Theorem second_migration_stops_manager (g1 g2 b1 b2 : command_base) (m : manager) (pb : Z * Z) :
  base_wf b1 → base_wf b2 → length (reserved_area g1) = 8%nat →
  command_type b1 = COMMAND_START_MIGRATION → command_type b2 = COMMAND_START_MIGRATION →
  0 ≤ worker_id m < 2 ^ 32 → worker_info m !! get_reserved 0 b1 = Some pb →
  worker_info m !! (worker_id m + worker_port_base) = None →
  get_reserved 0 b2 = worker_id m + worker_port_base →
  ∃ evs m', manager_iteration g1 (Some (base_bytes b1)) m = Ok (evs, m') ∧
    replied evs = [get_reserved 0 b2] ∧
    manager_iteration g2 (Some (base_bytes b2)) m' = Stop (Exited 0).
Proof.
  intros W1 W2 Hg T1 T2 Hid Hpb Hnew Hr. unfold manager_iteration, recv_request, handle_request.
  rewrite !length_base_bytes, Nat.eqb_refl by (apply W1 || apply W2). cbn [mbind res_bind].
  rewrite <- (app_nil_r (base_bytes b1)), <- (app_nil_r (base_bytes b2)), !base_of_bytes_of_base by done.
  rewrite T1, T2, Hpb. change (COMMAND_START_MIGRATION =? NW_NEW_APPLICATION) with false.
  rewrite Z.eqb_refl. cbn [mbind res_bind negb]. eexists _, _. split; [done|].
  cbn [worker_info]. rewrite Hr, Hnew. split; [|done].
  change (replied [Reply ?r; Spawn ?p]) with [get_reserved 0 r]. rewrite get_set_reserved_0 by done.
  f_equal. apply wrap_small. unfold in_range, worker_port_base. lia.
Qed.

Definition migrate_msg (port : Z) : command_base :=
  mk_base 0 1 COMMAND_START_MIGRATION 0 0 0 0 136 0 0 [port; 0; 0; 0; 0; 0; 0; 0].

Lemma migrate_msg_wf port : in_range 64 port → base_wf (migrate_msg port).
Proof.
  intros Hp. unfold base_wf, migrate_msg. cbn [api_id vm_id command_type
    thread_id original_thread_id flags command_id command_size data_region region_size reserved_area].
  rewrite !Forall_cons, Forall_nil. unfold in_range, in_srange, COMMAND_START_MIGRATION in *.
  split_and!; try done; try lia.
Qed.

Lemma second_migration_stops_manager_witness :
  let m := mk_mgr 2 1 false {[ 4001 := (0, 4096) ]} in
  ∃ evs m', manager_iteration zero_base (Some (base_bytes (migrate_msg 4001))) m = Ok (evs, m') ∧
    replied evs = [4002] ∧
    manager_iteration zero_base (Some (base_bytes (migrate_msg 4002))) m' = Stop (Exited 0).
Proof.
  intros m. apply (second_migration_stops_manager zero_base zero_base (migrate_msg 4001) (migrate_msg 4002)
    m (0, 4096)); try reflexivity.
  - apply migrate_msg_wf. unfold in_range. lia.
  - apply migrate_msg_wf. unfold in_range. lia.
  - cbn. lia.
Defined.

(** A request of any other type ends the manager: the client's socket is closed, but the code
    goes on to send the reply on it. *)
Lemma wrong_message_stops_manager garbage b m :
  base_wf b → command_type b ≠ NW_NEW_APPLICATION → command_type b ≠ COMMAND_START_MIGRATION →
  manager_iteration garbage (Some (base_bytes b)) m = Stop (Exited 0).
Proof.
  intros Hwf H1 H2. unfold manager_iteration, recv_request.
  rewrite length_base_bytes, Nat.eqb_refl by apply Hwf. cbn [mbind res_bind].
  rewrite <- (app_nil_r (base_bytes b)), base_of_bytes_of_base by done. unfold handle_request.
  by rewrite (proj2 (Z.eqb_neq _ _) H1), (proj2 (Z.eqb_neq _ _) H2).
Qed.
