(* ===== verification/GpuManager.v ===== *)
(** * The GPU resource managers (worker/katana/manager.h, worker/katana/manager.cpp,
      worker/galvanic/manager.cpp)

    Spawn daemons register the GPUs of their nodes; a guest asks for GPUs with a given amount of
    free memory and gets an API server that sees them.  A GPU is an entry of its node's list,
    shared by pointers: here an entry has a number, and [GpuList] is the list of numbered
    entries.  The RPCs to the daemons are parameters; [std::sort], which does not fix the order of
    equivalent elements, and the pointer order of [std::set] are type classes. *)

From S2P Require Import Prelude CString Provision.
Local Open Scope Z_scope.

(** ** Addresses *)

Record ServerAddress := mk_address { ip_ : string; port_ : Z }.

Definition new_ServerAddress (address : string) : res ServerAddress :=
  match cut ":" address with
  | None => Stop (Thrown "Invalid IP:port address")
  | Some (ip, p) =>
      port ← stoi p;
      if str_empty ip || (port =? 0) then Stop (Thrown "Invalid IP:port address")
      else Ok (mk_address ip port)
  end.

Definition GetAddress (a : ServerAddress) : string := ip_ a +:+ String ":" (to_string (port_ a)).

(** ** Workers of a GPU *)

Record WorkerInfo := mk_worker { address_ : ServerAddress; used_memory_ : Z }.

(** [WorkerQueue] *)
Definition Enqueue (q : list WorkerInfo) (w : WorkerInfo) : list WorkerInfo := q ++ [w].
Definition Dequeue (q : list WorkerInfo) : option WorkerInfo * list WorkerInfo :=
  match q with [] => (None, []) | w :: q => (Some w, q) end.

(** [WorkerSet] is a set of pointers: the order of the iteration is that of the addresses. *)
Class PtrSetOrder := {
  ptr_order : list WorkerInfo → list WorkerInfo;
  ptr_order_perm : ∀ l, ptr_order l ≡ₚ l
}.

Definition Insert (s : list WorkerInfo) (w : WorkerInfo) : list WorkerInfo := w :: s.

Fixpoint remove_first (address : string) (l : list WorkerInfo) : Z * list WorkerInfo :=
  match l with
  | [] => (0, [])
  | w :: l =>
      if String.eqb (GetAddress (address_ w)) address then (used_memory_ w, l)
      else let '(m, l) := remove_first address l in (m, w :: l)
  end.

Definition Remove `{PtrSetOrder} (s : list WorkerInfo) (address : ServerAddress) : Z * list WorkerInfo :=
  remove_first (GetAddress address) (ptr_order s).

(** ** GPUs *)

Record GpuListEntry := mk_entry {
  e_uuid : string;
  e_free_memory : Z;
  idle_workers_ : list WorkerInfo;
  busy_workers_ : list WorkerInfo;
  worker_counter_ : Z
}.

Definition new_entry (uuid : string) : GpuListEntry := mk_entry uuid 0 [] [] 0.
Definition SetFreeMemory (mem : Z) (e : GpuListEntry) : GpuListEntry :=
  mk_entry (e_uuid e) mem (idle_workers_ e) (busy_workers_ e) (worker_counter_ e).

Definition ReserveMemory (size : Z) (e : GpuListEntry) : GpuListEntry :=
  mk_entry (e_uuid e) (u64 (e_free_memory e - size)) (idle_workers_ e) (busy_workers_ e)
    (worker_counter_ e + 1).

Definition ReleaseMemory (size : Z) (e : GpuListEntry) : GpuListEntry :=
  mk_entry (e_uuid e) (u64 (e_free_memory e + size)) (idle_workers_ e) (busy_workers_ e)
    (worker_counter_ e - 1).

Definition AddIdleWorker (address : ServerAddress) (e : GpuListEntry) : GpuListEntry :=
  mk_entry (e_uuid e) (e_free_memory e) (Enqueue (idle_workers_ e) (mk_worker address 0))
    (busy_workers_ e) (worker_counter_ e).

Definition PopIdleWorker (e : GpuListEntry) : option WorkerInfo * GpuListEntry :=
  let '(w, q) := Dequeue (idle_workers_ e) in
  (w, mk_entry (e_uuid e) (e_free_memory e) q (busy_workers_ e) (worker_counter_ e)).

Definition AddBusyWorker (address : ServerAddress) (used_memory : Z) (e : GpuListEntry) : GpuListEntry :=
  mk_entry (e_uuid e) (e_free_memory e) (idle_workers_ e)
    (Insert (busy_workers_ e) (mk_worker address used_memory)) (worker_counter_ e).

Definition RemoveBusyWorker `{PtrSetOrder} (address : ServerAddress) (e : GpuListEntry) : GpuListEntry :=
  let '(used_memory, busy) := Remove (busy_workers_ e) address in
  ReleaseMemory used_memory
    (mk_entry (e_uuid e) (e_free_memory e) (idle_workers_ e) busy (worker_counter_ e)).

(** ** The list of a node *)

(** [std::sort] permutes its range so that no element is less than one before it, when the
    comparison is a strict weak order. *)
Class StdSort := {
  std_sort : ∀ {A}, (A → A → bool) → list A → list A;
  std_sort_perm : ∀ {A} (lt : A → A → bool) l, std_sort lt l ≡ₚ l;
  std_sort_sorted : ∀ {A} (lt : A → A → bool) l,
    (∀ x y, lt x y = true → lt y x = false) →
    (∀ x y z, lt y x = false → lt z y = false → lt z x = false) →
    StronglySorted (λ x y, lt y x = false) (std_sort lt l)
}.

Definition GpuList : Type := list (Z * GpuListEntry).

(** Fewer running servers first, then more free memory. *)
Definition entry_lt (a b : Z * GpuListEntry) : bool :=
  if worker_counter_ (snd a) =? worker_counter_ (snd b)
  then e_free_memory (snd b) <? e_free_memory (snd a)
  else worker_counter_ (snd a) <? worker_counter_ (snd b).

(** A write through the pointer to entry [id]. *)
Definition upd (id : Z) (f : GpuListEntry → GpuListEntry) (l : GpuList) : GpuList :=
  (λ p, if fst p =? id then (fst p, f (snd p)) else p) <$> l.

Fixpoint find_entry (P : GpuListEntry → bool) (l : GpuList) : option Z :=
  match l with
  | [] => None
  | (id, e) :: l => if P e then Some id else find_entry P l
  end.

Section GpuList.
Context `{StdSort}.

Definition UnlockedSort (l : GpuList) : GpuList := std_sort entry_lt l.

Definition AddEntries (l entries : GpuList) : GpuList := UnlockedSort (l ++ entries).

Definition FindEntryAndReserveMemory (l : GpuList) (request : Z) : option Z * GpuList :=
  match find_entry (λ e, request <=? e_free_memory e) l with
  | Some p => (Some p, UnlockedSort (upd p (ReserveMemory request) l))
  | None => (None, l)
  end.

Definition RevokeEntryWithMemory (l : GpuList) (entry request : Z) : GpuList :=
  UnlockedSort (upd entry (ReleaseMemory request) l).

Definition FindEntryByUuid (l : GpuList) (uuid : string) : option Z :=
  find_entry (λ e, String.eqb (e_uuid e) uuid) l.

(** ** The manager *)

Record DaemonInfo := mk_daemon { d_address : ServerAddress; d_gpus : GpuList }.

Record ManagerConfig := mk_manager { daemons_ : list DaemonInfo; next_entry : Z }.

(** [gpu_entries[idx]->SetFreeMemory(fm)] for every [fm] of the request. *)
Fixpoint set_free_loop (entries : GpuList) (free_memory : list Z) : res GpuList :=
  match free_memory, entries with
  | [], _ => Ok entries
  | _ :: _, [] => Stop (Undefined "gpu_entries[idx] out of range")
  | fm :: free_memory, (id, e) :: entries =>
      r ← set_free_loop entries free_memory; Ok ((id, SetFreeMemory fm e) :: r)
  end.

Definition RegisterDaemon (m : ManagerConfig) (daemon_address : string) (uuid : list string)
    (free_memory : list Z) : res ManagerConfig :=
  address ← new_ServerAddress daemon_address;
  let ids := (λ i : nat, next_entry m + Z.of_nat i) <$> seq 0 (length uuid) in
  entries ← set_free_loop (zip ids (new_entry <$> uuid)) free_memory;
  Ok (mk_manager (daemons_ m ++ [mk_daemon address (AddEntries [] entries)])
        (next_entry m + Z.of_nat (length uuid))).

(** Revokes [assigned[j]] with [gm[j]] for every j. *)
Fixpoint revoke_all (l : GpuList) (assigned gm : list Z) : GpuList :=
  match assigned, gm with
  | id :: assigned, m :: gm => revoke_all (RevokeEntryWithMemory l id m) assigned gm
  | _, _ => l
  end.

(** The inner loop on one node: [None] when a request cannot be satisfied, all revoked. *)
Fixpoint reserve_all (l : GpuList) (gm rest : list Z) (assigned : list Z) : option (list Z) * GpuList :=
  match rest with
  | [] => (Some assigned, l)
  | m :: rest =>
      match FindEntryAndReserveMemory l m with
      | (Some id, l) => reserve_all l gm rest (assigned ++ [id])
      | (None, l) => (None, revoke_all l assigned gm)
      end
  end.

Definition set_gpus (l : GpuList) (d : DaemonInfo) : DaemonInfo := mk_daemon (d_address d) l.

(** The loop over the nodes; [dead k] is the connection state of daemon [k]. *)
Fixpoint find_node (daemons : list DaemonInfo) (k : nat) (dead : nat → bool) (gm : list Z)
    : option (nat * list Z) * list DaemonInfo :=
  match daemons with
  | [] => (None, [])
  | d :: daemons =>
      if dead k
      then let '(r, ds) := find_node daemons (S k) dead gm in (r, d :: ds)
      else match reserve_all (d_gpus d) gm gm [] with
           | (Some assigned, l) => (Some (k, assigned), set_gpus l d :: daemons)
           | (None, l) => let '(r, ds) := find_node daemons (S k) dead gm in (r, set_gpus l d :: ds)
           end
  end.

(** Puts [uuid] into the first empty place of its size. *)
Fixpoint place (m : Z) (uuid : string) (gpu_mem : list Z) (restored : list string) : list string :=
  match gpu_mem, restored with
  | g :: gpu_mem, r :: restored =>
      if (m =? g) && str_empty r then uuid :: restored else r :: place m uuid gpu_mem restored
  | _, _ => restored
  end.

Fixpoint restore_order (gm : list Z) (uuid : list string) (gpu_mem : list Z) (restored : list string)
    : list string :=
  match gm, uuid with
  | m :: gm, u :: uuid => restore_order gm uuid gpu_mem (place m u gpu_mem restored)
  | _, _ => restored
  end.

(** The entry a pointer points to. *)
Definition entries (l : GpuList) : gmap Z GpuListEntry := list_to_map l.
Definition entry_uuid (l : GpuList) (id : Z) : string :=
  from_option e_uuid EmptyString (entries l !! id).

Fixpoint add_busy_all (l : GpuList) (assigned gm : list Z) (worker : ServerAddress) : GpuList :=
  match assigned, gm with
  | id :: assigned, m :: gm => add_busy_all (upd id (AddBusyWorker worker m) l) assigned gm worker
  | _, _ => l
  end.

(** [spawn k uuids gpu_mem]: the API servers daemon [k] starts. *)
Definition DoAssignWorker (m : ManagerConfig) (dead : nat → bool)
    (spawn : nat → list string → list Z → list ServerAddress) (gpu_mem : list Z)
    : list ServerAddress * ManagerConfig :=
  match gpu_mem with
  | [] => ([], m)
  | _ =>
      let gm := std_sort (λ a b, b <? a) gpu_mem in
      match find_node (daemons_ m) 0 dead gm with
      | (None, ds) => ([], mk_manager ds (next_entry m))
      | (Some (k, assigned), ds) =>
          let l := from_option d_gpus [] (ds !! k) in
          let uuid := entry_uuid l <$> assigned in
          let restored_uuid :=
            restore_order gm uuid gpu_mem (replicate (length gpu_mem) EmptyString) in
          let assigned_workers := spawn k restored_uuid gpu_mem in
          let l := match assigned_workers with
                   | [] => revoke_all l assigned gm
                   | w :: _ => add_busy_all l assigned gm w
                   end in
          (assigned_workers, mk_manager (alter (set_gpus l) k ds) (next_entry m))
      end
  end.

Inductive grpc_status := StatusOK | INVALID_ARGUMENT | UNAVAILABLE.

(** The RPC: [gpu_mem] may be absent from the message. *)
Definition AssignWorker (m : ManagerConfig) (dead : nat → bool)
    (spawn : nat → list string → list Z → list ServerAddress) (gpu_count : Z) (gpu_mem : option (list Z))
    : grpc_status * list string * ManagerConfig :=
  let gpu_mem := default [] gpu_mem in
  if negb (Z.of_nat (length gpu_mem) =? u64 gpu_count) then (INVALID_ARGUMENT, [], m)
  else
    let '(assigned_workers, m) := DoAssignWorker m dead spawn gpu_mem in
    match assigned_workers with
    | [] => (UNAVAILABLE, [], m)
    | _ => (StatusOK, GetAddress <$> assigned_workers, m)
    end.

Definition FindDaemonByIp (m : ManagerConfig) (ip : string) : option nat :=
  fst <$> list_find (λ d, ip_ (d_address d) = ip) (daemons_ m).

(** Reclaims the memory of the worker on each of its GPUs; a UUID that is not found is a null
    pointer. *)
Fixpoint reclaim_loop `{PtrSetOrder} (l : GpuList) (gpu_uuid : list string) (worker : ServerAddress)
    : res GpuList :=
  match gpu_uuid with
  | [] => Ok l
  | uuid :: gpu_uuid =>
      match FindEntryByUuid l uuid with
      | None => Stop (Undefined "entry is NULL")
      | Some id => reclaim_loop (upd id (RemoveBusyWorker worker) l) gpu_uuid worker
      end
  end.

Definition NotifyWorkerExit `{PtrSetOrder} (m : ManagerConfig) (worker_address : string)
    (gpu_uuid : list string) : res (grpc_status * ManagerConfig) :=
  worker ← new_ServerAddress worker_address;
  match gpu_uuid with
  | [] => Stop (Undefined "gpu_uuid[0]")
  | _ =>
      match FindDaemonByIp m (ip_ worker) with
      | None => Ok (INVALID_ARGUMENT, m)
      | Some k =>
          l ← reclaim_loop (from_option d_gpus [] (daemons_ m !! k)) gpu_uuid worker;
          Ok (StatusOK, mk_manager (alter (set_gpus l) k (daemons_ m)) (next_entry m))
      end
  end.

(** ** The galvanic manager: one GPU per API server *)

Fixpoint galvanic_find (daemons : list DaemonInfo) (k : nat) (dead : nat → bool) (gpu_mem : Z)
    : option (nat * Z) * list DaemonInfo :=
  match daemons with
  | [] => (None, [])
  | d :: daemons =>
      if dead k
      then let '(r, ds) := galvanic_find daemons (S k) dead gpu_mem in (r, d :: ds)
      else match FindEntryAndReserveMemory (d_gpus d) gpu_mem with
           | (Some id, l) => (Some (k, id), set_gpus l d :: daemons)
           | (None, l) => let '(r, ds) := galvanic_find daemons (S k) dead gpu_mem in (r, set_gpus l d :: ds)
           end
  end.

Definition galvanic_DoAssignWorker (m : ManagerConfig) (dead : nat → bool)
    (spawn : nat → string → list ServerAddress) (gpu_mem : Z) : list ServerAddress * ManagerConfig :=
  match galvanic_find (daemons_ m) 0 dead gpu_mem with
  | (None, ds) => ([], mk_manager ds (next_entry m))
  | (Some (k, id), ds) =>
      let l := from_option d_gpus [] (ds !! k) in
      let assigned_workers := spawn k (entry_uuid l id) in
      let l := match assigned_workers with
               | [] => RevokeEntryWithMemory l id gpu_mem
               | w :: _ => upd id (AddBusyWorker w gpu_mem) l
               end in
      (assigned_workers, mk_manager (alter (set_gpus l) k ds) (next_entry m))
  end.

(** Only the first size of the message is used; reading it from an empty vector is undefined. *)
Definition galvanic_AssignWorker (m : ManagerConfig) (dead : nat → bool)
    (spawn : nat → string → list ServerAddress) (gpu_mem : option (list Z))
    : res (grpc_status * list string * ManagerConfig) :=
  match gpu_mem with
  | None => Ok (INVALID_ARGUMENT, [], m)
  | Some [] => Stop (Undefined "(*request->gpu_mem())[0]")
  | Some (mem :: _) =>
      let '(assigned_workers, m) := galvanic_DoAssignWorker m dead spawn mem in
      Ok (match assigned_workers with
          | [] => (UNAVAILABLE, [], m)
          | _ => (StatusOK, GetAddress <$> assigned_workers, m)
          end)
  end.
End GpuList.

(** ** The guest's stub (proto/manager_service.cpp) *)

(** [rpc]: the reply of the service, [None] when the status is not OK. *)
Definition ManagerServiceClient_AssignWorker (rpc : Z → Z → list Z → option (list string))
    (worker_count gpu_count : Z) (gpu_mem : list Z) : list string :=
  if negb (Z.of_nat (length gpu_mem) =? u64 gpu_count) then []
  else default [] (rpc worker_count gpu_count gpu_mem).

(** ** Lemmas: pointers and lists *)

Definition ids_ok (l : GpuList) : Prop := NoDup l.*1.

Lemma upd_fst id f l : (upd id f l).*1 = l.*1.
Proof.
  unfold upd. rewrite <- list_fmap_compose. apply list_fmap_ext. intros i [k e] _. cbn.
  by destruct (k =? id).
Qed.

Lemma entries_perm l1 l2 : ids_ok l1 → l1 ≡ₚ l2 → entries l1 = entries l2.
Proof. apply list_to_map_proper. Qed.

Lemma ids_ok_perm l1 l2 : l1 ≡ₚ l2 → ids_ok l1 → ids_ok l2.
Proof. intros Hp. unfold ids_ok. by rewrite Hp. Qed.

Lemma entries_upd id f l : ids_ok l → entries (upd id f l) = alter f id (entries l).
Proof.
  unfold entries, ids_ok. induction l as [|[k e] l IH]; intros Hnd.
  { apply map_eq. intros i. cbn. by rewrite lookup_alter, lookup_empty; destruct (decide _). }
  cbn in Hnd. apply NoDup_cons in Hnd as [Hni Hnd].
  change (upd id f ((k, e) :: l)) with ((if k =? id then (k, f e) else (k, e)) :: upd id f l).
  rewrite list_to_map_cons. specialize (IH Hnd).
  destruct (Z.eqb_spec k id) as [->|Hne].
  - rewrite list_to_map_cons, IH, alter_insert_eq. f_equal. apply map_eq. intros i. rewrite lookup_alter.
    destruct (decide (id = i)) as [->|]; [|done].
    rewrite (not_elem_of_list_to_map_1 (M := gmap Z) l i) by done. done.
  - by rewrite list_to_map_cons, IH, alter_insert_ne.
Qed.

Section sorted.
Context `{StdSort}.

Lemma sort_entries l : ids_ok l → entries (UnlockedSort l) = entries l ∧ ids_ok (UnlockedSort l).
Proof.
  intros Hl. assert (l ≡ₚ UnlockedSort l) as Hp by (symmetry; apply std_sort_perm).
  split; [symmetry; by apply entries_perm|by eapply ids_ok_perm].
Qed.

Lemma sort_upd_entries id f l :
  ids_ok l → entries (UnlockedSort (upd id f l)) = alter f id (entries l) ∧
             ids_ok (UnlockedSort (upd id f l)).
Proof.
  intros Hl. assert (ids_ok (upd id f l)) as Hu by (unfold ids_ok; by rewrite upd_fst).
  destruct (sort_entries _ Hu) as [-> ?]. split; [by apply entries_upd|done].
Qed.
End sorted.

Lemma find_entry_Some P l id :
  ids_ok l → find_entry P l = Some id →
  ∃ l1 e l2, l = l1 ++ (id, e) :: l2 ∧ P e = true ∧ Forall (λ p, P (snd p) = false) l1 ∧
    entries l !! id = Some e.
Proof.
  intros Hnd Hf. assert (∃ l1 e l2, l = l1 ++ (id, e) :: l2 ∧ P e = true ∧
    Forall (λ p, P (snd p) = false) l1) as (l1 & e & l2 & -> & He & Hl1).
  { clear Hnd. induction l as [|[k e] l IH]; [done|]. cbn in Hf. destruct (P e) eqn:He.
    - injection Hf as ->. by exists [], e, l.
    - destruct (IH Hf) as (l1 & e' & l2 & -> & He' & Hl1). exists ((k, e) :: l1), e', l2.
      split_and!; [done|done|by constructor]. }
  exists l1, e, l2. split_and!; try done. apply elem_of_list_to_map_1; [done|set_solver].
Qed.

Lemma find_entry_None P l : find_entry P l = None ↔ Forall (λ p, P (snd p) = false) l.
Proof.
  induction l as [|[k e] l IH]; cbn; [by split|]. rewrite Forall_cons. cbn.
  destruct (P e); [split; [done|by intros [? _]]|]. rewrite IH. naive_solver.
Qed.

(** ** Lemmas: accounting *)

(** Memory in use by the API servers of a GPU. *)
Definition used_sum (e : GpuListEntry) : Z := foldr (λ w n, used_memory_ w + n) 0 (busy_workers_ e).

(** Reservations that are neither revoked nor turned into a busy worker yet: entry and size. *)
Definition ones (pend : list (Z * Z)) : list (Z * Z) := (λ p, (fst p, 1)) <$> pend.

Definition total_with (pend : list (Z * Z)) (id : Z) (e : GpuListEntry) : Z :=
  e_free_memory e + used_sum e + held pend id.

(** How far the counter is from the number of API servers; negative after exits of servers that
    were not there. *)
Definition drift (pend : list (Z * Z)) (id : Z) (e : GpuListEntry) : Z :=
  worker_counter_ e - Z.of_nat (length (busy_workers_ e)) - held (ones pend) id.

Definition entry_inv (pend : list (Z * Z)) (id : Z) (e : GpuListEntry) : Prop :=
  0 ≤ e_free_memory e ∧ Forall (λ w, 0 ≤ used_memory_ w) (busy_workers_ e) ∧
  total_with pend id e < 2 ^ 64 ∧ drift pend id e ≤ 0.

Definition gpus_inv (pend : list (Z * Z)) (M : gmap Z GpuListEntry) : Prop :=
  ∀ id e, M !! id = Some e → entry_inv pend id e.

(** The busy workers of a GPU and its drift. *)
Definition books : Type := list WorkerInfo * Z.

(** The GPUs of [M] are still there, with the same identity and the same total; [R] relates the
    busy workers and the drift. *)
Definition keeps (R : relation books) (pend pend' : list (Z * Z))
    (M M' : gmap Z GpuListEntry) : Prop :=
  dom M' = dom M ∧
  ∀ id e e', M !! id = Some e → M' !! id = Some e' →
    e_uuid e' = e_uuid e ∧ idle_workers_ e' = idle_workers_ e ∧
    total_with pend' id e' = total_with pend id e ∧
    R (busy_workers_ e, drift pend id e) (busy_workers_ e', drift pend' id e').

Definition pend_ok (pend : list (Z * Z)) : Prop := Forall (λ p, 0 ≤ snd p) pend.

Definition astep R pend M pend' M' : Prop :=
  gpus_inv pend M → gpus_inv pend' M' ∧ keeps R pend pend' M M'.

(** Workers come and go with the counter; the counter loses count. *)
Definition counted : relation books := λ x y, snd y = snd x.
Definition counted_less : relation books := λ x y, snd y ≤ snd x.

Lemma counted_less_refl x : counted_less x x.
Proof. unfold counted_less. lia. Qed.

Lemma counted_trans x y z : counted x y → counted y z → counted x z.
Proof. unfold counted. lia. Qed.

Lemma counted_less_trans x y z : counted_less x y → counted_less y z → counted_less x z.
Proof. unfold counted_less. lia. Qed.

Lemma held_app l1 l2 id : held (l1 ++ l2) id = held l1 id + held l2 id.
Proof. induction l1 as [|[g s] l1 IH]; [done|]. cbn [app]. rewrite !held_cons, IH. lia. Qed.

Lemma held_pend_nonneg pend id : pend_ok pend → 0 ≤ held pend id.
Proof.
  induction 1 as [|[g s] l Hs _ IH]; [done|]. rewrite held_cons. cbn in Hs. destruct (g =? id); lia.
Qed.

Lemma ones_ok pend : pend_ok (ones pend).
Proof. unfold pend_ok, ones. rewrite Forall_fmap. apply Forall_true. intros x. cbn. lia. Qed.

Lemma used_nonneg e : Forall (λ w, 0 ≤ used_memory_ w) (busy_workers_ e) → 0 ≤ used_sum e.
Proof. unfold used_sum. induction 1; cbn; lia. Qed.

Lemma astep_refl (R : relation books) pend M : (∀ x, R x x) → astep R pend M pend M.
Proof. intros HR Hi. split; [done|]. split; [done|]. intros id e e' He He'. simplify_eq. by split_and!. Qed.

Lemma astep_trans (R : relation books) p1 M1 p2 M2 p3 M3 :
  (∀ x y z, R x y → R y z → R x z) →
  astep R p1 M1 p2 M2 → astep R p2 M2 p3 M3 → astep R p1 M1 p3 M3.
Proof.
  intros HR H12 H23 Hi. destruct (H12 Hi) as [Hi2 [Hd2 Hk2]]. destruct (H23 Hi2) as [Hi3 [Hd3 Hk3]].
  split; [done|]. split; [congruence|]. intros id e e3 He He3.
  assert (is_Some (M2 !! id)) as [e2 He2] by (apply elem_of_dom; rewrite Hd2; by eapply elem_of_dom_2).
  destruct (Hk2 _ _ _ He He2) as (?&?&?&?), (Hk3 _ _ _ He2 He3) as (?&?&?&?).
  split_and!; [congruence..|by eapply HR].
Qed.

Lemma astep_weaken (R R' : relation books) p M p' M' :
  (∀ x y, R x y → R' x y) → astep R p M p' M' → astep R' p M p' M'.
Proof.
  intros HR H Hi. destruct (H Hi) as [Hi' [Hd Hk]]. split; [done|]. split; [done|].
  intros id e e' He He'. destruct (Hk _ _ _ He He') as (?&?&?&?). by split_and!; [..|apply HR].
Qed.

(** A write to one entry: what has to be checked there; elsewhere only the entry's share of the
    pending reservations matters. *)
Lemma astep_alter (R : relation books) pend pend' M id f :
  (∀ x, R x x) →
  (∀ j, j ≠ id → held pend' j = held pend j ∧ held (ones pend') j = held (ones pend) j) →
  (∀ e, M !! id = Some e → entry_inv pend id e →
    entry_inv pend' id (f e) ∧ e_uuid (f e) = e_uuid e ∧ idle_workers_ (f e) = idle_workers_ e ∧
    total_with pend' id (f e) = total_with pend id e ∧
    R (busy_workers_ e, drift pend id e) (busy_workers_ (f e), drift pend' id (f e))) →
  astep R pend M pend' (alter f id M).
Proof.
  intros HR Hother Hid Hi. split.
  - intros j e' He'. apply lookup_alter_Some in He' as [(<- & e & He & ->)|[Hne He]].
    + apply Hid; [done|by apply Hi].
    + destruct (Hother j ltac:(done)) as [H1 H2]. destruct (Hi j e' He) as (?&?&?&?).
      unfold entry_inv, total_with, drift in *. by rewrite H1, H2.
  - split; [apply dom_alter_L|]. intros j e e' He He'.
    apply lookup_alter_Some in He' as [(<- & e0 & He0 & ->)|[Hne He0]].
    + assert (e0 = e) as -> by congruence. apply Hid; [done|by apply Hi].
    + assert (e' = e) as -> by congruence. destruct (Hother j ltac:(done)) as [H1 H2].
      unfold total_with, drift. rewrite H1, H2. by split_and!.
Qed.

Lemma held_ne g s l j : g ≠ j → held ((g, s) :: l) j = held l j.
Proof. intros Hne. rewrite held_cons. rewrite (proj2 (Z.eqb_neq _ _) Hne). lia. Qed.

Lemma held_eq g s l : held ((g, s) :: l) g = held l g + s.
Proof. rewrite held_cons, Z.eqb_refl. done. Qed.

Lemma reserve_step pend M id e m :
  pend_ok pend → M !! id = Some e → 0 ≤ m ≤ e_free_memory e →
  astep eq pend M (pend ++ [(id, m)]) (alter (ReserveMemory m) id M).
Proof.
  intros Hp He Hm. apply astep_alter; [done| |].
  - intros j Hj. unfold ones. rewrite fmap_app, !held_app. cbn [fmap list_fmap fst].
    rewrite !held_ne by done. change (held [] j) with 0. lia.
  - intros e' He' (Hf & Hb & Ht & Hc). assert (e' = e) as -> by congruence.
    pose proof (used_nonneg e Hb). pose proof (held_pend_nonneg pend id Hp).
    unfold entry_inv, total_with, drift, ones in *. cbn [ReserveMemory e_free_memory busy_workers_ worker_counter_ e_uuid idle_workers_].
    change (used_sum (ReserveMemory m e)) with (used_sum e).
    rewrite fmap_app, !held_app. cbn [fmap list_fmap fst]. rewrite !held_eq. change (held [] id) with 0.
    rewrite wrap_small by (unfold in_range; lia). split_and!; try done; try (f_equal; lia); lia.
Qed.

Lemma release_step pend M id m :
  pend_ok ((id, m) :: pend) →
  astep eq ((id, m) :: pend) M pend (alter (ReleaseMemory m) id M).
Proof.
  intros [Hm Hp]%Forall_cons. cbn in Hm. apply astep_alter; [done| |].
  - intros j Hj. unfold ones. rewrite fmap_cons. cbn [fst]. by rewrite !held_ne.
  - intros e He (Hf & Hb & Ht & Hc). pose proof (used_nonneg e Hb). pose proof (held_pend_nonneg pend id Hp).
    unfold entry_inv, total_with, drift, ones in *. rewrite fmap_cons in *. cbn [fst] in *. rewrite !held_eq in *.
    cbn [ReleaseMemory e_free_memory busy_workers_ worker_counter_ e_uuid idle_workers_].
    change (used_sum (ReleaseMemory m e)) with (used_sum e).
    rewrite wrap_small by (unfold in_range; lia). split_and!; try done; try (f_equal; lia); lia.
Qed.

Lemma busy_step pend M id m w :
  pend_ok ((id, m) :: pend) →
  astep counted ((id, m) :: pend) M pend (alter (AddBusyWorker w m) id M).
Proof.
  intros [Hm Hp]%Forall_cons. cbn in Hm. apply astep_alter; [done| |].
  - intros j Hj. unfold ones. rewrite fmap_cons. cbn [fst]. by rewrite !held_ne.
  - intros e He (Hf & Hb & Ht & Hc). unfold entry_inv, counted, total_with, drift, ones in *. cbn [snd].
    rewrite fmap_cons in *. cbn [fst] in *. rewrite !held_eq in *.
    cbn [AddBusyWorker e_free_memory busy_workers_ worker_counter_ e_uuid idle_workers_ Insert length].
    change (used_sum (AddBusyWorker w m e)) with (m + used_sum e).
    split_and!; try done; try lia. by constructor.
Qed.

Lemma remove_first_spec a l m l' :
  remove_first a l = (m, l') → (∃ w, w ∈ l ∧ GetAddress (address_ w) = a) →
  ∃ w, l ≡ₚ w :: l' ∧ m = used_memory_ w ∧ GetAddress (address_ w) = a.
Proof.
  revert l'. induction l as [|x l IH]; intros l' Hr (w & Hw & Ha); [set_solver|]. cbn in Hr.
  destruct (String.eqb_spec (GetAddress (address_ x)) a) as [Hx|Hx].
  - injection Hr as <- <-. by exists x.
  - destruct (remove_first a l) as [m1 l1] eqn:Hl. injection Hr as <- <-.
    destruct (IH l1 eq_refl) as (w' & Hp & -> & Ha').
    { exists w. apply elem_of_cons in Hw as [->|]; [done|by split]. }
    exists w'. split_and!; [|done|done]. rewrite Hp. apply Permutation_swap.
Qed.

Lemma used_sum_perm l1 l2 :
  l1 ≡ₚ l2 → foldr (λ w n, used_memory_ w + n) 0 l1 = foldr (λ w n, used_memory_ w + n) 0 l2.
Proof. induction 1; cbn; lia. Qed.

(** The exit of a worker that runs on the GPU gives its memory back. *)
Lemma remove_step `{PtrSetOrder} M id e a :
  M !! id = Some e → (∃ w, w ∈ busy_workers_ e ∧ GetAddress (address_ w) = GetAddress a) →
  astep counted [] M [] (alter (RemoveBusyWorker a) id M).
Proof.
  intros He (w0 & Hw0 & Ha0). apply astep_alter; [done|done|].
  intros e' He' (Hf & Hb & Ht & Hc). assert (e' = e) as -> by congruence.
  unfold RemoveBusyWorker. destruct (Remove (busy_workers_ e) a) as [m busy] eqn:Hr.
  destruct (remove_first_spec _ _ _ _ Hr) as (w & Hp & -> & Haw).
  { exists w0. by rewrite ptr_order_perm. }
  rewrite ptr_order_perm in Hp. pose proof Hb as Hb'. rewrite Hp in Hb'. apply Forall_cons in Hb' as [Hw Hb'].
  assert (used_sum e = used_memory_ w + foldr (λ w n, used_memory_ w + n) 0 busy) as Hu
    by (unfold used_sum; by rewrite (used_sum_perm _ _ Hp)).
  pose proof (Permutation_length Hp) as Hl. cbn in Hl.
  unfold entry_inv, counted, total_with, drift in *. cbn [snd ReleaseMemory e_free_memory busy_workers_ worker_counter_ e_uuid idle_workers_].
  set (rest := foldr (λ w n, used_memory_ w + n) 0 busy) in *.
  change (used_sum (ReleaseMemory _ (mk_entry _ _ _ busy _))) with rest.
  change (held (ones []) id) with 0 in *. change (held [] id) with 0 in *.
  assert (0 ≤ rest) by (unfold rest; clear -Hb'; induction Hb'; cbn; lia). cbn in Hw.
  rewrite wrap_small by (unfold in_range; lia). split_and!; try done; lia.
Qed.

Lemma remove_first_none a l :
  (∀ w, w ∈ l → GetAddress (address_ w) ≠ a) → remove_first a l = (0, l).
Proof.
  induction l as [|x l IH]; intros Hn; [done|]. cbn.
  destruct (String.eqb_spec (GetAddress (address_ x)) a) as [Hx|Hx]; [by destruct (Hn x); [left|]|].
  rewrite IH; [done|]. intros w Hw. apply Hn. by right.
Qed.

(** Any exit leaves the total of a GPU as it was; one of a server that is not there takes one off
    the counter. *)
Lemma remove_any_step `{PtrSetOrder} M id a :
  astep counted_less [] M [] (alter (RemoveBusyWorker a) id M).
Proof.
  assert (∀ e, {(∃ w, w ∈ busy_workers_ e ∧ GetAddress (address_ w) = GetAddress a)} +
    {∀ w, w ∈ busy_workers_ e → GetAddress (address_ w) ≠ GetAddress a}) as Hdec.
  { intros e. destruct (decide (Exists (λ w, GetAddress (address_ w) = GetAddress a) (busy_workers_ e))) as [Hx|Hx].
    - left. by apply Exists_exists.
    - right. intros w Hw Ha. apply Hx, Exists_exists. by exists w. }
  destruct (M !! id) as [e|] eqn:He.
  2:{ apply astep_alter; [exact counted_less_refl|done|]. intros e He'. congruence. }
  destruct (Hdec e) as [Hw|Hn].
  { eapply astep_weaken; [|by eapply remove_step]. unfold counted, counted_less. lia. }
  apply astep_alter; [exact counted_less_refl|done|]. intros e' He' (Hf & Hb & Ht & Hc). assert (e' = e) as -> by congruence.
  unfold RemoveBusyWorker, Remove. rewrite remove_first_none by (intros w; rewrite ptr_order_perm; apply Hn).
  pose proof (used_nonneg e Hb). pose proof (ptr_order_perm (busy_workers_ e)) as Hp.
  assert (used_sum (mk_entry (e_uuid e) (e_free_memory e) (idle_workers_ e) (ptr_order (busy_workers_ e))
    (worker_counter_ e)) = used_sum e) as Hu by (apply used_sum_perm, Hp).
  unfold entry_inv, counted_less, total_with, drift in *.
  cbn [snd ReleaseMemory e_free_memory busy_workers_ worker_counter_ e_uuid idle_workers_].
  change (used_sum (ReleaseMemory 0 ?x)) with (used_sum x). rewrite Hu, (Permutation_length Hp).
  change (held (ones []) id) with 0 in *. change (held [] id) with 0 in *.
  rewrite wrap_small by (unfold in_range; lia). split_and!; try done; try lia. by rewrite Hp.
Qed.

(** ** Lemmas: reserving on a node *)

Section nodes.
Context `{StdSort}.

Lemma find_reserve_spec l request r l' pend :
  ids_ok l → pend_ok pend → 0 ≤ request →
  FindEntryAndReserveMemory l request = (r, l') → ids_ok l' ∧
  match r with
  | Some id => astep eq pend (entries l) (pend ++ [(id, request)]) (entries l') ∧
      dom (entries l') = dom (entries l) ∧ id ∈ dom (entries l)
  | None => l' = l
  end.
Proof.
  intros Hl Hp H0. unfold FindEntryAndReserveMemory.
  destruct (find_entry _ l) as [id|] eqn:Hf; intros [= <- <-]; [|done].
  destruct (sort_upd_entries id (ReserveMemory request) l Hl) as [-> ?]. split; [done|].
  destruct (find_entry_Some _ _ _ Hl Hf) as (l1 & e & l2 & -> & He & _ & Hid).
  apply Z.leb_le in He. split; [by eapply reserve_step|]. rewrite dom_alter_L. split; [done|].
  by eapply elem_of_dom_2.
Qed.

Lemma revoke_all_spec assigned : ∀ gm l,
  ids_ok l → (length assigned ≤ length gm)%nat → pend_ok (zip assigned gm) →
  ids_ok (revoke_all l assigned gm) ∧
  astep eq (zip assigned gm) (entries l) [] (entries (revoke_all l assigned gm)).
Proof.
  induction assigned as [|id assigned IH]; intros [|m gm] l Hl Hlen Hp; cbn in Hlen; try lia.
  1,2: split; [done|by apply astep_refl].
  cbn [revoke_all zip zip_with]. cbn [zip zip_with] in Hp.
  destruct (sort_upd_entries id (ReleaseMemory m) l Hl) as [He Hl'].
  pose proof Hp as [_ Hp']%Forall_cons. destruct (IH gm (RevokeEntryWithMemory l id m) Hl' ltac:(lia) Hp') as [Hok Hs].
  split; [done|]. eapply astep_trans; [congruence| |exact Hs].
  unfold RevokeEntryWithMemory. rewrite He. by apply release_step.
Qed.

Lemma add_busy_all_spec assigned w : ∀ gm l,
  ids_ok l → (length assigned ≤ length gm)%nat → pend_ok (zip assigned gm) →
  ids_ok (add_busy_all l assigned gm w) ∧
  astep counted (zip assigned gm) (entries l) [] (entries (add_busy_all l assigned gm w)).
Proof.
  induction assigned as [|id assigned IH]; intros [|m gm] l Hl Hlen Hp; cbn in Hlen; try lia.
  1,2: split; [done|by apply astep_refl].
  cbn [add_busy_all zip zip_with]. cbn [zip zip_with] in Hp. pose proof Hp as [_ Hp']%Forall_cons.
  assert (ids_ok (upd id (AddBusyWorker w m) l)) as Hl' by (unfold ids_ok; by rewrite upd_fst).
  destruct (IH gm _ Hl' ltac:(lia) Hp') as [Hok Hs]. split; [done|].
  eapply astep_trans; [exact counted_trans| |exact Hs]. rewrite entries_upd by done. by apply busy_step.
Qed.

Lemma zip_snoc {A B} (l : list A) (k : list B) x y :
  length l = length k → zip (l ++ [x]) (k ++ [y]) = zip l k ++ [(x, y)].
Proof. intros Hl. by rewrite zip_with_app. Qed.

Lemma pend_ok_zip a gm : Forall (λ m, 0 ≤ m) gm → pend_ok (zip a gm).
Proof.
  revert a. induction gm as [|m gm IH]; intros [|x a] Hg; try constructor.
  - by apply Forall_cons in Hg as [? _].
  - apply IH. by apply Forall_cons in Hg as [_ ?].
Qed.

(** On one node either all requests are reserved, or nothing is. *)
Lemma reserve_all_spec rest : ∀ l done assigned r l',
  ids_ok l → Forall (λ m, 0 ≤ m) (done ++ rest) → length assigned = length done →
  reserve_all l (done ++ rest) rest assigned = (r, l') → ids_ok l' ∧
  match r with
  | Some a => length a = length (done ++ rest) ∧ dom (entries l') = dom (entries l) ∧
      (Forall (λ id, id ∈ dom (entries l)) assigned → Forall (λ id, id ∈ dom (entries l')) a) ∧
      astep eq (zip assigned done) (entries l) (zip a (done ++ rest)) (entries l')
  | None => astep eq (zip assigned done) (entries l) [] (entries l')
  end.
Proof.
  induction rest as [|m rest IH]; intros l dn assigned r l' Hl Hg Hlen; cbn [reserve_all].
  { intros [= <- <-]. rewrite app_nil_r in *. split; [done|]. split_and!; [done|done|done|by apply astep_refl]. }
  pose proof Hg as [Hdn [Hm Hrest]%Forall_cons]%Forall_app.
  destruct (FindEntryAndReserveMemory l m) as [[id|] l1] eqn:Hf;
    destruct (find_reserve_spec l m _ l1 (zip assigned dn) Hl (pend_ok_zip _ _ Hdn) Hm Hf) as [Hl1 Hs].
  - intros Hrun. specialize (IH l1 (dn ++ [m]) (assigned ++ [id]) r l' Hl1).
    rewrite <- app_assoc in IH. cbn [app] in IH. rewrite !length_app in IH. cbn [length] in IH.
    destruct (IH Hg ltac:(lia) Hrun) as [Hl' Hr]. split; [done|].
    destruct Hs as (Hs & Hdom & Hid). rewrite <- zip_snoc in Hs by done. destruct r as [a|].
    + destruct Hr as (Hla & Hdom' & Ha & Hr). split_and!; [rewrite length_app; cbn [length]; done|congruence| |].
      * intros Has. apply Ha. rewrite Hdom. apply Forall_app. split; [done|]. by constructor.
      * eapply astep_trans; [congruence|exact Hs|exact Hr].
    + eapply astep_trans; [congruence|exact Hs|exact Hr].
  - intros [= <- <-]. subst l1.
    assert (zip assigned dn = zip assigned (dn ++ m :: rest)) as Hz.
    { rewrite <- (app_nil_r assigned) at 2. rewrite zip_with_app by done. cbn. by rewrite app_nil_r. }
    destruct (revoke_all_spec assigned (dn ++ m :: rest) l Hl) as [Hok Hr];
      [rewrite length_app; lia|by apply pend_ok_zip|]. split; [done|]. by rewrite Hz.
Qed.

(** ** Lemmas: the nodes of the manager *)

Definition daemon_inv (d : DaemonInfo) : Prop :=
  ids_ok (d_gpus d) ∧ gpus_inv [] (entries (d_gpus d)).

Definition daemon_keeps R (d d' : DaemonInfo) : Prop :=
  d_address d' = d_address d ∧ keeps R [] [] (entries (d_gpus d)) (entries (d_gpus d')).

Lemma daemon_keeps_refl (R : relation books) d :
  (∀ x, R x x) → daemon_inv d → daemon_keeps R d d.
Proof. intros HR [_ Hi]. split; [done|]. by apply (astep_refl R [] _ HR). Qed.

(** The search leaves every node as it was, except that the chosen node has the reservations. *)
Lemma find_node_spec gm dead ds : ∀ k r ds',
  Forall (λ m, 0 ≤ m) gm → Forall daemon_inv ds → find_node ds k dead gm = (r, ds') →
  match r with
  | None => Forall2 (daemon_keeps eq) ds ds' ∧ Forall daemon_inv ds'
  | Some (n, a) => ∃ ds1 d ds2 ds1' l, ds = ds1 ++ d :: ds2 ∧ ds' = ds1' ++ set_gpus l d :: ds2 ∧
      n = (k + length ds1)%nat ∧ Forall2 (daemon_keeps eq) ds1 ds1' ∧ Forall daemon_inv ds1' ∧
      dead n = false ∧ length a = length gm ∧ Forall (λ id, id ∈ dom (entries l)) a ∧
      ids_ok l ∧ astep eq [] (entries (d_gpus d)) (zip a gm) (entries l)
  end.
Proof.
  induction ds as [|d ds IH]; intros k r ds' Hg Hi; cbn [find_node].
  { intros [= <- <-]. by split. }
  apply Forall_cons in Hi as [Hd Hi].
  assert (∀ d', daemon_keeps eq d d' → daemon_inv d' → ∀ r ds1, find_node ds (S k) dead gm = (r, ds1) →
    match r with
    | None => Forall2 (daemon_keeps eq) (d :: ds) (d' :: ds1) ∧ Forall daemon_inv (d' :: ds1)
    | Some (n, a) => ∃ e1 x e2 e1' l, d :: ds = e1 ++ x :: e2 ∧ d' :: ds1 = e1' ++ set_gpus l x :: e2 ∧
        n = (k + length e1)%nat ∧ Forall2 (daemon_keeps eq) e1 e1' ∧ Forall daemon_inv e1' ∧
        dead n = false ∧ length a = length gm ∧ Forall (λ id, id ∈ dom (entries l)) a ∧
        ids_ok l ∧ astep eq [] (entries (d_gpus x)) (zip a gm) (entries l)
    end) as Hnext.
  { intros d' Hk Hd' r0 ds1 Hf. specialize (IH (S k) r0 ds1 Hg Hi Hf). destruct r0 as [[n a]|].
    - destruct IH as (e1 & x & e2 & e1' & l & -> & -> & -> & H1 & H2 & H3).
      exists (d :: e1), x, e2, (d' :: e1'), l. destruct H3 as (?&?&?&?&?).
      split_and!; try done; try (by constructor). cbn. lia.
    - destruct IH. split; by constructor. }
  destruct (dead k) eqn:Hdead.
  - destruct (find_node ds (S k) dead gm) as [r0 ds1] eqn:Hf. intros [= <- <-].
    apply Hnext; [by apply daemon_keeps_refl|done|done].
  - destruct (reserve_all (d_gpus d) gm gm []) as [[a|] l] eqn:Hr;
      destruct (reserve_all_spec gm (d_gpus d) [] [] _ l ltac:(apply Hd) Hg eq_refl Hr) as [Hl Hs].
    + destruct Hs as (Hla & _ & Ha & Hs). specialize (Ha (Forall_nil_2 _)). intros [= <- <-]. exists [], d, ds, [], l. cbn. split_and!; try done; lia.
    + destruct (find_node ds (S k) dead gm) as [r0 ds1] eqn:Hf. intros [= <- <-].
      destruct Hd as [Hd1 Hd2]. destruct (Hs Hd2) as [Hi' Hk'].
      apply Hnext; [by split|by split|done].
Qed.

(** ** Lemmas: order of the assigned GPUs *)

Definition filled (gpu_mem : list Z) (restored : list string) : list (string * Z) :=
  filter (λ p, str_empty (fst p) = false) (zip restored gpu_mem).
Definition unfilled (gpu_mem : list Z) (restored : list string) : list Z :=
  snd <$> filter (λ p, str_empty (fst p) = true) (zip restored gpu_mem).

Lemma place_spec m u gpu_mem : ∀ restored,
  str_empty u = false → length restored = length gpu_mem → m ∈ unfilled gpu_mem restored →
  filled gpu_mem (place m u gpu_mem restored) ≡ₚ (u, m) :: filled gpu_mem restored ∧
  unfilled gpu_mem restored ≡ₚ m :: unfilled gpu_mem (place m u gpu_mem restored) ∧
  length (place m u gpu_mem restored) = length gpu_mem.
Proof.
  unfold filled, unfilled.
  induction gpu_mem as [|g gpu_mem IH]; intros [|r restored] Hu Hl Hm; try done; [by apply elem_of_nil in Hm|].
  injection Hl as Hl. cbn [place zip zip_with] in *.
  destruct (Z.eqb_spec m g) as [->|Hne], (str_empty r) eqn:Hr; cbn [andb].
  - cbn [zip zip_with]. rewrite !filter_cons. cbn [fst]. rewrite Hu, Hr. rewrite !decide_True, !decide_False by done.
    split_and!; [done|done|by cbn; rewrite Hl].
  - rewrite filter_cons in Hm. cbn [fst] in Hm. rewrite Hr, decide_False in Hm by done.
    destruct (IH restored Hu Hl Hm) as (H1 & H2 & H3). cbn [zip zip_with].
    rewrite !filter_cons. cbn [fst]. rewrite Hr, !decide_True, !decide_False by done.
    split_and!; [rewrite H1; apply Permutation_swap|done|by cbn; rewrite H3].
  - rewrite filter_cons in Hm. cbn [fst] in Hm. rewrite Hr, decide_True, fmap_cons in Hm by done.
    apply elem_of_cons in Hm as [->|Hm]; [done|].
    destruct (IH restored Hu Hl Hm) as (H1 & H2 & H3). cbn [zip zip_with].
    rewrite !filter_cons. cbn [fst]. rewrite Hr, !decide_False, !decide_True by done.
    split_and!; [done|rewrite !fmap_cons, H2; apply Permutation_swap|by cbn; rewrite H3].
  - rewrite filter_cons in Hm. cbn [fst] in Hm. rewrite Hr, decide_False in Hm by done.
    destruct (IH restored Hu Hl Hm) as (H1 & H2 & H3). cbn [zip zip_with].
    rewrite !filter_cons. cbn [fst]. rewrite Hr, !decide_True, !decide_False by done.
    split_and!; [rewrite H1; apply Permutation_swap|done|by cbn; rewrite H3].
Qed.

Lemma restore_spec gpu_mem gm : ∀ uuid restored,
  Forall (λ u, str_empty u = false) uuid → length uuid = length gm → length restored = length gpu_mem →
  unfilled gpu_mem restored ≡ₚ gm →
  filled gpu_mem (restore_order gm uuid gpu_mem restored) ≡ₚ zip uuid gm ++ filled gpu_mem restored ∧
  unfilled gpu_mem (restore_order gm uuid gpu_mem restored) = [] ∧
  length (restore_order gm uuid gpu_mem restored) = length gpu_mem.
Proof.
  induction gm as [|m gm IH]; intros [|u uuid] restored Hu Hl Hlr Hun; try done.
  { cbn. split_and!; [done|by apply Permutation_nil_r|done]. }
  cbn [restore_order zip zip_with app]. apply Forall_cons in Hu as [Hu Hus]. injection Hl as Hl.
  destruct (place_spec m u gpu_mem restored) as (H1 & H2 & H3); [done|done|rewrite Hun; by left|].
  destruct (IH uuid (place m u gpu_mem restored)) as (G1 & G2 & G3); try done.
  { rewrite H2 in Hun. by apply Permutation_cons_inv in Hun. }
  split_and!; [|done|done]. rewrite G1, H1. symmetry. apply Permutation_middle.
Qed.

Lemma all_filled gpu_mem restored :
  length restored = length gpu_mem → unfilled gpu_mem restored = [] →
  filled gpu_mem restored = zip restored gpu_mem.
Proof.
  unfold filled, unfilled. revert restored.
  induction gpu_mem as [|g gpu_mem IH]; intros [|r restored] Hl Hun; try done.
  injection Hl as Hl. cbn [zip zip_with] in *. rewrite filter_cons in *. cbn [fst] in *.
  destruct (str_empty r); [by rewrite decide_True in Hun|].
  rewrite decide_True by done. rewrite decide_False in Hun by done. f_equal. by apply IH.
Qed.

Lemma filled_empty gpu_mem :
  filled gpu_mem (replicate (length gpu_mem) EmptyString) = [] ∧
  unfilled gpu_mem (replicate (length gpu_mem) EmptyString) = gpu_mem.
Proof.
  unfold filled, unfilled. induction gpu_mem as [|g l [IH1 IH2]]; [done|].
  cbn [length replicate zip zip_with]. rewrite !filter_cons. cbn [fst str_empty].
  rewrite decide_False, decide_True by done. split; [done|]. rewrite fmap_cons. by rewrite IH2.
Qed.

(** ** Lemmas: the order of the list *)

Definition gpus_sorted (l : GpuList) : Prop := StronglySorted (λ x y, entry_lt y x = false) l.

Lemma entry_lt_asym x y : entry_lt x y = true → entry_lt y x = false.
Proof. unfold entry_lt. rewrite Z.eqb_sym. destruct (_ =? _) eqn:Heq; lia. Qed.

Lemma entry_lt_negtrans x y z : entry_lt y x = false → entry_lt z y = false → entry_lt z x = false.
Proof.
  unfold entry_lt.
  destruct (Z.eqb_spec (worker_counter_ (snd y)) (worker_counter_ (snd x))),
    (Z.eqb_spec (worker_counter_ (snd z)) (worker_counter_ (snd y))),
    (Z.eqb_spec (worker_counter_ (snd z)) (worker_counter_ (snd x))); lia.
Qed.

Lemma sort_sorted l : gpus_sorted (UnlockedSort l).
Proof. apply std_sort_sorted; [apply entry_lt_asym|apply entry_lt_negtrans]. Qed.
End nodes.

(** ** Lemmas: the operations of the manager *)

Definition mgr_inv (m : ManagerConfig) : Prop := Forall daemon_inv (daemons_ m).

(** Every node is still there with its GPUs and their totals. *)
Definition mgr_keeps R (m m' : ManagerConfig) : Prop :=
  ∀ k d, daemons_ m !! k = Some d → ∃ d', daemons_ m' !! k = Some d' ∧ daemon_keeps R d d'.

Lemma keeps_weaken (R R' : relation books) p p' M M' :
  (∀ x y, R x y → R' x y) → keeps R p p' M M' → keeps R' p p' M M'.
Proof.
  intros HR [Hd Hk]. split; [done|]. intros id e e' He He'. destruct (Hk _ _ _ He He') as (?&?&?&?).
  by split_and!; [..|apply HR].
Qed.

Lemma daemon_keeps_weaken (R R' : relation books) d d' :
  (∀ x y, R x y → R' x y) → daemon_keeps R d d' → daemon_keeps R' d d'.
Proof. intros HR [? ?]. split; [done|]. by eapply keeps_weaken. Qed.

Lemma mgr_keeps_refl (R : relation books) m : (∀ x, R x x) → mgr_inv m → mgr_keeps R m m.
Proof.
  intros HR Hi k d Hd. exists d. split; [done|]. apply daemon_keeps_refl; [done|by eapply Forall_lookup_1].
Qed.

Lemma mgr_keeps_trans (R : relation books) m1 m2 m3 :
  (∀ x y z, R x y → R y z → R x z) → mgr_keeps R m1 m2 → mgr_keeps R m2 m3 → mgr_keeps R m1 m3.
Proof.
  intros HR H12 H23 k d1 Hd1. destruct (H12 k d1 Hd1) as (d2 & Hd2 & Ha2 & [Hm2 Hk2]).
  destruct (H23 k d2 Hd2) as (d3 & Hd3 & Ha3 & [Hm3 Hk3]). exists d3. split; [done|].
  split; [congruence|]. split; [congruence|]. intros id e e3 He He3.
  assert (is_Some (entries (d_gpus d2) !! id)) as [e2 He2]
    by (apply elem_of_dom; rewrite Hm2; by eapply elem_of_dom_2).
  destruct (Hk2 _ _ _ He He2) as (?&?&?&?), (Hk3 _ _ _ He2 He3) as (?&?&?&?).
  split_and!; [congruence..|by eapply HR].
Qed.

Lemma mgr_keeps_Forall2 R m ds' n :
  Forall2 (daemon_keeps R) (daemons_ m) ds' → mgr_keeps R m (mk_manager ds' n).
Proof. intros HF k d Hd. by destruct (Forall2_lookup_l _ _ _ _ _ HF Hd) as (d' & ? & ?); exists d'. Qed.

(** Writing a list that satisfies the invariant to node [k]. *)
Lemma mgr_alter m k d l R :
  mgr_inv m → daemons_ m !! k = Some d → (∀ x, R x x) → ids_ok l →
  gpus_inv [] (entries l) → keeps R [] [] (entries (d_gpus d)) (entries l) →
  mgr_inv (mk_manager (alter (set_gpus l) k (daemons_ m)) (next_entry m)) ∧
  mgr_keeps R m (mk_manager (alter (set_gpus l) k (daemons_ m)) (next_entry m)).
Proof.
  intros Hi Hd HR Hl Hg Hk. split.
  - apply Forall_lookup. cbn. intros j x Hx. destruct (decide (k = j)) as [->|Hne].
    + rewrite list_lookup_alter_eq, Hd in Hx. cbn in Hx. injection Hx as <-. by split.
    + rewrite list_lookup_alter_ne in Hx by done. by eapply (Forall_lookup_1 _ _ _ _ Hi).
  - intros j x Hx. cbn. destruct (decide (k = j)) as [->|Hne].
    + rewrite list_lookup_alter_eq, Hx. cbn. assert (x = d) as -> by congruence.
      eexists. split; [done|]. by split.
    + rewrite list_lookup_alter_ne by done. exists x. split; [done|].
      apply daemon_keeps_refl; [done|by eapply (Forall_lookup_1 _ _ _ _ Hi)].
Qed.

Section operations.
Context `{StdSort}.

Definition by_size (gpu_mem : list Z) : list Z := std_sort (λ a b, b <? a) gpu_mem.

Lemma by_size_perm gpu_mem : by_size gpu_mem ≡ₚ gpu_mem.
Proof. apply std_sort_perm. Qed.

Lemma by_size_nonneg gpu_mem : Forall (λ x, 0 ≤ x) gpu_mem → Forall (λ x, 0 ≤ x) (by_size gpu_mem).
Proof. by rewrite by_size_perm. Qed.

(** Either no node can serve the request, or the node after [ds1] has the reservations [l] and the
    spawn decides between revoking them and recording the worker. *)
Lemma do_assign_cases m dead spawn gpu_mem ws m' :
  mgr_inv m → Forall (λ x, 0 ≤ x) gpu_mem → DoAssignWorker m dead spawn gpu_mem = (ws, m') →
  let gm := by_size gpu_mem in
  (ws = [] ∧ Forall2 (daemon_keeps eq) (daemons_ m) (daemons_ m') ∧ mgr_inv m') ∨
  ∃ ds1 d ds2 ds1' l a, daemons_ m = ds1 ++ d :: ds2 ∧
    daemons_ m' = ds1' ++ set_gpus (match ws with
                                    | [] => revoke_all l a gm
                                    | w :: _ => add_busy_all l a gm w
                                    end) d :: ds2 ∧
    ws = spawn (length ds1) (restore_order gm (entry_uuid l <$> a) gpu_mem
                               (replicate (length gpu_mem) EmptyString)) gpu_mem ∧
    Forall2 (daemon_keeps eq) ds1 ds1' ∧ Forall daemon_inv ds1' ∧ dead (length ds1) = false ∧
    length a = length gm ∧ Forall (λ id, id ∈ dom (entries l)) a ∧ ids_ok l ∧
    astep eq [] (entries (d_gpus d)) (zip a gm) (entries l).
Proof.
  intros Hi Hg. unfold DoAssignWorker. destruct gpu_mem as [|g0 gs] eqn:Hgm.
  { intros [= <- <-]. left. split_and!; [done| |done]. apply Forall_Forall2_diag.
    eapply Forall_impl; [exact Hi|]. intros d. by apply daemon_keeps_refl. }
  rewrite <- Hgm in *. clear Hgm. fold (by_size gpu_mem). pose proof (by_size_nonneg _ Hg) as Hgm. cbv zeta.
  destruct (find_node (daemons_ m) 0 dead (by_size gpu_mem)) as [[[k a]|] ds] eqn:Hf;
    pose proof (find_node_spec _ dead (daemons_ m) 0 _ ds Hgm Hi Hf) as Hs; cbn in Hs.
  - destruct Hs as (ds1 & d & ds2 & ds1' & l & Hds & -> & -> & Hk1 & Hi1 & Hdead & Hla & Ha & Hl & Hst).
    pose proof (Forall2_length _ _ _ Hk1) as Hlen1.
    rewrite (list_lookup_middle ds1' ds2 _ (length ds1)) by done. cbn [from_option d_gpus set_gpus].
    intros [= <- <-]. right. exists ds1, d, ds2, ds1', l, a. split_and!; try done. cbn [daemons_].
    by rewrite alter_app_r_alt, Hlen1, Nat.sub_diag by lia.
  - destruct Hs as [Hk Hi']. intros [= <- <-]. by left.
Qed.

(** On success the chosen node has one more busy worker per reservation, otherwise everything is
    as before. *)
Lemma assign_spec m dead spawn gpu_mem ws m' :
  mgr_inv m → Forall (λ x, 0 ≤ x) gpu_mem → DoAssignWorker m dead spawn gpu_mem = (ws, m') →
  mgr_inv m' ∧ Forall2 (daemon_keeps (if ws is [] then eq else counted)) (daemons_ m) (daemons_ m').
Proof.
  intros Hi Hg Hd. pose proof (by_size_nonneg _ Hg) as Hgm.
  destruct (do_assign_cases _ _ _ _ _ _ Hi Hg Hd) as [(-> & Hk & Hi')|Hs]; [by split|].
  destruct Hs as (ds1 & d & ds2 & ds1' & l & a & Hds & Hds' & _ & Hk1 & Hi1 & _ & Hla & _ & Hl & Hst).
  unfold mgr_inv in *. rewrite Hds in *. apply Forall_app in Hi as [_ [[Hdl Hdg] Hi2]%Forall_cons].
  assert (∃ l', (match ws with [] => revoke_all l a (by_size gpu_mem) | w :: _ => add_busy_all l a (by_size gpu_mem) w end) = l' ∧
    ids_ok l' ∧ astep (if ws is [] then eq else counted) [] (entries (d_gpus d)) [] (entries l'))
    as (l' & Heq & Hl' & Hst').
  { destruct ws as [|w ws1]; (eexists; split; [done|]).
    - destruct (revoke_all_spec a (by_size gpu_mem) l Hl) as [? ?]; [lia|by apply pend_ok_zip|]. split; [done|].
      eapply astep_trans; [congruence|exact Hst|done].
    - destruct (add_busy_all_spec a w (by_size gpu_mem) l Hl) as [? ?]; [lia|by apply pend_ok_zip|]. split; [done|].
      eapply astep_trans; [exact counted_trans| |done]. eapply astep_weaken; [|exact Hst]. by intros x y ->. }
  rewrite Heq in Hds'. rewrite Hds'. destruct (Hst' Hdg) as [Hg' Hk']. split.
  - apply Forall_app. split; [done|]. constructor; [by split|done].
  - apply Forall2_app.
    + eapply Forall2_impl; [exact Hk1|]. intros q0 q3 Hq. eapply daemon_keeps_weaken; [|exact Hq].
      intros q1 q2 ->. by destruct ws.
    + constructor; [by split|]. apply Forall_Forall2_diag. eapply Forall_impl; [exact Hi2|].
      intros x Hx. apply daemon_keeps_refl; [|done]. intros y. by destruct ws.
Qed.
End operations.

(** ** Lemmas: an exit *)

(** Busy workers at an address, and those of the first GPU with a UUID. *)
Definition at_address (a : ServerAddress) (ws : list WorkerInfo) : list WorkerInfo :=
  filter (λ w, GetAddress (address_ w) = GetAddress a) ws.

Definition running (l : GpuList) (a : ServerAddress) (uuid : string) : nat :=
  match FindEntryByUuid l uuid with
  | Some id => from_option (λ e, length (at_address a (busy_workers_ e))) 0%nat (entries l !! id)
  | None => 0
  end.

Lemma at_address_perm a ws ws' : ws ≡ₚ ws' → at_address a ws ≡ₚ at_address a ws'.
Proof. intros Hp. unfold at_address. by rewrite Hp. Qed.

Lemma at_address_Some a ws : at_address a ws ≠ [] → ∃ w, w ∈ ws ∧ GetAddress (address_ w) = GetAddress a.
Proof.
  unfold at_address. destruct (filter _ ws) as [|w l] eqn:Hf; [done|]. intros _. exists w.
  assert (w ∈ filter (λ w, GetAddress (address_ w) = GetAddress a) ws) as Hw by (rewrite Hf; left).
  by apply list_elem_of_filter in Hw as [? ?].
Qed.

Lemma find_uuid_upd id f l u :
  (∀ e, e_uuid (f e) = e_uuid e) → FindEntryByUuid (upd id f l) u = FindEntryByUuid l u.
Proof.
  intros Hf. unfold FindEntryByUuid. induction l as [|[k e] l IH]; [done|].
  cbn. destruct (k =? id); cbn; rewrite ?Hf; by destruct (String.eqb _ _).
Qed.

Lemma remove_uuid `{PtrSetOrder} a e : e_uuid (RemoveBusyWorker a e) = e_uuid e.
Proof. unfold RemoveBusyWorker. by destruct (Remove _ _). Qed.

(** One removal takes one worker of that address away, when there is one. *)
Lemma remove_busy `{PtrSetOrder} a e :
  at_address a (busy_workers_ e) ≠ [] →
  ∃ w, busy_workers_ e ≡ₚ w :: busy_workers_ (RemoveBusyWorker a e) ∧
       GetAddress (address_ w) = GetAddress a.
Proof.
  intros (w0 & Hw0 & Ha)%at_address_Some. unfold RemoveBusyWorker.
  destruct (Remove (busy_workers_ e) a) as [m busy] eqn:Hr.
  destruct (remove_first_spec _ _ _ _ Hr) as (w & Hp & _ & Haw).
  { exists w0. by rewrite ptr_order_perm. }
  exists w. cbn [busy_workers_ ReleaseMemory]. by rewrite <- Hp, ptr_order_perm.
Qed.

Definition occurrences (u : string) (us : list string) : nat := length (filter (λ v, v = u) us).

Lemma occurrences_cons u v us :
  occurrences u (v :: us) = (occurrences u us + if decide (v = u) then 1 else 0)%nat.
Proof. unfold occurrences. rewrite filter_cons. destruct (decide (v = u)); cbn; lia. Qed.

Lemma occurrences_0 u us : u ∉ us → occurrences u us = 0%nat.
Proof.
  induction us as [|v us IH]; [done|]. intros [Hne Hni]%not_elem_of_cons. rewrite occurrences_cons, IH by done.
  by rewrite decide_False.
Qed.

Lemma entry_fst_same l id e1 e2 : ids_ok l → (id, e1) ∈ l → (id, e2) ∈ l → e1 = e2.
Proof.
  intros Hl H1 H2. apply (elem_of_list_to_map_1 (M := gmap Z)) in H1, H2; [|done..]. congruence.
Qed.

Section exit.
Context `{PtrSetOrder}.

Lemma running_upd l a u v id e :
  ids_ok l → FindEntryByUuid l u = Some id → entries l !! id = Some e →
  at_address a (busy_workers_ e) ≠ [] →
  running l a v = (running (upd id (RemoveBusyWorker a) l) a v + if decide (u = v) then 1 else 0)%nat.
Proof.
  intros Hl Hf He Ha. unfold running. rewrite find_uuid_upd by apply remove_uuid.
  destruct (FindEntryByUuid l v) as [j|] eqn:Hv; [rewrite entries_upd by done|].
  - destruct (find_entry_Some _ _ _ Hl Hf) as (? & e1 & ? & _ & Hu & _ & He1).
    destruct (find_entry_Some _ _ _ Hl Hv) as (? & e2 & ? & _ & Hv2 & _ & He2).
    apply String.eqb_eq in Hu, Hv2. rewrite lookup_alter. destruct (decide (id = j)) as [->|Hne].
    + rewrite decide_True by congruence. rewrite He. cbn.
      destruct (remove_busy a e Ha) as (w & Hp & Hw).
      rewrite (Permutation_length (at_address_perm a _ _ Hp)). unfold at_address at 1.
      rewrite filter_cons_True by done. cbn [length]. unfold at_address. lia.
    + rewrite decide_False by congruence. lia.
  - rewrite decide_False by congruence. lia.
Qed.

(** The loop over the GPUs of an exiting worker that runs on them often enough. *)
Lemma reclaim_spec a us : ∀ l,
  ids_ok l → (∀ u, (occurrences u us ≤ running l a u)%nat) →
  ∃ l', reclaim_loop l us a = Ok l' ∧ ids_ok l' ∧
    astep counted [] (entries l) [] (entries l') ∧
    (∀ u, FindEntryByUuid l' u = FindEntryByUuid l u) ∧
    ∀ u id e, FindEntryByUuid l u = Some id → entries l !! id = Some e →
      ∃ e' gone, entries l' !! id = Some e' ∧ busy_workers_ e ≡ₚ gone ++ busy_workers_ e' ∧
        Forall (λ w, GetAddress (address_ w) = GetAddress a) gone ∧ length gone = occurrences u us.
Proof.
  induction us as [|u us IH]; intros l Hl Hr.
  { exists l. split_and!; [done|done|by apply astep_refl|done|]. intros v id e _ He. by exists e, []. }
  pose proof (Hr u) as Hu. rewrite occurrences_cons, decide_True in Hu by done.
  cbn [reclaim_loop]. unfold running in Hu.
  destruct (FindEntryByUuid l u) as [id|] eqn:Hf; [|lia].
  destruct (entries l !! id) as [e|] eqn:He; cbn in Hu; [|lia].
  assert (at_address a (busy_workers_ e) ≠ []) as Ha by (intros Hn; rewrite Hn in Hu; cbn in Hu; lia).
  assert (ids_ok (upd id (RemoveBusyWorker a) l)) as Hl1 by (unfold ids_ok; by rewrite upd_fst).
  destruct (IH _ Hl1) as (l' & Hrun & Hl' & Hst & Hfd & Hgone).
  { intros v. pose proof (Hr v) as Hv. rewrite occurrences_cons, (running_upd l a u v id e) in Hv by done. lia. }
  exists l'. split_and!; [done|done| |intros v; rewrite Hfd; apply find_uuid_upd, remove_uuid|].
  { eapply astep_trans; [exact counted_trans| |exact Hst]. rewrite entries_upd by done. eapply remove_step; [done|].
    by apply at_address_Some. }
  intros v j ej Hj Hej. rewrite occurrences_cons. destruct (decide (u = v)) as [->|Hne].
  - assert (j = id) as -> by congruence. assert (ej = e) as -> by congruence.
    destruct (Hgone v id (RemoveBusyWorker a e)) as (e' & gone & He' & Hp & Hg & Hlen).
    { by rewrite find_uuid_upd by apply remove_uuid. }
    { by rewrite entries_upd, lookup_alter_eq, He by done. }
    destruct (remove_busy a e Ha) as (w & Hw & Haw). exists e', (w :: gone).
    split_and!; [done|by rewrite Hw, Hp|by constructor|cbn; lia].
  - destruct (Hgone v j ej) as (e' & gone & ?); [by rewrite find_uuid_upd by apply remove_uuid| |].
    + rewrite entries_upd, lookup_alter_ne by (done || intros ->;
        destruct (find_entry_Some _ _ _ Hl Hf) as (? & e1 & ? & _ & Hu1 & _ & He1);
        destruct (find_entry_Some _ _ _ Hl Hj) as (? & e2 & ? & _ & Hu2 & _ & He2);
        apply String.eqb_eq in Hu1, Hu2; congruence). done.
    + exists e', gone. by rewrite Nat.add_0_r.
Qed.
(** The loop over the GPUs of any exit that is served. *)
Lemma reclaim_any a us : ∀ l l', ids_ok l → reclaim_loop l us a = Ok l' →
  ids_ok l' ∧ astep counted_less [] (entries l) [] (entries l').
Proof.
  induction us as [|u us IH]; intros l l' Hl; cbn [reclaim_loop].
  { intros [= <-]. split; [done|]. apply astep_refl, counted_less_refl. }
  destruct (FindEntryByUuid l u) as [id|]; [|done]. intros Hrun.
  assert (ids_ok (upd id (RemoveBusyWorker a) l)) as Hl1 by (unfold ids_ok; by rewrite upd_fst).
  destruct (IH _ _ Hl1 Hrun) as [Hl' Hst]. split; [done|].
  eapply astep_trans; [exact counted_less_trans| |exact Hst]. rewrite entries_upd by done.
  apply remove_any_step.
Qed.
End exit.

(** ** Lemmas: registering a node *)

Lemma set_free_loop_spec fm : ∀ es r,
  Forall (λ x, 0 ≤ x < 2 ^ 64) fm → Forall (λ p, entry_inv [] (fst p) (snd p)) es →
  Forall (λ p, busy_workers_ (snd p) = []) es →
  set_free_loop es fm = Ok r → r.*1 = es.*1 ∧ Forall (λ p, entry_inv [] (fst p) (snd p)) r.
Proof.
  induction fm as [|x fm IH]; intros [|[id e] es] r Hfm Hes Hb; cbn; try (by intros [= <-]); try done.
  apply Forall_cons in Hfm as [Hx Hfm], Hes as [He Hes], Hb as [Hbe Hb].
  destruct (set_free_loop es fm) as [r1|] eqn:Hr; [|done]. intros [= <-].
  destruct (IH es r1 Hfm Hes Hb Hr) as [Hf Hi]. cbn. split; [by f_equal|]. constructor; [|done].
  cbn in *. destruct He as (_ & _ & _ & Hc). unfold entry_inv, total_with, drift, used_sum in *.
  cbn [SetFreeMemory e_free_memory busy_workers_ worker_counter_]. rewrite Hbe in *. cbn in *.
  split_and!; try done; lia.
Qed.

Lemma set_free_loop_drift fm : ∀ es r,
  set_free_loop es fm = Ok r → Forall (λ p, drift [] (fst p) (snd p) = 0) es →
  Forall (λ p, drift [] (fst p) (snd p) = 0) r.
Proof.
  induction fm as [|x fm IH]; intros [|[id e] es] r; cbn; try (by intros [= <-]); try done.
  destruct (set_free_loop es fm) as [r1|] eqn:Hr; [|done]. intros [= <-] [He Hes]%Forall_cons.
  constructor; [exact He|by apply (IH es)].
Qed.

Lemma new_entry_inv id u : entry_inv [] id (new_entry u).
Proof. unfold entry_inv, total_with, drift, used_sum. cbn. split_and!; try done; lia. Qed.

Lemma zip_fst_length {A B} (l : list A) (k : list B) : length l = length k → (zip l k).*1 = l.
Proof. intros Hl. apply fst_zip. lia. Qed.

Lemma fresh_entries ids uuid : Forall (λ p, ∃ u, snd p = new_entry u) (zip (ids : list Z) (new_entry <$> uuid)).
Proof.
  revert ids. induction uuid as [|u uuid IH]; intros [|i ids]; try constructor; [by exists u|apply IH].
Qed.

Lemma FindDaemon_lookup m ip k :
  FindDaemonByIp m ip = Some k → ∃ d, daemons_ m !! k = Some d ∧ ip_ (d_address d) = ip.
Proof.
  unfold FindDaemonByIp. destruct (list_find _ _) as [[j d]|] eqn:Hf; [|done]. intros [= <-].
  apply list_find_Some in Hf as (? & ? & _). by exists d.
Qed.

(** The exiting worker runs on the GPUs it names, as often as it names them, on the node the manager
    finds for it. *)
Definition known_exit (m : ManagerConfig) (address : string) (us : list string) : Prop :=
  ∀ a k, new_ServerAddress address = Ok a → FindDaemonByIp m (ip_ a) = Some k →
    ∀ u, (occurrences u us ≤ running (from_option d_gpus [] (daemons_ m !! k)) a u)%nat.

Section reachable.
Context `{StdSort} `{PtrSetOrder}.

Lemma register_spec m address uuid fm m' :
  mgr_inv m → Forall (λ x, 0 ≤ x < 2 ^ 64) fm → RegisterDaemon m address uuid fm = Ok m' →
  mgr_inv m' ∧ mgr_keeps counted m m' ∧
  ∀ k d, daemons_ m' !! k = Some d → daemons_ m !! k = Some d ∨
    ∀ id e, entries (d_gpus d) !! id = Some e → drift [] id e = 0.
Proof.
  intros Hi Hfm. unfold RegisterDaemon. destruct (new_ServerAddress address) as [a|]; [|done]. cbn [mbind res_bind].
  set (es := zip _ _). destruct (set_free_loop es fm) as [r|] eqn:Hr; [|done]. intros [= <-].
  assert (es.*1 = (λ i : nat, next_entry m + Z.of_nat i) <$> seq 0 (length uuid)) as Hids.
  { unfold es. apply zip_fst_length. by rewrite !length_fmap, length_seq. }
  assert (Forall (λ p, ∃ u, snd p = new_entry u) es) as Hnew by apply fresh_entries.
  destruct (set_free_loop_spec fm es r Hfm) as [Hr1 Hr2]; [| |done|].
  { eapply Forall_impl; [exact Hnew|]. intros p [u ->]. apply new_entry_inv. }
  { eapply Forall_impl; [exact Hnew|]. by intros p [u ->]. }
  assert (ids_ok r) as Hok.
  { unfold ids_ok. rewrite Hr1, Hids. apply NoDup_fmap_2; [intros ?? ?; lia|apply NoDup_ListNoDup, seq_NoDup]. }
  assert (Forall (λ p, drift [] (fst p) (snd p) = 0) r) as Hdr.
  { eapply set_free_loop_drift; [exact Hr|]. eapply Forall_impl; [exact Hnew|]. by intros p [u ->]. }
  unfold AddEntries. cbn [app]. destruct (sort_entries r Hok) as [Her Hsr]. split; [|split].
  - apply Forall_app. split; [done|]. constructor; [|done]. split; [done|]. cbn [d_gpus]. rewrite Her.
    intros id e He. apply elem_of_list_to_map_2 in He. by apply (proj1 (Forall_forall _ _) Hr2 _ He).
  - intros k d Hd. exists d. cbn. split; [by apply lookup_app_l_Some|].
    apply daemon_keeps_refl; [done|by eapply (Forall_lookup_1 _ _ _ _ Hi)].
  - intros k d [Hd|[_ Hd]]%lookup_app_Some; [by left|right]. apply list_lookup_singleton_Some in Hd as [_ <-].
    cbn [d_gpus]. rewrite Her. intros id e He. apply elem_of_list_to_map_2 in He.
    by apply (proj1 (Forall_forall _ _) Hdr _ He).
Qed.

Lemma exit_spec m address us st m' :
  mgr_inv m → NotifyWorkerExit m address us = Ok (st, m') →
  mgr_inv m' ∧ length (daemons_ m') = length (daemons_ m) ∧
  mgr_keeps counted_less m m' ∧ (known_exit m address us → mgr_keeps counted m m').
Proof.
  intros Hi. unfold NotifyWorkerExit. destruct (new_ServerAddress address) as [a|] eqn:Ha; [|done].
  cbn [mbind res_bind]. destruct us as [|u0 us0] eqn:Hus; [done|]. rewrite <- Hus in *. clear Hus.
  destruct (FindDaemonByIp m (ip_ a)) as [k|] eqn:Hf.
  2:{ intros [= <- <-]. split_and!; [done|done|by apply mgr_keeps_refl; [exact counted_less_refl|]|by intros _; apply mgr_keeps_refl]. }
  destruct (FindDaemon_lookup m (ip_ a) k Hf) as (d & Hd & _). rewrite Hd. cbn.
  pose proof (Forall_lookup_1 _ _ _ _ Hi Hd) as [Hok Hinv].
  destruct (reclaim_loop (d_gpus d) us a) as [l|] eqn:Hl; [|done]. cbn. intros [= <- <-].
  destruct (reclaim_any a us _ _ Hok Hl) as [Hl' Hst]. destruct (Hst Hinv) as [Hg Hkeep].
  destruct (mgr_alter m k d l counted_less Hi Hd) as [Hi' Hk']; [exact counted_less_refl|done..|]. split_and!; [done|apply length_alter|done|].
  intros Hk. specialize (Hk a k Ha Hf). rewrite Hd in Hk.
  destruct (reclaim_spec a us (d_gpus d) Hok Hk) as (l2 & Hl2 & _ & Hst2 & _).
  assert (l2 = l) as -> by congruence. destruct (Hst2 Hinv) as [_ Hkeep2].
  by apply (mgr_alter m k d l counted).
Qed.

(** What the manager serves: registrations, assignments and exits; [exits] says which exits it is
    told of. *)
Inductive mstep_with (exits : ManagerConfig → string → list string → Prop)
    : ManagerConfig → ManagerConfig → Prop :=
  | step_register m address uuid fm m' :
      Forall (λ x, 0 ≤ x < 2 ^ 64) fm → RegisterDaemon m address uuid fm = Ok m' →
      mstep_with exits m m'
  | step_assign m dead spawn n gm st ws m' :
      Forall (λ x, 0 ≤ x) (default [] gm) → AssignWorker m dead spawn n gm = (st, ws, m') →
      mstep_with exits m m'
  | step_exit m address us st m' :
      exits m address us → NotifyWorkerExit m address us = Ok (st, m') → mstep_with exits m m'.

(** Any exits, and only those of servers that run where they say. *)
Definition mstep : ManagerConfig → ManagerConfig → Prop := mstep_with (λ _ _ _, True).
Definition known_step : ManagerConfig → ManagerConfig → Prop := mstep_with known_exit.

Lemma AssignWorker_spec m dead spawn n gm st ws m' :
  mgr_inv m → Forall (λ x, 0 ≤ x) (default [] gm) → AssignWorker m dead spawn n gm = (st, ws, m') →
  mgr_inv m' ∧ Forall2 (daemon_keeps (if st is StatusOK then counted else eq)) (daemons_ m) (daemons_ m').
Proof.
  intros Hi Hg. unfold AssignWorker. destruct (negb _).
  { intros [= <- <- <-]. split; [done|]. apply Forall_Forall2_diag.
    eapply Forall_impl; [exact Hi|]. intros d. by apply daemon_keeps_refl. }
  destruct (DoAssignWorker m dead spawn _) as [ws1 m1] eqn:Hd.
  destruct (assign_spec _ _ _ _ _ _ Hi Hg Hd). by destruct ws1; intros [= <- <- <-].
Qed.

Lemma mgr_keeps_weaken (R R' : relation books) m m' :
  (∀ x y, R x y → R' x y) → mgr_keeps R m m' → mgr_keeps R' m m'.
Proof.
  intros HR Hk k d Hd. destruct (Hk k d Hd) as (d' & ? & ?). exists d'. split; [done|].
  by eapply daemon_keeps_weaken.
Qed.

Lemma counted_counted_less x y : counted x y → counted_less x y.
Proof. unfold counted, counted_less. lia. Qed.

Lemma mstep_inv exits m m' :
  mgr_inv m → mstep_with exits m m' →
  mgr_inv m' ∧ mgr_keeps counted_less m m' ∧
  ((∀ m a us, exits m a us → known_exit m a us) → mgr_keeps counted m m').
Proof.
  intros Hi Hs. destruct Hs as [m a us fm m' Hfm Hr|m dead spawn n gm st ws m' Hg Hr|m a us st m' Hk Hr].
  - destruct (register_spec _ _ _ _ _ Hi Hfm Hr) as (Hi' & Hkeep & _). split; [done|].
    split; [|done]. eapply mgr_keeps_weaken; [apply counted_counted_less|exact Hkeep].
  - destruct (AssignWorker_spec _ _ _ _ _ _ _ _ Hi Hg Hr) as [? Hkeep]. split; [done|].
    assert (mgr_keeps counted m m') as Hc.
    { destruct m'. eapply mgr_keeps_weaken; [|by apply mgr_keeps_Forall2]. by destruct st; [|intros x y ->..]. }
    split; [|done]. eapply mgr_keeps_weaken; [apply counted_counted_less|exact Hc].
  - destruct (exit_spec _ _ _ _ _ Hi Hr) as (? & _ & ? & Hc). split_and!; [done..|]. intros He. by apply Hc, He.
Qed.

Lemma msteps_inv exits m m' :
  rtc (mstep_with exits) m m' → mgr_inv m →
  mgr_inv m' ∧ mgr_keeps counted_less m m' ∧
  ((∀ m a us, exits m a us → known_exit m a us) → mgr_keeps counted m m').
Proof.
  induction 1 as [m|m1 m2 m3 H12 _ IH]; intros Hi.
  { split_and!; [done|by apply mgr_keeps_refl; [exact counted_less_refl|]|by intros _; apply mgr_keeps_refl]. }
  destruct (mstep_inv _ _ _ Hi H12) as (Hi2 & Hk & Hc). destruct (IH Hi2) as (Hi3 & Hk3 & Hc3).
  split_and!; [done|eapply mgr_keeps_trans; [exact counted_less_trans|done..]|].
  intros He. eapply mgr_keeps_trans; [exact counted_trans|by apply Hc|by apply Hc3].
Qed.

(** With known exits only, every counter is the number of API servers. *)
Definition mgr_exact (m : ManagerConfig) : Prop :=
  ∀ k d id e, daemons_ m !! k = Some d → entries (d_gpus d) !! id = Some e → drift [] id e = 0.

Lemma keeps_exact m m' :
  mgr_exact m → length (daemons_ m') = length (daemons_ m) → mgr_keeps counted m m' → mgr_exact m'.
Proof.
  intros Hx Hl Hk k d' id e' Hd' He'.
  destruct (lookup_lt_is_Some_2 (daemons_ m) k) as [d Hd]; [rewrite <- Hl; by eapply lookup_lt_Some|].
  destruct (Hk k d Hd) as (d2 & Hd2 & _ & Hdom & Hkeep). assert (d2 = d') as -> by congruence.
  assert (is_Some (entries (d_gpus d) !! id)) as [e He]
    by (apply elem_of_dom; rewrite <- Hdom; by eapply elem_of_dom_2).
  destruct (Hkeep _ _ _ He He') as (_ & _ & _ & Hc). unfold counted in Hc. cbn in Hc.
  rewrite Hc. by eapply Hx.
Qed.

Lemma known_step_exact m m' : mgr_inv m → mgr_exact m → known_step m m' → mgr_exact m'.
Proof.
  intros Hi Hx Hs. destruct (mstep_inv _ _ _ Hi Hs) as (_ & _ & Hc). specialize (Hc ltac:(done)).
  destruct Hs as [m a us fm m' Hfm Hr|m dead spawn n gm st ws m' Hg Hr|m a us st m' Hk Hr].
  - destruct (register_spec _ _ _ _ _ Hi Hfm Hr) as (_ & _ & Hnew). intros k d id e Hd He.
    destruct (Hnew k d Hd) as [Hd0|Hd0]; [by eapply Hx|by apply Hd0].
  - apply (keeps_exact m); [done| |done]. destruct (AssignWorker_spec _ _ _ _ _ _ _ _ Hi Hg Hr) as [_ Hkeep].
    symmetry. by eapply Forall2_length.
  - apply (keeps_exact m); [done| |done]. by apply (exit_spec _ _ _ _ _ Hi Hr).
Qed.

Lemma known_steps_exact m m' : rtc known_step m m' → mgr_inv m → mgr_exact m → mgr_exact m'.
Proof.
  induction 1 as [|m1 m2 m3 H12 _ IH]; [done|]. intros Hi Hx.
  apply IH; [by apply (mstep_inv _ _ _ Hi H12)|by eapply known_step_exact].
Qed.
End reachable.
