(* ===== verification/GpuPolicy.v ===== *)
(** * The GPU managers' theorems: conservation, all-or-nothing, the policy

    Over the model of [GpuManager]: what an assignment records on its node, that the exit of the
    API server undoes it, that no reachable state loses or invents memory, the choice of the GPU, and
    the galvanic manager as the one-GPU case.  The last section has the runs on which the manager
    leaves its documented policy. *)

From S2P Require Import Prelude CString Provision GpuManager.
Local Open Scope Z_scope.

(** ** Lemmas: what an assignment records *)

(** The sizes given with [x]. *)
Definition sizes {A} `{EqDecision A} (x : A) (l : list (A * Z)) : list Z :=
  snd <$> filter (λ p, fst p = x) l.

Lemma sizes_perm {A} `{EqDecision A} (x : A) l l' : l ≡ₚ l' → sizes x l ≡ₚ sizes x l'.
Proof. intros Hp. unfold sizes. by rewrite Hp. Qed.

Lemma sizes_cons {A} `{EqDecision A} (x y : A) m l :
  sizes x ((y, m) :: l) = if decide (y = x) then m :: sizes x l else sizes x l.
Proof. unfold sizes. rewrite filter_cons. cbn [fst]. by destruct (decide (y = x)). Qed.

Lemma add_busy_all_busy a w : ∀ gm l id e,
  ids_ok l → length a = length gm → entries l !! id = Some e →
  ∃ e', entries (add_busy_all l a gm w) !! id = Some e' ∧ e_uuid e' = e_uuid e ∧
    busy_workers_ e' ≡ₚ (mk_worker w <$> sizes id (zip a gm)) ++ busy_workers_ e.
Proof.
  induction a as [|i a IH]; intros [|m gm] l id e Hl Hlen He; try done; [by exists e|].
  injection Hlen as Hlen. cbn [add_busy_all zip zip_with]. rewrite sizes_cons.
  assert (ids_ok (upd i (AddBusyWorker w m) l)) as Hl' by (unfold ids_ok; by rewrite upd_fst).
  pose proof (entries_upd i (AddBusyWorker w m) l Hl) as Hu. destruct (decide (i = id)) as [->|Hne].
  - destruct (IH gm _ id (AddBusyWorker w m e) Hl' Hlen) as (e' & He' & Hu' & Hb).
    { by rewrite Hu, lookup_alter_eq, He. }
    exists e'. split_and!; [done|done|]. rewrite Hb, fmap_cons.
    cbn [AddBusyWorker busy_workers_ Insert]. symmetry. apply Permutation_middle.
  - apply (IH gm _ id e Hl' Hlen). by rewrite Hu, lookup_alter_ne.
Qed.

(** With distinct UUIDs the sizes at an entry are those at its UUID. *)
Lemma sizes_uuid l a gm id e :
  (∀ i j x y, entries l !! i = Some x → entries l !! j = Some y → e_uuid x = e_uuid y → i = j) →
  Forall (λ i, i ∈ dom (entries l)) a → entries l !! id = Some e →
  sizes (e_uuid e) (zip (entry_uuid l <$> a) gm) = sizes id (zip a gm).
Proof.
  intros Hinj Ha He. revert gm. induction a as [|i a IH]; intros [|m gm]; try done.
  apply Forall_cons in Ha as [[x Hx]%elem_of_dom Ha]. cbn [fmap list_fmap zip zip_with].
  rewrite !sizes_cons. rewrite (IH Ha gm). unfold entry_uuid. rewrite Hx. cbn.
  destruct (decide (i = id)) as [->|Hne]; [by rewrite decide_True by congruence|].
  rewrite decide_False; [done|]. intros Heq. apply Hne. by eapply Hinj.
Qed.

Lemma keeps_eq_entries M M' :
  gpus_inv [] M → gpus_inv [] M' → keeps eq [] [] M M' → M' = M.
Proof.
  intros Hi Hi' [Hd Hk]. apply map_eq. intros id. destruct (M !! id) as [e|] eqn:He.
  - assert (is_Some (M' !! id)) as [e' He'] by (apply elem_of_dom; rewrite Hd; by eapply elem_of_dom_2).
    rewrite He'. destruct (Hk _ _ _ He He') as (Hu & Hidle & Ht & Hbd).
    injection Hbd as Hb Hdr. unfold total_with, drift, used_sum in *. rewrite <- Hb in *. f_equal.
    destruct e, e'; cbn in *; subst; f_equal; lia.
  - apply not_elem_of_dom. rewrite Hd. by apply not_elem_of_dom.
Qed.

Lemma used_sum_workers w ms ws :
  foldr (λ w n, used_memory_ w + n) 0 ((mk_worker w <$> ms) ++ ws) =
  foldr Z.add 0 ms + foldr (λ w n, used_memory_ w + n) 0 ws.
Proof. induction ms as [|x ms IH]; [done|]. cbn in *. rewrite IH. lia. Qed.

(** Every GPU of the node has a name, and no two have the same. *)
Definition names_ok (d : DaemonInfo) : Prop :=
  ∀ i j x y, entries (d_gpus d) !! i = Some x → entries (d_gpus d) !! j = Some y →
    str_empty (e_uuid x) = false ∧ (e_uuid x = e_uuid y → i = j).

Lemma keeps_names R p p' d l :
  keeps R p p' (entries (d_gpus d)) (entries l) → names_ok d → names_ok (set_gpus l d).
Proof.
  intros [Hdom Hk] Hn i j x y Hx Hy. cbn in Hx, Hy.
  assert (∀ i x, entries l !! i = Some x → ∃ e, entries (d_gpus d) !! i = Some e ∧ e_uuid x = e_uuid e) as Hback.
  { intros k z Hz. pose proof (elem_of_dom_2 _ _ _ Hz) as Hin. rewrite Hdom in Hin.
    apply elem_of_dom in Hin as [e He]. exists e. split; [done|]. by destruct (Hk _ _ _ He Hz). }
  destruct (Hback i x Hx) as (e1 & He1 & ->), (Hback j y Hy) as (e2 & He2 & ->). by apply Hn.
Qed.

Lemma entry_uuid_nonempty d l a :
  names_ok (set_gpus l d) → Forall (λ id, id ∈ dom (entries l)) a →
  Forall (λ u, str_empty u = false) (entry_uuid l <$> a).
Proof.
  intros Hn Ha. apply Forall_fmap. eapply Forall_impl; [exact Ha|]. intros i [x Hx]%elem_of_dom.
  cbn. unfold entry_uuid. rewrite Hx. cbn. by apply (Hn i i x x).
Qed.

(** Only the node in the middle differs. *)
Lemma lookup_other {A} (R : relation A) l1 l1' x x' l2 j y :
  (∀ x, R x x) → Forall2 R l1 l1' → j ≠ length l1 → (l1 ++ x :: l2) !! j = Some y →
  ∃ y', (l1' ++ x' :: l2) !! j = Some y' ∧ R y y'.
Proof.
  intros HR HF Hj. pose proof (Forall2_length _ _ _ HF) as Hl.
  destruct (decide (j < length l1)%nat) as [Hlt|Hge].
  - rewrite !lookup_app_l by lia. intros Hy. by apply (Forall2_lookup_l _ _ _ _ _ HF).
  - rewrite !lookup_app_r by lia. rewrite <- Hl.
    destruct (j - length l1)%nat as [|n] eqn:Hn; [lia|]. cbn. intros Hy. by exists y.
Qed.

Lemma find_by_uuid d id e :
  ids_ok (d_gpus d) → names_ok d → entries (d_gpus d) !! id = Some e →
  FindEntryByUuid (d_gpus d) (e_uuid e) = Some id.
Proof.
  intros Hl Hn He. destruct (FindEntryByUuid (d_gpus d) (e_uuid e)) as [j|] eqn:Hf.
  - destruct (find_entry_Some _ _ _ Hl Hf) as (? & x & ? & _ & Hx%String.eqb_eq & _ & Hj).
    f_equal. by apply (Hn j id x e).
  - apply find_entry_None in Hf. apply elem_of_list_to_map_2 in He.
    apply (proj1 (Forall_forall _ _) Hf) in He. cbn in He. by rewrite String.eqb_refl in He.
Qed.

Lemma sizes_length u us gm :
  length us = length gm → length (sizes u (zip us gm)) = occurrences u us.
Proof.
  revert gm. induction us as [|v us IH]; intros [|m gm] Hl; try done. injection Hl as Hl.
  cbn [zip zip_with]. rewrite sizes_cons, occurrences_cons, <- (IH gm Hl).
  destruct (decide (v = u)); cbn; lia.
Qed.

Lemma at_address_all a ws : Forall (λ w, GetAddress (address_ w) = GetAddress a) ws → at_address a ws = ws.
Proof.
  unfold at_address. induction 1 as [|w ws Hw _ IH]; [done|]. by rewrite filter_cons_True, IH.
Qed.

(** Removing as many workers of an address as were added leaves the others. *)
Lemma removed_added a (all gone left_ new old : list WorkerInfo) :
  all ≡ₚ gone ++ left_ → all ≡ₚ new ++ old → length gone = length new →
  Forall (λ w, GetAddress (address_ w) = GetAddress a) gone →
  Forall (λ w, GetAddress (address_ w) = GetAddress a) new → at_address a old = [] → left_ ≡ₚ old.
Proof.
  intros Hg Hn Hlen Hga Hna Ho.
  pose proof (Permutation_length (at_address_perm a _ _ Hg)) as L1.
  pose proof (Permutation_length (at_address_perm a _ _ Hn)) as L2. unfold at_address in L1, L2, Ho.
  rewrite filter_app, length_app in L1, L2. rewrite Ho in L2.
  fold (at_address a gone) in L1. fold (at_address a new) in L2.
  rewrite at_address_all in L1, L2 by done. cbn in L2.
  assert (filter (λ w, GetAddress (address_ w) = GetAddress a) left_ = []) as Hl by (apply nil_length_inv; lia).
  set (Q := λ w, ¬ GetAddress (address_ w) = GetAddress a).
  assert (∀ ws, filter (λ w, GetAddress (address_ w) = GetAddress a) ws = [] → filter Q ws = ws) as Hall.
  { clear. intros ws. induction ws as [|w ws IH]; [done|]. rewrite !filter_cons. unfold Q in *.
    destruct (decide (GetAddress (address_ w) = _)); [done|]. rewrite decide_True by done. intros ?. f_equal. by apply IH. }
  assert (∀ ws, Forall (λ w, GetAddress (address_ w) = GetAddress a) ws → filter Q ws = []) as Hnone.
  { clear. induction 1 as [|w ws Hw _ IH]; [done|]. rewrite filter_cons_False; [done|]. by intros ?. }
  rewrite Hg in Hn. assert (filter Q (gone ++ left_) ≡ₚ filter Q (new ++ old)) as Hp by (by rewrite Hn).
  rewrite !filter_app, (Hnone gone), (Hnone new), (Hall left_), (Hall old) in Hp by done. done.
Qed.

Section assigned.
Context `{StdSort}.

Lemma restored_perm gpu_mem uuids :
  length uuids = length gpu_mem → Forall (λ u, str_empty u = false) uuids →
  let r := restore_order (by_size gpu_mem) uuids gpu_mem (replicate (length gpu_mem) EmptyString) in
  length r = length gpu_mem ∧ zip r gpu_mem ≡ₚ zip uuids (by_size gpu_mem).
Proof.
  intros Hlen Hne. cbv zeta. destruct (filled_empty gpu_mem) as [He Hu].
  destruct (restore_spec gpu_mem (by_size gpu_mem) uuids (replicate (length gpu_mem) EmptyString))
    as (H1 & H2 & H3); [done|by rewrite by_size_perm|by rewrite length_replicate|by rewrite Hu, by_size_perm|].
  split; [done|]. rewrite <- all_filled by done. by rewrite H1, He, app_nil_r.
Qed.
End assigned.

(** ** Instances for concrete runs: insertion sort, and a set iterated from the last insertion *)

Fixpoint insert_by {A} (lt : A → A → bool) (x : A) (l : list A) : list A :=
  match l with
  | [] => [x]
  | y :: l => if lt x y then x :: y :: l else y :: insert_by lt x l
  end.
Definition insertion_sort {A} (lt : A → A → bool) (l : list A) : list A := foldr (insert_by lt) [] l.

Lemma insert_by_perm {A} (lt : A → A → bool) x l : insert_by lt x l ≡ₚ x :: l.
Proof.
  induction l as [|y l IH]; [done|]. cbn. destruct (lt x y); [done|]. rewrite IH. apply Permutation_swap.
Qed.

Lemma insertion_sort_perm {A} (lt : A → A → bool) l : insertion_sort lt l ≡ₚ l.
Proof. induction l as [|x l IH]; [done|]. cbn. by rewrite insert_by_perm, IH. Qed.

Lemma insertion_sort_sorted {A} (lt : A → A → bool) l :
  (∀ x y, lt x y = true → lt y x = false) →
  (∀ x y z, lt y x = false → lt z y = false → lt z x = false) →
  StronglySorted (λ x y, lt y x = false) (insertion_sort lt l).
Proof.
  intros Hasym Htr. induction l as [|x l IH]; [constructor|].
  change (insertion_sort lt (x :: l)) with (insert_by lt x (insertion_sort lt l)).
  induction (insertion_sort lt l) as [|y k IHk]; [by repeat constructor|].
  inversion IH as [|? ? Hk Hy]; subst. cbn. destruct (lt x y) eqn:Hxy.
  - constructor; [done|]. constructor; [by apply Hasym|]. eapply Forall_impl; [exact Hy|].
    intros z Hz. eapply Htr; [by apply Hasym|exact Hz].
  - constructor; [by apply IHk|]. rewrite insert_by_perm. by constructor.
Qed.

Definition sample_sort : StdSort :=
  {| std_sort := @insertion_sort; std_sort_perm := @insertion_sort_perm;
     std_sort_sorted := @insertion_sort_sorted |}.
Definition sample_order : PtrSetOrder := {| ptr_order := id; ptr_order_perm := λ l, reflexivity l |}.
#[local] Existing Instance sample_sort.
#[local] Existing Instance sample_order.

(** Two GPUs on one node; the second has more memory. *)
Definition two_gpus : ManagerConfig :=
  match RegisterDaemon (mk_manager [] 0) "10.0.0.1:3335" ["GPU-a"; "GPU-b"] [100; 300] with
  | Ok m => m
  | Stop _ => mk_manager [] 0
  end.
Definition sample_spawn (k : nat) (uuids : list string) (gpu_mem : list Z) : list ServerAddress :=
  [mk_address "10.0.0.1" 4000].
Definition after_assign (m : ManagerConfig) (port : Z) (gpu_mem : list Z) : ManagerConfig :=
  snd (AssignWorker m (λ _, false) (λ _ _ _, [mk_address "10.0.0.1" port])
         (Z.of_nat (length gpu_mem)) (Some gpu_mem)).
Definition after_exit (m : ManagerConfig) (address : string) (us : list string) : ManagerConfig :=
  match NotifyWorkerExit m address us with Ok (_, m') => m' | Stop _ => m end.

Example run_assign : let '(st, ws, m) := AssignWorker two_gpus (λ _, false) sample_spawn 2 (Some [50; 200]) in
  (st, ws, (λ p, (e_uuid (snd p), e_free_memory (snd p), worker_counter_ (snd p))) <$> from_option d_gpus [] (daemons_ m !! 0%nat)) =
  (StatusOK, ["10.0.0.1:4000"], [("GPU-b", 100, 1); ("GPU-a", 50, 1)]).
Proof. vm_compute. reflexivity. Qed.

(** ** Theorems *)

Definition boot : ManagerConfig := mk_manager [] 0.

(** The same node with the same GPUs. *)
Definition same_gpus (d d' : DaemonInfo) : Prop :=
  d_address d' = d_address d ∧ entries (d_gpus d') = entries (d_gpus d).

Lemma keeps_same_gpus ds ds' :
  Forall2 (daemon_keeps eq) ds ds' → Forall daemon_inv ds → Forall daemon_inv ds' → Forall2 same_gpus ds ds'.
Proof.
  induction 1 as [|d d' ds ds' [Ha Hk] _ IH]; intros Hi Hi'; [constructor|].
  apply Forall_cons in Hi as [[_ Hd] Hi], Hi' as [[_ Hd'] Hi']. constructor; [|by apply IH].
  split; [done|]. by apply keeps_eq_entries.
Qed.

Definition address_ok (a : ServerAddress) : Prop :=
  str_empty (ip_ a) = false ∧ has_char ":" (ip_ a) = false ∧ 0 < port_ a < 2 ^ 31.

Lemma new_GetAddress a : address_ok a → new_ServerAddress (GetAddress a) = Ok a.
Proof.
  intros (Hip & Hc & Hp). destruct a as [ip port]. unfold new_ServerAddress, GetAddress. cbn [ip_ port_] in *.
  rewrite cut_app by done. rewrite (sto_to_string 32) by lia. cbn [mbind res_bind].
  rewrite Hip, (proj2 (Z.eqb_neq _ _)) by lia. done.
Qed.

Lemma keeps_addresses R ds ds' : Forall2 (daemon_keeps R) ds ds' → d_address <$> ds' = d_address <$> ds.
Proof. induction 1 as [|d d' ds ds' [Ha _] _ IH]; [done|]. cbn. by rewrite Ha, IH. Qed.

(** The same GPU up to the order of its set of workers. *)
Definition same_entry (e e' : GpuListEntry) : Prop :=
  e_uuid e' = e_uuid e ∧ e_free_memory e' = e_free_memory e ∧ idle_workers_ e' = idle_workers_ e ∧
  worker_counter_ e' = worker_counter_ e ∧ busy_workers_ e' ≡ₚ busy_workers_ e.

(** The daemons start API servers at their own address, where no server is running. *)
Definition spawns_fresh (m : ManagerConfig) (spawn : nat → list string → list Z → list ServerAddress) : Prop :=
  ∀ k d us gm w, daemons_ m !! k = Some d → w ∈ spawn k us gm →
    address_ok w ∧ FindDaemonByIp m (ip_ w) = Some k ∧
    map_Forall (λ _ e, at_address w (busy_workers_ e) = []) (entries (d_gpus d)).

Lemma find_ip_same m m' ip :
  d_address <$> daemons_ m' = d_address <$> daemons_ m → FindDaemonByIp m' ip = FindDaemonByIp m ip.
Proof.
  unfold FindDaemonByIp. generalize (daemons_ m'). induction (daemons_ m) as [|d ds IH]; intros [|d' ds'] Heq; try done.
  injection Heq as Ha Heq. specialize (IH _ Heq). cbn. rewrite Ha. destruct (decide _); [done|].
  destruct (list_find _ ds) as [[? ?]|], (list_find _ ds') as [[? ?]|]; cbn in *; congruence.
Qed.

Section theorems.
Context `{StdSort} `{PtrSetOrder}.

Lemma boot_inv m : rtc mstep boot m → mgr_inv m.
Proof. intros Hs. apply (msteps_inv _ _ _ Hs). constructor. Qed.

(** C20. Conservation: from the start of the manager on, whatever sequence of registrations,
    assignments (granted, refused, or failed to spawn) and exits it serves, a registered GPU stays
    registered on its node under its UUID, and its free memory plus the memory of the API servers on
    it stays what the daemon reported, never negative or wrapped, also when the exit of a server
    that is not there is served.  Its counter never exceeds the number of API servers running on
    it (each exit of a server that is not there takes one off), and it is this number when all
    exits were of servers that run where they say. *)
Theorem manager_conserves m m' k d id e :
  rtc mstep boot m → rtc mstep m m' →
  daemons_ m !! k = Some d → entries (d_gpus d) !! id = Some e →
  ∃ d' e', daemons_ m' !! k = Some d' ∧ d_address d' = d_address d ∧
    entries (d_gpus d') !! id = Some e' ∧ e_uuid e' = e_uuid e ∧
    e_free_memory e' + used_sum e' = e_free_memory e + used_sum e ∧
    0 ≤ e_free_memory e' < 2 ^ 64 ∧
    worker_counter_ e' ≤ Z.of_nat (length (busy_workers_ e')) ∧
    (rtc known_step boot m' → worker_counter_ e' = Z.of_nat (length (busy_workers_ e'))).
Proof.
  intros Hb Hs Hd He. pose proof (boot_inv _ Hb) as Hi. destruct (msteps_inv _ _ _ Hs Hi) as (Hi' & Hk & _).
  destruct (Hk k d Hd) as (d' & Hd' & Ha & Hdom & Hkeep).
  assert (is_Some (entries (d_gpus d') !! id)) as [e' He']
    by (apply elem_of_dom; rewrite Hdom; by eapply elem_of_dom_2).
  destruct (Hkeep _ _ _ He He') as (Hu & _ & Ht & _).
  destruct (proj2 (Forall_lookup_1 _ _ _ _ Hi' Hd') id e' He') as (Hf & Hb' & Hlt & Hc).
  pose proof (used_nonneg e' Hb'). unfold total_with, drift in *. cbn in Ht, Hlt, Hc.
  exists d', e'. split_and!; try done; try lia. intros Hkn.
  assert (drift [] id e' = 0) as Hx.
  { eapply (known_steps_exact _ _ Hkn); [constructor|by intros ???? Hd0|exact Hd'|exact He']. }
  unfold drift in Hx. cbn in Hx. lia.
Qed.

(** C24. All or nothing: an assignment that is not answered OK (the sizes do not match the count, no
    node can hold all requested GPUs, or the chosen node fails to start the API server) leaves every
    GPU of every node exactly as it was: free memory, workers and counter. *)
Theorem assign_all_or_nothing m dead spawn n gm st ws m' :
  rtc mstep boot m → Forall (λ x, 0 ≤ x) (default [] gm) →
  AssignWorker m dead spawn n gm = (st, ws, m') → st ≠ StatusOK →
  ws = [] ∧ Forall2 same_gpus (daemons_ m) (daemons_ m').
Proof.
  intros Hb Hg Hrun Hst. pose proof (boot_inv _ Hb) as Hi.
  destruct (AssignWorker_spec _ _ _ _ _ _ _ _ Hi Hg Hrun) as [Hi' Hk]. split.
  - revert Hrun. unfold AssignWorker. destruct (negb _); [by intros [= _ <- _]|].
    destruct (DoAssignWorker _ _ _ _) as [[|w ws1] m1]; intros [= <- <- <-]; done.
  - apply keeps_same_gpus; [by destruct st|done|done].
Qed.

Lemma do_assign_records m dead spawn gpu_mem w ws m' :
  mgr_inv m → Forall names_ok (daemons_ m) → Forall (λ x, 0 ≤ x) gpu_mem →
  DoAssignWorker m dead spawn gpu_mem = (w :: ws, m') →
  ∃ k d d' uuids, daemons_ m !! k = Some d ∧ daemons_ m' !! k = Some d' ∧ dead k = false ∧
    d_address d' = d_address d ∧
    w :: ws = spawn k uuids gpu_mem ∧ length uuids = length gpu_mem ∧
    (∀ j x, j ≠ k → daemons_ m !! j = Some x → ∃ x', daemons_ m' !! j = Some x' ∧ same_gpus x x') ∧
    ids_ok (d_gpus d') ∧ dom (entries (d_gpus d')) = dom (entries (d_gpus d)) ∧
    (∀ u, u ∈ uuids → ∃ id e, entries (d_gpus d) !! id = Some e ∧ e_uuid e = u) ∧
    ∀ id e, entries (d_gpus d) !! id = Some e →
      ∃ e', entries (d_gpus d') !! id = Some e' ∧ e_uuid e' = e_uuid e ∧
        busy_workers_ e' ≡ₚ (mk_worker w <$> sizes (e_uuid e) (zip uuids gpu_mem)) ++ busy_workers_ e.
Proof.
  intros Hi Hn Hg Hd. destruct (assign_spec _ _ _ _ _ _ Hi Hg Hd) as [Hi' Hkeep].
  destruct (do_assign_cases _ _ _ _ _ _ Hi Hg Hd) as [(? & _)|Hs]; [done|].
  destruct Hs as (ds1 & d & ds2 & ds1' & l & a & Hds & Hds' & Hws & Hk1 & Hi1 & Hdead & Hla & Ha & Hl & Hst).
  set (uuids := restore_order _ _ _ _) in Hws. set (gm := by_size gpu_mem) in *.
  pose proof (Forall2_length _ _ _ Hk1) as Hlen1.
  assert (daemons_ m !! length ds1 = Some d) as Hat by (rewrite Hds; by apply list_lookup_middle).
  assert (daemons_ m' !! length ds1 = Some (set_gpus (add_busy_all l a gm w) d)) as Hat'
    by (rewrite Hds'; by apply list_lookup_middle).
  pose proof (Forall_lookup_1 _ _ _ _ Hi Hat) as [Hdl Hdg].
  pose proof (Forall_lookup_1 _ _ _ _ Hn Hat) as Hnames. destruct (Hst Hdg) as [_ [Hdom Hkl]].
  destruct (proj2 (Forall2_lookup_lr _ _ _ _ _ _ Hkeep Hat Hat')) as [Hdom' _].
  pose proof (proj1 (Forall_lookup_1 _ _ _ _ Hi' Hat')) as Hok'.
  pose proof (keeps_names _ _ _ _ l (conj Hdom Hkl) Hnames) as Hnl.
  destruct (restored_perm gpu_mem (entry_uuid l <$> a)) as [Hlu Hpu].
  { rewrite length_fmap, Hla. apply Permutation_length, by_size_perm. }
  { by eapply entry_uuid_nonempty. }
  exists (length ds1), d, (set_gpus (add_busy_all l a gm w) d), uuids.
  split_and!; try done.
  - intros j x Hj Hx. rewrite Hds in Hx. rewrite Hds'. eapply lookup_other; [by split| |done|done].
    unfold mgr_inv in Hi. rewrite Hds in Hi. apply Forall_app in Hi as [Hi0 _]. by apply keeps_same_gpus.
  - intros u Hu.
    assert (u ∈ entry_uuid l <$> a) as (i & -> & Hin)%list_elem_of_fmap.
    { rewrite <- (fst_zip (entry_uuid l <$> a) gm) by (rewrite length_fmap; lia).
      fold gm uuids in Hpu, Hlu. rewrite <- Hpu, fst_zip by lia. done. }
    apply (proj1 (Forall_forall _ _) Ha) in Hin. pose proof Hin as [x Hx]%elem_of_dom. rewrite Hdom in Hin.
    apply elem_of_dom in Hin as [e He]. exists i, e. split; [done|].
    unfold entry_uuid. rewrite Hx. symmetry. by destruct (Hkl _ _ _ He Hx).
  - intros id e He.
    assert (is_Some (entries l !! id)) as [x Hx] by (apply elem_of_dom; rewrite Hdom; by eapply elem_of_dom_2).
    destruct (Hkl _ _ _ He Hx) as (Hux & _ & _ & Hbd). injection Hbd as Hbx _.
    destruct (add_busy_all_busy a w gm l id x Hl Hla Hx) as (e' & He' & Hu' & Hb').
    exists e'. split_and!; [done|congruence|]. rewrite Hb', <- Hbx. apply Permutation_app_tail, fmap_Permutation.
    rewrite <- Hux, <- (sizes_uuid l a gm id x); [symmetry; by apply sizes_perm| |done|done].
    intros i j y z Hy Hz. by apply (Hnl i j y z).
Qed.

(** C23. An assignment answered OK is what the guest asked for and what the books say: the API server
    [w] was started by a live daemon with one GPU of that node per requested size; on each GPU [w] is
    now a busy worker once for every size it was told to provision there, the free memory went down by
    these sizes, and no other node changed. *)
Theorem assign_matches_request m dead spawn n gpu_mem addresses m' :
  rtc mstep boot m → Forall names_ok (daemons_ m) → Forall (λ x, 0 ≤ x) gpu_mem →
  AssignWorker m dead spawn n (Some gpu_mem) = (StatusOK, addresses, m') →
  ∃ k d d' uuids w ws, daemons_ m !! k = Some d ∧ daemons_ m' !! k = Some d' ∧ dead k = false ∧
    spawn k uuids gpu_mem = w :: ws ∧ addresses = GetAddress <$> (w :: ws) ∧
    length uuids = length gpu_mem ∧
    (∀ u, u ∈ uuids → ∃ id e, entries (d_gpus d) !! id = Some e ∧ e_uuid e = u) ∧
    (∀ j x, j ≠ k → daemons_ m !! j = Some x → ∃ x', daemons_ m' !! j = Some x' ∧ same_gpus x x') ∧
    ∀ id e, entries (d_gpus d) !! id = Some e → ∃ e', entries (d_gpus d') !! id = Some e' ∧
      let granted := sizes (e_uuid e) (zip uuids gpu_mem) in
      busy_workers_ e' ≡ₚ (mk_worker w <$> granted) ++ busy_workers_ e ∧
      e_free_memory e' = e_free_memory e - foldr Z.add 0 granted.
Proof.
  intros Hb Hn Hg. unfold AssignWorker. cbn [default from_option id]. destruct (negb _); [done|].
  destruct (DoAssignWorker m dead spawn gpu_mem) as [[|w ws] m1] eqn:Hd; [done|]. intros [= <- <-].
  pose proof (boot_inv _ Hb) as Hi. destruct (assign_spec _ _ _ _ _ _ Hi Hg Hd) as [Hi' Hkeep].
  destruct (do_assign_records _ _ _ _ _ _ _ Hi Hn Hg Hd)
    as (k & d & d' & uuids & Hk & Hk' & Hdead & Ha & Hws & Hlen & Hoth & _ & _ & Hu & He).
  exists k, d, d', uuids, w, ws. split_and!; try done. intros id e Hid.
  destruct (He id e Hid) as (e' & Hid' & _ & Hbusy). exists e'. cbv zeta. split_and!; [done|done|].
  destruct (Forall2_lookup_lr _ _ _ _ _ _ Hkeep Hk Hk') as [_ [_ Htot]].
  destruct (Htot _ _ _ Hid Hid') as (_ & _ & Ht & _). unfold total_with, used_sum in Ht.
  rewrite (used_sum_perm _ _ Hbusy), used_sum_workers in Ht. lia.
Qed.

(** On the node of an assigned worker, its exit undoes the assignment. *)
Lemma reclaim_undoes d d' w uuids gm :
  daemon_inv d → daemon_inv d' → names_ok d → daemon_keeps counted d d' → length uuids = length gm →
  map_Forall (λ _ e, at_address w (busy_workers_ e) = []) (entries (d_gpus d)) →
  (∀ u, u ∈ uuids → ∃ id e, entries (d_gpus d) !! id = Some e ∧ e_uuid e = u) →
  (∀ id e, entries (d_gpus d) !! id = Some e → ∃ e', entries (d_gpus d') !! id = Some e' ∧ e_uuid e' = e_uuid e ∧
    busy_workers_ e' ≡ₚ (mk_worker w <$> sizes (e_uuid e) (zip uuids gm)) ++ busy_workers_ e) →
  ∃ l, reclaim_loop (d_gpus d') uuids w = Ok l ∧
    map_Forall2 (λ _, same_entry) (entries (d_gpus d)) (entries l).
Proof.
  intros [Hok Hg] [Hok' Hg'] Hn [Ha Hkeep] Hlen Hfresh Hu He.
  pose proof (keeps_names _ _ _ _ (d_gpus d') Hkeep Hn) as Hn'.
  assert (∀ id e, entries (d_gpus d) !! id = Some e → FindEntryByUuid (d_gpus d') (e_uuid e) = Some id) as Hfind.
  { intros id e Hid. destruct (He id e Hid) as (e' & He' & <- & _).
    apply (find_by_uuid (set_gpus (d_gpus d') d) id e' Hok' Hn' He'). }
  assert (∀ ms, Forall (λ x, GetAddress (address_ x) = GetAddress w) (mk_worker w <$> ms)) as Hnew.
  { intros ms. apply Forall_fmap, Forall_true. done. }
  destruct (reclaim_spec w uuids (d_gpus d') Hok') as (l & Hl & Hlok & Hst & _ & Hgone).
  { intros u. destruct (decide (u ∈ uuids)) as [(id & e & Hid & <-)%Hu|Hni].
    - unfold running. rewrite (Hfind id e Hid). destruct (He id e Hid) as (e' & -> & _ & Hb). cbn.
      rewrite (Permutation_length (at_address_perm w _ _ Hb)). unfold at_address.
      rewrite filter_app, length_app. fold (at_address w (mk_worker w <$> sizes (e_uuid e) (zip uuids gm))).
      rewrite at_address_all by done. rewrite length_fmap, sizes_length by done. lia.
    - rewrite occurrences_0 by done. lia. }
  exists l. split; [done|]. destruct (Hst Hg') as [Hgl [Hdoml Hkl]]. destruct Hkeep as [Hdom Hk]. intros id.
  destruct (entries (d_gpus d) !! id) as [e|] eqn:Hid.
  - destruct (He id e Hid) as (e' & He' & Hu' & Hb').
    destruct (Hgone (e_uuid e) id e' (Hfind id e Hid) He') as (e'' & gone & He'' & Hb'' & Hga & Hgl'). rewrite He''. constructor.
    assert (busy_workers_ e'' ≡ₚ busy_workers_ e) as Hbb.
    { eapply (removed_added w); [exact Hb''|exact Hb'| |done|done|by apply (Hfresh id e)].
      by rewrite length_fmap, sizes_length. }
    destruct (Hk _ _ _ Hid He') as (_ & Hi1 & Ht1 & Hc1), (Hkl _ _ _ He' He'') as (Hu2 & Hi2 & Ht2 & Hc2).
    unfold counted in Hc1, Hc2. cbn [snd] in Hc1, Hc2. unfold total_with, drift, used_sum in *. pose proof (used_sum_perm _ _ Hbb) as Hus.
    pose proof (Permutation_length Hbb) as Hlb. unfold same_entry. split_and!; try congruence; try done; cbn in *; lia.
  - assert (entries l !! id = None) as ->; [|constructor]. apply not_elem_of_dom. rewrite Hdoml, Hdom. by apply not_elem_of_dom.
Qed.

(** C25. Assignment and exit are inverse: when an assignment is answered OK and the daemons start
    servers at fresh addresses of their own nodes, the exit the daemon reports for that server and
    the GPUs it was given is served, and afterwards every GPU of every node has the free memory, the
    workers and the counter it had before the assignment. *)
Theorem assign_exit_roundtrip m dead spawn n gpu_mem addresses m' :
  rtc mstep boot m → Forall names_ok (daemons_ m) → spawns_fresh m spawn → Forall (λ x, 0 ≤ x) gpu_mem →
  AssignWorker m dead spawn n (Some gpu_mem) = (StatusOK, addresses, m') →
  ∃ k uuids w ws m'', spawn k uuids gpu_mem = w :: ws ∧ addresses = GetAddress <$> (w :: ws) ∧
    NotifyWorkerExit m' (GetAddress w) uuids = Ok (StatusOK, m'') ∧
    Forall2 (λ d d'', d_address d'' = d_address d ∧
               map_Forall2 (λ _, same_entry) (entries (d_gpus d)) (entries (d_gpus d'')))
      (daemons_ m) (daemons_ m'').
Proof.
  intros Hb Hn Hf Hg. unfold AssignWorker. cbn [default from_option id]. destruct (negb _); [done|].
  destruct (DoAssignWorker m dead spawn gpu_mem) as [[|w ws] m1] eqn:Hd; [done|]. intros [= <- <-].
  pose proof (boot_inv _ Hb) as Hi. destruct (assign_spec _ _ _ _ _ _ Hi Hg Hd) as [Hi' Hkeep].
  destruct (do_assign_records _ _ _ _ _ _ _ Hi Hn Hg Hd)
    as (k & d & d' & uuids & Hk & Hk' & Hdead & Ha & Hws & Hlen & Hoth & _ & _ & Hu & He).
  destruct (Hf k d uuids gpu_mem w Hk) as (Hw & Hip & Hfr); [rewrite <- Hws; left|].
  destruct (reclaim_undoes d d' w uuids gpu_mem) as (l & Hl & Hsame); try done.
  { by eapply (Forall_lookup_1 _ _ _ _ Hi). }
  { by eapply (Forall_lookup_1 _ _ _ _ Hi'). }
  { by eapply (Forall_lookup_1 _ _ _ _ Hn). }
  { by apply (Forall2_lookup_lr _ _ _ _ _ _ Hkeep Hk Hk'). }
  exists k, uuids, w, ws, (mk_manager (alter (set_gpus l) k (daemons_ m1)) (next_entry m1)).
  split_and!; [done|done| |].
  - unfold NotifyWorkerExit. rewrite new_GetAddress by done. cbn [mbind res_bind].
    rewrite (find_ip_same m m1), Hip, Hk' by (by apply keeps_addresses with counted). cbn [from_option].
    destruct uuids as [|u us]; [by destruct gpu_mem|]. by rewrite Hl.
  - apply Forall2_same_length_lookup_2.
    { cbn. by rewrite length_alter, (Forall2_length _ _ _ Hkeep). }
    cbn [daemons_]. intros j x x' Hx Hx'. destruct (decide (k = j)) as [<-|Hkj].
    + rewrite list_lookup_alter_eq, Hk' in Hx'. injection Hx' as <-. assert (x = d) as -> by congruence. by split.
    + rewrite list_lookup_alter_ne in Hx' by done. destruct (Hoth j x) as (y & Hy & Hay & Hey); [done|done|].
      assert (y = x') as -> by congruence. split; [done|]. rewrite Hey. intros i.
      destruct (entries (d_gpus x) !! i); constructor. by split_and!.
Qed.

(** The GPU policy on one node: on a list in order, the request goes to a GPU that has the memory,
    and every other GPU that has it runs at least as many API servers and, at the same number, has no
    more free memory; there is no GPU for the request exactly when none has the memory; and the list
    is in order again. *)
Theorem least_loaded_first l request r l' :
  ids_ok l → gpus_sorted l → FindEntryAndReserveMemory l request = (r, l') →
  gpus_sorted l' ∧
  match r with
  | None => ∀ p, p ∈ l → e_free_memory (snd p) < request
  | Some id => ∃ e, (id, e) ∈ l ∧ request ≤ e_free_memory e ∧
      ∀ p, p ∈ l → request ≤ e_free_memory (snd p) →
        worker_counter_ e < worker_counter_ (snd p) ∨
        (worker_counter_ e = worker_counter_ (snd p) ∧ e_free_memory (snd p) ≤ e_free_memory e)
  end.
Proof.
  intros Hl Hs. unfold FindEntryAndReserveMemory. destruct (find_entry _ l) as [id|] eqn:Hf; intros [= <- <-].
  - split; [apply sort_sorted|].
    destruct (find_entry_Some _ _ _ Hl Hf) as (l1 & e & l2 & -> & He%Z.leb_le & H1 & _). exists e.
    split; [set_solver|]. split; [done|]. intros p Hp Hreq.
    assert (entry_lt p (id, e) = false) as Hlt.
    { apply elem_of_app in Hp as [Hp|[->|Hp]%elem_of_cons].
      - apply (proj1 (Forall_forall _ _) H1), Z.leb_gt in Hp. lia.
      - unfold entry_lt. rewrite Z.eqb_refl. lia.
      - apply StronglySorted_app_1_r in Hs. inversion Hs as [|? ? _ Hall]; subst.
        by apply (proj1 (Forall_forall _ _) Hall). }
    unfold entry_lt in Hlt. cbn [snd] in Hlt. destruct (Z.eqb_spec (worker_counter_ (snd p)) (worker_counter_ e)); lia.
  - split; [done|]. apply find_entry_None in Hf. intros p Hp. apply (proj1 (Forall_forall _ _) Hf), Z.leb_gt in Hp. done.
Qed.

(** C35. The galvanic manager is the katana manager for requests of one GPU: it reserves, spawns,
    records and revokes the same way, whatever the nodes and their daemons do. *)
Theorem galvanic_is_single_katana m dead (spawn : nat → string → list ServerAddress) gpu_mem :
  galvanic_DoAssignWorker m dead spawn gpu_mem =
  DoAssignWorker m dead (λ k uuids _, spawn k (default EmptyString (head uuids))) [gpu_mem].
Proof.
  unfold galvanic_DoAssignWorker, DoAssignWorker.
  assert (std_sort (λ a b, b <? a) [gpu_mem] = [gpu_mem]) as -> by (by apply Permutation_singleton_r, std_sort_perm).
  assert (∀ ds k, find_node ds k dead [gpu_mem] =
    (let '(r, ds') := galvanic_find ds k dead gpu_mem in ((λ p, (fst p, [snd p])) <$> r, ds'))) as Hfind.
  { induction ds as [|d ds IH]; intros k; [done|]. cbn [find_node galvanic_find reserve_all revoke_all app].
    destruct (dead k); [|destruct (FindEntryAndReserveMemory (d_gpus d) gpu_mem) as [[id|] l]; [done|]];
      rewrite IH; by destruct (galvanic_find ds (S k) dead gpu_mem). }
  rewrite Hfind. destruct (galvanic_find (daemons_ m) 0 dead gpu_mem) as [[[k i]|] ds]; [|done].
  cbn [fmap option_fmap option_map fst snd list_fmap length replicate restore_order place].
  rewrite Z.eqb_refl. cbn [andb str_empty head default from_option id].
  by destruct (spawn k _).
Qed.
End theorems.

(** ** Witnesses *)

Lemma two_gpus_reachable : rtc mstep boot two_gpus.
Proof.
  apply rtc_once. apply (step_register _ _ "10.0.0.1:3335" ["GPU-a"; "GPU-b"] [100; 300]); [|reflexivity].
  repeat constructor; lia.
Qed.

Definition node_gpus : GpuList := [(1, mk_entry "GPU-b" 300 [] [] 0); (0, mk_entry "GPU-a" 100 [] [] 0)].

Lemma two_gpus_node : daemons_ two_gpus = [mk_daemon (mk_address "10.0.0.1" 3335) node_gpus].
Proof. reflexivity. Qed.

Lemma node_gpus_lookup i x : entries node_gpus !! i = Some x →
  (i = 1 ∧ x = mk_entry "GPU-b" 300 [] [] 0) ∨ (i = 0 ∧ x = mk_entry "GPU-a" 100 [] [] 0).
Proof.
  intros Hx%elem_of_list_to_map_2. apply elem_of_cons in Hx as [[= -> ->]|Hx]; [by left|].
  apply list_elem_of_singleton in Hx as [= -> ->]. by right.
Qed.

Lemma two_gpus_names : Forall names_ok (daemons_ two_gpus).
Proof.
  rewrite two_gpus_node. constructor; [|constructor]. intros i j x y Hx Hy. cbn [d_gpus] in *.
  destruct (node_gpus_lookup _ _ Hx) as [[-> ->]|[-> ->]], (node_gpus_lookup _ _ Hy) as [[-> ->]|[-> ->]]; by split.
Qed.

Lemma sample_spawn_fresh : spawns_fresh two_gpus sample_spawn.
Proof.
  intros k d us gm w Hk Hw. rewrite two_gpus_node in Hk. apply list_lookup_singleton_Some in Hk as [-> <-].
  apply list_elem_of_singleton in Hw as ->. split; [split_and!; reflexivity|]. split; [reflexivity|].
  intros i x Hx. by destruct (node_gpus_lookup _ _ Hx) as [[-> ->]|[-> ->]].
Qed.

(** An assignment, and then the exit of a server that was never there. *)
Lemma manager_conserves_witness :
  let m' := after_exit (after_assign two_gpus 4000 [50; 200]) "10.0.0.1:9999" ["GPU-b"] in
  ∃ d' e', daemons_ m' !! 0%nat = Some d' ∧
    d_address d' = mk_address "10.0.0.1" 3335 ∧ entries (d_gpus d') !! 1 = Some e' ∧ e_uuid e' = "GPU-b"%string ∧
    e_free_memory e' + used_sum e' = 300 ∧ 0 ≤ e_free_memory e' < 2 ^ 64 ∧
    worker_counter_ e' ≤ Z.of_nat (length (busy_workers_ e')) ∧
    (rtc known_step boot m' → worker_counter_ e' = Z.of_nat (length (busy_workers_ e'))).
Proof.
  apply (manager_conserves two_gpus
           (after_exit (after_assign two_gpus 4000 [50; 200]) "10.0.0.1:9999" ["GPU-b"]) 0
           (mk_daemon (mk_address "10.0.0.1" 3335) node_gpus) 1 (mk_entry "GPU-b" 300 [] [] 0)).
  - exact two_gpus_reachable.
  - eapply rtc_l; [eapply (step_assign _ _ (λ _, false) (λ _ _ _, [mk_address "10.0.0.1" 4000]) 2 (Some [50; 200]));
      [repeat constructor; lia|reflexivity]|].
    apply rtc_once. by eapply (step_exit _ _ "10.0.0.1:9999" ["GPU-b"]%string); [|vm_compute; reflexivity].
  - reflexivity.
  - reflexivity.
Defined.

Lemma assign_all_or_nothing_witness :
  let '(st, ws, m) := AssignWorker two_gpus (λ _, false) sample_spawn 2 (Some [200; 200]) in
  st = UNAVAILABLE ∧ ws = [] ∧ Forall2 same_gpus (daemons_ two_gpus) (daemons_ m).
Proof.
  split; [reflexivity|].
  apply (assign_all_or_nothing two_gpus (λ _, false) sample_spawn 2 (Some [200; 200]) UNAVAILABLE);
    [exact two_gpus_reachable|repeat constructor; lia|reflexivity|done].
Defined.

Lemma assign_exit_roundtrip_witness :
  ∃ k uuids w ws m'', sample_spawn k uuids [50; 200] = w :: ws ∧ ["10.0.0.1:4000"%string] = GetAddress <$> (w :: ws) ∧
    NotifyWorkerExit (after_assign two_gpus 4000 [50; 200]) (GetAddress w) uuids = Ok (StatusOK, m'') ∧
    Forall2 (λ d d'', d_address d'' = d_address d ∧
               map_Forall2 (λ _, same_entry) (entries (d_gpus d)) (entries (d_gpus d'')))
      (daemons_ two_gpus) (daemons_ m'').
Proof.
  apply (assign_exit_roundtrip two_gpus (λ _, false) sample_spawn 2 [50; 200]);
    [exact two_gpus_reachable|exact two_gpus_names|exact sample_spawn_fresh|repeat constructor; lia|reflexivity].
Defined.

Lemma assign_matches_request_witness :
  ∃ k d d' uuids w ws, daemons_ two_gpus !! k = Some d ∧
    daemons_ (after_assign two_gpus 4000 [50; 200]) !! k = Some d' ∧ false = false ∧
    sample_spawn k uuids [50; 200] = w :: ws ∧ ["10.0.0.1:4000"%string] = GetAddress <$> (w :: ws) ∧
    length uuids = 2%nat ∧
    (∀ u, u ∈ uuids → ∃ id e, entries (d_gpus d) !! id = Some e ∧ e_uuid e = u) ∧
    (∀ j x, j ≠ k → daemons_ two_gpus !! j = Some x →
       ∃ x', daemons_ (after_assign two_gpus 4000 [50; 200]) !! j = Some x' ∧ same_gpus x x') ∧
    ∀ id e, entries (d_gpus d) !! id = Some e → ∃ e', entries (d_gpus d') !! id = Some e' ∧
      let granted := sizes (e_uuid e) (zip uuids [50; 200]) in
      busy_workers_ e' ≡ₚ (mk_worker w <$> granted) ++ busy_workers_ e ∧
      e_free_memory e' = e_free_memory e - foldr Z.add 0 granted.
Proof.
  apply (assign_matches_request two_gpus (λ _, false) sample_spawn 2 [50; 200]);
    [exact two_gpus_reachable|exact two_gpus_names|repeat constructor; lia|reflexivity].
Defined.

Lemma least_loaded_first_witness :
  let '(r, l) := FindEntryAndReserveMemory node_gpus 80 in
  r = Some 1 ∧ gpus_sorted l ∧ ∃ e, (1, e) ∈ node_gpus ∧ 80 ≤ e_free_memory e ∧
    ∀ p, p ∈ node_gpus → 80 ≤ e_free_memory (snd p) →
      worker_counter_ e < worker_counter_ (snd p) ∨
      (worker_counter_ e = worker_counter_ (snd p) ∧ e_free_memory (snd p) ≤ e_free_memory e).
Proof.
  split; [reflexivity|]. apply (least_loaded_first node_gpus 80 (Some 1)); [| |reflexivity].
  - by apply (bool_decide_unpack _).
  - by repeat constructor.
Defined.

(** ** What the manager does not promise *)

Definition counters (m : ManagerConfig) : list (string * Z * Z) :=
  d ← daemons_ m; (λ p, (e_uuid (snd p), worker_counter_ (snd p), e_free_memory (snd p))) <$> d_gpus d.

(** An exit gives the memory back without sorting the list: the GPU the server left is idle and has
    the memory, and the next request still goes to the GPU that runs a server. *)
Theorem exit_does_not_resort :
  let m := after_assign (after_assign (after_assign two_gpus 4000 [10]) 4001 [10]) 4002 [10] in
  let m := after_exit (after_exit m "10.0.0.1:4000" ["GPU-b"]) "10.0.0.1:4002" ["GPU-b"] in
  counters m = [("GPU-a", 1, 90); ("GPU-b", 0, 300)]%string ∧
  counters (after_assign m 4003 [10]) = [("GPU-b", 0, 300); ("GPU-a", 2, 80)]%string.
Proof. split; vm_compute; reflexivity. Qed.

(** An exit of a server that is not (or no longer) on the GPU still takes one off its counter. *)
Theorem stray_exit_breaks_counter :
  let m := after_exit two_gpus "10.0.0.1:9999" ["GPU-a"] in
  counters m = [("GPU-b", 0, 300); ("GPU-a", -1, 100)]%string.
Proof. vm_compute. reflexivity. Qed.

(** The node of an exiting server is looked up by IP alone: with two daemons that register under the
    same IP the second one's GPUs are looked for on the first node, and the null entry is used. *)
Theorem exit_on_shared_ip :
  (m ← RegisterDaemon two_gpus "10.0.0.1:3336" ["GPU-c"] [100];
   NotifyWorkerExit m "10.0.0.1:4000" ["GPU-c"]) = Stop (Undefined "entry is NULL").
Proof. vm_compute. reflexivity. Qed.
