(* ===== verification/TfOpt.v ===== *)
(** * Descriptor and handle pools (worker/extensions/tf_optimization.c,
      guestlib/extensions/tf_optimization.c)

    The worker creates and destroys cuDNN descriptors and CUDA events in bulk and keeps cuDNN and
    cuBLAS handles ready; the guest destroys its pools at exit.  The GPU library is a parameter
    with the contract [DescriptorLib].  The five kinds of descriptors have the same code. *)

From S2P Require Import Prelude.
Local Open Scope Z_scope.

Definition CUDNN_STATUS_SUCCESS : Z := 0.
Definition CUDA_SUCCESS : Z := 0.
Definition CUBLAS_STATUS_SUCCESS : Z := 0.
Definition CUDNN_HANDLE_POOL_SIZE : nat := 2.
Definition CUBLAS_HANDLE_POOL_SIZE : nat := 2.

(** A create/destroy pair of the GPU library over its state [G].  [create] returns a status, the
    handle stored through the pointer (on success) and the new state. *)
Class DescriptorLib (G : Type) := {
  create : G → Z * Z * G;
  destroy : Z → G → Z * G;
  live_descs : G → gset Z;
  create_ok : ∀ g d g', create g = (0, d, g') →
    d ≠ NULL ∧ d ∉ live_descs g ∧ live_descs g' = {[d]} ∪ live_descs g;
  create_fails : ∀ g st d g', create g = (st, d, g') → st ≠ 0 → live_descs g' = live_descs g;
  destroy_ok : ∀ g d, d ∈ live_descs g →
    ∃ g', destroy d g = (0, g') ∧ live_descs g' = live_descs g ∖ {[d]}
}.

(** The order of the tree of GPU addresses: the difference is taken as a signed long. *)
Definition gpu_address_range_cmp (r1 r2 : Z) : Z :=
  let diff := signed 64 (r1 - r2) in
  if diff <? 0 then -1 else if 0 <? diff then 1 else 0.

Lemma gpu_address_cmp_spec r1 r2 :
  0 ≤ r1 < 2 ^ 63 → 0 ≤ r2 < 2 ^ 63 →
  gpu_address_range_cmp r1 r2 = match Z.compare r1 r2 with Lt => -1 | Eq => 0 | Gt => 1 end.
Proof.
  intros H1 H2. unfold gpu_address_range_cmp.
  assert (signed 64 (r1 - r2) = r1 - r2) as ->.
  { rewrite <- (wrap_signed 64 (r1 - r2)) at 2 by (unfold in_srange; lia).
    unfold signed, wrap. by rewrite Z.mod_mod by lia. }
  destruct (Z.compare_spec r1 r2), (Z.ltb_spec (r1 - r2) 0), (Z.ltb_spec 0 (r1 - r2)); lia.
Qed.

(** Over the whole address range it is not an order. *)
Lemma gpu_address_cmp_cycle :
  gpu_address_range_cmp 0 (3 * 2 ^ 61) = -1 ∧
  gpu_address_range_cmp (3 * 2 ^ 61) (3 * 2 ^ 62) = -1 ∧
  gpu_address_range_cmp (3 * 2 ^ 62) 0 = -1.
Proof. by vm_compute. Qed.

Section pools.
Context `{DescriptorLib G}.

(** ** Worker *)

(** [__pool_*Create*]: fills the array up to the first failure. *)
Fixpoint pool_create_loop (count : nat) (res : Z) (g : G) : Z * list Z * G :=
  match count with
  | O => (res, [], g)
  | S count =>
      let '(res, d, g) := create g in
      if negb (res =? CUDNN_STATUS_SUCCESS) then (res, [], g) else
      let '(res, ds, g) := pool_create_loop count res g in
      (res, d :: ds, g)
  end.

Definition __pool_cudnnCreateConvolutionDescriptor (count : nat) (g : G) : Z * list Z * G :=
  pool_create_loop count CUDNN_STATUS_SUCCESS g.
Definition __pool_cudnnCreatePoolingDescriptor (count : nat) (g : G) : Z * list Z * G :=
  pool_create_loop count CUDNN_STATUS_SUCCESS g.
Definition __pool_cudnnCreateTensorDescriptor (count : nat) (g : G) : Z * list Z * G :=
  pool_create_loop count CUDNN_STATUS_SUCCESS g.
Definition __pool_cudnnCreateFilterDescriptor (count : nat) (g : G) : Z * list Z * G :=
  pool_create_loop count CUDNN_STATUS_SUCCESS g.
Definition __pool_cuEventCreate (count : nat) (g : G) : Z * list Z * G :=
  pool_create_loop count CUDA_SUCCESS g.

(** [__pool_*Destroy*]: [res] is uninitialised ([None]) when the loop does not run. *)
Fixpoint pool_destroy_loop (ds : list Z) (res : option Z) (g : G) : Prelude.res (Z * G) :=
  match ds with
  | [] => match res with
          | Some r => Ok (r, g)
          | None => Stop (Undefined "use of an uninitialised variable")
          end
  | d :: ds =>
      let '(res, g) := destroy d g in
      if negb (res =? CUDNN_STATUS_SUCCESS) then Ok (res, g) else pool_destroy_loop ds (Some res) g
  end.

Definition __pool_cudnnDestroyConvolutionDescriptor (ds : list Z) (g : G) := pool_destroy_loop ds None g.
Definition __pool_cudnnDestroyPoolingDescriptor (ds : list Z) (g : G) := pool_destroy_loop ds None g.
Definition __pool_cudnnDestroyTensorDescriptor (ds : list Z) (g : G) := pool_destroy_loop ds None g.
Definition __pool_cudnnDestroyFilterDescriptor (ds : list Z) (g : G) := pool_destroy_loop ds None g.
Definition __pool_cuEventDestroy (ds : list Z) (g : G) := pool_destroy_loop ds None g.

(** The handles created by [worker_tf_opt_init]: one loop, stopped by the first failure. *)
Fixpoint cache_handles (count : nat) (pool : list Z) (g : G) : list Z * G :=
  match count with
  | O => (pool, g)
  | S count =>
      let '(res, handle, g) := create g in
      if res =? CUDNN_STATUS_SUCCESS then cache_handles count (pool ++ [handle]) g else (pool, g)
  end.

(** The cuDNN and the cuBLAS library have their own states. *)
Definition worker_tf_opt_init (cudnn cublas : G) : list Z * G * (list Z * G) :=
  (cache_handles CUDNN_HANDLE_POOL_SIZE [] cudnn, cache_handles CUBLAS_HANDLE_POOL_SIZE [] cublas).

(** [__cudnnCreate] and [__cublasCreate]: the status, the handle, the pool. *)
Definition __cudnnCreate (pool : list Z) (g : G) : Z * Z * list Z * G :=
  match pool with
  | [] => let '(res, handle, g) := create g in (res, handle, [], g)
  | handle :: pool => (CUDNN_STATUS_SUCCESS, handle, pool, g)
  end.
Definition __cublasCreate (pool : list Z) (g : G) : Z * Z * list Z * G :=
  match pool with
  | [] => let '(res, handle, g) := create g in (res, handle, [], g)
  | handle :: pool => (CUBLAS_STATUS_SUCCESS, handle, pool, g)
  end.

(** ** Guest *)

(** The elements popped from a queue before it is empty or a NULL element ends the loop. *)
Fixpoint pop_all (pool : list Z) : list Z * list Z :=
  match pool with
  | [] => ([], [])
  | d :: pool => if d =? NULL then ([], pool) else let '(ds, rest) := pop_all pool in (d :: ds, rest)
  end.

(** [free_*_pool]: the status, the queue, the library; the destroy function runs in the worker. *)
Definition free_pool (destroy_all : list Z → G → Prelude.res (Z * G)) (pool : list Z) (g : G)
    : Prelude.res (Z * list Z * G) :=
  match pool with
  | [] => Ok (CUDNN_STATUS_SUCCESS, [], g)
  | _ =>
      let '(desc, rest) := pop_all pool in
      '(res, g) ← destroy_all desc g;
      Ok (res, rest, g)
  end.

Definition free_convolution_descriptor_pool := free_pool __pool_cudnnDestroyConvolutionDescriptor.
Definition free_pooling_descriptor_pool := free_pool __pool_cudnnDestroyPoolingDescriptor.
Definition free_tensor_descriptor_pool := free_pool __pool_cudnnDestroyTensorDescriptor.
Definition free_filter_descriptor_pool := free_pool __pool_cudnnDestroyFilterDescriptor.
Definition free_cu_event_pool := free_pool __pool_cuEventDestroy.

(** The ten queues of the guest, each pair one kind: in use, idle. *)
Record guest_pools := mk_gp {
  convolution_descriptor_pool : list Z; idle_convolution_descriptor_pool : list Z;
  pooling_descriptor_pool : list Z; idle_pooling_descriptor_pool : list Z;
  tensor_descriptor_pool : list Z; idle_tensor_descriptor_pool : list Z;
  filter_descriptor_pool : list Z; idle_filter_descriptor_pool : list Z;
  cu_event_pool : list Z; idle_cu_event_pool : list Z
}.

Definition guestlib_tf_opt_init : guest_pools := mk_gp [] [] [] [] [] [] [] [] [] [].

(** The order of [guestlib_tf_opt_fini]; results are ignored. *)
Definition guestlib_tf_opt_fini (p : guest_pools) (g : G) : Prelude.res G :=
  '(_, _, g) ← free_convolution_descriptor_pool (convolution_descriptor_pool p) g;
  '(_, _, g) ← free_convolution_descriptor_pool (idle_convolution_descriptor_pool p) g;
  '(_, _, g) ← free_pooling_descriptor_pool (pooling_descriptor_pool p) g;
  '(_, _, g) ← free_pooling_descriptor_pool (idle_pooling_descriptor_pool p) g;
  '(_, _, g) ← free_tensor_descriptor_pool (tensor_descriptor_pool p) g;
  '(_, _, g) ← free_tensor_descriptor_pool (idle_tensor_descriptor_pool p) g;
  '(_, _, g) ← free_filter_descriptor_pool (filter_descriptor_pool p) g;
  '(_, _, g) ← free_filter_descriptor_pool (idle_filter_descriptor_pool p) g;
  '(_, _, g) ← free_cu_event_pool (cu_event_pool p) g;
  '(_, _, g) ← free_cu_event_pool (idle_cu_event_pool p) g;
  Ok g.

Definition all_pools (p : guest_pools) : list Z :=
  convolution_descriptor_pool p ++ idle_convolution_descriptor_pool p ++
  pooling_descriptor_pool p ++ idle_pooling_descriptor_pool p ++
  tensor_descriptor_pool p ++ idle_tensor_descriptor_pool p ++
  filter_descriptor_pool p ++ idle_filter_descriptor_pool p ++
  cu_event_pool p ++ idle_cu_event_pool p.

(** Creating handles one after the other. *)
Fixpoint create_handles (count : nat) (pool : list Z) (g : G) : list (Z * Z) * list Z * G :=
  match count with
  | O => ([], pool, g)
  | S count =>
      let '(res, handle, pool, g) := __cudnnCreate pool g in
      let '(l, pool, g) := create_handles count pool g in
      ((res, handle) :: l, pool, g)
  end.

(** ** Lemmas *)

Lemma pool_create_spec count : ∀ res g st ds g',
  pool_create_loop count res g = (st, ds, g') →
  NoDup ds ∧ (∀ d, d ∈ ds → d ≠ NULL ∧ d ∉ live_descs g) ∧
  live_descs g' = list_to_set ds ∪ live_descs g ∧
  (res = 0 → st = 0 → length ds = count).
Proof.
  induction count as [|count IH]; intros res g st ds g' Heq; cbn in Heq.
  { injection Heq as <- <- <-. split_and!; try done; [constructor|set_solver|set_solver]. }
  destruct (create g) as [[r d] g1] eqn:Hc. destruct (Z.eqb_spec r CUDNN_STATUS_SUCCESS) as [->|Hr]; cbn in Heq.
  - destruct (pool_create_loop count _ g1) as [[st1 ds1] g2] eqn:Hl. injection Heq as <- <- <-.
    destruct (create_ok g d g1 Hc) as (Hn & Hd & Hg1). destruct (IH _ _ _ _ _ Hl) as (Hnd & Hfr & Hg2 & Hlen).
    split_and!.
    + constructor; [|done]. intros [_ Hin]%Hfr. set_solver.
    + intros x [->|Hx]%elem_of_cons; [done|]. destruct (Hfr x Hx). set_solver.
    + rewrite Hg2, Hg1. set_solver.
    + intros _ Hst. cbn. f_equal. by apply Hlen.
  - injection Heq as <- <- <-. split_and!; [constructor|set_solver| |done].
    rewrite (create_fails g r d g1 Hc Hr). set_solver.
Qed.

Lemma pool_destroy_spec ds : ∀ g,
  NoDup ds → (∀ d, d ∈ ds → d ∈ live_descs g) →
  ∃ g', pool_destroy_loop ds (if decide (ds = []) then Some 0 else None) g = Ok (0, g') ∧
    live_descs g' = live_descs g ∖ list_to_set ds.
Proof.
  intros g Hnd. revert g. induction Hnd as [|d ds Hd Hnd IH]; intros g Hl.
  { exists g. split; [done|set_solver]. }
  rewrite decide_False by done. cbn [pool_destroy_loop].
  destruct (destroy_ok g d) as (g1 & Heq & Hg1); [set_solver|]. rewrite Heq. cbn.
  destruct (IH g1) as (g' & Heq' & Hg').
  { intros x Hx. rewrite Hg1. assert (x ≠ d) by (intros ->; done). set_solver. }
  exists g'. split; [|rewrite Hg', Hg1; set_solver].
  destruct ds as [|d2 ds]; [done|]. exact Heq'.
Qed.

Lemma pop_all_eq pool : (∀ d, d ∈ pool → d ≠ NULL) → pop_all pool = (pool, []).
Proof.
  induction pool as [|d pool IH]; intros Hn; [done|]. cbn.
  rewrite (proj2 (Z.eqb_neq d NULL)) by (apply Hn; by left).
  by rewrite IH by (intros x Hx; apply Hn; by right).
Qed.

Lemma free_pool_eq pool g :
  NoDup pool → (∀ d, d ∈ pool → d ≠ NULL ∧ d ∈ live_descs g) →
  ∃ g', free_pool (λ ds g, pool_destroy_loop ds None g) pool g = Ok (0, [], g') ∧
    live_descs g' = live_descs g ∖ list_to_set pool.
Proof.
  intros Hnd Hl. destruct pool as [|d pool]; [exists g; split; [done|set_solver]|].
  destruct (pool_destroy_spec (d :: pool) g Hnd) as (g' & Heq & Hg'); [naive_solver|].
  rewrite decide_False in Heq by done. exists g'. split; [|done]. unfold free_pool.
  rewrite pop_all_eq by naive_solver. by rewrite Heq.
Qed.

(** Freeing one pool keeps the others live. *)
Lemma free_pool_frame pool rest g :
  NoDup (pool ++ rest) → (∀ d, d ∈ pool ++ rest → d ≠ NULL ∧ d ∈ live_descs g) →
  ∃ g', free_pool (λ ds g, pool_destroy_loop ds None g) pool g = Ok (0, [], g') ∧
    live_descs g' = live_descs g ∖ list_to_set pool ∧ NoDup rest ∧
    (∀ d, d ∈ rest → d ≠ NULL ∧ d ∈ live_descs g').
Proof.
  intros (Hnd & Hdis & Hnd')%NoDup_app Hl. destruct (free_pool_eq pool g Hnd) as (g' & Heq & Hg').
  { intros d Hd. apply Hl. set_solver. }
  exists g'. split_and!; try done. intros d Hd. destruct (Hl d) as [? ?]; [set_solver|].
  split; [done|]. rewrite Hg', elem_of_difference, elem_of_list_to_set. split; [done|].
  intros Hd'. by apply (Hdis d).
Qed.

(** Runs the next [free_pool] of the goal, the first of the pools in the context. *)
Ltac free_next :=
  match goal with Hnd : NoDup (?pool ++ ?rest), Hl : ∀ d, d ∈ ?pool ++ ?rest → _ |- _ =>
    let g := fresh "g" in let Heq := fresh "Heq" in let Hg := fresh "Hg" in
    let Hnd' := fresh "Hnd" in let Hl' := fresh "Hl" in
    destruct (free_pool_frame pool rest _ Hnd Hl) as (g & Heq & Hg & Hnd' & Hl');
    rewrite Heq; cbn [mbind res_bind]; clear Hnd Hl Heq
  end.

Lemma cache_handles_spec count : ∀ pool g pool' g',
  cache_handles count pool g = (pool', g') →
  NoDup pool → (∀ d, d ∈ pool → d ≠ NULL ∧ d ∈ live_descs g) →
  NoDup pool' ∧ (∀ d, d ∈ pool' → d ≠ NULL ∧ d ∈ live_descs g') ∧
  (length pool' ≤ length pool + count)%nat.
Proof.
  induction count as [|count IH]; intros pool g pool' g' Heq Hnd Hl; cbn in Heq.
  { injection Heq as <- <-. split_and!; try done; lia. }
  destruct (create g) as [[r d] g1] eqn:Hc.
  destruct (Z.eqb_spec r CUDNN_STATUS_SUCCESS) as [->|Hr].
  - destruct (create_ok g d g1 Hc) as (Hn & Hd & Hg1).
    destruct (IH _ _ _ _ Heq) as (H1 & H2 & H3).
    + apply NoDup_app. split_and!; [done| |apply NoDup_singleton].
      intros x Hx ->%list_elem_of_singleton. apply Hd. by apply Hl.
    + intros x [Hx| ->%list_elem_of_singleton]%elem_of_app; [|rewrite Hg1; set_solver].
      destruct (Hl x Hx). rewrite Hg1. set_solver.
    + split_and!; try done. rewrite length_app in H3. cbn in H3. lia.
  - injection Heq as <- <-. split_and!; try done; [|lia].
    intros x Hx. rewrite (create_fails g r d g1 Hc Hr). by apply Hl.
Qed.

Definition succeeded (l : list (Z * Z)) : list Z :=
  omap (λ p, if fst p =? 0 then Some (snd p) else None) l.

Lemma create_handles_spec count : ∀ pool g l pool' g',
  create_handles count pool g = (l, pool', g') →
  NoDup pool → (∀ d, d ∈ pool → d ≠ NULL ∧ d ∈ live_descs g) →
  NoDup (succeeded l ++ pool') ∧
  (∀ d, d ∈ succeeded l → d ≠ NULL ∧ d ∈ live_descs g' ∧ (d ∈ pool ∨ d ∉ live_descs g)) ∧
  (∀ d, d ∈ pool' → d ∈ pool) ∧ (∀ d, d ∈ live_descs g → d ∈ live_descs g').
Proof.
  induction count as [|count IH]; intros pool g l pool' g' Heq Hnd Hl; cbn in Heq.
  { injection Heq as <- <- <-. split_and!; try done; cbn; set_solver. }
  destruct pool as [|h pool]; cbn in Heq.
  - destruct (create g) as [[r d] g1] eqn:Hc.
    destruct (create_handles count [] g1) as [[l1 p1] g2] eqn:Hl1. injection Heq as <- <- <-.
    destruct (IH _ _ _ _ _ Hl1) as (H1 & H2 & H3 & H4); [constructor|set_solver|].
    unfold succeeded in *. cbn [omap list_omap fst snd].
    destruct (Z.eqb_spec r 0) as [->|Hr].
    + destruct (create_ok g d g1 Hc) as (Hn & Hd & Hg1). split_and!.
      * cbn. constructor; [|done]. intros [Hin|Hin]%elem_of_app; [|set_solver].
        apply H2 in Hin. set_solver.
      * intros x [->|Hx]%elem_of_cons; [|destruct (H2 x Hx) as (? & ? & [?|?]); set_solver].
        split_and!; [done|apply H4; set_solver|by right].
      * done.
      * set_solver.
    + rewrite (create_fails g r d g1 Hc Hr) in *. split_and!; done.
  - destruct (create_handles count pool g) as [[l1 p1] g2] eqn:Hl1. injection Heq as <- <- <-.
    apply NoDup_cons in Hnd as [Hh Hnd].
    destruct (IH _ _ _ _ _ Hl1) as (H1 & H2 & H3 & H4); [done|set_solver|].
    unfold succeeded in *. cbn [omap list_omap fst snd CUDNN_STATUS_SUCCESS Z.eqb]. split_and!.
    + cbn. constructor; [|done]. intros [Hin|Hin]%elem_of_app; [|set_solver].
      destruct (H2 h Hin) as (? & ? & [?|?]); [done|]. destruct (Hl h); set_solver.
    + intros x [->|Hx]%elem_of_cons.
      * destruct (Hl h) as [? ?]; [by left|]. split_and!; [done|by apply H4|left; by left].
      * destruct (H2 x Hx) as (? & ? & [?|?]); split_and!; try done; [left; by right|by right].
    + set_solver.
    + done.
Qed.

(** ** Properties *)

(** A pool of descriptors is destroyed completely: when the worker's bulk creation succeeds,
    it stores [count] new distinct descriptors, and freeing the guest's pool of them destroys each
    exactly once, leaves the queue empty and the library with the descriptors it had before. *)
Theorem pool_create_free_roundtrip (count : nat) (g g1 : G) (ds : list Z) :
  __pool_cudnnCreateTensorDescriptor count g = (CUDNN_STATUS_SUCCESS, ds, g1) →
  length ds = count ∧ NoDup ds ∧ live_descs g1 = list_to_set ds ∪ live_descs g ∧
  ∃ g2, free_tensor_descriptor_pool ds g1 = Ok (CUDNN_STATUS_SUCCESS, [], g2) ∧
    live_descs g2 = live_descs g.
Proof.
  intros Hc. destruct (pool_create_spec _ _ _ _ _ _ Hc) as (Hnd & Hfr & Hg1 & Hlen).
  split_and!; [by apply Hlen|done|done|].
  destruct (free_pool_eq ds g1 Hnd) as (g2 & Heq & Hg2).
  { intros d Hd. split; [by apply Hfr|]. rewrite Hg1. set_solver. }
  exists g2. split; [exact Heq|]. rewrite Hg2, Hg1. apply leibniz_equiv. intros x.
  rewrite elem_of_difference, elem_of_union, elem_of_list_to_set. split; [naive_solver|].
  intros Hx. split; [by right|]. intros Hd%Hfr. naive_solver.
Qed.

(** At exit the guest destroys every pooled descriptor and event, each once, and nothing else. *)
Theorem tf_opt_fini_destroys_all (p : guest_pools) (g : G) :
  NoDup (all_pools p) → (∀ d, d ∈ all_pools p → d ≠ NULL ∧ d ∈ live_descs g) →
  ∃ g', guestlib_tf_opt_fini p g = Ok g' ∧
    live_descs g' = live_descs g ∖ list_to_set (all_pools p).
Proof.
  intros Hnd Hl. unfold guestlib_tf_opt_fini, free_convolution_descriptor_pool,
    free_pooling_descriptor_pool, free_tensor_descriptor_pool, free_filter_descriptor_pool,
    free_cu_event_pool, __pool_cudnnDestroyConvolutionDescriptor,
    __pool_cudnnDestroyPoolingDescriptor, __pool_cudnnDestroyTensorDescriptor,
    __pool_cudnnDestroyFilterDescriptor, __pool_cuEventDestroy.
  rewrite <- (app_nil_r (all_pools p)) in *. unfold all_pools in *. rewrite <- !app_assoc in *.
  do 10 free_next. eexists. split; [done|].
  repeat match goal with H : live_descs _ = _ |- _ => rewrite H; clear H end.
  rewrite !list_to_set_app_L. apply leibniz_equiv. set_solver.
Qed.

(** Handles are never shared: after the worker has filled its cache, every successful
    [__cudnnCreate] returns a live handle that no other call returned and that is no longer in the
    cache, whether it came from the cache or from the library. *)
Theorem cached_handles_distinct (g g1 g2 : G) (pool pool' : list Z) (count : nat) (l : list (Z * Z)) :
  cache_handles CUDNN_HANDLE_POOL_SIZE [] g = (pool, g1) →
  create_handles count pool g1 = (l, pool', g2) →
  (length pool ≤ CUDNN_HANDLE_POOL_SIZE)%nat ∧ NoDup (succeeded l ++ pool') ∧
  (∀ h, h ∈ succeeded l → h ≠ NULL ∧ h ∈ live_descs g2).
Proof.
  intros H1 H2. destruct (cache_handles_spec _ _ _ _ _ H1) as (Hnd & Hl & Hlen); [constructor|set_solver|].
  destruct (create_handles_spec _ _ _ _ _ _ H2 Hnd Hl) as (Hd & Hs & _ & _).
  split_and!; [done|done|]. intros h Hh. by destruct (Hs h Hh) as (? & ? & _).
Qed.

(** Destroying nothing returns an uninitialised status; the guest's pools test for it. *)
Lemma destroy_nothing_undefined (g : G) :
  __pool_cuEventDestroy [] g = Stop (Undefined "use of an uninitialised variable").
Proof. done. Qed.

End pools.

(** ** A library for the witnesses: its state is the set of live handles *)

Definition set_create (g : gset Z) : Z * Z * gset Z :=
  let d := fresh ({[NULL]} ∪ g) in (0, d, {[d]} ∪ g).
Definition set_destroy (d : Z) (g : gset Z) : Z * gset Z :=
  if decide (d ∈ g) then (0, g ∖ {[d]}) else (1, g).

#[refine] Instance set_lib : DescriptorLib (gset Z) := {
  create := set_create; destroy := set_destroy; live_descs := λ g, g
}.
Proof.
  - intros g d g' Heq. unfold set_create in Heq. injection Heq as <- <-.
    pose proof (is_fresh ({[NULL]} ∪ g)) as Hf. set_solver.
  - intros g st d g' Heq Hst. unfold set_create in Heq. by injection Heq as <- _ _.
  - intros g d Hd. unfold set_destroy. rewrite decide_True by done. by eexists.
Defined.

Lemma pool_create_free_roundtrip_witness :
  let '(_, ds, g1) := __pool_cudnnCreateTensorDescriptor 3 (∅ : gset Z) in
  length ds = 3%nat ∧ NoDup ds ∧ live_descs g1 = list_to_set ds ∪ live_descs (∅ : gset Z) ∧
  ∃ g2, free_tensor_descriptor_pool ds g1 = Ok (CUDNN_STATUS_SUCCESS, [], g2) ∧
    live_descs g2 = live_descs (∅ : gset Z).
Proof.
  destruct (__pool_cudnnCreateTensorDescriptor 3 (∅ : gset Z)) as [[st ds] g1] eqn:E.
  assert (st = CUDNN_STATUS_SUCCESS) as ->.
  { change st with (fst (fst (st, ds, g1))). rewrite <- E. vm_compute. reflexivity. }
  exact (pool_create_free_roundtrip 3 (∅ : gset Z) g1 ds E).
Defined.

Definition sample_pools : guest_pools := mk_gp [1; 2] [3] [] [] [4] [] [] [] [5] [6].
Definition sample_live : gset Z := {[1; 2; 3; 4; 5; 6; 7]}.

Lemma tf_opt_fini_destroys_all_witness :
  ∃ g', guestlib_tf_opt_fini sample_pools sample_live = Ok g' ∧
    live_descs g' = live_descs sample_live ∖ list_to_set (all_pools sample_pools).
Proof.
  apply (tf_opt_fini_destroys_all sample_pools sample_live).
  - by apply (bool_decide_unpack _).
  - intros d Hd. split.
    + intros ->. by apply (bool_decide_unpack (NULL ∉ all_pools sample_pools)) in Hd.
    + cbn. unfold sample_live. cbn in Hd. set_solver.
Defined.

Lemma cached_handles_distinct_witness :
  let '(pool, g1) := cache_handles CUDNN_HANDLE_POOL_SIZE [] (∅ : gset Z) in
  let '(l, pool', g2) := create_handles 3 pool g1 in
  (length pool ≤ CUDNN_HANDLE_POOL_SIZE)%nat ∧ NoDup (succeeded l ++ pool') ∧
  (∀ h, h ∈ succeeded l → h ≠ NULL ∧ h ∈ live_descs g2).
Proof.
  destruct (cache_handles _ _ _) as [pool g1] eqn:H1.
  destruct (create_handles _ _ _) as [[l pool'] g2] eqn:H2.
  exact (cached_handles_distinct (∅ : gset Z) g1 g2 pool pool' 3 l H1 H2).
Defined.
