(* ===== verification/HvChannel.v ===== *)
(** * Hypervisor channel (common/cmd_channel_hv.c)

    The worker reports resource consumption to the hypervisor over netlink.  The message lives in
    one buffer that every report updates and sends; the messages sent are recorded.  The build has
    AVA_ENABLE_KVM_MEDIATION defined, ENABLE_REPORT_BATCH 0 and ENABLE_SWAP undefined
    (include/devconf.h). *)

From S2P Require Import Prelude Channel Socket.
Local Open Scope Z_scope.

(** [hv_msg] is [NLMSG_DATA (chan->nlh)]. *)
Record command_channel_hv := mk_hv {
  hv_msg : command_base;
  hv_sent : list command_base
}.

(** [*((int* )raw_msg->reserved_area) = v]: the low half of the first word. *)
Definition set_int (v : Z) (b : command_base) : command_base :=
  set_reserved 0 (get_reserved 0 b / 2 ^ 32 * 2 ^ 32 + u32 v) b.
(** [*((long* )raw_msg->reserved_area) = v]. *)
Definition set_long (v : Z) (b : command_base) : command_base := set_reserved 0 (u64 v) b.

Definition hv_sendmsg (m : command_base) (c : command_channel_hv) : command_channel_hv :=
  mk_hv m (hv_sent c ++ [m]).

(** Compiled to nothing without ENABLE_SWAP. *)
Definition command_channel_hv_report_storage_resource_allocation (c : command_channel_hv)
    (name : string) (amount : Z) : command_channel_hv := c.

Definition command_channel_hv_report_throughput_resource_consumption (c : command_channel_hv)
    (name : string) (amount : Z) : command_channel_hv :=
  let c := if bool_decide (name = "command_rate"%string)
           then hv_sendmsg (set_int amount (set_command_id CONSUME_RC_COMMAND_RATE (hv_msg c))) c else c in
  let c := if bool_decide (name = "device_time"%string)
           then hv_sendmsg (set_long amount (set_command_id CONSUME_RC_DEVICE_TIME (hv_msg c))) c else c in
  if bool_decide (name = "qat_throughput"%string)
  then hv_sendmsg (set_long amount (set_command_id CONSUME_RC_QAT_THROUGHPUT (hv_msg c))) c else c.

(** [nlmsg] is the buffer [init_netlink_msg] returns; [sent]: [sendmsg] succeeds. *)
Definition command_channel_hv_new (worker_port : Z) (nlmsg : command_base) (sent : bool)
    : res command_channel_hv :=
  let m := set_vm_id 0 (set_int worker_port (set_command_id NW_NEW_WORKER
             (set_api_id COMMAND_HANDLER_API nlmsg))) in
  if sent then Ok (mk_hv m [m]) else Stop (Exited (-1)).

(** [chan] is the block of the channel, [nl_msg] its message, if it has one; the socket stays open. *)
Definition command_channel_hv_free (chan : Z) (nl_msg : option (Z * msghdr)) (h : heap) : res heap :=
  h ← match nl_msg with
      | Some (addr, msg) => free_netlink_msg addr msg h
      | None => Ok h
      end;
  c_free chan h.

(** ** Specification *)

(** The reports the hypervisor knows: the message identifier, and how the amount is read back. *)
Definition report_of (name : string) : option (Z * (Z → Z)) :=
  if bool_decide (name = "command_rate"%string) then Some (CONSUME_RC_COMMAND_RATE, signed 32)
  else if bool_decide (name = "device_time"%string) then Some (CONSUME_RC_DEVICE_TIME, signed 64)
  else if bool_decide (name = "qat_throughput"%string) then Some (CONSUME_RC_QAT_THROUGHPUT, signed 64)
  else None.

Definition hv_run (reports : list (string * Z)) (c : command_channel_hv) : command_channel_hv :=
  foldl (λ c r, command_channel_hv_report_throughput_resource_consumption c (fst r) (snd r)) c reports.

(** The reports in the messages, as the hypervisor reads them. *)
Definition read_report (m : command_base) : Z * Z :=
  (command_id m,
   (if command_id m =? CONSUME_RC_COMMAND_RATE then signed 32 else signed 64) (get_reserved 0 m)).
Definition expected (reports : list (string * Z)) : list (Z * Z) :=
  omap (λ r, (λ i, (fst i, snd r)) <$> report_of (fst r)) reports.

(** ** Lemmas *)

Lemma reserved_length_set i v b : length (reserved_area (set_reserved i v b)) = length (reserved_area b).
Proof. unfold set_reserved. cbn. apply length_insert. Qed.

Lemma signed_low v w : signed 32 (w * 2 ^ 32 + u32 v) = signed 32 v.
Proof.
  unfold signed. assert (u32 (w * 2 ^ 32 + u32 v) = u32 v) as ->; [|done].
  unfold wrap. rewrite Z.add_comm, Z.mod_add, Z.mod_mod by lia. done.
Qed.

Lemma signed_wrap w v : 0 < w → in_srange w v → signed w (wrap w v) = v ∧ signed w v = v.
Proof.
  intros Hw Hv. split; [by apply wrap_signed|]. rewrite <- (wrap_signed w v Hw Hv) at 2.
  unfold signed, wrap. by rewrite Z.mod_mod by lia.
Qed.

Definition hv_ok (c : command_channel_hv) : Prop := length (reserved_area (hv_msg c)) = 8%nat.

Lemma report_spec c name amount :
  hv_ok c → in_srange 32 amount →
  let c' := command_channel_hv_report_throughput_resource_consumption c name amount in
  hv_ok c' ∧ api_id (hv_msg c') = api_id (hv_msg c) ∧ vm_id (hv_msg c') = vm_id (hv_msg c) ∧
  ∃ ms, hv_sent c' = hv_sent c ++ ms ∧
    read_report <$> ms = from_option (λ i, [(fst i, amount)]) [] (report_of name).
Proof.
  intros Hok Ha. assert (in_srange 64 amount) as Ha' by (unfold in_srange in *; lia).
  destruct (signed_wrap 32 amount) as [H1 H2]; [lia|done|].
  destruct (signed_wrap 64 amount) as [H3 H4]; [lia|done|].
  unfold command_channel_hv_report_throughput_resource_consumption, report_of.
  destruct (bool_decide_reflect (name = "command_rate"%string)) as [->|N1].
  { cbn [bool_decide_reflect]. rewrite !bool_decide_false by done. cbn zeta. split_and!; try done.
    - unfold hv_ok. cbn. by rewrite length_insert.
    - eexists. split; [done|]. cbn [fmap list_fmap from_option fst]. unfold read_report.
      change (command_id (set_int amount ?b)) with (command_id b).
      cbn [command_id set_command_id Z.eqb CONSUME_RC_COMMAND_RATE Pos.eqb].
      unfold set_int. rewrite get_set_reserved_0 by done. by rewrite signed_low, H2. }
  destruct (bool_decide_reflect (name = "device_time"%string)) as [->|N2].
  { rewrite !bool_decide_false by done. cbn zeta. split_and!; try done.
    - unfold hv_ok. cbn. by rewrite length_insert.
    - eexists. split; [done|]. cbn [fmap list_fmap from_option fst]. unfold read_report.
      change (command_id (set_long amount ?b)) with (command_id b).
      cbn [command_id set_command_id Z.eqb CONSUME_RC_COMMAND_RATE CONSUME_RC_DEVICE_TIME Pos.eqb].
      unfold set_long. rewrite get_set_reserved_0 by done. by rewrite H3. }
  destruct (bool_decide_reflect (name = "qat_throughput"%string)) as [->|N3].
  { cbn zeta. split_and!; try done.
    - unfold hv_ok. cbn. by rewrite length_insert.
    - eexists. split; [done|]. cbn [fmap list_fmap from_option fst]. unfold read_report.
      change (command_id (set_long amount ?b)) with (command_id b).
      cbn [command_id set_command_id Z.eqb CONSUME_RC_COMMAND_RATE CONSUME_RC_QAT_THROUGHPUT Pos.eqb].
      unfold set_long. rewrite get_set_reserved_0 by done. by rewrite H3. }
  cbn zeta. split_and!; try done. exists []. by rewrite app_nil_r.
Qed.

(** ** Properties *)

(** The hypervisor gets every report once, in order and with its amount: for any sequence of
    reports whose amounts fit an int, exactly the known resource names cause a message, although
    all reports are written into the same buffer and with different widths. *)
Theorem hv_reports_delivered (worker_port : Z) (nlmsg : command_base) (reports : list (string * Z)) :
  length (reserved_area nlmsg) = 8%nat → Forall (λ r, in_srange 32 (snd r)) reports →
  ∃ c hello ms, command_channel_hv_new worker_port nlmsg true = Ok c ∧
    hv_sent (hv_run reports c) = hello :: ms ∧ command_id hello = NW_NEW_WORKER ∧
    read_report <$> ms = expected reports.
Proof.
  intros Hl Hr. eexists _, _.
  enough (∀ c, hv_ok c → ∃ ms, hv_sent (hv_run reports c) = hv_sent c ++ ms ∧
    read_report <$> ms = expected reports) as Hrun.
  { unfold command_channel_hv_new. destruct (Hrun (mk_hv (set_vm_id 0 (set_int worker_port
      (set_command_id NW_NEW_WORKER (set_api_id COMMAND_HANDLER_API nlmsg))))
      [set_vm_id 0 (set_int worker_port (set_command_id NW_NEW_WORKER (set_api_id COMMAND_HANDLER_API nlmsg)))]))
      as (ms & Hms & Hexp).
    { unfold hv_ok. cbn. by rewrite length_insert. }
    exists ms. split; [done|]. split; [exact Hms|]. split; [done|exact Hexp]. }
  induction Hr as [|[name amount] reports Ha _ IH]; intros c Hc; cbn [hv_run foldl fst snd].
  { exists []. by rewrite app_nil_r. }
  destruct (report_spec c name amount Hc Ha) as (Hok & _ & _ & ms1 & Hs1 & Hm1).
  destruct (IH _ Hok) as (ms & Hs & Hm). exists (ms1 ++ ms). split.
  - unfold hv_run in Hs. by rewrite Hs, Hs1, app_assoc.
  - rewrite fmap_app, Hm1, Hm. unfold expected. cbn [omap list_omap fst snd].
    by destruct (report_of name).
Qed.

Lemma hv_reports_delivered_witness :
  let reports := [("device_time"%string, -5); ("other"%string, 3); ("command_rate"%string, 7)] in
  ∃ c hello ms, command_channel_hv_new 4001 zero_base true = Ok c ∧
    hv_sent (hv_run reports c) = hello :: ms ∧ command_id hello = NW_NEW_WORKER ∧
    read_report <$> ms = expected reports.
Proof.
  intros reports. apply (hv_reports_delivered 4001 zero_base reports).
  - reflexivity.
  - unfold reports. rewrite !Forall_cons, Forall_nil. unfold in_srange. cbn. lia.
Defined.
