(* ===== verification/Startup.v ===== *)
(** * Start of the guest library and of the worker (guestlib/src/guest_config.cpp,
      guestlib/src/init.cpp, worker/worker.cpp)

    The guest library reads its configuration, opens a channel to a worker and announces the API
    it wants; the worker reads its GPUs from the environment, opens its end of the channel and
    serves commands.  libconfig, the resource manager and the network are arguments. *)

From S2P Require Import Prelude CString Channel Socket LogChannel ShmChannel SocketChannel Provision.
From S2P Require Import HandlePool Endpoint ThreadPool Handler HvChannel.
Local Open Scope Z_scope.

(** ** [readGuestConfig] *)

(** What libconfig reports: the outcome of [readFile]; for each [lookupValue] the value, if the
    setting is there with that type; the elements of the list "gpu_memory", if it is there, where
    an element that does not convert throws a [SettingTypeException]. *)
Inductive read_result := ReadOk | FileIOException | ParseException.
Record libconfig := mk_libconfig {
  lc_read : read_result;
  lc_channel : option string;
  lc_connect_timeout : option Z;
  lc_manager_address : option string;
  lc_gpu_memory : option (list (option Z))
}.

Definition kDefaultChannel : string := "TCP".
Definition kDefaultConnectTimeout : Z := 5000.
Definition kDefaultManagerAddress : string := "0.0.0.0:3334".

Record GuestConfig := mk_config {
  channel_ : string;
  manager_address_ : string;
  connect_timeout_ : Z;
  gpu_memory_ : list Z
}.

Fixpoint read_elements (l : list (option Z)) : option (list Z) :=
  match l with
  | [] => Some []
  | None :: _ => None
  | Some v :: l => (λ r, u64 v :: r) <$> read_elements l
  end.

(** [None]: nullptr. *)
Definition readGuestConfig (cfg : libconfig) : option GuestConfig :=
  match lc_read cfg with
  | FileIOException | ParseException => None
  | ReadOk =>
      let channel := default kDefaultChannel (lc_channel cfg) in
      let connect_timeout := default kDefaultConnectTimeout (lc_connect_timeout cfg) in
      let manager_address := default kDefaultManagerAddress (lc_manager_address cfg) in
      gpu_memory ← match lc_gpu_memory cfg with
                   | None => Some []
                   | Some l => read_elements l
                   end;
      Some (mk_config channel manager_address connect_timeout gpu_memory)
  end.

(** ** [nw_init_guestlib] *)

(** The three kinds of channel the guest library may open. *)
Inductive any_channel :=
  | AnySocket (c : command_channel_socket)
  | AnyShm (c : command_channel_shm).

(** What the outside answers while a channel is opened (see [command_channel_socket_tcp_guest_new],
    [command_channel_shm_new], [command_channel_socket_new]). *)
Record guest_world := mk_world {
  gw_fuel : nat;
  gw_net : tcp_net;
  gw_assign : string → Z → Z → list Z → list string;
  gw_shm_opened : bool;
  gw_ioctl_vm_id : Z;
  gw_ioctl_shm : Z;
  gw_mapped : list Z;
  gw_uninit : Z;
  gw_manager_addr : option string;
  gw_sockets : Z * Z;
  gw_connects : (nat → Z) * (nat → Z);
  gw_reply : list Z
}.

(** The port in AVA_MANAGER_ADDR. *)
Definition manager_port (addr : option string) : option Z :=
  match addr with
  | None => None
  | Some a => match parseServerAddress (λ _, @None unit) a false None true with
              | Ok (_, _, port) => port
              | Stop _ => None
              end
  end.

(** The globals of the library. *)
Record guestlib := mk_guestlib {
  gl_chan : any_channel;
  gl_vm_id : Z;
  gl_pb_info : Z * Z;
  gl_worker_id : Z;
  gl_apis : gmap Z command_handler_t;
  gl_handler : handler_state any_channel;
  gl_heap : heap
}.

Section guest.
Context `{SocketKernel, Uninit}.

(** The [if]s on [channel_]: the channel, [nw_worker_id], [nw_global_vm_id], [nw_global_pb_info] and
    the heap. *)
Definition open_channel (w : guest_world) (config : GuestConfig) (nw_worker_id : Z) (h : heap)
    : res (any_channel * Z * Z * (Z * Z) * heap) :=
  if String.eqb (channel_ config) "TCP" then
    '(channels, wid) ← command_channel_socket_tcp_guest_new (gw_fuel w) (gw_net w)
                         (gw_assign w (manager_address_ config)) (gpu_memory_ config)
                         (connect_timeout_ config) nw_worker_id;
    match channels with
    | [] => Stop (Undefined "channels[0] of an empty vector")
    | c :: _ => Ok (AnySocket c, wid, 1, (0, 0), h)
    end
  else if String.eqb (channel_ config) "SHM" then
    '(c, _, wid, h) ← command_channel_shm_new (gw_shm_opened w) (gw_ioctl_vm_id w) (gw_ioctl_shm w)
                        (gw_mapped w) (gw_uninit w) (manager_port (gw_manager_addr w)) nw_worker_id h
                        (gw_reply w);
    Ok (AnyShm c, wid, gw_ioctl_vm_id w, (pb_offset (shm_block c), pb_size (shm_block c)), h)
  else if String.eqb (channel_ config) "VSOCK" then
    '(c, _, wid, h) ← command_channel_socket_new (gw_manager_addr w) (fst (gw_sockets w))
                        (snd (gw_sockets w)) (fst (gw_connects w)) (snd (gw_connects w)) (gw_reply w)
                        nw_worker_id h;
    Ok (AnySocket c, wid, 1, (0, 0), h)
  else Stop (Exited 0).

(** The message that announces the API, on a channel of either kind. *)
Definition send_initialize {C} {Ch : Channel C} (chan : C) (vm api : Z) (pb_info : Z * Z) (h : heap)
    : res (C * heap) :=
  '(cmd, chan, h) ← command_channel_new_command chan h (Z.of_nat sizeof_initialize_api_command) 0;
  let cmd := upd_base (set_api_id COMMAND_HANDLER_API) cmd in
  let cmd := upd_base (set_command_id COMMAND_HANDLER_INITIALIZE_API) cmd in
  let cmd := upd_base (set_vm_id (u8 vm)) cmd in
  let fields := le_bytes 8 api ++ le_bytes 8 (fst pb_info) ++ le_bytes 8 (snd pb_info) in
  let cmd := mk_cmd (cmd_addr cmd) (cmd_base cmd) (fields ++ drop (length fields) (cmd_rest cmd)) in
  command_channel_send_command chan h cmd.

Definition nw_init_guestlib (w : guest_world) (cfg : libconfig) (api_id nw_worker_id : Z)
    (apis : gmap Z command_handler_t) (hs : handler_state any_channel) (h : heap) : res guestlib :=
  match readGuestConfig cfg with
  | None => Stop (Exited 1)
  | Some config =>
      '(chan, wid, vm, pb_info, h) ← open_channel w config nw_worker_id h;
      let hs := init_command_handler chan hs in
      apis ← init_internal_command_handler apis;
      match chan with
      | AnySocket c =>
          '(c, h) ← send_initialize c vm api_id pb_info h;
          Ok (mk_guestlib (AnySocket c) vm pb_info wid apis hs h)
      | AnyShm c =>
          '(c, h) ← @send_initialize _ shm_vtable c vm api_id pb_info h;
          Ok (mk_guestlib (AnyShm c) vm pb_info wid apis hs h)
      end
  end.

(** [nw_destroy_guestlib] only stops the command handler. *)
Definition nw_destroy_guestlib {C} {Ch : Channel C} (hs : handler_state C) : res (handler_state C) :=
  destroy_command_handler hs.

(** ** Migration requests of the guest *)

(** [start_migration].  The connection to the manager: [None] when AVA_CHANNEL is neither LOCAL (or
    unset), SHM nor VSOCK, and the descriptor stays -1.  Whether it is connected is not checked: a
    [send] on a socket that is not is an error of the kernel. *)
Definition migration_socket (ava_channel manager_addr : option string) (socket_ret : Z) (answer : list Z)
    : res (option sock) :=
  let connected := mk_sock answer [] true 0 0 in
  match ava_channel with
  | None => Ok (Some connected)
  | Some c =>
      if String.eqb c "LOCAL" then Ok (Some connected)
      else if String.eqb c "SHM" || String.eqb c "VSOCK" then
        match manager_addr with
        | None => Stop (AssertFailed "AVA_MANAGER_ADDR is not set")
        | Some a =>
            '(_, _, port) ← parseServerAddress (λ _, @None unit) a false None true;
            _ ← c_assert (0 <? default 0 port) "Invalid manager port";
            '(_, _) ← init_vm_socket 2 (default 0 port) socket_ret;
            Ok (Some connected)
        end
      else Ok None
  end.

(** Returns what was sent to the manager and the identifier of the new worker. *)
Definition start_migration {C} {Ch : Channel C} (chan : C) (ava_channel manager_addr : option string)
    (socket_ret nw_worker_id : Z) (answer : list Z) (h : heap) : res (list Z * Z * C * heap) :=
  m ← migration_socket ava_channel manager_addr socket_ret answer;
  '(msg, chan, h) ← command_channel_new_command chan h (Z.of_nat sizeof_command_base) 0;
  let msg := upd_base (set_command_type COMMAND_START_MIGRATION) msg in
  let msg := upd_base (set_reserved 0 (u64 nw_worker_id)) msg in
  match m with
  | None => Stop (Exited 0)
  | Some m =>
      '(_, m) ← send_socket (cmd_bytes msg) (Z.of_nat sizeof_command_base) m;
      '(reply, m) ← recv_socket (Z.of_nat sizeof_command_base) m;
      let msg := cmd_of_bytes (cmd_addr msg) reply in
      let new_worker_id := get_reserved 0 (cmd_base msg) in
      h ← command_channel_free_command chan h msg;
      Ok (s_out m, new_worker_id, chan, h)
  end.

(** [start_self_migration] and [start_live_migration]: the message, then commands of this thread are
    handled until the flag is set ([ended]). *)
Definition request_migration {C} {Ch : Channel C} (cid : Z) (fuel : nat)
    (ended : shadow_thread_pool_t → bool) (p : shadow_thread_pool_t) (chan : C) (h : heap) (self : Z)
    : res (C * shadow_thread_pool_t * heap) :=
  '(msg, chan, h) ← command_channel_new_command chan h (Z.of_nat sizeof_command_base) 0;
  let msg := upd_base (set_api_id COMMAND_HANDLER_API) msg in
  let msg := upd_base (set_command_id cid) msg in
  '(tid, p) ← shadow_thread_id p self;
  let msg := upd_base (set_thread_id tid) msg in
  '(chan, h) ← command_channel_send_command chan h msg;
  '(p, h) ← shadow_thread_handle_command_until fuel ended p chan h self;
  Ok (chan, p, h).

Definition start_self_migration {C} {Ch : Channel C} :=
  @request_migration C Ch COMMAND_START_MIGRATION.
Definition start_live_migration {C} {Ch : Channel C} :=
  @request_migration C Ch COMMAND_START_LIVE_MIGRATION.
End guest.

(** ** The worker *)

(** [getenv]: the value of the first variable with the name. *)
Fixpoint getenv (envp : list string) (name : string) : option string :=
  match envp with
  | [] => None
  | e :: envp =>
      match cut "=" e with
      | Some (n, v) => if String.eqb n name then Some v else getenv envp name
      | None => getenv envp name
      end
  end.

(** The GPUs of the worker. *)
Definition read_provision (envp : list string) : res ProvisionGpu :=
  let cuda_uuid := default EmptyString (getenv envp "CUDA_VISIBLE_DEVICES") in
  let gpu_uuid := default EmptyString (getenv envp "AVA_GPU_UUID") in
  let gpu_mem := default EmptyString (getenv envp "AVA_GPU_MEMORY") in
  new_ProvisionGpu cuda_uuid gpu_uuid gpu_mem.

(** What the worker meets when it opens its channel: the connection that is accepted (TCP), the
    arguments of [command_channel_shm_worker_new], those of [command_channel_socket_worker_new],
    the netlink buffer, and whether the log file opens. *)
Record worker_world := mk_wworld {
  ww_accepted : option (list Z);
  ww_shm_opened : bool;
  ww_host_mem : option (list Z);
  ww_init_msg : list Z;
  ww_notified : bool;
  ww_vsock : Z * Z * Z * Z;
  ww_nlmsg : command_base;
  ww_nl_sent : bool;
  ww_log_opened : bool;
  ww_vm_garbage : Z
}.

Record worker := mk_workerp {
  wk_provision : ProvisionGpu;
  wk_listen_port : Z;
  wk_worker_id : Z;
  wk_chan : any_channel;
  wk_hv : option command_channel_hv;
  wk_log : command_channel_log;
  wk_apis : gmap Z command_handler_t;
  wk_handler : handler_state any_channel
}.

Section worker.
Context `{SocketKernel}.

(** The channel of AVA_CHANNEL, with the new [nw_worker_id], which the TCP constructor does not set;
    [None]: an unsupported type, [main] returns. *)
Definition open_worker_channel (w : worker_world) (envp : list string) (listen_port : Z)
    : res (option (any_channel * Z * option command_channel_hv)) :=
  let tcp := c ← command_channel_socket_tcp_worker_new listen_port (ww_accepted w);
             Ok (Some (AnySocket c, 0, None)) in
  match getenv envp "AVA_CHANNEL" with
  | None => tcp
  | Some t =>
      if String.eqb t "TCP" then tcp
      else if String.eqb t "SHM" then
        hv ← command_channel_hv_new listen_port (ww_nlmsg w) (ww_nl_sent w);
        '(c, wid) ← command_channel_shm_worker_new listen_port 0 (ww_shm_opened w) (ww_host_mem w)
                    (ww_init_msg w) (ww_notified w);
        Ok (Some (AnyShm c, wid, Some hv))
      else if String.eqb t "VSOCK" then
        hv ← command_channel_hv_new listen_port (ww_nlmsg w) (ww_nl_sent w);
        let '(s, b, l, a) := ww_vsock w in
        '(c, wid) ← command_channel_socket_worker_new listen_port 0 s b l a (default [] (ww_accepted w));
        Ok (Some (AnySocket c, wid, Some hv))
      else Ok None
  end.

(** [main] up to the point where it waits for the command handler; [argv] without the program name.
    [None]: it has printed a message and returned. *)
Definition worker_main (w : worker_world) (argv envp : list string) (hs : handler_state any_channel)
    : res (option worker) :=
  let usage := match argv with
               | [_] => false
               | [a; _] => negb (String.eqb a "migrate")
               | _ => true
               end in
  if usage then Ok None
  else
    p ← read_provision envp;
    let log := command_channel_log_new (ww_log_opened w) true in
    match argv with
    | a1 :: rest =>
        if String.eqb a1 "migrate" then
          match rest with
          | [] => Stop (Undefined "atoi(NULL)")
          | a2 :: _ =>
              listen_port ← atoi a2;
              let chan := AnySocket (command_channel_socket_tcp_migration_new listen_port (ww_vm_garbage w) []) in
              apis ← init_internal_command_handler ∅;
              Ok (Some (mk_workerp p listen_port 0 chan None log apis (init_command_handler chan hs)))
          end
        else
          listen_port ← atoi a1;
          c ← open_worker_channel w envp listen_port;
          match c with
          | None => Ok None
          | Some (chan, wid, hv) =>
              apis ← init_internal_command_handler ∅;
              Ok (Some (mk_workerp p listen_port wid chan hv log apis (init_command_handler chan hs)))
          end
    | [] => Ok None
    end.
End worker.

(** [sigint_handler] and [sigsegv_handler]: the channel is freed once and forgotten, then the signal
    is raised again. *)
Definition signal_handler {C} {Ch : Channel C} (chan : option C) : res (option C) :=
  match chan with
  | Some c => c ← command_channel_free c; Ok None
  | None => Ok None
  end.

(** Reports go to the hypervisor when there is one. *)
Definition nw_report_storage_resource_allocation (hv : option command_channel_hv) (name : string) (amount : Z)
    : option command_channel_hv :=
  (λ c, command_channel_hv_report_storage_resource_allocation c name amount) <$> hv.
Definition nw_report_throughput_resource_consumption (hv : option command_channel_hv) (name : string) (amount : Z)
    : option command_channel_hv :=
  (λ c, command_channel_hv_report_throughput_resource_consumption c name amount) <$> hv.

(** ** Lemmas *)

Lemma init_base_wf vm api :
  base_wf (set_command_type NW_NEW_INVOCATION (set_vm_id (u8 vm) (set_command_id COMMAND_HANDLER_INITIALIZE_API
    (set_api_id COMMAND_HANDLER_API
       (mk_base 0 api 0 0 0 0 0 160 160 0 [0; 0; 160; 0; 0; 0; 0; 0]))))).
Proof.
  pose proof (wrap_range 8 vm ltac:(lia)). unfold base_wf, in_srange.
  cbn [api_id vm_id command_type thread_id original_thread_id flags command_id command_size data_region
    region_size reserved_area set_api_id set_command_id set_vm_id set_command_type length].
  rewrite !Forall_cons, Forall_nil. unfold in_range in *. cbn in *. split_and!; try lia; by vm_compute.
Qed.

(** What announcing the API sends on a socket. *)
Lemma send_initialize_socket `{SocketKernel, Uninit} c vm api pb h :
  kernel_sends →
  ∃ s' h' b, send_initialize c vm api pb h = Ok (set_sock s' c, h') ∧
    s_out s' = s_out (cs_sock c) ++ initialize_api_bytes b api (fst pb) (snd pb) ∧
    base_wf b ∧ vm_id b = u8 vm.
Proof.
  intros Hk. unfold send_initialize, command_channel_new_command. cbn [vt_new_command vtable socket_channel
    command_channel_socket_vtable]. unfold command_channel_socket_new_command.
  change (2 ^ 64 <=? Z.of_nat sizeof_initialize_api_command + 0) with false.
  change (Z.of_nat sizeof_initialize_api_command <? Z.of_nat sizeof_command_base) with false.
  cbv iota. unfold malloc. cbn [mbind res_bind].
  set (fields := le_bytes 8 api ++ le_bytes 8 (fst pb) ++ le_bytes 8 (snd pb)).
  assert (length fields = 24%nat) as Hf by (unfold fields; rewrite !length_app, !length_le_bytes; done).
  unfold upd_base. cbn [cmd_addr cmd_base cmd_rest].
  set (b := set_vm_id _ _). set (rest := fields ++ _).
  assert (rest = fields) as Hrest.
  { unfold rest. rewrite drop_ge, app_nil_r; [done|]. rewrite length_app, length_uninit, length_replicate. rewrite Hf. vm_compute. lia. }
  destruct (socket_send_eq c (snd (malloc h))
    (mk_cmd (next_addr h) b rest)) as (s' & Hs & _ & Ho); try done.
  - unfold cmd_bytes. cbn [cmd_base cmd_rest]. rewrite length_app, length_base_bytes, Hrest, Hf by done. done.
  - cbn. set_solver.
  - eexists s', _, (set_command_type NW_NEW_INVOCATION b). split; [exact Hs|]. rewrite Ho, Hrest.
    cbn [cmd_base cmd_rest]. split_and!; [done|apply init_base_wf|done].
Qed.

(** The channels of the TCP constructor have sent nothing and belong to VM 1. *)
Lemma connect_workers_fresh fuel net timeout addrs : ∀ chans wid chans' wid',
  Forall (λ c, s_out (cs_sock c) = [] ∧ cs_vm_id c = 1) chans →
  connect_workers fuel net timeout addrs chans wid = Ok (chans', wid') →
  Forall (λ c, s_out (cs_sock c) = [] ∧ cs_vm_id c = 1) chans'.
Proof.
  induction addrs as [|a addrs IH]; intros chans wid chans' wid' Hf; cbn [connect_workers].
  { by intros [= <- <-]. }
  destruct (parseServerAddress _ _ _ _ _) as [[[[[addr|]|] ?] [port|]]|]; try done. cbn [mbind res_bind].
  destruct (c_assert _ _); [|done]. cbn [mbind res_bind].
  destruct (connect_loop _ _ _ _ _) as [[]|]; [|intros [= <- <-]; constructor|done]. cbn [mbind res_bind].
  apply IH. apply Forall_app. split; [done|]. by constructor.
Qed.

Lemma to_string_not_migrate n : 0 ≤ n → String.eqb (to_string n) "migrate" = false.
Proof.
  intros Hn. destruct (String.eqb_spec (to_string n) "migrate") as [Heq|]; [|done].
  apply (f_equal strtol) in Heq. rewrite strtol_to_string' in Heq by done. done.
Qed.

Lemma open_tcp `{SocketKernel, Uninit} w config wid h r :
  channel_ config = "TCP"%string → open_channel w config wid h = Ok r →
  ∃ c wid', r = (AnySocket c, wid', 1, (0, 0), h) ∧ s_out (cs_sock c) = [] ∧ cs_vm_id c = 1.
Proof.
  intros Hc. unfold open_channel. rewrite Hc. cbn [String.eqb Ascii.eqb Bool.eqb].
  destruct (command_channel_socket_tcp_guest_new _ _ _ _ _ _) as [[chans wid']|] eqn:Ht; [|done].
  cbn [mbind res_bind]. unfold command_channel_socket_tcp_guest_new in Ht.
  destruct (c_assert _ _) in Ht; [|done]. apply connect_workers_fresh in Ht; [|constructor].
  destruct chans as [|c chans]; [done|]. intros [= <-]. apply Forall_cons in Ht as [[? ?] _].
  by exists c, wid'.
Qed.

Lemma open_worker_tcp `{SocketKernel} w envp port :
  default "TCP"%string (getenv envp "AVA_CHANNEL") = "TCP"%string →
  open_worker_channel w envp port =
    (c ← command_channel_socket_tcp_worker_new port (ww_accepted w); Ok (Some (AnySocket c, 0, None))).
Proof.
  unfold open_worker_channel. destruct (getenv envp "AVA_CHANNEL") as [t|]; [|done]. cbn [default from_option id]. by intros ->.
Qed.

(** ** Properties *)

(** C26. The guest library and the worker meet: whenever the guest library starts over TCP, the worker
    that accepts its connection (started with the port, and an environment without AVA_CHANNEL or
    with TCP) reads from what the guest sent its VM and the API to serve, and is left with exactly
    what the guest sends afterwards; both have the internal API registered, and the worker has the
    GPUs of its environment. *)
Theorem guest_meets_worker (K1 K2 : SocketKernel) (U : Uninit) (w : guest_world) (cfg : libconfig)
    (config : GuestConfig) (api : Z) (hs : handler_state any_channel) (h : heap) (gl : guestlib)
    (ww : worker_world) (envp : list string) (p : ProvisionGpu) (port : Z)
    (whs : handler_state any_channel) (rest : list Z) :
  @kernel_sends K1 → @kernel_recvs K2 → in_range 8 api → 0 ≤ port < 2 ^ 31 →
  readGuestConfig cfg = Some config → channel_ config = "TCP"%string →
  @nw_init_guestlib K1 U w cfg api 0 ∅ hs h = Ok gl →
  read_provision envp = Ok p → default "TCP"%string (getenv envp "AVA_CHANNEL") = "TCP"%string →
  ∃ g, gl_chan gl = AnySocket g ∧
    (ww_accepted ww = Some (s_out (cs_sock g) ++ rest) →
     ∃ wk c, @worker_main K2 ww [to_string port] envp whs = Ok (Some wk) ∧
       wk_chan wk = AnySocket c ∧ cs_vm_id c = gl_vm_id gl ∧ cs_init_command_type c = api ∧
       s_in (cs_sock c) = rest ∧ s_out (cs_sock c) = [] ∧
       wk_provision wk = p ∧ wk_listen_port wk = port ∧ wk_apis wk = gl_apis gl).
Proof.
  intros Hs Hr Ha Hp Hcfg Hch Hinit Hpr Henv. unfold nw_init_guestlib in Hinit. rewrite Hcfg in Hinit.
  destruct (open_channel w config 0 h) as [r|] eqn:Ho; [|done]. cbn [mbind res_bind] in Hinit.
  destruct (@open_tcp K1 U w config 0 h r Hch Ho) as (c0 & wid & -> & Hout & Hvm).
  destruct (init_internal_command_handler ∅) as [apis|] eqn:Hapis; [|done]. cbn [mbind res_bind] in Hinit.
  destruct (@send_initialize_socket K1 U c0 1 api (0, 0) h Hs) as (s' & h' & b & Hsend & Hso & Hwf & Hb).
  rewrite Hsend in Hinit. injection Hinit as <-. exists (set_sock s' c0). split; [done|]. intros Hacc.
  cbn [set_sock cs_sock] in Hacc. rewrite Hso, Hout in Hacc. cbn [app fst snd] in Hacc.
  assert (in_range 64 api) as Ha64 by (unfold in_range in *; lia).
  destruct (init_message_read b api 0 0 [] Hwf Ha64) as (Hv & Hw & Hl). rewrite app_nil_r in Hv, Hw.
  destruct (recv_socket_eq (Z.of_nat sizeof_initialize_api_command)
    (mk_sock (initialize_api_bytes b api 0 0 ++ rest) [] false 0 0)
    (initialize_api_bytes b api 0 0) rest) as (s & Hrcv & Hi & Hos & _); [done|done|by rewrite Hl|].
  eexists _, _. split.
  { unfold worker_main. rewrite Hpr. cbn [mbind res_bind]. rewrite to_string_not_migrate by lia.
    rewrite atoi_to_string by lia. cbn [mbind res_bind]. rewrite open_worker_tcp by done.
    rewrite Hacc. unfold command_channel_socket_tcp_worker_new. rewrite Hrcv. cbn [mbind res_bind].
    by rewrite Hapis. }
  cbn [wk_chan]. split; [done|]. cbn [cs_vm_id cs_init_command_type cs_sock wk_provision wk_listen_port wk_apis gl_vm_id gl_apis].
  rewrite Hv, Hw, Hb, (wrap_small 8 api) by done. by split_and!.
Qed.

Definition sample_world (elapsed : Z) (accepts : bool) : guest_world :=
  mk_world 3 (mk_net (λ _, Some 7) (λ _ _ _, if accepts then 0 else -1) (λ _ _ _, elapsed))
    (λ _ _ _ _, ["10.0.0.1:4000"%string]) false 0 0 [] 0 None (0, 0) (λ _, 0, λ _, 0) [].
Definition sample_config : libconfig := mk_libconfig ReadOk None None None (Some [Some 1024]).
Definition sample_wworld (accepted : list Z) : worker_world :=
  mk_wworld (Some accepted) false None [] false (0, 0, 0, 0) zero_base false true 0.
Definition idle_handler : handler_state any_channel := mk_hs false None false.
Definition gpu_env : list string :=
  ["CUDA_VISIBLE_DEVICES=GPU-a"; "AVA_CHANNEL=TCP"; "AVA_GPU_MEMORY=1024"; "AVA_GPU_UUID=GPU-a"]%string.
Definition one_gpu : ProvisionGpu := mk_provision [0] ["GPU-a"%string] [1024] [1024].

Lemma guest_meets_worker_witness :
  ∃ gl g, @nw_init_guestlib (sample_kernel 7) zero_uninit (sample_world 0 true) sample_config 9 0 ∅ idle_handler heap_empty = Ok gl ∧
    gl_chan gl = AnySocket g ∧
    ∃ wk c, @worker_main (sample_kernel 50) (sample_wworld (s_out (cs_sock g) ++ [1; 2; 3])) ["4000"%string] gpu_env idle_handler = Ok (Some wk) ∧
      wk_chan wk = AnySocket c ∧ cs_vm_id c = gl_vm_id gl ∧ cs_init_command_type c = 9 ∧
      s_in (cs_sock c) = [1; 2; 3] ∧ s_out (cs_sock c) = [] ∧
      wk_provision wk = one_gpu ∧ wk_listen_port wk = 4000 ∧ wk_apis wk = gl_apis gl.
Proof.
  destruct (@nw_init_guestlib (sample_kernel 7) zero_uninit (sample_world 0 true) sample_config 9 0 ∅ idle_handler heap_empty)
    as [gl|] eqn:Hgl; [|by vm_compute in Hgl].
  assert (∃ g, gl_chan gl = AnySocket g) as [g Hg] by (vm_compute in Hgl; injection Hgl as <-; by eexists).
  destruct (guest_meets_worker (sample_kernel 7) (sample_kernel 50) zero_uninit (sample_world 0 true)
    sample_config (mk_config "TCP" "0.0.0.0:3334" 5000 [1024]) 9 idle_handler heap_empty gl
    (sample_wworld (s_out (cs_sock g) ++ [1; 2; 3])) gpu_env one_gpu 4000 idle_handler [1; 2; 3])
    as (g' & Hg' & Hw);
    [intros i; cbn; lia|intros i; cbn; lia|unfold in_range; lia|lia|reflexivity|reflexivity|exact Hgl
    |vm_compute; reflexivity|reflexivity|].
  - exists gl, g. split; [done|]. split; [done|]. apply Hw. by rewrite Hg in Hg'; injection Hg' as ->.
Defined.

(** When the worker does not accept within the configured time, the constructor returns no channel
    and the guest library reads the first of none. *)
Theorem connect_timeout_undefined (K : SocketKernel) (U : Uninit) (api : Z)
    (apis : gmap Z command_handler_t) (hs : handler_state any_channel) (h : heap) :
  nw_init_guestlib (sample_world 5001 false) sample_config api 0 apis hs h =
    Stop (Undefined "channels[0] of an empty vector").
Proof. reflexivity. Qed.

(** A worker on TCP keeps [nw_worker_id] 0, so as the source of a live migration it connects to port
    2000, while the target that was started for the same port listens 2000 above that port. *)
Theorem tcp_live_migration_ports (K : SocketKernel) (ww : worker_world) (envp : list string) (port g : Z)
    (hs : handler_state any_channel) (wk target : worker) :
  0 < port < 2 ^ 31 → default "TCP"%string (getenv envp "AVA_CHANNEL") = "TCP"%string →
  worker_main ww [to_string port] envp hs = Ok (Some wk) →
  worker_main ww ["migrate"%string; to_string port] envp hs = Ok (Some target) →
  cs_listen_port (command_channel_socket_tcp_migration_new (wk_worker_id wk) g []) = 2000 ∧
  ∃ c, wk_chan target = AnySocket c ∧ cs_listen_port c = port + 2000.
Proof.
  intros Hp Henv. unfold worker_main. destruct (read_provision envp) as [p|]; [|done]. cbn [mbind res_bind].
  rewrite to_string_not_migrate by lia. rewrite atoi_to_string by lia. cbn [mbind res_bind].
  rewrite open_worker_tcp by done. cbn [String.eqb Ascii.eqb Bool.eqb negb].
  destruct (command_channel_socket_tcp_worker_new _ _) as [c|]; [|done]. cbn [mbind res_bind].
  destruct (init_internal_command_handler ∅) as [apis|]; [|done]. cbn [mbind res_bind].
  intros [= <-] [= <-]. split; [done|]. by eexists.
Qed.

(** [worker migrate] without a port passes the check of the arguments. *)
Theorem migrate_without_port (K : SocketKernel) (ww : worker_world) (envp : list string)
    (hs : handler_state any_channel) (p : ProvisionGpu) :
  read_provision envp = Ok p → worker_main ww ["migrate"%string] envp hs = Stop (Undefined "atoi(NULL)").
Proof. intros Hp. unfold worker_main. by rewrite Hp. Qed.
