(* ===== verification/SpawnDaemon.v ===== *)
(** * The spawn daemons (worker/katana/spawn_daemon.cpp, worker/galvanic/spawn_daemon.cpp)

    A daemon runs on every GPU node: it reads the node's GPUs from a file, registers them with the
    resource manager, starts API servers on request and reports their exit.  The GPU library, [fork]
    and the RPCs are arguments.  An API server is the program image [execvpe] is called with. *)

From S2P Require Import Prelude CString Channel Socket SocketChannel Provision GpuManager GpuPolicy Startup.
Local Open Scope Z_scope.

(** ** Configuration *)

Record GpuInfo := mk_gpuinfo { gi_uuid : string; gi_free_memory : Z }.

Record DaemonConfig := mk_dconfig {
  config_file_ : string;
  worker_path_ : string;
  daemon_address_ : ServerAddress;
  dc_manager_address : ServerAddress;
  worker_port_base_ : Z;
  visible_cuda_devices_ : list GpuInfo
}.

Definition dc_kDefaultManagerAddress : string := "0.0.0.0:3334".
Definition kDefaultDaemonAddress : string := "0.0.0.0:3335".
Definition kDefaultWorkerPortBase : Z := 4000.

(** What the option loop has collected. *)
Record daemon_options := mk_opts {
  o_config_file : option string;
  o_worker_path : option string;
  o_manager : string;
  o_daemon : string;
  o_port_base : Z
}.

(** The loop over what [getopt] returns: an option with its argument, or an unknown one ([None]). *)
Fixpoint option_loop (opts : list (option (Ascii.ascii * string))) (o : daemon_options)
    : res daemon_options :=
  match opts with
  | [] => Ok o
  | None :: _ => Stop (Exited 1)
  | Some (c, optarg) :: opts =>
      let set_o :=
        if Ascii.eqb c "f" then Ok (mk_opts (Some optarg) (o_worker_path o) (o_manager o) (o_daemon o) (o_port_base o))
        else if Ascii.eqb c "w" then Ok (mk_opts (o_config_file o) (Some optarg) (o_manager o) (o_daemon o) (o_port_base o))
        else if Ascii.eqb c "m" then Ok (mk_opts (o_config_file o) (o_worker_path o) optarg (o_daemon o) (o_port_base o))
        else if Ascii.eqb c "d" then Ok (mk_opts (o_config_file o) (o_worker_path o) (o_manager o) optarg (o_port_base o))
        else if Ascii.eqb c "b" then
          b ← atoi optarg; Ok (mk_opts (o_config_file o) (o_worker_path o) (o_manager o) (o_daemon o) b)
        else Stop (Exited 1) in
      o ← set_o; option_loop opts o
  end.

(** [realpath] resolves the path of the API server. *)
Definition parse_arguments (realpath : string → option string)
    (opts : list (option (Ascii.ascii * string))) : res DaemonConfig :=
  o ← option_loop opts (mk_opts None None dc_kDefaultManagerAddress kDefaultDaemonAddress kDefaultWorkerPortBase);
  match o_config_file o with
  | None => Stop (Exited 1)
  | Some f =>
      match o_worker_path o with
      | None => Stop (Exited 1)
      | Some w =>
          match realpath w with
          | None => Stop (Exited 1)
          | Some path =>
              da ← new_ServerAddress (o_daemon o);
              ma ← new_ServerAddress (o_manager o);
              Ok (mk_dconfig f path da ma (o_port_base o) [])
          end
      end
  end.

(** The lines of the file; [nvml uuid] is the free memory of the GPU, [None] when the library fails. *)
Fixpoint config_lines (nvml : string → option Z) (lines : list string) (devs : list GpuInfo)
    : res (list GpuInfo) :=
  match lines with
  | [] => Ok devs
  | line :: lines =>
      match cut "=" line with
      | None => Stop (Undefined "strchr(line, '=') is NULL")
      | Some (_, uuid) =>
          match nvml uuid with
          | None => Stop (Exited (-1))
          | Some free => config_lines nvml lines (devs ++ [mk_gpuinfo uuid free])
          end
      end
  end.

Definition parseConfigFile (nvml_init : bool) (nvml : string → option Z) (lines : list string)
    (c : DaemonConfig) : res DaemonConfig :=
  if negb nvml_init then Stop (Exited (-1))
  else
    devs ← config_lines nvml lines (visible_cuda_devices_ c);
    Ok (mk_dconfig (config_file_ c) (worker_path_ c) (daemon_address_ c) (dc_manager_address c)
          (worker_port_base_ c) devs).

(** ** Messages to the manager *)

(** [ManagerServiceClient::RegisterDaemon]: address, UUIDs, free memory. *)
Definition client_RegisterDaemon (c : DaemonConfig) : string * list string * list Z :=
  (GetAddress (daemon_address_ c), gi_uuid <$> visible_cuda_devices_ c,
   gi_free_memory <$> visible_cuda_devices_ c).

(** [ManagerServiceClient::NotifyWorkerExit]: address and UUIDs. *)
Definition client_NotifyWorkerExit (c : DaemonConfig) (worker_port : Z) (uuid : list string)
    : string * list string :=
  (ip_ (daemon_address_ c) +:+ String ":" (to_string worker_port), uuid).

(** ** Starting an API server *)

(** A started program. *)
Record image := mk_image { im_path : string; im_argv : list string; im_envp : list string }.

(** [worker_id_], the monitor threads by port with the child they wait for and its GPUs, and the
    children that run. *)
Record daemon := mk_daemonp {
  dm_worker_id : Z;
  dm_monitors : gmap Z (Z * list string);
  dm_children : gmap Z image
}.

Definition new_daemon : daemon := mk_daemonp 0 ∅ ∅.

Definition GetWorkerPort (c : DaemonConfig) (s : daemon) : res (Z * daemon) :=
  let port := worker_port_base_ c + dm_worker_id s in
  if (- 2 ^ 31 <=? port) && (port <? 2 ^ 31)
  then Ok (port, mk_daemonp (signed 32 (dm_worker_id s + 1)) (dm_monitors s) (dm_children s))
  else Stop (Undefined "signed overflow of the port").

(** The UUIDs after the first that did not occur before. *)
Fixpoint new_uuids (seen uuid : list string) : list string :=
  match uuid with
  | [] => []
  | u :: uuid =>
      if existsb (String.eqb u) seen then new_uuids (seen ++ [u]) uuid
      else u :: new_uuids (seen ++ [u]) uuid
  end.

(** A request of 0 bytes gets all the memory the GPU had when the daemon started. *)
Fixpoint device_memory (devs : list GpuInfo) (uuid : string) : option Z :=
  match devs with
  | [] => None
  | gi :: devs => if String.eqb (gi_uuid gi) uuid then Some (gi_free_memory gi) else device_memory devs uuid
  end.
Fixpoint adjust_memory (devs : list GpuInfo) (uuid : list string) (gpu_mem : list Z) : list Z :=
  match gpu_mem, uuid with
  | m :: gpu_mem, u :: uuid =>
      (if m =? 0 then default m (device_memory devs u) else m) :: adjust_memory devs uuid gpu_mem
  | _, _ => gpu_mem
  end.

(** The child: arguments and environment.  [stale] is what the memory of the string temporary with
    the port holds when [execvpe] reads it: the temporary is destroyed at the end of the
    declaration of [argv_list]. *)
Definition worker_image (c : DaemonConfig) (stale : string → string) (port : Z)
    (u : string) (us : list string) (m : Z) (ms : list Z) : image :=
  let visible_dev := "CUDA_VISIBLE_DEVICES=" +:+ join_with "," u (new_uuids [u] us) in
  let gpu_uuid_str := "AVA_GPU_UUID=" +:+ join_with "," u us in
  let gpu_mem_str := "AVA_GPU_MEMORY=" +:+ join_with "," (to_string m) (to_string <$> ms) in
  mk_image (worker_path_ c) ["worker"%string; stale (to_string port)]
    [visible_dev; "AVA_CHANNEL=TCP"%string; gpu_mem_str; gpu_uuid_str].

(** [SpawnWorker(uuid, gpu_mem)].  [fork] is what the parent gets; -1 is not told from a child.  A
    monitor whose port is in the map already is not inserted, and its joinable thread is destroyed. *)
Definition SpawnWorker (c : DaemonConfig) (stale : string → string) (fork : Z)
    (uuid : list string) (gpu_mem : list Z) (s : daemon) : res (Z * daemon) :=
  '(port, s) ← GetWorkerPort c s;
  match uuid, adjust_memory (visible_cuda_devices_ c) uuid gpu_mem with
  | u :: us, m :: ms =>
      let children :=
        if 0 <? fork then <[fork := worker_image c stale port u us m ms]> (dm_children s)
        else dm_children s in
      match dm_monitors s !! port with
      | Some _ => Stop (Thrown "std::terminate")
      | None => Ok (port, mk_daemonp (dm_worker_id s) (<[port := (fork, uuid)]> (dm_monitors s)) children)
      end
  | _, _ => Stop (Undefined "uuid[0] of an empty vector")
  end.

Fixpoint spawn_loop (c : DaemonConfig) (stale : string → string) (forks : nat → Z) (count : nat)
    (i : nat) (uuid : list string) (gpu_mem : list Z) (s : daemon) : res (list string * daemon) :=
  match count with
  | O => Ok ([], s)
  | S count =>
      '(port, s) ← SpawnWorker c stale (forks i) uuid gpu_mem s;
      '(r, s) ← spawn_loop c stale forks count (S i) uuid gpu_mem s;
      Ok ((ip_ (daemon_address_ c) +:+ String ":" (to_string port)) :: r, s)
  end.

(** The RPC [SpawnWorker]; the vectors may be absent from the message. *)
Definition rpc_SpawnWorker (c : DaemonConfig) (stale : string → string) (forks : nat → Z) (count : nat)
    (uuid : option (list string)) (gpu_mem : option (list Z)) (s : daemon)
    : res (grpc_status * list string * daemon) :=
  let uuid := default [] uuid in
  let gpu_mem := default [] gpu_mem in
  if (count =? 0)%nat || negb (length uuid =? length gpu_mem)%nat then Ok (INVALID_ARGUMENT, [], s)
  else
    '(r, s) ← spawn_loop c stale forks count 0 uuid gpu_mem s;
    Ok (StatusOK, r, s).

(** The monitor of the child at [port], when [waitpid] has returned: the manager is told, and the
    thread object is erased from the map.  It is joinable, and it is this thread: its destructor
    calls [std::terminate]. *)
Definition MonitorWorkerExit (c : DaemonConfig) (port : Z) (uuid : list string) (s : daemon)
    : res ((string * list string) * daemon) :=
  match uuid with
  | [] => Stop (Undefined "uuid[0] of an empty vector")
  | _ =>
      let told := client_NotifyWorkerExit c port uuid in
      match dm_monitors s !! port with
      | Some _ => Stop (Thrown "std::terminate")
      | None => Ok (told, s)
      end
  end.

(** ** The manager's stub [DaemonServiceClient::SpawnWorker] *)

(** The addresses of an OK reply; an address that does not parse throws. *)
Fixpoint parse_addresses (l : list string) : res (list ServerAddress) :=
  match l with
  | [] => Ok []
  | a :: l => w ← new_ServerAddress a; r ← parse_addresses l; Ok (w :: r)
  end.

Definition client_SpawnWorker (reply : res (grpc_status * list string * daemon))
    : res (list ServerAddress) :=
  match reply with
  | Ok (StatusOK, l, _) => parse_addresses l
  | _ => Ok []
  end.

(** ** The galvanic daemon: one GPU per API server, no provisioning variables *)

Definition galvanic_image (c : DaemonConfig) (stale : string → string) (port : Z) (uuid : string) : image :=
  mk_image (worker_path_ c) ["worker"%string; stale (to_string port)]
    ["CUDA_VISIBLE_DEVICES=" +:+ uuid; "AVA_CHANNEL=TCP"%string].

Definition galvanic_SpawnWorker (c : DaemonConfig) (stale : string → string) (fork : Z) (uuid : string)
    (s : daemon) : res (Z * daemon) :=
  '(port, s) ← GetWorkerPort c s;
  let children := if 0 <? fork then <[fork := galvanic_image c stale port uuid]> (dm_children s)
                  else dm_children s in
  match dm_monitors s !! port with
  | Some _ => Stop (Thrown "std::terminate")
  | None => Ok (port, mk_daemonp (dm_worker_id s) (<[port := (fork, [uuid])]> (dm_monitors s)) children)
  end.

Fixpoint galvanic_spawn_loop (c : DaemonConfig) (stale : string → string) (forks : nat → Z) (count : nat)
    (i : nat) (uuid : string) (s : daemon) : res (list string * daemon) :=
  match count with
  | O => Ok ([], s)
  | S count =>
      '(port, s) ← galvanic_SpawnWorker c stale (forks i) uuid s;
      '(r, s) ← galvanic_spawn_loop c stale forks count (S i) uuid s;
      Ok ((ip_ (daemon_address_ c) +:+ String ":" (to_string port)) :: r, s)
  end.

Definition galvanic_rpc_SpawnWorker (c : DaemonConfig) (stale : string → string) (forks : nat → Z)
    (count : nat) (uuid : option string) (s : daemon) : res (grpc_status * list string * daemon) :=
  match uuid with
  | None => Ok (INVALID_ARGUMENT, [], s)
  | Some uuid =>
      if (count =? 0)%nat || str_empty uuid then Ok (INVALID_ARGUMENT, [], s)
      else
        '(r, s) ← galvanic_spawn_loop c stale forks count 0 uuid s;
        Ok (StatusOK, r, s)
  end.

(** ** Lemmas *)

Lemma adjust_length devs uuid : ∀ gpu_mem, length (adjust_memory devs uuid gpu_mem) = length gpu_mem.
Proof. induction uuid as [|u uuid IH]; intros [|m gm]; cbn; auto. Qed.

Lemma adjust_nonzero devs uuid : ∀ gpu_mem,
  Forall (λ m, m ≠ 0) gpu_mem → adjust_memory devs uuid gpu_mem = gpu_mem.
Proof.
  induction uuid as [|u uuid IH]; intros [|m gm] Hm; cbn; try done.
  apply Forall_cons in Hm as [Hm Hg]. rewrite (proj2 (Z.eqb_neq _ _) Hm). by rewrite IH.
Qed.

Lemma device_memory_bound devs u x b :
  Forall (λ g, 0 ≤ gi_free_memory g < b) devs → device_memory devs u = Some x → 0 ≤ x < b.
Proof.
  induction 1 as [|g devs Hg _ IH]; cbn; [done|]. destruct (String.eqb _ _); [by intros [= <-]|done].
Qed.

Lemma adjust_bound devs uuid b : ∀ gpu_mem,
  Forall (λ g, 0 ≤ gi_free_memory g < b) devs → Forall (λ x, 0 ≤ x < b) gpu_mem →
  Forall (λ x, 0 ≤ x < b) (adjust_memory devs uuid gpu_mem).
Proof.
  induction uuid as [|u uuid IH]; intros [|m gm] Hd Hg; cbn; try done.
  apply Forall_cons in Hg as [Hm Hg]. constructor; [|by apply IH].
  destruct (m =? 0); [|done]. destruct (device_memory devs u) as [x|] eqn:Hx; [|done]. cbn.
  by eapply device_memory_bound.
Qed.

Lemma existsb_elem u l : existsb (String.eqb u) l = true ↔ u ∈ l.
Proof.
  rewrite existsb_exists. setoid_rewrite String.eqb_eq. setoid_rewrite <- list_elem_of_In. naive_solver.
Qed.

(** Every UUID is visible, once. *)
Lemma new_uuids_spec us : ∀ seen,
  NoDup (new_uuids seen us) ∧ (∀ u, u ∈ new_uuids seen us → u ∉ seen ∧ u ∈ us) ∧
  (∀ u, u ∈ us → u ∈ seen ∨ u ∈ new_uuids seen us).
Proof.
  induction us as [|v us IH]; intros seen; cbn [new_uuids].
  { split_and!; [constructor|intros u Hu|intros u Hu]; by apply elem_of_nil in Hu. }
  destruct (IH (seen ++ [v])) as (H1 & H2 & H3).
  destruct (existsb (String.eqb v) seen) eqn:Hv.
  - apply existsb_elem in Hv. split_and!; [done| |].
    + intros u Hu. destruct (H2 u Hu). set_solver.
    + intros u [->|Hu]%elem_of_cons; [by left|]. destruct (H3 u Hu); set_solver.
  - assert (v ∉ seen) as Hn by (rewrite <- existsb_elem, Hv; done). split_and!.
    + constructor; [|done]. intros Hin. destruct (H2 v Hin). set_solver.
    + intros u [->|Hu]%elem_of_cons; [set_solver|]. destruct (H2 u Hu). set_solver.
    + intros u [->|Hu]%elem_of_cons; [set_solver|]. destruct (H3 u Hu); set_solver.
Qed.

Lemma visible_nodup u us : NoDup (u :: new_uuids [u] us) ∧ ∀ v, v ∈ u :: us → v ∈ u :: new_uuids [u] us.
Proof.
  destruct (new_uuids_spec us [u]) as (H1 & H2 & H3). split.
  - constructor; [|done]. intros Hin. destruct (H2 u Hin). set_solver.
  - intros v [->|Hv]%elem_of_cons; [left|]. destruct (H3 v Hv); set_solver.
Qed.

Lemma getenv_cons name value envp n :
  has_char "=" name = false →
  getenv ((name +:+ String "=" value) :: envp) n = if String.eqb name n then Some value else getenv envp n.
Proof. intros Hn. cbn [getenv]. by rewrite cut_app. Qed.

Lemma getenv_image c stale port u us m ms :
  let e := im_envp (worker_image c stale port u us m ms) in
  getenv e "CUDA_VISIBLE_DEVICES" = Some (join_with "," u (new_uuids [u] us)) ∧
  getenv e "AVA_GPU_UUID" = Some (join_with "," u us) ∧
  getenv e "AVA_GPU_MEMORY" = Some (join_with "," (to_string m) (to_string <$> ms)) ∧
  getenv e "AVA_CHANNEL" = Some "TCP"%string.
Proof.
  cbn [im_envp worker_image].
  change "CUDA_VISIBLE_DEVICES="%string with ("CUDA_VISIBLE_DEVICES" +:+ "=")%string.
  change "AVA_GPU_UUID="%string with ("AVA_GPU_UUID" +:+ "=")%string.
  change "AVA_GPU_MEMORY="%string with ("AVA_GPU_MEMORY" +:+ "=")%string.
  change "AVA_CHANNEL=TCP"%string with ("AVA_CHANNEL" +:+ String "=" "TCP")%string.
  rewrite !string_app_assoc.
  assert (∀ x, "=" +:+ x = String "=" x) as Heq by (intros x; by rewrite string_app_cons, string_app_nil_l).
  rewrite !Heq. rewrite !getenv_cons by done. by split_and!.
Qed.

(** The GPUs an API server reads from the environment it is started with. *)
Lemma image_provision c stale port u us m ms :
  Forall plain (u :: us) → Forall (λ m, 0 ≤ m < 2 ^ 63) (m :: ms) → length us = length ms →
  ∃ p, read_provision (im_envp (worker_image c stale port u us m ms)) = Ok p ∧
    uuid_ p = u :: us ∧ memory_ p = m :: ms ∧ free_memory_ p = m :: ms ∧
    ∀ i v, (u :: us) !! i = Some v →
      ∃ n, index_ p !! i = Some (Z.of_nat n) ∧ (u :: new_uuids [u] us) !! n = Some v.
Proof.
  intros Hp Hm Hl. destruct (getenv_image c stale port u us m ms) as (H1 & H2 & H3 & _).
  unfold read_provision. rewrite H1, H2, H3. cbn [default from_option id]. unfold new_ProvisionGpu.
  assert (Forall plain (u :: new_uuids [u] us)) as Hp'.
  { apply Forall_forall. intros v Hv. apply (proj1 (Forall_forall _ _) Hp). apply elem_of_cons in Hv as [->|Hv]; [left|].
    destruct (new_uuids_spec us [u]) as (_ & H & _). right. by apply H. }
  rewrite !parse_uuid_list, parse_memory_list by done. cbn [mbind res_bind].
  destruct (provision_init_spec (u :: new_uuids [u] us) (u :: us) (m :: ms)) as [(_ & _ & p & Hi & ? & ? & ? & _ & Hix)|[Hno _]].
  - exists p. split_and!; try done. intros i v Hv. destruct (Hix i v Hv) as (n & ? & ? & _). by exists n.
  - exfalso. destruct Hno as [Hno|(v & Hv & Hn)]; [cbn in Hno; lia|]. by apply Hn, visible_nodup.
Qed.

(** What a successful start leaves in the daemon. *)
Lemma SpawnWorker_inv c stale fork uuid gpu_mem s port s' :
  SpawnWorker c stale fork uuid gpu_mem s = Ok (port, s') →
  port = worker_port_base_ c + dm_worker_id s ∧ - 2 ^ 31 ≤ port < 2 ^ 31 ∧
  ∃ u us m ms, uuid = u :: us ∧ adjust_memory (visible_cuda_devices_ c) uuid gpu_mem = m :: ms ∧
    (0 < fork → dm_children s' !! fork = Some (worker_image c stale port u us m ms)) ∧
    (fork ≤ 0 → dm_children s' = dm_children s) ∧
    dm_monitors s' = <[port := (fork, uuid)]> (dm_monitors s).
Proof.
  unfold SpawnWorker, GetWorkerPort. destruct (_ && _) eqn:Hrange; [|done]. cbn [mbind res_bind].
  destruct uuid as [|u us]; [done|]. destruct (adjust_memory _ _ _) as [|m ms] eqn:Ha; [done|]. cbn [dm_monitors dm_children].
  destruct (dm_monitors s !! _); [done|]. intros [= <- <-]. split; [done|]. split; [lia|].
  exists u, us, m, ms. split_and!; [done|done| | |done]; cbn [dm_children]; intros Hf.
  - rewrite (proj2 (Z.ltb_lt _ _)) by done. apply lookup_insert_eq.
  - by rewrite (proj2 (Z.ltb_ge _ _)) by done.
Qed.

(** ** Properties *)

(** What the daemon was asked for is what the API server provisions: an API server started for a
    list of GPUs and sizes reads back from its environment the same GPUs in the same order, with the
    requested memory (for a request of 0, all the GPU's memory), each mapped to its device among the
    visible ones, of which there is one per GPU, even when a GPU was granted several times. *)
Theorem spawned_server_provisions c stale fork uuid gpu_mem s port s' :
  0 < fork → Forall plain uuid → length uuid = length gpu_mem →
  Forall (λ m, 0 ≤ m < 2 ^ 63) (adjust_memory (visible_cuda_devices_ c) uuid gpu_mem) →
  SpawnWorker c stale fork uuid gpu_mem s = Ok (port, s') →
  ∃ img p visible, dm_children s' !! fork = Some img ∧ read_provision (im_envp img) = Ok p ∧
    uuid_ p = uuid ∧ memory_ p = adjust_memory (visible_cuda_devices_ c) uuid gpu_mem ∧
    free_memory_ p = memory_ p ∧
    ParseGpuUuidList (default EmptyString (getenv (im_envp img) "CUDA_VISIBLE_DEVICES")) = visible ∧
    NoDup visible ∧
    ∀ i v, uuid !! i = Some v → ∃ n, index_ p !! i = Some (Z.of_nat n) ∧ visible !! n = Some v.
Proof.
  intros Hf Hp Hl Hm Hs. destruct (SpawnWorker_inv _ _ _ _ _ _ _ _ Hs) as (_ & _ & u & us & m & ms & -> & Ha & Hc & _).
  pose proof (adjust_length (visible_cuda_devices_ c) (u :: us) gpu_mem) as Hal. rewrite Ha in *. cbn in Hal, Hl.
  destruct (image_provision c stale port u us m ms Hp Hm) as (p & Hr & Hu & Hmem & Hfree & Hix); [lia|].
  exists (worker_image c stale port u us m ms), p, (u :: new_uuids [u] us).
  split_and!; [by apply Hc|done|done|done|congruence| |apply visible_nodup|done].
  destruct (getenv_image c stale port u us m ms) as (-> & _). cbn [default from_option id].
  apply parse_uuid_list. apply Forall_forall. intros v Hv. apply (proj1 (Forall_forall _ _) Hp).
  apply elem_of_cons in Hv as [->|Hv]; [left|]. destruct (new_uuids_spec us [u]) as (_ & H & _). right. by apply H.
Qed.

Definition sample_daemon_config : DaemonConfig :=
  mk_dconfig "gpu.conf" "/opt/worker" (mk_address "10.0.0.1" 3335) (mk_address "10.0.0.9" 3334) 4000
    [mk_gpuinfo "GPU-a" 100; mk_gpuinfo "GPU-b" 300].

Lemma spawned_server_provisions_witness :
  ∃ img p visible s', SpawnWorker sample_daemon_config id 77 ["GPU-b"; "GPU-a"; "GPU-b"]%string [0; 50; 20] new_daemon = Ok (4000, s') ∧
    dm_children s' !! 77 = Some img ∧ read_provision (im_envp img) = Ok p ∧
    uuid_ p = ["GPU-b"; "GPU-a"; "GPU-b"]%string ∧ memory_ p = [300; 50; 20] ∧
    free_memory_ p = memory_ p ∧
    ParseGpuUuidList (default EmptyString (getenv (im_envp img) "CUDA_VISIBLE_DEVICES")) = visible ∧
    NoDup visible ∧
    ∀ i v, ["GPU-b"; "GPU-a"; "GPU-b"]%string !! i = Some v → ∃ n, index_ p !! i = Some (Z.of_nat n) ∧ visible !! n = Some v.
Proof.
  destruct (SpawnWorker sample_daemon_config id 77 ["GPU-b"; "GPU-a"; "GPU-b"]%string [0; 50; 20] new_daemon)
    as [[port s']|] eqn:Hs; [|by vm_compute in Hs].
  assert (port = 4000) as -> by (vm_compute in Hs; congruence).
  destruct (spawned_server_provisions sample_daemon_config id 77 ["GPU-b"; "GPU-a"; "GPU-b"]%string [0; 50; 20] new_daemon 4000 s')
    as (img & p & visible & H); [lia|repeat constructor; by vm_compute|done|cbn; repeat constructor; lia|done|].
  exists img, p, visible, s'. by split.
Defined.

(** ** Registration *)

Lemma set_free_all ids us fm :
  length ids = length us → length us = length fm →
  set_free_loop (zip ids (new_entry <$> us)) fm = Ok (zip ids (zip_with (λ u m, SetFreeMemory m (new_entry u)) us fm)).
Proof.
  revert us fm. induction ids as [|i ids IH]; intros [|u us] [|m fm] H1 H2; try done.
  injection H1 as H1. injection H2 as H2. cbn. by rewrite IH.
Qed.

Lemma zip_fmap_both {A B C D} (f : A → B) (g : A → C) (h : B → C → D) (l : list A) :
  zip_with h (f <$> l) (g <$> l) = (λ x, h (f x) (g x)) <$> l.
Proof. induction l as [|x l IH]; [done|]. cbn. by rewrite <- IH. Qed.

(** Registering a daemon adds its node at the end of the manager's list, under the daemon's address
    and with exactly the GPUs the daemon reads from its file: each with its UUID and free memory, no
    API server and counter 0; and leaves the other nodes alone. *)
Theorem daemon_registers (S1 : StdSort) (m : ManagerConfig) (c : DaemonConfig) :
  address_ok (daemon_address_ c) →
  let '(address, uuids, free) := client_RegisterDaemon c in
  ∃ m' gpus, RegisterDaemon m address uuids free = Ok m' ∧
    daemons_ m' = daemons_ m ++ [mk_daemon (daemon_address_ c) gpus] ∧ ids_ok gpus ∧ gpus_sorted gpus ∧
    snd <$> gpus ≡ₚ (λ gi, mk_entry (gi_uuid gi) (gi_free_memory gi) [] [] 0) <$> visible_cuda_devices_ c.
Proof.
  intros Ha. cbn [client_RegisterDaemon]. unfold RegisterDaemon. rewrite new_GetAddress by done.
  cbn [mbind res_bind]. set (devs := visible_cuda_devices_ c). set (ids := (λ i : nat, _) <$> _).
  assert (length ids = length devs) as Hl by (unfold ids; by rewrite length_fmap, length_seq, length_fmap).
  rewrite set_free_all by (by rewrite ?length_fmap). cbn [mbind res_bind]. rewrite zip_fmap_both.
  eexists _, _. split; [done|]. split; [done|]. unfold AddEntries. cbn [app].
  set (l := zip ids _). assert (ids_ok l) as Hok.
  { unfold ids_ok, l. rewrite fst_zip by (rewrite length_fmap; lia). unfold ids.
    apply NoDup_fmap_2; [intros ?? ?; lia|apply NoDup_ListNoDup, seq_NoDup]. }
  split_and!; [by apply sort_entries|apply sort_sorted|].
  assert (UnlockedSort l ≡ₚ l) as -> by apply std_sort_perm. unfold l.
  rewrite snd_zip by (rewrite length_fmap; lia). done.
Qed.

Lemma daemon_registers_witness :
  let '(address, uuids, free) := client_RegisterDaemon sample_daemon_config in
  ∃ m' gpus, @RegisterDaemon sample_sort boot address uuids free = Ok m' ∧
    daemons_ m' = [] ++ [mk_daemon (mk_address "10.0.0.1" 3335) gpus] ∧ ids_ok gpus ∧ gpus_sorted gpus ∧
    snd <$> gpus ≡ₚ [mk_entry "GPU-a" 100 [] [] 0; mk_entry "GPU-b" 300 [] [] 0].
Proof. apply (daemon_registers sample_sort boot sample_daemon_config). split_and!; reflexivity. Defined.

(** ** From the request of a guest to the GPUs of its API server *)

(** The daemons as the manager sees them: node [k] has configuration [cfg k] and state [st k]. *)
Definition daemon_spawn (cfg : nat → DaemonConfig) (st : nat → daemon) (stale : string → string)
    (forks : nat → nat → Z) (k : nat) (uuid : list string) (gpu_mem : list Z) : list ServerAddress :=
  match client_SpawnWorker (rpc_SpawnWorker (cfg k) stale (forks k) 1 (Some uuid) (Some gpu_mem) (st k)) with
  | Ok l => l
  | Stop _ => []
  end.

Lemma daemon_spawn_inv cfg st stale forks k uuid gpu_mem w ws :
  daemon_spawn cfg st stale forks k uuid gpu_mem = w :: ws →
  length uuid = length gpu_mem ∧ ws = [] ∧
  ∃ port s', SpawnWorker (cfg k) stale (forks k 0%nat) uuid gpu_mem (st k) = Ok (port, s') ∧
    new_ServerAddress (fst (client_NotifyWorkerExit (cfg k) port uuid)) = Ok w.
Proof.
  unfold daemon_spawn, rpc_SpawnWorker. cbn [default from_option id Nat.eqb orb].
  destruct (Nat.eqb_spec (length uuid) (length gpu_mem)) as [Hl|]; [|done]. cbn [negb spawn_loop].
  destruct (SpawnWorker _ _ _ _ _ _) as [[port s']|] eqn:Hs; [|done]. cbn [mbind res_bind client_SpawnWorker parse_addresses].
  unfold client_NotifyWorkerExit. cbn [fst].
  destruct (new_ServerAddress _) as [a|] eqn:Ha; [|done]. cbn. intros [= <- <-]. split; [done|]. split; [done|]. exists port, s'. by rewrite Ha.
Qed.

Section end_to_end.
Context `{StdSort} `{PtrSetOrder}.

(** C21. A guest's request, through manager and daemon, to its API server: when the manager answers
    OK, the answer is one address of the node of a live daemon, with the port this daemon took for a
    new API server, and what the manager has booked for that address on every GPU of the node are
    exactly the GPUs and sizes it sent to the daemon, one per requested size.  When the daemon's
    [fork] made a child, the child is an API server that reads from its environment these GPUs in
    this order, each with the requested size (all the memory the GPU had, where the request is 0
    bytes), and its port argument is the text of the port as far as the memory of the destroyed
    string still holds it ([stale]); when [fork] failed, the answer is the same and no process was
    started.  Sizes are below 2^63. *)
Theorem granted_is_provisioned (m : ManagerConfig) (dead : nat → bool) (cfg : nat → DaemonConfig)
    (st : nat → daemon) (stale : string → string) (forks : nat → nat → Z) (n : Z) (gpu_mem : list Z)
    (addresses : list string) (m' : ManagerConfig) :
  rtc mstep boot m → Forall names_ok (daemons_ m) →
  Forall (λ d, map_Forall (λ _ e, has_char "," (e_uuid e) = false) (entries (d_gpus d))) (daemons_ m) →
  Forall (λ x, 0 ≤ x < 2 ^ 63) gpu_mem →
  (∀ k, Forall (λ g, 0 ≤ gi_free_memory g < 2 ^ 63) (visible_cuda_devices_ (cfg k))) →
  AssignWorker m dead (daemon_spawn cfg st stale forks) n (Some gpu_mem) = (StatusOK, addresses, m') →
  ∃ k d d' w port uuids s', daemons_ m !! k = Some d ∧ daemons_ m' !! k = Some d' ∧ dead k = false ∧
    addresses = [GetAddress w] ∧
    SpawnWorker (cfg k) stale (forks k 0%nat) uuids gpu_mem (st k) = Ok (port, s') ∧
    new_ServerAddress (ip_ (daemon_address_ (cfg k)) +:+ String ":" (to_string port)) = Ok w ∧
    length uuids = length gpu_mem ∧
    (∀ id e, entries (d_gpus d) !! id = Some e → ∃ e', entries (d_gpus d') !! id = Some e' ∧
      busy_workers_ e' ≡ₚ (mk_worker w <$> sizes (e_uuid e) (zip uuids gpu_mem)) ++ busy_workers_ e) ∧
    if 0 <? forks k 0%nat then
      ∃ img p, dm_children s' !! forks k 0%nat = Some img ∧
        im_argv img = ["worker"%string; stale (to_string port)] ∧
        read_provision (im_envp img) = Ok p ∧ uuid_ p = uuids ∧
        memory_ p = adjust_memory (visible_cuda_devices_ (cfg k)) uuids gpu_mem ∧
        (Forall (λ x, x ≠ 0) gpu_mem → memory_ p = gpu_mem)
    else dm_children s' = dm_children (st k).
Proof.
  intros Hb Hn Hc Hg Hdev. unfold AssignWorker. cbn [default from_option id]. destruct (negb _); [done|].
  destruct (DoAssignWorker m dead _ gpu_mem) as [[|w ws] m1] eqn:Hd; [done|]. intros [= <- <-].
  assert (Forall (λ x, 0 ≤ x) gpu_mem) as Hg0 by (eapply Forall_impl; [exact Hg|]; cbn; lia).
  destruct (do_assign_records _ _ _ _ _ _ _ (boot_inv _ Hb) Hn Hg0 Hd)
    as (k & d & d' & uuids & Hk & Hk' & Hdead & _ & Hws & Hlen & _ & _ & _ & Hu & He).
  symmetry in Hws. destruct (daemon_spawn_inv _ _ _ _ _ _ _ _ _ Hws) as (_ & -> & port & s' & Hs & Ha).
  pose proof (Forall_lookup_1 _ _ _ _ Hn Hk) as Hnd. pose proof (Forall_lookup_1 _ _ _ _ Hc Hk) as Hcd. cbn in Hcd.
  assert (Forall plain uuids) as Hplain.
  { apply Forall_forall. intros u (id & e & Hid & <-)%Hu. split; [by apply (Hnd id id e e)|by apply (Hcd id e)]. }
  exists k, d, d', w, port, uuids, s'. split_and!; try done.
  { intros id e Hid. destruct (He id e Hid) as (e' & ? & _ & ?). by exists e'. }
  destruct (SpawnWorker_inv _ _ _ _ _ _ _ _ Hs) as (_ & _ & u & us & x & ms & -> & Hadj & Hch & Hno & _).
  pose proof (adjust_bound _ (u :: us) _ _ (Hdev k) Hg) as Hm.
  pose proof (adjust_length (visible_cuda_devices_ (cfg k)) (u :: us) gpu_mem) as Hal. rewrite Hadj in *.
  destruct (Z.ltb_spec 0 (forks k 0%nat)) as [Hf|Hf]; [|by apply Hno].
  destruct (image_provision (cfg k) stale port u us x ms Hplain Hm) as (p & Hr & Hup & Hmem & _);
    [cbn in Hlen, Hal; lia|].
  exists (worker_image (cfg k) stale port u us x ms), p. split_and!; try done; [by apply Hch|].
  intros Hnz. by rewrite Hmem, <- Hadj, adjust_nonzero.
Qed.
End end_to_end.

#[local] Existing Instance sample_sort.
#[local] Existing Instance sample_order.

Lemma granted_is_provisioned_witness :
  let spawn := daemon_spawn (λ _, sample_daemon_config) (λ _, new_daemon) id (λ _ _, 77) in
  ∃ m' k d d' w port uuids s',
    AssignWorker two_gpus (λ _, false) spawn 2 (Some [50; 200]) = (StatusOK, ["10.0.0.1:4000"%string], m') ∧
    daemons_ two_gpus !! k = Some d ∧ daemons_ m' !! k = Some d' ∧ false = false ∧
    ["10.0.0.1:4000"%string] = [GetAddress w] ∧
    SpawnWorker sample_daemon_config id 77 uuids [50; 200] new_daemon = Ok (port, s') ∧
    new_ServerAddress ("10.0.0.1" +:+ String ":" (to_string port)) = Ok w ∧ length uuids = 2%nat ∧
    (∀ id e, entries (d_gpus d) !! id = Some e → ∃ e', entries (d_gpus d') !! id = Some e' ∧
      busy_workers_ e' ≡ₚ (mk_worker w <$> sizes (e_uuid e) (zip uuids [50; 200])) ++ busy_workers_ e) ∧
    ∃ img p, dm_children s' !! 77 = Some img ∧
      im_argv img = ["worker"%string; to_string port] ∧
      read_provision (im_envp img) = Ok p ∧ uuid_ p = uuids ∧
      memory_ p = adjust_memory (visible_cuda_devices_ sample_daemon_config) uuids [50; 200] ∧
      (Forall (λ x, x ≠ 0) [50; 200] → memory_ p = [50; 200]).
Proof.
  intros spawn.
  destruct (AssignWorker two_gpus (λ _, false) spawn 2 (Some [50; 200])) as [[status ws] m'] eqn:Hrun.
  assert (status = StatusOK ∧ ws = ["10.0.0.1:4000"%string]) as [-> ->] by (vm_compute in Hrun; by simplify_eq).
  exists m'.
  destruct (granted_is_provisioned two_gpus (λ _, false) (λ _, sample_daemon_config) (λ _, new_daemon) id
    (λ _ _, 77) 2 [50; 200] ["10.0.0.1:4000"%string] m')
    as (k & d & d' & w & port & uuids & s' & Hall);
    [exact two_gpus_reachable|exact two_gpus_names| |repeat constructor; lia|intros k; repeat constructor; cbn; lia|exact Hrun|].
  - rewrite two_gpus_node. constructor; [|constructor]. intros i x Hx. by destruct (node_gpus_lookup _ _ Hx) as [[-> ->]|[-> ->]].
  - exists k, d, d', w, port, uuids, s'. by split.
Defined.

(** ** What the daemon does not handle *)

(** The exit of any API server ends the daemon: after telling the manager, the monitor thread erases
    its own thread object. *)
Theorem server_exit_ends_daemon c stale fork uuid gpu_mem s port s' :
  SpawnWorker c stale fork uuid gpu_mem s = Ok (port, s') →
  MonitorWorkerExit c port uuid s' = Stop (Thrown "std::terminate").
Proof.
  intros Hs. destruct (SpawnWorker_inv _ _ _ _ _ _ _ _ Hs) as (_ & _ & u & us & m & ms & -> & _ & _ & _ & Hm).
  unfold MonitorWorkerExit. by rewrite Hm, lookup_insert_eq.
Qed.

Lemma server_exit_ends_daemon_witness :
  ∃ s', SpawnWorker sample_daemon_config id 77 ["GPU-b"%string] [20] new_daemon = Ok (4000, s') ∧
    MonitorWorkerExit sample_daemon_config 4000 ["GPU-b"%string] s' = Stop (Thrown "std::terminate").
Proof.
  eexists. split; [reflexivity|].
  apply (server_exit_ends_daemon sample_daemon_config id 77 ["GPU-b"%string] [20] new_daemon). reflexivity.
Defined.

(** A failed [fork] is answered with an address where nothing runs. *)
Theorem failed_fork_is_reported_ok c stale uuid gpu_mem s port s' :
  SpawnWorker c stale (-1) uuid gpu_mem s = Ok (port, s') → dm_children s' = dm_children s.
Proof.
  unfold SpawnWorker, GetWorkerPort. destruct (_ && _); [|done]. cbn [mbind res_bind].
  destruct uuid as [|u us]; [done|]. destruct (adjust_memory _ _ _); [done|]. cbn [dm_monitors dm_children].
  destruct (dm_monitors s !! _); [done|]. by intros [= <- <-].
Qed.

(** A request without GPUs passes the check of the vectors' lengths. *)
Theorem spawn_without_gpus c stale forks s :
  - 2 ^ 31 ≤ worker_port_base_ c + dm_worker_id s < 2 ^ 31 →
  rpc_SpawnWorker c stale forks 1 (Some []) (Some []) s = Stop (Undefined "uuid[0] of an empty vector").
Proof.
  intros Hr. unfold rpc_SpawnWorker. cbn [default from_option id length Nat.eqb orb negb spawn_loop].
  unfold SpawnWorker, GetWorkerPort. by rewrite (proj2 (Z.leb_le _ _)), (proj2 (Z.ltb_lt _ _)) by lia.
Qed.
