(* ===== verification/NvManager.v ===== *)
(** * The worker manager for NVIDIA GPUs (worker/nvidia_gpu/manager_nv.cpp)

    Like the worker manager, with a pool of idle workers per GPU and a GPU chosen per application:
    by UUID, by index, or round-robin.  The handler of a request runs under [std::async], whose
    future is destroyed at once and so waited for: requests are handled one after the other. *)

From S2P Require Import Prelude CString Channel Manager.
Local Open Scope Z_scope.

(** ** State *)

(** What the manager does to the outside: replies to guest libraries, and calls of [fork] for a
    worker on a GPU, which make a child that becomes the worker or fail ([fork] returns -1: the
    code looks only for 0 and goes on as the parent). *)
Inductive nv_event :=
  | NvReply (response : command_base)
  | NvFork (port gpu_id : Z) (child : bool).

(** The globals; [nv_idle] has one [Workers] queue per GPU. *)
Record nv_manager := mk_nv {
  nv_worker_id : Z;
  nv_num_assigned_app : Z;
  nv_idle : list (list Z)
}.

Record nv_config := mk_nvc {
  nv_port_base : Z;
  nv_pool_size : Z;
  nv_uuids : list string
}.

(** ** [Workers] *)

Definition enqueue (port : Z) (q : list Z) : list Z := q ++ [port].

(** 0 when the queue is empty. *)
Definition dequeue (q : list Z) : Z * list Z :=
  match q with
  | [] => (0, [])
  | port :: q => (port, q)
  end.

Definition get_worker_port (c : nv_config) (id : Z) : Z := nv_port_base c + id.

(** ** The GPU of a request *)

Fixpoint find_index (uuid : string) (l : list string) (i : Z) : option Z :=
  match l with
  | [] => None
  | x :: l => if String.eqb x uuid then Some i else find_index uuid l (i + 1)
  end.

Definition get_gpu_id_from_uuid (c : nv_config) (gpu_uuid : string) (s : nv_manager)
    : res (Z * nv_manager) :=
  match find_index gpu_uuid (nv_uuids c) 0 with
  | Some gpu_id => Ok (gpu_id, s)
  | None =>
      if (String.length gpu_uuid =? 1)%nat
      then gpu_id ← atoi gpu_uuid; Ok (gpu_id, s)
      else if (length (nv_uuids c) =? 0)%nat then Stop (Undefined "% 0")
      else Ok (Z.rem (nv_num_assigned_app s) (Z.of_nat (length (nv_uuids c))),
               mk_nv (nv_worker_id s) (nv_num_assigned_app s + 1) (nv_idle s))
  end.

(** The C string in the reserved area. *)
Definition reserved_string (b : command_base) : res string :=
  match c_string (mjoin (le_bytes 8 <$> reserved_area b)) with
  | Some s => Ok s
  | None => Stop (Undefined "string not terminated in reserved_area")
  end.

(** ** Handling a request *)

Definition reply_to_guestlib (garbage : command_base) (assigned_worker_port : Z) : nv_event :=
  NvReply (set_reserved 0 (u64 assigned_worker_port) (set_api_id INTERNAL_API garbage)).

(** [fork] says whether the call of [fork] for a worker identifier makes a child; the port is enqueued
    or answered in either case.  [garbage] is the uninitialised [response]. *)
Definition handle_application (c : nv_config) (fork : Z → bool) (garbage : command_base) (gpu_id : Z) (s : nv_manager)
    : res (list nv_event * nv_manager) :=
  match (if gpu_id <? 0 then None else nv_idle s !! Z.to_nat gpu_id) with
  | None => Stop (Undefined "idle_workers[gpu_id] out of range")
  | Some q =>
      let '(assigned_worker_port, q) := dequeue q in
      let worker_port := get_worker_port c (nv_worker_id s) in
      if negb (assigned_worker_port =? 0) then
        let reply := reply_to_guestlib garbage assigned_worker_port in
        if u32 (nv_pool_size c - 1) <? Z.of_nat (length q)
        then Ok ([reply], mk_nv (nv_worker_id s) (nv_num_assigned_app s) (<[Z.to_nat gpu_id := q]> (nv_idle s)))
        else Ok ([reply; NvFork worker_port gpu_id (fork (nv_worker_id s))],
                 mk_nv (nv_worker_id s + 1) (nv_num_assigned_app s)
                   (<[Z.to_nat gpu_id := enqueue worker_port q]> (nv_idle s)))
      else
        Ok ([NvFork worker_port gpu_id (fork (nv_worker_id s)); reply_to_guestlib garbage worker_port],
            mk_nv (nv_worker_id s + 1) (nv_num_assigned_app s) (<[Z.to_nat gpu_id := q]> (nv_idle s)))
  end.

(** [worker_info] is created and never filled: the lookup of a migration request finds nothing. *)
Definition handle_guestlib (c : nv_config) (fork : Z → bool) (garbage : command_base)
    (bytes : option (list Z)) (s : nv_manager)
    : res (list nv_event * nv_manager) :=
  msg ← recv_request bytes;
  if command_type msg =? NW_NEW_APPLICATION then
    gpu_uuid ← reserved_string msg;
    '(gpu_id, s) ← get_gpu_id_from_uuid c gpu_uuid s;
    handle_application c fork garbage gpu_id s
  else if command_type msg =? COMMAND_START_MIGRATION then Stop (Exited 0)
  else Ok ([], s).

(** ** Start *)

(** [worker_pool_size] workers for each GPU. *)
Fixpoint pool_of (c : nv_config) (fork : Z → bool) (gpu_id : Z) (n : nat) (id : Z) : list nv_event * list Z * Z :=
  match n with
  | O => ([], [], id)
  | S n =>
      let port := get_worker_port c id in
      let '(evs, q, id') := pool_of c fork gpu_id n (id + 1) in
      (NvFork port gpu_id (fork id) :: evs, port :: q, id')
  end.
Fixpoint pools (c : nv_config) (fork : Z → bool) (gpus : nat) (gpu_id id : Z) : list nv_event * list (list Z) * Z :=
  match gpus with
  | O => ([], [], id)
  | S gpus =>
      let '(evs, q, id) := pool_of c fork gpu_id (Z.to_nat (nv_pool_size c)) id in
      let '(evs', qs, id) := pools c fork gpus (gpu_id + 1) id in
      (evs ++ evs', q :: qs, id)
  end.

(** The lines of the configuration: the value after '=' of each; [nvml]: the library knows it. *)
Fixpoint nv_lines (nvml : string → bool) (lines : list string) : res (list string) :=
  match lines with
  | [] => Ok []
  | line :: lines =>
      match cut "=" line with
      | None => Stop (Undefined "strchr(line, '=') is NULL")
      | Some (_, uuid) =>
          if nvml uuid then r ← nv_lines nvml lines; Ok (uuid :: r) else Stop (Exited (-1))
      end
  end.

(** [main] up to the loop. *)
Definition nv_main (fork : Z → bool) (port_base pool_size : Z) (nvml_init : bool) (nvml : string → bool) (lines : list string)
    : res (nv_config * list nv_event * nv_manager) :=
  if negb nvml_init then Stop (Exited (-1))
  else
    uuids ← nv_lines nvml lines;
    let c := mk_nvc port_base (u32 pool_size) uuids in
    let '(evs, idle, id) := pools c fork (length uuids) 0 1 in
    Ok (c, evs, mk_nv id 0 idle).

Fixpoint nv_run (c : nv_config) (fork : Z → bool) (reqs : list (command_base * option (list Z))) (s : nv_manager)
    : res (list nv_event * nv_manager) :=
  match reqs with
  | [] => Ok ([], s)
  | (garbage, bytes) :: reqs =>
      '(evs, s) ← handle_guestlib c fork garbage bytes s;
      '(evs', s) ← nv_run c fork reqs s;
      Ok (evs ++ evs', s)
  end.

(** ** Specification *)

(** The ports and GPUs [fork] was called for, those where a worker was started, and the ports that
    were handed out. *)
Definition nv_spawned (evs : list nv_event) : list (Z * Z) :=
  omap (λ ev, match ev with NvFork p g _ => Some (p, g) | NvReply _ => None end) evs.
Definition nv_started (evs : list nv_event) : list (Z * Z) :=
  omap (λ ev, match ev with NvFork p g true => Some (p, g) | _ => None end) evs.
Definition nv_replied (evs : list nv_event) : list Z :=
  omap (λ ev, match ev with NvReply r => Some (get_reserved 0 r) | NvFork _ _ _ => None end) evs.

(** The calls of [fork] go as [fork] says for the worker's identifier. *)
Definition as_forked (c : nv_config) (fork : Z → bool) (ev : nv_event) : Prop :=
  match ev with NvFork p _ child => child = fork (p - nv_port_base c) | NvReply _ => True end.

(** Every port taken so far was handed out once or is idle in the pool of its GPU. *)
Definition nv_inv (c : nv_config) (spawned : list (Z * Z)) (replied : list Z) (s : nv_manager) : Prop :=
  0 < nv_worker_id s ∧
  NoDup (spawned.*1) ∧ Forall (λ p, nv_port_base c < fst p < nv_port_base c + nv_worker_id s) spawned ∧
  replied ++ mjoin (nv_idle s) ≡ₚ spawned.*1 ∧
  ∀ g q port, nv_idle s !! g = Some q → port ∈ q → (port, Z.of_nat g) ∈ spawned.

(** ** Lemmas *)

Lemma nv_spawned_app a b : nv_spawned (a ++ b) = nv_spawned a ++ nv_spawned b.
Proof. apply omap_app. Qed.
Lemma nv_replied_app a b : nv_replied (a ++ b) = nv_replied a ++ nv_replied b.
Proof. apply omap_app. Qed.

Lemma reply_port garbage port :
  length (reserved_area garbage) = 8%nat → 0 ≤ port < 2 ^ 64 →
  nv_replied [reply_to_guestlib garbage port] = [port].
Proof.
  intros Hl Hp. unfold nv_replied, reply_to_guestlib. cbn [omap list_omap].
  rewrite get_set_reserved_0 by done. by rewrite wrap_small.
Qed.

Lemma mjoin_insert_perm {A} (l : list (list A)) i q q' :
  l !! i = Some q → mjoin (<[i := q']> l) ++ q ≡ₚ mjoin l ++ q'.
Proof.
  intros Hi. rewrite (insert_take_drop l i q') by (by eapply lookup_lt_Some).
  rewrite <- (take_drop_middle l i q Hi) at 3. rewrite !join_app. cbn [mjoin list_join].
  rewrite <- !app_assoc. apply Permutation_app_head. rewrite (Permutation_app_comm (mjoin (drop (S i) l)) q).
  rewrite (Permutation_app_comm (mjoin (drop (S i) l)) q'), !app_assoc.
  apply Permutation_app_tail, Permutation_app_comm.
Qed.

Lemma nv_fresh c spawned replied s :
  nv_inv c spawned replied s → get_worker_port c (nv_worker_id s) ∉ spawned.*1.
Proof.
  intros (_ & _ & Hr & _) ([p g] & Hp & Hin)%list_elem_of_fmap. cbn in Hp.
  apply (proj1 (Forall_forall _ _) Hr) in Hin. unfold get_worker_port in Hp. cbn in Hin. lia.
Qed.

(** The three moves: a worker is started and handed out, one is taken from its pool, one is started
    for the pool. *)
Lemma nv_inv_spawn c spawned replied s g :
  nv_inv c spawned replied s →
  let port := get_worker_port c (nv_worker_id s) in
  nv_inv c (spawned ++ [(port, g)]) (replied ++ [port])
    (mk_nv (nv_worker_id s + 1) (nv_num_assigned_app s) (nv_idle s)).
Proof.
  intros Hi. pose proof (nv_fresh _ _ _ _ Hi) as Hf. destruct Hi as (Hid & Hnd & Hr & Hp & Hgpu).
  cbv zeta. unfold nv_inv. cbn [nv_worker_id nv_idle]. rewrite fmap_app. cbn [fmap list_fmap fst]. split_and!; [lia| | | |].
  - apply NoDup_app. split_and!; [done|set_solver|apply NoDup_singleton].
  - apply Forall_app. split; [eapply Forall_impl; [exact Hr|]; cbn; intros; lia|].
    apply Forall_singleton. cbn. unfold get_worker_port. lia.
  - rewrite <- Hp. rewrite <- !app_assoc. apply Permutation_app_head, Permutation_app_comm.
  - intros i q p Hi Hin. apply elem_of_app. left. by eapply Hgpu.
Qed.

Lemma nv_inv_take c spawned replied s g port q :
  nv_inv c spawned replied s → nv_idle s !! g = Some (port :: q) →
  nv_inv c spawned (replied ++ [port])
    (mk_nv (nv_worker_id s) (nv_num_assigned_app s) (<[g := q]> (nv_idle s))).
Proof.
  intros (Hid & Hnd & Hr & Hp & Hgpu) Hg. unfold nv_inv. cbn [nv_worker_id nv_idle]. split_and!; try done.
  - rewrite <- Hp, <- app_assoc. apply Permutation_app_head.
    apply (Permutation_app_inv_r q). rewrite <- app_assoc. cbn [app].
    pose proof (mjoin_insert_perm (nv_idle s) g (port :: q) q Hg) as Hm. rewrite <- Hm. apply Permutation_middle.
  - intros i q' p Hi Hin. apply list_lookup_insert_Some in Hi as [(-> & -> & _)|[_ Hi]]; [|by eapply Hgpu].
    eapply Hgpu; [done|by right].
Qed.

Lemma nv_inv_add c spawned replied s g q :
  nv_inv c spawned replied s → nv_idle s !! g = Some q →
  let port := get_worker_port c (nv_worker_id s) in
  nv_inv c (spawned ++ [(port, Z.of_nat g)]) replied
    (mk_nv (nv_worker_id s + 1) (nv_num_assigned_app s) (<[g := q ++ [port]]> (nv_idle s))).
Proof.
  intros Hi Hg. destruct (nv_inv_spawn c spawned replied s (Z.of_nat g) Hi) as (Hid & Hnd & Hr & Hp & Hgpu).
  cbv zeta. set (port := get_worker_port c (nv_worker_id s)) in *. unfold nv_inv in *. cbn [nv_worker_id nv_idle] in *.
  split_and!; try done.
  - rewrite <- Hp, <- app_assoc. apply Permutation_app_head. apply (Permutation_app_inv_r q).
    rewrite (mjoin_insert_perm (nv_idle s) g q (q ++ [port]) Hg). rewrite (Permutation_app_comm q [port]), app_assoc.
    apply Permutation_app_tail, Permutation_app_comm.
  - intros i q' p Hi' Hin. apply list_lookup_insert_Some in Hi' as [(-> & <- & _)|[_ Hi']]; [|by eapply Hgpu].
    apply elem_of_app in Hin as [Hin| ->%list_elem_of_singleton]; [by eapply Hgpu|set_solver].
Qed.

Lemma handle_application_spec c fork garbage gpu_id s evs s' spawned replied :
  length (reserved_area garbage) = 8%nat → 0 ≤ nv_port_base c → nv_port_base c + nv_worker_id s < 2 ^ 31 →
  nv_inv c spawned replied s → handle_application c fork garbage gpu_id s = Ok (evs, s') →
  nv_inv c (spawned ++ nv_spawned evs) (replied ++ nv_replied evs) s' ∧
  (∃ port, nv_replied evs = [port] ∧ (port, gpu_id) ∈ spawned ++ nv_spawned evs) ∧
  nv_worker_id s' ≤ nv_worker_id s + 1.
Proof.
  intros Hg Hb Hmax Hi. unfold handle_application. destruct (Z.ltb_spec gpu_id 0); [done|].
  destruct (nv_idle s !! Z.to_nat gpu_id) as [q|] eqn:Hq; [|done].
  pose proof Hi as (Hid & _ & Hr & _ & Hgpu).
  destruct q as [|port q]; cbn [dequeue].
  - cbn [Z.eqb negb]. intros [= <- <-]. rewrite list_insert_id by done.
    set (new := get_worker_port c (nv_worker_id s)).
    change (nv_replied [NvFork new gpu_id _; ?r]) with (nv_replied [r]).
    change (nv_spawned [NvFork new gpu_id _; _]) with [(new, gpu_id)].
    rewrite reply_port by (done || unfold new, get_worker_port; lia).
    split_and!; [by apply nv_inv_spawn|exists new; split; [done|set_solver]|cbn; lia].
  - assert ((port, gpu_id) ∈ spawned) as Hpg.
    { rewrite <- (Z2Nat.id gpu_id) by lia. eapply Hgpu; [done|left]. }
    pose proof (proj1 (Forall_forall _ _) Hr _ Hpg) as Hrange. cbn in Hrange.
    rewrite (proj2 (Z.eqb_neq port 0)) by lia. cbn [negb].
    pose proof (nv_inv_take _ _ _ _ _ _ _ Hi Hq) as Ht.
    destruct (_ <? _); intros [= <- <-].
    + change (nv_spawned [_]) with (@nil (Z * Z)). rewrite app_nil_r, reply_port by (done || lia).
      split_and!; [done|by exists port|cbn; lia].
    + set (new := get_worker_port c (nv_worker_id s)) in *.
      change (nv_replied [?r; NvFork new gpu_id _]) with (nv_replied [r]).
      change (nv_spawned [_; NvFork new gpu_id _]) with [(new, gpu_id)]. rewrite reply_port by (done || lia).
      split_and!; [|exists port; split; [done|set_solver]|cbn; lia].
      pose proof (nv_inv_add _ _ _ _ (Z.to_nat gpu_id) q Ht) as Ha. cbn [nv_idle nv_worker_id nv_num_assigned_app] in Ha.
      rewrite Z2Nat.id, list_insert_insert_eq in Ha by lia. apply Ha. apply list_lookup_insert_eq.
      by eapply lookup_lt_Some.
Qed.

Lemma get_gpu_same c u s g s' :
  get_gpu_id_from_uuid c u s = Ok (g, s') → nv_worker_id s' = nv_worker_id s ∧ nv_idle s' = nv_idle s.
Proof.
  unfold get_gpu_id_from_uuid. destruct (find_index _ _ _); [by intros [= <- <-]|].
  destruct (_ =? _)%nat; [destruct (atoi u); [by intros [= <- <-]|done]|].
  destruct (_ =? _)%nat; [done|by intros [= <- <-]].
Qed.

Lemma nv_inv_same c spawned replied s s' :
  nv_worker_id s' = nv_worker_id s → nv_idle s' = nv_idle s → nv_inv c spawned replied s → nv_inv c spawned replied s'.
Proof. unfold nv_inv. by intros -> ->. Qed.

Lemma handle_guestlib_spec c fork garbage bytes s evs s' spawned replied :
  length (reserved_area garbage) = 8%nat → 0 ≤ nv_port_base c → nv_port_base c + nv_worker_id s < 2 ^ 31 →
  nv_inv c spawned replied s → handle_guestlib c fork garbage bytes s = Ok (evs, s') →
  nv_inv c (spawned ++ nv_spawned evs) (replied ++ nv_replied evs) s' ∧ nv_worker_id s' ≤ nv_worker_id s + 1.
Proof.
  intros Hg Hb Hmax Hi. unfold handle_guestlib. destruct (recv_request bytes) as [msg|]; [|done]. cbn [mbind res_bind].
  destruct (_ =? _).
  - destruct (reserved_string msg) as [u|]; [|done]. cbn [mbind res_bind].
    destruct (get_gpu_id_from_uuid c u s) as [[g s1]|] eqn:Hu; [|done]. cbn [mbind res_bind].
    destruct (get_gpu_same _ _ _ _ _ Hu) as [Hw Hq]. pose proof (nv_inv_same _ _ _ _ _ Hw Hq Hi) as Hi1.
    intros Hh. rewrite <- Hw in *. by destruct (handle_application_spec _ _ _ _ _ _ _ _ _ Hg Hb Hmax Hi1 Hh) as (? & _ & ?).
  - destruct (_ =? _); [done|]. intros [= <- <-]. cbn. rewrite !app_nil_r. split; [done|lia].
Qed.

Lemma nv_run_inv c fork reqs : ∀ s evs s' spawned replied,
  Forall (λ r, length (reserved_area (fst r)) = 8%nat) reqs → 0 ≤ nv_port_base c →
  nv_port_base c + nv_worker_id s + Z.of_nat (length reqs) ≤ 2 ^ 31 →
  nv_inv c spawned replied s → nv_run c fork reqs s = Ok (evs, s') →
  nv_inv c (spawned ++ nv_spawned evs) (replied ++ nv_replied evs) s'.
Proof.
  induction reqs as [|[garbage bytes] reqs IH]; intros s evs s' spawned replied Hg Hb Hmax Hi; cbn [nv_run].
  { intros [= <- <-]. cbn. by rewrite !app_nil_r. }
  apply Forall_cons in Hg as [Hg0 Hg]. cbn [length] in Hmax.
  destruct (handle_guestlib c fork garbage bytes s) as [[e1 s1]|] eqn:Hh; [|done]. cbn [mbind res_bind].
  destruct (nv_run c fork reqs s1) as [[e2 s2]|] eqn:Hr; [|done]. intros [= <- <-].
  assert (nv_port_base c + nv_worker_id s < 2 ^ 31) as Hlt by lia.
  destruct (handle_guestlib_spec _ _ _ _ _ _ _ _ _ Hg0 Hb Hlt Hi Hh) as [Hi1 Hw].
  rewrite nv_spawned_app, nv_replied_app, !app_assoc. apply (IH s1 e2 s2); [done|done|lia|done|done].
Qed.

Lemma pool_of_spec c fork g n : ∀ id,
  let '(evs, q, id') := pool_of c fork g n id in
  q = (λ i : nat, nv_port_base c + (id + Z.of_nat i)) <$> seq 0 n ∧ id' = id + Z.of_nat n ∧
  nv_spawned evs = (λ p, (p, g)) <$> q ∧ nv_replied evs = [].
Proof.
  induction n as [|n IH]; intros id; cbn [pool_of]; [split_and!; try done; lia|].
  specialize (IH (id + 1)). destruct (pool_of c fork g n (id + 1)) as [[evs q] id']. destruct IH as (-> & -> & Hs & Hr).
  split_and!; [|lia| |done].
  2: { change (nv_spawned (NvFork (get_worker_port c id) g (fork id) :: evs)) with ((get_worker_port c id, g) :: nv_spawned evs).
    by rewrite Hs. }
  cbn [seq]. rewrite <- seq_shift. cbn [fmap list_fmap]. f_equal; [unfold get_worker_port; lia|].
  rewrite <- list_fmap_compose. apply list_fmap_ext. intros ? i _. cbn. lia.
Qed.

(** [gpus] pools from [g] on, with ports from [id] on. *)
Lemma pools_spec c fork gpus : ∀ g id,
  let '(evs, qs, id') := pools c fork gpus g id in
  length qs = gpus ∧ Forall (λ q, length q = Z.to_nat (nv_pool_size c)) qs ∧
  id' = id + Z.of_nat gpus * Z.of_nat (Z.to_nat (nv_pool_size c)) ∧
  mjoin qs = (λ i : nat, nv_port_base c + (id + Z.of_nat i)) <$> seq 0 (gpus * Z.to_nat (nv_pool_size c)) ∧
  (nv_spawned evs).*1 = mjoin qs ∧ nv_replied evs = [] ∧
  ∀ i q port, qs !! i = Some q → port ∈ q → (port, g + Z.of_nat i) ∈ nv_spawned evs.
Proof.
  induction gpus as [|gpus IH]; intros g id; cbn [pools]; [split_and!; try done; try lia; constructor|].
  pose proof (pool_of_spec c fork g (Z.to_nat (nv_pool_size c)) id) as Hp.
  destruct (pool_of c fork g (Z.to_nat (nv_pool_size c)) id) as [[e1 q] id1]. destruct Hp as (-> & -> & Hs1 & Hr1).
  specialize (IH (g + 1) (id + Z.of_nat (Z.to_nat (nv_pool_size c)))).
  destruct (pools c fork gpus (g + 1) _) as [[e2 qs] id2]. destruct IH as (Hl & Hf & -> & Hj & Hs2 & Hr2 & Hg).
  set (n := Z.to_nat (nv_pool_size c)) in *. set (q := _ <$> seq 0 n) in *.
  rewrite nv_spawned_app, nv_replied_app, fmap_app, Hs2, Hr1, Hr2, Hs1. split_and!; try done.
  - cbn. by rewrite Hl.
  - constructor; [|done]. unfold q. by rewrite length_fmap, length_seq.
  - lia.
  - change (mjoin (q :: qs)) with (q ++ mjoin qs). rewrite Hj. cbn [Nat.mul]. rewrite seq_app, fmap_app. f_equal.
    rewrite Nat.add_0_l. rewrite <- (Nat.add_0_r n) at 2. rewrite <- (fmap_add_seq n 0 (gpus * n)). rewrite <- list_fmap_compose. apply list_fmap_ext.
    intros ? i _. cbn. lia.
  - change (mjoin (q :: qs)) with (q ++ mjoin qs). f_equal. rewrite <- list_fmap_compose. apply list_fmap_id.
  - intros [|i] q' port Hi Hin; cbn in Hi.
    + injection Hi as <-. apply elem_of_app. left. apply list_elem_of_fmap. exists port. split; [f_equal; lia|done].
    + apply elem_of_app. right. replace (g + Z.of_nat (S i)) with (g + 1 + Z.of_nat i) by lia. by eapply Hg.
Qed.

Lemma nv_main_inv fork base size init nvml lines c evs s :
  0 ≤ base → nv_main fork base size init nvml lines = Ok (c, evs, s) →
  nv_port_base c = base ∧ nv_pool_size c = u32 size ∧
  nv_worker_id s = 1 + Z.of_nat (length (nv_uuids c)) * nv_pool_size c ∧
  length (nv_idle s) = length (nv_uuids c) ∧
  Forall (λ q, length q = Z.to_nat (nv_pool_size c)) (nv_idle s) ∧
  nv_replied evs = [] ∧ nv_inv c (nv_spawned evs) [] s.
Proof.
  intros Hb. unfold nv_main. destruct (negb init); [done|]. destruct (nv_lines nvml lines) as [uuids|]; [|done].
  cbn [mbind res_bind]. set (c0 := mk_nvc base (u32 size) uuids).
  pose proof (pools_spec c0 fork (length uuids) 0 1) as Hp. destruct (pools c0 fork (length uuids) 0 1) as [[e qs] id].
  intros [= <- <- <-]. destruct Hp as (Hl & Hf & -> & Hj & Hs & Hr & Hg).
  pose proof (wrap_range 32 size ltac:(lia)) as Hw. cbn [nv_port_base nv_pool_size nv_uuids c0] in *.
  split_and!; try done; [cbn; lia|]. unfold nv_inv. cbn [nv_worker_id nv_idle]. rewrite Hs. split_and!; [lia| | |done|].
  - rewrite Hj. apply NoDup_fmap_2; [intros ?? ?; lia|apply NoDup_ListNoDup, seq_NoDup].
  - assert (Forall (λ p, base < p < base + (1 + Z.of_nat (length uuids) * Z.of_nat (Z.to_nat (u32 size)))) (nv_spawned e).*1) as Hall.
    { rewrite Hs, Hj. apply Forall_fmap, Forall_forall. intros i Hi%elem_of_seq. cbn. lia. }
    by rewrite Forall_fmap in Hall.
  - intros g q port Hq Hin. by apply (Hg g q port).
Qed.

(** *** Which calls of [fork] made a child *)

Lemma handle_application_forks c fork garbage gpu_id s evs s' :
  handle_application c fork garbage gpu_id s = Ok (evs, s') → Forall (as_forked c fork) evs.
Proof.
  unfold handle_application. destruct (if gpu_id <? 0 then None else nv_idle s !! Z.to_nat gpu_id) as [q|]; [|done].
  destruct (dequeue q) as [port q'].
  assert (as_forked c fork (NvFork (get_worker_port c (nv_worker_id s)) gpu_id (fork (nv_worker_id s)))) as Hf
    by (cbn; f_equal; unfold get_worker_port; lia).
  destruct (negb _); [destruct (_ <? _)|]; intros [= <- <-]; by repeat constructor.
Qed.

Lemma nv_run_forks c fork reqs : ∀ s evs s', nv_run c fork reqs s = Ok (evs, s') → Forall (as_forked c fork) evs.
Proof.
  induction reqs as [|[garbage bytes] reqs IH]; intros s evs s'; cbn [nv_run]; [by intros [= <- <-]|].
  intros ([e1 s1] & Hh & ([e2 s2] & Hr & [= <- <-])%res_bind_Ok)%res_bind_Ok.
  apply Forall_app. split; [|by eapply IH]. revert Hh. unfold handle_guestlib.
  intros (msg & _ & Hh)%res_bind_Ok. destruct (_ =? _).
  - apply res_bind_Ok in Hh as (u & _ & Hh). apply res_bind_Ok in Hh as ([g s3] & _ & Hh).
    by eapply handle_application_forks.
  - destruct (_ =? _); [done|]. by injection Hh as <- <-.
Qed.

Lemma pool_of_forks c fork g n : ∀ id, Forall (as_forked c fork) (fst (fst (pool_of c fork g n id))).
Proof.
  induction n as [|n IH]; intros id; cbn [pool_of]; [constructor|]. specialize (IH (id + 1)).
  destruct (pool_of c fork g n (id + 1)) as [[evs q] id']. constructor; [|done].
  cbn. f_equal. unfold get_worker_port. lia.
Qed.

Lemma pools_forks c fork gpus : ∀ g id, Forall (as_forked c fork) (fst (fst (pools c fork gpus g id))).
Proof.
  induction gpus as [|gpus IH]; intros g id; cbn [pools]; [constructor|].
  pose proof (pool_of_forks c fork g (Z.to_nat (nv_pool_size c)) id) as H1.
  destruct (pool_of c fork g _ id) as [[e1 q] id1]. specialize (IH (g + 1) id1).
  destruct (pools c fork gpus (g + 1) id1) as [[e2 qs] id2]. by apply Forall_app.
Qed.

Lemma nv_main_forks fork base size init nvml lines c evs s :
  nv_main fork base size init nvml lines = Ok (c, evs, s) → Forall (as_forked c fork) evs.
Proof.
  unfold nv_main. destruct (negb init); [done|]. intros (uuids & _ & Hrun)%res_bind_Ok.
  set (c0 := mk_nvc base (u32 size) uuids) in *. pose proof (pools_forks c0 fork (length uuids) 0 1) as Hp.
  destruct (pools c0 fork (length uuids) 0 1) as [[e qs] id]. by injection Hrun as <- <- <-.
Qed.

Lemma started_iff c fork evs port gpu :
  Forall (as_forked c fork) evs →
  (port, gpu) ∈ nv_started evs ↔ (port, gpu) ∈ nv_spawned evs ∧ fork (port - nv_port_base c) = true.
Proof.
  intros Hf. unfold nv_started, nv_spawned. rewrite !list_elem_of_omap. rewrite Forall_forall in Hf. split.
  - intros ([r|p g []] & Hin & [= -> ->]). split; [by exists (NvFork port gpu true)|]. symmetry. by apply (Hf _ Hin).
  - intros [([r|p g child] & Hin & [= -> ->]) Hok]. pose proof (Hf _ Hin) as Hc. cbn in Hc. rewrite Hok in Hc.
    subst child. by exists (NvFork port gpu true).
Qed.

(** ** Properties *)

(** C32. Every guest library gets a port of its own: over any sequence of requests, no port is handed
    out twice, [fork] is called once for each port, each port that was handed out or waits in the
    pool of a GPU is one [fork] was called for, on that GPU, and no port waits in a pool after it was
    handed out.  A worker was started there exactly when that [fork] made a child: a port whose
    [fork] failed is enqueued or handed out all the same. *)
Theorem nv_workers_distinct fork base size init nvml lines c evs0 s0 reqs evs s :
  0 ≤ base → nv_main fork base size init nvml lines = Ok (c, evs0, s0) →
  base + nv_worker_id s0 + Z.of_nat (length reqs) ≤ 2 ^ 31 →
  Forall (λ r, length (reserved_area (fst r)) = 8%nat) reqs → nv_run c fork reqs s0 = Ok (evs, s) →
  NoDup (nv_replied evs) ∧ NoDup (nv_spawned (evs0 ++ evs)).*1 ∧
  (∀ port, port ∈ nv_replied evs → ∃ gpu, (port, gpu) ∈ nv_spawned (evs0 ++ evs)) ∧
  (∀ gpu idle port, nv_idle s !! gpu = Some idle → port ∈ idle →
    port ∉ nv_replied evs ∧ (port, Z.of_nat gpu) ∈ nv_spawned (evs0 ++ evs)) ∧
  ∀ port gpu, (port, gpu) ∈ nv_spawned (evs0 ++ evs) →
    (port, gpu) ∈ nv_started (evs0 ++ evs) ↔ fork (port - base) = true.
Proof.
  intros Hb Hm Hmax Hg Hrun. pose proof (nv_main_forks _ _ _ _ _ _ _ _ _ Hm) as Hf0.
  pose proof (nv_run_forks _ _ _ _ _ _ Hrun) as Hf1.
  destruct (nv_main_inv _ _ _ _ _ _ _ _ _ Hb Hm) as (Hbase & _ & _ & _ & _ & Hr0 & Hi0).
  rewrite <- Hbase in *. pose proof (nv_run_inv c fork reqs s0 evs s _ _ Hg Hb Hmax Hi0 Hrun) as (_ & Hnd & _ & Hp & Hgpu).
  rewrite <- nv_spawned_app in *. cbn [app] in Hp. pose proof Hnd as Hnd'. rewrite <- Hp in Hnd'.
  apply NoDup_app in Hnd' as (Hnr & Hdis & _). split_and!; [done|done| | |].
  - intros port Hin. assert (port ∈ (nv_spawned (evs0 ++ evs)).*1) as Hport by (rewrite <- Hp; set_solver).
    apply list_elem_of_fmap in Hport as ([p g] & -> & ?). by exists g.
  - intros gpu idle port Hq Hin. split; [|by eapply Hgpu]. intros Hrep. apply (Hdis port Hrep).
    apply list_elem_of_join. exists idle. split; [done|]. by eapply list_elem_of_lookup_2.
  - intros port gpu Hin. rewrite (started_iff c fork) by (by apply Forall_app). naive_solver.
Qed.

(** A request with the UUID of a GPU is answered with a worker of that GPU: an idle one if the pool
    has one, which is replaced so that the pool keeps its size, otherwise a new one. *)
Theorem nv_request_served c fork garbage b u g s q spawned replied :
  length (reserved_area garbage) = 8%nat → base_wf b → command_type b = NW_NEW_APPLICATION →
  reserved_string b = Ok u → find_index u (nv_uuids c) 0 = Some (Z.of_nat g) →
  nv_idle s !! g = Some q → 0 < nv_pool_size c < 2 ^ 32 → Z.of_nat (length q) ≤ nv_pool_size c →
  0 ≤ nv_port_base c → nv_port_base c + nv_worker_id s < 2 ^ 31 → nv_inv c spawned replied s →
  ∃ evs s' port q', handle_guestlib c fork garbage (Some (base_bytes b)) s = Ok (evs, s') ∧
    nv_replied evs = [port] ∧ (port, Z.of_nat g) ∈ spawned ++ nv_spawned evs ∧ port ∉ replied ∧
    nv_idle s' = <[g := q']> (nv_idle s) ∧ length q' = length q ∧ (q ≠ [] → head q = Some port).
Proof.
  intros Hg Hwf Ht Hu Hfi Hq Hsz Hlen Hb Hmax Hi. unfold handle_guestlib, recv_request.
  rewrite length_base_bytes, Nat.eqb_refl by apply Hwf. cbn [mbind res_bind].
  rewrite <- (app_nil_r (base_bytes b)), base_of_bytes_of_base by done. rewrite Ht.
  cbn [Z.eqb NW_NEW_APPLICATION Pos.eqb]. rewrite Hu. cbn [mbind res_bind]. unfold get_gpu_id_from_uuid.
  rewrite Hfi. cbn [mbind res_bind].
  destruct (handle_application c fork garbage (Z.of_nat g) s) as [[evs s']|] eqn:Hh.
  2: { exfalso. revert Hh. unfold handle_application. rewrite (proj2 (Z.ltb_ge _ 0)), Nat2Z.id, Hq by lia.
       destruct (dequeue q) as [p q1]. destruct (negb _); [destruct (_ <? _)|]; done. }
  destruct (handle_application_spec _ _ _ _ _ _ _ _ _ Hg Hb Hmax Hi Hh) as (Hi' & (port & Hr & Hin) & _).
  assert (port ∉ replied) as Hn.
  { destruct Hi' as (_ & Hnd & _ & Hp & _). rewrite <- Hp, Hr in Hnd. apply NoDup_app in Hnd as (Hnd & _).
    apply NoDup_app in Hnd as (_ & Hd & _). intros Hp'. apply (Hd port Hp'). left. }
  revert Hh Hr. unfold handle_application. rewrite (proj2 (Z.ltb_ge _ 0)), Nat2Z.id, Hq by lia.
  destruct q as [|p0 q]; cbn [dequeue].
  - cbn [Z.eqb negb]. intros [= <- <-] Hr. eexists _, _, port, []. split_and!; try done.
  - destruct Hi as (_ & _ & Hrg & _ & Hgpu). pose proof (Hgpu _ _ p0 Hq ltac:(left)) as Hp0.
    pose proof (proj1 (Forall_forall _ _) Hrg _ Hp0) as Hrange. cbn in Hrange.
    rewrite (proj2 (Z.eqb_neq p0 0)) by lia. cbn [negb]. cbn [length] in Hlen.
    rewrite wrap_small by (unfold in_range; lia). rewrite (proj2 (Z.ltb_ge _ _)) by lia.
    intros [= <- <-] Hr. eexists _, _, port, (enqueue _ q). split_and!; try done.
    + unfold enqueue. rewrite length_app. cbn. lia.
    + intros _. cbn. f_equal.
      change (nv_replied [?r; NvFork _ _ _]) with (nv_replied [r]) in Hr. rewrite reply_port in Hr by (done || lia). congruence.
Qed.

Definition nv_request (words : list Z) : command_base :=
  mk_base 0 1 NW_NEW_APPLICATION 0 0 0 0 136 0 0 (words ++ replicate (8 - length words) 0).
Definition sample_fork (id : Z) : bool := negb (id =? 3).
Definition sample_nv : res (nv_config * list nv_event * nv_manager) :=
  nv_main sample_fork 4000 1 true (λ _, true) ["CUDA_VISIBLE_DEVICES=GPU-a"; "CUDA_VISIBLE_DEVICES=GPU-b"]%string.
Definition sample_nvc : nv_config := mk_nvc 4000 1 ["GPU-a"; "GPU-b"]%string.
Definition nv_reqs : list (command_base * option (list Z)) :=
  [(zero_base, Some (base_bytes (nv_request [0]))); (zero_base, Some (base_bytes (nv_request [0])));
   (zero_base, Some (base_bytes (nv_request [0])))].

(** The third [fork] fails; its port is the third that is handed out. *)
Lemma nv_workers_distinct_witness :
  ∃ evs0 s0 evs s, sample_nv = Ok (sample_nvc, evs0, s0) ∧ nv_run sample_nvc sample_fork nv_reqs s0 = Ok (evs, s) ∧
    nv_replied evs = [4001; 4002; 4003] ∧ (nv_started (evs0 ++ evs)).*1 = [4001; 4002; 4004; 4005] ∧
    NoDup (nv_replied evs) ∧ NoDup (nv_spawned (evs0 ++ evs)).*1 ∧
    (∀ port, port ∈ nv_replied evs → ∃ gpu, (port, gpu) ∈ nv_spawned (evs0 ++ evs)) ∧
    (∀ gpu idle port, nv_idle s !! gpu = Some idle → port ∈ idle →
      port ∉ nv_replied evs ∧ (port, Z.of_nat gpu) ∈ nv_spawned (evs0 ++ evs)) ∧
    ∀ port gpu, (port, gpu) ∈ nv_spawned (evs0 ++ evs) →
      (port, gpu) ∈ nv_started (evs0 ++ evs) ↔ sample_fork (port - 4000) = true.
Proof.
  destruct sample_nv as [[[c evs0] s0]|] eqn:Hm; [|by vm_compute in Hm].
  assert (c = sample_nvc) as -> by (vm_compute in Hm; by simplify_eq).
  assert (nv_worker_id s0 = 3) as Hid by (vm_compute in Hm; by simplify_eq).
  destruct (nv_run sample_nvc sample_fork nv_reqs s0) as [[evs s]|] eqn:Hr;
    [|vm_compute in Hm; simplify_eq; by vm_compute in Hr].
  exists evs0, s0, evs, s. split; [done|]. split; [done|]. split.
  { vm_compute in Hm. simplify_eq. vm_compute in Hr. by simplify_eq. }
  split. { vm_compute in Hm. simplify_eq. vm_compute in Hr. by simplify_eq. }
  apply (nv_workers_distinct sample_fork 4000 1 true (λ _, true) ["CUDA_VISIBLE_DEVICES=GPU-a"; "CUDA_VISIBLE_DEVICES=GPU-b"]%string
    sample_nvc evs0 s0 nv_reqs evs s); [lia|exact Hm|rewrite Hid; cbn; lia|repeat constructor|exact Hr].
Defined.

(** A request to migrate ends the manager, whatever the worker: the table of workers is never filled. *)
Theorem nv_migration_exits c fork garbage b s :
  base_wf b → command_type b = COMMAND_START_MIGRATION →
  handle_guestlib c fork garbage (Some (base_bytes b)) s = Stop (Exited 0).
Proof.
  intros Hwf Ht. unfold handle_guestlib, recv_request. rewrite length_base_bytes, Nat.eqb_refl by apply Hwf.
  cbn [mbind res_bind]. rewrite <- (app_nil_r (base_bytes b)), base_of_bytes_of_base by done. by rewrite Ht.
Qed.

(** A GPU index of one digit is not compared with the number of GPUs. *)
Theorem nv_index_out_of_range :
  ('(c, _, s) ← sample_nv; handle_guestlib c sample_fork zero_base (Some (base_bytes (nv_request [57]))) s) =
    Stop (Undefined "idle_workers[gpu_id] out of range").
Proof. vm_compute. reflexivity. Qed.
