(* ===== verification/Fatbin.v ===== *)
(** * Kernels of CUDA programs (cava/samples/cudart.dump.c, cava/samples/cudart.opt.c)

    The helper functions of the two CUDA runtime specifications.  The dump specification runs a
    program once and writes its kernels to files: for every fat binary a file with the argument
    sizes of its kernels, and one file with the registrations of all kernels, separated by zeros.
    The optimised specification loads the files in the worker (and the argument sizes in the guest
    library) instead of shipping the fat binaries.  The argument kinds of a kernel are read off its
    mangled name.  Files are their bytes; opening and reading them does not fail. *)

From S2P Require Import Prelude CString.
Local Open Scope Z_scope.

(** ** [__helper_parse_function_args] *)

Definition MAX_KERNEL_ARG : nat := 25.

Definition one_of (c : ascii) (l : list ascii) : bool := existsb (Ascii.eqb c) l.
Definition basic : list ascii := ["f"; "i"; "j"; "l"]%char.
Definition qualifiers : list ascii := ["r"; "V"; "K"]%char.

(** [i += n]: [i] is an [int]. *)
Definition advance (i n : Z) : res Z :=
  if i + n <? 2 ^ 31 then Ok (i + n) else Stop (Undefined "signed overflow of i").

(** [while (isdigit(name[i])) { skip = skip * 10 + name[i] - '0'; i++; }] in [int] arithmetic: the
    number, the position and what follows.  The sum overflows before '0' is taken off. *)
Fixpoint read_skip (skip i : Z) (name : string) : res (Z * Z * string) :=
  match name with
  | String c rest =>
      if is_digit c then
        if skip * 10 + char_code c <? 2 ^ 31
        then i ← advance i 1; read_skip (skip * 10 + char_code c - 48) i rest
        else Stop (Undefined "signed overflow of skip")
      else Ok (skip, i, name)
  | EmptyString => Ok (skip, i, name)
  end.

Fixpoint str_drop (n : nat) (s : string) {struct s} : string :=
  match s, n with
  | String _ s, S n => str_drop n s
  | _, _ => s
  end.

(** [while (name[i] != '_') i++], up to the end of the name. *)
Fixpoint skip_underscore (i : Z) (s : string) : res (Z * string) :=
  match s with
  | EmptyString => Ok (i, EmptyString)
  | String c r => if Ascii.eqb c "_" then Ok (i, s) else i ← advance i 1; skip_underscore i r
  end.

(** The type behind 'P': [i] is the position before [rest]; the position before what follows the
    type, and what follows.  [abort] is an exit by signal. *)
Definition abort {A} : res A := Stop (AssertFailed "abort()").
Definition pointed_type (i : Z) (rest : string) : res (Z * string) :=
  '(i, rest) ← match rest with
               | String c r => if one_of c qualifiers then i ← advance i 1; Ok (i, r) else Ok (i, rest)
               | EmptyString => Ok (i, rest)
               end;
  match rest with
  | String c r =>
      if one_of c basic then i ← advance i 1; Ok (i, r)
      else if is_digit c then
        '(skip, i, r) ← read_skip 0 i rest;
        i ← advance i skip;
        Ok (i, str_drop (Z.to_nat skip) r)
      else abort
  | EmptyString => abort
  end.

(** [args[argc++].is_handle = v] *)
Definition set_handle (args : list bool) (argc : nat) (v : bool) : res (list bool * nat) :=
  if (argc <? length args)%nat then Ok (<[argc := v]> args, S argc)
  else Stop (Undefined "args[argc] out of range").

(** The loop over the rest of the name, from position [i]; every round consumes a character.  [len] is
    [strlen(name)]; one that does not fit an [int] stops where it is assigned to [i]. *)
Fixpoint args_loop (fuel : nat) (len i : Z) (rest : string) (args : list bool) (argc : nat)
    : res (list bool * nat) :=
  match fuel with
  | O => Stop (Undefined "args_loop: out of fuel")
  | S fuel =>
      match rest with
      | EmptyString => Ok (args, argc)
      | String c r =>
          if Ascii.eqb c "P" then
            '(args, argc) ← set_handle args argc true;
            '(i, r) ← pointed_type i r;
            i ← advance i 1;
            args_loop fuel len i r args argc
          else if one_of c basic then
            '(args, argc) ← set_handle args argc false;
            i ← advance i 1;
            args_loop fuel len i r args argc
          else if Ascii.eqb c "S" then
            '(args, argc) ← set_handle args argc true;
            '(i, r) ← skip_underscore i rest;
            i ← advance i 1;
            args_loop fuel len i (str_drop 1 r) args argc
          else if Ascii.eqb c "v" then _ ← advance len 1; Ok (args, argc)
          else if one_of c qualifiers then
            i ← advance i 1;
            args_loop fuel len i r args argc
          else abort
      end
  end.

(** [args] are the [is_handle] fields of [func->args]; returns them and [argc]. *)
Definition __helper_parse_function_args (name : string) (args : list bool) : res (list bool * nat) :=
  match name with
  | String c1 (String c2 rest) =>
      if Ascii.eqb c1 "_" && Ascii.eqb c2 "Z" then
        '(skip, i, rest) ← read_skip 0 2 rest;
        i ← advance i skip;
        args_loop (S (String.length name)) (Z.of_nat (String.length name)) i
          (str_drop (Z.to_nat skip) rest) args 0
      else abort
  | _ => abort
  end.

(** ** Mangled names *)

(** The types the parser knows: a basic type, a pointer (with at most one qualifier) to a basic or a
    named type, a substitution of an earlier type, and qualified arguments. *)
Inductive pointee := PBasic (c : ascii) | PNamed (n : string).
Inductive karg :=
  | KBasic (c : ascii)
  | KPointer (q : option ascii) (p : pointee)
  | KSubst (seq : string)
  | KQualified (q : ascii) (a : karg).

Definition mangle_name (n : string) : string := to_string (Z.of_nat (String.length n)) +:+ n.
Definition mangle_pointee (p : pointee) : string :=
  match p with
  | PBasic c => String c EmptyString
  | PNamed n => mangle_name n
  end.
Fixpoint mangle_arg (a : karg) : string :=
  match a with
  | KBasic c => String c EmptyString
  | KPointer q p => String "P" (match q with Some c => String c (mangle_pointee p) | None => mangle_pointee p end)
  | KSubst seq => String "S" (seq +:+ "_")
  | KQualified q a => String q (mangle_arg a)
  end.
Definition mangle (n : string) (l : list karg) : string :=
  "_Z" +:+ mangle_name n +:+ (match l with [] => "v"%string | _ => foldr (λ a s, mangle_arg a +:+ s) EmptyString l end).

Fixpoint is_pointer (a : karg) : bool :=
  match a with
  | KBasic _ => false
  | KPointer _ _ | KSubst _ => true
  | KQualified _ a => is_pointer a
  end.

(** Names are identifiers: not empty, not starting with a digit. *)
Definition ident (n : string) : Prop :=
  match n with
  | String c _ => is_digit c = false
  | EmptyString => False
  end.
Fixpoint karg_ok (a : karg) : Prop :=
  match a with
  | KBasic c => c ∈ basic
  | KPointer q p =>
      match q with Some c => c ∈ qualifiers | None => True end ∧
      match p with PBasic c => c ∈ basic | PNamed n => ident n end
  | KSubst seq => has_char "_" seq = false
  | KQualified q a => q ∈ qualifiers ∧ karg_ok a
  end.

(** ** Lemmas: names *)

Lemma read_digits_mono s : ∀ acc, 0 ≤ acc → acc ≤ fst (read_digits acc s).
Proof.
  induction s as [|c s IH]; intros acc Ha; cbn; [lia|]. destruct (is_digit c) eqn:Hd; cbn; [|lia].
  unfold is_digit in Hd. etransitivity; [|apply IH]; lia.
Qed.

Lemma advance_eq i n : i + n < 2 ^ 31 → advance i n = Ok (i + n).
Proof. intros H. unfold advance. by rewrite (proj2 (Z.ltb_lt _ _)). Qed.

Lemma read_digits_length s : ∀ acc, (String.length (snd (read_digits acc s)) ≤ String.length s)%nat.
Proof.
  induction s as [|c s IH]; intros acc; cbn; [lia|]. destruct (is_digit c); cbn; [|lia].
  etransitivity; [apply IH|]. lia.
Qed.

Lemma read_skip_digits s : ∀ acc i,
  0 ≤ acc → fst (read_digits acc s) + 48 < 2 ^ 31 →
  i + Z.of_nat (String.length s) < 2 ^ 31 →
  read_skip acc i s =
    Ok (fst (read_digits acc s),
        i + (Z.of_nat (String.length s) - Z.of_nat (String.length (snd (read_digits acc s)))),
        snd (read_digits acc s)).
Proof.
  induction s as [|c s IH]; intros acc i Ha Hb Hi; cbn in *; [do 3 f_equal; lia|].
  destruct (is_digit c) eqn:Hd; cbn [fst snd String.length]; [|do 3 f_equal; lia].
  unfold is_digit in Hd. pose proof (read_digits_mono s (acc * 10 + (char_code c - 48)) ltac:(lia)).
  rewrite (proj2 (Z.ltb_lt _ _)) by lia. rewrite advance_eq by lia. cbn [mbind res_bind].
  replace (acc * 10 + char_code c - 48) with (acc * 10 + (char_code c - 48)) by lia.
  rewrite IH by lia. do 3 f_equal. lia.
Qed.

Lemma str_drop_app n s : str_drop (String.length n) (n +:+ s) = s.
Proof. induction n as [|c n IH]; [rewrite string_app_nil_l; by destruct s|]. by rewrite string_app_cons. Qed.

(** A name and its length: the parser is behind the number, and then behind the name. *)
Lemma name_skipped n post i :
  ident n → 0 ≤ i → i + Z.of_nat (String.length (mangle_name n +:+ post)) < 2 ^ 31 - 48 →
  (∃ d s, mangle_name n +:+ post = String (digit_char d) s ∧ 0 ≤ d < 10) ∧
  ('(skip, i, r) ← read_skip 0 i (mangle_name n +:+ post);
   i ← advance i skip;
   Ok (i, str_drop (Z.to_nat skip) r)) = Ok (i + Z.of_nat (String.length (mangle_name n)), post).
Proof.
  intros Hc H0 Hl. unfold mangle_name in *. rewrite string_app_assoc in *.
  destruct (read_to_string (Z.of_nat (String.length n)) (n +:+ post)) as [Hh Hr]; [lia| |].
  { intros x s. destruct n as [|c n]; [done|]. rewrite string_app_cons. by intros [= -> _]. }
  split; [done|]. rewrite !string_length_app in *.
  rewrite read_skip_digits; [|lia|rewrite Hr; cbn [fst]; lia|rewrite !string_length_app; lia].
  rewrite Hr. cbn [fst snd mbind res_bind]. rewrite !string_length_app.
  rewrite advance_eq by lia. cbn [mbind res_bind]. rewrite Nat2Z.id, str_drop_app. do 2 f_equal. lia.
Qed.

Lemma one_of_true c l : c ∈ l → one_of c l = true.
Proof.
  intros Hc. unfold one_of. apply existsb_exists. exists c. split; [by apply list_elem_of_In|apply Ascii.eqb_refl].
Qed.

Lemma digit_not_qualifier d : 0 ≤ d < 10 → one_of (digit_char d) qualifiers = false ∧ one_of (digit_char d) basic = false.
Proof.
  intros Hd. assert (d = 0 ∨ d = 1 ∨ d = 2 ∨ d = 3 ∨ d = 4 ∨ d = 5 ∨ d = 6 ∨ d = 7 ∨ d = 8 ∨ d = 9) as H by lia.
  by repeat (destruct H as [->|H]; [by vm_compute|]); subst.
Qed.

Lemma basic_not_qualifier c : c ∈ basic → one_of c qualifiers = false.
Proof. unfold basic. rewrite !elem_of_cons, elem_of_nil. intros [->|[->|[->|[->|[]]]]]; reflexivity. Qed.

(** What follows a pointer type is what is left. *)
Lemma pointee_mangled p post i :
  match p with PBasic c => c ∈ basic | PNamed n => ident n end → 0 ≤ i →
  i + Z.of_nat (String.length (mangle_pointee p +:+ post)) < 2 ^ 31 - 48 →
  match mangle_pointee p +:+ post with
  | String c r =>
      if one_of c basic then i ← advance i 1; Ok (i, r)
      else if is_digit c then
        '(skip, i, r) ← read_skip 0 i (mangle_pointee p +:+ post);
        i ← advance i skip;
        Ok (i, str_drop (Z.to_nat skip) r)
      else abort
  | EmptyString => abort
  end = Ok (i + Z.of_nat (String.length (mangle_pointee p)), post).
Proof.
  intros Hp H0 Hl. destruct p as [c|n]; cbn [mangle_pointee] in *.
  - rewrite string_app_cons, string_app_nil_l in *. rewrite one_of_true by done. cbn [String.length] in *.
    rewrite advance_eq by lia. done.
  - destruct (name_skipped n post i Hp H0 Hl) as [(d & s & Hs & Hd) Hr]. rewrite Hs in *.
    destruct (digit_not_qualifier d Hd) as [_ ->]. rewrite digit_char_is_digit by done. exact Hr.
Qed.

Lemma pointed_type_mangled q p post i :
  karg_ok (KPointer q p) → 0 ≤ i →
  let s := match q with Some c => String c (mangle_pointee p) | None => mangle_pointee p end in
  i + Z.of_nat (String.length (s +:+ post)) < 2 ^ 31 - 48 →
  pointed_type i (s +:+ post) = Ok (i + Z.of_nat (String.length s), post).
Proof.
  intros [Hq Hp] H0 s Hl. unfold pointed_type, s in *. destruct q as [c|].
  - rewrite string_app_cons in *. cbn [String.length] in *. rewrite (one_of_true c) by done.
    rewrite advance_eq by lia. cbn [mbind res_bind]. rewrite pointee_mangled by (done || lia). do 2 f_equal. lia.
  - pose proof (pointee_mangled p post i Hp H0 Hl) as Hm.
    assert (∀ c r, mangle_pointee p +:+ post = String c r → one_of c qualifiers = false) as Hnq.
    { intros c r. destruct p as [x|n]; cbn [mangle_pointee].
      - rewrite string_app_cons. intros [= -> _]. by apply basic_not_qualifier.
      - destruct (name_skipped n post i Hp H0 Hl) as [(d & t & -> & Hd) _]. intros [= <- _]. by apply digit_not_qualifier. }
    destruct (mangle_pointee p +:+ post) as [|c r] eqn:Heq; [done|]. rewrite (Hnq c r) by done. exact Hm.
Qed.

Lemma skip_underscore_app seq post : ∀ i,
  has_char "_" seq = false → i + Z.of_nat (String.length seq) < 2 ^ 31 →
  skip_underscore i (seq +:+ String "_" post) = Ok (i + Z.of_nat (String.length seq), String "_" post).
Proof.
  induction seq as [|c seq IH]; intros i Hn Hl.
  { rewrite string_app_nil_l. cbn. do 2 f_equal. lia. }
  rewrite string_app_cons. cbn in *. destruct (Ascii.eqb c "_"); [done|].
  rewrite advance_eq by lia. cbn [mbind res_bind]. rewrite IH by (done || lia). do 2 f_equal. lia.
Qed.

Lemma qualifier_char q : q ∈ qualifiers →
  Ascii.eqb q "P" = false ∧ one_of q basic = false ∧ Ascii.eqb q "S" = false ∧ Ascii.eqb q "v" = false ∧ one_of q qualifiers = true.
Proof. unfold qualifiers. rewrite !elem_of_cons, elem_of_nil. intros [->|[->|[->|[]]]]; by vm_compute. Qed.

Lemma basic_char c : c ∈ basic → Ascii.eqb c "P" = false ∧ one_of c basic = true.
Proof. unfold basic. rewrite !elem_of_cons, elem_of_nil. intros [->|[->|[->|[->|[]]]]]; by vm_compute. Qed.

(** Rounds one argument takes. *)
Fixpoint rounds (a : karg) : nat := match a with KQualified _ a => S (rounds a) | _ => 1 end.

Lemma args_loop_arg a : ∀ post args argc fuel len i,
  karg_ok a → (argc < length args)%nat → 0 ≤ i →
  i + Z.of_nat (String.length (mangle_arg a +:+ post)) < 2 ^ 31 - 48 →
  args_loop (rounds a + fuel) len i (mangle_arg a +:+ post) args argc =
  args_loop fuel len (i + Z.of_nat (String.length (mangle_arg a))) post (<[argc := is_pointer a]> args) (S argc).
Proof.
  induction a as [c|q p|seq|q a IH]; intros post args argc fuel len i Hok Hlt H0 Hl;
    assert (∀ v, set_handle args argc v = Ok (<[argc := v]> args, S argc)) as Hset
      by (intros v; unfold set_handle; by rewrite (proj2 (Nat.ltb_lt _ _)));
    cbn [rounds mangle_arg is_pointer Nat.add] in *.
  - destruct (basic_char c Hok) as [H1 H2]. rewrite string_app_cons, string_app_nil_l in *. cbn [args_loop String.length] in *.
    rewrite H1, H2, Hset. cbn [mbind res_bind]. by rewrite advance_eq by lia.
  - rewrite string_app_cons in *. cbn [args_loop String.length] in *. change (Ascii.eqb "P" "P") with true. cbv iota.
    rewrite Hset. cbn [mbind res_bind]. rewrite pointed_type_mangled by (done || lia). cbn [mbind res_bind].
    rewrite string_length_app in Hl. rewrite advance_eq by lia. cbn [mbind res_bind]. f_equal. lia.
  - rewrite string_app_cons in *. cbn [args_loop String.length] in *. change (Ascii.eqb "S" "P") with false. cbv iota.
    change (one_of "S" basic) with false. change (Ascii.eqb "S" "S") with true. cbv iota. rewrite Hset. cbn [mbind res_bind].
    cbn [skip_underscore]. change (Ascii.eqb "S" "_") with false. cbv iota.
    rewrite string_app_assoc in *. change ("_" +:+ post) with (String "_" EmptyString +:+ post) in *.
    rewrite string_app_cons, string_app_nil_l in *. rewrite string_length_app in *. cbn [String.length] in *.
    rewrite advance_eq by lia. cbn [mbind res_bind]. rewrite skip_underscore_app by (done || lia). cbn [mbind res_bind].
    rewrite advance_eq by lia. cbn [mbind res_bind str_drop]. f_equal; [lia|by destruct post].
  - destruct Hok as [Hq Ha]. destruct (qualifier_char q Hq) as (H1 & H2 & H3 & H4 & H5).
    rewrite string_app_cons in *. cbn [args_loop String.length] in *. rewrite H1, H2, H3, H4, H5.
    rewrite advance_eq by lia. cbn [mbind res_bind]. rewrite IH by (done || lia). f_equal. lia.
Qed.

Lemma rounds_length a : karg_ok a → (rounds a ≤ String.length (mangle_arg a))%nat.
Proof.
  induction a as [c|q p|seq|q a IH]; cbn; [lia|lia|lia|]. intros [_ Ha]. specialize (IH Ha). lia.
Qed.

(** The flags of the arguments, written from [argc] on. *)
Fixpoint set_flags_from (args : list bool) (argc : nat) (l : list karg) : list bool :=
  match l with
  | [] => args
  | a :: l => set_flags_from (<[argc := is_pointer a]> args) (S argc) l
  end.

Lemma args_loop_all l : ∀ args argc fuel len i,
  Forall karg_ok l → (argc + length l ≤ length args)%nat → 0 ≤ i →
  (String.length (foldr (λ a s, mangle_arg a +:+ s) EmptyString l) < fuel)%nat →
  i + Z.of_nat (String.length (foldr (λ a s, mangle_arg a +:+ s) EmptyString l)) < 2 ^ 31 - 48 →
  args_loop fuel len i (foldr (λ a s, mangle_arg a +:+ s) EmptyString l) args argc =
    Ok (set_flags_from args argc l, (argc + length l)%nat).
Proof.
  induction l as [|a l IH]; intros args argc fuel len i Hok Hlen H0 Hf Hi; cbn [foldr set_flags_from length] in *.
  { destruct fuel; [lia|]. cbn. by rewrite Nat.add_0_r. }
  apply Forall_cons in Hok as [Ha Hok]. pose proof (rounds_length a Ha).
  assert (rounds a ≤ fuel)%nat as Hr by (rewrite string_length_app in Hf; lia).
  replace fuel with (rounds a + (fuel - rounds a))%nat by lia. rewrite args_loop_arg by (done || lia).
  rewrite string_length_app in Hf, Hi.
  rewrite IH; [by rewrite Nat.add_succ_r|done|rewrite length_insert; lia|lia|lia|lia].
Qed.

Lemma set_flags_lookup l : ∀ args argc i,
  (argc + length l ≤ length args)%nat →
  set_flags_from args argc l !! i =
    if decide (argc ≤ i < argc + length l)%nat then is_pointer <$> l !! (i - argc)%nat else args !! i.
Proof.
  induction l as [|a l IH]; intros args argc i Hlen; cbn [set_flags_from length] in *.
  { rewrite decide_False by lia. done. }
  rewrite IH by (rewrite length_insert; lia). destruct (decide (i = argc)) as [->|Hne].
  - rewrite decide_False, decide_True, Nat.sub_diag by lia. cbn. apply list_lookup_insert_eq. lia.
  - destruct (decide (S argc ≤ i < S argc + length l)%nat).
    + rewrite decide_True by lia. replace (i - argc)%nat with (S (i - S argc)) by lia. done.
    + rewrite decide_False by lia. by rewrite list_lookup_insert_ne.
Qed.

Lemma str_drop_length n s : (String.length (str_drop n s) ≤ String.length s)%nat.
Proof. revert s. induction n as [|n IH]; intros [|c s]; cbn; try lia. specialize (IH s). lia. Qed.

Definition parse_stop (s : stop) : Prop :=
  s = AssertFailed "abort()" ∨ s = Undefined "args[argc] out of range" ∨
  s = Undefined "signed overflow of skip" ∨ s = Undefined "signed overflow of i".

(** A step of the parser: it stops in one of these ways, or leaves no more than [n] characters. *)
Definition step_good {A} (left : A → nat) (n : nat) (r : res A) : Prop :=
  match r with Ok x => (left x ≤ n)%nat | Stop s => parse_stop s end.

Lemma advance_good i n : step_good (λ _, 0%nat) 0 (advance i n).
Proof. unfold advance. destruct (_ <? _); unfold step_good, parse_stop; auto. Qed.

Lemma bind_good {A B} (la : A → nat) (lb : B → nat) n m (r : res A) (k : A → res B) :
  step_good la n r → (∀ x, (la x ≤ n)%nat → step_good lb m (k x)) → step_good lb m (r ≫= k).
Proof. intros Hr Hk. destruct r as [x|s]; [by apply Hk|exact Hr]. Qed.

Lemma read_skip_good s : ∀ acc i, step_good (λ x, String.length (snd x)) (String.length s) (read_skip acc i s).
Proof.
  induction s as [|c s IH]; intros acc i; cbn [read_skip]; [by cbn|]. destruct (is_digit c); [|by cbn].
  destruct (_ <? _); [|unfold step_good, parse_stop; auto].
  eapply bind_good; [apply advance_good|]. intros j _. specialize (IH (acc * 10 + char_code c - 48) j).
  destruct (read_skip _ j s) as [[[? ?] ?]|]; cbn in *; [lia|done].
Qed.

Lemma pointed_type_good i rest : step_good (λ x, String.length (snd x)) (String.length rest) (pointed_type i rest).
Proof.
  unfold pointed_type. apply (bind_good (λ x, String.length (snd x)) _ (String.length rest)).
  { destruct rest as [|c r]; [by cbn|]. destruct (one_of c qualifiers); [|by cbn].
    eapply bind_good; [apply advance_good|]. intros j _. cbn. lia. }
  intros [j s] Hs. cbn [snd] in Hs. destruct s as [|c r]; [by left|]. cbn [String.length] in Hs.
  destruct (one_of c basic); [eapply bind_good; [apply advance_good|]; intros k _; cbn; lia|].
  destruct (is_digit c); [|by left]. eapply bind_good; [apply read_skip_good|]. intros [[skip k] r'] Hr.
  eapply bind_good; [apply advance_good|]. intros k' _. cbn in *.
  pose proof (str_drop_length (Z.to_nat skip) r'). lia.
Qed.

Lemma skip_underscore_good s : ∀ i, step_good (λ x, String.length (snd x)) (String.length s) (skip_underscore i s).
Proof.
  induction s as [|c s IH]; intros i; cbn [skip_underscore]; [by cbn|]. destruct (Ascii.eqb c "_"); [by cbn|].
  eapply bind_good; [apply advance_good|]. intros j _. specialize (IH j). destruct (skip_underscore j s); cbn in *; [lia|done].
Qed.

Definition parse_good (n : nat) (r : res (list bool * nat)) : Prop :=
  match r with
  | Ok (args', argc) => length args' = n ∧ (argc ≤ n)%nat
  | Stop s => parse_stop s
  end.

Lemma bind_parse {A} (la : A → nat) n m (r : res A) (k : A → res (list bool * nat)) :
  step_good la n r → (∀ x, (la x ≤ n)%nat → parse_good m (k x)) → parse_good m (r ≫= k).
Proof. intros Hr Hk. destruct r as [x|s]; [by apply Hk|exact Hr]. Qed.

Lemma set_handle_good args argc v (k : list bool → nat → res (list bool * nat)) :
  (∀ a, length a = length args → (argc < length args)%nat → parse_good (length args) (k a (S argc))) →
  parse_good (length args) ('(a, n) ← set_handle args argc v; k a n).
Proof.
  intros Hk. unfold set_handle. destruct (Nat.ltb_spec argc (length args)); cbn; [|unfold parse_stop; auto].
  apply Hk; [by rewrite length_insert|done].
Qed.

Lemma args_loop_good fuel : ∀ len i rest args argc,
  (String.length rest < fuel)%nat → (argc ≤ length args)%nat →
  parse_good (length args) (args_loop fuel len i rest args argc).
Proof.
  induction fuel as [|fuel IH]; intros len i rest args argc Hf Ha; [lia|]. cbn [args_loop].
  destruct rest as [|c r]; [done|]. cbn [String.length] in Hf.
  destruct (Ascii.eqb c "P").
  { apply set_handle_good. intros a Hl Hlt. eapply bind_parse; [apply pointed_type_good|]. intros [j r'] Hr.
    eapply bind_parse; [apply advance_good|]. intros k _. rewrite <- Hl. apply IH; cbn in Hr; lia. }
  destruct (one_of c basic).
  { apply set_handle_good. intros a Hl Hlt. eapply bind_parse; [apply advance_good|]. intros k _. rewrite <- Hl. apply IH; lia. }
  destruct (Ascii.eqb c "S") eqn:HS.
  { apply set_handle_good. intros a Hl Hlt. apply Ascii.eqb_eq in HS as ->.
    cbn [skip_underscore]. change (Ascii.eqb "S" "_") with false. cbv iota.
    apply (bind_parse (λ x, String.length (snd x)) (String.length r)).
    { eapply bind_good; [apply advance_good|]. intros j _. apply skip_underscore_good. }
    intros [j r'] Hr. eapply bind_parse; [apply advance_good|]. intros k _. rewrite <- Hl.
    apply IH; [|lia]. cbn in Hr. pose proof (str_drop_length 1 r'). lia. }
  destruct (Ascii.eqb c "v"); [by eapply bind_parse; [apply advance_good|]|].
  destruct (one_of c qualifiers); [|by left].
  eapply bind_parse; [apply advance_good|]. intros k _. apply IH; lia.
Qed.

(** ** Properties of the parser *)

(** C33. Parsing inverts mangling: from the mangled name of a kernel whose arguments are basic types,
    pointers (possibly qualified) to basic or named types, or substitutions, the parser counts the
    arguments and marks exactly the pointers as handles; the other entries are not touched.  The
    whole name is shorter than 2^31 - 48 characters, so that the [int]s of the parser hold. *)
Theorem mangled_args_parsed (n : string) (l : list karg) (args : list bool) :
  ident n → Forall karg_ok l → (length l ≤ length args)%nat →
  Z.of_nat (String.length (mangle n l)) < 2 ^ 31 - 48 →
  ∃ args', __helper_parse_function_args (mangle n l) args = Ok (args', length l) ∧
    (∀ i a, l !! i = Some a → args' !! i = Some (is_pointer a)) ∧
    (∀ i, (length l ≤ i)%nat → args' !! i = args !! i).
Proof.
  intros Hn Hl Hlen Hsz. exists (set_flags_from args 0 l).
  assert (∀ i, set_flags_from args 0 l !! i = if decide (i < length l)%nat then is_pointer <$> l !! i else args !! i) as Hlk.
  { intros i. rewrite set_flags_lookup by lia. rewrite Nat.sub_0_r. destruct (decide (i < length l)%nat);
      [by rewrite decide_True by lia|by rewrite decide_False by lia]. }
  split_and!.
  - unfold mangle in *. set (post := match l with [] => _ | _ => _ end) in *.
    rewrite !string_length_app in Hsz. change (String.length "_Z") with 2%nat in Hsz.
    assert (args_loop (S (String.length ("_Z" +:+ mangle_name n +:+ post)))
      (Z.of_nat (String.length ("_Z" +:+ mangle_name n +:+ post))) (2 + Z.of_nat (String.length (mangle_name n)))
      post args 0 = Ok (set_flags_from args 0 l, length l)) as Hloop.
    { unfold post in *. rewrite !string_length_app. change (String.length "_Z") with 2%nat. destruct l as [|a l].
      - cbn [args_loop]. change (Ascii.eqb "v" "P") with false. change (one_of "v" basic) with false.
        change (Ascii.eqb "v" "S") with false. change (Ascii.eqb "v" "v") with true. cbv iota. cbn [String.length] in *.
        by rewrite advance_eq by lia.
      - rewrite args_loop_all; [done|done|done|lia|lia|lia]. }
    unfold __helper_parse_function_args. change "_Z"%string with (String "_" (String "Z" EmptyString)) in *.
    rewrite !string_app_cons, string_app_nil_l in *. change (Ascii.eqb "_" "_" && Ascii.eqb "Z" "Z") with true. cbv iota.
    destruct (name_skipped n post 2 Hn) as [_ Hr]; [lia|rewrite string_length_app; lia|].
    destruct (read_skip 0 2 _) as [[[skip j] r]|]; [|done]. cbn [mbind res_bind] in *.
    destruct (advance j skip) as [k|]; [|done]. cbn [mbind res_bind] in *. injection Hr as -> ->. exact Hloop.
  - intros i a Hi. rewrite Hlk, decide_True, Hi by (by eapply lookup_lt_Some). done.
  - intros i Hi. rewrite Hlk, decide_False by lia. done.
Qed.

Lemma mangled_args_parsed_witness :
  ∃ args', __helper_parse_function_args "_Z6vecaddPKfPfi" (replicate 25 false) = Ok (args', 3%nat) ∧
    (∀ i a, [KPointer (Some "K"%char) (PBasic "f"); KPointer None (PBasic "f"); KBasic "i"] !! i = Some a →
      args' !! i = Some (is_pointer a)) ∧
    (∀ i, (3 ≤ i)%nat → args' !! i = replicate 25 false !! i).
Proof.
  apply (mangled_args_parsed "vecadd" [KPointer (Some "K"%char) (PBasic "f"); KPointer None (PBasic "f"); KBasic "i"]);
    [reflexivity| |cbn; lia|vm_compute; reflexivity].
  unfold karg_ok, basic, qualifiers. rewrite !Forall_cons, Forall_nil. set_solver.
Defined.

(** C34. The parser ends on every name: it returns with as many arguments as fit, aborts on a type it does
    not know, or stops where it would write behind the argument array or where an [int] of it, the
    length it reads or its position in the name, overflows. *)
Theorem parse_args_terminates (name : string) (args : list bool) :
  parse_good (length args) (__helper_parse_function_args name args).
Proof.
  unfold __helper_parse_function_args. destruct name as [|c1 [|c2 rest]]; [by left|by left|].
  destruct (_ && _); [|by left]. eapply bind_parse; [apply read_skip_good|]. intros [[skip i] r] Hr.
  eapply bind_parse; [apply advance_good|]. intros j _.
  apply args_loop_good; [|lia]. pose proof (str_drop_length (Z.to_nat skip) r). cbn in *. lia.
Qed.

(** Both overflows happen: the sum of [skip] before '0' is taken off, and, with zeros before the
    length, the position. *)
Example parse_overflows :
  __helper_parse_function_args "_Z2147483599" (replicate 25 false) = Ok (replicate 25 false, 0%nat) ∧
  __helper_parse_function_args "_Z2147483647" (replicate 25 false) = Stop (Undefined "signed overflow of skip") ∧
  __helper_parse_function_args
    "_Z000000000000000000000000000000000000000000000000002147483599" (replicate 25 false) =
    Stop (Undefined "signed overflow of i").
Proof. split_and!; reflexivity. Qed.
