(* ===== verification/KernelDump.v ===== *)
(** * Dumped kernels: writing, loading and combining the files (cava/samples/cudart.dump.c,
      cava/samples/cudart.opt.c, tools/dump_combinator/dump_combinator.cpp)

    For every fat binary the dump has the binary, a file with the name and the argument sizes of
    each of its kernels, and in one common file the registrations of its kernels; a zero size
    separates the registrations of different fat binaries.  Files are their bytes, a descriptor is
    what is left to be read; a [read] at the end of a file leaves the variable as it was. *)

From S2P Require Import Prelude CString Fatbin.
Local Open Scope Z_scope.

(** ** [struct fatbin_function] *)

Record kernel_arg := mk_karg { is_handle : Z; arg_size : Z }.
Record fatbin_function := mk_ff {
  argc : Z;
  args : list kernel_arg;
  cufunc : Z;
  hostfunc : Z;
  module_ : Z
}.

Definition arg_bytes (a : kernel_arg) : list Z := le_bytes 1 (is_handle a) ++ [0; 0; 0] ++ le_bytes 4 (arg_size a).
Definition sizeof_fatbin_function : nat := 232.
Definition function_bytes (f : fatbin_function) : list Z :=
  le_bytes 4 (argc f) ++ mjoin (arg_bytes <$> args f) ++ [0; 0; 0; 0] ++
  le_bytes 8 (cufunc f) ++ le_bytes 8 (hostfunc f) ++ le_bytes 8 (module_ f).

Definition arg_of_bytes (l : list Z) : kernel_arg := mk_karg (le_num (slice 0 1 l)) (le_num (slice 4 4 l)).
Definition function_of_bytes (l : list Z) : fatbin_function :=
  mk_ff (signed 32 (le_num (slice 0 4 l)))
    ((λ i, arg_of_bytes (slice (4 + 8 * i) 8 l)) <$> seq 0 MAX_KERNEL_ARG)
    (le_num (slice 208 8 l)) (le_num (slice 216 8 l)) (le_num (slice 224 8 l)).

Definition function_wf (f : fatbin_function) : Prop :=
  in_srange 32 (argc f) ∧ length (args f) = MAX_KERNEL_ARG ∧
  Forall (λ a, in_range 8 (is_handle a) ∧ in_range 32 (arg_size a)) (args f) ∧
  in_range 64 (cufunc f) ∧ in_range 64 (hostfunc f) ∧ in_range 64 (module_ f).

(** ** Argument files *)

(** One kernel: name and struct. *)
Definition arg_record (r : string * fatbin_function) : list Z :=
  le_bytes 8 (Z.of_nat (S (String.length (fst r)))) ++ cstr_bytes (fst r) ++ function_bytes (snd r).
Definition arg_file (rs : list (string * fatbin_function)) : list Z := mjoin (arg_record <$> rs).

(** The table of kernels: [fatbin_funcs] without the NULL at index 0, so that the kernel with
    identifier [i] is at [i - 1]; and the names of one fat binary. *)
Abbreviation name_table := (gmap string Z).

Definition MAX_KERNEL_NAME_LEN : Z := 1024.

(** [read (fd, &var, n)]: new content of the variable, and what is left. *)
Definition read_var (n : nat) (old file : list Z) : list Z * list Z :=
  (take n file ++ drop (length (take n file)) old, drop n file).

Fixpoint load_args (fuel : nat) (name_size func_name garbage : list Z) (file : list Z)
    (funcs : list fatbin_function) (ht : name_table) : res (list fatbin_function * name_table) :=
  match fuel with
  | O => Stop (Undefined "load_args: out of fuel")
  | S fuel =>
      if (length file =? 0)%nat then Ok (funcs, ht)
      else
        let '(name_size, file) := read_var 8 name_size file in
        _ ← c_assert (le_num name_size <? MAX_KERNEL_NAME_LEN) "name_size < MAX_KERNEL_NAME_LEN";
        let '(func_name, file) := read_var (Z.to_nat (le_num name_size)) func_name file in
        let '(func, file) := read_var sizeof_fatbin_function garbage file in
        let funcs := funcs ++ [function_of_bytes func] in
        match c_string func_name with
        | None => Stop (Undefined "func_name not terminated")
        | Some name =>
            let ht := match ht !! name with
                      | None => <[name := Z.of_nat (length funcs)]> ht
                      | Some _ => ht
                      end in
            load_args fuel name_size func_name garbage file funcs ht
        end
  end.

(** [name_size] and [func_name] are uninitialised, [garbage] is what [g_new] returns. *)
Definition __helper_load_function_arg_info (name_size func_name garbage file : list Z)
    (funcs : list fatbin_function) : res (list fatbin_function * name_table) :=
  load_args (S (length file)) name_size func_name garbage file funcs ∅.

(** ** Registrations *)

(** One [__cudaRegisterFunction]; the optional structs are their bytes. *)
Record kernel := mk_kernel {
  k_fun : string;
  k_name : string;
  k_limit : Z;
  k_tid : option (list Z);
  k_bid : option (list Z);
  k_bdim : option (list Z);
  k_gdim : option (list Z);
  k_wsize : option (list Z)
}.

Definition opt_bytes (o : option (list Z)) : list Z :=
  match o with Some b => le_bytes 4 1 ++ b | None => le_bytes 4 0 end.
Definition kernel_bytes (k : kernel) : list Z :=
  le_bytes 8 (Z.of_nat (S (String.length (k_fun k)))) ++ cstr_bytes (k_fun k) ++
  le_bytes 8 (Z.of_nat (S (String.length (k_name k)))) ++ cstr_bytes (k_name k) ++
  le_bytes 4 (k_limit k) ++ opt_bytes (k_tid k) ++ opt_bytes (k_bid k) ++ opt_bytes (k_bdim k) ++
  opt_bytes (k_gdim k) ++ opt_bytes (k_wsize k).

Definition kernel_wf (k : kernel) : Prop :=
  no_nul (k_fun k) = true ∧ no_nul (k_name k) = true ∧
  Z.of_nat (S (String.length (k_fun k))) < 2 ^ 64 ∧ Z.of_nat (S (String.length (k_name k))) < 2 ^ 64 ∧
  in_srange 32 (k_limit k) ∧
  Forall (λ o, from_option (λ b, length b = 12%nat) True o) [k_tid k; k_bid k; k_bdim k; k_gdim k] ∧
  from_option (λ b, length b = 4%nat) True (k_wsize k).

Definition separator : list Z := le_bytes 8 0.

(** The common file while it is dumped: [None] until a kernel is registered ([fd_functions == 0]). *)
Definition __helper_dump_cuda_function (k : kernel) (fd : option (list Z)) : option (list Z) :=
  Some (default [] fd ++ kernel_bytes k).
(** The part of [__helper_dump_fatbin] that concerns the common file. *)
Definition dump_separator (fd : option (list Z)) : option (list Z) := (λ f, f ++ separator) <$> fd.

(** The fat binaries of a program one after the other, each followed by the registration of its
    kernels. *)
Definition dump_program (fatbins : list (list kernel)) : option (list Z) :=
  foldl (λ fd ks, foldl (λ fd k, __helper_dump_cuda_function k fd) (dump_separator fd) ks) None fatbins.

(** The local variables of the loading loop, as bytes. *)
Record lvars := mk_lvars { v_size : list Z; v_exists : list Z; v_limit : list Z }.

(** [read exists; if (exists) read the struct of n bytes]. *)
Definition read_opt (n : nat) (garbage : nat → list Z) (v : lvars) (file : list Z)
    : option (list Z) * lvars * list Z :=
  let '(e, file) := read_var 4 (v_exists v) file in
  let v := mk_lvars (v_size v) e (v_limit v) in
  if le_num e =? 0 then (None, v, file)
  else let '(b, file) := read_var n (garbage n) file in (Some b, v, file).

(** The body of the loop after the first size: the buffers for the strings, the name, the rest. *)
Definition read_kernel (garbage : nat → list Z) (v : lvars) (file : list Z)
    : list Z * list Z * list (option (list Z)) * lvars * list Z :=
  let size := Z.to_nat (le_num (v_size v)) in
  let '(deviceFun, file) := read_var size (garbage size) file in
  let '(sz, file) := read_var 8 (v_size v) file in
  let size := Z.to_nat (le_num sz) in
  let '(deviceName, file) := read_var size (garbage size) file in
  let '(limit, file) := read_var 4 (v_limit v) file in
  let v := mk_lvars sz (v_exists v) limit in
  let '(tid, v, file) := read_opt 12 garbage v file in
  let '(bid, v, file) := read_opt 12 garbage v file in
  let '(bDim, v, file) := read_opt 12 garbage v file in
  let '(gDim, v, file) := read_opt 12 garbage v file in
  let '(wSize, v, file) := read_opt 4 garbage v file in
  (deviceFun, deviceName, [tid; bid; bDim; gDim; wSize], v, file).

(** [__helper_register_function]: the CUDA driver looks the kernel up in the module; only the first
    host function is registered. *)
Definition __helper_register_function (get : Z → string → option Z) (module id : Z) (name : string)
    (f : fatbin_function) : res fatbin_function :=
  if negb (hostfunc f =? 0) then Ok f
  else match get module name with
       | None => Stop (AssertFailed "ret == CUDA_SUCCESS")
       | Some cu => Ok (mk_ff (argc f) (args f) cu id module)
       end.

Definition register_by_name (get : Z → string → option Z) (module : Z) (ht : name_table)
    (name : list Z) (funcs : list fatbin_function) : res (list fatbin_function) :=
  match c_string name with
  | None => Stop (Undefined "deviceName not terminated")
  | Some n =>
      match ht !! n with
      | None => Stop (AssertFailed "func_id != NULL")
      | Some id =>
          match funcs !! Z.to_nat (id - 1) with
          | None => Stop (Undefined "fatbin_funcs[func_id]")
          | Some f => f ← __helper_register_function get module id n f; Ok (<[Z.to_nat (id - 1) := f]> funcs)
          end
      end
  end.

(** The file of the registrations: what is left, or [None] after it was closed at its end. *)
Fixpoint load_loop (fuel : nat) (garbage : nat → list Z) (get : Z → string → option Z) (module : Z)
    (ht : name_table) (v : lvars) (file : list Z) (funcs : list fatbin_function)
    : res (list fatbin_function * option (list Z)) :=
  match fuel with
  | O => Stop (Undefined "load_loop: out of fuel")
  | S fuel =>
      let read_ret := length (take 8 file) in
      let '(size, rest) := read_var 8 (v_size v) file in
      if le_num size =? 0 then Ok (funcs, Some rest)
      else if (read_ret =? 0)%nat then Ok (funcs, None)
      else
        let '(_, name, _, v, rest) := read_kernel garbage (mk_lvars size (v_exists v) (v_limit v)) rest in
        funcs ← register_by_name get module ht name funcs;
        load_loop fuel garbage get module ht v rest funcs
  end.

(** [__helper_load_and_register_fatbin]: the fat binary, whose size is checked against its header
    ([header]: the sum of its two sizes), the kernels of its argument file, then the loop. *)
Definition __helper_load_and_register_fatbin (name_size func_name : list Z) (garbage : nat → list Z)
    (get : Z → string → option Z) (v : lvars) (header : list Z → Z) (load_module : list Z → option Z)
    (fatbin args_file : list Z) (fd : option (list Z)) (funcs : list fatbin_function)
    : res (list fatbin_function * option (list Z)) :=
  _ ← c_assert (Z.of_nat (length fatbin) =? header fatbin) "fatbin_size == fbh->headerSize + fbh->fatSize";
  match load_module fatbin with
  | None => Stop (AssertFailed "Module load failed")
  | Some module =>
      '(funcs, ht) ← __helper_load_function_arg_info name_size func_name (garbage sizeof_fatbin_function) args_file funcs;
      match fd with
      | None => if le_num (v_size v) =? 0 then Ok (funcs, None) else Stop (Undefined "read of a closed file")
      | Some file => load_loop (S (length file)) garbage get module ht v file funcs
      end
  end.

(** What one call finds in its local variables: nothing is initialised. *)
Record frame := mk_frame { fr_size : list Z; fr_name : list Z; fr_vars : lvars }.

(** The worker: [__cudaRegisterFatBinary] of every fat binary of the program in turn, the
    [i]-th one from the files with number [i] ([num_fatbins]). *)
Fixpoint load_program (frames : nat → frame) (garbage : nat → list Z) (get : Z → string → option Z)
    (header : list Z → Z) (load_module : nat → list Z → option Z) (i : nat)
    (files : list (list Z * list Z)) (fd : option (list Z)) (funcs : list fatbin_function)
    : res (list fatbin_function * option (list Z)) :=
  match files with
  | [] => Ok (funcs, fd)
  | (fatbin, args_file) :: files =>
      '(funcs, fd) ← __helper_load_and_register_fatbin (fr_size (frames i)) (fr_name (frames i)) garbage get
                       (fr_vars (frames i)) header (load_module i) fatbin args_file fd funcs;
      load_program frames garbage get header load_module (S i) files fd funcs
  end.

(** The guest: [ava_metadata (local)] with [func_id] and [func]. *)
Abbreviation associations := (gmap Z (Z * fatbin_function)).
Definition __helper_assosiate_function (ht : name_table) (funcs : list fatbin_function) (local : Z)
    (deviceName : string) (md : associations) : res associations :=
  match md !! local with
  | Some _ => Ok md
  | None =>
      match ht !! deviceName with
      | None => Stop (AssertFailed "func_id != NULL")
      | Some id =>
          match funcs !! Z.to_nat (id - 1) with
          | None => Stop (Undefined "fatbin_funcs[func_id]")
          | Some f => Ok (<[local := (id, f)]> md)
          end
      end
  end.

Fixpoint associate_all (ht : name_table) (funcs : list fatbin_function) (regs : list (Z * string))
    (md : associations) : res associations :=
  match regs with
  | [] => Ok md
  | (local, name) :: regs =>
      md ← __helper_assosiate_function ht funcs local name md;
      associate_all ht funcs regs md
  end.

(** [__cudaRegisterFatBinary] in the guest, then [__cudaRegisterFunction] for its host functions. *)
Fixpoint guest_program (frames : nat → frame) (garbage : nat → list Z) (i : nat)
    (fatbins : list (list Z * list (Z * string))) (funcs : list fatbin_function) (md : associations)
    : res (list fatbin_function * associations) :=
  match fatbins with
  | [] => Ok (funcs, md)
  | (args_file, regs) :: fatbins =>
      '(funcs, ht) ← __helper_load_function_arg_info (fr_size (frames i)) (fr_name (frames i))
                       (garbage sizeof_fatbin_function) args_file funcs;
      md ← associate_all ht funcs regs md;
      guest_program frames garbage (S i) fatbins funcs md
  end.

(** ** Lemmas: reading what was written *)

Lemma read_var_app n old a b : length a = n → read_var n old (a ++ b) = (a ++ drop n old, b).
Proof. intros <-. unfold read_var. rewrite take_app_length, drop_app_length. done. Qed.

Lemma read_var_exact n old a b : length a = n → length old = n → read_var n old (a ++ b) = (a, b).
Proof. intros Ha Ho. rewrite read_var_app by done. by rewrite drop_ge, app_nil_r by lia. Qed.

Lemma length_arg_bytes a : length (arg_bytes a) = 8%nat.
Proof. unfold arg_bytes. by rewrite !length_app, !length_le_bytes. Qed.

Lemma length_args_join l : length (mjoin (arg_bytes <$> l)) = (8 * length l)%nat.
Proof.
  induction l as [|a l IH]; [done|]. change (mjoin (arg_bytes <$> a :: l)) with (arg_bytes a ++ mjoin (arg_bytes <$> l)).
  rewrite length_app, length_arg_bytes, IH. cbn. lia.
Qed.

Lemma length_function_bytes f : function_wf f → length (function_bytes f) = sizeof_fatbin_function.
Proof.
  intros (_ & Hl & _). unfold function_bytes. rewrite !length_app, !length_le_bytes, length_args_join, Hl. done.
Qed.

Lemma arg_roundtrip a : in_range 8 (is_handle a) → in_range 32 (arg_size a) → arg_of_bytes (arg_bytes a) = a.
Proof.
  intros H1 H2. unfold arg_of_bytes, arg_bytes. destruct a as [h sz]. cbn [is_handle arg_size] in *. f_equal.
  - rewrite slice_prefix by by rewrite length_le_bytes. rewrite le_num_bytes. apply Z.mod_small. exact H1.
  - rewrite slice_skip by (rewrite length_le_bytes; lia). rewrite length_le_bytes, slice_skip by (cbn; lia).
    rewrite slice_all by by rewrite length_le_bytes. rewrite le_num_bytes. apply Z.mod_small. exact H2.
Qed.

(** The i-th argument of the array. *)
Lemma args_slice l i a rest :
  l !! i = Some a → slice (8 * i) 8 (mjoin (arg_bytes <$> l) ++ rest) = arg_bytes a.
Proof.
  revert i. induction l as [|x l IH]; intros [|i] Hi; try done.
  - injection Hi as ->. change (mjoin (arg_bytes <$> a :: l)) with (arg_bytes a ++ mjoin (arg_bytes <$> l)).
    rewrite <- app_assoc. apply slice_prefix. by rewrite length_arg_bytes.
  - change (mjoin (arg_bytes <$> x :: l)) with (arg_bytes x ++ mjoin (arg_bytes <$> l)). rewrite <- app_assoc.
    rewrite slice_skip by (rewrite length_arg_bytes; lia). rewrite length_arg_bytes.
    replace (8 * S i - 8)%nat with (8 * i)%nat by lia. by apply IH.
Qed.

Lemma function_roundtrip f : function_wf f → function_of_bytes (function_bytes f) = f.
Proof.
  intros (Hc & Hl & Ha & H1 & H2 & H3). unfold function_of_bytes, function_bytes.
  set (tail := [0; 0; 0; 0] ++ _).
  assert (length (mjoin (arg_bytes <$> args f)) = 200%nat) as Hj by (rewrite length_args_join, Hl; done).
  destruct f as [c as_ cu hf m]. cbn [argc args cufunc hostfunc module_] in *. f_equal.
  - rewrite slice_prefix by by rewrite length_le_bytes. rewrite le_num_bytes.
    apply (wrap_signed 32); [lia|done].
  - apply list_eq_same_length with MAX_KERNEL_ARG; [done|by rewrite length_fmap, length_seq|].
    intros i x y Hi Hx Hy. apply list_lookup_fmap_Some in Hx as (j & -> & Hj').
    apply lookup_seq in Hj' as [-> Hlt]. rewrite Nat.add_0_l. rewrite slice_skip by (rewrite length_le_bytes; lia).
    rewrite length_le_bytes. replace (4 + 8 * i - 4)%nat with (8 * i)%nat by lia.
    rewrite (args_slice as_ i y) by done. destruct (Forall_lookup_1 _ _ _ _ Ha Hy). by apply arg_roundtrip.
  - unfold tail. rewrite slice_skip by (rewrite length_le_bytes; lia). rewrite length_le_bytes, slice_skip, Hj by (rewrite Hj; lia).
    rewrite slice_skip by (cbn; lia). cbn [length Nat.sub]. rewrite slice_prefix by by rewrite length_le_bytes. by apply le_num_u64.
  - unfold tail. rewrite slice_skip by (rewrite length_le_bytes; lia). rewrite length_le_bytes, slice_skip, Hj by (rewrite Hj; lia).
    rewrite slice_skip by (cbn; lia). cbn [length Nat.sub]. rewrite slice_skip by (rewrite length_le_bytes; lia).
    rewrite length_le_bytes, slice_prefix by by rewrite length_le_bytes. by apply le_num_u64.
  - unfold tail. rewrite slice_skip by (rewrite length_le_bytes; lia). rewrite length_le_bytes, slice_skip, Hj by (rewrite Hj; lia).
    rewrite slice_skip by (cbn; lia). cbn [length Nat.sub]. do 2 (rewrite slice_skip by (rewrite length_le_bytes; lia); rewrite length_le_bytes).
    rewrite slice_all by by rewrite length_le_bytes. by apply le_num_u64.
Qed.

(** Names of one fat binary: each stands for its first kernel. *)
Fixpoint index_names (rs : list (string * fatbin_function)) (base : nat) (ht : name_table) : name_table :=
  match rs with
  | [] => ht
  | r :: rs =>
      index_names rs (S base)
        (match ht !! fst r with None => <[fst r := Z.of_nat (S base)]> ht | Some _ => ht end)
  end.

Definition record_wf (r : string * fatbin_function) : Prop :=
  no_nul (fst r) = true ∧ Z.of_nat (S (String.length (fst r))) < MAX_KERNEL_NAME_LEN ∧ function_wf (snd r).

Lemma read_size old n b : length old = 8%nat → read_var 8 old (le_bytes 8 n ++ b) = (le_bytes 8 n, b).
Proof. intros Ho. apply read_var_exact; [by rewrite length_le_bytes|done]. Qed.

Lemma load_args_file rs : ∀ fuel name_size func_name garbage funcs ht,
  Forall record_wf rs → (length rs < fuel)%nat → length name_size = 8%nat →
  length garbage = sizeof_fatbin_function →
  load_args fuel name_size func_name garbage (arg_file rs) funcs ht =
    Ok (funcs ++ rs.*2, index_names rs (length funcs) ht).
Proof.
  induction rs as [|[name f] rs IH]; intros fuel name_size func_name garbage funcs ht Hwf Hf Hns Hg;
    (destruct fuel as [|fuel]; [cbn in Hf; lia|]); cbn [load_args].
  { cbn. by rewrite app_nil_r. }
  apply Forall_cons in Hwf as [(Hnul & Hlen & Hfw) Hwf]. cbn [fst snd] in *. unfold MAX_KERNEL_NAME_LEN in *.
  change (arg_file ((name, f) :: rs)) with (arg_record (name, f) ++ arg_file rs).
  unfold arg_record. cbn [fst snd]. rewrite <- !app_assoc.
  rewrite (proj2 (Nat.eqb_neq _ 0)) by (rewrite length_app, length_le_bytes; lia).
  rewrite read_size by done. cbv beta iota. rewrite le_num_u64 by (unfold in_range; lia).
  rewrite (proj2 (Z.ltb_lt _ _)) by lia. cbn [c_assert mbind res_bind]. rewrite Nat2Z.id.
  rewrite read_var_app by apply length_cstr. cbv beta iota.
  rewrite read_var_exact by (done || by apply length_function_bytes). cbv beta iota.
  rewrite c_string_bytes, function_roundtrip by done.
  rewrite IH by (done || cbn in Hf; lia || by rewrite length_le_bytes).
  rewrite length_app. cbn [length index_names fst]. rewrite Nat.add_1_r. by rewrite <- app_assoc.
Qed.

Lemma arg_file_length rs : (length rs ≤ length (arg_file rs))%nat.
Proof.
  induction rs as [|r rs IH]; [done|]. change (arg_file (r :: rs)) with (arg_record r ++ arg_file rs).
  unfold arg_record. rewrite !length_app, length_le_bytes. cbn. lia.
Qed.

Lemma load_info_file rs name_size func_name garbage funcs :
  Forall record_wf rs → length name_size = 8%nat → length garbage = sizeof_fatbin_function →
  __helper_load_function_arg_info name_size func_name garbage (arg_file rs) funcs =
    Ok (funcs ++ rs.*2, index_names rs (length funcs) ∅).
Proof. intros. apply load_args_file; try done. pose proof (arg_file_length rs). lia. Qed.

(** What a name stands for: its first kernel. *)
Lemma index_names_Some rs : ∀ base ht n id,
  ht !! n = None → (∃ i f, rs !! i = Some (n, f) ∧ (∀ j g, (j < i)%nat → rs !! j ≠ Some (n, g)) ∧ id = Z.of_nat (S (base + i))) →
  index_names rs base ht !! n = Some id.
Proof.
  induction rs as [|[m f] rs IH]; intros base ht n id Hn (i & g & Hi & Hmin & ->); [done|]. cbn [index_names fst].
  assert (∀ rs b t, t !! n = Some (Z.of_nat (S base)) → index_names rs b t !! n = Some (Z.of_nat (S base))) as Hkeep.
  { clear. induction rs as [|r rs IH]; intros b t Ht; [done|]. cbn [index_names]. apply IH. destruct (t !! fst r) eqn:Hr; [done|].
    rewrite lookup_insert_ne; [done|]. intros Heq. rewrite Heq in Hr. congruence. }
  destruct i as [|i].
  - injection Hi as -> ->. rewrite Hn, Nat.add_0_r. apply Hkeep. by rewrite lookup_insert_eq.
  - assert (m ≠ n) as Hne by (intros ->; by apply (Hmin 0%nat f ltac:(lia))).
    replace (base + S i)%nat with (S base + i)%nat by lia. apply IH.
    + destruct (ht !! m); [done|]. by rewrite lookup_insert_ne.
    + exists i, g. split_and!; [done| |done]. intros j h Hj. apply (Hmin (S j) h). lia.
Qed.

(** ** Lemmas: registrations *)

Definition vars_ok (v : lvars) : Prop :=
  length (v_size v) = 8%nat ∧ length (v_exists v) = 4%nat ∧ length (v_limit v) = 4%nat.

(** [exists] after an optional struct. *)
Definition flag (o : option (list Z)) : list Z := le_bytes 4 (if o is Some _ then 1 else 0).

Lemma read_opt_spec n garbage v o rest :
  vars_ok v → length (garbage n) = n → from_option (λ b, length b = n) True o →
  read_opt n garbage v (opt_bytes o ++ rest) = (o, mk_lvars (v_size v) (flag o) (v_limit v), rest).
Proof.
  intros (H1 & H2 & H3) Hg Ho. unfold read_opt, flag. destruct o as [b|]; cbn [opt_bytes].
  - rewrite <- app_assoc, read_var_exact by (by rewrite ?length_le_bytes). cbv beta iota.
    change (le_num (le_bytes 4 1) =? 0) with false. cbv iota. by rewrite read_var_exact.
  - rewrite read_var_exact by (by rewrite ?length_le_bytes). done.
Qed.

Lemma vars_ok_flag a o b : length a = 8%nat → length b = 4%nat → vars_ok (mk_lvars a (flag o) b).
Proof. intros. by split_and!; cbn. Qed.

Definition kernel_tail (k : kernel) : list Z :=
  cstr_bytes (k_fun k) ++
  le_bytes 8 (Z.of_nat (S (String.length (k_name k)))) ++ cstr_bytes (k_name k) ++
  le_bytes 4 (k_limit k) ++ opt_bytes (k_tid k) ++ opt_bytes (k_bid k) ++ opt_bytes (k_bdim k) ++
  opt_bytes (k_gdim k) ++ opt_bytes (k_wsize k).

(** The variables after a kernel. *)
Definition kernel_vars (k : kernel) : lvars :=
  mk_lvars (le_bytes 8 (Z.of_nat (S (String.length (k_name k))))) (flag (k_wsize k)) (le_bytes 4 (k_limit k)).

Lemma kernel_vars_ok k : vars_ok (kernel_vars k).
Proof. apply vars_ok_flag; apply length_le_bytes. Qed.

Lemma read_kernel_spec garbage v k rest :
  kernel_wf k → (∀ n, length (garbage n) = n) → vars_ok v →
  v_size v = le_bytes 8 (Z.of_nat (S (String.length (k_fun k)))) →
  read_kernel garbage v (kernel_tail k ++ rest) =
      (cstr_bytes (k_fun k), cstr_bytes (k_name k),
       [k_tid k; k_bid k; k_bdim k; k_gdim k; k_wsize k], kernel_vars k, rest).
Proof.
  intros (Hn1 & Hn2 & Hl1 & Hl2 & Hlim & Hopts & Hw) Hg Hv Hsz. unfold read_kernel, kernel_tail. rewrite Hsz.
  pose proof Hv as (V1 & V2 & V3). rewrite <- !app_assoc. rewrite le_num_u64 by (unfold in_range; lia). rewrite Nat2Z.id.
  rewrite read_var_exact by (by rewrite ?length_cstr, ?Hg). cbv beta iota.
  rewrite read_size by by rewrite length_le_bytes. cbv beta iota.
  rewrite le_num_u64 by (unfold in_range; lia). rewrite Nat2Z.id.
  rewrite read_var_exact by (by rewrite ?length_cstr, ?Hg). cbv beta iota.
  rewrite read_var_exact by (by rewrite ?length_le_bytes). cbv beta iota.
  rewrite !Forall_cons in Hopts. destruct Hopts as (O1 & O2 & O3 & O4 & _).
  do 5 (rewrite read_opt_spec; [cbv beta iota; cbn [v_size v_limit]|
    first [by split_and!; cbn; rewrite ?length_le_bytes|apply vars_ok_flag; apply length_le_bytes]|apply Hg|done]).
  done.
Qed.

Definition kernels_bytes (ks : list kernel) : list Z := mjoin (kernel_bytes <$> ks).

Lemma kernels_bytes_cons k ks : kernels_bytes (k :: ks) = kernel_bytes k ++ kernels_bytes ks.
Proof. done. Qed.
Lemma kernel_bytes_tail k :
  kernel_bytes k = le_bytes 8 (Z.of_nat (S (String.length (k_fun k)))) ++ kernel_tail k.
Proof. done. Qed.

(** The kernels of one fat binary, registered one after the other. *)
Fixpoint register_kernels (get : Z → string → option Z) (module : Z) (ht : name_table) (ks : list kernel)
    (funcs : list fatbin_function) : res (list fatbin_function) :=
  match ks with
  | [] => Ok funcs
  | k :: ks =>
      funcs ← register_by_name get module ht (cstr_bytes (k_name k)) funcs;
      register_kernels get module ht ks funcs
  end.

Section load.
Context (garbage : nat → list Z) (get : Z → string → option Z).
Hypothesis garbage_length : ∀ n, length (garbage n) = n.

(** The loop reads kernels off the file until something else comes. *)
Lemma load_loop_kernels module ht ks : ∀ v fuel funcs rest,
  Forall kernel_wf ks → vars_ok v →
  load_loop (length ks + fuel) garbage get module ht v (kernels_bytes ks ++ rest) funcs =
    (funcs ← register_kernels get module ht ks funcs;
     load_loop fuel garbage get module ht (default v (kernel_vars <$> last ks)) rest funcs).
Proof.
  induction ks as [|k ks IH]; intros v fuel funcs rest Hwf Hv; [done|].
  apply Forall_cons in Hwf as [Hk Hwf]. pose proof Hk as (_ & _ & Hl1 & Hl2 & _). pose proof Hv as (V1 & V2 & V3).
  cbn [length Nat.add load_loop]. rewrite kernels_bytes_cons, kernel_bytes_tail, <- !app_assoc.
  rewrite read_size by done. cbv beta iota. rewrite le_num_u64 by (unfold in_range; lia).
  rewrite (proj2 (Z.eqb_neq _ 0)) by lia. cbv iota.
  rewrite take_app_length' by by rewrite length_le_bytes. rewrite length_le_bytes. cbn [Nat.eqb].
  rewrite read_kernel_spec; [|done|done|by split_and!; cbn; rewrite ?length_le_bytes|done]. cbv beta iota.
  cbn [register_kernels]. destruct (register_by_name _ _ _ _ funcs) as [funcs1|]; [|done]. cbn [mbind res_bind].
  rewrite IH by (done || apply kernel_vars_ok). destruct (register_kernels _ _ _ ks funcs1); [|done]. cbn [mbind res_bind].
  rewrite last_cons. by destruct (last ks).
Qed.

Lemma separator_read v rest : length (v_size v) = 8%nat → read_var 8 (v_size v) (separator ++ rest) = (separator, rest).
Proof. intros Hv. by apply read_size. Qed.

Lemma load_until_separator module ht ks v fuel funcs rest :
  Forall kernel_wf ks → vars_ok v → (length ks < fuel)%nat →
  load_loop fuel garbage get module ht v (kernels_bytes ks ++ separator ++ rest) funcs =
    (funcs ← register_kernels get module ht ks funcs; Ok (funcs, Some rest)).
Proof.
  intros Hwf Hv Hf. replace fuel with (length ks + S (fuel - S (length ks)))%nat by lia.
  rewrite load_loop_kernels by done. destruct (register_kernels _ _ _ _ _); [|done]. cbn [mbind res_bind load_loop].
  rewrite separator_read; [done|]. destruct (last ks); cbn; [done|apply Hv].
Qed.

(** At the end of the file the descriptor is closed, or nothing is left of it. *)
Lemma load_until_end module ht ks v fuel funcs :
  Forall kernel_wf ks → vars_ok v → (length ks < fuel)%nat →
  ∃ fd, (fd = None ∨ fd = Some []) ∧
  load_loop fuel garbage get module ht v (kernels_bytes ks) funcs =
    (funcs ← register_kernels get module ht ks funcs; Ok (funcs, fd)).
Proof.
  intros Hwf Hv Hf. replace fuel with (length ks + S (fuel - S (length ks)))%nat by lia.
  rewrite <- (app_nil_r (kernels_bytes ks)). rewrite load_loop_kernels by done.
  exists (if le_num (v_size (default v (kernel_vars <$> last ks))) =? 0 then Some [] else None). split.
  { destruct (_ =? 0); auto. }
  destruct (register_kernels _ _ _ _ _); [|done]. cbn [mbind res_bind load_loop read_var take drop length app].
  by destruct (_ =? 0).
Qed.
End load.

(** ** Lemmas: the table of kernels *)

(** The kernels of one fat binary once those with the given names are registered: the first kernel
    of each name, whose identifier is its position in the table. *)
Definition link (get : Z → string → option Z) (module : Z) (base : nat)
    (rs : list (string * fatbin_function)) (names : list string) (i : nat) (r : string * fatbin_function) : fatbin_function :=
  if bool_decide (fst r ∈ names) && bool_decide (fst r ∉ (take i rs).*1)
  then mk_ff (argc (snd r)) (args (snd r)) (default 0 (get module (fst r))) (Z.of_nat (S (base + i))) module
  else snd r.
Definition linked get module base rs names : list fatbin_function := imap (link get module base rs names) rs.

Lemma linked_nil get module base rs : linked get module base rs [] = rs.*2.
Proof.
  unfold linked. rewrite <- (imap_const snd). apply imap_ext. intros i r _. unfold link.
  by rewrite bool_decide_false by apply not_elem_of_nil.
Qed.

Lemma length_linked get module base rs names : length (linked get module base rs names) = length rs.
Proof. apply length_imap. Qed.

(** A kernel the table has is found under its name. *)
Lemma first_record (rs : list (string * fatbin_function)) n :
  n ∈ rs.*1 → ∃ i f, rs !! i = Some (n, f) ∧ n ∉ (take i rs).*1.
Proof.
  induction rs as [|[m f] rs IH]; cbn; [by intros ?%not_elem_of_nil|]. intros Hin.
  destruct (decide (m = n)) as [->|Hne].
  - exists 0%nat, f. split; [done|]. cbn. apply not_elem_of_nil.
  - apply elem_of_cons in Hin as [->|Hin]; [done|]. destruct (IH Hin) as (i & g & Hi & Hn).
    exists (S i), g. split; [done|]. cbn. intros [->|H]%elem_of_cons; done.
Qed.

Lemma index_of_first rs base i n f :
  rs !! i = Some (n, f) → n ∉ (take i rs).*1 → index_names rs base ∅ !! n = Some (Z.of_nat (S (base + i))).
Proof.
  intros Hi Hn. apply index_names_Some; [apply lookup_empty|]. exists i, f. split_and!; [done| |done].
  intros j g Hj Hg. apply Hn. apply (list_elem_of_fmap_2' fst _ (n, g)); [|done].
  apply (list_elem_of_lookup_2 _ j). by rewrite lookup_take_lt.
Qed.

Definition hostless (r : string * fatbin_function) : Prop := hostfunc (snd r) = 0.

Lemma linked_add get module base rs names n i f :
  rs !! i = Some (n, f) → n ∉ (take i rs).*1 →
  linked get module base rs (names ++ [n]) =
    <[i := mk_ff (argc f) (args f) (default 0 (get module n)) (Z.of_nat (S (base + i))) module]>
      (linked get module base rs names).
Proof.
  intros Hi Hn. apply list_eq_same_length with (length rs).
  { by rewrite length_insert, length_linked. }
  { by rewrite length_linked. }
  intros j x y Hj. unfold linked. destruct (decide (j = i)) as [->|Hne].
  - rewrite list_lookup_insert_eq by (rewrite length_imap; done). rewrite list_lookup_imap, Hi. cbn. unfold link. cbn.
    rewrite !bool_decide_true by (done || set_solver). cbn. congruence.
  - rewrite list_lookup_insert_ne by done. rewrite !list_lookup_imap.
    destruct (rs !! j) as [[m g]|] eqn:Hr; [|done]. cbn. unfold link. cbn.
    destruct (decide (m = n)) as [->|Hmn].
    + destruct (decide (n ∈ names)).
      * rewrite !(bool_decide_true (n ∈ _)) by set_solver. congruence.
      * rewrite (bool_decide_false (n ∈ names)) by done.
        destruct (decide (i < j)%nat).
        -- rewrite (bool_decide_false (n ∉ _)); [rewrite andb_false_r; cbn; congruence|]. intros H. apply H.
           apply (list_elem_of_fmap_2' fst _ (n, f)); [|done]. apply (list_elem_of_lookup_2 _ i). by rewrite lookup_take_lt.
        -- exfalso. apply Hn. apply (list_elem_of_fmap_2' fst _ (n, g)); [|done].
           apply (list_elem_of_lookup_2 _ j). rewrite lookup_take_lt; [done|lia].
    + rewrite (bool_decide_ext (m ∈ names ++ [n]) (m ∈ names)) by set_solver. congruence.
Qed.

Lemma linked_again get module base rs names n :
  n ∈ names → linked get module base rs (names ++ [n]) = linked get module base rs names.
Proof.
  intros Hn. apply imap_ext. intros i r _. unfold link.
  by rewrite (bool_decide_ext (fst r ∈ names ++ [n]) (fst r ∈ names)) by set_solver.
Qed.

Lemma register_one get module rs pre names n :
  Forall hostless rs → n ∈ rs.*1 → is_Some (get module n) → no_nul n = true →
  register_by_name get module (index_names rs (length pre) ∅) (cstr_bytes n)
    (pre ++ linked get module (length pre) rs names) =
    Ok (pre ++ linked get module (length pre) rs (names ++ [n])).
Proof.
  intros Hh Hn [cu Hcu] Hnul. destruct (first_record rs n Hn) as (i & f & Hi & Hfst). unfold register_by_name.
  rewrite <- (app_nil_r (cstr_bytes n)), c_string_bytes, (index_of_first rs _ i n f) by done.
  replace (Z.to_nat (Z.of_nat (S (length pre + i)) - 1)) with (length pre + i)%nat by lia.
  rewrite lookup_app_r by lia. replace (length pre + i - length pre)%nat with i by lia.
  assert (linked get module (length pre) rs names !! i = Some (link get module (length pre) rs names i (n, f))) as Hl
    by (unfold linked; rewrite list_lookup_imap, Hi; done).
  rewrite Hl. unfold link. cbn [fst snd]. rewrite (bool_decide_true (n ∉ _)), andb_true_r by done.
  unfold __helper_register_function. destruct (decide (n ∈ names)) as [Hin|Hnin].
  - rewrite (bool_decide_true _ Hin). cbn [hostfunc]. rewrite (proj2 (Z.eqb_neq _ 0)) by lia. cbn [negb mbind res_bind].
    rewrite insert_app_r_alt by lia. replace (length pre + i - length pre)%nat with i by lia.
    rewrite linked_again by done. rewrite list_insert_id; [done|]. rewrite Hl. unfold link. cbn [fst snd].
    by rewrite (bool_decide_true _ Hin), (bool_decide_true _ Hfst).
  - rewrite (bool_decide_false _ Hnin). rewrite (Forall_lookup_1 _ _ _ _ Hh Hi : hostfunc f = 0). cbn [Z.eqb negb].
    rewrite Hcu. cbn [mbind res_bind]. rewrite insert_app_r_alt by lia. replace (length pre + i - length pre)%nat with i by lia.
    rewrite (linked_add _ _ _ _ _ n i f) by done. by rewrite Hcu.
Qed.

Lemma register_kernels_linked get module rs pre ks : ∀ names,
  Forall hostless rs → Forall (λ k, k_name k ∈ rs.*1 ∧ is_Some (get module (k_name k)) ∧ no_nul (k_name k) = true) ks →
  register_kernels get module (index_names rs (length pre) ∅) ks (pre ++ linked get module (length pre) rs names) =
    Ok (pre ++ linked get module (length pre) rs (names ++ (k_name <$> ks))).
Proof.
  induction ks as [|k ks IH]; intros names Hh Hks; cbn [register_kernels fmap list_fmap]; [by rewrite app_nil_r|].
  apply Forall_cons in Hks as [(Hn & Hg & Hnul) Hks]. rewrite register_one by done. cbn [mbind res_bind].
  rewrite IH by done. by rewrite <- app_assoc.
Qed.

(** ** Lemmas: the common file *)

Definition separated (kss : list (list kernel)) : list Z := mjoin ((λ ks, separator ++ kernels_bytes ks) <$> kss).

Lemma dump_kernels ks : ∀ f,
  foldl (λ fd k, __helper_dump_cuda_function k fd) (Some f) ks = Some (f ++ kernels_bytes ks).
Proof.
  induction ks as [|k ks IH]; intros f; cbn [foldl]; [by rewrite app_nil_r|].
  change (__helper_dump_cuda_function k (Some f)) with (Some (f ++ kernel_bytes k)).
  by rewrite IH, kernels_bytes_cons, <- app_assoc.
Qed.

Lemma dump_separated kss : ∀ f,
  foldl (λ fd ks, foldl (λ fd k, __helper_dump_cuda_function k fd) (dump_separator fd) ks) (Some f) kss =
    Some (f ++ separated kss).
Proof.
  induction kss as [|ks kss IH]; intros f; cbn [foldl]; [by rewrite app_nil_r|].
  change (dump_separator (Some f)) with (Some (f ++ separator)). rewrite dump_kernels, IH.
  change (separated (ks :: kss)) with ((separator ++ kernels_bytes ks) ++ separated kss). by rewrite <- !app_assoc.
Qed.

Lemma dump_program_bytes ks kss :
  ks ≠ [] → dump_program (ks :: kss) = Some (kernels_bytes ks ++ separated kss).
Proof.
  destruct ks as [|k ks]; [done|]. intros _. unfold dump_program. cbn [foldl].
  change (__helper_dump_cuda_function k (dump_separator None)) with (Some (kernel_bytes k)).
  by rewrite dump_kernels, dump_separated, kernels_bytes_cons.
Qed.

(** ** The theorems *)

(** One fat binary of a dump. *)
Record fatbin_dump := mk_dump {
  fb_binary : list Z;
  fb_records : list (string * fatbin_function);
  fb_kernels : list kernel
}.
Definition files (d : fatbin_dump) : list Z * list Z := (fb_binary d, arg_file (fb_records d)).

(** Which table the worker ends up with. *)
Fixpoint expected (get : Z → string → option Z) (modules : nat → Z) (i : nat) (p : list fatbin_dump)
    (pre : list fatbin_function) : list fatbin_function :=
  match p with
  | [] => pre
  | d :: p =>
      expected get modules (S i) p
        (pre ++ linked get (modules i) (length pre) (fb_records d) (k_name <$> fb_kernels d))
  end.

Section roundtrip.
Context (frames : nat → frame) (garbage : nat → list Z) (get : Z → string → option Z)
        (header : list Z → Z) (load_module : nat → list Z → option Z) (modules : nat → Z).

Definition memory_ok : Prop :=
  (∀ n, length (garbage n) = n) ∧
  (∀ i, length (fr_size (frames i)) = 8%nat ∧ vars_ok (fr_vars (frames i))).

(** What the CUDA driver promises of a program that ran when it was dumped: its binaries load, and
    have its kernels. *)
Definition dump_ok (i : nat) (d : fatbin_dump) : Prop :=
  Z.of_nat (length (fb_binary d)) = header (fb_binary d) ∧
  load_module i (fb_binary d) = Some (modules i) ∧
  Forall record_wf (fb_records d) ∧ Forall hostless (fb_records d) ∧ Forall kernel_wf (fb_kernels d) ∧
  Forall (λ k, k_name k ∈ (fb_records d).*1 ∧ is_Some (get (modules i) (k_name k))) (fb_kernels d).

Lemma kernels_named d i : dump_ok i d →
  Forall (λ k, k_name k ∈ (fb_records d).*1 ∧ is_Some (get (modules i) (k_name k)) ∧ no_nul (k_name k) = true) (fb_kernels d).
Proof.
  intros (_ & _ & _ & _ & Hw & Hn). rewrite Forall_forall in *. intros k Hk.
  destruct (Hn k Hk). destruct (Hw k Hk) as (_ & ? & _). auto.
Qed.

Lemma length_kernels ks : (length ks ≤ length (kernels_bytes ks))%nat.
Proof.
  induction ks as [|k ks IH]; [done|]. rewrite kernels_bytes_cons, kernel_bytes_tail, !length_app, length_le_bytes. cbn. lia.
Qed.

Lemma load_one i d pre file rest :
  memory_ok → dump_ok i d → file = kernels_bytes (fb_kernels d) ++ rest →
  (rest = [] ∨ ∃ rest', rest = separator ++ rest') →
  ∃ fd, (if rest is [] then True else fd = Some (drop 8 rest)) ∧
  __helper_load_and_register_fatbin (fr_size (frames i)) (fr_name (frames i)) garbage get (fr_vars (frames i))
      header (load_module i) (fb_binary d) (arg_file (fb_records d)) (Some file) pre =
    Ok (pre ++ linked get (modules i) (length pre) (fb_records d) (k_name <$> fb_kernels d), fd).
Proof.
  intros (Hg & Hfr) Hd -> Hrest. destruct (Hfr i) as [Hsz Hv]. pose proof Hd as (Hh & Hm & Hr & Hl & Hk & _).
  unfold __helper_load_and_register_fatbin. rewrite (proj2 (Z.eqb_eq _ _) Hh), Hm. cbn [c_assert mbind res_bind].
  rewrite load_info_file by (done || apply Hg). cbn [mbind res_bind]. rewrite <- (linked_nil get (modules i) (length pre)).
  pose proof (length_kernels (fb_kernels d)) as Hlen.
  pose proof (register_kernels_linked get (modules i) (fb_records d) pre (fb_kernels d) [] Hl (kernels_named d i Hd)) as Hreg.
  destruct Hrest as [->|(rest' & ->)].
  - rewrite app_nil_r. destruct (load_until_end garbage get Hg (modules i) (index_names (fb_records d) (length pre) ∅)
      (fb_kernels d) (fr_vars (frames i)) (S (length (kernels_bytes (fb_kernels d))))
      (pre ++ linked get (modules i) (length pre) (fb_records d) []) Hk Hv ltac:(lia)) as (fd & _ & ->).
    rewrite Hreg. by exists fd.
  - exists (Some rest'). split; [done|].
    rewrite (load_until_separator garbage get Hg) by (done || rewrite length_app; lia). by rewrite Hreg.
Qed.

Lemma load_rest p : ∀ i d pre,
  memory_ok → (∀ j e, (d :: p) !! j = Some e → dump_ok (i + j) e) →
  ∃ fd, load_program frames garbage get header load_module i (files <$> d :: p)
      (Some (kernels_bytes (fb_kernels d) ++ separated (fb_kernels <$> p))) pre =
    Ok (expected get modules i (d :: p) pre, fd).
Proof.
  induction p as [|e p IH]; intros i d pre Hm Hd; pose proof (Hd 0%nat d eq_refl) as Hd0; rewrite Nat.add_0_r in Hd0;
    cbn [fmap list_fmap files load_program expected].
  - destruct (load_one i d pre _ [] Hm Hd0 eq_refl (or_introl eq_refl)) as (fd & _ & Hl).
    exists fd. unfold separated. cbn [fmap list_fmap]. change (mjoin []) with (@nil Z). by rewrite Hl.
  - change (separated (fb_kernels e :: (fb_kernels <$> p))) with
      ((separator ++ kernels_bytes (fb_kernels e)) ++ separated (fb_kernels <$> p)). rewrite <- app_assoc.
    set (rest := kernels_bytes (fb_kernels e) ++ _).
    destruct (load_one i d pre _ (separator ++ rest) Hm Hd0 eq_refl (or_intror (ex_intro _ rest eq_refl))) as (fd & Hfd & Hl).
    rewrite Hl. cbn [mbind res_bind]. cbn in Hfd. subst fd. apply IH; [done|].
    intros j x Hj. replace (S i + j)%nat with (i + S j)%nat by lia. by apply Hd.
Qed.

(** *** The guest *)

Lemma expected_prefix p : ∀ i pre j, (j < length pre)%nat → expected get modules i p pre !! j = pre !! j.
Proof.
  induction p as [|d p IH]; intros i pre j Hj; cbn [expected]; [done|].
  rewrite IH by (rewrite length_app; lia). by rewrite lookup_app_l.
Qed.

(** The identifier the guest has for a host function names, in the worker's table, the kernel of
    that name in the right module. *)
Definition names_kernel (pr : list (fatbin_dump * list (Z * string))) (table : list fatbin_function)
    (local id : Z) (f : fatbin_function) : Prop :=
  ∃ i d regs n w, pr !! i = Some (d, regs) ∧ (local, n) ∈ regs ∧ table !! Z.to_nat (id - 1) = Some w ∧
    0 < id ∧ hostfunc w = id ∧ module_ w = modules i ∧ get (modules i) n = Some (cufunc w) ∧
    argc w = argc f ∧ args w = args f.
Definition all_named pr table (md : associations) : Prop :=
  ∀ local id f, md !! local = Some (id, f) → names_kernel pr table local id f.

Definition regs_ok (d : fatbin_dump) (regs : list (Z * string)) : Prop :=
  Forall (λ r, snd r ∈ k_name <$> fb_kernels d) regs.

Lemma associate_one pr table i d regs0 gpre local n md :
  dump_ok i d → pr !! i = Some (d, regs0) → (local, n) ∈ regs0 → n ∈ k_name <$> fb_kernels d →
  (∀ x, (x < length (fb_records d))%nat → table !! (length gpre + x)%nat =
     linked get (modules i) (length gpre) (fb_records d) (k_name <$> fb_kernels d) !! x) →
  all_named pr table md →
  ∃ md', __helper_assosiate_function (index_names (fb_records d) (length gpre) ∅) (gpre ++ (fb_records d).*2) local n md = Ok md' ∧
    all_named pr table md' ∧ dom md' = {[local]} ∪ dom md.
Proof.
  intros Hd Hpr Hreg Hn Htab Hmd. unfold __helper_assosiate_function.
  destruct (md !! local) as [x|] eqn:Hl.
  { exists md. split_and!; [done|done|]. apply elem_of_dom_2 in Hl. set_solver. }
  pose proof Hd as (_ & _ & _ & _ & _ & Hks). apply list_elem_of_fmap in Hn as (k & -> & Hk).
  rewrite Forall_forall in Hks. destruct (Hks k Hk) as (Hin & [cu Hcu]).
  destruct (first_record _ _ Hin) as (j & f & Hj & Hfst). rewrite (index_of_first _ _ j _ f) by done.
  replace (Z.to_nat (Z.of_nat (S (length gpre + j)) - 1)) with (length gpre + j)%nat by lia.
  rewrite lookup_app_r by lia. replace (length gpre + j - length gpre)%nat with j by lia.
  rewrite list_lookup_fmap, Hj. cbn [fmap option_fmap option_map snd]. eexists. split; [done|]. split; [|apply dom_insert_L].
  intros l id g. destruct (decide (l = local)) as [->|Hne]; [|rewrite lookup_insert_ne by done; apply Hmd].
  rewrite lookup_insert_eq. intros [= <- <-].
  exists i, d, regs0, (k_name k), (mk_ff (argc f) (args f) cu (Z.of_nat (S (length gpre + j))) (modules i)).
  split_and!; try done; try lia. replace (Z.to_nat (Z.of_nat (S (length gpre + j)) - 1)) with (length gpre + j)%nat by lia.
  rewrite Htab by by eapply lookup_lt_Some. unfold linked. rewrite list_lookup_imap, Hj. cbn. unfold link. cbn [fst snd].
  rewrite (bool_decide_true (k_name k ∈ _)) by (by apply list_elem_of_fmap_2). rewrite (bool_decide_true _ Hfst). cbn. by rewrite Hcu.
Qed.

Lemma associate_regs pr table i d regs0 gpre regs : ∀ md,
  dump_ok i d → pr !! i = Some (d, regs0) → (∀ r, r ∈ regs → r ∈ regs0) → regs_ok d regs →
  (∀ x, (x < length (fb_records d))%nat → table !! (length gpre + x)%nat =
     linked get (modules i) (length gpre) (fb_records d) (k_name <$> fb_kernels d) !! x) →
  all_named pr table md →
  ∃ md', associate_all (index_names (fb_records d) (length gpre) ∅) (gpre ++ (fb_records d).*2) regs md = Ok md' ∧
    all_named pr table md' ∧ dom md ∪ list_to_set regs.*1 ⊆ dom md'.
Proof.
  induction regs as [|[local n] regs IH]; intros md Hd Hpr Hsub Hok Htab Hmd; cbn [associate_all].
  { exists md. split_and!; [done|done|cbn; set_solver]. }
  apply Forall_cons in Hok as [Hn Hok]. cbn [snd] in Hn.
  destruct (associate_one pr table i d regs0 gpre local n md) as (md1 & -> & Hmd1 & Hdom1); try done.
  { apply Hsub. left. }
  cbn [mbind res_bind]. destruct (IH md1) as (md2 & -> & Hmd2 & Hdom2); try done.
  { intros r Hr. apply Hsub. by right. }
  exists md2. split_and!; [done|done|]. cbn. set_solver.
Qed.

Lemma guest_rest pr table rest : ∀ i gpre wpre md,
  memory_ok → drop i pr = rest → length gpre = length wpre →
  (∀ j d regs, pr !! j = Some (d, regs) → dump_ok j d ∧ regs_ok d regs) →
  table = expected get modules i rest.*1 wpre → all_named pr table md →
  ∃ gfuncs md', guest_program frames garbage i ((λ x, (arg_file (fb_records x.1), x.2)) <$> rest) gpre md = Ok (gfuncs, md') ∧
    all_named pr table md' ∧
    (∀ local, local ∈ dom md ∨ (∃ x, x ∈ rest ∧ local ∈ x.2.*1) → local ∈ dom md').
Proof.
  induction rest as [|[d regs] rest IH]; intros i gpre wpre md Hm Hdrop Hlen Hok Htab Hmd; cbn [fmap list_fmap guest_program fst snd].
  { exists gpre, md. split_and!; [done|done|]. intros l [?|(x & Hx%not_elem_of_nil & _)]; done. }
  assert (pr !! i = Some (d, regs)) as Hi.
  { rewrite <- (Nat.add_0_r i), <- lookup_drop, Hdrop. done. }
  destruct (Hok i d regs Hi) as [Hd Hregs]. pose proof Hd as (_ & _ & Hr & _). destruct Hm as [Hg Hfr].
  rewrite load_info_file by (done || apply Hg || apply Hfr). cbn [mbind res_bind].
  destruct (associate_regs pr table i d regs gpre regs md) as (md1 & -> & Hmd1 & Hdom1); try done.
  { intros x Hx. subst table. cbn [fmap list_fmap fst expected]. rewrite expected_prefix by (rewrite length_app, length_linked; lia).
    rewrite lookup_app_r by lia. rewrite Hlen. f_equal. lia. }
  cbn [mbind res_bind].
  destruct (IH (S i) (gpre ++ (fb_records d).*2)
              (wpre ++ linked get (modules i) (length wpre) (fb_records d) (k_name <$> fb_kernels d)) md1)
    as (gf & md2 & Hrun & Hmd2 & Hdom2); try done.
  { rewrite <- (Nat.add_1_r i), <- drop_drop, Hdrop. done. }
  { by rewrite !length_app, length_linked, length_fmap, Hlen. }
  exists gf, md2. split_and!; [done|done|]. intros l [Hl|(x & Hx & Hl)].
  - apply Hdom2. left. set_solver.
  - apply elem_of_cons in Hx as [->|Hx]; apply Hdom2; [left|right; by exists x]. apply Hdom1.
    apply elem_of_union_r, elem_of_list_to_set. exact Hl.
Qed.
End roundtrip.

(** A program with two fat binaries that share a kernel name. *)
Definition sample_function : fatbin_function := mk_ff 1 (mk_karg 0 4 :: replicate 24 (mk_karg 0 0)) 0 0 0.
Definition sample_dump (name : string) : fatbin_dump :=
  mk_dump [1; 2] [("_Z1fi", sample_function); (name, sample_function)]
    [mk_kernel "f" name (-1) None (Some (replicate 12 1)) None None None].
Definition sample_frames (_ : nat) : frame := mk_frame (replicate 8 7) [] (mk_lvars (replicate 8 7) (replicate 4 7) (replicate 4 7)).
Definition sample_memory (n : nat) : list Z := replicate n 9.
Definition sample_get (m : Z) (_ : string) : option Z := Some (100 + m).
Definition sample_header (b : list Z) : Z := Z.of_nat (length b).
Definition sample_load (i : nat) (_ : list Z) : option Z := Some (Z.of_nat i).

Lemma sample_memory_ok : memory_ok sample_frames sample_memory.
Proof. split; [intros n; apply length_replicate|by intros i]. Qed.

Lemma sample_dump_ok i name :
  no_nul name = true → Z.of_nat (S (String.length name)) < 1024 →
  dump_ok sample_get sample_header sample_load Z.of_nat i (sample_dump name).
Proof.
  intros Hn Hl. assert (function_wf sample_function) as Hf.
  { split_and!; try done. apply Forall_cons. split; [done|]. by apply Forall_replicate. }
  unfold dump_ok, sample_dump. cbn [fb_binary fb_records fb_kernels]. split_and!; try done.
  - rewrite !Forall_cons, Forall_nil. unfold record_wf. cbn [fst snd]. split_and!; done.
  - by rewrite !Forall_cons, Forall_nil.
  - rewrite !Forall_cons, Forall_nil. split; [|done]. unfold kernel_wf. cbn [k_fun k_name k_limit k_tid k_bid k_bdim k_gdim k_wsize].
    rewrite !Forall_cons, Forall_nil. split_and!; try done. lia.
  - rewrite !Forall_cons, Forall_nil. split; [|done]. cbn. split; [set_solver|by eexists].
Qed.

(** Loading undoes dumping: if the first fat binary of a program registers a kernel, the worker that
    loads the files of the dump ends with exactly the table of the program.  It holds the argument
    sizes of every kernel of every fat binary, in order, and the first kernel of each registered
    name is linked to the function the CUDA driver has for that name in the module of its own fat
    binary; neither the uninitialised variables of the loader nor the end of the file matter. *)
Theorem dump_load_roundtrip (frames : nat → frame) (garbage : nat → list Z) (get : Z → string → option Z)
    (header : list Z → Z) (load_module : nat → list Z → option Z) (modules : nat → Z)
    (d : fatbin_dump) (p : list fatbin_dump) (file : list Z) :
  memory_ok frames garbage →
  (∀ j e, (d :: p) !! j = Some e → dump_ok get header load_module modules j e) →
  fb_kernels d ≠ [] → dump_program (fb_kernels <$> d :: p) = Some file →
  ∃ fd, load_program frames garbage get header load_module 0 (files <$> d :: p) (Some file) [] =
    Ok (expected get modules 0 (d :: p) [], fd).
Proof.
  intros Hm Hd Hne Hf. cbn [fmap list_fmap] in Hf. rewrite dump_program_bytes in Hf by done.
  injection Hf as <-. by apply load_rest.
Qed.

Lemma dump_load_roundtrip_witness :
  ∃ file fd, dump_program (fb_kernels <$> [sample_dump "_Z1gi"; sample_dump "_Z1fi"]) = Some file ∧
    load_program sample_frames sample_memory sample_get sample_header sample_load 0
      (files <$> [sample_dump "_Z1gi"; sample_dump "_Z1fi"]) (Some file) [] =
      Ok (expected sample_get Z.of_nat 0 [sample_dump "_Z1gi"; sample_dump "_Z1fi"] [], fd) ∧
    hostfunc <$> expected sample_get Z.of_nat 0 [sample_dump "_Z1gi"; sample_dump "_Z1fi"] [] = [0; 2; 3; 0].
Proof.
  eexists.
  edestruct (dump_load_roundtrip sample_frames sample_memory sample_get sample_header sample_load Z.of_nat
    (sample_dump "_Z1gi") [sample_dump "_Z1fi"]) as (fd & Hl).
  - apply sample_memory_ok.
  - intros [|[|j]] e [= <-]; by apply sample_dump_ok.
  - done.
  - reflexivity.
  - exists fd. split; [reflexivity|]. split; [exact Hl|]. vm_compute. reflexivity.
Defined.

(** Guest and worker agree on kernels: when both load the dump of a program, every host function the
    guest registers has an identifier, and the entry of the worker's table with that identifier is
    linked to the function of the registered name in the module of its fat binary, with the
    argument sizes the guest marshals by. *)
Theorem guest_and_worker_agree (frames : nat → frame) (garbage : nat → list Z) (get : Z → string → option Z)
    (header : list Z → Z) (load_module : nat → list Z → option Z) (modules : nat → Z)
    (d : fatbin_dump) (regs : list (Z * string)) (pr : list (fatbin_dump * list (Z * string))) (file : list Z) :
  memory_ok frames garbage →
  (∀ j e rg, ((d, regs) :: pr) !! j = Some (e, rg) → dump_ok get header load_module modules j e ∧ regs_ok e rg) →
  fb_kernels d ≠ [] → dump_program (fb_kernels <$> d :: pr.*1) = Some file →
  ∃ gfuncs md table fd,
    guest_program frames garbage 0 ((λ x, (arg_file (fb_records x.1), x.2)) <$> (d, regs) :: pr) [] ∅ = Ok (gfuncs, md) ∧
    load_program frames garbage get header load_module 0 (files <$> d :: pr.*1) (Some file) [] = Ok (table, fd) ∧
    (∀ x local, x ∈ (d, regs) :: pr → local ∈ x.2.*1 → is_Some (md !! local)) ∧
    all_named get modules ((d, regs) :: pr) table md.
Proof.
  intros Hm Hok Hne Hf. cbn [fmap list_fmap] in Hf. rewrite dump_program_bytes in Hf by done. injection Hf as <-.
  destruct (load_rest frames garbage get header load_module modules pr.*1 0 d [] Hm) as (fd & Hload).
  { intros j e Hj. change (d :: pr.*1) with (((d, regs) :: pr).*1) in Hj.
    apply list_lookup_fmap_Some in Hj as ([e' rg] & -> & Hj). by apply (Hok j e' rg). }
  destruct (guest_rest frames garbage get header load_module modules ((d, regs) :: pr)
    (expected get modules 0 (d :: pr.*1) []) ((d, regs) :: pr) 0 [] [] ∅) as (gf & md & Hg & Hn & Hdom); try done.
  exists gf, md, (expected get modules 0 (d :: pr.*1) []), fd. split_and!; try done.
  intros x local Hx Hl. apply elem_of_dom, Hdom. right. by exists x.
Qed.

Lemma guest_and_worker_agree_witness :
  ∃ gfuncs md table,
    guest_program sample_frames sample_memory 0
      ((λ x, (arg_file (fb_records x.1), x.2)) <$> [(sample_dump "_Z1gi", [(1000, "_Z1gi")]); (sample_dump "_Z1fi", [(2000, "_Z1fi")])])
      [] ∅ = Ok (gfuncs, md) ∧
    names_kernel sample_get Z.of_nat [(sample_dump "_Z1gi", [(1000, "_Z1gi")]); (sample_dump "_Z1fi", [(2000, "_Z1fi")])]
      table 2000 3 sample_function.
Proof.
  edestruct (guest_and_worker_agree sample_frames sample_memory sample_get sample_header sample_load Z.of_nat
    (sample_dump "_Z1gi") [(1000, "_Z1gi")] [(sample_dump "_Z1fi", [(2000, "_Z1fi")])])
    as (gf & md & table & fd & Hg & _ & _ & Hn).
  - apply sample_memory_ok.
  - intros [|[|j]] e rg [= <- <-]; (split; [by apply sample_dump_ok|]); apply Forall_singleton; cbn; set_solver.
  - done.
  - reflexivity.
  - exists gf, md, table. split; [exact Hg|]. apply Hn.
    vm_compute in Hg. injection Hg as _ <-. reflexivity.
Defined.

(** Finding.  A program whose first fat binary registers no kernel is dumped as if it had only the
    others: the separator is missing, because the common file is opened by the first kernel. *)
Theorem first_separator_missing (kss : list (list kernel)) :
  dump_program ([] :: kss) = dump_program kss.
Proof. done. Qed.

(** The loader of such a dump stops: it takes the kernels of the second fat binary for kernels of
    the first. *)
Lemma first_separator_missing_stops :
  ∃ file, dump_program [[]; fb_kernels (sample_dump "_Z1gi")] = Some file ∧
    load_program sample_frames sample_memory sample_get sample_header sample_load 0
      [([1; 2], arg_file [("_Z1hi", sample_function)]); files (sample_dump "_Z1gi")] (Some file) [] =
      Stop (AssertFailed "func_id != NULL").
Proof. eexists. split; [reflexivity|]. vm_compute. reflexivity. Qed.
