(* ===== verification/Preload.v ===== *)
(** * Preloaded CUDA dumps: writing, combining and loading a directory
      (cava/samples/tensorflow/tf_dump.c, tools/dump_combinator/dump_combinator.cpp,
      cava/samples/tensorflow/tf_opt.c)

    A dump directory has, besides the files of [KernelDump], a file with the number of fat binaries
    and their wrappers.  TensorFlow is dumped once ([tf_dump.c]); dumps of several runs are put
    together by [dump_combinator]; guest library and worker load the result when they start
    ([tf_opt.c]).  The three directories of a combination are distinct; [malloc] succeeds. *)

From S2P Require Import Prelude CString Fatbin KernelDump.
Local Open Scope Z_scope.

(** ** Directories and descriptors *)

(** [fatbin-info.ava], [fatbin-<i>.ava], [function_arg-<i>.ava], [fatfunction.ava]. *)
Record dir := mk_dir {
  d_info : list Z;
  d_fatbins : gmap nat (list Z);
  d_args : gmap nat (list Z);
  d_functions : option (list Z)
}.
Definition empty_dir : dir := mk_dir [] ∅ ∅ None.

(** A descriptor variable: 0, what is left of an open file, or closed (reads fail). *)
Inductive fdesc := Unopened | Opened (rest : list Z) | Closed.

Definition open_functions (d : dir) (fd : fdesc) : fdesc :=
  match fd with
  | Unopened => match d_functions d with Some f => Opened f | None => Closed end
  | _ => fd
  end.

Definition sizeof_wrapper : nat := 24.
(** The counter is written at the start, the wrapper at the end. *)
Definition write_info (count : nat) (wrapper info : list Z) : list Z :=
  (le_bytes 4 (Z.of_nat count) ++ drop 4 info) ++ wrapper.

(** ** Writing: [tf_dump.c] in the worker *)

(** What happens to the directory when fat binary [num] is registered; [records] is what
    [cuobjdump] says of its kernels. *)
Definition tf_dump_fatbin (num : nat) (wrapper fatbin : list Z) (records : list (string * fatbin_function))
    (d : dir) : dir :=
  mk_dir (write_info (S num) wrapper (d_info d)) (<[num := fatbin]> (d_fatbins d))
    (<[num := arg_file records]> (d_args d)) (dump_separator (d_functions d)).

Definition tf_dump_function (d : dir) (k : kernel) : dir :=
  mk_dir (d_info d) (d_fatbins d) (d_args d) (__helper_dump_cuda_function k (d_functions d)).

(** The run that is dumped: every fat binary with its wrapper. *)
Fixpoint tf_dump_program (num : nat) (p : list (list Z * fatbin_dump)) (d : dir) : dir :=
  match p with
  | [] => d
  | (w, b) :: p =>
      tf_dump_program (S num) p
        (foldl tf_dump_function (tf_dump_fatbin num w (fb_binary b) (fb_records b) d) (fb_kernels b))
  end.

(** ** Combining: [dump_combinator.cpp] *)

(** [read_all]: the variable, the descriptor, and what the last [read] returned.  At the end of the
    file that is 0 also when part of the variable was read; for length 0 it is uninitialised. *)
Definition read_all (n : nat) (old : list Z) (fd : fdesc) : res (list Z * fdesc * Z) :=
  if (n =? 0)%nat then Stop (Undefined "read_all: ret is not initialised")
  else match fd with
       | Opened f =>
           let '(v, rest) := read_var n old f in
           Ok (v, Opened rest, if (n <=? length f)%nat then Z.of_nat n else 0)
       | _ => Ok (old, fd, -1)
       end.

(** Read and, on success, write. *)
Definition copy (n : nat) (old : list Z) (st : fdesc * list Z) : res (list Z * (fdesc * list Z)) :=
  '(v, fd, ret) ← read_all n old (fst st);
  if ret =? -1 then Stop (Exited 1) else Ok (v, (fd, snd st ++ v)).

(** [exists] and the struct, if there is one. *)
Definition copy_opt (n : nat) (garbage : nat → list Z) (e : list Z) (st : fdesc * list Z)
    : res (list Z * (fdesc * list Z)) :=
  '(e, st) ← copy 4 e st;
  if le_num e =? 0 then Ok (e, st)
  else '(_, st) ← copy n (garbage n) st; Ok (e, st).

(** One kernel, after its first size was read: its name and the variables. *)
Definition copy_kernel (garbage : nat → list Z) (v : lvars) (fd : fdesc) (out : list Z)
    : res (list Z * lvars * (fdesc * list Z)) :=
  let size := v_size v in
  let n := Z.to_nat (le_num size) in
  '(deviceFun, fd, ret) ← read_all n (garbage n) fd;
  if ret =? -1 then Stop (Exited 1)
  else
    let st := (fd, (out ++ size) ++ deviceFun) in
    '(size, st) ← copy 8 size st;
    let n := Z.to_nat (le_num size) in
    '(deviceName, st) ← copy n (garbage n) st;
    '(limit, st) ← copy 4 (v_limit v) st;
    '(e, st) ← copy_opt 12 garbage (v_exists v) st;
    '(e, st) ← copy_opt 12 garbage e st;
    '(e, st) ← copy_opt 12 garbage e st;
    '(e, st) ← copy_opt 12 garbage e st;
    '(e, st) ← copy_opt 4 garbage e st;
    Ok (deviceName, mk_lvars size e limit, st).

Fixpoint copy_loop (fuel : nat) (garbage : nat → list Z) (ht : name_table) (v : lvars) (fd : fdesc)
    (out : list Z) : res (fdesc * list Z) :=
  match fuel with
  | O => Stop (Undefined "copy_loop: out of fuel")
  | S fuel =>
      '(size, fd, ret) ← read_all 8 (v_size v) fd;
      if ret =? 0 then Ok (Closed, out)
      else if le_num size =? 0 then Ok (fd, out)
      else if ret =? -1 then Stop (Exited 1)
      else
        '(name, v, (fd, out)) ← copy_kernel garbage (mk_lvars size (v_exists v) (v_limit v)) fd out;
        match c_string name with
        | None => Stop (Undefined "deviceName not terminated")
        | Some n =>
            _ ← c_assert (bool_decide (is_Some (ht !! n))) "func_id should not be NULL";
            copy_loop fuel garbage ht v fd out
        end
  end.

(** [__helper_load_function_arg_info]: what is read is put in the table and written again. *)
Fixpoint copy_args (fuel : nat) (name_size func_name garbage : list Z) (fd : fdesc) (out : list Z)
    (funcs : list fatbin_function) (ht : name_table)
    : res (list Z * list fatbin_function * name_table) :=
  match fuel with
  | O => Stop (Undefined "copy_args: out of fuel")
  | S fuel =>
      '(name_size, fd, ret) ← read_all 8 name_size fd;
      if ret =? 0 then Ok (out, funcs, ht)
      else if ret =? -1 then Stop (Exited 1)
      else
        _ ← c_assert (le_num name_size <? MAX_KERNEL_NAME_LEN) "name_size >= MAX_KERNEL_NAME_LEN";
        '(func_name, fd, ret) ← read_all (Z.to_nat (le_num name_size)) func_name fd;
        if ret =? -1 then Stop (Exited 1)
        else
          '(func, fd, ret) ← read_all sizeof_fatbin_function garbage fd;
          if ret =? -1 then Stop (Exited 1)
          else
            let funcs := funcs ++ [function_of_bytes func] in
            match c_string func_name with
            | None => Stop (Undefined "func_name not terminated")
            | Some name =>
                let ht := match ht !! name with
                          | None => <[name := Z.of_nat (length funcs)]> ht
                          | Some _ => ht
                          end in
                copy_args fuel name_size func_name garbage fd
                  (out ++ name_size ++ take (Z.to_nat (le_num name_size)) func_name ++ func) funcs ht
            end
  end.

(** The globals of the tool, and the directory it writes. *)
Record tool := mk_tool {
  t_load : fdesc;
  t_dumping : bool;
  t_num : nat;
  t_funcs : list fatbin_function;
  t_out : dir
}.

(** [wp->ptr = fatbin]. *)
Definition set_ptr (addr : Z) (w : list Z) : list Z := take 8 w ++ le_bytes 8 addr ++ drop 16 w.

(** [__helper_load_and_dump_fatbin] without [malloc]: [addr] is where the binary was read to.  The
    local variables of the loop start at 0 but for [thread_limit]. *)
Definition __helper_load_and_dump_fatbin (fr : frame) (garbage : nat → list Z) (header : list Z → Z)
    (addr : Z) (load : dir) (fatbin_num : nat) (wrapper : list Z) (t : tool) : res tool :=
  match d_fatbins load !! fatbin_num with
  | None => Stop (Undefined "fstat of a file that is not open")
  | Some fatbin =>
      _ ← c_assert (Z.of_nat (length fatbin) =? header fatbin) "fatbin size is wrong";
      let o := t_out t in
      let functions := if t_dumping t then default [] (d_functions o) else [] in
      '(args_out, funcs, ht) ← copy_args (S (length (default [] (d_args load !! fatbin_num))))
          (le_bytes 8 0) (fr_name fr) (garbage sizeof_fatbin_function)
          (match d_args load !! fatbin_num with Some f => Opened f | None => Closed end) [] (t_funcs t) ∅;
      let fd := open_functions load (t_load t) in
      '(fd, functions) ← copy_loop (S (match fd with Opened f => length f | _ => 0%nat end)) garbage ht
          (mk_lvars (le_bytes 8 0) (le_bytes 4 0) (v_limit (fr_vars fr))) fd functions;
      Ok (mk_tool fd true (S (t_num t)) funcs
            (mk_dir (write_info (S (t_num t)) (set_ptr addr wrapper) (d_info o))
               (<[t_num t := fatbin]> (d_fatbins o)) (<[t_num t := args_out]> (d_args o))
               (Some (functions ++ le_bytes 8 0))))
  end.

(** [for (i = 0; i < fatbin_num; i++)]. *)
Fixpoint load_dump_loop (frames : nat → frame) (garbage : nat → list Z) (header : list Z → Z)
    (addr : nat → Z) (load : dir) (todo i : nat) (fd : fdesc) (t : tool) : res tool :=
  match todo with
  | O => Ok t
  | S todo =>
      '(w, fd, _) ← read_all sizeof_wrapper (garbage sizeof_wrapper) fd;
      t ← __helper_load_and_dump_fatbin (frames (t_num t)) garbage header (addr (t_num t)) load i w t;
      load_dump_loop frames garbage header addr load todo (S i) fd t
  end.

Definition load_dump_fatbin (frames : nat → frame) (garbage : nat → list Z) (header : list Z → Z)
    (addr : nat → Z) (load : dir) (t : tool) : res tool :=
  '(n, fd, _) ← read_all 4 (le_bytes 4 0) (Opened (d_info load));
  t ← load_dump_loop frames garbage header addr load (Z.to_nat (signed 32 (le_num n))) 0 fd t;
  Ok (mk_tool Unopened (t_dumping t) (t_num t) (t_funcs t) (t_out t)).

(** [main] with three arguments, into an empty directory. *)
Definition dump_combinator (frames : nat → frame) (garbage : nat → list Z) (header : list Z → Z)
    (addr : nat → Z) (load_dir1 load_dir2 : dir) : res dir :=
  t ← load_dump_fatbin frames garbage header addr load_dir1 (mk_tool Unopened false 0 [] empty_dir);
  t ← load_dump_fatbin frames garbage header addr load_dir2 t;
  Ok (t_out t).

(** ** Loading: [tf_opt.c] *)

Definition CUDA_ERROR_NO_BINARY_FOR_GPU : Z := 209.

(** [__helper_init_module]: the driver gives a module, or an error and leaves [mod] NULL. *)
Definition __helper_init_module (loaded : Z + Z) : res Z :=
  match loaded with
  | inr module => Ok module
  | inl ret =>
      _ ← c_assert (ret =? CUDA_ERROR_NO_BINARY_FOR_GPU) "Module load failed";
      Ok NULL
  end.

(** [__helper_register_function] of [tf_opt.c]: without a module nothing is linked. *)
Definition tf_register_function (get : Z → string → option Z) (module id : Z) (name : string)
    (f : fatbin_function) : res fatbin_function :=
  if module =? NULL then Ok f else __helper_register_function get module id name f.

Definition tf_register_by_name (get : Z → string → option Z) (module : Z) (ht : name_table)
    (name : list Z) (funcs : list fatbin_function) : res (list fatbin_function) :=
  match c_string name with
  | None => Stop (Undefined "deviceName not terminated")
  | Some n =>
      match ht !! n with
      | None => Stop (AssertFailed "func_id should not be NULL")
      | Some id =>
          match funcs !! Z.to_nat (id - 1) with
          | None => Stop (Undefined "fatbin_funcs[func_id]")
          | Some f => f ← tf_register_function get module id n f; Ok (<[Z.to_nat (id - 1) := f]> funcs)
          end
      end
  end.

(** The loop of [__helper_load_and_register_fatbin]: the end of the file is looked at before the
    separator, and a failed read ends the worker. *)
Fixpoint tf_load_loop (fuel : nat) (garbage : nat → list Z) (get : Z → string → option Z) (module : Z)
    (ht : name_table) (v : lvars) (fd : fdesc) (funcs : list fatbin_function)
    : res (list fatbin_function * fdesc) :=
  match fuel with
  | O => Stop (Undefined "tf_load_loop: out of fuel")
  | S fuel =>
      match fd with
      | Opened file =>
          let '(size, rest) := read_var 8 (v_size v) file in
          if (length (take 8 file) =? 0)%nat then Ok (funcs, Closed)
          else if le_num size =? 0 then Ok (funcs, Opened rest)
          else
            let '(_, name, _, v, rest) := read_kernel garbage (mk_lvars size (v_exists v) (v_limit v)) rest in
            funcs ← tf_register_by_name get module ht name funcs;
            tf_load_loop fuel garbage get module ht v (Opened rest) funcs
      | _ => Stop (Exited 1)
      end
  end.

Definition tf_load_and_register_fatbin (fr : frame) (garbage : nat → list Z) (get : Z → string → option Z)
    (header : list Z → Z) (load_module : list Z → Z + Z) (d : dir) (num : nat) (fd : fdesc)
    (funcs : list fatbin_function) : res (list fatbin_function * fdesc) :=
  match d_fatbins d !! num with
  | None => Stop (Exited 1)
  | Some fatbin =>
      _ ← c_assert (Z.of_nat (length fatbin) =? header fatbin) "fatbin size is wrong";
      module ← __helper_init_module (load_module fatbin);
      match d_args d !! num with
      | None => Stop (Exited 1)
      | Some a =>
          '(funcs, ht) ← __helper_load_function_arg_info (fr_size fr) (fr_name fr)
                           (garbage sizeof_fatbin_function) a funcs;
          let fd := open_functions d fd in
          tf_load_loop (S (match fd with Opened f => length f | _ => 0%nat end)) garbage get module ht
            (fr_vars fr) fd funcs
      end
  end.

Fixpoint worker_loop (frames : nat → frame) (garbage : nat → list Z) (get : Z → string → option Z)
    (header : list Z → Z) (load_module : nat → list Z → Z + Z) (d : dir) (todo num : nat) (fd : fdesc)
    (funcs : list fatbin_function) : res (list fatbin_function) :=
  match todo with
  | O => Ok funcs
  | S todo =>
      '(funcs, fd) ← tf_load_and_register_fatbin (frames num) garbage get header (load_module num) d num fd funcs;
      worker_loop frames garbage get header load_module d todo (S num) fd funcs
  end.

(** The part of [__helper_worker_init_epilogue] that preloads; a wrapper is read and only handed to
    the native library. *)
Definition __helper_worker_init_epilogue (frames : nat → frame) (garbage : nat → list Z)
    (get : Z → string → option Z) (header : list Z → Z) (load_module : nat → list Z → Z + Z)
    (d : dir) : res (list fatbin_function) :=
  let '(n, _) := read_var 4 (garbage 4%nat) (d_info d) in
  worker_loop frames garbage get header load_module d (Z.to_nat (signed 32 (le_num n))) 0 Unopened [].

(** The guest keeps one table of names for all fat binaries. *)
Definition __helper_load_function_arg_info_guest (fr : frame) (garbage : nat → list Z) (d : dir) (num : nat)
    (funcs : list fatbin_function) (ht : name_table) : res (list fatbin_function * name_table) :=
  match d_args d !! num with
  | None => Stop (Exited 1)
  | Some a => load_args (S (length a)) (fr_size fr) (fr_name fr) (garbage sizeof_fatbin_function) a funcs ht
  end.

Fixpoint guest_loop (frames : nat → frame) (garbage : nat → list Z) (d : dir) (todo num : nat)
    (funcs : list fatbin_function) (ht : name_table) : res (list fatbin_function * name_table) :=
  match todo with
  | O => Ok (funcs, ht)
  | S todo =>
      '(funcs, ht) ← __helper_load_function_arg_info_guest (frames num) garbage d num funcs ht;
      guest_loop frames garbage d todo (S num) funcs ht
  end.

(** The part of [__helper_guestlib_init_prologue] that preloads (AVA_PRELOAD_CUBIN). *)
Definition __helper_guestlib_init_prologue (frames : nat → frame) (garbage : nat → list Z) (d : dir)
    : res (list fatbin_function * name_table) :=
  let '(n, _) := read_var 4 (garbage 4%nat) (d_info d) in
  guest_loop frames garbage d (Z.to_nat (signed 32 (le_num n))) 0 [] ∅.

(** ** Lemmas: copying *)

Lemma read_all_app n old a b :
  n ≠ 0%nat → length a = n → read_all n old (Opened (a ++ b)) = Ok (a ++ drop n old, Opened b, Z.of_nat n).
Proof.
  intros Hn Ha. unfold read_all. rewrite (proj2 (Nat.eqb_neq _ _) Hn), read_var_app by done.
  by rewrite (proj2 (Nat.leb_le _ _)) by (rewrite length_app; lia).
Qed.

Lemma read_all_exact n old a b :
  n ≠ 0%nat → length a = n → length old = n → read_all n old (Opened (a ++ b)) = Ok (a, Opened b, Z.of_nat n).
Proof. intros Hn Ha Ho. rewrite read_all_app by done. by rewrite drop_ge, app_nil_r by lia. Qed.

Lemma copy_exact n old a b out :
  n ≠ 0%nat → length a = n → length old = n → copy n old (Opened (a ++ b), out) = Ok (a, (Opened b, out ++ a)).
Proof.
  intros Hn Ha Ho. unfold copy. cbn [fst snd]. rewrite read_all_exact by done. cbn [mbind res_bind].
  by rewrite (proj2 (Z.eqb_neq _ _)) by lia.
Qed.

Lemma length_flag o : length (flag o) = 4%nat.
Proof. apply length_le_bytes. Qed.

Lemma copy_opt_spec n garbage e o rest out :
  n ≠ 0%nat → length e = 4%nat → length (garbage n) = n → from_option (λ b, length b = n) True o →
  copy_opt n garbage e (Opened (opt_bytes o ++ rest), out) = Ok (flag o, (Opened rest, out ++ opt_bytes o)).
Proof.
  intros Hn He Hg Ho. unfold copy_opt, flag. destruct o as [b|]; cbn [opt_bytes from_option] in *.
  - rewrite <- app_assoc, copy_exact by (done || by rewrite ?length_le_bytes). cbn [mbind res_bind].
    change (le_num (le_bytes 4 1) =? 0) with false. cbv iota. rewrite copy_exact by done. cbn [mbind res_bind].
    by rewrite <- app_assoc.
  - by rewrite copy_exact by (done || by rewrite ?length_le_bytes).
Qed.

Lemma copy_kernel_spec garbage v k rest out :
  kernel_wf k → (∀ n, length (garbage n) = n) → vars_ok v →
  v_size v = le_bytes 8 (Z.of_nat (S (String.length (k_fun k)))) →
  copy_kernel garbage v (Opened (kernel_tail k ++ rest)) out =
    Ok (cstr_bytes (k_name k), kernel_vars k, (Opened rest, out ++ kernel_bytes k)).
Proof.
  intros (Hn1 & Hn2 & Hl1 & Hl2 & Hlim & Hopts & Hw) Hg (V1 & V2 & V3) Hsz. unfold copy_kernel. rewrite Hsz.
  rewrite !Forall_cons in Hopts. destruct Hopts as (O1 & O2 & O3 & O4 & _).
  unfold kernel_tail. rewrite <- !app_assoc. rewrite le_num_u64 by (unfold in_range; lia). rewrite Nat2Z.id.
  rewrite read_all_exact by (done || by rewrite ?length_cstr, ?Hg). cbn [mbind res_bind].
  rewrite (proj2 (Z.eqb_neq _ _)) by lia.
  rewrite copy_exact by (done || apply length_le_bytes). cbn [mbind res_bind].
  rewrite le_num_u64 by (unfold in_range; lia). rewrite Nat2Z.id.
  rewrite copy_exact by (done || by rewrite ?length_cstr, ?Hg). cbn [mbind res_bind].
  rewrite copy_exact by (done || apply length_le_bytes). cbn [mbind res_bind].
  do 5 (rewrite copy_opt_spec by (done || apply Hg || apply length_flag); cbn [mbind res_bind]).
  unfold kernel_bytes, kernel_vars. by rewrite <- !app_assoc.
Qed.

Lemma copy_loop_kernels garbage ht ks : ∀ v fuel rest out,
  (∀ n, length (garbage n) = n) → Forall kernel_wf ks → vars_ok v → Forall (λ k, is_Some (ht !! k_name k)) ks →
  copy_loop (length ks + fuel) garbage ht v (Opened (kernels_bytes ks ++ rest)) out =
    copy_loop fuel garbage ht (default v (kernel_vars <$> last ks)) (Opened rest) (out ++ kernels_bytes ks).
Proof.
  induction ks as [|k ks IH]; intros v fuel rest out Hg Hwf Hv Hht; [by rewrite app_nil_r|].
  apply Forall_cons in Hwf as [Hk Hwf]. apply Forall_cons in Hht as [Hn Hht].
  pose proof Hk as (_ & Hnul & Hl1 & Hl2 & _). pose proof Hv as (V1 & V2 & V3).
  cbn [length Nat.add copy_loop]. rewrite kernels_bytes_cons, kernel_bytes_tail, <- !app_assoc.
  rewrite read_all_exact by (done || apply length_le_bytes). cbn [mbind res_bind].
  rewrite le_num_u64 by (unfold in_range; lia). rewrite !(proj2 (Z.eqb_neq _ _)) by lia.
  rewrite copy_kernel_spec by (done || by split_and!; cbn; rewrite ?length_le_bytes). cbn [mbind res_bind].
  rewrite <- (app_nil_r (cstr_bytes (k_name k))), c_string_bytes by done. rewrite (bool_decide_true _ Hn). cbn [c_assert mbind res_bind].
  rewrite IH by (done || apply kernel_vars_ok). rewrite kernel_bytes_tail, <- !app_assoc. f_equal.
  rewrite last_cons. by destruct (last ks).
Qed.

(** What a section of the common file ends with. *)
Lemma copy_section garbage ht ks v fuel rest out :
  (∀ n, length (garbage n) = n) → Forall kernel_wf ks → vars_ok v → Forall (λ k, is_Some (ht !! k_name k)) ks →
  (length ks < fuel)%nat → (rest = [] ∨ ∃ rest', rest = separator ++ rest') →
  copy_loop fuel garbage ht v (Opened (kernels_bytes ks ++ rest)) out =
    Ok (if rest is [] then Closed else Opened (drop 8 rest), out ++ kernels_bytes ks).
Proof.
  intros Hg Hwf Hv Hht Hf Hrest. replace fuel with (length ks + S (fuel - S (length ks)))%nat by lia.
  rewrite copy_loop_kernels by done. cbn [copy_loop]. destruct Hrest as [->|(rest' & ->)].
  - unfold read_all. by cbn.
  - rewrite read_all_exact; [done|done|apply length_le_bytes|]. destruct (last ks); cbn; [done|apply Hv].
Qed.

Lemma copy_args_file rs : ∀ fuel name_size func_name garbage out funcs ht,
  Forall record_wf rs → (length rs < fuel)%nat → length name_size = 8%nat →
  length garbage = sizeof_fatbin_function →
  copy_args fuel name_size func_name garbage (Opened (arg_file rs)) out funcs ht =
    Ok (out ++ arg_file rs, funcs ++ rs.*2, index_names rs (length funcs) ht).
Proof.
  induction rs as [|[name f] rs IH]; intros fuel name_size func_name garbage out funcs ht Hwf Hf Hns Hg;
    (destruct fuel as [|fuel]; [cbn in Hf; lia|]); cbn [copy_args].
  { cbn. by rewrite !app_nil_r. }
  apply Forall_cons in Hwf as [(Hnul & Hlen & Hfw) Hwf]. cbn [fst snd] in *. unfold MAX_KERNEL_NAME_LEN in *.
  change (arg_file ((name, f) :: rs)) with (arg_record (name, f) ++ arg_file rs).
  unfold arg_record. cbn [fst snd]. rewrite <- !app_assoc.
  rewrite read_all_exact by (done || apply length_le_bytes). cbn [mbind res_bind].
  rewrite !(proj2 (Z.eqb_neq _ _)) by lia. rewrite le_num_u64 by (unfold in_range; lia).
  rewrite (proj2 (Z.ltb_lt _ _)) by lia. cbn [c_assert mbind res_bind]. rewrite Nat2Z.id.
  rewrite read_all_app by (done || apply length_cstr). cbn [mbind res_bind]. rewrite (proj2 (Z.eqb_neq _ _)) by lia.
  rewrite read_all_exact by (done || by apply length_function_bytes). cbn [mbind res_bind].
  rewrite (proj2 (Z.eqb_neq _ _)) by (unfold sizeof_fatbin_function; lia).
  rewrite c_string_bytes, function_roundtrip by done. rewrite take_app_length' by (by rewrite length_cstr).
  rewrite IH by (done || cbn in Hf; lia || by rewrite length_le_bytes).
  rewrite length_app. cbn [length index_names fst]. rewrite Nat.add_1_r. by rewrite <- !app_assoc.
Qed.

(** ** What a directory holds *)

(** The common file: the kernels of each fat binary, with separators between them; the combination
    tool also writes one at the end. *)
Definition functions_of (f : option (list Z)) (p : list fatbin_dump) : Prop :=
  match p with
  | [] => True
  | b :: p => ∃ trail, (trail = [] ∨ trail = separator) ∧
      f = Some (kernels_bytes (fb_kernels b) ++ separated (fb_kernels <$> p) ++ trail)
  end.

Definition files_of (d : dir) (p : list fatbin_dump) : Prop :=
  ∀ i b, p !! i = Some b → d_fatbins d !! i = Some (fb_binary b) ∧ d_args d !! i = Some (arg_file (fb_records b)).

Definition info_of (info : list Z) (n : nat) : Prop :=
  ∃ ws, info = le_bytes 4 (Z.of_nat n) ++ ws ∧ length ws = (sizeof_wrapper * n)%nat.

Definition holds (d : dir) (p : list fatbin_dump) : Prop :=
  info_of (d_info d) (length p) ∧ Z.of_nat (length p) < 2 ^ 31 ∧ files_of d p ∧ functions_of (d_functions d) p.

(** A dump the tool can copy. *)
Definition copyable (header : list Z → Z) (b : fatbin_dump) : Prop :=
  Z.of_nat (length (fb_binary b)) = header (fb_binary b) ∧
  Forall record_wf (fb_records b) ∧ Forall kernel_wf (fb_kernels b) ∧
  Forall (λ k, k_name k ∈ (fb_records b).*1) (fb_kernels b).

Lemma count_read n (garbage ws : list Z) :
  Z.of_nat n < 2 ^ 31 → length garbage = 4%nat →
  read_var 4 garbage (le_bytes 4 (Z.of_nat n) ++ ws) = (le_bytes 4 (Z.of_nat n), ws) ∧
  Z.to_nat (signed 32 (le_num (le_bytes 4 (Z.of_nat n)))) = n.
Proof.
  intros Hn Hg. split; [by rewrite read_var_exact by (done || apply length_le_bytes)|].
  rewrite le_num_bytes. change (Z.of_nat n mod 256 ^ Z.of_nat 4) with (wrap 32 (Z.of_nat n)).
  rewrite (wrap_signed 32 (Z.of_nat n)) by (unfold in_srange; lia). apply Nat2Z.id.
Qed.

Lemma write_info_of n w info :
  (if n is O then info = [] else info_of info n) → length w = sizeof_wrapper → info_of (write_info (S n) w info) (S n).
Proof.
  intros Hi Hw. unfold write_info. destruct n as [|n].
  - subst info. exists w. rewrite drop_nil, app_nil_r. split; [done|]. rewrite Hw. done.
  - destruct Hi as (ws & -> & Hl). exists (ws ++ w). rewrite drop_app_length' by by rewrite length_le_bytes.
    rewrite <- app_assoc. split; [done|]. rewrite length_app, Hl, Hw. unfold sizeof_wrapper. lia.
Qed.

Lemma files_snoc d1 d2 p b :
  files_of d1 p →
  d_fatbins d2 = <[length p := fb_binary b]> (d_fatbins d1) →
  d_args d2 = <[length p := arg_file (fb_records b)]> (d_args d1) →
  files_of d2 (p ++ [b]).
Proof.
  intros Hf H1 H2 i x Hi. rewrite H1, H2. apply lookup_app_Some in Hi as [Hi|[Hl Hi]].
  - pose proof (lookup_lt_Some _ _ _ Hi). rewrite !lookup_insert_ne by lia. by apply Hf.
  - destruct (i - length p)%nat eqn:He; [|done]. injection Hi as ->. replace i with (length p) by lia.
    by rewrite !lookup_insert_eq.
Qed.

(** *** The dump *)

Definition dumped (d : dir) (p : list fatbin_dump) : Prop :=
  (if length p is O then d_info d = [] else info_of (d_info d) (length p)) ∧ files_of d p ∧
  d_functions d = dump_program (fb_kernels <$> p).

Lemma dump_functions ks : ∀ d,
  foldl tf_dump_function d ks =
    mk_dir (d_info d) (d_fatbins d) (d_args d) (foldl (λ fd k, __helper_dump_cuda_function k fd) (d_functions d) ks).
Proof. induction ks as [|k ks IH]; intros d; cbn [foldl]; [by destruct d|]. by rewrite IH. Qed.

Lemma tf_dump_all p : ∀ q d,
  dumped d q → Forall (λ wb, length (fst wb) = sizeof_wrapper) p →
  dumped (tf_dump_program (length q) p d) (q ++ p.*2).
Proof.
  induction p as [|[w b] p IH]; intros q d Hd Hw; cbn [tf_dump_program fmap list_fmap snd]; [by rewrite app_nil_r|].
  apply Forall_cons in Hw as [Hw0 Hw]. destruct Hd as (Hi & Hf & Hk).
  replace (S (length q)) with (length (q ++ [b])) by (rewrite length_app; cbn; lia).
  rewrite (cons_middle b q p.*2), app_assoc. apply IH; [|done]. rewrite dump_functions. split_and!; cbn [d_info d_functions].
  - rewrite length_app, Nat.add_1_r. by apply write_info_of.
  - by eapply files_snoc.
  - unfold tf_dump_fatbin. cbn [d_functions]. rewrite Hk, fmap_app. unfold dump_program. by rewrite foldl_app.
Qed.

Lemma tf_dump_holds w b p :
  Forall (λ wb, length (fst wb) = sizeof_wrapper) ((w, b) :: p) → fb_kernels b ≠ [] →
  Z.of_nat (S (length p)) < 2 ^ 31 →
  holds (tf_dump_program 0 ((w, b) :: p) empty_dir) (b :: p.*2).
Proof.
  intros Hw Hne Hl. pose proof (tf_dump_all ((w, b) :: p) [] empty_dir) as (Hi & Hf & Hk); [|done|].
  { split_and!; [done| |done]. intros i x Hx. by rewrite lookup_nil in Hx. }
  cbn [app fmap list_fmap snd] in Hi, Hf, Hk. split_and!; [exact Hi|cbn; by rewrite length_fmap|exact Hf|].
  exists []. split; [by left|]. rewrite app_nil_r. etrans; [exact Hk|]. by apply dump_program_bytes.
Qed.

(** *** The combination *)

Definition sections (p : list fatbin_dump) : list Z := mjoin ((λ b, kernels_bytes (fb_kernels b) ++ separator) <$> p).

Lemma sections_app p q : sections (p ++ q) = sections p ++ sections q.
Proof. unfold sections. by rewrite fmap_app, join_app. Qed.

Lemma sections_separated b p :
  sections (b :: p) = kernels_bytes (fb_kernels b) ++ separated (fb_kernels <$> p) ++ separator.
Proof.
  revert b. induction p as [|c p IH]; intros b.
  - unfold sections. cbn. by rewrite app_nil_r.
  - change (sections (b :: c :: p)) with ((kernels_bytes (fb_kernels b) ++ separator) ++ sections (c :: p)). rewrite IH.
    change (separated (fb_kernels <$> c :: p)) with ((separator ++ kernels_bytes (fb_kernels c)) ++ separated (fb_kernels <$> p)).
    by rewrite <- !app_assoc.
Qed.

(** The tool after it copied the fat binaries [q]. *)
Definition built (t : tool) (q : list fatbin_dump) : Prop :=
  t_num t = length q ∧ t_dumping t = negb (length q =? 0)%nat ∧
  (if length q is O then d_info (t_out t) = [] else info_of (d_info (t_out t)) (length q)) ∧
  files_of (t_out t) q ∧ (t_dumping t = true → d_functions (t_out t) = Some (sections q)).

Lemma built_holds t b q : built t (b :: q) → Z.of_nat (S (length q)) < 2 ^ 31 → holds (t_out t) (b :: q).
Proof.
  intros (_ & Hd & Hi & Hf & Hk) Hl. split_and!; [done|done|done|].
  exists separator. split; [by right|]. by rewrite <- sections_separated, Hk.
Qed.

Lemma index_names_all rs ks :
  Forall (λ k, k_name k ∈ rs.*1) ks → ∀ base, Forall (λ k, is_Some (index_names rs base ∅ !! k_name k)) ks.
Proof.
  intros Hks base. eapply Forall_impl; [exact Hks|]. intros k Hk. cbn in Hk.
  destruct (first_record rs _ Hk) as (i & f & Hi & Hf). rewrite (index_of_first rs base i _ f Hi Hf). by eexists.
Qed.

Lemma combine_one frames garbage header addr load i b w t q rest :
  memory_ok frames garbage → copyable header b → built t q → length w = sizeof_wrapper →
  d_fatbins load !! i = Some (fb_binary b) → d_args load !! i = Some (arg_file (fb_records b)) →
  open_functions load (t_load t) = Opened (kernels_bytes (fb_kernels b) ++ rest) →
  (rest = [] ∨ ∃ rest', rest = separator ++ rest') →
  ∃ t', __helper_load_and_dump_fatbin (frames (t_num t)) garbage header (addr (t_num t)) load i w t = Ok t' ∧
    built t' (q ++ [b]) ∧ t_load t' = (if rest is [] then Closed else Opened (drop 8 rest)).
Proof.
  intros [Hg Hfr] (Hh & Hr & Hk & Hn) (Bn & Bd & Bi & Bf & Bk) Hw Hb Ha Ho Hrest.
  unfold __helper_load_and_dump_fatbin. rewrite Hb, (proj2 (Z.eqb_eq _ _) Hh), Ha. cbn [c_assert mbind res_bind default from_option id].
  pose proof (arg_file_length (fb_records b)) as Hal.
  rewrite copy_args_file by (done || apply Hg || lia). cbn [mbind res_bind app]. rewrite Ho.
  pose proof (length_kernels (fb_kernels b)) as Hkl. destruct (Hfr (t_num t)) as [_ (_ & _ & V3)].
  rewrite copy_section; [|done|done|done|by apply index_names_all|rewrite length_app; lia|done]. cbn [mbind res_bind].
  eexists. split; [reflexivity|]. split; [|by destruct rest]. split_and!; cbn [t_num t_dumping t_out d_info d_functions].
  - rewrite Bn, length_app. cbn. lia.
  - rewrite length_app, Nat.add_1_r. done.
  - rewrite length_app, Nat.add_1_r, Bn. apply write_info_of; [done|].
    unfold set_ptr. rewrite !length_app, length_take, length_drop, length_le_bytes, Hw. done.
  - rewrite Bn. by eapply files_snoc.
  - intros _. f_equal. rewrite sections_app.
    replace (if t_dumping t then default [] (d_functions (t_out t)) else []) with (sections q).
    { unfold sections at 3. cbn. change (le_bytes 8 0) with separator. by rewrite app_nil_r, <- app_assoc. }
    rewrite Bd. destruct q; cbn [length Nat.eqb negb]; [done|]. by rewrite Bk.
Qed.

(** What is left of the common file when the fat binaries [p] are still to come. *)
Definition remaining (fd : fdesc) (p : list fatbin_dump) : Prop :=
  match p with
  | [] => True
  | b :: p => ∃ trail, (trail = [] ∨ trail = separator) ∧
      fd = Opened (kernels_bytes (fb_kernels b) ++ separated (fb_kernels <$> p) ++ trail)
  end.

(** One section is read: a fat binary is followed by a separator or by the end of the file. *)
Lemma section_ends b p trail :
  (trail = [] ∨ trail = separator) →
  ∃ rest, separated (fb_kernels <$> p) ++ trail = rest ∧ (rest = [] ∨ ∃ rest', rest = separator ++ rest') ∧
    remaining (if rest is [] then Closed else Opened (drop 8 rest)) p ∧
    remaining (Opened (kernels_bytes (fb_kernels b) ++ rest)) (b :: p).
Proof.
  intros Ht. eexists. split; [reflexivity|]. split_and!.
  - destruct p as [|c p]; cbn [fmap list_fmap].
    + destruct Ht as [->| ->]; [by left|]. right. by exists [].
    + right. eexists. unfold separated. cbn [fmap list_fmap].
      change (mjoin ((separator ++ kernels_bytes (fb_kernels c)) :: ?l)) with ((separator ++ kernels_bytes (fb_kernels c)) ++ mjoin l).
      rewrite <- !app_assoc. reflexivity.
  - destruct p as [|c p]; [done|]. exists trail. split; [done|]. cbn. by rewrite <- app_assoc.
  - exists trail. by split.
Qed.

Lemma remaining_open d fd p : remaining fd p → p ≠ [] → open_functions d fd = fd.
Proof. destruct p; [done|]. by intros (trail & _ & ->) _. Qed.

Lemma combine_loop frames garbage header addr load p : ∀ i q t ws,
  memory_ok frames garbage → Forall (copyable header) p → built t q →
  (∀ j b, p !! j = Some b → d_fatbins load !! (i + j)%nat = Some (fb_binary b) ∧
                            d_args load !! (i + j)%nat = Some (arg_file (fb_records b))) →
  remaining (open_functions load (t_load t)) p → length ws = (sizeof_wrapper * length p)%nat →
  ∃ t', load_dump_loop frames garbage header addr load (length p) i (Opened ws) t = Ok t' ∧ built t' (q ++ p).
Proof.
  induction p as [|b p IH]; intros i q t ws Hm Hc Hb Hf Hr Hws; cbn [length load_dump_loop].
  { exists t. by rewrite app_nil_r. }
  apply Forall_cons in Hc as [Hcb Hc]. destruct Hr as (trail & Ht & Ho).
  destruct (section_ends b p trail Ht) as (rest & Hrest & Hsep & Hnext & _). rewrite Hrest in Ho.
  destruct (Hf 0%nat b eq_refl) as [Hf1 Hf2]. rewrite Nat.add_0_r in Hf1, Hf2.
  rewrite <- (take_drop sizeof_wrapper ws).
  rewrite read_all_exact; [|done|rewrite length_take, Hws; cbn [length]; unfold sizeof_wrapper; lia|apply Hm]. cbn [mbind res_bind].
  destruct (combine_one frames garbage header addr load i b (take sizeof_wrapper ws) t q rest)
    as (t1 & -> & Hb1 & Hl1); try done.
  { rewrite length_take, Hws. cbn [length]. unfold sizeof_wrapper. lia. }
  cbn [mbind res_bind]. destruct (IH (S i) (q ++ [b]) t1 (drop sizeof_wrapper ws)) as (t2 & -> & Hb2); try done.
  - intros j c Hj. replace (S i + j)%nat with (i + S j)%nat by lia. by apply Hf.
  - rewrite Hl1. destruct p as [|c p]; [done|]. by rewrite (remaining_open load _ (c :: p)).
  - rewrite length_drop, Hws. cbn [length]. unfold sizeof_wrapper. lia.
  - exists t2. split; [done|]. by rewrite <- app_assoc in Hb2.
Qed.

Lemma combine_dir frames garbage header addr load p q t :
  memory_ok frames garbage → Forall (copyable header) p → holds load p → built t q → t_load t = Unopened →
  ∃ t', load_dump_fatbin frames garbage header addr load t = Ok t' ∧ built t' (q ++ p) ∧ t_load t' = Unopened.
Proof.
  intros Hm Hc ((ws & Hi & Hws) & Hl & Hf & Hfn) Hb Ht. unfold load_dump_fatbin. rewrite Hi.
  rewrite read_all_exact by (done || apply length_le_bytes). cbn [mbind res_bind].
  destruct (count_read (length p) (le_bytes 4 0) ws Hl) as [_ ->]; [apply length_le_bytes|].
  destruct (combine_loop frames garbage header addr load p 0 q t ws) as (t1 & -> & Hb1); try done.
  { rewrite Ht. destruct p as [|b p]; [done|]. destruct Hfn as (trail & Htr & Hfn). exists trail. split; [done|].
    cbn [open_functions]. by rewrite Hfn. }
  cbn [mbind res_bind]. eexists. split; [reflexivity|]. by split.
Qed.

Lemma combine_holds frames garbage header addr d1 d2 b p1 p2 :
  memory_ok frames garbage → Forall (copyable header) ((b :: p1) ++ p2) → holds d1 (b :: p1) → holds d2 p2 →
  Z.of_nat (length ((b :: p1) ++ p2)) < 2 ^ 31 →
  ∃ out, dump_combinator frames garbage header addr d1 d2 = Ok out ∧ holds out ((b :: p1) ++ p2).
Proof.
  intros Hm Hc H1 H2 Hl. apply Forall_app in Hc as [Hc1 Hc2]. unfold dump_combinator.
  destruct (combine_dir frames garbage header addr d1 (b :: p1) [] (mk_tool Unopened false 0 [] empty_dir))
    as (t1 & -> & Hb1 & Ht1); try done.
  cbn [mbind res_bind].
  destruct (combine_dir frames garbage header addr d2 p2 (b :: p1) t1) as (t2 & -> & Hb2 & _); try done.
  cbn [mbind res_bind]. exists (t_out t2). split; [done|]. by apply built_holds.
Qed.

(** ** Lemmas: loading *)

(** The kernels of a section, one after the other. *)
Fixpoint tf_register_kernels (get : Z → string → option Z) (module : Z) (ht : name_table) (ks : list kernel)
    (funcs : list fatbin_function) : res (list fatbin_function) :=
  match ks with
  | [] => Ok funcs
  | k :: ks =>
      funcs ← tf_register_by_name get module ht (cstr_bytes (k_name k)) funcs;
      tf_register_kernels get module ht ks funcs
  end.

(** The names that are linked in a fat binary: none when the driver has no binary for the GPU. *)
Definition linked_names (module : Z) (ks : list kernel) : list string :=
  if module =? NULL then [] else k_name <$> ks.

Lemma tf_register_one get module rs pre names k :
  Forall hostless rs → k_name k ∈ rs.*1 → (module ≠ NULL → is_Some (get module (k_name k))) → no_nul (k_name k) = true →
  tf_register_by_name get module (index_names rs (length pre) ∅) (cstr_bytes (k_name k))
    (pre ++ linked get module (length pre) rs names) =
    Ok (pre ++ linked get module (length pre) rs (names ++ linked_names module [k])).
Proof.
  intros Hh Hn Hget Hnul. unfold linked_names. destruct (Z.eqb_spec module NULL) as [->|Hne].
  - destruct (first_record rs _ Hn) as (i & f & Hi & Hfst). unfold tf_register_by_name.
    rewrite <- (app_nil_r (cstr_bytes _)), c_string_bytes, (index_of_first rs _ i _ f) by done.
    replace (Z.to_nat (Z.of_nat (S (length pre + i)) - 1)) with (length pre + i)%nat by lia.
    assert (is_Some ((pre ++ linked get NULL (length pre) rs names) !! (length pre + i)%nat)) as [g Hg].
    { apply lookup_lt_is_Some. rewrite length_app, length_linked. apply lookup_lt_Some in Hi. lia. }
    rewrite Hg. cbn [tf_register_function Z.eqb NULL mbind res_bind]. by rewrite list_insert_id, app_nil_r.
  - cbn [fmap list_fmap]. rewrite <- register_one by auto. unfold tf_register_by_name, register_by_name, tf_register_function.
    rewrite (proj2 (Z.eqb_neq _ _) Hne). destruct (c_string _) as [n|] eqn:Hc; [|done].
    rewrite <- (app_nil_r (cstr_bytes _)), c_string_bytes in Hc by done. injection Hc as <-.
    destruct (first_record rs _ Hn) as (i & f & Hi & Hfst). by rewrite (index_of_first rs _ i _ f).
Qed.

Lemma tf_register_kernels_linked get module rs pre ks : ∀ names,
  Forall hostless rs →
  Forall (λ k, k_name k ∈ rs.*1 ∧ (module ≠ NULL → is_Some (get module (k_name k))) ∧ no_nul (k_name k) = true) ks →
  tf_register_kernels get module (index_names rs (length pre) ∅) ks (pre ++ linked get module (length pre) rs names) =
    Ok (pre ++ linked get module (length pre) rs (names ++ linked_names module ks)).
Proof.
  induction ks as [|k ks IH]; intros names Hh Hks; cbn [tf_register_kernels].
  { unfold linked_names. destruct (module =? NULL); by rewrite app_nil_r. }
  apply Forall_cons in Hks as [(Hn & Hg & Hnul) Hks]. rewrite tf_register_one by done. cbn [mbind res_bind].
  rewrite IH by done. unfold linked_names. by destruct (module =? NULL); rewrite <- app_assoc.
Qed.

(** Which table the worker ends up with. *)
Fixpoint tf_expected (get : Z → string → option Z) (modules : nat → Z) (i : nat) (p : list fatbin_dump)
    (pre : list fatbin_function) : list fatbin_function :=
  match p with
  | [] => pre
  | d :: p =>
      tf_expected get modules (S i) p
        (pre ++ linked get (modules i) (length pre) (fb_records d) (linked_names (modules i) (fb_kernels d)))
  end.

(** A fat binary as it is dumped, when the driver loads it or has no binary for the GPU in it. *)
Definition tf_dump_ok (get : Z → string → option Z) (header : list Z → Z) (load_module : nat → list Z → Z + Z)
    (modules : nat → Z) (i : nat) (d : fatbin_dump) : Prop :=
  Z.of_nat (length (fb_binary d)) = header (fb_binary d) ∧
  __helper_init_module (load_module i (fb_binary d)) = Ok (modules i) ∧
  Forall record_wf (fb_records d) ∧ Forall hostless (fb_records d) ∧ Forall kernel_wf (fb_kernels d) ∧
  Forall (λ k, k_name k ∈ (fb_records d).*1 ∧ (modules i ≠ NULL → is_Some (get (modules i) (k_name k)))) (fb_kernels d).

Section tf_load.
Context (frames : nat → frame) (garbage : nat → list Z) (get : Z → string → option Z)
        (header : list Z → Z) (load_module : nat → list Z → Z + Z) (modules : nat → Z).

Lemma tf_load_loop_kernels module ht ks : ∀ v fuel funcs rest,
  (∀ n, length (garbage n) = n) → Forall kernel_wf ks → vars_ok v →
  tf_load_loop (length ks + fuel) garbage get module ht v (Opened (kernels_bytes ks ++ rest)) funcs =
    (funcs ← tf_register_kernels get module ht ks funcs;
     tf_load_loop fuel garbage get module ht (default v (kernel_vars <$> last ks)) (Opened rest) funcs).
Proof.
  induction ks as [|k ks IH]; intros v fuel funcs rest Hg Hwf Hv; [done|].
  apply Forall_cons in Hwf as [Hk Hwf]. pose proof Hk as (_ & _ & Hl1 & Hl2 & _). pose proof Hv as (V1 & V2 & V3).
  cbn [length Nat.add tf_load_loop]. rewrite kernels_bytes_cons, kernel_bytes_tail, <- !app_assoc.
  rewrite read_size by done. cbv beta iota. rewrite take_app_length' by by rewrite length_le_bytes.
  rewrite length_le_bytes. cbn [Nat.eqb]. rewrite le_num_u64 by (unfold in_range; lia).
  rewrite (proj2 (Z.eqb_neq _ 0)) by lia. cbv iota.
  rewrite read_kernel_spec; [|done|done|by split_and!; cbn; rewrite ?length_le_bytes|done]. cbv beta iota.
  cbn [tf_register_kernels]. destruct (tf_register_by_name _ _ _ _ funcs) as [funcs1|]; [|done]. cbn [mbind res_bind].
  rewrite IH by (done || apply kernel_vars_ok). destruct (tf_register_kernels _ _ _ ks funcs1); [|done]. cbn [mbind res_bind].
  rewrite last_cons. by destruct (last ks).
Qed.

Lemma tf_load_section module ht ks v fuel funcs rest :
  (∀ n, length (garbage n) = n) → Forall kernel_wf ks → vars_ok v → (length ks < fuel)%nat →
  (rest = [] ∨ ∃ rest', rest = separator ++ rest') →
  tf_load_loop fuel garbage get module ht v (Opened (kernels_bytes ks ++ rest)) funcs =
    (funcs ← tf_register_kernels get module ht ks funcs;
     Ok (funcs, if rest is [] then Closed else Opened (drop 8 rest))).
Proof.
  intros Hg Hwf Hv Hf Hrest. replace fuel with (length ks + S (fuel - S (length ks)))%nat by lia.
  rewrite tf_load_loop_kernels by done. destruct (tf_register_kernels _ _ _ _ _); [|done]. cbn [mbind res_bind tf_load_loop].
  destruct Hrest as [->|(rest' & ->)]; [done|].
  rewrite separator_read; [done|]. destruct (last ks); cbn; [done|apply Hv].
Qed.

Lemma tf_kernels_named d i : tf_dump_ok get header load_module modules i d →
  Forall (λ k, k_name k ∈ (fb_records d).*1 ∧ (modules i ≠ NULL → is_Some (get (modules i) (k_name k))) ∧
               no_nul (k_name k) = true) (fb_kernels d).
Proof.
  intros (_ & _ & _ & _ & Hw & Hn). rewrite Forall_forall in *. intros k Hk.
  destruct (Hn k Hk). destruct (Hw k Hk) as (_ & ? & _). auto.
Qed.

Lemma worker_rest d p : ∀ num fd pre,
  memory_ok frames garbage → (∀ j e, p !! j = Some e → tf_dump_ok get header load_module modules (num + j) e) →
  (∀ j b, p !! j = Some b → d_fatbins d !! (num + j)%nat = Some (fb_binary b) ∧
                            d_args d !! (num + j)%nat = Some (arg_file (fb_records b))) →
  remaining (open_functions d fd) p →
  worker_loop frames garbage get header load_module d (length p) num fd pre = Ok (tf_expected get modules num p pre).
Proof.
  induction p as [|b p IH]; intros num fd pre Hm Hd Hf Hr; cbn [length worker_loop tf_expected]; [done|].
  destruct Hr as (trail & Ht & Ho). destruct (section_ends b p trail Ht) as (rest & Hrest & Hsep & Hnext & _).
  rewrite Hrest in Ho. destruct (Hf 0%nat b eq_refl) as [Hf1 Hf2]. pose proof (Hd 0%nat b eq_refl) as Hb.
  rewrite Nat.add_0_r in Hf1, Hf2, Hb. pose proof Hb as (Hh & Hmod & Hr & Hl & Hk & _). destruct (proj2 Hm num) as [Hsz Hv].
  unfold tf_load_and_register_fatbin. rewrite Hf1, (proj2 (Z.eqb_eq _ _) Hh), Hmod, Hf2. cbn [c_assert mbind res_bind].
  rewrite load_info_file by (done || apply Hm). cbn [mbind res_bind]. rewrite Ho.
  pose proof (length_kernels (fb_kernels b)) as Hlen.
  rewrite tf_load_section; [|apply Hm|done|done|rewrite length_app; lia|done].
  rewrite <- (linked_nil get (modules num) (length pre)).
  rewrite (tf_register_kernels_linked get (modules num) (fb_records b) pre (fb_kernels b) [] Hl)
    by exact (tf_kernels_named b num Hb).
  cbn [mbind res_bind app]. apply IH; [done| | |].
  - intros j e Hj. replace (S num + j)%nat with (num + S j)%nat by lia. by apply Hd.
  - intros j c Hj. replace (S num + j)%nat with (num + S j)%nat by lia. by apply Hf.
  - destruct p as [|c p]; [done|]. by rewrite (remaining_open d _ (c :: p)).
Qed.

Lemma worker_holds d p :
  memory_ok frames garbage → (∀ j e, p !! j = Some e → tf_dump_ok get header load_module modules j e) → holds d p →
  __helper_worker_init_epilogue frames garbage get header load_module d = Ok (tf_expected get modules 0 p []).
Proof.
  intros Hm Hd ((ws & Hi & Hws) & Hl & Hf & Hfn). unfold __helper_worker_init_epilogue. rewrite Hi.
  destruct (count_read (length p) (garbage 4%nat) ws Hl) as [-> ->]; [apply Hm|].
  apply worker_rest; try done. destruct p as [|b p]; [done|].
  destruct Hfn as (trail & Htr & Hfn). exists trail. split; [done|]. cbn [open_functions]. by rewrite Hfn.
Qed.

(** *** The guest *)

Lemma index_names_app rs1 : ∀ rs2 base ht,
  index_names (rs1 ++ rs2) base ht = index_names rs2 (base + length rs1) (index_names rs1 base ht).
Proof.
  induction rs1 as [|r rs1 IH]; intros rs2 base ht; cbn [app index_names length]; [by rewrite Nat.add_0_r|].
  rewrite IH. f_equal. lia.
Qed.

Definition all_records (p : list fatbin_dump) : list (string * fatbin_function) := mjoin (fb_records <$> p).

Lemma guest_loop_records d p : ∀ num funcs ht,
  memory_ok frames garbage → Forall (λ b, Forall record_wf (fb_records b)) p →
  (∀ j b, p !! j = Some b → d_args d !! (num + j)%nat = Some (arg_file (fb_records b))) →
  guest_loop frames garbage d (length p) num funcs ht =
    Ok (funcs ++ (all_records p).*2, index_names (all_records p) (length funcs) ht).
Proof.
  induction p as [|b p IH]; intros num funcs ht Hm Hw Hf; cbn [length guest_loop]; [by rewrite app_nil_r|].
  apply Forall_cons in Hw as [Hwb Hw]. unfold __helper_load_function_arg_info_guest.
  pose proof (Hf 0%nat b eq_refl) as Hb. rewrite Nat.add_0_r in Hb. rewrite Hb.
  pose proof (arg_file_length (fb_records b)) as Hlen. destruct (proj2 Hm num) as [Hsz _].
  rewrite load_args_file by (done || apply Hm || lia). cbn [mbind res_bind].
  rewrite IH; [|done|done|intros j c Hj; replace (S num + j)%nat with (num + S j)%nat by lia; by apply Hf].
  change (all_records (b :: p)) with (fb_records b ++ all_records p).
  by rewrite fmap_app, index_names_app, length_app, length_fmap, <- app_assoc.
Qed.

Lemma guest_holds d p :
  memory_ok frames garbage → Forall (λ b, Forall record_wf (fb_records b)) p → holds d p →
  __helper_guestlib_init_prologue frames garbage d = Ok ((all_records p).*2, index_names (all_records p) 0 ∅).
Proof.
  intros Hm Hw ((ws & Hi & Hws) & Hl & Hf & Hfn). unfold __helper_guestlib_init_prologue. rewrite Hi.
  destruct (count_read (length p) (garbage 4%nat) ws Hl) as [-> ->]; [apply Hm|].
  rewrite guest_loop_records; [done|done|done|]. intros j b Hj. by apply Hf.
Qed.
End tf_load.

(** ** Lemmas: which kernel a name stands for *)

Lemma index_names_inv rs : ∀ base ht n id,
  index_names rs base ht !! n = Some id → ht !! n = Some id ∨ n ∈ rs.*1.
Proof.
  induction rs as [|[m f] rs IH]; intros base ht n id; cbn [index_names fst]; [by left|]. intros Hid.
  destruct (IH _ _ _ _ Hid) as [Hht|Hin]; [|right; cbn; by right].
  destruct (ht !! m) eqn:Hm; [by left|]. destruct (decide (m = n)) as [->|Hne].
  - right. cbn. by left.
  - left. by rewrite lookup_insert_ne in Hht.
Qed.

(** Every kernel of the fat binary is registered. *)
Definition complete (b : fatbin_dump) : Prop := Forall (λ r, fst r ∈ k_name <$> fb_kernels b) (fb_records b).

Lemma tf_expected_prefix get modules p : ∀ i pre j,
  (j < length pre)%nat → tf_expected get modules i p pre !! j = pre !! j.
Proof.
  induction p as [|d p IH]; intros i pre j Hj; cbn [tf_expected]; [done|].
  rewrite IH by (rewrite length_app; lia). by rewrite lookup_app_l.
Qed.

(** The entry of the worker's table for the first kernel of a name. *)
Lemma expected_first get modules p : ∀ i pre x n f,
  Forall complete p → all_records p !! x = Some (n, f) → n ∉ (take x (all_records p)).*1 →
  ∃ k b, p !! k = Some b ∧ n ∈ (fb_records b).*1 ∧ (∀ k' b', (k' < k)%nat → p !! k' = Some b' → n ∉ (fb_records b').*1) ∧
    tf_expected get modules i p pre !! (length pre + x)%nat =
      Some (if modules (i + k)%nat =? NULL then f
            else mk_ff (argc f) (args f) (default 0 (get (modules (i + k)%nat) n)) (Z.of_nat (S (length pre + x))) (modules (i + k)%nat)).
Proof.
  induction p as [|b p IH]; intros i pre x n f Hc Hx Hn; [done|]. apply Forall_cons in Hc as [Hcb Hc].
  change (all_records (b :: p)) with (fb_records b ++ all_records p) in *. cbn [tf_expected].
  destruct (decide (x < length (fb_records b))%nat) as [Hlt|Hge].
  - rewrite lookup_app_l in Hx by done. rewrite take_app_le in Hn by lia. exists 0%nat, b. split_and!; [done| |lia|].
    { apply (list_elem_of_fmap_2' fst _ (n, f)); [by eapply list_elem_of_lookup_2|done]. }
    rewrite tf_expected_prefix by (rewrite length_app, length_linked; lia). rewrite lookup_app_r by lia.
    replace (length pre + x - length pre)%nat with x by lia. unfold linked. rewrite list_lookup_imap, Hx. cbn. unfold link. cbn [fst snd].
    rewrite Nat.add_0_r. unfold linked_names. destruct (modules i =? NULL); [by rewrite bool_decide_false by apply not_elem_of_nil|].
    rewrite (bool_decide_true (n ∈ _)) by exact (Forall_lookup_1 _ _ _ _ Hcb Hx). by rewrite (bool_decide_true _ Hn).
  - rewrite lookup_app_r in Hx by lia. rewrite take_app_ge, fmap_app in Hn by lia. apply not_elem_of_app in Hn as [Hnb Hn].
    destruct (IH (S i) (pre ++ linked get (modules i) (length pre) (fb_records b) (linked_names (modules i) (fb_kernels b))) _ _ _ Hc Hx Hn)
      as (k & c & Hk & Hin & Hmin & He).
    rewrite length_app, length_linked in He.
    replace (length pre + length (fb_records b) + (x - length (fb_records b)))%nat with (length pre + x)%nat in He by lia.
    exists (S k), c. replace (i + S k)%nat with (S i + k)%nat by lia. split_and!; [done|done| |done].
    intros [|k'] b' Hlt Hb'; [by injection Hb' as ->|]. apply (Hmin k'); [lia|done].
Qed.

(** ** The theorems *)

(** A driver that loads every fat binary but the third, for which it has no binary. *)
Definition tf_sample_load (i : nat) (_ : list Z) : Z + Z :=
  if (i =? 2)%nat then inl CUDA_ERROR_NO_BINARY_FOR_GPU else inr (Z.of_nat (S i)).
Definition tf_sample_modules (i : nat) : Z := if (i =? 2)%nat then NULL else Z.of_nat (S i).

Lemma tf_sample_dump_ok i name :
  no_nul name = true → Z.of_nat (S (String.length name)) < 1024 →
  tf_dump_ok sample_get sample_header tf_sample_load tf_sample_modules i (sample_dump name).
Proof.
  intros Hn Hl. destruct (sample_dump_ok i name Hn Hl) as (H1 & _ & H3 & H4 & H5 & H6). split_and!; try done.
  - unfold tf_sample_load, tf_sample_modules. by destruct (i =? 2)%nat.
  - eapply Forall_impl; [exact H6|]. intros k [? _]. split; [done|]. intros _. by eexists.
Qed.

(** C22. Dumps can be put together: when two programs are dumped, each with at least one fat binary
    and a first fat binary that registers a kernel, and [dump_combinator] combines the two
    directories, it succeeds, and the worker that preloads the result has exactly the table of the
    fat binaries of the first program followed by those of the second, each kernel linked in the
    module of its own fat binary, or left without a function when the driver has no binary for the
    GPU in it (CUDA_ERROR_NO_BINARY_FOR_GPU); the guest has the same kernels in the same order.
    The dumps are well-formed, and the driver finds the kernels in the modules it loads. *)
Theorem combined_dumps_load (frames : nat → frame) (garbage : nat → list Z) (get : Z → string → option Z)
    (header : list Z → Z) (load_module : nat → list Z → Z + Z) (modules : nat → Z) (addr : nat → Z)
    (w1 w2 : list Z) (b1 b2 : fatbin_dump) (p1 p2 : list (list Z * fatbin_dump)) :
  memory_ok frames garbage →
  Forall (λ wb, length (fst wb) = sizeof_wrapper) (((w1, b1) :: p1) ++ ((w2, b2) :: p2)) →
  fb_kernels b1 ≠ [] → fb_kernels b2 ≠ [] →
  Z.of_nat (length ((b1 :: p1.*2) ++ (b2 :: p2.*2))) < 2 ^ 31 →
  (∀ j e, ((b1 :: p1.*2) ++ (b2 :: p2.*2)) !! j = Some e → tf_dump_ok get header load_module modules j e) →
  ∃ out,
    dump_combinator frames garbage header addr (tf_dump_program 0 ((w1, b1) :: p1) empty_dir)
      (tf_dump_program 0 ((w2, b2) :: p2) empty_dir) = Ok out ∧
    __helper_worker_init_epilogue frames garbage get header load_module out =
      Ok (tf_expected get modules 0 ((b1 :: p1.*2) ++ (b2 :: p2.*2)) []) ∧
    ∃ ht, __helper_guestlib_init_prologue frames garbage out =
      Ok ((all_records ((b1 :: p1.*2) ++ (b2 :: p2.*2))).*2, ht).
Proof.
  intros Hm Hw H1 H2 Hl Hd. apply Forall_app in Hw as [Hw1 Hw2].
  pose proof Hl as Hl'. rewrite length_app in Hl'. cbn [length] in Hl'. rewrite !length_fmap in Hl'.
  assert (Forall (λ b, copyable header b ∧ Forall record_wf (fb_records b)) ((b1 :: p1.*2) ++ (b2 :: p2.*2))) as Hc.
  { apply Forall_lookup. intros j e Hj. destruct (Hd j e Hj) as (? & _ & ? & _ & ? & Hn). split; [|done]. split_and!; try done.
    eapply Forall_impl; [exact Hn|]. by intros k []. }
  apply Forall_and in Hc as [Hc Hr].
  destruct (combine_holds frames garbage header addr (tf_dump_program 0 ((w1, b1) :: p1) empty_dir)
    (tf_dump_program 0 ((w2, b2) :: p2) empty_dir) b1 p1.*2 (b2 :: p2.*2)) as (out & Hout & Hh); try done.
  { apply tf_dump_holds; [done|done|lia]. }
  { apply tf_dump_holds; [done|done|lia]. }
  exists out. split; [done|]. split; [by apply worker_holds|]. eexists. by apply guest_holds.
Qed.

Lemma combined_dumps_load_witness :
  ∃ out,
    dump_combinator sample_frames sample_memory sample_header (λ _, 4096)
      (tf_dump_program 0 [(replicate 24 1, sample_dump "_Z1gi")] empty_dir)
      (tf_dump_program 0 [(replicate 24 2, sample_dump "_Z1fi"); (replicate 24 3, sample_dump "_Z1hi")] empty_dir) = Ok out ∧
    match __helper_worker_init_epilogue sample_frames sample_memory sample_get sample_header tf_sample_load out with
    | Ok table => hostfunc <$> table = [0; 2; 3; 0; 0; 0]
    | Stop _ => False
    end.
Proof.
  destruct (combined_dumps_load sample_frames sample_memory sample_get sample_header tf_sample_load tf_sample_modules (λ _, 4096)
    (replicate 24 1) (replicate 24 2) (sample_dump "_Z1gi") (sample_dump "_Z1fi") [] [(replicate 24 3, sample_dump "_Z1hi")])
    as (out & Hout & Hw & _).
  - apply sample_memory_ok.
  - by repeat constructor.
  - done.
  - done.
  - reflexivity.
  - intros [|[|[|j]]] e [= <-]; by apply tf_sample_dump_ok.
  - exists out. split; [exact Hout|]. rewrite Hw. vm_compute. reflexivity.
Defined.

(** C27. Preloaded guest and worker agree: if every kernel of every fat binary is registered, each name the
    guest knows stands for an entry of the worker's table with the guest's argument sizes, that of
    the first fat binary that has a kernel of this name.  When the driver loaded a module for that
    fat binary, the entry is linked, under the guest's identifier, to the kernel in this module;
    when the driver has no binary for the GPU in it, the entry is as it was dumped, without a
    function. *)
Theorem preloaded_names_agree (frames : nat → frame) (garbage : nat → list Z) (get : Z → string → option Z)
    (header : list Z → Z) (load_module : nat → list Z → Z + Z) (modules : nat → Z) (d : dir) (p : list fatbin_dump) :
  memory_ok frames garbage → holds d p →
  (∀ j e, p !! j = Some e → tf_dump_ok get header load_module modules j e) → Forall complete p →
  ∃ table funcs ht,
    __helper_worker_init_epilogue frames garbage get header load_module d = Ok table ∧
    __helper_guestlib_init_prologue frames garbage d = Ok (funcs, ht) ∧
    (∀ b n, b ∈ p → n ∈ (fb_records b).*1 → is_Some (ht !! n)) ∧
    ∀ n id, ht !! n = Some id →
      ∃ f w k b, funcs !! Z.to_nat (id - 1) = Some f ∧ table !! Z.to_nat (id - 1) = Some w ∧
        argc w = argc f ∧ args w = args f ∧
        p !! k = Some b ∧ n ∈ (fb_records b).*1 ∧ (∀ k' b', (k' < k)%nat → p !! k' = Some b' → n ∉ (fb_records b').*1) ∧
        if modules k =? NULL then w = f
        else hostfunc w = id ∧ module_ w = modules k ∧ get (modules k) n = Some (cufunc w).
Proof.
  intros Hm Hh Hd Hc. exists (tf_expected get modules 0 p []), (all_records p).*2, (index_names (all_records p) 0 ∅).
  split; [by apply worker_holds|]. split.
  { apply guest_holds; [done| |done]. apply Forall_lookup. intros j e Hj. by destruct (Hd j e Hj) as (_ & _ & ? & _). }
  split.
  { intros b n Hb Hn. destruct (first_record (all_records p) n) as (x & f & Hx & Hfst).
    - apply list_elem_of_fmap in Hn as (r & -> & Hr). apply list_elem_of_fmap_2. unfold all_records.
      apply list_elem_of_join. exists (fb_records b). split; [done|]. by apply list_elem_of_fmap_2.
    - rewrite (index_of_first _ 0 x n f Hx Hfst). by eexists. }
  intros n id Hid. destruct (index_names_inv _ _ _ _ _ Hid) as [He|Hin]; [by rewrite lookup_empty in He|].
  destruct (first_record _ _ Hin) as (x & f & Hx & Hfst). rewrite (index_of_first _ 0 x n f Hx Hfst) in Hid. injection Hid as <-.
  destruct (expected_first get modules p 0 [] x n f Hc Hx Hfst) as (k & b & Hk & Hb & Hmin & He).
  exists f. eexists. exists k, b. cbn [length Nat.add] in He. replace (Z.to_nat (Z.of_nat (S x) - 1)) with x by lia.
  split_and!; [by rewrite list_lookup_fmap, Hx|exact He|by destruct (_ =? _)|by destruct (_ =? _)|done|done|done|].
  cbn [Nat.add]. destruct (Z.eqb_spec (modules k) NULL) as [Hnull|Hnn]; [done|].
  split; [done|]. split; [done|]. destruct (Hd k b Hk) as (_ & _ & _ & _ & _ & Hks). cbn [cufunc].
  apply list_elem_of_fmap in Hb as ([m g] & -> & Hr). apply list_elem_of_lookup in Hr as (y & Hy).
  pose proof (Forall_lookup_1 _ _ _ _ (Forall_lookup_1 _ _ _ _ Hc Hk) Hy) as Hreg.
  apply list_elem_of_fmap in Hreg as (kk & Heq & Hkk). cbn [fst] in *. rewrite Heq.
  rewrite Forall_forall in Hks. destruct (Hks kk Hkk) as (_ & Hget). destruct (Hget Hnn) as [cu ->]. done.
Qed.

Lemma preloaded_names_agree_witness :
  ∃ table funcs ht,
    __helper_worker_init_epilogue sample_frames sample_memory sample_get sample_header tf_sample_load
      (tf_dump_program 0 [(replicate 24 1, sample_dump "_Z1fi"); (replicate 24 2, sample_dump "_Z1fi")] empty_dir) = Ok table ∧
    __helper_guestlib_init_prologue sample_frames sample_memory
      (tf_dump_program 0 [(replicate 24 1, sample_dump "_Z1fi"); (replicate 24 2, sample_dump "_Z1fi")] empty_dir) = Ok (funcs, ht) ∧
    is_Some (ht !! "_Z1fi").
Proof.
  edestruct (preloaded_names_agree sample_frames sample_memory sample_get sample_header tf_sample_load tf_sample_modules
    (tf_dump_program 0 [(replicate 24 1, sample_dump "_Z1fi"); (replicate 24 2, sample_dump "_Z1fi")] empty_dir)
    [sample_dump "_Z1fi"; sample_dump "_Z1fi"]) as (table & funcs & ht & Hw & Hg & Hn & _).
  - apply sample_memory_ok.
  - apply (tf_dump_holds (replicate 24 1) (sample_dump "_Z1fi") [(replicate 24 2, sample_dump "_Z1fi")]);
      [by repeat constructor|done|done].
  - intros [|[|j]] e [= <-]; by apply tf_sample_dump_ok.
  - repeat (apply Forall_cons; split; [repeat (apply Forall_cons; split; [cbn; set_solver|]); apply Forall_nil; exact I|]).
    apply Forall_nil; exact I.
  - exists table, funcs, ht. split; [exact Hw|]. split; [exact Hg|].
    apply (Hn (sample_dump "_Z1fi")); [left|cbn; left].
Defined.

(** Finding.  The guest has one table of names for all fat binaries, the worker one for each.  A
    kernel that the first fat binary has but only the second registers gets the identifier of an
    entry that the worker never links. *)
Lemma unregistered_first_kernel :
  ∃ table funcs ht,
    __helper_worker_init_epilogue sample_frames sample_memory sample_get sample_header tf_sample_load
      (tf_dump_program 0 [(replicate 24 1, sample_dump "_Z1gi"); (replicate 24 2, sample_dump "_Z1fi")] empty_dir) = Ok table ∧
    __helper_guestlib_init_prologue sample_frames sample_memory
      (tf_dump_program 0 [(replicate 24 1, sample_dump "_Z1gi"); (replicate 24 2, sample_dump "_Z1fi")] empty_dir) = Ok (funcs, ht) ∧
    ht !! "_Z1fi" = Some 1 ∧ cufunc <$> table !! 0%nat = Some 0 ∧ cufunc <$> table !! 2%nat = Some 102.
Proof. do 3 eexists. split; [vm_compute; reflexivity|]. split; [vm_compute; reflexivity|]. by split_and!. Qed.
