(* ===== verification/Cava.v ===== *)
(** * Annotated functions of an API specification (cava/nightwatch/model.py,
      cava/nightwatch/parser/c/nightwatch.h, cava/nightwatch/generator/c/util.py)

    CAvA reads a specification, C declarations whose bodies annotate the arguments, and generates
    the guest library and the worker from it.  Here are the model of a function ([Type],
    [Argument], [Function]) and the C expressions that the annotations contain, with their
    evaluation; Stub.v has the code that is generated from them.  Every annotation is an
    expression: a conditional annotation such as [if (kind == x) ava_buffer(n); else ava_opaque;]
    becomes the conditional expressions of its [transfer] and [buffer]. *)

From S2P Require Import Prelude.
Local Open Scope Z_scope.

(** [enum ava_transfer_t] of nightwatch.h, and the sentinel of include/endpoint_lib.h. *)
Definition NW_NONE : Z := 0.
Definition NW_HANDLE : Z := 1.
Definition NW_OPAQUE : Z := 2.
Definition NW_BUFFER : Z := 3.
Definition NW_CALLBACK : Z := 4.
Definition NW_CALLBACK_REGISTRATION : Z := 5.
Definition NW_FILE : Z := 6.
Definition NW_ZEROCOPY_BUFFER : Z := 7.
Definition HAS_OUT_BUFFER_SENTINEL : Z := 1.

(** ** Memory of a process: the objects by the address of their first byte *)

Abbreviation mem := (gmap Z (list Z)).

Definition object (m : mem) (p : Z) : res (list Z) :=
  match m !! p with Some l => Ok l | None => Stop (Undefined "invalid pointer") end.

(** ** C expressions of annotations *)

Record cint := mk_cint { ci_signed : bool; ci_size : nat }.
Definition size_t : cint := mk_cint false 8.
Definition uint : cint := mk_cint false 4.
Definition int : cint := mk_cint true 4.
Definition char : cint := mk_cint true 1.

Definition cast (t : cint) (z : Z) : Z :=
  let w := 8 * Z.of_nat (ci_size t) in if ci_signed t then signed w z else wrap w z.

(** What an expression reads: an argument, or the element the annotations of an
    [ava_element] block are about. *)
Inductive ref := RArg (x : string) | RElem.

Inductive binop := OAdd | OSub | OMul | ODiv | OMod | OAnd | OLt | OLe | OGt | OGe | OEq | ONe.

Inductive cexpr :=
  | EInt (z : Z)
  | EVar (r : ref)
  | EIndex                                        (** [ava_index] *)
  | EIsIn                                         (** [ava_is_in] *)
  | EIsNull (r : ref)                             (** [x == NULL] *)
  | EAt (t : cint) (r : ref) (i : cexpr)          (** [x[i]] *)
  | EStrlen (r : ref)
  | EScan (t : cint) (r : ref) (last : Z)         (** elements up to the first equal to [last] *)
  | EOp (t : cint) (o : binop) (a b : cexpr)      (** both operands converted to [t] *)
  | ECond (c a b : cexpr).

#[global] Instance cint_eq_dec : EqDecision cint.
Proof. solve_decision. Defined.
#[global] Instance ref_eq_dec : EqDecision ref.
Proof. solve_decision. Defined.
#[global] Instance binop_eq_dec : EqDecision binop.
Proof. solve_decision. Defined.
#[global] Instance cexpr_eq_dec : EqDecision cexpr.
Proof. solve_decision. Defined.

(** [c && d], [c || d] and [!c]. *)
Definition EAndb (c d : cexpr) : cexpr := ECond c (ECond d (EInt 1) (EInt 0)) (EInt 0).
Definition EOrb (c d : cexpr) : cexpr := ECond c (EInt 1) (ECond d (EInt 1) (EInt 0)).
Definition ENot (c : cexpr) : cexpr := ECond c (EInt 0) (EInt 1).

(** What is visible of a C value: a number, NULL, the object it points to, or a pointer that
    the process cannot follow. *)
Inductive view := VInt (z : Z) | VNull | VMem (l : list Z) | VPtr.

Record env := mk_env {
  e_arg : string → option view;
  e_elem : option view;
  e_index : Z;
  e_in : bool
}.

Definition look (E : env) (r : ref) : option view :=
  match r with RArg x => e_arg E x | RElem => e_elem E end.

(** Whether an annotation is absent: the generator leaves the code out. *)
Definition is_false (e : cexpr) : bool := match e with EInt 0 => true | _ => false end.

Definition set_arg (x : string) (v : view) (E : env) : env :=
  mk_env (λ y, if decide (y = x) then Some v else e_arg E y) (e_elem E) (e_index E) (e_in E).
Definition at_index (i : nat) (v : option view) (E : env) : env :=
  mk_env (e_arg E) v (Z.of_nat i) (e_in E).

(** A signed result outside its type is undefined, an unsigned one wraps. *)
Definition arith (t : cint) (z : Z) : res Z :=
  if ci_signed t
  then (if cast t z =? z then Ok z else Stop (Undefined "signed overflow"))
  else Ok (cast t z).

Definition bool_int (b : bool) : Z := if b then 1 else 0.

Definition eval_op (t : cint) (o : binop) (a b : Z) : res Z :=
  let a := cast t a in
  let b := cast t b in
  match o with
  | OAdd => arith t (a + b)
  | OSub => arith t (a - b)
  | OMul => arith t (a * b)
  | ODiv => if b =? 0 then Stop (Undefined "division by zero") else arith t (Z.quot a b)
  | OMod => if b =? 0 then Stop (Undefined "division by zero") else arith t (Z.rem a b)
  | OAnd => arith t (Z.land a b)
  | OLt => Ok (bool_int (a <? b))
  | OLe => Ok (bool_int (a <=? b))
  | OGt => Ok (bool_int (b <? a))
  | OGe => Ok (bool_int (b <=? a))
  | OEq => Ok (bool_int (a =? b))
  | ONe => Ok (bool_int (negb (a =? b)))
  end.

(** Element [i] of an array of [size]-byte numbers. *)
Definition raw_at (size i : nat) (l : list Z) : Z := le_num (slice (i * size) size l).

(** [strlen]: the position of the first zero byte. *)
Fixpoint strlen (l : list Z) : option nat :=
  match l with
  | [] => None
  | b :: l => if b =? 0 then Some O else S <$> strlen l
  end.

(** The number of elements up to and with the first one equal to [last]:
    [size = 1; while (x[size - 1] != last) size++;]. *)
Fixpoint scan (t : cint) (last : Z) (fuel i : nat) (l : list Z) : option nat :=
  match fuel with
  | O => None
  | S fuel =>
      if ((S i * ci_size t) <=? length l)%nat then
        if cast t (raw_at (ci_size t) i l) =? last then Some (S i) else scan t last fuel (S i) l
      else None
  end.

Fixpoint eval (E : env) (e : cexpr) : res Z :=
  match e with
  | EInt z => Ok z
  | EVar r =>
      match look E r with
      | Some (VInt z) => Ok z
      | _ => Stop (Undefined "value that is not available")
      end
  | EIndex => Ok (e_index E)
  | EIsIn => Ok (bool_int (e_in E))
  | EIsNull r =>
      match look E r with
      | Some VNull => Ok 1
      | Some (VMem _) => Ok 0
      | Some VPtr => Ok 0
      | _ => Stop (Undefined "value that is not available")
      end
  | EAt t r i =>
      i ← eval E i;
      match look E r with
      | Some (VMem l) =>
          if (0 <=? i) && ((i + 1) * Z.of_nat (ci_size t) <=? Z.of_nat (length l))
          then Ok (cast t (raw_at (ci_size t) (Z.to_nat i) l))
          else Stop (Undefined "read past the end of an object")
      | _ => Stop (Undefined "value that is not available")
      end
  | EStrlen r =>
      match look E r with
      | Some (VMem l) =>
          match strlen l with
          | Some n => Ok (Z.of_nat n)
          | None => Stop (Undefined "read past the end of an object")
          end
      | _ => Stop (Undefined "value that is not available")
      end
  | EScan t r last =>
      match look E r with
      | Some (VMem l) =>
          match scan t last (S (length l)) 0 l with
          | Some n => Ok (Z.of_nat n)
          | None => Stop (Undefined "read past the end of an object")
          end
      | _ => Stop (Undefined "value that is not available")
      end
  | EOp t o a b => a ← eval E a; b ← eval E b; eval_op t o a b
  | ECond c a b => c ← eval E c; if c =? 0 then eval E b else eval E a
  end.

(** The references of an expression, and whether [ava_index] occurs in it. *)
Fixpoint refs (e : cexpr) : list ref :=
  match e with
  | EInt _ | EIndex | EIsIn => []
  | EVar r | EIsNull r | EStrlen r | EScan _ r _ => [r]
  | EAt _ r i => r :: refs i
  | EOp _ _ a b => refs a ++ refs b
  | ECond c a b => refs c ++ refs a ++ refs b
  end.

Fixpoint has_index (e : cexpr) : bool :=
  match e with
  | EIndex => true
  | EInt _ | EIsIn | EVar _ | EIsNull _ | EStrlen _ | EScan _ _ _ => false
  | EAt _ _ i => has_index i
  | EOp _ _ a b => has_index a || has_index b
  | ECond c a b => has_index c || has_index a || has_index b
  end.

(** ** Types, arguments and functions *)

(** A value of [size] bytes, or a pointer with the [buffer] size and the annotations of its
    elements.  [fields] of structs, casts under a condition and lifetimes other than
    [AVA_CALL] are not part of this model. *)
Inductive ty :=
  | TVal (size align : nat) (sg : bool) (transfer deallocates : cexpr)
  | TPtr (transfer buffer deallocates : cexpr) (pointee : ty).

Definition sizeof (t : ty) : nat := match t with TVal size _ _ _ _ => size | TPtr _ _ _ _ => 8 end.
Definition alignof (t : ty) : nat := match t with TVal _ align _ _ _ => align | TPtr _ _ _ _ => 8 end.
Definition is_signed (t : ty) : bool := match t with TVal _ _ sg _ _ => sg | TPtr _ _ _ _ => false end.
Definition transfer_of (t : ty) : cexpr := match t with TVal _ _ _ k _ => k | TPtr k _ _ _ => k end.
Definition deallocates_of (t : ty) : cexpr := match t with TVal _ _ _ _ d => d | TPtr _ _ d _ => d end.

(** [Type.contains_buffer]: a [buffer] annotation is present. *)
Definition contains_buffer (t : ty) : bool :=
  match t with
  | TVal _ _ _ _ _ => false
  | TPtr _ (EInt 0) _ _ => false
  | TPtr _ _ _ _ => true
  end.

(** [Type.is_blob]: copied as bytes.  A predicate with [ava_index] is taken to be false. *)
Definition is_blob (E : env) (allow_handle : bool) (t : ty) : res bool :=
  if has_index (transfer_of t) then Ok false
  else
    k ← eval E (transfer_of t);
    Ok ((k =? NW_OPAQUE) || (k =? NW_CALLBACK) || (k =? NW_CALLBACK_REGISTRATION) ||
        (allow_handle && (k =? NW_HANDLE))).

(** The value that [size] bytes represent. *)
Definition decode (t : ty) (l : list Z) : Z :=
  if is_signed t then signed (8 * Z.of_nat (sizeof t)) (le_num l) else le_num l.
Definition encode (t : ty) (z : Z) : list Z := le_bytes (sizeof t) z.

(** The first [n] elements of an array, and an array with the given elements. *)
Definition elems_of (t : ty) (n : Z) (l : list Z) : res (list Z) :=
  if n * Z.of_nat (sizeof t) <=? Z.of_nat (length l)
  then Ok ((λ i : nat, decode t (slice (i * sizeof t) (sizeof t) l)) <$> seq 0 (Z.to_nat n))
  else Stop (Undefined "read past the end of an object").
Definition encode_all (t : ty) (vs : list Z) : list Z := mjoin (encode t <$> vs).

(** What an expression sees of a C value of type [t]. *)
Definition view_of (t : ty) (v : Z) (m : mem) : view :=
  match t with
  | TVal _ _ _ _ _ => VInt v
  | TPtr _ _ _ _ =>
      if v =? NULL then VNull else match m !! v with Some l => VMem l | None => VPtr end
  end.

Record argument := mk_arg {
  a_name : string;
  a_type : ty;
  a_input : cexpr;
  a_output : cexpr;
  a_depends_on : list string;
  a_implicit : bool
}.

(** [f_arguments] are in the order of the declaration, the implicit ones last; [f_ret] is
    [None] for [void]; [f_success] is the value of [ava_success] for the return type. *)
Record func := mk_func {
  f_name : string;
  f_call_id : Z;
  f_ret_id : Z;
  f_arguments : list argument;
  f_ret : option ty;
  f_async : cexpr;
  f_success : option Z
}.

Definition real_arguments (f : func) : list argument :=
  filter (λ a, a_implicit a = false) (f_arguments f).
Definition implicit_arguments (f : func) : list argument :=
  filter (λ a, a_implicit a = true) (f_arguments f).

(** [Function._order_arguments]: the order of the third-party [toposort_flatten], which fails on
    a cyclic dependency and else lists every argument once, after those it depends on. *)
Class Toposort := {
  toposort_flatten : list argument → option (list argument);
  toposort_perm : ∀ l l', toposort_flatten l = Some l' → l' ≡ₚ l;
  toposort_deps : ∀ l l' pre a post, toposort_flatten l = Some l' → l' = pre ++ a :: post →
    ∀ b, b ∈ l → a_name b ∈ a_depends_on a → a_name b ≠ a_name a → b ∈ pre
}.

(** ** Struct layout *)

Definition align_up (off align : nat) : nat := (off + (align - off mod align) mod align)%nat.

(** The bytes of the fields from offset [off] on, padding is zero; and reading them back. *)
Fixpoint pack (off : nat) (fields : list (ty * Z)) : list Z :=
  match fields with
  | [] => []
  | (t, v) :: fields =>
      let o := align_up off (alignof t) in
      replicate (o - off) 0 ++ encode t v ++ pack (o + sizeof t) fields
  end.

Fixpoint unpack (off : nat) (ts : list ty) (l : list Z) : list Z :=
  match ts with
  | [] => []
  | t :: ts =>
      let o := align_up off (alignof t) in
      decode t (slice (o - off) (sizeof t) l) :: unpack (o + sizeof t) ts (drop (o - off + sizeof t) l)
  end.

(** The end of the last field; the structs end with 8-byte alignment. *)
Fixpoint end_of (off : nat) (ts : list ty) : nat :=
  match ts with
  | [] => off
  | t :: ts => end_of (align_up off (alignof t) + sizeof t) ts
  end.

(** ** Lemmas on expressions *)

(** [w] shows at least what [v] shows. *)
Definition view_le (v w : view) : Prop := v = w ∨ ∃ l t, v = VMem l ∧ w = VMem (l ++ t).

Definition env_le (rs : list ref) (E F : env) : Prop :=
  e_index E = e_index F ∧ e_in E = e_in F ∧
  ∀ r v, r ∈ rs → look E r = Some v → ∃ w, look F r = Some w ∧ view_le v w.

Lemma view_le_refl v : view_le v v.
Proof. by left. Qed.

Lemma view_le_trans u v w : view_le u v → view_le v w → view_le u w.
Proof.
  intros [->|(l & t & -> & ->)]; [done|]. intros [<-|(l' & t' & [= <-] & ->)].
  - right. by eexists _, _.
  - right. exists l, (t ++ t'). by rewrite app_assoc.
Qed.

Lemma env_le_sub rs rs' E F : (∀ r, r ∈ rs' → r ∈ rs) → env_le rs E F → env_le rs' E F.
Proof. intros Hs (H1 & H2 & H3). split_and!; [done|done|]. intros r v Hr. by apply H3, Hs. Qed.

Lemma env_le_refl rs E : env_le rs E E.
Proof. split_and!; [done|done|]. intros r v _ Hv. exists v. split; [done|apply view_le_refl]. Qed.

Lemma env_le_trans rs E F G : env_le rs E F → env_le rs F G → env_le rs E G.
Proof.
  intros (H1 & H2 & H3) (H4 & H5 & H6). split_and!; [congruence|congruence|].
  intros r v Hr Hv. destruct (H3 r v Hr Hv) as (w & Hw & Hle).
  destruct (H6 r w Hr Hw) as (x & Hx & Hle'). exists x. split; [done|by eapply view_le_trans].
Qed.

(** [F] shows at least what [E] shows, of every argument. *)
Definition args_le (E F : env) : Prop :=
  e_in E = e_in F ∧ ∀ x v, e_arg E x = Some v → ∃ w, e_arg F x = Some w ∧ view_le v w.

Lemma args_le_env rs E F :
  args_le E F → e_index E = e_index F → e_elem E = None → env_le rs E F.
Proof.
  intros (H1 & H2) Hi He. split_and!; [done|done|]. intros [x|] u _ Hu; cbn in *.
  - by apply (H2 x u).
  - congruence.
Qed.

Lemma env_le_at rs E F i v w :
  args_le E F → view_le v w → env_le rs (at_index i (Some v) E) (at_index i (Some w) F).
Proof.
  intros (H1 & H2) Hv. split_and!; [done|done|]. intros [x|] u _ Hu; cbn in *.
  - by apply (H2 x u).
  - injection Hu as <-. by exists w.
Qed.

Lemma strlen_app l t n : strlen l = Some n → strlen (l ++ t) = Some n.
Proof.
  revert n. induction l as [|b l IH]; intros n; [done|]. cbn. destruct (b =? 0); [done|].
  intros (k & Hk & ->)%fmap_Some. by rewrite (IH k Hk).
Qed.

Lemma raw_at_app size i l t :
  (S i * size ≤ length l)%nat → raw_at size i (l ++ t) = raw_at size i l.
Proof. intros Hl. unfold raw_at. rewrite slice_app_l by lia. done. Qed.

Lemma scan_app ct last l t fuel fuel' : ∀ i n,
  (fuel ≤ fuel')%nat → scan ct last fuel i l = Some n → scan ct last fuel' i (l ++ t) = Some n.
Proof.
  revert fuel'. induction fuel as [|fuel IH]; intros fuel' i n Hf Hs; [done|].
  destruct fuel' as [|fuel']; [lia|]. cbn [scan] in *.
  destruct (Nat.leb_spec (S i * ci_size ct) (length l)); [|done].
  rewrite (proj2 (Nat.leb_le _ _)) by (rewrite length_app; lia).
  rewrite raw_at_app by lia. destruct (_ =? last); [done|]. apply IH; [lia|done].
Qed.

(** An expression that can be evaluated keeps its value when more can be seen. *)
Lemma eval_mono E F e z : env_le (refs e) E F → eval E e = Ok z → eval F e = Ok z.
Proof.
  revert z. induction e as [z0|r| | |r|t r i IHi|r|t r last|t o a IHa b IHb|c IHc a IHa b IHb];
    intros z Hle Hev; destruct (Hle) as (Hi & Hin & Hv); cbn [eval refs] in *.
  - done.
  - destruct (look E r) as [v|] eqn:Hr; [|done]. destruct (Hv r v ltac:(left) Hr) as (w & -> & [<-|(l & s & -> & ->)]); done.
  - by rewrite <- Hi.
  - by rewrite <- Hin.
  - destruct (look E r) as [v|] eqn:Hr; [|done]. destruct (Hv r v ltac:(left) Hr) as (w & -> & [<-|(l & s & -> & ->)]); done.
  - apply res_bind_Ok in Hev as (k & Hk & Hev). rewrite (IHi k); [|by eapply env_le_sub; [|done]; set_solver|done].
    cbn [mbind res_bind]. destruct (look E r) as [v|] eqn:Hr; [|done].
    destruct (Hv r v ltac:(left) Hr) as (w & -> & [<-|(l & s & -> & ->)]); [done|].
    destruct (_ && _) eqn:Hc in Hev; [|done]. apply andb_true_iff in Hc as [H1 H2].
    apply Z.leb_le in H1, H2. rewrite (proj2 (Z.leb_le 0 k)), (proj2 (Z.leb_le _ _)) by (rewrite ?length_app; lia).
    assert (S (Z.to_nat k) * ci_size t ≤ length l)%nat.
    { apply Nat2Z.inj_le. rewrite Nat2Z.inj_mul. by replace (Z.of_nat (S (Z.to_nat k))) with (k + 1) by lia. }
    cbn [andb]. by rewrite raw_at_app.
  - destruct (look E r) as [v|] eqn:Hr; [|done].
    destruct (Hv r v ltac:(left) Hr) as (w & -> & [<-|(l & s & -> & ->)]); [done|].
    destruct (strlen l) as [n|] eqn:Hs; [|done]. by rewrite (strlen_app _ _ _ Hs).
  - destruct (look E r) as [v|] eqn:Hr; [|done].
    destruct (Hv r v ltac:(left) Hr) as (w & -> & [<-|(l & s & -> & ->)]); [done|].
    destruct (scan t last (S (length l)) 0 l) as [n|] eqn:Hs; [|done].
    eapply (scan_app _ _ l s _ (S (length (l ++ s)))) in Hs; [by rewrite Hs|rewrite length_app; lia].
  - apply res_bind_Ok in Hev as (x & Hx & Hev). apply res_bind_Ok in Hev as (y & Hy & Hev).
    rewrite (IHa x), (IHb y); try done; apply (env_le_sub (refs a ++ refs b)); try done; set_solver.
  - apply res_bind_Ok in Hev as (x & Hx & Hev).
    rewrite (IHc x); [|apply (env_le_sub (refs c ++ refs a ++ refs b)); [set_solver|done]|done]. cbn [mbind res_bind].
    destruct (x =? 0); [apply IHb|apply IHa]; try done; apply (env_le_sub (refs c ++ refs a ++ refs b)); try done; set_solver.
Qed.

(** ** Lemmas on the layout of values *)

Definition fits (t : ty) (v : Z) : Prop :=
  if is_signed t then in_srange (8 * Z.of_nat (sizeof t)) v else in_range (8 * Z.of_nat (sizeof t)) v.

Lemma length_encode t v : length (encode t v) = sizeof t.
Proof. apply length_le_bytes. Qed.

Lemma decode_encode t v : (0 < sizeof t)%nat → fits t v → decode t (encode t v) = v.
Proof.
  intros Hs Hf. unfold decode, encode, fits in *.
  rewrite le_num_bytes. replace (256 ^ Z.of_nat (sizeof t)) with (2 ^ (8 * Z.of_nat (sizeof t)))
    by (rewrite Z.pow_mul_r by lia; done).
  change (?a mod 2 ^ ?w) with (wrap w a). destruct (is_signed t).
  - apply wrap_signed; [lia|done].
  - by apply wrap_small.
Qed.

(** Bytes decode to a value of the type, and back. *)
Lemma decode_fits t l :
  (0 < sizeof t)%nat → Forall is_byte l → length l = sizeof t → fits t (decode t l).
Proof.
  intros Hs Hb Hl. pose proof (le_num_bound l Hb) as Hr. rewrite Hl in Hr.
  replace (256 ^ Z.of_nat (sizeof t)) with (2 ^ (8 * Z.of_nat (sizeof t))) in Hr
    by (rewrite Z.pow_mul_r by lia; done).
  unfold fits, decode. destruct (is_signed t); [|done]. unfold signed, in_srange.
  set (w := 8 * Z.of_nat (sizeof t)) in *. rewrite wrap_small by done.
  assert (2 ^ w = 2 * 2 ^ (w - 1)) by (rewrite <- Z.pow_succ_r by lia; f_equal; lia).
  destruct (Z.ltb_spec (le_num l) (2 ^ (w - 1))); lia.
Qed.

Lemma le_bytes_mod n x y :
  x mod 256 ^ Z.of_nat n = y mod 256 ^ Z.of_nat n → le_bytes n x = le_bytes n y.
Proof.
  intros Heq. pose proof (le_bytes_num (le_bytes n x) (le_bytes_is_byte n x)) as Hx.
  pose proof (le_bytes_num (le_bytes n y) (le_bytes_is_byte n y)) as Hy.
  rewrite length_le_bytes in Hx, Hy. rewrite <- Hx, <- Hy, !le_num_bytes. by rewrite Heq.
Qed.

Lemma encode_decode t l :
  (0 < sizeof t)%nat → Forall is_byte l → length l = sizeof t → encode t (decode t l) = l.
Proof.
  intros Hs Hb Hl. transitivity (le_bytes (sizeof t) (le_num l)); [|rewrite <- Hl; by apply le_bytes_num].
  unfold encode, decode. pose proof (le_num_bound l Hb) as Hr. rewrite Hl in Hr.
  destruct (is_signed t); [|done]. unfold signed.
  replace (256 ^ Z.of_nat (sizeof t)) with (2 ^ (8 * Z.of_nat (sizeof t))) in Hr
    by (rewrite Z.pow_mul_r by lia; done).
  rewrite wrap_small by done. destruct (_ <? _); [done|].
  apply le_bytes_mod. replace (256 ^ Z.of_nat (sizeof t)) with (2 ^ (8 * Z.of_nat (sizeof t)))
    by (rewrite Z.pow_mul_r by lia; done).
  rewrite <- (Z_mod_plus_full (le_num l - _) 1). f_equal. lia.
Qed.

Lemma length_encode_all t vs : length (encode_all t vs) = (length vs * sizeof t)%nat.
Proof.
  induction vs as [|v vs IH]; [done|].
  change (encode_all t (v :: vs)) with (encode t v ++ encode_all t vs).
  rewrite length_app, length_encode, IH. cbn. lia.
Qed.

Lemma slice_encode_all t vs i v tail :
  vs !! i = Some v → slice (i * sizeof t) (sizeof t) (encode_all t vs ++ tail) = encode t v.
Proof.
  revert i. induction vs as [|x vs IH]; intros i Hi; [done|].
  change (encode_all t (x :: vs)) with (encode t x ++ encode_all t vs). rewrite <- app_assoc.
  destruct i as [|i]; cbn in Hi.
  - injection Hi as ->. rewrite Nat.mul_0_l. apply slice_prefix. by rewrite length_encode.
  - rewrite (slice_app_r' _ _ _ _ (i * sizeof t)) by (rewrite length_encode; cbn; lia). by apply IH.
Qed.

Lemma elems_of_encode t vs n tail :
  Forall (λ v, decode t (encode t v) = v) vs → n = Z.of_nat (length vs) →
  elems_of t n (encode_all t vs ++ tail) = Ok vs.
Proof.
  intros Hf ->. unfold elems_of. rewrite (proj2 (Z.leb_le _ _)).
  2: { rewrite length_app, length_encode_all. lia. }
  f_equal. apply list_eq. intros i. rewrite list_lookup_fmap, Nat2Z.id.
  destruct (vs !! i) as [v|] eqn:Hi.
  - pose proof (lookup_lt_Some _ _ _ Hi). rewrite lookup_seq_lt by done. cbn.
    rewrite (slice_encode_all t vs i v tail Hi). f_equal.
    by apply (Forall_lookup_1 _ _ _ _ Hf Hi).
  - rewrite lookup_ge_None_2; [done|]. rewrite length_seq. by apply lookup_ge_None.
Qed.

Lemma elems_of_length t n l vs : elems_of t n l = Ok vs → length vs = Z.to_nat n.
Proof.
  unfold elems_of. destruct (_ <=? _); [|done]. intros [= <-]. by rewrite length_fmap, length_seq.
Qed.

Lemma elems_of_app t n l tail vs : elems_of t n l = Ok vs → elems_of t n (l ++ tail) = Ok vs.
Proof.
  unfold elems_of. destruct (Z.leb_spec (n * Z.of_nat (sizeof t)) (Z.of_nat (length l))) as [Hl|]; [|done].
  intros [= <-]. rewrite (proj2 (Z.leb_le _ _)) by (rewrite length_app; lia). f_equal.
  apply list_fmap_ext. intros k i [-> Hi]%lookup_seq. f_equal. symmetry.
  rewrite slice_app_l; [done|].
  assert (Z.of_nat (S k * sizeof t) ≤ n * Z.of_nat (sizeof t)); [|cbn; lia].
  rewrite Nat2Z.inj_mul. apply Z.mul_le_mono_nonneg_r; lia.
Qed.

Lemma elems_of_take t n l vs :
  elems_of t n l = Ok vs → elems_of t n (take (Z.to_nat n * sizeof t) l) = Ok vs.
Proof.
  unfold elems_of. destruct (Z.leb_spec (n * Z.of_nat (sizeof t)) (Z.of_nat (length l))) as [Hl|]; [|done].
  intros [= <-].
  destruct (Z.le_gt_cases 0 n) as [Hn|Hn].
  2: { rewrite (Z2Nat_nonpos n) by lia. by rewrite (proj2 (Z.leb_le _ _)) by (cbn; nia). }
  assert (n * Z.of_nat (sizeof t) = Z.of_nat (Z.to_nat n * sizeof t)) as Hm by lia.
  rewrite (proj2 (Z.leb_le _ _)) by (rewrite length_take; lia). f_equal.
  apply list_fmap_ext. intros k i [-> Hi]%lookup_seq. f_equal. cbn in Hi. unfold slice.
  rewrite skipn_firstn_comm, take_take. f_equal. nia.
Qed.

(** The elements of an array of bytes are values of its type, and encode to the array. *)
Lemma elems_of_fits t n l vs :
  (0 < sizeof t)%nat → Forall is_byte l → elems_of t n l = Ok vs → Forall (fits t) vs.
Proof.
  unfold elems_of. intros Hs Hb. destruct (Z.leb_spec (n * Z.of_nat (sizeof t)) (Z.of_nat (length l))) as [Hl|]; [|done].
  intros [= <-]. apply Forall_fmap, Forall_forall. intros i Hi%elem_of_seq. cbn.
  apply decode_fits; [done|by apply Forall_take, Forall_drop|]. apply length_slice. nia.
Qed.

(** ** Lemmas on structs *)

Lemma align_up_ge off a : (off ≤ align_up off a)%nat.
Proof. unfold align_up. lia. Qed.

Lemma end_of_ge off ts : (off ≤ end_of off ts)%nat.
Proof.
  revert off. induction ts as [|t ts IH]; intros off; [done|]. cbn.
  pose proof (align_up_ge off (alignof t)). specialize (IH (align_up off (alignof t) + sizeof t)%nat). lia.
Qed.

Lemma length_pack off fs : length (pack off fs) = (end_of off fs.*1 - off)%nat.
Proof.
  revert off. induction fs as [|[t v] fs IH]; intros off; cbn; [lia|].
  rewrite !length_app, length_replicate, length_encode, IH.
  pose proof (align_up_ge off (alignof t)).
  pose proof (end_of_ge (align_up off (alignof t) + sizeof t) fs.*1). lia.
Qed.

(** The fields of a struct are read back as they were written. *)
Lemma unpack_pack off fs tail :
  Forall (λ f, decode f.1 (encode f.1 f.2) = f.2) fs →
  unpack off fs.*1 (pack off fs ++ tail) = fs.*2.
Proof.
  intros Hf. revert off. induction Hf as [|[t v] fs Hv Hf IH]; intros off; [done|].
  cbn [unpack pack fmap list_fmap fst snd] in *. rewrite <- !app_assoc.
  set (o := align_up off (alignof t)). f_equal.
  - rewrite (slice_app_r' _ _ _ _ 0) by (rewrite length_replicate; lia).
    by rewrite slice_prefix by by rewrite length_encode.
  - rewrite app_assoc, drop_app_length' by (by rewrite length_app, length_replicate, length_encode).
    apply IH.
Qed.
