(* ===== verification/Stub.v ===== *)
(** * The generated stubs (cava/nightwatch/generator/c)

    What the code that CAvA generates for an annotated function does: the stub in the guest
    library marshals the arguments into a CALL command ([function_implementation]), the worker
    translates them, performs the call and marshals the outputs into a RET command
    ([call_command_implementation]), and the guest copies the outputs into the caller's buffers
    ([return_command_implementation]).  The functions here run the generated C code for a given
    [func]; the cases are those of the generators' [simple_buffer_case], [buffer_case] and
    [default_case].  Buffers have the lifetime of the call.  What an API puts in place of generated
    code, the send code of the stub and the reply code of the worker, is an argument of
    [function_implementation_with] and [call_command_implementation_with]. *)

From S2P Require Import Prelude Channel HandlePool Endpoint SocketChannel Cava.
From Stdlib Require Import Ascii.
Local Open Scope char_scope.
Local Open Scope string_scope.
Local Open Scope Z_scope.

(** [for (i = 0; i < n; i++)] over the elements of an array, with a result for each. *)
Fixpoint mapS {A B S} (f : nat → A → S → res (B * S)) (i : nat) (l : list A) (s : S)
    : res (list B * S) :=
  match l with
  | [] => Ok ([], s)
  | x :: l =>
      '(y, s) ← f i x s;
      '(ys, s) ← mapS f (Datatypes.S i) l s;
      Ok (y :: ys, s)
  end.

(** The environment of annotations over a list of arguments with their values. *)
Definition arg_env (order : list argument) (vals : gmap string Z) (m : mem) (is_in : bool) : env :=
  mk_env (λ x, '(_, a) ← list_find (λ a, a_name a = x) order;
               v ← vals !! x; Some (view_of (a_type a) v m)) None 0 is_in.

Definition bytes_of (n : Z) (t : ty) : Z := u64 (u64 n * Z.of_nat (sizeof t)).

(** ** Sizes: [compute_total_size] *)

Fixpoint compute_size (buffer_size : Z → Z) (copy : bool) (t : ty) (E : env) (m : mem) (v : Z)
    : res Z :=
  match t with
  | TVal _ _ _ _ _ => Ok 0
  | TPtr transfer buffer _ el =>
      k ← eval E transfer;
      if negb (k =? NW_BUFFER) then Ok 0
      else if v =? NULL then Ok 0
      else
        n ← eval E buffer;
        if n <=? 0 then Ok 0
        else
          blob ← is_blob E true el;
          inner ← (if (blob : bool) then Ok 0
                   else
                     l ← object m v;
                     vs ← elems_of el n l;
                     '(ss, _) ← mapS (λ i x (u : unit),
                       s ← compute_size buffer_size copy el (at_index i (Some (view_of el x m)) E) m x;
                       Ok (s, u)) 0 vs tt;
                     Ok (foldr Z.add 0 ss));
          Ok (inner + if copy then buffer_size (bytes_of n el) else 0)
  end.

Definition arg_value (vals : gmap string Z) (a : argument) : res Z :=
  match vals !! a_name a with
  | Some v => Ok v
  | None => Stop (Undefined "argument without a value")
  end.

Definition compute_total_size (buffer_size : Z → Z) (copy : argument → cexpr)
    (order : list argument) (vals : gmap string Z) (E : env) (m : mem) : res Z :=
  foldM (λ a acc,
    if is_false (copy a) then Ok acc
    else
      c ← eval E (copy a);
      v ← arg_value vals a;
      s ← compute_size buffer_size (negb (c =? 0)) (a_type a) E m v;
      Ok (u64 (acc + s))) order 0.

(** ** The structs of a function *)

Definition intptr : ty := TVal 8 8 true (EInt NW_OPAQUE) (EInt 0).

Definition call_types (order : list argument) : list ty := intptr :: (a_type <$> order).

(** The arguments with a field in the RET struct. *)
Definition ret_field (a : argument) : bool :=
  contains_buffer (a_type a) && negb (is_false (a_output a)).
Definition ret_arguments (order : list argument) : list argument := filter ret_field order.
Definition ret_types (f : func) (order : list argument) : list ty :=
  intptr :: (a_type <$> ret_arguments order) ++ from_option (λ t, [t]) [] (f_ret f).

Definition sizeof_struct (ts : list ty) : Z :=
  Z.of_nat (sizeof_command_base + align_up (end_of 0 ts) 8).

Definition set_original_thread_id (v : Z) (b : command_base) : command_base :=
  mk_base (api_id b) (vm_id b) (command_type b) (thread_id b) v (flags b)
    (command_id b) (command_size b) (data_region b) (region_size b) (reserved_area b).

(** ** Guest *)

Section Guest.
Context `{Channel C}.

Definition attach_data (copy : bool) (l : res (list Z)) (size : Z) (st : C * command)
    : res (Z * (C * command)) :=
  if copy then
    l ← l;
    '(id, cmd, c) ← command_channel_attach_buffer st.1 st.2 (Some l) size;
    Ok (id, (c, cmd))
  else Ok (HAS_OUT_BUFFER_SENTINEL, st).

(** [attach_for_argument] and [attach_buffer]: the value of the field of the CALL struct. *)
Fixpoint attach_value (input : bool) (t : ty) (E : env) (m : mem) (v : Z) (st : C * command)
    : res (Z * (C * command)) :=
  match t with
  | TVal _ _ _ _ _ => Ok (v, st)
  | TPtr transfer buffer _ el =>
      k ← eval E transfer;
      if negb (k =? NW_BUFFER) then Ok (v, st)
      else if v =? NULL then Ok (NULL, st)
      else
        n ← eval E buffer;
        if n <=? 0 then Ok (NULL, st)
        else
          blob ← is_blob E true el;
          if (blob : bool) || negb input then attach_data input (object m v) (bytes_of n el) st
          else
            l ← object m v;
            vs ← elems_of el n l;
            '(vs, st) ← mapS (λ i x st,
              attach_value input el (at_index i (Some (view_of el x m)) E) m x st) 0 vs st;
            attach_data input (Ok (encode_all el vs)) (bytes_of n el) st
  end.

Definition attach_for_argument (E : env) (m : mem) (vals : gmap string Z) (a : argument)
    (st : C * command) : res (Z * (C * command)) :=
  c ← eval E (a_input a);
  v ← arg_value vals a;
  attach_value (negb (c =? 0)) (a_type a) E m v st.

(** The struct [call_record]. *)
Record call_record := mk_record {
  cr_args : gmap string Z;
  cr_ret : option Z;
  cr_handler_deallocate : bool;
  cr_call_complete : bool
}.

Record guest := mk_guest {
  g_chan : C;
  g_heap : heap;
  g_mem : mem;
  g_endpoint : ava_endpoint;
  g_records : gmap Z call_record
}.

(** [f.implicit_arguments] are attached before [f.real_arguments]. *)
Definition attach_order (f : func) : list argument := implicit_arguments f ++ real_arguments f.

(** [f.prologue], the statements of a specification that the stub runs: messages with the name of
    the function, and [abort].  In C, [__PRETTY_FUNCTION__] is the name as well. *)
Inductive name_macro := __func__ | __PRETTY_FUNCTION__.
Inductive statement := Fprintf (format : string) (arg : name_macro) | Call_abort.

Fixpoint printf (format : string) (args : list string) : res string :=
  match format with
  | EmptyString => Ok EmptyString
  | String "%"%char (String "s"%char format) =>
      match args with
      | [] => Stop (Undefined "missing argument of a format")
      | x :: args => rest ← printf format args; Ok (x +:+ rest)
      end
  | String a format => rest ← printf format args; Ok (String a rest)
  end.

(** What was written to stderr; the process ends with it at [abort]. *)
Fixpoint run_statements (name : string) (l : list statement) (err : string) : res string :=
  match l with
  | [] => Ok err
  | Fprintf format (__func__ | __PRETTY_FUNCTION__) :: l =>
      line ← printf format [name];
      run_statements name l (err +:+ line)
  | Call_abort :: _ => Stop (AssertFailed err)
  end.

(** The stub up to the point where [send_code] has run: the call identifier and the address of the
    call record.  [send_code] is given [is_async] and the command; it may have a state of its own. *)
Definition function_implementation_with {S} (prologue : list statement)
    (send_code : bool → command → C → heap → S → res (C * heap * S))
    (f : func) (order : list argument) (api thread : Z)
    (args : gmap string Z) (g : guest) (s : S) : res (Z * Z * guest * S) :=
  let E := arg_env order args (g_mem g) true in
  let '(call_id, ep) := ava_get_call_id (g_endpoint g) in
  total ← compute_total_size (command_channel_buffer_size (g_chan g)) a_input order args E (g_mem g);
  '(cmd, c, h) ← command_channel_new_command (g_chan g) (g_heap g) (sizeof_struct (call_types order)) total;
  let cmd := upd_base (λ b, set_original_thread_id thread (set_thread_id thread
               (set_command_id (f_call_id f) (set_api_id api b)))) cmd in
  '(vs1, st) ← mapS (λ _ a st, attach_for_argument E (g_mem g) args a st) 0 (implicit_arguments f) (c, cmd);
  _ ← run_statements (f_name f) prologue EmptyString;
  '(vs2, (c, cmd)) ← mapS (λ _ a st, attach_for_argument E (g_mem g) args a st) 0 (real_arguments f) st;
  let fields : gmap string Z := list_to_map (zip (a_name <$> attach_order f) (vs1 ++ vs2)) in
  let cmd := set_fields (pack 0 ((intptr, call_id) ::
               ((λ a, (a_type a, default 0 (fields !! a_name a))) <$> order))) cmd in
  let '(record, h) := malloc h in
  is_async ← eval E (f_async f);
  ep ← ava_add_call ep call_id record;
  '(c, h, s) ← send_code (negb (is_async =? 0)) cmd c h s;
  Ok (call_id, record, mk_guest c h (g_mem g) ep
    (<[record := mk_record args None (negb (is_async =? 0)) false]> (g_records g)), s).

(** The send code of an API that has no [ava_send_code]. *)
Definition default_send_code (is_async : bool) (cmd : command) (c : C) (h : heap) (s : unit)
    : res (C * heap * unit) :=
  '(c, h) ← command_channel_send_command c h cmd;
  Ok (c, h, s).

Definition function_implementation (f : func) (order : list argument) (api thread : Z)
    (args : gmap string Z) (g : guest) : res (Z * Z * guest) :=
  '(call_id, record, g, _) ← function_implementation_with [] default_send_code f order api thread args g tt;
  Ok (call_id, record, g).

(** [copy_result_for_argument]: the value [v] of the caller is brought up to date with the
    field [r] of the RET struct. *)
Fixpoint copy_result (get : Z → option (list Z)) (output : bool) (t : ty) (E : env)
    (v r : Z) (m : mem) : res (Z * mem) :=
  match t with
  | TVal _ _ _ _ _ => Ok (if output then r else v, m)
  | TPtr transfer buffer _ el =>
      k ← eval E transfer;
      if negb (k =? NW_BUFFER) then Ok (if output then r else v, m)
      else if negb output || (r =? NULL) then Ok (v, m)
      else
        match get r with
        | None => Stop (Undefined "invalid pointer")
        | Some src =>
            n ← eval E buffer;
            blob ← is_blob E false el;
            if (blob : bool) then
              data ← read_bytes (bytes_of n el) src;
              l ← object m v;
              l ← mem_copy 0 data l;
              Ok (v, <[v := l]> m)
            else
              new ← elems_of el n src;
              l ← object m v;
              old ← elems_of el n l;
              '(vs, m) ← mapS (λ i p m,
                copy_result get output el (at_index i (Some (view_of el p.2 m)) E) p.1 p.2 m) 0 (zip old new) m;
              l ← object m v;
              l ← mem_copy 0 (encode_all el vs) l;
              Ok (v, <[v := l]> m)
        end
  end.

(** The handler of the RET command. *)
Definition return_command_implementation (f : func) (order : list argument) (api : Z)
    (rcvd : command) (g : guest) : res guest :=
  let b := cmd_base rcvd in
  _ ← c_assert (api_id b =? api) "__ret->base.api_id == API";
  _ ← c_assert (command_size b =? sizeof_struct (ret_types f order)) "Command size does not match ID.";
  let fields := unpack 0 (ret_types f order) (cmd_rest rcvd) in
  '(record, ep) ← ava_remove_call (g_endpoint g) (nth 0 fields 0);
  match g_records g !! record with
  | None => Stop (Undefined "invalid pointer")
  | Some cr =>
      let vals : gmap string Z :=
        list_to_map (zip (a_name <$> ret_arguments order) (drop 1 fields)) in
      m ← foldM (λ a m,
        let E := arg_env order (cr_args cr) m false in
        out ← eval E (a_output a);
        v ← arg_value (cr_args cr) a;
        '(_, m) ← copy_result (command_channel_get_buffer (g_chan g) rcvd) (negb (out =? 0))
                    (a_type a) E v (default 0 (vals !! a_name a)) m;
        Ok m) (ret_arguments order) (g_mem g);
      let ret := match f_ret f with
                 | Some _ => Some (nth (S (length (ret_arguments order))) fields 0)
                 | None => None
                 end in
      let cr := mk_record (cr_args cr) ret (cr_handler_deallocate cr) true in
      if cr_handler_deallocate cr then
        h ← c_free record (g_heap g);
        Ok (mk_guest (g_chan g) h m ep (delete record (g_records g)))
      else Ok (mk_guest (g_chan g) (g_heap g) m ep (<[record := cr]> (g_records g)))
  end.

(** What the stub returns: for a synchronous call the result in the record, when the call is
    complete; for an asynchronous one the success value of the type. *)
Definition await_return (record : Z) (g : guest) : res (option Z * guest) :=
  match g_records g !! record with
  | None => Stop (Undefined "invalid pointer")
  | Some cr =>
      if cr_call_complete cr then
        h ← c_free record (g_heap g);
        Ok (cr_ret cr, mk_guest (g_chan g) h (g_mem g) (g_endpoint g) (delete record (g_records g)))
      else Stop (Blocked "shadow_thread_handle_command_until")
  end.

Definition forge_success (f : func) : res (option Z) :=
  match f_ret f, f_success f with
  | None, _ => Ok None
  | Some _, Some v => Ok (Some v)
  | Some _, None => Stop (AssertFailed "Cannot forge success without a success value for the type.")
  end.

End Guest.
Arguments guest C : clear implicits.

(** ** Worker *)

(** The buffers of one call, the next address of [malloc], the handle pool. *)
Record wstate := mk_w {
  w_mem : mem;
  w_next : Z;
  w_pool : option nw_handle_pool;
  w_counter : counter
}.

Definition w_alloc (l : list Z) (w : wstate) : Z * wstate :=
  (w_next w, mk_w (<[w_next w := l]> (w_mem w)) (w_next w + 1) (w_pool w) (w_counter w)).
Definition set_w_pool (p : option nw_handle_pool) (g : counter) (w : wstate) : wstate :=
  mk_w (w_mem w) (w_next w) p g.
Definition set_w_mem (m : mem) (w : wstate) : wstate :=
  mk_w m (w_next w) (w_pool w) (w_counter w).

Section Worker.
Context `{Channel C, Uninit}.

(** The function generated for [ava_callback], and the API function with the prologue and the
    epilogue of the specification, over the state [G] of the library. *)
Variable callback_stub : Z.
Context {G : Type}.
Variable native : list Z → mem → G → Z * mem * G.

(** The [preassignment] of a local value: its transfer buffer. *)
Definition pre_view (get : Z → option (list Z)) (E : env) (t : ty) (v : Z) : res view :=
  match t with
  | TVal _ _ _ _ _ => Ok (VInt v)
  | TPtr transfer _ _ _ =>
      k ← eval E transfer;
      Ok (if v =? NULL then VNull
          else if k =? NW_BUFFER then match get v with Some l => VMem l | None => VNull end
          else VPtr)
  end.

(** [default_case] of [convert_input_for_argument]. *)
Definition convert_default (k d v : Z) (w : wstate) : res (Z * wstate) :=
  if (k =? NW_CALLBACK) || (k =? NW_CALLBACK_REGISTRATION)
  then Ok (if v =? NULL then NULL else callback_stub, w)
  else if k =? NW_HANDLE then
    if d =? 0 then h ← nw_handle_pool_deref (w_pool w) v; Ok (h, w)
    else '(h, p) ← nw_handle_pool_deref_and_remove (w_pool w) v; Ok (h, set_w_pool p (w_counter w) w)
  else Ok (v, w).

(** [convert_input_for_argument]: the local value for the field [v] of the CALL struct.  A
    buffer of bytes is used where it was received: its object are the bytes of the buffer. *)
Fixpoint convert_input (get : Z → option (list Z)) (input : bool) (t : ty) (E : env) (v : Z)
    (w : wstate) : res (Z * wstate) :=
  match t with
  | TVal _ _ _ transfer deallocates =>
      k ← eval E transfer;
      d ← eval E deallocates;
      convert_default k d v w
  | TPtr transfer buffer deallocates el =>
      k ← eval E transfer;
      if negb (k =? NW_BUFFER) then d ← eval E deallocates; convert_default k d v w
      else if v =? NULL then Ok (NULL, w)
      else if negb input then
        n ← eval E buffer;
        Ok (w_alloc (uninit (w_next w) (Z.to_nat (bytes_of n el))) w)
      else
        match get v with
        | None => Stop (Undefined "invalid pointer")
        | Some src =>
            n ← eval E buffer;
            blob ← is_blob E false el;
            if (blob : bool) then l ← read_bytes (bytes_of n el) src; Ok (w_alloc l w)
            else
              vs ← elems_of el n src;
              '(vs, w) ← mapS (λ i x w,
                pv ← pre_view get (at_index i (Some VPtr) E) el x;
                convert_input get input el (at_index i (Some pv) E) x w) 0 vs w;
              Ok (w_alloc (encode_all el vs) w)
        end
  end.

Definition convert_input_for_argument (get : Z → option (list Z)) (order : list argument)
    (a : argument) (v : Z) (st : gmap string Z * wstate) : res (gmap string Z * wstate) :=
  let E := arg_env order st.1 (w_mem st.2) true in
  pv ← pre_view get E (a_type a) v;
  let E := set_arg (a_name a) pv E in
  c ← eval E (a_input a);
  '(local, w) ← convert_input get (negb (c =? 0)) (a_type a) E v st.2;
  Ok (<[a_name a := local]> st.1, w).

(** [default_case] of [convert_result_for_argument]. *)
Definition result_default (k d v : Z) (w : wstate) : res (Z * wstate) :=
  if k =? NW_HANDLE then
    if d =? 0 then
      '(id, g, p) ← nw_handle_pool_lookup_or_insert (w_counter w) (w_pool w) v;
      Ok (id, set_w_pool p g w)
    else Ok (NULL, w)
  else Ok (v, w).

(** [convert_result_for_argument]: the field of the RET struct for the local value [v]. *)
Fixpoint convert_result (output : bool) (t : ty) (E : env) (v : Z) (st : C * command * wstate)
    : res (Z * (C * command * wstate)) :=
  let default k d := '(v, w) ← result_default k d v st.2; Ok (v, (st.1, w)) in
  let attach l size (st : C * command * wstate) :=
    if output then
      let '(c, cmd, w) := st in
      '(id, cmd, c) ← command_channel_attach_buffer c cmd (Some l) size;
      Ok (id, (c, cmd, w))
    else Ok (NULL, st) in
  match t with
  | TVal _ _ _ transfer deallocates =>
      k ← eval E transfer;
      d ← eval E deallocates;
      default k d
  | TPtr transfer buffer deallocates el =>
      k ← eval E transfer;
      if negb (k =? NW_BUFFER) then d ← eval E deallocates; default k d
      else if v =? NULL then Ok (NULL, st)
      else
        n ← eval E buffer;
        blob ← is_blob E false el;
        if (blob : bool) then
          if n <=? 0 then Ok (NULL, st)
          else l ← object (w_mem st.2) v; attach l (bytes_of n el) st
        else
          l ← object (w_mem st.2) v;
          vs ← elems_of el n l;
          '(vs, st) ← mapS (λ i x st,
            convert_result output el (at_index i (Some (view_of el x (w_mem st.2))) E) x st) 0 vs st;
          attach (encode_all el vs) (bytes_of n el) st
  end.

(** The handler of the CALL command.  [process_code] runs before the call, on the state of the library;
    [reply_code] is given [is_async], which it need not evaluate. *)
Definition call_command_implementation_with (process_code : G → res G)
    (reply_code : res Z → command → C → heap → res (C * heap)) (f : func) (order : list argument) (api : Z)
    (rcvd : command) (c : C) (h : heap) (w : wstate) (g : G) : res (C * heap * wstate * G) :=
  let b := cmd_base rcvd in
  _ ← c_assert (api_id b =? api) "__call->base.api_id == API";
  _ ← c_assert (command_size b =? sizeof_struct (call_types order)) "Command size does not match ID.";
  let fields := unpack 0 (call_types order) (cmd_rest rcvd) in
  let get := command_channel_get_buffer c rcvd in
  '(locals, w) ← foldM (λ p st, convert_input_for_argument get order p.1 p.2 st)
                   (zip order (drop 1 fields)) (∅ : gmap string Z, w);
  g ← process_code g;
  let '(ret, m, g) := native ((λ a, default 0 (locals !! a_name a)) <$> f_arguments f) (w_mem w) g in
  let w := set_w_mem m w in
  let E := arg_env order locals m false in
  total ← compute_total_size (command_channel_buffer_size c) a_output order locals E m;
  '(cmd, c, h) ← command_channel_new_command c h (sizeof_struct (ret_types f order)) total;
  let cmd := upd_base (λ b', set_thread_id (original_thread_id b)
               (set_command_id (f_ret_id f) (set_api_id api b'))) cmd in
  '(r, st) ← match f_ret f with
             | Some t => '(v, st) ← convert_result false t E ret (c, cmd, w); Ok ([(t, v)], st)
             | None => Ok ([], (c, cmd, w))
             end;
  '(vs, (c, cmd, w)) ← mapS (λ _ a st,
      out ← eval E (a_output a);
      v ← arg_value locals a;
      if out =? 0 then Ok (0, st) else convert_result true (a_type a) E v st)
    0 (ret_arguments order) st;
  let cmd := set_fields (pack 0 ((intptr, nth 0 fields 0) ::
               zip (a_type <$> ret_arguments order) vs ++ r)) cmd in
  '(c, h) ← reply_code (eval E (f_async f)) cmd c h;
  Ok (c, h, set_w_mem ∅ w, g).

(** An API that has neither [ava_worker_argument_process_code] nor [ava_reply_code]. *)
Definition call_command_implementation : func → list argument → Z → command → C → heap → wstate → G →
    res (C * heap * wstate * G) :=
  call_command_implementation_with Ok (λ _ cmd c h, command_channel_send_command c h cmd).

End Worker.

(** ** Handling a command *)

(** The [switch] of [handle_command_function]: the case for the RET command of a function in
    [returns] or the CALL command of a function in [calls]. *)
Inductive case := CaseCall (f : func) | CaseRet (f : func).

Definition handle_case (calls returns : list func) (id : Z) : res case :=
  match list_find (λ f, f_ret_id f = id) returns, list_find (λ f, f_call_id f = id) calls with
  | Some (_, f), _ => Ok (CaseRet f)
  | None, Some (_, f) => Ok (CaseCall f)
  | None, None => Stop (AssertFailed "Received unsupported command")
  end.

Definition ordered `{Toposort} (f : func) : list argument :=
  default [] (toposort_flatten (f_arguments f)).

Definition pending (cmd : option command) : res command :=
  match cmd with Some cmd => Ok cmd | None => Stop (Blocked "receive_command") end.

Definition set_chan {C} (c : C) (h : heap) (g : guest C) : guest C :=
  mk_guest c h (g_mem g) (g_endpoint g) (g_records g).

Section Handle.
Context `{Channel A, Channel B, Toposort, Uninit}.
Variable callback_stub : Z.
Context {G : Type}.
Variable native : func → list Z → mem → G → Z * mem * G.
Variables (api : Z) (functions callbacks : list func).

(** The worker handles a CALL command, the guest a RET command; the command is freed after it. *)
Definition worker_handle (c : B) (h : heap) (w : wstate) (s : G) : res (B * heap * wstate * G) :=
  '(cmd, c, h) ← command_channel_receive_command c h;
  cmd ← pending cmd;
  k ← handle_case functions callbacks (command_id (cmd_base cmd));
  match k with
  | CaseRet _ => Stop (Undefined "reply to a callback")
  | CaseCall f =>
      '(c, h, w, s) ← call_command_implementation callback_stub (native f) f (ordered f) api cmd c h w s;
      h ← command_channel_free_command c h cmd;
      Ok (c, h, w, s)
  end.

Definition guest_handle (g : guest A) : res (guest A) :=
  '(cmd, c, h) ← command_channel_receive_command (g_chan g) (g_heap g);
  cmd ← pending cmd;
  k ← handle_case callbacks functions (command_id (cmd_base cmd));
  match k with
  | CaseCall _ => Stop (Undefined "call of a callback")
  | CaseRet f =>
      g ← return_command_implementation f (ordered f) api cmd (set_chan c h g);
      h ← command_channel_free_command (g_chan g) (g_heap g) cmd;
      Ok (set_chan (g_chan g) h g)
  end.

(** [shadow_thread_handle_command_until]: replies are handled until the call has completed; every
    reply takes its call from the table of calls, which bounds the loop. *)
Fixpoint handle_until (fuel : nat) (record : Z) (g : guest A) : res (guest A) :=
  if match g_records g !! record with Some r => cr_call_complete r | None => false end then Ok g
  else match fuel with
       | O => Stop (Blocked "shadow_thread_handle_command_until")
       | S fuel => g ← guest_handle g; handle_until fuel record g
       end.

(** A call from the stub's first line to its return, with the transport in between; the worker
    handles the command meanwhile.  The stub of an asynchronous function does not wait: the reply
    is left in the channel. *)
Definition remote_call (to_worker : A → B → A * B) (to_guest : B → A → B * A) (f : func) (thread : Z)
    (args : gmap string Z) (g : guest A) (c : B) (h : heap) (w : wstate) (s : G)
    : res (option Z * guest A * (B * heap * wstate * G)) :=
  is_async ← eval (arg_env (ordered f) args (g_mem g) true) (f_async f);
  '(_, record, g) ← function_implementation f (ordered f) api thread args g;
  let '(a, c) := to_worker (g_chan g) c in
  '(c, h, w, s) ← worker_handle c h w s;
  let '(c, a) := to_guest c a in
  let g := set_chan a (g_heap g) g in
  '(r, g) ← (if is_async =? 0 then
               g ← handle_until (size (call_map (g_endpoint g))) record g;
               await_return record g
             else r ← forge_success f; Ok (r, g));
  Ok (r, g, (c, h, w, s)).

End Handle.
