(* ===== verification/Remote.v ===== *)
(** * Remote calls refine direct calls

    The specification of the code in Stub.v: [direct_call] is the call of an annotated function
    with its inputs copied directly into the memory of the API library and its outputs copied
    back, without commands, channels and identifiers of buffers.  The theorem shows that the
    generated guest stub, the generated worker and the generated reply handler, connected by any
    channel with the properties of [Link], compute the same.

    The annotations are evaluated in the environment of what has been transferred so far, so a
    function whose sizes the other side could not compute has no direct call. *)

From S2P Require Import Prelude Channel HandlePool Endpoint SocketChannel Cava Stub.
Local Open Scope Z_scope.

(** ** What is transferred for a value *)

Inductive msg :=
  | MVal (z : Z)
  | MNull
  | MOut (size : Z)
  | MBytes (data : list Z)
  | MArr (ms : list msg).

Definition with_self (self : ref) (v : view) (E : env) : env :=
  match self with
  | RArg x => set_arg x v E
  | RElem => mk_env (e_arg E) (Some v) (e_index E) (e_in E)
  end.

Definition check (b : bool) : res unit := c_assert b "the annotations do not determine the transfer".

(** The size in bytes of [n] elements, which must not wrap. *)
Definition checked_bytes (n : Z) (t : ty) : res Z :=
  let s := n * Z.of_nat (sizeof t) in
  _ ← check ((n <? 2 ^ 64) && (s <? 2 ^ 64) && (0 <? sizeof t)%nat);
  Ok s.

(** [plan self input t R m v]: what the guest sends for the value [v]; [R] shows what both
    sides know about the other arguments. *)
Fixpoint plan (self : ref) (input : bool) (t : ty) (R : env) (m : mem) (v : Z) : res msg :=
  match t with
  | TVal _ _ _ transfer deallocates =>
      _ ← eval R transfer;
      _ ← eval R deallocates;
      Ok (MVal v)
  | TPtr transfer buffer deallocates el =>
      k ← eval R transfer;
      if negb (k =? NW_BUFFER) then _ ← eval R deallocates; Ok (MVal v)
      else if v =? NULL then Ok MNull
      else if negb input then
        n ← eval R buffer;
        if n <=? 0 then Ok MNull
        else
          s ← checked_bytes n el;
          blob ← is_blob R true el;
          _ ← check blob;
          Ok (MOut s)
      else
        l ← object m v;
        n ← eval (with_self self (VMem l) R) buffer;
        if n <=? 0 then Ok MNull
        else
          s ← checked_bytes n el;
          _ ← check (s <=? Z.of_nat (length l));
          let data := take (Z.to_nat s) l in
          blob ← is_blob R true el;
          n' ← eval (if (blob : bool) then with_self self (VMem data) R else R) buffer;
          _ ← check (n' =? n);
          if (blob : bool) then Ok (MBytes data)
          else
            vs ← elems_of el n l;
            '(ms, _) ← mapS (λ i x (u : unit),
              p ← plan RElem input el (at_index i None R) m x; Ok (p, u)) 0 vs tt;
            Ok (MArr ms)
  end.

(** [realise t R p w]: the value in the library's memory for what was sent. *)
Section realise.
Context `{Uninit}.
Variable callback_stub : Z.

Fixpoint realise (t : ty) (R : env) (p : msg) (w : wstate) : res (Z * wstate) :=
  match t with
  | TVal _ _ _ transfer deallocates =>
      k ← eval R transfer;
      d ← eval R deallocates;
      match p with MVal v => convert_default callback_stub k d v w | _ => Stop (Undefined "no value") end
  | TPtr transfer _ deallocates el =>
      k ← eval R transfer;
      match p with
      | MVal v => d ← eval R deallocates; convert_default callback_stub k d v w
      | MNull => Ok (NULL, w)
      | MOut s => Ok (w_alloc (uninit (w_next w) (Z.to_nat s)) w)
      | MBytes data =>
          blob ← is_blob R false el;
          if (blob : bool) then Ok (w_alloc data w)
          else
            vs ← elems_of el (Z.of_nat (length data) / Z.of_nat (sizeof el)) data;
            '(vs, w) ← mapS (λ i x w,
              _ ← check (match el with TVal _ _ _ _ _ => true | _ => false end);
              realise el (at_index i None R) (MVal x) w) 0 vs w;
            Ok (w_alloc (encode_all el vs) w)
      | MArr ms =>
          blob ← is_blob R false el;
          _ ← check (negb blob);
          '(vs, w) ← mapS (λ i p w, realise el (at_index i None R) p w) 0 ms w;
          Ok (w_alloc (encode_all el vs) w)
      end
  end.
End realise.

(** What both sides know about an argument after it was transferred. *)
Definition shared_view (t : ty) (R : env) (p : msg) (v : Z) : res (option view) :=
  match t, p with
  | TVal _ _ _ transfer _, _ =>
      k ← eval R transfer; Ok (if k =? NW_OPAQUE then Some (VInt v) else None)
  | TPtr _ _ _ _, MNull => Ok (if v =? NULL then Some VNull else None)
  | TPtr _ _ _ el, MBytes data =>
      blob ← is_blob R false el; Ok (if (blob : bool) then Some (VMem data) else None)
  | _, _ => Ok None
  end.

Definition learn (x : string) (v : option view) (R : env) : env :=
  match v with Some v => set_arg x v R | None => R end.

Definition no_env (is_in : bool) : env := mk_env (λ _, None) None 0 is_in.

(** The bytes of the buffers that are attached for it. *)
Fixpoint msize (t : ty) (p : msg) : Z :=
  match t, p with
  | TPtr _ _ _ _, MBytes data => Z.of_nat (length data)
  | TPtr _ _ _ el, MArr ms =>
      foldr Z.add 0 (msize el <$> ms) + Z.of_nat (length ms) * Z.of_nat (sizeof el)
  | _, _ => 0
  end.

Definition msizes (order : list argument) (ps : list (env * msg)) : Z :=
  foldr Z.add 0 (zip_with (λ a p, msize (a_type a) p.2) order ps).

(** ** The direct call *)

(** Bytes for an output, and whether they are the library's bytes. *)
Abbreviation output := (option (list Z * bool)).

Section direct.
Context `{Uninit}.
Variable callback_stub : Z.
Context {G : Type}.
Variable native : list Z → mem → G → Z * mem * G.

Definition plan_arg (m : mem) (args : gmap string Z) (a : argument) (st : env * list (env * msg))
    : res (env * list (env * msg)) :=
  let '(R, ps) := st in
  c ← eval R (a_input a);
  v ← arg_value args a;
  p ← plan (RArg (a_name a)) (negb (c =? 0)) (a_type a) R m v;
  sv ← shared_view (a_type a) R p v;
  Ok (learn (a_name a) sv R, ps ++ [(R, p)]).

Definition realise_arg (ap : argument * (env * msg)) (st : gmap string Z * wstate)
    : res (gmap string Z * wstate) :=
  '(local, w) ← realise callback_stub (a_type ap.1) ap.2.1 ap.2.2 st.2;
  Ok (<[a_name ap.1 := local]> st.1, w).

(** What both sides still know after the library has run: a buffer it changed is not shared. *)
Definition still_shared (locals : gmap string Z) (m : mem) (R : env) : env :=
  mk_env (λ x, v ← e_arg R x;
    match v with
    | VMem d =>
        p ← locals !! x;
        l ← m !! p;
        if decide (take (length d) l = d) then Some v else None
    | _ => Some v
    end) None 0 false.

(** The caller's object at [p] is overwritten. *)
Definition forget (args : gmap string Z) (p : Z) (R : env) : env :=
  mk_env (λ x, if decide (args !! x = Some p) then
                 match e_arg R x with Some (VMem _) => None | o => o end
               else e_arg R x) (e_elem R) (e_index R) (e_in R).

(** The bytes of the output [a] as the caller gets them, [None] when there are none; the
    handles among them are given identifiers. *)
Definition output_bytes (R : env) (t : ty) (out local : Z) (w : wstate)
    : res (output * wstate) :=
  match t with
  | TVal _ _ _ _ _ => Stop (Undefined "output without a buffer")
  | TPtr transfer buffer _ el =>
      k ← eval R transfer;
      _ ← check (match el with TVal _ _ _ _ _ => true | _ => false end);
      if negb (k =? NW_BUFFER) then _ ← check (out =? 0); Ok (None, w)
      else if local =? NULL then Ok (None, w)
      else
        n ← eval R buffer;
        handles ← is_blob R true el;
        _ ← check handles;
        blob ← is_blob R false el;
        if out =? 0 then Ok (None, w)
        else if (blob : bool) && (n <=? 0) then Ok (None, w)
        else
          _ ← check (0 <? n);
          s ← checked_bytes n el;
          l ← object (w_mem w) local;
          _ ← check (s <=? Z.of_nat (length l));
          if (blob : bool) then Ok (Some (take (Z.to_nat s) l, true), w)
          else
            vs ← elems_of el n l;
            '(ids, w) ← mapS (λ i x w,
              let R := at_index i None R in
              k ← eval R (transfer_of el);
              d ← eval R (deallocates_of el);
              result_default k d x w) 0 vs w;
            _ ← check (forallb (λ v, decode el (encode el v) =? v) ids);
            Ok (Some (encode_all el ids, false), w)
  end.

Definition out_arg (args locals : gmap string Z) (a : argument) (st : env * mem * wstate * list output)
    : res (env * mem * wstate * list output) :=
  let '(R, m, w, os) := st in
  out ← eval R (a_output a);
  local ← arg_value locals a;
  v ← arg_value args a;
  '(o, w) ← output_bytes R (a_type a) out local w;
  match o with
  | None => Ok (R, m, w, os ++ [o])
  | Some (data, plain) =>
      _ ← check (negb (v =? NULL));
      old ← object m v;
      new ← mem_copy 0 data old;
      Ok ((if (plain : bool) then set_arg (a_name a) (VMem data) else id) (forget args v R),
          <[v := new]> m, w, os ++ [o])
  end.

Definition osize (o : output) : Z :=
  match o with Some (data, _) => Z.of_nat (length data) | None => 0 end.

(** The result as the caller gets it. *)
Definition ret_value (f : func) (R : env) (ret : Z) (w : wstate) : res (option Z * wstate) :=
  match f_ret f with
  | Some t =>
      k ← eval R (transfer_of t);
      d ← eval R (deallocates_of t);
      '(v, w) ← result_default k d ret w;
      _ ← check (decode t (encode t v) =? v);
      Ok (Some v, w)
  | None => Ok (None, w)
  end.

(** The result, the caller's memory, the state of the worker and of the library, and how many
    bytes of buffers were transferred in each direction. *)
Definition direct_call (f : func) (order : list argument) (args : gmap string Z) (m : mem)
    (w : wstate) (g : G) : res (option Z * mem * wstate * G * (Z * Z)) :=
  '(R, ps) ← foldM (plan_arg m args) order (no_env true, []);
  is_async ← eval (arg_env order args m true) (f_async f);
  '(locals, w) ← foldM realise_arg (zip order ps) (∅, w);
  let '(ret, m', g) := native ((λ a, default 0 (locals !! a_name a)) <$> f_arguments f) (w_mem w) g in
  let w := set_w_mem m' w in
  let R := still_shared locals m' R in
  '(r, w) ← ret_value f R ret w;
  '(_, m, w, os) ← foldM (out_arg args locals) (ret_arguments order) (R, m, w, []);
  let total := foldr Z.add 0 (osize <$> os) in
  _ ← check ((msizes order ps <? 2 ^ 64) && (total <? 2 ^ 64));
  r ← (if is_async =? 0 then Ok r else forge_success f);
  Ok (r, m, set_w_mem ∅ w, g, (msizes order ps, total)).

End direct.

(** ** What a channel promises *)

Definition header_of (cmd : command) : Z * Z * Z * Z :=
  (api_id (cmd_base cmd), command_id (cmd_base cmd), thread_id (cmd_base cmd),
   original_thread_id (cmd_base cmd)).

(** The assignments to the header of a new command. *)
Inductive header_update : (command_base → command_base) → Prop :=
  | HApi v : in_range 8 v → header_update (set_api_id v)
  | HCommand v : in_range 64 v → header_update (set_command_id v)
  | HThread v : in_srange 64 v → header_update (set_thread_id v)
  | HOriginal v : in_srange 64 v → header_update (set_original_thread_id v)
  | HComp f g : header_update f → header_update g → header_update (λ b, f (g b)).

(** [conn a b]: the two ends are connected and nothing is on the way.  [building a b cmd css A cap]:
    the end [a] has a new command of [css] bytes, the buffers [A] attached and room for [cap]
    more bytes.  [deliver] is the transport. *)
Class Link (A B : Type) `{Channel A} `{Channel B} (conn : A → B → Prop) := {
  deliver : A → B → A * B;
  room : Z → Z → Prop;
  building : A → B → command → Z → gmap Z (list Z) → Z → Prop;
  link_size : ∀ (a : A) n, command_channel_buffer_size a n = n;
  link_new : ∀ a b h css total, conn a b → Z.of_nat sizeof_command_base ≤ css → 0 ≤ total →
    room css total →
    ∃ cmd a', command_channel_new_command a h css total = Ok (cmd, a', (malloc h).2) ∧
      building a' b cmd css ∅ total ∧ cmd_addr cmd = next_addr h;
  link_attach : ∀ a b cmd css bufs cap d tail, building a b cmd css bufs cap → d ≠ [] →
    Z.of_nat (length d) ≤ cap →
    ∃ id a' cmd', command_channel_attach_buffer a cmd (Some (d ++ tail)) (Z.of_nat (length d)) =
        Ok (id, cmd', a') ∧ bufs !! id = None ∧ 0 < id < 2 ^ 64 ∧
      building a' b cmd' css (<[id := d]> bufs) (cap - Z.of_nat (length d)) ∧
      cmd_addr cmd' = cmd_addr cmd ∧ header_of cmd' = header_of cmd;
  link_header : ∀ a b cmd css bufs cap f, building a b cmd css bufs cap → header_update f →
    building a b (upd_base f cmd) css bufs cap;
  link_fields : ∀ a b cmd css bufs cap l, building a b cmd css bufs cap →
    Z.of_nat (sizeof_command_base + length l) ≤ css → building a b (set_fields l cmd) css bufs cap;
  link_send : ∀ a b h hb cmd css bufs cap, building a b cmd css bufs cap → cmd_addr cmd ∈ live h →
    ∃ a1 a2 b1 b2 rcvd rest, command_channel_send_command a h cmd =
        Ok (a1, mk_heap (live h ∖ {[cmd_addr cmd]}) (next_addr h)) ∧
      deliver a1 b = (a2, b1) ∧ command_channel_receive_command b1 hb = Ok (Some rcvd, b2, (malloc hb).2) ∧
      conn a2 b2 ∧ cmd_addr rcvd = next_addr hb ∧ header_of rcvd = header_of cmd ∧ command_size (cmd_base rcvd) = css ∧
      cmd_rest rcvd = take (Z.to_nat css - sizeof_command_base) (cmd_rest cmd) ++ rest ∧
      ∀ id d, bufs !! id = Some d → ∃ tail, command_channel_get_buffer b2 rcvd id = Some (d ++ tail);
  link_free : ∀ (b : B) h cmd, command_channel_free_command b h cmd = c_free (cmd_addr cmd) h
}.

(** The addresses in use were handed out before. *)
Definition heap_ok (h : heap) : Prop := ∀ x, x ∈ live h → x < next_addr h.

Lemma heap_ok_fresh h y : heap_ok h → next_addr h ≤ y → y ∉ live h.
Proof. intros Hh Hy Hin. apply Hh in Hin. lia. Qed.

Lemma heap_ok_malloc h : heap_ok h → heap_ok (malloc h).2.
Proof. intros Hh y. cbn. rewrite elem_of_union, elem_of_singleton. intros [->|Hy%Hh]; lia. Qed.

(** A block that is allocated and freed. *)
Lemma live_malloc_free h : heap_ok h → ({[next_addr h]} ∪ live h) ∖ {[next_addr h]} = live h.
Proof. intros Hh. pose proof (heap_ok_fresh h (next_addr h) Hh). assert (next_addr h ∉ live h) by (by apply H). clear -H0. set_solver. Qed.

(** ** Environments of the two sides *)

(** [E] shows everything [R] shows, and of [self] what [sv] says. *)
Definition sees (self : ref) (sv : option view) (R E : env) : Prop :=
  (∀ rs, env_le rs R E) ∧ ∀ v, sv = Some v → ∀ rs, env_le rs (with_self self v R) E.

Lemma sees_eval self sv R E e z : sees self sv R E → eval R e = Ok z → eval E e = Ok z.
Proof. intros [Hs _]. by apply eval_mono. Qed.

Lemma sees_eval_self self v R E e z :
  sees self (Some v) R E → eval (with_self self v R) e = Ok z → eval E e = Ok z.
Proof. intros [_ Hs]. by apply eval_mono, Hs. Qed.

Lemma sees_blob self sv R E h t b : sees self sv R E → is_blob R h t = Ok b → is_blob E h t = Ok b.
Proof.
  intros Hs. unfold is_blob. destruct (has_index _); [done|].
  intros (k & Hk & Hb)%res_bind_Ok. by rewrite (sees_eval _ _ _ _ _ _ Hs Hk).
Qed.

Lemma sees_at self sv R E i v :
  sees self sv R E → sees RElem (Some v) (at_index i None R) (at_index i (Some v) E).
Proof.
  intros [Hs _].
  assert (∀ x u, e_arg R x = Some u → ∃ w, e_arg E x = Some w ∧ view_le u w) as Ha.
  { intros x u Hu. destruct (Hs [RArg x]) as (_ & _ & Hx). apply (Hx (RArg x) u); [by left|done]. }
  destruct (Hs []) as (_ & Hin & _). split.
  - intros rs. split_and!; [done|done|]. intros [x|] u _ Hu; cbn in *; [by apply Ha|done].
  - intros ? [= <-] rs. split_and!; [done|done|]. intros [x|] u _ Hu; cbn in *; [by apply Ha|].
    injection Hu as <-. exists v. split; [done|apply view_le_refl].
Qed.

(** A self view may be longer than what was needed. *)
Lemma sees_longer self l t R E :
  sees self (Some (VMem (l ++ t))) R E → sees self (Some (VMem l)) R E.
Proof.
  intros [H1 H2]. split; [done|]. intros v [= <-] rs. eapply env_le_trans; [|by apply H2].
  assert (∀ o u, o = Some u → ∃ w, o = Some w ∧ view_le u w) as Hsame.
  { intros o u ->. exists u. split; [done|apply view_le_refl]. }
  assert (∀ u, Some (VMem l) = Some u → ∃ w, Some (VMem (l ++ t)) = Some w ∧ view_le u w) as Hlong.
  { intros u [= <-]. eexists. split; [done|]. right. by eexists _, _. }
  destruct self as [x|]; (split_and!; [done|done|]); intros [y|] u _; cbn; auto.
  destruct (decide (y = x)); auto.
Qed.

Lemma check_Ok b u : check b = Ok u ↔ b = true.
Proof. apply c_assert_Ok. Qed.

Lemma checked_bytes_Ok n t s :
  checked_bytes n t = Ok s → 0 < n →
  s = n * Z.of_nat (sizeof t) ∧ (0 < sizeof t)%nat ∧ 0 < s < 2 ^ 64 ∧ bytes_of n t = s.
Proof.
  unfold checked_bytes. intros (u & Hu & [= <-])%res_bind_Ok Hn. apply check_Ok in Hu.
  apply andb_true_iff in Hu as [[H1 H2]%andb_true_iff H3].
  apply Z.ltb_lt in H1, H2. apply Nat.ltb_lt in H3. split_and!; try done; [nia|].
  unfold bytes_of. rewrite (wrap_small 64 n) by (unfold in_range; lia).
  apply wrap_small. unfold in_range. nia.
Qed.

Lemma mapS_Ok {A B S} (f : nat → A → S → res (B * S)) i x l s ys s' :
  mapS f i (x :: l) s = Ok (ys, s') ↔
  ∃ y s1 ys', f i x s = Ok (y, s1) ∧ mapS f (Datatypes.S i) l s1 = Ok (ys', s') ∧ ys = y :: ys'.
Proof.
  cbn. split.
  - intros ([y s1] & H1 & H2)%res_bind_Ok. apply res_bind_Ok in H2 as ([ys' s2] & H2 & [= <- <-]).
    by exists y, s1, ys'.
  - intros (y & s1 & ys' & -> & H2 & ->). cbn. by rewrite H2.
Qed.

(** ** The sizes computed by the stub *)

Lemma compute_size_plan bs t : (∀ n, bs n = n) → ∀ self input R E m v p,
  plan self input t R m v = Ok p → sees self (Some (view_of t v m)) R E →
  compute_size bs input t E m v = Ok (msize t p).
Proof.
  intros Hbs. induction t as [|tr buf dl el IH]; intros self input R E m v p Hp Hs; cbn [plan compute_size] in *.
  { res_inv. done. }
  apply res_bind_Ok in Hp as (k & Hk & Hp). rewrite (sees_eval _ _ _ _ _ _ Hs Hk). cbn [mbind res_bind].
  destruct (k =? NW_BUFFER) eqn:HB; cbn [negb] in *; [|by res_inv].
  cbn [view_of] in Hs. destruct (v =? NULL) eqn:Hv; [by injection Hp as <-|].
  destruct input; cbn [negb] in Hp.
  - apply res_bind_Ok in Hp as (l & Hl & Hp). unfold object in Hl.
    destruct (m !! v) as [l'|] eqn:Hm; [injection Hl as ->|done].
    apply res_bind_Ok in Hp as (n & Hn & Hp). rewrite (sees_eval_self _ _ _ _ _ _ Hs Hn). cbn [mbind res_bind].
    destruct (Z.leb_spec n 0) as [|Hpos]; [by injection Hp as <-|].
    apply res_bind_Ok in Hp as (s & Hs' & Hp). destruct (checked_bytes_Ok _ _ _ Hs' Hpos) as (Hs1 & Hsz & Hs2 & Hbo).
    apply res_bind_Ok in Hp as ([] & Hc%check_Ok & Hp). apply Z.leb_le in Hc.
    apply res_bind_Ok in Hp as (blob & Hb & Hp). rewrite (sees_blob _ _ _ _ _ _ _ Hs Hb). cbn [mbind res_bind].
    apply res_bind_Ok in Hp as (n' & Hn' & Hp). apply res_bind_Ok in Hp as ([] & Hc'%check_Ok & Hp).
    rewrite Hbs, Hbo. destruct blob.
    + injection Hp as <-. cbn [mbind res_bind msize]. rewrite length_take. f_equal. lia.
    + unfold object. rewrite Hm. cbn [mbind res_bind].
      apply res_bind_Ok in Hp as (vs & Hvs & Hp). rewrite Hvs. cbn [mbind res_bind].
      apply res_bind_Ok in Hp as ([ms u] & Hms & [= <-]). pose proof (elems_of_length _ _ _ _ Hvs) as Hlen.
      assert (∀ i, mapS (λ i x (u : unit), p ← plan RElem true el (at_index i None R) m x; Ok (p, u)) i vs tt = Ok (ms, u) →
        length ms = length vs ∧
        mapS (λ i x (u : unit), s ← compute_size bs true el (at_index i (Some (view_of el x m)) E) m x; Ok (s, u)) i vs tt
          = Ok (msize el <$> ms, tt)) as Hloop.
      { clear -IH Hs. revert ms. induction vs as [|x vs IHv]; intros ms i Hi.
        - by injection Hi as <- <-.
        - apply mapS_Ok in Hi as (q & [] & qs & Hq & Hqs & ->). apply res_bind_Ok in Hq as (q' & Hq & [= ->]).
          destruct (IHv qs (S i) Hqs) as (Hl & Heq). split; [cbn; by rewrite Hl|].
          cbn [mapS]. erewrite IH; [|exact Hq|by eapply sees_at]. cbn [mbind res_bind]. by rewrite Heq. }
      destruct (Hloop _ Hms) as (Hl' & ->). cbn [mbind res_bind msize]. f_equal.
      rewrite Hl', Hlen, Hs1. lia.
  - apply res_bind_Ok in Hp as (n & Hn & Hp). rewrite (sees_eval _ _ _ _ _ _ Hs Hn). cbn [mbind res_bind].
    destruct (Z.leb_spec n 0) as [|Hpos]; [by injection Hp as <-|].
    apply res_bind_Ok in Hp as (s & Hs' & Hp). apply res_bind_Ok in Hp as (blob & Hb & Hp).
    rewrite (sees_blob _ _ _ _ _ _ _ Hs Hb). cbn [mbind res_bind].
    apply res_bind_Ok in Hp as ([] & Hc%check_Ok & [= <-]). by rewrite Hc.
Qed.

(** ** Sending the inputs *)

Definition mem_ok (m : mem) : Prop := ∀ p l, m !! p = Some l → Forall is_byte l.

(** [carries bufs t p v]: the field [v] of the command and its buffers hold what [p] says. *)
Fixpoint carries (bufs : gmap Z (list Z)) (t : ty) (p : msg) (v : Z) : Prop :=
  match t, p with
  | _, MVal z => v = z
  | TPtr _ _ _ _, MNull => v = NULL
  | TPtr _ _ _ _, MOut _ => v = HAS_OUT_BUFFER_SENTINEL
  | TPtr _ _ _ _, MBytes data => v ≠ NULL ∧ bufs !! v = Some data
  | TPtr _ _ _ el, MArr ms =>
      v ≠ NULL ∧ ∃ vs, bufs !! v = Some (encode_all el vs) ∧ Forall (fits el) vs ∧
        Forall2 (carries bufs el) ms vs
  | TVal _ _ _ _ _, _ => False
  end.

Lemma carries_mono bufs bufs' t p v : bufs ⊆ bufs' → carries bufs t p v → carries bufs' t p v.
Proof.
  intros Hsub. revert p v. induction t as [|tr buf dl el IH]; intros p v; destruct p; cbn; try done.
  - intros [? ?]. split; [done|]. by eapply lookup_weaken.
  - intros (Hv & vs & Hl & Hf & Hc). split; [done|]. exists vs. split_and!; [by eapply lookup_weaken|done|].
    eapply Forall2_impl; [done|]. intros q x. apply IH.
Qed.

Lemma take_nonempty {A} n (l : list A) : (0 < n)%nat → (n ≤ length l)%nat → take n l ≠ [].
Proof. intros Hn Hl Heq. apply (f_equal length) in Heq. rewrite length_take in Heq. cbn in Heq. lia. Qed.

Lemma ptr_fits tr buf dl el v : fits (TPtr tr buf dl el) v ↔ 0 ≤ v < 2 ^ 64.
Proof. done. Qed.

Lemma msizes_nonneg_aux t : (∀ p, 0 ≤ msize t p) → ∀ ms, 0 ≤ foldr Z.add 0 (msize t <$> ms).
Proof.
  intros Ht ms. induction ms as [|p ms IH]; [done|]. rewrite fmap_cons. cbn [foldr]. specialize (Ht p). lia.
Qed.

Lemma msize_nonneg t p : 0 ≤ msize t p.
Proof.
  revert p. induction t as [|tr buf dl el IH]; intros p; destruct p; cbn [msize]; try lia.
  pose proof (msizes_nonneg_aux el IH ms). lia.
Qed.

Lemma msizes_nonneg t ms : 0 ≤ foldr Z.add 0 (msize t <$> ms).
Proof. apply msizes_nonneg_aux, msize_nonneg. Qed.

(** A loop without state is a list of independent runs. *)
Lemma mapS_pure {X Y} (g : nat → X → res Y) l : ∀ i ys u,
  mapS (λ i x (u : unit), y ← g i x; Ok (y, u)) i l tt = Ok (ys, u) →
  length ys = length l ∧ ∀ j x y, l !! j = Some x → ys !! j = Some y → g (i + j)%nat x = Ok y.
Proof.
  induction l as [|x l IH]; intros i ys u Hm.
  - injection Hm as <- <-. split; [done|]. by intros [].
  - apply mapS_Ok in Hm as (y & [] & ys' & Hy & Hm & ->). apply res_bind_Ok in Hy as (y' & Hy & [= ->]).
    destruct (IH _ _ _ Hm) as (Hl & Hj). split; [cbn; by rewrite Hl|].
    intros [|j] x0 y0; cbn.
    + intros [= <-] [= <-]. by rewrite Nat.add_0_r.
    + intros Hx Hy0. rewrite <- (Hj j x0 y0 Hx Hy0). f_equal. lia.
Qed.

Section link.
Context {A B} `{Channel A} `{Channel B} {conn : A → B → Prop} `{!Link A B conn}.

(** The loop over the elements, given what holds for each element. *)
Lemma attach_loop (m : mem) (b : B) css el f (P : nat → Z → msg → Prop) :
  (∀ i x p a cmd bufs cap, P i x p → building a b cmd css bufs cap → msize el p ≤ cap →
    ∃ v a' cmd' bufs', f i x (a, cmd) = Ok (v, (a', cmd')) ∧
      building a' b cmd' css bufs' (cap - msize el p) ∧ bufs ⊆ bufs' ∧ carries bufs' el p v ∧
      fits el v ∧ cmd_addr cmd' = cmd_addr cmd ∧ header_of cmd' = header_of cmd) →
  ∀ vs ms i a cmd bufs cap,
  length ms = length vs → (∀ j x p, vs !! j = Some x → ms !! j = Some p → P (i + j)%nat x p) →
  building a b cmd css bufs cap → foldr Z.add 0 (msize el <$> ms) ≤ cap →
  ∃ vs' a' cmd' bufs', mapS f i vs (a, cmd) = Ok (vs', (a', cmd')) ∧
    building a' b cmd' css bufs' (cap - foldr Z.add 0 (msize el <$> ms)) ∧ bufs ⊆ bufs' ∧
    Forall2 (carries bufs' el) ms vs' ∧ Forall (fits el) vs' ∧
    cmd_addr cmd' = cmd_addr cmd ∧ header_of cmd' = header_of cmd.
Proof.
  intros Hf vs. induction vs as [|x vs IH]; intros ms i a cmd bufs cap Hlen HP Hb Hcap.
  - destruct ms; [|done]. exists [], a, cmd, bufs. cbn. rewrite Z.sub_0_r. by split_and!.
  - destruct ms as [|p ms]; [done|]. injection Hlen as Hlen. cbn [fmap list_fmap foldr] in *.
    assert (P i x p) as HP0 by (specialize (HP 0%nat x p); rewrite Nat.add_0_r in HP; by apply HP).
    pose proof (msizes_nonneg el ms). pose proof (msize_nonneg el p).
    destruct (Hf i x p a cmd bufs cap HP0 Hb) as (v & a1 & cmd1 & bufs1 & Hr & Hb1 & Hsub & Hc & Hfit & Ha & Hh);
      [lia|].
    destruct (IH ms (S i) a1 cmd1 bufs1 (cap - msize el p)) as (vs' & a2 & cmd2 & bufs2 & Hr2 & Hb2 & Hsub2 & Hc2 & Hf2 & Ha2 & Hh2);
      [done| |done|lia|].
    { intros j y q Hy Hq. replace (S i + j)%nat with (i + S j)%nat by lia. by apply HP. }
    exists (v :: vs'), a2, cmd2, bufs2. cbn [mapS]. rewrite Hr. cbn [mbind res_bind]. rewrite Hr2. cbn [mbind res_bind].
    split_and!; try done; try congruence.
    + by replace (cap - (msize el p + foldr Z.add 0 (msize el <$> ms)))
        with (cap - msize el p - foldr Z.add 0 (msize el <$> ms)) by lia.
    + by etransitivity.
    + constructor; [by eapply carries_mono|done].
    + by constructor.
Qed.

(** What [attach_plan] shows for the values of a type. *)
Definition attachable (m : mem) (b : B) (css : Z) (t : ty) : Prop := ∀ self input R E v p a cmd bufs cap,
  plan self input t R m v = Ok p → sees self (Some (view_of t v m)) R E → fits t v →
  building a b cmd css bufs cap → msize t p ≤ cap →
  ∃ v' a' cmd' bufs', attach_value input t E m v (a, cmd) = Ok (v', (a', cmd')) ∧
    building a' b cmd' css bufs' (cap - msize t p) ∧ bufs ⊆ bufs' ∧ carries bufs' t p v' ∧
    fits t v' ∧ cmd_addr cmd' = cmd_addr cmd ∧ header_of cmd' = header_of cmd.

(** An array of pointers: the elements are attached, then the array of their identifiers. *)
Lemma attach_array m b css tr buf dl el self sv R E v l n s vs ms u a cmd bufs cap :
  mem_ok m → attachable m b css el → sees self sv R E → m !! v = Some l → elems_of el n l = Ok vs →
  mapS (λ i x (u : unit), p ← plan RElem true el (at_index i None R) m x; Ok (p, u)) 0 vs tt = Ok (ms, u) →
  0 < n → (0 < sizeof el)%nat → s = n * Z.of_nat (sizeof el) →
  building a b cmd css bufs cap → msize (TPtr tr buf dl el) (MArr ms) ≤ cap →
  ∃ vs' a1 cmd1 id a' cmd' bufs',
    mapS (λ i x st, attach_value true el (at_index i (Some (view_of el x m)) E) m x st) 0 vs (a, cmd) =
      Ok (vs', (a1, cmd1)) ∧
    command_channel_attach_buffer a1 cmd1 (Some (encode_all el vs')) s = Ok (id, cmd', a') ∧
    building a' b cmd' css bufs' (cap - msize (TPtr tr buf dl el) (MArr ms)) ∧ bufs ⊆ bufs' ∧
    carries bufs' (TPtr tr buf dl el) (MArr ms) id ∧ fits (TPtr tr buf dl el) id ∧
    cmd_addr cmd' = cmd_addr cmd ∧ header_of cmd' = header_of cmd.
Proof.
  intros Hm IH Hs Hl Hvs Hms Hpos Hsz Hs1 Hb Hcap. pose proof (elems_of_length _ _ _ _ Hvs) as Hlen.
  destruct (mapS_pure (λ i x, plan RElem true el (at_index i None R) m x) vs 0 ms u Hms) as (Hlm & Hj).
  cbn [msize] in Hcap |- *. rewrite Hlm, Hlen in Hcap |- *.
  replace (Z.of_nat (Z.to_nat n) * Z.of_nat (sizeof el)) with s in * by lia.
  destruct (attach_loop m b css el
    (λ i x st, attach_value true el (at_index i (Some (view_of el x m)) E) m x st)
    (λ i x p, plan RElem true el (at_index i None R) m x = Ok p ∧ fits el x))
    with (vs := vs) (ms := ms) (i := 0%nat) (a := a) (cmd := cmd) (bufs := bufs) (cap := cap)
    as (vs' & a1 & cmd1 & bufs1 & Hr & Hb1 & Hsub & Hca & Hfit & Ha1 & Hh1); try done.
  { intros i x p a0 cmd0 bufs0 cap0 [Hpl Hfx] Hb0 Hc0. eapply IH; [done| |done..]. by eapply sees_at. }
  { intros j x p Hx Hq. split; [by apply Hj|]. eapply Forall_lookup_1; [|done].
    eapply elems_of_fits; [done|by eapply Hm|done]. }
  { lia. }
  assert (length vs' = length vs) as Hlv by (rewrite <- (Forall2_length _ _ _ Hca); done).
  assert (Z.of_nat (length (encode_all el vs')) = s) as Hd by (rewrite length_encode_all; lia).
  destruct (link_attach a1 b cmd1 css bufs1 (cap - foldr Z.add 0 (msize el <$> ms)) (encode_all el vs') [])
    as (id & a' & cmd' & Hat & Hid & Hidr & Hb' & Ha & Hh); [done| |lia|].
  { intros Heq. rewrite Heq in Hd. cbn in Hd. nia. }
  rewrite app_nil_r, Hd in Hat. eexists vs', a1, cmd1, id, a', cmd', _. split; [done|]. split; [done|].
  assert (bufs1 ⊆ <[id := encode_all el vs']> bufs1) as Hsub' by by apply insert_subseteq.
  cbn [carries]. split_and!; try congruence.
  - rewrite Hd in Hb'. by replace (cap - (foldr Z.add 0 (msize el <$> ms) + s))
      with (cap - foldr Z.add 0 (msize el <$> ms) - s) by lia.
  - by etransitivity.
  - unfold NULL. lia.
  - exists vs'. split_and!; [by rewrite lookup_insert_eq|done|].
    eapply Forall2_impl; [done|]. intros q x. by apply carries_mono.
  - unfold fits. cbn. unfold in_range. lia.
Qed.

Lemma attach_plan (m : mem) (b : B) css t : mem_ok m → attachable m b css t.
Proof.
  intros Hm. induction t as [|tr buf dl el IH]; intros self input R E v p a cmd bufs cap Hp Hs Hv Hb Hcap;
    cbn [plan attach_value] in *.
  { res_inv. eexists _, _, _, _. split; [done|]. rewrite Z.sub_0_r. by split_and!. }
  assert (∀ q x, msize (TPtr tr buf dl el) q = 0 → carries bufs (TPtr tr buf dl el) q x → fits (TPtr tr buf dl el) x →
    ∃ v' a' cmd' bufs', Ok (x, (a, cmd)) = Ok (v', (a', cmd')) ∧
      building a' b cmd' css bufs' (cap - msize (TPtr tr buf dl el) q) ∧ bufs ⊆ bufs' ∧
      carries bufs' (TPtr tr buf dl el) q v' ∧ fits (TPtr tr buf dl el) v' ∧
      cmd_addr cmd' = cmd_addr cmd ∧ header_of cmd' = header_of cmd) as Hnone.
  { intros q x Hq Hc Hx. exists x, a, cmd, bufs. rewrite Hq, Z.sub_0_r. by split_and!. }
  apply res_bind_Ok in Hp as (k & Hk & Hp). rewrite (sees_eval _ _ _ _ _ _ Hs Hk). cbn [mbind res_bind].
  destruct (k =? NW_BUFFER) eqn:HB; cbn [negb] in *;
    [|apply res_bind_Ok in Hp as (d & _ & [= <-]); by apply Hnone].
  cbn [view_of] in Hs. destruct (Z.eqb_spec v NULL) as [->|Hv0]; [injection Hp as <-; by apply Hnone|].
  destruct input; cbn [negb] in *.
  2: { apply res_bind_Ok in Hp as (n & Hn & Hp). rewrite (sees_eval _ _ _ _ _ _ Hs Hn). cbn [mbind res_bind].
    destruct (Z.leb_spec n 0) as [|Hpos]; [injection Hp as <-; by apply Hnone|].
    apply res_bind_Ok in Hp as (s & Hs' & Hp). apply res_bind_Ok in Hp as (blob & Hbl & Hp).
    rewrite (sees_blob _ _ _ _ _ _ _ Hs Hbl). cbn [mbind res_bind].
    apply res_bind_Ok in Hp as ([] & Hc%check_Ok & [= <-]). rewrite orb_true_r. by apply Hnone. }
  apply res_bind_Ok in Hp as (l & Hl & Hp). unfold object in *.
  destruct (m !! v) as [l'|] eqn:Hmv; [injection Hl as ->|done].
  apply res_bind_Ok in Hp as (n & Hn & Hp). rewrite (sees_eval_self _ _ _ _ _ _ Hs Hn). cbn [mbind res_bind].
  destruct (Z.leb_spec n 0) as [|Hpos]; [injection Hp as <-; by apply Hnone|]. clear Hnone.
  apply res_bind_Ok in Hp as (s & Hs' & Hp). destruct (checked_bytes_Ok _ _ _ Hs' Hpos) as (Hs1 & Hsz & Hs2 & Hbo).
  apply res_bind_Ok in Hp as ([] & Hc%check_Ok & Hp). apply Z.leb_le in Hc.
  apply res_bind_Ok in Hp as (blob & Hbl & Hp). rewrite (sees_blob _ _ _ _ _ _ _ Hs Hbl). cbn [mbind res_bind].
  apply res_bind_Ok in Hp as (n' & Hn' & Hp). apply res_bind_Ok in Hp as ([] & Hc'%check_Ok & Hp).
  rewrite Hbo. destruct blob; cbn [orb].
  - injection Hp as <-. set (d := take (Z.to_nat s) l) in *. cbn [msize] in *.
    assert (Z.of_nat (length d) = s) as Hd by (unfold d; rewrite length_take; lia).
    destruct (link_attach a b cmd css bufs cap d (drop (Z.to_nat s) l))
      as (id & a' & cmd' & Hat & Hid & Hidr & Hb' & Ha & Hh); [done|apply take_nonempty; lia|done|].
    unfold attach_data. cbn [mbind res_bind fst snd]. unfold d in Hat at 1. rewrite take_drop, Hd in Hat.
    rewrite Hat. cbn [mbind res_bind]. eexists _, _, _, _. split; [done|].
    cbn [carries]. split_and!; try done.
    + by apply insert_subseteq.
    + unfold NULL. lia.
    + by rewrite lookup_insert_eq.
    + unfold fits. cbn. unfold in_range. lia.
  - apply res_bind_Ok in Hp as (vs & Hvs & Hp). rewrite Hvs. cbn [mbind res_bind].
    apply res_bind_Ok in Hp as ([ms u] & Hms & [= <-]).
    destruct (attach_array m b css tr buf dl el _ _ R E v l n s vs ms u a cmd bufs cap Hm IH Hs)
      as (vs' & a1 & cmd1 & id & a' & cmd' & bufs' & Hr & Hat & ?); try done.
    rewrite Hr. cbn [mbind res_bind]. unfold attach_data. cbn [mbind res_bind fst snd]. rewrite Hat. cbn [mbind res_bind].
    by exists id, a', cmd', bufs'.
Qed.

End link.

(** ** Receiving the inputs *)

(** Two loops whose bodies agree on the elements. *)
Lemma mapS_sim {X Y Z' S} (f : nat → X → S → res (Z' * S)) (g : nat → Y → S → res (Z' * S)) l1 :
  ∀ l2 i s r, length l2 = length l1 →
  (∀ j x y s r, l1 !! j = Some x → l2 !! j = Some y →
    f (i + j)%nat x s = Ok r → g (i + j)%nat y s = Ok r) →
  mapS f i l1 s = Ok r → mapS g i l2 s = Ok r.
Proof.
  induction l1 as [|x l1 IH]; intros [|y l2] i s [zs s'] Hlen Hfg Hf; try done.
  apply mapS_Ok in Hf as (z & s1 & zs' & Hz & Hf & ->). injection Hlen as Hlen.
  pose proof (Hfg 0%nat x y s (z, s1) eq_refl eq_refl) as H0. rewrite Nat.add_0_r in H0.
  apply mapS_Ok. exists z, s1, zs'. split_and!; [by apply H0| |done].
  apply IH; [done| |done]. intros j x0 y0 s0 r0 Hx Hy.
  replace (Datatypes.S i + j)%nat with (i + Datatypes.S j)%nat by lia.
  by apply Hfg.
Qed.

Lemma sees_none self sv R E : sees self sv R E → sees self None R E.
Proof. intros [Hs _]. by split. Qed.

(** What the worker sees of the value itself while it converts it. *)
Definition self_view (p : msg) : option view :=
  match p with MBytes d => Some (VMem d) | _ => None end.

Lemma plan_bytes self input t R m v d :
  plan self input t R m v = Ok (MBytes d) →
  ∃ tr buf dl el n, t = TPtr tr buf dl el ∧ input = true ∧ eval R tr = Ok NW_BUFFER ∧
    eval (with_self self (VMem d) R) buf = Ok n ∧ 0 < n ∧ bytes_of n el = Z.of_nat (length d) ∧
    Z.of_nat (length d) = n * Z.of_nat (sizeof el) ∧ (0 < sizeof el)%nat ∧ is_blob R true el = Ok true ∧
    v ≠ NULL ∧ ∃ rest, m !! v = Some (d ++ rest).
Proof.
  destruct t as [|tr buf dl el]; cbn [plan]; intros Hp; [res_inv; done|].
  apply res_bind_Ok in Hp as (k & Hk & Hp). destruct (Z.eqb_spec k NW_BUFFER) as [->|]; cbn [negb] in Hp;
    [|by apply res_bind_Ok in Hp as (? & _ & ?)].
  destruct (Z.eqb_spec v NULL) as [|Hv0]; [done|]. destruct input; cbn [negb] in Hp.
  2: { apply res_bind_Ok in Hp as (n & _ & Hp). destruct (n <=? 0); [done|]. by res_inv. }
  apply res_bind_Ok in Hp as (l & Hl & Hp). unfold object in Hl. destruct (m !! v) as [l'|]; [|done]. injection Hl as ->. apply res_bind_Ok in Hp as (n & Hn & Hp).
  destruct (Z.leb_spec n 0) as [|Hpos]; [done|].
  apply res_bind_Ok in Hp as (s & Hs' & Hp). destruct (checked_bytes_Ok _ _ _ Hs' Hpos) as (Hs1 & Hsz & Hs2 & Hbo).
  apply res_bind_Ok in Hp as ([] & Hc%check_Ok & Hp). apply Z.leb_le in Hc.
  apply res_bind_Ok in Hp as (blob & Hbl & Hp).
  apply res_bind_Ok in Hp as (n' & Hn' & Hp). apply res_bind_Ok in Hp as ([] & Hc'%check_Ok & Hp).
  apply Z.eqb_eq in Hc' as ->. destruct blob; [|by res_inv]. injection Hp as <-.
  exists tr, buf, dl, el, n. split_and!; try done; rewrite ?length_take; try lia.
  exists (drop (Z.to_nat s) l). by rewrite take_drop.
Qed.

Section receive.
Context `{Uninit}.
Variable cb : Z.

Lemma pre_view_sees get bufs el self sv R E i x p q :
  (∀ id d, bufs !! id = Some d → ∃ tail, get id = Some (d ++ tail)) →
  sees self sv R E → plan RElem true el (at_index i None R) x p = Ok q → ∀ y, carries bufs el q y →
  ∃ pv, pre_view get (at_index i (Some VPtr) E) el y = Ok pv ∧
    sees RElem (self_view q) (at_index i None R) (at_index i (Some pv) E).
Proof.
  intros Hget Hs Hp y Hc. pose proof (sees_at _ _ _ _ i VPtr Hs) as Hs'.
  destruct el as [|tr buf dl el]; cbn [pre_view].
  - exists (VInt y). split; [done|]. destruct q; try done. eapply sees_none. by eapply sees_at.
  - assert (∃ k, eval (at_index i None R) tr = Ok k) as [k Hk].
    { cbn [plan] in Hp. apply res_bind_Ok in Hp as (k & Hk & _). by exists k. }
    rewrite (sees_eval _ _ _ _ _ _ Hs' Hk). cbn [mbind res_bind]. eexists. split; [done|].
    destruct q; cbn [self_view]; try (eapply sees_none; by eapply sees_at).
    destruct (plan_bytes _ _ _ _ _ _ _ Hp) as (? & ? & ? & ? & n & [= <- <- <- <-] & _ & Hk' & _).
    rewrite Hk in Hk'. injection Hk' as ->. destruct Hc as [Hy Hb].
    rewrite (proj2 (Z.eqb_neq _ _)) by done. destruct (Hget _ _ Hb) as [tail ->].
    eapply sees_longer. by eapply sees_at.
Qed.

(** The elements of an array that was received as bytes: they are values. *)
Lemma convert_values get el self sv R E vs w r :
  sees self sv R E →
  mapS (λ i x w, _ ← check (match el with TVal _ _ _ _ _ => true | _ => false end);
    realise cb el (at_index i None R) (MVal x) w) 0 vs w = Ok r →
  mapS (λ i x w, pv ← pre_view get (at_index i (Some VPtr) E) el x;
    convert_input cb get true el (at_index i (Some pv) E) x w) 0 vs w = Ok r.
Proof.
  intros Hs. apply mapS_sim; [done|]. intros j x y w0 r0 Hx Hy Hf.
  rewrite Hx in Hy. injection Hy as <-. apply res_bind_Ok in Hf as ([] & Hck2%check_Ok & Hf).
  destruct el as [sz al sg tr' dl'|]; [|done]. cbn [pre_view mbind res_bind].
  cbn [realise convert_input] in *. apply res_bind_Ok in Hf as (k2 & Hk2 & Hf).
  apply res_bind_Ok in Hf as (d2 & Hd2 & Hf). pose proof (sees_at _ _ _ _ (0 + j) (VInt x) Hs) as Hs'.
  by rewrite (sees_eval _ _ _ _ _ _ Hs' Hk2), (sees_eval _ _ _ _ _ _ Hs' Hd2).
Qed.

Lemma convert_plan (m : mem) get bufs t :
  (∀ id d, bufs !! id = Some d → ∃ tail, get id = Some (d ++ tail)) →
  ∀ self input R E v p v' w r,
  plan self input t R m v = Ok p → carries bufs t p v' → realise cb t R p w = Ok r →
  sees self (self_view p) R E → convert_input cb get input t E v' w = Ok r.
Proof.
  intros Hget. induction t as [|tr buf dl el IH]; intros self input R E v p v' w r Hp Hc Hr Hs;
    cbn [convert_input realise] in *.
  { cbn [plan] in Hp. res_inv. subst. by rewrite !(sees_eval _ _ _ _ _ _ Hs) by done. }
  apply res_bind_Ok in Hr as (k & Hk & Hr). rewrite (sees_eval _ _ _ _ _ _ Hs Hk). cbn [mbind res_bind].
  pose proof Hp as Hp0. cbn [plan] in Hp. rewrite Hk in Hp. cbn [mbind res_bind] in Hp.
  destruct (k =? NW_BUFFER) eqn:HB; cbn [negb] in *.
  2: { apply res_bind_Ok in Hp as (d & Hd & [= <-]). cbn in Hc. subst v'.
       apply res_bind_Ok in Hr as (d' & Hd' & Hr). by rewrite (sees_eval _ _ _ _ _ _ Hs Hd'). }
  destruct (v =? NULL) eqn:Hv.
  { injection Hp as <-. cbn in Hc. subst v'. done. }
  destruct input; cbn [negb] in *.
  2: { apply res_bind_Ok in Hp as (n & Hn & Hp). destruct (Z.leb_spec n 0) as [|Hpos].
       { injection Hp as <-. cbn in Hc. subst v'. done. }
       apply res_bind_Ok in Hp as (s & Hs' & Hp). destruct (checked_bytes_Ok _ _ _ Hs' Hpos) as (_ & _ & _ & Hbo).
       apply res_bind_Ok in Hp as (blob & _ & Hp). apply res_bind_Ok in Hp as ([] & _ & [= <-]).
       cbn in Hc. subst v'. cbn [Z.eqb HAS_OUT_BUFFER_SENTINEL NULL].
       rewrite (sees_eval _ _ _ _ _ _ Hs Hn). cbn [mbind res_bind]. by rewrite Hbo. }
  apply res_bind_Ok in Hp as (l & Hl & Hp). apply res_bind_Ok in Hp as (n & Hn & Hp).
  destruct (Z.leb_spec n 0) as [|Hpos].
  { injection Hp as <-. cbn in Hc. subst v'. done. }
  apply res_bind_Ok in Hp as (s & Hs' & Hp). destruct (checked_bytes_Ok _ _ _ Hs' Hpos) as (Hs1 & Hsz & Hs2 & Hbo).
  apply res_bind_Ok in Hp as ([] & Hck%check_Ok & Hp). apply Z.leb_le in Hck.
  apply res_bind_Ok in Hp as (blob & Hbl & Hp).
  apply res_bind_Ok in Hp as (n' & Hn' & Hp). apply res_bind_Ok in Hp as ([] & Hc'%check_Ok & Hp).
  apply Z.eqb_eq in Hc' as ->. destruct blob.
  - injection Hp as <-. destruct Hc as [Hv' Hb]. rewrite (proj2 (Z.eqb_neq _ _)) by done.
    destruct (Hget _ _ Hb) as [tail Hg]. rewrite Hg.
    rewrite (sees_eval_self _ _ _ _ _ _ Hs Hn'). cbn [mbind res_bind].
    apply res_bind_Ok in Hr as (blob & Hbl' & Hr). rewrite (sees_blob _ _ _ _ _ _ _ Hs Hbl'). cbn [mbind res_bind].
    assert (Z.of_nat (length (take (Z.to_nat s) l)) = s) as Hd by (rewrite length_take; lia).
    destruct blob.
    + rewrite Hbo, read_bytes_prefix by done. done.
    + assert (Z.of_nat (length (take (Z.to_nat s) l)) / Z.of_nat (sizeof el) = n) as Hdiv
        by (rewrite Hd, Hs1; apply Z.div_mul; lia).
      rewrite Hdiv in Hr.
      apply res_bind_Ok in Hr as (vs & Hvs & Hr). rewrite (elems_of_app _ _ _ _ _ Hvs). cbn [mbind res_bind].
      apply res_bind_Ok in Hr as ([vs' w'] & Hmap & [= <-]).
      by rewrite (convert_values _ _ _ _ _ _ _ _ _ Hs Hmap).
  - apply res_bind_Ok in Hp as (vs & Hvs & Hp). apply res_bind_Ok in Hp as ([ms u] & Hms & [= <-]).
    pose proof (elems_of_length _ _ _ _ Hvs) as Hlen.
    destruct (mapS_pure (λ i x, plan RElem true el (at_index i None R) m x) vs 0 ms u Hms) as (Hlm & Hj).
    destruct Hc as [Hv' (ids & Hb & Hfit & Hca)]. rewrite (proj2 (Z.eqb_neq _ _)) by done.
    destruct (Hget _ _ Hb) as [tail Hg]. rewrite Hg.
    rewrite (sees_eval _ _ _ _ _ _ Hs Hn'). cbn [mbind res_bind].
    apply res_bind_Ok in Hr as (blob & Hbl' & Hr). rewrite (sees_blob _ _ _ _ _ _ _ Hs Hbl'). cbn [mbind res_bind].
    apply res_bind_Ok in Hr as ([] & Hng%check_Ok & Hr). destruct blob; [done|].
    pose proof (Forall2_length _ _ _ Hca) as Hlc.
    rewrite elems_of_encode; [|eapply Forall_impl; [exact Hfit|]; intros; by apply decode_encode|lia].
    cbn [mbind res_bind]. apply res_bind_Ok in Hr as ([vs' w'] & Hmap & [= <-]).
    erewrite (mapS_sim _ _ ms ids); [|lia| |exact Hmap]; [done|]. intros j q y w0 r0 Hq Hy Hf.
    destruct (lookup_lt_is_Some_2 vs j) as [x Hx]; [apply lookup_lt_Some in Hq; lia|].
    pose proof (Hj j x q Hx Hq) as Hpl. pose proof (Forall2_lookup_lr _ _ _ _ _ _ Hca Hq Hy) as Hcq.
    destruct (pre_view_sees get bufs el self None R E (0 + j) m x q) with (y := y) as (pv & -> & Hs3); try done.
    cbn [mbind res_bind]. by eapply IH.
Qed.

End receive.

(** ** The arguments of a call *)

(** What is required of a function and of the values it is called with. *)
Record call_ok (f : func) (order : list argument) (args : gmap string Z) (m : mem) : Prop := {
  co_names : NoDup (a_name <$> order);
  co_order : order ≡ₚ f_arguments f;
  co_sizes : ∀ a, a ∈ order → (0 < sizeof (a_type a))%nat;
  co_outputs : ∀ a, a ∈ order → is_false (a_output a) = false → contains_buffer (a_type a) = true;
  co_ret : ∀ t, f_ret f = Some t → ∃ sz al sg tr dl, t = TVal sz al sg tr dl ∧ (0 < sz)%nat;
  co_typed : ∀ a v, a ∈ order → args !! a_name a = Some v → fits (a_type a) v;
  co_mem : mem_ok m
}.

Lemma list_find_name (order : list argument) a :
  NoDup (a_name <$> order) → a ∈ order →
  ∃ i, list_find (λ b, a_name b = a_name a) order = Some (i, a).
Proof.
  induction order as [|b order IH]; intros Hnd Ha; [by apply not_elem_of_nil in Ha|].
  cbn. apply NoDup_cons in Hnd as [Hb Hnd]. destruct (decide (a_name b = a_name a)) as [Heq|Hne].
  - apply elem_of_cons in Ha as [->|Ha]; [by eexists|]. exfalso. apply Hb. rewrite Heq.
    by apply list_elem_of_fmap_2.
  - apply elem_of_cons in Ha as [->|Ha]; [done|]. destruct (IH Hnd Ha) as [i ->]. by eexists.
Qed.

Lemma arg_env_lookup order vals m is_in a v :
  NoDup (a_name <$> order) → a ∈ order → vals !! a_name a = Some v →
  e_arg (arg_env order vals m is_in) (a_name a) = Some (view_of (a_type a) v m).
Proof.
  intros Hnd Ha Hv. cbn. destruct (list_find_name order a Hnd Ha) as [i ->]. cbn. by rewrite Hv.
Qed.

(** [R] shows no more than [E], of the arguments whose name satisfies [P]. *)
Definition below (P : string → Prop) (R E : env) : Prop :=
  e_index R = e_index E ∧ e_in R = e_in E ∧ e_elem R = None ∧
  ∀ x v, e_arg R x = Some v → (P x ∧ v ≠ VPtr) ∧ ∃ w, e_arg E x = Some w ∧ view_le v w.

Lemma below_le P R E rs : below P R E → env_le rs R E.
Proof.
  intros (H1 & H2 & H3 & H4). split_and!; [done|done|]. intros [x|] v _ Hv; cbn in *; [by apply H4|congruence].
Qed.

Lemma below_eval P R E e z : below P R E → eval R e = Ok z → eval E e = Ok z.
Proof. intros Hb. apply eval_mono, (below_le _ _ _ _ Hb). Qed.

Lemma below_sees P R E x v w :
  below P R E → e_arg E x = Some w → view_le v w → sees (RArg x) (Some v) R E.
Proof.
  intros Hb Hx Hle. split; [intros; by eapply below_le|]. intros ? [= <-] rs.
  destruct Hb as (H1 & H2 & H3 & H4). split_and!; [done|done|]. intros [y|] u _; cbn; [|congruence].
  destruct (decide (y = x)) as [->|]; [intros [= <-]; by exists w|]. intros Hu. by apply H4.
Qed.

(** The worker binds the argument it converts. *)
Lemma below_set P R E x pv :
  below P R E → ¬ P x → sees (RArg x) (Some pv) R (set_arg x pv E).
Proof.
  intros (H1 & H2 & H3 & H4) Hx. split.
  - intros rs. split_and!; [done|done|]. intros [y|] u _; cbn; [|congruence]. intros Hu.
    destruct (H4 y u Hu) as ([Hy _] & w & Hw & Hle). rewrite decide_False by congruence. by exists w.
  - intros ? [= <-] rs. split_and!; [done|done|]. intros [y|] u _; cbn; [|congruence].
    destruct (decide (y = x)) as [->|]; [intros [= <-]; eexists; split; [done|apply view_le_refl]|].
    intros Hu. by apply H4.
Qed.

Lemma below_learn (P : string → Prop) R E x sv w :
  below P R E → e_arg E x = Some w → (∀ v, sv = Some v → v ≠ VPtr ∧ view_le v w) →
  below (λ y, P y ∨ y = x) (learn x sv R) E.
Proof.
  intros (H1 & H2 & H3 & H4) Hx Hle. destruct sv as [v|]; cbn.
  - split_and!; try done. intros y u. cbn. destruct (decide (y = x)) as [->|].
    + intros [= <-]. destruct (Hle v eq_refl). split; [split; [by right|done]|]. by exists w.
    + intros Hu. destruct (H4 y u Hu) as [[? ?] ?]. split; [split; [by left|done]|done].
  - split_and!; try done. intros y u Hu. destruct (H4 y u Hu) as [[? ?] ?]. split; [split; [by left|done]|done].
Qed.

Lemma shared_view_guest self input t R m v p sv :
  plan self input t R m v = Ok p → shared_view t R p v = Ok (Some sv) → view_le sv (view_of t v m).
Proof.
  intros Hp Hsv. destruct t as [|tr buf dl el]; cbn [shared_view] in Hsv.
  - apply res_bind_Ok in Hsv as (k & _ & Hsv). destruct (k =? NW_OPAQUE); [|done]. injection Hsv as <-. by left.
  - destruct p; try done.
    + destruct (Z.eqb_spec v NULL) as [->|]; [|done]. injection Hsv as <-. by left.
    + apply res_bind_Ok in Hsv as (blob & _ & Hsv). destruct blob; [|done]. injection Hsv as <-.
      destruct (plan_bytes _ _ _ _ _ _ _ Hp) as (? & ? & ? & ? & n & [= <- <- <- <-] & _ & _ & _ & _ & _ & _ & _ & _ & Hv & rest & Hm).
      cbn. rewrite (proj2 (Z.eqb_neq _ _)), Hm by done. right. by eexists _, _.
Qed.

Lemma shared_view_VPtr t R p v sv : shared_view t R p v = Ok (Some sv) → sv ≠ VPtr.
Proof.
  intros Hsv ->. destruct t as [|tr buf dl el]; cbn [shared_view] in Hsv.
  - apply res_bind_Ok in Hsv as (k & _ & Hsv). by destruct (k =? NW_OPAQUE).
  - destruct p; try done; [by destruct (v =? NULL)|].
    apply res_bind_Ok in Hsv as (blob & _ & Hsv). by destruct blob.
Qed.

(** What holds of each argument after planning. *)
Definition planned (m : mem) (args : gmap string Z) (E : env) (a : argument) (q : env * msg) : Prop :=
  ∃ c v, eval q.1 (a_input a) = Ok c ∧ args !! a_name a = Some v ∧
    plan (RArg (a_name a)) (negb (c =? 0)) (a_type a) q.1 m v = Ok q.2 ∧
    sees (RArg (a_name a)) (Some (view_of (a_type a) v m)) q.1 E.

Lemma plan_args_spec m args order : NoDup (a_name <$> order) → ∀ l P R ps R' ps',
  (∀ a, a ∈ l → a ∈ order) → below P R (arg_env order args m true) →
  foldM (plan_arg m args) l (R, ps) = Ok (R', ps') →
  ∃ qs, ps' = ps ++ qs ∧ Forall2 (planned m args (arg_env order args m true)) l qs ∧
    ∃ P', below P' R' (arg_env order args m true).
Proof.
  intros Hnd l. induction l as [|a l IH]; intros P R ps R' ps' Hl Hb Hf.
  - injection Hf as <- <-. exists []. rewrite app_nil_r. split_and!; [done|constructor|by exists P].
  - cbn [foldM] in Hf. apply res_bind_Ok in Hf as ([R1 ps1] & Ha & Hf). unfold plan_arg in Ha.
    apply res_bind_Ok in Ha as (c & Hc & Ha). apply res_bind_Ok in Ha as (v & Hv & Ha).
    apply res_bind_Ok in Ha as (p & Hp & Ha). apply res_bind_Ok in Ha as (sv & Hsv & Ha). injection Ha as <- <-.
    unfold arg_value in Hv. destruct (args !! a_name a) as [v'|] eqn:Hav; [injection Hv as ->|done].
    pose proof (arg_env_lookup order args m true a v Hnd (Hl a ltac:(left)) Hav) as Hlk.
    destruct (IH (λ y, P y ∨ y = a_name a) (learn (a_name a) sv R) (ps ++ [(R, p)]) R' ps') as (qs & -> & Hqs & HP').
    + intros b Hb'. apply Hl. by right.
    + eapply below_learn; [done|exact Hlk|]. intros u ->. split; [by eapply shared_view_VPtr|by eapply shared_view_guest].
    + done.
    + exists ((R, p) :: qs). rewrite <- app_assoc. split_and!; [done| |done]. constructor; [|done].
      exists c, v. split_and!; try done. eapply below_sees; [done|exact Hlk|apply view_le_refl].
Qed.
