(* ===== verification/RemoteCall.v ===== *)
(** * Remote calls refine direct calls: the whole call

    The loops over the arguments of a call, the two commands, and the refinement theorem of
    Remote.v's [direct_call] by the generated code of Stub.v. *)

From S2P Require Import Prelude Channel HandlePool Endpoint SocketChannel Cava Stub Remote.
Local Open Scope Z_scope.

(** ** Values by argument *)

Definition assoc {Y} (d : Y) (order : list argument) (ys : list Y) (a : argument) : Y :=
  default d ((list_to_map (zip (a_name <$> order) ys) : gmap string Y) !! a_name a).

Lemma assoc_map_cons {Y} a order (y : Y) ys b :
  (list_to_map (zip (a_name <$> a :: order) (y :: ys)) : gmap string Y) !! a_name b =
  if decide (a_name b = a_name a) then Some y
  else (list_to_map (zip (a_name <$> order) ys) : gmap string Y) !! a_name b.
Proof.
  change (list_to_map (zip (a_name <$> a :: order) (y :: ys)) : gmap string Y)
    with (<[a_name a := y]> (list_to_map (zip (a_name <$> order) ys) : gmap string Y)).
  destruct (decide (a_name b = a_name a)) as [->|]; [apply lookup_insert_eq|by apply lookup_insert_ne].
Qed.

Lemma assoc_fmap {Y} (d : Y) order ys :
  NoDup (a_name <$> order) → length ys = length order → assoc d order ys <$> order = ys.
Proof.
  revert ys. induction order as [|a order IH]; intros [|y ys] Hnd Hl; try done.
  apply NoDup_cons in Hnd as [Ha Hnd]. injection Hl as Hl. rewrite fmap_cons. f_equal.
  - unfold assoc. by rewrite assoc_map_cons, decide_True.
  - transitivity (assoc d order ys <$> order); [|by apply IH]. apply list_fmap_ext. intros i b Hb.
    unfold assoc. rewrite assoc_map_cons, decide_False; [done|]. intros Heq. apply Ha. rewrite <- Heq.
    apply list_elem_of_fmap_2. by eapply list_elem_of_lookup_2.
Qed.

Lemma assoc_Forall2 {Y} (d : Y) (P : argument → Y → Prop) order ys a :
  NoDup (a_name <$> order) → Forall2 P order ys → a ∈ order → P a (assoc d order ys a).
Proof.
  intros Hnd HP Ha. pose proof (Forall2_length _ _ _ HP) as Hl.
  apply list_elem_of_lookup_1 in Ha as [i Hi]. eapply Forall2_lookup_lr; [exact HP|exact Hi|].
  rewrite <- (assoc_fmap d order ys Hnd) at 1 by done. by rewrite list_lookup_fmap, Hi.
Qed.

Lemma assoc_perm_fields {Y} (d : Y) l ys : ∀ a, NoDup (a_name <$> l) → length ys = length l → a ∈ l →
  (list_to_map (zip (a_name <$> l) ys) : gmap string Y) !! a_name a = Some (assoc d l ys a).
Proof.
  revert ys. induction l as [|b l IH]; intros [|y ys] a Hnd Hl Ha; try done; [by apply not_elem_of_nil in Ha|].
  apply NoDup_cons in Hnd as [Hb Hnd]. injection Hl as Hl. unfold assoc in *.
  rewrite assoc_map_cons. destruct (decide (a_name a = a_name b)) as [Heq|Hne]; [done|]. apply elem_of_cons in Ha as [->|Ha]; [done|]. by apply IH.
Qed.

(** ** Sums of sizes *)

Abbreviation sumZ := (foldr Z.add 0).

Lemma sumZ_perm l l' : l ≡ₚ l' → sumZ l = sumZ l'.
Proof. induction 1; cbn; lia. Qed.

Lemma sumZ_nonneg l : Forall (λ z, 0 ≤ z) l → 0 ≤ sumZ l.
Proof. induction 1; cbn; lia. Qed.

Lemma compute_total_ok bs copy order vals E m (sz : argument → Z) :
  (∀ a, a ∈ order → 0 ≤ sz a) →
  (∀ a, a ∈ order → is_false (copy a) = true → sz a = 0) →
  (∀ a, a ∈ order → is_false (copy a) = false → ∃ c v, eval E (copy a) = Ok c ∧
     arg_value vals a = Ok v ∧ compute_size bs (negb (c =? 0)) (a_type a) E m v = Ok (sz a)) →
  sumZ (sz <$> order) < 2 ^ 64 →
  compute_total_size bs copy order vals E m = Ok (sumZ (sz <$> order)).
Proof.
  unfold compute_total_size. intros Hpos H0 Hc Hlt.
  assert (∀ acc, 0 ≤ acc → acc + sumZ (sz <$> order) < 2 ^ 64 →
    foldM (λ a acc, if is_false (copy a) then Ok acc
      else c ← eval E (copy a); v ← arg_value vals a;
           s ← compute_size bs (negb (c =? 0)) (a_type a) E m v; Ok (u64 (acc + s))) order acc =
    Ok (acc + sumZ (sz <$> order))) as Hgen; [|by rewrite (Hgen 0) by lia].
  clear Hlt. induction order as [|a order IH]; intros acc Ha Hlt; [cbn; f_equal; lia|].
  assert (0 ≤ sumZ (sz <$> order)) as Hrest.
  { apply sumZ_nonneg, Forall_fmap, Forall_forall. intros b Hb. apply Hpos. by right. }
  rewrite fmap_cons in *. cbn [foldr foldM] in *.
  pose proof (Hpos a ltac:(left)). destruct (is_false (copy a)) eqn:Hf.
  - rewrite (H0 a ltac:(left) Hf) in *. cbn [mbind res_bind].
    rewrite IH; [f_equal; lia|..]; try lia; intros b Hb; [apply Hpos|apply H0|apply Hc]; by right.
  - destruct (Hc a ltac:(left) Hf) as (c & v & -> & -> & Hcs). cbn [mbind res_bind]. rewrite Hcs. cbn [mbind res_bind].
    rewrite (wrap_small 64) by (unfold in_range; lia).
    rewrite IH; [f_equal; lia|..]; try lia; intros b Hb; [apply Hpos|apply H0|apply Hc]; by right.
Qed.

Lemma plan_no_input self t R m v p : plan self false t R m v = Ok p → msize t p = 0.
Proof.
  destruct t as [|tr buf dl el]; cbn [plan negb]; intros Hp; [by res_inv|].
  apply res_bind_Ok in Hp as (k & _ & Hp). destruct (negb (k =? NW_BUFFER)); [by res_inv|].
  destruct (v =? NULL); [by injection Hp as <-|]. apply res_bind_Ok in Hp as (n & _ & Hp).
  destruct (n <=? 0); [by injection Hp as <-|]. apply res_bind_Ok in Hp as (s & _ & Hp).
  apply res_bind_Ok in Hp as (bl & _ & Hp). by apply res_bind_Ok in Hp as ([] & _ & [= <-]).
Qed.

Lemma is_false_eval E e c : is_false e = true → eval E e = Ok c → c = 0.
Proof. destruct e; try done. cbn. destruct z; try done. by intros _ [= <-]. Qed.

Lemma arg_value_Ok vals a v : arg_value vals a = Ok v ↔ vals !! a_name a = Some v.
Proof. unfold arg_value. destruct (vals !! a_name a); split; congruence. Qed.

(** ** The CALL command *)

Section sending.
Context {A B} `{Channel A} `{Channel B} {conn : A → B → Prop} `{!Link A B conn}.

(** A command whose struct is filled in is sent, and arrives with its fields and buffers. *)
Lemma send_fields (a : A) (b : B) h hb cmd css bufs cap fs :
  building a b cmd css bufs cap → css = sizeof_struct fs.*1 →
  Forall (λ f, decode f.1 (encode f.1 f.2) = f.2) fs → cmd_addr cmd ∈ live h →
  ∃ a1 a2 b1 b2 rcvd, command_channel_send_command a h (set_fields (pack 0 fs) cmd) =
      Ok (a1, mk_heap (live h ∖ {[cmd_addr cmd]}) (next_addr h)) ∧
    deliver a1 b = (a2, b1) ∧ command_channel_receive_command b1 hb = Ok (Some rcvd, b2, (malloc hb).2) ∧
    conn a2 b2 ∧ cmd_addr rcvd = next_addr hb ∧ header_of rcvd = header_of cmd ∧
    command_size (cmd_base rcvd) = css ∧ unpack 0 fs.*1 (cmd_rest rcvd) = fs.*2 ∧
    ∀ id d, bufs !! id = Some d → ∃ tail, command_channel_get_buffer b2 rcvd id = Some (d ++ tail).
Proof.
  intros Hbld Hcss Hdec Hlive.
  assert (Z.of_nat (sizeof_command_base + length (pack 0 fs)) ≤ css) as Hlen.
  { rewrite length_pack, Hcss. unfold sizeof_struct. pose proof (align_up_ge (end_of 0 fs.*1) 8). lia. }
  destruct (link_send a b h hb _ _ _ _ (link_fields _ _ _ _ _ _ _ Hbld Hlen) Hlive)
    as (a1 & a2 & b1 & b2 & rcvd & rest & Hsend & Hdel & Hrcv & Hcn & Hra & Hh & Hcs & Hrest & Hget).
  exists a1, a2, b1, b2, rcvd. split_and!; try done. rewrite Hrest. cbn [set_fields cmd_rest].
  rewrite take_app_ge by lia. by rewrite <- app_assoc, unpack_pack.
Qed.

Lemma attach_args m args (order : list argument) (b : B) css E (pof : argument → env * msg) : mem_ok m →
  (∀ a, a ∈ order → planned m args E a (pof a)) →
  (∀ a v, a ∈ order → args !! a_name a = Some v → fits (a_type a) v) →
  ∀ (l : list argument) i ch cmd bufs cap, (∀ a, a ∈ l → a ∈ order) → building ch b cmd css bufs cap →
  sumZ ((λ a, msize (a_type a) (pof a).2) <$> l) ≤ cap →
  ∃ vs ch' cmd' bufs', mapS (λ _ a st, attach_for_argument E m args a st) i l (ch, cmd) = Ok (vs, (ch', cmd')) ∧
    building ch' b cmd' css bufs' (cap - sumZ ((λ a, msize (a_type a) (pof a).2) <$> l)) ∧ bufs ⊆ bufs' ∧
    Forall2 (λ a v, carries bufs' (a_type a) (pof a).2 v ∧ fits (a_type a) v) l vs ∧
    cmd_addr cmd' = cmd_addr cmd ∧ header_of cmd' = header_of cmd.
Proof.
  intros Hm Hpl Hty l. induction l as [|a l IH]; intros i ch cmd bufs cap Hl Hb Hcap.
  - exists [], ch, cmd, bufs. cbn. rewrite Z.sub_0_r. by split_and!.
  - set (f := λ a, msize (a_type a) (pof a).2) in *. rewrite fmap_cons in *. cbn [foldr] in *.
    assert (0 ≤ sumZ (f <$> l)) as Hrest.
    { apply sumZ_nonneg, Forall_fmap, Forall_forall. intros c Hc. apply msize_nonneg. }
    destruct (Hpl a (Hl a ltac:(left))) as (c & v & Hc & Hv & Hp & Hs).
    destruct (attach_plan m b css (a_type a) Hm _ _ _ _ _ _ ch cmd bufs cap Hp Hs)
      as (v' & ch1 & cmd1 & bufs1 & Hr & Hb1 & Hsub & Hca & Hf & Ha1 & Hh1);
      [eapply Hty; [apply Hl; by left|done]|done|change (f a ≤ cap); lia|].
    destruct (IH (S i) ch1 cmd1 bufs1 (cap - f a)) as (vs & ch2 & cmd2 & bufs2 & Hr2 & Hb2 & Hsub2 & Hca2 & Ha2 & Hh2);
      [intros x Hx; apply Hl; by right|done|lia|].
    exists (v' :: vs), ch2, cmd2, bufs2. split_and!; try done; try congruence.
    + apply mapS_Ok. exists v', (ch1, cmd1), vs. split_and!; [|done|done]. unfold attach_for_argument.
      rewrite (sees_eval _ _ _ _ _ _ Hs Hc). cbn [mbind res_bind].
      by rewrite (proj2 (arg_value_Ok _ _ _) Hv).
    + by replace (cap - (f a + sumZ (f <$> l))) with (cap - f a - sumZ (f <$> l)) by lia.
    + by etransitivity.
    + constructor; [split; [by eapply carries_mono|done]|done].
Qed.

Lemma implicit_real_perm f : attach_order f ≡ₚ f_arguments f.
Proof.
  unfold attach_order, implicit_arguments, real_arguments. induction (f_arguments f) as [|a l IH]; [done|].
  rewrite !filter_cons. destruct (a_implicit a) eqn:Ha.
  - rewrite decide_True, decide_False by congruence. cbn. by rewrite IH.
  - rewrite decide_False, decide_True by congruence. by rewrite <- Permutation_middle, IH.
Qed.

(** The plan of an argument, and the total size that the stub computes from it. *)
Definition plan_of (order : list argument) (ps : list (env * msg)) : argument → env * msg :=
  assoc (no_env true, MNull) order ps.

Lemma msizes_plan order ps : NoDup (a_name <$> order) → length ps = length order →
  msizes order ps = sumZ ((λ a, msize (a_type a) (plan_of order ps a).2) <$> order).
Proof.
  intros Hnd Hlen. unfold msizes. f_equal. rewrite <- (assoc_fmap (no_env true, MNull) order ps Hnd) at 1 by done.
  by rewrite zip_with_fmap_r, zip_with_diag.
Qed.

Lemma msizes_nonneg_all order ps : 0 ≤ msizes order ps.
Proof.
  unfold msizes. revert ps. induction order as [|a l IH]; intros [|q ps]; cbn; try lia.
  pose proof (msize_nonneg (a_type a) q.2). specialize (IH ps). lia.
Qed.

Lemma guest_total bs m args order ps : (∀ n, bs n = n) → NoDup (a_name <$> order) →
  Forall2 (planned m args (arg_env order args m true)) order ps → msizes order ps < 2 ^ 64 →
  compute_total_size bs a_input order args (arg_env order args m true) m = Ok (msizes order ps).
Proof.
  intros Hbs Hnd Hpl Hlt. pose proof (Forall2_length _ _ _ Hpl) as Hlen.
  assert (∀ a, a ∈ order → planned m args (arg_env order args m true) a (plan_of order ps a)) as Hpof
    by (intros; unfold plan_of; by apply assoc_Forall2).
  rewrite (msizes_plan order ps Hnd) in * by done. apply compute_total_ok.
  - intros a _. apply msize_nonneg.
  - intros a Ha Hf. destruct (Hpof a Ha) as (i & v & Hi & Hv & Hp & _).
    rewrite (is_false_eval _ _ _ Hf Hi) in Hp. by apply plan_no_input in Hp.
  - intros a Ha Hf. destruct (Hpof a Ha) as (i & v & Hi & Hv & Hp & Hs). exists i, v.
    split_and!; [by eapply sees_eval|by apply arg_value_Ok|]. by eapply compute_size_plan.
  - done.
Qed.

(** The assignments to the header of a CALL command. *)
Lemma call_header_update api id thread : in_range 8 api → in_range 64 id → in_srange 64 thread →
  header_update (λ b, set_original_thread_id thread (set_thread_id thread (set_command_id id (set_api_id api b)))).
Proof.
  intros Hapi Hid Hth. apply (HComp (set_original_thread_id thread)); [by constructor|].
  apply (HComp (set_thread_id thread)); [by constructor|]. apply (HComp (set_command_id id)); by constructor.
Qed.

(** The stub hands one command to the send code of the API. *)
Lemma mapS_attach {X Y T} (F : X → T → res (Y * T)) l1 l2 : ∀ i j vs s s',
  mapS (λ _, F) i (l1 ++ l2) s = Ok (vs, s') →
  ∃ vs1 vs2 s1, mapS (λ _, F) i l1 s = Ok (vs1, s1) ∧ mapS (λ _, F) j l2 s1 = Ok (vs2, s') ∧ vs = vs1 ++ vs2.
Proof.
  assert (∀ l i j s, mapS (λ _, F) i l s = mapS (λ _, F) j l s) as Hany.
  { induction l as [|x l IH]; intros i j s; [done|]. cbn [mapS]. destruct (F x s) as [[y s1]|]; [|done].
    cbn [mbind res_bind]. by rewrite (IH (S i) (S j)). }
  induction l1 as [|x l1 IH]; intros i j vs s s' Hm.
  { exists [], vs, s. split_and!; try done. by rewrite (Hany _ j i). }
  apply mapS_Ok in Hm as (y & s1 & ys & Hx & Hm & ->). destruct (IH _ j _ _ _ Hm) as (vs1 & vs2 & s2 & H1 & H2 & ->).
  exists (y :: vs1), vs2, s2. split_and!; try done. apply mapS_Ok. by exists y, s1, vs1.
Qed.

Definition sent_state (args : gmap string Z) (c : Z) (g : guest A) (ch : A) (h : heap) : guest A :=
  let call_id := call_counter (g_endpoint g) in
  let record := next_addr (g_heap g) + 1 in
  mk_guest ch h (g_mem g)
    (set_calls (<[call_id := record]> (call_map (g_endpoint g))) (signed 64 (call_id + 1)) (g_endpoint g))
    (<[record := mk_record args None (negb (c =? 0)) false]> (g_records g)).

(** When it is sent, it arrives with every argument. *)
Lemma guest_hands_over f order api thread args (g : guest A) (b : B) (hb : heap) R ps c :
  call_ok f order args (g_mem g) → conn (g_chan g) b →
  foldM (plan_arg (g_mem g) args) order (no_env true, []) = Ok (R, ps) →
  eval (arg_env order args (g_mem g) true) (f_async f) = Ok c →
  msizes order ps < 2 ^ 64 → room (sizeof_struct (call_types order)) (msizes order ps) →
  in_range 8 api → in_range 64 (f_call_id f) → in_srange 64 thread →
  in_srange 64 (call_counter (g_endpoint g)) →
  call_map (g_endpoint g) !! call_counter (g_endpoint g) = None → heap_ok (g_heap g) →
  ∃ ch0 cmd ch1 h1 ch2 b1 rcvd b2 bufs fields,
    let call_id := call_counter (g_endpoint g) in
    let record := next_addr (g_heap g) + 1 in
    let h0 := (malloc (malloc (g_heap g)).2).2 in
    (∀ T (send : bool → command → A → heap → T → res (A * heap * T)) (s : T),
      function_implementation_with [] send f order api thread args g s =
        ('(ch, h, s) ← send (negb (c =? 0)) cmd ch0 h0 s; Ok (call_id, record, sent_state args c g ch h, s))) ∧
    command_channel_send_command ch0 h0 cmd = Ok (ch1, h1) ∧
    deliver ch1 b = (ch2, b1) ∧ command_channel_receive_command b1 hb = Ok (Some rcvd, b2, (malloc hb).2) ∧
    conn ch2 b2 ∧ cmd_addr rcvd = next_addr hb ∧ live h1 = {[record]} ∪ live (g_heap g) ∧
    next_addr h1 = next_addr (g_heap g) + 2 ∧ header_of rcvd = (api, f_call_id f, thread, thread) ∧
    command_size (cmd_base rcvd) = sizeof_struct (call_types order) ∧
    unpack 0 (call_types order) (cmd_rest rcvd) = call_id :: fields ∧
    Forall2 (λ ap v, carries bufs (a_type ap.1) ap.2.2 v) (zip order ps) fields ∧
    Forall2 (planned (g_mem g) args (arg_env order args (g_mem g) true)) order ps ∧
    (∀ id d, bufs !! id = Some d → ∃ tail, command_channel_get_buffer b2 rcvd id = Some (d ++ tail)).
Proof.
  intros Hok Hconn Hplan Hasync Hlt Hroom Hapi Hcid Hth Hctr Hfree Hheap. destruct Hok.
  set (E := arg_env order args (g_mem g) true).
  destruct (plan_args_spec (g_mem g) args order co_names order (λ _, False) (no_env true) [] R ps)
    as (qs & Hqs & Hpl & _); [done|by split_and!|done|]. cbn [app] in Hqs. subst qs.
  pose proof (Forall2_length _ _ _ Hpl) as Hlen.
  set (pof := plan_of order ps).
  assert (∀ a, a ∈ order → planned (g_mem g) args E a (pof a)) as Hpof by (intros; unfold pof, plan_of; by apply assoc_Forall2).
  set (css := sizeof_struct (call_types order)) in *.
  assert (Z.of_nat sizeof_command_base ≤ css) as Hcss by (unfold css, sizeof_struct; lia).
  pose proof (msizes_nonneg_all order ps) as Hnn.
  pose proof (guest_total (command_channel_buffer_size (g_chan g)) _ _ _ _ (link_size (conn := conn) (g_chan g)) co_names Hpl Hlt) as Htotal. fold E in Htotal.
  destruct (link_new (g_chan g) b (g_heap g) css (msizes order ps)) as (cmd0 & ch0 & Hnew & Hbld & Haddr);
    [done|done|lia|done|].
  set (hdr := λ b, set_original_thread_id thread (set_thread_id thread
               (set_command_id (f_call_id f) (set_api_id api b)))).
  pose proof (call_header_update _ _ _ Hapi Hcid Hth : header_update hdr) as Hhdr.
  pose proof (link_header _ _ _ _ _ _ _ Hbld Hhdr) as Hbld1.
  assert (attach_order f ≡ₚ order) as Hperm by (rewrite implicit_real_perm; by symmetry).
  destruct (attach_args (g_mem g) args order b css E pof co_mem Hpof co_typed (attach_order f) 0 ch0
    (upd_base hdr cmd0) ∅ (msizes order ps)) as (vs & ch1 & cmd1 & bufs & Hmap & Hbld2 & _ & Hca & Ha1 & Hh1).
  { intros a Ha. by rewrite <- Hperm. } { done. }
  { rewrite msizes_plan by done. apply Z.eq_le_incl, sumZ_perm. by rewrite Hperm. }
  assert (NoDup (a_name <$> attach_order f)) as Hnd' by by rewrite Hperm.
  pose proof (Forall2_length _ _ _ Hca) as Hlv.
  set (fld := assoc 0 (attach_order f) vs).
  assert (∀ a, a ∈ order → carries bufs (a_type a) (pof a).2 (fld a) ∧ fits (a_type a) (fld a)) as Hfld.
  { intros a Ha. apply (assoc_Forall2 0 (λ a v, carries bufs (a_type a) (pof a).2 v ∧ fits (a_type a) v));
      [done|done|by rewrite Hperm]. }
  set (cid := call_counter (g_endpoint g)) in *.
  set (fs := (intptr, cid) :: ((λ a, (a_type a, fld a)) <$> order)).
  assert (fs.*1 = call_types order) as Hfs1 by (unfold fs, call_types; cbn; by rewrite <- list_fmap_compose).
  assert (fs.*2 = cid :: (fld <$> order)) as Hfs2 by (unfold fs; cbn; by rewrite <- list_fmap_compose).
  assert (Forall (λ f, decode f.1 (encode f.1 f.2) = f.2) fs) as Hdec.
  { constructor; [by apply decode_encode; [cbn; lia|]|]. apply Forall_fmap, Forall_forall. intros a Ha. cbn.
    apply decode_encode; [by apply co_sizes|by apply Hfld]. }
  destruct (send_fields ch1 b (malloc (malloc (g_heap g)).2).2 hb _ css _ _ fs Hbld2)
    as (ch2 & ch3 & b1 & b2 & rcvd & Hsend & Hdel & Hrcv & Hcn & Hra & Hh & Hcs & Hun & Hget); [by rewrite Hfs1|done| |].
  { rewrite Ha1. cbn [upd_base cmd_addr]. rewrite Haddr. cbn. set_solver. }
  eexists ch1, (set_fields (pack 0 fs) cmd1), ch2, _, ch3, b1, rcvd, b2, bufs, (fld <$> order). rewrite Hfs1, Hfs2 in Hun.
  split_and!.
  - intros T send s. unfold function_implementation_with, ava_get_call_id. fold cid. cbn [set_calls]. fold E. rewrite Htotal. cbn [mbind res_bind].
    fold css. rewrite Hnew. cbn [mbind res_bind]. fold hdr.
    destruct (mapS_attach (λ a st, attach_for_argument E (g_mem g) args a st) _ _ 0%nat 0%nat _ _ _ Hmap) as (vs1 & vs2 & st1 & -> & Hm2 & Hvs).
    cbn [mbind res_bind run_statements]. rewrite Hm2. cbn [mbind res_bind]. rewrite <- Hvs.
    change (pack 0 ((intptr, cid) :: ((λ a, (a_type a, default 0 ((list_to_map (zip (a_name <$> attach_order f) vs)
      : gmap string Z) !! a_name a))) <$> order))) with (pack 0 fs).
    unfold malloc at 1. unfold E; rewrite Hasync. cbn [mbind res_bind].
    unfold ava_add_call, ght_insert. cbn [call_map call_counter set_calls]. rewrite Hfree. cbn [c_assert mbind res_bind].
    reflexivity.
  - exact Hsend.
  - exact Hdel.
  - exact Hrcv.
  - exact Hcn.
  - exact Hra.
  - cbn. rewrite Ha1. cbn. rewrite Haddr, (union_comm_L {[next_addr (g_heap g) + 1]}), difference_union_distr_l_L, live_malloc_free by done.
    rewrite union_comm_L. f_equal. apply difference_disjoint_L, disjoint_singleton_r, not_elem_of_singleton. lia.
  - cbn. lia.
  - rewrite Hh. etransitivity; [exact Hh1|done].
  - exact Hcs.
  - exact Hun.
  - rewrite <- (assoc_fmap (no_env true, MNull) order ps co_names) by done. fold (plan_of order ps) pof.
    rewrite zip_with_fmap_r, zip_with_diag. apply Forall2_fmap_2. apply Forall_Forall2_diag, Forall_forall.
    intros a Ha. cbn. by apply Hfld.
  - exact Hpl.
  - exact Hget.
Qed.

(** The command that [function_implementation] sends. *)
Lemma guest_sends f order api thread args (g : guest A) (b : B) (hb : heap) R ps c :
  call_ok f order args (g_mem g) → conn (g_chan g) b →
  foldM (plan_arg (g_mem g) args) order (no_env true, []) = Ok (R, ps) →
  eval (arg_env order args (g_mem g) true) (f_async f) = Ok c →
  msizes order ps < 2 ^ 64 → room (sizeof_struct (call_types order)) (msizes order ps) →
  in_range 8 api → in_range 64 (f_call_id f) → in_srange 64 thread →
  in_srange 64 (call_counter (g_endpoint g)) →
  call_map (g_endpoint g) !! call_counter (g_endpoint g) = None → heap_ok (g_heap g) →
  ∃ ch1 h1 ch2 b1 rcvd b2 bufs fields,
    let call_id := call_counter (g_endpoint g) in
    let record := next_addr (g_heap g) + 1 in
    function_implementation f order api thread args g =
      Ok (call_id, record, sent_state args c g ch1 h1) ∧
    deliver ch1 b = (ch2, b1) ∧ command_channel_receive_command b1 hb = Ok (Some rcvd, b2, (malloc hb).2) ∧
    conn ch2 b2 ∧ cmd_addr rcvd = next_addr hb ∧ live h1 = {[record]} ∪ live (g_heap g) ∧
    next_addr h1 = next_addr (g_heap g) + 2 ∧ header_of rcvd = (api, f_call_id f, thread, thread) ∧
    command_size (cmd_base rcvd) = sizeof_struct (call_types order) ∧
    unpack 0 (call_types order) (cmd_rest rcvd) = call_id :: fields ∧
    Forall2 (λ ap v, carries bufs (a_type ap.1) ap.2.2 v) (zip order ps) fields ∧
    Forall2 (planned (g_mem g) args (arg_env order args (g_mem g) true)) order ps ∧
    (∀ id d, bufs !! id = Some d → ∃ tail, command_channel_get_buffer b2 rcvd id = Some (d ++ tail)).
Proof.
  intros Hok Hconn Hplan Hasync Hlt Hroom Hapi Hcid Hth Hctr Hfree Hheap.
  destruct (guest_hands_over f order api thread args g b hb R ps c) as
    (ch0 & cmd & ch1 & h1 & ch2 & b1 & rcvd & b2 & bufs & fields & Hfun & Hsend & Hrest); try done.
  exists ch1, h1, ch2, b1, rcvd, b2, bufs, fields. split; [|done].
  unfold function_implementation. rewrite Hfun. unfold default_send_code. by rewrite Hsend.
Qed.

End sending.

(** ** Converting the arguments in the worker *)

Definition w_ok (w : wstate) : Prop :=
  0 < w_next w ∧ ∀ p l, w_mem w !! p = Some l → p < w_next w.

(** Allocating keeps the objects. *)
Definition grows (w w' : wstate) : Prop := w_ok w → w_ok w' ∧ w_mem w ⊆ w_mem w'.

Lemma grows_refl w : grows w w.
Proof. by intros ?. Qed.

Lemma grows_trans w1 w2 w3 : grows w1 w2 → grows w2 w3 → grows w1 w3.
Proof. intros H1 H2 H. destruct (H1 H) as [? ?]. destruct H2 as [? ?]; [done|]. split; [done|by etransitivity]. Qed.

Lemma alloc_grows l w : grows w (w_alloc l w).2.
Proof.
  intros [Hn Hm]. split; [split; cbn|cbn].
  - lia.
  - intros p l' [[<- _]|[_ Hp]]%lookup_insert_Some; [lia|]. apply Hm in Hp. lia.
  - apply insert_subseteq. destruct (w_mem w !! w_next w) eqn:He; [|done]. apply Hm in He. lia.
Qed.

Lemma mapS_grows {X Y} (f : nat → X → wstate → res (Y * wstate)) l : ∀ i w ys w',
  (∀ i x w y w', f i x w = Ok (y, w') → grows w w') → mapS f i l w = Ok (ys, w') → grows w w'.
Proof.
  induction l as [|x l IH]; intros i w ys w' Hf Hm; [injection Hm as <- <-; apply grows_refl|].
  apply mapS_Ok in Hm as (y & w1 & ys' & Hy & Hm & ->). eapply grows_trans; [by eapply Hf|by eapply IH].
Qed.

Lemma convert_default_same cb k d v w v' w' :
  convert_default cb k d v w = Ok (v', w') → w_mem w' = w_mem w ∧ w_next w' = w_next w.
Proof.
  unfold convert_default. intros Hc. destruct (_ || _); [by injection Hc as <- <-|].
  destruct (k =? NW_HANDLE); [|by injection Hc as <- <-]. destruct (d =? 0); by res_inv.
Qed.

Lemma convert_default_grows cb k d v w v' w' : convert_default cb k d v w = Ok (v', w') → grows w w'.
Proof.
  intros (H1 & H2)%convert_default_same [Hn Hm]. unfold w_ok. by rewrite H1, H2.
Qed.

Lemma plan_args_prefix m args l : ∀ R ps R' ps',
  foldM (plan_arg m args) l (R, ps) = Ok (R', ps') → ∃ qs, ps' = ps ++ qs.
Proof.
  induction l as [|a l IH]; intros R ps R' ps' Hf.
  - injection Hf as _ <-. exists []. by rewrite app_nil_r.
  - cbn [foldM] in Hf. apply res_bind_Ok in Hf as ([R1 ps1] & Ha & Hf). unfold plan_arg in Ha.
    apply res_bind_Ok in Ha as (c & _ & Ha). apply res_bind_Ok in Ha as (v & _ & Ha).
    apply res_bind_Ok in Ha as (p & _ & Ha). apply res_bind_Ok in Ha as (sv & _ & [= <- <-]).
    destruct (IH _ _ _ _ Hf) as [qs ->]. exists ((R, p) :: qs). by rewrite <- app_assoc.
Qed.

Section worker.
Context `{Uninit}.
Variable cb : Z.

Lemma realise_grows t : ∀ R p w v w', realise cb t R p w = Ok (v, w') → grows w w'.
Proof.
  induction t as [|tr buf dl el IH]; intros R p w v w' Hr; cbn [realise] in Hr.
  - apply res_bind_Ok in Hr as (k & _ & Hr). apply res_bind_Ok in Hr as (d & _ & Hr).
    destruct p; try done. by eapply convert_default_grows.
  - apply res_bind_Ok in Hr as (k & _ & Hr). destruct p as [z| |s|data|ms].
    + apply res_bind_Ok in Hr as (d & _ & Hr). by eapply convert_default_grows.
    + injection Hr as <- <-. apply grows_refl.
    + injection Hr as <- <-. apply alloc_grows.
    + apply res_bind_Ok in Hr as (blob & _ & Hr). destruct blob; [injection Hr as <- <-; apply alloc_grows|].
      apply res_bind_Ok in Hr as (vs & _ & Hr). apply res_bind_Ok in Hr as ([vs' w1] & Hm & [= <- <-]).
      eapply grows_trans; [|apply alloc_grows]. eapply mapS_grows; [|done].
      intros i z w2 y w3 Hx. apply res_bind_Ok in Hx as (? & _ & Hx). by eapply IH.
    + apply res_bind_Ok in Hr as (blob & _ & Hr). apply res_bind_Ok in Hr as (? & _ & Hr).
      apply res_bind_Ok in Hr as ([vs' w1] & Hm & [= <- <-]).
      eapply grows_trans; [|apply alloc_grows]. eapply mapS_grows; [|done].
      intros i z w2 y w3 Hx. exact (IH _ _ _ _ _ Hx).
Qed.

Lemma shared_view_worker self input t R m v p sv w local w' :
  plan self input t R m v = Ok p → shared_view t R p v = Ok (Some sv) →
  realise cb t R p w = Ok (local, w') → w_ok w → view_le sv (view_of t local (w_mem w')).
Proof.
  intros Hp Hsv Hr Hw. destruct t as [|tr buf dl el]; cbn [shared_view realise] in *.
  - apply res_bind_Ok in Hsv as (k & Hk & Hsv). apply res_bind_Ok in Hr as (k' & Hk' & Hr).
    rewrite Hk in Hk'. injection Hk' as <-. apply res_bind_Ok in Hr as (d & _ & Hr).
    destruct (Z.eqb_spec k NW_OPAQUE) as [->|]; [|done]. injection Hsv as <-.
    cbn [plan] in Hp. rewrite Hk in Hp. apply res_bind_Ok in Hp as (? & _ & Hp). apply res_bind_Ok in Hp as (? & _ & [= <-]).
    cbn in Hr. injection Hr as <- <-. by left.
  - apply res_bind_Ok in Hr as (k & _ & Hr). destruct p; try done.
    + destruct (Z.eqb_spec v NULL) as [->|]; [|done]. injection Hsv as <-. injection Hr as <- <-. by left.
    + apply res_bind_Ok in Hsv as (blob & Hbl & Hsv). rewrite Hbl in Hr. cbn [mbind res_bind] in Hr.
      destruct blob; [|done]. injection Hsv as <-. injection Hr as <- <-. cbn.
      destruct Hw as [Hn _]. rewrite (proj2 (Z.eqb_neq _ _)) by (unfold NULL; lia).
      rewrite lookup_insert_eq. by left.
Qed.

Lemma pre_view_below get bufs P R E x t input m v p y :
  (∀ id d, bufs !! id = Some d → ∃ tail, get id = Some (d ++ tail)) →
  below P R E → ¬ P x → plan (RArg x) input t R m v = Ok p → carries bufs t p y →
  ∃ pv, pre_view get E t y = Ok pv ∧ sees (RArg x) (self_view p) R (set_arg x pv E).
Proof.
  intros Hget Hb Hx Hp Hc. destruct t as [|tr buf dl el]; cbn [pre_view].
  - exists (VInt y). split; [done|]. destruct p; try done. eapply sees_none. by eapply below_set.
  - assert (∃ k, eval R tr = Ok k) as [k Hk].
    { cbn [plan] in Hp. apply res_bind_Ok in Hp as (k & Hk & _). by exists k. }
    rewrite (below_eval _ _ _ _ _ Hb Hk). cbn [mbind res_bind]. eexists. split; [done|].
    destruct p; cbn [self_view]; try (eapply sees_none; by eapply below_set).
    destruct (plan_bytes _ _ _ _ _ _ _ Hp) as (? & ? & ? & ? & n & [= <- <- <- <-] & _ & Hk' & _).
    rewrite Hk in Hk'. injection Hk' as ->. destruct Hc as [Hy Hbuf].
    rewrite (proj2 (Z.eqb_neq _ _)) by done. destruct (Hget _ _ Hbuf) as [tail ->].
    eapply sees_longer. by eapply below_set.
Qed.

(** Growing memory and a new local value keep what the others show. *)
Lemma below_grow (P : string → Prop) R order locals (m m' : mem) is_in x local :
  below P R (arg_env order locals m is_in) → ¬ P x → m ⊆ m' →
  below P R (arg_env order (<[x := local]> locals) m' is_in).
Proof.
  intros (H1 & H2 & H3 & H4) Hx Hm. split_and!; [done..|]. intros y u Hu. destruct (H4 y u Hu) as ([Hy Hnp] & w & Hw & Hle).
  split; [done|]. cbn in *. rewrite lookup_insert_ne by congruence.
  destruct (list_find (λ a, a_name a = y) order) as [[i a]|]; [|done]. cbn in *.
  destruct (locals !! y) as [p|]; [|done]. cbn in *. injection Hw as <-. eexists. split; [done|].
  eapply view_le_trans; [done|]. destruct (a_type a) as [|tr buf dl el]; [by left|].
  unfold view_of in *. destruct (p =? NULL); [by left|]. destruct (m !! p) as [l|] eqn:Hp.
  - rewrite (lookup_weaken _ _ _ _ Hp Hm). by left.
  - by destruct Hle as [->|(l & t & -> & ?)].
Qed.

Lemma convert_args m args order get bufs : NoDup (a_name <$> order) →
  (∀ id d, bufs !! id = Some d → ∃ tail, get id = Some (d ++ tail)) →
  ∀ l qs fields P R R' ps locals w locals' w',
  NoDup (a_name <$> l) → (∀ a, a ∈ l → a ∈ order ∧ ¬ P (a_name a)) → w_ok w →
  below P R (arg_env order locals (w_mem w) true) →
  foldM (plan_arg m args) l (R, ps) = Ok (R', ps ++ qs) →
  Forall2 (λ ap v, carries bufs (a_type ap.1) ap.2.2 v) (zip l qs) fields →
  length qs = length l →
  foldM (realise_arg cb) (zip l qs) (locals, w) = Ok (locals', w') →
  foldM (λ p st, convert_input_for_argument cb get order p.1 p.2 st) (zip l fields) (locals, w) =
    Ok (locals', w') ∧
  w_ok w' ∧ (∃ P', below P' R' (arg_env order locals' (w_mem w') true)) ∧
  (∀ x v, locals !! x = Some v → x ∉ a_name <$> l → locals' !! x = Some v) ∧
  (∀ a, a ∈ l → is_Some (locals' !! a_name a)).
Proof.
  intros Hnd Hget l. induction l as [|a l IH]; intros qs fields P R R' ps locals w locals' w' Hndl Hl Hw Hb Hp Hc Hlen Hr.
  - destruct qs; [|done]. apply Forall2_nil_inv_l in Hc as ->. injection Hr as <- <-. cbn in Hp. injection Hp as <- _.
    split_and!; try done; [by exists P|]. intros a Ha. by apply not_elem_of_nil in Ha.
  - destruct qs as [|[R0 p] qs]; [done|]. injection Hlen as Hlen.
    apply Forall2_cons_inv_l in Hc as (y & fields' & Hy & Hc & ->). cbn [fst snd] in Hy.
    rewrite fmap_cons in Hndl. apply NoDup_cons in Hndl as [Ha Hndl]. destruct (Hl a ltac:(left)) as [Hao HPa].
    cbn [foldM] in Hp. apply res_bind_Ok in Hp as ([R1 ps1] & Hpa & Hp). unfold plan_arg in Hpa.
    apply res_bind_Ok in Hpa as (c & Hcv & Hpa). apply res_bind_Ok in Hpa as (v & Hv & Hpa).
    apply res_bind_Ok in Hpa as (p' & Hpl & Hpa). apply res_bind_Ok in Hpa as (sv & Hsv & Hpa). injection Hpa as <- <-.
    destruct (plan_args_prefix _ _ _ _ _ _ _ Hp) as [qs' Hqs]. rewrite <- app_assoc in Hqs.
    apply app_inv_head in Hqs. cbn in Hqs. injection Hqs as -> -> ->.
    cbn [zip zip_with foldM fst snd] in Hr |- *. apply res_bind_Ok in Hr as ([locals1 w1] & Hra & Hr).
    unfold realise_arg in Hra. cbn [fst snd] in Hra. apply res_bind_Ok in Hra as ([local w2] & Hre & [= <- <-]).
    destruct (pre_view_below get bufs P R _ (a_name a) (a_type a) _ m v p' y Hget Hb HPa Hpl Hy) as (pv & Hpv & Hs).
    pose proof (realise_grows _ _ _ _ _ _ Hre) as Hg. destruct (Hg Hw) as [Hw2 Hsub].
    assert (convert_input_for_argument cb get order a y (locals, w) = Ok (<[a_name a := local]> locals, w2)) as ->.
    { unfold convert_input_for_argument. cbn [fst snd]. rewrite Hpv. cbn [mbind res_bind].
      rewrite (sees_eval _ _ _ _ _ _ Hs Hcv). cbn [mbind res_bind].
      rewrite (convert_plan cb m get bufs (a_type a) Hget _ _ _ _ _ _ _ _ _ Hpl Hy Hre Hs). done. }
    cbn [mbind res_bind].
    assert (e_arg (arg_env order (<[a_name a := local]> locals) (w_mem w2) true) (a_name a) =
            Some (view_of (a_type a) local (w_mem w2))) as Hlk.
    { apply arg_env_lookup; [done|done|]. by rewrite lookup_insert_eq. }
    destruct (IH qs' fields' (λ y, P y ∨ y = a_name a) (learn (a_name a) sv R) R' (ps ++ [(R, p')])
      (<[a_name a := local]> locals) w2 locals' w') as (H1 & H2 & H3 & H4 & H5); try done.
    + intros b Hb'. destruct (Hl b ltac:(by right)) as [? ?]. split; [done|]. intros [?|Heq]; [done|].
      apply Ha. rewrite <- Heq. by apply list_elem_of_fmap_2.
    + eapply below_learn; [by eapply below_grow|exact Hlk|]. intros u ->.
      split; [by eapply shared_view_VPtr|by eapply shared_view_worker].
    + rewrite <- app_assoc. done.
    + split_and!; try done.
      * intros x u Hx Hxl. rewrite fmap_cons, not_elem_of_cons in Hxl. apply H4; [|by apply Hxl].
        rewrite lookup_insert_ne; [done|]. by destruct Hxl.
      * intros b [->|Hb']%elem_of_cons; [|by apply H5]. exists local. apply H4; [by rewrite lookup_insert_eq|done].
Qed.

End worker.

(** ** The outputs in the worker *)

Lemma below_sees_none P R E : below P R E → sees RElem None R E.
Proof. intros Hb. split; [intros; by eapply below_le|done]. Qed.

Lemma result_default_mem k d v w v' w' :
  result_default k d v w = Ok (v', w') → w_mem w' = w_mem w ∧ w_next w' = w_next w.
Proof.
  unfold result_default. intros Hc. destruct (k =? NW_HANDLE); [|by injection Hc as <- <-].
  destruct (d =? 0); by res_inv.
Qed.

Lemma mapS_length {X Y S} (f : nat → X → S → res (Y * S)) l : ∀ i s ys s',
  mapS f i l s = Ok (ys, s') → length ys = length l.
Proof.
  induction l as [|x l IH]; intros i s ys s' Hm; [by injection Hm as <- <-|].
  apply mapS_Ok in Hm as (y & s1 & ys' & _ & Hm & ->). cbn. f_equal. by eapply IH.
Qed.

(** What a successful [output_bytes] says, on the branch with an output. *)
Lemma output_bytes_Some R t out local w data plain w' :
  output_bytes R t out local w = Ok (Some (data, plain), w') →
  ∃ tr buf dl sz al sg etr edl n l, let el := TVal sz al sg etr edl in
    t = TPtr tr buf dl el ∧ out ≠ 0 ∧ local ≠ NULL ∧ eval R tr = Ok NW_BUFFER ∧ eval R buf = Ok n ∧
    0 < n ∧ is_blob R true el = Ok true ∧ is_blob R false el = Ok plain ∧ (0 < sz)%nat ∧
    w_mem w !! local = Some l ∧ Z.of_nat (length data) = n * Z.of_nat sz ∧
    bytes_of n el = Z.of_nat (length data) ∧ 0 < Z.of_nat (length data) < 2 ^ 64 ∧
    Z.of_nat (length data) ≤ Z.of_nat (length l) ∧ w_mem w' = w_mem w ∧
    if plain then data = take (length data) l ∧ w' = w
    else ∃ vs ids, elems_of el n l = Ok vs ∧ data = encode_all el ids ∧
      Forall (λ v, decode el (encode el v) = v) ids ∧
      mapS (λ i x w, k ← eval (at_index i None R) etr; d ← eval (at_index i None R) edl;
                     result_default k d x w) 0 vs w = Ok (ids, w').
Proof.
  destruct t as [|tr buf dl el]; cbn [output_bytes]; [done|]. intros Ho.
  apply res_bind_Ok in Ho as (k & Hk & Ho). apply res_bind_Ok in Ho as ([] & Hel%check_Ok & Ho).
  destruct el as [sz al sg etr edl|]; [|done]. set (el := TVal sz al sg etr edl) in *.
  destruct (Z.eqb_spec k NW_BUFFER) as [->|]; cbn [negb] in Ho; [|by res_inv].
  destruct (Z.eqb_spec local NULL) as [|Hl0]; [done|].
  apply res_bind_Ok in Ho as (n & Hn & Ho). apply res_bind_Ok in Ho as (hb & Hhb & Ho).
  apply res_bind_Ok in Ho as ([] & Hhb'%check_Ok & Ho). subst hb. apply res_bind_Ok in Ho as (blob & Hbl & Ho).
  destruct (Z.eqb_spec out 0) as [|Hout]; [done|]. destruct (blob && (n <=? 0)); [done|].
  apply res_bind_Ok in Ho as ([] & Hn0%check_Ok & Ho). apply Z.ltb_lt in Hn0.
  apply res_bind_Ok in Ho as (s & Hs & Ho). destruct (checked_bytes_Ok _ _ _ Hs Hn0) as (Hs1 & Hsz & Hs2 & Hbo).
  apply res_bind_Ok in Ho as (l & Hl & Ho). unfold object in Hl. destruct (w_mem w !! local) as [l'|] eqn:Hm; [|done].
  injection Hl as ->. apply res_bind_Ok in Ho as ([] & Hle%check_Ok & Ho). apply Z.leb_le in Hle.
  destruct blob.
  - injection Ho as <- <- <-. assert (length (take (Z.to_nat s) l) = Z.to_nat s) as Hlt by (rewrite length_take; lia).
    eexists _, _, _, _, _, _, _, _, n, l. split; [done|]. rewrite !Hlt. rewrite !Z2Nat.id by lia. split_and!; try done; try lia.
  - apply res_bind_Ok in Ho as (vs & Hvs & Ho). apply res_bind_Ok in Ho as ([ids w1] & Hmap & Ho).
    apply res_bind_Ok in Ho as ([] & Hfit%check_Ok & [= <- <- <-]).
    assert (Z.of_nat (length (encode_all el ids)) = s) as Hlt.
    { rewrite length_encode_all, (mapS_length _ _ _ _ _ _ Hmap), (elems_of_length _ _ _ _ Hvs). lia. }
    eexists _, _, _, _, _, _, _, _, n, l. split; [done|]. rewrite !Hlt. split_and!; try done; try lia.
    + clear -Hmap. revert Hmap. generalize 0%nat. revert w ids. induction vs as [|x vs IH]; intros w ids i Hm.
      * by injection Hm as <- <-.
      * apply mapS_Ok in Hm as (y & w2 & ys & Hy & Hm & ->). apply res_bind_Ok in Hy as (k & _ & Hy).
        apply res_bind_Ok in Hy as (d & _ & Hy). apply result_default_mem in Hy as [<- _]. by eapply IH.
    + exists vs, ids. split_and!; try done. apply Forall_forall. intros v Hv. apply Z.eqb_eq.
      rewrite forallb_forall in Hfit. by apply Hfit, list_elem_of_In.
Qed.

Lemma output_bytes_None R t out local w w' :
  output_bytes R t out local w = Ok (None, w') →
  w' = w ∧ ∃ tr buf dl sz al sg etr edl k, let el := TVal sz al sg etr edl in
    t = TPtr tr buf dl el ∧ eval R tr = Ok k ∧
    (k ≠ NW_BUFFER ∧ out = 0 ∨ k = NW_BUFFER ∧ (local = NULL ∨
       ∃ n bl, eval R buf = Ok n ∧ is_blob R true el = Ok true ∧ is_blob R false el = Ok bl ∧
         (out = 0 ∨ bl = true ∧ n ≤ 0))).
Proof.
  destruct t as [|tr buf dl el]; cbn [output_bytes]; [done|]. intros Ho.
  apply res_bind_Ok in Ho as (k & Hk & Ho). apply res_bind_Ok in Ho as ([] & Hel%check_Ok & Ho).
  destruct el as [sz al sg etr edl|]; [|done]. set (el := TVal sz al sg etr edl) in *.
  destruct (Z.eqb_spec k NW_BUFFER) as [->|Hkb]; cbn [negb] in Ho.
  2: { apply res_bind_Ok in Ho as ([] & Hz%check_Ok & [= <-]). apply Z.eqb_eq in Hz.
       split; [done|]. eexists _, _, _, _, _, _, _, _, k. split_and!; [done|done|]. by left. }
  destruct (Z.eqb_spec local NULL) as [|Hl0].
  { injection Ho as <-. split; [done|]. eexists _, _, _, _, _, _, _, _, _. split_and!; [done|done|]. right.
    split; [done|]. by left. }
  apply res_bind_Ok in Ho as (n & Hn & Ho). apply res_bind_Ok in Ho as (hb & Hhb & Ho).
  apply res_bind_Ok in Ho as ([] & Hhb'%check_Ok & Ho). subst hb. apply res_bind_Ok in Ho as (blob & Hbl & Ho).
  assert (∀ Q : Prop, w' = w → (out = 0 ∨ blob = true ∧ n ≤ 0) → w' = w ∧
    ∃ tr' buf' dl' sz al sg etr edl k, TPtr tr buf dl el = TPtr tr' buf' dl' (TVal sz al sg etr edl) ∧ eval R tr' = Ok k ∧
    (k ≠ NW_BUFFER ∧ out = 0 ∨ k = NW_BUFFER ∧ (local = NULL ∨
       ∃ n bl, eval R buf' = Ok n ∧ is_blob R true (TVal sz al sg etr edl) = Ok true ∧
         is_blob R false (TVal sz al sg etr edl) = Ok bl ∧ (out = 0 ∨ bl = true ∧ n ≤ 0)))) as Hgoal.
  { intros _ Hw Hq. split; [done|]. eexists _, _, _, _, _, _, _, _, _. split_and!; [done|done|]. right. split; [done|].
    right. eexists _, _. by split_and!. }
  destruct (Z.eqb_spec out 0) as [|Hout]; [injection Ho as <-; apply (Hgoal True); [done|by left]|].
  destruct (blob && (n <=? 0)) eqn:Hbn.
  { injection Ho as <-. apply (Hgoal True); [done|]. right. apply andb_true_iff in Hbn as [? ?%Z.leb_le]. done. }
  exfalso. do 4 apply res_bind_Ok in Ho as (? & _ & Ho). destruct blob; [done|].
  apply res_bind_Ok in Ho as (? & _ & Ho). apply res_bind_Ok in Ho as ([] & _ & Ho).
  by apply res_bind_Ok in Ho as (? & _ & ?).
Qed.

Lemma below_blob P R E h t b : below P R E → is_blob R h t = Ok b → is_blob E h t = Ok b.
Proof. intros Hb. by apply (sees_blob RElem None), (below_sees_none _ _ _ Hb). Qed.

Lemma compute_size_out bs P R E t out local w o w' : (∀ n, bs n = n) → below P R E →
  output_bytes R t out local w = Ok (o, w') →
  compute_size bs (negb (out =? 0)) t E (w_mem w) local = Ok (osize o).
Proof.
  intros Hbs Hb Ho. destruct o as [[data plain]|].
  - destruct (output_bytes_Some _ _ _ _ _ _ _ _ Ho) as (tr & buf & dl & sz & al & sg & etr & edl & n & l & -> & Hout & Hl0 &
      Htr & Hbuf & Hn & Hb1 & Hb2 & _ & _ & _ & Hbo & _).
    cbn [compute_size]. rewrite (below_eval _ _ _ _ _ Hb Htr). cbn [mbind res_bind]. rewrite Z.eqb_refl. cbn [negb].
    rewrite (proj2 (Z.eqb_neq _ _) Hl0), (below_eval _ _ _ _ _ Hb Hbuf). cbn [mbind res_bind].
    rewrite (proj2 (Z.leb_gt n 0)) by lia. rewrite (below_blob _ _ _ _ _ _ Hb Hb1). cbn [mbind res_bind].
    rewrite (proj2 (Z.eqb_neq _ _) Hout). cbn [negb osize]. by rewrite Hbs, Hbo.
  - destruct (output_bytes_None _ _ _ _ _ _ Ho) as (-> & tr & buf & dl & sz & al & sg & etr & edl & k & -> & Htr & Hcase).
    cbn [compute_size osize]. rewrite (below_eval _ _ _ _ _ Hb Htr). cbn [mbind res_bind].
    destruct Hcase as [[Hk _]|[-> Hcase]]; [by rewrite (proj2 (Z.eqb_neq _ _) Hk)|]. rewrite Z.eqb_refl. cbn [negb].
    destruct (Z.eqb_spec local NULL) as [|Hl0]; [done|]. destruct Hcase as [|(n & bl & Hbuf & Hb1 & _ & Hcase)]; [done|].
    rewrite (below_eval _ _ _ _ _ Hb Hbuf). cbn [mbind res_bind]. destruct (Z.leb_spec n 0); [done|].
    rewrite (below_blob _ _ _ _ _ _ Hb Hb1). cbn [mbind res_bind]. destruct Hcase as [->|[_ ?]]; [done|lia].
Qed.

Section replying.
Context {A B} `{Channel A} `{Channel B} {conn : A → B → Prop} `{!Link A B conn}.

Lemma convert_out (b : B) css P R E t out local (c : A) cmd w o w' bufs cap :
  below P R E → output_bytes R t out local w = Ok (o, w') → out ≠ 0 →
  building c b cmd css bufs cap → osize o ≤ cap →
  ∃ r c' cmd' bufs', convert_result true t E local (c, cmd, w) = Ok (r, (c', cmd', w')) ∧
    building c' b cmd' css bufs' (cap - osize o) ∧ bufs ⊆ bufs' ∧ 0 ≤ r < 2 ^ 64 ∧
    match o with None => r = NULL | Some (data, _) => r ≠ NULL ∧ bufs' !! r = Some data end ∧
    cmd_addr cmd' = cmd_addr cmd ∧ header_of cmd' = header_of cmd.
Proof.
  intros Hb Ho Hout Hbl Hcap. destruct o as [[data plain]|].
  2: { destruct (output_bytes_None _ _ _ _ _ _ Ho) as (-> & tr & buf & dl & sz & al & sg & etr & edl & k & -> & Htr & Hcase).
    exists NULL, c, cmd, bufs. cbn [osize] in *. rewrite Z.sub_0_r. split; [|by split_and!].
    cbn [convert_result]. rewrite (below_eval _ _ _ _ _ Hb Htr). cbn [mbind res_bind].
    destruct Hcase as [[_ ?]|[-> Hcase]]; [done|]. rewrite Z.eqb_refl. cbn [negb].
    destruct (Z.eqb_spec local NULL) as [|Hl0]; [done|].
    destruct Hcase as [|(n & bl & Hbuf & _ & Hb2 & [?|[-> Hn]])]; [done|done|].
    rewrite (below_eval _ _ _ _ _ Hb Hbuf). cbn [mbind res_bind]. rewrite (below_blob _ _ _ _ _ _ Hb Hb2).
    cbn [mbind res_bind]. by rewrite (proj2 (Z.leb_le n 0)). }
  destruct (output_bytes_Some _ _ _ _ _ _ _ _ Ho) as (tr & buf & dl & sz & al & sg & etr & edl & n & l & -> & _ & Hl0 &
    Htr & Hbuf & Hn & Hb1 & Hb2 & Hsz & Hm & Hlen & Hbo & Hpos & Hle & Hmem & Hplain).
  set (el := TVal sz al sg etr edl) in *. cbn [osize] in *.
  assert (data ≠ []) as Hne by (intros ->; cbn in Hpos; lia).
  cbn [convert_result snd fst]. rewrite (below_eval _ _ _ _ _ Hb Htr). cbn [mbind res_bind]. rewrite Z.eqb_refl. cbn [negb].
  rewrite (proj2 (Z.eqb_neq _ _) Hl0), (below_eval _ _ _ _ _ Hb Hbuf). cbn [mbind res_bind].
  rewrite (below_blob _ _ _ _ _ _ Hb Hb2). cbn [mbind res_bind]. unfold object. rewrite Hm. cbn [mbind res_bind].
  destruct plain.
  - destruct Hplain as [Hd ->]. rewrite (proj2 (Z.leb_gt n 0)) by lia.
    destruct (link_attach c b cmd css bufs cap data (drop (length data) l)) as (id & c' & cmd' & Hat & Hid & Hidr & Hb' & Ha & Hh); [done..|].
    rewrite Hd, take_drop in Hat at 1. rewrite Hbo, Hat. cbn [mbind res_bind].
    eexists _, _, _, _. split; [done|]. split_and!; try done; try lia.
    + by apply insert_subseteq.
    + unfold NULL. lia.
    + by rewrite lookup_insert_eq.
  - destruct Hplain as (vs & ids & Hvs & -> & Hfit & Hmap). rewrite Hvs. cbn [mbind res_bind].
    assert (∀ i w ids w', w_mem w = w_mem w →
      mapS (λ i x w, k ← eval (at_index i None R) etr; d ← eval (at_index i None R) edl; result_default k d x w) i vs w = Ok (ids, w') →
      mapS (λ i x st, convert_result true el (at_index i (Some (view_of el x (w_mem st.2))) E) x st) i vs (c, cmd, w) =
        Ok (ids, (c, cmd, w'))) as Hloop.
    { clear -Hb. induction vs as [|x vs IH]; intros i w ids w' _ Hm; [by injection Hm as <- <-|].
      apply mapS_Ok in Hm as (y & w2 & ys & Hy & Hm & ->). apply res_bind_Ok in Hy as (k & Hk & Hy).
      apply res_bind_Ok in Hy as (d & Hd & Hy). apply mapS_Ok. exists y, (c, cmd, w2), ys. split_and!; [|by apply IH|done].
      pose proof (sees_at _ _ _ _ i (view_of el x (w_mem w)) (below_sees_none _ _ _ Hb)) as Hs.
      cbn [convert_result el snd fst]. rewrite (sees_eval _ _ _ _ _ _ Hs Hk). cbn [mbind res_bind].
      rewrite (sees_eval _ _ _ _ _ _ Hs Hd). cbn [mbind res_bind]. by rewrite Hy. }
    rewrite (Hloop _ _ _ _ eq_refl Hmap). cbn [mbind res_bind].
    destruct (link_attach c b cmd css bufs cap (encode_all el ids) []) as (id & c' & cmd' & Hat & Hid & Hidr & Hb' & Ha & Hh); [done..|].
    rewrite app_nil_r in Hat. rewrite Hbo, Hat. cbn [mbind res_bind].
    eexists _, _, _, _. split; [done|]. split_and!; try done; try lia.
    + by apply insert_subseteq.
    + unfold NULL. lia.
    + by rewrite lookup_insert_eq.
Qed.

End replying.

(** ** The outputs in the guest *)

Lemma mem_copy_length data old new : mem_copy 0 data old = Ok new → (length data ≤ length old)%nat.
Proof. unfold mem_copy. destruct (Z.leb_spec (0 + Z.of_nat (length data)) (Z.of_nat (length old))); [lia|done]. Qed.

Lemma mem_copy_prefix data old new : mem_copy 0 data old = Ok new → ∃ rest, new = data ++ rest.
Proof.
  intros Hm. pose proof (mem_copy_length _ _ _ Hm). unfold mem_copy in Hm.
  rewrite (proj2 (Z.leb_le _ _)) in Hm by lia. injection Hm as <-. cbn [Z.to_nat].
  rewrite pwrite_in by lia. rewrite take_0. by eexists.
Qed.

Lemma elems_of_exists t n l : n * Z.of_nat (sizeof t) ≤ Z.of_nat (length l) → ∃ vs, elems_of t n l = Ok vs.
Proof. intros Hl. unfold elems_of. rewrite (proj2 (Z.leb_le _ _)) by done. by eexists. Qed.

Lemma copy_out get P R E t out local w o w' v r m :
  below P R E → output_bytes R t out local w = Ok (o, w') →
  match o with
  | None => r = NULL ∨ out = 0
  | Some (data, _) => r ≠ NULL ∧ ∃ tail, get r = Some (data ++ tail)
  end →
  ∀ m', match o with
        | None => m' = m
        | Some (data, _) => ∃ old new, m !! v = Some old ∧ mem_copy 0 data old = Ok new ∧ m' = <[v := new]> m
        end →
  ∃ x, copy_result get (negb (out =? 0)) t E v r m = Ok (x, m').
Proof.
  intros Hb Ho Hr m' Hm'. destruct o as [[data plain]|].
  2: { subst m'. destruct (output_bytes_None _ _ _ _ _ _ Ho) as (-> & tr & buf & dl & sz & al & sg & etr & edl & k & -> & Htr & Hcase).
    cbn [copy_result]. rewrite (below_eval _ _ _ _ _ Hb Htr). cbn [mbind res_bind].
    destruct (negb (k =? NW_BUFFER)); [by eexists|]. destruct Hr as [->| ->]; [|by eexists].
    rewrite Z.eqb_refl, orb_true_r. by eexists. }
  destruct (output_bytes_Some _ _ _ _ _ _ _ _ Ho) as (tr & buf & dl & sz & al & sg & etr & edl & n & l & -> & Hout & Hl0 &
    Htr & Hbuf & Hn & Hb1 & Hb2 & Hsz & Hm & Hlen & Hbo & Hpos & Hle & Hmem & Hplain).
  set (el := TVal sz al sg etr edl) in *. destruct Hr as [Hr0 [tail Hg]]. destruct Hm' as (old & new & Hold & Hcopy & ->).
  pose proof (mem_copy_length _ _ _ Hcopy) as Hlo.
  cbn [copy_result]. rewrite (below_eval _ _ _ _ _ Hb Htr). cbn [mbind res_bind]. rewrite Z.eqb_refl. cbn [negb].
  rewrite (proj2 (Z.eqb_neq _ _) Hout), (proj2 (Z.eqb_neq _ _) Hr0). cbn [negb orb]. rewrite Hg.
  rewrite (below_eval _ _ _ _ _ Hb Hbuf). cbn [mbind res_bind]. rewrite (below_blob _ _ _ _ _ _ Hb Hb2). cbn [mbind res_bind].
  destruct plain.
  - rewrite Hbo, read_bytes_prefix by done. cbn [mbind res_bind]. unfold object. rewrite Hold. cbn [mbind res_bind].
    rewrite Hcopy. cbn [mbind res_bind]. by eexists.
  - destruct Hplain as (vs & ids & Hvs & -> & Hfit & Hmap).
    assert (length ids = Z.to_nat n) as Hli.
    { by rewrite (mapS_length _ _ _ _ _ _ Hmap), (elems_of_length _ _ _ _ Hvs). }
    rewrite elems_of_encode by (done || lia). cbn [mbind res_bind]. unfold object. rewrite Hold. cbn [mbind res_bind].
    destruct (elems_of_exists el n old) as [olds Holds]; [cbn in Hlen |- *; lia|]. rewrite Holds. cbn [mbind res_bind].
    assert (length olds = length ids) as Hlo' by (by rewrite (elems_of_length _ _ _ _ Holds)).
    assert (∀ i, mapS (λ i p m, copy_result get true el (at_index i (Some (view_of el p.2 m)) E) p.1 p.2 m) i (zip olds ids) m =
      Ok (ids, m)) as ->.
    { clear -Hlo'. revert ids Hlo'. induction olds as [|x olds IH]; intros [|y ids] Hl i; try done.
      apply mapS_Ok. exists y, m, ids. split_and!; [done| |done]. apply IH. by injection Hl. }
    cbn [mbind res_bind]. rewrite Hold. cbn [mbind res_bind]. rewrite Hcopy. cbn [mbind res_bind]. by eexists.
Qed.

(** What the guest sees after an object is overwritten. *)
Lemma below_forget P R order args m is_in v new :
  below P R (arg_env order args m is_in) →
  below P (forget args v R) (arg_env order args (<[v := new]> m) is_in).
Proof.
  intros (H1 & H2 & H3 & H4). split_and!; [done..|]. intros x u Hu. cbn [forget e_arg] in Hu.
  assert (e_arg R x = Some u ∧ (args !! x = Some v → ∀ l, u ≠ VMem l)) as [Hu' Hmem].
  { destruct (decide (args !! x = Some v)); [|split; [done|congruence]].
    destruct (e_arg R x) as [[]|]; naive_solver. }
  destruct (H4 x u Hu') as ([HP Hnp] & w & Hw & Hle). split; [done|]. cbn in *.
  destruct (list_find (λ a, a_name a = x) order) as [[i a]|]; [|done]. cbn in *.
  destruct (args !! x) as [p|]; [|done]. cbn in *. injection Hw as <-. eexists. split; [done|].
  destruct (a_type a) as [|tr buf dl el]; [done|]. unfold view_of in *. destruct (p =? NULL); [done|].
  destruct (decide (p = v)) as [->|Hpv].
  - exfalso. specialize (Hmem eq_refl). destruct (m !! v) as [l|].
    + destruct Hle as [->|(l' & t & -> & _)]; exact (Hmem _ eq_refl).
    + by destruct Hle as [->|(l' & t & -> & ?)].
  - by rewrite lookup_insert_ne.
Qed.

Lemma below_set_arg (P : string → Prop) R E x v w :
  below P R E → P x → v ≠ VPtr → e_arg E x = Some w → view_le v w → below P (set_arg x v R) E.
Proof.
  intros (H1 & H2 & H3 & H4) Hx Hv Hw Hle. split_and!; [done..|]. intros y u. cbn.
  destruct (decide (y = x)) as [->|]; [|apply H4]. intros [= <-]. split; [done|]. by exists w.
Qed.

Lemma below_forget_same P R args v E : below P R E → below P (forget args v R) E.
Proof.
  intros (H1 & H2 & H3 & H4). split_and!; [done..|]. intros x u Hu. cbn [forget e_arg] in Hu. apply H4.
  destruct (decide _); [|done]. destruct (e_arg R x) as [[]|]; naive_solver.
Qed.

(** ** The loops over the outputs *)

Definition any : string → Prop := λ _, True.

Lemma out_arg_inv args locals a R m w os R1 m1 w1 os1 :
  out_arg args locals a (R, m, w, os) = Ok (R1, m1, w1, os1) →
  ∃ out local v o, eval R (a_output a) = Ok out ∧ locals !! a_name a = Some local ∧ args !! a_name a = Some v ∧
    output_bytes R (a_type a) out local w = Ok (o, w1) ∧ os1 = os ++ [o] ∧ w_mem w1 = w_mem w ∧
    match o with
    | None => R1 = R ∧ m1 = m
    | Some (data, plain) => v ≠ NULL ∧ ∃ old new, m !! v = Some old ∧ mem_copy 0 data old = Ok new ∧ m1 = <[v := new]> m ∧
        R1 = (if plain then set_arg (a_name a) (VMem data) else id) (forget args v R)
    end.
Proof.
  unfold out_arg. intros Ho. apply res_bind_Ok in Ho as (out & Hout & Ho).
  apply res_bind_Ok in Ho as (local & Hl%arg_value_Ok & Ho). apply res_bind_Ok in Ho as (v & Hv%arg_value_Ok & Ho).
  apply res_bind_Ok in Ho as ([o w2] & Hob & Ho). exists out, local, v, o. destruct o as [[data plain]|].
  - apply res_bind_Ok in Ho as ([] & Hv0%check_Ok & Ho). apply negb_true_iff, Z.eqb_neq in Hv0.
    apply res_bind_Ok in Ho as (old & Hold & Ho). apply res_bind_Ok in Ho as (new & Hnew & [= <- <- <- <-]).
    unfold object in Hold. destruct (m !! v) as [l|] eqn:Hm; [injection Hold as ->|done].
    split_and!; try done; [|by exists old, new].
    by destruct (output_bytes_Some _ _ _ _ _ _ _ _ Hob) as (? & ? & ? & ? & ? & ? & ? & ? & ? & ? & _ & _ & _ & _ & _ & _ & _ & _ & _ & _ & _ & _ & _ & _ & ? & _).
  - injection Ho as <- <- <- <-. by destruct (output_bytes_None _ _ _ _ _ _ Hob) as (-> & _).
Qed.

(** The environment after an output, in the worker and in the guest. *)
Lemma out_arg_below_worker args locals order a R m w os R1 m1 w1 os1 :
  NoDup (a_name <$> order) → a ∈ order →
  out_arg args locals a (R, m, w, os) = Ok (R1, m1, w1, os1) →
  below any R (arg_env order locals (w_mem w) false) → below any R1 (arg_env order locals (w_mem w) false).
Proof.
  intros Hnd Ha Ho Hb. destruct (out_arg_inv _ _ _ _ _ _ _ _ _ _ _ Ho) as (out & local & v & o & _ & Hl & _ & Hob & _ & _ & Hcase).
  destruct o as [[data plain]|]; [|by destruct Hcase as [-> _]].
  destruct Hcase as (Hv & old & new & _ & _ & _ & ->).
  destruct (output_bytes_Some _ _ _ _ _ _ _ _ Hob) as (tr & buf & dl & sz & al & sg & etr & edl & n & l & Ht & _ & Hl0 &
    _ & _ & _ & _ & _ & _ & Hm & _ & _ & _ & _ & _ & Hplain).
  pose proof (below_forget_same _ _ args v _ Hb) as Hb'. destruct plain; [|done].
  eapply below_set_arg; [done|done|done|by apply arg_env_lookup|]. rewrite Ht. cbn.
  rewrite (proj2 (Z.eqb_neq _ _) Hl0), Hm. destruct Hplain as [Hd _]. right. exists data, (drop (length data) l).
  split; [done|]. f_equal. rewrite Hd at 1. by rewrite take_drop.
Qed.

Lemma out_arg_below_guest args locals order a R m w os R1 m1 w1 os1 :
  NoDup (a_name <$> order) → a ∈ order →
  out_arg args locals a (R, m, w, os) = Ok (R1, m1, w1, os1) →
  below any R (arg_env order args m false) → below any R1 (arg_env order args m1 false).
Proof.
  intros Hnd Ha Ho Hb. destruct (out_arg_inv _ _ _ _ _ _ _ _ _ _ _ Ho) as (out & local & v & o & _ & _ & Hv & Hob & _ & _ & Hcase).
  destruct o as [[data plain]|]; [|by destruct Hcase as [-> ->]].
  destruct Hcase as (Hv0 & old & new & Hold & Hnew & -> & ->).
  destruct (output_bytes_Some _ _ _ _ _ _ _ _ Hob) as (tr & buf & dl & sz & al & sg & etr & edl & n & l & Ht & _).
  pose proof (below_forget _ _ _ _ _ _ v new Hb) as Hb'. destruct plain; [|done].
  eapply below_set_arg; [done|done|done|by apply arg_env_lookup|]. rewrite Ht. cbn.
  rewrite (proj2 (Z.eqb_neq _ _) Hv0), lookup_insert_eq. destruct (mem_copy_prefix _ _ _ Hnew) as [rest ->].
  right. by eexists _, _.
Qed.

(** What an output is on the wire. *)
Definition on_wire (bufs : gmap Z (list Z)) (o : output) (r : Z) : Prop :=
  match o with None => r = NULL | Some (data, _) => r ≠ NULL ∧ bufs !! r = Some data end.

Lemma on_wire_mono bufs bufs' o r : bufs ⊆ bufs' → on_wire bufs o r → on_wire bufs' o r.
Proof. intros Hs. destruct o as [[]|]; [|done]. intros [? ?]. split; [done|by eapply lookup_weaken]. Qed.

Lemma osize_nonneg os : 0 ≤ sumZ (osize <$> os).
Proof.
  apply sumZ_nonneg, Forall_fmap, Forall_forall. intros [[]|] _; cbn; lia.
Qed.

Section replies.
Context {A B} `{Channel A} `{Channel B} {conn : A → B → Prop} `{!Link A B conn}.

(** The body of the loop that fills the RET struct. *)
Definition out_body (locals : gmap string Z) (E : env) (a : argument) (st : A * command * wstate)
    : res (Z * (A * command * wstate)) :=
  out ← eval E (a_output a);
  v ← arg_value locals a;
  if out =? 0 then Ok (0, st) else convert_result true (a_type a) E v st.

Lemma worker_outs args locals order wm (b : B) css : NoDup (a_name <$> order) →
  ∀ l R m w os R' m' w' os', (∀ a, a ∈ l → a ∈ order) → w_mem w = wm →
  foldM (out_arg args locals) l (R, m, w, os) = Ok (R', m', w', os') →
  below any R (arg_env order locals wm false) →
  ∃ qs, os' = os ++ qs ∧ length qs = length l ∧
    Forall2 (λ a o, ∃ out v, eval (arg_env order locals wm false) (a_output a) = Ok out ∧ arg_value locals a = Ok v ∧
      ∀ bs, (∀ n, bs n = n) → compute_size bs (negb (out =? 0)) (a_type a) (arg_env order locals wm false) wm v = Ok (osize o)) l qs ∧
    ∀ (c : A) cmd bufs cap i, building c b cmd css bufs cap → sumZ (osize <$> qs) ≤ cap →
      ∃ vs c' cmd' bufs', mapS (λ _ a st, out_body locals (arg_env order locals wm false) a st) i l (c, cmd, w) =
          Ok (vs, (c', cmd', w')) ∧
        building c' b cmd' css bufs' (cap - sumZ (osize <$> qs)) ∧ bufs ⊆ bufs' ∧ Forall (λ v, 0 ≤ v < 2 ^ 64) vs ∧
        Forall2 (on_wire bufs') qs vs ∧ cmd_addr cmd' = cmd_addr cmd ∧ header_of cmd' = header_of cmd.
Proof.
  intros Hnd l. induction l as [|a l IH]; intros R m w os R' m' w' os' Hl Hwm Hf Hb.
  - injection Hf as <- <- <- <-. exists []. rewrite app_nil_r. split_and!; try done.
    intros c cmd bufs cap i Hbl _. exists [], c, cmd, bufs. cbn. rewrite Z.sub_0_r. by split_and!.
  - cbn [foldM] in Hf. apply res_bind_Ok in Hf as ([[[R1 m1] w1] os1] & Ha & Hf).
    destruct (out_arg_inv _ _ _ _ _ _ _ _ _ _ _ Ha) as (out & local & v & o & Hout & Hlo & _ & Hob & -> & Hw1 & _).
    pose proof (Hl a ltac:(left)) as Hao. subst wm.
    pose proof (out_arg_below_worker _ _ _ _ _ _ _ _ _ _ _ _ Hnd Hao Ha Hb) as Hb1.
    destruct (IH R1 m1 w1 (os ++ [o]) R' m' w' os') as (qs & -> & Hlq & Hsz & Hrun); [intros; apply Hl; by right|done|done|done|].
    exists (o :: qs). rewrite <- app_assoc. split_and!; [done|cbn; by rewrite Hlq| |].
    + constructor; [|done]. exists out, local. split_and!; [exact (below_eval _ _ _ _ _ Hb Hout)|by apply arg_value_Ok|].
      intros bs Hbs. exact (compute_size_out _ _ _ _ _ _ _ _ _ _ Hbs Hb Hob).
    + intros c cmd bufs cap i Hbl Hcap. rewrite fmap_cons in Hcap. cbn [foldr] in Hcap. pose proof (osize_nonneg qs).
      assert (∃ r c1 cmd1 bufs1, out_body locals (arg_env order locals (w_mem w) false) a (c, cmd, w) = Ok (r, (c1, cmd1, w1)) ∧
        building c1 b cmd1 css bufs1 (cap - osize o) ∧ bufs ⊆ bufs1 ∧ 0 ≤ r < 2 ^ 64 ∧ on_wire bufs1 o r ∧
        cmd_addr cmd1 = cmd_addr cmd ∧ header_of cmd1 = header_of cmd) as (r & c1 & cmd1 & bufs1 & Hr & Hbl1 & Hs1 & Hr0 & Hw & Had & Hhd).
      { unfold out_body. rewrite (below_eval _ _ _ _ _ Hb Hout). cbn [mbind res_bind].
        rewrite (proj2 (arg_value_Ok _ _ _) Hlo). cbn [mbind res_bind]. destruct (Z.eqb_spec out 0) as [->|Hne].
        - exists 0, c, cmd, bufs. destruct o as [[data plain]|].
          + by destruct (output_bytes_Some _ _ _ _ _ _ _ _ Hob) as (? & ? & ? & ? & ? & ? & ? & ? & ? & ? & _ & ? & _).
          + destruct (output_bytes_None _ _ _ _ _ _ Hob) as (-> & _). cbn [osize on_wire]. rewrite Z.sub_0_r. split_and!; try done; lia.
        - destruct (convert_out b css _ _ _ _ _ _ c cmd _ _ _ bufs cap Hb Hob Hne Hbl) as (r & c1 & cmd1 & bufs1 & ? & ? & ? & ? & ? & ? & ?);
            [lia|]. exists r, c1, cmd1, bufs1. split_and!; try done; lia. }
      destruct (Hrun c1 cmd1 bufs1 (cap - osize o) (S i) Hbl1) as (vs & c2 & cmd2 & bufs2 & Hr2 & Hbl2 & Hs2 & Hv2 & Hw2 & Had2 & Hhd2); [lia|].
      exists (r :: vs), c2, cmd2, bufs2. split_and!; try congruence.
      * apply mapS_Ok. exists r, (c1, cmd1, w1), vs. by split_and!.
      * rewrite fmap_cons. cbn [foldr]. by replace (cap - (osize o + sumZ (osize <$> qs))) with (cap - osize o - sumZ (osize <$> qs)) by lia.
      * by etransitivity.
      * by constructor.
      * constructor; [by eapply on_wire_mono|done].
Qed.

End replies.

(** What the guest gets for an output. *)
Definition received (get : Z → option (list Z)) (o : output) (r : Z) : Prop :=
  match o with None => r = NULL | Some (data, _) => r ≠ NULL ∧ ∃ tail, get r = Some (data ++ tail) end.

Lemma out_args_prefix args locals l : ∀ R m w os R' m' w' os',
  foldM (out_arg args locals) l (R, m, w, os) = Ok (R', m', w', os') → ∃ qs, os' = os ++ qs.
Proof.
  induction l as [|a l IH]; intros R m w os R' m' w' os' Hf.
  - injection Hf as _ _ _ <-. exists []. by rewrite app_nil_r.
  - cbn [foldM] in Hf. apply res_bind_Ok in Hf as ([[[R1 m1] w1] os1] & Ha & Hf).
    destruct (out_arg_inv _ _ _ _ _ _ _ _ _ _ _ Ha) as (out & local & v & o & _ & _ & _ & _ & -> & _).
    destruct (IH _ _ _ _ _ _ _ _ Hf) as [qs ->]. exists (o :: qs). by rewrite <- app_assoc.
Qed.

(** The body of the loop that copies the outputs. *)
Definition copy_body (get : Z → option (list Z)) (order : list argument) (args vals : gmap string Z)
    (a : argument) (m : mem) : res mem :=
  let E := arg_env order args m false in
  out ← eval E (a_output a);
  v ← arg_value args a;
  '(_, m) ← copy_result get (negb (out =? 0)) (a_type a) E v (default 0 (vals !! a_name a)) m;
  Ok m.

Lemma guest_outs get order args locals vals : NoDup (a_name <$> order) →
  ∀ l R m w os R' m' w' qs, (∀ a, a ∈ l → a ∈ order) →
  foldM (out_arg args locals) l (R, m, w, os) = Ok (R', m', w', os ++ qs) →
  below any R (arg_env order args m false) →
  Forall2 (λ a o, received get o (default 0 (vals !! a_name a))) l qs →
  foldM (copy_body get order args vals) l m = Ok m'.
Proof.
  intros Hnd l. induction l as [|a l IH]; intros R m w os R' m' w' qs Hl Hf Hb Hr.
  - by injection Hf as _ <- _ _.
  - apply Forall2_cons_inv_l in Hr as (o & qs' & Ho & Hr & ->).
    cbn [foldM] in Hf |- *. apply res_bind_Ok in Hf as ([[[R1 m1] w1] os1] & Ha & Hf).
    pose proof (Hl a ltac:(left)) as Hao. pose proof (out_arg_below_guest _ _ _ _ _ _ _ _ _ _ _ _ Hnd Hao Ha Hb) as Hb1.
    destruct (out_arg_inv _ _ _ _ _ _ _ _ _ _ _ Ha) as (out & local & v & o' & Hout & _ & Hv & Hob & -> & _ & Hcase).
    destruct (out_args_prefix _ _ _ _ _ _ _ _ _ _ _ Hf) as [qs2 Heq].
    rewrite <- app_assoc in Heq. apply app_inv_head in Heq. cbn in Heq. injection Heq as <- <-.
    assert (copy_body get order args vals a m = Ok m1) as ->.
    { unfold copy_body. rewrite (below_eval _ _ _ _ _ Hb Hout). cbn [mbind res_bind].
      rewrite (proj2 (arg_value_Ok _ _ _) Hv). cbn [mbind res_bind].
      destruct (copy_out get any R (arg_env order args m false) (a_type a) out local w o w1 v
        (default 0 (vals !! a_name a)) m Hb Hob) with (m' := m1) as [x ->]; [| |done].
      - destruct o as [[data plain]|]; [done|by left].
      - destruct o as [[data plain]|]; [|by destruct Hcase].
        destruct Hcase as (_ & old & new & ? & ? & -> & _). by exists old, new. }
    cbn [mbind res_bind]. apply (IH R1 m1 w1 (os ++ [o]) R' m' w' qs'); try done; [intros; apply Hl; by right|].
    by rewrite <- app_assoc.
Qed.

(** ** What is known when the library has returned *)

Lemma still_shared_worker P R order locals m0 m :
  below P R (arg_env order locals m0 true) →
  below any (still_shared locals m R) (arg_env order locals m false).
Proof.
  intros (H1 & _ & _ & H4). split_and!; [done..|]. intros x u Hu. cbn [still_shared e_arg] in Hu.
  apply bind_Some in Hu as (v & Hv & Hu). destruct (H4 x v Hv) as ([_ Hnp] & w & Hw & Hle). cbn in Hw |- *.
  destruct (list_find (λ a, a_name a = x) order) as [[i a]|]; [|done]. cbn in *.
  destruct (locals !! x) as [p|] eqn:Hp; [|done]. cbn in *. injection Hw as <-.
  destruct v as [z| |d|]; [| | |done].
  - injection Hu as <-. split; [done|]. eexists. split; [done|].
    destruct (a_type a); cbn in *; [done|]. exfalso. destruct (p =? NULL); [|destruct (m0 !! p)]; by destruct Hle as [?|(? & ? & ? & _)].
  - injection Hu as <-. split; [done|]. eexists. split; [done|]. destruct (a_type a); cbn in *; [done|].
    destruct (p =? NULL); [done|]. destruct (m0 !! p); by destruct Hle as [?|(? & ? & ? & _)].
  - destruct (m !! p) as [l|] eqn:Hl; [|done]. cbn in Hu. destruct (decide _) as [Ht|]; [|done]. injection Hu as <-.
    split; [done|]. eexists. split; [done|]. destruct (a_type a); cbn in *; [by destruct Hle as [?|(? & ? & ? & ?)]|].
    destruct (p =? NULL); [by destruct Hle as [?|(? & ? & ? & ?)]|]. rewrite Hl. right. exists d, (drop (length d) l).
    split; [done|]. f_equal. rewrite <- Ht at 1. by rewrite take_drop.
Qed.

Lemma still_shared_guest P R order args m locals m' :
  below P R (arg_env order args m true) →
  below any (still_shared locals m' R) (arg_env order args m false).
Proof.
  intros (H1 & _ & _ & H4). split_and!; [done..|]. intros x u Hu. cbn [still_shared e_arg] in Hu.
  apply bind_Some in Hu as (v & Hv & Hu). destruct (H4 x v Hv) as ([_ Hnp] & w & Hw & Hle).
  assert (v = u) as <-.
  { destruct v as [| |d|]; try congruence. apply bind_Some in Hu as (p & _ & Hu).
    apply bind_Some in Hu as (l & _ & Hu). destruct (decide _); congruence. }
  split; [done|]. by exists w.
Qed.

(** ** The RET command *)

Lemma sumZ_filter {X} (sz : X → Z) (f : X → bool) l :
  (∀ x, x ∈ l → f x = false → sz x = 0) → sumZ (sz <$> l) = sumZ (sz <$> filter f l).
Proof.
  induction l as [|x l IH]; intros Hz; [done|]. rewrite filter_cons. destruct (f x) eqn:Hx.
  - rewrite decide_True, !fmap_cons by done. cbn [foldr]. rewrite IH; [done|]. intros; apply Hz; [by right|done].
  - rewrite decide_False, fmap_cons by (by intros []). cbn [foldr]. rewrite IH, Hz; [done|by left|done|].
    intros; apply Hz; [by right|done].
Qed.

Lemma assoc_absent {Y} (d : Y) l ys a : a_name a ∉ a_name <$> l → assoc d l ys a = d.
Proof.
  intros Ha. unfold assoc. rewrite not_elem_of_list_to_map_1; [done|]. contradict Ha. revert ys Ha.
  induction l as [|b l IH]; intros [|y ys] Ha; cbn in *; try by apply not_elem_of_nil in Ha.
  apply elem_of_cons in Ha as [->|Ha]; [by left|]. right. by eapply IH.
Qed.

Lemma ret_arguments_sub order a : a ∈ ret_arguments order ↔ ret_field a = true ∧ a ∈ order.
Proof. unfold ret_arguments. rewrite list_elem_of_filter. by rewrite Is_true_true. Qed.

Lemma ret_arguments_NoDup order : NoDup (a_name <$> order) → NoDup (a_name <$> ret_arguments order).
Proof.
  unfold ret_arguments. induction order as [|a l IH]; intros Hnd; [done|]. rewrite fmap_cons, NoDup_cons in Hnd.
  destruct Hnd as [Ha Hnd]. rewrite filter_cons. destruct (decide _); [|by apply IH]. rewrite fmap_cons. apply NoDup_cons.
  split; [|by apply IH]. contradict Ha. apply list_elem_of_fmap in Ha as (b & -> & Hb).
  apply list_elem_of_filter in Hb as [_ Hb]. by apply list_elem_of_fmap_2.
Qed.

Lemma worker_total bs (order : list argument) locals E wm (qs : list output) : (∀ n, bs n = n) → NoDup (a_name <$> order) →
  (∀ a, a ∈ order → is_false (a_output a) = false → contains_buffer (a_type a) = true) →
  Forall2 (λ a o, ∃ out v, eval E (a_output a) = Ok out ∧ arg_value locals a = Ok v ∧
      ∀ bs, (∀ n, bs n = n) → compute_size bs (negb (out =? 0)) (a_type a) E wm v = Ok (osize o))
    (ret_arguments order) qs →
  sumZ (osize <$> qs) < 2 ^ 64 →
  compute_total_size bs a_output order locals E wm = Ok (sumZ (osize <$> qs)).
Proof.
  intros Hbs Hnd Hout Hqs Hlt. pose proof (ret_arguments_NoDup _ Hnd) as Hnd'.
  set (sz := λ a, osize (assoc None (ret_arguments order) qs a)).
  pose proof (Forall2_length _ _ _ Hqs) as Hlen.
  assert (∀ a, a ∈ order → ret_field a = false → sz a = 0) as Hz.
  { intros a Ha Hr. unfold sz. rewrite assoc_absent; [done|]. intros (b & Hab & Hb)%list_elem_of_fmap.
    apply ret_arguments_sub in Hb as [Hrb Hb]. assert (a = b) as ->; [|congruence].
    destruct (list_find_name order a Hnd Ha) as [i Hi]. destruct (list_find_name order b Hnd Hb) as [j Hj].
    rewrite Hab in Hi. congruence. }
  assert (sumZ (sz <$> order) = sumZ (osize <$> qs)) as Hsum.
  { rewrite (sumZ_filter sz ret_field order Hz). fold (ret_arguments order). f_equal. unfold sz.
    rewrite (list_fmap_compose (assoc None (ret_arguments order) qs) osize). by rewrite assoc_fmap. }
  rewrite <- Hsum. apply compute_total_ok.
  - intros a _. unfold sz. destruct (assoc _ _ _ _) as [[]|]; cbn; lia.
  - intros a Ha Hf. apply Hz; [done|]. unfold ret_field. by rewrite Hf, andb_false_r.
  - intros a Ha Hf.
    assert (a ∈ ret_arguments order) as Har.
    { apply ret_arguments_sub. split; [|done]. unfold ret_field. by rewrite Hf, (Hout a Ha Hf). }
    destruct (assoc_Forall2 None _ _ _ _ Hnd' Hqs Har) as (out & v & ? & ? & Hcs). exists out, v.
    split_and!; [done|done|]. by apply Hcs.
  - by rewrite Hsum.
Qed.

(** The result of the library. *)
Lemma ret_value_mem f R ret w r w' : ret_value f R ret w = Ok (r, w') → w_mem w' = w_mem w.
Proof.
  unfold ret_value. intros Hret. destruct (f_ret f) as [t|]; [|by injection Hret as <- <-].
  apply res_bind_Ok in Hret as (k & _ & Hret). apply res_bind_Ok in Hret as (d & _ & Hret).
  apply res_bind_Ok in Hret as ([v w1] & Hrd & Hret). apply res_bind_Ok in Hret as ([] & _ & [= <- <-]).
  by apply result_default_mem in Hrd as [-> _].
Qed.

Lemma convert_ret `{Channel B} f R E ret w r w' (c : B) cmd :
  (∀ t, f_ret f = Some t → ∃ sz al sg tr dl, t = TVal sz al sg tr dl ∧ (0 < sz)%nat) → below any R E →
  ret_value f R ret w = Ok (r, w') →
  ∃ rf, (match f_ret f with
         | Some t => '(v, st) ← convert_result false t E ret (c, cmd, w); Ok ([(t, v)], st)
         | None => Ok ([], (c, cmd, w))
         end) = Ok (rf, (c, cmd, w')) ∧
    rf.*1 = from_option (λ t, [t]) [] (f_ret f) ∧ rf.*2 = option_list r ∧
    Forall (λ f, decode f.1 (encode f.1 f.2) = f.2) rf.
Proof.
  intros Hty Hb Hret. exists (match f_ret f, r with Some t, Some v => [(t, v)] | _, _ => [] end).
  unfold ret_value in Hret. destruct (f_ret f) as [t|]; [|by injection Hret as <- <-].
  destruct (Hty t eq_refl) as (sz & al & sg & tr & dl & -> & _).
  apply res_bind_Ok in Hret as (k & Hk & Hret). apply res_bind_Ok in Hret as (d & Hd & Hret).
  apply res_bind_Ok in Hret as ([v w1] & Hrd & Hret). apply res_bind_Ok in Hret as ([] & Hc%check_Ok & [= <- <-]).
  apply Z.eqb_eq in Hc. cbn [convert_result snd fst transfer_of deallocates_of] in *.
  rewrite (below_eval _ _ _ _ _ Hb Hk). cbn [mbind res_bind]. rewrite (below_eval _ _ _ _ _ Hb Hd). cbn [mbind res_bind].
  rewrite Hrd. split_and!; [done..|]. by repeat constructor.
Qed.

(** The fields for the outputs are identifiers of buffers. *)
Lemma ret_fields_decode order vs : Forall (λ v, 0 ≤ v < 2 ^ 64) vs →
  length (a_type <$> ret_arguments order) = length vs →
  Forall (λ f, decode f.1 (encode f.1 f.2) = f.2) (zip (a_type <$> ret_arguments order) vs).
Proof.
  intros Hvr Hlen. apply Forall_lookup. intros i [t v] Hi. apply lookup_zip_Some in Hi as [Ht Hv].
  rewrite list_lookup_fmap in Ht. apply fmap_Some in Ht as (b & Hbl & ->). cbn.
  apply list_elem_of_lookup_2, ret_arguments_sub in Hbl as [Hrf _]. unfold ret_field in Hrf.
  destruct (a_type b) eqn:Hty; [done|]. apply decode_encode; [cbn; lia|]. unfold fits, in_range. cbn.
  by apply (Forall_lookup_1 _ _ _ _ Hvr Hv).
Qed.

Section reply.
Context {A B} `{Channel A} `{Channel B} {conn : B → A → Prop} `{!Link B A conn} `{Uninit}.
Variable cb : Z.
Context {G : Type}.
Variable native : list Z → mem → G → Z * mem * G.

(** The command that [call_command_implementation] sends arrives with every output. *)
Lemma worker_replies f order api rcvd (c : B) (a : A) h ha w0 g args mg locals w1 ret m' g' R r w2
    R' mg' w3 os cid fields ci th thread :
  call_ok f order args mg → conn c a →
  header_of rcvd = (api, ci, th, thread) → command_size (cmd_base rcvd) = sizeof_struct (call_types order) →
  unpack 0 (call_types order) (cmd_rest rcvd) = cid :: fields → in_srange 64 cid →
  foldM (λ p st, convert_input_for_argument cb (command_channel_get_buffer c rcvd) order p.1 p.2 st)
    (zip order fields) (∅, w0) = Ok (locals, w1) →
  native ((λ a, default 0 (locals !! a_name a)) <$> f_arguments f) (w_mem w1) g = (ret, m', g') →
  below any R (arg_env order locals m' false) →
  ret_value f R ret (set_w_mem m' w1) = Ok (r, w2) →
  foldM (out_arg args locals) (ret_arguments order) (R, mg, w2, []) = Ok (R', mg', w3, os) →
  sumZ (osize <$> os) < 2 ^ 64 → room (sizeof_struct (ret_types f order)) (sumZ (osize <$> os)) →
  in_range 8 api → in_range 64 (f_ret_id f) → in_srange 64 thread → heap_ok h →
  ∃ c1 c2 a1 reply a2 vs,
    call_command_implementation cb native f order api rcvd c h w0 g =
      Ok (c1, mk_heap (live h) (next_addr h + 1), set_w_mem ∅ w3, g') ∧
    deliver c1 a = (c2, a1) ∧ command_channel_receive_command a1 ha = Ok (Some reply, a2, (malloc ha).2) ∧
    conn c2 a2 ∧ cmd_addr reply = next_addr ha ∧
    api_id (cmd_base reply) = api ∧ command_id (cmd_base reply) = f_ret_id f ∧ thread_id (cmd_base reply) = thread ∧
    command_size (cmd_base reply) = sizeof_struct (ret_types f order) ∧
    unpack 0 (ret_types f order) (cmd_rest reply) = cid :: vs ++ option_list r ∧
    length vs = length (ret_arguments order) ∧
    Forall2 (received (command_channel_get_buffer a2 reply)) os vs.
Proof.
  intros Hok Hconn Hhdr Hsize Hun Hcid Hconv Hnat Hb Hret Houts Hlt Hroom Hapi Hrid Hth Hheap. destruct Hok.
  injection Hhdr as Ha1 Ha2 Ha3 Ha4.
  pose proof (ret_value_mem _ _ _ _ _ _ Hret : w_mem w2 = m') as Hw2.
  destruct (worker_outs args locals order m' a (sizeof_struct (ret_types f order)) co_names (ret_arguments order)
    R mg w2 [] R' mg' w3 os) as (qs & -> & Hlq & Hsz & Hrun); [by intros x [_ ?]%ret_arguments_sub|done|done|done|].
  cbn [app] in *. set (E := arg_env order locals m' false) in *. set (css := sizeof_struct (ret_types f order)) in *.
  pose proof (worker_total (command_channel_buffer_size c) order locals E m' qs (link_size (conn := conn) c)
    co_names co_outputs Hsz Hlt) as Htotal.
  pose proof (osize_nonneg qs) as Hnn.
  assert (Z.of_nat sizeof_command_base ≤ css) as Hcss by (unfold css, sizeof_struct; lia).
  destruct (link_new c a h css (sumZ (osize <$> qs))) as (cmd0 & c0 & Hnew & Hbld & Haddr); [done|done|lia|done|].
  set (hdr := λ b', set_thread_id (original_thread_id (cmd_base rcvd)) (set_command_id (f_ret_id f) (set_api_id api b'))).
  assert (header_update hdr) as Hhu.
  { apply (HComp (set_thread_id _)); [constructor; by rewrite Ha4|]. apply (HComp (set_command_id (f_ret_id f))); by constructor. }
  pose proof (link_header _ _ _ _ _ _ _ Hbld Hhu) as Hbld1.
  destruct (Hrun c0 (upd_base hdr cmd0) ∅ (sumZ (osize <$> qs)) 0%nat Hbld1)
    as (vs & c1 & cmd1 & bufs & Hmap & Hbld2 & _ & Hvr & Hwire & Had & Hhd); [lia|].
  pose proof (Forall2_length _ _ _ Hwire) as Hlv.
  destruct (convert_ret f R E ret (set_w_mem m' w1) r w2 c0 (upd_base hdr cmd0) co_ret Hb Hret)
    as (rf & Hrv & Hrf1 & Hrf2 & Hrf3).
  set (fs := (intptr, cid) :: zip (a_type <$> ret_arguments order) vs ++ rf).
  assert (length (a_type <$> ret_arguments order) = length vs) as Hlt' by (rewrite length_fmap; congruence).
  assert (fs.*1 = ret_types f order) as Hfs1.
  { unfold fs, ret_types. rewrite fmap_cons, fmap_app, fst_zip by lia. by rewrite Hrf1. }
  assert (fs.*2 = cid :: vs ++ option_list r) as Hfs2.
  { unfold fs. rewrite fmap_cons, fmap_app, snd_zip by lia. by rewrite Hrf2. }
  assert (Forall (λ f, decode f.1 (encode f.1 f.2) = f.2) fs) as Hdec.
  { constructor; [by apply decode_encode; [cbn; lia|]|]. apply Forall_app. split; [|done]. by apply ret_fields_decode. }
  destruct (send_fields c1 a (malloc h).2 ha _ css _ _ fs Hbld2)
    as (c2 & c3 & a1 & a2 & reply & Hsend & Hdel & Hrcv & Hcn & Hra & Hh & Hcs & Hur & Hget); [by rewrite Hfs1|done| |].
  { rewrite Had. cbn [upd_base cmd_addr]. rewrite Haddr. cbn. set_solver. }
  rewrite Hhd in Hh. injection Hh as Hr1 Hr2 Hr3 Hr4. rewrite Hfs1, Hfs2 in Hur.
  eexists c2, c3, a1, reply, a2, vs. split_and!; try done.
  - unfold call_command_implementation, call_command_implementation_with. rewrite Ha1, Z.eqb_refl. cbn [c_assert mbind res_bind].
    rewrite Hsize, Z.eqb_refl. cbn [c_assert mbind res_bind]. rewrite Hun. change (drop 1 (cid :: fields)) with fields. rewrite Hconv. cbn [mbind res_bind].
    rewrite Hnat. fold E. rewrite Htotal. cbn [mbind res_bind]. fold css. rewrite Hnew. cbn [mbind res_bind]. fold hdr.
    rewrite Hrv. cbn [mbind res_bind]. unfold out_body in Hmap. rewrite Hmap. cbn [mbind res_bind nth]. fold fs.
    rewrite Hsend. cbn [mbind res_bind set_fields cmd_addr]. rewrite Had. cbn [upd_base cmd_addr]. rewrite Haddr. cbn [malloc snd live next_addr].
    by rewrite live_malloc_free.
  - by rewrite Hr3.
  - congruence.
  - eapply Forall2_impl; [exact Hwire|]. intros o v. destruct o as [[data plain]|]; [|done]. cbn. intros [? Hbuf].
    split; [done|]. by apply Hget.
Qed.

End reply.
