(* ===== verification/RemoteRefinement.v ===== *)
(** * Remote calls refine direct calls: the theorem

    A client of the API is a program that calls functions one after the other and computes in
    between; what it observes when the generated library performs the calls over a channel is
    what it observes when it calls the API directly.  The socket channel is an instance. *)

From S2P Require Import Prelude Channel Socket LogChannel SocketChannel HandlePool Endpoint Cava Stub Remote RemoteCall.
Local Open Scope Z_scope.

(** ** Dispatching *)

Definition ids_ok (functions callbacks : list func) : Prop :=
  NoDup ((f_call_id <$> functions ++ callbacks) ++ (f_ret_id <$> functions ++ callbacks)).

Lemma list_find_id {X} (id : X → Z) (l : list X) x :
  NoDup (id <$> l) → x ∈ l → ∃ i, list_find (λ y, id y = id x) l = Some (i, x).
Proof.
  induction l as [|y l IH]; intros Hnd Hx; [by apply not_elem_of_nil in Hx|].
  cbn. rewrite fmap_cons in Hnd. apply NoDup_cons in Hnd as [Hy Hnd]. destruct (decide (id y = id x)) as [Heq|Hne].
  - apply elem_of_cons in Hx as [->|Hx]; [by eexists|]. exfalso. apply Hy. rewrite Heq. by apply list_elem_of_fmap_2.
  - apply elem_of_cons in Hx as [->|Hx]; [done|]. destruct (IH Hnd Hx) as [i ->]. by eexists.
Qed.

Lemma list_find_no_id {X} (id : X → Z) (l : list X) z : z ∉ id <$> l → list_find (λ y, id y = z) l = None.
Proof.
  intros Hz. apply list_find_None, Forall_forall. intros y Hy <-. apply Hz. by apply list_elem_of_fmap_2.
Qed.

Lemma handle_case_call functions callbacks f : ids_ok functions callbacks → f ∈ functions →
  handle_case functions callbacks (f_call_id f) = Ok (CaseCall f).
Proof.
  unfold ids_ok. rewrite !fmap_app. intros ((Hnd & _ & _)%NoDup_app & Hdis & _)%NoDup_app Hf. unfold handle_case.
  destruct (list_find_id f_call_id functions f Hnd Hf) as [i ->].
  rewrite list_find_no_id; [done|]. intros Hin. apply (Hdis (f_call_id f)); rewrite elem_of_app; [|by right].
  left. by apply list_elem_of_fmap_2.
Qed.

Lemma handle_case_ret functions callbacks f : ids_ok functions callbacks → f ∈ functions →
  handle_case callbacks functions (f_ret_id f) = Ok (CaseRet f).
Proof.
  unfold ids_ok. rewrite !fmap_app. intros (_ & _ & (Hnd & _ & _)%NoDup_app)%NoDup_app Hf. unfold handle_case.
  by destruct (list_find_id f_ret_id functions f Hnd Hf) as [i ->].
Qed.

(** ** States between calls *)

(** The guest's heap and call table, with [n] call identifiers left. *)
Record guest_ok {A} (n : nat) (g : guest A) : Prop := {
  go_heap : heap_ok (g_heap g) ∧ 0 < next_addr (g_heap g);
  go_records : ∀ p, is_Some (g_records g !! p) → p ∈ live (g_heap g);
  go_calls : ∀ id, is_Some (call_map (g_endpoint g) !! id) → id < call_counter (g_endpoint g);
  go_counter : 0 ≤ call_counter (g_endpoint g) ∧ call_counter (g_endpoint g) + Z.of_nat n < 2 ^ 63
}.

Definition worker_ok (w : wstate) : Prop := 0 < w_next w ∧ w_mem w = ∅.

Lemma worker_w_ok w : worker_ok w → w_ok w.
Proof. intros [Hn Hm]. split; [done|]. intros p l. by rewrite Hm, lookup_empty. Qed.

Lemma out_args_next args locals l : ∀ R m w os R' m' w' os',
  foldM (out_arg args locals) l (R, m, w, os) = Ok (R', m', w', os') → w_next w' = w_next w.
Proof.
  induction l as [|a l IH]; intros R m w os R' m' w' os' Hf; [by injection Hf as _ _ <- _|].
  cbn [foldM] in Hf. apply res_bind_Ok in Hf as ([[[R1 m1] w1] os1] & Ha & Hf). rewrite (IH _ _ _ _ _ _ _ _ Hf).
  destruct (out_arg_inv _ _ _ _ _ _ _ _ _ _ _ Ha) as (out & local & v & o & _ & _ & _ & Hob & _).
  destruct o as [[data plain]|]; [|by destruct (output_bytes_None _ _ _ _ _ _ Hob) as [-> _]].
  destruct (output_bytes_Some _ _ _ _ _ _ _ _ Hob) as (tr & buf & dl & sz & al & sg & etr & edl & n & l0 & _ & _ & _ &
    _ & _ & _ & _ & _ & _ & _ & _ & _ & _ & _ & _ & Hplain). destruct plain; [by destruct Hplain as [_ ->]|].
  destruct Hplain as (vs & ids & _ & _ & _ & Hm). clear -Hm. revert Hm. generalize 0%nat. revert w ids.
  induction vs as [|x vs IH]; intros w ids i Hm; [by injection Hm as _ <-|].
  apply mapS_Ok in Hm as (y & w2 & ys & Hy & Hm & ->). apply res_bind_Ok in Hy as (k & _ & Hy).
  apply res_bind_Ok in Hy as (d & _ & Hy). apply result_default_mem in Hy as [_ <-]. by eapply IH.
Qed.

Lemma ret_value_next f R ret w r w' : ret_value f R ret w = Ok (r, w') → w_next w' = w_next w.
Proof.
  unfold ret_value. intros Hr. destruct (f_ret f) as [t|]; [|by injection Hr as _ <-].
  apply res_bind_Ok in Hr as (k & _ & Hr). apply res_bind_Ok in Hr as (d & _ & Hr).
  apply res_bind_Ok in Hr as ([v w1] & Hrd & Hr). apply res_bind_Ok in Hr as ([] & _ & [= _ <-]).
  by apply result_default_mem in Hrd as [_ ->].
Qed.

Lemma remove_call_eq e id p :
  call_map e !! id = Some p → p ≠ NULL →
  ava_remove_call e id = Ok (p, set_calls (delete id (call_map e)) (call_counter e) e).
Proof.
  intros Hl Hp. unfold ava_remove_call, nw_hash_table_steal_value, ght_lookup, ght_remove. rewrite Hl. cbn.
  unfold Datatypes.id. rewrite (proj2 (Z.eqb_neq p NULL)) by done. cbn. by rewrite (proj2 (Z.eqb_neq p NULL)).
Qed.

(** The steps of a direct call, with what they compute. *)
Section trace.
Context `{Uninit}.
Variable cb : Z.
Context {G : Type}.
Variable native : func → list Z → mem → G → Z * mem * G.

Inductive traced (f : func) (order : list argument) (args : gmap string Z) (m : mem) (w : wstate) (s : G)
    (r : option Z) (m' : mem) (w' : wstate) (s' : G) (R : env) (ps : list (env * msg)) (async : Z)
    (locals : gmap string Z) (m1 : mem) (w2 : wstate) (r0 : option Z) (os : list output) : Prop :=
  | Traced w1 rv R' w3 :
      foldM (plan_arg m args) order (no_env true, []) = Ok (R, ps) →
      eval (arg_env order args m true) (f_async f) = Ok async →
      foldM (realise_arg cb) (zip order ps) (∅, w) = Ok (locals, w1) →
      native f ((λ a, default 0 (locals !! a_name a)) <$> f_arguments f) (w_mem w1) s = (rv, m1, s') →
      ret_value f (still_shared locals m1 R) rv (set_w_mem m1 w1) = Ok (r0, w2) →
      foldM (out_arg args locals) (ret_arguments order) (still_shared locals m1 R, m, w2, []) = Ok (R', m', w3, os) →
      (if async =? 0 then Ok r0 else forge_success f) = Ok r → w' = set_w_mem ∅ w3 →
      traced f order args m w s r m' w' s' R ps async locals m1 w2 r0 os.

Lemma direct_call_traced f order args m w s r m' w' s' sent returned :
  direct_call cb (native f) f order args m w s = Ok (r, m', w', s', (sent, returned)) →
  ∃ R ps async locals m1 w2 r0 os,
    traced f order args m w s r m' w' s' R ps async locals m1 w2 r0 os ∧
    sent = msizes order ps ∧ returned = sumZ (osize <$> os) ∧ sent < 2 ^ 64 ∧ returned < 2 ^ 64.
Proof.
  unfold direct_call. intros Hdir.
  apply res_bind_Ok in Hdir as ([R ps] & Hplan & Hdir). apply res_bind_Ok in Hdir as (async & Hasync & Hdir).
  apply res_bind_Ok in Hdir as ([locals w1] & Hreal & Hdir).
  destruct (native f _ (w_mem w1) s) as [[rv m1] s1] eqn:Hnat.
  apply res_bind_Ok in Hdir as ([r0 w2] & Hret & Hdir).
  apply res_bind_Ok in Hdir as ([[[R' mg] w3] os] & Houts & Hdir).
  apply res_bind_Ok in Hdir as ([] & Hchk%check_Ok & Hdir). apply andb_true_iff in Hchk as [Hc1%Z.ltb_lt Hc2%Z.ltb_lt].
  apply res_bind_Ok in Hdir as (r1 & Hforge & [= <- <- <- <- <- <-]).
  exists R, ps, async, locals, m1, w2, r0, os. split_and!; try done. by eapply Traced.
Qed.
End trace.

(** A CALL command with what was planned for the arguments, and a RET command with the outputs;
    [get] finds the buffers. *)
Definition carries_call (get : Z → option (list Z)) (api : Z) (f : func) (order : list argument)
    (ps : list (env * msg)) (cid : Z) (call : command) : Prop :=
  api_id (cmd_base call) = api ∧ command_id (cmd_base call) = f_call_id f ∧
  command_size (cmd_base call) = sizeof_struct (call_types order) ∧
  ∃ bufs fields, unpack 0 (call_types order) (cmd_rest call) = cid :: fields ∧
    Forall2 (λ ap v, carries bufs (a_type ap.1) ap.2.2 v) (zip order ps) fields ∧
    ∀ id d, bufs !! id = Some d → ∃ tail, get id = Some (d ++ tail).

Definition carries_reply (get : Z → option (list Z)) (api : Z) (f : func) (order : list argument)
    (os : list output) (r : option Z) (cid : Z) (ret : command) : Prop :=
  api_id (cmd_base ret) = api ∧ command_id (cmd_base ret) = f_ret_id f ∧
  command_size (cmd_base ret) = sizeof_struct (ret_types f order) ∧
  ∃ vs, unpack 0 (ret_types f order) (cmd_rest ret) = cid :: vs ++ option_list r ∧
    length vs = length (ret_arguments order) ∧ Forall2 (received get) os vs.

Section returning.
Context `{Channel A}.

(** The reply is copied into the caller's memory. *)
Lemma guest_returns f order api reply (g : guest A) args locals R w os R' m' w' vs r cid record dealloc :
  NoDup (a_name <$> order) → api_id (cmd_base reply) = api →
  command_size (cmd_base reply) = sizeof_struct (ret_types f order) →
  unpack 0 (ret_types f order) (cmd_rest reply) = cid :: vs ++ option_list r →
  is_Some (f_ret f) ↔ is_Some r →
  length vs = length (ret_arguments order) →
  Forall2 (received (command_channel_get_buffer (g_chan g) reply)) os vs →
  below any R (arg_env order args (g_mem g) false) →
  foldM (out_arg args locals) (ret_arguments order) (R, g_mem g, w, []) = Ok (R', m', w', os) →
  call_map (g_endpoint g) !! cid = Some record → record ≠ NULL →
  g_records g !! record = Some (mk_record args None dealloc false) → record ∈ live (g_heap g) →
  return_command_implementation f order api reply g = Ok (
    let ep := set_calls (delete cid (call_map (g_endpoint g))) (call_counter (g_endpoint g)) (g_endpoint g) in
    if dealloc
    then mk_guest (g_chan g) (mk_heap (live (g_heap g) ∖ {[record]}) (next_addr (g_heap g))) m' ep
           (delete record (g_records g))
    else mk_guest (g_chan g) (g_heap g) m' ep (<[record := mk_record args r dealloc true]> (g_records g))).
Proof.
  intros Hnd Hapi Hsize Hun Hret Hlv Hrec Hb Houts Hcall Hnn Hr Hlive. unfold return_command_implementation.
  rewrite Hapi, Z.eqb_refl. cbn [c_assert mbind res_bind]. rewrite Hsize, Z.eqb_refl. cbn [c_assert mbind res_bind].
  rewrite Hun. cbn [nth]. rewrite (remove_call_eq _ _ _ Hcall Hnn). cbn [mbind res_bind]. rewrite Hr.
  change (drop 1 (cid :: vs ++ option_list r)) with (vs ++ option_list r).
  assert (zip (a_name <$> ret_arguments order) (vs ++ option_list r) = zip (a_name <$> ret_arguments order) vs) as ->.
  { rewrite <- (app_nil_r (a_name <$> ret_arguments order)) at 1. rewrite zip_with_app by (by rewrite length_fmap).
    cbn. by rewrite app_nil_r. }
  cbn [cr_args cr_handler_deallocate].
  pose proof (guest_outs (command_channel_get_buffer (g_chan g) reply) order args locals
    (list_to_map (zip (a_name <$> ret_arguments order) vs)) Hnd (ret_arguments order) R (g_mem g) w [] R' m' w' os) as Hg.
  unfold copy_body in Hg. rewrite Hg; [|by intros x [_ ?]%ret_arguments_sub|done|done|].
  - cbn [mbind res_bind].
    assert (match f_ret f with Some _ => Some (nth (length (ret_arguments order)) (vs ++ option_list r) 0)
            | None => None end = r) as ->.
    { rewrite <- Hlv, app_nth2, Nat.sub_diag by lia. destruct (f_ret f), r; try done; naive_solver. }
    destruct dealloc; [|done]. unfold c_free. rewrite decide_True by done. done.
  - pose proof (ret_arguments_NoDup _ Hnd) as Hnd'. rewrite <- (assoc_fmap 0 (ret_arguments order) vs Hnd' Hlv) in Hrec.
    apply Forall2_flip in Hrec. exact (proj1 (Forall2_fmap_l _ _ _ _) Hrec).
Qed.

End returning.

Lemma ret_value_Some f R ret w r w' : ret_value f R ret w = Ok (r, w') → is_Some (f_ret f) ↔ is_Some r.
Proof.
  unfold ret_value. intros Hr. destruct (f_ret f) as [t|]; [|by injection Hr as <- <-].
  apply res_bind_Ok in Hr as (k & _ & Hr). apply res_bind_Ok in Hr as (d & _ & Hr).
  apply res_bind_Ok in Hr as ([v w1] & Hrd & Hr). apply res_bind_Ok in Hr as ([] & _ & [= <- _]). done.
Qed.

Lemma c_free_Ok x h : x ∈ live h → c_free x h = Ok (mk_heap (live h ∖ {[x]}) (next_addr h)).
Proof. intros Hx. unfold c_free. by rewrite decide_True. Qed.

Lemma free_both (L : gset Z) x y : x ∉ L → y ∉ L → x ≠ y →
  ({[y]} ∪ ({[x]} ∪ L)) ∖ {[y]} ∖ {[x]} = L ∧ ({[y]} ∪ ({[x]} ∪ L)) ∖ {[x]} ∖ {[y]} = L.
Proof. intros Hx Hy Hne. split; set_solver. Qed.

(** ** One call *)

Section calls.
Context {A B} `{Channel A} `{Channel B} {conn : A → B → Prop} `{!Link A B conn} `{!Link B A (flip conn)}.
Context `{Toposort, Uninit}.
Variable cb : Z.
Context {G : Type}.
Variable native : func → list Z → mem → G → Z * mem * G.
Variables (api : Z) (functions callbacks : list func).
Hypothesis Hids : ids_ok functions callbacks.
Hypothesis Hapi : in_range 8 api.

Definition room_call : Z → Z → Prop := room (A := A) (B := B) (conn := conn).
Definition room_ret : Z → Z → Prop := room (A := B) (B := A) (conn := flip conn).

(** A call that can be made: its annotations determine what is transferred, its identifiers and
    the thread have the width of their fields, and the commands fit the channel. *)
Inductive direct_step (f : func) (thread : Z) (args : gmap string Z) (m : mem) (w : wstate) (s : G)
    (r : option Z) (m' : mem) (w' : wstate) (s' : G) : Prop :=
  | DirectStep order sent returned :
      f ∈ functions → toposort_flatten (f_arguments f) = Some order → call_ok f order args m →
      in_range 64 (f_call_id f) → in_range 64 (f_ret_id f) → in_srange 64 thread →
      direct_call cb (native f) f order args m w s = Ok (r, m', w', s', (sent, returned)) →
      room_call (sizeof_struct (call_types order)) sent →
      room_ret (sizeof_struct (ret_types f order)) returned →
      direct_step f thread args m w s r m' w' s'.

Abbreviation call := (remote_call cb native api functions callbacks (deliver (conn := conn)) (deliver (conn := flip conn))).

(** The worker handles a CALL command; the command and the reply are freed. *)
Lemma worker_handles f order (b1 b2 c : B) h cmd w s w' s' :
  f ∈ functions → ordered f = order → heap_ok h →
  command_channel_receive_command b1 h = Ok (Some cmd, b2, (malloc h).2) →
  cmd_addr cmd = next_addr h → command_id (cmd_base cmd) = f_call_id f →
  call_command_implementation cb (native f) f order api cmd b2 (malloc h).2 w s =
    Ok (c, mk_heap (live (malloc h).2) (next_addr (malloc h).2 + 1), w', s') →
  worker_handle cb native api functions callbacks b1 h w s =
    Ok (c, mk_heap (live h) (next_addr h + 2), w', s').
Proof.
  intros Hf Hord Hh Hrcv Ha Hid Hcall. unfold worker_handle. rewrite Hrcv. cbn [mbind res_bind pending]. rewrite Hid.
  rewrite (handle_case_call _ _ _ Hids Hf). cbn [mbind res_bind]. rewrite Hord, Hcall. cbn [mbind res_bind].
  rewrite (link_free (conn := conn)), Ha, c_free_Ok by set_solver +. cbn [live next_addr malloc snd mbind res_bind].
  rewrite live_malloc_free by done. by replace (next_addr h + 1 + 1) with (next_addr h + 2) by lia.
Qed.

(** The guest handles the reply and the stub of a synchronous function returns; the command and the
    record are freed. *)
Lemma guest_answers f order (g : guest A) (a : A) reply cid record args (cm : gmap Z Z)
    (recs : gmap Z call_record) (L : gset Z) r m :
  let h := g_heap g in
  f ∈ functions → ordered f = order →
  command_channel_receive_command (g_chan g) h = Ok (Some reply, a, (malloc h).2) →
  cmd_addr reply = next_addr h → command_id (cmd_base reply) = f_ret_id f →
  return_command_implementation f order api reply (set_chan a (malloc h).2 g) = Ok (
    let ep := set_calls (delete cid (call_map (g_endpoint g))) (call_counter (g_endpoint g)) (g_endpoint g) in
    mk_guest a (malloc h).2 m ep (<[record := mk_record args r false true]> (g_records g))) →
  call_map (g_endpoint g) = <[cid := record]> cm → cm !! cid = None →
  g_records g = <[record := mk_record args None false false]> recs → recs !! record = None →
  live h = {[record]} ∪ L → record ∉ L → next_addr h ∉ L → record ≠ next_addr h →
  (g1 ← handle_until api functions callbacks (size (call_map (g_endpoint g))) record g; await_return record g1) =
    Ok (r, mk_guest a (mk_heap L (next_addr h + 1)) m (set_calls cm (call_counter (g_endpoint g)) (g_endpoint g)) recs).
Proof.
  intros h Hf Hord Hrcv Ha Hid Hret Hcm Hcid Hrecs Hrec Hlive HL Hn Hne.
  destruct (free_both L record (next_addr h) HL Hn Hne) as [Hb1 _].
  assert (size (call_map (g_endpoint g)) = S (size cm)) as -> by (rewrite Hcm; by apply map_size_insert_None).
  cbn [handle_until]. rewrite Hrecs at 1. rewrite lookup_insert_eq. cbn [cr_call_complete].
  unfold guest_handle. fold h. rewrite Hrcv. cbn [mbind res_bind pending]. rewrite Hid.
  rewrite (handle_case_ret _ _ _ Hids Hf). cbn [mbind res_bind]. rewrite Hord, Hret. cbn [mbind res_bind].
  rewrite (link_free (conn := flip conn)), Ha, Hcm, Hrecs. cbn [g_heap g_chan g_mem g_endpoint g_records].
  rewrite c_free_Ok by set_solver +. cbn [mbind res_bind].
  assert (∀ n g1, (match g_records g1 !! record with Some r => cr_call_complete r | None => false end) = true →
    handle_until (A := A) api functions callbacks n record g1 = Ok g1) as Hdone by (intros [|n] g1 Hg1; cbn [handle_until]; by rewrite Hg1).
  rewrite Hdone by (cbn [set_chan g_records]; by rewrite lookup_insert_eq). cbn [mbind res_bind].
  unfold await_return. cbn [set_chan g_records g_heap g_chan g_mem g_endpoint mbind res_bind live malloc snd next_addr].
  rewrite lookup_insert_eq. cbn [cr_call_complete cr_ret].
  rewrite c_free_Ok by (cbn; rewrite Hlive; set_solver by lia). cbn [mbind res_bind live next_addr].
  by rewrite Hlive, Hb1, insert_insert_eq, !delete_insert_eq, !delete_id.
Qed.

(** The state of the guest after the stub has sent the command. *)
Definition sent_guest (ch : A) (h : heap) (args : gmap string Z) (async : Z) (g : guest A) : guest A :=
  let cid := call_counter (g_endpoint g) in
  let record := next_addr (g_heap g) + 1 in
  mk_guest ch h (g_mem g)
    (set_calls (<[cid := record]> (call_map (g_endpoint g))) (signed 64 (cid + 1)) (g_endpoint g))
    (<[record := mk_record args None (negb (async =? 0)) false]> (g_records g)).

(** The two commands of a call: the stub sends the first, the worker receives it and sends the
    second, the guest receives that. *)
Lemma exchange f thread args (g : guest A) (b : B) h w s r m' w' s' n :
  direct_step f thread args (g_mem g) w s r m' w' s' →
  conn (g_chan g) b → guest_ok (S n) g → heap_ok h → worker_ok w →
  ∃ order R ps async locals m1 w2 r0 os,
    f ∈ functions ∧ toposort_flatten (f_arguments f) = Some order ∧ call_ok f order args (g_mem g) ∧
    traced cb native f order args (g_mem g) w s r m' w' s' R ps async locals m1 w2 r0 os ∧
    below any (still_shared locals m1 R) (arg_env order args (g_mem g) false) ∧ worker_ok w' ∧
  ∃ ch1 h1 ch2 b1 call b2 c1 c2 a1 ret a2,
    let cid := call_counter (g_endpoint g) in
    let record := next_addr (g_heap g) + 1 in
    function_implementation f order api thread args g = Ok (cid, record, sent_guest ch1 h1 args async g) ∧
    deliver ch1 b = (ch2, b1) ∧ command_channel_receive_command b1 h = Ok (Some call, b2, (malloc h).2) ∧
    cmd_addr call = next_addr h ∧ live h1 = {[record]} ∪ live (g_heap g) ∧ next_addr h1 = next_addr (g_heap g) + 2 ∧
    carries_call (command_channel_get_buffer b2 call) api f order ps cid call ∧
    call_command_implementation cb (native f) f order api call b2 (malloc h).2 w s =
      Ok (c1, mk_heap (live (malloc h).2) (next_addr (malloc h).2 + 1), w', s') ∧
    deliver c1 ch2 = (c2, a1) ∧ command_channel_receive_command a1 h1 = Ok (Some ret, a2, (malloc h1).2) ∧
    conn a2 c2 ∧ cmd_addr ret = next_addr h1 ∧
    carries_reply (command_channel_get_buffer a2 ret) api f order os r0 cid ret.
Proof.
  intros [order sent returned Hf Htopo Hok Hcid Hrid Hth Hdir Hroom1 Hroom2] Hconn [[Hheap Hpos] Hrecs Hcalls Hctr] Hh Hw.
  pose proof Hok as [Hnd _ _ _ _ _ _]. destruct (direct_call_traced _ _ _ _ _ _ _ _ _ _ _ _ _ _ Hdir)
    as (R & ps & async & locals & m1 & w2 & r0 & os & Htr & -> & -> & Hc1 & Hc2).
  pose proof Htr as [w1 rv R' w3 Hplan Hasync Hreal Hnat Hret Houts Hforge ->].
  set (cid := call_counter (g_endpoint g)) in *.
  assert (in_srange 64 cid) as Hcid' by (unfold in_srange; lia).
  assert (call_map (g_endpoint g) !! cid = None) as Hfree.
  { destruct (call_map (g_endpoint g) !! cid) eqn:Hm; [|done]. specialize (Hcalls cid ltac:(by rewrite Hm)). lia. }
  destruct (guest_sends f order api thread args g b h R ps async Hok Hconn Hplan Hasync Hc1 Hroom1 Hapi Hcid Hth Hcid' Hfree Hheap)
    as (ch1 & h1 & ch2 & b1 & call & b2 & bufs & fields & Hfun & Hdel & Hrcv & Hcn & Hra & Hl1 & Hn1 & Hhdr & Hsize & Hun & Hca & Hpl & Hget).
  destruct (plan_args_spec (g_mem g) args order Hnd order (λ _, False) (no_env true) [] R ps)
    as (qs & Hqs & _ & Pg & HbG); [done|by split_and!|done|]. cbn [app] in Hqs. subst qs.
  destruct (convert_args cb (g_mem g) args order (command_channel_get_buffer b2 call) bufs Hnd Hget order ps fields
    (λ _, False) (no_env true) R [] ∅ w locals w1 Hnd) as (Hconv & Hw1 & (Pw & HbW) & _); try done.
  { intros a Ha. split; [done|tauto]. } { by apply worker_w_ok. } { symmetry. by eapply Forall2_length. }
  pose proof (worker_replies (conn := flip conn) cb (native f) f order api call b2 ch2 (malloc h).2 h1 w s args (g_mem g) locals w1 rv m1 s'
    (still_shared locals m1 R) r0 w2 R' m' w3 os cid fields _ _ thread Hok Hcn Hhdr Hsize Hun Hcid' Hconv Hnat
    (still_shared_worker _ _ _ _ _ _ HbW) Hret Houts Hc2 Hroom2 Hapi Hrid Hth (heap_ok_malloc _ Hh))
    as (c1 & c2 & a1 & ret & a2 & vs & Hcall & Hdel2 & Hrcv2 & Hcn2 & Hra2 & Hra' & Hrid' & Hrth & Hrs & Hrun & Hlv & Hrec).
  injection Hhdr as Hapi' Hci _ _.
  exists order, R, ps, async, locals, m1, w2, r0, os. split_and!; try done.
  - by eapply still_shared_guest.
  - split; [|done]. cbn. rewrite (out_args_next _ _ _ _ _ _ _ _ _ _ _ Houts), (ret_value_next _ _ _ _ _ _ Hret).
    cbn. by destruct Hw1.
  - exists ch1, h1, ch2, b1, call, b2, c1, c2, a1, ret, a2. split_and!; try done.
    + split_and!; try done. by exists bufs, fields.
    + split_and!; try done. by exists vs.
Qed.

(** The caller waits for the call. *)
Definition synchronous (f : func) (args : gmap string Z) (m : mem) : Prop :=
  eval (arg_env (ordered f) args m true) (f_async f) = Ok 0.

Lemma remote_step f thread args (g : guest A) (b : B) h w s r m' w' s' n :
  direct_step f thread args (g_mem g) w s r m' w' s' → synchronous f args (g_mem g) →
  conn (g_chan g) b → guest_ok (S n) g → heap_ok h → worker_ok w →
  ∃ g' b' h', call f thread args g b h w s = Ok (r, g', (b', h', w', s')) ∧
    g_mem g' = m' ∧ conn (g_chan g') b' ∧ guest_ok n g' ∧ heap_ok h' ∧ worker_ok w' ∧
    g_records g' = g_records g ∧ call_map (g_endpoint g') = call_map (g_endpoint g) ∧
    live (g_heap g') = live (g_heap g) ∧ live h' = live h.
Proof.
  intros Hstep Hsync Hconn Hg Hh Hw.
  destruct (exchange _ _ _ _ _ _ _ _ _ _ _ _ _ Hstep Hconn Hg Hh Hw) as
    (order & R & ps & async & locals & m1 & w2 & r0 & os & Hf & Htopo & [Hnd _ _ _ _ _ _] & [w1 rv R' w3 _ Hasync _ _ Hret Houts Hforge Hw'] & HbG & Hw3 &
     ch1 & h1 & ch2 & b1 & cmd & b2 & c1 & c2 & a1 & reply & a2 & Hfun & Hdel & Hrcv & Hra & Hl1 & Hn1 & (_ & Hci & _) & Hcall &
     Hdel2 & Hrcv2 & Hcn2 & Hra2 & Hra' & Hrid' & Hrs & vs & Hrun & Hlv & Hrec).
  destruct Hg as [[Hheap Hpos] Hrecs Hcalls Hctr].
  set (cid := call_counter (g_endpoint g)) in *. set (record := next_addr (g_heap g) + 1) in *.
  assert (call_map (g_endpoint g) !! cid = None) as Hfree.
  { destruct (call_map (g_endpoint g) !! cid) eqn:Hm; [|done]. specialize (Hcalls cid ltac:(by rewrite Hm)). lia. }
  assert (record ∉ live (g_heap g) ∧ next_addr h1 ∉ live (g_heap g)) as [Hr1 Hr2].
  { split; apply heap_ok_fresh; [done| |done|]; unfold record; lia. }
  assert (g_records g !! record = None) as Hfree2.
  { destruct (g_records g !! record) eqn:Hm; [|done]. by specialize (Hrecs record ltac:(by rewrite Hm)). }
  set (g1 := sent_guest ch1 h1 args async g) in *.
  pose proof (guest_returns f order api reply (set_chan a2 (malloc h1).2 g1) args locals (still_shared locals m1 R) w2 os R' m' w3
    vs r0 cid record (negb (async =? 0)) Hnd Hra' Hrs Hrun (ret_value_Some _ _ _ _ _ _ Hret) Hlv Hrec HbG Houts
    (lookup_insert_eq _ _ _) ltac:(unfold record, NULL; lia) (lookup_insert_eq _ _ _) ltac:(cbn; rewrite Hl1; set_solver +)) as Hgr.
  assert (ordered f = order) as Hord by (unfold ordered; by rewrite Htopo).
  unfold synchronous in Hsync. rewrite Hord, Hasync in Hsync. injection Hsync as ->. cbn [Z.eqb negb] in *. injection Hforge as ->.
  assert (signed 64 (cid + 1) = cid + 1) as Hs by (apply signed_small; lia).
  pose proof (worker_handles f order b1 b2 c1 h cmd w s _ _ Hf Hord Hh Hrcv Hra Hci Hcall) as Hworker.
  pose proof (guest_answers f order (set_chan a1 h1 g1) a2 reply cid record args (call_map (g_endpoint g)) (g_records g)
    (live (g_heap g)) r m' Hf Hord Hrcv2 Hra2 Hrid' Hgr eq_refl Hfree eq_refl Hfree2 Hl1 Hr1 Hr2 ltac:(unfold record; cbn; lia)) as Hret3.
  exists (mk_guest a2 (mk_heap (live (g_heap g)) (next_addr (g_heap g) + 3)) m'
    (set_calls (call_map (g_endpoint g)) (cid + 1) (g_endpoint g)) (g_records g)), c2, (mk_heap (live h) (next_addr h + 2)).
  cbn [g_mem g_chan g_records g_endpoint g_heap live call_map set_calls]. split_and!; try done.
  - unfold remote_call. rewrite Hord, Hasync. cbn [mbind res_bind]. rewrite Hfun. cbn [mbind res_bind].
    change (g_chan g1) with ch1. rewrite Hdel, Hworker. cbn [mbind res_bind]. rewrite Hdel2. change (g_heap g1) with h1.
    cbn [Z.eqb]. rewrite Hret3. cbn [mbind res_bind set_chan g_heap g_endpoint call_counter set_calls g1 sent_guest].
    fold cid. rewrite Hn1, Hs. by replace (next_addr (g_heap g) + 2 + 1) with (next_addr (g_heap g) + 3) by lia.
  - split; cbn; try done.
    + split; [|lia]. intros y Hy. specialize (Hheap y Hy). cbn. lia.
    + intros id Hid. specialize (Hcalls id Hid). unfold cid. lia.
    + unfold cid in *. lia.
  - intros y Hy. specialize (Hh y Hy). cbn. lia.
Qed.

(** ** Clients *)

(** A program that uses the API: between calls it computes and changes its memory. *)
Inductive client :=
  | Done (result : Z)
  | Call (f : func) (thread : Z) (args : gmap string Z) (k : option Z → mem → mem * client).

(** Its run with direct calls, with the number of calls; and with the generated library. *)
Inductive direct_run : client → mem → wstate → G → nat → Z → mem → wstate → G → Prop :=
  | RunDone r m w s : direct_run (Done r) m w s 0 r m w s
  | RunCall f thread args k m w s r m1 w1 s1 m2 c n result m3 w3 s3 :
      direct_step f thread args m w s r m1 w1 s1 → synchronous f args m → k r m1 = (m2, c) →
      direct_run c m2 w1 s1 n result m3 w3 s3 →
      direct_run (Call f thread args k) m w s (S n) result m3 w3 s3.

Definition set_mem (m : mem) (g : guest A) : guest A :=
  mk_guest (g_chan g) (g_heap g) m (g_endpoint g) (g_records g).

Fixpoint remote_run (p : client) (g : guest A) (c : B) (h : heap) (w : wstate) (s : G)
    : res (Z * guest A * (B * heap * wstate * G)) :=
  match p with
  | Done r => Ok (r, g, (c, h, w, s))
  | Call f thread args k =>
      '(r, g, (c, h, w, s)) ← call f thread args g c h w s;
      let '(m, p) := k r (g_mem g) in
      remote_run p (set_mem m g) c h w s
  end.

Lemma remote_run_direct p m w s n r m' w' s' :
  direct_run p m w s n r m' w' s' → ∀ (g : guest A) (b : B) h,
  g_mem g = m → conn (g_chan g) b → guest_ok n g → heap_ok h → worker_ok w →
  ∃ g' b' h', remote_run p g b h w s = Ok (r, g', (b', h', w', s')) ∧
    g_mem g' = m' ∧ conn (g_chan g') b' ∧
    g_records g' = g_records g ∧ call_map (g_endpoint g') = call_map (g_endpoint g) ∧
    live (g_heap g') = live (g_heap g) ∧ live h' = live h.
Proof.
  induction 1 as [r m w s|f thread args k m w s r m1 w1 s1 m2 c n result m3 w3 s3 Hstep Hsync Hk _ IH];
    intros g b h Hm Hconn Hg Hh Hw; [by exists g, b, h|].
  subst m. destruct (remote_step _ _ _ _ _ _ _ _ _ _ _ _ _ Hstep Hsync Hconn Hg Hh Hw)
    as (g1 & b1 & h1 & Hcall & Hm1 & Hconn1 & Hg1 & Hh1 & Hw1 & Hr1 & Hc1 & Hl1 & Hlh1).
  destruct (IH (set_mem m2 g1) b1 h1) as (g2 & b2 & h2 & Hrun & Hm2 & Hconn2 & Hr2 & Hc2 & Hl2 & Hlh2); try done.
  { by destruct Hg1. }
  exists g2, b2, h2. cbn [set_mem g_records g_endpoint g_heap] in *. split_and!; try congruence.
  cbn [remote_run]. rewrite Hcall. cbn [mbind res_bind]. by rewrite Hm1, Hk.
Qed.

End calls.
