(* ===== verification/RemoteSocket.v ===== *)
(** * Remote calls over sockets

    The socket channel keeps what [Link] promises, in both directions, when the kernel's sends
    and receives make progress; with it the refinement theorem for a client of the API. *)

From S2P Require Import Prelude Channel Socket LogChannel ShmChannel SocketChannel HandlePool Endpoint Cava Stub Remote RemoteCall RemoteRefinement.
Local Open Scope Z_scope.

Section link.
Context `{SocketKernel, Uninit}.

Definition idle (c : command_channel_socket) : Prop :=
  s_in (cs_sock c) = [] ∧ s_out (cs_sock c) = [].
Definition sock_conn (a b : command_channel_socket) : Prop := idle a ∧ idle b.

(** The network moves what one end has sent to the other end, where [poll] reports it. *)
Definition transport (a b : command_channel_socket) : command_channel_socket * command_channel_socket :=
  let s := cs_sock a in
  let t := cs_sock b in
  (set_sock (mk_sock (s_in s) [] (s_eof s) (s_sends s) (s_recvs s)) a,
   mk_csock (mk_sock (s_in t ++ s_out s) (s_out t) (s_eof t) (s_sends t) (s_recvs t)) PollIn
     (cs_vm_id b) (cs_listen_port b) (cs_init_command_type b)).

Definition sock_room (css total : Z) : Prop := css + total < 2 ^ 64.

(** A command under construction: the struct, the buffers attached so far, free space. *)
Inductive sock_building (a b : command_channel_socket) (cmd : command) (css : Z)
    (bufs : gmap Z (list Z)) (cap : Z) : Prop :=
  | SockBuilding (hd used free : list Z) :
      sock_conn a b → base_wf (cmd_base cmd) → command_size (cmd_base cmd) = css →
      seeker_cur (cmd_base cmd) = css + Z.of_nat (length used) →
      region_size (cmd_base cmd) = Z.of_nat (length used + length free) →
      cmd_rest cmd = hd ++ used ++ free → css = Z.of_nat (sizeof_command_base + length hd) →
      cap = Z.of_nat (length free) → css + Z.of_nat (length used + length free) < 2 ^ 64 →
      (∀ id d, bufs !! id = Some d → css ≤ id < css + Z.of_nat (length used) ∧
         ∃ tail, drop (Z.to_nat (id - css)) used = d ++ tail) →
      sock_building a b cmd css bufs cap.

Lemma sock_new a b h css total :
  sock_conn a b → Z.of_nat sizeof_command_base ≤ css → 0 ≤ total → sock_room css total →
  ∃ cmd a', command_channel_new_command a h css total = Ok (cmd, a', (malloc h).2) ∧
    sock_building a' b cmd css ∅ total ∧ cmd_addr cmd = next_addr h.
Proof.
  intros Hc Hcss Ht Hr. unfold sock_room in Hr.
  unfold command_channel_new_command, vtable, socket_channel. cbn [vt_new_command command_channel_socket_vtable].
  unfold command_channel_socket_new_command.
  rewrite (proj2 (Z.leb_gt _ _)), (proj2 (Z.ltb_ge _ _)) by lia.
  eexists _, _. split; [done|]. split; [|done].
  apply (SockBuilding _ _ _ _ _ _ (replicate (Z.to_nat css - sizeof_command_base) 0) [] (uninit (next_addr h) (Z.to_nat total)));
    unfold seeker_cur, get_reserved; cbn [cmd_base cmd_rest command_size region_size reserved_area nth length];
    rewrite ?length_replicate, ?length_uninit; try done; try lia.
  - unfold base_wf, in_range, in_srange. cbn. pose proof (Z.mod_pos_bound (cs_vm_id a) 256).
    unfold u8, wrap. change (2 ^ 8) with 256. split_and!; try lia. repeat constructor; lia.
Qed.

Lemma sock_attach a b cmd css bufs cap d tail :
  sock_building a b cmd css bufs cap → d ≠ [] → Z.of_nat (length d) ≤ cap →
  ∃ id a' cmd', command_channel_attach_buffer a cmd (Some (d ++ tail)) (Z.of_nat (length d)) =
      Ok (id, cmd', a') ∧ bufs !! id = None ∧ 0 < id < 2 ^ 64 ∧
    sock_building a' b cmd' css (<[id := d]> bufs) (cap - Z.of_nat (length d)) ∧
    cmd_addr cmd' = cmd_addr cmd ∧ header_of cmd' = header_of cmd.
Proof.
  intros [hd used free Hc Hwf Hsz Hcur Hreg Hrest Hcss Hcap Hlt Hbufs] Hd Hle.
  pose proof Hwf as (_ & _ & _ & _ & _ & _ & _ & _ & _ & _ & H8 & _).
  assert (0 < length d)%nat by (destruct d; [done|cbn; lia]).
  assert (0 < css) by (rewrite Hcss; unfold sizeof_command_base; lia).
  set (id := css + Z.of_nat (length used)).
  assert (command_channel_attach_buffer a cmd (Some (d ++ tail)) (Z.of_nat (length d)) =
    command_channel_socket_attach_buffer a cmd (Some d) (Z.of_nat (length d))) as ->.
  { unfold command_channel_attach_buffer, vtable, socket_channel. cbn [vt_attach_buffer command_channel_socket_vtable].
    unfold command_channel_socket_attach_buffer. by rewrite read_bytes_prefix, read_bytes_all. }
  rewrite (socket_attach_eq a cmd id d (hd ++ used) (take (length d) free) (drop (length d) free));
    [|done|done|done|rewrite length_take; lia|by rewrite take_drop, <- app_assoc|rewrite length_app; lia|lia].
  destruct (seeker_set (cmd_base cmd) (id + Z.of_nat (length d)) H8) as (_ & Hs2 & _).
  eexists _, _, _. split; [done|]. split_and!; try done; try lia.
  - destruct (bufs !! id) as [d'|] eqn:Hb; [|done]. apply Hbufs in Hb as [? _]. lia.
  - apply (SockBuilding _ _ _ _ _ _ hd (used ++ d) (drop (length d) free));
      cbn [cmd_base cmd_rest]; rewrite ?length_app, ?length_drop; try done; try lia.
    + apply set_reserved_wf; [done|]. unfold in_range. lia.
    + cbn. lia.
    + by rewrite <- !app_assoc.
    + intros id' d' [[<- <-]|[Hne Hl]]%lookup_insert_Some.
      * split; [lia|]. exists []. rewrite app_nil_r. replace (Z.to_nat (id - css)) with (length used) by lia.
        apply drop_app_length.
      * apply Hbufs in Hl as [Hr [tl Htl]]. split; [lia|]. exists (tl ++ d).
        rewrite drop_app_le by lia. by rewrite Htl, app_assoc.
Qed.

Lemma sock_header a b cmd css bufs cap f :
  sock_building a b cmd css bufs cap → header_update f → sock_building a b (upd_base f cmd) css bufs cap.
Proof.
  intros Hb Hf. revert cmd Hb. induction Hf as [v Hv|v Hv|v Hv|v Hv|f g _ IHf _ IHg];
    intros cmd Hb; [..|exact (IHf _ (IHg _ Hb))];
    destruct Hb as [hd used free Hc Hwf Hsz Hcur Hreg Hrest Hcss Hcap Hlt Hbufs];
    apply (SockBuilding _ _ _ _ _ _ hd used free); try done; unfold base_wf in *; cbn in *; naive_solver.
Qed.

Lemma sock_fields a b cmd css bufs cap l :
  sock_building a b cmd css bufs cap → Z.of_nat (sizeof_command_base + length l) ≤ css →
  sock_building a b (set_fields l cmd) css bufs cap.
Proof.
  intros [hd used free Hc Hwf Hsz Hcur Hreg Hrest Hcss Hcap Hlt Hbufs] Hl.
  apply (SockBuilding _ _ _ _ _ _ (l ++ drop (length l) hd) used free); try done.
  - cbn. rewrite Hrest, drop_app_le by lia. by rewrite <- app_assoc.
  - rewrite length_app, length_drop. lia.
Qed.

Hypothesis Hs : kernel_sends.
Hypothesis Hr : kernel_recvs.

Lemma sock_send a b h hb cmd css bufs cap :
  sock_building a b cmd css bufs cap → cmd_addr cmd ∈ live h →
  ∃ a1 a2 b1 b2 rcvd rest, command_channel_send_command a h cmd =
      Ok (a1, mk_heap (live h ∖ {[cmd_addr cmd]}) (next_addr h)) ∧
    transport a1 b = (a2, b1) ∧ command_channel_receive_command b1 hb = Ok (Some rcvd, b2, (malloc hb).2) ∧
    sock_conn a2 b2 ∧ cmd_addr rcvd = next_addr hb ∧ header_of rcvd = header_of cmd ∧
    command_size (cmd_base rcvd) = css ∧
    cmd_rest rcvd = take (Z.to_nat css - sizeof_command_base) (cmd_rest cmd) ++ rest ∧
    ∀ id d, bufs !! id = Some d → ∃ tail, command_channel_get_buffer b2 rcvd id = Some (d ++ tail).
Proof.
  intros [hd used free [[Hi1 Ho1] [Hi2 Ho2]] Hwf Hsz Hcur Hreg Hrest Hcss Hcap Hlt Hbufs] Hlive.
  pose proof Hwf as (_ & _ & _ & _ & _ & _ & _ & _ & _ & _ & H8 & _).
  assert (length (cmd_rest cmd) = length hd + (length used + length free))%nat as Hlr by (rewrite Hrest, !length_app; lia).
  destruct (socket_send_eq a h cmd Hs H8) as (s' & Hsend & Hsi & Hso); [|lia|done|].
  { unfold cmd_bytes. rewrite length_app, length_base_bytes by done. lia. }
  set (base := set_command_type NW_NEW_INVOCATION (cmd_base cmd)) in *.
  assert (base_wf base) as Hwf' by (apply set_command_type_wf; [done|unfold in_range, NW_NEW_INVOCATION; lia]).
  set (b1 := (transport (set_sock s' a) b).2).
  destruct (socket_receive_eq b1 hb base (cmd_rest cmd) [] Hr eq_refl Hwf') as (s2 & Hrcv & Hi3 & Ho3).
  { change (command_size base) with (command_size (cmd_base cmd)). change (region_size base) with (region_size (cmd_base cmd)).
    rewrite length_app, length_base_bytes by done. lia. }
  { change (command_size base) with (command_size (cmd_base cmd)). change (region_size base) with (region_size (cmd_base cmd)). lia. }
  { cbn. rewrite Hi2, Hso, Ho1. by rewrite app_nil_r. }
  eexists _, _, b1, _, _, _. split; [exact Hsend|]. split; [reflexivity|]. split; [exact Hrcv|].
  split_and!; try done.
  - split; split; cbn; [by rewrite Hsi|done|done|]. rewrite Ho3. done.
  - cbn [cmd_rest]. by rewrite take_drop.
  - intros id d Hb. apply Hbufs in Hb as [Hid [tl Htl]]. exists (tl ++ free).
    unfold command_channel_get_buffer, vtable, socket_channel. cbn [vt_get_buffer command_channel_socket_vtable].
    unfold command_channel_socket_get_buffer, cmd_bytes. cbn [cmd_base cmd_rest]. f_equal.
    rewrite Hrest, app_assoc. replace (Z.to_nat id) with (length (base_bytes base ++ hd) + Z.to_nat (id - css))%nat
      by (rewrite length_app, length_base_bytes by done; lia).
    rewrite drop_app_add, drop_app_le by lia. by rewrite Htl, <- app_assoc.
Qed.

Definition socket_link (conn : command_channel_socket → command_channel_socket → Prop)
    (Hconn : ∀ a b, conn a b ↔ sock_conn a b) : Link command_channel_socket command_channel_socket conn.
Proof.
  refine {| deliver := transport; room := sock_room; building := sock_building |}.
  - done.
  - intros a b h css total Hc%Hconn. by apply sock_new.
  - apply sock_attach.
  - apply sock_header.
  - apply sock_fields.
  - intros a b h hb cmd css bufs cap Hb Hl.
    destruct (sock_send a b h hb cmd css bufs cap Hb Hl) as (a1 & a2 & b1 & b2 & rcvd & rest & ? & ? & ? & ? & ?).
    exists a1, a2, b1, b2, rcvd, rest. split_and!; try done; [by apply Hconn|naive_solver..].
  - done.
Defined.

End link.
