(* ===== verification/SpecCheck.v ===== *)
(** * Specifications that can always be called

    What the specifications of the APIs are written with, the order of arguments that
    [toposort_flatten] computes, and a check of a function's annotations: they read only values
    that both sides have.  For a checked function every call with buffers of the annotated sizes
    is marshalled and sent by the generated stub. *)

From S2P Require Import Prelude Channel Endpoint SocketChannel Cava Stub Remote RemoteCall.
Local Open Scope Z_scope.

(** ** Annotations *)

Definition scalar (size : nat) (sg : bool) : ty := TVal size size sg (EInt NW_OPAQUE) (EInt 0).
Definition handle : ty := TVal 8 8 false (EInt NW_HANDLE) (EInt 0).
(** [ava_deallocates]. *)
Definition freed_handle : ty := TVal 8 8 false (EInt NW_HANDLE) (EInt 1).
Definition callback : ty := TVal 8 8 false (EInt NW_CALLBACK) (EInt 0).
(** A pointer that is not followed. *)
Definition opaque_ptr : ty := TPtr (EInt NW_OPAQUE) (EInt 0) (EInt 0) (scalar 1 false).
(** [ava_buffer(n)]. *)
Definition buffer (n : cexpr) (el : ty) : ty := TPtr (EInt NW_BUFFER) n (EInt 0) el.

Definition arg (x : string) (t : ty) : argument := mk_arg x t (EInt 0) (EInt 0) [] false.
(** [ava_in] and [ava_out], with the arguments the annotations mention. *)
Definition arg_in (x : string) (t : ty) (deps : list string) : argument :=
  mk_arg x t (EInt 1) (EInt 0) deps false.
Definition arg_out (x : string) (t : ty) (deps : list string) : argument :=
  mk_arg x t (EInt 0) (EInt 1) deps false.
(** [ava_implicit_argument]. *)
Definition implicit (a : argument) : argument :=
  mk_arg (a_name a) (a_type a) (a_input a) (a_output a) (a_depends_on a) true.
(** [x], and [strlen(x) + 1]. *)
Definition var (x : string) : cexpr := EVar (RArg x).
Definition string_size (x : string) : cexpr := EOp size_t OAdd (EStrlen (RArg x)) (EInt 1).
Definition sync : cexpr := EInt 0.
Definition async : cexpr := EInt 1.

(** The [i]-th function of an API, in the enum of its commands. *)
Definition declare (i : Z) (name : string) (args : list argument) (ret : option ty) (is_async : cexpr)
    (success : option Z) : func :=
  mk_func name (2 * i) (2 * i + 1) args ret is_async success.

(** ** [toposort_flatten] *)

(** What waits for nothing in [rest] but itself. *)
Definition ready (rest : list argument) (a : argument) : bool :=
  forallb (λ d, bool_decide (d = a_name a) || bool_decide (d ∉ a_name <$> rest)) (a_depends_on a).

(** The arguments in levels, each in the order of the declaration. *)
Fixpoint levels (fuel : nat) (rest : list argument) : option (list argument) :=
  match rest, fuel with
  | [], _ => Some []
  | _, O => None
  | _, S fuel =>
      match filter (λ a, ready rest a = true) rest with
      | [] => None
      | level => out ← levels fuel (filter (λ a, ready rest a = false) rest); Some (level ++ out)
      end
  end.

Lemma levels_S fuel rest out :
  levels (S fuel) rest = Some out →
  rest = [] ∧ out = [] ∨ ∃ out', levels fuel (filter (λ a, ready rest a = false) rest) = Some out' ∧
    out = filter (λ a, ready rest a = true) rest ++ out'.
Proof.
  intros Hl. destruct rest as [|a rest]; [injection Hl as <-; by left|]. right. cbn [levels] in Hl.
  destruct (filter (λ a0, ready (a :: rest) a0 = true) (a :: rest)) as [|x l]; [done|].
  destruct (levels fuel _) as [out'|]; [|done]. cbn in Hl. injection Hl as <-. by exists out'.
Qed.

Lemma filter_ready_perm (rest l : list argument) :
  filter (λ a, ready rest a = true) l ++ filter (λ a, ready rest a = false) l ≡ₚ l.
Proof.
  induction l as [|a l IH]; [done|]. rewrite !filter_cons. destruct (ready rest a) eqn:Ha.
  - rewrite decide_True, decide_False by congruence. cbn. by rewrite IH.
  - rewrite decide_False, decide_True by congruence. by rewrite <- Permutation_middle, IH.
Qed.

Lemma levels_perm fuel : ∀ rest out, levels fuel rest = Some out → out ≡ₚ rest.
Proof.
  induction fuel as [|fuel IH]; intros rest out Hl; [by destruct rest as [|a rest]; [injection Hl as <-|]|].
  apply levels_S in Hl as [[-> ->]|(out' & Hl & ->)]; [done|].
  rewrite (IH _ _ Hl). apply filter_ready_perm.
Qed.

Lemma levels_deps fuel : ∀ rest out pre a post b,
  levels fuel rest = Some out → out = pre ++ a :: post → b ∈ rest →
  a_name b ∈ a_depends_on a → a_name b ≠ a_name a → b ∈ pre.
Proof.
  induction fuel as [|fuel IH]; intros rest out pre a post b Hl Hout Hb Hd Hne.
  { destruct rest as [|x rest]; [by apply not_elem_of_nil in Hb|done]. }
  apply levels_S in Hl as [[-> ->]|(out' & Hl & ->)]; [by apply not_elem_of_nil in Hb|].
  set (lvl := filter (λ a, ready rest a = true) rest) in *.
  assert (a ∉ lvl) as Hnl.
  { intros [Hr _]%list_elem_of_filter. unfold ready in Hr. rewrite forallb_forall in Hr.
    specialize (Hr _ (proj1 (list_elem_of_In _ _) Hd)). apply orb_true_iff in Hr as [Hr|Hr]; apply bool_decide_eq_true in Hr.
    - done.
    - apply Hr. by apply list_elem_of_fmap_2. }
  apply app_eq_inv in Hout as [(k & Hlvl & Hout)|(k & -> & Hout)].
  - destruct k as [|y k]; cbn in Hout.
    + rewrite app_nil_r in Hlvl. subst pre. destruct (ready rest b) eqn:Hrb; [by apply list_elem_of_filter|].
      exfalso. symmetry in Hout. assert (b ∈ []) as Hx; [|by apply not_elem_of_nil in Hx].
      eapply (IH _ out' [] a post b Hl); try done. by apply list_elem_of_filter.
    + injection Hout as <- _. exfalso. apply Hnl. rewrite Hlvl. set_solver.
  - apply elem_of_app. destruct (ready rest b) eqn:Hrb; [left; by apply list_elem_of_filter|]. right.
    eapply IH; [exact Hl|exact Hout| |done|done]. by apply list_elem_of_filter.
Qed.

#[global] Instance toposort_levels : Toposort := {
  toposort_flatten l := levels (S (length l)) l;
  toposort_perm l l' := levels_perm _ l l';
  toposort_deps l l' pre a post H Heq b := λ Hb Hd Hn, levels_deps _ l l' pre a post b H Heq Hb Hd Hn
}.

(** ** The check *)

(** The references of an expression that is evaluated for the inputs: [ava_is_in] holds. *)
Fixpoint refs_in (e : cexpr) : list ref :=
  match e with
  | ECond EIsIn a _ => refs_in a
  | ECond c a b => refs_in c ++ refs_in a ++ refs_in b
  | EOp _ _ a b => refs_in a ++ refs_in b
  | EAt _ r i => r :: refs_in i
  | e => refs e
  end.

(** The expression reads only the arguments in [ks]. *)
Definition known (ks : list string) (e : cexpr) : bool :=
  forallb (λ r, match r with RArg x => bool_decide (x ∈ ks) | RElem => false end) (refs_in e).

(** [ava_buffer(strlen(x) + 1)] on [x] itself. *)
Definition is_string (a : argument) (n : cexpr) (el : ty) : bool :=
  bool_decide (n = EOp size_t OAdd (EStrlen (RArg (a_name a))) (EInt 1)) && (sizeof el =? 1)%nat &&
  bool_decide (a_input a = EInt 1).

(** Elements that are bytes or handles, whatever the arguments are. *)
Definition flat (el : ty) : bool :=
  match el with
  | TVal size _ _ (EInt k) _ => (0 <? size)%nat && ((k =? NW_OPAQUE) || (k =? NW_HANDLE))
  | _ => false
  end.

Definition check_arg (ks : list string) (a : argument) : bool :=
  known ks (a_input a) && known ks (transfer_of (a_type a)) && known ks (deallocates_of (a_type a)) &&
  (0 <? sizeof (a_type a))%nat && (is_false (a_output a) || contains_buffer (a_type a)) &&
  match a_type a with
  | TVal _ _ _ _ _ => true
  | TPtr _ n _ el => flat el && (known ks n || is_string a n el)
  end.

(** An opaque number is known to both sides once it is transferred. *)
Definition learned (a : argument) (ks : list string) : list string :=
  match a_type a with
  | TVal _ _ _ (EInt k) _ => if k =? NW_OPAQUE then a_name a :: ks else ks
  | _ => ks
  end.

Fixpoint check_args (ks : list string) (l : list argument) : option (list string) :=
  match l with
  | [] => Some ks
  | a :: l => if check_arg ks a then check_args (learned a ks) l else None
  end.

Definition check_ret (t : option ty) : bool :=
  match t with
  | Some (TVal size _ _ _ _) => (0 <? size)%nat
  | Some _ => false
  | None => true
  end.

Definition check_func `{Toposort} (f : func) : bool :=
  match toposort_flatten (f_arguments f) with
  | None => false
  | Some order =>
      bool_decide (NoDup (a_name <$> order)) && check_ret (f_ret f) &&
      match check_args [] order with
      | Some _ => true
      | None => false
      end
  end.

(** What the caller provides: the annotations have a value, and a buffer is as large as they say. *)
Definition provided (E : env) (m : mem) (args : gmap string Z) (a : argument) : Prop :=
  ∃ c v k d, eval E (a_input a) = Ok c ∧ args !! a_name a = Some v ∧
    eval E (transfer_of (a_type a)) = Ok k ∧ eval E (deallocates_of (a_type a)) = Ok d ∧
    match a_type a with
    | TVal _ _ _ _ _ => True
    | TPtr _ n _ el =>
        k = NW_BUFFER → v ≠ NULL → ∃ z, eval E n = Ok z ∧
          (0 < z → z * Z.of_nat (sizeof el) < 2 ^ 64) ∧
          (c ≠ 0 → ∃ l, m !! v = Some l ∧ Z.of_nat (length l) < 2 ^ 64 ∧
             z * Z.of_nat (sizeof el) ≤ Z.of_nat (length l))
    end.

(** ** Soundness *)

Lemma eval_ext R E e :
  e_index R = e_index E → e_in R = true → e_in E = true → (∀ r, r ∈ refs_in e → look R r = look E r) →
  eval R e = eval E e.
Proof.
  intros Hi Hin HinE. induction e as [z0|r| | |r|t r i IHi|r|t r last|t o a IHa b IHb|c IHc a IHa b IHb]; intros Hr;
    try (cbn [eval refs_in refs] in *; try (rewrite (Hr r) by set_solver); done).
  - cbn. by rewrite Hi.
  - cbn. by rewrite Hin, HinE.
  - cbn [eval refs_in] in *. rewrite IHi, (Hr r) by set_solver. done.
  - cbn [eval refs_in] in *. rewrite IHa, IHb by set_solver. done.
  - destruct (decide (c = EIsIn)) as [->|Hc].
    + cbn [eval refs_in] in *. rewrite Hin, HinE. cbn [bool_int mbind res_bind]. by apply IHa.
    + assert (refs_in (ECond c a b) = refs_in c ++ refs_in a ++ refs_in b) as Heq by by destruct c.
      rewrite Heq in Hr. cbn [eval]. rewrite IHc, IHa, IHb by set_solver. done.
Qed.

(** [R] knows the arguments [ks] as [E] does. *)
Definition agrees (ks : list string) (R E : env) : Prop :=
  e_index R = e_index E ∧ (e_in R = true ∧ e_in E = true) ∧ ∀ x, x ∈ ks → e_arg R x = e_arg E x.

Lemma agrees_eval ks R E e : agrees ks R E → known ks e = true → eval R e = eval E e.
Proof.
  intros (H1 & [H2 H2'] & H3) Hk. apply eval_ext; [done..|]. unfold known in Hk. rewrite forallb_forall in Hk.
  intros r Hr. specialize (Hk r (proj1 (list_elem_of_In _ _) Hr)). destruct r as [x|]; [|done]. cbn. apply H3. by apply bool_decide_eq_true in Hk.
Qed.

Lemma agrees_set ks R E x v : agrees ks R E → x ∉ ks → agrees ks (set_arg x v R) E.
Proof.
  intros (H1 & H2 & H3) Hx. split; [done|]. split; [done|]. intros y Hy. cbn. rewrite decide_False by congruence. by apply H3.
Qed.

Lemma flat_blob R el : flat el = true → is_blob R true el = Ok true ∧ (0 < sizeof el)%nat.
Proof.
  destruct el as [size al sg [k| | | | | | | | |] dl|]; try done. cbn [flat]. intros [Hs%Nat.ltb_lt Hk]%andb_true_iff.
  split; [|done]. unfold is_blob. cbn [transfer_of has_index eval mbind res_bind]. f_equal.
  apply orb_true_iff in Hk as [->|Hk]; [done|]. rewrite Hk. cbn. by rewrite !orb_true_r.
Qed.

Lemma flat_blob' R el : flat el = true → ∃ b, is_blob R false el = Ok b.
Proof. destruct el as [size al sg [k| | | | | | | | |] dl|]; try done. intros _. by eexists. Qed.

Lemma strlen_lt l k : strlen l = Some k → (k < length l)%nat.
Proof.
  revert k. induction l as [|b l IH]; intros k; [done|]. cbn. destruct (b =? 0); [intros [= <-]; lia|].
  intros (j & Hj & ->)%fmap_Some. specialize (IH j Hj). lia.
Qed.

Lemma strlen_take l k : strlen l = Some k → strlen (take (S k) l) = Some k.
Proof.
  revert k. induction l as [|b l IH]; intros k; [done|]. cbn [strlen]. destruct (b =? 0) eqn:Hb.
  - intros [= <-]. cbn. by rewrite Hb.
  - intros (j & Hj & ->)%fmap_Some. cbn [take strlen]. rewrite Hb. by rewrite (IH j Hj).
Qed.

Lemma is_string_inv a n el : is_string a n el = true →
  n = EOp size_t OAdd (EStrlen (RArg (a_name a))) (EInt 1) ∧ sizeof el = 1%nat ∧ a_input a = EInt 1.
Proof.
  unfold is_string. intros [[?%bool_decide_eq_true ?%Nat.eqb_eq]%andb_true_iff ?%bool_decide_eq_true]%andb_true_iff. done.
Qed.

Lemma checked_bytes_Ok' z el : 0 < z → (0 < sizeof el)%nat → z * Z.of_nat (sizeof el) < 2 ^ 64 →
  checked_bytes z el = Ok (z * Z.of_nat (sizeof el)).
Proof.
  intros Hz Hs Hlt. unfold checked_bytes. rewrite (proj2 (Z.ltb_lt z _)), (proj2 (Z.ltb_lt _ (2 ^ 64))), (proj2 (Nat.ltb_lt _ _)); [done|done|done|nia].
Qed.

(** The size of a buffer, with what the guest sees and with what was sent. *)
Lemma checked_size ks R E a n el (l : list Z) z :
  agrees ks R E → a_name a ∉ ks → known ks n || is_string a n el = true → (0 < sizeof el)%nat →
  e_arg E (a_name a) = Some (VMem l) → eval E n = Ok z → Z.of_nat (length l) < 2 ^ 64 →
  z * Z.of_nat (sizeof el) ≤ Z.of_nat (length l) →
  eval (set_arg (a_name a) (VMem l) R) n = Ok z ∧
  eval (set_arg (a_name a) (VMem (take (Z.to_nat (z * Z.of_nat (sizeof el))) l)) R) n = Ok z.
Proof.
  intros Hag Ha Hk Hs HE Hz Hl Hle. apply orb_true_iff in Hk as [Hk|Hstr].
  - split; (rewrite (agrees_eval ks _ E n); [done|by apply agrees_set|done]).
  - destruct (is_string_inv _ _ _ Hstr) as (-> & Hs1 & _). rewrite Hs1 in *. cbn [eval look set_arg e_arg] in *.
    rewrite HE in Hz. rewrite !decide_True by done. destruct (strlen l) as [k|] eqn:Hk; [|done]. cbn [mbind res_bind] in *.
    split; [done|]. pose proof (strlen_lt _ _ Hk) as Hlt.
    assert (z = Z.of_nat (S k)) as ->.
    { clear -Hz Hlt Hl. unfold eval_op, arith in Hz. cbn [ci_signed size_t] in Hz. injection Hz as <-.
      unfold cast. cbn [ci_signed ci_size size_t]. change (8 * Z.of_nat 8) with 64.
      rewrite (wrap_small 64 (Z.of_nat k)), (wrap_small 64 1), wrap_small by (unfold in_range; lia). lia. }
    rewrite Z.mul_1_r, Nat2Z.id, (strlen_take _ _ Hk). done.
Qed.

Section sound.
Context (m : mem) (args : gmap string Z) (order : list argument).
Hypothesis Hnd : NoDup (a_name <$> order).
Let E : env := arg_env order args m true.
Hypothesis Hprov : ∀ a, a ∈ order → provided E m args a.

Lemma plan_checked ks R a tr n dl el c v k d :
  a_type a = TPtr tr n dl el → agrees ks R E → a_name a ∉ ks → e_arg E (a_name a) = Some (view_of (TPtr tr n dl el) v m) →
  eval R tr = Ok k → eval R dl = Ok d → is_blob R true el = Ok true → (0 < sizeof el)%nat →
  flat el = true → known ks n || is_string a n el = true → eval E (a_input a) = Ok c →
  (k = NW_BUFFER → v ≠ NULL → ∃ z, eval E n = Ok z ∧ (0 < z → z * Z.of_nat (sizeof el) < 2 ^ 64) ∧
     (c ≠ 0 → ∃ l, m !! v = Some l ∧ Z.of_nat (length l) < 2 ^ 64 ∧ z * Z.of_nat (sizeof el) ≤ Z.of_nat (length l))) →
  ∃ p, plan (RArg (a_name a)) (negb (c =? 0)) (TPtr tr n dl el) R m v = Ok p ∧
    ∃ sv, shared_view (TPtr tr n dl el) R p v = Ok sv.
Proof.
  intros Ht Hag Hks HE Hk Hd Hblob Hsz Hflat Hn Hc Hb. cbn [plan]. rewrite Hk. cbn [mbind res_bind].
  destruct (Z.eqb_spec k NW_BUFFER) as [->|Hkb]; cbn [negb].
  2: { rewrite Hd. cbn [mbind res_bind]. eexists. split; [done|]. by eexists. }
  destruct (Z.eqb_spec v NULL) as [->|Hv]; [eexists; split; [done|]; by eexists|].
  destruct (Hb eq_refl Hv) as (z & Hz & Hlt & Hobj).
  destruct (Z.eqb_spec c 0) as [->|Hc0]; cbn [negb].
  - assert (known ks n = true) as Hkn.
    { apply orb_true_iff in Hn as [|Hstr]; [done|]. destruct (is_string_inv _ _ _ Hstr) as (_ & _ & Hi). rewrite Hi in Hc. done. }
    rewrite (agrees_eval _ _ _ _ Hag Hkn), Hz. cbn [mbind res_bind].
    destruct (Z.leb_spec z 0); [eexists; split; [done|]; by eexists|].
    rewrite checked_bytes_Ok' by auto. cbn [mbind res_bind]. rewrite Hblob. cbn [mbind res_bind].
    eexists. split; [done|]. by eexists.
  - destruct (Hobj Hc0) as (l & Hl & Hl64 & Hle). unfold object. rewrite Hl. cbn [mbind res_bind with_self].
    assert (e_arg E (a_name a) = Some (VMem l)) as HE'.
    { rewrite HE. cbn. by rewrite (proj2 (Z.eqb_neq _ _) Hv), Hl. }
    destruct (checked_size ks R E a n el l z) as [-> Hsent]; try done. cbn [mbind res_bind].
    destruct (Z.leb_spec z 0); [eexists; split; [done|]; cbn; rewrite (proj2 (Z.eqb_neq _ _) Hv); by eexists|]. rewrite checked_bytes_Ok' by auto. cbn [mbind res_bind].
    unfold check at 1, c_assert. rewrite (proj2 (Z.leb_le _ _)) by done. cbn [mbind res_bind].
    rewrite Hblob. cbn [mbind res_bind]. rewrite Hsent. cbn [mbind res_bind].
    unfold check, c_assert. rewrite Z.eqb_refl. cbn [mbind res_bind]. eexists. split; [done|]. cbn [shared_view].
    destruct (flat_blob' R el Hflat) as [bl ->]. by eexists.
Qed.

Lemma plan_arg_checked ks R a ps :
  a ∈ order → agrees ks R E → a_name a ∉ ks → check_arg ks a = true →
  ∃ R' p, plan_arg m args a (R, ps) = Ok (R', ps ++ [(R, p)]) ∧ agrees (learned a ks) R' E.
Proof.
  intros Ha Hag Hks Hck. destruct (Hprov a Ha) as (c & v & k & d & Hc & Hv & Hk & Hd & Hty).
  unfold check_arg in Hck. repeat (apply andb_true_iff in Hck as [Hck ?]).
  pose proof (arg_env_lookup order args m true a v Hnd Ha Hv) as HE. fold E in HE.
  unfold plan_arg. rewrite (agrees_eval _ _ _ _ Hag Hck), Hc. cbn [mbind res_bind].
  rewrite (proj2 (arg_value_Ok _ _ _) Hv). cbn [mbind res_bind].
  rewrite <- (agrees_eval ks R) in Hk, Hd by done.
  unfold learned. destruct (a_type a) as [size al sg tr dl|tr n dl el] eqn:Ht; cbn [transfer_of deallocates_of] in *; cbn [plan shared_view].
  - rewrite Hk. cbn [mbind res_bind]. rewrite Hd. cbn [mbind res_bind shared_view]. rewrite ?Hk. cbn [mbind res_bind].
    eexists _, _. split; [done|].
    assert (agrees ks (learn (a_name a) (if k =? NW_OPAQUE then Some (VInt v) else None) R) E) as Hag'
      by (destruct (k =? NW_OPAQUE); [by apply agrees_set|done]).
    destruct tr; try done. injection Hk as ->. destruct (k =? NW_OPAQUE); [|done].
    destruct Hag' as (H1' & H2' & H3'). split; [done|]. split; [done|]. intros x [->|Hx]%elem_of_cons; [|by apply H3'].
    cbn [learn set_arg e_arg]. rewrite decide_True by done. by rewrite HE.
  - apply andb_true_iff in H as [Hflat Hn]. destruct (flat_blob R _ Hflat) as [Hblob Hsz].
    assert (∃ p, plan (RArg (a_name a)) (negb (c =? 0)) (TPtr tr n dl el) R m v = Ok p ∧
      ∃ sv, shared_view (TPtr tr n dl el) R p v = Ok sv) as (p & Hp & sv & Hsv).
    { destruct (plan_checked ks R a tr n dl el c v k d) as (p & Hp & Hsv); try done. by exists p. }
    cbn [plan shared_view] in Hp, Hsv. rewrite Hp. cbn [mbind res_bind]. rewrite Hsv. cbn [mbind res_bind].
    eexists _, _. split; [done|]. destruct sv; [by apply agrees_set|done].
Qed.

Lemma learned_names a ks x : x ∈ learned a ks → x = a_name a ∨ x ∈ ks.
Proof.
  unfold learned. destruct (a_type a) as [size al sg tr dl|]; [|by right]. destruct tr; try by right.
  destruct (_ =? _); [|by right]. intros [->|]%elem_of_cons; [by left|by right].
Qed.

(** Every argument of a checked function can be planned. *)
Lemma plan_checked_args l : ∀ ks R ks' ps, NoDup (a_name <$> l) → (∀ a, a ∈ l → a ∈ order ∧ a_name a ∉ ks) →
  agrees ks R E → check_args ks l = Some ks' →
  ∃ R' ps', foldM (plan_arg m args) l (R, ps) = Ok (R', ps') ∧ agrees ks' R' E.
Proof.
  induction l as [|a l IH]; intros ks R ks' ps Hndl Hl Hag Hck; [injection Hck as <-; by eexists _, _|].
  cbn [check_args] in Hck. destruct (check_arg ks a) eqn:Ha; [|done].
  rewrite fmap_cons in Hndl. apply NoDup_cons in Hndl as [Hna Hndl]. destruct (Hl a ltac:(left)) as [Hao Hks].
  destruct (plan_arg_checked ks R a ps Hao Hag Hks Ha) as (R1 & p & Hp & Hag1).
  destruct (IH (learned a ks) R1 ks' (ps ++ [(R, p)]) Hndl) as (R' & ps' & Hf & Hag'); [|done|done|].
  - intros b Hb. destruct (Hl b ltac:(by right)) as [Hbo Hbk]. split; [done|].
    intros [Heq|]%learned_names; [|done]. apply Hna. rewrite <- Heq. by apply list_elem_of_fmap_2.
  - exists R', ps'. cbn [foldM]. rewrite Hp. cbn [mbind res_bind]. done.
Qed.
End sound.

(** What the check says about a function. *)
Lemma check_args_In l : ∀ ks ks' a, check_args ks l = Some ks' → a ∈ l → ∃ ks0, check_arg ks0 a = true.
Proof.
  induction l as [|b l IH]; intros ks ks' a Hck Ha; [by apply not_elem_of_nil in Ha|].
  cbn in Hck. destruct (check_arg ks b) eqn:Hb; [|done]. apply elem_of_cons in Ha as [->|Ha]; [by exists ks|by eapply IH].
Qed.

Lemma check_func_inv `{Toposort} f : check_func f = true →
  ∃ order ks, toposort_flatten (f_arguments f) = Some order ∧ NoDup (a_name <$> order) ∧
    check_args [] order = Some ks ∧
    ∀ args m, (∀ a v, a ∈ order → args !! a_name a = Some v → fits (a_type a) v) → mem_ok m → call_ok f order args m.
Proof.
  unfold check_func. destruct (toposort_flatten (f_arguments f)) as [order|] eqn:Ht; [|done]. intros Hck.
  apply andb_true_iff in Hck as [[Hnd%bool_decide_eq_true Hret]%andb_true_iff Hck].
  destruct (check_args [] order) as [ks|] eqn:Hargs; [|done]. exists order, ks. split_and!; try done.
  intros args m Hty Hm. split; try done.
  - by apply toposort_perm.
  - intros a Ha. destruct (check_args_In _ _ _ _ Hargs Ha) as [ks0 Hc]. unfold check_arg in Hc.
    repeat (apply andb_true_iff in Hc as [Hc ?]). by apply Nat.ltb_lt.
  - intros a Ha Hf. destruct (check_args_In _ _ _ _ Hargs Ha) as [ks0 Hc]. unfold check_arg in Hc.
    repeat (apply andb_true_iff in Hc as [Hc ?]). rewrite Hf in *. done.
  - intros t Hr. rewrite Hr in Hret. destruct t as [sz al sg tr dl|]; [|done]. apply Nat.ltb_lt in Hret. by eexists _, _, _, _, _.
Qed.

