(* ===== verification/BatchedStub.v ===== *)
(** * Stubs that batch their commands (cava/samples/tensorflow/tf_opt.c, cava/samples/onnxruntime/onnx_opt.c)

    Two specifications put code of their own in place of the generated one: the stub gives the
    command to the thread that batches commands (Batching.v), the worker answers only synchronous
    calls, and before it takes a batch apart it stores the channel, the handle pool and the log for
    the commands in it.  The code is the same in both. *)

From S2P Require Import Prelude Channel Socket SocketChannel HandlePool Endpoint Cava Stub.
From S2P Require Batching.
Local Open Scope Z_scope.

Section code.
Context `{Channel C}.

(** [ava_send_code]; [chan] stands for [__chan]. *)
Definition opt_send_code (chan : Z) (f : func) (is_async : bool) (cmd : command) (c : C) (h : heap)
    (q : Batching.command_batch) : res (C * heap * Batching.command_batch) :=
  if decide (f_name f = "__do_batch_emit") then
    '(c, h) ← command_channel_send_command c h cmd;
    Ok (c, h, q)
  else Ok (c, h, Batching.batch_insert_command q cmd chan (if is_async then 1 else 0)).

(** [ava_reply_code] *)
Definition opt_reply_code (is_async : res Z) (cmd : command) (c : C) (h : heap) : res (C * heap) :=
  is_async ← is_async;
  if negb (is_async =? 0) then Ok (c, h) else command_channel_send_command c h cmd.

(** [ava_worker_argument_process_code], over the static variables and the rest of the library. *)
Definition opt_process_code {L} (onnx_opt tf_opt : option (@Batching.api_handler L)) (chan pool log : Z) (f : func)
    (s : Batching.single_statics * L) : res (Batching.single_statics * L) :=
  if decide (f_name f = "__do_batch_emit") then
    Batching.__handle_command_cudart_opt_single onnx_opt tf_opt chan pool log None s.1 s.2
  else Ok s.

(** The stub and the handler of such an API. *)
Definition opt_function_implementation (chan : Z) (f : func) :=
  function_implementation_with (C := C) [] (opt_send_code chan f) f.
Definition opt_call_command_implementation `{Uninit} {L} (onnx_opt tf_opt : option (@Batching.api_handler L))
    (chan pool log callback_stub : Z) (native : list Z → mem → Batching.single_statics * L → Z * mem * (Batching.single_statics * L))
    (f : func) :=
  call_command_implementation_with callback_stub native (opt_process_code onnx_opt tf_opt chan pool log f) opt_reply_code f.

(** An asynchronous call is not answered: the handler is one without a reply.  The record of the call
    and its entry in the table of calls stay in the guest. *)
Lemma asynchronous_unanswered `{Uninit} {L} (onnx_opt tf_opt : option (@Batching.api_handler L)) chan pool log callback_stub native
    f order api rcvd (c : C) h w s :
  f_async f = EInt 1 →
  opt_call_command_implementation onnx_opt tf_opt chan pool log callback_stub native f order api rcvd c h w s =
    call_command_implementation_with callback_stub native (opt_process_code onnx_opt tf_opt chan pool log f)
      (λ _ _ c h, Ok (c, h)) f order api rcvd c h w s.
Proof.
  intros Ha. unfold opt_call_command_implementation, call_command_implementation_with. by rewrite Ha.
Qed.
End code.
