(* ===== verification/ApiSends.v ===== *)
(** * Calls of the specified functions are sent

    For every function of the specifications whose annotations pass the check of SpecCheck.v,
    a call with buffers of the annotated sizes is marshalled by the generated stub and arrives at
    the worker, which dispatches it to the same function with the same arguments. *)

From S2P Require Import Prelude Channel Socket SocketChannel HandlePool Endpoint Cava Stub Remote RemoteCall RemoteRefinement SpecCheck.
Local Open Scope Z_scope.

(** ** What arrives *)

(** [x] is the field of the command for the argument [a] with the value [v]; [get] finds the
    received buffers. *)
Definition arrives (E : env) (m : mem) (get : Z → option (list Z)) (a : argument) (v x : Z) : Prop :=
  match a_type a with
  | TVal _ _ _ _ _ => x = v
  | TPtr tr n _ el => ∀ k c z, eval E tr = Ok k → eval E (a_input a) = Ok c →
      (k ≠ NW_BUFFER → x = v) ∧
      (k = NW_BUFFER → v = NULL → x = NULL) ∧
      (k = NW_BUFFER → v ≠ NULL → eval E n = Ok z →
        (z <= 0 → x = NULL) ∧
        (0 < z → c = 0 → x = HAS_OUT_BUFFER_SENTINEL) ∧
        (0 < z → c ≠ 0 → x ≠ NULL ∧ ∃ l tail, m !! v = Some l ∧
           get x = Some (take (Z.to_nat (z * Z.of_nat (sizeof el))) l ++ tail)))
  end.

(** The bytes of the objects that the arguments point to. *)
Definition object_size (m : mem) (args : gmap string Z) (a : argument) : Z :=
  match a_type a with
  | TVal _ _ _ _ _ => 0
  | TPtr _ _ _ _ => Z.of_nat (length (default [] (v ← args !! a_name a; m !! v)))
  end.
Definition objects_size (m : mem) (args : gmap string Z) (order : list argument) : Z :=
  sumZ (object_size m args <$> order).

(** Elements that are not pointers themselves. *)
Definition flat_type (t : ty) : bool :=
  match t with TVal _ _ _ _ _ => true | TPtr _ _ _ el => flat el end.

Lemma checked_bytes_val n t s : checked_bytes n t = Ok s → s = n * Z.of_nat (sizeof t) ∧ (0 < sizeof t)%nat.
Proof.
  unfold checked_bytes. intros ([] & Hc%check_Ok & [= <-])%res_bind_Ok.
  by apply andb_true_iff in Hc as [_ ?%Nat.ltb_lt].
Qed.

(** What is planned for a pointer whose elements are bytes or handles. *)
Lemma plan_flat self input tr n dl el R m v p :
  flat el = true → plan self input (TPtr tr n dl el) R m v = Ok p →
  ∃ k, eval R tr = Ok k ∧
    (k ≠ NW_BUFFER ∧ p = MVal v ∨ k = NW_BUFFER ∧ v = NULL ∧ p = MNull ∨
     k = NW_BUFFER ∧ v ≠ NULL ∧ input = false ∧ (∃ z, eval R n = Ok z ∧
       (z <= 0 ∧ p = MNull ∨ 0 < z ∧ ∃ s, p = MOut s)) ∨
     k = NW_BUFFER ∧ v ≠ NULL ∧ input = true ∧ ∃ l z, m !! v = Some l ∧
       eval (with_self self (VMem l) R) n = Ok z ∧
       (z <= 0 ∧ p = MNull ∨ 0 < z ∧ p = MBytes (take (Z.to_nat (z * Z.of_nat (sizeof el))) l))).
Proof.
  intros Hflat Hp. destruct (flat_blob R _ Hflat) as [Hblob _]. cbn [plan] in Hp.
  apply res_bind_Ok in Hp as (k & Hk & Hp). exists k. split; [done|].
  destruct (Z.eqb_spec k NW_BUFFER) as [->|Hne]; cbn [negb] in Hp.
  2: { apply res_bind_Ok in Hp as (d & _ & [= <-]). by left. }
  right. destruct (Z.eqb_spec v NULL) as [->|Hv]; [injection Hp as <-; by left|]. right.
  destruct input; cbn [negb] in Hp; [right|left].
  - split_and!; try done. apply res_bind_Ok in Hp as (l & Hl & Hp). unfold object in Hl. destruct (m !! v) as [l'|] eqn:Hm; [|done].
    injection Hl as ->. apply res_bind_Ok in Hp as (z & Hz & Hp). exists l, z. split_and!; try done.
    destruct (Z.leb_spec z 0); [left; by injection Hp as <-|right]. split; [done|].
    apply res_bind_Ok in Hp as (s & Hs & Hp). apply checked_bytes_val in Hs as [-> _].
    apply res_bind_Ok in Hp as ([] & _ & Hp). rewrite Hblob in Hp. cbn [mbind res_bind] in Hp.
    apply res_bind_Ok in Hp as (z' & _ & Hp). by apply res_bind_Ok in Hp as ([] & _ & [= <-]).
  - split_and!; try done. apply res_bind_Ok in Hp as (z & Hz & Hp). exists z. split; [done|].
    destruct (Z.leb_spec z 0); [left; by injection Hp as <-|right]. split; [done|].
    apply res_bind_Ok in Hp as (s & _ & Hp). apply res_bind_Ok in Hp as (b & _ & Hp).
    apply res_bind_Ok in Hp as ([] & _ & [= <-]). by exists s.
Qed.

Lemma msize_object m args E a q :
  flat_type (a_type a) = true → planned m args E a q → msize (a_type a) q.2 ≤ object_size m args a.
Proof.
  intros Hflat (c & v & _ & Hv & Hp & _). unfold object_size. rewrite Hv. cbn [mbind option_bind].
  destruct (a_type a) as [|tr n dl el]; [done|]. cbn [flat_type] in Hflat.
  destruct (plan_flat _ _ _ _ _ _ _ _ _ _ Hflat Hp) as (k & _ & Hcase). cbn [msize].
  destruct Hcase as [[_ ->]|[(_ & _ & ->)|[(_ & _ & _ & z & _ & [[_ ->]|[_ [s ->]]])|(_ & _ & _ & l & z & Hl & _ & [[_ ->]|[_ ->]])]]]; try lia.
  rewrite Hl. cbn. rewrite length_take. lia.
Qed.

Lemma msizes_objects m args E order qs :
  (∀ a, a ∈ order → flat_type (a_type a) = true) → Forall2 (planned m args E) order qs →
  msizes order qs ≤ objects_size m args order.
Proof.
  intros Hflat Hpl. unfold msizes, objects_size. induction Hpl as [|a q order qs Hp Hpl IH]; [done|].
  cbn [zip_with foldr]. rewrite fmap_cons. cbn [foldr].
  pose proof (msize_object m args E a q (Hflat a ltac:(left)) Hp). specialize (IH (λ b Hb, Hflat b (list_elem_of_further _ _ _ Hb))). lia.
Qed.

(** A command that carries the plan has the field that [arrives] describes. *)
Lemma planned_arrives m args E a q get bufs x v :
  flat_type (a_type a) = true → planned m args E a q → args !! a_name a = Some v →
  carries bufs (a_type a) q.2 x → (∀ id d, bufs !! id = Some d → ∃ tail, get id = Some (d ++ tail)) →
  arrives E m get a v x.
Proof.
  intros Hflat (c & v' & Hc & Hv' & Hp & Hs) Hv Hx Hget. rewrite Hv in Hv'. injection Hv' as <-.
  pose proof (sees_eval _ _ _ _ _ _ Hs Hc) as HcE. unfold arrives. destruct (a_type a) as [sz al sg tr dl|tr n dl el].
  { cbn [plan] in Hp. apply res_bind_Ok in Hp as (k & _ & Hp). apply res_bind_Ok in Hp as (d & _ & [= Hq]). by rewrite <- Hq in Hx. }
  cbn [flat_type] in Hflat. destruct (plan_flat _ _ _ _ _ _ _ _ _ _ Hflat Hp) as (k & Hk & Hcase).
  intros k' c' z Hk' Hc'. rewrite (sees_eval _ _ _ _ _ _ Hs Hk) in Hk'. injection Hk' as <-. rewrite HcE in Hc'. injection Hc' as <-.
  destruct Hcase as [[Hne Hq]|[(-> & -> & Hq)|[(-> & Hnn & Hi & z' & Hz' & Hq)|(-> & Hnn & Hi & l & z' & Hl & Hz' & Hq)]]].
  - rewrite Hq in Hx. by split_and!.
  - rewrite Hq in Hx. split_and!; done.
  - apply negb_false_iff, Z.eqb_eq in Hi. split_and!; try done. intros _ _ Hz.
    rewrite (sees_eval _ _ _ _ _ _ Hs Hz') in Hz. injection Hz as <-.
    destruct Hq as [[Hle Hq]|[Hlt [s Hq]]]; rewrite Hq in Hx; (split_and!; [lia || done..|]); lia.
  - apply negb_true_iff, Z.eqb_neq in Hi. split_and!; try done. intros _ _ Hz.
    assert (view_of (TPtr tr n dl el) v m = VMem l) as Hview.
    { cbn. by rewrite (proj2 (Z.eqb_neq _ _) Hnn), Hl. }
    rewrite Hview in Hs. rewrite (sees_eval_self _ _ _ _ _ _ Hs Hz') in Hz. injection Hz as <-.
    destruct Hq as [[Hle Hq]|[Hlt Hq]]; rewrite Hq in Hx; split_and!; try lia; try done.
    intros _ _. cbn in Hx. destruct Hx as [Hx0 Hb]. split; [done|]. destruct (Hget _ _ Hb) as [tail Ht]. by exists l, tail.
Qed.

Lemma checked_flat l : ∀ ks ks' a, check_args ks l = Some ks' → a ∈ l → flat_type (a_type a) = true.
Proof.
  intros ks ks' a Hck Ha. destruct (check_args_In _ _ _ _ Hck Ha) as [ks0 Hc]. unfold check_arg in Hc.
  apply andb_true_iff in Hc as [_ Hc]. destruct (a_type a); [done|]. by apply andb_true_iff in Hc as [? _].
Qed.

(** ** The call of a checked function *)

Section sends.
Context {A B} `{Channel A} `{Channel B} {conn : A → B → Prop} `{!Link A B conn} `{Toposort}.
Variables (api : Z) (functions callbacks : list func).

(** A call that the caller may make: typed arguments, objects of the annotated sizes, and a
    channel that has room for them. *)
Record callable (f : func) (thread : Z) (args : gmap string Z) (g : guest A) : Prop := {
  ca_typed : ∀ a v, a ∈ f_arguments f → args !! a_name a = Some v → fits (a_type a) v;
  ca_mem : mem_ok (g_mem g);
  ca_provided : ∀ a, a ∈ f_arguments f → provided (arg_env (ordered f) args (g_mem g) true) (g_mem g) args a;
  ca_size : objects_size (g_mem g) args (ordered f) < 2 ^ 64;
  ca_room : ∀ total, 0 ≤ total ≤ objects_size (g_mem g) args (ordered f) →
    room (conn := conn) (sizeof_struct (call_types (ordered f))) total;
  ca_async : ∃ c, eval (arg_env (ordered f) args (g_mem g) true) (f_async f) = Ok c;
  ca_thread : in_srange 64 thread
}.

(** The command that the worker receives for it. *)
Definition received_call (f : func) (thread : Z) (args : gmap string Z) (m : mem) (b : B)
    (call_id : Z) (cmd : command) : Prop :=
  header_of cmd = (api, f_call_id f, thread, thread) ∧
  command_size (cmd_base cmd) = sizeof_struct (call_types (ordered f)) ∧
  handle_case functions callbacks (command_id (cmd_base cmd)) = Ok (CaseCall f) ∧
  ∃ fields, unpack 0 (call_types (ordered f)) (cmd_rest cmd) = call_id :: fields ∧
    Forall2 (λ a x, ∃ v, args !! a_name a = Some v ∧
      arrives (arg_env (ordered f) args m true) m (command_channel_get_buffer b cmd) a v x)
      (ordered f) fields.

Lemma arrive_all m args E get bufs order : (∀ a, a ∈ order → flat_type (a_type a) = true) →
  (∀ id d, bufs !! id = Some d → ∃ tail, get id = Some (d ++ tail)) →
  ∀ ps fields, Forall2 (planned m args E) order ps →
  Forall2 (λ ap x, carries bufs (a_type ap.1) ap.2.2 x) (zip order ps) fields →
  Forall2 (λ a x, ∃ v, args !! a_name a = Some v ∧ arrives E m get a v x) order fields.
Proof.
  intros Hflat Hget ps fields Hpl. revert fields.
  induction Hpl as [|a p order ps Hp Hpl IH]; intros fields Hc; [by inversion Hc|].
  cbn in Hc. apply Forall2_cons_inv_l in Hc as (x & fields' & Hx & Hc & ->).
  constructor; [|apply IH; [intros b Hb; apply Hflat; by right|done]].
  pose proof Hp as (c & v & _ & Hv & _). exists v. split; [done|]. eapply planned_arrives; [apply Hflat; by left|done..].
Qed.

(** The stub hands one command to the send code; when that sends it, the worker receives the call. *)
Lemma checked_call_sent f thread args (g : guest A) (b : B) hb :
  ids_ok functions callbacks → in_range 8 api → f ∈ functions → in_range 64 (f_call_id f) →
  check_func f = true → callable f thread args g → conn (g_chan g) b → guest_ok 1 g →
  ∃ c record ch h cmd ch1 h1 a' b1 b2 rcvd,
    eval (arg_env (ordered f) args (g_mem g) true) (f_async f) = Ok c ∧
    (∀ T (send : bool → command → A → heap → T → res (A * heap * T)) (s : T),
      function_implementation_with [] send f (ordered f) api thread args g s =
        ('(ch, h, s) ← send (negb (c =? 0)) cmd ch h s;
         Ok (call_counter (g_endpoint g), record, sent_state args c g ch h, s))) ∧
    command_channel_send_command ch h cmd = Ok (ch1, h1) ∧ deliver ch1 b = (a', b1) ∧
    command_channel_receive_command b1 hb = Ok (Some rcvd, b2, (malloc hb).2) ∧ conn a' b2 ∧
    received_call f thread args (g_mem g) b2 (call_counter (g_endpoint g)) rcvd.
Proof.
  intros Hids Hapi Hf Hcid Hck [Hty Hm Hprov Hsize Hroom [c Hasync] Hth] Hconn [[Hheap _] _ Hcalls Hctr].
  destruct (check_func_inv f Hck) as (order & ks & Htopo & Hnd & Hargs & Hok).
  assert (ordered f = order) as Hord by (unfold ordered; by rewrite Htopo).
  pose proof (toposort_perm _ _ Htopo) as Hperm. rewrite Hord in *.
  assert (call_ok f order args (g_mem g)) as Hcall.
  { apply Hok; [|done]. intros a v Ha. apply Hty. by rewrite <- Hperm. }
  set (E := arg_env order args (g_mem g) true) in *.
  assert (∀ a, a ∈ order → provided E (g_mem g) args a) as Hprov' by (intros a Ha; apply Hprov; by rewrite <- Hperm).
  destruct (plan_checked_args (g_mem g) args order Hnd Hprov' order [] (no_env true) ks [] Hnd) as (R & ps & Hplan & _).
  { intros a Ha. split; [done|set_solver]. } { split_and!; try done. intros x Hx. by apply not_elem_of_nil in Hx. } { done. }
  destruct (plan_args_spec (g_mem g) args order Hnd order (λ _, False) (no_env true) [] R ps)
    as (qs & Hqs & Hpl & _); [done|by split_and!|done|]. cbn [app] in Hqs. subst qs.
  assert (∀ a, a ∈ order → flat_type (a_type a) = true) as Hflat by (intros a; by apply (checked_flat _ _ _ _ Hargs)).
  pose proof (msizes_objects _ _ _ _ _ Hflat Hpl) as Hle.
  pose proof (msizes_nonneg_all order ps) as Hnn.
  assert (call_map (g_endpoint g) !! call_counter (g_endpoint g) = None) as Hfree.
  { destruct (call_map (g_endpoint g) !! _) eqn:Hl; [|done]. specialize (Hcalls _ (mk_is_Some _ _ Hl)). lia. }
  destruct (guest_hands_over f order api thread args g b hb R ps c Hcall Hconn Hplan Hasync) as
    (ch0 & cmd & ch1 & h1 & ch2 & b1 & rcvd & b2 & bufs & fields & Hfun & Hsend & Hdel & Hrcv & Hcn & _ & _ & _ & Hhdr & Hcs & Hun & Hca & _ & Hget);
    try done; [lia|apply Hroom; lia|unfold in_srange; lia|].
  eexists c, _, ch0, _, cmd, ch1, h1, ch2, b1, b2, rcvd. split; [done|]. split; [exact Hfun|]. split_and!; try done.
  unfold received_call. rewrite Hord. split_and!; try done.
  - injection Hhdr as _ -> _ _. by apply handle_case_call.
  - exists fields. split; [done|]. by eapply arrive_all.
Qed.
End sends.
