(* ===== verification/SpecOpenCLAsync.v ===== *)
(** * The specification of OpenCL with asynchronous calls (cava/samples/opencl.async.nw.c)

    The annotated functions as values of [func].  [scalar n s] is a value of [n] bytes, signed if
    [s]; the widths of the API's types are those of its public header. *)

From S2P Require Import Prelude Cava SpecCheck.
Local Open Scope Z_scope.

(** [#define ava_in_out_buffer(x, y)], for a count of type [t]. *)
Definition ava_in_out_buffer (t : cint) (x y : string) : cexpr :=
  let count := ECond (EIsNull (RArg y)) (var x) (EAt t (RArg y) (EInt 0)) in
  ECond EIsIn (var x) (ECond (EOp t OLt (var x) count) (var x) count).

(** The utility function returns 0 whatever its arguments are; its call is an expression, where
    the literal 0 would be the absence of a buffer. *)
Definition clEnqueueRWImage_ptr_size : cexpr := EOp size_t OAdd (EInt 0) (EInt 0).


Definition clGetPlatformIDs : func := declare 1 "clGetPlatformIDs"
  [arg "num_entries" (scalar 4 false);
   arg_out "platforms" (buffer (ava_in_out_buffer uint "num_entries" "num_platforms") handle) ["num_entries"; "num_platforms"];
   arg_out "num_platforms" (buffer (EInt 1) (scalar 4 false)) []]
  (Some (scalar 4 true)) sync (Some 0).

Definition clGetPlatformInfo : func := declare 2 "clGetPlatformInfo"
  [arg "platform" handle; arg "param_name" (scalar 4 false); arg "param_value_size" (scalar 8 false);
   arg_out "param_value" (buffer (ava_in_out_buffer size_t "param_value_size" "param_value_size_ret") (scalar 1 false)) ["param_value_size"; "param_value_size_ret"];
   arg_out "param_value_size_ret" (buffer (EInt 1) (scalar 8 false)) []]
  (Some (scalar 4 true)) sync (Some 0).

Definition clCreateProgramWithSource : func := declare 3 "clCreateProgramWithSource"
  [arg "context" handle; arg "count" (scalar 4 false);
   arg_in "strings" (buffer (var "count") (buffer (ECond (EAndb (ENot (EIsNull (RArg "lengths"))) (EAt size_t (RArg "lengths") EIndex)) (EAt size_t (RArg "lengths") EIndex) (EOp size_t OAdd (EStrlen RElem) (EInt 1))) (scalar 1 true))) ["count"; "lengths"];
   arg_in "lengths" (buffer (var "count") (scalar 8 false)) ["count"];
   arg_out "errcode_ret" (buffer (EInt 1) (scalar 4 true)) []]
  (Some handle) sync None.

Definition clReleaseProgram : func := declare 4 "clReleaseProgram"
  [arg "program" freed_handle]
  (Some (scalar 4 true)) async (Some 0).

Definition clEnqueueWriteImage : func := declare 5 "clEnqueueWriteImage"
  [arg "command_queue" handle; arg "image" handle; arg "blocking_write" (scalar 4 false);
   arg_in "origin" (buffer (EInt 3) (scalar 8 false)) [];
   arg_in "region" (buffer (EInt 3) (scalar 8 false)) []; arg "input_row_pitch" (scalar 8 false);
   arg "input_slice_pitch" (scalar 8 false);
   arg_in "ptr" (buffer clEnqueueRWImage_ptr_size (scalar 1 false)) ["region"; "input_row_pitch"; "input_slice_pitch"];
   arg "num_events_in_wait_list" (scalar 4 false);
   arg_in "event_wait_list" (buffer (var "num_events_in_wait_list") handle) ["num_events_in_wait_list"];
   arg_out "event" (buffer (EInt 1) handle) []]
  (Some (scalar 4 true)) (ECond (EOp uint OEq (var "blocking_write") (EInt 1)) (EInt 0) (EInt 1)) (Some 0).

Definition clGetDeviceIDs : func := declare 6 "clGetDeviceIDs"
  [arg "platform" handle; arg "device_type" (scalar 8 false); arg "num_entries" (scalar 4 false);
   arg_out "devices" (buffer (ava_in_out_buffer uint "num_entries" "num_devices") handle) ["platform"; "num_entries"; "num_devices"];
   arg_out "num_devices" (buffer (EInt 1) (scalar 4 false)) []]
  (Some (scalar 4 true)) sync (Some 0).

Definition clGetDeviceInfo : func := declare 7 "clGetDeviceInfo"
  [arg "device" handle; arg "param_name" (scalar 4 false); arg "param_value_size" (scalar 8 false);
   arg_out "param_value" (buffer (ava_in_out_buffer size_t "param_value_size" "param_value_size_ret") (scalar 1 false)) ["param_value_size"; "param_value_size_ret"];
   arg_out "param_value_size_ret" (buffer (EInt 1) (scalar 8 false)) []]
  (Some (scalar 4 true)) sync (Some 0).

Definition clReleaseContext : func := declare 11 "clReleaseContext"
  [arg "context" freed_handle]
  (Some (scalar 4 true)) async (Some 0).

Definition clCreateCommandQueue : func := declare 12 "clCreateCommandQueue"
  [arg "context" handle; arg "device" handle; arg "properties" (scalar 8 false);
   arg_out "errcode_ret" (buffer (EInt 1) (scalar 4 true)) []]
  (Some handle) sync None.

Definition clReleaseCommandQueue : func := declare 13 "clReleaseCommandQueue"
  [arg "command_queue" freed_handle]
  (Some (scalar 4 true)) async (Some 0).

Definition clCreateKernel : func := declare 14 "clCreateKernel"
  [arg "program" handle; arg_in "kernel_name" (buffer (string_size "kernel_name") (scalar 1 true)) [];
   arg_out "errcode_ret" (buffer (EInt 1) (scalar 4 true)) []]
  (Some handle) sync None.

Definition clReleaseKernel : func := declare 15 "clReleaseKernel"
  [arg "kernel" freed_handle]
  (Some (scalar 4 true)) sync (Some 0).

Definition clGetProgramBuildInfo : func := declare 17 "clGetProgramBuildInfo"
  [arg "program" handle; arg "device" handle; arg "param_name" (scalar 4 false);
   arg "param_value_size" (scalar 8 false);
   arg_out "param_value" (buffer (ava_in_out_buffer size_t "param_value_size" "param_value_size_ret") (scalar 1 false)) ["param_value_size"; "param_value_size_ret"];
   arg_out "param_value_size_ret" (buffer (EInt 1) (scalar 8 false)) []]
  (Some (scalar 4 true)) sync (Some 0).

Definition clCreateBuffer : func := declare 18 "clCreateBuffer"
  [arg "context" handle; arg "flags" (scalar 8 false); arg "size" (scalar 8 false);
   arg_in "host_ptr" (buffer (var "size") (scalar 1 false)) ["size"];
   arg_out "errcode_ret" (buffer (EInt 1) (scalar 4 true)) []]
  (Some handle) sync None.

Definition clReleaseMemObject : func := declare 19 "clReleaseMemObject"
  [arg "memobj" freed_handle]
  (Some (scalar 4 true)) async (Some 0).

Definition clEnqueueCopyBufferToImage : func := declare 22 "clEnqueueCopyBufferToImage"
  [arg "command_queue" handle; arg "src_buffer" handle; arg "dst_image" handle;
   arg "src_offset" (scalar 8 false); arg_in "dst_origin" (buffer (EInt 3) (scalar 8 false)) [];
   arg_in "region" (buffer (EInt 3) (scalar 8 false)) []; arg "num_events_in_wait_list" (scalar 4 false);
   arg_in "event_wait_list" (buffer (var "num_events_in_wait_list") handle) ["num_events_in_wait_list"];
   arg_out "event" (buffer (EInt 1) handle) []]
  (Some (scalar 4 true)) sync (Some 0).

Definition clReleaseEvent : func := declare 26 "clReleaseEvent"
  [arg "event" freed_handle]
  (Some (scalar 4 true)) async (Some 0).

Definition clGetEventProfilingInfo : func := declare 27 "clGetEventProfilingInfo"
  [arg "event" handle; arg "param_name" (scalar 4 false); arg "param_value_size" (scalar 8 false);
   arg_out "param_value" (buffer (ava_in_out_buffer size_t "param_value_size" "param_value_size_ret") (scalar 1 false)) ["param_value_size"; "param_value_size_ret"];
   arg_out "param_value_size_ret" (buffer (EInt 1) (scalar 8 false)) []]
  (Some (scalar 4 true)) sync (Some 0).

Definition clEnqueueCopyBuffer : func := declare 30 "clEnqueueCopyBuffer"
  [arg "command_queue" handle; arg "src_buffer" handle; arg "dst_buffer" handle;
   arg "src_offset" (scalar 8 false); arg "dst_offset" (scalar 8 false); arg "size" (scalar 8 false);
   arg "num_events_in_wait_list" (scalar 4 false);
   arg_in "event_wait_list" (buffer (var "num_events_in_wait_list") handle) ["num_events_in_wait_list"];
   arg_out "event" (buffer (EInt 1) handle) []]
  (Some (scalar 4 true)) (ECond (EIsNull (RArg "event")) (EInt 1) (EInt 0)) (Some 0).

Definition clEnqueueReadBuffer : func := declare 31 "clEnqueueReadBuffer"
  [arg "command_queue" handle; arg "buffer" handle; arg "blocking_read" (scalar 4 false);
   arg "offset" (scalar 8 false); arg "size" (scalar 8 false);
   arg_out "ptr" (buffer (var "size") (scalar 1 false)) ["size"];
   arg "num_events_in_wait_list" (scalar 4 false);
   arg_in "event_wait_list" (buffer (var "num_events_in_wait_list") handle) ["num_events_in_wait_list"];
   arg_out "event" (buffer (EInt 1) handle) []]
  (Some (scalar 4 true)) (ECond (EOp uint OEq (var "blocking_read") (EInt 1)) (EInt 0) (EInt 1)) (Some 0).

Definition clEnqueueWriteBuffer : func := declare 32 "clEnqueueWriteBuffer"
  [arg "command_queue" handle; arg "buffer" handle; arg "blocking_write" (scalar 4 false);
   arg "offset" (scalar 8 false); arg "cb" (scalar 8 false);
   arg_in "ptr" (buffer (var "cb") (scalar 1 false)) ["cb"];
   arg "num_events_in_wait_list" (scalar 4 false);
   arg_in "event_wait_list" (buffer (var "num_events_in_wait_list") handle) ["num_events_in_wait_list"];
   arg_out "event" (buffer (EInt 1) handle) []]
  (Some (scalar 4 true)) (ECond (EOp uint OEq (var "blocking_write") (EInt 1)) (EInt 0) (EInt 1)) (Some 0).

Definition clEnqueueTask : func := declare 34 "clEnqueueTask"
  [arg "command_queue" handle; arg "kernel" handle; arg "num_events_in_wait_list" (scalar 4 false);
   arg_in "event_wait_list" (buffer (var "num_events_in_wait_list") handle) ["num_events_in_wait_list"];
   arg_out "event" (buffer (EInt 1) handle) []]
  (Some (scalar 4 true)) (ECond (EIsNull (RArg "event")) (EInt 1) (EInt 0)) (Some 0).

Definition clEnqueueNDRangeKernel : func := declare 35 "clEnqueueNDRangeKernel"
  [arg "command_queue" handle; arg "kernel" handle; arg "work_dim" (scalar 4 false);
   arg_in "global_work_offset" (buffer (var "work_dim") (scalar 8 false)) ["work_dim"];
   arg_in "global_work_size" (buffer (var "work_dim") (scalar 8 false)) ["work_dim"];
   arg_in "local_work_size" (buffer (var "work_dim") (scalar 8 false)) ["work_dim"];
   arg "num_events_in_wait_list" (scalar 4 false);
   arg_in "event_wait_list" (buffer (var "num_events_in_wait_list") handle) ["num_events_in_wait_list"];
   arg_out "event" (buffer (EInt 1) handle) []]
  (Some (scalar 4 true)) (ECond (EIsNull (RArg "event")) (EInt 1) (EInt 0)) (Some 0).

Definition clFinish : func := declare 36 "clFinish"
  [arg "command_queue" handle]
  (Some (scalar 4 true)) sync (Some 0).

Definition clFlush : func := declare 37 "clFlush"
  [arg "command_queue" handle]
  (Some (scalar 4 true)) async (Some 0).

Definition clGetKernelWorkGroupInfo : func := declare 38 "clGetKernelWorkGroupInfo"
  [arg "kernel" handle; arg "device" handle; arg "param_name" (scalar 4 false);
   arg "param_value_size" (scalar 8 false);
   arg_out "param_value" (buffer (ava_in_out_buffer size_t "param_value_size" "param_value_size_ret") (scalar 1 false)) ["param_value_size"; "param_value_size_ret"];
   arg_out "param_value_size_ret" (buffer (EInt 1) (scalar 8 false)) []]
  (Some (scalar 4 true)) sync (Some 0).

Definition opencl_async_functions : list func :=
  [clGetPlatformIDs; clGetPlatformInfo; clCreateProgramWithSource; clReleaseProgram; clEnqueueWriteImage;
   clGetDeviceIDs; clGetDeviceInfo; clReleaseContext; clCreateCommandQueue; clReleaseCommandQueue;
   clCreateKernel; clReleaseKernel; clGetProgramBuildInfo; clCreateBuffer; clReleaseMemObject;
   clEnqueueCopyBufferToImage; clReleaseEvent; clGetEventProfilingInfo; clEnqueueCopyBuffer;
   clEnqueueReadBuffer; clEnqueueWriteBuffer; clEnqueueTask; clEnqueueNDRangeKernel; clFinish; clFlush;
   clGetKernelWorkGroupInfo].
