(* ===== verification/SpecCuda.v ===== *)
(** * The specification of the CUDA driver (cava/samples/cuda.nw.c)

    The annotated functions as values of [func].  [scalar n s] is a value of [n] bytes, signed if
    [s]; the widths of the API's types are those of its public header. *)

From S2P Require Import Prelude Cava SpecCheck.
Local Open Scope Z_scope.


Definition cuInit : func := declare 0 "cuInit"
  [arg "Flags" (scalar 4 false)]
  (Some (scalar 4 false)) sync None.

Definition cuDeviceGet : func := declare 1 "cuDeviceGet"
  [arg_out "device" (buffer (EInt 1) (scalar 4 true)) []; arg "ordinal" (scalar 4 true)]
  (Some (scalar 4 false)) sync None.

Definition cuCtxCreate : func := declare 2 "cuCtxCreate"
  [arg_out "pctx" (buffer (EInt 1) handle) []; arg "flags" (scalar 4 false); arg "dev" (scalar 4 true)]
  (Some (scalar 4 false)) sync None.

Definition cuModuleUnload : func := declare 4 "cuModuleUnload"
  [arg "hmod" handle]
  (Some (scalar 4 false)) sync None.

Definition cuModuleGetFunction : func := declare 5 "cuModuleGetFunction"
  [arg_out "hfunc" (buffer (EInt 1) handle) []; arg "hmod" handle;
   arg_in "name" (buffer (string_size "name") (scalar 1 true)) []]
  (Some (scalar 4 false)) sync None.

Definition cuCtxDestroy : func := declare 7 "cuCtxDestroy"
  [arg "ctx" freed_handle]
  (Some (scalar 4 false)) sync None.

Definition cuMemAlloc : func := declare 8 "cuMemAlloc"
  [arg_out "dptr" (buffer (EInt 1) (scalar 8 false)) []; arg "bytesize" (scalar 8 false)]
  (Some (scalar 4 false)) sync None.

Definition cuMemcpyHtoD : func := declare 9 "cuMemcpyHtoD"
  [arg "dstDevice" (scalar 8 false);
   arg_in "srcHost" (buffer (var "ByteCount") (scalar 1 false)) ["ByteCount"];
   arg "ByteCount" (scalar 8 false)]
  (Some (scalar 4 false)) sync None.

Definition cuMemcpyDtoH : func := declare 10 "cuMemcpyDtoH"
  [arg_out "dstHost" (buffer (var "ByteCount") (scalar 1 false)) ["ByteCount"];
   arg "srcDevice" (scalar 8 false); arg "ByteCount" (scalar 8 false)]
  (Some (scalar 4 false)) sync None.

Definition cuCtxSynchronize : func := declare 11 "cuCtxSynchronize"
  []
  (Some (scalar 4 false)) sync None.

Definition cuDriverGetVersion : func := declare 12 "cuDriverGetVersion"
  [arg_out "driverVersion" (buffer (EInt 1) (scalar 4 true)) []]
  (Some (scalar 4 false)) sync None.

Definition cuMemFree : func := declare 13 "cuMemFree"
  [arg "dptr" (TVal 8 8 false (EInt NW_OPAQUE) (EInt 1))]
  (Some (scalar 4 false)) sync None.

Definition cuModuleGetGlobal : func := declare 14 "cuModuleGetGlobal"
  [arg_out "dptr" (buffer (EInt 1) (scalar 8 false)) [];
   arg_out "bytes" (buffer (EInt 1) (scalar 8 false)) []; arg "hmod" handle;
   arg_in "name" (buffer (string_size "name") (scalar 1 true)) []]
  (Some (scalar 4 false)) sync None.

Definition cuDeviceGetCount : func := declare 15 "cuDeviceGetCount"
  [arg_out "count" (buffer (EInt 1) (scalar 4 true)) []]
  (Some (scalar 4 false)) sync None.

Definition cuda_functions : list func :=
  [cuInit; cuDeviceGet; cuCtxCreate; cuModuleUnload; cuModuleGetFunction; cuCtxDestroy; cuMemAlloc;
   cuMemcpyHtoD; cuMemcpyDtoH; cuCtxSynchronize; cuDriverGetVersion; cuMemFree; cuModuleGetGlobal;
   cuDeviceGetCount].
