(* ===== verification/SpecCudartOpt.v ===== *)
(** * The specification of the CUDA runtime with preloaded dumps (cava/samples/cudart.opt.c)

    The annotated functions as values of [func].  [scalar n s] is a value of [n] bytes, signed if
    [s]; the widths of the API's types are those of its public header. *)

From S2P Require Import Prelude Cava SpecCheck.
Local Open Scope Z_scope.


Definition __cudaInitModule : func := declare 0 "__cudaInitModule"
  [arg_in "fatCubinHandle" (buffer (EInt 1) handle) []]
  (Some (scalar 1 true)) sync None.

Definition __cudaUnregisterFatBinary : func := declare 2 "__cudaUnregisterFatBinary"
  [arg_in "fatCubinHandle" (buffer (EInt 1) handle) []]
  None sync None.

Definition cudaMalloc : func := declare 6 "cudaMalloc"
  [arg_out "devPtr" (buffer (EInt 1) (scalar 8 false)) []; arg "size" (scalar 8 false)]
  (Some (scalar 4 false)) sync (Some 0).

Definition cudaMemcpy : func := declare 7 "cudaMemcpy"
  [mk_arg "dst" (TPtr (ECond (EOp uint OEq (var "kind") (EInt 1)) (EInt NW_OPAQUE) (ECond (EOp uint OEq (var "kind") (EInt 2)) (EInt NW_BUFFER) (EInt NW_OPAQUE))) (ECond (EOp uint OEq (var "kind") (EInt 1)) (EInt 0) (ECond (EOp uint OEq (var "kind") (EInt 2)) (var "count") (EInt 0))) (EInt 0) (scalar 1 false)) (EInt 0) (ECond (EOp uint OEq (var "kind") (EInt 1)) (EInt 0) (ECond (EOp uint OEq (var "kind") (EInt 2)) (EInt 1) (EInt 0))) ["count"; "kind"] false;
   mk_arg "src" (TPtr (ECond (EOp uint OEq (var "kind") (EInt 1)) (EInt NW_BUFFER) (EInt NW_OPAQUE)) (ECond (EOp uint OEq (var "kind") (EInt 1)) (var "count") (EInt 0)) (EInt 0) (scalar 1 false)) (ECond (EOp uint OEq (var "kind") (EInt 1)) (EInt 1) (EInt 0)) (EInt 0) ["count"; "kind"] false;
   arg "count" (scalar 8 false); arg "kind" (scalar 4 false)]
  (Some (scalar 4 false)) sync (Some 0).

Definition cudaFree : func := declare 8 "cudaFree"
  [arg "devPtr" opaque_ptr]
  (Some (scalar 4 false)) sync (Some 0).

Definition cudaGetDevice : func := declare 9 "cudaGetDevice"
  [arg_out "device" (buffer (EInt 1) (scalar 4 true)) []]
  (Some (scalar 4 false)) sync (Some 0).

Definition cudaGetDeviceCount : func := declare 10 "cudaGetDeviceCount"
  [arg_out "count" (buffer (EInt 1) (scalar 4 true)) []]
  (Some (scalar 4 false)) sync (Some 0).

Definition cudaDeviceGetAttribute : func := declare 12 "cudaDeviceGetAttribute"
  [arg_out "value" (buffer (EInt 1) (scalar 4 true)) []; arg "attr" (scalar 4 false);
   arg "device" (scalar 4 true)]
  (Some (scalar 4 false)) sync (Some 0).

Definition cudaDeviceReset : func := declare 13 "cudaDeviceReset"
  []
  (Some (scalar 4 false)) sync (Some 0).

Definition cudaSetDevice : func := declare 14 "cudaSetDevice"
  [arg "device" (scalar 4 true)]
  (Some (scalar 4 false)) sync (Some 0).

Definition cudaMemcpyToSymbol : func := declare 15 "cudaMemcpyToSymbol"
  [arg "symbol" opaque_ptr; arg_in "src" (buffer (var "count") (scalar 1 false)) ["count"];
   arg "count" (scalar 8 false); arg "offset" (scalar 8 false); arg "kind" (scalar 4 false)]
  (Some (scalar 4 false)) sync (Some 0).

Definition cudaMemcpyAsync : func := declare 16 "cudaMemcpyAsync"
  [mk_arg "dst" (TPtr (ECond (EOp uint OEq (var "kind") (EInt 1)) (EInt NW_HANDLE) (ECond (EOp uint OEq (var "kind") (EInt 2)) (EInt NW_BUFFER) (EInt NW_OPAQUE))) (ECond (EOp uint OEq (var "kind") (EInt 1)) (EInt 0) (ECond (EOp uint OEq (var "kind") (EInt 2)) (var "count") (EInt 0))) (EInt 0) (scalar 1 false)) (EInt 0) (ECond (EOp uint OEq (var "kind") (EInt 1)) (EInt 0) (ECond (EOp uint OEq (var "kind") (EInt 2)) (EInt 1) (EInt 0))) ["count"; "kind"] false;
   mk_arg "src" (TPtr (ECond (EOp uint OEq (var "kind") (EInt 1)) (EInt NW_BUFFER) (ECond (EOp uint OEq (var "kind") (EInt 2)) (EInt NW_HANDLE) (EInt NW_OPAQUE))) (ECond (EOp uint OEq (var "kind") (EInt 1)) (var "count") (EInt 0)) (EInt 0) (scalar 1 false)) (ECond (EOp uint OEq (var "kind") (EInt 1)) (EInt 1) (EInt 0)) (EInt 0) ["count"; "kind"] false;
   arg "count" (scalar 8 false); arg "kind" (scalar 4 false); arg "stream" handle]
  (Some (scalar 4 false)) sync (Some 0).

Definition cudaMemset : func := declare 17 "cudaMemset"
  [arg "devPtr" handle; arg "value" (scalar 4 true); arg "count" (scalar 8 false)]
  (Some (scalar 4 false)) sync (Some 0).

Definition cudaDeviceSynchronize : func := declare 19 "cudaDeviceSynchronize"
  []
  (Some (scalar 4 false)) sync (Some 0).

Definition cudaEventCreate : func := declare 20 "cudaEventCreate"
  [arg_out "event" (buffer (EInt 1) handle) []]
  (Some (scalar 4 false)) sync (Some 0).

Definition cudaEventRecord : func := declare 21 "cudaEventRecord"
  [arg "event" handle; arg "stream" handle]
  (Some (scalar 4 false)) sync (Some 0).

Definition cudaEventQuery : func := declare 22 "cudaEventQuery"
  [arg "event" handle]
  (Some (scalar 4 false)) sync (Some 0).

Definition cudaEventElapsedTime : func := declare 23 "cudaEventElapsedTime"
  [arg_out "ms" (buffer (EInt 1) (scalar 4 false)) []; arg "start" handle; arg "end" handle]
  (Some (scalar 4 false)) sync (Some 0).

Definition cudaEventDestroy : func := declare 24 "cudaEventDestroy"
  [arg "event" handle]
  (Some (scalar 4 false)) sync (Some 0).

Definition cudaEventSynchronize : func := declare 26 "cudaEventSynchronize"
  [arg "event" handle]
  (Some (scalar 4 false)) sync (Some 0).

Definition cudaGetLastError : func := declare 27 "cudaGetLastError"
  []
  (Some (scalar 4 false)) sync (Some 0).

Definition cudaMemGetInfo : func := declare 29 "cudaMemGetInfo"
  [arg_out "_free" (buffer (EInt 1) (scalar 8 false)) [];
   arg_out "total" (buffer (EInt 1) (scalar 8 false)) []]
  (Some (scalar 4 false)) sync (Some 0).

Definition cuInit : func := declare 30 "cuInit"
  [arg "Flags" (scalar 4 false)]
  (Some (scalar 4 false)) sync (Some 0).

Definition cuModuleGetFunction : func := declare 31 "cuModuleGetFunction"
  [arg_out "hfunc" (buffer (EInt 1) handle) []; arg "hmod" handle;
   arg_in "name" (buffer (string_size "name") (scalar 1 true)) []]
  (Some (scalar 4 false)) sync (Some 0).

Definition cuDeviceGetCount : func := declare 34 "cuDeviceGetCount"
  [arg_out "count" (buffer (EInt 1) (scalar 4 true)) []]
  (Some (scalar 4 false)) sync (Some 0).

Definition cuDeviceGet : func := declare 35 "cuDeviceGet"
  [arg_out "device" (buffer (EInt 1) (scalar 4 true)) []; arg "ordinal" (scalar 4 true)]
  (Some (scalar 4 false)) sync (Some 0).

Definition cuDeviceCanAccessPeer : func := declare 36 "cuDeviceCanAccessPeer"
  [arg_out "canAccessPeer" (buffer (EInt 1) (scalar 4 true)) []; arg "dev" (scalar 4 true);
   arg "peerDev" (scalar 4 true)]
  (Some (scalar 4 false)) sync (Some 0).

Definition cuCtxGetDevice : func := declare 37 "cuCtxGetDevice"
  [arg_out "device" (buffer (EInt 1) (scalar 4 true)) []]
  (Some (scalar 4 false)) sync (Some 0).

Definition cuDeviceGetName : func := declare 38 "cuDeviceGetName"
  [arg_out "name" (buffer (var "len") (scalar 1 true)) ["len"]; arg "len" (scalar 4 true);
   arg "dev" (scalar 4 true)]
  (Some (scalar 4 false)) sync (Some 0).

Definition cuDeviceGetAttribute : func := declare 40 "cuDeviceGetAttribute"
  [arg_out "pi" (buffer (EInt 1) (scalar 4 true)) []; arg "attrib" (scalar 4 false);
   arg "dev" (scalar 4 true)]
  (Some (scalar 4 false)) sync (Some 0).

Definition cuDevicePrimaryCtxGetState : func := declare 41 "cuDevicePrimaryCtxGetState"
  [arg "dev" (scalar 4 true); arg_out "flags" (buffer (EInt 1) (scalar 4 false)) [];
   arg_out "active" (buffer (EInt 1) (scalar 4 true)) []]
  (Some (scalar 4 false)) sync (Some 0).

Definition cuDevicePrimaryCtxSetFlags : func := declare 42 "cuDevicePrimaryCtxSetFlags"
  [arg "dev" (scalar 4 true); arg "flags" (scalar 4 false)]
  (Some (scalar 4 false)) sync (Some 0).

Definition cuCtxCreate : func := declare 43 "cuCtxCreate"
  [arg_out "pctx" (buffer (EInt 1) handle) []; arg "flags" (scalar 4 false); arg "dev" (scalar 4 true)]
  (Some (scalar 4 false)) sync (Some 0).

Definition cuCtxDestroy : func := declare 44 "cuCtxDestroy"
  [arg "ctx" freed_handle]
  (Some (scalar 4 false)) sync (Some 0).

Definition cuCtxGetCurrent : func := declare 45 "cuCtxGetCurrent"
  [arg_out "pctx" (buffer (EInt 1) handle) []]
  (Some (scalar 4 false)) sync (Some 0).

Definition cuCtxSetCurrent : func := declare 46 "cuCtxSetCurrent"
  [arg "ctx" handle]
  (Some (scalar 4 false)) sync (Some 0).

Definition cuDevicePrimaryCtxRetain : func := declare 47 "cuDevicePrimaryCtxRetain"
  [arg_out "pctx" (buffer (EInt 1) handle) []; arg "dev" (scalar 4 true)]
  (Some (scalar 4 false)) sync (Some 0).

Definition cuDevicePrimaryCtxRelease : func := declare 48 "cuDevicePrimaryCtxRelease"
  [arg "dev" (TVal 4 4 true (EInt NW_HANDLE) (EInt 0))]
  (Some (scalar 4 false)) sync (Some 0).

Definition cuCtxSynchronize : func := declare 49 "cuCtxSynchronize"
  []
  (Some (scalar 4 false)) sync (Some 0).

Definition cuCtxPushCurrent : func := declare 50 "cuCtxPushCurrent"
  [arg "ctx" handle]
  (Some (scalar 4 false)) sync (Some 0).

Definition cuCtxPopCurrent : func := declare 51 "cuCtxPopCurrent"
  [arg_out "pctx" (buffer (EInt 1) handle) []]
  (Some (scalar 4 false)) sync (Some 0).

Definition cuStreamCreate : func := declare 52 "cuStreamCreate"
  [arg_out "phStream" (buffer (EInt 1) handle) []; arg "Flags" (scalar 4 false)]
  (Some (scalar 4 false)) sync (Some 0).

Definition cuStreamGetCtx : func := declare 53 "cuStreamGetCtx"
  [arg "hStream" handle; arg_out "pctx" (buffer (EInt 1) handle) []]
  (Some (scalar 4 false)) sync (Some 0).

Definition cuStreamQuery : func := declare 54 "cuStreamQuery"
  [arg "hStream" handle]
  (Some (scalar 4 false)) sync (Some 0).

Definition cuStreamDestroy : func := declare 55 "cuStreamDestroy"
  [arg "hStream" handle]
  (Some (scalar 4 false)) sync (Some 0).

Definition cuMemAlloc : func := declare 56 "cuMemAlloc"
  [arg_out "dptr" (buffer (EInt 1) (scalar 8 false)) []; arg "bytesize" (scalar 8 false)]
  (Some (scalar 4 false)) sync (Some 0).

Definition cuMemsetD32 : func := declare 62 "cuMemsetD32"
  [arg "dstDevice" (scalar 8 false); arg "ui" (scalar 4 false); arg "N" (scalar 8 false)]
  (Some (scalar 4 false)) sync (Some 0).

Definition cuMemsetD8 : func := declare 63 "cuMemsetD8"
  [arg "dstDevice" (scalar 8 false); arg "uc" (scalar 1 false); arg "N" (scalar 8 false)]
  (Some (scalar 4 false)) sync (Some 0).

Definition cuMemsetD32Async : func := declare 64 "cuMemsetD32Async"
  [arg "dstDevice" (scalar 8 false); arg "ui" (scalar 4 false); arg "N" (scalar 8 false);
   arg "hStream" handle]
  (Some (scalar 4 false)) async (Some 0).

Definition cuMemsetD8Async : func := declare 65 "cuMemsetD8Async"
  [arg "dstDevice" (scalar 8 false); arg "uc" (scalar 1 false); arg "N" (scalar 8 false);
   arg "hStream" handle]
  (Some (scalar 4 false)) async (Some 0).

Definition cuMemFreeHost : func := declare 66 "cuMemFreeHost"
  [arg "p" opaque_ptr]
  (Some (scalar 4 false)) sync (Some 0).

Definition cuDriverGetVersion : func := declare 67 "cuDriverGetVersion"
  [arg_out "driverVersion" (buffer (EInt 1) (scalar 4 true)) []]
  (Some (scalar 4 false)) sync (Some 0).

Definition cuDeviceTotalMem : func := declare 68 "cuDeviceTotalMem"
  [arg_out "bytes" (buffer (EInt 1) (scalar 8 false)) []; arg "dev" (scalar 4 true)]
  (Some (scalar 4 false)) sync (Some 0).

Definition cuMemGetInfo : func := declare 69 "cuMemGetInfo"
  [arg_out "_free" (buffer (EInt 1) (scalar 8 false)) [];
   arg_out "total" (buffer (EInt 1) (scalar 8 false)) []]
  (Some (scalar 4 false)) sync (Some 0).

Definition cuDeviceGetPCIBusId : func := declare 70 "cuDeviceGetPCIBusId"
  [arg_out "pciBusId" (buffer (var "len") (scalar 1 true)) ["len"]; arg "len" (scalar 4 true);
   arg "dev" (scalar 4 true)]
  (Some (scalar 4 false)) sync (Some 0).

Definition cuEventCreate : func := declare 71 "cuEventCreate"
  [arg_out "phEvent" (buffer (EInt 1) handle) []; arg "Flags" (scalar 4 false)]
  (Some (scalar 4 false)) sync (Some 0).

Definition cuEventQuery : func := declare 72 "cuEventQuery"
  [arg "hEvent" handle]
  (Some (scalar 4 false)) sync (Some 0).

Definition cuEventRecord : func := declare 73 "cuEventRecord"
  [arg "hEvent" handle; arg "hStream" handle]
  (Some (scalar 4 false)) sync (Some 0).

Definition cuEventSynchronize : func := declare 74 "cuEventSynchronize"
  [arg "hEvent" handle]
  (Some (scalar 4 false)) sync (Some 0).

Definition cuEventElapsedTime : func := declare 75 "cuEventElapsedTime"
  [arg_out "pMilliseconds" (buffer (EInt 1) (scalar 4 false)) []; arg "hStart" handle; arg "hEnd" handle]
  (Some (scalar 4 false)) sync (Some 0).

Definition cuEventDestroy : func := declare 76 "cuEventDestroy"
  [arg "hEvent" handle]
  (Some (scalar 4 false)) sync (Some 0).

Definition cuStreamWaitEvent : func := declare 77 "cuStreamWaitEvent"
  [arg "hStream" handle; arg "hEvent" handle; arg "Flags" (scalar 4 false)]
  (Some (scalar 4 false)) sync (Some 0).

Definition cublasCreate : func := declare 79 "cublasCreate"
  [arg_out "handle" (buffer (EInt 1) handle) []]
  (Some (scalar 4 false)) sync (Some 0).

Definition cublasSetMatrix : func := declare 80 "cublasSetMatrix"
  [arg "rows" (scalar 4 true); arg "cols" (scalar 4 true); arg "elemSize" (scalar 4 true);
   arg_in "A" (buffer (EOp int OMul (EOp int OMul (var "rows") (var "cols")) (var "elemSize")) (scalar 1 false)) ["rows"; "cols"; "elemSize"];
   arg "lda" (scalar 4 true); arg "B" handle; arg "ldb" (scalar 4 true)]
  (Some (scalar 4 false)) sync (Some 0).

Definition cublasGetMatrix : func := declare 81 "cublasGetMatrix"
  [arg "rows" (scalar 4 true); arg "cols" (scalar 4 true); arg "elemSize" (scalar 4 true); arg "A" handle;
   arg "lda" (scalar 4 true);
   arg_out "B" (buffer (EOp int OMul (EOp int OMul (var "rows") (var "cols")) (var "elemSize")) (scalar 1 false)) ["rows"; "cols"; "elemSize"];
   arg "ldb" (scalar 4 true)]
  (Some (scalar 4 false)) sync (Some 0).

Definition cublasSgemm_v2 : func := declare 82 "cublasSgemm_v2"
  [arg "handle" handle; arg "transa" (scalar 4 false); arg "transb" (scalar 4 false);
   arg "m" (scalar 4 true); arg "n" (scalar 4 true); arg "k" (scalar 4 true);
   arg_in "alpha" (buffer (EInt 1) (scalar 4 false)) []; arg "A" handle; arg "lda" (scalar 4 true);
   arg "B" handle; arg "ldb" (scalar 4 true); arg_in "beta" (buffer (EInt 1) (scalar 4 false)) [];
   arg "C" handle; arg "ldc" (scalar 4 true)]
  (Some (scalar 4 false)) async (Some 0).

Definition cublasSetStream : func := declare 83 "cublasSetStream"
  [arg "handle" handle; arg "streamId" handle]
  (Some (scalar 4 false)) sync (Some 0).

Definition cublasDestroy : func := declare 84 "cublasDestroy"
  [arg "handle" handle]
  (Some (scalar 4 false)) sync (Some 0).

Definition cublasSscal : func := declare 85 "cublasSscal"
  [arg "handle" handle; arg "n" (scalar 4 true); arg_in "alpha" (buffer (EInt 1) (scalar 4 false)) [];
   arg "x" handle; arg "incx" (scalar 4 true)]
  (Some (scalar 4 false)) sync (Some 0).

Definition cudnnCreate : func := declare 88 "cudnnCreate"
  [arg_out "handle" (buffer (EInt 1) handle) []]
  (Some (scalar 4 false)) sync (Some 0).

Definition cudnnCreateConvolutionDescriptor : func := declare 89 "cudnnCreateConvolutionDescriptor"
  [arg_out "convDesc" (buffer (EInt 1) handle) []]
  (Some (scalar 4 false)) sync (Some 0).

Definition cudnnCreateFilterDescriptor : func := declare 90 "cudnnCreateFilterDescriptor"
  [arg_out "filterDesc" (buffer (EInt 1) handle) []]
  (Some (scalar 4 false)) sync (Some 0).

Definition cudnnCreatePoolingDescriptor : func := declare 91 "cudnnCreatePoolingDescriptor"
  [arg_out "poolingDesc" (buffer (EInt 1) handle) []]
  (Some (scalar 4 false)) sync (Some 0).

Definition cudnnCreateTensorDescriptor : func := declare 92 "cudnnCreateTensorDescriptor"
  [arg_out "tensorDesc" (buffer (EInt 1) handle) []]
  (Some (scalar 4 false)) sync (Some 0).

Definition cudnnDestroyConvolutionDescriptor : func := declare 93 "cudnnDestroyConvolutionDescriptor"
  [arg "convDesc" handle]
  (Some (scalar 4 false)) sync (Some 0).

Definition cudnnDestroyFilterDescriptor : func := declare 94 "cudnnDestroyFilterDescriptor"
  [arg "filterDesc" handle]
  (Some (scalar 4 false)) sync (Some 0).

Definition cudnnDestroyPoolingDescriptor : func := declare 95 "cudnnDestroyPoolingDescriptor"
  [arg "poolingDesc" handle]
  (Some (scalar 4 false)) sync (Some 0).

Definition cudnnDestroyTensorDescriptor : func := declare 96 "cudnnDestroyTensorDescriptor"
  [arg "tensorDesc" handle]
  (Some (scalar 4 false)) sync (Some 0).

Definition cudnnGetBatchNormalizationForwardTrainingExWorkspaceSize : func := declare 97 "cudnnGetBatchNormalizationForwardTrainingExWorkspaceSize"
  [arg "handle" handle; arg "mode" (scalar 4 false); arg "bnOps" (scalar 4 false); arg "xDesc" handle;
   arg "zDesc" handle; arg "yDesc" handle; arg "bnScaleBiasMeanVarDesc" handle;
   arg "activationDesc" handle; arg_out "sizeInBytes" (buffer (EInt 1) (scalar 8 false)) []]
  (Some (scalar 4 false)) sync (Some 0).

Definition cudnnGetConvolutionForwardWorkspaceSize : func := declare 98 "cudnnGetConvolutionForwardWorkspaceSize"
  [arg "handle" handle; arg "xDesc" handle; arg "wDesc" handle; arg "convDesc" handle; arg "yDesc" handle;
   arg "algo" (scalar 4 false); arg_out "sizeInBytes" (buffer (EInt 1) (scalar 8 false)) []]
  (Some (scalar 4 false)) sync (Some 0).

Definition cudnnGetConvolutionForwardAlgorithm : func := declare 99 "cudnnGetConvolutionForwardAlgorithm"
  [arg "handle" handle; arg "xDesc" handle; arg "wDesc" handle; arg "convDesc" handle; arg "yDesc" handle;
   arg "preference" (scalar 4 false); arg "memoryLimitInBytes" (scalar 8 false);
   arg_out "algo" (buffer (EInt 1) (scalar 4 false)) []]
  (Some (scalar 4 false)) sync (Some 0).

Definition cudnnGetProperty : func := declare 101 "cudnnGetProperty"
  [arg "type" (scalar 4 false); arg_out "value" (buffer (EInt 1) (scalar 4 true)) []]
  (Some (scalar 4 false)) sync (Some 0).

Definition cudnnSetConvolutionGroupCount : func := declare 103 "cudnnSetConvolutionGroupCount"
  [arg "convDesc" handle; arg "groupCount" (scalar 4 true)]
  (Some (scalar 4 false)) sync (Some 0).

Definition cudnnSetConvolutionMathType : func := declare 104 "cudnnSetConvolutionMathType"
  [arg "convDesc" handle; arg "mathType" (scalar 4 false)]
  (Some (scalar 4 false)) sync (Some 0).

Definition cudnnSetConvolutionNdDescriptor : func := declare 105 "cudnnSetConvolutionNdDescriptor"
  [arg "convDesc" handle; arg "arrayLength" (scalar 4 true);
   arg_in "padA" (buffer (var "arrayLength") (scalar 4 true)) ["arrayLength"];
   arg_in "filterStrideA" (buffer (var "arrayLength") (scalar 4 true)) ["arrayLength"];
   arg_in "dilationA" (buffer (var "arrayLength") (scalar 4 true)) ["arrayLength"];
   arg "mode" (scalar 4 false); arg "computeType" (scalar 4 false)]
  (Some (scalar 4 false)) sync (Some 0).

Definition cudnnSetFilterNdDescriptor : func := declare 106 "cudnnSetFilterNdDescriptor"
  [arg "filterDesc" handle; arg "dataType" (scalar 4 false); arg "format" (scalar 4 false);
   arg "nbDims" (scalar 4 true); arg_in "filterDimA" (buffer (var "nbDims") (scalar 4 true)) ["nbDims"]]
  (Some (scalar 4 false)) sync (Some 0).

Definition cudnnSetPoolingNdDescriptor : func := declare 107 "cudnnSetPoolingNdDescriptor"
  [arg "poolingDesc" handle; arg "mode" (scalar 4 false); arg "maxpoolingNanOpt" (scalar 4 false);
   arg "nbDims" (scalar 4 true); arg_in "windowDimA" (buffer (var "nbDims") (scalar 4 true)) ["nbDims"];
   arg_in "paddingA" (buffer (var "nbDims") (scalar 4 true)) ["nbDims"];
   arg_in "strideA" (buffer (var "nbDims") (scalar 4 true)) ["nbDims"]]
  (Some (scalar 4 false)) sync (Some 0).

Definition cudnnSetStream : func := declare 108 "cudnnSetStream"
  [arg "handle" handle; arg "streamId" handle]
  (Some (scalar 4 false)) sync (Some 0).

Definition cudnnSetTensorNdDescriptor : func := declare 109 "cudnnSetTensorNdDescriptor"
  [arg "tensorDesc" handle; arg "dataType" (scalar 4 false); arg "nbDims" (scalar 4 true);
   arg_in "dimA" (buffer (var "nbDims") (scalar 4 true)) ["nbDims"];
   arg_in "strideA" (buffer (var "nbDims") (scalar 4 true)) ["nbDims"]]
  (Some (scalar 4 false)) sync (Some 0).

Definition cudart_opt_functions : list func :=
  [__cudaInitModule; __cudaUnregisterFatBinary; cudaMalloc; cudaMemcpy; cudaFree; cudaGetDevice;
   cudaGetDeviceCount; cudaDeviceGetAttribute; cudaDeviceReset; cudaSetDevice; cudaMemcpyToSymbol;
   cudaMemcpyAsync; cudaMemset; cudaDeviceSynchronize; cudaEventCreate; cudaEventRecord; cudaEventQuery;
   cudaEventElapsedTime; cudaEventDestroy; cudaEventSynchronize; cudaGetLastError; cudaMemGetInfo; cuInit;
   cuModuleGetFunction; cuDeviceGetCount; cuDeviceGet; cuDeviceCanAccessPeer; cuCtxGetDevice;
   cuDeviceGetName; cuDeviceGetAttribute; cuDevicePrimaryCtxGetState; cuDevicePrimaryCtxSetFlags;
   cuCtxCreate; cuCtxDestroy; cuCtxGetCurrent; cuCtxSetCurrent; cuDevicePrimaryCtxRetain;
   cuDevicePrimaryCtxRelease; cuCtxSynchronize; cuCtxPushCurrent; cuCtxPopCurrent; cuStreamCreate;
   cuStreamGetCtx; cuStreamQuery; cuStreamDestroy; cuMemAlloc; cuMemsetD32; cuMemsetD8; cuMemsetD32Async;
   cuMemsetD8Async; cuMemFreeHost; cuDriverGetVersion; cuDeviceTotalMem; cuMemGetInfo; cuDeviceGetPCIBusId;
   cuEventCreate; cuEventQuery; cuEventRecord; cuEventSynchronize; cuEventElapsedTime; cuEventDestroy;
   cuStreamWaitEvent; cublasCreate; cublasSetMatrix; cublasGetMatrix; cublasSgemm_v2; cublasSetStream;
   cublasDestroy; cublasSscal; cudnnCreate; cudnnCreateConvolutionDescriptor; cudnnCreateFilterDescriptor;
   cudnnCreatePoolingDescriptor; cudnnCreateTensorDescriptor; cudnnDestroyConvolutionDescriptor;
   cudnnDestroyFilterDescriptor; cudnnDestroyPoolingDescriptor; cudnnDestroyTensorDescriptor;
   cudnnGetBatchNormalizationForwardTrainingExWorkspaceSize; cudnnGetConvolutionForwardWorkspaceSize;
   cudnnGetConvolutionForwardAlgorithm; cudnnGetProperty; cudnnSetConvolutionGroupCount;
   cudnnSetConvolutionMathType; cudnnSetConvolutionNdDescriptor; cudnnSetFilterNdDescriptor;
   cudnnSetPoolingNdDescriptor; cudnnSetStream; cudnnSetTensorNdDescriptor].
