(* ===== verification/SpecOnnxOpt.v ===== *)
(** * The specification of CUDA under ONNX Runtime (cava/samples/onnxruntime/onnx_opt.c)

    The annotated functions as values of [func].  [scalar n s] is a value of [n] bytes, signed if
    [s]; the widths of the API's types are those of its public header. *)

From S2P Require Import Prelude Cava SpecCheck.
Local Open Scope Z_scope.


Definition __pool_cudnnCreateConvolutionDescriptor : func := declare 0 "__pool_cudnnCreateConvolutionDescriptor"
  [arg_out "convDesc" (buffer (var "count") handle) ["count"]; arg "count" (scalar 8 false)]
  (Some (scalar 4 false)) sync (Some 0).

Definition __pool_cudnnDestroyConvolutionDescriptor : func := declare 1 "__pool_cudnnDestroyConvolutionDescriptor"
  [arg_in "convDesc" (buffer (var "count") handle) ["count"]; arg "count" (scalar 8 false)]
  (Some (scalar 4 false)) async (Some 0).

Definition __pool_cudnnCreateFilterDescriptor : func := declare 2 "__pool_cudnnCreateFilterDescriptor"
  [arg_out "filterDesc" (buffer (var "count") handle) ["count"]; arg "count" (scalar 8 false)]
  (Some (scalar 4 false)) sync (Some 0).

Definition __pool_cudnnDestroyFilterDescriptor : func := declare 3 "__pool_cudnnDestroyFilterDescriptor"
  [arg_in "filterDesc" (buffer (var "count") handle) ["count"]; arg "count" (scalar 8 false)]
  (Some (scalar 4 false)) async (Some 0).

Definition __pool_cudnnCreatePoolingDescriptor : func := declare 4 "__pool_cudnnCreatePoolingDescriptor"
  [arg_out "poolingDesc" (buffer (var "count") handle) ["count"]; arg "count" (scalar 8 false)]
  (Some (scalar 4 false)) sync (Some 0).

Definition __pool_cudnnDestroyPoolingDescriptor : func := declare 5 "__pool_cudnnDestroyPoolingDescriptor"
  [arg_in "poolingDesc" (buffer (var "count") handle) ["count"]; arg "count" (scalar 8 false)]
  (Some (scalar 4 false)) async (Some 0).

Definition __pool_cudnnCreateTensorDescriptor : func := declare 6 "__pool_cudnnCreateTensorDescriptor"
  [arg_out "tensorDesc" (buffer (var "count") handle) ["count"]; arg "count" (scalar 8 false)]
  (Some (scalar 4 false)) sync (Some 0).

Definition __pool_cudnnDestroyTensorDescriptor : func := declare 7 "__pool_cudnnDestroyTensorDescriptor"
  [arg_in "tensorDesc" (buffer (var "count") handle) ["count"]; arg "count" (scalar 8 false)]
  (Some (scalar 4 false)) async (Some 0).

Definition __pool_cuEventCreate : func := declare 8 "__pool_cuEventCreate"
  [arg_out "phEvent" (buffer (var "count") handle) ["count"]; arg "count" (scalar 8 false)]
  (Some (scalar 4 false)) sync (Some 0).

Definition __pool_cuEventDestroy : func := declare 9 "__pool_cuEventDestroy"
  [arg_in "hEvent" (buffer (var "count") handle) ["count"]; arg "count" (scalar 8 false)]
  (Some (scalar 4 false)) async (Some 0).

Definition __do_batch_emit : func := declare 12 "__do_batch_emit"
  [arg_in "command_buffer" (buffer (var "total_buffer_size") (scalar 1 false)) ["total_buffer_size"];
   arg "total_buffer_size" (scalar 8 false)]
  None async None.

Definition __cudaInitModule : func := declare 13 "__cudaInitModule"
  [arg_in "fatCubinHandle" (buffer (EInt 1) handle) []]
  (Some (scalar 1 true)) sync None.

Definition cudaMalloc : func := declare 15 "cudaMalloc"
  [arg_out "devPtr" (buffer (EInt 1) (scalar 8 false)) []; arg "size" (scalar 8 false)]
  (Some (scalar 4 false)) sync (Some 0).

Definition cudaMemcpy : func := declare 16 "cudaMemcpy"
  [mk_arg "dst" (TPtr (ECond (EOp uint OEq (var "kind") (EInt 1)) (EInt NW_OPAQUE) (ECond (EOp uint OEq (var "kind") (EInt 2)) (EInt NW_BUFFER) (EInt NW_OPAQUE))) (ECond (EOp uint OEq (var "kind") (EInt 1)) (EInt 0) (ECond (EOp uint OEq (var "kind") (EInt 2)) (var "count") (EInt 0))) (EInt 0) (scalar 1 false)) (EInt 0) (ECond (EOp uint OEq (var "kind") (EInt 1)) (EInt 0) (ECond (EOp uint OEq (var "kind") (EInt 2)) (EInt 1) (EInt 0))) ["count"; "kind"] false;
   mk_arg "src" (TPtr (ECond (EOp uint OEq (var "kind") (EInt 1)) (EInt NW_BUFFER) (EInt NW_OPAQUE)) (ECond (EOp uint OEq (var "kind") (EInt 1)) (var "count") (EInt 0)) (EInt 0) (scalar 1 false)) (ECond (EOp uint OEq (var "kind") (EInt 1)) (EInt 1) (EInt 0)) (EInt 0) ["count"; "kind"] false;
   arg "count" (scalar 8 false); arg "kind" (scalar 4 false)]
  (Some (scalar 4 false)) sync (Some 0).

Definition cudaFree : func := declare 17 "cudaFree"
  [arg "devPtr" opaque_ptr]
  (Some (scalar 4 false)) async (Some 0).

Definition cudaGetDevice : func := declare 18 "cudaGetDevice"
  [arg_out "device" (buffer (EInt 1) (scalar 4 true)) []]
  (Some (scalar 4 false)) sync (Some 0).

Definition cudaGetDeviceCount : func := declare 19 "cudaGetDeviceCount"
  [arg_out "count" (buffer (EInt 1) (scalar 4 true)) []]
  (Some (scalar 4 false)) sync (Some 0).

Definition cudaDeviceGetAttribute : func := declare 21 "cudaDeviceGetAttribute"
  [arg_out "value" (buffer (EInt 1) (scalar 4 true)) []; arg "attr" (scalar 4 false);
   arg "device" (scalar 4 true)]
  (Some (scalar 4 false)) sync (Some 0).

Definition cudaDeviceReset : func := declare 22 "cudaDeviceReset"
  []
  (Some (scalar 4 false)) async (Some 0).

Definition cudaSetDevice : func := declare 23 "cudaSetDevice"
  [arg "device" (scalar 4 true)]
  (Some (scalar 4 false)) async (Some 0).

Definition cudaMemcpyToSymbol : func := declare 24 "cudaMemcpyToSymbol"
  [arg "symbol" opaque_ptr; arg_in "src" (buffer (var "count") (scalar 1 false)) ["count"];
   arg "count" (scalar 8 false); arg "offset" (scalar 8 false); arg "kind" (scalar 4 false)]
  (Some (scalar 4 false)) sync (Some 0).

Definition cudaMemcpyAsync : func := declare 25 "cudaMemcpyAsync"
  [arg "dst" opaque_ptr; arg_in "src" (buffer (var "count") (scalar 1 false)) ["count"];
   arg "count" (scalar 8 false); arg "kind" (scalar 4 false); arg "stream" handle]
  (Some (scalar 4 false)) async (Some 0).

Definition cudaMemset : func := declare 26 "cudaMemset"
  [arg "devPtr" opaque_ptr; arg "value" (scalar 4 true); arg "count" (scalar 8 false)]
  (Some (scalar 4 false)) sync (Some 0).

Definition cudaDeviceSynchronize : func := declare 27 "cudaDeviceSynchronize"
  []
  (Some (scalar 4 false)) sync (Some 0).

Definition cudaEventCreate : func := declare 28 "cudaEventCreate"
  [arg_out "event" (buffer (EInt 1) handle) []]
  (Some (scalar 4 false)) sync (Some 0).

Definition cudaEventRecord : func := declare 29 "cudaEventRecord"
  [arg "event" handle; arg "stream" handle]
  (Some (scalar 4 false)) sync (Some 0).

Definition cudaEventQuery : func := declare 30 "cudaEventQuery"
  [arg "event" handle]
  (Some (scalar 4 false)) sync (Some 0).

Definition cudaEventElapsedTime : func := declare 31 "cudaEventElapsedTime"
  [arg_out "ms" (buffer (EInt 1) (scalar 4 false)) []; arg "start" handle; arg "end" handle]
  (Some (scalar 4 false)) sync (Some 0).

Definition cudaEventDestroy : func := declare 32 "cudaEventDestroy"
  [arg "event" handle]
  (Some (scalar 4 false)) sync (Some 0).

Definition cudaEventSynchronize : func := declare 33 "cudaEventSynchronize"
  [arg "event" handle]
  (Some (scalar 4 false)) sync (Some 0).

Definition cudaMemGetInfo : func := declare 35 "cudaMemGetInfo"
  [arg_out "_free" (buffer (EInt 1) (scalar 8 false)) [];
   arg_out "total" (buffer (EInt 1) (scalar 8 false)) []]
  (Some (scalar 4 false)) sync (Some 0).

Definition cuModuleGetFunction : func := declare 37 "cuModuleGetFunction"
  [arg_out "hfunc" (buffer (EInt 1) handle) []; arg "hmod" handle;
   arg_in "name" (buffer (string_size "name") (scalar 1 true)) []]
  (Some (scalar 4 false)) sync (Some 0).

Definition cuDeviceGetCount : func := declare 40 "cuDeviceGetCount"
  [arg_out "count" (buffer (EInt 1) (scalar 4 true)) []]
  (Some (scalar 4 false)) sync (Some 0).

Definition cuDeviceGet : func := declare 41 "cuDeviceGet"
  [arg_out "device" (buffer (EInt 1) (TVal 4 4 true (EInt NW_HANDLE) (EInt 0))) [];
   arg "ordinal" (scalar 4 true)]
  (Some (scalar 4 false)) sync (Some 0).

Definition cuDeviceCanAccessPeer : func := declare 42 "cuDeviceCanAccessPeer"
  [arg_out "canAccessPeer" (buffer (EInt 1) (scalar 4 true)) [];
   arg "dev" (TVal 4 4 true (EInt NW_HANDLE) (EInt 0));
   arg "peerDev" (TVal 4 4 true (EInt NW_HANDLE) (EInt 0))]
  (Some (scalar 4 false)) sync (Some 0).

Definition cuCtxEnablePeerAccess : func := declare 43 "cuCtxEnablePeerAccess"
  [arg "peerContext" handle; arg "Flags" (scalar 4 false)]
  (Some (scalar 4 false)) sync (Some 0).

Definition cuCtxGetDevice : func := declare 44 "cuCtxGetDevice"
  [arg_out "device" (buffer (EInt 1) (TVal 4 4 true (EInt NW_HANDLE) (EInt 0))) []]
  (Some (scalar 4 false)) sync (Some 0).

Definition cuDeviceGetName : func := declare 45 "cuDeviceGetName"
  [arg_out "name" (buffer (var "len") (scalar 1 true)) ["len"]; arg "len" (scalar 4 true);
   arg "dev" (TVal 4 4 true (EInt NW_HANDLE) (EInt 0))]
  (Some (scalar 4 false)) sync (Some 0).

Definition cuDeviceGetAttribute : func := declare 47 "cuDeviceGetAttribute"
  [arg_out "pi" (buffer (EInt 1) (scalar 4 true)) []; arg "attrib" (scalar 4 false);
   arg "dev" (TVal 4 4 true (EInt NW_HANDLE) (EInt 0))]
  (Some (scalar 4 false)) sync (Some 0).

Definition cuDevicePrimaryCtxGetState : func := declare 48 "cuDevicePrimaryCtxGetState"
  [arg "dev" (TVal 4 4 true (EInt NW_HANDLE) (EInt 0));
   arg_out "flags" (buffer (EInt 1) (scalar 4 false)) [];
   arg_out "active" (buffer (EInt 1) (scalar 4 true)) []]
  (Some (scalar 4 false)) sync (Some 0).

Definition cuDevicePrimaryCtxSetFlags : func := declare 49 "cuDevicePrimaryCtxSetFlags"
  [arg "dev" (TVal 4 4 true (EInt NW_HANDLE) (EInt 0)); arg "flags" (scalar 4 false)]
  (Some (scalar 4 false)) sync (Some 0).

Definition cuCtxCreate : func := declare 50 "cuCtxCreate"
  [arg_out "pctx" (buffer (EInt 1) handle) []; arg "flags" (scalar 4 false);
   arg "dev" (TVal 4 4 true (EInt NW_HANDLE) (EInt 0))]
  (Some (scalar 4 false)) sync (Some 0).

Definition cuCtxDestroy : func := declare 51 "cuCtxDestroy"
  [arg "ctx" freed_handle]
  (Some (scalar 4 false)) sync (Some 0).

Definition cuCtxGetCurrent : func := declare 52 "cuCtxGetCurrent"
  [arg_out "pctx" (buffer (EInt 1) handle) []]
  (Some (scalar 4 false)) sync (Some 0).

Definition cuCtxSetCurrent : func := declare 53 "cuCtxSetCurrent"
  [arg "ctx" handle]
  (Some (scalar 4 false)) sync (Some 0).

Definition cuDevicePrimaryCtxRetain : func := declare 54 "cuDevicePrimaryCtxRetain"
  [arg_out "pctx" (buffer (EInt 1) handle) []; arg "dev" (TVal 4 4 true (EInt NW_HANDLE) (EInt 0))]
  (Some (scalar 4 false)) sync (Some 0).

Definition cuDevicePrimaryCtxRelease : func := declare 55 "cuDevicePrimaryCtxRelease"
  [arg "dev" (TVal 4 4 true (EInt NW_HANDLE) (EInt 0))]
  (Some (scalar 4 false)) sync (Some 0).

Definition cuCtxSynchronize : func := declare 56 "cuCtxSynchronize"
  []
  (Some (scalar 4 false)) sync (Some 0).

Definition cuCtxPushCurrent : func := declare 57 "cuCtxPushCurrent"
  [arg "ctx" handle]
  (Some (scalar 4 false)) sync (Some 0).

Definition cuCtxPopCurrent : func := declare 58 "cuCtxPopCurrent"
  [arg_out "pctx" (buffer (EInt 1) handle) []]
  (Some (scalar 4 false)) sync (Some 0).

Definition cuStreamCreate : func := declare 59 "cuStreamCreate"
  [arg_out "phStream" (buffer (EInt 1) handle) []; arg "Flags" (scalar 4 false)]
  (Some (scalar 4 false)) sync (Some 0).

Definition cuStreamGetCtx : func := declare 60 "cuStreamGetCtx"
  [arg "hStream" handle; arg_out "pctx" (buffer (EInt 1) handle) []]
  (Some (scalar 4 false)) sync (Some 0).

Definition cuStreamQuery : func := declare 61 "cuStreamQuery"
  [arg "hStream" handle]
  (Some (scalar 4 false)) sync (Some 0).

Definition cuStreamDestroy : func := declare 62 "cuStreamDestroy"
  [arg "hStream" handle]
  (Some (scalar 4 false)) sync (Some 0).

Definition cuMemAlloc : func := declare 63 "cuMemAlloc"
  [arg_out "dptr" (buffer (EInt 1) (scalar 8 false)) []; arg "bytesize" (scalar 8 false)]
  (Some (scalar 4 false)) sync (Some 0).

Definition cuMemcpyDtoHAsync : func := declare 67 "cuMemcpyDtoHAsync"
  [arg_out "dstHost" (buffer (var "ByteCount") (scalar 1 false)) ["ByteCount"];
   arg "srcDevice" (scalar 8 false); arg "ByteCount" (scalar 8 false); arg "hStream" handle]
  (Some (scalar 4 false)) sync (Some 0).

Definition cuMemsetD32 : func := declare 68 "cuMemsetD32"
  [arg "dstDevice" (scalar 8 false); arg "ui" (scalar 4 false); arg "N" (scalar 8 false)]
  (Some (scalar 4 false)) async (Some 0).

Definition cuMemsetD8 : func := declare 69 "cuMemsetD8"
  [arg "dstDevice" (scalar 8 false); arg "uc" (scalar 1 false); arg "N" (scalar 8 false)]
  (Some (scalar 4 false)) async (Some 0).

Definition cuMemsetD32Async : func := declare 70 "cuMemsetD32Async"
  [arg "dstDevice" (scalar 8 false); arg "ui" (scalar 4 false); arg "N" (scalar 8 false);
   arg "hStream" handle]
  (Some (scalar 4 false)) async (Some 0).

Definition cuMemsetD8Async : func := declare 71 "cuMemsetD8Async"
  [arg "dstDevice" (scalar 8 false); arg "uc" (scalar 1 false); arg "N" (scalar 8 false);
   arg "hStream" handle]
  (Some (scalar 4 false)) async (Some 0).

Definition cuMemFreeHost : func := declare 72 "cuMemFreeHost"
  [arg "p" opaque_ptr]
  (Some (scalar 4 false)) sync (Some 0).

Definition cuDriverGetVersion : func := declare 73 "cuDriverGetVersion"
  [arg_out "driverVersion" (buffer (EInt 1) (scalar 4 true)) []]
  (Some (scalar 4 false)) sync (Some 0).

Definition cuDeviceTotalMem : func := declare 74 "cuDeviceTotalMem"
  [arg_out "bytes" (buffer (EInt 1) (scalar 8 false)) [];
   arg "dev" (TVal 4 4 true (EInt NW_HANDLE) (EInt 0))]
  (Some (scalar 4 false)) sync (Some 0).

Definition cuMemGetInfo : func := declare 75 "cuMemGetInfo"
  [arg_out "_free" (buffer (EInt 1) (scalar 8 false)) [];
   arg_out "total" (buffer (EInt 1) (scalar 8 false)) []]
  (Some (scalar 4 false)) sync (Some 0).

Definition cuDeviceGetPCIBusId : func := declare 76 "cuDeviceGetPCIBusId"
  [arg_out "pciBusId" (buffer (var "len") (scalar 1 true)) ["len"]; arg "len" (scalar 4 true);
   arg "dev" (TVal 4 4 true (EInt NW_HANDLE) (EInt 0))]
  (Some (scalar 4 false)) sync (Some 0).

Definition __cuEventQuery : func := declare 77 "__cuEventQuery"
  [arg "hEvent" handle]
  (Some (scalar 4 false)) async (Some 0).

Definition cuEventRecord : func := declare 78 "cuEventRecord"
  [arg "hEvent" handle; arg "hStream" handle]
  (Some (scalar 4 false)) async (Some 0).

Definition cuStreamWaitEvent : func := declare 79 "cuStreamWaitEvent"
  [arg "hStream" handle; arg "hEvent" handle; arg "Flags" (scalar 4 false)]
  (Some (scalar 4 false)) async (Some 0).

Definition cublasSetMatrix : func := declare 92 "cublasSetMatrix"
  [arg "rows" (scalar 4 true); arg "cols" (scalar 4 true); arg "elemSize" (scalar 4 true);
   arg_in "A" (buffer (EOp int OMul (EOp int OMul (var "rows") (var "cols")) (var "elemSize")) (scalar 1 false)) ["rows"; "cols"; "elemSize"];
   arg "lda" (scalar 4 true); arg "B" opaque_ptr; arg "ldb" (scalar 4 true)]
  (Some (scalar 4 false)) sync (Some 0).

Definition cublasGetMatrix : func := declare 93 "cublasGetMatrix"
  [arg "rows" (scalar 4 true); arg "cols" (scalar 4 true); arg "elemSize" (scalar 4 true);
   arg "A" opaque_ptr; arg "lda" (scalar 4 true);
   arg_out "B" (buffer (EOp int OMul (EOp int OMul (var "rows") (var "cols")) (var "elemSize")) (scalar 1 false)) ["rows"; "cols"; "elemSize"];
   arg "ldb" (scalar 4 true)]
  (Some (scalar 4 false)) sync (Some 0).

Definition cublasSgemm_v2 : func := declare 235 "cublasSgemm_v2"
  [arg "handle" handle; arg "transa" (scalar 4 false); arg "transb" (scalar 4 false);
   arg "m" (scalar 4 true); arg "n" (scalar 4 true); arg "k" (scalar 4 true);
   arg_in "alpha" (buffer (EInt 1) (scalar 4 false)) []; arg "A" opaque_ptr; arg "lda" (scalar 4 true);
   arg "B" opaque_ptr; arg "ldb" (scalar 4 true); arg_in "beta" (buffer (EInt 1) (scalar 4 false)) [];
   arg "C" opaque_ptr; arg "ldc" (scalar 4 true)]
  (Some (scalar 4 false)) async (Some 0).

Definition cublasGemmBatchedEx : func := declare 288 "cublasGemmBatchedEx"
  [arg "handle" handle; arg "transa" (scalar 4 false); arg "transb" (scalar 4 false);
   arg "m" (scalar 4 true); arg "n" (scalar 4 true); arg "k" (scalar 4 true);
   arg_in "alpha" (buffer (EInt 1) (scalar 1 false)) []; arg "Aarray" opaque_ptr;
   arg "Atype" (scalar 4 false); arg "lda" (scalar 4 true); arg "Barray" opaque_ptr;
   arg "Btype" (scalar 4 false); arg "ldb" (scalar 4 true);
   arg_in "beta" (buffer (EInt 1) (scalar 1 false)) []; arg "Carray" opaque_ptr;
   arg "Ctype" (scalar 4 false); arg "ldc" (scalar 4 true); arg "batchCount" (scalar 4 true);
   arg "computeType" (scalar 4 false); arg "algo" (scalar 4 false)]
  (Some (scalar 4 false)) sync (Some 0).

Definition cublasSgeam : func := declare 295 "cublasSgeam"
  [arg "handle" handle; arg "transa" (scalar 4 false); arg "transb" (scalar 4 false);
   arg "m" (scalar 4 true); arg "n" (scalar 4 true); arg_in "alpha" (buffer (EInt 1) (scalar 4 false)) [];
   arg "A" opaque_ptr; arg "lda" (scalar 4 true); arg_in "beta" (buffer (EInt 1) (scalar 4 false)) [];
   arg "B" opaque_ptr; arg "ldb" (scalar 4 true); arg "C" opaque_ptr; arg "ldc" (scalar 4 true)]
  (Some (scalar 4 false)) sync (Some 0).

Definition cublasSetStream : func := declare 339 "cublasSetStream"
  [arg "handle" handle; arg "streamId" handle]
  (Some (scalar 4 false)) async (Some 0).

Definition cublasDestroy : func := declare 340 "cublasDestroy"
  [arg "handle" handle]
  (Some (scalar 4 false)) async (Some 0).

Definition cublasSscal : func := declare 341 "cublasSscal"
  [arg "handle" handle; arg "n" (scalar 4 true); arg_in "alpha" (buffer (EInt 1) (scalar 4 false)) [];
   arg "x" opaque_ptr; arg "incx" (scalar 4 true)]
  (Some (scalar 4 false)) sync (Some 0).

Definition cudnnDestroy : func := declare 344 "cudnnDestroy"
  [arg "handle" handle]
  (Some (scalar 4 false)) sync (Some 0).

Definition cudnnGetBatchNormalizationForwardTrainingExWorkspaceSize : func := declare 345 "cudnnGetBatchNormalizationForwardTrainingExWorkspaceSize"
  [arg "handle" handle; arg "mode" (scalar 4 false); arg "bnOps" (scalar 4 false); arg "xDesc" handle;
   arg "zDesc" handle; arg "yDesc" handle; arg "bnScaleBiasMeanVarDesc" handle;
   arg "activationDesc" handle; arg_out "sizeInBytes" (buffer (EInt 1) (scalar 8 false)) []]
  (Some (scalar 4 false)) sync (Some 0).

Definition cudnnGetConvolutionForwardWorkspaceSize : func := declare 346 "cudnnGetConvolutionForwardWorkspaceSize"
  [arg "handle" handle; arg "xDesc" handle; arg "wDesc" handle; arg "convDesc" handle; arg "yDesc" handle;
   arg "algo" (scalar 4 false); arg_out "sizeInBytes" (buffer (EInt 1) (scalar 8 false)) []]
  (Some (scalar 4 false)) sync (Some 0).

Definition cudnnGetConvolutionForwardAlgorithm : func := declare 347 "cudnnGetConvolutionForwardAlgorithm"
  [arg "handle" handle; arg "xDesc" handle; arg "wDesc" handle; arg "convDesc" handle; arg "yDesc" handle;
   arg "preference" (scalar 4 false); arg "memoryLimitInBytes" (scalar 8 false);
   arg_out "algo" (buffer (EInt 1) (scalar 4 false)) []]
  (Some (scalar 4 false)) sync (Some 0).

Definition cudnnGetProperty : func := declare 349 "cudnnGetProperty"
  [arg "type" (scalar 4 false); arg_out "value" (buffer (EInt 1) (scalar 4 true)) []]
  (Some (scalar 4 false)) sync (Some 0).

Definition cudnnSetConvolutionGroupCount : func := declare 351 "cudnnSetConvolutionGroupCount"
  [arg "convDesc" handle; arg "groupCount" (scalar 4 true)]
  (Some (scalar 4 false)) async (Some 0).

Definition cudnnSetConvolutionMathType : func := declare 352 "cudnnSetConvolutionMathType"
  [arg "convDesc" handle; arg "mathType" (scalar 4 false)]
  (Some (scalar 4 false)) async (Some 0).

Definition cudnnSetConvolutionNdDescriptor : func := declare 353 "cudnnSetConvolutionNdDescriptor"
  [arg "convDesc" handle; arg "arrayLength" (scalar 4 true);
   arg_in "padA" (buffer (var "arrayLength") (scalar 4 true)) ["arrayLength"];
   arg_in "filterStrideA" (buffer (var "arrayLength") (scalar 4 true)) ["arrayLength"];
   arg_in "dilationA" (buffer (var "arrayLength") (scalar 4 true)) ["arrayLength"];
   arg "mode" (scalar 4 false); arg "computeType" (scalar 4 false)]
  (Some (scalar 4 false)) async (Some 0).

Definition cudnnSetFilterNdDescriptor : func := declare 354 "cudnnSetFilterNdDescriptor"
  [arg "filterDesc" handle; arg "dataType" (scalar 4 false); arg "format" (scalar 4 false);
   arg "nbDims" (scalar 4 true); arg_in "filterDimA" (buffer (var "nbDims") (scalar 4 true)) ["nbDims"]]
  (Some (scalar 4 false)) async (Some 0).

Definition cudnnSetPoolingNdDescriptor : func := declare 355 "cudnnSetPoolingNdDescriptor"
  [arg "poolingDesc" handle; arg "mode" (scalar 4 false); arg "maxpoolingNanOpt" (scalar 4 false);
   arg "nbDims" (scalar 4 true); arg_in "windowDimA" (buffer (var "nbDims") (scalar 4 true)) ["nbDims"];
   arg_in "paddingA" (buffer (var "nbDims") (scalar 4 true)) ["nbDims"];
   arg_in "strideA" (buffer (var "nbDims") (scalar 4 true)) ["nbDims"]]
  (Some (scalar 4 false)) async (Some 0).

Definition cudnnSetStream : func := declare 356 "cudnnSetStream"
  [arg "handle" handle; arg "streamId" handle]
  (Some (scalar 4 false)) async (Some 0).

Definition cudnnSetTensorNdDescriptor : func := declare 357 "cudnnSetTensorNdDescriptor"
  [arg "tensorDesc" handle; arg "dataType" (scalar 4 false); arg "nbDims" (scalar 4 true);
   arg_in "dimA" (buffer (var "nbDims") (scalar 4 true)) ["nbDims"];
   arg_in "strideA" (buffer (var "nbDims") (scalar 4 true)) ["nbDims"]]
  (Some (scalar 4 false)) async (Some 0).

Definition cudnnCreateRNNDescriptor : func := declare 359 "cudnnCreateRNNDescriptor"
  [arg_out "rnnDesc" (buffer (EInt 1) handle) []]
  (Some (scalar 4 false)) sync (Some 0).

Definition cudnnDestroyRNNDescriptor : func := declare 360 "cudnnDestroyRNNDescriptor"
  [arg "rnnDesc" handle]
  (Some (scalar 4 false)) sync (Some 0).

Definition cudnnDeriveBNTensorDescriptor : func := declare 486 "cudnnDeriveBNTensorDescriptor"
  [arg "derivedBnDesc" handle; arg "xDesc" handle; arg "mode" (scalar 4 false)]
  (Some (scalar 4 false)) async (Some 0).

Definition curandCreateGenerator : func := declare 558 "curandCreateGenerator"
  [arg_out "generator" (buffer (EInt 1) handle) []; arg "rng_type" (scalar 4 false)]
  (Some (scalar 4 false)) sync None.

Definition curandDestroyGenerator : func := declare 560 "curandDestroyGenerator"
  [arg "generator" handle]
  (Some (scalar 4 false)) async None.

Definition cudaStreamCreateWithFlags : func := declare 1419 "cudaStreamCreateWithFlags"
  [arg_out "pStream" (buffer (EInt 1) handle) []; arg "flags" (scalar 4 false)]
  (Some (scalar 4 false)) sync (Some 0).

Definition cudaStreamDestroy : func := declare 1423 "cudaStreamDestroy"
  [arg "stream" handle]
  (Some (scalar 4 false)) sync (Some 0).

Definition cudaStreamSynchronize : func := declare 1425 "cudaStreamSynchronize"
  [arg "stream" handle]
  (Some (scalar 4 false)) sync (Some 0).

Definition cudaStreamQuery : func := declare 1426 "cudaStreamQuery"
  [arg "stream" handle]
  (Some (scalar 4 false)) sync (Some 0).

Definition cudaEventCreateWithFlags : func := declare 1432 "cudaEventCreateWithFlags"
  [arg_out "event" (buffer (EInt 1) handle) []; arg "flags" (scalar 4 false)]
  (Some (scalar 4 false)) sync (Some 0).

Definition onnx_opt_functions : list func :=
  [__pool_cudnnCreateConvolutionDescriptor; __pool_cudnnDestroyConvolutionDescriptor;
   __pool_cudnnCreateFilterDescriptor; __pool_cudnnDestroyFilterDescriptor;
   __pool_cudnnCreatePoolingDescriptor; __pool_cudnnDestroyPoolingDescriptor;
   __pool_cudnnCreateTensorDescriptor; __pool_cudnnDestroyTensorDescriptor; __pool_cuEventCreate;
   __pool_cuEventDestroy; __do_batch_emit; __cudaInitModule; cudaMalloc; cudaMemcpy; cudaFree;
   cudaGetDevice; cudaGetDeviceCount; cudaDeviceGetAttribute; cudaDeviceReset; cudaSetDevice;
   cudaMemcpyToSymbol; cudaMemcpyAsync; cudaMemset; cudaDeviceSynchronize; cudaEventCreate;
   cudaEventRecord; cudaEventQuery; cudaEventElapsedTime; cudaEventDestroy; cudaEventSynchronize;
   cudaMemGetInfo; cuModuleGetFunction; cuDeviceGetCount; cuDeviceGet; cuDeviceCanAccessPeer;
   cuCtxEnablePeerAccess; cuCtxGetDevice; cuDeviceGetName; cuDeviceGetAttribute;
   cuDevicePrimaryCtxGetState; cuDevicePrimaryCtxSetFlags; cuCtxCreate; cuCtxDestroy; cuCtxGetCurrent;
   cuCtxSetCurrent; cuDevicePrimaryCtxRetain; cuDevicePrimaryCtxRelease; cuCtxSynchronize;
   cuCtxPushCurrent; cuCtxPopCurrent; cuStreamCreate; cuStreamGetCtx; cuStreamQuery; cuStreamDestroy;
   cuMemAlloc; cuMemcpyDtoHAsync; cuMemsetD32; cuMemsetD8; cuMemsetD32Async; cuMemsetD8Async;
   cuMemFreeHost; cuDriverGetVersion; cuDeviceTotalMem; cuMemGetInfo; cuDeviceGetPCIBusId; __cuEventQuery;
   cuEventRecord; cuStreamWaitEvent; cublasSetMatrix; cublasGetMatrix; cublasSgemm_v2; cublasGemmBatchedEx;
   cublasSgeam; cublasSetStream; cublasDestroy; cublasSscal; cudnnDestroy;
   cudnnGetBatchNormalizationForwardTrainingExWorkspaceSize; cudnnGetConvolutionForwardWorkspaceSize;
   cudnnGetConvolutionForwardAlgorithm; cudnnGetProperty; cudnnSetConvolutionGroupCount;
   cudnnSetConvolutionMathType; cudnnSetConvolutionNdDescriptor; cudnnSetFilterNdDescriptor;
   cudnnSetPoolingNdDescriptor; cudnnSetStream; cudnnSetTensorNdDescriptor; cudnnCreateRNNDescriptor;
   cudnnDestroyRNNDescriptor; cudnnDeriveBNTensorDescriptor; curandCreateGenerator; curandDestroyGenerator;
   cudaStreamCreateWithFlags; cudaStreamDestroy; cudaStreamSynchronize; cudaStreamQuery;
   cudaEventCreateWithFlags].
