(* ===== verification/SpecOnnxDump.v ===== *)
(** * The specification of CUDA under ONNX Runtime that dumps its fat binaries (cava/samples/onnxruntime/onnx_dump.c)

    The annotated functions as values of [func].  [scalar n s] is a value of [n] bytes, signed if
    [s]; the widths of the API's types are those of its public header. *)

From S2P Require Import Prelude Cava SpecCheck.
Local Open Scope Z_scope.


Definition __cudaInitModule : func := declare 0 "__cudaInitModule"
  [arg_in "fatCubinHandle" (buffer (EInt 1) handle) []]
  (Some (scalar 1 true)) sync None.

Definition cudaMalloc : func := declare 7 "cudaMalloc"
  [arg_out "devPtr" (buffer (EInt 1) (scalar 8 false)) []; arg "size" (scalar 8 false)]
  (Some (scalar 4 false)) sync (Some 0).

Definition cudaMemcpy : func := declare 8 "cudaMemcpy"
  [mk_arg "dst" (TPtr (ECond (EOp uint OEq (var "kind") (EInt 1)) (EInt NW_OPAQUE) (ECond (EOp uint OEq (var "kind") (EInt 2)) (EInt NW_BUFFER) (EInt NW_OPAQUE))) (ECond (EOp uint OEq (var "kind") (EInt 1)) (EInt 0) (ECond (EOp uint OEq (var "kind") (EInt 2)) (var "count") (EInt 0))) (EInt 0) (scalar 1 false)) (EInt 0) (ECond (EOp uint OEq (var "kind") (EInt 1)) (EInt 0) (ECond (EOp uint OEq (var "kind") (EInt 2)) (EInt 1) (EInt 0))) ["count"; "kind"] false;
   mk_arg "src" (TPtr (ECond (EOp uint OEq (var "kind") (EInt 1)) (EInt NW_BUFFER) (EInt NW_OPAQUE)) (ECond (EOp uint OEq (var "kind") (EInt 1)) (var "count") (EInt 0)) (EInt 0) (scalar 1 false)) (ECond (EOp uint OEq (var "kind") (EInt 1)) (EInt 1) (EInt 0)) (EInt 0) ["count"; "kind"] false;
   arg "count" (scalar 8 false); arg "kind" (scalar 4 false)]
  (Some (scalar 4 false)) sync (Some 0).

Definition cudaFree : func := declare 9 "cudaFree"
  [arg "devPtr" opaque_ptr]
  (Some (scalar 4 false)) sync (Some 0).

Definition cudaGetDevice : func := declare 10 "cudaGetDevice"
  [arg_out "device" (buffer (EInt 1) (scalar 4 true)) []]
  (Some (scalar 4 false)) sync (Some 0).

Definition cudaGetDeviceCount : func := declare 11 "cudaGetDeviceCount"
  [arg_out "count" (buffer (EInt 1) (scalar 4 true)) []]
  (Some (scalar 4 false)) sync (Some 0).

Definition cudaDeviceGetAttribute : func := declare 13 "cudaDeviceGetAttribute"
  [arg_out "value" (buffer (EInt 1) (scalar 4 true)) []; arg "attr" (scalar 4 false);
   arg "device" (scalar 4 true)]
  (Some (scalar 4 false)) sync (Some 0).

Definition cudaDeviceReset : func := declare 14 "cudaDeviceReset"
  []
  (Some (scalar 4 false)) sync (Some 0).

Definition cudaSetDevice : func := declare 15 "cudaSetDevice"
  [arg "device" (scalar 4 true)]
  (Some (scalar 4 false)) sync (Some 0).

Definition cudaMemcpyToSymbol : func := declare 16 "cudaMemcpyToSymbol"
  [arg "symbol" opaque_ptr; arg_in "src" (buffer (var "count") (scalar 1 false)) ["count"];
   arg "count" (scalar 8 false); arg "offset" (scalar 8 false); arg "kind" (scalar 4 false)]
  (Some (scalar 4 false)) sync (Some 0).

Definition cudaMemcpyAsync : func := declare 17 "cudaMemcpyAsync"
  [mk_arg "dst" (TPtr (ECond (EOp uint OEq (var "kind") (EInt 1)) (EInt NW_OPAQUE) (ECond (EOp uint OEq (var "kind") (EInt 2)) (EInt NW_BUFFER) (EInt NW_OPAQUE))) (ECond (EOp uint OEq (var "kind") (EInt 1)) (EInt 0) (ECond (EOp uint OEq (var "kind") (EInt 2)) (var "count") (EInt 0))) (EInt 0) (scalar 1 false)) (EInt 0) (ECond (EOp uint OEq (var "kind") (EInt 1)) (EInt 0) (ECond (EOp uint OEq (var "kind") (EInt 2)) (EInt 1) (EInt 0))) ["count"; "kind"] false;
   mk_arg "src" (TPtr (ECond (EOp uint OEq (var "kind") (EInt 1)) (EInt NW_BUFFER) (EInt NW_OPAQUE)) (ECond (EOp uint OEq (var "kind") (EInt 1)) (var "count") (EInt 0)) (EInt 0) (scalar 1 false)) (ECond (EOp uint OEq (var "kind") (EInt 1)) (EInt 1) (EInt 0)) (EInt 0) ["count"; "kind"] false;
   arg "count" (scalar 8 false); arg "kind" (scalar 4 false); arg "stream" handle]
  (Some (scalar 4 false)) sync (Some 0).

Definition cudaMemset : func := declare 18 "cudaMemset"
  [arg "devPtr" opaque_ptr; arg "value" (scalar 4 true); arg "count" (scalar 8 false)]
  (Some (scalar 4 false)) sync (Some 0).

Definition cudaDeviceSynchronize : func := declare 20 "cudaDeviceSynchronize"
  []
  (Some (scalar 4 false)) sync (Some 0).

Definition cudaEventCreate : func := declare 21 "cudaEventCreate"
  [arg_out "event" (buffer (EInt 1) handle) []]
  (Some (scalar 4 false)) sync (Some 0).

Definition cudaEventRecord : func := declare 22 "cudaEventRecord"
  [arg "event" handle; arg "stream" handle]
  (Some (scalar 4 false)) sync (Some 0).

Definition cudaEventQuery : func := declare 23 "cudaEventQuery"
  [arg "event" handle]
  (Some (scalar 4 false)) sync (Some 0).

Definition cudaEventElapsedTime : func := declare 24 "cudaEventElapsedTime"
  [arg_out "ms" (buffer (EInt 1) (scalar 4 false)) []; arg "start" handle; arg "end" handle]
  (Some (scalar 4 false)) sync (Some 0).

Definition cudaEventDestroy : func := declare 25 "cudaEventDestroy"
  [arg "event" handle]
  (Some (scalar 4 false)) sync (Some 0).

Definition cudaGetLastError : func := declare 26 "cudaGetLastError"
  []
  (Some (scalar 4 false)) sync (Some 0).

Definition cuInit : func := declare 28 "cuInit"
  [arg "Flags" (scalar 4 false)]
  (Some (scalar 4 false)) sync (Some 0).

Definition cuModuleGetFunction : func := declare 29 "cuModuleGetFunction"
  [arg_out "hfunc" (buffer (EInt 1) handle) []; arg "hmod" handle;
   arg_in "name" (buffer (string_size "name") (scalar 1 true)) []]
  (Some (scalar 4 false)) sync (Some 0).

Definition cuDeviceGetCount : func := declare 32 "cuDeviceGetCount"
  [arg_out "count" (buffer (EInt 1) (scalar 4 true)) []]
  (Some (scalar 4 false)) sync (Some 0).

Definition cuDeviceGet : func := declare 33 "cuDeviceGet"
  [arg_out "device" (buffer (EInt 1) (scalar 4 true)) []; arg "ordinal" (scalar 4 true)]
  (Some (scalar 4 false)) sync (Some 0).

Definition cuCtxGetDevice : func := declare 34 "cuCtxGetDevice"
  [arg_out "device" (buffer (EInt 1) (scalar 4 true)) []]
  (Some (scalar 4 false)) sync (Some 0).

Definition cuDeviceGetName : func := declare 35 "cuDeviceGetName"
  [arg_out "name" (buffer (var "len") (scalar 1 true)) ["len"]; arg "len" (scalar 4 true);
   arg "dev" (scalar 4 true)]
  (Some (scalar 4 false)) sync (Some 0).

Definition cuDeviceGetAttribute : func := declare 37 "cuDeviceGetAttribute"
  [arg_out "pi" (buffer (EInt 1) (scalar 4 true)) []; arg "attrib" (scalar 4 false);
   arg "dev" (scalar 4 true)]
  (Some (scalar 4 false)) sync (Some 0).

Definition cuDevicePrimaryCtxGetState : func := declare 38 "cuDevicePrimaryCtxGetState"
  [arg "dev" (scalar 4 true); arg_out "flags" (buffer (EInt 1) (scalar 4 false)) [];
   arg_out "active" (buffer (EInt 1) (scalar 4 true)) []]
  (Some (scalar 4 false)) sync (Some 0).

Definition cuDevicePrimaryCtxSetFlags : func := declare 39 "cuDevicePrimaryCtxSetFlags"
  [arg "dev" (scalar 4 true); arg "flags" (scalar 4 false)]
  (Some (scalar 4 false)) sync (Some 0).

Definition cuCtxCreate : func := declare 40 "cuCtxCreate"
  [arg_out "pctx" (buffer (EInt 1) handle) []; arg "flags" (scalar 4 false); arg "dev" (scalar 4 true)]
  (Some (scalar 4 false)) sync (Some 0).

Definition cuCtxDestroy : func := declare 41 "cuCtxDestroy"
  [arg "ctx" freed_handle]
  (Some (scalar 4 false)) sync (Some 0).

Definition cuCtxGetCurrent : func := declare 42 "cuCtxGetCurrent"
  [arg_out "pctx" (buffer (EInt 1) handle) []]
  (Some (scalar 4 false)) sync (Some 0).

Definition cuCtxSetCurrent : func := declare 43 "cuCtxSetCurrent"
  [arg "ctx" handle]
  (Some (scalar 4 false)) sync (Some 0).

Definition cuDevicePrimaryCtxRetain : func := declare 44 "cuDevicePrimaryCtxRetain"
  [arg_out "pctx" (buffer (EInt 1) handle) []; arg "dev" (scalar 4 true)]
  (Some (scalar 4 false)) sync (Some 0).

Definition cuDevicePrimaryCtxRelease : func := declare 45 "cuDevicePrimaryCtxRelease"
  [arg "dev" (TVal 4 4 true (EInt NW_HANDLE) (EInt 0))]
  (Some (scalar 4 false)) sync (Some 0).

Definition cuCtxSynchronize : func := declare 46 "cuCtxSynchronize"
  []
  (Some (scalar 4 false)) sync (Some 0).

Definition cuCtxPushCurrent : func := declare 47 "cuCtxPushCurrent"
  [arg "ctx" handle]
  (Some (scalar 4 false)) sync (Some 0).

Definition cuCtxPopCurrent : func := declare 48 "cuCtxPopCurrent"
  [arg_out "pctx" (buffer (EInt 1) handle) []]
  (Some (scalar 4 false)) sync (Some 0).

Definition cuStreamCreate : func := declare 49 "cuStreamCreate"
  [arg_out "phStream" (buffer (EInt 1) handle) []; arg "Flags" (scalar 4 false)]
  (Some (scalar 4 false)) sync (Some 0).

Definition cuStreamGetCtx : func := declare 50 "cuStreamGetCtx"
  [arg "hStream" handle; arg_out "pctx" (buffer (EInt 1) handle) []]
  (Some (scalar 4 false)) sync (Some 0).

Definition cuStreamQuery : func := declare 51 "cuStreamQuery"
  [arg "hStream" handle]
  (Some (scalar 4 false)) sync (Some 0).

Definition cuStreamDestroy : func := declare 52 "cuStreamDestroy"
  [arg "hStream" handle]
  (Some (scalar 4 false)) sync (Some 0).

Definition cuMemAlloc : func := declare 53 "cuMemAlloc"
  [arg_out "dptr" (buffer (EInt 1) (scalar 8 false)) []; arg "bytesize" (scalar 8 false)]
  (Some (scalar 4 false)) sync (Some 0).

Definition cuMemsetD32 : func := declare 59 "cuMemsetD32"
  [arg "dstDevice" (scalar 8 false); arg "ui" (scalar 4 false); arg "N" (scalar 8 false)]
  (Some (scalar 4 false)) sync (Some 0).

Definition cuMemsetD8 : func := declare 60 "cuMemsetD8"
  [arg "dstDevice" (scalar 8 false); arg "uc" (scalar 1 false); arg "N" (scalar 8 false)]
  (Some (scalar 4 false)) sync (Some 0).

Definition cuMemsetD32Async : func := declare 61 "cuMemsetD32Async"
  [arg "dstDevice" (scalar 8 false); arg "ui" (scalar 4 false); arg "N" (scalar 8 false);
   arg "hStream" handle]
  (Some (scalar 4 false)) async (Some 0).

Definition cuMemsetD8Async : func := declare 62 "cuMemsetD8Async"
  [arg "dstDevice" (scalar 8 false); arg "uc" (scalar 1 false); arg "N" (scalar 8 false);
   arg "hStream" handle]
  (Some (scalar 4 false)) async (Some 0).

Definition cuMemFreeHost : func := declare 63 "cuMemFreeHost"
  [arg "p" opaque_ptr]
  (Some (scalar 4 false)) sync (Some 0).

Definition cuDriverGetVersion : func := declare 64 "cuDriverGetVersion"
  [arg_out "driverVersion" (buffer (EInt 1) (scalar 4 true)) []]
  (Some (scalar 4 false)) sync (Some 0).

Definition cuDeviceTotalMem : func := declare 65 "cuDeviceTotalMem"
  [arg_out "bytes" (buffer (EInt 1) (scalar 8 false)) []; arg "dev" (scalar 4 true)]
  (Some (scalar 4 false)) sync (Some 0).

Definition cuMemGetInfo : func := declare 66 "cuMemGetInfo"
  [arg_out "_free" (buffer (EInt 1) (scalar 8 false)) [];
   arg_out "total" (buffer (EInt 1) (scalar 8 false)) []]
  (Some (scalar 4 false)) sync (Some 0).

Definition cuDeviceGetPCIBusId : func := declare 67 "cuDeviceGetPCIBusId"
  [arg_out "pciBusId" (buffer (var "len") (scalar 1 true)) ["len"]; arg "len" (scalar 4 true);
   arg "dev" (scalar 4 true)]
  (Some (scalar 4 false)) sync (Some 0).

Definition cuEventCreate : func := declare 68 "cuEventCreate"
  [arg_out "phEvent" (buffer (EInt 1) handle) []; arg "Flags" (scalar 4 false)]
  (Some (scalar 4 false)) sync (Some 0).

Definition cuEventQuery : func := declare 69 "cuEventQuery"
  [arg "hEvent" handle]
  (Some (scalar 4 false)) sync (Some 0).

Definition cuEventRecord : func := declare 70 "cuEventRecord"
  [arg "hEvent" handle; arg "hStream" handle]
  (Some (scalar 4 false)) sync (Some 0).

Definition cuEventSynchronize : func := declare 71 "cuEventSynchronize"
  [arg "hEvent" handle]
  (Some (scalar 4 false)) sync (Some 0).

Definition cuEventElapsedTime : func := declare 72 "cuEventElapsedTime"
  [arg_out "pMilliseconds" (buffer (EInt 1) (scalar 4 false)) []; arg "hStart" handle; arg "hEnd" handle]
  (Some (scalar 4 false)) sync (Some 0).

Definition cuEventDestroy : func := declare 73 "cuEventDestroy"
  [arg "hEvent" handle]
  (Some (scalar 4 false)) sync (Some 0).

Definition cuStreamWaitEvent : func := declare 74 "cuStreamWaitEvent"
  [arg "hStream" handle; arg "hEvent" handle; arg "Flags" (scalar 4 false)]
  (Some (scalar 4 false)) sync (Some 0).

Definition cublasCreate : func := declare 78 "cublasCreate"
  [arg_out "handle" (buffer (EInt 1) handle) []]
  (Some (scalar 4 false)) sync (Some 0).

Definition cublasSetMatrix : func := declare 88 "cublasSetMatrix"
  [arg "rows" (scalar 4 true); arg "cols" (scalar 4 true); arg "elemSize" (scalar 4 true);
   arg_in "A" (buffer (EOp int OMul (EOp int OMul (var "rows") (var "cols")) (var "elemSize")) (scalar 1 false)) ["rows"; "cols"; "elemSize"];
   arg "lda" (scalar 4 true); arg "B" opaque_ptr; arg "ldb" (scalar 4 true)]
  (Some (scalar 4 false)) sync (Some 0).

Definition cublasGetMatrix : func := declare 89 "cublasGetMatrix"
  [arg "rows" (scalar 4 true); arg "cols" (scalar 4 true); arg "elemSize" (scalar 4 true);
   arg "A" opaque_ptr; arg "lda" (scalar 4 true);
   arg_out "B" (buffer (EOp int OMul (EOp int OMul (var "rows") (var "cols")) (var "elemSize")) (scalar 1 false)) ["rows"; "cols"; "elemSize"];
   arg "ldb" (scalar 4 true)]
  (Some (scalar 4 false)) sync (Some 0).

Definition cublasSgemm_v2 : func := declare 231 "cublasSgemm_v2"
  [arg "handle" handle; arg "transa" (scalar 4 false); arg "transb" (scalar 4 false);
   arg "m" (scalar 4 true); arg "n" (scalar 4 true); arg "k" (scalar 4 true);
   arg_in "alpha" (buffer (EInt 1) (scalar 4 false)) []; arg "A" opaque_ptr; arg "lda" (scalar 4 true);
   arg "B" opaque_ptr; arg "ldb" (scalar 4 true); arg_in "beta" (buffer (EInt 1) (scalar 4 false)) [];
   arg "C" opaque_ptr; arg "ldc" (scalar 4 true)]
  (Some (scalar 4 false)) async (Some 0).

Definition cublasGemmBatchedEx : func := declare 284 "cublasGemmBatchedEx"
  [arg "handle" handle; arg "transa" (scalar 4 false); arg "transb" (scalar 4 false);
   arg "m" (scalar 4 true); arg "n" (scalar 4 true); arg "k" (scalar 4 true);
   arg_in "alpha" (buffer (EInt 1) (scalar 1 false)) []; arg "Aarray" opaque_ptr;
   arg "Atype" (scalar 4 false); arg "lda" (scalar 4 true); arg "Barray" opaque_ptr;
   arg "Btype" (scalar 4 false); arg "ldb" (scalar 4 true);
   arg_in "beta" (buffer (EInt 1) (scalar 1 false)) []; arg "Carray" opaque_ptr;
   arg "Ctype" (scalar 4 false); arg "ldc" (scalar 4 true); arg "batchCount" (scalar 4 true);
   arg "computeType" (scalar 4 false); arg "algo" (scalar 4 false)]
  (Some (scalar 4 false)) sync (Some 0).

Definition cublasSgeam : func := declare 291 "cublasSgeam"
  [arg "handle" handle; arg "transa" (scalar 4 false); arg "transb" (scalar 4 false);
   arg "m" (scalar 4 true); arg "n" (scalar 4 true); arg_in "alpha" (buffer (EInt 1) (scalar 4 false)) [];
   arg "A" opaque_ptr; arg "lda" (scalar 4 true); arg_in "beta" (buffer (EInt 1) (scalar 4 false)) [];
   arg "B" opaque_ptr; arg "ldb" (scalar 4 true); arg "C" opaque_ptr; arg "ldc" (scalar 4 true)]
  (Some (scalar 4 false)) sync (Some 0).

Definition cublasSetStream : func := declare 335 "cublasSetStream"
  [arg "handle" handle; arg "streamId" handle]
  (Some (scalar 4 false)) sync (Some 0).

Definition cublasDestroy : func := declare 336 "cublasDestroy"
  [arg "handle" handle]
  (Some (scalar 4 false)) sync (Some 0).

Definition cublasSscal : func := declare 337 "cublasSscal"
  [arg "handle" handle; arg "n" (scalar 4 true); arg_in "alpha" (buffer (EInt 1) (scalar 4 false)) [];
   arg "x" handle; arg "incx" (scalar 4 true)]
  (Some (scalar 4 false)) sync (Some 0).

Definition cudnnCreate : func := declare 340 "cudnnCreate"
  [arg_out "handle" (buffer (EInt 1) handle) []]
  (Some (scalar 4 false)) sync (Some 0).

Definition cudnnDestroy : func := declare 341 "cudnnDestroy"
  [arg "handle" handle]
  (Some (scalar 4 false)) sync (Some 0).

Definition cudnnCreateConvolutionDescriptor : func := declare 342 "cudnnCreateConvolutionDescriptor"
  [arg_out "convDesc" (buffer (EInt 1) handle) []]
  (Some (scalar 4 false)) sync (Some 0).

Definition cudnnCreateFilterDescriptor : func := declare 343 "cudnnCreateFilterDescriptor"
  [arg_out "filterDesc" (buffer (EInt 1) handle) []]
  (Some (scalar 4 false)) sync (Some 0).

Definition cudnnCreatePoolingDescriptor : func := declare 344 "cudnnCreatePoolingDescriptor"
  [arg_out "poolingDesc" (buffer (EInt 1) handle) []]
  (Some (scalar 4 false)) sync (Some 0).

Definition cudnnCreateTensorDescriptor : func := declare 345 "cudnnCreateTensorDescriptor"
  [arg_out "tensorDesc" (buffer (EInt 1) handle) []]
  (Some (scalar 4 false)) sync (Some 0).

Definition cudnnDestroyConvolutionDescriptor : func := declare 346 "cudnnDestroyConvolutionDescriptor"
  [arg "convDesc" handle]
  (Some (scalar 4 false)) sync (Some 0).

Definition cudnnDestroyFilterDescriptor : func := declare 347 "cudnnDestroyFilterDescriptor"
  [arg "filterDesc" handle]
  (Some (scalar 4 false)) sync (Some 0).

Definition cudnnDestroyPoolingDescriptor : func := declare 348 "cudnnDestroyPoolingDescriptor"
  [arg "poolingDesc" handle]
  (Some (scalar 4 false)) sync (Some 0).

Definition cudnnDestroyTensorDescriptor : func := declare 349 "cudnnDestroyTensorDescriptor"
  [arg "tensorDesc" handle]
  (Some (scalar 4 false)) sync (Some 0).

Definition cudnnGetBatchNormalizationForwardTrainingExWorkspaceSize : func := declare 350 "cudnnGetBatchNormalizationForwardTrainingExWorkspaceSize"
  [arg "handle" handle; arg "mode" (scalar 4 false); arg "bnOps" (scalar 4 false); arg "xDesc" handle;
   arg "zDesc" handle; arg "yDesc" handle; arg "bnScaleBiasMeanVarDesc" handle;
   arg "activationDesc" handle; arg_out "sizeInBytes" (buffer (EInt 1) (scalar 8 false)) []]
  (Some (scalar 4 false)) sync (Some 0).

Definition cudnnGetConvolutionForwardWorkspaceSize : func := declare 351 "cudnnGetConvolutionForwardWorkspaceSize"
  [arg "handle" handle; arg "xDesc" handle; arg "wDesc" handle; arg "convDesc" handle; arg "yDesc" handle;
   arg "algo" (scalar 4 false); arg_out "sizeInBytes" (buffer (EInt 1) (scalar 8 false)) []]
  (Some (scalar 4 false)) sync (Some 0).

Definition cudnnGetConvolutionForwardAlgorithm : func := declare 352 "cudnnGetConvolutionForwardAlgorithm"
  [arg "handle" handle; arg "xDesc" handle; arg "wDesc" handle; arg "convDesc" handle; arg "yDesc" handle;
   arg "preference" (scalar 4 false); arg "memoryLimitInBytes" (scalar 8 false);
   arg_out "algo" (buffer (EInt 1) (scalar 4 false)) []]
  (Some (scalar 4 false)) sync (Some 0).

Definition cudnnGetProperty : func := declare 354 "cudnnGetProperty"
  [arg "type" (scalar 4 false); arg_out "value" (buffer (EInt 1) (scalar 4 true)) []]
  (Some (scalar 4 false)) sync (Some 0).

Definition cudnnSetConvolutionGroupCount : func := declare 356 "cudnnSetConvolutionGroupCount"
  [arg "convDesc" handle; arg "groupCount" (scalar 4 true)]
  (Some (scalar 4 false)) sync (Some 0).

Definition cudnnSetConvolutionMathType : func := declare 357 "cudnnSetConvolutionMathType"
  [arg "convDesc" handle; arg "mathType" (scalar 4 false)]
  (Some (scalar 4 false)) sync (Some 0).

Definition cudnnSetConvolutionNdDescriptor : func := declare 358 "cudnnSetConvolutionNdDescriptor"
  [arg "convDesc" handle; arg "arrayLength" (scalar 4 true);
   arg_in "padA" (buffer (var "arrayLength") (scalar 4 true)) ["arrayLength"];
   arg_in "filterStrideA" (buffer (var "arrayLength") (scalar 4 true)) ["arrayLength"];
   arg_in "dilationA" (buffer (var "arrayLength") (scalar 4 true)) ["arrayLength"];
   arg "mode" (scalar 4 false); arg "computeType" (scalar 4 false)]
  (Some (scalar 4 false)) sync (Some 0).

Definition cudnnSetFilterNdDescriptor : func := declare 359 "cudnnSetFilterNdDescriptor"
  [arg "filterDesc" handle; arg "dataType" (scalar 4 false); arg "format" (scalar 4 false);
   arg "nbDims" (scalar 4 true); arg_in "filterDimA" (buffer (var "nbDims") (scalar 4 true)) ["nbDims"]]
  (Some (scalar 4 false)) sync (Some 0).

Definition cudnnSetPoolingNdDescriptor : func := declare 360 "cudnnSetPoolingNdDescriptor"
  [arg "poolingDesc" handle; arg "mode" (scalar 4 false); arg "maxpoolingNanOpt" (scalar 4 false);
   arg "nbDims" (scalar 4 true); arg_in "windowDimA" (buffer (var "nbDims") (scalar 4 true)) ["nbDims"];
   arg_in "paddingA" (buffer (var "nbDims") (scalar 4 true)) ["nbDims"];
   arg_in "strideA" (buffer (var "nbDims") (scalar 4 true)) ["nbDims"]]
  (Some (scalar 4 false)) sync (Some 0).

Definition cudnnSetStream : func := declare 361 "cudnnSetStream"
  [arg "handle" handle; arg "streamId" handle]
  (Some (scalar 4 false)) sync (Some 0).

Definition cudnnSetTensorNdDescriptor : func := declare 362 "cudnnSetTensorNdDescriptor"
  [arg "tensorDesc" handle; arg "dataType" (scalar 4 false); arg "nbDims" (scalar 4 true);
   arg_in "dimA" (buffer (var "nbDims") (scalar 4 true)) ["nbDims"];
   arg_in "strideA" (buffer (var "nbDims") (scalar 4 true)) ["nbDims"]]
  (Some (scalar 4 false)) sync (Some 0).

Definition cudnnCreateRNNDescriptor : func := declare 364 "cudnnCreateRNNDescriptor"
  [arg_out "rnnDesc" (buffer (EInt 1) handle) []]
  (Some (scalar 4 false)) sync (Some 0).

Definition cudnnDestroyRNNDescriptor : func := declare 365 "cudnnDestroyRNNDescriptor"
  [arg "rnnDesc" handle]
  (Some (scalar 4 false)) sync (Some 0).

Definition cudnnDeriveBNTensorDescriptor : func := declare 491 "cudnnDeriveBNTensorDescriptor"
  [arg "derivedBnDesc" handle; arg "xDesc" handle; arg "mode" (scalar 4 false)]
  (Some (scalar 4 false)) sync (Some 0).

Definition curandCreateGenerator : func := declare 563 "curandCreateGenerator"
  [arg_out "generator" (buffer (EInt 1) handle) []; arg "rng_type" (scalar 4 false)]
  (Some (scalar 4 false)) sync None.

Definition curandDestroyGenerator : func := declare 565 "curandDestroyGenerator"
  [arg "generator" handle]
  (Some (scalar 4 false)) sync None.

Definition cudaPeekAtLastError : func := declare 1417 "cudaPeekAtLastError"
  []
  (Some (scalar 4 false)) sync (Some 0).

Definition cudaStreamCreateWithFlags : func := declare 1425 "cudaStreamCreateWithFlags"
  [arg_out "pStream" (buffer (EInt 1) handle) []; arg "flags" (scalar 4 false)]
  (Some (scalar 4 false)) sync (Some 0).

Definition cudaStreamDestroy : func := declare 1429 "cudaStreamDestroy"
  [arg "stream" handle]
  (Some (scalar 4 false)) sync (Some 0).

Definition cudaStreamSynchronize : func := declare 1431 "cudaStreamSynchronize"
  [arg "stream" handle]
  (Some (scalar 4 false)) sync (Some 0).

Definition cudaStreamQuery : func := declare 1432 "cudaStreamQuery"
  [arg "stream" handle]
  (Some (scalar 4 false)) sync (Some 0).

Definition cudaEventCreateWithFlags : func := declare 1438 "cudaEventCreateWithFlags"
  [arg_out "event" (buffer (EInt 1) handle) []; arg "flags" (scalar 4 false)]
  (Some (scalar 4 false)) sync (Some 0).

Definition cudaEventSynchronize : func := declare 1439 "cudaEventSynchronize"
  [arg "event" handle]
  (Some (scalar 4 false)) sync (Some 0).

Definition cudaMemGetInfo : func := declare 1474 "cudaMemGetInfo"
  [arg_out "_free" (buffer (EInt 1) (scalar 8 false)) [];
   arg_out "total" (buffer (EInt 1) (scalar 8 false)) []]
  (Some (scalar 4 false)) sync (Some 0).

Definition cudaMemcpyFromSymbol : func := declare 1481 "cudaMemcpyFromSymbol"
  [arg_out "dst" (buffer (var "count") (scalar 1 false)) ["count"]; arg "symbol" opaque_ptr;
   arg "count" (scalar 8 false); arg "offset" (scalar 8 false); arg "kind" (scalar 4 false)]
  (Some (scalar 4 false)) sync (Some 0).

Definition onnx_dump_functions : list func :=
  [__cudaInitModule; cudaMalloc; cudaMemcpy; cudaFree; cudaGetDevice; cudaGetDeviceCount;
   cudaDeviceGetAttribute; cudaDeviceReset; cudaSetDevice; cudaMemcpyToSymbol; cudaMemcpyAsync; cudaMemset;
   cudaDeviceSynchronize; cudaEventCreate; cudaEventRecord; cudaEventQuery; cudaEventElapsedTime;
   cudaEventDestroy; cudaGetLastError; cuInit; cuModuleGetFunction; cuDeviceGetCount; cuDeviceGet;
   cuCtxGetDevice; cuDeviceGetName; cuDeviceGetAttribute; cuDevicePrimaryCtxGetState;
   cuDevicePrimaryCtxSetFlags; cuCtxCreate; cuCtxDestroy; cuCtxGetCurrent; cuCtxSetCurrent;
   cuDevicePrimaryCtxRetain; cuDevicePrimaryCtxRelease; cuCtxSynchronize; cuCtxPushCurrent;
   cuCtxPopCurrent; cuStreamCreate; cuStreamGetCtx; cuStreamQuery; cuStreamDestroy; cuMemAlloc;
   cuMemsetD32; cuMemsetD8; cuMemsetD32Async; cuMemsetD8Async; cuMemFreeHost; cuDriverGetVersion;
   cuDeviceTotalMem; cuMemGetInfo; cuDeviceGetPCIBusId; cuEventCreate; cuEventQuery; cuEventRecord;
   cuEventSynchronize; cuEventElapsedTime; cuEventDestroy; cuStreamWaitEvent; cublasCreate;
   cublasSetMatrix; cublasGetMatrix; cublasSgemm_v2; cublasGemmBatchedEx; cublasSgeam; cublasSetStream;
   cublasDestroy; cublasSscal; cudnnCreate; cudnnDestroy; cudnnCreateConvolutionDescriptor;
   cudnnCreateFilterDescriptor; cudnnCreatePoolingDescriptor; cudnnCreateTensorDescriptor;
   cudnnDestroyConvolutionDescriptor; cudnnDestroyFilterDescriptor; cudnnDestroyPoolingDescriptor;
   cudnnDestroyTensorDescriptor; cudnnGetBatchNormalizationForwardTrainingExWorkspaceSize;
   cudnnGetConvolutionForwardWorkspaceSize; cudnnGetConvolutionForwardAlgorithm; cudnnGetProperty;
   cudnnSetConvolutionGroupCount; cudnnSetConvolutionMathType; cudnnSetConvolutionNdDescriptor;
   cudnnSetFilterNdDescriptor; cudnnSetPoolingNdDescriptor; cudnnSetStream; cudnnSetTensorNdDescriptor;
   cudnnCreateRNNDescriptor; cudnnDestroyRNNDescriptor; cudnnDeriveBNTensorDescriptor;
   curandCreateGenerator; curandDestroyGenerator; cudaPeekAtLastError; cudaStreamCreateWithFlags;
   cudaStreamDestroy; cudaStreamSynchronize; cudaStreamQuery; cudaEventCreateWithFlags;
   cudaEventSynchronize; cudaMemGetInfo; cudaMemcpyFromSymbol].
