(* ===== verification/SpecMvncAsync.v ===== *)
(** * The specification of the Movidius NCSDK with asynchronous calls (cava/samples/mvnc.async.nw.c)

    The annotated functions as values of [func].  [scalar n s] is a value of [n] bytes, signed if
    [s]; the widths of the API's types are those of its public header. *)

From S2P Require Import Prelude Cava SpecCheck.
Local Open Scope Z_scope.


Definition ncGlobalSetOption : func := declare 0 "ncGlobalSetOption"
  [arg "option" (scalar 4 true); arg_in "data" (buffer (var "dataLength") (scalar 1 false)) ["dataLength"];
   arg "dataLength" (scalar 4 false)]
  (Some (scalar 4 false)) async None.

Definition ncGlobalGetOption : func := declare 1 "ncGlobalGetOption"
  [arg "option" (scalar 4 true);
   arg_out "data" (buffer (EAt uint (RArg "dataLength") (EInt 0)) (scalar 1 false)) ["dataLength"];
   mk_arg "dataLength" (buffer (EInt 1) (scalar 4 false)) (EInt 1) (EInt 1) [] false]
  (Some (scalar 4 false)) sync None.

Definition ncDeviceSetOption : func := declare 2 "ncDeviceSetOption"
  [arg "deviceHandle" handle; arg "option" (scalar 4 true);
   arg_in "data" (buffer (var "dataLength") (scalar 1 false)) ["dataLength"];
   arg "dataLength" (scalar 4 false)]
  (Some (scalar 4 false)) async None.

Definition ncDeviceGetOption : func := declare 3 "ncDeviceGetOption"
  [arg "deviceHandle" handle; arg "option" (scalar 4 true);
   arg_out "data" (buffer (EAt uint (RArg "dataLength") (EInt 0)) (scalar 1 false)) ["dataLength"];
   mk_arg "dataLength" (buffer (EInt 1) (scalar 4 false)) (EInt 1) (EInt 1) [] false]
  (Some (scalar 4 false)) sync None.

Definition ncDeviceCreate : func := declare 4 "ncDeviceCreate"
  [arg "index" (scalar 4 true); arg_out "deviceHandle" (buffer (EInt 1) handle) []]
  (Some (scalar 4 false)) sync None.

Definition ncDeviceOpen : func := declare 5 "ncDeviceOpen"
  [arg "deviceHandle" handle]
  (Some (scalar 4 false)) sync None.

Definition ncDeviceClose : func := declare 6 "ncDeviceClose"
  [arg "deviceHandle" handle]
  (Some (scalar 4 false)) sync None.

Definition ncDeviceDestroy : func := declare 7 "ncDeviceDestroy"
  [mk_arg "deviceHandle" (buffer (EInt 1) freed_handle) (EInt 1) (EInt 1) [] false]
  (Some (scalar 4 false)) sync None.

Definition ncGraphCreate : func := declare 8 "ncGraphCreate"
  [arg_in "ava_name" (buffer (string_size "ava_name") (scalar 1 true)) [];
   arg_out "graphHandle" (buffer (EInt 1) handle) []]
  (Some (scalar 4 false)) sync None.

Definition ncGraphAllocate : func := declare 9 "ncGraphAllocate"
  [arg "deviceHandle" handle;
   mk_arg "graphHandle" handle (EInt 0) (EInt 0) ["deviceHandle"; "graphBufferLength"] false;
   arg_in "graphBuffer" (buffer (var "graphBufferLength") (scalar 1 false)) ["graphBufferLength"];
   arg "graphBufferLength" (scalar 4 false)]
  (Some (scalar 4 false)) sync None.

Definition ncGraphDestroy : func := declare 10 "ncGraphDestroy"
  [mk_arg "graphHandle" (buffer (EInt 1) freed_handle) (EInt 1) (EInt 1) [] false]
  (Some (scalar 4 false)) sync None.

Definition ncGraphSetOption : func := declare 11 "ncGraphSetOption"
  [arg "graphHandle" handle; arg "option" (scalar 4 true);
   arg_in "data" (buffer (var "dataLength") (scalar 1 false)) ["dataLength"];
   arg "dataLength" (scalar 4 false)]
  (Some (scalar 4 false)) async None.

Definition ncGraphGetOption : func := declare 12 "ncGraphGetOption"
  [arg "graphHandle" handle; arg "option" (scalar 4 true);
   arg_out "data" (buffer (EAt uint (RArg "dataLength") (EInt 0)) (scalar 1 false)) ["dataLength"];
   mk_arg "dataLength" (buffer (EInt 1) (scalar 4 false)) (EInt 1) (EInt 1) [] false]
  (Some (scalar 4 false)) sync None.

Definition ncGraphQueueInference : func := declare 13 "ncGraphQueueInference"
  [arg "graphHandle" handle;
   mk_arg "fifoIn" (buffer (var "inFifoCount") handle) (EInt 1) (EInt 1) ["inFifoCount"] false;
   arg "inFifoCount" (scalar 4 false);
   mk_arg "fifoOut" (buffer (var "outFifoCount") handle) (EInt 1) (EInt 1) ["outFifoCount"] false;
   arg "outFifoCount" (scalar 4 false)]
  (Some (scalar 4 false)) sync None.

Definition ncGraphQueueInferenceWithFifoElem : func := declare 14 "ncGraphQueueInferenceWithFifoElem"
  [arg "graphHandle" handle; arg "fifoIn" handle; arg "fifoOut" handle;
   arg_in "inputTensor" (buffer (EAt uint (RArg "inputTensorLength") (EInt 0)) (scalar 1 false)) ["inputTensorLength"];
   mk_arg "inputTensorLength" (buffer (EInt 1) (scalar 4 false)) (EInt 1) (EInt 1) [] false;
   arg "userParam" opaque_ptr]
  (Some (scalar 4 false)) sync None.

Definition ncGraphAllocateWithFifos : func := declare 15 "ncGraphAllocateWithFifos"
  [arg "deviceHandle" handle; mk_arg "graphHandle" handle (EInt 0) (EInt 0) ["deviceHandle"] false;
   arg_in "graphBuffer" (buffer (var "graphBufferLength") (scalar 1 false)) ["graphBufferLength"];
   arg "graphBufferLength" (scalar 4 false);
   arg_out "inFifoHandle" (buffer (EInt 1) handle) ["deviceHandle"];
   arg_out "outFifoHandle" (buffer (EInt 1) handle) ["deviceHandle"]]
  (Some (scalar 4 false)) sync None.

Definition ncGraphAllocateWithFifosEx : func := declare 16 "ncGraphAllocateWithFifosEx"
  [arg "deviceHandle" handle; mk_arg "graphHandle" handle (EInt 0) (EInt 0) ["deviceHandle"] false;
   arg_in "graphBuffer" (buffer (var "graphBufferLength") (scalar 1 false)) ["graphBufferLength"];
   arg "graphBufferLength" (scalar 4 false);
   arg_out "inFifoHandle" (buffer (EInt 1) handle) ["deviceHandle"]; arg "inFifoType" (scalar 4 false);
   arg "inNumElem" (scalar 4 true); arg "inDataType" (scalar 4 false);
   arg_out "outFifoHandle" (buffer (EInt 1) handle) ["deviceHandle"]; arg "outFifoType" (scalar 4 false);
   arg "outNumElem" (scalar 4 true); arg "outDataType" (scalar 4 false)]
  (Some (scalar 4 false)) sync None.

Definition ncFifoCreate : func := declare 17 "ncFifoCreate"
  [arg_in "ava_name" (buffer (string_size "ava_name") (scalar 1 true)) []; arg "ava_type" (scalar 4 false);
   arg_out "fifoHandle" (buffer (EInt 1) handle) []]
  (Some (scalar 4 false)) sync None.

Definition ncFifoSetOption : func := declare 19 "ncFifoSetOption"
  [arg "fifoHandle" handle; arg "option" (scalar 4 true);
   arg_in "data" (buffer (var "dataLength") (scalar 1 false)) ["dataLength"];
   arg "dataLength" (scalar 4 false)]
  (Some (scalar 4 false)) async None.

Definition ncFifoGetOption : func := declare 20 "ncFifoGetOption"
  [arg "fifoHandle" handle; arg "option" (scalar 4 true);
   mk_arg "data" (buffer (EAt uint (RArg "dataLength") (EInt 0)) (scalar 1 false)) (EInt 1) (EInt 1) ["dataLength"] false;
   mk_arg "dataLength" (buffer (EInt 1) (scalar 4 false)) (EInt 1) (EInt 1) [] false]
  (Some (scalar 4 false)) sync None.

Definition ncFifoDestroy : func := declare 21 "ncFifoDestroy"
  [mk_arg "fifoHandle" (buffer (EInt 1) freed_handle) (EInt 1) (EInt 1) [] false]
  (Some (scalar 4 false)) sync None.

Definition ncFifoWriteElem : func := declare 22 "ncFifoWriteElem"
  [arg "fifoHandle" handle;
   arg_in "inputTensor" (buffer (EAt uint (RArg "inputTensorLength") (EInt 0)) (scalar 1 false)) ["inputTensorLength"];
   mk_arg "inputTensorLength" (buffer (EInt 1) (scalar 4 false)) (EInt 1) (EInt 1) [] false;
   arg "userParam" opaque_ptr]
  (Some (scalar 4 false)) sync None.

Definition ncFifoReadElem : func := declare 23 "ncFifoReadElem"
  [arg "fifoHandle" handle;
   arg_out "outputData" (buffer (EAt uint (RArg "outputDataLen") (EInt 0)) (scalar 1 false)) ["outputDataLen"];
   mk_arg "outputDataLen" (buffer (EInt 1) (scalar 4 false)) (EInt 1) (EInt 1) [] false;
   arg_out "userParam" (buffer (EInt 1) (scalar 8 false)) []]
  (Some (scalar 4 false)) sync None.

Definition ncFifoRemoveElem : func := declare 24 "ncFifoRemoveElem"
  [arg "fifoHandle" handle]
  (Some (scalar 4 false)) sync None.

Definition mvnc_async_functions : list func :=
  [ncGlobalSetOption; ncGlobalGetOption; ncDeviceSetOption; ncDeviceGetOption; ncDeviceCreate;
   ncDeviceOpen; ncDeviceClose; ncDeviceDestroy; ncGraphCreate; ncGraphAllocate; ncGraphDestroy;
   ncGraphSetOption; ncGraphGetOption; ncGraphQueueInference; ncGraphQueueInferenceWithFifoElem;
   ncGraphAllocateWithFifos; ncGraphAllocateWithFifosEx; ncFifoCreate; ncFifoSetOption; ncFifoGetOption;
   ncFifoDestroy; ncFifoWriteElem; ncFifoReadElem; ncFifoRemoveElem].
