(* ===== verification/SpecHip.v ===== *)
(** * The specification of HIP (cava/samples/hip.nw.cpp)

    The annotated functions as values of [func].  [scalar n s] is a value of [n] bytes, signed if
    [s]; the widths of the API's types are those of its public header. *)

From S2P Require Import Prelude Cava SpecCheck.
Local Open Scope Z_scope.


Definition hipDeviceSynchronize : func := declare 0 "hipDeviceSynchronize"
  []
  (Some (scalar 4 false)) sync None.

Definition hipMalloc : func := declare 1 "hipMalloc"
  [arg_out "dptr" (buffer (EInt 1) (scalar 8 false)) []; arg "size" (scalar 8 false)]
  (Some (scalar 4 false)) sync None.

Definition hipFree : func := declare 2 "hipFree"
  [arg "ptr" opaque_ptr]
  (Some (scalar 4 false)) sync None.

Definition nw_hipMemcpy : func := declare 6 "nw_hipMemcpy"
  [mk_arg "dst" (TPtr (ECond (EOp uint OEq (var "kind") (EInt 2)) (EInt NW_BUFFER) (EInt NW_OPAQUE)) (ECond (EOp uint OEq (var "kind") (EInt 2)) (var "sizeBytes") (EInt 0)) (EInt 0) (scalar 1 false)) (EInt 0) (ECond (EOp uint OEq (var "kind") (EInt 2)) (EInt 1) (EInt 0)) ["sizeBytes"; "kind"] false;
   mk_arg "src" (TPtr (ECond (EOp uint OEq (var "kind") (EInt 1)) (EInt NW_BUFFER) (EInt NW_OPAQUE)) (ECond (EOp uint OEq (var "kind") (EInt 1)) (var "sizeBytes") (EInt 0)) (EInt 0) (scalar 1 false)) (ECond (EOp uint OEq (var "kind") (EInt 1)) (EInt 1) (EInt 0)) (EInt 0) ["sizeBytes"; "kind"] false;
   arg "sizeBytes" (scalar 8 false); arg "kind" (scalar 4 false)]
  (Some (scalar 4 false)) sync None.

Definition nw_hipMemcpySync : func := declare 10 "nw_hipMemcpySync"
  [mk_arg "dst" (TPtr (ECond (EOp uint OEq (var "kind") (EInt 2)) (EInt NW_BUFFER) (EInt NW_OPAQUE)) (ECond (EOp uint OEq (var "kind") (EInt 2)) (var "sizeBytes") (EInt 0)) (EInt 0) (scalar 1 false)) (EInt 0) (ECond (EOp uint OEq (var "kind") (EInt 2)) (EInt 1) (EInt 0)) ["sizeBytes"; "kind"] false;
   mk_arg "src" (TPtr (ECond (EOp uint OEq (var "kind") (EInt 1)) (EInt NW_BUFFER) (EInt NW_OPAQUE)) (ECond (EOp uint OEq (var "kind") (EInt 1)) (var "sizeBytes") (EInt 0)) (EInt 0) (scalar 1 false)) (ECond (EOp uint OEq (var "kind") (EInt 1)) (EInt 1) (EInt 0)) (EInt 0) ["sizeBytes"; "kind"] false;
   arg "sizeBytes" (scalar 8 false); arg "kind" (scalar 4 false); arg "stream" (scalar 8 false)]
  (Some (scalar 4 false)) sync None.

Definition hipGetDeviceCount : func := declare 11 "hipGetDeviceCount"
  [arg_out "count" (buffer (EInt 1) (scalar 4 true)) []]
  (Some (scalar 4 false)) sync None.

Definition nw_hipSetDevice : func := declare 12 "nw_hipSetDevice"
  [arg "deviceId" (scalar 4 true)]
  (Some (scalar 4 false)) sync None.

Definition hipMemGetInfo : func := declare 13 "hipMemGetInfo"
  [arg_out "__free" (buffer (EInt 1) (scalar 8 false)) [];
   arg_out "total" (buffer (EInt 1) (scalar 8 false)) []]
  (Some (scalar 4 false)) sync None.

Definition nw_hipGetDevice : func := declare 15 "nw_hipGetDevice"
  [arg_out "deviceId" (buffer (EInt 1) (scalar 4 true)) []]
  (Some (scalar 4 false)) sync None.

Definition hipInit : func := declare 16 "hipInit"
  [arg "flags" (scalar 4 false)]
  (Some (scalar 4 false)) sync None.

Definition hipCtxGetCurrent : func := declare 17 "hipCtxGetCurrent"
  [arg_out "ctx" (buffer (EInt 1) (scalar 8 false)) []]
  (Some (scalar 4 false)) sync None.

Definition nw_hipStreamSynchronize : func := declare 18 "nw_hipStreamSynchronize"
  [arg "stream" (scalar 8 false)]
  (Some (scalar 4 false)) sync None.

Definition hipPeekAtLastError : func := declare 25 "hipPeekAtLastError"
  []
  (Some (scalar 4 false)) sync None.

Definition nw_hipDeviceGetAttribute : func := declare 26 "nw_hipDeviceGetAttribute"
  [arg_out "pi" (buffer (EInt 1) (scalar 4 true)) []; arg "attr" (scalar 4 false);
   arg "deviceId" (scalar 4 true)]
  (Some (scalar 4 false)) sync None.

Definition nw_hipCtxSetCurrent : func := declare 29 "nw_hipCtxSetCurrent"
  [arg "ctx" (scalar 8 false)]
  (Some (scalar 4 false)) sync None.

Definition hipEventCreate : func := declare 30 "hipEventCreate"
  [arg_out "event" (buffer (EInt 1) (scalar 8 false)) []]
  (Some (scalar 4 false)) sync None.

Definition hipEventRecord : func := declare 31 "hipEventRecord"
  [arg "event" (scalar 8 false); arg "stream" (scalar 8 false)]
  (Some (scalar 4 false)) sync None.

Definition hipEventSynchronize : func := declare 32 "hipEventSynchronize"
  [arg "event" (scalar 8 false)]
  (Some (scalar 4 false)) sync None.

Definition hipEventDestroy : func := declare 33 "hipEventDestroy"
  [arg "event" (scalar 8 false)]
  (Some (scalar 4 false)) sync None.

Definition hipEventElapsedTime : func := declare 34 "hipEventElapsedTime"
  [arg_out "ms" (buffer (EInt 1) (scalar 4 false)) []; arg "start" (scalar 8 false);
   arg "stop" (scalar 8 false)]
  (Some (scalar 4 false)) sync None.

Definition hipModuleLoad : func := declare 35 "hipModuleLoad"
  [arg_out "module" (buffer (EInt 1) (scalar 8 false)) [];
   arg_in "fname" (buffer (string_size "fname") (scalar 1 true)) []]
  (Some (scalar 4 false)) sync None.

Definition hipModuleUnload : func := declare 36 "hipModuleUnload"
  [arg "module" (scalar 8 false)]
  (Some (scalar 4 false)) sync None.

Definition nw_hipStreamDestroy : func := declare 37 "nw_hipStreamDestroy"
  [arg "stream" (scalar 8 false)]
  (Some (scalar 4 false)) sync None.

Definition hipModuleGetFunction : func := declare 38 "hipModuleGetFunction"
  [arg_out "function" (buffer (EInt 1) (scalar 8 false)) []; arg "module" (scalar 8 false);
   arg_in "kname" (buffer (string_size "kname") (scalar 1 true)) []]
  (Some (scalar 4 false)) sync None.

Definition hipGetLastError : func := declare 39 "hipGetLastError"
  []
  (Some (scalar 4 false)) sync None.

Definition hipMemset : func := declare 40 "hipMemset"
  [arg "dst" opaque_ptr; arg "value" (scalar 4 true); arg "sizeBytes" (scalar 8 false)]
  (Some (scalar 4 false)) sync None.

Definition hipStreamWaitEvent : func := declare 41 "hipStreamWaitEvent"
  [arg "stream" (scalar 8 false); arg "event" (scalar 8 false); arg "flags" (scalar 4 false)]
  (Some (scalar 4 false)) sync None.

Definition nw_hipCtxGetDevice : func := declare 49 "nw_hipCtxGetDevice"
  [arg_out "device" (buffer (EInt 1) (scalar 4 true)) []]
  (Some (scalar 4 false)) sync None.

Definition hip_functions : list func :=
  [hipDeviceSynchronize; hipMalloc; hipFree; nw_hipMemcpy; nw_hipMemcpySync; hipGetDeviceCount;
   nw_hipSetDevice; hipMemGetInfo; nw_hipGetDevice; hipInit; hipCtxGetCurrent; nw_hipStreamSynchronize;
   hipPeekAtLastError; nw_hipDeviceGetAttribute; nw_hipCtxSetCurrent; hipEventCreate; hipEventRecord;
   hipEventSynchronize; hipEventDestroy; hipEventElapsedTime; hipModuleLoad; hipModuleUnload;
   nw_hipStreamDestroy; hipModuleGetFunction; hipGetLastError; hipMemset; hipStreamWaitEvent;
   nw_hipCtxGetDevice].
