(* ===== verification/SpecTensorflow.v ===== *)
(** * The specification of the TensorFlow C API (cava/samples/tensorflow.nw.c)

    The annotated functions as values of [func].  [scalar n s] is a value of [n] bytes, signed if
    [s]; the widths of the API's types are those of its public header. *)

From S2P Require Import Prelude Cava SpecCheck.
Local Open Scope Z_scope.


Definition TF_NewStatus : func := declare 0 "TF_NewStatus"
  []
  (Some handle) sync None.

Definition TF_DeleteStatus : func := declare 1 "TF_DeleteStatus"
  [arg "s" freed_handle]
  None sync None.

Definition TF_SetStatus : func := declare 2 "TF_SetStatus"
  [arg "s" handle; arg "code" (scalar 4 false);
   arg_in "msg" (buffer (EStrlen (RArg "msg")) (scalar 1 true)) []]
  None sync None.

Definition TF_GetCode : func := declare 3 "TF_GetCode"
  [arg "s" handle]
  (Some (scalar 4 false)) sync None.

Definition TF_DeleteTensor : func := declare 9 "TF_DeleteTensor"
  [arg "tensor" freed_handle]
  None sync None.

Definition TF_TensorType : func := declare 10 "TF_TensorType"
  [arg "tensor" handle]
  (Some (scalar 4 false)) sync None.

Definition TF_NumDims : func := declare 11 "TF_NumDims"
  [arg "tensor" handle]
  (Some (scalar 4 true)) sync None.

Definition TF_Dim : func := declare 12 "TF_Dim"
  [arg "tensor" handle; arg "dim_index" (scalar 4 true)]
  (Some (scalar 8 true)) sync None.

Definition TF_StringEncodedSize : func := declare 16 "TF_StringEncodedSize"
  [arg "len" (scalar 8 false)]
  (Some (scalar 8 false)) sync None.

Definition TF_NewSessionOptions : func := declare 17 "TF_NewSessionOptions"
  []
  (Some handle) sync None.

Definition TF_SetTarget : func := declare 18 "TF_SetTarget"
  [arg "options" handle; arg_in "target" (buffer (EStrlen (RArg "target")) (scalar 1 true)) []]
  None sync None.

Definition TF_SetConfig : func := declare 19 "TF_SetConfig"
  [arg "options" handle; arg_in "proto" (buffer (var "proto_len") (scalar 1 false)) ["proto_len"];
   arg "proto_len" (scalar 8 false); arg "status" handle]
  None sync None.

Definition TF_DeleteSessionOptions : func := declare 20 "TF_DeleteSessionOptions"
  [arg "options" freed_handle]
  None sync None.

Definition TF_NewGraph : func := declare 21 "TF_NewGraph"
  []
  (Some handle) sync None.

Definition TF_DeleteGraph : func := declare 22 "TF_DeleteGraph"
  [arg "graph" freed_handle]
  None sync None.

Definition TF_NewOperation : func := declare 24 "TF_NewOperation"
  [arg "graph" handle; arg_in "op_type" (buffer (EStrlen (RArg "op_type")) (scalar 1 true)) [];
   arg_in "oper_name" (buffer (EStrlen (RArg "oper_name")) (scalar 1 true)) []]
  (Some handle) sync None.

Definition TF_SetDevice : func := declare 25 "TF_SetDevice"
  [arg "desc" handle; arg_in "device" (buffer (EStrlen (RArg "device")) (scalar 1 true)) []]
  None sync None.

Definition TF_FinishOperation : func := declare 26 "TF_FinishOperation"
  [arg "desc" handle; arg "status" handle]
  (Some handle) sync None.

Definition TF_OperationNumOutputs : func := declare 27 "TF_OperationNumOutputs"
  [arg "oper" handle]
  (Some (scalar 4 true)) sync None.

Definition TF_OperationNumInputs : func := declare 28 "TF_OperationNumInputs"
  [arg "oper" handle]
  (Some (scalar 4 true)) sync None.

Definition TF_GraphOperationByName : func := declare 29 "TF_GraphOperationByName"
  [arg "graph" handle; arg_in "oper_name" (buffer (string_size "oper_name") (scalar 1 true)) []]
  (Some handle) sync None.

Definition TF_GraphNextOperation : func := declare 30 "TF_GraphNextOperation"
  [arg "graph" handle; arg_out "pos" (buffer (EInt 1) (scalar 8 false)) []]
  (Some handle) sync None.

Definition TF_NewImportGraphDefOptions : func := declare 31 "TF_NewImportGraphDefOptions"
  []
  (Some handle) sync None.

Definition TF_DeleteImportGraphDefOptions : func := declare 32 "TF_DeleteImportGraphDefOptions"
  [arg "opts" freed_handle]
  None sync None.

Definition TF_NewSession : func := declare 34 "TF_NewSession"
  [arg "graph" handle; arg "opts" handle; arg "status" handle]
  (Some handle) sync None.

Definition TF_CloseSession : func := declare 35 "TF_CloseSession"
  [arg "sess" handle; arg "status" handle]
  None sync None.

Definition TF_DeleteSession : func := declare 36 "TF_DeleteSession"
  [arg "sess" freed_handle; arg "status" handle]
  None sync None.

Definition TF_StringEncode : func := declare 39 "TF_StringEncode"
  [arg_in "src" (buffer (var "src_len") (scalar 1 true)) ["src_len"]; arg "src_len" (scalar 8 false);
   arg_out "dst" (buffer (var "dst_len") (scalar 1 true)) ["dst_len"]; arg "dst_len" (scalar 8 false);
   arg "status" handle]
  (Some (scalar 8 false)) sync None.

Definition tensorflow_functions : list func :=
  [TF_NewStatus; TF_DeleteStatus; TF_SetStatus; TF_GetCode; TF_DeleteTensor; TF_TensorType; TF_NumDims;
   TF_Dim; TF_StringEncodedSize; TF_NewSessionOptions; TF_SetTarget; TF_SetConfig; TF_DeleteSessionOptions;
   TF_NewGraph; TF_DeleteGraph; TF_NewOperation; TF_SetDevice; TF_FinishOperation; TF_OperationNumOutputs;
   TF_OperationNumInputs; TF_GraphOperationByName; TF_GraphNextOperation; TF_NewImportGraphDefOptions;
   TF_DeleteImportGraphDefOptions; TF_NewSession; TF_CloseSession; TF_DeleteSession; TF_StringEncode].
