(* ===== verification/SpecTrivial.v ===== *)
(** * The specification of the sample library (cava/samples/libtrivial.nw.c)

    The annotated functions as values of [func].  [scalar n s] is a value of [n] bytes, signed if
    [s]; the widths of the API's types are those of its public header. *)

From S2P Require Import Prelude Cava SpecCheck.
Local Open Scope Z_scope.


Definition function1 : func := declare 0 "function1"
  []
  (Some (scalar 4 true)) sync None.

Definition function4a : func := declare 6 "function4a"
  [arg_in "in" (buffer (EInt 8) (scalar 1 true)) []]
  (Some (scalar 4 true)) sync None.

Definition function4b : func := declare 7 "function4b"
  [arg_out "out" (buffer (EInt 8) (scalar 1 true)) []]
  (Some (scalar 4 true)) sync None.

Definition function4c : func := declare 8 "function4c"
  [mk_arg "inout" (buffer (EInt 8) (scalar 1 true)) (EInt 1) (EInt 1) [] false]
  (Some (scalar 4 true)) sync None.

Definition read_call_buffer : func := declare 21 "read_call_buffer"
  [arg_in "buffer" (buffer (var "size") (scalar 4 true)) ["size"]; arg "size" (scalar 8 false)]
  None async None.

Definition mutate_call_buffer : func := declare 22 "mutate_call_buffer"
  [mk_arg "buffer" (buffer (var "size") (scalar 4 true)) (EInt 1) (EInt 1) ["size"] false;
   arg "size" (scalar 8 false)]
  None sync None.

Definition write_call_buffer : func := declare 23 "write_call_buffer"
  [arg_out "buffer" (buffer (var "size") (scalar 4 true)) ["size"]; arg "size" (scalar 8 false)]
  None sync None.

Definition trivial_functions : list func :=
  [function1; function4a; function4b; function4c; read_call_buffer; mutate_call_buffer; write_call_buffer].
