(* ===== verification/ApiCalls.v ===== *)
(** * Programs that use a remote API

    The theorems about the generated guest library and worker that a user relies on, for the
    functions of the specifications: a program computes with remote calls what it computes with
    direct calls, and a call of a checked function is sent. *)

From S2P Require Import Prelude Channel HandlePool Socket LogChannel ShmChannel SocketChannel Zcopy Endpoint Dispatch Cava Stub Remote RemoteCall RemoteRefinement RemoteSocket SpecCheck BatchedStub ApiSends.
From S2P Require Batching.
From S2P Require Import SpecCuda SpecCudart SpecMvnc SpecTensorflow SpecTfOpt SpecOpenCLAsync SpecOpenCLSched SpecCudaAsync SpecMvncAsync SpecHip SpecTrivial SpecCudartOpt SpecCudartDump SpecTfDump SpecOnnxOpt SpecOnnxDump SpecOpenCL.
Local Open Scope Z_scope.

(** ** The specifications *)

(** Those whose stubs send their commands, and those whose stubs batch them. *)
Definition direct_apis : list (list func) :=
  [opencl_functions; opencl_async_functions; opencl_sched_functions; cuda_functions; cuda_async_functions;
   cudart_functions; cudart_opt_functions; cudart_dump_functions; tf_dump_functions; onnx_dump_functions;
   mvnc_functions; mvnc_async_functions; hip_functions; tensorflow_functions; trivial_functions].
Definition batched_apis : list (list func) := [tf_opt_functions; onnx_opt_functions].
Definition apis : list (list func) := direct_apis ++ batched_apis.

(** Functions with annotations that read more than what both sides have: strings without their
    terminator, sizes that are in another buffer, strings of strings. *)
Definition unchecked : list string :=
  ["clCreateProgramWithSource"; "ncGlobalGetOption"; "ncDeviceGetOption"; "ncGraphGetOption";
   "ncGraphQueueInferenceWithFifoElem"; "ncFifoGetOption"; "ncFifoWriteElem"; "ncFifoReadElem";
   "TF_SetStatus"; "TF_SetTarget"; "TF_NewOperation"; "TF_SetDevice"].

#[global] Instance ids_ok_dec functions callbacks : Decision (ids_ok functions callbacks).
Proof. unfold ids_ok. apply _. Defined.

Definition well_numbered (fs : list func) : bool :=
  bool_decide (ids_ok fs []) &&
  forallb (λ f, (0 <=? f_call_id f) && (f_call_id f <? 2 ^ 64)) fs.
Definition well_annotated (f : func) : bool := check_func f || bool_decide (f_name f ∈ unchecked).

Lemma apis_numbered : forallb well_numbered apis = true.
Proof. by vm_compute. Qed.

Lemma apis_annotated : forallb (forallb well_annotated) apis = true.
Proof. by vm_compute. Qed.

Lemma forallb_elem {X} (p : X → bool) l x : forallb p l = true → x ∈ l → p x = true.
Proof. rewrite forallb_forall. intros Hp Hx. by apply Hp, list_elem_of_In. Qed.

Lemma api_ids fs : fs ∈ apis → ids_ok fs [].
Proof.
  intros Hfs. pose proof (forallb_elem _ _ _ apis_numbered Hfs) as Hn.
  by apply andb_true_iff in Hn as [?%bool_decide_eq_true _].
Qed.

Lemma api_function fs f : fs ∈ apis → f ∈ fs → f_name f ∉ unchecked →
  in_range 64 (f_call_id f) ∧ check_func f = true.
Proof.
  intros Hfs Hf Hu. pose proof (forallb_elem _ _ _ apis_numbered Hfs) as Hn.
  apply andb_true_iff in Hn as [_ Hn]. pose proof (forallb_elem _ _ _ Hn Hf) as Hr. apply andb_true_iff in Hr as [?%Z.leb_le ?%Z.ltb_lt]. split; [done|].
  pose proof (forallb_elem _ _ _ (forallb_elem _ _ _ apis_annotated Hfs) Hf) as Ha.
  unfold well_annotated in Ha. apply orb_true_iff in Ha as [|Ha%bool_decide_eq_true]; done.
Qed.

(** ** Programs *)

(** C1. A program that makes synchronous calls of the functions of an API one after the other and
    computes in between has, with the generated guest library, a channel and the generated worker,
    the result, the memory, the worker's handle table and the library state that it has with
    direct calls; the run ends, no command, call record or entry of the call table is left over,
    and the channel is ready for the next call.  The annotations of each call determine what is
    transferred, and its commands fit the channel.  The API is one without send code and reply code
    of its own, as all specifications but those of [tf_opt.c] and [onnx_opt.c]. *)
Theorem remote_calls_refine_direct {A B} `{Channel A} `{Channel B} (conn : A → B → Prop)
    `{!Link A B conn} `{!Link B A (flip conn)} `{Toposort} `{Uninit} {G} (cb : Z)
    (native : func → list Z → mem → G → Z * mem * G) (api : Z) (functions callbacks : list func)
    p (g : guest A) (b : B) (h : heap) w s n r m' w' s' :
  ids_ok functions callbacks → in_range 8 api →
  conn (g_chan g) b → guest_ok n g → heap_ok h → worker_ok w →
  direct_run (conn := conn) cb native functions p (g_mem g) w s n r m' w' s' →
  ∃ g' b' h',
    remote_run (conn := conn) cb native api functions callbacks p g b h w s =
      Ok (r, g', (b', h', w', s')) ∧
    g_mem g' = m' ∧ conn (g_chan g') b' ∧
    g_records g' = g_records g ∧ call_map (g_endpoint g') = call_map (g_endpoint g) ∧
    live (g_heap g') = live (g_heap g) ∧ live h' = live h.
Proof. intros Hids Hapi Hc Hg Hh Hw Hrun. by eapply remote_run_direct. Qed.

(** A network and a machine. *)
Module Sample.
#[export] Instance net : SocketKernel := sample_kernel 100.
#[export] Instance memory : Uninit := zero_uninit.

Lemma net_sends : kernel_sends.
Proof. by intros i. Qed.
Lemma net_recvs : kernel_recvs.
Proof. by intros i. Qed.
Lemma flip_conn a b : flip sock_conn a b ↔ sock_conn a b.
Proof. unfold flip, sock_conn. tauto. Qed.

#[export] Instance to_worker : Link command_channel_socket command_channel_socket sock_conn :=
  socket_link net_sends net_recvs sock_conn (λ a b, iff_refl _).
#[export] Instance to_guest : Link command_channel_socket command_channel_socket (flip sock_conn) :=
  socket_link net_sends net_recvs (flip sock_conn) flip_conn.

(** An OpenCL library with two devices, whose properties are their addresses. *)
Definition native (f : func) (l : list Z) (m : mem) (calls : Z) : Z * mem * Z :=
  match f_name f, l with
  | "clGetDeviceIDs", [_; _; _; devices; num_devices] =>
      (0, <[devices := le_bytes 8 5000 ++ le_bytes 8 6000 ++ drop 16 (default [] (m !! devices))]>
            (<[num_devices := le_bytes 4 2]> m), calls + 1)
  | "clGetDeviceInfo", [device; _; _; value; size_ret] =>
      (0, <[value := le_bytes 8 device]> (<[size_ret := le_bytes 8 8]> m), calls + 1)
  | _, _ => (-30, m, calls + 1)
  end.

(** Ask for the devices, then for a property of the second one, and return it. *)
Definition program : client :=
  Call clGetDeviceIDs 1 (list_to_map [("platform", 0); ("device_type", 4); ("num_entries", 4);
                                      ("devices", 100); ("num_devices", 200)]) (λ _ m,
    (m, Call clGetDeviceInfo 1 (list_to_map [("device", raw_at 8 1 (default [] (m !! 100)));
          ("param_name", 4096); ("param_value_size", 8); ("param_value", 300);
          ("param_value_size_ret", 400)]) (λ _ m,
      (m, Done (raw_at 8 0 (default [] (m !! 300))))))).

Definition memory_before : mem :=
  list_to_map [(100, replicate 32 7); (200, replicate 4 9); (300, replicate 8 0); (400, replicate 8 0)].

Definition guest0 : guest command_channel_socket :=
  mk_guest (mk_csock empty_sock PollIn 1 4000 0) (mk_heap ∅ 1) memory_before (mk_ep 8 ∅ ∅ ∅ 0 None ∅ ∅ 0 ∅) ∅.
Definition worker0 : wstate := mk_w ∅ 1 (Some nw_handle_pool_new) (counter_init 1).
End Sample.

(** ** Evaluating the premises of a call *)

#[global] Instance fits_dec t v : Decision (fits t v).
Proof. unfold fits, in_range, in_srange. destruct (is_signed t); apply _. Defined.

Definition typed (l : list argument) (args : gmap string Z) : bool :=
  forallb (λ a, match args !! a_name a with Some v => bool_decide (fits (a_type a) v) | None => true end) l.
Definition bytes_only (m : mem) : bool :=
  forallb (λ p, forallb (λ b, (0 <=? b) && (b <? 256)) p.2) (map_to_list m).

Lemma typed_fits l args a v : typed l args = true → a ∈ l → args !! a_name a = Some v → fits (a_type a) v.
Proof.
  intros Ht Ha Hv. pose proof (forallb_elem _ _ _ Ht Ha) as Hf. cbn in Hf. rewrite Hv in Hf.
  by apply bool_decide_eq_true in Hf.
Qed.

Lemma bytes_only_ok m : bytes_only m = true → mem_ok m.
Proof.
  intros Hb p l Hl. pose proof (forallb_elem _ _ (p, l) Hb) as Hf. rewrite elem_of_map_to_list in Hf.
  specialize (Hf Hl). cbn in Hf. apply Forall_forall. intros x Hx. pose proof (forallb_elem _ _ _ Hf Hx) as Hr.
  cbn in Hr. apply andb_true_iff in Hr as [?%Z.leb_le ?%Z.ltb_lt]. done.
Qed.

Section evaluate.
Import Sample.

(** A direct call over the sample network, by evaluation. *)
Lemma sample_direct_step i f args m w s r m' w' s' sent returned :
  opencl_functions !! i = Some f → check_func f = true → typed (f_arguments f) args = true → bytes_only m = true →
  (0 <=? f_call_id f) && (f_ret_id f <? 2 ^ 64) && (f_call_id f <? f_ret_id f) = true →
  direct_call 7 (native f) f (ordered f) args m w s = Ok (r, m', w', s', (sent, returned)) →
  sizeof_struct (call_types (ordered f)) + sent < 2 ^ 64 →
  sizeof_struct (ret_types f (ordered f)) + returned < 2 ^ 64 →
  direct_step (conn := sock_conn) 7 native opencl_functions f 1 args m w s r m' w' s'.
Proof.
  intros Hi Hck Hty Hm Hids Hdir Hr1 Hr2. destruct (check_func_inv f Hck) as (order & ks & Ht & Hnd & _ & Hok).
  assert (ordered f = order) as Ho by (unfold ordered; by rewrite Ht). rewrite Ho in *.
  apply andb_true_iff in Hids as [[?%Z.leb_le ?%Z.ltb_lt]%andb_true_iff ?%Z.ltb_lt].
  eapply DirectStep; try done; unfold in_range, in_srange; try lia.
  - by eapply list_elem_of_lookup_2.
  - apply Hok; [|by apply bytes_only_ok]. intros a v Ha. apply (typed_fits _ _ _ _ Hty).
    by rewrite <- (toposort_perm _ _ Ht).
Qed.

Lemma sample_guest_ok n : (n <= 100)%nat → guest_ok n guest0.
Proof.
  intros Hn. split; cbn.
  - split; [|done]. intros x. cbn. set_solver.
  - intros p [x Hx]. by rewrite lookup_empty in Hx.
  - intros p [x Hx]. by rewrite lookup_empty in Hx.
  - lia.
Qed.

(** The program with direct calls. *)
Lemma sample_program_runs : ∃ m' w', w_pool w' ≠ w_pool worker0 ∧ direct_run (conn := sock_conn) 7 native opencl_functions
  program (g_mem guest0) worker0 0 2 6000 m' w' 2.
Proof.
  eexists _, _. split; [|eapply RunCall].
  2: { eapply (sample_direct_step 5); [reflexivity|(vm_compute; reflexivity)..]. }
  2, 3: reflexivity.
  2: { eapply RunCall; [eapply (sample_direct_step 6); [reflexivity|(vm_compute; reflexivity)..]|reflexivity|reflexivity|apply RunDone]. }
  by vm_compute.
Qed.

(** The program runs over sockets and returns the address of the second device. *)
Lemma remote_calls_refine_direct_witness :
  ∃ g' b' h' w', remote_run (conn := sock_conn) 7 native 1 opencl_functions [] program guest0
      (mk_csock empty_sock PollIn 1 4001 0) (mk_heap ∅ 1) worker0 0 = Ok (6000, g', (b', h', w', 2)).
Proof.
  destruct sample_program_runs as (m' & w' & _ & Hrun).
  destruct (remote_calls_refine_direct sock_conn 7 native 1 opencl_functions [] program guest0
    (mk_csock empty_sock PollIn 1 4001 0) (mk_heap ∅ 1) worker0 0 2 6000 m' w' 2) as (g' & b' & h' & Hr & _).
  - apply api_ids. left.
  - unfold in_range. lia.
  - split; split; reflexivity.
  - apply sample_guest_ok. lia.
  - intros x Hx. by apply not_elem_of_empty in Hx.
  - by split.
  - exact Hrun.
  - exists g', b', h', w'. exact Hr.
Defined.
End evaluate.

(** ** Sending *)

(** C2. Marshalling. For every function in the tables of the seventeen specifications but the
    twelve that are not checked, a call with typed arguments, whose objects have the sizes that
    the annotations say and fit the channel, is marshalled into one command.  The stub sends it
    or, in the two specifications that batch commands, appends it to the queue of the batching
    thread, marked as asynchronous or not; only a batch itself is sent at once.  When the command
    is sent the worker receives it, dispatches it to the same function and finds every argument: a
    value as it was, a buffer with the caller's bytes.  The tables have the functions without
    structs, metadata and user data. *)
Theorem api_calls_sent {A B} `{Channel A} `{Channel B} (conn : A → B → Prop) `{!Link A B conn}
    (api : Z) (functions : list func) f thread args (g : guest A) (b : B) hb :
  functions ∈ apis → f ∈ functions → f_name f ∉ unchecked → in_range 8 api →
  callable (conn := conn) f thread args g → conn (g_chan g) b → guest_ok 1 g →
  ∃ record ch h cmd g' a' b1 b2 rcvd,
    command_channel_send_command ch h cmd = Ok (g_chan g', g_heap g') ∧
    g_mem g' = g_mem g ∧ deliver (g_chan g') b = (a', b1) ∧
    command_channel_receive_command b1 hb = Ok (Some rcvd, b2, (malloc hb).2) ∧ conn a' b2 ∧
    received_call api functions [] f thread args (g_mem g) b2 (call_counter (g_endpoint g)) rcvd ∧
    (functions ∈ direct_apis →
      function_implementation f (ordered f) api thread args g = Ok (call_counter (g_endpoint g), record, g')) ∧
    (functions ∈ batched_apis → ∃ async, eval (arg_env (ordered f) args (g_mem g) true) (f_async f) = Ok async ∧
      ∀ chan q, opt_function_implementation chan f (ordered f) api thread args g q =
        if decide (f_name f = "__do_batch_emit") then Ok (call_counter (g_endpoint g), record, g', q)
        else Ok (call_counter (g_endpoint g), record, set_chan ch h g',
                 Batching.batch_insert_command q cmd chan (if async =? 0 then 0 else 1))).
Proof.
  intros Hfs Hf Hu Hapi Hca Hc Hg. destruct (api_function functions f Hfs Hf Hu) as [Hid Hck].
  destruct (checked_call_sent (conn := conn) api functions [] f thread args g b hb (api_ids _ Hfs) Hapi Hf Hid Hck Hca Hc Hg) as
    (c & record & ch & h & cmd & ch1 & h1 & a' & b1 & b2 & rcvd & Hasync & Hfun & Hsend & Hdel & Hrcv & Hcn & Hcall).
  exists record, ch, h, cmd, (sent_state args c g ch1 h1), a', b1, b2, rcvd. split_and!; try done.
  - intros _. unfold function_implementation. rewrite Hfun. unfold default_send_code. by rewrite Hsend.
  - intros _. exists c. split; [done|]. intros chan q. unfold opt_function_implementation. rewrite Hfun. unfold opt_send_code.
    destruct (decide _); [by rewrite Hsend|]. cbn [mbind res_bind]. by destruct (c =? 0).
Qed.

Section send_sample.
Import Sample.

(** A kernel's name is sent with its terminator. *)
Definition kernel_args : gmap string Z :=
  list_to_map [("program", 0); ("kernel_name", 500); ("errcode_ret", NULL)].
Definition kernel_guest : guest command_channel_socket :=
  mk_guest (mk_csock empty_sock PollIn 1 4000 0) (mk_heap ∅ 1) ({[ 500 := [97; 100; 100; 0; 1; 2] ]} : mem)
    (mk_ep 8 ∅ ∅ ∅ 0 None ∅ ∅ 0 ∅) ∅.

Lemma kernel_callable : callable (conn := sock_conn) clCreateKernel 1 kernel_args kernel_guest.
Proof.
  split.
  - intros a v. apply (typed_fits (f_arguments clCreateKernel)). by vm_compute.
  - by apply bytes_only_ok.
  - intros a Ha. repeat (apply elem_of_cons in Ha as [->|Ha]); [..|by apply not_elem_of_nil in Ha];
      eexists _, _, _, _; (split_and!; [vm_compute; reflexivity..|]); cbn [a_type arg arg_in arg_out handle buffer]; try done.
    intros _ _. eexists. split; [vm_compute; reflexivity|]. split; [by vm_compute|].
    intros _. eexists. split; [reflexivity|]. by vm_compute.
  - by vm_compute.
  - intros total Ht. unfold room, to_worker, socket_link, sock_room. revert Ht.
    change (objects_size _ _ _) with 6. assert (sizeof_struct (call_types (ordered clCreateKernel)) < 1000) by (by vm_compute). lia.
  - eexists. reflexivity.
  - unfold in_srange. lia.
Qed.

Lemma api_calls_sent_witness :
  ∃ record g' a' b1 b2 cmd,
    function_implementation clCreateKernel (ordered clCreateKernel) 1 1 kernel_args kernel_guest =
      Ok (0, record, g') ∧
    g_mem g' = g_mem kernel_guest ∧ deliver (conn := sock_conn) (g_chan g') (mk_csock empty_sock PollIn 1 4001 0) = (a', b1) ∧
    command_channel_receive_command b1 (mk_heap ∅ 1) = Ok (Some cmd, b2, (malloc (mk_heap ∅ 1)).2) ∧
    sock_conn a' b2 ∧ received_call 1 opencl_functions [] clCreateKernel 1 kernel_args (g_mem kernel_guest) b2 0 cmd.
Proof.
  destruct (api_calls_sent sock_conn 1 opencl_functions clCreateKernel 1 kernel_args kernel_guest
    (mk_csock empty_sock PollIn 1 4001 0) (mk_heap ∅ 1)) as (record & ch & h & cmd & g' & a' & b1 & b2 & rcvd & _ & Hm & Hd & Hr & Hc & Hrc & Hdir & _).
  - left.
  - apply (list_elem_of_lookup_2 _ 10). reflexivity.
  - eapply bool_decide_unpack. by vm_compute.
  - unfold in_range. lia.
  - apply kernel_callable.
  - split; split; reflexivity.
  - split; cbn; [split; [set_solver|done]|..|lia]; intros p [x Hx]; by rewrite lookup_empty in Hx.
  - exists record, g', a', b1, b2, rcvd. split_and!; [apply Hdir; left|done..].
Defined.
End send_sample.
