(* ===== verification/ApiLimits.v ===== *)
(** * Annotations that the generated code does not serve

    Functions of the specifications whose annotations say something that the generated worker
    does not do: an empty array of handles, a string without its terminator, a handle in a type
    that is too small for it. *)

From S2P Require Import Prelude Channel HandlePool Socket LogChannel SocketChannel Endpoint Cava Stub Remote SpecCheck SpecOpenCL SpecTensorflow SpecTfOpt.
Local Open Scope Z_scope.

(** The argument with a name. *)
Definition argument_of (f : func) (x : string) : option argument :=
  snd <$> list_find (λ a, a_name a = x) (f_arguments f).

Lemma arg_env_find order vals m is_in x j a v :
  list_find (λ a, a_name a = x) order = Some (j, a) → vals !! x = Some v →
  e_arg (arg_env order vals m is_in) x = Some (view_of (a_type a) v m).
Proof. intros Hf Hv. cbn [e_arg arg_env]. rewrite Hf. cbn. by rewrite Hv. Qed.

(** ** No handles *)

(** An array of handles with no elements: the code that converts it attaches zero bytes. *)
Lemma empty_handles `{SocketKernel, Uninit} E tr n dl el v c cmd w l :
  eval E tr = Ok NW_BUFFER → v ≠ NULL → eval E n = Ok 0 → is_blob E false el = Ok false →
  w_mem w !! v = Some l →
  convert_result (C := command_channel_socket) true (TPtr tr n dl el) E v (c, cmd, w) =
    Stop (AssertFailed "buffer && size != 0").
Proof.
  intros Htr Hv Hn Hb Hl. cbn [convert_result]. rewrite Htr. cbn [mbind res_bind].
  rewrite Z.eqb_refl. cbn [negb]. rewrite (proj2 (Z.eqb_neq _ _) Hv), Hn. cbn [mbind res_bind]. rewrite Hb. cbn [mbind res_bind snd].
  unfold object. rewrite Hl. cbn [mbind res_bind]. unfold elems_of. rewrite (proj2 (Z.leb_le _ _)) by lia. done.
Qed.

(** When the OpenCL library reports that there are no devices, the worker does not send the
    reply: it attaches the empty array of devices, and the channel refuses an empty buffer. *)
Theorem no_devices_abort `{SocketKernel, Uninit} a locals n devices num_devices l c cmd w :
  argument_of clGetDeviceIDs "devices" = Some a →
  locals !! "num_entries" = Some n → 0 ≤ n < 2 ^ 32 →
  locals !! "devices" = Some devices → devices ≠ NULL → w_mem w !! devices = Some l →
  locals !! "num_devices" = Some num_devices → num_devices ≠ NULL →
  w_mem w !! num_devices = Some (le_bytes 4 0) →
  convert_result (C := command_channel_socket) true (a_type a)
    (arg_env (ordered clGetDeviceIDs) locals (w_mem w) false) devices (c, cmd, w) =
    Stop (AssertFailed "buffer && size != 0").
Proof.
  intros Ha Hn Hr Hd Hd0 Hl Hq Hq0 Hql.
  assert (a = arg_out "devices" (buffer (cl_in_out_buffer uint "num_entries" "num_devices") handle)
    ["platform"; "num_entries"; "num_devices"]) as ->.
  { symmetry. apply (inj Some). rewrite <- Ha. vm_compute. reflexivity. }
  set (E := arg_env _ _ _ _).
  assert (e_arg E "num_entries" = Some (VInt n)) as H1.
  { apply (arg_env_find _ _ _ _ _ 2 (arg "num_entries" (scalar 4 false)) n); [vm_compute; reflexivity|done]. }
  assert (e_arg E "num_devices" = Some (VMem (le_bytes 4 0))) as H2.
  { etransitivity; [apply (arg_env_find _ _ _ _ _ 3 (arg_out "num_devices" (buffer (EInt 1) (scalar 4 false)) []) num_devices);
      [vm_compute; reflexivity|done]|]. cbn [view_of a_type arg_out buffer]. by rewrite (proj2 (Z.eqb_neq _ _) Hq0), Hql. }
  eapply (empty_handles _ _ _ _ _ _ _ _ _ l); [done|done| |done|done].
  unfold cl_in_out_buffer, var. cbn [eval look]. rewrite H1, H2. change (e_in E) with false. cbn [mbind res_bind bool_int Z.eqb].
  change (cast uint (raw_at (ci_size uint) (Z.to_nat 0) (le_bytes 4 0))) with 0. cbn.
  change ((0 + 1) * Z.of_nat 4 <=? Z.of_nat 4) with true. cbn [mbind res_bind].
  rewrite (proj2 (Z.ltb_ge _ _)); [done|]. unfold wrap. change (0 mod 2 ^ (8 * Z.of_nat 4)) with 0.
  by apply Z.mod_pos_bound.
Qed.

Section devices_sample.
#[local] Existing Instance zero_uninit.
#[local] Instance one_byte_net : SocketKernel := sample_kernel 1.

Lemma no_devices_abort_witness :
  let locals : gmap string Z := list_to_map [("num_entries", 4); ("devices", 1); ("num_devices", 2)] in
  let w := mk_w (list_to_map [(1, replicate 32 0); (2, [0; 0; 0; 0])]) 3 (Some nw_handle_pool_new) (counter_init 1) in
  convert_result (C := command_channel_socket) true (buffer (cl_in_out_buffer uint "num_entries" "num_devices") handle)
    (arg_env (ordered clGetDeviceIDs) locals (w_mem w) false) 1
    (sample_socket, mk_cmd 5 sample_sock_base [], w) = Stop (AssertFailed "buffer && size != 0").
Proof.
  intros locals w. apply (no_devices_abort (arg_out "devices" (buffer (cl_in_out_buffer uint "num_entries" "num_devices") handle)
    ["platform"; "num_entries"; "num_devices"]) locals 4 1 2 (replicate 32 0) sample_socket (mk_cmd 5 sample_sock_base []) w);
    try done; vm_compute; reflexivity.
Defined.
End devices_sample.

(** ** Strings *)

(** The strings that the TensorFlow specification annotates with [ava_buffer(strlen(x))]. *)
Definition tf_strings : list (func * string) :=
  [(TF_SetStatus, "msg"); (TF_SetTarget, "target"); (TF_NewOperation, "op_type");
   (TF_NewOperation, "oper_name"); (TF_SetDevice, "device")].

Lemma strlen_take_None l k : strlen l = Some k → strlen (take k l) = None.
Proof.
  revert k. induction l as [|b l IH]; intros k; [done|]. cbn [strlen]. destruct (b =? 0) eqn:Hb.
  - by intros [= <-].
  - intros (j & Hj & ->)%fmap_Some. cbn [take strlen]. rewrite Hb. by rewrite (IH j Hj).
Qed.

(** Both sides compute the length with [strlen] on the argument itself. *)
Definition measured (a : argument) : bool :=
  bool_decide (a_input a = EInt 1) &&
  match a_type a with
  | TPtr tr n _ el => bool_decide (tr = EInt NW_BUFFER) && bool_decide (n = EStrlen (RArg (a_name a))) &&
                      (sizeof el =? 1)%nat && flat el
  | TVal _ _ _ _ _ => false
  end.

Lemma tf_strings_measured : forallb (λ p, bool_decide (NoDup (a_name <$> f_arguments p.1)) &&
  match argument_of p.1 p.2 with Some a => measured a | None => false end) tf_strings = true.
Proof. by vm_compute. Qed.

Lemma argument_of_inv f x a : argument_of f x = Some a → a_name a = x ∧ a ∈ f_arguments f.
Proof.
  unfold argument_of. intros ([j b] & Hj & ->)%fmap_Some. apply list_find_Some in Hj as (Hl & Hx & _).
  split; [done|]. by eapply list_elem_of_lookup_2.
Qed.

Lemma measured_inv a : measured a = true → a_input a = EInt 1 ∧ ∃ dl el,
  a_type a = TPtr (EInt NW_BUFFER) (EStrlen (RArg (a_name a))) dl el ∧ sizeof el = 1%nat ∧ flat el = true.
Proof.
  unfold measured. intros [?%bool_decide_eq_true Ht]%andb_true_iff. split; [done|].
  destruct (a_type a) as [|tr n dl el]; [done|]. exists dl, el.
  apply andb_true_iff in Ht as [[[->%bool_decide_eq_true ->%bool_decide_eq_true]%andb_true_iff ?%Nat.eqb_eq]%andb_true_iff ?].
  done.
Qed.

(** The guest's size of a measured string, and the worker's conversion of what it received. *)
Lemma measured_guest a order args (m : mem) v l k :
  measured a = true → list_find (λ b, a_name b = a_name a) order = Some (k, a) → args !! a_name a = Some v → v ≠ NULL →
  m !! v = Some l → Z.of_nat (length l) < 2 ^ 64 → ∀ n, strlen l = Some n →
  compute_size Datatypes.id true (a_type a) (arg_env order args m true) m v = Ok (Z.of_nat n).
Proof.
  intros Hm Hf Hv Hv0 Hl Hlen n Hn. destruct (measured_inv _ Hm) as (_ & dl & el & Ht & Hs & Hflat).
  assert (e_arg (arg_env order args m true) (a_name a) = Some (VMem l)) as HE.
  { rewrite (arg_env_find _ _ _ _ _ _ _ _ Hf Hv), Ht. cbn. by rewrite (proj2 (Z.eqb_neq _ _) Hv0), Hl. }
  rewrite Ht. cbn [compute_size eval look mbind res_bind]. rewrite Z.eqb_refl, (proj2 (Z.eqb_neq _ _) Hv0). cbn [negb].
  rewrite HE, Hn. cbn [mbind res_bind]. destruct (flat_blob (arg_env order args m true) _ Hflat) as [-> _]. cbn [mbind res_bind].
  pose proof (strlen_lt _ _ Hn). destruct n as [|n]; [done|]. rewrite (proj2 (Z.leb_gt _ _)) by lia.
  unfold bytes_of. rewrite Hs. change (Datatypes.id ?x) with x.
  rewrite (wrap_small 64 (Z.of_nat (S n))), wrap_small by (unfold in_range; lia). f_equal. lia.
Qed.

Lemma measured_worker `{Uninit} cb a get order st field d :
  measured a = true → field ≠ NULL → get field = Some d → strlen d = None →
  convert_input_for_argument cb get order a field st = Stop (Undefined "read past the end of an object").
Proof.
  intros Hm Hf Hd Hn. destruct (measured_inv _ Hm) as (Hin & dl & el & Ht & Hs & Hflat).
  unfold convert_input_for_argument. rewrite Ht, Hin. cbn [pre_view eval mbind res_bind].
  rewrite Z.eqb_refl, (proj2 (Z.eqb_neq _ _) Hf), Hd. cbn [convert_input eval mbind res_bind look set_arg e_arg].
  rewrite Z.eqb_refl, (proj2 (Z.eqb_neq _ _) Hf). cbn [negb Z.eqb]. rewrite Hd, decide_True by done. by rewrite Hn.
Qed.

(** The guest sends the bytes of such a string up to its terminator and not the terminator;
    the worker determines the length of what it received with the same annotation, and reads past
    the end of it. *)
Theorem tf_strings_unterminated `{Uninit} cb f x a order args (m : mem) v l n get st field :
  (f, x) ∈ tf_strings → argument_of f x = Some a → toposort_flatten (f_arguments f) = Some order →
  args !! x = Some v → v ≠ NULL → m !! v = Some l → strlen l = Some n → Z.of_nat (length l) < 2 ^ 64 →
  field ≠ NULL → get field = Some (take n l) →
  compute_size Datatypes.id true (a_type a) (arg_env order args m true) m v = Ok (Z.of_nat n) ∧
  convert_input_for_argument cb get order a field st = Stop (Undefined "read past the end of an object").
Proof.
  intros Hin Ha Hord Hv Hv0 Hl Hn Hlen Hf0 Hget.
  pose proof (proj1 (forallb_forall _ _) tf_strings_measured _ (proj1 (list_elem_of_In _ _) Hin)) as Hm. cbn in Hm.
  rewrite Ha in Hm. apply andb_true_iff in Hm as [Hnd%bool_decide_eq_true Hm].
  destruct (argument_of_inv _ _ _ Ha) as [<- Hina]. rewrite <- (toposort_perm _ _ Hord) in Hnd, Hina.
  destruct (list_find_name _ _ Hnd Hina) as [i Hfind]. split.
  - by eapply measured_guest.
  - eapply measured_worker; [done|done|done|]. by apply strlen_take_None.
Qed.

Section string_sample.
#[local] Existing Instance zero_uninit.

(** The message "no" of [TF_SetStatus]. *)
Lemma tf_strings_unterminated_witness :
  let a := arg_in "msg" (buffer (EStrlen (RArg "msg")) (scalar 1 true)) [] in
  let m : mem := {[ 500 := [110; 111; 0] ]} in
  let args : gmap string Z := list_to_map [("s", 0); ("code", 2); ("msg", 500)] in
  compute_size Datatypes.id true (a_type a) (arg_env (ordered TF_SetStatus) args m true) m 500 = Ok 2 ∧
  convert_input_for_argument 7 (λ _, Some [110; 111]) (ordered TF_SetStatus) a 120 (∅, mk_w ∅ 1 None (counter_init 1)) =
    Stop (Undefined "read past the end of an object").
Proof.
  intros a m args.
  apply (tf_strings_unterminated 7 TF_SetStatus "msg" a (ordered TF_SetStatus) args m 500 [110; 111; 0] 2 (λ _, Some [110; 111])
    (∅, mk_w ∅ 1 None (counter_init 1)) 120).
  - left.
  - vm_compute. reflexivity.
  - vm_compute. reflexivity.
  - reflexivity.
  - done.
  - reflexivity.
  - reflexivity.
  - done.
  - done.
  - reflexivity.
Defined.
End string_sample.

(** ** Handles of four bytes *)

(** What four bytes keep of an identifier. *)
Lemma truncated_id n tag t :
  0 ≤ n < 2 ^ 26 → in_range 4 tag → sizeof t = 4%nat → is_signed t = true →
  decode t (encode t (id_of n tag)) = n * 16 + tag.
Proof.
  intros Hn Ht Hs Hsg. unfold in_range in Ht. unfold decode, encode. rewrite Hsg, Hs, le_num_bytes.
  change (8 * Z.of_nat 4) with 32. change (256 ^ Z.of_nat 4) with (2 ^ 32). unfold id_of. rewrite (Z.mod_small n) by lia.
  replace (2 ^ 64 - 2 ^ 40 + n * 16 + tag) with (n * 16 + tag + (2 ^ 32 - 2 ^ 8) * 2 ^ 32) by lia.
  rewrite Z.mod_add, Z.mod_small by lia. unfold signed, wrap. change (32 - 1) with 31.
  rewrite Z.mod_small by lia. destruct (Z.ltb_spec (n * 16 + tag) (2 ^ 31)); lia.
Qed.

(** C37. The TensorFlow specification makes the 4-byte [CUdevice] a handle.  The identifier of a
    device other than 0 does not fit: what [cuDeviceGet] returns is not the identifier, and when
    it is passed to [cuCtxCreate] the worker takes it for the device itself, another one. *)
Theorem device_handles_truncated cb w pool v :
  let t := TVal 4 4 true (EInt NW_HANDLE) (EInt 0) in
  let n := Z.max (global_counter (w_counter w)) counter_count_min in
  w_pool w = Some pool → counter_ok (w_counter w) → global_counter (w_counter w) < 2 ^ 26 →
  to_id pool !! v = None → to_handle pool !! id_of n (global_counter_tag (w_counter w)) = None → 0 < v < 1024 →
  (a_type <$> argument_of cuDeviceGet "device") = Some (buffer (EInt 1) t) ∧
  (a_type <$> argument_of cuCtxCreate "dev") = Some t ∧
  ∃ id w', result_default NW_HANDLE 0 v w = Ok (id, w') ∧
    let device := decode t (encode t id) in
    device ≠ id ∧ device ≠ v ∧ convert_default cb NW_HANDLE 0 device w' = Ok (device, w').
Proof.
  intros t n Hp Hg Hlt Hv Hid Hr. split; [vm_compute; reflexivity|]. split; [vm_compute; reflexivity|].
  pose proof Hg as [Hc Htag]. unfold in_range in Hc. change counter_count_min with 64 in n.
  exists (id_of n (global_counter_tag (w_counter w))). eexists. split.
  - unfold result_default. cbn [Z.eqb NW_HANDLE]. rewrite Hp. unfold nw_handle_pool_lookup_or_insert.
    rewrite (proj2 (Z.eqb_neq v NULL)) by (unfold NULL; lia). unfold ght_lookup. rewrite Hv. cbn [default Z.eqb NULL].
    unfold internal_handle_pool_insert. rewrite (next_id_eq _ Hg). cbn [mbind res_bind]. unfold ght_insert.
    change counter_count_min with 64. fold n. rewrite Hv, Hid. cbn [c_assert mbind res_bind]. reflexivity.
  - rewrite (truncated_id n _ t) by (done || lia). set (tag := global_counter_tag (w_counter w)) in *. unfold in_range in Htag.
    assert (0 ≤ n mod 2 ^ 36) by (apply Z.mod_pos_bound; lia). cbn zeta.
    split; [unfold id_of; rewrite (Z.mod_small n) by lia; lia|]. split; [lia|].
    unfold convert_default. cbn [Z.eqb NW_HANDLE NW_CALLBACK NW_CALLBACK_REGISTRATION orb]. cbn [set_w_pool w_pool].
    unfold nw_handle_pool_deref. rewrite is_handle_iff by (unfold in_range; lia). rewrite (proj2 (Z.leb_gt _ _)) by lia.
    by rewrite orb_true_r.
Qed.

(** Device 1 of a fresh worker comes back as device 1025. *)
Lemma device_handles_truncated_witness :
  let w := mk_w ∅ 1 (Some nw_handle_pool_new) (counter_init 1) in
  let t := TVal 4 4 true (EInt NW_HANDLE) (EInt 0) in
  (a_type <$> argument_of cuDeviceGet "device") = Some (buffer (EInt 1) t) ∧
  (a_type <$> argument_of cuCtxCreate "dev") = Some t ∧
  ∃ id w', result_default NW_HANDLE 0 1 w = Ok (id, w') ∧
    let device := decode t (encode t id) in
    device ≠ id ∧ device ≠ 1 ∧ convert_default 7 NW_HANDLE 0 device w' = Ok (device, w').
Proof.
  apply (device_handles_truncated 7 (mk_w ∅ 1 (Some nw_handle_pool_new) (counter_init 1)) nw_handle_pool_new 1);
    [done|split; split; (done || reflexivity)|done|done|done|done].
Defined.
