(* ===== verification/Replay.v ===== *)
(** * Replaying recorded calls (cava/nightwatch/generator/c/replay.py)

    When a worker is rebuilt, the recorded CALL commands are executed again and the identifiers in
    the recorded RET commands are given to the handles that the library returns this time.  The
    generated replay function, and the theorem that replaying a worker's history in a new worker
    rebuilds its handle table and the state of the library. *)

From S2P Require Import Prelude Channel HandlePool Endpoint SocketChannel Cava Stub Remote RemoteCall RemoteRefinement.
Local Open Scope Z_scope.

(** ** The generated code *)

Section replay.
Context `{Channel C, Toposort, Uninit}.
Variable callback_stub : Z.
Context {G : Type}.
Variable native : func → list Z → mem → G → Z * mem * G.
Variables (api : Z) (functions : list func).

(** [default_case] of [assign_original_handle_for_argument].  A function pointer is not compared: in
    [ty] it is a value that is transferred as a callback. *)
Definition is_function_pointer (k : Z) : bool := (k =? NW_CALLBACK) || (k =? NW_CALLBACK_REGISTRATION).
Definition assign_default (is_ret : bool) (k d original local : Z) (w : wstate) : res wstate :=
  if k =? NW_HANDLE then
    if d =? 0 then
      '(g, p) ← nw_handle_pool_assign_handle (w_counter w) (w_pool w) original local;
      Ok (set_w_pool p g w)
    else Ok w
  else if (is_ret || (k =? NW_OPAQUE)) && negb (is_function_pointer k) then
    _ ← c_assert (original =? local) "original == local";
    Ok w
  else Ok w.

Fixpoint assign_original (get : Z → option (list Z)) (is_ret : bool) (t : ty) (E : env)
    (original local : Z) (w : wstate) : res wstate :=
  match t with
  | TVal _ _ _ transfer deallocates =>
      k ← eval E transfer;
      d ← eval E deallocates;
      assign_default is_ret k d original local w
  | TPtr transfer buffer deallocates el =>
      k ← eval E transfer;
      if negb (k =? NW_BUFFER) then d ← eval E deallocates; assign_default is_ret k d original local w
      else if local =? NULL then Ok w
      else
        blob ← is_blob E false el;
        if (blob : bool) then Ok w
        else
          n ← eval E buffer;
          if n <=? 0 then Ok w
          else
            match (if original =? NULL then None else get original) with
            | None => Stop (Undefined "invalid pointer")
            | Some src =>
                ids ← elems_of el n src;
                l ← object (w_mem w) local;
                vs ← elems_of el n l;
                '(_, w) ← mapS (λ i p w,
                  w ← assign_original get is_ret el (at_index i (Some (view_of el p.2 (w_mem w))) E) p.1 p.2 w;
                  Ok (tt, w)) 0 (zip ids vs) w;
                Ok w
            end
  end.

(** The case of a function, up to the recording; [c] is the channel that the two commands were loaded
    from.  The values of the arguments, the result of the library and its memory are still there. *)
Definition replay_call (f : func) (order : list argument) (call ret : command) (c : C)
    (w : wstate) (s : G) : res (gmap string Z * Z * wstate * G) :=
  _ ← c_assert (api_id (cmd_base call) =? api) "__call->base.api_id == API";
  _ ← c_assert (command_size (cmd_base call) =? sizeof_struct (call_types order)) "Command size does not match ID.";
  let fields := unpack 0 (call_types order) (cmd_rest call) in
  '(locals, w) ← foldM (λ p st, convert_input_for_argument callback_stub (command_channel_get_buffer c call) order p.1 p.2 st)
                   (zip order (drop 1 fields)) (∅ : gmap string Z, w);
  let '(rv, m, s) := native f ((λ a, default 0 (locals !! a_name a)) <$> f_arguments f) (w_mem w) s in
  let w := set_w_mem m w in
  let E := arg_env order locals m false in
  _ ← c_assert (api_id (cmd_base ret) =? api) "__ret->base.api_id == API";
  _ ← c_assert (command_size (cmd_base ret) =? sizeof_struct (ret_types f order)) "Command size does not match ID.";
  _ ← c_assert (command_id (cmd_base ret) =? f_ret_id f) "__ret->base.command_id == RET";
  let results := unpack 0 (ret_types f order) (cmd_rest ret) in
  _ ← c_assert (nth 0 results 0 =? nth 0 fields 0) "__ret->__call_id == __call->__call_id";
  let get := command_channel_get_buffer c ret in
  let vals : gmap string Z := list_to_map (zip (a_name <$> ret_arguments order) (drop 1 results)) in
  w ← match f_ret f with
      | Some t => assign_original get true t E (nth (S (length (ret_arguments order))) results 0) rv w
      | None => Ok w
      end;
  w ← foldM (λ a w,
    out ← eval E (a_output a);
    if out =? 0 then Ok w
    else
      local ← arg_value locals a;
      assign_original get false (a_type a) E (default 0 (vals !! a_name a)) local w)
    (ret_arguments order) w;
  Ok (locals, rv, w, s).

(** The case without [AVA_RECORD_REPLAY]. *)
Definition replay_command_implementation (f : func) (order : list argument) (call ret : command) (c : C)
    (w : wstate) (s : G) : res (wstate * G) :=
  '(_, _, w, s) ← replay_call f order call ret c w s;
  Ok (set_w_mem ∅ w, s).

(** The [switch] over the functions of the API. *)
Definition replay_command (call ret : command) (c : C) (w : wstate) (s : G) : res (wstate * G) :=
  match list_find (λ f, f_call_id f = command_id (cmd_base call)) functions with
  | Some (_, f) => replay_command_implementation f (ordered f) call ret c w s
  | None => Stop (AssertFailed "Received unsupported command")
  end.

(** The recorded calls of a log, one after the other. *)
Fixpoint replay_all (log : list (command * command)) (c : C) (w : wstate) (s : G) : res (wstate * G) :=
  match log with
  | [] => Ok (w, s)
  | (call, ret) :: log => '(w, s) ← replay_command call ret c w s; replay_all log c w s
  end.

End replay.

(** ** States that differ in the counter of identifiers *)

Definition set_counter (g : counter) (w : wstate) : wstate := mk_w (w_mem w) (w_next w) (w_pool w) g.

Definition pool_ok (w : wstate) : Prop :=
  ∃ p, w_pool w = Some p ∧ pool_bijective p ∧ counter_ok (w_counter w).

(** The identifier that a handle got is assigned to it again. *)
Lemma assign_matches is_ret k d x w v w' g :
  pool_ok w → result_default k d x w = Ok (v, w') →
  pool_ok w' ∧ ∃ g', assign_default is_ret k d v x (set_counter g w) = Ok (set_counter g' w').
Proof.
  intros (p & Hp & Hb & Hg) Hr. unfold result_default in Hr. unfold assign_default.
  destruct (k =? NW_HANDLE).
  2: { injection Hr as <- <-. split; [by exists p|]. exists g. rewrite Z.eqb_refl. by destruct ((is_ret || _) && _). }
  destruct (d =? 0); [|injection Hr as <- <-; split; [by exists p|by exists g]].
  apply res_bind_Ok in Hr as ([[id g1] q] & Hl & [= <- <-]). cbn [w_pool set_counter w_counter].
  rewrite Hp in *. unfold nw_handle_pool_lookup_or_insert in Hl. destruct (Z.eqb_spec x NULL) as [->|Hx].
  { injection Hl as <- <- <-. split; [by exists p|]. exists g. cbn. by destruct w; cbn in *; subst. }
  destruct Hb as [Hb1 Hb2]. unfold ght_lookup in Hl. destruct (to_id p !! x) as [id'|] eqn:Hid; cbn [from_option] in Hl; unfold Datatypes.id in Hl.
  - destruct (Hb2 _ _ Hid) as [_ Hid0]. rewrite (proj2 (Z.eqb_neq _ _) Hid0) in Hl. injection Hl as <- <- <-.
    split; [by exists p|]. eexists. unfold nw_handle_pool_assign_handle, ght_lookup, ght_insert.
    rewrite (proj2 (Z.eqb_neq _ _) Hid0), (proj2 (Z.eqb_neq _ _) Hx). cbn [Bool.eqb c_assert mbind res_bind].
    pose proof (proj1 (Hb1 _ _) Hid) as Hh. rewrite Hh. cbn [from_option]. unfold Datatypes.id. rewrite (proj2 (Z.eqb_neq _ _) Hx), Z.eqb_refl.
    cbn [orb c_assert mbind res_bind snd]. rewrite insert_id by done. destruct w, p; cbn in *. by subst.
  - cbn in Hl. apply res_bind_Ok in Hl as ([[id2 g2] q2] & Hins & [= -> -> <-]).
    pose proof (insert_bijective _ _ _ _ _ _ Hg Hx (conj Hb1 Hb2) Hins) as Hb'.
    apply internal_insert_inv in Hins as (Hn & Hn1 & Hn2 & ->). pose proof (next_id_ok _ _ _ Hg Hn) as (Hg2 & Hid0 & _).
    split; [by eexists|]. eexists. unfold nw_handle_pool_assign_handle, ght_lookup, ght_insert.
    rewrite (proj2 (Z.eqb_neq _ _) Hid0), (proj2 (Z.eqb_neq _ _) Hx), Hn2. reflexivity.
Qed.

(** A loop whose body commutes with [φ] and keeps [Q]. *)
Lemma mapS_lift {X Y S} (φ : S → S) (Q : S → Prop) (f : nat → X → S → res (Y * S)) l :
  (∀ i x s y s', x ∈ l → f i x s = Ok (y, s') → f i x (φ s) = Ok (y, φ s') ∧ (Q s → Q s')) →
  ∀ i s ys s', mapS f i l s = Ok (ys, s') → mapS f i l (φ s) = Ok (ys, φ s') ∧ (Q s → Q s').
Proof.
  induction l as [|x l IH]; intros Hf i s ys s' Hm; [by injection Hm as <- <-|].
  apply mapS_Ok in Hm as (y & s1 & ys' & Hy & Hm & ->).
  destruct (Hf i x s y s1 ltac:(left) Hy) as [Hy' HQ]. destruct (IH ltac:(intros; eapply Hf; [by right|done]) _ _ _ _ Hm) as [Hm' HQ'].
  split; [|tauto]. apply mapS_Ok. by exists y, (φ s1), ys'.
Qed.

Section inputs.
Context `{Uninit}.
Variable cb : Z.
Variable g : counter.

Lemma convert_default_counter k d v w x w' :
  convert_default cb k d v w = Ok (x, w') →
  convert_default cb k d v (set_counter g w) = Ok (x, set_counter g w') ∧ (pool_ok w → pool_ok w').
Proof.
  unfold convert_default. destruct (_ || _); [by intros [= <- <-]|]. destruct (k =? NW_HANDLE); [|by intros [= <- <-]].
  destruct (d =? 0).
  - intros Hd. apply res_bind_Ok in Hd as (h & Hh & [= <- <-]). cbn [w_pool set_counter]. by rewrite Hh.
  - intros Hd. apply res_bind_Ok in Hd as ([h q] & Hh & [= <- <-]). cbn [w_pool set_counter]. rewrite Hh. split; [done|].
    intros (p & Hp & Hb & Hg). rewrite Hp in Hh. destruct (Z.eq_dec v NULL) as [->|Hv].
    + injection Hh as <- <-. by exists p.
    + apply remove_inv in Hh as (Hl & _ & _ & ->); [|done]. eexists. split_and!; [done| |done]. by apply remove_bijective.
Qed.

Lemma realise_counter t : ∀ R p w v w', realise cb t R p w = Ok (v, w') →
  realise cb t R p (set_counter g w) = Ok (v, set_counter g w') ∧ (pool_ok w → pool_ok w').
Proof.
  induction t as [sz al sg tr dl|tr buf dl el IH]; intros R p w v w' Hr; cbn [realise] in *.
  { apply res_bind_Ok in Hr as (k & Hk & Hr). apply res_bind_Ok in Hr as (d & Hd & Hr).
    rewrite Hk. cbn [mbind res_bind]. rewrite Hd. cbn [mbind res_bind]. destruct p; [|done..]. by apply convert_default_counter. }
  apply res_bind_Ok in Hr as (k & Hk & Hr). rewrite Hk. cbn [mbind res_bind]. destruct p as [z| |size|data|ms].
  - apply res_bind_Ok in Hr as (d & Hd & Hr). rewrite Hd. cbn [mbind res_bind]. by apply convert_default_counter.
  - by injection Hr as <- <-.
  - by injection Hr as <- <-.
  - apply res_bind_Ok in Hr as (blob & Hb & Hr). rewrite Hb. cbn [mbind res_bind]. destruct blob; [by injection Hr as <- <-|].
    apply res_bind_Ok in Hr as (vs & Hvs & Hr). rewrite Hvs. cbn [mbind res_bind].
    apply res_bind_Ok in Hr as ([vs' w1] & Hm & [= <- <-]).
    destruct (λ Hf, mapS_lift (set_counter g) pool_ok _ vs Hf _ _ _ _ Hm) as [Hm' HQ]; [|by rewrite Hm'].
    intros i x s y s' _ Hx. apply res_bind_Ok in Hx as ([] & Hc & Hx). rewrite Hc. cbn [mbind res_bind]. by apply IH.
  - apply res_bind_Ok in Hr as (blob & Hb & Hr). rewrite Hb. cbn [mbind res_bind].
    apply res_bind_Ok in Hr as ([] & Hc & Hr). rewrite Hc. cbn [mbind res_bind].
    apply res_bind_Ok in Hr as ([vs' w1] & Hm & [= <- <-]).
    destruct (λ Hf, mapS_lift (set_counter g) pool_ok _ ms Hf _ _ _ _ Hm) as [Hm' HQ]; [|by rewrite Hm'].
    intros i x s y s' _ Hx. by apply IH.
Qed.

Lemma realise_args_counter l : ∀ locals w locals' w',
  foldM (realise_arg cb) l (locals, w) = Ok (locals', w') →
  foldM (realise_arg cb) l (locals, set_counter g w) = Ok (locals', set_counter g w') ∧ (pool_ok w → pool_ok w').
Proof.
  induction l as [|ap l IH]; intros locals w locals' w' Hf; [by injection Hf as <- <-|].
  cbn [foldM] in *. apply res_bind_Ok in Hf as ([locals1 w1] & Ha & Hf). unfold realise_arg in *. cbn [fst snd] in *.
  apply res_bind_Ok in Ha as ([v w2] & Hr & [= <- <-]). destruct (realise_counter _ _ _ _ _ _ Hr) as [Hr' HQ]. rewrite Hr'.
  cbn [mbind res_bind]. destruct (IH _ _ _ _ Hf) as [Hf' HQ']. split; [done|tauto].
Qed.
End inputs.

(** ** Outputs *)

(** The identifiers of an array, as the library's handles got them. *)
Lemma assign_elements get sz al sg etr edl R E : (∀ rs, env_le rs R E) → e_elem R = None → e_index R = e_index E →
  ∀ vs ids i w w' g, pool_ok w →
  mapS (λ i x w, k ← eval (at_index i None R) etr; d ← eval (at_index i None R) edl; result_default k d x w) i vs w = Ok (ids, w') →
  pool_ok w' ∧ ∃ g', mapS (λ i p w,
      w ← assign_original get false (TVal sz al sg etr edl) (at_index i (Some (view_of (TVal sz al sg etr edl) p.2 (w_mem w))) E) p.1 p.2 w;
      Ok (tt, w)) i (zip ids vs) (set_counter g w) = Ok (replicate (length vs) tt, set_counter g' w').
Proof.
  intros Hle Hel Hix vs. induction vs as [|x vs IH]; intros ids i w w' g Hp Hm.
  { injection Hm as <- <-. split; [done|]. by exists g. }
  apply mapS_Ok in Hm as (id & w1 & ids' & Hid & Hm & ->). apply res_bind_Ok in Hid as (k & Hk & Hid).
  apply res_bind_Ok in Hid as (d & Hd & Hid). destruct (assign_matches false _ _ _ _ _ _ g Hp Hid) as [Hp1 [g1 Ha]].
  destruct (IH ids' (S i) w1 w' g1 Hp1 Hm) as [Hp2 [g2 Hm2]]. split; [done|]. exists g2.
  assert (sees RElem None R E) as Hs by (split; [done|by intros]).
  pose proof (sees_at _ _ _ _ i (VInt x) Hs) as Hs'.
  cbn [zip mapS assign_original fst snd view_of]. rewrite (sees_eval _ _ _ _ _ _ Hs' Hk). cbn [mbind res_bind].
  rewrite (sees_eval _ _ _ _ _ _ Hs' Hd). cbn [mbind res_bind]. rewrite Ha. cbn [mbind res_bind].
  cbn [assign_original view_of] in Hm2. rewrite Hm2. done.
Qed.

Lemma assign_output get R E t out local w o w' v g :
  (∀ rs, env_le rs R E) → e_elem R = None → e_index R = e_index E → pool_ok w →
  output_bytes R t out local w = Ok (o, w') → received get o v → out ≠ 0 →
  pool_ok w' ∧ ∃ g', assign_original get false t E v local (set_counter g w) = Ok (set_counter g' w').
Proof.
  intros Hle Hel Hix Hp Ho Hrec Hout. assert (sees RElem None R E) as Hs by (split; [done|by intros]).
  destruct o as [[data plain]|].
  - destruct (output_bytes_Some _ _ _ _ _ _ _ _ Ho) as (tr & buf & dl & sz & al & sg & etr & edl & n & l & -> & _ & Hl0 &
      Htr & Hn & Hpos & _ & Hbl & Hsz & Hm & Hlen & _ & _ & Hle' & _ & Hplain).
    cbn [assign_original]. rewrite (sees_eval _ _ _ _ _ _ Hs Htr). cbn [mbind res_bind]. rewrite Z.eqb_refl. cbn [negb].
    rewrite (proj2 (Z.eqb_neq _ _) Hl0), (sees_blob _ _ _ _ _ _ _ Hs Hbl). cbn [mbind res_bind].
    destruct plain; [destruct Hplain as [_ ->]; split; [done|by exists g]|].
    destruct Hplain as (vs & ids & Hvs & -> & Hdec & Hmap). destruct Hrec as [Hv0 [tail Hget]].
    rewrite (sees_eval _ _ _ _ _ _ Hs Hn). cbn [mbind res_bind].
    rewrite (proj2 (Z.leb_gt _ _) Hpos), (proj2 (Z.eqb_neq _ _) Hv0), Hget.
    pose proof (mapS_length _ _ _ _ _ _ Hmap) as Hids. pose proof (elems_of_length _ _ _ _ Hvs) as Hlv.
    rewrite elems_of_encode by (done || lia). cbn [mbind res_bind]. unfold object. cbn [set_counter w_mem]. rewrite Hm.
    cbn [mbind res_bind]. rewrite Hvs. cbn [mbind res_bind].
    destruct (assign_elements get sz al sg etr edl R E Hle Hel Hix vs ids 0 w w' g Hp Hmap) as [Hp' [g' Hm']].
    split; [done|]. exists g'. cbn [assign_original view_of] in Hm' |- *. rewrite Hm'. done.
  - destruct (output_bytes_None _ _ _ _ _ _ Ho) as [-> (tr & buf & dl & sz & al & sg & etr & edl & k & -> & Hk & Hcase)].
    split; [done|]. exists g. cbn [assign_original]. rewrite (sees_eval _ _ _ _ _ _ Hs Hk). cbn [mbind res_bind].
    destruct Hcase as [[_ ->]|[-> Hcase]]; [done|]. rewrite Z.eqb_refl. cbn [negb].
    destruct (Z.eqb_spec local NULL) as [|Hl0]; [done|]. destruct Hcase as [|(n & bl & _ & _ & Hbl & [|[-> _]])]; [done..|].
    by rewrite (sees_blob _ _ _ _ _ _ _ Hs Hbl).
Qed.

Lemma assign_outputs get order args locals (vals : gmap string Z) wm : NoDup (a_name <$> order) →
  ∀ l R m w os R' m' w' qs g, (∀ a, a ∈ l → a ∈ order) → w_mem w = wm → pool_ok w →
  foldM (out_arg args locals) l (R, m, w, os) = Ok (R', m', w', os ++ qs) →
  below any R (arg_env order locals wm false) →
  Forall2 (λ a o, received get o (default 0 (vals !! a_name a))) l qs →
  pool_ok w' ∧ ∃ g', foldM (λ a w,
      out ← eval (arg_env order locals wm false) (a_output a);
      if out =? 0 then Ok w
      else local ← arg_value locals a;
           assign_original get false (a_type a) (arg_env order locals wm false) (default 0 (vals !! a_name a)) local w)
    l (set_counter g w) = Ok (set_counter g' w').
Proof.
  intros Hnd l. induction l as [|a l IH]; intros R m w os R' m' w' qs g Hl Hw Hp Hf Hb Hr.
  { injection Hf as _ _ <- _. split; [done|]. by exists g. }
  apply Forall2_cons_inv_l in Hr as (o & qs' & Ho & Hr & ->).
  cbn [foldM] in Hf |- *. apply res_bind_Ok in Hf as ([[[R1 m1] w1] os1] & Ha & Hf).
  pose proof (out_arg_below_worker _ _ order _ _ _ _ _ _ _ _ _ Hnd (Hl a ltac:(left)) Ha) as Hb1. rewrite Hw in Hb1. specialize (Hb1 Hb).
  destruct (out_arg_inv _ _ _ _ _ _ _ _ _ _ _ Ha) as (out & local & v & o' & Hout & Hloc & Hv & Hob & -> & Hwm & Hcase).
  destruct (out_args_prefix _ _ _ _ _ _ _ _ _ _ _ Hf) as [qs2 Heq].
  rewrite <- app_assoc in Heq. apply app_inv_head in Heq. cbn in Heq. injection Heq as <- <-.
  rewrite (below_eval _ _ _ _ _ Hb Hout), (proj2 (arg_value_Ok _ _ _) Hloc). cbn [mbind res_bind].
  assert (pool_ok w1 ∧ ∃ g1, (if out =? 0 then Ok (set_counter g w) else assign_original get false (a_type a)
    (arg_env order locals wm false) (default 0 (vals !! a_name a)) local (set_counter g w)) = Ok (set_counter g1 w1))
    as [Hp1 [g1 ->]].
  { destruct (Z.eqb_spec out 0) as [->|Hne].
    - destruct o as [[data plain]|]; [|destruct (output_bytes_None _ _ _ _ _ _ Hob) as [-> _]; split; [done|by exists g]].
      by destruct (output_bytes_Some _ _ _ _ _ _ _ _ Hob) as (? & ? & ? & ? & ? & ? & ? & ? & ? & ? & _ & ? & _).
    - pose proof Hb as (Hix & _ & Hel & _). eapply (assign_output get R); try done. intros rs. by eapply below_le. }
  cbn [mbind res_bind]. apply (IH R1 m1 w1 (os ++ [o]) R' m' w' qs' g1); try done; [intros; apply Hl; by right|congruence|].
  by rewrite <- app_assoc.
Qed.

Lemma out_args_mem args locals l : ∀ R m w os R' m' w' os',
  foldM (out_arg args locals) l (R, m, w, os) = Ok (R', m', w', os') → w_mem w' = w_mem w.
Proof.
  induction l as [|a l IH]; intros R m w os R' m' w' os' Hf; [by injection Hf as _ _ <- _|].
  cbn [foldM] in Hf. apply res_bind_Ok in Hf as ([[[R1 m1] w1] os1] & Ha & Hf).
  destruct (out_arg_inv _ _ _ _ _ _ _ _ _ _ _ Ha) as (? & ? & ? & ? & _ & _ & _ & _ & _ & Hw & _).
  by rewrite (IH _ _ _ _ _ _ _ _ Hf).
Qed.

(** ** Histories *)

Section history.
Context `{Channel C, Toposort, Uninit}.
Variable cb : Z.
Context {G : Type}.
Variable native : func → list Z → mem → G → Z * mem * G.
Variables (api : Z) (functions : list func).
Hypothesis Hids : ids_ok functions [].

(** A worker in the state [w] with a library in the state [s] served a call; the two commands
    were recorded, and [get_call] and [get_ret] find their buffers. *)
Inductive served (get_call get_ret : Z → option (list Z)) (w : wstate) (s : G) (call ret : command)
    (w' : wstate) (s' : G) : Prop :=
  | Served f order args m r m' R ps async locals m1 w2 r0 os cid :
      f ∈ functions → toposort_flatten (f_arguments f) = Some order → call_ok f order args m →
      traced cb native f order args m w s r m' w' s' R ps async locals m1 w2 r0 os →
      carries_call get_call api f order ps cid call → carries_reply get_ret api f order os r0 cid ret →
      served get_call get_ret w s call ret w' s'.

Lemma assign_ret get f R E rv w r w' g :
  (∀ t, f_ret f = Some t → ∃ sz al sg tr dl, t = TVal sz al sg tr dl ∧ (0 < sz)%nat) → below any R E → pool_ok w →
  ret_value f R rv w = Ok (r, w') → ∀ fields n, length fields = n →
  pool_ok w' ∧ ∃ g', match f_ret f with
    | Some t => assign_original get true t E (nth n (fields ++ option_list r) 0) rv (set_counter g w)
    | None => Ok (set_counter g w)
    end = Ok (set_counter g' w').
Proof.
  intros Hty Hb Hp Hr fields n Hn. unfold ret_value in Hr. destruct (f_ret f) as [t|].
  2: { injection Hr as <- <-. split; [done|by exists g]. }
  destruct (Hty t eq_refl) as (sz & al & sg & tr & dl & -> & _).
  apply res_bind_Ok in Hr as (k & Hk & Hr). apply res_bind_Ok in Hr as (d & Hd & Hr).
  apply res_bind_Ok in Hr as ([v w1] & Hrd & Hr). apply res_bind_Ok in Hr as ([] & _ & [= <- <-]).
  destruct (assign_matches true _ _ _ _ _ _ g Hp Hrd) as [Hp' [g' Ha]]. split; [done|]. exists g'.
  rewrite app_nth2, Hn, Nat.sub_diag by lia. cbn [option_list nth assign_original transfer_of deallocates_of] in *.
  rewrite (below_eval _ _ _ _ _ Hb Hk). cbn [mbind res_bind]. by rewrite (below_eval _ _ _ _ _ Hb Hd).
Qed.

Lemma zip_option_tail (names : list string) (vs : list Z) r :
  length names = length vs → zip names (vs ++ option_list r) = zip names vs.
Proof.
  intros Hl. rewrite <- (app_nil_r names) at 1. rewrite zip_with_app by done. cbn. by rewrite app_nil_r.
Qed.

(** Replaying a call that was served, up to the recording: the arguments, the result and the memory
    are those of the first time. *)
Lemma replay_call_traced (c : C) f order args m w s r' mg w' s' R ps async locals m1 w2 r os cid call ret g :
  call_ok f order args m →
  traced cb native f order args m w s r' mg w' s' R ps async locals m1 w2 r os →
  carries_call (command_channel_get_buffer c call) api f order ps cid call →
  carries_reply (command_channel_get_buffer c ret) api f order os r cid ret →
  pool_ok w → worker_ok w →
  pool_ok w' ∧ worker_ok w' ∧
  ∃ g' rv w3, replay_call cb native api f order call ret c (set_counter g w) s = Ok (locals, rv, set_counter g' w3, s') ∧
    w_mem w3 = m1 ∧ w' = set_w_mem ∅ w3 ∧
    ∀ w1, foldM (realise_arg cb) (zip order ps) (∅, w) = Ok (locals, w1) →
      native f ((λ a, default 0 (locals !! a_name a)) <$> f_arguments f) (w_mem w1) s = (rv, m1, s').
Proof.
  intros Hok [w1 rv R' w3 Hplan _ Hreal Hnat Hret Houts _ ->]
    (Hca & Hci & Hcs & bufs & fields & Hun & Hcar & Hget) (Hra & Hri & Hrs & vs & Hur & Hlv & Hrec) Hp Hw.
  pose proof Hok as [Hnd _ _ _ Hcr _ _].
  destruct (plan_args_spec m args order Hnd order (λ _, False) (no_env true) [] R ps) as (qs & Hqs & Hpl & _); [done|by split_and!|done|].
  cbn [app] in Hqs. subst qs. pose proof (Forall2_length _ _ _ Hpl) as Hlp.
  destruct (realise_args_counter cb g _ _ _ _ _ Hreal) as [Hreal' Hp1]. specialize (Hp1 Hp).
  destruct (convert_args cb m args order (command_channel_get_buffer c call) bufs Hnd Hget order ps fields
    (λ _, False) (no_env true) R [] ∅ (set_counter g w) locals (set_counter g w1) Hnd) as (Hconv & Hw1 & (Pw & HbW) & _); try done.
  { intros a Ha. split; [done|tauto]. } { by apply worker_w_ok. }
  pose proof (still_shared_worker _ _ _ _ _ m1 HbW) as Hb.
  assert (pool_ok (set_w_mem m1 w1)) as Hp2 by done.
  destruct (assign_ret (command_channel_get_buffer c ret) f _ _ rv _ r w2 g Hcr Hb Hp2 Hret vs (length (ret_arguments order)) Hlv)
    as [Hp3 [g1 Hret']].
  set (vals := list_to_map (zip (a_name <$> ret_arguments order) (vs ++ option_list r)) : gmap string Z).
  destruct (assign_outputs (command_channel_get_buffer c ret) order args locals vals m1 Hnd (ret_arguments order)
    (still_shared locals m1 R) m w2 [] R' mg w3 os g1) as [Hp4 [g2 Houts']]; try done.
  { by intros x [_ ?]%ret_arguments_sub. } { exact (ret_value_mem _ _ _ _ _ _ Hret). }
  { unfold vals. rewrite zip_option_tail by (by rewrite length_fmap). clear -Hrec Hnd Hlv.
    rewrite <- (assoc_fmap 0 (ret_arguments order) vs (ret_arguments_NoDup _ Hnd) Hlv) in Hrec.
    apply Forall2_flip in Hrec. exact (proj1 (Forall2_fmap_l _ _ _ _) Hrec). }
  split; [done|]. split.
  { split; [|done]. cbn. rewrite (out_args_next _ _ _ _ _ _ _ _ _ _ _ Houts), (ret_value_next _ _ _ _ _ _ Hret). by destruct Hw1. }
  exists g2, rv, w3. split; [|split_and!; [|done|by intros w1' [= <-]%(eq_trans (eq_sym Hreal))]].
  2: { rewrite (out_args_mem _ _ _ _ _ _ _ _ _ _ _ Houts). by rewrite (ret_value_mem _ _ _ _ _ _ Hret). }
  unfold replay_call.
  rewrite Hca, Z.eqb_refl. cbn [c_assert mbind res_bind]. rewrite Hcs, Z.eqb_refl. cbn [c_assert mbind res_bind].
  rewrite Hun. change (drop 1 (cid :: fields)) with fields. rewrite Hconv. cbn [mbind res_bind]. cbn [set_counter w_mem].
  rewrite Hnat, Hra, Z.eqb_refl. cbn [c_assert mbind res_bind]. rewrite Hrs, Z.eqb_refl. cbn [c_assert mbind res_bind].
  rewrite Hri, Z.eqb_refl. cbn [c_assert mbind res_bind]. rewrite Hur. cbn [nth]. rewrite Z.eqb_refl. cbn [c_assert mbind res_bind].
  change (drop 1 (cid :: vs ++ option_list r)) with (vs ++ option_list r). fold vals.
  change (set_w_mem m1 (set_counter g w1)) with (set_counter g (set_w_mem m1 w1)). rewrite Hret'. cbn [mbind res_bind].
  rewrite Houts'. done.
Qed.

Lemma replay_served (c : C) w s call ret w' s' g :
  served (command_channel_get_buffer c call) (command_channel_get_buffer c ret) w s call ret w' s' →
  pool_ok w → worker_ok w →
  pool_ok w' ∧ worker_ok w' ∧
  ∃ g', replay_command cb native api functions call ret c (set_counter g w) s = Ok (set_counter g' w', s').
Proof.
  intros [f order args m r' mg R ps async locals m1 w2 r os cid Hf Ht Hok Htr Hcc Hcr] Hp Hw.
  destruct (replay_call_traced _ _ _ _ _ _ _ _ _ _ _ _ _ _ _ _ _ _ _ _ _ _ g Hok Htr Hcc Hcr Hp Hw)
    as (Hp' & Hw' & g' & rv & w3 & Hrep & _ & -> & _).
  split; [done|]. split; [done|]. exists g'. unfold replay_command. destruct Hcc as (_ & -> & _).
  destruct (list_find_id f_call_id functions f) as [i ->]; [|done|].
  { unfold ids_ok in Hids. rewrite app_nil_r in Hids. by apply NoDup_app in Hids as [? _]. }
  unfold ordered. rewrite Ht. cbn [from_option]. unfold Datatypes.id, replay_command_implementation. by rewrite Hrep.
Qed.

(** The recorded calls of a worker, in order; [c] is the log that the commands are read from. *)
Inductive history (c : C) : wstate → G → list (command * command) → wstate → G → Prop :=
  | HistoryNil w s : history c w s [] w s
  | HistoryCall w s call ret w1 s1 log w2 s2 :
      served (command_channel_get_buffer c call) (command_channel_get_buffer c ret) w s call ret w1 s1 →
      history c w1 s1 log w2 s2 → history c w s ((call, ret) :: log) w2 s2.

Lemma replay_history c w s log w' s' :
  history c w s log w' s' → pool_ok w → worker_ok w → ∀ g,
  pool_ok w' ∧ ∃ g', replay_all cb native api functions log c (set_counter g w) s = Ok (set_counter g' w', s').
Proof.
  induction 1 as [w s|w s call ret w1 s1 log w2 s2 Hserved _ IH]; intros Hp Hw g; [split; [done|by exists g]|].
  destruct (replay_served _ _ _ _ _ _ _ g Hserved Hp Hw) as (Hp1 & Hw1 & g1 & Hr).
  destruct (IH Hp1 Hw1 g1) as (Hp2 & g2 & Hr2). split; [done|]. exists g2. cbn [replay_all]. rewrite Hr. done.
Qed.
End history.

(** The commands that a remote call exchanges are such a pair. *)
Lemma exchange_served {A B} `{Channel A} `{Channel B} {conn : A → B → Prop} `{!Link A B conn} `{!Link B A (flip conn)}
    `{Toposort, Uninit} cb {G} (native : func → list Z → mem → G → Z * mem * G) api functions callbacks
    f thread args (g : guest A) (b : B) h w s r m' w' s' n :
  ids_ok functions callbacks → in_range 8 api →
  direct_step (conn := conn) cb native functions f thread args (g_mem g) w s r m' w' s' →
  conn (g_chan g) b → guest_ok (S n) g → heap_ok h → worker_ok w →
  ∃ order cid record g1 ch2 b1 call b2 c1 h1 c2 a1 ret a2,
    function_implementation f order api thread args g = Ok (cid, record, g1) ∧
    deliver (g_chan g1) b = (ch2, b1) ∧ command_channel_receive_command b1 h = Ok (Some call, b2, (malloc h).2) ∧
    call_command_implementation cb (native f) f order api call b2 (malloc h).2 w s = Ok (c1, h1, w', s') ∧
    deliver c1 ch2 = (c2, a1) ∧
    command_channel_receive_command a1 (g_heap g1) = Ok (Some ret, a2, (malloc (g_heap g1)).2) ∧
    served cb native api functions (command_channel_get_buffer b2 call) (command_channel_get_buffer a2 ret) w s call ret w' s'.
Proof.
  intros Hids Hapi Hstep Hconn Hg Hh Hw.
  destruct (exchange cb native api functions Hapi _ _ _ _ _ _ _ _ _ _ _ _ _ Hstep Hconn Hg Hh Hw) as
    (order & R & ps & async & locals & m1 & w2 & r0 & os & Hf & Htopo & Hok & Htr & _ & _ &
     ch1 & h1 & ch2 & b1 & cmd & b2 & c1 & c2 & a1 & reply & a2 & Hfun & Hdel & Hrcv & _ & _ & _ & Hcc & Hcall &
     Hdel2 & Hrcv2 & _ & _ & Hcr).
  eexists order, _, _, _, ch2, b1, cmd, b2, c1, _, c2, a1, reply, a2. split; [exact Hfun|]. split_and!; try done.
  by eapply Served.
Qed.
