(* ===== verification/ApiReplay.v ===== *)
(** * Rebuilding a worker from its recorded calls

    The theorem about the generated replay function that a user relies on, and an OpenCL worker
    that is rebuilt from the two pairs of commands that its client and it exchanged over sockets. *)

From S2P Require Import Prelude Channel HandlePool Socket LogChannel ShmChannel SocketChannel Endpoint Cava Stub Remote RemoteCall RemoteRefinement RemoteSocket SpecCheck ApiCalls Replay SpecOpenCL.
Local Open Scope Z_scope.

(** C3. Replay rebuilds a worker. When the CALL and RET commands of the calls that a worker served
    are replayed, in order, in a worker that starts as the first one did (with whatever
    counter of identifiers), no assertion fails: every handle that the library returns gets the
    identifier that the guest knows it by, also in arrays of handles, identifiers of handles
    that calls deallocate are removed, and the handle table and the library end in the state in
    which they were in the first worker. *)
Theorem replay_rebuilds_worker `{Channel C, Toposort, Uninit} {G} (cb : Z)
    (native : func → list Z → mem → G → Z * mem * G) (api : Z) (functions : list func)
    (c : C) w s log w' s' g :
  ids_ok functions [] → pool_ok w → worker_ok w →
  history cb native api functions c w s log w' s' →
  ∃ g', replay_all cb native api functions log c (set_counter g w) s = Ok (set_counter g' w', s').
Proof. intros Hids Hp Hw Hh. by eapply replay_history. Qed.

Section sample.
Import Sample.

(** The commands of a program's calls over the sample network, as they are recorded. *)
Lemma sample_history (c : command_channel_socket) p m w s n r m' w' s' :
  direct_run (conn := sock_conn) 7 native opencl_functions p m w s n r m' w' s' →
  ∀ (g : guest command_channel_socket) b h, g_mem g = m → sock_conn (g_chan g) b → guest_ok n g → heap_ok h → worker_ok w →
  ∃ log, length log = n ∧ history 7 native 1 opencl_functions c w s log w' s'.
Proof.
  pose proof (api_ids opencl_functions ltac:(left)) as Hids. assert (in_range 8 1) as H1 by (unfold in_range; lia).
  induction 1 as [|f thread args k m w s r m1 w1 s1 m2 p n result m3 w3 s3 Hstep Hsync Hk Hrun IH]; intros g b h <- Hc Hg Hh Hw.
  { exists []. split; [done|constructor]. }
  destruct (exchange_served (conn := sock_conn) 7 native 1 opencl_functions [] _ _ _ _ _ _ _ _ _ _ _ _ _
    Hids H1 Hstep Hc Hg Hh Hw) as
    (? & ? & ? & ? & ? & ? & call & ? & ? & ? & ? & ? & ret & ? & _ & _ & _ & _ & _ & _ & Hs).
  destruct (remote_step (conn := sock_conn) 7 native 1 opencl_functions [] Hids H1 _ _ _ _ _ _ _ _ _ _ _ _ _ Hstep Hsync Hc Hg Hh Hw)
    as (g' & b' & h' & _ & Hm & Hc' & Hg' & Hh' & Hw' & _).
  destruct (IH (set_mem m2 g') b' h') as (log & Hl & Hlog); try done; [by destruct Hg'|].
  exists ((call, ret) :: log). split; [cbn; lia|]. by eapply HistoryCall.
Qed.

Lemma worker0_pool : pool_ok worker0.
Proof.
  eexists. split; [reflexivity|]. split; [|by vm_compute].
  split; intros; cbn in *; [by rewrite !lookup_empty|by rewrite lookup_empty in *].
Qed.

(** A worker that gave out two devices and then answered for one of them is rebuilt, from any
    counter of identifiers. *)
Lemma replay_rebuilds_worker_witness :
  ∃ log w' g', length log = 2%nat ∧ w_pool w' ≠ w_pool worker0 ∧
    replay_all 7 native 1 opencl_functions log (mk_csock empty_sock PollIn 1 4001 0)
      (set_counter (counter_init 9) worker0) 0 = Ok (set_counter g' w', 2).
Proof.
  destruct sample_program_runs as (m' & w' & Hp & Hrun).
  destruct (sample_history (mk_csock empty_sock PollIn 1 4001 0) _ _ _ _ _ _ _ _ _ Hrun guest0
    (mk_csock empty_sock PollIn 1 4001 0) (mk_heap ∅ 1)) as (log & Hl & Hlog).
  - reflexivity.
  - split; split; reflexivity.
  - apply sample_guest_ok. lia.
  - intros x Hx. by apply not_elem_of_empty in Hx.
  - by split.
  - destruct (replay_rebuilds_worker 7 native 1 opencl_functions (mk_csock empty_sock PollIn 1 4001 0)
      worker0 0 log w' 2 (counter_init 9)) as [g' Hr].
    + apply api_ids. left.
    + apply worker0_pool.
    + by split.
    + exact Hlog.
    + by exists log, w', g'.
Defined.
End sample.
