(* ===== verification/Recording.v ===== *)
(** * Recording of calls in the generated worker (cava/nightwatch/generator/c/callee.py)

    Compiled with [AVA_RECORD_REPLAY], the generated code of a call appends the CALL and the RET
    command to the log, at most once, and remembers their offsets for every handle among the
    arguments and the result whose annotations ask for it; deallocating a handle marks its calls.
    The annotations of a type are a list: those of the value, of its elements, and so on. *)

From S2P Require Import Prelude Channel HandlePool LogChannel Endpoint Extraction Cava Stub Remote.
Local Open Scope Z_scope.

(** [ava_object_record], [ava_object_depends_on] and [ava_object_explicit_state_functions] of a
    type; a dependency is the name of an argument. *)
Record object_annotation := mk_oa {
  object_record : bool;
  object_depends_on : list string;
  object_explicit_state_extract : Z;
  object_explicit_state_replace : Z
}.
Definition no_object : object_annotation := mk_oa false [] NULL NULL.

(** The variables [__call_log_offset] and [__ret_log_offset], the log and the endpoint. *)
Record rstate := mk_r {
  r_call : Z; r_ret : Z; r_log : command_channel_log; r_endpoint : ava_endpoint
}.
Definition set_r_endpoint (e : ava_endpoint) (st : rstate) : rstate := mk_r (r_call st) (r_ret st) (r_log st) e.

Section generated.
Context `{Channel C}.
(** The channel, the CALL command and the RET command before it is sent. *)
Variables (c : C) (call ret : command).

Definition log_call_command (st : rstate) : res rstate :=
  st ← (if r_call st =? -1 then
          '(off, log) ← command_channel_log_transfer_command (r_log st) (command_channel_get_data_region c call) call;
          Ok (mk_r off (r_ret st) log (r_endpoint st))
        else Ok st);
  _ ← c_assert (negb (r_call st =? -1)) "__call_log_offset != -1";
  Ok st.

Definition log_ret_command (st : rstate) : res rstate :=
  st ← (if r_ret st =? -1 then
          '(off, log) ← command_channel_log_transfer_command (r_log st) (command_channel_get_data_region c ret) ret;
          Ok (mk_r (r_call st) off log (r_endpoint st))
        else Ok st);
  _ ← c_assert (negb (r_ret st =? -1)) "__ret_log_offset != -1";
  Ok st.

(** [record]: there is no type, or its annotations ask for a record. *)
Definition record_call_metadata (handle : Z) (record : bool) (deps : list Z) (st : rstate) : res rstate :=
  st ← (if record then
          st ← log_call_command st;
          st ← log_ret_command st;
          Ok (set_r_endpoint (ava_add_recorded_call (r_endpoint st) handle (r_call st, r_ret st)) st)
        else Ok st);
  Ok (set_r_endpoint (foldl (λ e d, ava_add_dependency e handle d) (r_endpoint st) deps) st).

Definition assign_record_replay_functions (handle : Z) (o : object_annotation) (st : rstate) : rstate :=
  if negb (object_explicit_state_extract o =? NULL) || negb (object_explicit_state_replace o =? NULL) then
    set_r_endpoint (ava_assign_record_replay_functions (r_endpoint st) handle
      (object_explicit_state_extract o) (object_explicit_state_replace o)) st
  else st.

Definition expunge_calls (handle : Z) (st : rstate) : res rstate :=
  '(e, log) ← ava_expunge_recorded_calls (r_endpoint st) (r_log st) handle;
  Ok (mk_r (r_call st) (r_ret st) log e).

(** A handle; [keep] is [not type.deallocates], which the generator evaluates. *)
Definition record_handle (locals : gmap string Z) (o : object_annotation) (keep : bool) (h : Z) (st : rstate)
    : res rstate :=
  if keep then
    record_call_metadata h (object_record o) ((λ x, default 0 (locals !! x)) <$> object_depends_on o)
      (assign_record_replay_functions h o st)
  else expunge_calls h st.

Fixpoint record_value (locals : gmap string Z) (os : list object_annotation) (t : ty) (E : env) (m : mem)
    (v : Z) (st : rstate) : res rstate :=
  let o := nth 0 os no_object in
  match t with
  | TVal _ _ _ transfer deallocates =>
      k ← eval E transfer;
      if k =? NW_HANDLE then record_handle locals o (is_false deallocates) v st else Ok st
  | TPtr transfer buffer deallocates el =>
      k ← eval E transfer;
      if negb (k =? NW_BUFFER) then
        if k =? NW_HANDLE then record_handle locals o (is_false deallocates) v st else Ok st
      else
        blob ← is_blob E false el;
        if (blob : bool) then Ok st
        else if v =? NULL then Ok st
        else
          n ← eval E buffer;
          if u64 n =? 0 then Ok st
          else
            l ← object m v;
            vs ← elems_of el (u64 n) l;
            '(_, st) ← mapS (λ i x st,
              st ← record_value locals (drop 1 os) el (at_index i (Some (view_of el x m)) E) m x st;
              Ok (tt, st)) 0 vs st;
            Ok st
  end.

(** The annotations of a function: of the call, of its arguments and of its result. *)
Record function_annotation := mk_fa {
  fa_call_record : bool;
  arg_objects : string → list object_annotation;
  ret_objects : list object_annotation
}.

(** The code between the conversion of the results and the sending of the reply; [rv] is the
    result of the library. *)
Definition record_metadata (f : func) (fa : function_annotation) (order : list argument)
    (locals : gmap string Z) (m : mem) (rv : Z) (log : command_channel_log) (e : ava_endpoint)
    : res (command_channel_log * ava_endpoint) :=
  let E := arg_env order locals m false in
  st ← foldM (λ a st,
         v ← arg_value locals a;
         record_value locals (arg_objects fa (a_name a)) (a_type a) E m v st) order (mk_r (-1) (-1) log e);
  st ← match f_ret f with
       | Some t => record_value locals (ret_objects fa) t E m rv st
       | None => Ok st
       end;
  st ← (if fa_call_record fa then record_call_metadata NULL true [] st else Ok st);
  Ok (r_log st, r_endpoint st).

End generated.

(** ** The objects that a call is recorded for *)

(** A handle, its annotations, and whether it is kept. *)
Abbreviation recorded_object := (object_annotation * bool * Z)%type.

Fixpoint objects_of (os : list object_annotation) (t : ty) (E : env) (m : mem) (v : Z) : res (list recorded_object) :=
  let o := nth 0 os no_object in
  match t with
  | TVal _ _ _ transfer deallocates =>
      k ← eval E transfer;
      Ok (if k =? NW_HANDLE then [(o, is_false deallocates, v)] else [])
  | TPtr transfer buffer deallocates el =>
      k ← eval E transfer;
      if negb (k =? NW_BUFFER) then Ok (if k =? NW_HANDLE then [(o, is_false deallocates, v)] else [])
      else
        blob ← is_blob E false el;
        if (blob : bool) then Ok []
        else if v =? NULL then Ok []
        else
          n ← eval E buffer;
          if u64 n =? 0 then Ok []
          else
            l ← object m v;
            vs ← elems_of el (u64 n) l;
            '(ls, _) ← mapS (λ i x (_ : unit),
              l ← objects_of (drop 1 os) el (at_index i (Some (view_of el x m)) E) m x; Ok (l, tt)) 0 vs tt;
            Ok (concat ls)
  end.

Fixpoint argument_objects (fa : function_annotation) (locals : gmap string Z) (E : env) (m : mem) (l : list argument)
    : res (list recorded_object) :=
  match l with
  | [] => Ok []
  | a :: l =>
      v ← arg_value locals a;
      os ← objects_of (arg_objects fa (a_name a)) (a_type a) E m v;
      os' ← argument_objects fa locals E m l;
      Ok (os ++ os')
  end.

(** The call itself is recorded for the object NULL. *)
Definition call_objects (f : func) (fa : function_annotation) (order : list argument) (locals : gmap string Z)
    (m : mem) (rv : Z) : res (list recorded_object) :=
  let E := arg_env order locals m false in
  os ← argument_objects fa locals E m order;
  os' ← match f_ret f with Some t => objects_of (ret_objects fa) t E m rv | None => Ok [] end;
  Ok (os ++ os' ++ if fa_call_record fa then [(mk_oa true [] NULL NULL, true, NULL)] else []).

Section objects.
Context `{Channel C}.
Variables (c : C) (call ret : command).

Definition record_object (locals : gmap string Z) (x : recorded_object) (st : rstate) : res rstate :=
  record_handle c call ret locals x.1.1 x.1.2 x.2 st.

Lemma foldM_one {A S} (f : A → S → res S) x s : foldM f [x] s = f x s.
Proof. cbn. by destruct (f x s). Qed.

Lemma record_value_objects locals t : ∀ os E m v l st,
  objects_of os t E m v = Ok l → record_value c call ret locals os t E m v st = foldM (record_object locals) l st.
Proof.
  induction t as [sz al sg tr dl|tr buf dl el IH]; intros os E m v l st Ho; cbn [objects_of record_value] in *.
  { apply res_bind_Ok in Ho as (k & -> & [= <-]). cbn [mbind res_bind]. by destruct (k =? NW_HANDLE); rewrite ?foldM_one. }
  apply res_bind_Ok in Ho as (k & -> & Ho). cbn [mbind res_bind]. destruct (k =? NW_BUFFER); cbn [negb] in *.
  2: { injection Ho as <-. by destruct (k =? NW_HANDLE); rewrite ?foldM_one. }
  apply res_bind_Ok in Ho as (blob & -> & Ho). cbn [mbind res_bind]. destruct blob; [by injection Ho as <-|].
  destruct (v =? NULL); [by injection Ho as <-|]. apply res_bind_Ok in Ho as (n & -> & Ho). cbn [mbind res_bind].
  destruct (u64 n =? 0); [by injection Ho as <-|]. apply res_bind_Ok in Ho as (bytes & -> & Ho). cbn [mbind res_bind].
  apply res_bind_Ok in Ho as (vs & -> & Ho). cbn [mbind res_bind]. apply res_bind_Ok in Ho as ([ls u] & Hm & [= <-]).
  enough (∀ i vs ls u u' st, mapS (λ i x (_ : unit),
      l ← objects_of (drop 1 os) el (at_index i (Some (view_of el x m)) E) m x; Ok (l, tt)) i vs u = Ok (ls, u') →
    ('(_, st) ← mapS (λ i x st,
      st ← record_value c call ret locals (drop 1 os) el (at_index i (Some (view_of el x m)) E) m x st; Ok (tt, st)) i vs st; Ok st) =
    foldM (record_object locals) (concat ls) st) as Hgo by (by eapply Hgo).
  clear -IH. intros i vs. revert i. induction vs as [|x vs IHvs]; intros i ls u u' st Hm; [by injection Hm as <- <-|].
  apply mapS_Ok in Hm as (l & s1 & ls' & Hx & Hm & ->). apply res_bind_Ok in Hx as (l' & Hx & [= <- <-]).
  cbn [mapS concat]. rewrite foldM_app. rewrite (IH _ _ _ _ _ st Hx).
  destruct (foldM (record_object locals) l' st) as [st1|]; cbn [mbind res_bind]; [|done].
  specialize (IHvs _ _ _ _ st1 Hm). rewrite <- IHvs. by destruct (mapS _ _ _ st1) as [[? ?]|].
Qed.

Lemma record_arguments_objects fa locals E m l os st :
  argument_objects fa locals E m l = Ok os →
  foldM (λ a st, v ← arg_value locals a;
      record_value c call ret locals (arg_objects fa (a_name a)) (a_type a) E m v st) l st =
    foldM (record_object locals) os st.
Proof.
  revert os st. induction l as [|a l IH]; intros os st Ha; [by injection Ha as <-|].
  cbn [argument_objects] in Ha. apply res_bind_Ok in Ha as (v & Hv & Ha). apply res_bind_Ok in Ha as (o1 & Ho1 & Ha).
  apply res_bind_Ok in Ha as (o2 & Ho2 & [= <-]). cbn [foldM]. rewrite Hv, foldM_app. cbn [mbind res_bind].
  rewrite (record_value_objects _ _ _ _ _ _ _ _ Ho1). destruct (foldM _ o1 st); cbn [mbind res_bind]; [by apply IH|done].
Qed.

Lemma record_metadata_objects f fa order locals m rv log e l :
  call_objects f fa order locals m rv = Ok l →
  record_metadata c call ret f fa order locals m rv log e =
    (st ← foldM (record_object locals) l (mk_r (-1) (-1) log e); Ok (r_log st, r_endpoint st)).
Proof.
  unfold call_objects, record_metadata. intros Ho. apply res_bind_Ok in Ho as (os & Ha & Ho). apply res_bind_Ok in Ho as (os' & Hr & [= <-]).
  rewrite (record_arguments_objects _ _ _ _ _ _ _ Ha).
  rewrite !foldM_app. destruct (foldM _ os _) as [st|]; cbn [mbind res_bind]; [|done]. rewrite foldM_app.
  assert (match f_ret f with Some t => record_value c call ret locals (ret_objects fa) t (arg_env order locals m false) m rv st | None => Ok st end =
    foldM (record_object locals) os' st) as ->.
  { destruct (f_ret f); [by apply record_value_objects|by injection Hr as <-]. }
  destruct (foldM _ os' st) as [st1|]; cbn [mbind res_bind]; [|done]. by destruct (fa_call_record fa); rewrite ?foldM_one.
Qed.
End objects.

(** A handle under a conditional deallocation is treated as deallocated, whatever the condition. *)
Lemma conditional_deallocation_marks `{Channel C} (c : C) call ret locals os sz al sg cond a b E m v st :
  record_value c call ret locals os (TVal sz al sg (EInt NW_HANDLE) (ECond cond a b)) E m v st = expunge_calls v st.
Proof. done. Qed.

(** ** Logs that differ in the flags of records *)

Definition same_record (r r' : lrec) : Prop := lr_base r = lr_base r' ∧ lr_rest r = lr_rest r'.
Definition same_records : list lrec → list lrec → Prop := Forall2 same_record.

#[export] Instance same_record_equiv : Equivalence same_record.
Proof. unfold same_record. split; [by intros r|by intros r r' [-> ->]|by intros r1 r2 r3 [-> ->] [-> ->]]. Qed.
#[export] Instance same_records_equiv : Equivalence same_records.
Proof. unfold same_records. apply _. Qed.

Lemma same_offset rs rs' i : same_records rs rs' → log_offset rs i = log_offset rs' i.
Proof.
  intros Hs. unfold log_offset, log_bytes. f_equal. rewrite !length_join, <- !list_fmap_compose. f_equal.
  apply (Forall2_take _ _ _ i) in Hs. induction Hs as [|r r' l l' [Hb Hr] _ IH]; [done|]. rewrite !fmap_cons. f_equal; [|done].
  unfold compose, lrec_bytes. rewrite !length_app, !length_metadata_bytes. by rewrite Hb, Hr.
Qed.

Lemma same_mark js rs : same_records rs (mark_all js rs).
Proof.
  apply Forall2_same_length_lookup_2.
  { unfold mark_all. revert rs. induction js as [|j js IH]; intros rs; [done|]. cbn. by rewrite <- IH, length_alter. }
  intros i r r' Hr. rewrite mark_all_lookup, Hr. cbn. intros [= <-]. by destruct (decide _).
Qed.

Lemma log_offset_app rs l i : (i ≤ length rs)%nat → log_offset (rs ++ l) i = log_offset rs i.
Proof. intros Hi. unfold log_offset. by rewrite take_app_le. Qed.

Lemma same_prefix rs0 l rs i : same_records (rs0 ++ l) rs → (i ≤ length rs0)%nat → log_offset rs i = log_offset rs0 i.
Proof. intros Hs Hi. rewrite <- (same_offset _ _ _ Hs). by apply log_offset_app. Qed.

Lemma log_offset_end c rs k : log_repr c rs k → Z.of_nat (length (content c)) = log_offset rs (length rs).
Proof. intros (Hc & _). unfold log_offset. by rewrite take_ge, Hc by done. Qed.

(** A command is appended, and its offset returned. *)
Lemma transfer_append c rs k cmd region : log_repr c rs k → cmd_wf cmd region → ∃ c',
  command_channel_log_transfer_command c region cmd = Ok (log_offset rs (length rs), c') ∧
  log_repr c' (rs ++ [transferred cmd region]) k.
Proof.
  intros Hl Hw. pose proof Hl as (_ & _ & _ & _ & Hfd & Hdk). rewrite (transfer_eq _ _ _ Hfd Hdk Hw), (log_offset_end _ _ _ Hl).
  eexists. split; [done|]. by apply log_repr_append, transferred_wf.
Qed.

Lemma offset_valid rs i : log_offset rs i =? -1 = false.
Proof. unfold log_offset. apply Z.eqb_neq. lia. Qed.

(** ** Calls in the metadata *)

Lemma calls_put e h m h' :
  calls_of (put_metadata h m (snd (ava_internal_metadata_unlocked e h))) h' =
    if decide (h' = h) then default [] (recorded_calls m) else calls_of e h'.
Proof.
  unfold calls_of. rewrite metadata_step_eq, lookup_insert.
  destruct (decide (h = h')) as [->|Hne]; [by rewrite decide_True|]. rewrite decide_False by done. done.
Qed.

Lemma metadata_calls e h : default [] (recorded_calls (fst (ava_internal_metadata_unlocked e h))) = calls_of e h.
Proof. unfold ava_internal_metadata_unlocked, calls_of. by destruct (metadata_map e !! h). Qed.

Lemma calls_recorded e h p h' :
  calls_of (ava_add_recorded_call e h p) h' = calls_of e h' ++ if decide (h' = h) then [p] else [].
Proof.
  unfold ava_add_recorded_call. rewrite (surjective_pairing (ava_internal_metadata_unlocked e h)).
  rewrite calls_put. cbn [recorded_calls set_recorded_calls]. rewrite metadata_calls.
  destruct (decide (h' = h)) as [->|]; [done|]. by rewrite app_nil_r.
Qed.

Lemma calls_dependency e a b h' : calls_of (ava_add_dependency e a b) h' = calls_of e h'.
Proof.
  unfold ava_add_dependency. rewrite (surjective_pairing (ava_internal_metadata_unlocked e a)), calls_put.
  destruct (decide (h' = a)) as [->|]; [|done]. by rewrite <- metadata_calls.
Qed.

Lemma calls_dependencies deps : ∀ e a h', calls_of (foldl (λ e d, ava_add_dependency e a d) e deps) h' = calls_of e h'.
Proof. induction deps as [|d deps IH]; intros e a h'; [done|]. cbn. by rewrite IH, calls_dependency. Qed.

Lemma calls_functions e h x y h' : calls_of (ava_assign_record_replay_functions e h x y) h' = calls_of e h'.
Proof.
  unfold ava_assign_record_replay_functions, ava_internal_metadata. rewrite (surjective_pairing (ava_internal_metadata_unlocked e h)), calls_put.
  destruct (decide (h' = h)) as [->|]; [|done]. by rewrite <- metadata_calls.
Qed.

Lemma calls_touched e h h' : calls_of (snd (ava_internal_metadata_unlocked e h)) h' = calls_of e h'.
Proof.
  unfold ava_internal_metadata_unlocked, calls_of. destruct (metadata_map e !! h) eqn:Hm; [done|]. cbn.
  rewrite lookup_insert. destruct (decide (h = h')) as [->|]; [by rewrite Hm|done].
Qed.

(** ** One call *)

(** Whether a call is recorded for an object; whether the object stays; how often the call is recorded
    for the handle [h]. *)
Definition records (x : recorded_object) : bool := x.1.2 && object_record x.1.1.
Definition kept (x : recorded_object) : bool := x.1.2.
Definition times (l : list recorded_object) (h : Z) : nat :=
  length (filter (λ x : recorded_object, records x = true ∧ x.2 = h) l).

Lemma times_app l1 l2 h : times (l1 ++ l2) h = (times l1 h + times l2 h)%nat.
Proof. unfold times. by rewrite filter_app, length_app. Qed.
Lemma times_none l h : existsb records l = false → times l h = 0%nat.
Proof.
  unfold times. induction l as [|x l IH]; [done|]. cbn [existsb]. intros [Hx Hl]%orb_false_iff.
  rewrite filter_cons_False by (intros [? _]; congruence). by apply IH.
Qed.

(** The recorded calls are pairs of records of the log: those at [idx h] for the handle [h]. *)
Definition calls_at (idx : Z → list (nat * nat)) (rs : list lrec) (e : ava_endpoint) : Prop := ∀ h,
  calls_of e h = pair_offsets rs <$> idx h ∧ Forall (λ p, (fst p < length rs)%nat ∧ (snd p < length rs)%nat) (idx h).
Definition in_log (rs : list lrec) (e : ava_endpoint) : Prop := ∃ idx, calls_at idx rs e.

(** The records that the objects [l] of a call mark: at every deallocation of a handle, those of all
    calls recorded for it before, in earlier calls at [idx] or for the objects [before] of this call,
    whose records are [n] and the next. *)
Definition both (l : list (nat * nat)) : list nat := mjoin ((λ p, [fst p; snd p]) <$> l).
Fixpoint expunged (idx : Z → list (nat * nat)) (n : nat) (before l : list recorded_object) : list nat :=
  match l with
  | [] => []
  | x :: l =>
      (if kept x then [] else both (idx x.2 ++ replicate (times before x.2) (n, S n))) ++
      expunged idx n (before ++ [x]) l
  end.

Lemma expunged_snoc idx n x l : ∀ before,
  expunged idx n before (l ++ [x]) =
    expunged idx n before l ++
    if kept x then [] else both (idx x.2 ++ replicate (times (before ++ l) x.2) (n, S n)).
Proof.
  induction l as [|y l IH]; intros before; cbn [app expunged]; [by rewrite !app_nil_r|].
  rewrite IH, <- !app_assoc. done.
Qed.

Lemma expunged_kept idx n l : ∀ before, forallb kept l = true → expunged idx n before l = [].
Proof.
  induction l as [|x l IH]; intros before; [done|]. cbn [forallb expunged]. intros [Hx Hl]%andb_true_iff.
  by rewrite Hx, IH.
Qed.

Lemma both_bound l n :
  Forall (λ p, (fst p < n)%nat ∧ (snd p < n)%nat) l → Forall (λ j, (j < n)%nat) (both l).
Proof.
  induction 1 as [|[i j] l [Hi Hj] _ IH]; [constructor|]. unfold both. cbn. by repeat constructor.
Qed.

Lemma expunged_bound idx n N l : ∀ before,
  (∀ h, Forall (λ p, (fst p < N)%nat ∧ (snd p < N)%nat) (idx h)) →
  (existsb records (before ++ l) = true → (S n < N)%nat) →
  Forall (λ j, (j < N)%nat) (expunged idx n before l).
Proof.
  induction l as [|x l IH]; intros before Hi Hr; cbn [expunged]; [constructor|].
  apply Forall_app. split; [|apply IH; [done|by rewrite <- app_assoc]].
  destruct (kept x); [constructor|]. apply both_bound, Forall_app. split; [done|].
  destruct (existsb records before) eqn:Hb; [|by rewrite times_none].
  apply Forall_replicate. cbn. rewrite existsb_app, Hb in Hr. specialize (Hr eq_refl). lia.
Qed.

Lemma mark_all_app js ks rs : mark_all (js ++ ks) rs = mark_all ks (mark_all js rs).
Proof. apply foldl_app. Qed.

Lemma length_mark_all js rs : length (mark_all js rs) = length rs.
Proof. unfold mark_all. revert rs. induction js as [|j js IH]; intros rs; [done|]. cbn. by rewrite IH, length_alter. Qed.

Lemma mark_all_prefix js rs l :
  Forall (λ j, (j < length rs)%nat) js → mark_all js (rs ++ l) = mark_all js rs ++ l.
Proof.
  intros Hjs. apply list_eq. intros i. rewrite mark_all_lookup. destruct (decide (i < length rs)%nat) as [Hi|Hi].
  - rewrite !lookup_app_l by (rewrite ?length_mark_all; lia). by rewrite mark_all_lookup.
  - rewrite !lookup_app_r by (rewrite ?length_mark_all; lia). rewrite length_mark_all.
    rewrite decide_False; [by destruct (l !! _)|]. intros Hin. rewrite Forall_forall in Hjs. specialize (Hjs i Hin). lia.
Qed.

Section one_call.
Context `{Channel C}.
Variables (c : C) (call ret : command) (locals : gmap string Z).
Variables (rs0 : list lrec) (k : nat) (e0 : ava_endpoint).
Hypothesis Hcall : cmd_wf call (command_channel_get_data_region c call).
Hypothesis Hret : cmd_wf ret (command_channel_get_data_region c ret).
Variable idx0 : Z → list (nat * nat).
Hypothesis Hin : calls_at idx0 rs0 e0.

Definition logged (any : bool) : list lrec :=
  if any then [transferred call (command_channel_get_data_region c call);
               transferred ret (command_channel_get_data_region c ret)] else [].

Record recording (l : list recorded_object) (rs : list lrec) (st : rstate) : Prop := {
  rec_log : log_repr (r_log st) rs k;
  rec_same : same_records (rs0 ++ logged (existsb records l)) rs;
  rec_offsets : (r_call st, r_ret st) =
    if existsb records l then pair_offsets rs (length rs0, S (length rs0)) else (-1, -1);
  rec_calls : ∀ h, calls_of (r_endpoint st) h =
    calls_of e0 h ++ replicate (times l h) (pair_offsets rs (length rs0, S (length rs0)));
  rec_marks : rs = mark_all (expunged idx0 (length rs0) [] l) (rs0 ++ logged (existsb records l))
}.

(** The pairs of a handle, during the call. *)
Definition pairs_now (l : list recorded_object) (h : Z) : list (nat * nat) :=
  idx0 h ++ replicate (times l h) (length rs0, S (length rs0)).

Lemma recording_in_log l rs st : recording l rs st → calls_at (pairs_now l) rs (r_endpoint st).
Proof.
  intros [_ Hs _ Hc _] h. destruct (Hin h) as (Hidx & Hb). pose proof (Forall2_length _ _ _ Hs) as Hlen. rewrite length_app in Hlen.
  unfold pairs_now. rewrite Hc, Hidx, fmap_app, fmap_replicate. split.
  - f_equal. apply list_fmap_ext. intros i [a b] Hab. rewrite Forall_lookup in Hb. destruct (Hb _ _ Hab) as [Ha Hb']. cbn in *.
    unfold pair_offsets. cbn. f_equal; symmetry; eapply same_prefix; try exact Hs; lia.
  - apply Forall_app. split; [eapply Forall_impl; [exact Hb|]; cbn; lia|]. destruct (existsb records l) eqn:Hany.
    + apply Forall_replicate. cbn in *. lia.
    + by rewrite times_none.
Qed.

(** Both commands are appended when the first object asks for a record. *)
Lemma log_commands l rs st : recording l rs st →
  ∃ st1 st2 rs', log_call_command c call st = Ok st1 ∧ log_ret_command c ret st1 = Ok st2 ∧
    r_endpoint st2 = r_endpoint st ∧ log_repr (r_log st2) rs' k ∧ same_records (rs0 ++ logged true) rs' ∧
    (r_call st2, r_ret st2) = pair_offsets rs' (length rs0, S (length rs0)) ∧
    (∀ h, calls_of (r_endpoint st) h = calls_of e0 h ++ replicate (times l h) (pair_offsets rs' (length rs0, S (length rs0)))) ∧
    rs' = mark_all (expunged idx0 (length rs0) [] l) (rs0 ++ logged true).
Proof.
  intros [Hl Hs Ho Hc Hk]. unfold log_call_command, log_ret_command. destruct st as [rc rr log e]. cbn [r_call r_ret r_log r_endpoint] in *.
  destruct (existsb records l) eqn:Hany.
  - injection Ho as -> ->. cbn [pair_offsets fst snd]. set (st := mk_r _ _ log e). exists st, st, rs. subst st.
    cbn [r_call r_ret mbind res_bind]. rewrite !offset_valid. cbn [mbind res_bind r_call r_ret]. rewrite !offset_valid. by split_and!.
  - injection Ho as -> ->. cbn [logged] in Hs. rewrite app_nil_r in Hs. pose proof (Forall2_length _ _ _ Hs) as Hlen.
    destruct (transfer_append _ _ _ _ _ Hl Hcall) as (log1 & Ht1 & Hl1). destruct (transfer_append _ _ _ _ _ Hl1 Hret) as (log2 & Ht2 & Hl2).
    cbn [Z.eqb Pos.eqb]. rewrite Ht1. cbn [mbind res_bind r_call r_ret]. rewrite offset_valid. cbn [negb c_assert mbind res_bind].
    eexists _, _, _. split; [done|]. cbn [r_ret r_log r_call r_endpoint Z.eqb Pos.eqb]. rewrite Ht2. cbn [mbind res_bind r_ret].
    rewrite offset_valid. split; [done|]. cbn [r_endpoint r_log r_call r_ret]. split_and!; [done|exact Hl2| | | |].
    + rewrite <- app_assoc. apply Forall2_app; [done|]. apply (reflexivity (R := same_records)).
    + unfold pair_offsets. cbn [fst snd]. rewrite length_app, Hlen. cbn [length]. rewrite Nat.add_1_r.
      f_equal; symmetry; rewrite log_offset_app by (rewrite length_app; cbn; lia); [by apply log_offset_app|done].
    + intros h. rewrite Hc, !times_none by done. done.
    + cbn [logged] in Hk. rewrite app_nil_r in Hk. rewrite mark_all_prefix, <- Hk, <- app_assoc; [done|].
      apply expunged_bound; [intros h; apply (Hin h)|]. cbn [app]. by rewrite Hany.
Qed.

Lemma existsb_snoc l x : existsb records (l ++ [x]) = existsb records l || records x.
Proof. rewrite existsb_app. cbn. by rewrite orb_false_r. Qed.

Lemma times_snoc l x h : times (l ++ [x]) h = (times l h + if records x && (x.2 =? h)%Z then 1 else 0)%nat.
Proof.
  rewrite times_app. f_equal. unfold times. destruct (records x) eqn:Hr; cbn [andb].
  - destruct (Z.eqb_spec x.2 h); [by rewrite filter_cons_True|]. by rewrite filter_cons_False by naive_solver.
  - by rewrite filter_cons_False by (intros [? _]; congruence).
Qed.

(** Changes of the metadata that keep the recorded calls. *)
Lemma recording_endpoint l rs st e :
  recording l rs st → (∀ h, calls_of e h = calls_of (r_endpoint st) h) → recording l rs (set_r_endpoint e st).
Proof. intros [Hl Hs Ho Hc Hk] He. split; cbn; try done. intros h. by rewrite He. Qed.

(** An object that asks for no record. *)
Lemma recording_skip l rs st x :
  recording l rs st → records x = false → kept x = true → recording (l ++ [x]) rs st.
Proof.
  intros [Hl Hs Ho Hc Hk] Hx Hkx. split; rewrite ?expunged_snoc, ?Hkx, ?app_nil_r; rewrite ?existsb_snoc, ?Hx, ?orb_false_r; try done.
  intros h. by rewrite times_snoc, Hx, Nat.add_0_r.
Qed.

Lemma add_record_ok l rs st o h : recording l rs st → object_record o = true →
  ∃ st' rs', (st ← log_call_command c call st; st ← log_ret_command c ret st;
      Ok (set_r_endpoint (ava_add_recorded_call (r_endpoint st) h (r_call st, r_ret st)) st)) = Ok st' ∧
    recording (l ++ [(o, true, h)]) rs' st'.
Proof.
  intros Hr Ho. destruct (log_commands _ _ _ Hr) as (st1 & st2 & rs' & H1 & H2 & He & Hl & Hs & Hp & Hc & Hk).
  rewrite H1. cbn [mbind res_bind]. rewrite H2. cbn [mbind res_bind]. eexists _, rs'. split; [done|].
  assert (records (o, true, h) = true) as Hx by (cbn; done).
  split; cbn [r_log r_call r_ret r_endpoint set_r_endpoint]; rewrite ?existsb_snoc, ?Hx, ?orb_true_r; try done.
  2: { rewrite expunged_snoc. cbn [kept fst snd]. by rewrite app_nil_r. }
  intros h'. rewrite calls_recorded, He, Hc, Hp, times_snoc, Hx. cbn [andb snd]. rewrite replicate_add, <- app_assoc. do 2 f_equal.
  destruct (Z.eqb_spec h h') as [->|Hne]; [by rewrite decide_True|]. by rewrite decide_False by congruence.
Qed.

Lemma expunge_ok l rs st o h : recording l rs st →
  ∃ st' rs', expunge_calls h st = Ok st' ∧ recording (l ++ [(o, false, h)]) rs' st'.
Proof.
  intros Hr. destruct (recording_in_log _ _ _ Hr h) as (Hidx & Hb). destruct Hr as [Hl Hs Ho Hc Hk].
  set (idx := pairs_now l h) in *. destruct (mark_pairs idx _ _ _ Hl Hb) as (log' & Hm & Hl'). set (rs' := mark_all _ rs) in Hl'.
  assert (same_records rs rs') as Hmark by apply same_mark.
  assert (∀ p, pair_offsets rs' p = pair_offsets rs p) as Hpair.
  { intros p. unfold pair_offsets. by rewrite <- !(same_offset _ _ _ Hmark). }
  unfold expunge_calls, ava_expunge_recorded_calls. rewrite (surjective_pairing (ava_internal_metadata_unlocked (r_endpoint st) h)).
  rewrite metadata_calls, Hidx. unfold pair_offsets in Hidx |- *. rewrite Hm. cbn [mbind res_bind].
  eexists _, rs'. split; [done|].
  split; rewrite ?existsb_snoc; cbn [records andb fst snd r_log r_call r_ret r_endpoint]; rewrite ?orb_false_r; [done| | | |].
  - by transitivity rs.
  - rewrite Ho. by destruct (existsb records l); rewrite ?Hpair.
  - intros h'. rewrite times_snoc. cbn [records andb fst snd]. by rewrite Nat.add_0_r, calls_touched, Hc, Hpair.
  - rewrite expunged_snoc. cbn [kept fst snd app]. rewrite mark_all_app, <- Hk. done.
Qed.

Lemma record_object_ok l rs st x : recording l rs st →
  ∃ st' rs', record_object c call ret locals x st = Ok st' ∧ recording (l ++ [x]) rs' st'.
Proof.
  intros Hr. destruct x as [[o keep] h]. unfold record_object, record_handle. cbn [fst snd]. destruct keep.
  2: { by eapply expunge_ok. }
  assert (recording l rs (assign_record_replay_functions h o st)) as Hr1.
  { unfold assign_record_replay_functions. destruct (_ || _); [|done]. apply recording_endpoint; [done|]. intros h'. apply calls_functions. }
  unfold record_call_metadata. set (st1 := assign_record_replay_functions h o st) in *. destruct (object_record o) eqn:Ho.
  - destruct (add_record_ok _ _ _ o h Hr1 Ho) as (st2 & rs' & -> & Hr2). cbn [mbind res_bind]. eexists _, rs'. split; [done|].
    apply recording_endpoint; [done|]. intros h'. apply calls_dependencies.
  - cbn [mbind res_bind]. eexists _, rs. split; [done|]. apply recording_endpoint; [|intros h'; apply calls_dependencies].
    by apply recording_skip; [|cbn|].
Qed.

Lemma record_objects_ok l' : ∀ l rs st, recording l rs st →
  ∃ st' rs', foldM (record_object c call ret locals) l' st = Ok st' ∧ recording (l ++ l') rs' st'.
Proof.
  induction l' as [|x l' IH]; intros l rs st Hr; [rewrite app_nil_r; by exists st, rs|].
  destruct (record_object_ok _ _ _ x Hr) as (st1 & rs1 & Hx & Hr1). destruct (IH _ _ _ Hr1) as (st2 & rs2 & Hl & Hr2).
  exists st2, rs2. cbn [foldM]. rewrite Hx. cbn [mbind res_bind]. split; [done|]. by rewrite <- app_assoc in Hr2.
Qed.
End one_call.

Lemma call_recorded `{Channel C} (c : C) call ret f fa order locals m rv rs k log e idx l :
  cmd_wf call (command_channel_get_data_region c call) → cmd_wf ret (command_channel_get_data_region c ret) →
  calls_at idx rs e → log_repr log rs k → call_objects f fa order locals m rv = Ok l →
  ∃ log' e' rs', record_metadata c call ret f fa order locals m rv log e = Ok (log', e') ∧ log_repr log' rs' k ∧
    rs' = mark_all (expunged idx (length rs) [] l) (rs ++ logged c call ret (existsb records l)) ∧
    calls_at (λ h, idx h ++ replicate (times l h) (length rs, S (length rs))) rs' e' ∧
    ∀ h, calls_of e' h = calls_of e h ++ replicate (times l h) (pair_offsets rs' (length rs, S (length rs))).
Proof.
  intros Hc Hr Hin Hl Ho. rewrite (record_metadata_objects _ _ _ _ _ _ _ _ _ _ _ _ Ho).
  destruct (record_objects_ok c call ret locals rs k e Hc Hr idx Hin l [] rs (mk_r (-1) (-1) log e)) as (st & rs' & -> & Hrec).
  { split; cbn [r_log existsb r_call r_ret r_endpoint logged]; rewrite ?app_nil_r; try done. intros h. cbn. by rewrite app_nil_r. }
  pose proof (recording_in_log _ _ _ _ _ _ _ Hin _ _ _ Hrec) as Hin'. destruct Hrec as [H1 H2 _ H4 H5].
  by exists (r_log st), (r_endpoint st), rs'.
Qed.

(** ** A session *)

(** A call that the worker has made: its function and annotations, the values of the arguments
    and the memory after the call, the result, the channel and the two commands. *)
Record made_call (C : Type) := mk_made {
  mc_func : func; mc_annotation : function_annotation; mc_order : list argument;
  mc_locals : gmap string Z; mc_mem : mem; mc_result : Z;
  mc_chan : C; mc_call : command; mc_ret : command
}.
Arguments mk_made {C}.
Arguments mc_func {C}.
Arguments mc_annotation {C}.
Arguments mc_order {C}.
Arguments mc_locals {C}.
Arguments mc_mem {C}.
Arguments mc_result {C}.
Arguments mc_chan {C}.
Arguments mc_call {C}.
Arguments mc_ret {C}.

Section session.
Context `{Channel C}.

Definition objects (x : made_call C) : res (list recorded_object) :=
  call_objects (mc_func x) (mc_annotation x) (mc_order x) (mc_locals x) (mc_mem x) (mc_result x).

Fixpoint record_all (calls : list (made_call C)) (log : command_channel_log) (e : ava_endpoint)
    : res (command_channel_log * ava_endpoint) :=
  match calls with
  | [] => Ok (log, e)
  | x :: calls =>
      '(log, e) ← record_metadata (mc_chan x) (mc_call x) (mc_ret x) (mc_func x) (mc_annotation x) (mc_order x)
                    (mc_locals x) (mc_mem x) (mc_result x) log e;
      record_all calls log e
  end.

(** The commands are well-formed, and the annotations can be evaluated. *)
Record recordable (x : made_call C) : Prop := {
  rc_call : cmd_wf (mc_call x) (command_channel_get_data_region (mc_chan x) (mc_call x));
  rc_ret : cmd_wf (mc_ret x) (command_channel_get_data_region (mc_chan x) (mc_ret x));
  rc_objects : ∃ l, objects x = Ok l
}.

Definition objects_list (x : made_call C) : list recorded_object := match objects x with Ok l => l | Stop _ => [] end.
Definition commands_of (x : made_call C) : list lrec :=
  logged (mc_chan x) (mc_call x) (mc_ret x) (existsb records (objects_list x)).

(** The pairs that the calls leave for [h], when the log [rs] has [i] records before them. *)
Fixpoint pairs_for (h : Z) (rs : list lrec) (i : nat) (calls : list (made_call C)) : list (Z * Z) :=
  match calls with
  | [] => []
  | x :: calls =>
      replicate (times (objects_list x) h) (pair_offsets rs (i, S i)) ++
      pairs_for h rs (i + length (commands_of x)) calls
  end.

(** What happens to handles in the session, in order, with the position of the call's first record. *)
Fixpoint events (i : nat) (calls : list (made_call C)) : list (nat * recorded_object) :=
  match calls with
  | [] => []
  | x :: calls => (pair i <$> objects_list x) ++ events (i + length (commands_of x)) calls
  end.
End session.

(** The calls that were recorded for the handle [h]. *)
Definition recorded_for (h : Z) (evs : list (nat * recorded_object)) : list nat :=
  omap (λ p, if records p.2 && (p.2.2 =? h) then Some p.1 else None) evs.

(** The records that are marked: whenever a handle is deallocated, the two records of every call that
    was recorded for it before. *)
Fixpoint marks (before evs : list (nat * recorded_object)) : list nat :=
  match evs with
  | [] => []
  | (i, x) :: evs =>
      (if kept x then [] else mjoin ((λ j, [j; S j]) <$> recorded_for x.2 before)) ++
      marks (before ++ [(i, x)]) evs
  end.

Lemma recorded_for_app h a b : recorded_for h (a ++ b) = recorded_for h a ++ recorded_for h b.
Proof. apply omap_app. Qed.

Lemma recorded_for_call h n l : recorded_for h (pair n <$> l) = replicate (times l h) n.
Proof.
  induction l as [|x l IH] using rev_ind; [done|].
  rewrite fmap_app, recorded_for_app, IH, times_snoc, replicate_add. f_equal.
  unfold recorded_for. cbn. by destruct (records x && (x.2 =? h)).
Qed.

Lemma marks_app a b : ∀ before, marks before (a ++ b) = marks before a ++ marks (before ++ a) b.
Proof.
  induction a as [|[i x] a IH]; intros before; cbn [app marks]; [by rewrite app_nil_r|].
  rewrite IH, <- !app_assoc. done.
Qed.

Definition call_pairs (evs : list (nat * recorded_object)) (h : Z) : list (nat * nat) :=
  (λ j, (j, S j)) <$> recorded_for h evs.

Lemma both_pairs l : both ((λ j, (j, S j)) <$> l) = mjoin ((λ j, [j; S j]) <$> l).
Proof. unfold both. by rewrite <- list_fmap_compose. Qed.

Lemma expunged_marks evs n l : ∀ b,
  expunged (call_pairs evs) n b l = marks (evs ++ (pair n <$> b)) (pair n <$> l).
Proof.
  induction l as [|x l IH]; intros b; cbn [expunged fmap list_fmap marks]; [done|].
  rewrite IH, fmap_app, <- app_assoc. f_equal. destruct (kept x); [done|].
  rewrite <- both_pairs, recorded_for_app, recorded_for_call, fmap_app, fmap_replicate. done.
Qed.

Section sessions.
Context `{Channel C}.

Lemma session_recorded (calls : list (made_call C)) : ∀ evs rs k log e,
  Forall recordable calls → calls_at (call_pairs evs) rs e → log_repr log rs k →
  ∃ log' e' rs', record_all calls log e = Ok (log', e') ∧ log_repr log' rs' k ∧
    rs' = mark_all (marks evs (events (length rs) calls)) (rs ++ concat (commands_of <$> calls)) ∧
    calls_at (call_pairs (evs ++ events (length rs) calls)) rs' e' ∧
    ∀ h, calls_of e' h = calls_of e h ++ pairs_for h rs' (length rs) calls.
Proof.
  induction calls as [|x calls IH]; intros evs rs k log e Hall Hin Hl.
  { exists log, e, rs. cbn. rewrite !app_nil_r. split_and!; try done. intros h. by rewrite app_nil_r. }
  apply Forall_cons in Hall as [[Hc Hr [l Ho]] Hall].
  destruct (call_recorded _ _ _ _ _ _ _ _ _ _ _ _ _ _ _ Hc Hr Hin Hl Ho) as (log1 & e1 & rs1 & Hrec & Hl1 & Hs1 & Hin1 & Hc1).
  assert (objects_list x = l) as Hol by (unfold objects_list; by rewrite Ho).
  assert (rs1 = mark_all (marks evs (pair (length rs) <$> l)) (rs ++ commands_of x)) as Hrs1.
  { rewrite Hs1, expunged_marks. cbn [fmap list_fmap]. rewrite app_nil_r. unfold commands_of. by rewrite Hol. }
  assert (length rs1 = length rs + length (commands_of x))%nat as Hlen
    by (by rewrite Hrs1, length_mark_all, length_app).
  assert (calls_at (call_pairs (evs ++ (pair (length rs) <$> l))) rs1 e1) as Hin1'.
  { intros h. destruct (Hin1 h) as [Ha Hb]. unfold call_pairs in *.
    by rewrite recorded_for_app, recorded_for_call, fmap_app, fmap_replicate. }
  destruct (IH _ rs1 k log1 e1 Hall Hin1' Hl1) as (log2 & e2 & rs2 & Hrec2 & Hl2 & Hs2 & Hin2 & Hc2).
  exists log2, e2, rs2. cbn [record_all]. rewrite Hrec. cbn [mbind res_bind events]. rewrite Hol.
  rewrite <- Hlen, fmap_cons. cbn [concat]. rewrite marks_app, mark_all_app, app_assoc.
  split_and!; [done|done| |by rewrite app_assoc|].
  - rewrite Hs2. f_equal. rewrite mark_all_prefix, <- Hrs1; [done|].
    pose proof (expunged_marks evs (length rs) l []) as Hem. cbn [fmap list_fmap] in Hem. rewrite app_nil_r in Hem.
    rewrite <- Hem, length_app. apply expunged_bound.
    + intros h. eapply Forall_impl; [apply (Hin h)|]. cbn. lia.
    + cbn [app]. unfold commands_of. rewrite Hol. intros ->. cbn. lia.
  - intros h. rewrite Hc2, Hc1, <- app_assoc. cbn [pairs_for]. rewrite Hol, Hlen. do 2 f_equal.
    destruct (existsb records l) eqn:Hany; [|by rewrite times_none]. f_equal.
    assert (same_records (rs1 ++ concat (commands_of <$> calls)) rs2) as Hsame by (rewrite Hs2; apply same_mark).
    unfold commands_of in Hlen. rewrite Hol, Hany in Hlen. cbn in Hlen. unfold pair_offsets. cbn [fst snd].
    by rewrite !(same_prefix _ _ _ _ Hsame) by lia.
Qed.

(** A session that deallocates nothing marks nothing. *)
Lemma marks_kept evs : ∀ before, forallb (λ p, kept p.2) evs = true → marks before evs = [].
Proof.
  induction evs as [|[i x] evs IH]; intros before; [done|]. cbn [forallb marks]. intros [Hx Hl]%andb_true_iff.
  cbn in Hx. by rewrite Hx, IH.
Qed.

Lemma events_kept (calls : list (made_call C)) : ∀ i,
  Forall (λ x, forallb kept (objects_list x) = true) calls → forallb (λ p, kept p.2) (events i calls) = true.
Proof.
  induction calls as [|x calls IH]; intros i Hk; [done|]. apply Forall_cons in Hk as [Hx Hk]. cbn [events].
  rewrite forallb_app, (IH _ Hk), andb_true_r. clear IH. induction (objects_list x) as [|o l IHl]; [done|].
  cbn in *. apply andb_true_iff in Hx as [-> Hx]. by apply IHl.
Qed.
End sessions.
