(* ===== verification/ApiRecording.v ===== *)
(** * From recorded calls to migration

    What the worker records is what extraction transfers: the recording code of the generated
    worker establishes what [ava_extract_objects] relies on, and an OpenCL worker that gave out two
    devices and released a context as the example. *)

From S2P Require Import Prelude Channel HandlePool LogChannel Endpoint Extraction Cava Stub Remote Recording SpecCheck SpecOpenCL.
Local Open Scope Z_scope.

(** C5. Calls are recorded so that they can be extracted. When a worker records the calls that it
    makes, starting with an empty log and no recorded calls, no assertion fails; the log holds the CALL and the RET
    command of every call that some object asks for, in order, each once; marked are exactly the
    records of the calls that had been recorded for a handle when that handle was deallocated; an
    object has the offsets of exactly its calls.  Extraction then sends, for any roots, the two records of the calls of
    the objects that the roots depend on, in the order in which the calls were made, each once and
    without the marked ones (for a log of less than 2^64 - 1 bytes). *)
Theorem recorded_calls_extracted `{Channel C} `{Channel D} `{PtrArraySort} `{HashOrder Z}
    (calls : list (made_call C)) (e : ava_endpoint) :
  Forall recordable calls → (∀ h, calls_of e h = []) →
  ∃ log e' rs, record_all calls (command_channel_log_new true true) e = Ok (log, e') ∧
    log_repr log rs 0 ∧ rs = mark_all (marks [] (events 0 calls)) (concat (commands_of <$> calls)) ∧
    (∀ h, calls_of e' h = pairs_for h rs 0 calls) ∧
    (Z.of_nat (length (content log)) < 2 ^ 64 - 1 →
     ∀ extract_fn (g : counter) (pool : nw_handle_pool) (out : D) (hp : heap) (roots : list Z),
     ∃ st log' idx, content log' = content log ∧
      StronglySorted (λ p q, log_offset rs (fst p) < log_offset rs (fst q)) idx ∧
      (∀ p, p ∈ idx → ∃ x, reachable (metadata_map e') (NULL :: roots) x ∧ pair_offsets rs p ∈ calls_of e' x) ∧
      (∀ x p, reachable (metadata_map e') (NULL :: roots) x → p ∈ calls_of e' x →
        ∃ q, q ∈ idx ∧ log_offset rs (fst q) = fst p) ∧
      ava_extract_objects extract_fn (metadata_map e') g pool out log hp roots =
        ('(out, hp) ← foldM send_record (pair_records rs idx) (out, hp);
         '(g, pool, out, hp) ← foldM (_ava_extract_explicit extract_fn (metadata_map e'))
            (iter_keys (ex_dependencies st)) (g, pool, out, hp);
         Ok (g, pool, out, log', hp))).
Proof.
  intros Hall He. destruct (session_recorded calls [] [] 0 (command_channel_log_new true true) e Hall) as
    (log & e' & rs & Hrec & Hl & Hs & Hin & Hc).
  { intros h. by rewrite He. } { apply log_repr_new. }
  exists log, e', rs. split_and!; try done.
  { intros h. by rewrite Hc, He. }
  intros Hsize extract_fn g pool out hp roots.
  destruct (extract_objects_eq extract_fn (metadata_map e') g pool out log rs 0 hp roots Hl Hsize) as
    (st & log' & idx & _ & Hlog & Hsort & _ & Hidx1 & Hidx2 & Heq).
  { intros x p Hp. destruct (Hin x) as (Hx & Hb). change (p ∈ calls_of e' x) in Hp. rewrite Hx in Hp.
    apply list_elem_of_fmap in Hp as ([i j] & -> & Hij). rewrite Forall_forall in Hb. destruct (Hb _ Hij). by exists i, j. }
  by exists st, log', idx.
Qed.

(** ** A worker *)

(** The annotations of [clGetDeviceIDs]: every device depends on its platform and is recorded. *)
Definition clGetDeviceIDs_objects : function_annotation :=
  mk_fa false (λ x, if decide (x = "devices") then [no_object; mk_oa true ["platform"] NULL NULL] else []) [].

(** The devices 5000 and 6000 of the platform 9, in the worker's memory. *)
Definition get_devices : made_call command_channel_log :=
  mk_made clGetDeviceIDs clGetDeviceIDs_objects (ordered clGetDeviceIDs)
    (list_to_map [("platform", 9); ("device_type", 4); ("num_entries", 2); ("devices", 1); ("num_devices", 2)])
    (list_to_map [(1, le_bytes 8 5000 ++ le_bytes 8 6000); (2, le_bytes 4 2)]) 0
    (command_channel_log_new true true)
    (mk_cmd 5 (mk_base 7 1 0 12 0 0 42 140 0 3 [0; 0; 0; 0; 0; 0; 0; 0]) [1; 2; 3; 4; 5; 6; 7])
    (mk_cmd 6 (mk_base 7 1 0 12 0 0 43 138 0 0 [0; 0; 0; 0; 0; 0; 0; 0]) [1; 2]).

Definition release_context : made_call command_channel_log :=
  mk_made clReleaseContext (mk_fa false (λ _, [mk_oa true [] NULL NULL]) []) (ordered clReleaseContext)
    {[ "context" := 5000 ]} ∅ 0 (command_channel_log_new true true)
    (mk_cmd 7 (mk_base 7 1 0 12 0 0 44 136 0 0 [0; 0; 0; 0; 0; 0; 0; 0]) [])
    (mk_cmd 8 (mk_base 7 1 0 12 0 0 45 136 0 0 [0; 0; 0; 0; 0; 0; 0; 0]) []).

Example get_devices_objects : objects_list get_devices =
  [(no_object, true, 9); (mk_oa true ["platform"] NULL NULL, true, 5000); (mk_oa true ["platform"] NULL NULL, true, 6000)].
Proof. by vm_compute. Qed.

Example release_context_objects : objects_list release_context = [(mk_oa true [] NULL NULL, false, 5000)].
Proof. by vm_compute. Qed.

(** Recording a call for a handle adds no dependencies on the other handles of the call, here on the
    platform 9. *)
Example no_implicit_dependencies : ∃ st, record_handle (command_channel_log_new true true) (mc_call get_devices)
    (mc_ret get_devices) (mc_locals get_devices) (mk_oa true [] NULL NULL) true 5000
    (mk_r (-1) (-1) (command_channel_log_new true true) (mk_ep 8 ∅ ∅ ∅ 0 None ∅ ∅ 0 ∅)) = Ok st ∧
  length (calls_of (r_endpoint st) 5000) = 1%nat ∧ deps_of (r_endpoint st) 5000 = [].
Proof. eexists. split; [vm_compute; reflexivity|by vm_compute]. Qed.

(** A header with the given command and sizes. *)
Definition header (id css size : Z) : command_base := mk_base 7 1 0 12 0 0 id css 0 size [0; 0; 0; 0; 0; 0; 0; 0].

Lemma header_wf addr id css size rest region :
  in_range 64 id → 136 ≤ css ≤ 136 + Z.of_nat (length rest) → 0 ≤ size ≤ Z.of_nat (length region) → css + size < 2 ^ 32 →
  cmd_wf (mk_cmd addr (header id css size) rest) region.
Proof.
  intros Hid Hcss Hsize Hsum. split; [|split; [|split]]; cbn [cmd_base header command_size region_size]; try lia.
  - unfold base_wf, in_range, in_srange in *. cbn. split_and!; try lia. repeat constructor; unfold in_range; lia.
  - unfold cmd_bytes, header. cbn [cmd_base cmd_rest]. rewrite length_app, length_base_bytes by done. unfold sizeof_command_base. lia.
Qed.

Lemma get_devices_recordable : recordable get_devices.
Proof.
  split; [apply (header_wf 5 42 140 3 [1; 2; 3; 4; 5; 6; 7] [5; 6; 7])|apply (header_wf 6 43 138 0 [1; 2] [])|];
    unfold in_range; cbn [length]; try lia. eexists. vm_compute. reflexivity.
Qed.

Lemma release_context_recordable : recordable release_context.
Proof.
  split; [apply (header_wf 7 44 136 0 [] [])|apply (header_wf 8 45 136 0 [] [])|]; unfold in_range; cbn [length]; try lia.
  eexists. vm_compute. reflexivity.
Qed.

Definition no_objects : ava_endpoint := mk_ep 8 ∅ ∅ ∅ 0 None ∅ ∅ 0 ∅.

(** Both devices have the one call; releasing the object 5000 marks its two records, the only ones of
    the log. *)
Lemma recorded_calls_extracted_witness :
  let H1 := pair_sort in let H2 := key_order in
  ∃ log e' rs, record_all [get_devices; release_context] (command_channel_log_new true true) no_objects = Ok (log, e') ∧
    (lr_flags <$> rs) = [1; 1] ∧ log_repr log rs 0 ∧ calls_of e' 6000 = [pair_offsets rs (0, 1)%nat] ∧ calls_of e' 9 = [] ∧
    ∃ st log' idx, content log' = content log ∧
      ava_extract_objects (λ _ _, None) (metadata_map e') (counter_init 1) nw_handle_pool_new
          (command_channel_log_new true true) log heap_empty [6000] =
        ('(out, hp) ← foldM send_record (pair_records rs idx) (command_channel_log_new true true, heap_empty);
         '(g, pool, out, hp) ← foldM (_ava_extract_explicit (λ _ _, None) (metadata_map e'))
            (iter_keys (ex_dependencies st)) (counter_init 1, nw_handle_pool_new, out, hp);
         Ok (g, pool, out, log', hp)).
Proof.
  intros H1 H2. destruct (recorded_calls_extracted (D := command_channel_log) [get_devices; release_context] no_objects)
    as (log & e' & rs & Hrec & Hl & Hs & Hc & Hx).
  - apply Forall_cons. split; [exact get_devices_recordable|]. apply Forall_singleton. exact release_context_recordable.
  - intros h. unfold calls_of. cbn. by rewrite lookup_empty.
  - assert (length rs = 2%nat) as Hlen by (rewrite Hs; by vm_compute).
    exists log, e', rs. split; [exact Hrec|]. split; [rewrite Hs; by vm_compute|]. split; [exact Hl|].
    split; [rewrite Hc; cbn [pairs_for]; rewrite get_devices_objects, release_context_objects; reflexivity|].
    split; [rewrite Hc; cbn [pairs_for]; rewrite get_devices_objects, release_context_objects; reflexivity|].
    destruct (Hx) with (extract_fn := λ _ _ : Z, @None (list Z)) (g := counter_init 1) (pool := nw_handle_pool_new)
      (out := command_channel_log_new true true) (hp := heap_empty) (roots := [6000]) as (st & log' & idx & Hlog & _ & _ & _ & Heq).
    + destruct Hl as (-> & _). rewrite <- (take_ge rs 2) by lia. change (Z.of_nat (length (log_bytes (take 2 rs)))) with (log_offset rs 2).
      rewrite Hs. by vm_compute.
    + exists st, log', idx. split; [exact Hlog|exact Heq].
Defined.
