(* ===== verification/Migration.v ===== *)
(** * Live migration of a worker

    The source of a live migration sends the pairs of commands that it recorded, the target
    replays them (cava/nightwatch/generator/c/replay.py, with [AVA_RECORD_REPLAY]): recording,
    extraction, the channel between the workers, the command handler and the generated replay
    function together. *)

From S2P Require Import Prelude HandlePool Channel LogChannel Socket SocketChannel Endpoint Extraction Handler.
From S2P Require Import Cava Stub Remote RemoteCall RemoteRefinement Replay Recording.
Local Open Scope Z_scope.

(** ** Channels that keep a command with its buffers in one block *)

Class Contiguous (C : Type) `{Channel C} := {
  contiguous_buffer (c : C) cmd id :
    command_channel_get_buffer c cmd id = Some (drop (Z.to_nat id) (cmd_bytes cmd));
  contiguous_region (c : C) cmd :
    command_channel_get_data_region c cmd = drop (Z.to_nat (command_size (cmd_base cmd))) (cmd_bytes cmd)
}.

#[export] Instance log_contiguous : Contiguous command_channel_log.
Proof. by split. Qed.
#[export] Instance socket_contiguous `{SocketKernel, Uninit} : Contiguous command_channel_socket.
Proof. by split. Qed.

(** ** The generated replay function, with recording *)

(** The state of the worker besides the handler's: the next address of its memory, the state of the
    library, the endpoint. *)
Record library (G : Type) := mk_library { l_next : Z; l_state : G; l_endpoint : ava_endpoint }.
Arguments mk_library {G}.
Arguments l_next {G}.
Arguments l_state {G}.
Arguments l_endpoint {G}.

Section generated.
Context `{Channel C, Toposort, Uninit}.
Variable cb : Z.
Context {G : Type}.
Variable native : func → list Z → mem → G → Z * mem * G.
Variables (api : Z) (functions : list func) (annotations : func → function_annotation).

(** The case with [AVA_RECORD_REPLAY].  The recording code appends [__cmd] and [__ret] to the log;
    before the results are assigned, [__cmd = __ret_cmd]. *)
Definition replay_record_implementation (f : func) (order : list argument) (call ret : command) (c : C)
    (w : wstate) (s : G) (log : command_channel_log) (e : ava_endpoint)
    : res (wstate * G * command_channel_log * ava_endpoint) :=
  '(locals, rv, w, s) ← replay_call cb native api f order call ret c w s;
  '(log, e) ← record_metadata c ret ret f (annotations f) order locals (w_mem w) rv log e;
  Ok (set_w_mem ∅ w, s, log, e).

(** The replay function of the API, as the handler calls it. *)
Definition replay_entry (c : C) (_ : Z) (call ret : message) (e : Handler.env (library G))
    : res (Handler.env (library G)) :=
  let lib := e_lib e in
  match list_find (λ f, f_call_id f = command_id call.1) functions with
  | Some (_, f) =>
      '(w, s, log, ep) ← replay_record_implementation f (ordered f) (mk_cmd NULL call.1 call.2) (mk_cmd NULL ret.1 ret.2) c
                           (mk_w ∅ (l_next lib) (Some (e_pool e)) (e_counter e)) (l_state lib) (e_log e)
                           (set_metadata_map (e_md e) (l_endpoint lib));
      match w_pool w with
      | Some pool => Ok (Handler.mk_env pool log (w_counter w) (metadata_map ep) (e_end_flag e) (e_replaced e)
                           (mk_library (w_next w) s ep))
      | None => Stop (Undefined "NULL pool")
      end
  | None => Stop (AssertFailed "Received unsupported command")
  end.
End generated.

(** ** The two workers *)

Section workers.
Context {A B : Type} `{Channel A} `{Channel B} {conn : A → B → Prop} `{!Link A B conn} `{Toposort, Uninit}.
Context `{PtrArraySort, HashOrder Z} {M : Type} {migration_channel : Channel M}.
Variable cb : Z.
Context {G : Type}.
Variable native : func → list Z → mem → G → Z * mem * G.
Variables (api : Z) (functions : list func) (annotations : func → function_annotation).
Variable apis : gmap Z command_handler_t.
Variable api_handle : Z → message → Handler.env (library G) → res (Handler.env (library G)).
Variable extract_fn : Z → Z → option (list Z).
Variable migration_chan : M.

(** Both workers and what is between them. *)
Record workers := mk_workers {
  source : A; source_log : command_channel_log; source_heap : heap;
  target : B; target_heap : heap; target_env : Handler.env (library G)
}.

(** One round of the loop of [ava_extract_objects_in_pair]; the target handles the command on
    arrival. *)
Definition migrate_pair (p : Z * Z) (x : workers) : res workers :=
  '(a, log, h) ← _ava_transfer_command_in_pair p (source x, source_log x, source_heap x);
  let '(a, b) := deliver a (target x) in
  '(cmd, b, hb) ← command_channel_receive_command b (target_heap x);
  match cmd with
  | None => Stop (Undefined "NULL command")
  | Some cmd =>
      '(b, hb, e) ← handle_command_and_notify apis (replay_entry cb native api functions annotations b) api_handle
                      extract_fn migration_chan b hb cmd (target_env x);
      Ok (mk_workers a log h b hb e)
  end.
End workers.

(** ** A pair of commands travels *)

Definition record_size (r : lrec) : Z := Z.of_nat (sizeof_command_base + length (lr_rest r)).

Lemma record_bytes a r : lrec_wf r → record_size r = Z.of_nat (length (cmd_bytes (lrec_cmd a r))).
Proof. intros (Hb & _). unfold cmd_bytes. rewrite length_app. cbn [lrec_cmd cmd_base cmd_rest]. by rewrite length_base_bytes by apply Hb. Qed.

Lemma record_total r : lrec_wf r → lrec_sized r →
  u64 (command_size (lr_base r) + region_size (lr_base r)) = record_size r ∧ 136 ≤ record_size r < 2 ^ 63.
Proof.
  intros (_ & _ & Hl) [_ Hs]. rewrite Hs. unfold record_size, sizeof_command_base in *. split; [|lia].
  apply (wrap_small 64). unfold in_range. lia.
Qed.

(** Two blocks are freed in the order in which they were allocated, after a third. *)
Lemma free_three h : heap_ok h →
  let n := next_addr h in
  let h3 := mk_heap (live (malloc (malloc (malloc h).2).2).2 ∖ {[n + 2]}) (n + 3) in
  (h ← c_free n h3; c_free (n + 1) h) = Ok (mk_heap (live h) (n + 3)).
Proof.
  intros Hh n h3. pose proof (heap_ok_fresh h n Hh ltac:(lia)). pose proof (heap_ok_fresh h (n + 1) Hh ltac:(lia)).
  pose proof (heap_ok_fresh h (n + 2) Hh ltac:(lia)). unfold h3, c_free. cbn [malloc fst snd live next_addr]. fold n.
  rewrite decide_True by (rewrite elem_of_difference, !elem_of_union, !elem_of_singleton; split; [tauto|lia]).
  cbn [mbind res_bind live next_addr].
  rewrite decide_True by (rewrite !elem_of_difference, !elem_of_union, !elem_of_singleton; split_and!; [tauto|lia|lia]).
  do 2 f_equal. apply set_eq. intros x. rewrite !elem_of_difference, !elem_of_union, !elem_of_singleton.
  replace (n + 1 + 1) with (n + 2) by lia. split; [tauto|]. intros Hx.
  assert (x ≠ n ∧ x ≠ n + 1 ∧ x ≠ n + 2) as (? & ? & ?) by (split_and!; intros ->; done). tauto.
Qed.

Section transport.
Context {A B : Type} `{Channel A} `{Channel B} {conn : A → B → Prop} `{!Link A B conn}.

Lemma pair_header : header_update (λ b, set_command_id COMMAND_HANDLER_RECORDED_PAIR (set_api_id COMMAND_HANDLER_API b)).
Proof. apply (HComp (set_command_id _) (set_api_id _)); constructor; unfold in_range, COMMAND_HANDLER_RECORDED_PAIR, COMMAND_HANDLER_API; lia. Qed.

(** What arrives: the header, the identifiers of the two buffers, and their bytes. *)
Definition carries_pair (b : B) (cmd : command) (ra rb : lrec) : Prop :=
  api_id (cmd_base cmd) = COMMAND_HANDLER_API ∧ command_id (cmd_base cmd) = COMMAND_HANDLER_RECORDED_PAIR ∧
  ∃ ida idb rest ta tb, cmd_rest cmd = (le_bytes 8 ida ++ le_bytes 8 idb) ++ rest ∧ in_range 64 ida ∧ in_range 64 idb ∧
    command_channel_get_buffer b cmd ida = Some (cmd_bytes (lrec_cmd NULL ra) ++ ta) ∧
    command_channel_get_buffer b cmd idb = Some (cmd_bytes (lrec_cmd NULL rb) ++ tb).

Lemma transfer_pair_sent (a : A) (b : B) log h hb rs i j ra rb :
  conn a b → content log = log_bytes rs → fd_open log = true → Forall lrec_wf rs → heap_ok h →
  rs !! i = Some ra → rs !! j = Some rb → lr_flags ra ≠ 1 → lr_flags rb ≠ 1 → lrec_sized ra → lrec_sized rb →
  room (conn := conn) sizeof_replay_command_pair (record_size ra + record_size rb) →
  ∃ a1 log' a2 b1 b2 cmd,
    _ava_transfer_command_in_pair (pair_offsets rs (i, j)) (a, log, h) = Ok (a1, log', mk_heap (live h) (next_addr h + 3)) ∧
    content log' = content log ∧ fd_open log' = true ∧
    deliver a1 b = (a2, b1) ∧ command_channel_receive_command b1 hb = Ok (Some cmd, b2, (malloc hb).2) ∧ conn a2 b2 ∧
    cmd_addr cmd = next_addr hb ∧ carries_pair b2 cmd ra rb.
Proof.
  intros Hc Hlog Hfd Hwf Hh Hi Hj Hfa Hfb Hsa Hsb Hroom.
  pose proof (Forall_lookup_1 _ _ _ _ Hwf Hi) as Hwa. pose proof (Forall_lookup_1 _ _ _ _ Hwf Hj) as Hwb.
  destruct (record_total ra Hwa Hsa) as [Hta Hla], (record_total rb Hwb Hsb) as [Htb Hlb].
  destruct (load_at log h rs i ra (log_offset rs i)) as (log1 & Hload1 & Hc1 & _ & Hfd1 & _); [done..|by rewrite (proj2 (Z.ltb_ge _ _)) by (unfold log_offset; lia)|].
  destruct (load_at log1 (malloc h).2 rs j rb (log_offset rs j)) as (log2 & Hload2 & Hc2 & _ & Hfd2 & _);
    [congruence|done..|by rewrite (proj2 (Z.ltb_ge _ _)) by (unfold log_offset; lia)|].
  destruct (link_new a b (malloc (malloc h).2).2 sizeof_replay_command_pair (record_size ra + record_size rb))
    as (cmd0 & a0 & Hnew & Hb0 & Haddr); [done|unfold sizeof_replay_command_pair, sizeof_command_base; lia|lia|done|].
  pose proof (link_header _ _ _ _ _ _ _ Hb0 pair_header) as Hb1.
  destruct (link_attach _ b _ _ _ _ (cmd_bytes (lrec_cmd (next_addr h) ra)) [] Hb1) as (ida & a1 & cmd1 & Hat1 & _ & Hr1 & Hb2 & Had1 & Hh1).
  { intros Hn%(f_equal length). pose proof (record_bytes (next_addr h) ra Hwa). rewrite Hn in *. cbn in *. lia. }
  { rewrite <- record_bytes by done. lia. }
  destruct (link_attach _ b _ _ _ _ (cmd_bytes (lrec_cmd (next_addr (malloc h).2) rb)) [] Hb2) as (idb & a2 & cmd2 & Hat2 & Hnone & Hr2 & Hb3 & Had2 & Hh2).
  { intros Hn%(f_equal length). pose proof (record_bytes (next_addr h) rb Hwb). unfold cmd_bytes, lrec_cmd in *. cbn [cmd_base cmd_rest] in *. rewrite Hn in *. cbn in *. lia. }
  { rewrite <- !record_bytes by done. lia. }
  rewrite app_nil_r, <- record_bytes in Hat1 by done. rewrite app_nil_r, <- record_bytes in Hat2 by done.
  set (l := le_bytes 8 ida ++ le_bytes 8 idb). assert (length l = 16%nat) as Hl by (unfold l; by rewrite length_app, !length_le_bytes).
  assert (Z.of_nat (sizeof_command_base + length l) ≤ sizeof_replay_command_pair) as Hcap by (rewrite Hl; unfold sizeof_replay_command_pair; cbn; lia).
  destruct (link_send a2 b (malloc (malloc (malloc h).2).2).2 hb _ _ _ _ (link_fields _ _ _ _ _ _ l Hb3 Hcap))
    as (a3 & a4 & b1 & b2 & cmd & rest & Hsend & Hdel & Hrcv & Hcn & Hra & Hhd & Hcs & Hrest & Hget).
  { cbn [set_fields cmd_addr]. rewrite Had2, Had1. cbn. rewrite Haddr. cbn. set_solver. }
  exists a3, log2, a4, b1, b2, cmd. split_and!; [|congruence|done|done|done|done|done|].
  - unfold _ava_transfer_command_in_pair, pair_offsets. cbn [fst snd]. rewrite Hload1. cbn [mbind res_bind]. rewrite Hload2. cbn [mbind res_bind].
    rewrite (proj2 (Z.eqb_neq _ _) Hfa), (proj2 (Z.eqb_neq _ _) Hfb). cbn [orb lrec_cmd cmd_base]. rewrite Hta, Htb, !(link_size (conn := conn)).
    rewrite (wrap_small 64 (record_size ra + record_size rb)) by (unfold in_range; lia). rewrite Hnew. cbn [mbind res_bind].
    unfold set_ids. rewrite Hat1. cbn [mbind res_bind]. rewrite Hat2. cbn [mbind res_bind].
    fold l. rewrite Hsend. cbn [mbind res_bind].
    unfold command_channel_load_free_command. cbn [cmd_addr set_fields lrec_cmd]. rewrite Had2, Had1. cbn [upd_base cmd_addr]. rewrite Haddr.
    cbn [malloc fst snd next_addr]. replace (next_addr h + 1 + 1 + 1) with (next_addr h + 3) by lia. replace (next_addr h + 1 + 1) with (next_addr h + 2) by lia.
    pose proof (free_three h Hh) as Hfree. cbn [malloc fst snd next_addr live] in Hfree. replace (next_addr h + 1 + 1) with (next_addr h + 2) in Hfree by lia.
    destruct (c_free (next_addr h) _) as [hx|] eqn:Hx; [|done]. cbn [mbind res_bind] in Hfree |- *. rewrite Hfree. done.
  - assert (header_of cmd = header_of (set_ids COMMAND_HANDLER_RECORDED_PAIR cmd0)) as Hhead.
    { rewrite Hhd. change (header_of (set_fields l cmd2)) with (header_of cmd2). rewrite Hh2, Hh1. done. }
    unfold carries_pair. injection Hhead as -> -> _ _. split; [done|]. split; [done|].
    destruct (Hget ida (cmd_bytes (lrec_cmd NULL ra))) as [ta Hga].
    { rewrite lookup_insert_ne, lookup_insert_eq; [done|]. intros ->. by rewrite lookup_insert_eq in Hnone. }
    destruct (Hget idb (cmd_bytes (lrec_cmd NULL rb))) as [tb Hgb]; [by rewrite lookup_insert_eq|].
    rewrite Hrest. cbn [set_fields cmd_rest]. rewrite take_app_ge by (rewrite Hl; unfold sizeof_replay_command_pair, sizeof_command_base; lia).
    rewrite <- app_assoc. eexists ida, idb, _, ta, tb. split_and!; try done; unfold in_range; lia.
Qed.
End transport.

(** ** The target handles the pair *)

Lemma buffer_message_record `{Channel B} (b : B) cmd id r t : lrec_wf r →
  command_channel_get_buffer b cmd id = Some (cmd_bytes (lrec_cmd NULL r) ++ t) →
  buffer_message b cmd id = Ok (lr_base r, lr_rest r ++ t).
Proof.
  intros (Hb & _) Hget. unfold buffer_message. rewrite Hget. unfold cmd_bytes. cbn [lrec_cmd cmd_base cmd_rest].
  rewrite <- app_assoc, read_bytes_prefix by by rewrite length_base_bytes by apply Hb. cbn [mbind res_bind].
  rewrite base_of_bytes_of_base by done. by rewrite drop_app_length' by by rewrite length_base_bytes by apply Hb.
Qed.

Lemma pair_handled `{Channel B} `{PtrArraySort, HashOrder Z} {L M} {mc : Channel M} (mchan : M) apis
    (api_replay : Z → message → message → Handler.env L → res (Handler.env L)) api_handle extract_fn
    (b : B) hb cmd ra rb e :
  carries_pair b cmd ra rb → lrec_wf ra → lrec_wf rb →
  ch_handle (get_api apis COMMAND_HANDLER_API) = internal_api_handler_fn →
  ∃ ta tb, handle_command_and_notify apis api_replay api_handle extract_fn mchan b hb cmd e =
    (e ← Handler.replay_command apis api_replay (lr_base ra, lr_rest ra ++ ta) (lr_base rb, lr_rest rb ++ tb) e;
     h ← command_channel_free_command b hb cmd; Ok (b, h, e)).
Proof.
  intros (Hapi & Hcid & ida & idb & rest & ta & tb & Hrest & Hra & Hrb & Hga & Hgb) Hwa Hwb Hfn. exists ta, tb.
  unfold handle_command_and_notify, handle_command. rewrite Hapi, Hfn. cbn [internal_api_handler_fn Z.eqb Pos.eqb negb c_assert mbind res_bind].
  change (internal_api_handler_fn =? NULL) with false. change (internal_api_handler_fn =? internal_api_handler_fn) with true.
  cbn [negb c_assert mbind res_bind internal_api_handler]. rewrite Hapi, Hcid. cbn [c_assert mbind res_bind Z.eqb].
  rewrite Hrest, read_bytes_prefix by by rewrite length_app, !length_le_bytes. cbn [mbind res_bind].
  rewrite slice_prefix by by rewrite length_le_bytes. rewrite slice_skip by by rewrite length_le_bytes.
  rewrite length_le_bytes, slice_all by by rewrite length_le_bytes. rewrite !le_num_u64 by done.
  rewrite (buffer_message_record _ _ _ _ _ Hwa Hga). cbn [mbind res_bind]. rewrite (buffer_message_record _ _ _ _ _ Hwb Hgb).
  cbn [mbind res_bind]. by destruct (Handler.replay_command _ _ _ _ _).
Qed.

(** ** A command inside a longer block *)

Lemma unpack_tail ts : ∀ off l tail, (end_of off ts - off ≤ length l)%nat → unpack off ts (l ++ tail) = unpack off ts l.
Proof.
  induction ts as [|t ts IH]; intros off l tail Hl; [done|]. cbn [unpack end_of] in *.
  set (o := align_up off (alignof t)) in *. pose proof (align_up_ge off (alignof t)). pose proof (end_of_ge (o + sizeof t) ts).
  fold o in H. rewrite slice_app_l by lia. f_equal. rewrite drop_app_le by lia. apply IH. rewrite length_drop. lia.
Qed.

(** The sizes of a command are those of its block. *)
Definition whole (cmd : command) : Prop :=
  base_wf (cmd_base cmd) ∧
  command_size (cmd_base cmd) + region_size (cmd_base cmd) = Z.of_nat (sizeof_command_base + length (cmd_rest cmd)) ∧
  Z.of_nat (sizeof_command_base + length (cmd_rest cmd)) < 2 ^ 63.

Definition extended (cmd : command) (tail : list Z) : command := mk_cmd NULL (cmd_base cmd) (cmd_rest cmd ++ tail).

Section extended.
Context `{Contiguous C} `{HB : Contiguous B}.

Lemma unpack_extended cmd ts tail : whole cmd → command_size (cmd_base cmd) = sizeof_struct ts →
  unpack 0 ts (cmd_rest (extended cmd tail)) = unpack 0 ts (cmd_rest cmd).
Proof.
  intros (Hb & Hw & _) Hs. apply unpack_tail. rewrite Hs in Hw. unfold sizeof_struct in Hw.
  assert (0 ≤ region_size (cmd_base cmd)) as Hr by apply Hb. pose proof (align_up_ge (end_of 0 ts) 8). lia.
Qed.

Lemma buffer_extended (c : C) (b : B) cmd tail id d t :
  command_channel_get_buffer c cmd id = Some (d ++ t) →
  ∃ t', command_channel_get_buffer b (extended cmd tail) id = Some (d ++ t').
Proof.
  rewrite !contiguous_buffer. intros [= Hd]. unfold cmd_bytes, extended. cbn [cmd_base cmd_rest]. rewrite app_assoc.
  fold (cmd_bytes cmd). set (l := cmd_bytes cmd) in *. destruct (decide (Z.to_nat id ≤ length l)%nat) as [Hl|Hl].
  - exists (t ++ tail). rewrite drop_app_le, Hd by done. by rewrite app_assoc.
  - rewrite drop_ge in Hd by lia. symmetry in Hd. apply app_eq_nil in Hd as [-> _]. by eexists.
Qed.

Lemma carries_call_extended (c : C) (b : B) api f order ps cid cmd tail : whole cmd →
  carries_call (command_channel_get_buffer c cmd) api f order ps cid cmd →
  carries_call (command_channel_get_buffer b (extended cmd tail)) api f order ps cid (extended cmd tail).
Proof.
  intros Hw (Ha & Hi & Hs & bufs & fields & Hun & Hcar & Hget). split_and!; [done..|]. exists bufs, fields.
  split_and!; [by rewrite unpack_extended|done|]. intros id d (t & Ht)%Hget. by eapply buffer_extended.
Qed.

Lemma carries_reply_extended (c : C) (b : B) api f order os r cid cmd tail : whole cmd →
  carries_reply (command_channel_get_buffer c cmd) api f order os r cid cmd →
  carries_reply (command_channel_get_buffer b (extended cmd tail)) api f order os r cid (extended cmd tail).
Proof.
  intros Hw (Ha & Hi & Hs & vs & Hun & Hl & Hrec). split_and!; [done..|]. exists vs.
  split_and!; [by rewrite unpack_extended|done|]. eapply Forall2_impl; [exact Hrec|]. intros [[d plain]|] v; [|done].
  intros (Hv & t & Ht). split; [done|]. by eapply buffer_extended.
Qed.

(** The record of a command is the command, also when it is found in a longer block. *)
Lemma region_tail (c : C) cmd a tail : whole cmd → Z.of_nat sizeof_command_base ≤ command_size (cmd_base cmd) →
  let cmd' := mk_cmd a (cmd_base cmd) (cmd_rest cmd ++ tail) in
  cmd_wf cmd' (command_channel_get_data_region c cmd') ∧
  transferred cmd' (command_channel_get_data_region c cmd') = mk_lrec 0 (cmd_base cmd) (cmd_rest cmd).
Proof.
  intros (Hb & Hw & Hlt) Hcs cmd'. rewrite contiguous_region. unfold cmd', cmd_wf, transferred, cmd_bytes. cbn [cmd_base cmd_rest].
  assert (length (base_bytes (cmd_base cmd)) = sizeof_command_base) as Hlb by apply length_base_bytes, Hb.
  assert (0 ≤ region_size (cmd_base cmd)) as Hr by apply Hb. split.
  - rewrite length_drop, !length_app, Hlb. split_and!; [done|done|lia|lia|lia].
  - f_equal. set (n := Z.to_nat (command_size (cmd_base cmd))). rewrite drop_app_ge by lia. rewrite Hlb.
    rewrite take_app_le by lia. rewrite drop_app_le, take_app_le by (rewrite ?length_drop; lia).
    rewrite (take_ge (drop _ _)) by (rewrite length_drop; lia). apply take_drop.
Qed.

Lemma region_whole (c : C) cmd : whole cmd → Z.of_nat sizeof_command_base ≤ command_size (cmd_base cmd) →
  cmd_wf cmd (command_channel_get_data_region c cmd) ∧
  transferred cmd (command_channel_get_data_region c cmd) = mk_lrec 0 (cmd_base cmd) (cmd_rest cmd).
Proof.
  intros Hw Hcs. pose proof (region_tail c cmd (cmd_addr cmd) [] Hw Hcs) as Hr. rewrite app_nil_r in Hr. by destruct cmd.
Qed.
End extended.

(** ** A session of the source *)

Section session.
Context `{Contiguous C} `{HB : Contiguous B} `{Toposort, Uninit}.
Variable cb : Z.
Context {G : Type}.
Variable native : func → list Z → mem → G → Z * mem * G.
Variables (api : Z) (functions : list func) (annotations : func → function_annotation).
Hypothesis Hids : ids_ok functions [].

(** A worker in the state [w] with a library in the state [s] served the call [x]. *)
Inductive made (w : wstate) (s : G) (x : made_call C) (w' : wstate) (s' : G) : Prop :=
  | Made args m r m' R ps async w1 w2 r0 os cid :
      mc_func x ∈ functions → toposort_flatten (f_arguments (mc_func x)) = Some (mc_order x) →
      mc_annotation x = annotations (mc_func x) → call_ok (mc_func x) (mc_order x) args m →
      traced cb native (mc_func x) (mc_order x) args m w s r m' w' s' R ps async (mc_locals x) (mc_mem x) w2 r0 os →
      foldM (realise_arg cb) (zip (mc_order x) ps) (∅, w) = Ok (mc_locals x, w1) →
      native (mc_func x) ((λ a, default 0 (mc_locals x !! a_name a)) <$> f_arguments (mc_func x)) (w_mem w1) s =
        (mc_result x, mc_mem x, s') →
      carries_call (command_channel_get_buffer (mc_chan x) (mc_call x)) api (mc_func x) (mc_order x) ps cid (mc_call x) →
      carries_reply (command_channel_get_buffer (mc_chan x) (mc_ret x)) api (mc_func x) (mc_order x) os r0 cid (mc_ret x) →
      made w s x w' s'.

Inductive session : wstate → G → list (made_call C) → wstate → G → Prop :=
  | SessionNil w s : session w s [] w s
  | SessionCall w s x w1 s1 calls w2 s2 : made w s x w1 s1 → session w1 s1 calls w2 s2 → session w s (x :: calls) w2 s2.

(** A call that reaches the target: its commands are blocks of the stated sizes, it is recorded for
    some object, and it deallocates none. *)
Record migratable (x : made_call C) : Prop := {
  mg_call : whole (mc_call x);
  mg_ret : whole (mc_ret x);
  mg_objects : ∃ l, objects x = Ok l ∧ existsb records l = true ∧ forallb kept l = true
}.

(** What the source records of a call, and what the target records when it replays it. *)
Definition call_lrec (x : made_call C) : lrec := mk_lrec 0 (cmd_base (mc_call x)) (cmd_rest (mc_call x)).
Definition ret_lrec (x : made_call C) : lrec := mk_lrec 0 (cmd_base (mc_ret x)) (cmd_rest (mc_ret x)).
Definition source_records (x : made_call C) : list lrec := [call_lrec x; ret_lrec x].
Definition target_records (x : made_call C) : list lrec := [ret_lrec x; ret_lrec x].

Lemma made_sizes w s x w' s' : made w s x w' s' →
  Z.of_nat sizeof_command_base ≤ command_size (cmd_base (mc_call x)) ∧ Z.of_nat sizeof_command_base ≤ command_size (cmd_base (mc_ret x)).
Proof.
  intros [args m r m' R ps async w1 w2 r0 os cid _ _ _ _ _ _ _ (_ & _ & Hc & _) (_ & _ & Hr & _)].
  rewrite Hc, Hr. unfold sizeof_struct. lia.
Qed.

(** The target's part of the state: that of a worker [w] with a library [s] and a log of [rs]. *)
Record mirrors (w : wstate) (s : G) (rs : list lrec) (e : Handler.env (library G)) : Prop := {
  mr_pool : w_pool w = Some (e_pool e);
  mr_next : l_next (e_lib e) = w_next w;
  mr_state : l_state (e_lib e) = s;
  mr_log : log_repr (e_log e) rs 0;
  mr_metadata : in_log rs (set_metadata_map (e_md e) (l_endpoint (e_lib e)))
}.

(** The replay function on a call of the session. *)
Lemma replay_entry_made (b : B) fn w s x w' s' ta tb e rs :
  made w s x w' s' → migratable x → pool_ok w → worker_ok w → mirrors w s rs e →
  pool_ok w' ∧ worker_ok w' ∧
  ∃ e', replay_entry cb native api functions annotations b fn (cmd_base (mc_call x), cmd_rest (mc_call x) ++ ta)
      (cmd_base (mc_ret x), cmd_rest (mc_ret x) ++ tb) e = Ok e' ∧ mirrors w' s' (rs ++ target_records x) e' ∧
    ∀ h, calls_in (e_md e') h = calls_in (e_md e) h ++
      replicate (times (objects_list x) h) (pair_offsets (rs ++ target_records x) (length rs, S (length rs))).
Proof.
  intros Hmade [Hwc Hwr (l & Hl & Hrec & Hkept)] Hp Hw [Hpool Hnext Hst Hlog Hin].
  destruct (made_sizes _ _ _ _ _ Hmade) as [_ Hcs].
  destruct Hmade as [args m r m' R ps async w1 w2 r0 os cid Hf Htopo Han Hok Htr Hreal Hnat Hcc Hcr].
  apply (carries_call_extended _ b _ _ _ _ _ _ ta Hwc) in Hcc. apply (carries_reply_extended _ b _ _ _ _ _ _ _ tb Hwr) in Hcr.
  destruct (replay_call_traced cb native api b _ _ _ _ _ _ _ _ _ _ _ _ _ _ _ _ _ _ _ _ _ (e_counter e) Hok Htr Hcc Hcr Hp Hw)
    as (Hp' & Hw' & g' & rv & w3 & Hrep & Hm3 & Hw3 & Hrv). rewrite (Hrv _ Hreal) in Hnat. injection Hnat as ->. clear Hrv.
  split; [done|]. split; [done|].
  destruct (region_tail b (mc_ret x) NULL tb Hwr Hcs) as [Hwf Htrans]. fold (extended (mc_ret x) tb) in Hwf, Htrans.
  destruct Hin as (idx & Hin). destruct (call_recorded b (extended (mc_ret x) tb) (extended (mc_ret x) tb) (mc_func x) (annotations (mc_func x)) (mc_order x)
    (mc_locals x) (mc_mem x) (mc_result x) rs 0 (e_log e) _ idx l Hwf Hwf Hin Hlog) as (log' & ep' & rs' & Hrm & Hlog' & Hk & Hin' & Hcalls).
  { rewrite <- Han. exact Hl. }
  rewrite (expunged_kept _ _ _ _ Hkept), Hrec in Hk. cbn [mark_all foldl logged] in Hk. rewrite Htrans in Hk. fold (ret_lrec x) in Hk.
  change [ret_lrec x; ret_lrec x] with (target_records x) in Hk. subst rs'.
  assert (objects_list x = l) as -> by (unfold objects_list; by rewrite Hl).
  pose proof Hp' as (pool' & Hpool' & _). rewrite Hw3 in Hpool'. cbn in Hpool'.
  eexists (Handler.mk_env pool' log' g' (metadata_map ep') (e_end_flag e) (e_replaced e) (mk_library (w_next w3) s' ep')).
  split; [|split; [split; cbn [e_pool e_log e_lib l_next l_state e_md l_endpoint]; try done|]].
  - unfold replay_entry. cbn [fst snd]. destruct Hcc as (_ & Hci & _). cbn [extended cmd_base] in Hci. rewrite Hci.
    destruct (list_find_id f_call_id functions (mc_func x)) as [i ->]; [|done|].
    { unfold ids_ok in Hids. rewrite app_nil_r in Hids. by apply NoDup_app in Hids as [? _]. }
    unfold ordered. rewrite Htopo. cbn [from_option]. unfold Datatypes.id, replay_record_implementation.
    assert (mk_w ∅ (l_next (e_lib e)) (Some (e_pool e)) (e_counter e) = set_counter (e_counter e) w) as ->.
    { unfold set_counter. rewrite Hnext, Hpool. by destruct Hw as [_ ->]. }
    rewrite Hst. fold (extended (mc_call x) ta) (extended (mc_ret x) tb). rewrite Hrep. cbn [mbind res_bind].
    cbn [set_counter w_mem]. rewrite Hm3, Hrm. cbn [mbind res_bind set_w_mem w_pool set_counter w_counter w_next]. by rewrite Hpool'.
  - by rewrite Hw3.
  - by rewrite Hw3.
  - by exists (λ h, idx h ++ replicate (times l h) (length rs, S (length rs))).
  - intros h. cbn [e_md]. change (calls_in (metadata_map ep') h) with (calls_of ep' h). by rewrite Hcalls.
Qed.
End session.

(** ** The migration *)

Fixpoint pair_indices (i n : nat) : list (nat * nat) :=
  match n with O => [] | S n => (i, S i) :: pair_indices (S (S i)) n end.

Lemma pair_indices_elem n : ∀ i p, p ∈ pair_indices i n ↔ ∃ k, (k < n)%nat ∧ p = (i + 2 * k, S (i + 2 * k))%nat.
Proof.
  induction n as [|n IH]; intros i p; cbn [pair_indices].
  { split; [by intros ?%elem_of_nil|intros (k & ? & _); lia]. }
  rewrite elem_of_cons, IH. split.
  - intros [->|(k & Hk & ->)]; [exists 0%nat|exists (S k)]; (split; [lia|f_equal; lia]).
  - intros ([|k] & Hk & ->); [left; f_equal; lia|right; exists k]. split; [lia|f_equal; lia].
Qed.

Lemma pair_indices_sorted rs n : ∀ i, (i + 2 * n ≤ length rs)%nat →
  StronglySorted (λ p q, log_offset rs (fst p) < log_offset rs (fst q)) (pair_indices i n).
Proof.
  induction n as [|n IH]; intros i Hn; cbn [pair_indices]; constructor; [apply IH; lia|].
  apply Forall_forall. intros p (k & Hk & ->)%pair_indices_elem. cbn [fst]. apply log_offset_lt; lia.
Qed.

(** A list that is sorted by the offsets is determined by its elements. *)
Lemma sorted_by_offset_eq rs (l1 l2 : list (nat * nat)) :
  StronglySorted (λ p q, log_offset rs (fst p) < log_offset rs (fst q)) l1 →
  StronglySorted (λ p q, log_offset rs (fst p) < log_offset rs (fst q)) l2 →
  (∀ p, p ∈ l1 ↔ p ∈ l2) → l1 = l2.
Proof.
  set (R := λ p q : nat * nat, _). intros H1 H2 He.
  assert (∀ l, StronglySorted R l → NoDup l) as Hnd.
  { induction 1 as [|p l _ IH Hp]; constructor; [|done]. intros Hin. rewrite Forall_forall in Hp. specialize (Hp p Hin). unfold R in Hp. lia. }
  assert (AntiSymm (=) R) by (intros p q Hpq Hqp; unfold R in *; lia).
  apply (StronglySorted_unique R); try done. apply NoDup_Permutation; auto.
Qed.

Section migration.
Context {A B C : Type} `{Channel A} `{Contiguous B} `{Contiguous C} {conn : A → B → Prop} `{!Link A B conn} `{Toposort, Uninit}.
Context `{PtrArraySort, HashOrder Z} {M : Type} {migration_channel : Channel M}.
Variable cb : Z.
Context {G : Type}.
Variable native : func → list Z → mem → G → Z * mem * G.
Variables (api : Z) (functions : list func) (annotations : func → function_annotation).
Variable apis : gmap Z command_handler_t.
Variable api_handle : Z → message → Handler.env (library G) → res (Handler.env (library G)).
Variable extract_fn : Z → Z → option (list Z).
Variable migration_chan : M.
Hypothesis Hids : ids_ok functions [].
Hypothesis Hinternal : ch_handle (get_api apis COMMAND_HANDLER_API) = internal_api_handler_fn.
Hypothesis Hreplay : ch_replay (get_api apis api) ≠ NULL.

Abbreviation migrate := (migrate_pair (conn := conn) cb native api functions annotations apis api_handle extract_fn migration_chan).
Abbreviation session := (session (C := C) cb native api functions annotations).
Abbreviation made := (made (C := C) cb native api functions annotations).

(** The channel between the workers has room for the call. *)
Definition fits_channel (x : made_call C) : Prop :=
  room (conn := conn) sizeof_replay_command_pair (record_size (call_lrec x) + record_size (ret_lrec x)).

(** The source's log is open and holds [rs]; the workers are connected. *)
Record ready (rs : list lrec) (x : workers (A := A) (B := B) (G := G)) : Prop := {
  rd_content : content (source_log x) = log_bytes rs;
  rd_open : fd_open (source_log x) = true;
  rd_conn : conn (source x) (target x);
  rd_source : heap_ok (source_heap x);
  rd_target : heap_ok (target_heap x)
}.

Lemma whole_record cmd : whole cmd → Z.of_nat sizeof_command_base ≤ command_size (cmd_base cmd) →
  lrec_wf (mk_lrec 0 (cmd_base cmd) (cmd_rest cmd)) ∧ lrec_sized (mk_lrec 0 (cmd_base cmd) (cmd_rest cmd)).
Proof. intros (Hb & Hw & Hlt) Hcs. by split; split_and!. Qed.

Lemma api_of_made w s x w' s' : made w s x w' s' → api_id (cmd_base (mc_call x)) = api ∧ api_id (cmd_base (mc_ret x)) = api.
Proof. by intros [???????????? _ _ _ _ _ _ _ (Hc & _) (Hr & _)]. Qed.

(** A pair of whole commands of the API at the head of the rest of the log reaches the replay
    function. *)
Lemma migrate_pair_eq rs i ra rb x :
  ready rs x → Forall lrec_wf rs → rs !! i = Some ra → rs !! S i = Some rb → lr_flags ra = 0 → lr_flags rb = 0 →
  lrec_sized ra → lrec_sized rb → api_id (lr_base ra) = api → api_id (lr_base rb) = api →
  room (conn := conn) sizeof_replay_command_pair (record_size ra + record_size rb) →
  ∃ b fn ta tb a log h hb, (∀ e, ready rs (mk_workers a log h b hb e)) ∧
    migrate (pair_offsets rs (i, S i)) x =
      (e ← replay_entry cb native api functions annotations b fn (lr_base ra, lr_rest ra ++ ta) (lr_base rb, lr_rest rb ++ tb) (target_env x);
       Ok (mk_workers a log h b hb e)).
Proof.
  intros [Hc Ho Hcn Hhs Hht] Hwf Hi Hj Hfa Hfb Hsa Hsb Haa Hab Hroom.
  destruct (transfer_pair_sent (source x) (target x) (source_log x) (source_heap x) (target_heap x) rs i (S i) ra rb)
    as (a1 & log' & a2 & b1 & b2 & cmd & Hsend & Hc' & Ho' & Hdel & Hrcv & Hcn' & Haddr & Hpair); try done; [by rewrite Hfa|by rewrite Hfb|].
  destruct (pair_handled migration_chan apis (replay_entry cb native api functions annotations b2) api_handle extract_fn b2
    (malloc (target_heap x)).2 cmd ra rb (target_env x) Hpair) as (ta & tb & Hh); [by eapply Forall_lookup_1|by eapply Forall_lookup_1|done|].
  exists b2, (ch_replay (get_api apis api)), ta, tb, a2, log', (mk_heap (live (source_heap x)) (next_addr (source_heap x) + 3)),
    (mk_heap (live (target_heap x)) (next_addr (target_heap x) + 1)). split.
  - intros e. split; cbn; [congruence|done|done| |]; intros y Hy; cbn in *; [apply Hhs in Hy|apply Hht in Hy]; lia.
  - unfold migrate_pair. rewrite Hsend. cbn [mbind res_bind]. rewrite Hdel. cbn [mbind res_bind]. rewrite Hrcv. cbn [mbind res_bind].
    rewrite Hh. unfold Handler.replay_command. cbn [fst]. rewrite Haa, Hab, Z.eqb_refl, (proj2 (Z.eqb_neq _ _) Hreplay). cbn [negb c_assert mbind res_bind].
    destruct (replay_entry _ _ _ _ _ _ _ _ _ _) as [e|]; cbn [mbind res_bind]; [|done].
    rewrite (link_free b2), Haddr. pose proof (free_malloc (target_heap x) Hht) as Hfree. cbn [malloc fst snd] in Hfree |- *. by rewrite Hfree.
Qed.

Lemma session_records_wf w s calls w' s' : session w s calls w' s' → Forall migratable calls →
  Forall lrec_wf (concat (source_records <$> calls)).
Proof.
  induction 1 as [|w s x w1 s1 calls w2 s2 Hmade _ IH]; intros Hmg; [constructor|]. apply Forall_cons in Hmg as [[Hc Hr _] Hmg].
  pose proof Hmade as [Hsc Hsr]%made_sizes. rewrite fmap_cons. cbn [concat]. apply Forall_app. split; [|by apply IH].
  apply Forall_cons. split; [by apply whole_record|]. apply Forall_singleton. by apply whole_record.
Qed.

Lemma recorded_commands (x : made_call C) : migratable x → length (commands_of x) = 2%nat.
Proof. intros [_ _ (l & Hl & Hr & _)]. unfold commands_of, objects_list. by rewrite Hl, Hr. Qed.

Lemma migrate_session w s calls w' s' : session w s calls w' s' → ∀ pre x rs,
  Forall migratable calls → Forall fits_channel calls → Forall lrec_wf pre →
  ready (pre ++ concat (source_records <$> calls)) x → pool_ok w → worker_ok w →
  mirrors w s rs (target_env x) → length rs = length pre →
  ∃ x', foldM migrate (pair_offsets (pre ++ concat (source_records <$> calls)) <$> pair_indices (length pre) (length calls)) x = Ok x' ∧
    ready (pre ++ concat (source_records <$> calls)) x' ∧ mirrors w' s' (rs ++ concat (target_records <$> calls)) (target_env x') ∧
    ∀ h, calls_in (e_md (target_env x')) h = calls_in (e_md (target_env x)) h ++
      pairs_for h (rs ++ concat (target_records <$> calls)) (length rs) calls.
Proof.
  induction 1 as [w s|w s x w1 s1 calls w2 s2 Hmade Hses IH]; intros pre ws rs Hmg Hfit Hwf Hready Hp Hw Hmir Hlen.
  { exists ws. cbn [fmap list_fmap concat length pair_indices foldM pairs_for]. rewrite (app_nil_r rs). split; [done|]. split; [done|].
    split; [done|]. intros h. by rewrite app_nil_r. }
  assert (Forall lrec_wf (concat (source_records <$> x :: calls))) as Hall by (eapply session_records_wf; [by econstructor|done]).
  apply Forall_cons in Hmg as [Hx Hmg]. apply Forall_cons in Hfit as [Hfx Hfit].
  pose proof Hmade as [Hsc Hsr]%made_sizes. pose proof Hx as [Hc Hr _].
  destruct (api_of_made _ _ _ _ _ Hmade) as [Hac Har]. rewrite fmap_cons in *. cbn [concat] in *.
  set (all := pre ++ source_records x ++ concat (source_records <$> calls)) in *.
  destruct (migrate_pair_eq all (length pre) (call_lrec x) (ret_lrec x) ws Hready) as (b & fn & ta & tb & a & log & h & hb & Hnext & Hstep);
    try done; [by apply Forall_app|by apply list_lookup_middle| |by apply whole_record|by apply whole_record|].
  { unfold all. rewrite lookup_app_r by lia. by replace (S (length pre) - length pre)%nat with 1%nat by lia. }
  destruct (replay_entry_made cb native api functions annotations Hids b fn w s x w1 s1 ta tb (target_env ws) rs Hmade Hx Hp Hw Hmir)
    as (Hp1 & Hw1 & e1 & Hentry & Hmir1 & Hcalls1).
  assert ((pre ++ source_records x) ++ concat (source_records <$> calls) = all) as Hassoc by (unfold all; by rewrite <- app_assoc).
  destruct (IH (pre ++ source_records x) (mk_workers a log h b hb e1) (rs ++ target_records x)) as (x' & Hrun & Hready' & Hmir' & Hcalls');
    try done; [by apply Forall_app; split; [done|]; apply Forall_app in Hall as [? _]|by rewrite Hassoc|rewrite !length_app, Hlen; done|].
  rewrite Hassoc in *. assert (length (pre ++ source_records x) = S (S (length pre))) as Hl2 by (rewrite length_app; cbn; lia). rewrite Hl2 in Hrun.
  exists x'. cbn [length pair_indices]. rewrite fmap_cons. cbn [foldM]. rewrite Hstep. cbn [call_lrec ret_lrec lr_base lr_rest].
  rewrite Hentry. cbn [mbind res_bind]. rewrite <- app_assoc in Hmir', Hcalls'. split_and!; try done.
  intros y. rewrite Hcalls', Hcalls1, <- app_assoc. cbn [pairs_for]. rewrite (recorded_commands x Hx), length_app. f_equal.
  assert (∀ i, (i ≤ 1)%nat → log_offset (rs ++ target_records x) (length rs + i) =
    log_offset (rs ++ target_records x ++ concat (target_records <$> calls)) (length rs + i)) as Hoff.
  { intros i Hi. rewrite (app_assoc rs). symmetry. apply log_offset_app. rewrite length_app. cbn. lia. }
  pose proof (Hoff 0%nat ltac:(lia)) as H0'. pose proof (Hoff 1%nat ltac:(lia)) as H1'. rewrite Nat.add_0_r in H0'. rewrite Nat.add_1_r in H1'.
  unfold pair_offsets. cbn [fst snd]. by rewrite H0', H1'.
Qed.
(** ** Extraction at the source *)

Lemma pairs_for_elem h rs (calls : list (made_call C)) : Forall migratable calls → ∀ i p,
  p ∈ pairs_for h rs i calls ↔
    ∃ k x, calls !! k = Some x ∧ (0 < times (objects_list x) h)%nat ∧ p = pair_offsets rs (i + 2 * k, S (i + 2 * k))%nat.
Proof.
  induction 1 as [|x calls Hx _ IH]; intros i p; cbn [pairs_for].
  { split; [by intros ?%elem_of_nil|]. intros (k & x & Hk & _). done. }
  rewrite elem_of_app, (recorded_commands x Hx), IH, elem_of_replicate. split.
  - intros [[-> Ht]|(k & y & Hk & Ht & ->)]; [exists 0%nat, x|exists (S k), y]; (split_and!; [done|lia|f_equal; f_equal; lia]).
  - intros ([|k] & y & Hk & Ht & ->); cbn in Hk; [left; injection Hk as ->|right; exists k, y].
    + split; [f_equal; f_equal; lia|lia].
    + split_and!; [done..|f_equal; f_equal; lia].
Qed.

Lemma length_source_records (calls : list (made_call C)) : length (concat (source_records <$> calls)) = (2 * length calls)%nat.
Proof. induction calls as [|x calls IH]; [done|]. rewrite fmap_cons. cbn [concat source_records app length]. rewrite IH. lia. Qed.

Lemma session_commands w s calls w' s' : session w s calls w' s' → Forall migratable calls →
  Forall recordable calls ∧ concat (commands_of <$> calls) = concat (source_records <$> calls) ∧
  Forall (λ x, forallb kept (objects_list x) = true) calls.
Proof.
  induction 1 as [|w s x w1 s1 calls w2 s2 Hmade _ IH]; intros Hmg; [done|]. apply Forall_cons in Hmg as [[Hc Hr (l & Hl & Hrec & Hk)] Hmg].
  pose proof Hmade as [Hsc Hsr]%made_sizes. destruct (IH Hmg) as (H1' & H2' & H3').
  destruct (region_whole (mc_chan x) (mc_call x) Hc Hsc) as [Hwc Htc], (region_whole (mc_chan x) (mc_ret x) Hr Hsr) as [Hwr Htr].
  assert (objects_list x = l) as Hol by (unfold objects_list; by rewrite Hl). rewrite !fmap_cons. cbn [concat].
  rewrite H2'. split_and!; [constructor; [split; [done..|by eexists]|done]| |constructor; [by rewrite Hol|done]].
  f_equal. unfold commands_of. rewrite Hol, Hrec. cbn [logged]. by rewrite Htc, Htr.
Qed.

(** Some object that the roots depend on has the call. *)
Definition extracted (md : gmap Z ava_metadata_base) (roots : list Z) (x : made_call C) : Prop :=
  ∃ h, (0 < times (objects_list x) h)%nat ∧ reachable md (NULL :: roots) h.

Lemma extraction_indices (md : gmap Z ava_metadata_base) (calls : list (made_call C)) rs roots idx :
  Forall migratable calls → rs = concat (source_records <$> calls) →
  (∀ h, calls_in md h = pairs_for h rs 0 calls) → Forall (extracted md roots) calls →
  StronglySorted (λ p q, log_offset rs (fst p) < log_offset rs (fst q)) idx →
  Forall (λ p, (fst p < length rs)%nat ∧ (snd p < length rs)%nat) idx →
  (∀ p, p ∈ idx → ∃ x, reachable md (NULL :: roots) x ∧ pair_offsets rs p ∈ calls_in md x) →
  (∀ x p, reachable md (NULL :: roots) x → p ∈ calls_in md x → ∃ q, q ∈ idx ∧ log_offset rs (fst q) = fst p) →
  idx = pair_indices 0 (length calls).
Proof.
  intros Hmg Hrs Hcalls Hex Hsort Hrange Hsound Hcompl. pose proof (length_source_records calls) as Hlen. rewrite <- Hrs in Hlen.
  rewrite Forall_forall in Hrange.
  assert (∀ p, p ∈ idx → ∃ k, (k < length calls)%nat ∧ p = (0 + 2 * k, S (0 + 2 * k))%nat) as Hin.
  { intros p Hp. destruct (Hsound p Hp) as (h & _ & Hh). rewrite Hcalls in Hh. apply pairs_for_elem in Hh as (k & x & Hk & _ & Ho); [|done].
    apply lookup_lt_Some in Hk. exists k. split; [done|]. destruct (Hrange p Hp), p as [i j]. unfold pair_offsets in Ho. cbn [fst snd] in *.
    injection Ho as Hi Hj. f_equal; eapply log_offset_inj; try eassumption; lia. }
  apply (sorted_by_offset_eq rs); [done|apply pair_indices_sorted; lia|]. intros p. rewrite pair_indices_elem. split; [apply Hin|].
  intros (k & Hk & ->). destruct (lookup_lt_is_Some_2 _ _ Hk) as [x Hx]. pose proof (Forall_lookup_1 _ _ _ _ Hex Hx) as (h & Ht & Hr).
  destruct (Hcompl h (pair_offsets rs (0 + 2 * k, S (0 + 2 * k))%nat) Hr) as (q & Hq & Ho).
  { rewrite Hcalls. apply pairs_for_elem; [done|]. by exists k, x. }
  destruct (Hin q Hq) as (k' & Hk' & ->). cbn [pair_offsets fst snd] in Ho. apply log_offset_inj in Ho; [|lia|lia]. by assert (k' = k) as -> by lia.
Qed.
End migration.
