(* ===== verification/ApiMigration.v ===== *)
(** * Migrating a worker

    A live migration from the first recorded call to the last replayed one, over any channel between
    the workers, and what a second migration meets; a TensorFlow worker with a graph as the
    example. *)

From S2P Require Import Prelude HandlePool Channel LogChannel Socket ShmChannel SocketChannel Endpoint Extraction Handler.
From S2P Require Import Cava Stub Remote RemoteCall RemoteRefinement RemoteSocket SpecCheck SpecTensorflow ApiCalls Replay ApiReplay Recording Migration.
Local Open Scope Z_scope.

(** C4. A live migration rebuilds the worker. A worker served calls and recorded them, each for an
    object that the migration reaches, and none of them deallocates a handle.  Then recording
    succeeds, extraction sends the pair of commands of every call in the order of the calls, and
    when a new worker, whose library is in the state in which that of the first one was at the
    start, handles what arrives, no assertion fails: it ends with the handle table and the library
    of the first worker, so that the guest's identifiers mean the same objects.  The log of the new
    worker has two records for every call, but both are the RET command. *)
Theorem live_migration_rebuilds_worker {A B C M G : Type} `{Channel A} `{Contiguous B} `{Contiguous C} (conn : A → B → Prop)
    `{!Link A B conn} `{Toposort, Uninit} `{PtrArraySort, HashOrder Z} {mc : Channel M} (cb : Z)
    (native : func → list Z → mem → G → Z * mem * G) (api : Z) (functions : list func)
    (annotations : func → function_annotation) (apis : gmap Z command_handler_t)
    (api_handle : Z → message → Handler.env (library G) → res (Handler.env (library G)))
    (extract_fn : Z → Z → option (list Z)) (mchan : M)
    (calls : list (made_call C)) (w : wstate) (s : G) (w' : wstate) (s' : G) (e : ava_endpoint) :
  ids_ok functions [] → ch_handle (get_api apis COMMAND_HANDLER_API) = internal_api_handler_fn →
  ch_replay (get_api apis api) ≠ NULL → pool_ok w → worker_ok w → (∀ h, calls_of e h = []) →
  session cb native api functions annotations w s calls w' s' →
  Forall migratable calls → Forall (fits_channel (conn := conn)) calls →
  let rs := concat (source_records <$> calls) in
  let pairs := pair_offsets rs <$> pair_indices 0 (length calls) in
  ∃ log e', record_all calls (command_channel_log_new true true) e = Ok (log, e') ∧
    (Z.of_nat (length (content log)) < 2 ^ 64 - 1 → ∀ roots, Forall (extracted (metadata_map e') roots) calls →
     ∃ st, ∀ g pool (out : A) h,
      ava_extract_objects_in_pair extract_fn (metadata_map e') g pool out log h roots =
        ('(out, log, h) ← foldM _ava_transfer_command_in_pair pairs (out, log, h);
         '(g, pool, out, h) ← foldM (_ava_extract_explicit extract_fn (metadata_map e'))
            (iter_keys (ex_dependencies st)) (g, pool, out, h);
         Ok (g, pool, out, log, h))) ∧
    (∀ a b h hb e0, conn a b → heap_ok h → heap_ok hb → mirrors w s [] e0 →
     ∃ x, foldM (migrate_pair (conn := conn) cb native api functions annotations apis api_handle extract_fn mchan) pairs
        (mk_workers a log h b hb e0) = Ok x ∧
      w_pool w' = Some (e_pool (target_env x)) ∧ l_state (e_lib (target_env x)) = s' ∧
      log_repr (e_log (target_env x)) (concat (target_records <$> calls)) 0).
Proof.
  intros Hids Hint Hrep Hp Hw He Hses Hmg Hfit rs pairs. destruct (session_commands _ _ _ _ _ _ _ _ _ _ Hses Hmg) as (Hrec & Hcmd & Hkept).
  destruct (session_recorded calls [] [] 0 (command_channel_log_new true true) e Hrec) as (log & e' & rs' & Hrun & Hl & Hk & Hin & Hc).
  { intros h. by rewrite He. } { apply log_repr_new. }
  rewrite (marks_kept _ _ (events_kept _ _ Hkept)) in Hk. cbn [mark_all foldl app] in Hk. rewrite Hcmd in Hk. subst rs'. fold rs in Hl, Hin, Hc.
  exists log, e'. split; [done|]. split.
  - intros Hsize roots Hex. pose proof Hl as (Hcont & _). rewrite Hcont in Hsize.
    destruct (extract_with_eq (C := A) _ava_transfer_command_in_pair extract_fn (metadata_map e') rs roots Hsize)
      as (st & idx & _ & Hsort & Hrange & Hsound & Hcompl & Heq).
    { intros x p Hpx. destruct (Hin x) as (Hx & Hb). change (p ∈ calls_of e' x) in Hpx. rewrite Hx in Hpx.
      apply list_elem_of_fmap in Hpx as ([i j] & -> & Hij). rewrite Forall_forall in Hb. destruct (Hb _ Hij). by exists i, j. }
    assert (idx = pair_indices 0 (length calls)) as ->.
    { eapply (extraction_indices (metadata_map e') calls rs roots); try done. intros h. change (calls_in (metadata_map e') h) with (calls_of e' h).
      by rewrite Hc, He. }
    exists st. intros g pool out h. apply Heq.
  - intros a b h hb e0 Hcn Hh Hhb Hmir. pose proof Hl as (Hcont & _ & _ & _ & Hfd & _).
    destruct (migrate_session (conn := conn) cb native api functions annotations apis api_handle extract_fn mchan Hids Hint Hrep w s calls w' s' Hses
      [] (mk_workers a log h b hb e0) []) as (x & Hm & _ & [Hpool _ Hst Hlog _] & _); try done.
    by exists x.
Qed.

(** C8. A migrated worker cannot be migrated again. The recording code that replay runs appends
    [__cmd], which is then the RET command, where the CALL command belongs.  When a worker with
    the log that a migration leaves sends the pair of its first call, the next worker aborts: no
    function has the number of a RET command. *)
Theorem second_migration_aborts {A B C M G : Type} `{Channel A} `{Contiguous B} `{Contiguous C} (conn : A → B → Prop)
    `{!Link A B conn} `{Toposort, Uninit} `{PtrArraySort, HashOrder Z} {mc : Channel M} (cb : Z)
    (native : func → list Z → mem → G → Z * mem * G) (api : Z) (functions : list func)
    (annotations : func → function_annotation) (apis : gmap Z command_handler_t)
    (api_handle : Z → message → Handler.env (library G) → res (Handler.env (library G)))
    (extract_fn : Z → Z → option (list Z)) (mchan : M)
    (x : made_call C) (calls : list (made_call C)) (w : wstate) (s : G) (w' : wstate) (s' : G) (ws : workers) :
  let rs := concat (target_records <$> x :: calls) in
  ids_ok functions [] → ch_handle (get_api apis COMMAND_HANDLER_API) = internal_api_handler_fn →
  ch_replay (get_api apis api) ≠ NULL → made cb native api functions annotations w s x w' s' → migratable x →
  Forall lrec_wf rs → ready (conn := conn) rs ws →
  room (conn := conn) sizeof_replay_command_pair (record_size (ret_lrec x) + record_size (ret_lrec x)) →
  migrate_pair (conn := conn) cb native api functions annotations apis api_handle extract_fn mchan (pair_offsets rs (0, 1)%nat) ws =
    Stop (AssertFailed "Received unsupported command").
Proof.
  intros rs Hids Hint Hrep Hmade [_ Hwr _] Hwf Hready Hroom. pose proof Hmade as [_ Hsr]%made_sizes. pose proof Hmade as [_ Har]%api_of_made.
  destruct (whole_record _ Hwr Hsr) as [_ Hsized].
  destruct (migrate_pair_eq (conn := conn) cb native api functions annotations apis api_handle extract_fn mchan Hint Hrep rs 0 (ret_lrec x) (ret_lrec x) ws
    Hready Hwf) as (b & fn & ta & tb & a & log & h & hb & _ & ->); try done.
  assert (∃ f, f ∈ functions ∧ command_id (cmd_base (mc_ret x)) = f_ret_id f) as (f & Hf & Hid).
  { destruct Hmade as [???????????? Hf _ _ _ _ _ _ _ (_ & Hid & _)]. by exists (mc_func x). }
  unfold replay_entry. cbn [fst ret_lrec lr_base]. rewrite Hid.
  destruct (list_find _ functions) as [[i f']|] eqn:Hfind; [|done]. exfalso.
  apply list_find_Some in Hfind as (Hf' & Heq & _). unfold ids_ok in Hids. rewrite app_nil_r in Hids.
  apply NoDup_app in Hids as (_ & Hdisj & _). apply (Hdisj (f_call_id f')); [apply list_elem_of_fmap; exists f'; split; [done|by eapply list_elem_of_lookup_2]|].
  rewrite Heq. apply list_elem_of_fmap. by exists f.
Qed.

(** ** A worker *)

Section sample.
Import Sample.

(** A library that gives out the graphs 7000, 7001 and so on. *)
Definition graphs (f : func) (l : list Z) (m : mem) (n : Z) : Z * mem * Z := (7000 + n, m, n + 1).
Definition recorded_call : function_annotation := mk_fa true (λ _, []) [].
Definition graph_id : Z := 18446742974197924865.

Definition tf_header (id css : Z) : command_base := mk_base 1 1 0 12 12 0 id css 0 0 [0; 0; 0; 0; 0; 0; 0; 0].

Definition new_graph : made_call command_channel_socket :=
  mk_made TF_NewGraph recorded_call [] ∅ ∅ 7000 (mk_csock empty_sock PollIn 1 4001 0)
    (mk_cmd 5 (tf_header (f_call_id TF_NewGraph) 144) (le_bytes 8 0))
    (mk_cmd 6 (tf_header (f_ret_id TF_NewGraph) 152) (le_bytes 8 0 ++ le_bytes 8 graph_id)).

Definition worker1 : wstate := mk_w ∅ 1 (Some (mk_pool {[graph_id := 7000]} {[7000 := graph_id]})) (mk_counter 65 1).

Lemma new_graph_made : made 7 graphs 1 tensorflow_functions (λ _, recorded_call) worker0 0 new_graph worker1 1.
Proof.
  eapply (Made _ _ _ _ _ _ _ _ _ _ ∅ ∅ (Some graph_id) ∅ (no_env true) [] 0 worker0 worker1 (Some graph_id) [] 0).
  - apply (list_elem_of_lookup_2 _ 13). reflexivity.
  - reflexivity.
  - reflexivity.
  - split; cbn; [constructor|done| | | | |]; try (intros a Ha; by apply not_elem_of_nil in Ha).
    + intros t [= <-]. eexists _, _, _, _, _. split; [reflexivity|lia].
    + intros a v Ha. by apply not_elem_of_nil in Ha.
    + intros q l. by rewrite lookup_empty.
  - eapply (Traced _ _ _ _ _ _ _ _ _ _ _ _ _ _ _ _ _ _ _ _ worker0 7000 _ worker1); try reflexivity; vm_compute; reflexivity.
  - reflexivity.
  - reflexivity.
  - split_and!; [reflexivity..|]. exists ∅, []. split_and!; [vm_compute; reflexivity|constructor|]. intros id d. by rewrite lookup_empty.
  - split_and!; [reflexivity..|]. exists []. split_and!; [vm_compute; reflexivity|reflexivity|constructor].
Qed.

Lemma tf_header_whole a id css rest : in_range 64 id → css = Z.of_nat (136 + length rest) → css < 2 ^ 32 →
  whole (mk_cmd a (tf_header id css) rest).
Proof.
  intros Hid Hcss Hlt. split; [|split; cbn [cmd_base tf_header command_size region_size cmd_rest]; unfold sizeof_command_base; lia].
  unfold base_wf, in_range, in_srange in *. cbn. split_and!; try lia. repeat constructor; unfold in_range; lia.
Qed.

Lemma new_graph_migratable : migratable new_graph.
Proof.
  split; [apply tf_header_whole; [unfold in_range; cbn; lia|reflexivity|lia]..|]. eexists. split; [vm_compute; reflexivity|by split].
Qed.

Definition tf_apis : gmap Z command_handler_t := {[ 0 := mk_ch NULL internal_api_handler_fn NULL; 1 := mk_ch 8 9 NULL ]}.

(** A new worker. *)
Definition fresh_env : Handler.env (library Z) :=
  Handler.mk_env nw_handle_pool_new (command_channel_log_new true true) (counter_init 2) ∅ 0 [] (mk_library 1 0 (mk_ep 8 ∅ ∅ ∅ 0 None ∅ ∅ 0 ∅)).

Definition socket0 (port : Z) : command_channel_socket := mk_csock empty_sock PollIn 1 port 0.

(** The graph 7000 has the identifier that the guest knows in the new worker, and the library has
    one graph. *)
Lemma live_migration_rebuilds_worker_witness :
  let H1 := pair_sort in let H2 := key_order in
  ∃ log e' x, record_all [new_graph] (command_channel_log_new true true) (mk_ep 8 ∅ ∅ ∅ 0 None ∅ ∅ 0 ∅) = Ok (log, e') ∧
    foldM (migrate_pair (conn := sock_conn) 7 graphs 1 tensorflow_functions (λ _, recorded_call) tf_apis (λ _ _ e, Ok e) (λ _ _, None)
        (command_channel_log_new true true)) [(0, 160)]
      (mk_workers (socket0 4002) log (mk_heap ∅ 1) (socket0 4003) (mk_heap ∅ 1) fresh_env) = Ok x ∧
    Some (mk_pool {[graph_id := 7000]} {[7000 := graph_id]}) = Some (e_pool (target_env x)) ∧ l_state (e_lib (target_env x)) = 1.
Proof.
  intros H1 H2.
  destruct (live_migration_rebuilds_worker (C := command_channel_socket) sock_conn 7 graphs 1 tensorflow_functions (λ _, recorded_call) tf_apis (λ _ _ e, Ok e) (λ _ _, None)
    (command_channel_log_new true true) [new_graph] worker0 0 worker1 1 (mk_ep 8 ∅ ∅ ∅ 0 None ∅ ∅ 0 ∅)) as (log & e' & Hrec & _ & Hmig).
  - apply api_ids. apply (list_elem_of_lookup_2 _ 13). reflexivity.
  - reflexivity.
  - discriminate.
  - apply worker0_pool.
  - by split.
  - intros h. unfold calls_of. cbn. by rewrite lookup_empty.
  - eapply SessionCall; [apply new_graph_made|apply SessionNil].
  - apply Forall_singleton. apply new_graph_migratable.
  - apply Forall_singleton. by vm_compute.
  - destruct (Hmig (socket0 4002) (socket0 4003) (mk_heap ∅ 1) (mk_heap ∅ 1) fresh_env) as (x & Hx & Hpool & Hst & _).
    + split; split; reflexivity.
    + intros y Hy. by apply not_elem_of_empty in Hy.
    + intros y Hy. by apply not_elem_of_empty in Hy.
    + split; try reflexivity; [apply log_repr_new|]. exists (λ _, []). intros h. split; [|constructor]. unfold calls_of. cbn. by rewrite lookup_empty.
    + exists log, e', x. split; [exact Hrec|]. split; [exact Hx|]. split; [exact Hpool|exact Hst].
Defined.

(** The log that the migrated worker has. *)
Definition migrated_log : command_channel_log := mk_log (log_bytes (target_records new_graph)) 0 0 true true.

Lemma second_migration_aborts_witness :
  let H1 := pair_sort in let H2 := key_order in
  migrate_pair (conn := sock_conn) 7 graphs 1 tensorflow_functions (λ _, recorded_call) tf_apis (λ _ _ e, Ok e) (λ _ _, None)
    (command_channel_log_new true true) (pair_offsets (target_records new_graph) (0, 1)%nat)
    (mk_workers (socket0 4002) migrated_log (mk_heap ∅ 1) (socket0 4003) (mk_heap ∅ 1) fresh_env) =
    Stop (AssertFailed "Received unsupported command").
Proof.
  intros H1 H2. apply (second_migration_aborts (C := command_channel_socket) sock_conn 7 graphs 1 tensorflow_functions (λ _, recorded_call) tf_apis (λ _ _ e, Ok e)
    (λ _ _, None) (command_channel_log_new true true) new_graph [] worker0 0 worker1 1).
  - apply api_ids. apply (list_elem_of_lookup_2 _ 13). reflexivity.
  - reflexivity.
  - discriminate.
  - apply new_graph_made.
  - apply new_graph_migratable.
  - destruct (whole_record (mc_ret new_graph)) as [Hw _]; [apply new_graph_migratable|discriminate|].
    apply Forall_cons. split; [exact Hw|]. apply Forall_singleton. exact Hw.
  - split; [reflexivity|reflexivity|split; split; reflexivity|..]; intros y Hy; by apply not_elem_of_empty in Hy.
  - by vm_compute.
Defined.
End sample.
