(* ===== verification/GuestCuda.v ===== *)
(** * CUDA functions that the guest library answers itself (cava/samples/tensorflow/tf_opt.c)

    The specification replaces functions of the CUDA runtime by code that runs in the guest:
    descriptors and events come from pools that are filled and emptied by bulk calls, the launch
    configurations are on a stack, the addresses of device memory are in a tree, and the last
    error is in a variable.  The pools are those of [TfOpt]; a balanced tree of GLib is the class
    [GTree]. *)

From S2P Require Import Prelude TfOpt.
Local Open Scope Z_scope.

Definition DESCRITPOR_POOL_SIZE : nat := 64.

(** ** Pooled descriptors *)

Inductive kind := Convolution | Filter | Pooling | Tensor | CuEvent.
#[global] Instance kind_eq_dec : EqDecision kind.
Proof. solve_decision. Defined.

(** The queue of new descriptors of a kind, and the queue of those the program has destroyed. *)
Definition queue_of (k : kind) (p : guest_pools) : list Z :=
  match k with
  | Convolution => convolution_descriptor_pool p
  | Filter => filter_descriptor_pool p
  | Pooling => pooling_descriptor_pool p
  | Tensor => tensor_descriptor_pool p
  | CuEvent => cu_event_pool p
  end.
Definition idle_of (k : kind) (p : guest_pools) : list Z :=
  match k with
  | Convolution => idle_convolution_descriptor_pool p
  | Filter => idle_filter_descriptor_pool p
  | Pooling => idle_pooling_descriptor_pool p
  | Tensor => idle_tensor_descriptor_pool p
  | CuEvent => idle_cu_event_pool p
  end.

Definition set_queues (k : kind) (q i : list Z) (p : guest_pools) : guest_pools :=
  let 'mk_gp c ic po ipo t it f ift e ie := p in
  match k with
  | Convolution => mk_gp q i po ipo t it f ift e ie
  | Filter => mk_gp c ic po ipo t it q i e ie
  | Pooling => mk_gp c ic q i t it f ift e ie
  | Tensor => mk_gp c ic po ipo q i f ift e ie
  | CuEvent => mk_gp c ic po ipo t it f ift q i
  end.

Section pooled.
Context `{DescriptorLib G}.

(** The body of the five create functions: the status, what is stored through the pointer, the
    pools and the library. *)
Definition create_pooled (k : kind) (create_all : nat → G → Z * list Z * G) (p : guest_pools) (g : G)
    : Z * option Z * guest_pools * G :=
  let '(res, pool, g) :=
    match queue_of k p with
    | [] =>
        let '(res, desc, g) := create_all DESCRITPOR_POOL_SIZE g in
        if res =? CUDNN_STATUS_SUCCESS then (res, desc, g) else (res, [], g)
    | pool => (CUDNN_STATUS_SUCCESS, pool, g)
    end in
  if negb (res =? CUDNN_STATUS_SUCCESS) then (res, None, set_queues k pool (idle_of k p) p, g)
  else (res, Some (nth 0 pool NULL), set_queues k (drop 1 pool) (idle_of k p) p, g).

Definition cudnnCreateConvolutionDescriptor := create_pooled Convolution __pool_cudnnCreateConvolutionDescriptor.
Definition cudnnCreateFilterDescriptor := create_pooled Filter __pool_cudnnCreateFilterDescriptor.
Definition cudnnCreatePoolingDescriptor := create_pooled Pooling __pool_cudnnCreatePoolingDescriptor.
Definition cudnnCreateTensorDescriptor := create_pooled Tensor __pool_cudnnCreateTensorDescriptor.
Definition cuEventCreate := create_pooled CuEvent __pool_cuEventCreate.

(** The body of the five destroy functions. *)
Definition destroy_pooled (k : kind) (free_pool : list Z → G → res (Z * list Z * G)) (d : Z) (p : guest_pools) (g : G)
    : res (Z * guest_pools * G) :=
  let idle := idle_of k p ++ [d] in
  if bool_decide (DESCRITPOR_POOL_SIZE ≤ length idle)%nat then
    '(r, idle, g) ← free_pool idle g;
    Ok (r, set_queues k (queue_of k p) idle p, g)
  else Ok (CUDNN_STATUS_SUCCESS, set_queues k (queue_of k p) idle p, g).

Definition cudnnDestroyConvolutionDescriptor := destroy_pooled Convolution free_convolution_descriptor_pool.
Definition cudnnDestroyFilterDescriptor := destroy_pooled Filter free_filter_descriptor_pool.
Definition cudnnDestroyPoolingDescriptor := destroy_pooled Pooling free_pooling_descriptor_pool.
Definition cudnnDestroyTensorDescriptor := destroy_pooled Tensor free_tensor_descriptor_pool.
Definition cuEventDestroy := destroy_pooled CuEvent free_cu_event_pool.

(** A program that creates descriptors and destroys some of those that it holds: the [n]-th. *)
Inductive desc_op := Create (k : kind) | Destroy (n : nat).

Record desc_state := mk_ds {
  ds_held : list (kind * Z); ds_statuses : list Z; ds_pools : guest_pools; ds_lib : G
}.

Definition create_op (k : kind) : guest_pools → G → Z * option Z * guest_pools * G :=
  match k with
  | Convolution => cudnnCreateConvolutionDescriptor
  | Filter => cudnnCreateFilterDescriptor
  | Pooling => cudnnCreatePoolingDescriptor
  | Tensor => cudnnCreateTensorDescriptor
  | CuEvent => cuEventCreate
  end.
Definition destroy_op (k : kind) : Z → guest_pools → G → res (Z * guest_pools * G) :=
  match k with
  | Convolution => cudnnDestroyConvolutionDescriptor
  | Filter => cudnnDestroyFilterDescriptor
  | Pooling => cudnnDestroyPoolingDescriptor
  | Tensor => cudnnDestroyTensorDescriptor
  | CuEvent => cuEventDestroy
  end.

Definition desc_step (op : desc_op) (st : desc_state) : res desc_state :=
  match op with
  | Create k =>
      let '(r, d, p, g) := create_op k (ds_pools st) (ds_lib st) in
      Ok (mk_ds (option_list ((k,.) <$> d) ++ ds_held st) (r :: ds_statuses st) p g)
  | Destroy n =>
      match ds_held st !! n with
      | Some (k, d) =>
          '(r, p, g) ← destroy_op k d (ds_pools st) (ds_lib st);
          Ok (mk_ds (delete n (ds_held st)) (r :: ds_statuses st) p g)
      | None => Ok st
      end
  end.

(** *** Lemmas *)

Lemma create_op_eq k : create_op k = create_pooled k (λ n, pool_create_loop n CUDNN_STATUS_SUCCESS).
Proof. by destruct k. Qed.
Lemma destroy_op_eq k : destroy_op k = destroy_pooled k (free_pool (λ ds g, pool_destroy_loop ds None g)).
Proof. by destruct k. Qed.

(** The queues of the other kinds. *)
Definition others (k : kind) (p : guest_pools) : list Z := all_pools (set_queues k [] [] p).

Lemma all_pools_set k q i p : all_pools (set_queues k q i p) ≡ₚ q ++ i ++ others k p.
Proof. destruct p, k; unfold others, all_pools; cbn; solve_Permutation. Qed.

Lemma all_pools_split k p : all_pools p ≡ₚ queue_of k p ++ idle_of k p ++ others k p.
Proof. destruct p, k; unfold others, all_pools; cbn; solve_Permutation. Qed.

Lemma idle_set k k' q i p : idle_of k' (set_queues k q i p) = if decide (k' = k) then i else idle_of k' p.
Proof. by destruct p, k, k'. Qed.

(** The library has what it had at first, what bulk calls left behind, and [l], each once. *)
Record covers (base leaked : gset Z) (l : list Z) (g : G) : Prop := {
  cov_nodup : NoDup l;
  cov_new : ∀ d, d ∈ l → d ≠ NULL ∧ d ∉ base ∧ d ∉ leaked;
  cov_live : live_descs g = base ∪ leaked ∪ list_to_set l
}.

#[export] Instance covers_perm base leaked : Proper ((≡ₚ) ==> (=) ==> iff) (covers base leaked).
Proof.
  assert (∀ l l' g, l ≡ₚ l' → covers base leaked l g → covers base leaked l' g) as Himp.
  { intros l l' g Hl [H1 H2 H3]. split; [by rewrite <- Hl| |by rewrite <- Hl]. intros d. rewrite <- Hl. apply H2. }
  intros l l' Hl g _ <-. by split; apply Himp.
Qed.

(** A bulk call that succeeds adds its descriptors, one that fails leaves some behind. *)
Lemma covers_create base leaked l g n st ds g' :
  covers base leaked l g → pool_create_loop n CUDNN_STATUS_SUCCESS g = (st, ds, g') →
  covers base leaked (ds ++ l) g' ∧ covers base (leaked ∪ list_to_set ds) l g' ∧ (st = 0 → length ds = n).
Proof.
  intros [H1 H2 H3] Hc. destruct (pool_create_spec _ _ _ _ _ _ Hc) as (Hnd & Hnew & Hlive & Hlen).
  assert (∀ d, d ∈ ds → d ∉ l) as Hdis.
  { intros d [_ Hd]%Hnew Hl. apply Hd. rewrite H3. set_solver. }
  split_and!; [split|split|by auto].
  - by apply NoDup_app.
  - intros d [Hd|Hd]%elem_of_app; [|by apply H2]. destruct (Hnew d Hd) as [? Hd']. rewrite H3 in Hd'. set_solver.
  - rewrite Hlive, H3, list_to_set_app_L. apply leibniz_equiv. set_solver.
  - done.
  - intros d Hd. destruct (H2 d Hd) as (? & ? & ?). split_and!; [done..|]. set_solver.
  - rewrite Hlive, H3. apply leibniz_equiv. set_solver.
Qed.

(** Freeing a queue. *)
Lemma covers_free base leaked q l g :
  covers base leaked (q ++ l) g →
  ∃ g', free_pool (λ ds g, pool_destroy_loop ds None g) q g = Ok (0, [], g') ∧ covers base leaked l g'.
Proof.
  intros [H1 H2 H3]. apply NoDup_app in H1 as (Hq & Hdis & Hl). destruct (free_pool_eq q g Hq) as (g' & Hf & Hg').
  { intros d Hd. split; [apply H2; set_solver|]. rewrite H3. set_solver. }
  exists g'. split; [done|]. split; [done|intros d Hd; apply H2; set_solver|].
  rewrite Hg', H3, list_to_set_app_L. apply leibniz_equiv. intros x.
  rewrite elem_of_difference, !elem_of_union, !elem_of_list_to_set.
  specialize (H2 x). specialize (Hdis x). set_solver.
Qed.

Record desc_ok (base : gset Z) (st : desc_state) (leaked : gset Z) : Prop := {
  ok_covers : covers base leaked (all_pools (ds_pools st) ++ (ds_held st).*2) (ds_lib st);
  ok_leaked : Forall (λ r, r = 0) (ds_statuses st) → leaked = ∅;
  ok_idle : ∀ k, (length (idle_of k (ds_pools st)) < DESCRITPOR_POOL_SIZE)%nat
}.

(** Queues that were rearranged; the idle queue of a kind. *)
Ltac rearranged H := rewrite all_pools_set; revert H; apply covers_perm; [solve_Permutation|done].
Ltac idle_cases Hi :=
  let k' := fresh "k'" in intros k'; rewrite idle_set; destruct (decide (k' = _)) as [->|]; [|apply Hi];
  first [apply Hi|unfold DESCRITPOR_POOL_SIZE in *; cbn; lia].

Lemma create_step_ok base st leaked k :
  desc_ok base st leaked → ∃ st' leaked', desc_step (Create k) st = Ok st' ∧ desc_ok base st' leaked'.
Proof.
  intros [Hc Hlk Hi]. cbn [desc_step]. rewrite create_op_eq. unfold create_pooled.
  rewrite (all_pools_split k) in Hc. destruct (queue_of k (ds_pools st)) as [|d pool] eqn:Hp.
  - destruct (pool_create_loop _ _ (ds_lib st)) as [[r desc] g] eqn:Hcr.
    destruct (covers_create _ _ _ _ _ _ _ _ Hc Hcr) as (Hc1 & Hc2 & Hlen). destruct (Z.eqb_spec r CUDNN_STATUS_SUCCESS) as [->|Hr].
    + specialize (Hlen eq_refl). destruct desc as [|d desc]; [done|]. eexists _, leaked. split; [done|]. split; cbn.
      * rearranged Hc1.
      * intros Hst. apply Hlk. by inversion Hst.
      * idle_cases Hi.
    + rewrite (proj2 (Z.eqb_neq _ _) Hr). eexists _, (leaked ∪ list_to_set desc). split; [done|]. split; cbn.
      * rearranged Hc2.
      * intros Hst. by inversion Hst.
      * idle_cases Hi.
  - eexists _, leaked. split; [done|]. split; cbn.
    + rearranged Hc.
    + intros Hst. apply Hlk. by inversion Hst.
    + idle_cases Hi.
Qed.

Lemma destroy_step_ok base st leaked n :
  desc_ok base st leaked → ∃ st', desc_step (Destroy n) st = Ok st' ∧ desc_ok base st' leaked.
Proof.
  intros [Hc Hlk Hi]. cbn [desc_step]. destruct (ds_held st !! n) as [[k d]|] eqn:Hn; [|eexists; split; [done|by split]].
  rewrite destroy_op_eq. unfold destroy_pooled. rewrite (all_pools_split k) in Hc.
  assert (ds_held st ≡ₚ (k, d) :: delete n (ds_held st)) as Hperm by (by apply delete_Permutation).
  pose proof (fmap_Permutation snd _ _ Hperm) as Hperm2. cbn in Hperm2. rewrite Hperm2 in Hc.
  case_bool_decide as Hfull.
  - destruct (covers_free base leaked (idle_of k (ds_pools st) ++ [d])
      (queue_of k (ds_pools st) ++ others k (ds_pools st) ++ (delete n (ds_held st)).*2) (ds_lib st)) as (g & Hf & Hc').
    { revert Hc. apply covers_perm; [solve_Permutation|done]. }
    rewrite Hf. cbn [mbind res_bind]. eexists. split; [done|]. split; cbn.
    + rearranged Hc'.
    + intros Hst. apply Hlk. by inversion Hst.
    + idle_cases Hi.
  - cbn [mbind res_bind]. eexists. split; [done|]. split; cbn.
    + rearranged Hc.
    + intros Hst. apply Hlk. by inversion Hst.
    + idle_cases Hi.
Qed.

Lemma desc_step_ok base st leaked op :
  desc_ok base st leaked → ∃ st' leaked', desc_step op st = Ok st' ∧ desc_ok base st' leaked'.
Proof.
  intros Hok. destruct op as [k|n]; [by eapply create_step_ok|].
  destruct (destroy_step_ok base st leaked n Hok) as (st' & ? & ?). by exists st', leaked.
Qed.

Lemma desc_run_ok base ops : ∀ st leaked,
  desc_ok base st leaked → ∃ st' leaked', foldM desc_step ops st = Ok st' ∧ desc_ok base st' leaked'.
Proof.
  induction ops as [|op ops IH]; intros st leaked Hok; [by exists st, leaked|].
  destruct (desc_step_ok _ _ _ op Hok) as (st1 & l1 & Heq & Hok1). cbn [foldM]. rewrite Heq. by eapply IH.
Qed.

Lemma desc_init_ok g : desc_ok (live_descs g) (mk_ds [] [] guestlib_tf_opt_init g) ∅.
Proof.
  split; [split|done|]; cbn.
  - constructor.
  - intros d Hd. by apply not_elem_of_nil in Hd.
  - apply leibniz_equiv. set_solver.
  - intros k. destruct k; unfold DESCRITPOR_POOL_SIZE; cbn; lia.
Qed.

(** C18. Pooled descriptors behave as descriptors of the library: whatever sequence of creations and
    destructions a program makes, of every kind, no call gets stuck; the descriptors that it holds
    are distinct, live in the library and were not there before; no queue of destroyed
    descriptors reaches the size of a bulk call; and when the guest library ends, the library
    is left with what it had and what the program still holds, and with nothing else unless a
    bulk creation failed. *)
Theorem pooled_descriptors_sound (ops : list desc_op) (g : G) :
  ∃ st, foldM desc_step ops (mk_ds [] [] guestlib_tf_opt_init g) = Ok st ∧
    NoDup (ds_held st).*2 ∧
    (∀ d, d ∈ (ds_held st).*2 → d ≠ NULL ∧ d ∉ live_descs g ∧ d ∈ live_descs (ds_lib st)) ∧
    (∀ k, (length (idle_of k (ds_pools st)) < DESCRITPOR_POOL_SIZE)%nat) ∧
    ∃ g', guestlib_tf_opt_fini (ds_pools st) (ds_lib st) = Ok g' ∧
      live_descs g ∪ list_to_set (ds_held st).*2 ⊆ live_descs g' ∧
      (Forall (λ r, r = 0) (ds_statuses st) → live_descs g' = live_descs g ∪ list_to_set (ds_held st).*2).
Proof.
  destruct (desc_run_ok _ ops _ _ (desc_init_ok g)) as (st & leaked & Hrun & [[Hnd Hnew Hlive] Hlk Hi]).
  exists st. split; [done|]. apply NoDup_app in Hnd as (Hp & Hdis & Hh). split_and!; [done| |done|].
  { intros d Hd. destruct (Hnew d) as (? & ? & ?); [set_solver|]. split_and!; [done..|]. rewrite Hlive. set_solver. }
  destruct (tf_opt_fini_destroys_all (ds_pools st) (ds_lib st) Hp) as (g' & Hf & Hg').
  { intros d Hd. split; [apply Hnew; set_solver|]. rewrite Hlive. set_solver. }
  exists g'. rewrite list_to_set_app_L in Hlive. split; [done|].
  assert (live_descs g' = live_descs g ∪ leaked ∪ list_to_set (ds_held st).*2) as Hg.
  { rewrite Hg', Hlive. apply leibniz_equiv. intros x. specialize (Hnew x). specialize (Hdis x). set_solver. }
  rewrite Hg. split; [set_solver|]. intros Hst. rewrite (Hlk Hst). apply leibniz_equiv. set_solver.
Qed.
End pooled.

(** A library that has room for [cap] descriptors. *)
Definition capped_create (cap : nat) (g : gset Z) : Z * Z * gset Z :=
  if bool_decide (size g < cap)%nat then set_create g else (2, NULL, g).

#[refine] Definition capped_lib (cap : nat) : DescriptorLib (gset Z) := {|
  create := capped_create cap; destroy := set_destroy; live_descs := λ g, g
|}.
Proof.
  - intros g d g'. unfold capped_create. case_bool_decide; [|done]. apply (create_ok (DescriptorLib := set_lib)).
  - intros g st d g'. unfold capped_create. case_bool_decide; [|by intros [= <- _ <-]].
    apply (create_fails (DescriptorLib := set_lib)).
  - apply (destroy_ok (DescriptorLib := set_lib)).
Defined.

Lemma capped_loop cap n : ∀ r (g : gset Z), (size g ≤ cap)%nat → (cap < size g + n)%nat →
  ∃ ds g', pool_create_loop (H := capped_lib cap) n r g = (2, ds, g') ∧ size g' = cap.
Proof.
  induction n as [|n IH]; intros r g Hle Hlt; [lia|].
  cbn [pool_create_loop create capped_lib]. unfold capped_create. case_bool_decide as Hs.
  - unfold set_create. set (d := fresh ({[NULL]} ∪ g)). assert (d ∉ g) as Hd.
    { pose proof (is_fresh ({[NULL]} ∪ g)) as Hf. fold d in Hf. set_solver. }
    assert (size ({[d]} ∪ g) = S (size g)) as Hsz by (rewrite size_union, size_singleton by set_solver; done).
    destruct (IH 0 ({[d]} ∪ g)) as (ds & g' & Heq & Hg'); [lia..|].
    exists (d :: ds), g'. split; [|done]. change (0 =? CUDNN_STATUS_SUCCESS) with true. cbn [negb]. fold d. by rewrite Heq.
  - exists [], g. split; [done|lia].
Qed.

(** The refill asks for 64 descriptors. When the library has room for fewer, a program that
    needs one gets an error although there is room for it, and all the descriptors that were
    created are lost: they are live, and in no queue of the guest. *)
Theorem refill_failure_leaks (cap : nat) : (cap < DESCRITPOR_POOL_SIZE)%nat →
  ∃ p g, cudnnCreateTensorDescriptor (H := capped_lib cap) guestlib_tf_opt_init ∅ = (2, None, p, g) ∧
    all_pools p = [] ∧ size g = cap.
Proof.
  intros Hc. destruct (capped_loop cap DESCRITPOR_POOL_SIZE CUDNN_STATUS_SUCCESS ∅) as (ds & g & Heq & Hg).
  { rewrite size_empty. lia. } { rewrite size_empty. lia. }
  unfold cudnnCreateTensorDescriptor, create_pooled, __pool_cudnnCreateTensorDescriptor. cbn [queue_of guestlib_tf_opt_init tensor_descriptor_pool].
  rewrite Heq. by eexists _, g.
Qed.

Lemma refill_failure_leaks_witness :
  ∃ p g, cudnnCreateTensorDescriptor (H := capped_lib 3) guestlib_tf_opt_init ∅ = (2, None, p, g) ∧
    all_pools p = [] ∧ size g = 3%nat.
Proof. apply (refill_failure_leaks 3). unfold DESCRITPOR_POOL_SIZE. lia. Defined.

(** A program over a library without descriptors: it keeps one of three. *)
Lemma pooled_descriptors_sound_witness :
  ∃ st, foldM desc_step [Create Tensor; Create CuEvent; Destroy 0; Create Tensor; Destroy 1] (mk_ds [] [] guestlib_tf_opt_init (∅ : gset Z)) = Ok st ∧
    length (ds_held st) = 1%nat ∧
    ∃ g', guestlib_tf_opt_fini (ds_pools st) (ds_lib st) = Ok g' ∧ size g' = 1%nat.
Proof.
  destruct (pooled_descriptors_sound [Create Tensor; Create CuEvent; Destroy 0; Create Tensor; Destroy 1] (∅ : gset Z))
    as (st & Hrun & Hnd & _ & _ & g' & Hf & _ & Hg).
  exists st. split; [done|]. revert Hrun. vm_compute (foldM _ _ _). intros [= <-].
  split; [reflexivity|]. exists g'. split; [done|]. cbn in Hg. rewrite Hg; [reflexivity|by repeat constructor].
Defined.
