(* ===== verification/GuestAddress.v ===== *)
(** * Device addresses, launch configurations and the last error in the guest
      (cava/samples/tensorflow/tf_opt.c)

    The guest remembers the ranges of device memory in a tree of GLib and answers
    [cudaPointerGetAttributes] from it; it keeps the configurations of kernel launches on a stack
    and the last error in a variable.  A tree is its nodes; where an insertion puts a node, and how
    it balances the tree, is the class [GTree]. *)

From S2P Require Import Prelude TfOpt.
Local Open Scope Z_scope.

(** ** Trees *)

Record gpu_address_range := mk_range { r_start : Z; r_end : Z }.

Inductive tree :=
  | Leaf
  | Node (left : tree) (key : Z) (value : gpu_address_range) (right : tree).

Fixpoint nodes (t : tree) : list (Z * gpu_address_range) :=
  match t with
  | Leaf => []
  | Node l k v r => nodes l ++ (k, v) :: nodes r
  end.

(** [g_tree_lookup] and [g_tree_search] walk down from the root. *)
Fixpoint g_tree_lookup (cmp : Z → Z → Z) (t : tree) (key : Z) : option gpu_address_range :=
  match t with
  | Leaf => None
  | Node l k v r =>
      let c := cmp key k in
      if c =? 0 then Some v else if c <? 0 then g_tree_lookup cmp l key else g_tree_lookup cmp r key
  end.

Fixpoint g_tree_search (search : Z → res Z) (t : tree) : res (option gpu_address_range) :=
  match t with
  | Leaf => Ok None
  | Node l k v r =>
      dir ← search k;
      if dir =? 0 then Ok (Some v) else if dir <? 0 then g_tree_search search l else g_tree_search search r
  end.

(** The nodes of a tree after an insertion: in the order of the keys, a key once. *)
Fixpoint put (k : Z) (v : gpu_address_range) (l : list (Z * gpu_address_range)) : list (Z * gpu_address_range) :=
  match l with
  | [] => [(k, v)]
  | (k', v') :: l' => if k <? k' then (k, v) :: l else if k =? k' then (k, v) :: l' else (k', v') :: put k v l'
  end.

Definition sorted_keys (l : list (Z * gpu_address_range)) : Prop := StronglySorted Z.lt l.*1.

(** The comparison function orders the keys. *)
Definition orders (cmp : Z → Z → Z) (ks : list Z) : Prop :=
  ∀ a b, a ∈ ks → b ∈ ks → cmp a b = match Z.compare a b with Lt => -1 | Eq => 0 | Gt => 1 end.

Class GTree := {
  g_tree_insert : (Z → Z → Z) → Z → gpu_address_range → tree → tree;
  g_tree_insert_nodes : ∀ cmp k v t, sorted_keys (nodes t) → orders cmp (k :: (nodes t).*1) →
    nodes (g_tree_insert cmp k v t) = put k v (nodes t)
}.

(** ** The guest library *)

Definition cudaSuccess : Z := 0.
Definition cudaErrorInvalidValue : Z := 1.
Definition cudaErrorMemoryAllocation : Z := 2.
Definition cudaErrorInvalidDevice : Z := 101.
Definition cudaMemoryTypeUnregistered : Z := 0.
Definition cudaMemoryTypeDevice : Z := 2.

Record cudaPointerAttributes := mk_attr { attr_type : Z; attr_memoryType : Z }.

Record dim3 := mk_dim3 { dim_x : Z; dim_y : Z; dim_z : Z }.
Record call_configuration := mk_cc {
  cc_gridDim : dim3; cc_blockDim : dim3; cc_sharedMem : Z; cc_stream : Z
}.

Record guest_state := mk_gs {
  call_configuration_stack : list call_configuration;
  gpu_address_set : tree;
  cuda_last_error : Z
}.
Definition set_last_error (e : Z) (s : guest_state) : guest_state :=
  mk_gs (call_configuration_stack s) (gpu_address_set s) e.

Definition guest_state_new : guest_state := mk_gs [] Leaf 0.

Definition gpu_address_search_func (set : tree) (a b : Z) : res Z :=
  match g_tree_lookup gpu_address_range_cmp set a with
  | None => Stop (Undefined "NULL dereference")
  | Some r => Ok (if b <? r_start r then -1 else if r_end r <=? b then 1 else 0)
  end.

(** The end of the range is computed as [uintptr_t]. *)
Definition __helper_save_gpu_address_range `{GTree} (dptr bytesize ret : Z) (s : guest_state) : guest_state :=
  if ret =? 0 then
    let range := mk_range dptr (u64 (dptr + bytesize)) in
    mk_gs (call_configuration_stack s)
      (g_tree_insert gpu_address_range_cmp (r_start range) range (gpu_address_set s)) (cuda_last_error s)
  else s.

(** The status, and the attributes if they are stored. *)
Definition cudaPointerGetAttributes (attributes : bool) (ptr : Z) (s : guest_state)
    : res (Z * option cudaPointerAttributes * guest_state) :=
  if negb attributes then Ok (cudaErrorInvalidDevice, None, s)
  else
    r ← g_tree_search (λ k, gpu_address_search_func (gpu_address_set s) k ptr) (gpu_address_set s);
    match r with
    | Some _ => Ok (cudaSuccess, Some (mk_attr cudaMemoryTypeDevice cudaMemoryTypeDevice), s)
    | None => Ok (cudaErrorInvalidValue, Some (mk_attr cudaMemoryTypeUnregistered cudaMemoryTypeUnregistered),
                  set_last_error cudaErrorInvalidValue s)
    end.

Definition cudaGetLastError (s : guest_state) : Z * guest_state :=
  (cuda_last_error s, set_last_error CUDA_SUCCESS s).
Definition cudaPeekAtLastError (s : guest_state) : Z := cuda_last_error s.

(** The tail of the queue is the head of the list. *)
Definition __cudaPushCallConfiguration (gridDim blockDim : dim3) (sharedMem stream : Z) (s : guest_state)
    : Z * guest_state :=
  (0, mk_gs (mk_cc gridDim blockDim sharedMem stream :: call_configuration_stack s)
        (gpu_address_set s) (cuda_last_error s)).

Definition __cudaPopCallConfiguration (s : guest_state) : res (Z * call_configuration * guest_state) :=
  match call_configuration_stack s with
  | [] => Stop (Undefined "NULL dereference")
  | cc :: stack => Ok (CUDA_SUCCESS, cc, mk_gs stack (gpu_address_set s) (cuda_last_error s))
  end.

(** [malloc] returned [p], which is stored at [ptr]. *)
Definition cudaMallocHost (ptr p : Z) : res (Z * Z) :=
  if ptr =? NULL then Stop (Undefined "NULL dereference")
  else Ok (p, if negb (ptr =? NULL) then cudaSuccess else cudaErrorMemoryAllocation).

(** The check is of the address of the result and not of the result: a failed allocation is
    reported as a success. *)
Lemma cudaMallocHost_hides_failure ptr : ptr ≠ NULL → cudaMallocHost ptr NULL = Ok (NULL, cudaSuccess).
Proof. intros Hp. unfold cudaMallocHost. by rewrite (proj2 (Z.eqb_neq _ _) Hp). Qed.

(** ** Lemmas *)

Lemma sorted_app l1 k v l2 : sorted_keys (l1 ++ (k, v) :: l2) →
  sorted_keys l1 ∧ sorted_keys l2 ∧ (∀ p, p ∈ l1 → p.1 < k) ∧ (∀ p, p ∈ l2 → k < p.1).
Proof.
  unfold sorted_keys. rewrite fmap_app, fmap_cons, StronglySorted_app. intros (H12 & H1 & Hs).
  apply StronglySorted_inv in Hs as [H2 Hk]. rewrite Forall_forall in Hk. split_and!; try done.
  - intros p Hp. apply H12; [by apply list_elem_of_fmap_2|left].
  - intros p Hp. apply Hk. by apply list_elem_of_fmap_2.
Qed.

Lemma sorted_cons k v l : sorted_keys ((k, v) :: l) ↔ sorted_keys l ∧ ∀ p, p ∈ l → k < p.1.
Proof.
  unfold sorted_keys. rewrite fmap_cons. split.
  - intros [Hs Hk]%StronglySorted_inv. rewrite Forall_fmap, Forall_forall in Hk. done.
  - intros [Hs Hk]. constructor; [done|]. by apply Forall_fmap, Forall_forall.
Qed.

Lemma put_elem k v l k' v' : sorted_keys l →
  (k', v') ∈ put k v l ↔ (k' = k ∧ v' = v) ∨ (k' ≠ k ∧ (k', v') ∈ l).
Proof.
  induction l as [|[k0 v0] l IH]; intros Hs; cbn [put].
  { rewrite list_elem_of_singleton. split; [intros [= -> ->]; by left|]. intros [[-> ->]|[_ []%not_elem_of_nil]]. done. }
  apply sorted_cons in Hs as [Hs Hk]. specialize (IH Hs).
  destruct (Z.ltb_spec k k0) as [Hlt|Hge]; [|destruct (Z.eqb_spec k k0) as [->|Hne]].
  - rewrite !elem_of_cons. split; [intros [[= -> ->]|Hin]; [by left|right; split; [|done]]|].
    { destruct Hin as [[= -> ->]|Hin]; [lia|]. specialize (Hk _ Hin). cbn in Hk. lia. }
    intros [[-> ->]|[_ Hin]]; [by left|by right].
  - rewrite !elem_of_cons. split; [intros [[= -> ->]|Hin]; [by left|right; split; [|by right]]|].
    { specialize (Hk _ Hin). cbn in Hk. lia. }
    intros [[-> ->]|[Hne [[= -> ->]|Hin]]]; [by left|done|by right].
  - rewrite !elem_of_cons, IH. split.
    + intros [[= -> ->]|[[-> ->]|[? Hin]]]; [right; split; [done|by left]|by left|right; split; [done|by right]].
    + intros [[-> ->]|[? [[= -> ->]|Hin]]]; [right; by left|by left|right; by right].
Qed.

Lemma put_sorted k v l : sorted_keys l → sorted_keys (put k v l).
Proof.
  induction l as [|[k0 v0] l IH]; intros Hs; cbn [put]; [by repeat constructor|].
  pose proof Hs as Hs'. apply sorted_cons in Hs as [Hs Hk]. specialize (IH Hs).
  destruct (Z.ltb_spec k k0) as [Hlt|Hge]; [|destruct (Z.eqb_spec k k0) as [->|Hne]]; apply sorted_cons; split; try done.
  - intros p [->|Hin]%elem_of_cons; [done|]. specialize (Hk _ Hin). lia.
  - intros [k' v'] [[-> ->]|[_ Hin]]%put_elem; cbn; [lia|exact (Hk _ Hin)|done].
Qed.

(** *** Lookup and search in a sorted tree *)

Lemma lookup_node cmp t k v : sorted_keys (nodes t) → orders cmp (nodes t).*1 →
  (k, v) ∈ nodes t → g_tree_lookup cmp t k = Some v.
Proof.
  induction t as [|l IHl k0 v0 r IHr]; intros Hs Ho Hin; cbn in *; [by apply not_elem_of_nil in Hin|].
  destruct (sorted_app _ _ _ _ Hs) as (Hsl & Hsr & Hl & Hr). pose proof (list_elem_of_fmap_2 fst _ _ Hin) as Hk. cbn in Hk.
  assert (k0 ∈ (nodes l ++ (k0, v0) :: nodes r).*1) as Hk0 by (rewrite fmap_app; set_solver).
  rewrite (Ho k k0 Hk Hk0). rewrite fmap_app, fmap_cons in Ho.
  apply elem_of_app in Hin as [Hin|[[= -> ->]|Hin]%elem_of_cons].
  - specialize (Hl _ Hin). cbn in Hl. rewrite (proj2 (Z.compare_lt_iff _ _) Hl). cbn. apply IHl; try done.
    intros a b Ha Hb. apply Ho; set_solver.
  - by rewrite Z.compare_refl.
  - specialize (Hr _ Hin). cbn in Hr. rewrite (proj2 (Z.compare_gt_iff _ _) Hr). cbn. apply IHr; try done.
    intros a b Ha Hb. apply Ho; set_solver.
Qed.

(** The walk is to the nodes with smaller addresses, or to those with larger addresses. *)
Definition direction (ptr : Z) (v : gpu_address_range) : Z :=
  if ptr <? r_start v then -1 else if r_end v <=? ptr then 1 else 0.

Definition inside (ptr : Z) (v : gpu_address_range) : Prop := r_start v ≤ ptr < r_end v.

(** Nodes are stored under their start, are not empty and do not overlap. *)
Definition apart (l : list (Z * gpu_address_range)) : Prop :=
  (∀ k v, (k, v) ∈ l → k = r_start v ∧ r_start v < r_end v) ∧
  (∀ k v k' v', (k, v) ∈ l → (k', v') ∈ l → k < k' → r_end v ≤ k').

Lemma apart_sub l l' : (∀ p, p ∈ l' → p ∈ l) → apart l → apart l'.
Proof. intros Hsub [H1 H2]. split; [eauto|]. intros; eauto. Qed.

Lemma search_inside s ptr t : sorted_keys (nodes t) → apart (nodes t) →
  (∀ k v, (k, v) ∈ nodes t → s k = Ok (direction ptr v)) → ∀ k v, (k, v) ∈ nodes t → inside ptr v →
  g_tree_search s t = Ok (Some v).
Proof.
  induction t as [|l IHl k0 v0 r IHr]; intros Hs Ha Hd k v Hin Hv; cbn in *; [by apply not_elem_of_nil in Hin|].
  destruct (sorted_app _ _ _ _ Hs) as (Hsl & Hsr & Hl & Hr).
  assert ((k0, v0) ∈ nodes l ++ (k0, v0) :: nodes r) as Hin0 by set_solver.
  rewrite (Hd k0 v0 Hin0). cbn [mbind res_bind]. unfold direction.
  destruct Ha as [Ha1 Ha2]. destruct (Ha1 _ _ Hin0) as [-> Hne0]. destruct (Ha1 _ _ Hin) as [-> Hne]. unfold inside in Hv.
  assert (∀ t', (∀ p, p ∈ nodes t' → p ∈ nodes l ++ (r_start v0, v0) :: nodes r) → apart (nodes t')) as Hsub.
  { intros t' Ht'. by apply (apart_sub _ _ Ht'). }
  pose proof Hin as [Hinl|[[= _ ->]|Hinr]%elem_of_cons]%elem_of_app.
  - specialize (Hl _ Hinl). cbn in Hl. pose proof (Ha2 _ _ _ _ Hin Hin0 Hl).
    rewrite (proj2 (Z.ltb_lt _ _)) by lia. cbn. eapply IHl; try done; [apply Hsub; set_solver|]. intros; apply Hd; set_solver.
  - rewrite (proj2 (Z.ltb_ge _ _)), (proj2 (Z.leb_gt _ _)) by lia. done.
  - specialize (Hr _ Hinr). cbn in Hr. pose proof (Ha2 _ _ _ _ Hin0 Hin Hr).
    rewrite (proj2 (Z.ltb_ge _ _)), (proj2 (Z.leb_le _ _)) by lia. cbn. eapply IHr; try done; [apply Hsub; set_solver|]. intros; apply Hd; set_solver.
Qed.

Lemma search_outside s ptr t : (∀ k v, (k, v) ∈ nodes t → s k = Ok (direction ptr v)) →
  (∀ k v, (k, v) ∈ nodes t → ¬ inside ptr v) → g_tree_search s t = Ok None.
Proof.
  induction t as [|l IHl k0 v0 r IHr]; intros Hd Hn; cbn in *; [done|].
  assert ((k0, v0) ∈ nodes l ++ (k0, v0) :: nodes r) as Hin0 by set_solver.
  rewrite (Hd k0 v0 Hin0). cbn [mbind res_bind]. specialize (Hn _ _ Hin0) as Hn0. unfold direction, inside in *.
  destruct (Z.ltb_spec ptr (r_start v0)); [cbn; apply IHl; intros k v Hin; first [apply (Hd k v)|apply (Hn k v)]; set_solver|].
  destruct (Z.leb_spec (r_end v0) ptr); [cbn; apply IHr; intros k v Hin; first [apply (Hd k v)|apply (Hn k v)]; set_solver|]. lia.
Qed.

(** ** Allocations *)

Section addresses.
Context `{GTree}.

(** The results of [cuMemAlloc]: status, address and size. *)
Definition save_all (allocs : list (Z * Z * Z)) (s : guest_state) : guest_state :=
  foldl (λ s '(ret, dptr, size), __helper_save_gpu_address_range dptr size ret s) s allocs.

(** The ranges that are remembered: the last one of each start. *)
Definition remembered (allocs : list (Z * Z * Z)) : gmap Z Z :=
  foldl (λ m '(ret, dptr, size), if ret =? 0 then <[dptr := dptr + size]> m else m) ∅ allocs.

Definition device_range (a : Z * Z * Z) : Prop :=
  let '(_, dptr, size) := a in 0 ≤ dptr ∧ 0 < size ∧ dptr + size < 2 ^ 63.

Record remembers (m : gmap Z Z) (t : tree) : Prop := {
  rem_sorted : sorted_keys (nodes t);
  rem_nodes : ∀ k v, (k, v) ∈ nodes t ↔ m !! k = Some (r_end v) ∧ r_start v = k;
  rem_bounds : ∀ k e, m !! k = Some e → 0 ≤ k < e ∧ e < 2 ^ 63
}.

Lemma remembers_orders m t k : remembers m t → 0 ≤ k < 2 ^ 63 → orders gpu_address_range_cmp (k :: (nodes t).*1).
Proof.
  intros [_ Hn Hb] Hk. assert (∀ a, a ∈ k :: (nodes t).*1 → 0 ≤ a < 2 ^ 63) as Hr.
  { intros a [->|Ha]%elem_of_cons; [done|]. apply list_elem_of_fmap in Ha as ([k' v'] & -> & [Hin _]%Hn). cbn. apply Hb in Hin. lia. }
  intros a b Ha Hb'. apply gpu_address_cmp_spec; by apply Hr.
Qed.

Lemma remembers_save m t dptr size stack e :
  remembers m t → 0 ≤ dptr → 0 < size → dptr + size < 2 ^ 63 →
  remembers (<[dptr := dptr + size]> m)
    (gpu_address_set (__helper_save_gpu_address_range dptr size 0 (mk_gs stack t e))).
Proof.
  intros Hr H0 H1 H2. pose proof (remembers_orders m t dptr Hr ltac:(lia)) as Ho. destruct Hr as [Hs Hn Hb].
  unfold __helper_save_gpu_address_range. cbn [Z.eqb gpu_address_set r_start].
  assert (u64 (dptr + size) = dptr + size) as -> by (apply Z.mod_small; lia).
  split; rewrite ?(g_tree_insert_nodes _ _ _ _ Hs Ho).
  - by apply put_sorted.
  - intros k v. rewrite put_elem, Hn by done. rewrite lookup_insert. case_decide as Hk.
    + split; [intros [[-> ->]|[? _]]; done|]. intros [[= Hv] Hst]. left. destruct v. cbn in *. by subst.
    + split; [intros [[? _]|[_ ?]]; [congruence|done]|]. intros ?. right. split; [congruence|done].
  - intros k e'. rewrite lookup_insert. case_decide as Hk; [intros [= <-]; lia|apply Hb].
Qed.

Lemma remembers_all allocs : Forall device_range allocs → ∀ m s, remembers m (gpu_address_set s) →
  remembers (foldl (λ m '(ret, dptr, size), if ret =? 0 then <[dptr := dptr + size]> m else m) m allocs)
    (gpu_address_set (save_all allocs s)).
Proof.
  induction 1 as [|[[ret dptr] size] allocs (H0 & H1 & H2) _ IH]; intros m s Hr; [done|]. cbn [foldl save_all].
  apply IH. destruct s as [stack t e]. unfold __helper_save_gpu_address_range at 1.
  destruct (Z.eqb_spec ret 0) as [->|]; [|done]. by apply (remembers_save m t dptr size stack e).
Qed.

Lemma remembers_direction m t ptr k v : remembers m t → (k, v) ∈ nodes t →
  gpu_address_search_func t k ptr = Ok (direction ptr v).
Proof.
  intros Hr Hin. pose proof (remembers_orders m t 0 Hr ltac:(lia)) as Ho. destruct Hr as [Hs _ _].
  unfold gpu_address_search_func. rewrite (lookup_node _ t k v Hs); [done| |done]. intros a b Ha Hb. apply Ho; by right.
Qed.

(** C19. [cudaPointerGetAttributes] tells device memory from host memory: after any sequence of
    allocations (some of which failed, and some at an address that was used before) whose
    remembered ranges do not overlap, a pointer is reported as device memory exactly when it is
    in one of them; for every other pointer the error is returned and is the last error.  This
    does not depend on how the tree is balanced. *)
Theorem pointer_attributes_exact (allocs : list (Z * Z * Z)) (ptr : Z) :
  Forall device_range allocs →
  (∀ a ea b eb, remembered allocs !! a = Some ea → remembered allocs !! b = Some eb → a < b → ea ≤ b) →
  let s := save_all allocs guest_state_new in
  ((∃ a e, remembered allocs !! a = Some e ∧ a ≤ ptr < e) →
     cudaPointerGetAttributes true ptr s =
       Ok (cudaSuccess, Some (mk_attr cudaMemoryTypeDevice cudaMemoryTypeDevice), s)) ∧
  ((¬ ∃ a e, remembered allocs !! a = Some e ∧ a ≤ ptr < e) →
     ∃ s', cudaPointerGetAttributes true ptr s =
       Ok (cudaErrorInvalidValue, Some (mk_attr cudaMemoryTypeUnregistered cudaMemoryTypeUnregistered), s') ∧
       cudaGetLastError s' = (cudaErrorInvalidValue, set_last_error CUDA_SUCCESS s)).
Proof.
  intros Hall Hdis s. assert (remembers (remembered allocs) (gpu_address_set s)) as Hr.
  { apply remembers_all; [done|]. split; cbn; [constructor| |intros k e; by rewrite lookup_empty].
    intros k v. rewrite lookup_empty. split; [by intros ?%not_elem_of_nil|by intros [? _]]. }
  pose proof (λ k v, remembers_direction _ _ ptr k v Hr) as Hd. destruct Hr as [Hs Hn Hb].
  unfold cudaPointerGetAttributes. cbn [negb]. split.
  - intros (a & e & Ha & Hp). assert ((a, mk_range a e) ∈ nodes (gpu_address_set s)) as Hin by (by apply Hn).
    rewrite (search_inside _ ptr _ Hs) with (k := a) (v := mk_range a e); try done. split.
    + intros k v [Hk Hst]%Hn. apply Hb in Hk. split; [done|lia].
    + intros k v k' v' [Hk _]%Hn [Hk' _]%Hn. by apply (Hdis k (r_end v) k' (r_end v')).
  - intros Hno. rewrite (search_outside _ ptr _ Hd); [cbn [mbind res_bind]; by eexists|].
    intros k v [Hk Hst]%Hn Hv. apply Hno. exists k, (r_end v). unfold inside in Hv. rewrite Hst in Hv. done.
Qed.
End addresses.

(** ** Launch configurations *)

(** A kernel launch pushes its configuration and the stub of the kernel pops it; arguments of the
    launch may launch kernels themselves. *)
Inductive launch := Launch (gridDim blockDim : dim3) (sharedMem stream : Z) (nested : list launch).

(** The configurations that the stubs get, in the order in which they get them. *)
Fixpoint run_launch (l : launch) (s : guest_state) : res (list call_configuration * guest_state) :=
  match l with
  | Launch gd bd sm st nested =>
      let '(_, s) := __cudaPushCallConfiguration gd bd sm st s in
      '(ccs, s) ← (fix go ls s := match ls with
                   | [] => Ok ([], s)
                   | l :: ls => '(cs, s) ← run_launch l s; '(cs', s) ← go ls s; Ok (cs ++ cs', s)
                   end) nested s;
      '(_, cc, s) ← __cudaPopCallConfiguration s;
      Ok (ccs ++ [cc], s)
  end.

(** The configurations of a launch and of those inside, innermost first. *)
Fixpoint configurations (l : launch) : list call_configuration :=
  match l with
  | Launch gd bd sm st nested => concat (configurations <$> nested) ++ [mk_cc gd bd sm st]
  end.

Lemma launch_rect' (P : launch → Prop) :
  (∀ gd bd sm st nested, Forall P nested → P (Launch gd bd sm st nested)) → ∀ l, P l.
Proof.
  intros Hl. fix IH 1. intros [gd bd sm st nested]. apply Hl. induction nested; constructor; [apply IH|done].
Qed.

(** Every stub gets the configuration of its own launch, and the stack is as it was. *)
Theorem launches_get_configurations l : ∀ s, run_launch l s = Ok (configurations l, s).
Proof.
  induction l as [gd bd sm st nested IH] using launch_rect'. intros s. cbn [run_launch configurations].
  set (s1 := (__cudaPushCallConfiguration gd bd sm st s).2).
  assert (∀ s, (fix go ls s := match ls with
     | [] => Ok ([], s)
     | l :: ls => '(cs, s) ← run_launch l s; '(cs', s) ← go ls s; Ok (cs ++ cs', s)
     end) nested s = Ok (concat (configurations <$> nested), s)) as Hn.
  { clear -IH. induction IH as [|l ls Hl _ IH]; intros s; [done|]. rewrite Hl. cbn [mbind res_bind]. by rewrite IH. }
  cbn. rewrite Hn. cbn. by destruct s.
Qed.

(** ** A tree for the witnesses: insertion at the leaves *)

Fixpoint tree_insert (cmp : Z → Z → Z) (k : Z) (v : gpu_address_range) (t : tree) : tree :=
  match t with
  | Leaf => Node Leaf k v Leaf
  | Node l k' v' r =>
      let c := cmp k k' in
      if c =? 0 then Node l k v r else if c <? 0 then Node (tree_insert cmp k v l) k' v' r
      else Node l k' v' (tree_insert cmp k v r)
  end.

Lemma put_left k v l k0 v0 r : (∀ p, p ∈ l → p.1 < k0) → k < k0 → put k v (l ++ (k0, v0) :: r) = put k v l ++ (k0, v0) :: r.
Proof.
  intros Hl Hk. induction l as [|[k1 v1] l IH]; cbn.
  { by rewrite (proj2 (Z.ltb_lt _ _) Hk). }
  destruct (k <? k1); [done|]. destruct (k =? k1); [done|]. cbn. f_equal. apply IH. intros p Hp. apply Hl. by right.
Qed.
Lemma put_right k v l k0 v0 r : (∀ p, p ∈ l → p.1 < k0) → k0 ≤ k →
  put k v (l ++ (k0, v0) :: r) = if k =? k0 then l ++ (k, v) :: r else l ++ (k0, v0) :: put k v r.
Proof.
  intros Hl Hk. induction l as [|[k1 v1] l IH]; cbn.
  { by rewrite (proj2 (Z.ltb_ge _ _) Hk). }
  specialize (Hl (k1, v1) ltac:(left)) as Hk1. cbn in Hk1.
  rewrite (proj2 (Z.ltb_ge _ _)), (proj2 (Z.eqb_neq k k1)) by lia. rewrite IH by (intros p Hp; apply Hl; by right). by destruct (k =? k0).
Qed.

#[refine] Instance leaf_tree : GTree := { g_tree_insert := tree_insert }.
Proof.
  intros cmp k v t. induction t as [|l IHl k0 v0 r IHr]; intros Hs Ho; [done|]. cbn [tree_insert nodes] in *.
  destruct (sorted_app _ _ _ _ Hs) as (Hsl & Hsr & Hl & Hr). rewrite fmap_app, fmap_cons in Ho.
  rewrite (Ho k k0) by set_solver. destruct (Z.compare_spec k k0) as [->|Hlt|Hgt]; cbn [Z.eqb Z.ltb Z.compare nodes].
  - rewrite put_right by (done || lia). by rewrite Z.eqb_refl.
  - rewrite put_left, IHl; try done. intros a b Ha Hb. apply Ho; set_solver.
  - rewrite put_right, IHr, (proj2 (Z.eqb_neq k k0)); try done; try lia. intros a b Ha Hb. apply Ho; set_solver.
Defined.

Lemma pointer_attributes_exact_witness :
  let s := save_all [(0, 4096, 512); (2, 0, 8); (0, 8192, 256); (0, 4096, 1024)] guest_state_new in
  cudaPointerGetAttributes true 5000 s =
    Ok (cudaSuccess, Some (mk_attr cudaMemoryTypeDevice cudaMemoryTypeDevice), s).
Proof.
  apply (pointer_attributes_exact [(0, 4096, 512); (2, 0, 8); (0, 8192, 256); (0, 4096, 1024)] 5000).
  - repeat (constructor; [unfold device_range; lia|]). constructor.
  - intros a ea b eb Ha Hb. change (remembered _) with (<[4096 := 5120]> (<[8192 := 8448]> (<[4096 := 4608]> ∅)) : gmap Z Z) in Ha, Hb.
    rewrite !lookup_insert, lookup_empty in Ha, Hb. repeat case_decide; simplify_eq; lia.
  - exists 4096, 5120. split; [reflexivity|lia].
Defined.

(** No function removes a range when its memory is freed. After [120, 130) was freed and
    [100, 200) was allocated, the pointer 150 into the new memory is taken for host memory, if
    the old range is the root of the tree. *)
Lemma stale_range_hides_memory :
  let s := save_all [(0, 120, 10); (0, 100, 100)] guest_state_new in
  ∃ s', cudaPointerGetAttributes true 150 s =
    Ok (cudaErrorInvalidValue, Some (mk_attr cudaMemoryTypeUnregistered cudaMemoryTypeUnregistered), s').
Proof. by eexists. Qed.
