(* ===== verification/Aborting.v ===== *)
(** * Declared functions that abort (cava/nightwatch/generator/c/stubs.py)

    A specification declares the functions that it does not implement with a body that prints
    a message and aborts.  The parser takes such a body for the prologue of a supported function:
    the function has its number in the enumeration of commands, and the generated stub runs the
    prologue after it has created the command and before it runs the send code.  A function with
    [ava_unsupported] has a stub that only aborts, and no number. *)

From S2P Require Import Prelude Channel Endpoint SocketChannel Cava Stub Remote RemoteCall SpecCheck.
From Stdlib Require Import Ascii.
Local Open Scope Z_scope.

Record aborting := mk_aborting { ab_func : func; ab_prologue : list statement }.

(** [fprintf(stderr, "%s is not implemented\n", name); abort();] *)
Definition newline : string := String (ascii_of_nat 10) EmptyString.
Definition not_implemented (name : name_macro) : list statement :=
  [Fprintf ("%s is not implemented" +:+ newline) name; Call_abort].

#[export] Instance name_macro_eq_dec : EqDecision name_macro.
Proof. solve_decision. Defined.
#[export] Instance statement_eq_dec : EqDecision statement.
Proof. solve_decision. Defined.

Lemma not_implemented_aborts name m :
  run_statements name (not_implemented m) EmptyString =
    Stop (AssertFailed (name +:+ " is not implemented" +:+ newline)).
Proof. by destruct m. Qed.

(** The [i]-th function of an API, with [__func__] or [__PRETTY_FUNCTION__] in its body. *)
Definition aborts (i : Z) (name : string) (args : list argument) (ret : option ty * option Z) : aborting :=
  mk_aborting (declare i name args ret.1 sync ret.2) (not_implemented __func__).
Definition aborts_pretty (i : Z) (name : string) (args : list argument) (ret : option ty * option Z) : aborting :=
  mk_aborting (declare i name args ret.1 sync ret.2) (not_implemented __PRETTY_FUNCTION__).

(** Arguments without annotations by their type: numbers of 1 to 16 bytes, signed or not, handles
    and other pointers, structs by value with their size and alignment.  A status is an enumeration whose success is 0, a code one that declares no
    success. *)
Module Signature.
Definition i1 (x : string) : argument := arg x (scalar 1 true).
Definition i2 (x : string) : argument := arg x (scalar 2 true).
Definition i4 (x : string) : argument := arg x (scalar 4 true).
Definition i8 (x : string) : argument := arg x (scalar 8 true).
Definition u1 (x : string) : argument := arg x (scalar 1 false).
Definition u2 (x : string) : argument := arg x (scalar 2 false).
Definition u4 (x : string) : argument := arg x (scalar 4 false).
Definition u8 (x : string) : argument := arg x (scalar 8 false).
Definition u16 (x : string) : argument := arg x (scalar 16 false).
Definition h (x : string) : argument := arg x handle.
Definition p (x : string) : argument := arg x opaque_ptr.
Definition struct_value (size align : nat) : ty := TVal size align false (EInt NW_OPAQUE) (EInt 0).
Definition by_value (size align : nat) (x : string) : argument := arg x (struct_value size align).
Definition status : option ty * option Z := (Some (scalar 4 false), Some 0).
Definition code : option ty * option Z := (Some (scalar 4 false), None).
End Signature.

Definition aborting_implementation `{Channel C} {S} (send_code : bool → command → C → heap → S → res (C * heap * S))
    (f : aborting) : list argument → Z → Z → gmap string Z → guest C → S → res (Z * Z * guest C * S) :=
  function_implementation_with (ab_prologue f) send_code (ab_func f).

Definition unsupported_function_implementation {A} (name : string) : res A :=
  Stop (AssertFailed ("Unsupported API function: " +:+ name)).

(** ** The stub reaches the prologue *)

(** No argument is an input buffer, and none is implicit. *)
Definition plain_arguments (f : func) : bool :=
  forallb (λ a, is_false (a_input a) && negb (a_implicit a)) (f_arguments f).

Lemma plain_total bs order vals E m :
  forallb (λ a, is_false (a_input a)) order = true → compute_total_size bs a_input order vals E m = Ok 0.
Proof.
  unfold compute_total_size. generalize 0. induction order as [|a order IH]; intros acc Ha; [done|].
  cbn in Ha |- *. apply andb_true_iff in Ha as [-> Ha]. by apply IH.
Qed.

(** A prologue that ends the process is the end of the stub, whatever the send code. *)
Lemma aborting_stub {A B} `{Channel A} `{Channel B} {conn : A → B → Prop} `{!Link A B conn} `{Toposort} {S}
    (send_code : bool → command → A → heap → S → res (A * heap * S))
    (f : aborting) order api thread args (g : guest A) (b : B) (s : S) r :
  plain_arguments (ab_func f) = true → toposort_flatten (f_arguments (ab_func f)) = Some order →
  conn (g_chan g) b → room (sizeof_struct (call_types order)) 0 →
  run_statements (f_name (ab_func f)) (ab_prologue f) EmptyString = Stop r →
  aborting_implementation send_code f order api thread args g s = Stop r.
Proof.
  intros Hp Ht Hc Hr Hrun. pose proof (toposort_perm _ _ Ht) as Hperm. unfold plain_arguments in Hp.
  rewrite forallb_forall in Hp. setoid_rewrite andb_true_iff in Hp.
  assert (forallb (λ a, is_false (a_input a)) order = true) as Ho.
  { apply forallb_forall. intros a Ha%list_elem_of_In. rewrite Hperm in Ha. by apply Hp, list_elem_of_In. }
  assert (implicit_arguments (ab_func f) = []) as Hi.
  { unfold implicit_arguments. destruct (filter _ _) as [|a l] eqn:Hf; [done|]. exfalso.
    assert (a ∈ filter (λ a, a_implicit a = true) (f_arguments (ab_func f))) as [Ht' Ha%list_elem_of_In]%list_elem_of_filter
      by (rewrite Hf; left).
    apply Hp in Ha as [_ Hn%negb_true_iff]. congruence. }
  unfold aborting_implementation, function_implementation_with. destruct (ava_get_call_id _) as [call_id ep]. rewrite (plain_total _ _ _ _ _ Ho). cbn [mbind res_bind].
  destruct (link_new (g_chan g) b (g_heap g) (sizeof_struct (call_types order)) 0 Hc) as (cmd & a' & Hn & _); [|lia|done|].
  { unfold sizeof_struct. lia. }
  rewrite Hn, Hi. cbn [mbind res_bind mapS]. by rewrite Hrun.
Qed.
