(* ===== verification/AbortOnnxOpt.v ===== *)
(** * Functions that are not implemented for CUDA under ONNX Runtime
      (cava/samples/onnxruntime/onnx_opt.c)

    The declarations whose body prints that the function is not implemented and aborts: the number
    of the function in the API, its name, its arguments and its result.  A table has declarations
    that follow one another in the source. *)

From S2P Require Import Prelude Cava SpecCheck Aborting.
Import Signature.
Local Open Scope Z_scope.

Definition cu_1 : list aborting :=
  [aborts 81 "cuOccupancyMaxActiveBlocksPerMultiprocessor"
     [arg_out "numBlocks" (buffer (EInt 1) (scalar 4 true)) []; h "func"; i4 "blockSize";
      u8 "dynamicSMemSize"] status;
   aborts 82 "cuOccupancyMaxActiveBlocksPerMultiprocessorWithFlags"
     [arg_out "numBlocks" (buffer (EInt 1) (scalar 4 true)) []; h "func"; i4 "blockSize";
      u8 "dynamicSMemSize"; u4 "flags"] status].

Definition cublas_1 : list aborting :=
  [aborts 83 "cublasGetAtomicsMode" [h "handle"; p "mode"] status;
   aborts 84 "cublasSetAtomicsMode" [h "handle"; u4 "mode"] status;
   aborts 85 "cublasLoggerConfigure"
     [i4 "logIsOn"; i4 "logToStdOut"; i4 "logToStdErr"; p "logFileName"] status;
   aborts 86 "cublasSetLoggerCallback" [u8 "userCallback"] status;
   aborts 87 "cublasGetLoggerCallback" [p "userCallback"] status].

Definition cublas_2 : list aborting :=
  [aborts 88 "cublasSetVector" [i4 "n"; i4 "elemSize"; p "x"; i4 "incx"; p "devicePtr"; i4 "incy"] status;
   aborts 89 "cublasGetVector" [i4 "n"; i4 "elemSize"; p "x"; i4 "incx"; p "y"; i4 "incy"] status;
   aborts 90 "cublasGetMathMode" [h "handle"; p "mode"] status;
   aborts 91 "cublasSetMathMode" [h "handle"; u4 "mode"] status].

Definition cublas_3 : list aborting :=
  [aborts 94 "cublasSetMatrixAsync"
     [i4 "rows"; i4 "cols"; i4 "elemSize"; p "A"; i4 "lda"; p "B"; i4 "ldb"; h "stream"] status;
   aborts 95 "cublasGetMatrixAsync"
     [i4 "rows"; i4 "cols"; i4 "elemSize"; p "A"; i4 "lda"; p "B"; i4 "ldb"; h "stream"] status;
   aborts 96 "cublasNrm2Ex"
     [h "handle"; i4 "n"; p "x"; u4 "xType"; i4 "incx"; p "result"; u4 "resultType"; u4 "executionType"] status;
   aborts 97 "cublasSnrm2_v2" [h "handle"; i4 "n"; p "x"; i4 "incx"; p "result"] status;
   aborts 98 "cublasDnrm2_v2" [h "handle"; i4 "n"; p "x"; i4 "incx"; p "result"] status;
   aborts 99 "cublasScnrm2_v2" [h "handle"; i4 "n"; p "x"; i4 "incx"; p "result"] status;
   aborts 100 "cublasDznrm2_v2" [h "handle"; i4 "n"; p "x"; i4 "incx"; p "result"] status;
   aborts 101 "cublasDotEx"
     [h "handle"; i4 "n"; p "x"; u4 "xType"; i4 "incx"; p "y"; u4 "yType"; i4 "incy"; p "result";
      u4 "resultType"; u4 "executionType"] status;
   aborts 102 "cublasDotcEx"
     [h "handle"; i4 "n"; p "x"; u4 "xType"; i4 "incx"; p "y"; u4 "yType"; i4 "incy"; p "result";
      u4 "resultType"; u4 "executionType"] status;
   aborts 103 "cublasSdot_v2" [h "handle"; i4 "n"; p "x"; i4 "incx"; p "y"; i4 "incy"; p "result"] status;
   aborts 104 "cublasDdot_v2" [h "handle"; i4 "n"; p "x"; i4 "incx"; p "y"; i4 "incy"; p "result"] status;
   aborts 105 "cublasCdotu_v2" [h "handle"; i4 "n"; p "x"; i4 "incx"; p "y"; i4 "incy"; p "result"] status;
   aborts 106 "cublasCdotc_v2" [h "handle"; i4 "n"; p "x"; i4 "incx"; p "y"; i4 "incy"; p "result"] status].

Definition cublas_4 : list aborting :=
  [aborts 107 "cublasZdotu_v2" [h "handle"; i4 "n"; p "x"; i4 "incx"; p "y"; i4 "incy"; p "result"] status;
   aborts 108 "cublasZdotc_v2" [h "handle"; i4 "n"; p "x"; i4 "incx"; p "y"; i4 "incy"; p "result"] status;
   aborts 109 "cublasScalEx"
     [h "handle"; i4 "n"; p "alpha"; u4 "alphaType"; p "x"; u4 "xType"; i4 "incx"; u4 "executionType"] status;
   aborts 110 "cublasDscal_v2" [h "handle"; i4 "n"; p "alpha"; p "x"; i4 "incx"] status;
   aborts 111 "cublasCscal_v2" [h "handle"; i4 "n"; p "alpha"; p "x"; i4 "incx"] status;
   aborts 112 "cublasCsscal_v2" [h "handle"; i4 "n"; p "alpha"; p "x"; i4 "incx"] status;
   aborts 113 "cublasZscal_v2" [h "handle"; i4 "n"; p "alpha"; p "x"; i4 "incx"] status;
   aborts 114 "cublasZdscal_v2" [h "handle"; i4 "n"; p "alpha"; p "x"; i4 "incx"] status;
   aborts 115 "cublasAxpyEx"
     [h "handle"; i4 "n"; p "alpha"; u4 "alphaType"; p "x"; u4 "xType"; i4 "incx"; p "y"; u4 "yType";
      i4 "incy"; u4 "executiontype"] status;
   aborts 116 "cublasSaxpy_v2" [h "handle"; i4 "n"; p "alpha"; p "x"; i4 "incx"; p "y"; i4 "incy"] status;
   aborts 117 "cublasDaxpy_v2" [h "handle"; i4 "n"; p "alpha"; p "x"; i4 "incx"; p "y"; i4 "incy"] status;
   aborts 118 "cublasCaxpy_v2" [h "handle"; i4 "n"; p "alpha"; p "x"; i4 "incx"; p "y"; i4 "incy"] status;
   aborts 119 "cublasZaxpy_v2" [h "handle"; i4 "n"; p "alpha"; p "x"; i4 "incx"; p "y"; i4 "incy"] status].

Definition cublas_5 : list aborting :=
  [aborts 120 "cublasCopyEx"
     [h "handle"; i4 "n"; p "x"; u4 "xType"; i4 "incx"; p "y"; u4 "yType"; i4 "incy"] status;
   aborts 121 "cublasScopy_v2" [h "handle"; i4 "n"; p "x"; i4 "incx"; p "y"; i4 "incy"] status;
   aborts 122 "cublasDcopy_v2" [h "handle"; i4 "n"; p "x"; i4 "incx"; p "y"; i4 "incy"] status;
   aborts 123 "cublasCcopy_v2" [h "handle"; i4 "n"; p "x"; i4 "incx"; p "y"; i4 "incy"] status;
   aborts 124 "cublasZcopy_v2" [h "handle"; i4 "n"; p "x"; i4 "incx"; p "y"; i4 "incy"] status;
   aborts 125 "cublasSswap_v2" [h "handle"; i4 "n"; p "x"; i4 "incx"; p "y"; i4 "incy"] status;
   aborts 126 "cublasDswap_v2" [h "handle"; i4 "n"; p "x"; i4 "incx"; p "y"; i4 "incy"] status;
   aborts 127 "cublasCswap_v2" [h "handle"; i4 "n"; p "x"; i4 "incx"; p "y"; i4 "incy"] status;
   aborts 128 "cublasZswap_v2" [h "handle"; i4 "n"; p "x"; i4 "incx"; p "y"; i4 "incy"] status;
   aborts 129 "cublasSwapEx"
     [h "handle"; i4 "n"; p "x"; u4 "xType"; i4 "incx"; p "y"; u4 "yType"; i4 "incy"] status;
   aborts 130 "cublasIsamax_v2" [h "handle"; i4 "n"; p "x"; i4 "incx"; p "result"] status;
   aborts 131 "cublasIdamax_v2" [h "handle"; i4 "n"; p "x"; i4 "incx"; p "result"] status;
   aborts 132 "cublasIcamax_v2" [h "handle"; i4 "n"; p "x"; i4 "incx"; p "result"] status].

Definition cublas_6 : list aborting :=
  [aborts 133 "cublasIzamax_v2" [h "handle"; i4 "n"; p "x"; i4 "incx"; p "result"] status;
   aborts 134 "cublasIamaxEx" [h "handle"; i4 "n"; p "x"; u4 "xType"; i4 "incx"; p "result"] status;
   aborts 135 "cublasIsamin_v2" [h "handle"; i4 "n"; p "x"; i4 "incx"; p "result"] status;
   aborts 136 "cublasIdamin_v2" [h "handle"; i4 "n"; p "x"; i4 "incx"; p "result"] status;
   aborts 137 "cublasIcamin_v2" [h "handle"; i4 "n"; p "x"; i4 "incx"; p "result"] status;
   aborts 138 "cublasIzamin_v2" [h "handle"; i4 "n"; p "x"; i4 "incx"; p "result"] status;
   aborts 139 "cublasIaminEx" [h "handle"; i4 "n"; p "x"; u4 "xType"; i4 "incx"; p "result"] status;
   aborts 140 "cublasAsumEx"
     [h "handle"; i4 "n"; p "x"; u4 "xType"; i4 "incx"; p "result"; u4 "resultType"; u4 "executiontype"] status;
   aborts 141 "cublasSasum_v2" [h "handle"; i4 "n"; p "x"; i4 "incx"; p "result"] status;
   aborts 142 "cublasDasum_v2" [h "handle"; i4 "n"; p "x"; i4 "incx"; p "result"] status;
   aborts 143 "cublasScasum_v2" [h "handle"; i4 "n"; p "x"; i4 "incx"; p "result"] status;
   aborts 144 "cublasDzasum_v2" [h "handle"; i4 "n"; p "x"; i4 "incx"; p "result"] status;
   aborts 145 "cublasSrot_v2" [h "handle"; i4 "n"; p "x"; i4 "incx"; p "y"; i4 "incy"; p "c"; p "s"] status].

Definition cublas_7 : list aborting :=
  [aborts 146 "cublasDrot_v2" [h "handle"; i4 "n"; p "x"; i4 "incx"; p "y"; i4 "incy"; p "c"; p "s"] status;
   aborts 147 "cublasCrot_v2" [h "handle"; i4 "n"; p "x"; i4 "incx"; p "y"; i4 "incy"; p "c"; p "s"] status;
   aborts 148 "cublasCsrot_v2"
     [h "handle"; i4 "n"; p "x"; i4 "incx"; p "y"; i4 "incy"; p "c"; p "s"] status;
   aborts 149 "cublasZrot_v2" [h "handle"; i4 "n"; p "x"; i4 "incx"; p "y"; i4 "incy"; p "c"; p "s"] status;
   aborts 150 "cublasZdrot_v2"
     [h "handle"; i4 "n"; p "x"; i4 "incx"; p "y"; i4 "incy"; p "c"; p "s"] status;
   aborts 151 "cublasRotEx"
     [h "handle"; i4 "n"; p "x"; u4 "xType"; i4 "incx"; p "y"; u4 "yType"; i4 "incy"; p "c"; p "s";
      u4 "csType"; u4 "executiontype"] status;
   aborts 152 "cublasSrotg_v2" [h "handle"; p "a"; p "b"; p "c"; p "s"] status;
   aborts 153 "cublasDrotg_v2" [h "handle"; p "a"; p "b"; p "c"; p "s"] status;
   aborts 154 "cublasCrotg_v2" [h "handle"; p "a"; p "b"; p "c"; p "s"] status;
   aborts 155 "cublasZrotg_v2" [h "handle"; p "a"; p "b"; p "c"; p "s"] status;
   aborts 156 "cublasRotgEx"
     [h "handle"; p "a"; p "b"; u4 "abType"; p "c"; p "s"; u4 "csType"; u4 "executiontype"] status;
   aborts 157 "cublasSrotm_v2" [h "handle"; i4 "n"; p "x"; i4 "incx"; p "y"; i4 "incy"; p "param"] status].

Definition cublas_8 : list aborting :=
  [aborts 158 "cublasDrotm_v2" [h "handle"; i4 "n"; p "x"; i4 "incx"; p "y"; i4 "incy"; p "param"] status;
   aborts 159 "cublasRotmEx"
     [h "handle"; i4 "n"; p "x"; u4 "xType"; i4 "incx"; p "y"; u4 "yType"; i4 "incy"; p "param";
      u4 "paramType"; u4 "executiontype"] status;
   aborts 160 "cublasSrotmg_v2" [h "handle"; p "d1"; p "d2"; p "x1"; p "y1"; p "param"] status;
   aborts 161 "cublasDrotmg_v2" [h "handle"; p "d1"; p "d2"; p "x1"; p "y1"; p "param"] status;
   aborts 162 "cublasRotmgEx"
     [h "handle"; p "d1"; u4 "d1Type"; p "d2"; u4 "d2Type"; p "x1"; u4 "x1Type"; p "y1"; u4 "y1Type";
      p "param"; u4 "paramType"; u4 "executiontype"] status].

Definition cublas_9 : list aborting :=
  [aborts 163 "cublasSgemv_v2"
     [h "handle"; u4 "trans"; i4 "m"; i4 "n"; p "alpha"; p "A"; i4 "lda"; p "x"; i4 "incx"; p "beta";
      p "y"; i4 "incy"] status;
   aborts 164 "cublasDgemv_v2"
     [h "handle"; u4 "trans"; i4 "m"; i4 "n"; p "alpha"; p "A"; i4 "lda"; p "x"; i4 "incx"; p "beta";
      p "y"; i4 "incy"] status;
   aborts 165 "cublasCgemv_v2"
     [h "handle"; u4 "trans"; i4 "m"; i4 "n"; p "alpha"; p "A"; i4 "lda"; p "x"; i4 "incx"; p "beta";
      p "y"; i4 "incy"] status;
   aborts 166 "cublasZgemv_v2"
     [h "handle"; u4 "trans"; i4 "m"; i4 "n"; p "alpha"; p "A"; i4 "lda"; p "x"; i4 "incx"; p "beta";
      p "y"; i4 "incy"] status;
   aborts 167 "cublasSgbmv_v2"
     [h "handle"; u4 "trans"; i4 "m"; i4 "n"; i4 "kl"; i4 "ku"; p "alpha"; p "A"; i4 "lda"; p "x";
      i4 "incx"; p "beta"; p "y"; i4 "incy"] status;
   aborts 168 "cublasDgbmv_v2"
     [h "handle"; u4 "trans"; i4 "m"; i4 "n"; i4 "kl"; i4 "ku"; p "alpha"; p "A"; i4 "lda"; p "x";
      i4 "incx"; p "beta"; p "y"; i4 "incy"] status;
   aborts 169 "cublasCgbmv_v2"
     [h "handle"; u4 "trans"; i4 "m"; i4 "n"; i4 "kl"; i4 "ku"; p "alpha"; p "A"; i4 "lda"; p "x";
      i4 "incx"; p "beta"; p "y"; i4 "incy"] status;
   aborts 170 "cublasZgbmv_v2"
     [h "handle"; u4 "trans"; i4 "m"; i4 "n"; i4 "kl"; i4 "ku"; p "alpha"; p "A"; i4 "lda"; p "x";
      i4 "incx"; p "beta"; p "y"; i4 "incy"] status].

Definition cublas_10 : list aborting :=
  [aborts 171 "cublasStrmv_v2"
     [h "handle"; u4 "uplo"; u4 "trans"; u4 "diag"; i4 "n"; p "A"; i4 "lda"; p "x"; i4 "incx"] status;
   aborts 172 "cublasDtrmv_v2"
     [h "handle"; u4 "uplo"; u4 "trans"; u4 "diag"; i4 "n"; p "A"; i4 "lda"; p "x"; i4 "incx"] status;
   aborts 173 "cublasCtrmv_v2"
     [h "handle"; u4 "uplo"; u4 "trans"; u4 "diag"; i4 "n"; p "A"; i4 "lda"; p "x"; i4 "incx"] status;
   aborts 174 "cublasZtrmv_v2"
     [h "handle"; u4 "uplo"; u4 "trans"; u4 "diag"; i4 "n"; p "A"; i4 "lda"; p "x"; i4 "incx"] status;
   aborts 175 "cublasStbmv_v2"
     [h "handle"; u4 "uplo"; u4 "trans"; u4 "diag"; i4 "n"; i4 "k"; p "A"; i4 "lda"; p "x"; i4 "incx"] status;
   aborts 176 "cublasDtbmv_v2"
     [h "handle"; u4 "uplo"; u4 "trans"; u4 "diag"; i4 "n"; i4 "k"; p "A"; i4 "lda"; p "x"; i4 "incx"] status;
   aborts 177 "cublasCtbmv_v2"
     [h "handle"; u4 "uplo"; u4 "trans"; u4 "diag"; i4 "n"; i4 "k"; p "A"; i4 "lda"; p "x"; i4 "incx"] status;
   aborts 178 "cublasZtbmv_v2"
     [h "handle"; u4 "uplo"; u4 "trans"; u4 "diag"; i4 "n"; i4 "k"; p "A"; i4 "lda"; p "x"; i4 "incx"] status;
   aborts 179 "cublasStpmv_v2"
     [h "handle"; u4 "uplo"; u4 "trans"; u4 "diag"; i4 "n"; p "AP"; p "x"; i4 "incx"] status;
   aborts 180 "cublasDtpmv_v2"
     [h "handle"; u4 "uplo"; u4 "trans"; u4 "diag"; i4 "n"; p "AP"; p "x"; i4 "incx"] status].

Definition cublas_11 : list aborting :=
  [aborts 181 "cublasCtpmv_v2"
     [h "handle"; u4 "uplo"; u4 "trans"; u4 "diag"; i4 "n"; p "AP"; p "x"; i4 "incx"] status;
   aborts 182 "cublasZtpmv_v2"
     [h "handle"; u4 "uplo"; u4 "trans"; u4 "diag"; i4 "n"; p "AP"; p "x"; i4 "incx"] status;
   aborts 183 "cublasStrsv_v2"
     [h "handle"; u4 "uplo"; u4 "trans"; u4 "diag"; i4 "n"; p "A"; i4 "lda"; p "x"; i4 "incx"] status;
   aborts 184 "cublasDtrsv_v2"
     [h "handle"; u4 "uplo"; u4 "trans"; u4 "diag"; i4 "n"; p "A"; i4 "lda"; p "x"; i4 "incx"] status;
   aborts 185 "cublasCtrsv_v2"
     [h "handle"; u4 "uplo"; u4 "trans"; u4 "diag"; i4 "n"; p "A"; i4 "lda"; p "x"; i4 "incx"] status;
   aborts 186 "cublasZtrsv_v2"
     [h "handle"; u4 "uplo"; u4 "trans"; u4 "diag"; i4 "n"; p "A"; i4 "lda"; p "x"; i4 "incx"] status;
   aborts 187 "cublasStpsv_v2"
     [h "handle"; u4 "uplo"; u4 "trans"; u4 "diag"; i4 "n"; p "AP"; p "x"; i4 "incx"] status;
   aborts 188 "cublasDtpsv_v2"
     [h "handle"; u4 "uplo"; u4 "trans"; u4 "diag"; i4 "n"; p "AP"; p "x"; i4 "incx"] status;
   aborts 189 "cublasCtpsv_v2"
     [h "handle"; u4 "uplo"; u4 "trans"; u4 "diag"; i4 "n"; p "AP"; p "x"; i4 "incx"] status;
   aborts 190 "cublasZtpsv_v2"
     [h "handle"; u4 "uplo"; u4 "trans"; u4 "diag"; i4 "n"; p "AP"; p "x"; i4 "incx"] status;
   aborts 191 "cublasStbsv_v2"
     [h "handle"; u4 "uplo"; u4 "trans"; u4 "diag"; i4 "n"; i4 "k"; p "A"; i4 "lda"; p "x"; i4 "incx"] status].

Definition cublas_12 : list aborting :=
  [aborts 192 "cublasDtbsv_v2"
     [h "handle"; u4 "uplo"; u4 "trans"; u4 "diag"; i4 "n"; i4 "k"; p "A"; i4 "lda"; p "x"; i4 "incx"] status;
   aborts 193 "cublasCtbsv_v2"
     [h "handle"; u4 "uplo"; u4 "trans"; u4 "diag"; i4 "n"; i4 "k"; p "A"; i4 "lda"; p "x"; i4 "incx"] status;
   aborts 194 "cublasZtbsv_v2"
     [h "handle"; u4 "uplo"; u4 "trans"; u4 "diag"; i4 "n"; i4 "k"; p "A"; i4 "lda"; p "x"; i4 "incx"] status;
   aborts 195 "cublasSsymv_v2"
     [h "handle"; u4 "uplo"; i4 "n"; p "alpha"; p "A"; i4 "lda"; p "x"; i4 "incx"; p "beta"; p "y";
      i4 "incy"] status;
   aborts 196 "cublasDsymv_v2"
     [h "handle"; u4 "uplo"; i4 "n"; p "alpha"; p "A"; i4 "lda"; p "x"; i4 "incx"; p "beta"; p "y";
      i4 "incy"] status;
   aborts 197 "cublasCsymv_v2"
     [h "handle"; u4 "uplo"; i4 "n"; p "alpha"; p "A"; i4 "lda"; p "x"; i4 "incx"; p "beta"; p "y";
      i4 "incy"] status;
   aborts 198 "cublasZsymv_v2"
     [h "handle"; u4 "uplo"; i4 "n"; p "alpha"; p "A"; i4 "lda"; p "x"; i4 "incx"; p "beta"; p "y";
      i4 "incy"] status;
   aborts 199 "cublasChemv_v2"
     [h "handle"; u4 "uplo"; i4 "n"; p "alpha"; p "A"; i4 "lda"; p "x"; i4 "incx"; p "beta"; p "y";
      i4 "incy"] status;
   aborts 200 "cublasZhemv_v2"
     [h "handle"; u4 "uplo"; i4 "n"; p "alpha"; p "A"; i4 "lda"; p "x"; i4 "incx"; p "beta"; p "y";
      i4 "incy"] status].

Definition cublas_13 : list aborting :=
  [aborts 201 "cublasSsbmv_v2"
     [h "handle"; u4 "uplo"; i4 "n"; i4 "k"; p "alpha"; p "A"; i4 "lda"; p "x"; i4 "incx"; p "beta"; p "y";
      i4 "incy"] status;
   aborts 202 "cublasDsbmv_v2"
     [h "handle"; u4 "uplo"; i4 "n"; i4 "k"; p "alpha"; p "A"; i4 "lda"; p "x"; i4 "incx"; p "beta"; p "y";
      i4 "incy"] status;
   aborts 203 "cublasChbmv_v2"
     [h "handle"; u4 "uplo"; i4 "n"; i4 "k"; p "alpha"; p "A"; i4 "lda"; p "x"; i4 "incx"; p "beta"; p "y";
      i4 "incy"] status;
   aborts 204 "cublasZhbmv_v2"
     [h "handle"; u4 "uplo"; i4 "n"; i4 "k"; p "alpha"; p "A"; i4 "lda"; p "x"; i4 "incx"; p "beta"; p "y";
      i4 "incy"] status;
   aborts 205 "cublasSspmv_v2"
     [h "handle"; u4 "uplo"; i4 "n"; p "alpha"; p "AP"; p "x"; i4 "incx"; p "beta"; p "y"; i4 "incy"] status;
   aborts 206 "cublasDspmv_v2"
     [h "handle"; u4 "uplo"; i4 "n"; p "alpha"; p "AP"; p "x"; i4 "incx"; p "beta"; p "y"; i4 "incy"] status;
   aborts 207 "cublasChpmv_v2"
     [h "handle"; u4 "uplo"; i4 "n"; p "alpha"; p "AP"; p "x"; i4 "incx"; p "beta"; p "y"; i4 "incy"] status;
   aborts 208 "cublasZhpmv_v2"
     [h "handle"; u4 "uplo"; i4 "n"; p "alpha"; p "AP"; p "x"; i4 "incx"; p "beta"; p "y"; i4 "incy"] status;
   aborts 209 "cublasSger_v2"
     [h "handle"; i4 "m"; i4 "n"; p "alpha"; p "x"; i4 "incx"; p "y"; i4 "incy"; p "A"; i4 "lda"] status].

Definition cublas_14 : list aborting :=
  [aborts 210 "cublasDger_v2"
     [h "handle"; i4 "m"; i4 "n"; p "alpha"; p "x"; i4 "incx"; p "y"; i4 "incy"; p "A"; i4 "lda"] status;
   aborts 211 "cublasCgeru_v2"
     [h "handle"; i4 "m"; i4 "n"; p "alpha"; p "x"; i4 "incx"; p "y"; i4 "incy"; p "A"; i4 "lda"] status;
   aborts 212 "cublasCgerc_v2"
     [h "handle"; i4 "m"; i4 "n"; p "alpha"; p "x"; i4 "incx"; p "y"; i4 "incy"; p "A"; i4 "lda"] status;
   aborts 213 "cublasZgeru_v2"
     [h "handle"; i4 "m"; i4 "n"; p "alpha"; p "x"; i4 "incx"; p "y"; i4 "incy"; p "A"; i4 "lda"] status;
   aborts 214 "cublasZgerc_v2"
     [h "handle"; i4 "m"; i4 "n"; p "alpha"; p "x"; i4 "incx"; p "y"; i4 "incy"; p "A"; i4 "lda"] status;
   aborts 215 "cublasSsyr_v2"
     [h "handle"; u4 "uplo"; i4 "n"; p "alpha"; p "x"; i4 "incx"; p "A"; i4 "lda"] status;
   aborts 216 "cublasDsyr_v2"
     [h "handle"; u4 "uplo"; i4 "n"; p "alpha"; p "x"; i4 "incx"; p "A"; i4 "lda"] status;
   aborts 217 "cublasCsyr_v2"
     [h "handle"; u4 "uplo"; i4 "n"; p "alpha"; p "x"; i4 "incx"; p "A"; i4 "lda"] status;
   aborts 218 "cublasZsyr_v2"
     [h "handle"; u4 "uplo"; i4 "n"; p "alpha"; p "x"; i4 "incx"; p "A"; i4 "lda"] status;
   aborts 219 "cublasCher_v2"
     [h "handle"; u4 "uplo"; i4 "n"; p "alpha"; p "x"; i4 "incx"; p "A"; i4 "lda"] status].

Definition cublas_15 : list aborting :=
  [aborts 220 "cublasZher_v2"
     [h "handle"; u4 "uplo"; i4 "n"; p "alpha"; p "x"; i4 "incx"; p "A"; i4 "lda"] status;
   aborts 221 "cublasSspr_v2" [h "handle"; u4 "uplo"; i4 "n"; p "alpha"; p "x"; i4 "incx"; p "AP"] status;
   aborts 222 "cublasDspr_v2" [h "handle"; u4 "uplo"; i4 "n"; p "alpha"; p "x"; i4 "incx"; p "AP"] status;
   aborts 223 "cublasChpr_v2" [h "handle"; u4 "uplo"; i4 "n"; p "alpha"; p "x"; i4 "incx"; p "AP"] status;
   aborts 224 "cublasZhpr_v2" [h "handle"; u4 "uplo"; i4 "n"; p "alpha"; p "x"; i4 "incx"; p "AP"] status;
   aborts 225 "cublasSsyr2_v2"
     [h "handle"; u4 "uplo"; i4 "n"; p "alpha"; p "x"; i4 "incx"; p "y"; i4 "incy"; p "A"; i4 "lda"] status;
   aborts 226 "cublasDsyr2_v2"
     [h "handle"; u4 "uplo"; i4 "n"; p "alpha"; p "x"; i4 "incx"; p "y"; i4 "incy"; p "A"; i4 "lda"] status;
   aborts 227 "cublasCsyr2_v2"
     [h "handle"; u4 "uplo"; i4 "n"; p "alpha"; p "x"; i4 "incx"; p "y"; i4 "incy"; p "A"; i4 "lda"] status;
   aborts 228 "cublasZsyr2_v2"
     [h "handle"; u4 "uplo"; i4 "n"; p "alpha"; p "x"; i4 "incx"; p "y"; i4 "incy"; p "A"; i4 "lda"] status;
   aborts 229 "cublasCher2_v2"
     [h "handle"; u4 "uplo"; i4 "n"; p "alpha"; p "x"; i4 "incx"; p "y"; i4 "incy"; p "A"; i4 "lda"] status].

Definition cublas_16 : list aborting :=
  [aborts 230 "cublasZher2_v2"
     [h "handle"; u4 "uplo"; i4 "n"; p "alpha"; p "x"; i4 "incx"; p "y"; i4 "incy"; p "A"; i4 "lda"] status;
   aborts 231 "cublasSspr2_v2"
     [h "handle"; u4 "uplo"; i4 "n"; p "alpha"; p "x"; i4 "incx"; p "y"; i4 "incy"; p "AP"] status;
   aborts 232 "cublasDspr2_v2"
     [h "handle"; u4 "uplo"; i4 "n"; p "alpha"; p "x"; i4 "incx"; p "y"; i4 "incy"; p "AP"] status;
   aborts 233 "cublasChpr2_v2"
     [h "handle"; u4 "uplo"; i4 "n"; p "alpha"; p "x"; i4 "incx"; p "y"; i4 "incy"; p "AP"] status;
   aborts 234 "cublasZhpr2_v2"
     [h "handle"; u4 "uplo"; i4 "n"; p "alpha"; p "x"; i4 "incx"; p "y"; i4 "incy"; p "AP"] status].

Definition cublas_17 : list aborting :=
  [aborts 236 "cublasDgemm_v2"
     [h "handle"; u4 "transa"; u4 "transb"; i4 "m"; i4 "n"; i4 "k"; p "alpha"; p "A"; i4 "lda"; p "B";
      i4 "ldb"; p "beta"; p "C"; i4 "ldc"] status;
   aborts 237 "cublasCgemm_v2"
     [h "handle"; u4 "transa"; u4 "transb"; i4 "m"; i4 "n"; i4 "k"; p "alpha"; p "A"; i4 "lda"; p "B";
      i4 "ldb"; p "beta"; p "C"; i4 "ldc"] status;
   aborts 238 "cublasCgemm3m"
     [h "handle"; u4 "transa"; u4 "transb"; i4 "m"; i4 "n"; i4 "k"; p "alpha"; p "A"; i4 "lda"; p "B";
      i4 "ldb"; p "beta"; p "C"; i4 "ldc"] status;
   aborts 239 "cublasCgemm3mEx"
     [h "handle"; u4 "transa"; u4 "transb"; i4 "m"; i4 "n"; i4 "k"; p "alpha"; p "A"; u4 "Atype"; i4 "lda";
      p "B"; u4 "Btype"; i4 "ldb"; p "beta"; p "C"; u4 "Ctype"; i4 "ldc"] status;
   aborts 240 "cublasZgemm_v2"
     [h "handle"; u4 "transa"; u4 "transb"; i4 "m"; i4 "n"; i4 "k"; p "alpha"; p "A"; i4 "lda"; p "B";
      i4 "ldb"; p "beta"; p "C"; i4 "ldc"] status;
   aborts 241 "cublasZgemm3m"
     [h "handle"; u4 "transa"; u4 "transb"; i4 "m"; i4 "n"; i4 "k"; p "alpha"; p "A"; i4 "lda"; p "B";
      i4 "ldb"; p "beta"; p "C"; i4 "ldc"] status;
   aborts 242 "cublasHgemm"
     [h "handle"; u4 "transa"; u4 "transb"; i4 "m"; i4 "n"; i4 "k"; p "alpha"; p "A"; i4 "lda"; p "B";
      i4 "ldb"; p "beta"; p "C"; i4 "ldc"] status].

Definition cublas_18 : list aborting :=
  [aborts 243 "cublasSgemmEx"
     [h "handle"; u4 "transa"; u4 "transb"; i4 "m"; i4 "n"; i4 "k"; p "alpha"; p "A"; u4 "Atype"; i4 "lda";
      p "B"; u4 "Btype"; i4 "ldb"; p "beta"; p "C"; u4 "Ctype"; i4 "ldc"] status;
   aborts 244 "cublasGemmEx"
     [h "handle"; u4 "transa"; u4 "transb"; i4 "m"; i4 "n"; i4 "k"; p "alpha"; p "A"; u4 "Atype"; i4 "lda";
      p "B"; u4 "Btype"; i4 "ldb"; p "beta"; p "C"; u4 "Ctype"; i4 "ldc"; u4 "computeType"; u4 "algo"] status;
   aborts 245 "cublasCgemmEx"
     [h "handle"; u4 "transa"; u4 "transb"; i4 "m"; i4 "n"; i4 "k"; p "alpha"; p "A"; u4 "Atype"; i4 "lda";
      p "B"; u4 "Btype"; i4 "ldb"; p "beta"; p "C"; u4 "Ctype"; i4 "ldc"] status;
   aborts 246 "cublasUint8gemmBias"
     [h "handle"; u4 "transa"; u4 "transb"; u4 "transc"; i4 "m"; i4 "n"; i4 "k"; p "A"; i4 "A_bias";
      i4 "lda"; p "B"; i4 "B_bias"; i4 "ldb"; p "C"; i4 "C_bias"; i4 "ldc"; i4 "C_mult"; i4 "C_shift"] status;
   aborts 247 "cublasSsyrk_v2"
     [h "handle"; u4 "uplo"; u4 "trans"; i4 "n"; i4 "k"; p "alpha"; p "A"; i4 "lda"; p "beta"; p "C";
      i4 "ldc"] status;
   aborts 248 "cublasDsyrk_v2"
     [h "handle"; u4 "uplo"; u4 "trans"; i4 "n"; i4 "k"; p "alpha"; p "A"; i4 "lda"; p "beta"; p "C";
      i4 "ldc"] status;
   aborts 249 "cublasCsyrk_v2"
     [h "handle"; u4 "uplo"; u4 "trans"; i4 "n"; i4 "k"; p "alpha"; p "A"; i4 "lda"; p "beta"; p "C";
      i4 "ldc"] status;
   aborts 250 "cublasZsyrk_v2"
     [h "handle"; u4 "uplo"; u4 "trans"; i4 "n"; i4 "k"; p "alpha"; p "A"; i4 "lda"; p "beta"; p "C";
      i4 "ldc"] status].

Definition cublas_19 : list aborting :=
  [aborts 251 "cublasCsyrkEx"
     [h "handle"; u4 "uplo"; u4 "trans"; i4 "n"; i4 "k"; p "alpha"; p "A"; u4 "Atype"; i4 "lda"; p "beta";
      p "C"; u4 "Ctype"; i4 "ldc"] status;
   aborts 252 "cublasCsyrk3mEx"
     [h "handle"; u4 "uplo"; u4 "trans"; i4 "n"; i4 "k"; p "alpha"; p "A"; u4 "Atype"; i4 "lda"; p "beta";
      p "C"; u4 "Ctype"; i4 "ldc"] status;
   aborts 253 "cublasCherk_v2"
     [h "handle"; u4 "uplo"; u4 "trans"; i4 "n"; i4 "k"; p "alpha"; p "A"; i4 "lda"; p "beta"; p "C";
      i4 "ldc"] status;
   aborts 254 "cublasZherk_v2"
     [h "handle"; u4 "uplo"; u4 "trans"; i4 "n"; i4 "k"; p "alpha"; p "A"; i4 "lda"; p "beta"; p "C";
      i4 "ldc"] status;
   aborts 255 "cublasCherkEx"
     [h "handle"; u4 "uplo"; u4 "trans"; i4 "n"; i4 "k"; p "alpha"; p "A"; u4 "Atype"; i4 "lda"; p "beta";
      p "C"; u4 "Ctype"; i4 "ldc"] status;
   aborts 256 "cublasCherk3mEx"
     [h "handle"; u4 "uplo"; u4 "trans"; i4 "n"; i4 "k"; p "alpha"; p "A"; u4 "Atype"; i4 "lda"; p "beta";
      p "C"; u4 "Ctype"; i4 "ldc"] status].

Definition cublas_20 : list aborting :=
  [aborts 257 "cublasSsyr2k_v2"
     [h "handle"; u4 "uplo"; u4 "trans"; i4 "n"; i4 "k"; p "alpha"; p "A"; i4 "lda"; p "B"; i4 "ldb";
      p "beta"; p "C"; i4 "ldc"] status;
   aborts 258 "cublasDsyr2k_v2"
     [h "handle"; u4 "uplo"; u4 "trans"; i4 "n"; i4 "k"; p "alpha"; p "A"; i4 "lda"; p "B"; i4 "ldb";
      p "beta"; p "C"; i4 "ldc"] status;
   aborts 259 "cublasCsyr2k_v2"
     [h "handle"; u4 "uplo"; u4 "trans"; i4 "n"; i4 "k"; p "alpha"; p "A"; i4 "lda"; p "B"; i4 "ldb";
      p "beta"; p "C"; i4 "ldc"] status;
   aborts 260 "cublasZsyr2k_v2"
     [h "handle"; u4 "uplo"; u4 "trans"; i4 "n"; i4 "k"; p "alpha"; p "A"; i4 "lda"; p "B"; i4 "ldb";
      p "beta"; p "C"; i4 "ldc"] status;
   aborts 261 "cublasCher2k_v2"
     [h "handle"; u4 "uplo"; u4 "trans"; i4 "n"; i4 "k"; p "alpha"; p "A"; i4 "lda"; p "B"; i4 "ldb";
      p "beta"; p "C"; i4 "ldc"] status;
   aborts 262 "cublasZher2k_v2"
     [h "handle"; u4 "uplo"; u4 "trans"; i4 "n"; i4 "k"; p "alpha"; p "A"; i4 "lda"; p "B"; i4 "ldb";
      p "beta"; p "C"; i4 "ldc"] status;
   aborts 263 "cublasSsyrkx"
     [h "handle"; u4 "uplo"; u4 "trans"; i4 "n"; i4 "k"; p "alpha"; p "A"; i4 "lda"; p "B"; i4 "ldb";
      p "beta"; p "C"; i4 "ldc"] status;
   aborts 264 "cublasDsyrkx"
     [h "handle"; u4 "uplo"; u4 "trans"; i4 "n"; i4 "k"; p "alpha"; p "A"; i4 "lda"; p "B"; i4 "ldb";
      p "beta"; p "C"; i4 "ldc"] status].

Definition cublas_21 : list aborting :=
  [aborts 265 "cublasCsyrkx"
     [h "handle"; u4 "uplo"; u4 "trans"; i4 "n"; i4 "k"; p "alpha"; p "A"; i4 "lda"; p "B"; i4 "ldb";
      p "beta"; p "C"; i4 "ldc"] status;
   aborts 266 "cublasZsyrkx"
     [h "handle"; u4 "uplo"; u4 "trans"; i4 "n"; i4 "k"; p "alpha"; p "A"; i4 "lda"; p "B"; i4 "ldb";
      p "beta"; p "C"; i4 "ldc"] status;
   aborts 267 "cublasCherkx"
     [h "handle"; u4 "uplo"; u4 "trans"; i4 "n"; i4 "k"; p "alpha"; p "A"; i4 "lda"; p "B"; i4 "ldb";
      p "beta"; p "C"; i4 "ldc"] status;
   aborts 268 "cublasZherkx"
     [h "handle"; u4 "uplo"; u4 "trans"; i4 "n"; i4 "k"; p "alpha"; p "A"; i4 "lda"; p "B"; i4 "ldb";
      p "beta"; p "C"; i4 "ldc"] status;
   aborts 269 "cublasSsymm_v2"
     [h "handle"; u4 "side"; u4 "uplo"; i4 "m"; i4 "n"; p "alpha"; p "A"; i4 "lda"; p "B"; i4 "ldb";
      p "beta"; p "C"; i4 "ldc"] status;
   aborts 270 "cublasDsymm_v2"
     [h "handle"; u4 "side"; u4 "uplo"; i4 "m"; i4 "n"; p "alpha"; p "A"; i4 "lda"; p "B"; i4 "ldb";
      p "beta"; p "C"; i4 "ldc"] status;
   aborts 271 "cublasCsymm_v2"
     [h "handle"; u4 "side"; u4 "uplo"; i4 "m"; i4 "n"; p "alpha"; p "A"; i4 "lda"; p "B"; i4 "ldb";
      p "beta"; p "C"; i4 "ldc"] status;
   aborts 272 "cublasZsymm_v2"
     [h "handle"; u4 "side"; u4 "uplo"; i4 "m"; i4 "n"; p "alpha"; p "A"; i4 "lda"; p "B"; i4 "ldb";
      p "beta"; p "C"; i4 "ldc"] status].

Definition cublas_22 : list aborting :=
  [aborts 273 "cublasChemm_v2"
     [h "handle"; u4 "side"; u4 "uplo"; i4 "m"; i4 "n"; p "alpha"; p "A"; i4 "lda"; p "B"; i4 "ldb";
      p "beta"; p "C"; i4 "ldc"] status;
   aborts 274 "cublasZhemm_v2"
     [h "handle"; u4 "side"; u4 "uplo"; i4 "m"; i4 "n"; p "alpha"; p "A"; i4 "lda"; p "B"; i4 "ldb";
      p "beta"; p "C"; i4 "ldc"] status;
   aborts 275 "cublasStrsm_v2"
     [h "handle"; u4 "side"; u4 "uplo"; u4 "trans"; u4 "diag"; i4 "m"; i4 "n"; p "alpha"; p "A"; i4 "lda";
      p "B"; i4 "ldb"] status;
   aborts 276 "cublasDtrsm_v2"
     [h "handle"; u4 "side"; u4 "uplo"; u4 "trans"; u4 "diag"; i4 "m"; i4 "n"; p "alpha"; p "A"; i4 "lda";
      p "B"; i4 "ldb"] status;
   aborts 277 "cublasCtrsm_v2"
     [h "handle"; u4 "side"; u4 "uplo"; u4 "trans"; u4 "diag"; i4 "m"; i4 "n"; p "alpha"; p "A"; i4 "lda";
      p "B"; i4 "ldb"] status;
   aborts 278 "cublasZtrsm_v2"
     [h "handle"; u4 "side"; u4 "uplo"; u4 "trans"; u4 "diag"; i4 "m"; i4 "n"; p "alpha"; p "A"; i4 "lda";
      p "B"; i4 "ldb"] status;
   aborts 279 "cublasStrmm_v2"
     [h "handle"; u4 "side"; u4 "uplo"; u4 "trans"; u4 "diag"; i4 "m"; i4 "n"; p "alpha"; p "A"; i4 "lda";
      p "B"; i4 "ldb"; p "C"; i4 "ldc"] status;
   aborts 280 "cublasDtrmm_v2"
     [h "handle"; u4 "side"; u4 "uplo"; u4 "trans"; u4 "diag"; i4 "m"; i4 "n"; p "alpha"; p "A"; i4 "lda";
      p "B"; i4 "ldb"; p "C"; i4 "ldc"] status].

Definition cublas_23 : list aborting :=
  [aborts 281 "cublasCtrmm_v2"
     [h "handle"; u4 "side"; u4 "uplo"; u4 "trans"; u4 "diag"; i4 "m"; i4 "n"; p "alpha"; p "A"; i4 "lda";
      p "B"; i4 "ldb"; p "C"; i4 "ldc"] status;
   aborts 282 "cublasZtrmm_v2"
     [h "handle"; u4 "side"; u4 "uplo"; u4 "trans"; u4 "diag"; i4 "m"; i4 "n"; p "alpha"; p "A"; i4 "lda";
      p "B"; i4 "ldb"; p "C"; i4 "ldc"] status;
   aborts 283 "cublasSgemmBatched"
     [h "handle"; u4 "transa"; u4 "transb"; i4 "m"; i4 "n"; i4 "k"; p "alpha"; p "Aarray"; i4 "lda";
      p "Barray"; i4 "ldb"; p "beta"; p "Carray"; i4 "ldc"; i4 "batchCount"] status;
   aborts 284 "cublasDgemmBatched"
     [h "handle"; u4 "transa"; u4 "transb"; i4 "m"; i4 "n"; i4 "k"; p "alpha"; p "Aarray"; i4 "lda";
      p "Barray"; i4 "ldb"; p "beta"; p "Carray"; i4 "ldc"; i4 "batchCount"] status;
   aborts 285 "cublasCgemmBatched"
     [h "handle"; u4 "transa"; u4 "transb"; i4 "m"; i4 "n"; i4 "k"; p "alpha"; p "Aarray"; i4 "lda";
      p "Barray"; i4 "ldb"; p "beta"; p "Carray"; i4 "ldc"; i4 "batchCount"] status;
   aborts 286 "cublasCgemm3mBatched"
     [h "handle"; u4 "transa"; u4 "transb"; i4 "m"; i4 "n"; i4 "k"; p "alpha"; p "Aarray"; i4 "lda";
      p "Barray"; i4 "ldb"; p "beta"; p "Carray"; i4 "ldc"; i4 "batchCount"] status;
   aborts 287 "cublasZgemmBatched"
     [h "handle"; u4 "transa"; u4 "transb"; i4 "m"; i4 "n"; i4 "k"; p "alpha"; p "Aarray"; i4 "lda";
      p "Barray"; i4 "ldb"; p "beta"; p "Carray"; i4 "ldc"; i4 "batchCount"] status].

Definition cublas_24 : list aborting :=
  [aborts 289 "cublasGemmStridedBatchedEx"
     [h "handle"; u4 "transa"; u4 "transb"; i4 "m"; i4 "n"; i4 "k"; p "alpha"; p "A"; u4 "Atype"; i4 "lda";
      i8 "strideA"; p "B"; u4 "Btype"; i4 "ldb"; i8 "strideB"; p "beta"; p "C"; u4 "Ctype"; i4 "ldc";
      i8 "strideC"; i4 "batchCount"; u4 "computeType"; u4 "algo"] status;
   aborts 290 "cublasSgemmStridedBatched"
     [h "handle"; u4 "transa"; u4 "transb"; i4 "m"; i4 "n"; i4 "k"; p "alpha"; p "A"; i4 "lda";
      i8 "strideA"; p "B"; i4 "ldb"; i8 "strideB"; p "beta"; p "C"; i4 "ldc"; i8 "strideC"; i4 "batchCount"] status;
   aborts 291 "cublasDgemmStridedBatched"
     [h "handle"; u4 "transa"; u4 "transb"; i4 "m"; i4 "n"; i4 "k"; p "alpha"; p "A"; i4 "lda";
      i8 "strideA"; p "B"; i4 "ldb"; i8 "strideB"; p "beta"; p "C"; i4 "ldc"; i8 "strideC"; i4 "batchCount"] status;
   aborts 292 "cublasCgemmStridedBatched"
     [h "handle"; u4 "transa"; u4 "transb"; i4 "m"; i4 "n"; i4 "k"; p "alpha"; p "A"; i4 "lda";
      i8 "strideA"; p "B"; i4 "ldb"; i8 "strideB"; p "beta"; p "C"; i4 "ldc"; i8 "strideC"; i4 "batchCount"] status;
   aborts 293 "cublasCgemm3mStridedBatched"
     [h "handle"; u4 "transa"; u4 "transb"; i4 "m"; i4 "n"; i4 "k"; p "alpha"; p "A"; i4 "lda";
      i8 "strideA"; p "B"; i4 "ldb"; i8 "strideB"; p "beta"; p "C"; i4 "ldc"; i8 "strideC"; i4 "batchCount"] status;
   aborts 294 "cublasZgemmStridedBatched"
     [h "handle"; u4 "transa"; u4 "transb"; i4 "m"; i4 "n"; i4 "k"; p "alpha"; p "A"; i4 "lda";
      i8 "strideA"; p "B"; i4 "ldb"; i8 "strideB"; p "beta"; p "C"; i4 "ldc"; i8 "strideC"; i4 "batchCount"] status].

Definition cublas_25 : list aborting :=
  [aborts 296 "cublasDgeam"
     [h "handle"; u4 "transa"; u4 "transb"; i4 "m"; i4 "n"; p "alpha"; p "A"; i4 "lda"; p "beta"; p "B";
      i4 "ldb"; p "C"; i4 "ldc"] status;
   aborts 297 "cublasCgeam"
     [h "handle"; u4 "transa"; u4 "transb"; i4 "m"; i4 "n"; p "alpha"; p "A"; i4 "lda"; p "beta"; p "B";
      i4 "ldb"; p "C"; i4 "ldc"] status;
   aborts 298 "cublasZgeam"
     [h "handle"; u4 "transa"; u4 "transb"; i4 "m"; i4 "n"; p "alpha"; p "A"; i4 "lda"; p "beta"; p "B";
      i4 "ldb"; p "C"; i4 "ldc"] status;
   aborts 299 "cublasSgetrfBatched"
     [h "handle"; i4 "n"; p "A"; i4 "lda"; p "P"; p "info"; i4 "batchSize"] status;
   aborts 300 "cublasDgetrfBatched"
     [h "handle"; i4 "n"; p "A"; i4 "lda"; p "P"; p "info"; i4 "batchSize"] status;
   aborts 301 "cublasCgetrfBatched"
     [h "handle"; i4 "n"; p "A"; i4 "lda"; p "P"; p "info"; i4 "batchSize"] status;
   aborts 302 "cublasZgetrfBatched"
     [h "handle"; i4 "n"; p "A"; i4 "lda"; p "P"; p "info"; i4 "batchSize"] status;
   aborts 303 "cublasSgetriBatched"
     [h "handle"; i4 "n"; p "A"; i4 "lda"; p "P"; p "C"; i4 "ldc"; p "info"; i4 "batchSize"] status;
   aborts 304 "cublasDgetriBatched"
     [h "handle"; i4 "n"; p "A"; i4 "lda"; p "P"; p "C"; i4 "ldc"; p "info"; i4 "batchSize"] status;
   aborts 305 "cublasCgetriBatched"
     [h "handle"; i4 "n"; p "A"; i4 "lda"; p "P"; p "C"; i4 "ldc"; p "info"; i4 "batchSize"] status].

Definition cublas_26 : list aborting :=
  [aborts 306 "cublasZgetriBatched"
     [h "handle"; i4 "n"; p "A"; i4 "lda"; p "P"; p "C"; i4 "ldc"; p "info"; i4 "batchSize"] status].

Definition cublas_27 : list aborting :=
  [aborts 307 "cublasSgetrsBatched"
     [h "handle"; u4 "trans"; i4 "n"; i4 "nrhs"; p "Aarray"; i4 "lda"; p "devIpiv"; p "Barray"; i4 "ldb";
      p "info"; i4 "batchSize"] status;
   aborts 308 "cublasDgetrsBatched"
     [h "handle"; u4 "trans"; i4 "n"; i4 "nrhs"; p "Aarray"; i4 "lda"; p "devIpiv"; p "Barray"; i4 "ldb";
      p "info"; i4 "batchSize"] status;
   aborts 309 "cublasCgetrsBatched"
     [h "handle"; u4 "trans"; i4 "n"; i4 "nrhs"; p "Aarray"; i4 "lda"; p "devIpiv"; p "Barray"; i4 "ldb";
      p "info"; i4 "batchSize"] status;
   aborts 310 "cublasZgetrsBatched"
     [h "handle"; u4 "trans"; i4 "n"; i4 "nrhs"; p "Aarray"; i4 "lda"; p "devIpiv"; p "Barray"; i4 "ldb";
      p "info"; i4 "batchSize"] status].

Definition cublas_28 : list aborting :=
  [aborts 311 "cublasStrsmBatched"
     [h "handle"; u4 "side"; u4 "uplo"; u4 "trans"; u4 "diag"; i4 "m"; i4 "n"; p "alpha"; p "A"; i4 "lda";
      p "B"; i4 "ldb"; i4 "batchCount"] status;
   aborts 312 "cublasDtrsmBatched"
     [h "handle"; u4 "side"; u4 "uplo"; u4 "trans"; u4 "diag"; i4 "m"; i4 "n"; p "alpha"; p "A"; i4 "lda";
      p "B"; i4 "ldb"; i4 "batchCount"] status;
   aborts 313 "cublasCtrsmBatched"
     [h "handle"; u4 "side"; u4 "uplo"; u4 "trans"; u4 "diag"; i4 "m"; i4 "n"; p "alpha"; p "A"; i4 "lda";
      p "B"; i4 "ldb"; i4 "batchCount"] status;
   aborts 314 "cublasZtrsmBatched"
     [h "handle"; u4 "side"; u4 "uplo"; u4 "trans"; u4 "diag"; i4 "m"; i4 "n"; p "alpha"; p "A"; i4 "lda";
      p "B"; i4 "ldb"; i4 "batchCount"] status;
   aborts 315 "cublasSmatinvBatched"
     [h "handle"; i4 "n"; p "A"; i4 "lda"; p "Ainv"; i4 "lda_inv"; p "info"; i4 "batchSize"] status;
   aborts 316 "cublasDmatinvBatched"
     [h "handle"; i4 "n"; p "A"; i4 "lda"; p "Ainv"; i4 "lda_inv"; p "info"; i4 "batchSize"] status;
   aborts 317 "cublasCmatinvBatched"
     [h "handle"; i4 "n"; p "A"; i4 "lda"; p "Ainv"; i4 "lda_inv"; p "info"; i4 "batchSize"] status;
   aborts 318 "cublasZmatinvBatched"
     [h "handle"; i4 "n"; p "A"; i4 "lda"; p "Ainv"; i4 "lda_inv"; p "info"; i4 "batchSize"] status;
   aborts 319 "cublasSgeqrfBatched"
     [h "handle"; i4 "m"; i4 "n"; p "Aarray"; i4 "lda"; p "TauArray"; p "info"; i4 "batchSize"] status].

Definition cublas_29 : list aborting :=
  [aborts 320 "cublasDgeqrfBatched"
     [h "handle"; i4 "m"; i4 "n"; p "Aarray"; i4 "lda"; p "TauArray"; p "info"; i4 "batchSize"] status;
   aborts 321 "cublasCgeqrfBatched"
     [h "handle"; i4 "m"; i4 "n"; p "Aarray"; i4 "lda"; p "TauArray"; p "info"; i4 "batchSize"] status;
   aborts 322 "cublasZgeqrfBatched"
     [h "handle"; i4 "m"; i4 "n"; p "Aarray"; i4 "lda"; p "TauArray"; p "info"; i4 "batchSize"] status;
   aborts 323 "cublasSgelsBatched"
     [h "handle"; u4 "trans"; i4 "m"; i4 "n"; i4 "nrhs"; p "Aarray"; i4 "lda"; p "Carray"; i4 "ldc";
      p "info"; p "devInfoArray"; i4 "batchSize"] status;
   aborts 324 "cublasDgelsBatched"
     [h "handle"; u4 "trans"; i4 "m"; i4 "n"; i4 "nrhs"; p "Aarray"; i4 "lda"; p "Carray"; i4 "ldc";
      p "info"; p "devInfoArray"; i4 "batchSize"] status;
   aborts 325 "cublasCgelsBatched"
     [h "handle"; u4 "trans"; i4 "m"; i4 "n"; i4 "nrhs"; p "Aarray"; i4 "lda"; p "Carray"; i4 "ldc";
      p "info"; p "devInfoArray"; i4 "batchSize"] status;
   aborts 326 "cublasZgelsBatched"
     [h "handle"; u4 "trans"; i4 "m"; i4 "n"; i4 "nrhs"; p "Aarray"; i4 "lda"; p "Carray"; i4 "ldc";
      p "info"; p "devInfoArray"; i4 "batchSize"] status;
   aborts 327 "cublasSdgmm"
     [h "handle"; u4 "mode"; i4 "m"; i4 "n"; p "A"; i4 "lda"; p "x"; i4 "incx"; p "C"; i4 "ldc"] status;
   aborts 328 "cublasDdgmm"
     [h "handle"; u4 "mode"; i4 "m"; i4 "n"; p "A"; i4 "lda"; p "x"; i4 "incx"; p "C"; i4 "ldc"] status].

Definition cublas_30 : list aborting :=
  [aborts 329 "cublasCdgmm"
     [h "handle"; u4 "mode"; i4 "m"; i4 "n"; p "A"; i4 "lda"; p "x"; i4 "incx"; p "C"; i4 "ldc"] status;
   aborts 330 "cublasZdgmm"
     [h "handle"; u4 "mode"; i4 "m"; i4 "n"; p "A"; i4 "lda"; p "x"; i4 "incx"; p "C"; i4 "ldc"] status;
   aborts 331 "cublasStpttr" [h "handle"; u4 "uplo"; i4 "n"; p "AP"; p "A"; i4 "lda"] status;
   aborts 332 "cublasDtpttr" [h "handle"; u4 "uplo"; i4 "n"; p "AP"; p "A"; i4 "lda"] status;
   aborts 333 "cublasCtpttr" [h "handle"; u4 "uplo"; i4 "n"; p "AP"; p "A"; i4 "lda"] status;
   aborts 334 "cublasZtpttr" [h "handle"; u4 "uplo"; i4 "n"; p "AP"; p "A"; i4 "lda"] status;
   aborts 335 "cublasStrttp" [h "handle"; u4 "uplo"; i4 "n"; p "A"; i4 "lda"; p "AP"] status;
   aborts 336 "cublasDtrttp" [h "handle"; u4 "uplo"; i4 "n"; p "A"; i4 "lda"; p "AP"] status;
   aborts 337 "cublasCtrttp" [h "handle"; u4 "uplo"; i4 "n"; p "A"; i4 "lda"; p "AP"] status;
   aborts 338 "cublasZtrttp" [h "handle"; u4 "uplo"; i4 "n"; p "A"; i4 "lda"; p "AP"] status].

Definition cudnn_1 : list aborting :=
  [aborts_pretty 361 "cudnnSetRNNDescriptor"
     [h "handle"; h "rnnDesc"; i4 "hiddenSize"; i4 "numLayers"; h "dropoutDesc"; u4 "inputMode";
      u4 "direction"; u4 "mode"; u4 "algo"; u4 "mathPrec"] status;
   aborts_pretty 362 "cudnnGetRNNDescriptor"
     [h "handle"; h "rnnDesc"; p "hiddenSize"; p "numLayers"; p "dropoutDesc"; p "inputMode";
      p "direction"; p "mode"; p "algo"; p "mathPrec"] status;
   aborts_pretty 363 "cudnnSetRNNMatrixMathType" [h "rnnDesc"; u4 "mType"] status;
   aborts_pretty 364 "cudnnGetRNNMatrixMathType" [h "rnnDesc"; p "mType"] status;
   aborts_pretty 365 "cudnnRNNSetClip"
     [h "handle"; h "rnnDesc"; u4 "clipMode"; u4 "clipNanOpt"; u8 "lclip"; u8 "rclip"] status;
   aborts_pretty 366 "cudnnRNNGetClip"
     [h "handle"; h "rnnDesc"; p "clipMode"; p "clipNanOpt"; p "lclip"; p "rclip"] status;
   aborts_pretty 367 "cudnnSetRNNProjectionLayers"
     [h "handle"; h "rnnDesc"; i4 "recProjSize"; i4 "outProjSize"] status;
   aborts_pretty 368 "cudnnGetRNNProjectionLayers"
     [h "handle"; h "rnnDesc"; p "recProjSize"; p "outProjSize"] status;
   aborts_pretty 369 "cudnnCreatePersistentRNNPlan"
     [h "rnnDesc"; i4 "minibatch"; u4 "dataType"; p "plan"] status;
   aborts_pretty 370 "cudnnDestroyPersistentRNNPlan" [h "plan"] status;
   aborts_pretty 371 "cudnnSetPersistentRNNPlan" [h "rnnDesc"; h "plan"] status;
   aborts_pretty 372 "cudnnGetRNNWorkspaceSize"
     [h "handle"; h "rnnDesc"; i4 "seqLength"; p "xDesc"; p "sizeInBytes"] status;
   aborts_pretty 373 "cudnnGetRNNTrainingReserveSize"
     [h "handle"; h "rnnDesc"; i4 "seqLength"; p "xDesc"; p "sizeInBytes"] status;
   aborts_pretty 374 "cudnnGetRNNParamsSize"
     [h "handle"; h "rnnDesc"; h "xDesc"; p "sizeInBytes"; u4 "dataType"] status].

Definition cudnn_2 : list aborting :=
  [aborts_pretty 375 "cudnnGetRNNLinLayerMatrixParams"
     [h "handle"; h "rnnDesc"; i4 "pseudoLayer"; h "xDesc"; h "wDesc"; p "w"; i4 "linLayerID";
      h "linLayerMatDesc"; p "linLayerMat"] status;
   aborts_pretty 376 "cudnnGetRNNLinLayerBiasParams"
     [h "handle"; h "rnnDesc"; i4 "pseudoLayer"; h "xDesc"; h "wDesc"; p "w"; i4 "linLayerID";
      h "linLayerBiasDesc"; p "linLayerBias"] status;
   aborts_pretty 377 "cudnnRNNForwardInference"
     [h "handle"; h "rnnDesc"; i4 "seqLength"; p "xDesc"; p "x"; h "hxDesc"; p "hx"; h "cxDesc"; p "cx";
      h "wDesc"; p "w"; p "yDesc"; p "y"; h "hyDesc"; p "hy"; h "cyDesc"; p "cy"; p "workspace";
      u8 "workSpaceSizeInBytes"] status;
   aborts_pretty 378 "cudnnRNNForwardTraining"
     [h "handle"; h "rnnDesc"; i4 "seqLength"; p "xDesc"; p "x"; h "hxDesc"; p "hx"; h "cxDesc"; p "cx";
      h "wDesc"; p "w"; p "yDesc"; p "y"; h "hyDesc"; p "hy"; h "cyDesc"; p "cy"; p "workspace";
      u8 "workSpaceSizeInBytes"; p "reserveSpace"; u8 "reserveSpaceSizeInBytes"] status;
   aborts_pretty 379 "cudnnRNNBackwardData"
     [h "handle"; h "rnnDesc"; i4 "seqLength"; p "yDesc"; p "y"; p "dyDesc"; p "dy"; h "dhyDesc"; p "dhy";
      h "dcyDesc"; p "dcy"; h "wDesc"; p "w"; h "hxDesc"; p "hx"; h "cxDesc"; p "cx"; p "dxDesc"; p "dx";
      h "dhxDesc"; p "dhx"; h "dcxDesc"; p "dcx"; p "workspace"; u8 "workSpaceSizeInBytes";
      p "reserveSpace"; u8 "reserveSpaceSizeInBytes"] status;
   aborts_pretty 380 "cudnnRNNBackwardWeights"
     [h "handle"; h "rnnDesc"; i4 "seqLength"; p "xDesc"; p "x"; h "hxDesc"; p "hx"; p "yDesc"; p "y";
      p "workspace"; u8 "workSpaceSizeInBytes"; h "dwDesc"; p "dw"; p "reserveSpace";
      u8 "reserveSpaceSizeInBytes"] status].

Definition cudnn_3 : list aborting :=
  [aborts_pretty 381 "cudnnSetRNNPaddingMode" [h "rnnDesc"; u4 "paddingMode"] status;
   aborts_pretty 382 "cudnnGetRNNPaddingMode" [h "rnnDesc"; p "paddingMode"] status;
   aborts_pretty 383 "cudnnCreateRNNDataDescriptor" [p "rnnDataDesc"] status;
   aborts_pretty 384 "cudnnDestroyRNNDataDescriptor" [h "rnnDataDesc"] status;
   aborts_pretty 385 "cudnnSetRNNDataDescriptor"
     [h "rnnDataDesc"; u4 "dataType"; u4 "layout"; i4 "maxSeqLength"; i4 "batchSize"; i4 "vectorSize";
      p "seqLengthArray"; p "paddingFill"] status;
   aborts_pretty 386 "cudnnGetRNNDataDescriptor"
     [h "rnnDataDesc"; p "dataType"; p "layout"; p "maxSeqLength"; p "batchSize"; p "vectorSize";
      i4 "arrayLengthRequested"; p "seqLengthArray"; p "paddingFill"] status;
   aborts_pretty 387 "cudnnRNNForwardTrainingEx"
     [h "handle"; h "rnnDesc"; h "xDesc"; p "x"; h "hxDesc"; p "hx"; h "cxDesc"; p "cx"; h "wDesc"; p "w";
      h "yDesc"; p "y"; h "hyDesc"; p "hy"; h "cyDesc"; p "cy"; h "kDesc"; p "keys"; h "cDesc"; p "cAttn";
      h "iDesc"; p "iAttn"; h "qDesc"; p "queries"; p "workSpace"; u8 "workSpaceSizeInBytes";
      p "reserveSpace"; u8 "reserveSpaceSizeInBytes"] status;
   aborts_pretty 388 "cudnnRNNForwardInferenceEx"
     [h "handle"; h "rnnDesc"; h "xDesc"; p "x"; h "hxDesc"; p "hx"; h "cxDesc"; p "cx"; h "wDesc"; p "w";
      h "yDesc"; p "y"; h "hyDesc"; p "hy"; h "cyDesc"; p "cy"; h "kDesc"; p "keys"; h "cDesc"; p "cAttn";
      h "iDesc"; p "iAttn"; h "qDesc"; p "queries"; p "workSpace"; u8 "workSpaceSizeInBytes"] status].

Definition cudnn_4 : list aborting :=
  [aborts_pretty 389 "cudnnRNNBackwardDataEx"
     [h "handle"; h "rnnDesc"; h "yDesc"; p "y"; h "dyDesc"; p "dy"; h "dcDesc"; p "dcAttn"; h "dhyDesc";
      p "dhy"; h "dcyDesc"; p "dcy"; h "wDesc"; p "w"; h "hxDesc"; p "hx"; h "cxDesc"; p "cx"; h "dxDesc";
      p "dx"; h "dhxDesc"; p "dhx"; h "dcxDesc"; p "dcx"; h "dkDesc"; p "dkeys"; p "workSpace";
      u8 "workSpaceSizeInBytes"; p "reserveSpace"; u8 "reserveSpaceSizeInBytes"] status;
   aborts_pretty 390 "cudnnRNNBackwardWeightsEx"
     [h "handle"; h "rnnDesc"; h "xDesc"; p "x"; h "hxDesc"; p "hx"; h "yDesc"; p "y"; p "workSpace";
      u8 "workSpaceSizeInBytes"; h "dwDesc"; p "dw"; p "reserveSpace"; u8 "reserveSpaceSizeInBytes"] status].

Definition cudnn_5 : list aborting :=
  [aborts_pretty 391 "cudnnSetRNNAlgorithmDescriptor" [h "handle"; h "rnnDesc"; h "algoDesc"] status;
   aborts_pretty 392 "cudnnGetRNNForwardInferenceAlgorithmMaxCount"
     [h "handle"; h "rnnDesc"; p "count"] status;
   aborts_pretty 393 "cudnnFindRNNForwardInferenceAlgorithmEx"
     [h "handle"; h "rnnDesc"; i4 "seqLength"; p "xDesc"; p "x"; h "hxDesc"; p "hx"; h "cxDesc"; p "cx";
      h "wDesc"; p "w"; p "yDesc"; p "y"; h "hyDesc"; p "hy"; h "cyDesc"; p "cy"; u4 "findIntensity";
      i4 "requestedAlgoCount"; p "returnedAlgoCount"; p "perfResults"; p "workspace";
      u8 "workSpaceSizeInBytes"] status;
   aborts_pretty 394 "cudnnGetRNNForwardTrainingAlgorithmMaxCount"
     [h "handle"; h "rnnDesc"; p "count"] status;
   aborts_pretty 395 "cudnnFindRNNForwardTrainingAlgorithmEx"
     [h "handle"; h "rnnDesc"; i4 "seqLength"; p "xDesc"; p "x"; h "hxDesc"; p "hx"; h "cxDesc"; p "cx";
      h "wDesc"; p "w"; p "yDesc"; p "y"; h "hyDesc"; p "hy"; h "cyDesc"; p "cy"; u4 "findIntensity";
      i4 "requestedAlgoCount"; p "returnedAlgoCount"; p "perfResults"; p "workspace";
      u8 "workSpaceSizeInBytes"; p "reserveSpace"; u8 "reserveSpaceSizeInBytes"] status;
   aborts_pretty 396 "cudnnGetRNNBackwardDataAlgorithmMaxCount" [h "handle"; h "rnnDesc"; p "count"] status;
   aborts_pretty 397 "cudnnFindRNNBackwardDataAlgorithmEx"
     [h "handle"; h "rnnDesc"; i4 "seqLength"; p "yDesc"; p "y"; p "dyDesc"; p "dy"; h "dhyDesc"; p "dhy";
      h "dcyDesc"; p "dcy"; h "wDesc"; p "w"; h "hxDesc"; p "hx"; h "cxDesc"; p "cx"; p "dxDesc"; p "dx";
      h "dhxDesc"; p "dhx"; h "dcxDesc"; p "dcx"; u4 "findIntensity"; i4 "requestedAlgoCount";
      p "returnedAlgoCount"; p "perfResults"; p "workspace"; u8 "workSpaceSizeInBytes"; p "reserveSpace";
      u8 "reserveSpaceSizeInBytes"] status;
   aborts_pretty 398 "cudnnGetRNNBackwardWeightsAlgorithmMaxCount"
     [h "handle"; h "rnnDesc"; p "count"] status].

Definition cudnn_6 : list aborting :=
  [aborts_pretty 399 "cudnnFindRNNBackwardWeightsAlgorithmEx"
     [h "handle"; h "rnnDesc"; i4 "seqLength"; p "xDesc"; p "x"; h "hxDesc"; p "hx"; p "yDesc"; p "y";
      u4 "findIntensity"; i4 "requestedAlgoCount"; p "returnedAlgoCount"; p "perfResults"; p "workspace";
      u8 "workSpaceSizeInBytes"; h "dwDesc"; p "dw"; p "reserveSpace"; u8 "reserveSpaceSizeInBytes"] status].

Definition cudnn_7 : list aborting :=
  [aborts_pretty 400 "cudnnSetRNNDescriptor_v6"
     [h "handle"; h "rnnDesc"; i4 "hiddenSize"; i4 "numLayers"; h "dropoutDesc"; u4 "inputMode";
      u4 "direction"; u4 "mode"; u4 "algo"; u4 "mathPrec"] status;
   aborts_pretty 401 "cudnnSetRNNDescriptor_v5"
     [h "rnnDesc"; i4 "hiddenSize"; i4 "numLayers"; h "dropoutDesc"; u4 "inputMode"; u4 "direction";
      u4 "mode"; u4 "mathPrec"] status;
   aborts 402 "cudnnSetTensor4dDescriptor"
     [h "tensorDesc"; u4 "format"; u4 "dataType"; i4 "n"; i4 "c"; i4 "h"; i4 "w"] status;
   aborts 403 "cudnnSetTensor4dDescriptorEx"
     [h "tensorDesc"; u4 "dataType"; i4 "n"; i4 "c"; i4 "h"; i4 "w"; i4 "nStride"; i4 "cStride";
      i4 "hStride"; i4 "wStride"] status;
   aborts 404 "cudnnGetTensor4dDescriptor"
     [h "tensorDesc"; p "dataType"; p "n"; p "c"; p "h"; p "w"; p "nStride"; p "cStride"; p "hStride";
      p "wStride"] status;
   aborts 405 "cudnnGetTensorNdDescriptor"
     [h "tensorDesc"; i4 "nbDimsRequested"; p "dataType"; p "nbDims"; p "dimA"; p "strideA"] status;
   aborts 406 "cudnnGetTensorSizeInBytes" [h "tensorDesc"; p "size"] status;
   aborts 407 "cudnnInitTransformDest"
     [h "transformDesc"; h "srcDesc"; h "destDesc"; p "destSizeInBytes"] status;
   aborts 408 "cudnnCreateTensorTransformDescriptor" [p "transformDesc"] status;
   aborts 409 "cudnnSetTensorTransformDescriptor"
     [h "transformDesc"; u4 "nbDims"; u4 "destFormat"; p "padBeforeA"; p "padAfterA"; p "foldA";
      u4 "direction"] status].

Definition cudnn_8 : list aborting :=
  [aborts 410 "cudnnGetTensorTransformDescriptor"
     [h "transformDesc"; u4 "nbDimsRequested"; p "destFormat"; p "padBeforeA"; p "padAfterA"; p "foldA";
      p "direction"] status].

Definition cudnn_9 : list aborting :=
  [aborts 411 "cudnnDestroyTensorTransformDescriptor" [h "transformDesc"] status;
   aborts 412 "cudnnTransformTensor"
     [h "handle"; p "alpha"; h "xDesc"; p "x"; p "beta"; h "yDesc"; p "y"] status;
   aborts 413 "cudnnTransformTensorEx"
     [h "handle"; h "transDesc"; p "alpha"; h "srcDesc"; p "srcData"; p "beta"; h "destDesc"; p "destData"] status;
   aborts 414 "cudnnGetFoldedConvBackwardDataDescriptors"
     [h "handle"; h "filterDesc"; h "diffDesc"; h "convDesc"; h "gradDesc"; u4 "transformFormat";
      h "foldedFilterDesc"; h "paddedDiffDesc"; h "foldedConvDesc"; h "foldedGradDesc";
      h "filterFoldTransDesc"; h "diffPadTransDesc"; h "gradFoldTransDesc"; h "gradUnfoldTransDesc"] status].

Definition cudnn_10 : list aborting :=
  [aborts 416 "cudnnCreateOpTensorDescriptor" [p "opTensorDesc"] status;
   aborts 417 "cudnnSetOpTensorDescriptor"
     [h "opTensorDesc"; u4 "opTensorOp"; u4 "opTensorCompType"; u4 "opTensorNanOpt"] status;
   aborts 418 "cudnnGetOpTensorDescriptor"
     [h "opTensorDesc"; p "opTensorOp"; p "opTensorCompType"; p "opTensorNanOpt"] status;
   aborts 419 "cudnnDestroyOpTensorDescriptor" [h "opTensorDesc"] status].

Definition cudnn_11 : list aborting :=
  [aborts 420 "cudnnOpTensor"
     [h "handle"; h "opTensorDesc"; p "alpha1"; h "aDesc"; p "A"; p "alpha2"; h "bDesc"; p "B"; p "beta";
      h "cDesc"; p "C"] status;
   aborts 421 "cudnnCreateReduceTensorDescriptor" [p "reduceTensorDesc"] status;
   aborts 422 "cudnnSetReduceTensorDescriptor"
     [h "reduceTensorDesc"; u4 "reduceTensorOp"; u4 "reduceTensorCompType"; u4 "reduceTensorNanOpt";
      u4 "reduceTensorIndices"; u4 "reduceTensorIndicesType"] status;
   aborts 423 "cudnnGetReduceTensorDescriptor"
     [h "reduceTensorDesc"; p "reduceTensorOp"; p "reduceTensorCompType"; p "reduceTensorNanOpt";
      p "reduceTensorIndices"; p "reduceTensorIndicesType"] status;
   aborts 424 "cudnnDestroyReduceTensorDescriptor" [h "reduceTensorDesc"] status].

Definition cudnn_12 : list aborting :=
  [aborts 425 "cudnnGetReductionIndicesSize"
     [h "handle"; h "reduceTensorDesc"; h "aDesc"; h "cDesc"; p "sizeInBytes"] status].

Definition cudnn_13 : list aborting :=
  [aborts 426 "cudnnGetReductionWorkspaceSize"
     [h "handle"; h "reduceTensorDesc"; h "aDesc"; h "cDesc"; p "sizeInBytes"] status].

Definition cudnn_14 : list aborting :=
  [aborts 427 "cudnnReduceTensor"
     [h "handle"; h "reduceTensorDesc"; p "indices"; u8 "indicesSizeInBytes"; p "workspace";
      u8 "workspaceSizeInBytes"; p "alpha"; h "aDesc"; p "A"; p "beta"; h "cDesc"; p "C"] status;
   aborts 428 "cudnnSetTensor" [h "handle"; h "yDesc"; p "y"; p "valuePtr"] status;
   aborts 429 "cudnnScaleTensor" [h "handle"; h "yDesc"; p "y"; p "alpha"] status;
   aborts 430 "cudnnSetFilter4dDescriptor"
     [h "filterDesc"; u4 "dataType"; u4 "format"; i4 "k"; i4 "c"; i4 "h"; i4 "w"] status;
   aborts 431 "cudnnGetFilter4dDescriptor"
     [h "filterDesc"; p "dataType"; p "format"; p "k"; p "c"; p "h"; p "w"] status;
   aborts 432 "cudnnGetFilterNdDescriptor"
     [h "filterDesc"; i4 "nbDimsRequested"; p "dataType"; p "format"; p "nbDims"; p "filterDimA"] status;
   aborts 433 "cudnnGetFilterSizeInBytes" [h "filterDesc"; p "size"] status;
   aborts 434 "cudnnTransformFilter"
     [h "handle"; h "transDesc"; p "alpha"; h "srcDesc"; p "srcData"; p "beta"; h "destDesc"; p "destData"] status;
   aborts 435 "cudnnReorderFilterAndBias"
     [h "handle"; h "filterDesc"; u4 "reorderType"; p "filterData"; p "reorderedFilterData";
      i4 "reorderBias"; p "biasData"; p "reorderedBiasData"] status;
   aborts 436 "cudnnGetConvolutionMathType" [h "convDesc"; p "mathType"] status;
   aborts 437 "cudnnGetConvolutionGroupCount" [h "convDesc"; p "groupCount"] status;
   aborts 438 "cudnnSetConvolutionReorderType" [h "convDesc"; u4 "reorderType"] status;
   aborts 439 "cudnnGetConvolutionReorderType" [h "convDesc"; p "reorderType"] status;
   aborts 440 "cudnnSetConvolution2dDescriptor"
     [h "convDesc"; i4 "pad_h"; i4 "pad_w"; i4 "u"; i4 "v"; i4 "dilation_h"; i4 "dilation_w"; u4 "mode";
      u4 "computeType"] status].

Definition cudnn_15 : list aborting :=
  [aborts 441 "cudnnGetConvolution2dDescriptor"
     [h "convDesc"; p "pad_h"; p "pad_w"; p "u"; p "v"; p "dilation_h"; p "dilation_w"; p "mode";
      p "computeType"] status;
   aborts 442 "cudnnGetConvolution2dForwardOutputDim"
     [h "convDesc"; h "inputTensorDesc"; h "filterDesc"; p "n"; p "c"; p "h"; p "w"] status;
   aborts 443 "cudnnGetConvolutionNdDescriptor"
     [h "convDesc"; i4 "arrayLengthRequested"; p "arrayLength"; p "padA"; p "strideA"; p "dilationA";
      p "mode"; p "computeType"] status;
   aborts 444 "cudnnGetConvolutionNdForwardOutputDim"
     [h "convDesc"; h "inputTensorDesc"; h "filterDesc"; i4 "nbDims"; p "tensorOuputDimA"] status;
   aborts 445 "cudnnGetConvolutionForwardAlgorithmMaxCount" [h "handle"; p "count"] status;
   aborts 446 "cudnnFindConvolutionForwardAlgorithm"
     [h "handle"; h "xDesc"; h "wDesc"; h "convDesc"; h "yDesc"; i4 "requestedAlgoCount";
      p "returnedAlgoCount"; p "perfResults"] status].

Definition cudnn_16 : list aborting :=
  [aborts 448 "cudnnConvolutionBiasActivationForward"
     [h "handle"; p "alpha1"; h "xDesc"; p "x"; h "wDesc"; p "w"; h "convDesc"; u4 "algo"; p "workSpace";
      u8 "workSpaceSizeInBytes"; p "alpha2"; h "zDesc"; p "z"; h "biasDesc"; p "bias"; h "activationDesc";
      h "yDesc"; p "y"] status;
   aborts 449 "cudnnConvolutionBackwardBias"
     [h "handle"; p "alpha"; h "dyDesc"; p "dy"; p "beta"; h "dbDesc"; p "db"] status;
   aborts 450 "cudnnGetConvolutionBackwardFilterAlgorithmMaxCount" [h "handle"; p "count"] status;
   aborts 451 "cudnnFindConvolutionBackwardFilterAlgorithm"
     [h "handle"; h "xDesc"; h "dyDesc"; h "convDesc"; h "dwDesc"; i4 "requestedAlgoCount";
      p "returnedAlgoCount"; p "perfResults"] status;
   aborts 452 "cudnnFindConvolutionBackwardFilterAlgorithmEx"
     [h "handle"; h "xDesc"; p "x"; h "dyDesc"; p "y"; h "convDesc"; h "dwDesc"; p "dw";
      i4 "requestedAlgoCount"; p "returnedAlgoCount"; p "perfResults"; p "workSpace";
      u8 "workSpaceSizeInBytes"] status;
   aborts 453 "cudnnGetConvolutionBackwardFilterAlgorithm"
     [h "handle"; h "xDesc"; h "dyDesc"; h "convDesc"; h "dwDesc"; u4 "preference";
      u8 "memoryLimitInBytes"; p "algo"] status;
   aborts 454 "cudnnGetConvolutionBackwardFilterAlgorithm_v7"
     [h "handle"; h "srcDesc"; h "diffDesc"; h "convDesc"; h "gradDesc"; i4 "requestedAlgoCount";
      p "returnedAlgoCount"; p "perfResults"] status].

Definition cudnn_17 : list aborting :=
  [aborts 455 "cudnnGetConvolutionBackwardFilterWorkspaceSize"
     [h "handle"; h "xDesc"; h "dyDesc"; h "convDesc"; h "gradDesc"; u4 "algo"; p "sizeInBytes"] status;
   aborts 456 "cudnnConvolutionBackwardFilter"
     [h "handle"; p "alpha"; h "xDesc"; p "x"; h "dyDesc"; p "dy"; h "convDesc"; u4 "algo"; p "workSpace";
      u8 "workSpaceSizeInBytes"; p "beta"; h "dwDesc"; p "dw"] status;
   aborts 457 "cudnnGetConvolutionBackwardDataAlgorithmMaxCount" [h "handle"; p "count"] status;
   aborts 458 "cudnnFindConvolutionBackwardDataAlgorithm"
     [h "handle"; h "wDesc"; h "dyDesc"; h "convDesc"; h "dxDesc"; i4 "requestedAlgoCount";
      p "returnedAlgoCount"; p "perfResults"] status;
   aborts 459 "cudnnFindConvolutionBackwardDataAlgorithmEx"
     [h "handle"; h "wDesc"; p "w"; h "dyDesc"; p "dy"; h "convDesc"; h "dxDesc"; p "dx";
      i4 "requestedAlgoCount"; p "returnedAlgoCount"; p "perfResults"; p "workSpace";
      u8 "workSpaceSizeInBytes"] status;
   aborts 460 "cudnnGetConvolutionBackwardDataAlgorithm"
     [h "handle"; h "wDesc"; h "dyDesc"; h "convDesc"; h "dxDesc"; u4 "preference";
      u8 "memoryLimitInBytes"; p "algo"] status;
   aborts 461 "cudnnGetConvolutionBackwardDataAlgorithm_v7"
     [h "handle"; h "filterDesc"; h "diffDesc"; h "convDesc"; h "gradDesc"; i4 "requestedAlgoCount";
      p "returnedAlgoCount"; p "perfResults"] status;
   aborts 462 "cudnnGetConvolutionBackwardDataWorkspaceSize"
     [h "handle"; h "wDesc"; h "dyDesc"; h "convDesc"; h "dxDesc"; u4 "algo"; p "sizeInBytes"] status;
   aborts 463 "cudnnConvolutionBackwardData"
     [h "handle"; p "alpha"; h "wDesc"; p "w"; h "dyDesc"; p "dy"; h "convDesc"; u4 "algo"; p "workSpace";
      u8 "workSpaceSizeInBytes"; p "beta"; h "dxDesc"; p "dx"] status;
   aborts 464 "cudnnIm2Col" [h "handle"; h "xDesc"; p "x"; h "wDesc"; h "convDesc"; p "colBuffer"] status].

Definition cudnn_18 : list aborting :=
  [aborts 465 "cudnnSoftmaxForward"
     [h "handle"; u4 "algo"; u4 "mode"; p "alpha"; h "xDesc"; p "x"; p "beta"; h "yDesc"; p "y"] status;
   aborts 466 "cudnnSoftmaxBackward"
     [h "handle"; u4 "algo"; u4 "mode"; p "alpha"; h "yDesc"; p "y"; h "dyDesc"; p "dy"; p "beta";
      h "dxDesc"; p "dx"] status;
   aborts 467 "cudnnSetPooling2dDescriptor"
     [h "poolingDesc"; u4 "mode"; u4 "maxpoolingNanOpt"; i4 "windowHeight"; i4 "windowWidth";
      i4 "verticalPadding"; i4 "horizontalPadding"; i4 "verticalStride"; i4 "horizontalStride"] status;
   aborts 468 "cudnnGetPooling2dDescriptor"
     [h "poolingDesc"; p "mode"; p "maxpoolingNanOpt"; p "windowHeight"; p "windowWidth";
      p "verticalPadding"; p "horizontalPadding"; p "verticalStride"; p "horizontalStride"] status;
   aborts 469 "cudnnGetPoolingNdDescriptor"
     [h "poolingDesc"; i4 "nbDimsRequested"; p "mode"; p "maxpoolingNanOpt"; p "nbDims"; p "windowDimA";
      p "paddingA"; p "strideA"] status;
   aborts 470 "cudnnGetPoolingNdForwardOutputDim"
     [h "poolingDesc"; h "inputTensorDesc"; i4 "nbDims"; p "outputTensorDimA"] status;
   aborts 471 "cudnnGetPooling2dForwardOutputDim"
     [h "poolingDesc"; h "inputTensorDesc"; p "n"; p "c"; p "h"; p "w"] status].

Definition cudnn_19 : list aborting :=
  [aborts 472 "cudnnCreateActivationDescriptor" [p "activationDesc"] status;
   aborts 473 "cudnnSetActivationDescriptor"
     [h "activationDesc"; u4 "mode"; u4 "reluNanOpt"; u8 "coef"] status;
   aborts 474 "cudnnGetActivationDescriptor"
     [h "activationDesc"; p "mode"; p "reluNanOpt"; p "coef"] status;
   aborts 475 "cudnnDestroyActivationDescriptor" [h "activationDesc"] status;
   aborts 476 "cudnnActivationForward"
     [h "handle"; h "activationDesc"; p "alpha"; h "xDesc"; p "x"; p "beta"; h "yDesc"; p "y"] status;
   aborts 477 "cudnnActivationBackward"
     [h "handle"; h "activationDesc"; p "alpha"; h "yDesc"; p "y"; h "dyDesc"; p "dy"; h "xDesc"; p "x";
      p "beta"; h "dxDesc"; p "dx"] status].

Definition cudnn_20 : list aborting :=
  [aborts 478 "cudnnCreateLRNDescriptor" [p "normDesc"] status].

Definition cudnn_21 : list aborting :=
  [aborts 479 "cudnnSetLRNDescriptor"
     [h "normDesc"; u4 "lrnN"; u8 "lrnAlpha"; u8 "lrnBeta"; u8 "lrnK"] status].

Definition cudnn_22 : list aborting :=
  [aborts 480 "cudnnGetLRNDescriptor" [h "normDesc"; p "lrnN"; p "lrnAlpha"; p "lrnBeta"; p "lrnK"] status;
   aborts 481 "cudnnDestroyLRNDescriptor" [h "lrnDesc"] status].

Definition cudnn_23 : list aborting :=
  [aborts 482 "cudnnLRNCrossChannelForward"
     [h "handle"; h "normDesc"; u4 "lrnMode"; p "alpha"; h "xDesc"; p "x"; p "beta"; h "yDesc"; p "y"] status;
   aborts 483 "cudnnLRNCrossChannelBackward"
     [h "handle"; h "normDesc"; u4 "lrnMode"; p "alpha"; h "yDesc"; p "y"; h "dyDesc"; p "dy"; h "xDesc";
      p "x"; p "beta"; h "dxDesc"; p "dx"] status;
   aborts 484 "cudnnDivisiveNormalizationForward"
     [h "handle"; h "normDesc"; u4 "mode"; p "alpha"; h "xDesc"; p "x"; p "means"; p "temp"; p "temp2";
      p "beta"; h "yDesc"; p "y"] status;
   aborts 485 "cudnnDivisiveNormalizationBackward"
     [h "handle"; h "normDesc"; u4 "mode"; p "alpha"; h "xDesc"; p "x"; p "means"; p "dy"; p "temp";
      p "temp2"; p "beta"; h "dXdMeansDesc"; p "dx"; p "dMeans"] status].

Definition cudnn_24 : list aborting :=
  [aborts 487 "cudnnGetBatchNormalizationBackwardExWorkspaceSize"
     [h "handle"; u4 "mode"; u4 "bnOps"; h "xDesc"; h "yDesc"; h "dyDesc"; h "dzDesc"; h "dxDesc";
      h "dBnScaleBiasDesc"; h "activationDesc"; p "sizeInBytes"] status;
   aborts 488 "cudnnGetBatchNormalizationTrainingExReserveSpaceSize"
     [h "handle"; u4 "mode"; u4 "bnOps"; h "activationDesc"; h "xDesc"; p "sizeInBytes"] status;
   aborts 489 "cudnnBatchNormalizationForwardTraining"
     [h "handle"; u4 "mode"; p "alpha"; p "beta"; h "xDesc"; p "x"; h "yDesc"; p "y";
      h "bnScaleBiasMeanVarDesc"; p "bnScale"; p "bnBias"; u8 "exponentialAverageFactor";
      p "resultRunningMean"; p "resultRunningVariance"; u8 "epsilon"; p "resultSaveMean";
      p "resultSaveInvVariance"] status;
   aborts 490 "cudnnBatchNormalizationForwardTrainingEx"
     [h "handle"; u4 "mode"; u4 "bnOps"; p "alpha"; p "beta"; h "xDesc"; p "xData"; h "zDesc"; p "zData";
      h "yDesc"; p "yData"; h "bnScaleBiasMeanVarDesc"; p "bnScale"; p "bnBias";
      u8 "exponentialAverageFactor"; p "resultRunningMean"; p "resultRunningVariance"; u8 "epsilon";
      p "resultSaveMean"; p "resultSaveInvVariance"; h "activationDesc"; p "workspace";
      u8 "workSpaceSizeInBytes"; p "reserveSpace"; u8 "reserveSpaceSizeInBytes"] status].

Definition cudnn_25 : list aborting :=
  [aborts 491 "cudnnBatchNormalizationBackward"
     [h "handle"; u4 "mode"; p "alphaDataDiff"; p "betaDataDiff"; p "alphaParamDiff"; p "betaParamDiff";
      h "xDesc"; p "x"; h "dyDesc"; p "dy"; h "dxDesc"; p "dx"; h "dBnScaleBiasDesc"; p "bnScale";
      p "dBnScaleResult"; p "dBnBiasResult"; u8 "epsilon"; p "savedMean"; p "savedInvVariance"] status;
   aborts 492 "cudnnBatchNormalizationBackwardEx"
     [h "handle"; u4 "mode"; u4 "bnOps"; p "alphaDataDiff"; p "betaDataDiff"; p "alphaParamDiff";
      p "betaParamDiff"; h "xDesc"; p "xData"; h "yDesc"; p "yData"; h "dyDesc"; p "dyData"; h "dzDesc";
      p "dzData"; h "dxDesc"; p "dxData"; h "dBnScaleBiasDesc"; p "bnScaleData"; p "bnBiasData";
      p "dBnScaleData"; p "dBnBiasData"; u8 "epsilon"; p "savedMean"; p "savedInvVariance";
      h "activationDesc"; p "workSpace"; u8 "workSpaceSizeInBytes"; p "reserveSpace";
      u8 "reserveSpaceSizeInBytes"] status;
   aborts 493 "cudnnCreateSpatialTransformerDescriptor" [p "stDesc"] status;
   aborts 494 "cudnnSetSpatialTransformerNdDescriptor"
     [h "stDesc"; u4 "samplerType"; u4 "dataType"; i4 "nbDims"; p "dimA"] status;
   aborts 495 "cudnnDestroySpatialTransformerDescriptor" [h "stDesc"] status;
   aborts 496 "cudnnSpatialTfGridGeneratorForward" [h "handle"; h "stDesc"; p "theta"; p "grid"] status;
   aborts 497 "cudnnSpatialTfGridGeneratorBackward" [h "handle"; h "stDesc"; p "dgrid"; p "dtheta"] status;
   aborts 498 "cudnnSpatialTfSamplerForward"
     [h "handle"; h "stDesc"; p "alpha"; h "xDesc"; p "x"; p "grid"; p "beta"; h "yDesc"; p "y"] status].

Definition cudnn_26 : list aborting :=
  [aborts 499 "cudnnSpatialTfSamplerBackward"
     [h "handle"; h "stDesc"; p "alpha"; h "xDesc"; p "x"; p "beta"; h "dxDesc"; p "dx"; p "alphaDgrid";
      h "dyDesc"; p "dy"; p "grid"; p "betaDgrid"; p "dgrid"] status;
   aborts 500 "cudnnCreateDropoutDescriptor" [p "dropoutDesc"] status;
   aborts 501 "cudnnDestroyDropoutDescriptor" [h "dropoutDesc"] status;
   aborts 502 "cudnnDropoutGetStatesSize" [h "handle"; p "sizeInBytes"] status;
   aborts 503 "cudnnDropoutGetReserveSpaceSize" [h "xdesc"; p "sizeInBytes"] status;
   aborts 504 "cudnnSetDropoutDescriptor"
     [h "dropoutDesc"; h "handle"; u4 "dropout"; p "states"; u8 "stateSizeInBytes"; u8 "seed"] status;
   aborts 505 "cudnnRestoreDropoutDescriptor"
     [h "dropoutDesc"; h "handle"; u4 "dropout"; p "states"; u8 "stateSizeInBytes"; u8 "seed"] status;
   aborts 506 "cudnnGetDropoutDescriptor"
     [h "dropoutDesc"; h "handle"; p "dropout"; p "states"; p "seed"] status;
   aborts 507 "cudnnDropoutForward"
     [h "handle"; h "dropoutDesc"; h "xdesc"; p "x"; h "ydesc"; p "y"; p "reserveSpace";
      u8 "reserveSpaceSizeInBytes"] status;
   aborts 508 "cudnnDropoutBackward"
     [h "handle"; h "dropoutDesc"; h "dydesc"; p "dy"; h "dxdesc"; p "dx"; p "reserveSpace";
      u8 "reserveSpaceSizeInBytes"] status;
   aborts 509 "cudnnSetRNNBiasMode" [h "rnnDesc"; u4 "biasMode"] status;
   aborts 510 "cudnnGetRNNBiasMode" [h "rnnDesc"; p "biasMode"] status].

Definition cudnn_27 : list aborting :=
  [aborts 511 "cudnnCreateSeqDataDescriptor" [p "seqDataDesc"] status;
   aborts 512 "cudnnDestroySeqDataDescriptor" [h "seqDataDesc"] status;
   aborts 513 "cudnnSetSeqDataDescriptor"
     [h "seqDataDesc"; u4 "dataType"; i4 "nbDims"; p "dimA"; p "axes"; u8 "seqLengthArraySize";
      p "seqLengthArray"; p "paddingFill"] status;
   aborts 514 "cudnnGetSeqDataDescriptor"
     [h "seqDataDesc"; p "dataType"; p "nbDims"; i4 "nbDimsRequested"; p "dimA"; p "axes";
      p "seqLengthArraySize"; u8 "seqLengthSizeRequested"; p "seqLengthArray"; p "paddingFill"] status].

Definition cudnn_28 : list aborting :=
  [aborts 515 "cudnnCreateAttnDescriptor" [p "attnDesc"] status;
   aborts 516 "cudnnDestroyAttnDescriptor" [h "attnDesc"] status;
   aborts 517 "cudnnSetAttnDescriptor"
     [h "attnDesc"; u4 "attnMode"; i4 "nHeads"; u8 "smScaler"; u4 "dataType"; u4 "computePrec";
      u4 "mathType"; h "attnDropoutDesc"; h "postDropoutDesc"; i4 "qSize"; i4 "kSize"; i4 "vSize";
      i4 "qProjSize"; i4 "kProjSize"; i4 "vProjSize"; i4 "oProjSize"; i4 "qoMaxSeqLength";
      i4 "kvMaxSeqLength"; i4 "maxBatchSize"; i4 "maxBeamSize"] status;
   aborts 518 "cudnnGetAttnDescriptor"
     [h "attnDesc"; p "attnMode"; p "nHeads"; p "smScaler"; p "dataType"; p "computePrec"; p "mathType";
      p "attnDropoutDesc"; p "postDropoutDesc"; p "qSize"; p "kSize"; p "vSize"; p "qProjSize";
      p "kProjSize"; p "vProjSize"; p "oProjSize"; p "qoMaxSeqLength"; p "kvMaxSeqLength";
      p "maxBatchSize"; p "maxBeamSize"] status;
   aborts 519 "cudnnGetMultiHeadAttnBuffers"
     [h "handle"; h "attnDesc"; p "weightSizeInBytes"; p "workSpaceSizeInBytes";
      p "reserveSpaceSizeInBytes"] status;
   aborts 520 "cudnnGetMultiHeadAttnWeights"
     [h "handle"; h "attnDesc"; u4 "wKind"; u8 "weightSizeInBytes"; p "weights"; h "wDesc"; p "wAddr"] status;
   aborts 521 "cudnnMultiHeadAttnForward"
     [h "handle"; h "attnDesc"; i4 "currIdx"; p "loWinIdx"; p "hiWinIdx"; p "devSeqLengthsQO";
      p "devSeqLengthsKV"; h "qDesc"; p "queries"; p "residuals"; h "kDesc"; p "keys"; h "vDesc";
      p "values"; h "oDesc"; p "out"; u8 "weightSizeInBytes"; p "weights"; u8 "workSpaceSizeInBytes";
      p "workSpace"; u8 "reserveSpaceSizeInBytes"; p "reserveSpace"] status;
   aborts 522 "cudnnMultiHeadAttnBackwardData"
     [h "handle"; h "attnDesc"; p "loWinIdx"; p "hiWinIdx"; p "devSeqLengthsDQDO"; p "devSeqLengthsDKDV";
      h "doDesc"; p "dout"; h "dqDesc"; p "dqueries"; p "queries"; h "dkDesc"; p "dkeys"; p "keys";
      h "dvDesc"; p "dvalues"; p "values"; u8 "weightSizeInBytes"; p "weights"; u8 "workSpaceSizeInBytes";
      p "workSpace"; u8 "reserveSpaceSizeInBytes"; p "reserveSpace"] status].

Definition cudnn_29 : list aborting :=
  [aborts 523 "cudnnMultiHeadAttnBackwardWeights"
     [h "handle"; h "attnDesc"; u4 "addGrad"; h "qDesc"; p "queries"; h "kDesc"; p "keys"; h "vDesc";
      p "values"; h "doDesc"; p "dout"; u8 "weightSizeInBytes"; p "weights"; p "dweights";
      u8 "workSpaceSizeInBytes"; p "workSpace"; u8 "reserveSpaceSizeInBytes"; p "reserveSpace"] status].

Definition cudnn_30 : list aborting :=
  [aborts 524 "cudnnCreateCTCLossDescriptor" [p "ctcLossDesc"] status;
   aborts 525 "cudnnSetCTCLossDescriptor" [h "ctcLossDesc"; u4 "compType"] status;
   aborts 526 "cudnnSetCTCLossDescriptorEx"
     [h "ctcLossDesc"; u4 "compType"; u4 "normMode"; u4 "gradMode"] status;
   aborts 527 "cudnnGetCTCLossDescriptor" [h "ctcLossDesc"; p "compType"] status;
   aborts 528 "cudnnGetCTCLossDescriptorEx"
     [h "ctcLossDesc"; p "compType"; p "normMode"; p "gradMode"] status;
   aborts 529 "cudnnDestroyCTCLossDescriptor" [h "ctcLossDesc"] status;
   aborts 530 "cudnnCTCLoss"
     [h "handle"; h "probsDesc"; p "probs"; p "labels"; p "labelLengths"; p "inputLengths"; p "costs";
      h "gradientsDesc"; p "gradients"; u4 "algo"; h "ctcLossDesc"; p "workspace";
      u8 "workSpaceSizeInBytes"] status;
   aborts 531 "cudnnGetCTCLossWorkspaceSize"
     [h "handle"; h "probsDesc"; h "gradientsDesc"; p "labels"; p "labelLengths"; p "inputLengths";
      u4 "algo"; h "ctcLossDesc"; p "sizeInBytes"] status;
   aborts 532 "cudnnCreateAlgorithmDescriptor" [p "algoDesc"] status;
   aborts 533 "cudnnSetAlgorithmDescriptor" [h "algoDesc"; by_value 4 4 "algorithm"] status;
   aborts 534 "cudnnGetAlgorithmDescriptor" [h "algoDesc"; p "algorithm"] status;
   aborts 535 "cudnnCopyAlgorithmDescriptor" [h "src"; h "dest"] status;
   aborts 536 "cudnnDestroyAlgorithmDescriptor" [h "algoDesc"] status;
   aborts 537 "cudnnCreateAlgorithmPerformance" [p "algoPerf"; i4 "numberToCreate"] status;
   aborts 538 "cudnnSetAlgorithmPerformance"
     [h "algoPerf"; h "algoDesc"; u4 "status"; u4 "time"; u8 "memory"] status].

Definition cudnn_31 : list aborting :=
  [aborts 539 "cudnnGetAlgorithmPerformance"
     [h "algoPerf"; p "algoDesc"; p "status"; p "time"; p "memory"] status;
   aborts 540 "cudnnDestroyAlgorithmPerformance" [p "algoPerf"; i4 "numberToDestroy"] status;
   aborts 541 "cudnnGetAlgorithmSpaceSize" [h "handle"; h "algoDesc"; p "algoSpaceSizeInBytes"] status;
   aborts 542 "cudnnSaveAlgorithm"
     [h "handle"; h "algoDesc"; p "algoSpace"; u8 "algoSpaceSizeInBytes"] status;
   aborts 543 "cudnnRestoreAlgorithm"
     [h "handle"; p "algoSpace"; u8 "algoSpaceSizeInBytes"; h "algoDesc"] status;
   aborts 544 "cudnnSetCallback" [u4 "mask"; p "udata"; u8 "fptr"] status;
   aborts 545 "cudnnGetCallback" [p "mask"; p "udata"; p "fptr"] status;
   aborts 546 "cudnnCreateFusedOpsConstParamPack" [p "constPack"; u4 "ops"] status;
   aborts 547 "cudnnDestroyFusedOpsConstParamPack" [h "constPack"] status;
   aborts 548 "cudnnSetFusedOpsConstParamPackAttribute" [h "constPack"; u4 "paramLabel"; p "param"] status;
   aborts 549 "cudnnGetFusedOpsConstParamPackAttribute"
     [h "constPack"; u4 "paramLabel"; p "param"; p "isNULL"] status;
   aborts 550 "cudnnCreateFusedOpsVariantParamPack" [p "varPack"; u4 "ops"] status;
   aborts 551 "cudnnDestroyFusedOpsVariantParamPack" [h "varPack"] status;
   aborts 552 "cudnnSetFusedOpsVariantParamPackAttribute" [h "varPack"; u4 "paramLabel"; p "ptr"] status;
   aborts 553 "cudnnGetFusedOpsVariantParamPackAttribute" [h "varPack"; u4 "paramLabel"; p "ptr"] status;
   aborts 554 "cudnnCreateFusedOpsPlan" [p "plan"; u4 "ops"] status;
   aborts 555 "cudnnDestroyFusedOpsPlan" [h "plan"] status;
   aborts 556 "cudnnMakeFusedOpsPlan"
     [h "handle"; h "plan"; h "constPack"; p "workspaceSizeInBytes"] status].

Definition cudnn_32 : list aborting :=
  [aborts 557 "cudnnFusedOpsExecute" [h "handle"; h "plan"; h "varPack"] status].

Definition curand_1 : list aborting :=
  [aborts 559 "curandCreateGeneratorHost" [p "generator"; u4 "rng_type"] code].

Definition curand_2 : list aborting :=
  [aborts 561 "curandGetVersion" [p "version"] code;
   aborts 562 "curandGetProperty" [u4 "type"; p "value"] code;
   aborts 563 "curandSetStream" [h "generator"; h "stream"] code;
   aborts 564 "curandSetPseudoRandomGeneratorSeed" [h "generator"; u8 "seed"] code;
   aborts 565 "curandSetGeneratorOffset" [h "generator"; u8 "offset"] code;
   aborts 566 "curandSetGeneratorOrdering" [h "generator"; u4 "order"] code;
   aborts 567 "curandSetQuasiRandomGeneratorDimensions" [h "generator"; u4 "num_dimensions"] code;
   aborts 568 "curandGenerate" [h "generator"; p "outputPtr"; u8 "num"] code;
   aborts 569 "curandGenerateLongLong" [h "generator"; p "outputPtr"; u8 "num"] code;
   aborts 570 "curandGenerateUniform" [h "generator"; p "outputPtr"; u8 "num"] code;
   aborts 571 "curandGenerateUniformDouble" [h "generator"; p "outputPtr"; u8 "num"] code;
   aborts 572 "curandGenerateNormal" [h "generator"; p "outputPtr"; u8 "n"; u4 "mean"; u4 "stddev"] code;
   aborts 573 "curandGenerateNormalDouble"
     [h "generator"; p "outputPtr"; u8 "n"; u8 "mean"; u8 "stddev"] code;
   aborts 574 "curandGenerateLogNormal" [h "generator"; p "outputPtr"; u8 "n"; u4 "mean"; u4 "stddev"] code;
   aborts 575 "curandGenerateLogNormalDouble"
     [h "generator"; p "outputPtr"; u8 "n"; u8 "mean"; u8 "stddev"] code;
   aborts 576 "curandCreatePoissonDistribution" [u8 "lambda"; p "discrete_distribution"] code;
   aborts 577 "curandDestroyDistribution" [h "discrete_distribution"] code;
   aborts 578 "curandGeneratePoisson" [h "generator"; p "outputPtr"; u8 "n"; u8 "lambda"] code;
   aborts 579 "curandGeneratePoissonMethod"
     [h "generator"; p "outputPtr"; u8 "n"; u8 "lambda"; u4 "method"] code].

Definition curand_3 : list aborting :=
  [aborts 580 "curandGenerateBinomial" [h "generator"; p "outputPtr"; u8 "num"; u4 "n"; u8 "p"] code;
   aborts 581 "curandGenerateBinomialMethod"
     [h "generator"; p "outputPtr"; u8 "num"; u4 "n"; u8 "p"; u4 "method"] code;
   aborts 582 "curandGenerateSeeds" [h "generator"] code].

Definition curand_4 : list aborting :=
  [aborts 583 "curandGetScrambleConstants32" [p "constants"] code].

Definition curand_5 : list aborting :=
  [aborts 584 "curandGetScrambleConstants64" [p "constants"] code].

Definition cufft_1 : list aborting :=
  [aborts 585 "cufftPlan1d" [p "plan"; i4 "nx"; u4 "type"; i4 "batch"] code;
   aborts 586 "cufftPlan2d" [p "plan"; i4 "nx"; i4 "ny"; u4 "type"] code;
   aborts 587 "cufftPlan3d" [p "plan"; i4 "nx"; i4 "ny"; i4 "nz"; u4 "type"] code;
   aborts 588 "cufftPlanMany"
     [p "plan"; i4 "rank"; p "n"; p "inembed"; i4 "istride"; i4 "idist"; p "onembed"; i4 "ostride";
      i4 "odist"; u4 "type"; i4 "batch"] code;
   aborts 589 "cufftMakePlan1d" [i4 "plan"; i4 "nx"; u4 "type"; i4 "batch"; p "workSize"] code;
   aborts 590 "cufftMakePlan2d" [i4 "plan"; i4 "nx"; i4 "ny"; u4 "type"; p "workSize"] code;
   aborts 591 "cufftMakePlan3d" [i4 "plan"; i4 "nx"; i4 "ny"; i4 "nz"; u4 "type"; p "workSize"] code;
   aborts 592 "cufftMakePlanMany"
     [i4 "plan"; i4 "rank"; p "n"; p "inembed"; i4 "istride"; i4 "idist"; p "onembed"; i4 "ostride";
      i4 "odist"; u4 "type"; i4 "batch"; p "workSize"] code;
   aborts 593 "cufftMakePlanMany64"
     [i4 "plan"; i4 "rank"; p "n"; p "inembed"; i8 "istride"; i8 "idist"; p "onembed"; i8 "ostride";
      i8 "odist"; u4 "type"; i8 "batch"; p "workSize"] code;
   aborts 594 "cufftGetSizeMany64"
     [i4 "plan"; i4 "rank"; p "n"; p "inembed"; i8 "istride"; i8 "idist"; p "onembed"; i8 "ostride";
      i8 "odist"; u4 "type"; i8 "batch"; p "workSize"] code;
   aborts 595 "cufftEstimate1d" [i4 "nx"; u4 "type"; i4 "batch"; p "workSize"] code;
   aborts 596 "cufftEstimate2d" [i4 "nx"; i4 "ny"; u4 "type"; p "workSize"] code;
   aborts 597 "cufftEstimate3d" [i4 "nx"; i4 "ny"; i4 "nz"; u4 "type"; p "workSize"] code;
   aborts 598 "cufftEstimateMany"
     [i4 "rank"; p "n"; p "inembed"; i4 "istride"; i4 "idist"; p "onembed"; i4 "ostride"; i4 "odist";
      u4 "type"; i4 "batch"; p "workSize"] code].

Definition cufft_2 : list aborting :=
  [aborts 599 "cufftCreate" [p "handle"] code;
   aborts 600 "cufftGetSize1d" [i4 "handle"; i4 "nx"; u4 "type"; i4 "batch"; p "workSize"] code;
   aborts 601 "cufftGetSize2d" [i4 "handle"; i4 "nx"; i4 "ny"; u4 "type"; p "workSize"] code;
   aborts 602 "cufftGetSize3d" [i4 "handle"; i4 "nx"; i4 "ny"; i4 "nz"; u4 "type"; p "workSize"] code;
   aborts 603 "cufftGetSizeMany"
     [i4 "handle"; i4 "rank"; p "n"; p "inembed"; i4 "istride"; i4 "idist"; p "onembed"; i4 "ostride";
      i4 "odist"; u4 "type"; i4 "batch"; p "workArea"] code;
   aborts 604 "cufftGetSize" [i4 "handle"; p "workSize"] code;
   aborts 605 "cufftSetWorkArea" [i4 "plan"; p "workArea"] code;
   aborts 606 "cufftSetAutoAllocation" [i4 "plan"; i4 "autoAllocate"] code;
   aborts 607 "cufftExecC2C" [i4 "plan"; p "idata"; p "odata"; i4 "direction"] code;
   aborts 608 "cufftExecR2C" [i4 "plan"; p "idata"; p "odata"] code;
   aborts 609 "cufftExecC2R" [i4 "plan"; p "idata"; p "odata"] code;
   aborts 610 "cufftExecZ2Z" [i4 "plan"; p "idata"; p "odata"; i4 "direction"] code;
   aborts 611 "cufftExecD2Z" [i4 "plan"; p "idata"; p "odata"] code;
   aborts 612 "cufftExecZ2D" [i4 "plan"; p "idata"; p "odata"] code].

Definition cufft_3 : list aborting :=
  [aborts 613 "cufftSetStream" [i4 "plan"; h "stream"] code;
   aborts 614 "cufftDestroy" [i4 "plan"] code;
   aborts 615 "cufftGetVersion" [p "version"] code;
   aborts 616 "cufftGetProperty" [u4 "type"; p "value"] code].

Definition cusolver_1 : list aborting :=
  [aborts 617 "cusolverDnCreate" [p "handle"] code;
   aborts 618 "cusolverDnDestroy" [h "handle"] code;
   aborts 619 "cusolverDnSetStream" [h "handle"; h "streamId"] code;
   aborts 620 "cusolverDnGetStream" [h "handle"; p "streamId"] code].

Definition cusolver_2 : list aborting :=
  [aborts 621 "cusolverDnSpotrf_bufferSize"
     [h "handle"; u4 "uplo"; i4 "n"; p "A"; i4 "lda"; p "Lwork"] code;
   aborts 622 "cusolverDnDpotrf_bufferSize"
     [h "handle"; u4 "uplo"; i4 "n"; p "A"; i4 "lda"; p "Lwork"] code;
   aborts 623 "cusolverDnCpotrf_bufferSize"
     [h "handle"; u4 "uplo"; i4 "n"; p "A"; i4 "lda"; p "Lwork"] code;
   aborts 624 "cusolverDnZpotrf_bufferSize"
     [h "handle"; u4 "uplo"; i4 "n"; p "A"; i4 "lda"; p "Lwork"] code;
   aborts 625 "cusolverDnSpotrf"
     [h "handle"; u4 "uplo"; i4 "n"; p "A"; i4 "lda"; p "Workspace"; i4 "Lwork"; p "devInfo"] code;
   aborts 626 "cusolverDnDpotrf"
     [h "handle"; u4 "uplo"; i4 "n"; p "A"; i4 "lda"; p "Workspace"; i4 "Lwork"; p "devInfo"] code].

Definition cusolver_3 : list aborting :=
  [aborts 627 "cusolverDnCpotrf"
     [h "handle"; u4 "uplo"; i4 "n"; p "A"; i4 "lda"; p "Workspace"; i4 "Lwork"; p "devInfo"] code;
   aborts 628 "cusolverDnZpotrf"
     [h "handle"; u4 "uplo"; i4 "n"; p "A"; i4 "lda"; p "Workspace"; i4 "Lwork"; p "devInfo"] code].

Definition cusolver_4 : list aborting :=
  [aborts 629 "cusolverDnSpotrs"
     [h "handle"; u4 "uplo"; i4 "n"; i4 "nrhs"; p "A"; i4 "lda"; p "B"; i4 "ldb"; p "devInfo"] code;
   aborts 630 "cusolverDnDpotrs"
     [h "handle"; u4 "uplo"; i4 "n"; i4 "nrhs"; p "A"; i4 "lda"; p "B"; i4 "ldb"; p "devInfo"] code;
   aborts 631 "cusolverDnCpotrs"
     [h "handle"; u4 "uplo"; i4 "n"; i4 "nrhs"; p "A"; i4 "lda"; p "B"; i4 "ldb"; p "devInfo"] code;
   aborts 632 "cusolverDnZpotrs"
     [h "handle"; u4 "uplo"; i4 "n"; i4 "nrhs"; p "A"; i4 "lda"; p "B"; i4 "ldb"; p "devInfo"] code].

Definition cusolver_5 : list aborting :=
  [aborts 633 "cusolverDnSpotrfBatched"
     [h "handle"; u4 "uplo"; i4 "n"; p "Aarray"; i4 "lda"; p "infoArray"; i4 "batchSize"] code;
   aborts 634 "cusolverDnDpotrfBatched"
     [h "handle"; u4 "uplo"; i4 "n"; p "Aarray"; i4 "lda"; p "infoArray"; i4 "batchSize"] code;
   aborts 635 "cusolverDnCpotrfBatched"
     [h "handle"; u4 "uplo"; i4 "n"; p "Aarray"; i4 "lda"; p "infoArray"; i4 "batchSize"] code;
   aborts 636 "cusolverDnZpotrfBatched"
     [h "handle"; u4 "uplo"; i4 "n"; p "Aarray"; i4 "lda"; p "infoArray"; i4 "batchSize"] code;
   aborts 637 "cusolverDnSpotrsBatched"
     [h "handle"; u4 "uplo"; i4 "n"; i4 "nrhs"; p "A"; i4 "lda"; p "B"; i4 "ldb"; p "d_info";
      i4 "batchSize"] code;
   aborts 638 "cusolverDnDpotrsBatched"
     [h "handle"; u4 "uplo"; i4 "n"; i4 "nrhs"; p "A"; i4 "lda"; p "B"; i4 "ldb"; p "d_info";
      i4 "batchSize"] code;
   aborts 639 "cusolverDnCpotrsBatched"
     [h "handle"; u4 "uplo"; i4 "n"; i4 "nrhs"; p "A"; i4 "lda"; p "B"; i4 "ldb"; p "d_info";
      i4 "batchSize"] code;
   aborts 640 "cusolverDnZpotrsBatched"
     [h "handle"; u4 "uplo"; i4 "n"; i4 "nrhs"; p "A"; i4 "lda"; p "B"; i4 "ldb"; p "d_info";
      i4 "batchSize"] code].

Definition cusolver_6 : list aborting :=
  [aborts 641 "cusolverDnSpotri_bufferSize"
     [h "handle"; u4 "uplo"; i4 "n"; p "A"; i4 "lda"; p "lwork"] code;
   aborts 642 "cusolverDnDpotri_bufferSize"
     [h "handle"; u4 "uplo"; i4 "n"; p "A"; i4 "lda"; p "lwork"] code;
   aborts 643 "cusolverDnCpotri_bufferSize"
     [h "handle"; u4 "uplo"; i4 "n"; p "A"; i4 "lda"; p "lwork"] code;
   aborts 644 "cusolverDnZpotri_bufferSize"
     [h "handle"; u4 "uplo"; i4 "n"; p "A"; i4 "lda"; p "lwork"] code;
   aborts 645 "cusolverDnSpotri"
     [h "handle"; u4 "uplo"; i4 "n"; p "A"; i4 "lda"; p "work"; i4 "lwork"; p "devInfo"] code;
   aborts 646 "cusolverDnDpotri"
     [h "handle"; u4 "uplo"; i4 "n"; p "A"; i4 "lda"; p "work"; i4 "lwork"; p "devInfo"] code;
   aborts 647 "cusolverDnCpotri"
     [h "handle"; u4 "uplo"; i4 "n"; p "A"; i4 "lda"; p "work"; i4 "lwork"; p "devInfo"] code;
   aborts 648 "cusolverDnZpotri"
     [h "handle"; u4 "uplo"; i4 "n"; p "A"; i4 "lda"; p "work"; i4 "lwork"; p "devInfo"] code;
   aborts 649 "cusolverDnStrtri_bufferSize"
     [h "handle"; u4 "uplo"; u4 "diag"; i4 "n"; p "A"; i4 "lda"; p "lwork"] code;
   aborts 650 "cusolverDnDtrtri_bufferSize"
     [h "handle"; u4 "uplo"; u4 "diag"; i4 "n"; p "A"; i4 "lda"; p "lwork"] code].

Definition cusolver_7 : list aborting :=
  [aborts 651 "cusolverDnCtrtri_bufferSize"
     [h "handle"; u4 "uplo"; u4 "diag"; i4 "n"; p "A"; i4 "lda"; p "lwork"] code;
   aborts 652 "cusolverDnZtrtri_bufferSize"
     [h "handle"; u4 "uplo"; u4 "diag"; i4 "n"; p "A"; i4 "lda"; p "lwork"] code;
   aborts 653 "cusolverDnStrtri"
     [h "handle"; u4 "uplo"; u4 "diag"; i4 "n"; p "A"; i4 "lda"; p "work"; i4 "lwork"; p "devInfo"] code;
   aborts 654 "cusolverDnDtrtri"
     [h "handle"; u4 "uplo"; u4 "diag"; i4 "n"; p "A"; i4 "lda"; p "work"; i4 "lwork"; p "devInfo"] code;
   aborts 655 "cusolverDnCtrtri"
     [h "handle"; u4 "uplo"; u4 "diag"; i4 "n"; p "A"; i4 "lda"; p "work"; i4 "lwork"; p "devInfo"] code;
   aborts 656 "cusolverDnZtrtri"
     [h "handle"; u4 "uplo"; u4 "diag"; i4 "n"; p "A"; i4 "lda"; p "work"; i4 "lwork"; p "devInfo"] code].

Definition cusolver_8 : list aborting :=
  [aborts 657 "cusolverDnSlauum_bufferSize"
     [h "handle"; u4 "uplo"; i4 "n"; p "A"; i4 "lda"; p "lwork"] code;
   aborts 658 "cusolverDnDlauum_bufferSize"
     [h "handle"; u4 "uplo"; i4 "n"; p "A"; i4 "lda"; p "lwork"] code;
   aborts 659 "cusolverDnClauum_bufferSize"
     [h "handle"; u4 "uplo"; i4 "n"; p "A"; i4 "lda"; p "lwork"] code;
   aborts 660 "cusolverDnZlauum_bufferSize"
     [h "handle"; u4 "uplo"; i4 "n"; p "A"; i4 "lda"; p "lwork"] code;
   aborts 661 "cusolverDnSlauum"
     [h "handle"; u4 "uplo"; i4 "n"; p "A"; i4 "lda"; p "work"; i4 "lwork"; p "devInfo"] code;
   aborts 662 "cusolverDnDlauum"
     [h "handle"; u4 "uplo"; i4 "n"; p "A"; i4 "lda"; p "work"; i4 "lwork"; p "devInfo"] code;
   aborts 663 "cusolverDnClauum"
     [h "handle"; u4 "uplo"; i4 "n"; p "A"; i4 "lda"; p "work"; i4 "lwork"; p "devInfo"] code;
   aborts 664 "cusolverDnZlauum"
     [h "handle"; u4 "uplo"; i4 "n"; p "A"; i4 "lda"; p "work"; i4 "lwork"; p "devInfo"] code].

Definition cusolver_9 : list aborting :=
  [aborts 665 "cusolverDnSgetrf_bufferSize" [h "handle"; i4 "m"; i4 "n"; p "A"; i4 "lda"; p "Lwork"] code;
   aborts 666 "cusolverDnDgetrf_bufferSize" [h "handle"; i4 "m"; i4 "n"; p "A"; i4 "lda"; p "Lwork"] code;
   aborts 667 "cusolverDnCgetrf_bufferSize" [h "handle"; i4 "m"; i4 "n"; p "A"; i4 "lda"; p "Lwork"] code;
   aborts 668 "cusolverDnZgetrf_bufferSize" [h "handle"; i4 "m"; i4 "n"; p "A"; i4 "lda"; p "Lwork"] code].

Definition cusolver_10 : list aborting :=
  [aborts 669 "cusolverDnSgetrf"
     [h "handle"; i4 "m"; i4 "n"; p "A"; i4 "lda"; p "Workspace"; p "devIpiv"; p "devInfo"] code;
   aborts 670 "cusolverDnDgetrf"
     [h "handle"; i4 "m"; i4 "n"; p "A"; i4 "lda"; p "Workspace"; p "devIpiv"; p "devInfo"] code;
   aborts 671 "cusolverDnCgetrf"
     [h "handle"; i4 "m"; i4 "n"; p "A"; i4 "lda"; p "Workspace"; p "devIpiv"; p "devInfo"] code;
   aborts 672 "cusolverDnZgetrf"
     [h "handle"; i4 "m"; i4 "n"; p "A"; i4 "lda"; p "Workspace"; p "devIpiv"; p "devInfo"] code].

Definition cusolver_11 : list aborting :=
  [aborts 673 "cusolverDnSlaswp"
     [h "handle"; i4 "n"; p "A"; i4 "lda"; i4 "k1"; i4 "k2"; p "devIpiv"; i4 "incx"] code;
   aborts 674 "cusolverDnDlaswp"
     [h "handle"; i4 "n"; p "A"; i4 "lda"; i4 "k1"; i4 "k2"; p "devIpiv"; i4 "incx"] code;
   aborts 675 "cusolverDnClaswp"
     [h "handle"; i4 "n"; p "A"; i4 "lda"; i4 "k1"; i4 "k2"; p "devIpiv"; i4 "incx"] code;
   aborts 676 "cusolverDnZlaswp"
     [h "handle"; i4 "n"; p "A"; i4 "lda"; i4 "k1"; i4 "k2"; p "devIpiv"; i4 "incx"] code].

Definition cusolver_12 : list aborting :=
  [aborts 677 "cusolverDnSgetrs"
     [h "handle"; u4 "trans"; i4 "n"; i4 "nrhs"; p "A"; i4 "lda"; p "devIpiv"; p "B"; i4 "ldb"; p "devInfo"] code;
   aborts 678 "cusolverDnDgetrs"
     [h "handle"; u4 "trans"; i4 "n"; i4 "nrhs"; p "A"; i4 "lda"; p "devIpiv"; p "B"; i4 "ldb"; p "devInfo"] code;
   aborts 679 "cusolverDnCgetrs"
     [h "handle"; u4 "trans"; i4 "n"; i4 "nrhs"; p "A"; i4 "lda"; p "devIpiv"; p "B"; i4 "ldb"; p "devInfo"] code;
   aborts 680 "cusolverDnZgetrs"
     [h "handle"; u4 "trans"; i4 "n"; i4 "nrhs"; p "A"; i4 "lda"; p "devIpiv"; p "B"; i4 "ldb"; p "devInfo"] code].

Definition cusolver_13 : list aborting :=
  [aborts 681 "cusolverDnSgeqrf_bufferSize" [h "handle"; i4 "m"; i4 "n"; p "A"; i4 "lda"; p "lwork"] code;
   aborts 682 "cusolverDnDgeqrf_bufferSize" [h "handle"; i4 "m"; i4 "n"; p "A"; i4 "lda"; p "lwork"] code;
   aborts 683 "cusolverDnCgeqrf_bufferSize" [h "handle"; i4 "m"; i4 "n"; p "A"; i4 "lda"; p "lwork"] code;
   aborts 684 "cusolverDnZgeqrf_bufferSize" [h "handle"; i4 "m"; i4 "n"; p "A"; i4 "lda"; p "lwork"] code;
   aborts 685 "cusolverDnSgeqrf"
     [h "handle"; i4 "m"; i4 "n"; p "A"; i4 "lda"; p "TAU"; p "Workspace"; i4 "Lwork"; p "devInfo"] code;
   aborts 686 "cusolverDnDgeqrf"
     [h "handle"; i4 "m"; i4 "n"; p "A"; i4 "lda"; p "TAU"; p "Workspace"; i4 "Lwork"; p "devInfo"] code;
   aborts 687 "cusolverDnCgeqrf"
     [h "handle"; i4 "m"; i4 "n"; p "A"; i4 "lda"; p "TAU"; p "Workspace"; i4 "Lwork"; p "devInfo"] code;
   aborts 688 "cusolverDnZgeqrf"
     [h "handle"; i4 "m"; i4 "n"; p "A"; i4 "lda"; p "TAU"; p "Workspace"; i4 "Lwork"; p "devInfo"] code].

Definition cusolver_14 : list aborting :=
  [aborts 689 "cusolverDnSorgqr_bufferSize"
     [h "handle"; i4 "m"; i4 "n"; i4 "k"; p "A"; i4 "lda"; p "tau"; p "lwork"] code;
   aborts 690 "cusolverDnDorgqr_bufferSize"
     [h "handle"; i4 "m"; i4 "n"; i4 "k"; p "A"; i4 "lda"; p "tau"; p "lwork"] code;
   aborts 691 "cusolverDnCungqr_bufferSize"
     [h "handle"; i4 "m"; i4 "n"; i4 "k"; p "A"; i4 "lda"; p "tau"; p "lwork"] code;
   aborts 692 "cusolverDnZungqr_bufferSize"
     [h "handle"; i4 "m"; i4 "n"; i4 "k"; p "A"; i4 "lda"; p "tau"; p "lwork"] code;
   aborts 693 "cusolverDnSorgqr"
     [h "handle"; i4 "m"; i4 "n"; i4 "k"; p "A"; i4 "lda"; p "tau"; p "work"; i4 "lwork"; p "info"] code;
   aborts 694 "cusolverDnDorgqr"
     [h "handle"; i4 "m"; i4 "n"; i4 "k"; p "A"; i4 "lda"; p "tau"; p "work"; i4 "lwork"; p "info"] code;
   aborts 695 "cusolverDnCungqr"
     [h "handle"; i4 "m"; i4 "n"; i4 "k"; p "A"; i4 "lda"; p "tau"; p "work"; i4 "lwork"; p "info"] code;
   aborts 696 "cusolverDnZungqr"
     [h "handle"; i4 "m"; i4 "n"; i4 "k"; p "A"; i4 "lda"; p "tau"; p "work"; i4 "lwork"; p "info"] code].

Definition cusolver_15 : list aborting :=
  [aborts 697 "cusolverDnSormqr_bufferSize"
     [h "handle"; u4 "side"; u4 "trans"; i4 "m"; i4 "n"; i4 "k"; p "A"; i4 "lda"; p "tau"; p "C"; i4 "ldc";
      p "lwork"] code;
   aborts 698 "cusolverDnDormqr_bufferSize"
     [h "handle"; u4 "side"; u4 "trans"; i4 "m"; i4 "n"; i4 "k"; p "A"; i4 "lda"; p "tau"; p "C"; i4 "ldc";
      p "lwork"] code;
   aborts 699 "cusolverDnCunmqr_bufferSize"
     [h "handle"; u4 "side"; u4 "trans"; i4 "m"; i4 "n"; i4 "k"; p "A"; i4 "lda"; p "tau"; p "C"; i4 "ldc";
      p "lwork"] code;
   aborts 700 "cusolverDnZunmqr_bufferSize"
     [h "handle"; u4 "side"; u4 "trans"; i4 "m"; i4 "n"; i4 "k"; p "A"; i4 "lda"; p "tau"; p "C"; i4 "ldc";
      p "lwork"] code;
   aborts 701 "cusolverDnSormqr"
     [h "handle"; u4 "side"; u4 "trans"; i4 "m"; i4 "n"; i4 "k"; p "A"; i4 "lda"; p "tau"; p "C"; i4 "ldc";
      p "work"; i4 "lwork"; p "devInfo"] code;
   aborts 702 "cusolverDnDormqr"
     [h "handle"; u4 "side"; u4 "trans"; i4 "m"; i4 "n"; i4 "k"; p "A"; i4 "lda"; p "tau"; p "C"; i4 "ldc";
      p "work"; i4 "lwork"; p "devInfo"] code;
   aborts 703 "cusolverDnCunmqr"
     [h "handle"; u4 "side"; u4 "trans"; i4 "m"; i4 "n"; i4 "k"; p "A"; i4 "lda"; p "tau"; p "C"; i4 "ldc";
      p "work"; i4 "lwork"; p "devInfo"] code].

Definition cusolver_16 : list aborting :=
  [aborts 704 "cusolverDnZunmqr"
     [h "handle"; u4 "side"; u4 "trans"; i4 "m"; i4 "n"; i4 "k"; p "A"; i4 "lda"; p "tau"; p "C"; i4 "ldc";
      p "work"; i4 "lwork"; p "devInfo"] code].

Definition cusolver_17 : list aborting :=
  [aborts 705 "cusolverDnSsytrf_bufferSize" [h "handle"; i4 "n"; p "A"; i4 "lda"; p "lwork"] code;
   aborts 706 "cusolverDnDsytrf_bufferSize" [h "handle"; i4 "n"; p "A"; i4 "lda"; p "lwork"] code;
   aborts 707 "cusolverDnCsytrf_bufferSize" [h "handle"; i4 "n"; p "A"; i4 "lda"; p "lwork"] code;
   aborts 708 "cusolverDnZsytrf_bufferSize" [h "handle"; i4 "n"; p "A"; i4 "lda"; p "lwork"] code;
   aborts 709 "cusolverDnSsytrf"
     [h "handle"; u4 "uplo"; i4 "n"; p "A"; i4 "lda"; p "ipiv"; p "work"; i4 "lwork"; p "info"] code;
   aborts 710 "cusolverDnDsytrf"
     [h "handle"; u4 "uplo"; i4 "n"; p "A"; i4 "lda"; p "ipiv"; p "work"; i4 "lwork"; p "info"] code;
   aborts 711 "cusolverDnCsytrf"
     [h "handle"; u4 "uplo"; i4 "n"; p "A"; i4 "lda"; p "ipiv"; p "work"; i4 "lwork"; p "info"] code;
   aborts 712 "cusolverDnZsytrf"
     [h "handle"; u4 "uplo"; i4 "n"; p "A"; i4 "lda"; p "ipiv"; p "work"; i4 "lwork"; p "info"] code].

Definition cusolver_18 : list aborting :=
  [aborts 713 "cusolverDnSsytrs_bufferSize"
     [h "handle"; u4 "uplo"; i4 "n"; i4 "nrhs"; p "A"; i4 "lda"; p "ipiv"; p "B"; i4 "ldb"; p "lwork"] code;
   aborts 714 "cusolverDnDsytrs_bufferSize"
     [h "handle"; u4 "uplo"; i4 "n"; i4 "nrhs"; p "A"; i4 "lda"; p "ipiv"; p "B"; i4 "ldb"; p "lwork"] code;
   aborts 715 "cusolverDnCsytrs_bufferSize"
     [h "handle"; u4 "uplo"; i4 "n"; i4 "nrhs"; p "A"; i4 "lda"; p "ipiv"; p "B"; i4 "ldb"; p "lwork"] code;
   aborts 716 "cusolverDnZsytrs_bufferSize"
     [h "handle"; u4 "uplo"; i4 "n"; i4 "nrhs"; p "A"; i4 "lda"; p "ipiv"; p "B"; i4 "ldb"; p "lwork"] code;
   aborts 717 "cusolverDnSsytrs"
     [h "handle"; u4 "uplo"; i4 "n"; i4 "nrhs"; p "A"; i4 "lda"; p "ipiv"; p "B"; i4 "ldb"; p "work";
      i4 "lwork"; p "info"] code;
   aborts 718 "cusolverDnDsytrs"
     [h "handle"; u4 "uplo"; i4 "n"; i4 "nrhs"; p "A"; i4 "lda"; p "ipiv"; p "B"; i4 "ldb"; p "work";
      i4 "lwork"; p "info"] code;
   aborts 719 "cusolverDnCsytrs"
     [h "handle"; u4 "uplo"; i4 "n"; i4 "nrhs"; p "A"; i4 "lda"; p "ipiv"; p "B"; i4 "ldb"; p "work";
      i4 "lwork"; p "info"] code;
   aborts 720 "cusolverDnZsytrs"
     [h "handle"; u4 "uplo"; i4 "n"; i4 "nrhs"; p "A"; i4 "lda"; p "ipiv"; p "B"; i4 "ldb"; p "work";
      i4 "lwork"; p "info"] code].

Definition cusolver_19 : list aborting :=
  [aborts 721 "cusolverDnSsytri_bufferSize"
     [h "handle"; u4 "uplo"; i4 "n"; p "A"; i4 "lda"; p "ipiv"; p "lwork"] code;
   aborts 722 "cusolverDnDsytri_bufferSize"
     [h "handle"; u4 "uplo"; i4 "n"; p "A"; i4 "lda"; p "ipiv"; p "lwork"] code;
   aborts 723 "cusolverDnCsytri_bufferSize"
     [h "handle"; u4 "uplo"; i4 "n"; p "A"; i4 "lda"; p "ipiv"; p "lwork"] code;
   aborts 724 "cusolverDnZsytri_bufferSize"
     [h "handle"; u4 "uplo"; i4 "n"; p "A"; i4 "lda"; p "ipiv"; p "lwork"] code;
   aborts 725 "cusolverDnSsytri"
     [h "handle"; u4 "uplo"; i4 "n"; p "A"; i4 "lda"; p "ipiv"; p "work"; i4 "lwork"; p "info"] code;
   aborts 726 "cusolverDnDsytri"
     [h "handle"; u4 "uplo"; i4 "n"; p "A"; i4 "lda"; p "ipiv"; p "work"; i4 "lwork"; p "info"] code;
   aborts 727 "cusolverDnCsytri"
     [h "handle"; u4 "uplo"; i4 "n"; p "A"; i4 "lda"; p "ipiv"; p "work"; i4 "lwork"; p "info"] code;
   aborts 728 "cusolverDnZsytri"
     [h "handle"; u4 "uplo"; i4 "n"; p "A"; i4 "lda"; p "ipiv"; p "work"; i4 "lwork"; p "info"] code].

Definition cusolver_20 : list aborting :=
  [aborts 729 "cusolverDnSgebrd_bufferSize" [h "handle"; i4 "m"; i4 "n"; p "Lwork"] code;
   aborts 730 "cusolverDnDgebrd_bufferSize" [h "handle"; i4 "m"; i4 "n"; p "Lwork"] code;
   aborts 731 "cusolverDnCgebrd_bufferSize" [h "handle"; i4 "m"; i4 "n"; p "Lwork"] code;
   aborts 732 "cusolverDnZgebrd_bufferSize" [h "handle"; i4 "m"; i4 "n"; p "Lwork"] code;
   aborts 733 "cusolverDnSgebrd"
     [h "handle"; i4 "m"; i4 "n"; p "A"; i4 "lda"; p "D"; p "E"; p "TAUQ"; p "TAUP"; p "Work"; i4 "Lwork";
      p "devInfo"] code;
   aborts 734 "cusolverDnDgebrd"
     [h "handle"; i4 "m"; i4 "n"; p "A"; i4 "lda"; p "D"; p "E"; p "TAUQ"; p "TAUP"; p "Work"; i4 "Lwork";
      p "devInfo"] code;
   aborts 735 "cusolverDnCgebrd"
     [h "handle"; i4 "m"; i4 "n"; p "A"; i4 "lda"; p "D"; p "E"; p "TAUQ"; p "TAUP"; p "Work"; i4 "Lwork";
      p "devInfo"] code;
   aborts 736 "cusolverDnZgebrd"
     [h "handle"; i4 "m"; i4 "n"; p "A"; i4 "lda"; p "D"; p "E"; p "TAUQ"; p "TAUP"; p "Work"; i4 "Lwork";
      p "devInfo"] code].

Definition cusolver_21 : list aborting :=
  [aborts 737 "cusolverDnSorgbr_bufferSize"
     [h "handle"; u4 "side"; i4 "m"; i4 "n"; i4 "k"; p "A"; i4 "lda"; p "tau"; p "lwork"] code;
   aborts 738 "cusolverDnDorgbr_bufferSize"
     [h "handle"; u4 "side"; i4 "m"; i4 "n"; i4 "k"; p "A"; i4 "lda"; p "tau"; p "lwork"] code;
   aborts 739 "cusolverDnCungbr_bufferSize"
     [h "handle"; u4 "side"; i4 "m"; i4 "n"; i4 "k"; p "A"; i4 "lda"; p "tau"; p "lwork"] code;
   aborts 740 "cusolverDnZungbr_bufferSize"
     [h "handle"; u4 "side"; i4 "m"; i4 "n"; i4 "k"; p "A"; i4 "lda"; p "tau"; p "lwork"] code;
   aborts 741 "cusolverDnSorgbr"
     [h "handle"; u4 "side"; i4 "m"; i4 "n"; i4 "k"; p "A"; i4 "lda"; p "tau"; p "work"; i4 "lwork";
      p "info"] code;
   aborts 742 "cusolverDnDorgbr"
     [h "handle"; u4 "side"; i4 "m"; i4 "n"; i4 "k"; p "A"; i4 "lda"; p "tau"; p "work"; i4 "lwork";
      p "info"] code;
   aborts 743 "cusolverDnCungbr"
     [h "handle"; u4 "side"; i4 "m"; i4 "n"; i4 "k"; p "A"; i4 "lda"; p "tau"; p "work"; i4 "lwork";
      p "info"] code;
   aborts 744 "cusolverDnZungbr"
     [h "handle"; u4 "side"; i4 "m"; i4 "n"; i4 "k"; p "A"; i4 "lda"; p "tau"; p "work"; i4 "lwork";
      p "info"] code].

Definition cusolver_22 : list aborting :=
  [aborts 745 "cusolverDnSsytrd_bufferSize"
     [h "handle"; u4 "uplo"; i4 "n"; p "A"; i4 "lda"; p "d"; p "e"; p "tau"; p "lwork"] code;
   aborts 746 "cusolverDnDsytrd_bufferSize"
     [h "handle"; u4 "uplo"; i4 "n"; p "A"; i4 "lda"; p "d"; p "e"; p "tau"; p "lwork"] code;
   aborts 747 "cusolverDnChetrd_bufferSize"
     [h "handle"; u4 "uplo"; i4 "n"; p "A"; i4 "lda"; p "d"; p "e"; p "tau"; p "lwork"] code;
   aborts 748 "cusolverDnZhetrd_bufferSize"
     [h "handle"; u4 "uplo"; i4 "n"; p "A"; i4 "lda"; p "d"; p "e"; p "tau"; p "lwork"] code].

Definition cusolver_23 : list aborting :=
  [aborts 749 "cusolverDnSsytrd"
     [h "handle"; u4 "uplo"; i4 "n"; p "A"; i4 "lda"; p "d"; p "e"; p "tau"; p "work"; i4 "lwork"; p "info"] code;
   aborts 750 "cusolverDnDsytrd"
     [h "handle"; u4 "uplo"; i4 "n"; p "A"; i4 "lda"; p "d"; p "e"; p "tau"; p "work"; i4 "lwork"; p "info"] code;
   aborts 751 "cusolverDnChetrd"
     [h "handle"; u4 "uplo"; i4 "n"; p "A"; i4 "lda"; p "d"; p "e"; p "tau"; p "work"; i4 "lwork"; p "info"] code;
   aborts 752 "cusolverDnZhetrd"
     [h "handle"; u4 "uplo"; i4 "n"; p "A"; i4 "lda"; p "d"; p "e"; p "tau"; p "work"; i4 "lwork"; p "info"] code].

Definition cusolver_24 : list aborting :=
  [aborts 753 "cusolverDnSorgtr_bufferSize"
     [h "handle"; u4 "uplo"; i4 "n"; p "A"; i4 "lda"; p "tau"; p "lwork"] code;
   aborts 754 "cusolverDnDorgtr_bufferSize"
     [h "handle"; u4 "uplo"; i4 "n"; p "A"; i4 "lda"; p "tau"; p "lwork"] code;
   aborts 755 "cusolverDnCungtr_bufferSize"
     [h "handle"; u4 "uplo"; i4 "n"; p "A"; i4 "lda"; p "tau"; p "lwork"] code;
   aborts 756 "cusolverDnZungtr_bufferSize"
     [h "handle"; u4 "uplo"; i4 "n"; p "A"; i4 "lda"; p "tau"; p "lwork"] code;
   aborts 757 "cusolverDnSorgtr"
     [h "handle"; u4 "uplo"; i4 "n"; p "A"; i4 "lda"; p "tau"; p "work"; i4 "lwork"; p "info"] code;
   aborts 758 "cusolverDnDorgtr"
     [h "handle"; u4 "uplo"; i4 "n"; p "A"; i4 "lda"; p "tau"; p "work"; i4 "lwork"; p "info"] code;
   aborts 759 "cusolverDnCungtr"
     [h "handle"; u4 "uplo"; i4 "n"; p "A"; i4 "lda"; p "tau"; p "work"; i4 "lwork"; p "info"] code;
   aborts 760 "cusolverDnZungtr"
     [h "handle"; u4 "uplo"; i4 "n"; p "A"; i4 "lda"; p "tau"; p "work"; i4 "lwork"; p "info"] code].

Definition cusolver_25 : list aborting :=
  [aborts 761 "cusolverDnSormtr_bufferSize"
     [h "handle"; u4 "side"; u4 "uplo"; u4 "trans"; i4 "m"; i4 "n"; p "A"; i4 "lda"; p "tau"; p "C";
      i4 "ldc"; p "lwork"] code;
   aborts 762 "cusolverDnDormtr_bufferSize"
     [h "handle"; u4 "side"; u4 "uplo"; u4 "trans"; i4 "m"; i4 "n"; p "A"; i4 "lda"; p "tau"; p "C";
      i4 "ldc"; p "lwork"] code;
   aborts 763 "cusolverDnCunmtr_bufferSize"
     [h "handle"; u4 "side"; u4 "uplo"; u4 "trans"; i4 "m"; i4 "n"; p "A"; i4 "lda"; p "tau"; p "C";
      i4 "ldc"; p "lwork"] code;
   aborts 764 "cusolverDnZunmtr_bufferSize"
     [h "handle"; u4 "side"; u4 "uplo"; u4 "trans"; i4 "m"; i4 "n"; p "A"; i4 "lda"; p "tau"; p "C";
      i4 "ldc"; p "lwork"] code;
   aborts 765 "cusolverDnSormtr"
     [h "handle"; u4 "side"; u4 "uplo"; u4 "trans"; i4 "m"; i4 "n"; p "A"; i4 "lda"; p "tau"; p "C";
      i4 "ldc"; p "work"; i4 "lwork"; p "info"] code;
   aborts 766 "cusolverDnDormtr"
     [h "handle"; u4 "side"; u4 "uplo"; u4 "trans"; i4 "m"; i4 "n"; p "A"; i4 "lda"; p "tau"; p "C";
      i4 "ldc"; p "work"; i4 "lwork"; p "info"] code;
   aborts 767 "cusolverDnCunmtr"
     [h "handle"; u4 "side"; u4 "uplo"; u4 "trans"; i4 "m"; i4 "n"; p "A"; i4 "lda"; p "tau"; p "C";
      i4 "ldc"; p "work"; i4 "lwork"; p "info"] code].

Definition cusolver_26 : list aborting :=
  [aborts 768 "cusolverDnZunmtr"
     [h "handle"; u4 "side"; u4 "uplo"; u4 "trans"; i4 "m"; i4 "n"; p "A"; i4 "lda"; p "tau"; p "C";
      i4 "ldc"; p "work"; i4 "lwork"; p "info"] code].

Definition cusolver_27 : list aborting :=
  [aborts 769 "cusolverDnSgesvd_bufferSize" [h "handle"; i4 "m"; i4 "n"; p "lwork"] code;
   aborts 770 "cusolverDnDgesvd_bufferSize" [h "handle"; i4 "m"; i4 "n"; p "lwork"] code;
   aborts 771 "cusolverDnCgesvd_bufferSize" [h "handle"; i4 "m"; i4 "n"; p "lwork"] code;
   aborts 772 "cusolverDnZgesvd_bufferSize" [h "handle"; i4 "m"; i4 "n"; p "lwork"] code;
   aborts 773 "cusolverDnSgesvd"
     [h "handle"; i1 "jobu"; i1 "jobvt"; i4 "m"; i4 "n"; p "A"; i4 "lda"; p "S"; p "U"; i4 "ldu"; p "VT";
      i4 "ldvt"; p "work"; i4 "lwork"; p "rwork"; p "info"] code;
   aborts 774 "cusolverDnDgesvd"
     [h "handle"; i1 "jobu"; i1 "jobvt"; i4 "m"; i4 "n"; p "A"; i4 "lda"; p "S"; p "U"; i4 "ldu"; p "VT";
      i4 "ldvt"; p "work"; i4 "lwork"; p "rwork"; p "info"] code;
   aborts 775 "cusolverDnCgesvd"
     [h "handle"; i1 "jobu"; i1 "jobvt"; i4 "m"; i4 "n"; p "A"; i4 "lda"; p "S"; p "U"; i4 "ldu"; p "VT";
      i4 "ldvt"; p "work"; i4 "lwork"; p "rwork"; p "info"] code;
   aborts 776 "cusolverDnZgesvd"
     [h "handle"; i1 "jobu"; i1 "jobvt"; i4 "m"; i4 "n"; p "A"; i4 "lda"; p "S"; p "U"; i4 "ldu"; p "VT";
      i4 "ldvt"; p "work"; i4 "lwork"; p "rwork"; p "info"] code].

Definition cusolver_28 : list aborting :=
  [aborts 777 "cusolverDnSsyevd_bufferSize"
     [h "handle"; u4 "jobz"; u4 "uplo"; i4 "n"; p "A"; i4 "lda"; p "W"; p "lwork"] code;
   aborts 778 "cusolverDnDsyevd_bufferSize"
     [h "handle"; u4 "jobz"; u4 "uplo"; i4 "n"; p "A"; i4 "lda"; p "W"; p "lwork"] code;
   aborts 779 "cusolverDnCheevd_bufferSize"
     [h "handle"; u4 "jobz"; u4 "uplo"; i4 "n"; p "A"; i4 "lda"; p "W"; p "lwork"] code;
   aborts 780 "cusolverDnZheevd_bufferSize"
     [h "handle"; u4 "jobz"; u4 "uplo"; i4 "n"; p "A"; i4 "lda"; p "W"; p "lwork"] code;
   aborts 781 "cusolverDnSsyevd"
     [h "handle"; u4 "jobz"; u4 "uplo"; i4 "n"; p "A"; i4 "lda"; p "W"; p "work"; i4 "lwork"; p "info"] code;
   aborts 782 "cusolverDnDsyevd"
     [h "handle"; u4 "jobz"; u4 "uplo"; i4 "n"; p "A"; i4 "lda"; p "W"; p "work"; i4 "lwork"; p "info"] code;
   aborts 783 "cusolverDnCheevd"
     [h "handle"; u4 "jobz"; u4 "uplo"; i4 "n"; p "A"; i4 "lda"; p "W"; p "work"; i4 "lwork"; p "info"] code;
   aborts 784 "cusolverDnZheevd"
     [h "handle"; u4 "jobz"; u4 "uplo"; i4 "n"; p "A"; i4 "lda"; p "W"; p "work"; i4 "lwork"; p "info"] code].

Definition cusolver_29 : list aborting :=
  [aborts 785 "cusolverDnSsyevdx_bufferSize"
     [h "handle"; u4 "jobz"; u4 "range"; u4 "uplo"; i4 "n"; p "A"; i4 "lda"; u4 "vl"; u4 "vu"; i4 "il";
      i4 "iu"; p "meig"; p "W"; p "lwork"] code;
   aborts 786 "cusolverDnDsyevdx_bufferSize"
     [h "handle"; u4 "jobz"; u4 "range"; u4 "uplo"; i4 "n"; p "A"; i4 "lda"; u8 "vl"; u8 "vu"; i4 "il";
      i4 "iu"; p "meig"; p "W"; p "lwork"] code;
   aborts 787 "cusolverDnCheevdx_bufferSize"
     [h "handle"; u4 "jobz"; u4 "range"; u4 "uplo"; i4 "n"; p "A"; i4 "lda"; u4 "vl"; u4 "vu"; i4 "il";
      i4 "iu"; p "meig"; p "W"; p "lwork"] code;
   aborts 788 "cusolverDnZheevdx_bufferSize"
     [h "handle"; u4 "jobz"; u4 "range"; u4 "uplo"; i4 "n"; p "A"; i4 "lda"; u8 "vl"; u8 "vu"; i4 "il";
      i4 "iu"; p "meig"; p "W"; p "lwork"] code;
   aborts 789 "cusolverDnSsyevdx"
     [h "handle"; u4 "jobz"; u4 "range"; u4 "uplo"; i4 "n"; p "A"; i4 "lda"; u4 "vl"; u4 "vu"; i4 "il";
      i4 "iu"; p "meig"; p "W"; p "work"; i4 "lwork"; p "info"] code;
   aborts 790 "cusolverDnDsyevdx"
     [h "handle"; u4 "jobz"; u4 "range"; u4 "uplo"; i4 "n"; p "A"; i4 "lda"; u8 "vl"; u8 "vu"; i4 "il";
      i4 "iu"; p "meig"; p "W"; p "work"; i4 "lwork"; p "info"] code].

Definition cusolver_30 : list aborting :=
  [aborts 791 "cusolverDnCheevdx"
     [h "handle"; u4 "jobz"; u4 "range"; u4 "uplo"; i4 "n"; p "A"; i4 "lda"; u4 "vl"; u4 "vu"; i4 "il";
      i4 "iu"; p "meig"; p "W"; p "work"; i4 "lwork"; p "info"] code;
   aborts 792 "cusolverDnZheevdx"
     [h "handle"; u4 "jobz"; u4 "range"; u4 "uplo"; i4 "n"; p "A"; i4 "lda"; u8 "vl"; u8 "vu"; i4 "il";
      i4 "iu"; p "meig"; p "W"; p "work"; i4 "lwork"; p "info"] code].

Definition cusolver_31 : list aborting :=
  [aborts 793 "cusolverDnSsygvdx_bufferSize"
     [h "handle"; u4 "itype"; u4 "jobz"; u4 "range"; u4 "uplo"; i4 "n"; p "A"; i4 "lda"; p "B"; i4 "ldb";
      u4 "vl"; u4 "vu"; i4 "il"; i4 "iu"; p "meig"; p "W"; p "lwork"] code;
   aborts 794 "cusolverDnDsygvdx_bufferSize"
     [h "handle"; u4 "itype"; u4 "jobz"; u4 "range"; u4 "uplo"; i4 "n"; p "A"; i4 "lda"; p "B"; i4 "ldb";
      u8 "vl"; u8 "vu"; i4 "il"; i4 "iu"; p "meig"; p "W"; p "lwork"] code;
   aborts 795 "cusolverDnChegvdx_bufferSize"
     [h "handle"; u4 "itype"; u4 "jobz"; u4 "range"; u4 "uplo"; i4 "n"; p "A"; i4 "lda"; p "B"; i4 "ldb";
      u4 "vl"; u4 "vu"; i4 "il"; i4 "iu"; p "meig"; p "W"; p "lwork"] code;
   aborts 796 "cusolverDnZhegvdx_bufferSize"
     [h "handle"; u4 "itype"; u4 "jobz"; u4 "range"; u4 "uplo"; i4 "n"; p "A"; i4 "lda"; p "B"; i4 "ldb";
      u8 "vl"; u8 "vu"; i4 "il"; i4 "iu"; p "meig"; p "W"; p "lwork"] code].

Definition cusolver_32 : list aborting :=
  [aborts 797 "cusolverDnSsygvdx"
     [h "handle"; u4 "itype"; u4 "jobz"; u4 "range"; u4 "uplo"; i4 "n"; p "A"; i4 "lda"; p "B"; i4 "ldb";
      u4 "vl"; u4 "vu"; i4 "il"; i4 "iu"; p "meig"; p "W"; p "work"; i4 "lwork"; p "info"] code;
   aborts 798 "cusolverDnDsygvdx"
     [h "handle"; u4 "itype"; u4 "jobz"; u4 "range"; u4 "uplo"; i4 "n"; p "A"; i4 "lda"; p "B"; i4 "ldb";
      u8 "vl"; u8 "vu"; i4 "il"; i4 "iu"; p "meig"; p "W"; p "work"; i4 "lwork"; p "info"] code;
   aborts 799 "cusolverDnChegvdx"
     [h "handle"; u4 "itype"; u4 "jobz"; u4 "range"; u4 "uplo"; i4 "n"; p "A"; i4 "lda"; p "B"; i4 "ldb";
      u4 "vl"; u4 "vu"; i4 "il"; i4 "iu"; p "meig"; p "W"; p "work"; i4 "lwork"; p "info"] code;
   aborts 800 "cusolverDnZhegvdx"
     [h "handle"; u4 "itype"; u4 "jobz"; u4 "range"; u4 "uplo"; i4 "n"; p "A"; i4 "lda"; p "B"; i4 "ldb";
      u8 "vl"; u8 "vu"; i4 "il"; i4 "iu"; p "meig"; p "W"; p "work"; i4 "lwork"; p "info"] code].

Definition cusolver_33 : list aborting :=
  [aborts 801 "cusolverDnSsygvd_bufferSize"
     [h "handle"; u4 "itype"; u4 "jobz"; u4 "uplo"; i4 "n"; p "A"; i4 "lda"; p "B"; i4 "ldb"; p "W";
      p "lwork"] code;
   aborts 802 "cusolverDnDsygvd_bufferSize"
     [h "handle"; u4 "itype"; u4 "jobz"; u4 "uplo"; i4 "n"; p "A"; i4 "lda"; p "B"; i4 "ldb"; p "W";
      p "lwork"] code;
   aborts 803 "cusolverDnChegvd_bufferSize"
     [h "handle"; u4 "itype"; u4 "jobz"; u4 "uplo"; i4 "n"; p "A"; i4 "lda"; p "B"; i4 "ldb"; p "W";
      p "lwork"] code;
   aborts 804 "cusolverDnZhegvd_bufferSize"
     [h "handle"; u4 "itype"; u4 "jobz"; u4 "uplo"; i4 "n"; p "A"; i4 "lda"; p "B"; i4 "ldb"; p "W";
      p "lwork"] code].

Definition cusolver_34 : list aborting :=
  [aborts 805 "cusolverDnSsygvd"
     [h "handle"; u4 "itype"; u4 "jobz"; u4 "uplo"; i4 "n"; p "A"; i4 "lda"; p "B"; i4 "ldb"; p "W";
      p "work"; i4 "lwork"; p "info"] code;
   aborts 806 "cusolverDnDsygvd"
     [h "handle"; u4 "itype"; u4 "jobz"; u4 "uplo"; i4 "n"; p "A"; i4 "lda"; p "B"; i4 "ldb"; p "W";
      p "work"; i4 "lwork"; p "info"] code;
   aborts 807 "cusolverDnChegvd"
     [h "handle"; u4 "itype"; u4 "jobz"; u4 "uplo"; i4 "n"; p "A"; i4 "lda"; p "B"; i4 "ldb"; p "W";
      p "work"; i4 "lwork"; p "info"] code;
   aborts 808 "cusolverDnZhegvd"
     [h "handle"; u4 "itype"; u4 "jobz"; u4 "uplo"; i4 "n"; p "A"; i4 "lda"; p "B"; i4 "ldb"; p "W";
      p "work"; i4 "lwork"; p "info"] code].

Definition cusolver_35 : list aborting :=
  [aborts 809 "cusolverDnCreateSyevjInfo" [p "info"] code;
   aborts 810 "cusolverDnDestroySyevjInfo" [h "info"] code;
   aborts 811 "cusolverDnXsyevjSetTolerance" [h "info"; u8 "tolerance"] code;
   aborts 812 "cusolverDnXsyevjSetMaxSweeps" [h "info"; i4 "max_sweeps"] code;
   aborts 813 "cusolverDnXsyevjSetSortEig" [h "info"; i4 "sort_eig"] code;
   aborts 814 "cusolverDnXsyevjGetResidual" [h "handle"; h "info"; p "residual"] code;
   aborts 815 "cusolverDnXsyevjGetSweeps" [h "handle"; h "info"; p "executed_sweeps"] code].

Definition cusolver_36 : list aborting :=
  [aborts 816 "cusolverDnSsyevjBatched_bufferSize"
     [h "handle"; u4 "jobz"; u4 "uplo"; i4 "n"; p "A"; i4 "lda"; p "W"; p "lwork"; h "params";
      i4 "batchSize"] code;
   aborts 817 "cusolverDnDsyevjBatched_bufferSize"
     [h "handle"; u4 "jobz"; u4 "uplo"; i4 "n"; p "A"; i4 "lda"; p "W"; p "lwork"; h "params";
      i4 "batchSize"] code;
   aborts 818 "cusolverDnCheevjBatched_bufferSize"
     [h "handle"; u4 "jobz"; u4 "uplo"; i4 "n"; p "A"; i4 "lda"; p "W"; p "lwork"; h "params";
      i4 "batchSize"] code;
   aborts 819 "cusolverDnZheevjBatched_bufferSize"
     [h "handle"; u4 "jobz"; u4 "uplo"; i4 "n"; p "A"; i4 "lda"; p "W"; p "lwork"; h "params";
      i4 "batchSize"] code].

Definition cusolver_37 : list aborting :=
  [aborts 820 "cusolverDnSsyevjBatched"
     [h "handle"; u4 "jobz"; u4 "uplo"; i4 "n"; p "A"; i4 "lda"; p "W"; p "work"; i4 "lwork"; p "info";
      h "params"; i4 "batchSize"] code;
   aborts 821 "cusolverDnDsyevjBatched"
     [h "handle"; u4 "jobz"; u4 "uplo"; i4 "n"; p "A"; i4 "lda"; p "W"; p "work"; i4 "lwork"; p "info";
      h "params"; i4 "batchSize"] code;
   aborts 822 "cusolverDnCheevjBatched"
     [h "handle"; u4 "jobz"; u4 "uplo"; i4 "n"; p "A"; i4 "lda"; p "W"; p "work"; i4 "lwork"; p "info";
      h "params"; i4 "batchSize"] code;
   aborts 823 "cusolverDnZheevjBatched"
     [h "handle"; u4 "jobz"; u4 "uplo"; i4 "n"; p "A"; i4 "lda"; p "W"; p "work"; i4 "lwork"; p "info";
      h "params"; i4 "batchSize"] code].

Definition cusolver_38 : list aborting :=
  [aborts 824 "cusolverDnSsyevj_bufferSize"
     [h "handle"; u4 "jobz"; u4 "uplo"; i4 "n"; p "A"; i4 "lda"; p "W"; p "lwork"; h "params"] code].

Definition cusolver_39 : list aborting :=
  [aborts 825 "cusolverDnDsyevj_bufferSize"
     [h "handle"; u4 "jobz"; u4 "uplo"; i4 "n"; p "A"; i4 "lda"; p "W"; p "lwork"; h "params"] code].

Definition cusolver_40 : list aborting :=
  [aborts 826 "cusolverDnCheevj_bufferSize"
     [h "handle"; u4 "jobz"; u4 "uplo"; i4 "n"; p "A"; i4 "lda"; p "W"; p "lwork"; h "params"] code].

Definition cusolver_41 : list aborting :=
  [aborts 827 "cusolverDnZheevj_bufferSize"
     [h "handle"; u4 "jobz"; u4 "uplo"; i4 "n"; p "A"; i4 "lda"; p "W"; p "lwork"; h "params"] code].

Definition cusolver_42 : list aborting :=
  [aborts 828 "cusolverDnSsyevj"
     [h "handle"; u4 "jobz"; u4 "uplo"; i4 "n"; p "A"; i4 "lda"; p "W"; p "work"; i4 "lwork"; p "info";
      h "params"] code].

Definition cusolver_43 : list aborting :=
  [aborts 829 "cusolverDnDsyevj"
     [h "handle"; u4 "jobz"; u4 "uplo"; i4 "n"; p "A"; i4 "lda"; p "W"; p "work"; i4 "lwork"; p "info";
      h "params"] code].

Definition cusolver_44 : list aborting :=
  [aborts 830 "cusolverDnCheevj"
     [h "handle"; u4 "jobz"; u4 "uplo"; i4 "n"; p "A"; i4 "lda"; p "W"; p "work"; i4 "lwork"; p "info";
      h "params"] code].

Definition cusolver_45 : list aborting :=
  [aborts 831 "cusolverDnZheevj"
     [h "handle"; u4 "jobz"; u4 "uplo"; i4 "n"; p "A"; i4 "lda"; p "W"; p "work"; i4 "lwork"; p "info";
      h "params"] code].

Definition cusolver_46 : list aborting :=
  [aborts 832 "cusolverDnSsygvj_bufferSize"
     [h "handle"; u4 "itype"; u4 "jobz"; u4 "uplo"; i4 "n"; p "A"; i4 "lda"; p "B"; i4 "ldb"; p "W";
      p "lwork"; h "params"] code;
   aborts 833 "cusolverDnDsygvj_bufferSize"
     [h "handle"; u4 "itype"; u4 "jobz"; u4 "uplo"; i4 "n"; p "A"; i4 "lda"; p "B"; i4 "ldb"; p "W";
      p "lwork"; h "params"] code;
   aborts 834 "cusolverDnChegvj_bufferSize"
     [h "handle"; u4 "itype"; u4 "jobz"; u4 "uplo"; i4 "n"; p "A"; i4 "lda"; p "B"; i4 "ldb"; p "W";
      p "lwork"; h "params"] code;
   aborts 835 "cusolverDnZhegvj_bufferSize"
     [h "handle"; u4 "itype"; u4 "jobz"; u4 "uplo"; i4 "n"; p "A"; i4 "lda"; p "B"; i4 "ldb"; p "W";
      p "lwork"; h "params"] code;
   aborts 836 "cusolverDnSsygvj"
     [h "handle"; u4 "itype"; u4 "jobz"; u4 "uplo"; i4 "n"; p "A"; i4 "lda"; p "B"; i4 "ldb"; p "W";
      p "work"; i4 "lwork"; p "info"; h "params"] code;
   aborts 837 "cusolverDnDsygvj"
     [h "handle"; u4 "itype"; u4 "jobz"; u4 "uplo"; i4 "n"; p "A"; i4 "lda"; p "B"; i4 "ldb"; p "W";
      p "work"; i4 "lwork"; p "info"; h "params"] code;
   aborts 838 "cusolverDnChegvj"
     [h "handle"; u4 "itype"; u4 "jobz"; u4 "uplo"; i4 "n"; p "A"; i4 "lda"; p "B"; i4 "ldb"; p "W";
      p "work"; i4 "lwork"; p "info"; h "params"] code].

Definition cusolver_47 : list aborting :=
  [aborts 839 "cusolverDnZhegvj"
     [h "handle"; u4 "itype"; u4 "jobz"; u4 "uplo"; i4 "n"; p "A"; i4 "lda"; p "B"; i4 "ldb"; p "W";
      p "work"; i4 "lwork"; p "info"; h "params"] code].

Definition cusolver_48 : list aborting :=
  [aborts 840 "cusolverDnCreateGesvdjInfo" [p "info"] code;
   aborts 841 "cusolverDnDestroyGesvdjInfo" [h "info"] code;
   aborts 842 "cusolverDnXgesvdjSetTolerance" [h "info"; u8 "tolerance"] code;
   aborts 843 "cusolverDnXgesvdjSetMaxSweeps" [h "info"; i4 "max_sweeps"] code;
   aborts 844 "cusolverDnXgesvdjSetSortEig" [h "info"; i4 "sort_svd"] code;
   aborts 845 "cusolverDnXgesvdjGetResidual" [h "handle"; h "info"; p "residual"] code;
   aborts 846 "cusolverDnXgesvdjGetSweeps" [h "handle"; h "info"; p "executed_sweeps"] code;
   aborts 847 "cusolverDnSgesvdjBatched_bufferSize"
     [h "handle"; u4 "jobz"; i4 "m"; i4 "n"; p "A"; i4 "lda"; p "S"; p "U"; i4 "ldu"; p "V"; i4 "ldv";
      p "lwork"; h "params"; i4 "batchSize"] code;
   aborts 848 "cusolverDnDgesvdjBatched_bufferSize"
     [h "handle"; u4 "jobz"; i4 "m"; i4 "n"; p "A"; i4 "lda"; p "S"; p "U"; i4 "ldu"; p "V"; i4 "ldv";
      p "lwork"; h "params"; i4 "batchSize"] code;
   aborts 849 "cusolverDnCgesvdjBatched_bufferSize"
     [h "handle"; u4 "jobz"; i4 "m"; i4 "n"; p "A"; i4 "lda"; p "S"; p "U"; i4 "ldu"; p "V"; i4 "ldv";
      p "lwork"; h "params"; i4 "batchSize"] code;
   aborts 850 "cusolverDnZgesvdjBatched_bufferSize"
     [h "handle"; u4 "jobz"; i4 "m"; i4 "n"; p "A"; i4 "lda"; p "S"; p "U"; i4 "ldu"; p "V"; i4 "ldv";
      p "lwork"; h "params"; i4 "batchSize"] code].

Definition cusolver_49 : list aborting :=
  [aborts 851 "cusolverDnSgesvdjBatched"
     [h "handle"; u4 "jobz"; i4 "m"; i4 "n"; p "A"; i4 "lda"; p "S"; p "U"; i4 "ldu"; p "V"; i4 "ldv";
      p "work"; i4 "lwork"; p "info"; h "params"; i4 "batchSize"] code;
   aborts 852 "cusolverDnDgesvdjBatched"
     [h "handle"; u4 "jobz"; i4 "m"; i4 "n"; p "A"; i4 "lda"; p "S"; p "U"; i4 "ldu"; p "V"; i4 "ldv";
      p "work"; i4 "lwork"; p "info"; h "params"; i4 "batchSize"] code;
   aborts 853 "cusolverDnCgesvdjBatched"
     [h "handle"; u4 "jobz"; i4 "m"; i4 "n"; p "A"; i4 "lda"; p "S"; p "U"; i4 "ldu"; p "V"; i4 "ldv";
      p "work"; i4 "lwork"; p "info"; h "params"; i4 "batchSize"] code;
   aborts 854 "cusolverDnZgesvdjBatched"
     [h "handle"; u4 "jobz"; i4 "m"; i4 "n"; p "A"; i4 "lda"; p "S"; p "U"; i4 "ldu"; p "V"; i4 "ldv";
      p "work"; i4 "lwork"; p "info"; h "params"; i4 "batchSize"] code;
   aborts 855 "cusolverDnSgesvdj_bufferSize"
     [h "handle"; u4 "jobz"; i4 "econ"; i4 "m"; i4 "n"; p "A"; i4 "lda"; p "S"; p "U"; i4 "ldu"; p "V";
      i4 "ldv"; p "lwork"; h "params"] code;
   aborts 856 "cusolverDnDgesvdj_bufferSize"
     [h "handle"; u4 "jobz"; i4 "econ"; i4 "m"; i4 "n"; p "A"; i4 "lda"; p "S"; p "U"; i4 "ldu"; p "V";
      i4 "ldv"; p "lwork"; h "params"] code].

Definition cusolver_50 : list aborting :=
  [aborts 857 "cusolverDnCgesvdj_bufferSize"
     [h "handle"; u4 "jobz"; i4 "econ"; i4 "m"; i4 "n"; p "A"; i4 "lda"; p "S"; p "U"; i4 "ldu"; p "V";
      i4 "ldv"; p "lwork"; h "params"] code;
   aborts 858 "cusolverDnZgesvdj_bufferSize"
     [h "handle"; u4 "jobz"; i4 "econ"; i4 "m"; i4 "n"; p "A"; i4 "lda"; p "S"; p "U"; i4 "ldu"; p "V";
      i4 "ldv"; p "lwork"; h "params"] code;
   aborts 859 "cusolverDnSgesvdj"
     [h "handle"; u4 "jobz"; i4 "econ"; i4 "m"; i4 "n"; p "A"; i4 "lda"; p "S"; p "U"; i4 "ldu"; p "V";
      i4 "ldv"; p "work"; i4 "lwork"; p "info"; h "params"] code;
   aborts 860 "cusolverDnDgesvdj"
     [h "handle"; u4 "jobz"; i4 "econ"; i4 "m"; i4 "n"; p "A"; i4 "lda"; p "S"; p "U"; i4 "ldu"; p "V";
      i4 "ldv"; p "work"; i4 "lwork"; p "info"; h "params"] code;
   aborts 861 "cusolverDnCgesvdj"
     [h "handle"; u4 "jobz"; i4 "econ"; i4 "m"; i4 "n"; p "A"; i4 "lda"; p "S"; p "U"; i4 "ldu"; p "V";
      i4 "ldv"; p "work"; i4 "lwork"; p "info"; h "params"] code;
   aborts 862 "cusolverDnZgesvdj"
     [h "handle"; u4 "jobz"; i4 "econ"; i4 "m"; i4 "n"; p "A"; i4 "lda"; p "S"; p "U"; i4 "ldu"; p "V";
      i4 "ldv"; p "work"; i4 "lwork"; p "info"; h "params"] code].

Definition cusolver_51 : list aborting :=
  [aborts 863 "cusolverDnSgesvdaStridedBatched_bufferSize"
     [h "handle"; u4 "jobz"; i4 "rank"; i4 "m"; i4 "n"; p "d_A"; i4 "lda"; i8 "strideA"; p "d_S";
      i8 "strideS"; p "d_U"; i4 "ldu"; i8 "strideU"; p "d_V"; i4 "ldv"; i8 "strideV"; p "lwork";
      i4 "batchSize"] code].

Definition cusolver_52 : list aborting :=
  [aborts 864 "cusolverDnDgesvdaStridedBatched_bufferSize"
     [h "handle"; u4 "jobz"; i4 "rank"; i4 "m"; i4 "n"; p "d_A"; i4 "lda"; i8 "strideA"; p "d_S";
      i8 "strideS"; p "d_U"; i4 "ldu"; i8 "strideU"; p "d_V"; i4 "ldv"; i8 "strideV"; p "lwork";
      i4 "batchSize"] code].

Definition cusolver_53 : list aborting :=
  [aborts 865 "cusolverDnCgesvdaStridedBatched_bufferSize"
     [h "handle"; u4 "jobz"; i4 "rank"; i4 "m"; i4 "n"; p "d_A"; i4 "lda"; i8 "strideA"; p "d_S";
      i8 "strideS"; p "d_U"; i4 "ldu"; i8 "strideU"; p "d_V"; i4 "ldv"; i8 "strideV"; p "lwork";
      i4 "batchSize"] code;
   aborts 866 "cusolverDnZgesvdaStridedBatched_bufferSize"
     [h "handle"; u4 "jobz"; i4 "rank"; i4 "m"; i4 "n"; p "d_A"; i4 "lda"; i8 "strideA"; p "d_S";
      i8 "strideS"; p "d_U"; i4 "ldu"; i8 "strideU"; p "d_V"; i4 "ldv"; i8 "strideV"; p "lwork";
      i4 "batchSize"] code].

Definition cusolver_54 : list aborting :=
  [aborts 867 "cusolverDnSgesvdaStridedBatched"
     [h "handle"; u4 "jobz"; i4 "rank"; i4 "m"; i4 "n"; p "d_A"; i4 "lda"; i8 "strideA"; p "d_S";
      i8 "strideS"; p "d_U"; i4 "ldu"; i8 "strideU"; p "d_V"; i4 "ldv"; i8 "strideV"; p "d_work";
      i4 "lwork"; p "d_info"; p "h_R_nrmF"; i4 "batchSize"] code].

Definition cusolver_55 : list aborting :=
  [aborts 868 "cusolverDnDgesvdaStridedBatched"
     [h "handle"; u4 "jobz"; i4 "rank"; i4 "m"; i4 "n"; p "d_A"; i4 "lda"; i8 "strideA"; p "d_S";
      i8 "strideS"; p "d_U"; i4 "ldu"; i8 "strideU"; p "d_V"; i4 "ldv"; i8 "strideV"; p "d_work";
      i4 "lwork"; p "d_info"; p "h_R_nrmF"; i4 "batchSize"] code].

Definition cusolver_56 : list aborting :=
  [aborts 869 "cusolverDnCgesvdaStridedBatched"
     [h "handle"; u4 "jobz"; i4 "rank"; i4 "m"; i4 "n"; p "d_A"; i4 "lda"; i8 "strideA"; p "d_S";
      i8 "strideS"; p "d_U"; i4 "ldu"; i8 "strideU"; p "d_V"; i4 "ldv"; i8 "strideV"; p "d_work";
      i4 "lwork"; p "d_info"; p "h_R_nrmF"; i4 "batchSize"] code].

Definition cusolver_57 : list aborting :=
  [aborts 870 "cusolverDnZgesvdaStridedBatched"
     [h "handle"; u4 "jobz"; i4 "rank"; i4 "m"; i4 "n"; p "d_A"; i4 "lda"; i8 "strideA"; p "d_S";
      i8 "strideS"; p "d_U"; i4 "ldu"; i8 "strideU"; p "d_V"; i4 "ldv"; i8 "strideV"; p "d_work";
      i4 "lwork"; p "d_info"; p "h_R_nrmF"; i4 "batchSize"] code].

Definition cusparse_1 : list aborting :=
  [aborts 871 "cusparseCreate" [p "handle"] code;
   aborts 872 "cusparseDestroy" [h "handle"] code;
   aborts 873 "cusparseGetVersion" [h "handle"; p "version"] code;
   aborts 874 "cusparseGetProperty" [u4 "type"; p "value"] code;
   aborts 875 "cusparseSetStream" [h "handle"; h "streamId"] code;
   aborts 876 "cusparseGetStream" [h "handle"; p "streamId"] code;
   aborts 877 "cusparseGetPointerMode" [h "handle"; p "mode"] code;
   aborts 878 "cusparseSetPointerMode" [h "handle"; u4 "mode"] code].

Definition cusparse_2 : list aborting :=
  [aborts 881 "cusparseCreateMatDescr" [p "descrA"] code;
   aborts 882 "cusparseDestroyMatDescr" [h "descrA"] code;
   aborts 883 "cusparseCopyMatDescr" [h "dest"; h "src"] code;
   aborts 884 "cusparseSetMatType" [h "descrA"; u4 "type"] code;
   aborts 885 "cusparseGetMatType" [h "descrA"] code;
   aborts 886 "cusparseSetMatFillMode" [h "descrA"; u4 "fillMode"] code;
   aborts 887 "cusparseGetMatFillMode" [h "descrA"] code;
   aborts 888 "cusparseSetMatDiagType" [h "descrA"; u4 "diagType"] code;
   aborts 889 "cusparseGetMatDiagType" [h "descrA"] code;
   aborts 890 "cusparseSetMatIndexBase" [h "descrA"; u4 "base_"] code;
   aborts 891 "cusparseGetMatIndexBase" [h "descrA"] code;
   aborts 892 "cusparseCreateSolveAnalysisInfo" [p "info"] code;
   aborts 893 "cusparseDestroySolveAnalysisInfo" [h "info"] code;
   aborts 894 "cusparseGetLevelInfo" [h "handle"; h "info"; p "nlevels"; p "levelPtr"; p "levelInd"] code;
   aborts 895 "cusparseCreateCsrsv2Info" [p "info"] code;
   aborts 896 "cusparseDestroyCsrsv2Info" [h "info"] code;
   aborts 897 "cusparseCreateCsric02Info" [p "info"] code].

Definition cusparse_3 : list aborting :=
  [aborts 898 "cusparseDestroyCsric02Info" [h "info"] code;
   aborts 899 "cusparseCreateBsric02Info" [p "info"] code;
   aborts 900 "cusparseDestroyBsric02Info" [h "info"] code;
   aborts 901 "cusparseCreateCsrilu02Info" [p "info"] code;
   aborts 902 "cusparseDestroyCsrilu02Info" [h "info"] code;
   aborts 903 "cusparseCreateBsrilu02Info" [p "info"] code;
   aborts 904 "cusparseDestroyBsrilu02Info" [h "info"] code;
   aborts 905 "cusparseCreateBsrsv2Info" [p "info"] code;
   aborts 906 "cusparseDestroyBsrsv2Info" [h "info"] code;
   aborts 907 "cusparseCreateBsrsm2Info" [p "info"] code;
   aborts 908 "cusparseDestroyBsrsm2Info" [h "info"] code;
   aborts 909 "cusparseCreateHybMat" [p "hybA"] code;
   aborts 910 "cusparseDestroyHybMat" [h "hybA"] code;
   aborts 911 "cusparseCreateCsru2csrInfo" [p "info"] code;
   aborts 912 "cusparseDestroyCsru2csrInfo" [h "info"] code;
   aborts 913 "cusparseCreateColorInfo" [p "info"] code;
   aborts 914 "cusparseDestroyColorInfo" [h "info"] code;
   aborts 915 "cusparseSetColorAlgs" [h "info"; u4 "alg"] code].

Definition cusparse_4 : list aborting :=
  [aborts 916 "cusparseGetColorAlgs" [h "info"; p "alg"] code;
   aborts 917 "cusparseCreatePruneInfo" [p "info"] code;
   aborts 918 "cusparseDestroyPruneInfo" [h "info"] code].

Definition cusparse_5 : list aborting :=
  [aborts 919 "cusparseSaxpyi"
     [h "handle"; i4 "nnz"; p "alpha"; p "xVal"; p "xInd"; p "y"; u4 "idxBase"] code;
   aborts 920 "cusparseDaxpyi"
     [h "handle"; i4 "nnz"; p "alpha"; p "xVal"; p "xInd"; p "y"; u4 "idxBase"] code;
   aborts 921 "cusparseCaxpyi"
     [h "handle"; i4 "nnz"; p "alpha"; p "xVal"; p "xInd"; p "y"; u4 "idxBase"] code;
   aborts 922 "cusparseZaxpyi"
     [h "handle"; i4 "nnz"; p "alpha"; p "xVal"; p "xInd"; p "y"; u4 "idxBase"] code;
   aborts 923 "cusparseSgthr" [h "handle"; i4 "nnz"; p "y"; p "xVal"; p "xInd"; u4 "idxBase"] code;
   aborts 924 "cusparseDgthr" [h "handle"; i4 "nnz"; p "y"; p "xVal"; p "xInd"; u4 "idxBase"] code;
   aborts 925 "cusparseCgthr" [h "handle"; i4 "nnz"; p "y"; p "xVal"; p "xInd"; u4 "idxBase"] code;
   aborts 926 "cusparseZgthr" [h "handle"; i4 "nnz"; p "y"; p "xVal"; p "xInd"; u4 "idxBase"] code;
   aborts 927 "cusparseSgthrz" [h "handle"; i4 "nnz"; p "y"; p "xVal"; p "xInd"; u4 "idxBase"] code;
   aborts 928 "cusparseDgthrz" [h "handle"; i4 "nnz"; p "y"; p "xVal"; p "xInd"; u4 "idxBase"] code;
   aborts 929 "cusparseCgthrz" [h "handle"; i4 "nnz"; p "y"; p "xVal"; p "xInd"; u4 "idxBase"] code].

Definition cusparse_6 : list aborting :=
  [aborts 930 "cusparseZgthrz" [h "handle"; i4 "nnz"; p "y"; p "xVal"; p "xInd"; u4 "idxBase"] code;
   aborts 931 "cusparseSsctr" [h "handle"; i4 "nnz"; p "xVal"; p "xInd"; p "y"; u4 "idxBase"] code;
   aborts 932 "cusparseDsctr" [h "handle"; i4 "nnz"; p "xVal"; p "xInd"; p "y"; u4 "idxBase"] code;
   aborts 933 "cusparseCsctr" [h "handle"; i4 "nnz"; p "xVal"; p "xInd"; p "y"; u4 "idxBase"] code;
   aborts 934 "cusparseZsctr" [h "handle"; i4 "nnz"; p "xVal"; p "xInd"; p "y"; u4 "idxBase"] code;
   aborts 935 "cusparseSroti"
     [h "handle"; i4 "nnz"; p "xVal"; p "xInd"; p "y"; p "c"; p "s"; u4 "idxBase"] code;
   aborts 936 "cusparseDroti"
     [h "handle"; i4 "nnz"; p "xVal"; p "xInd"; p "y"; p "c"; p "s"; u4 "idxBase"] code].

Definition cusparse_7 : list aborting :=
  [aborts 937 "cusparseSgemvi"
     [h "handle"; u4 "transA"; i4 "m"; i4 "n"; p "alpha"; p "A"; i4 "lda"; i4 "nnz"; p "xVal"; p "xInd";
      p "beta"; p "y"; u4 "idxBase"; p "pBuffer"] code;
   aborts 938 "cusparseSgemvi_bufferSize"
     [h "handle"; u4 "transA"; i4 "m"; i4 "n"; i4 "nnz"; p "pBufferSize"] code;
   aborts 939 "cusparseDgemvi"
     [h "handle"; u4 "transA"; i4 "m"; i4 "n"; p "alpha"; p "A"; i4 "lda"; i4 "nnz"; p "xVal"; p "xInd";
      p "beta"; p "y"; u4 "idxBase"; p "pBuffer"] code;
   aborts 940 "cusparseDgemvi_bufferSize"
     [h "handle"; u4 "transA"; i4 "m"; i4 "n"; i4 "nnz"; p "pBufferSize"] code;
   aborts 941 "cusparseCgemvi"
     [h "handle"; u4 "transA"; i4 "m"; i4 "n"; p "alpha"; p "A"; i4 "lda"; i4 "nnz"; p "xVal"; p "xInd";
      p "beta"; p "y"; u4 "idxBase"; p "pBuffer"] code;
   aborts 942 "cusparseCgemvi_bufferSize"
     [h "handle"; u4 "transA"; i4 "m"; i4 "n"; i4 "nnz"; p "pBufferSize"] code;
   aborts 943 "cusparseZgemvi"
     [h "handle"; u4 "transA"; i4 "m"; i4 "n"; p "alpha"; p "A"; i4 "lda"; i4 "nnz"; p "xVal"; p "xInd";
      p "beta"; p "y"; u4 "idxBase"; p "pBuffer"] code;
   aborts 944 "cusparseZgemvi_bufferSize"
     [h "handle"; u4 "transA"; i4 "m"; i4 "n"; i4 "nnz"; p "pBufferSize"] code].

Definition cusparse_8 : list aborting :=
  [aborts 945 "cusparseCsrmvEx_bufferSize"
     [h "handle"; u4 "alg"; u4 "transA"; i4 "m"; i4 "n"; i4 "nnz"; p "alpha"; u4 "alphatype"; h "descrA";
      p "csrValA"; u4 "csrValAtype"; p "csrRowPtrA"; p "csrColIndA"; p "x"; u4 "xtype"; p "beta";
      u4 "betatype"; p "y"; u4 "ytype"; u4 "executiontype"; p "bufferSizeInBytes"] code;
   aborts 946 "cusparseCsrmvEx"
     [h "handle"; u4 "alg"; u4 "transA"; i4 "m"; i4 "n"; i4 "nnz"; p "alpha"; u4 "alphatype"; h "descrA";
      p "csrValA"; u4 "csrValAtype"; p "csrRowPtrA"; p "csrColIndA"; p "x"; u4 "xtype"; p "beta";
      u4 "betatype"; p "y"; u4 "ytype"; u4 "executiontype"; p "buffer"] code;
   aborts 947 "cusparseShybmv"
     [h "handle"; u4 "transA"; p "alpha"; h "descrA"; h "hybA"; p "x"; p "beta"; p "y"] code;
   aborts 948 "cusparseDhybmv"
     [h "handle"; u4 "transA"; p "alpha"; h "descrA"; h "hybA"; p "x"; p "beta"; p "y"] code;
   aborts 949 "cusparseChybmv"
     [h "handle"; u4 "transA"; p "alpha"; h "descrA"; h "hybA"; p "x"; p "beta"; p "y"] code;
   aborts 950 "cusparseZhybmv"
     [h "handle"; u4 "transA"; p "alpha"; h "descrA"; h "hybA"; p "x"; p "beta"; p "y"] code;
   aborts 951 "cusparseSbsrmv"
     [h "handle"; u4 "dirA"; u4 "transA"; i4 "mb"; i4 "nb"; i4 "nnzb"; p "alpha"; h "descrA";
      p "bsrSortedValA"; p "bsrSortedRowPtrA"; p "bsrSortedColIndA"; i4 "blockDim"; p "x"; p "beta"; p "y"] code].

Definition cusparse_9 : list aborting :=
  [aborts 952 "cusparseDbsrmv"
     [h "handle"; u4 "dirA"; u4 "transA"; i4 "mb"; i4 "nb"; i4 "nnzb"; p "alpha"; h "descrA";
      p "bsrSortedValA"; p "bsrSortedRowPtrA"; p "bsrSortedColIndA"; i4 "blockDim"; p "x"; p "beta"; p "y"] code;
   aborts 953 "cusparseCbsrmv"
     [h "handle"; u4 "dirA"; u4 "transA"; i4 "mb"; i4 "nb"; i4 "nnzb"; p "alpha"; h "descrA";
      p "bsrSortedValA"; p "bsrSortedRowPtrA"; p "bsrSortedColIndA"; i4 "blockDim"; p "x"; p "beta"; p "y"] code;
   aborts 954 "cusparseZbsrmv"
     [h "handle"; u4 "dirA"; u4 "transA"; i4 "mb"; i4 "nb"; i4 "nnzb"; p "alpha"; h "descrA";
      p "bsrSortedValA"; p "bsrSortedRowPtrA"; p "bsrSortedColIndA"; i4 "blockDim"; p "x"; p "beta"; p "y"] code;
   aborts 955 "cusparseSbsrxmv"
     [h "handle"; u4 "dirA"; u4 "transA"; i4 "sizeOfMask"; i4 "mb"; i4 "nb"; i4 "nnzb"; p "alpha";
      h "descrA"; p "bsrSortedValA"; p "bsrSortedMaskPtrA"; p "bsrSortedRowPtrA"; p "bsrSortedEndPtrA";
      p "bsrSortedColIndA"; i4 "blockDim"; p "x"; p "beta"; p "y"] code;
   aborts 956 "cusparseDbsrxmv"
     [h "handle"; u4 "dirA"; u4 "transA"; i4 "sizeOfMask"; i4 "mb"; i4 "nb"; i4 "nnzb"; p "alpha";
      h "descrA"; p "bsrSortedValA"; p "bsrSortedMaskPtrA"; p "bsrSortedRowPtrA"; p "bsrSortedEndPtrA";
      p "bsrSortedColIndA"; i4 "blockDim"; p "x"; p "beta"; p "y"] code;
   aborts 957 "cusparseCbsrxmv"
     [h "handle"; u4 "dirA"; u4 "transA"; i4 "sizeOfMask"; i4 "mb"; i4 "nb"; i4 "nnzb"; p "alpha";
      h "descrA"; p "bsrSortedValA"; p "bsrSortedMaskPtrA"; p "bsrSortedRowPtrA"; p "bsrSortedEndPtrA";
      p "bsrSortedColIndA"; i4 "blockDim"; p "x"; p "beta"; p "y"] code].

Definition cusparse_10 : list aborting :=
  [aborts 958 "cusparseZbsrxmv"
     [h "handle"; u4 "dirA"; u4 "transA"; i4 "sizeOfMask"; i4 "mb"; i4 "nb"; i4 "nnzb"; p "alpha";
      h "descrA"; p "bsrSortedValA"; p "bsrSortedMaskPtrA"; p "bsrSortedRowPtrA"; p "bsrSortedEndPtrA";
      p "bsrSortedColIndA"; i4 "blockDim"; p "x"; p "beta"; p "y"] code;
   aborts 959 "cusparseXcsrsv2_zeroPivot" [h "handle"; h "info"; p "position"] code;
   aborts 960 "cusparseScsrsv2_bufferSize"
     [h "handle"; u4 "transA"; i4 "m"; i4 "nnz"; h "descrA"; p "csrSortedValA"; p "csrSortedRowPtrA";
      p "csrSortedColIndA"; h "info"; p "pBufferSizeInBytes"] code;
   aborts 961 "cusparseDcsrsv2_bufferSize"
     [h "handle"; u4 "transA"; i4 "m"; i4 "nnz"; h "descrA"; p "csrSortedValA"; p "csrSortedRowPtrA";
      p "csrSortedColIndA"; h "info"; p "pBufferSizeInBytes"] code;
   aborts 962 "cusparseCcsrsv2_bufferSize"
     [h "handle"; u4 "transA"; i4 "m"; i4 "nnz"; h "descrA"; p "csrSortedValA"; p "csrSortedRowPtrA";
      p "csrSortedColIndA"; h "info"; p "pBufferSizeInBytes"] code;
   aborts 963 "cusparseZcsrsv2_bufferSize"
     [h "handle"; u4 "transA"; i4 "m"; i4 "nnz"; h "descrA"; p "csrSortedValA"; p "csrSortedRowPtrA";
      p "csrSortedColIndA"; h "info"; p "pBufferSizeInBytes"] code;
   aborts 964 "cusparseScsrsv2_bufferSizeExt"
     [h "handle"; u4 "transA"; i4 "m"; i4 "nnz"; h "descrA"; p "csrSortedValA"; p "csrSortedRowPtrA";
      p "csrSortedColIndA"; h "info"; p "pBufferSize"] code;
   aborts 965 "cusparseDcsrsv2_bufferSizeExt"
     [h "handle"; u4 "transA"; i4 "m"; i4 "nnz"; h "descrA"; p "csrSortedValA"; p "csrSortedRowPtrA";
      p "csrSortedColIndA"; h "info"; p "pBufferSize"] code].

Definition cusparse_11 : list aborting :=
  [aborts 966 "cusparseCcsrsv2_bufferSizeExt"
     [h "handle"; u4 "transA"; i4 "m"; i4 "nnz"; h "descrA"; p "csrSortedValA"; p "csrSortedRowPtrA";
      p "csrSortedColIndA"; h "info"; p "pBufferSize"] code;
   aborts 967 "cusparseZcsrsv2_bufferSizeExt"
     [h "handle"; u4 "transA"; i4 "m"; i4 "nnz"; h "descrA"; p "csrSortedValA"; p "csrSortedRowPtrA";
      p "csrSortedColIndA"; h "info"; p "pBufferSize"] code;
   aborts 968 "cusparseScsrsv2_analysis"
     [h "handle"; u4 "transA"; i4 "m"; i4 "nnz"; h "descrA"; p "csrSortedValA"; p "csrSortedRowPtrA";
      p "csrSortedColIndA"; h "info"; u4 "policy"; p "pBuffer"] code;
   aborts 969 "cusparseDcsrsv2_analysis"
     [h "handle"; u4 "transA"; i4 "m"; i4 "nnz"; h "descrA"; p "csrSortedValA"; p "csrSortedRowPtrA";
      p "csrSortedColIndA"; h "info"; u4 "policy"; p "pBuffer"] code;
   aborts 970 "cusparseCcsrsv2_analysis"
     [h "handle"; u4 "transA"; i4 "m"; i4 "nnz"; h "descrA"; p "csrSortedValA"; p "csrSortedRowPtrA";
      p "csrSortedColIndA"; h "info"; u4 "policy"; p "pBuffer"] code;
   aborts 971 "cusparseZcsrsv2_analysis"
     [h "handle"; u4 "transA"; i4 "m"; i4 "nnz"; h "descrA"; p "csrSortedValA"; p "csrSortedRowPtrA";
      p "csrSortedColIndA"; h "info"; u4 "policy"; p "pBuffer"] code;
   aborts 972 "cusparseScsrsv2_solve"
     [h "handle"; u4 "transA"; i4 "m"; i4 "nnz"; p "alpha"; h "descrA"; p "csrSortedValA";
      p "csrSortedRowPtrA"; p "csrSortedColIndA"; h "info"; p "f"; p "x"; u4 "policy"; p "pBuffer"] code;
   aborts 973 "cusparseDcsrsv2_solve"
     [h "handle"; u4 "transA"; i4 "m"; i4 "nnz"; p "alpha"; h "descrA"; p "csrSortedValA";
      p "csrSortedRowPtrA"; p "csrSortedColIndA"; h "info"; p "f"; p "x"; u4 "policy"; p "pBuffer"] code].

Definition cusparse_12 : list aborting :=
  [aborts 974 "cusparseCcsrsv2_solve"
     [h "handle"; u4 "transA"; i4 "m"; i4 "nnz"; p "alpha"; h "descrA"; p "csrSortedValA";
      p "csrSortedRowPtrA"; p "csrSortedColIndA"; h "info"; p "f"; p "x"; u4 "policy"; p "pBuffer"] code;
   aborts 975 "cusparseZcsrsv2_solve"
     [h "handle"; u4 "transA"; i4 "m"; i4 "nnz"; p "alpha"; h "descrA"; p "csrSortedValA";
      p "csrSortedRowPtrA"; p "csrSortedColIndA"; h "info"; p "f"; p "x"; u4 "policy"; p "pBuffer"] code;
   aborts 976 "cusparseXbsrsv2_zeroPivot" [h "handle"; h "info"; p "position"] code;
   aborts 977 "cusparseSbsrsv2_bufferSize"
     [h "handle"; u4 "dirA"; u4 "transA"; i4 "mb"; i4 "nnzb"; h "descrA"; p "bsrSortedValA";
      p "bsrSortedRowPtrA"; p "bsrSortedColIndA"; i4 "blockDim"; h "info"; p "pBufferSizeInBytes"] code;
   aborts 978 "cusparseDbsrsv2_bufferSize"
     [h "handle"; u4 "dirA"; u4 "transA"; i4 "mb"; i4 "nnzb"; h "descrA"; p "bsrSortedValA";
      p "bsrSortedRowPtrA"; p "bsrSortedColIndA"; i4 "blockDim"; h "info"; p "pBufferSizeInBytes"] code;
   aborts 979 "cusparseCbsrsv2_bufferSize"
     [h "handle"; u4 "dirA"; u4 "transA"; i4 "mb"; i4 "nnzb"; h "descrA"; p "bsrSortedValA";
      p "bsrSortedRowPtrA"; p "bsrSortedColIndA"; i4 "blockDim"; h "info"; p "pBufferSizeInBytes"] code;
   aborts 980 "cusparseZbsrsv2_bufferSize"
     [h "handle"; u4 "dirA"; u4 "transA"; i4 "mb"; i4 "nnzb"; h "descrA"; p "bsrSortedValA";
      p "bsrSortedRowPtrA"; p "bsrSortedColIndA"; i4 "blockDim"; h "info"; p "pBufferSizeInBytes"] code;
   aborts 981 "cusparseSbsrsv2_bufferSizeExt"
     [h "handle"; u4 "dirA"; u4 "transA"; i4 "mb"; i4 "nnzb"; h "descrA"; p "bsrSortedValA";
      p "bsrSortedRowPtrA"; p "bsrSortedColIndA"; i4 "blockSize"; h "info"; p "pBufferSize"] code].

Definition cusparse_13 : list aborting :=
  [aborts 982 "cusparseDbsrsv2_bufferSizeExt"
     [h "handle"; u4 "dirA"; u4 "transA"; i4 "mb"; i4 "nnzb"; h "descrA"; p "bsrSortedValA";
      p "bsrSortedRowPtrA"; p "bsrSortedColIndA"; i4 "blockSize"; h "info"; p "pBufferSize"] code;
   aborts 983 "cusparseCbsrsv2_bufferSizeExt"
     [h "handle"; u4 "dirA"; u4 "transA"; i4 "mb"; i4 "nnzb"; h "descrA"; p "bsrSortedValA";
      p "bsrSortedRowPtrA"; p "bsrSortedColIndA"; i4 "blockSize"; h "info"; p "pBufferSize"] code;
   aborts 984 "cusparseZbsrsv2_bufferSizeExt"
     [h "handle"; u4 "dirA"; u4 "transA"; i4 "mb"; i4 "nnzb"; h "descrA"; p "bsrSortedValA";
      p "bsrSortedRowPtrA"; p "bsrSortedColIndA"; i4 "blockSize"; h "info"; p "pBufferSize"] code;
   aborts 985 "cusparseSbsrsv2_analysis"
     [h "handle"; u4 "dirA"; u4 "transA"; i4 "mb"; i4 "nnzb"; h "descrA"; p "bsrSortedValA";
      p "bsrSortedRowPtrA"; p "bsrSortedColIndA"; i4 "blockDim"; h "info"; u4 "policy"; p "pBuffer"] code;
   aborts 986 "cusparseDbsrsv2_analysis"
     [h "handle"; u4 "dirA"; u4 "transA"; i4 "mb"; i4 "nnzb"; h "descrA"; p "bsrSortedValA";
      p "bsrSortedRowPtrA"; p "bsrSortedColIndA"; i4 "blockDim"; h "info"; u4 "policy"; p "pBuffer"] code;
   aborts 987 "cusparseCbsrsv2_analysis"
     [h "handle"; u4 "dirA"; u4 "transA"; i4 "mb"; i4 "nnzb"; h "descrA"; p "bsrSortedValA";
      p "bsrSortedRowPtrA"; p "bsrSortedColIndA"; i4 "blockDim"; h "info"; u4 "policy"; p "pBuffer"] code;
   aborts 988 "cusparseZbsrsv2_analysis"
     [h "handle"; u4 "dirA"; u4 "transA"; i4 "mb"; i4 "nnzb"; h "descrA"; p "bsrSortedValA";
      p "bsrSortedRowPtrA"; p "bsrSortedColIndA"; i4 "blockDim"; h "info"; u4 "policy"; p "pBuffer"] code].

Definition cusparse_14 : list aborting :=
  [aborts 989 "cusparseSbsrsv2_solve"
     [h "handle"; u4 "dirA"; u4 "transA"; i4 "mb"; i4 "nnzb"; p "alpha"; h "descrA"; p "bsrSortedValA";
      p "bsrSortedRowPtrA"; p "bsrSortedColIndA"; i4 "blockDim"; h "info"; p "f"; p "x"; u4 "policy";
      p "pBuffer"] code;
   aborts 990 "cusparseDbsrsv2_solve"
     [h "handle"; u4 "dirA"; u4 "transA"; i4 "mb"; i4 "nnzb"; p "alpha"; h "descrA"; p "bsrSortedValA";
      p "bsrSortedRowPtrA"; p "bsrSortedColIndA"; i4 "blockDim"; h "info"; p "f"; p "x"; u4 "policy";
      p "pBuffer"] code;
   aborts 991 "cusparseCbsrsv2_solve"
     [h "handle"; u4 "dirA"; u4 "transA"; i4 "mb"; i4 "nnzb"; p "alpha"; h "descrA"; p "bsrSortedValA";
      p "bsrSortedRowPtrA"; p "bsrSortedColIndA"; i4 "blockDim"; h "info"; p "f"; p "x"; u4 "policy";
      p "pBuffer"] code;
   aborts 992 "cusparseZbsrsv2_solve"
     [h "handle"; u4 "dirA"; u4 "transA"; i4 "mb"; i4 "nnzb"; p "alpha"; h "descrA"; p "bsrSortedValA";
      p "bsrSortedRowPtrA"; p "bsrSortedColIndA"; i4 "blockDim"; h "info"; p "f"; p "x"; u4 "policy";
      p "pBuffer"] code;
   aborts 993 "cusparseShybsv_analysis" [h "handle"; u4 "transA"; h "descrA"; h "hybA"; h "info"] code;
   aborts 994 "cusparseDhybsv_analysis" [h "handle"; u4 "transA"; h "descrA"; h "hybA"; h "info"] code;
   aborts 995 "cusparseChybsv_analysis" [h "handle"; u4 "transA"; h "descrA"; h "hybA"; h "info"] code;
   aborts 996 "cusparseZhybsv_analysis" [h "handle"; u4 "transA"; h "descrA"; h "hybA"; h "info"] code].

Definition cusparse_15 : list aborting :=
  [aborts 997 "cusparseShybsv_solve"
     [h "handle"; u4 "trans"; p "alpha"; h "descrA"; h "hybA"; h "info"; p "f"; p "x"] code;
   aborts 998 "cusparseChybsv_solve"
     [h "handle"; u4 "trans"; p "alpha"; h "descrA"; h "hybA"; h "info"; p "f"; p "x"] code;
   aborts 999 "cusparseDhybsv_solve"
     [h "handle"; u4 "trans"; p "alpha"; h "descrA"; h "hybA"; h "info"; p "f"; p "x"] code;
   aborts 1000 "cusparseZhybsv_solve"
     [h "handle"; u4 "trans"; p "alpha"; h "descrA"; h "hybA"; h "info"; p "f"; p "x"] code].

Definition cusparse_16 : list aborting :=
  [aborts 1001 "cusparseSbsrmm"
     [h "handle"; u4 "dirA"; u4 "transA"; u4 "transB"; i4 "mb"; i4 "n"; i4 "kb"; i4 "nnzb"; p "alpha";
      h "descrA"; p "bsrSortedValA"; p "bsrSortedRowPtrA"; p "bsrSortedColIndA"; i4 "blockSize"; p "B";
      i4 "ldb"; p "beta"; p "C"; i4 "ldc"] code;
   aborts 1002 "cusparseDbsrmm"
     [h "handle"; u4 "dirA"; u4 "transA"; u4 "transB"; i4 "mb"; i4 "n"; i4 "kb"; i4 "nnzb"; p "alpha";
      h "descrA"; p "bsrSortedValA"; p "bsrSortedRowPtrA"; p "bsrSortedColIndA"; i4 "blockSize"; p "B";
      i4 "ldb"; p "beta"; p "C"; i4 "ldc"] code;
   aborts 1003 "cusparseCbsrmm"
     [h "handle"; u4 "dirA"; u4 "transA"; u4 "transB"; i4 "mb"; i4 "n"; i4 "kb"; i4 "nnzb"; p "alpha";
      h "descrA"; p "bsrSortedValA"; p "bsrSortedRowPtrA"; p "bsrSortedColIndA"; i4 "blockSize"; p "B";
      i4 "ldb"; p "beta"; p "C"; i4 "ldc"] code;
   aborts 1004 "cusparseZbsrmm"
     [h "handle"; u4 "dirA"; u4 "transA"; u4 "transB"; i4 "mb"; i4 "n"; i4 "kb"; i4 "nnzb"; p "alpha";
      h "descrA"; p "bsrSortedValA"; p "bsrSortedRowPtrA"; p "bsrSortedColIndA"; i4 "blockSize"; p "B";
      i4 "ldb"; p "beta"; p "C"; i4 "ldc"] code;
   aborts 1005 "cusparseSgemmi"
     [h "handle"; i4 "m"; i4 "n"; i4 "k"; i4 "nnz"; p "alpha"; p "A"; i4 "lda"; p "cscValB";
      p "cscColPtrB"; p "cscRowIndB"; p "beta"; p "C"; i4 "ldc"] code;
   aborts 1006 "cusparseDgemmi"
     [h "handle"; i4 "m"; i4 "n"; i4 "k"; i4 "nnz"; p "alpha"; p "A"; i4 "lda"; p "cscValB";
      p "cscColPtrB"; p "cscRowIndB"; p "beta"; p "C"; i4 "ldc"] code].

Definition cusparse_17 : list aborting :=
  [aborts 1007 "cusparseCgemmi"
     [h "handle"; i4 "m"; i4 "n"; i4 "k"; i4 "nnz"; p "alpha"; p "A"; i4 "lda"; p "cscValB";
      p "cscColPtrB"; p "cscRowIndB"; p "beta"; p "C"; i4 "ldc"] code;
   aborts 1008 "cusparseZgemmi"
     [h "handle"; i4 "m"; i4 "n"; i4 "k"; i4 "nnz"; p "alpha"; p "A"; i4 "lda"; p "cscValB";
      p "cscColPtrB"; p "cscRowIndB"; p "beta"; p "C"; i4 "ldc"] code;
   aborts 1009 "cusparseCreateCsrsm2Info" [p "info"] code;
   aborts 1010 "cusparseDestroyCsrsm2Info" [h "info"] code;
   aborts 1011 "cusparseXcsrsm2_zeroPivot" [h "handle"; h "info"; p "position"] code;
   aborts 1012 "cusparseScsrsm2_bufferSizeExt"
     [h "handle"; i4 "algo"; u4 "transA"; u4 "transB"; i4 "m"; i4 "nrhs"; i4 "nnz"; p "alpha"; h "descrA";
      p "csrSortedValA"; p "csrSortedRowPtrA"; p "csrSortedColIndA"; p "B"; i4 "ldb"; h "info";
      u4 "policy"; p "pBufferSize"] code;
   aborts 1013 "cusparseDcsrsm2_bufferSizeExt"
     [h "handle"; i4 "algo"; u4 "transA"; u4 "transB"; i4 "m"; i4 "nrhs"; i4 "nnz"; p "alpha"; h "descrA";
      p "csrSortedValA"; p "csrSortedRowPtrA"; p "csrSortedColIndA"; p "B"; i4 "ldb"; h "info";
      u4 "policy"; p "pBufferSize"] code;
   aborts 1014 "cusparseCcsrsm2_bufferSizeExt"
     [h "handle"; i4 "algo"; u4 "transA"; u4 "transB"; i4 "m"; i4 "nrhs"; i4 "nnz"; p "alpha"; h "descrA";
      p "csrSortedValA"; p "csrSortedRowPtrA"; p "csrSortedColIndA"; p "B"; i4 "ldb"; h "info";
      u4 "policy"; p "pBufferSize"] code].

Definition cusparse_18 : list aborting :=
  [aborts 1015 "cusparseZcsrsm2_bufferSizeExt"
     [h "handle"; i4 "algo"; u4 "transA"; u4 "transB"; i4 "m"; i4 "nrhs"; i4 "nnz"; p "alpha"; h "descrA";
      p "csrSortedValA"; p "csrSortedRowPtrA"; p "csrSortedColIndA"; p "B"; i4 "ldb"; h "info";
      u4 "policy"; p "pBufferSize"] code;
   aborts 1016 "cusparseScsrsm2_analysis"
     [h "handle"; i4 "algo"; u4 "transA"; u4 "transB"; i4 "m"; i4 "nrhs"; i4 "nnz"; p "alpha"; h "descrA";
      p "csrSortedValA"; p "csrSortedRowPtrA"; p "csrSortedColIndA"; p "B"; i4 "ldb"; h "info";
      u4 "policy"; p "pBuffer"] code;
   aborts 1017 "cusparseDcsrsm2_analysis"
     [h "handle"; i4 "algo"; u4 "transA"; u4 "transB"; i4 "m"; i4 "nrhs"; i4 "nnz"; p "alpha"; h "descrA";
      p "csrSortedValA"; p "csrSortedRowPtrA"; p "csrSortedColIndA"; p "B"; i4 "ldb"; h "info";
      u4 "policy"; p "pBuffer"] code;
   aborts 1018 "cusparseCcsrsm2_analysis"
     [h "handle"; i4 "algo"; u4 "transA"; u4 "transB"; i4 "m"; i4 "nrhs"; i4 "nnz"; p "alpha"; h "descrA";
      p "csrSortedValA"; p "csrSortedRowPtrA"; p "csrSortedColIndA"; p "B"; i4 "ldb"; h "info";
      u4 "policy"; p "pBuffer"] code;
   aborts 1019 "cusparseZcsrsm2_analysis"
     [h "handle"; i4 "algo"; u4 "transA"; u4 "transB"; i4 "m"; i4 "nrhs"; i4 "nnz"; p "alpha"; h "descrA";
      p "csrSortedValA"; p "csrSortedRowPtrA"; p "csrSortedColIndA"; p "B"; i4 "ldb"; h "info";
      u4 "policy"; p "pBuffer"] code;
   aborts 1020 "cusparseScsrsm2_solve"
     [h "handle"; i4 "algo"; u4 "transA"; u4 "transB"; i4 "m"; i4 "nrhs"; i4 "nnz"; p "alpha"; h "descrA";
      p "csrSortedValA"; p "csrSortedRowPtrA"; p "csrSortedColIndA"; p "B"; i4 "ldb"; h "info";
      u4 "policy"; p "pBuffer"] code].

Definition cusparse_19 : list aborting :=
  [aborts 1021 "cusparseDcsrsm2_solve"
     [h "handle"; i4 "algo"; u4 "transA"; u4 "transB"; i4 "m"; i4 "nrhs"; i4 "nnz"; p "alpha"; h "descrA";
      p "csrSortedValA"; p "csrSortedRowPtrA"; p "csrSortedColIndA"; p "B"; i4 "ldb"; h "info";
      u4 "policy"; p "pBuffer"] code;
   aborts 1022 "cusparseCcsrsm2_solve"
     [h "handle"; i4 "algo"; u4 "transA"; u4 "transB"; i4 "m"; i4 "nrhs"; i4 "nnz"; p "alpha"; h "descrA";
      p "csrSortedValA"; p "csrSortedRowPtrA"; p "csrSortedColIndA"; p "B"; i4 "ldb"; h "info";
      u4 "policy"; p "pBuffer"] code;
   aborts 1023 "cusparseZcsrsm2_solve"
     [h "handle"; i4 "algo"; u4 "transA"; u4 "transB"; i4 "m"; i4 "nrhs"; i4 "nnz"; p "alpha"; h "descrA";
      p "csrSortedValA"; p "csrSortedRowPtrA"; p "csrSortedColIndA"; p "B"; i4 "ldb"; h "info";
      u4 "policy"; p "pBuffer"] code;
   aborts 1024 "cusparseXbsrsm2_zeroPivot" [h "handle"; h "info"; p "position"] code;
   aborts 1025 "cusparseSbsrsm2_bufferSize"
     [h "handle"; u4 "dirA"; u4 "transA"; u4 "transXY"; i4 "mb"; i4 "n"; i4 "nnzb"; h "descrA";
      p "bsrSortedVal"; p "bsrSortedRowPtr"; p "bsrSortedColInd"; i4 "blockSize"; h "info";
      p "pBufferSizeInBytes"] code;
   aborts 1026 "cusparseDbsrsm2_bufferSize"
     [h "handle"; u4 "dirA"; u4 "transA"; u4 "transXY"; i4 "mb"; i4 "n"; i4 "nnzb"; h "descrA";
      p "bsrSortedVal"; p "bsrSortedRowPtr"; p "bsrSortedColInd"; i4 "blockSize"; h "info";
      p "pBufferSizeInBytes"] code;
   aborts 1027 "cusparseCbsrsm2_bufferSize"
     [h "handle"; u4 "dirA"; u4 "transA"; u4 "transXY"; i4 "mb"; i4 "n"; i4 "nnzb"; h "descrA";
      p "bsrSortedVal"; p "bsrSortedRowPtr"; p "bsrSortedColInd"; i4 "blockSize"; h "info";
      p "pBufferSizeInBytes"] code].

Definition cusparse_20 : list aborting :=
  [aborts 1028 "cusparseZbsrsm2_bufferSize"
     [h "handle"; u4 "dirA"; u4 "transA"; u4 "transXY"; i4 "mb"; i4 "n"; i4 "nnzb"; h "descrA";
      p "bsrSortedVal"; p "bsrSortedRowPtr"; p "bsrSortedColInd"; i4 "blockSize"; h "info";
      p "pBufferSizeInBytes"] code;
   aborts 1029 "cusparseSbsrsm2_bufferSizeExt"
     [h "handle"; u4 "dirA"; u4 "transA"; u4 "transB"; i4 "mb"; i4 "n"; i4 "nnzb"; h "descrA";
      p "bsrSortedVal"; p "bsrSortedRowPtr"; p "bsrSortedColInd"; i4 "blockSize"; h "info"; p "pBufferSize"] code;
   aborts 1030 "cusparseDbsrsm2_bufferSizeExt"
     [h "handle"; u4 "dirA"; u4 "transA"; u4 "transB"; i4 "mb"; i4 "n"; i4 "nnzb"; h "descrA";
      p "bsrSortedVal"; p "bsrSortedRowPtr"; p "bsrSortedColInd"; i4 "blockSize"; h "info"; p "pBufferSize"] code;
   aborts 1031 "cusparseCbsrsm2_bufferSizeExt"
     [h "handle"; u4 "dirA"; u4 "transA"; u4 "transB"; i4 "mb"; i4 "n"; i4 "nnzb"; h "descrA";
      p "bsrSortedVal"; p "bsrSortedRowPtr"; p "bsrSortedColInd"; i4 "blockSize"; h "info"; p "pBufferSize"] code;
   aborts 1032 "cusparseZbsrsm2_bufferSizeExt"
     [h "handle"; u4 "dirA"; u4 "transA"; u4 "transB"; i4 "mb"; i4 "n"; i4 "nnzb"; h "descrA";
      p "bsrSortedVal"; p "bsrSortedRowPtr"; p "bsrSortedColInd"; i4 "blockSize"; h "info"; p "pBufferSize"] code;
   aborts 1033 "cusparseSbsrsm2_analysis"
     [h "handle"; u4 "dirA"; u4 "transA"; u4 "transXY"; i4 "mb"; i4 "n"; i4 "nnzb"; h "descrA";
      p "bsrSortedVal"; p "bsrSortedRowPtr"; p "bsrSortedColInd"; i4 "blockSize"; h "info"; u4 "policy";
      p "pBuffer"] code;
   aborts 1034 "cusparseDbsrsm2_analysis"
     [h "handle"; u4 "dirA"; u4 "transA"; u4 "transXY"; i4 "mb"; i4 "n"; i4 "nnzb"; h "descrA";
      p "bsrSortedVal"; p "bsrSortedRowPtr"; p "bsrSortedColInd"; i4 "blockSize"; h "info"; u4 "policy";
      p "pBuffer"] code].

Definition cusparse_21 : list aborting :=
  [aborts 1035 "cusparseCbsrsm2_analysis"
     [h "handle"; u4 "dirA"; u4 "transA"; u4 "transXY"; i4 "mb"; i4 "n"; i4 "nnzb"; h "descrA";
      p "bsrSortedVal"; p "bsrSortedRowPtr"; p "bsrSortedColInd"; i4 "blockSize"; h "info"; u4 "policy";
      p "pBuffer"] code;
   aborts 1036 "cusparseZbsrsm2_analysis"
     [h "handle"; u4 "dirA"; u4 "transA"; u4 "transXY"; i4 "mb"; i4 "n"; i4 "nnzb"; h "descrA";
      p "bsrSortedVal"; p "bsrSortedRowPtr"; p "bsrSortedColInd"; i4 "blockSize"; h "info"; u4 "policy";
      p "pBuffer"] code;
   aborts 1037 "cusparseSbsrsm2_solve"
     [h "handle"; u4 "dirA"; u4 "transA"; u4 "transXY"; i4 "mb"; i4 "n"; i4 "nnzb"; p "alpha"; h "descrA";
      p "bsrSortedVal"; p "bsrSortedRowPtr"; p "bsrSortedColInd"; i4 "blockSize"; h "info"; p "B";
      i4 "ldb"; p "X"; i4 "ldx"; u4 "policy"; p "pBuffer"] code;
   aborts 1038 "cusparseDbsrsm2_solve"
     [h "handle"; u4 "dirA"; u4 "transA"; u4 "transXY"; i4 "mb"; i4 "n"; i4 "nnzb"; p "alpha"; h "descrA";
      p "bsrSortedVal"; p "bsrSortedRowPtr"; p "bsrSortedColInd"; i4 "blockSize"; h "info"; p "B";
      i4 "ldb"; p "X"; i4 "ldx"; u4 "policy"; p "pBuffer"] code;
   aborts 1039 "cusparseCbsrsm2_solve"
     [h "handle"; u4 "dirA"; u4 "transA"; u4 "transXY"; i4 "mb"; i4 "n"; i4 "nnzb"; p "alpha"; h "descrA";
      p "bsrSortedVal"; p "bsrSortedRowPtr"; p "bsrSortedColInd"; i4 "blockSize"; h "info"; p "B";
      i4 "ldb"; p "X"; i4 "ldx"; u4 "policy"; p "pBuffer"] code;
   aborts 1040 "cusparseZbsrsm2_solve"
     [h "handle"; u4 "dirA"; u4 "transA"; u4 "transXY"; i4 "mb"; i4 "n"; i4 "nnzb"; p "alpha"; h "descrA";
      p "bsrSortedVal"; p "bsrSortedRowPtr"; p "bsrSortedColInd"; i4 "blockSize"; h "info"; p "B";
      i4 "ldb"; p "X"; i4 "ldx"; u4 "policy"; p "pBuffer"] code].

Definition cusparse_22 : list aborting :=
  [aborts 1041 "cusparseCsrilu0Ex"
     [h "handle"; u4 "trans"; i4 "m"; h "descrA"; p "csrSortedValA_ValM"; u4 "csrSortedValA_ValMtype";
      p "csrSortedRowPtrA"; p "csrSortedColIndA"; h "info"; u4 "executiontype"] code;
   aborts 1042 "cusparseScsrilu0"
     [h "handle"; u4 "trans"; i4 "m"; h "descrA"; p "csrSortedValA_ValM"; p "csrSortedRowPtrA";
      p "csrSortedColIndA"; h "info"] code;
   aborts 1043 "cusparseDcsrilu0"
     [h "handle"; u4 "trans"; i4 "m"; h "descrA"; p "csrSortedValA_ValM"; p "csrSortedRowPtrA";
      p "csrSortedColIndA"; h "info"] code;
   aborts 1044 "cusparseCcsrilu0"
     [h "handle"; u4 "trans"; i4 "m"; h "descrA"; p "csrSortedValA_ValM"; p "csrSortedRowPtrA";
      p "csrSortedColIndA"; h "info"] code;
   aborts 1045 "cusparseZcsrilu0"
     [h "handle"; u4 "trans"; i4 "m"; h "descrA"; p "csrSortedValA_ValM"; p "csrSortedRowPtrA";
      p "csrSortedColIndA"; h "info"] code;
   aborts 1046 "cusparseScsrilu02_numericBoost"
     [h "handle"; h "info"; i4 "enable_boost"; p "tol"; p "boost_val"] code;
   aborts 1047 "cusparseDcsrilu02_numericBoost"
     [h "handle"; h "info"; i4 "enable_boost"; p "tol"; p "boost_val"] code;
   aborts 1048 "cusparseCcsrilu02_numericBoost"
     [h "handle"; h "info"; i4 "enable_boost"; p "tol"; p "boost_val"] code;
   aborts 1049 "cusparseZcsrilu02_numericBoost"
     [h "handle"; h "info"; i4 "enable_boost"; p "tol"; p "boost_val"] code;
   aborts 1050 "cusparseXcsrilu02_zeroPivot" [h "handle"; h "info"; p "position"] code;
   aborts 1051 "cusparseScsrilu02_bufferSize"
     [h "handle"; i4 "m"; i4 "nnz"; h "descrA"; p "csrSortedValA"; p "csrSortedRowPtrA";
      p "csrSortedColIndA"; h "info"; p "pBufferSizeInBytes"] code].

Definition cusparse_23 : list aborting :=
  [aborts 1052 "cusparseDcsrilu02_bufferSize"
     [h "handle"; i4 "m"; i4 "nnz"; h "descrA"; p "csrSortedValA"; p "csrSortedRowPtrA";
      p "csrSortedColIndA"; h "info"; p "pBufferSizeInBytes"] code;
   aborts 1053 "cusparseCcsrilu02_bufferSize"
     [h "handle"; i4 "m"; i4 "nnz"; h "descrA"; p "csrSortedValA"; p "csrSortedRowPtrA";
      p "csrSortedColIndA"; h "info"; p "pBufferSizeInBytes"] code;
   aborts 1054 "cusparseZcsrilu02_bufferSize"
     [h "handle"; i4 "m"; i4 "nnz"; h "descrA"; p "csrSortedValA"; p "csrSortedRowPtrA";
      p "csrSortedColIndA"; h "info"; p "pBufferSizeInBytes"] code;
   aborts 1055 "cusparseScsrilu02_bufferSizeExt"
     [h "handle"; i4 "m"; i4 "nnz"; h "descrA"; p "csrSortedVal"; p "csrSortedRowPtr"; p "csrSortedColInd";
      h "info"; p "pBufferSize"] code;
   aborts 1056 "cusparseDcsrilu02_bufferSizeExt"
     [h "handle"; i4 "m"; i4 "nnz"; h "descrA"; p "csrSortedVal"; p "csrSortedRowPtr"; p "csrSortedColInd";
      h "info"; p "pBufferSize"] code;
   aborts 1057 "cusparseCcsrilu02_bufferSizeExt"
     [h "handle"; i4 "m"; i4 "nnz"; h "descrA"; p "csrSortedVal"; p "csrSortedRowPtr"; p "csrSortedColInd";
      h "info"; p "pBufferSize"] code;
   aborts 1058 "cusparseZcsrilu02_bufferSizeExt"
     [h "handle"; i4 "m"; i4 "nnz"; h "descrA"; p "csrSortedVal"; p "csrSortedRowPtr"; p "csrSortedColInd";
      h "info"; p "pBufferSize"] code;
   aborts 1059 "cusparseScsrilu02_analysis"
     [h "handle"; i4 "m"; i4 "nnz"; h "descrA"; p "csrSortedValA"; p "csrSortedRowPtrA";
      p "csrSortedColIndA"; h "info"; u4 "policy"; p "pBuffer"] code;
   aborts 1060 "cusparseDcsrilu02_analysis"
     [h "handle"; i4 "m"; i4 "nnz"; h "descrA"; p "csrSortedValA"; p "csrSortedRowPtrA";
      p "csrSortedColIndA"; h "info"; u4 "policy"; p "pBuffer"] code].

Definition cusparse_24 : list aborting :=
  [aborts 1061 "cusparseCcsrilu02_analysis"
     [h "handle"; i4 "m"; i4 "nnz"; h "descrA"; p "csrSortedValA"; p "csrSortedRowPtrA";
      p "csrSortedColIndA"; h "info"; u4 "policy"; p "pBuffer"] code;
   aborts 1062 "cusparseZcsrilu02_analysis"
     [h "handle"; i4 "m"; i4 "nnz"; h "descrA"; p "csrSortedValA"; p "csrSortedRowPtrA";
      p "csrSortedColIndA"; h "info"; u4 "policy"; p "pBuffer"] code;
   aborts 1063 "cusparseScsrilu02"
     [h "handle"; i4 "m"; i4 "nnz"; h "descrA"; p "csrSortedValA_valM"; p "csrSortedRowPtrA";
      p "csrSortedColIndA"; h "info"; u4 "policy"; p "pBuffer"] code;
   aborts 1064 "cusparseDcsrilu02"
     [h "handle"; i4 "m"; i4 "nnz"; h "descrA"; p "csrSortedValA_valM"; p "csrSortedRowPtrA";
      p "csrSortedColIndA"; h "info"; u4 "policy"; p "pBuffer"] code;
   aborts 1065 "cusparseCcsrilu02"
     [h "handle"; i4 "m"; i4 "nnz"; h "descrA"; p "csrSortedValA_valM"; p "csrSortedRowPtrA";
      p "csrSortedColIndA"; h "info"; u4 "policy"; p "pBuffer"] code;
   aborts 1066 "cusparseZcsrilu02"
     [h "handle"; i4 "m"; i4 "nnz"; h "descrA"; p "csrSortedValA_valM"; p "csrSortedRowPtrA";
      p "csrSortedColIndA"; h "info"; u4 "policy"; p "pBuffer"] code;
   aborts 1067 "cusparseSbsrilu02_numericBoost"
     [h "handle"; h "info"; i4 "enable_boost"; p "tol"; p "boost_val"] code;
   aborts 1068 "cusparseDbsrilu02_numericBoost"
     [h "handle"; h "info"; i4 "enable_boost"; p "tol"; p "boost_val"] code;
   aborts 1069 "cusparseCbsrilu02_numericBoost"
     [h "handle"; h "info"; i4 "enable_boost"; p "tol"; p "boost_val"] code;
   aborts 1070 "cusparseZbsrilu02_numericBoost"
     [h "handle"; h "info"; i4 "enable_boost"; p "tol"; p "boost_val"] code].

Definition cusparse_25 : list aborting :=
  [aborts 1071 "cusparseXbsrilu02_zeroPivot" [h "handle"; h "info"; p "position"] code;
   aborts 1072 "cusparseSbsrilu02_bufferSize"
     [h "handle"; u4 "dirA"; i4 "mb"; i4 "nnzb"; h "descrA"; p "bsrSortedVal"; p "bsrSortedRowPtr";
      p "bsrSortedColInd"; i4 "blockDim"; h "info"; p "pBufferSizeInBytes"] code;
   aborts 1073 "cusparseDbsrilu02_bufferSize"
     [h "handle"; u4 "dirA"; i4 "mb"; i4 "nnzb"; h "descrA"; p "bsrSortedVal"; p "bsrSortedRowPtr";
      p "bsrSortedColInd"; i4 "blockDim"; h "info"; p "pBufferSizeInBytes"] code;
   aborts 1074 "cusparseCbsrilu02_bufferSize"
     [h "handle"; u4 "dirA"; i4 "mb"; i4 "nnzb"; h "descrA"; p "bsrSortedVal"; p "bsrSortedRowPtr";
      p "bsrSortedColInd"; i4 "blockDim"; h "info"; p "pBufferSizeInBytes"] code;
   aborts 1075 "cusparseZbsrilu02_bufferSize"
     [h "handle"; u4 "dirA"; i4 "mb"; i4 "nnzb"; h "descrA"; p "bsrSortedVal"; p "bsrSortedRowPtr";
      p "bsrSortedColInd"; i4 "blockDim"; h "info"; p "pBufferSizeInBytes"] code;
   aborts 1076 "cusparseSbsrilu02_bufferSizeExt"
     [h "handle"; u4 "dirA"; i4 "mb"; i4 "nnzb"; h "descrA"; p "bsrSortedVal"; p "bsrSortedRowPtr";
      p "bsrSortedColInd"; i4 "blockSize"; h "info"; p "pBufferSize"] code;
   aborts 1077 "cusparseDbsrilu02_bufferSizeExt"
     [h "handle"; u4 "dirA"; i4 "mb"; i4 "nnzb"; h "descrA"; p "bsrSortedVal"; p "bsrSortedRowPtr";
      p "bsrSortedColInd"; i4 "blockSize"; h "info"; p "pBufferSize"] code;
   aborts 1078 "cusparseCbsrilu02_bufferSizeExt"
     [h "handle"; u4 "dirA"; i4 "mb"; i4 "nnzb"; h "descrA"; p "bsrSortedVal"; p "bsrSortedRowPtr";
      p "bsrSortedColInd"; i4 "blockSize"; h "info"; p "pBufferSize"] code].

Definition cusparse_26 : list aborting :=
  [aborts 1079 "cusparseZbsrilu02_bufferSizeExt"
     [h "handle"; u4 "dirA"; i4 "mb"; i4 "nnzb"; h "descrA"; p "bsrSortedVal"; p "bsrSortedRowPtr";
      p "bsrSortedColInd"; i4 "blockSize"; h "info"; p "pBufferSize"] code;
   aborts 1080 "cusparseSbsrilu02_analysis"
     [h "handle"; u4 "dirA"; i4 "mb"; i4 "nnzb"; h "descrA"; p "bsrSortedVal"; p "bsrSortedRowPtr";
      p "bsrSortedColInd"; i4 "blockDim"; h "info"; u4 "policy"; p "pBuffer"] code;
   aborts 1081 "cusparseDbsrilu02_analysis"
     [h "handle"; u4 "dirA"; i4 "mb"; i4 "nnzb"; h "descrA"; p "bsrSortedVal"; p "bsrSortedRowPtr";
      p "bsrSortedColInd"; i4 "blockDim"; h "info"; u4 "policy"; p "pBuffer"] code;
   aborts 1082 "cusparseCbsrilu02_analysis"
     [h "handle"; u4 "dirA"; i4 "mb"; i4 "nnzb"; h "descrA"; p "bsrSortedVal"; p "bsrSortedRowPtr";
      p "bsrSortedColInd"; i4 "blockDim"; h "info"; u4 "policy"; p "pBuffer"] code;
   aborts 1083 "cusparseZbsrilu02_analysis"
     [h "handle"; u4 "dirA"; i4 "mb"; i4 "nnzb"; h "descrA"; p "bsrSortedVal"; p "bsrSortedRowPtr";
      p "bsrSortedColInd"; i4 "blockDim"; h "info"; u4 "policy"; p "pBuffer"] code;
   aborts 1084 "cusparseSbsrilu02"
     [h "handle"; u4 "dirA"; i4 "mb"; i4 "nnzb"; h "descrA"; p "bsrSortedVal"; p "bsrSortedRowPtr";
      p "bsrSortedColInd"; i4 "blockDim"; h "info"; u4 "policy"; p "pBuffer"] code;
   aborts 1085 "cusparseDbsrilu02"
     [h "handle"; u4 "dirA"; i4 "mb"; i4 "nnzb"; h "descrA"; p "bsrSortedVal"; p "bsrSortedRowPtr";
      p "bsrSortedColInd"; i4 "blockDim"; h "info"; u4 "policy"; p "pBuffer"] code;
   aborts 1086 "cusparseCbsrilu02"
     [h "handle"; u4 "dirA"; i4 "mb"; i4 "nnzb"; h "descrA"; p "bsrSortedVal"; p "bsrSortedRowPtr";
      p "bsrSortedColInd"; i4 "blockDim"; h "info"; u4 "policy"; p "pBuffer"] code].

Definition cusparse_27 : list aborting :=
  [aborts 1087 "cusparseZbsrilu02"
     [h "handle"; u4 "dirA"; i4 "mb"; i4 "nnzb"; h "descrA"; p "bsrSortedVal"; p "bsrSortedRowPtr";
      p "bsrSortedColInd"; i4 "blockDim"; h "info"; u4 "policy"; p "pBuffer"] code;
   aborts 1088 "cusparseScsric0"
     [h "handle"; u4 "trans"; i4 "m"; h "descrA"; p "csrSortedValA_ValM"; p "csrSortedRowPtrA";
      p "csrSortedColIndA"; h "info"] code;
   aborts 1089 "cusparseDcsric0"
     [h "handle"; u4 "trans"; i4 "m"; h "descrA"; p "csrSortedValA_ValM"; p "csrSortedRowPtrA";
      p "csrSortedColIndA"; h "info"] code;
   aborts 1090 "cusparseCcsric0"
     [h "handle"; u4 "trans"; i4 "m"; h "descrA"; p "csrSortedValA_ValM"; p "csrSortedRowPtrA";
      p "csrSortedColIndA"; h "info"] code;
   aborts 1091 "cusparseZcsric0"
     [h "handle"; u4 "trans"; i4 "m"; h "descrA"; p "csrSortedValA_ValM"; p "csrSortedRowPtrA";
      p "csrSortedColIndA"; h "info"] code;
   aborts 1092 "cusparseXcsric02_zeroPivot" [h "handle"; h "info"; p "position"] code;
   aborts 1093 "cusparseScsric02_bufferSize"
     [h "handle"; i4 "m"; i4 "nnz"; h "descrA"; p "csrSortedValA"; p "csrSortedRowPtrA";
      p "csrSortedColIndA"; h "info"; p "pBufferSizeInBytes"] code;
   aborts 1094 "cusparseDcsric02_bufferSize"
     [h "handle"; i4 "m"; i4 "nnz"; h "descrA"; p "csrSortedValA"; p "csrSortedRowPtrA";
      p "csrSortedColIndA"; h "info"; p "pBufferSizeInBytes"] code;
   aborts 1095 "cusparseCcsric02_bufferSize"
     [h "handle"; i4 "m"; i4 "nnz"; h "descrA"; p "csrSortedValA"; p "csrSortedRowPtrA";
      p "csrSortedColIndA"; h "info"; p "pBufferSizeInBytes"] code].

Definition cusparse_28 : list aborting :=
  [aborts 1096 "cusparseZcsric02_bufferSize"
     [h "handle"; i4 "m"; i4 "nnz"; h "descrA"; p "csrSortedValA"; p "csrSortedRowPtrA";
      p "csrSortedColIndA"; h "info"; p "pBufferSizeInBytes"] code;
   aborts 1097 "cusparseScsric02_bufferSizeExt"
     [h "handle"; i4 "m"; i4 "nnz"; h "descrA"; p "csrSortedVal"; p "csrSortedRowPtr"; p "csrSortedColInd";
      h "info"; p "pBufferSize"] code;
   aborts 1098 "cusparseDcsric02_bufferSizeExt"
     [h "handle"; i4 "m"; i4 "nnz"; h "descrA"; p "csrSortedVal"; p "csrSortedRowPtr"; p "csrSortedColInd";
      h "info"; p "pBufferSize"] code;
   aborts 1099 "cusparseCcsric02_bufferSizeExt"
     [h "handle"; i4 "m"; i4 "nnz"; h "descrA"; p "csrSortedVal"; p "csrSortedRowPtr"; p "csrSortedColInd";
      h "info"; p "pBufferSize"] code;
   aborts 1100 "cusparseZcsric02_bufferSizeExt"
     [h "handle"; i4 "m"; i4 "nnz"; h "descrA"; p "csrSortedVal"; p "csrSortedRowPtr"; p "csrSortedColInd";
      h "info"; p "pBufferSize"] code;
   aborts 1101 "cusparseScsric02_analysis"
     [h "handle"; i4 "m"; i4 "nnz"; h "descrA"; p "csrSortedValA"; p "csrSortedRowPtrA";
      p "csrSortedColIndA"; h "info"; u4 "policy"; p "pBuffer"] code;
   aborts 1102 "cusparseDcsric02_analysis"
     [h "handle"; i4 "m"; i4 "nnz"; h "descrA"; p "csrSortedValA"; p "csrSortedRowPtrA";
      p "csrSortedColIndA"; h "info"; u4 "policy"; p "pBuffer"] code;
   aborts 1103 "cusparseCcsric02_analysis"
     [h "handle"; i4 "m"; i4 "nnz"; h "descrA"; p "csrSortedValA"; p "csrSortedRowPtrA";
      p "csrSortedColIndA"; h "info"; u4 "policy"; p "pBuffer"] code;
   aborts 1104 "cusparseZcsric02_analysis"
     [h "handle"; i4 "m"; i4 "nnz"; h "descrA"; p "csrSortedValA"; p "csrSortedRowPtrA";
      p "csrSortedColIndA"; h "info"; u4 "policy"; p "pBuffer"] code].

Definition cusparse_29 : list aborting :=
  [aborts 1105 "cusparseScsric02"
     [h "handle"; i4 "m"; i4 "nnz"; h "descrA"; p "csrSortedValA_valM"; p "csrSortedRowPtrA";
      p "csrSortedColIndA"; h "info"; u4 "policy"; p "pBuffer"] code;
   aborts 1106 "cusparseDcsric02"
     [h "handle"; i4 "m"; i4 "nnz"; h "descrA"; p "csrSortedValA_valM"; p "csrSortedRowPtrA";
      p "csrSortedColIndA"; h "info"; u4 "policy"; p "pBuffer"] code;
   aborts 1107 "cusparseCcsric02"
     [h "handle"; i4 "m"; i4 "nnz"; h "descrA"; p "csrSortedValA_valM"; p "csrSortedRowPtrA";
      p "csrSortedColIndA"; h "info"; u4 "policy"; p "pBuffer"] code;
   aborts 1108 "cusparseZcsric02"
     [h "handle"; i4 "m"; i4 "nnz"; h "descrA"; p "csrSortedValA_valM"; p "csrSortedRowPtrA";
      p "csrSortedColIndA"; h "info"; u4 "policy"; p "pBuffer"] code;
   aborts 1109 "cusparseXbsric02_zeroPivot" [h "handle"; h "info"; p "position"] code;
   aborts 1110 "cusparseSbsric02_bufferSize"
     [h "handle"; u4 "dirA"; i4 "mb"; i4 "nnzb"; h "descrA"; p "bsrSortedVal"; p "bsrSortedRowPtr";
      p "bsrSortedColInd"; i4 "blockDim"; h "info"; p "pBufferSizeInBytes"] code;
   aborts 1111 "cusparseDbsric02_bufferSize"
     [h "handle"; u4 "dirA"; i4 "mb"; i4 "nnzb"; h "descrA"; p "bsrSortedVal"; p "bsrSortedRowPtr";
      p "bsrSortedColInd"; i4 "blockDim"; h "info"; p "pBufferSizeInBytes"] code;
   aborts 1112 "cusparseCbsric02_bufferSize"
     [h "handle"; u4 "dirA"; i4 "mb"; i4 "nnzb"; h "descrA"; p "bsrSortedVal"; p "bsrSortedRowPtr";
      p "bsrSortedColInd"; i4 "blockDim"; h "info"; p "pBufferSizeInBytes"] code;
   aborts 1113 "cusparseZbsric02_bufferSize"
     [h "handle"; u4 "dirA"; i4 "mb"; i4 "nnzb"; h "descrA"; p "bsrSortedVal"; p "bsrSortedRowPtr";
      p "bsrSortedColInd"; i4 "blockDim"; h "info"; p "pBufferSizeInBytes"] code].

Definition cusparse_30 : list aborting :=
  [aborts 1114 "cusparseSbsric02_bufferSizeExt"
     [h "handle"; u4 "dirA"; i4 "mb"; i4 "nnzb"; h "descrA"; p "bsrSortedVal"; p "bsrSortedRowPtr";
      p "bsrSortedColInd"; i4 "blockSize"; h "info"; p "pBufferSize"] code;
   aborts 1115 "cusparseDbsric02_bufferSizeExt"
     [h "handle"; u4 "dirA"; i4 "mb"; i4 "nnzb"; h "descrA"; p "bsrSortedVal"; p "bsrSortedRowPtr";
      p "bsrSortedColInd"; i4 "blockSize"; h "info"; p "pBufferSize"] code;
   aborts 1116 "cusparseCbsric02_bufferSizeExt"
     [h "handle"; u4 "dirA"; i4 "mb"; i4 "nnzb"; h "descrA"; p "bsrSortedVal"; p "bsrSortedRowPtr";
      p "bsrSortedColInd"; i4 "blockSize"; h "info"; p "pBufferSize"] code;
   aborts 1117 "cusparseZbsric02_bufferSizeExt"
     [h "handle"; u4 "dirA"; i4 "mb"; i4 "nnzb"; h "descrA"; p "bsrSortedVal"; p "bsrSortedRowPtr";
      p "bsrSortedColInd"; i4 "blockSize"; h "info"; p "pBufferSize"] code;
   aborts 1118 "cusparseSbsric02_analysis"
     [h "handle"; u4 "dirA"; i4 "mb"; i4 "nnzb"; h "descrA"; p "bsrSortedVal"; p "bsrSortedRowPtr";
      p "bsrSortedColInd"; i4 "blockDim"; h "info"; u4 "policy"; p "pInputBuffer"] code;
   aborts 1119 "cusparseDbsric02_analysis"
     [h "handle"; u4 "dirA"; i4 "mb"; i4 "nnzb"; h "descrA"; p "bsrSortedVal"; p "bsrSortedRowPtr";
      p "bsrSortedColInd"; i4 "blockDim"; h "info"; u4 "policy"; p "pInputBuffer"] code;
   aborts 1120 "cusparseCbsric02_analysis"
     [h "handle"; u4 "dirA"; i4 "mb"; i4 "nnzb"; h "descrA"; p "bsrSortedVal"; p "bsrSortedRowPtr";
      p "bsrSortedColInd"; i4 "blockDim"; h "info"; u4 "policy"; p "pInputBuffer"] code;
   aborts 1121 "cusparseZbsric02_analysis"
     [h "handle"; u4 "dirA"; i4 "mb"; i4 "nnzb"; h "descrA"; p "bsrSortedVal"; p "bsrSortedRowPtr";
      p "bsrSortedColInd"; i4 "blockDim"; h "info"; u4 "policy"; p "pInputBuffer"] code].

Definition cusparse_31 : list aborting :=
  [aborts 1122 "cusparseSbsric02"
     [h "handle"; u4 "dirA"; i4 "mb"; i4 "nnzb"; h "descrA"; p "bsrSortedVal"; p "bsrSortedRowPtr";
      p "bsrSortedColInd"; i4 "blockDim"; h "info"; u4 "policy"; p "pBuffer"] code;
   aborts 1123 "cusparseDbsric02"
     [h "handle"; u4 "dirA"; i4 "mb"; i4 "nnzb"; h "descrA"; p "bsrSortedVal"; p "bsrSortedRowPtr";
      p "bsrSortedColInd"; i4 "blockDim"; h "info"; u4 "policy"; p "pBuffer"] code;
   aborts 1124 "cusparseCbsric02"
     [h "handle"; u4 "dirA"; i4 "mb"; i4 "nnzb"; h "descrA"; p "bsrSortedVal"; p "bsrSortedRowPtr";
      p "bsrSortedColInd"; i4 "blockDim"; h "info"; u4 "policy"; p "pBuffer"] code;
   aborts 1125 "cusparseZbsric02"
     [h "handle"; u4 "dirA"; i4 "mb"; i4 "nnzb"; h "descrA"; p "bsrSortedVal"; p "bsrSortedRowPtr";
      p "bsrSortedColInd"; i4 "blockDim"; h "info"; u4 "policy"; p "pBuffer"] code;
   aborts 1126 "cusparseSgtsv" [h "handle"; i4 "m"; i4 "n"; p "dl"; p "d"; p "du"; p "B"; i4 "ldb"] code;
   aborts 1127 "cusparseDgtsv" [h "handle"; i4 "m"; i4 "n"; p "dl"; p "d"; p "du"; p "B"; i4 "ldb"] code;
   aborts 1128 "cusparseCgtsv" [h "handle"; i4 "m"; i4 "n"; p "dl"; p "d"; p "du"; p "B"; i4 "ldb"] code;
   aborts 1129 "cusparseZgtsv" [h "handle"; i4 "m"; i4 "n"; p "dl"; p "d"; p "du"; p "B"; i4 "ldb"] code].

Definition cusparse_32 : list aborting :=
  [aborts 1130 "cusparseSgtsv2_bufferSizeExt"
     [h "handle"; i4 "m"; i4 "n"; p "dl"; p "d"; p "du"; p "B"; i4 "ldb"; p "bufferSizeInBytes"] code;
   aborts 1131 "cusparseDgtsv2_bufferSizeExt"
     [h "handle"; i4 "m"; i4 "n"; p "dl"; p "d"; p "du"; p "B"; i4 "ldb"; p "bufferSizeInBytes"] code;
   aborts 1132 "cusparseCgtsv2_bufferSizeExt"
     [h "handle"; i4 "m"; i4 "n"; p "dl"; p "d"; p "du"; p "B"; i4 "ldb"; p "bufferSizeInBytes"] code;
   aborts 1133 "cusparseZgtsv2_bufferSizeExt"
     [h "handle"; i4 "m"; i4 "n"; p "dl"; p "d"; p "du"; p "B"; i4 "ldb"; p "bufferSizeInBytes"] code;
   aborts 1134 "cusparseSgtsv2"
     [h "handle"; i4 "m"; i4 "n"; p "dl"; p "d"; p "du"; p "B"; i4 "ldb"; p "pBuffer"] code;
   aborts 1135 "cusparseDgtsv2"
     [h "handle"; i4 "m"; i4 "n"; p "dl"; p "d"; p "du"; p "B"; i4 "ldb"; p "pBuffer"] code;
   aborts 1136 "cusparseCgtsv2"
     [h "handle"; i4 "m"; i4 "n"; p "dl"; p "d"; p "du"; p "B"; i4 "ldb"; p "pBuffer"] code;
   aborts 1137 "cusparseZgtsv2"
     [h "handle"; i4 "m"; i4 "n"; p "dl"; p "d"; p "du"; p "B"; i4 "ldb"; p "pBuffer"] code;
   aborts 1138 "cusparseSgtsv_nopivot"
     [h "handle"; i4 "m"; i4 "n"; p "dl"; p "d"; p "du"; p "B"; i4 "ldb"] code].

Definition cusparse_33 : list aborting :=
  [aborts 1139 "cusparseDgtsv_nopivot"
     [h "handle"; i4 "m"; i4 "n"; p "dl"; p "d"; p "du"; p "B"; i4 "ldb"] code;
   aborts 1140 "cusparseCgtsv_nopivot"
     [h "handle"; i4 "m"; i4 "n"; p "dl"; p "d"; p "du"; p "B"; i4 "ldb"] code;
   aborts 1141 "cusparseZgtsv_nopivot"
     [h "handle"; i4 "m"; i4 "n"; p "dl"; p "d"; p "du"; p "B"; i4 "ldb"] code;
   aborts 1142 "cusparseSgtsv2_nopivot_bufferSizeExt"
     [h "handle"; i4 "m"; i4 "n"; p "dl"; p "d"; p "du"; p "B"; i4 "ldb"; p "bufferSizeInBytes"] code;
   aborts 1143 "cusparseDgtsv2_nopivot_bufferSizeExt"
     [h "handle"; i4 "m"; i4 "n"; p "dl"; p "d"; p "du"; p "B"; i4 "ldb"; p "bufferSizeInBytes"] code;
   aborts 1144 "cusparseCgtsv2_nopivot_bufferSizeExt"
     [h "handle"; i4 "m"; i4 "n"; p "dl"; p "d"; p "du"; p "B"; i4 "ldb"; p "bufferSizeInBytes"] code;
   aborts 1145 "cusparseZgtsv2_nopivot_bufferSizeExt"
     [h "handle"; i4 "m"; i4 "n"; p "dl"; p "d"; p "du"; p "B"; i4 "ldb"; p "bufferSizeInBytes"] code;
   aborts 1146 "cusparseSgtsv2_nopivot"
     [h "handle"; i4 "m"; i4 "n"; p "dl"; p "d"; p "du"; p "B"; i4 "ldb"; p "pBuffer"] code;
   aborts 1147 "cusparseDgtsv2_nopivot"
     [h "handle"; i4 "m"; i4 "n"; p "dl"; p "d"; p "du"; p "B"; i4 "ldb"; p "pBuffer"] code].

Definition cusparse_34 : list aborting :=
  [aborts 1148 "cusparseCgtsv2_nopivot"
     [h "handle"; i4 "m"; i4 "n"; p "dl"; p "d"; p "du"; p "B"; i4 "ldb"; p "pBuffer"] code;
   aborts 1149 "cusparseZgtsv2_nopivot"
     [h "handle"; i4 "m"; i4 "n"; p "dl"; p "d"; p "du"; p "B"; i4 "ldb"; p "pBuffer"] code;
   aborts 1150 "cusparseSgtsvStridedBatch"
     [h "handle"; i4 "m"; p "dl"; p "d"; p "du"; p "x"; i4 "batchCount"; i4 "batchStride"] code;
   aborts 1151 "cusparseDgtsvStridedBatch"
     [h "handle"; i4 "m"; p "dl"; p "d"; p "du"; p "x"; i4 "batchCount"; i4 "batchStride"] code;
   aborts 1152 "cusparseCgtsvStridedBatch"
     [h "handle"; i4 "m"; p "dl"; p "d"; p "du"; p "x"; i4 "batchCount"; i4 "batchStride"] code;
   aborts 1153 "cusparseZgtsvStridedBatch"
     [h "handle"; i4 "m"; p "dl"; p "d"; p "du"; p "x"; i4 "batchCount"; i4 "batchStride"] code;
   aborts 1154 "cusparseSgtsv2StridedBatch_bufferSizeExt"
     [h "handle"; i4 "m"; p "dl"; p "d"; p "du"; p "x"; i4 "batchCount"; i4 "batchStride";
      p "bufferSizeInBytes"] code;
   aborts 1155 "cusparseDgtsv2StridedBatch_bufferSizeExt"
     [h "handle"; i4 "m"; p "dl"; p "d"; p "du"; p "x"; i4 "batchCount"; i4 "batchStride";
      p "bufferSizeInBytes"] code;
   aborts 1156 "cusparseCgtsv2StridedBatch_bufferSizeExt"
     [h "handle"; i4 "m"; p "dl"; p "d"; p "du"; p "x"; i4 "batchCount"; i4 "batchStride";
      p "bufferSizeInBytes"] code].

Definition cusparse_35 : list aborting :=
  [aborts 1157 "cusparseZgtsv2StridedBatch_bufferSizeExt"
     [h "handle"; i4 "m"; p "dl"; p "d"; p "du"; p "x"; i4 "batchCount"; i4 "batchStride";
      p "bufferSizeInBytes"] code;
   aborts 1158 "cusparseSgtsv2StridedBatch"
     [h "handle"; i4 "m"; p "dl"; p "d"; p "du"; p "x"; i4 "batchCount"; i4 "batchStride"; p "pBuffer"] code;
   aborts 1159 "cusparseDgtsv2StridedBatch"
     [h "handle"; i4 "m"; p "dl"; p "d"; p "du"; p "x"; i4 "batchCount"; i4 "batchStride"; p "pBuffer"] code;
   aborts 1160 "cusparseCgtsv2StridedBatch"
     [h "handle"; i4 "m"; p "dl"; p "d"; p "du"; p "x"; i4 "batchCount"; i4 "batchStride"; p "pBuffer"] code;
   aborts 1161 "cusparseZgtsv2StridedBatch"
     [h "handle"; i4 "m"; p "dl"; p "d"; p "du"; p "x"; i4 "batchCount"; i4 "batchStride"; p "pBuffer"] code;
   aborts 1162 "cusparseSgtsvInterleavedBatch_bufferSizeExt"
     [h "handle"; i4 "algo"; i4 "m"; p "dl"; p "d"; p "du"; p "x"; i4 "batchCount"; p "pBufferSizeInBytes"] code;
   aborts 1163 "cusparseDgtsvInterleavedBatch_bufferSizeExt"
     [h "handle"; i4 "algo"; i4 "m"; p "dl"; p "d"; p "du"; p "x"; i4 "batchCount"; p "pBufferSizeInBytes"] code;
   aborts 1164 "cusparseCgtsvInterleavedBatch_bufferSizeExt"
     [h "handle"; i4 "algo"; i4 "m"; p "dl"; p "d"; p "du"; p "x"; i4 "batchCount"; p "pBufferSizeInBytes"] code;
   aborts 1165 "cusparseZgtsvInterleavedBatch_bufferSizeExt"
     [h "handle"; i4 "algo"; i4 "m"; p "dl"; p "d"; p "du"; p "x"; i4 "batchCount"; p "pBufferSizeInBytes"] code].

Definition cusparse_36 : list aborting :=
  [aborts 1166 "cusparseSgtsvInterleavedBatch"
     [h "handle"; i4 "algo"; i4 "m"; p "dl"; p "d"; p "du"; p "x"; i4 "batchCount"; p "pBuffer"] code;
   aborts 1167 "cusparseDgtsvInterleavedBatch"
     [h "handle"; i4 "algo"; i4 "m"; p "dl"; p "d"; p "du"; p "x"; i4 "batchCount"; p "pBuffer"] code;
   aborts 1168 "cusparseCgtsvInterleavedBatch"
     [h "handle"; i4 "algo"; i4 "m"; p "dl"; p "d"; p "du"; p "x"; i4 "batchCount"; p "pBuffer"] code;
   aborts 1169 "cusparseZgtsvInterleavedBatch"
     [h "handle"; i4 "algo"; i4 "m"; p "dl"; p "d"; p "du"; p "x"; i4 "batchCount"; p "pBuffer"] code;
   aborts 1170 "cusparseSgpsvInterleavedBatch_bufferSizeExt"
     [h "handle"; i4 "algo"; i4 "m"; p "ds"; p "dl"; p "d"; p "du"; p "dw"; p "x"; i4 "batchCount";
      p "pBufferSizeInBytes"] code;
   aborts 1171 "cusparseDgpsvInterleavedBatch_bufferSizeExt"
     [h "handle"; i4 "algo"; i4 "m"; p "ds"; p "dl"; p "d"; p "du"; p "dw"; p "x"; i4 "batchCount";
      p "pBufferSizeInBytes"] code;
   aborts 1172 "cusparseCgpsvInterleavedBatch_bufferSizeExt"
     [h "handle"; i4 "algo"; i4 "m"; p "ds"; p "dl"; p "d"; p "du"; p "dw"; p "x"; i4 "batchCount";
      p "pBufferSizeInBytes"] code;
   aborts 1173 "cusparseZgpsvInterleavedBatch_bufferSizeExt"
     [h "handle"; i4 "algo"; i4 "m"; p "ds"; p "dl"; p "d"; p "du"; p "dw"; p "x"; i4 "batchCount";
      p "pBufferSizeInBytes"] code].

Definition cusparse_37 : list aborting :=
  [aborts 1174 "cusparseSgpsvInterleavedBatch"
     [h "handle"; i4 "algo"; i4 "m"; p "ds"; p "dl"; p "d"; p "du"; p "dw"; p "x"; i4 "batchCount";
      p "pBuffer"] code;
   aborts 1175 "cusparseDgpsvInterleavedBatch"
     [h "handle"; i4 "algo"; i4 "m"; p "ds"; p "dl"; p "d"; p "du"; p "dw"; p "x"; i4 "batchCount";
      p "pBuffer"] code;
   aborts 1176 "cusparseCgpsvInterleavedBatch"
     [h "handle"; i4 "algo"; i4 "m"; p "ds"; p "dl"; p "d"; p "du"; p "dw"; p "x"; i4 "batchCount";
      p "pBuffer"] code;
   aborts 1177 "cusparseZgpsvInterleavedBatch"
     [h "handle"; i4 "algo"; i4 "m"; p "ds"; p "dl"; p "d"; p "du"; p "dw"; p "x"; i4 "batchCount";
      p "pBuffer"] code].

Definition cusparse_38 : list aborting :=
  [aborts 1178 "cusparseCreateCsrgemm2Info" [p "info"] code;
   aborts 1179 "cusparseDestroyCsrgemm2Info" [h "info"] code;
   aborts 1180 "cusparseScsrgemm2_bufferSizeExt"
     [h "handle"; i4 "m"; i4 "n"; i4 "k"; p "alpha"; h "descrA"; i4 "nnzA"; p "csrSortedRowPtrA";
      p "csrSortedColIndA"; h "descrB"; i4 "nnzB"; p "csrSortedRowPtrB"; p "csrSortedColIndB"; p "beta";
      h "descrD"; i4 "nnzD"; p "csrSortedRowPtrD"; p "csrSortedColIndD"; h "info"; p "pBufferSizeInBytes"] code;
   aborts 1181 "cusparseDcsrgemm2_bufferSizeExt"
     [h "handle"; i4 "m"; i4 "n"; i4 "k"; p "alpha"; h "descrA"; i4 "nnzA"; p "csrSortedRowPtrA";
      p "csrSortedColIndA"; h "descrB"; i4 "nnzB"; p "csrSortedRowPtrB"; p "csrSortedColIndB"; p "beta";
      h "descrD"; i4 "nnzD"; p "csrSortedRowPtrD"; p "csrSortedColIndD"; h "info"; p "pBufferSizeInBytes"] code;
   aborts 1182 "cusparseCcsrgemm2_bufferSizeExt"
     [h "handle"; i4 "m"; i4 "n"; i4 "k"; p "alpha"; h "descrA"; i4 "nnzA"; p "csrSortedRowPtrA";
      p "csrSortedColIndA"; h "descrB"; i4 "nnzB"; p "csrSortedRowPtrB"; p "csrSortedColIndB"; p "beta";
      h "descrD"; i4 "nnzD"; p "csrSortedRowPtrD"; p "csrSortedColIndD"; h "info"; p "pBufferSizeInBytes"] code;
   aborts 1183 "cusparseZcsrgemm2_bufferSizeExt"
     [h "handle"; i4 "m"; i4 "n"; i4 "k"; p "alpha"; h "descrA"; i4 "nnzA"; p "csrSortedRowPtrA";
      p "csrSortedColIndA"; h "descrB"; i4 "nnzB"; p "csrSortedRowPtrB"; p "csrSortedColIndB"; p "beta";
      h "descrD"; i4 "nnzD"; p "csrSortedRowPtrD"; p "csrSortedColIndD"; h "info"; p "pBufferSizeInBytes"] code;
   aborts 1184 "cusparseXcsrgemm2Nnz"
     [h "handle"; i4 "m"; i4 "n"; i4 "k"; h "descrA"; i4 "nnzA"; p "csrSortedRowPtrA";
      p "csrSortedColIndA"; h "descrB"; i4 "nnzB"; p "csrSortedRowPtrB"; p "csrSortedColIndB"; h "descrD";
      i4 "nnzD"; p "csrSortedRowPtrD"; p "csrSortedColIndD"; h "descrC"; p "csrSortedRowPtrC";
      p "nnzTotalDevHostPtr"; h "info"; p "pBuffer"] code].

Definition cusparse_39 : list aborting :=
  [aborts 1185 "cusparseScsrgemm2"
     [h "handle"; i4 "m"; i4 "n"; i4 "k"; p "alpha"; h "descrA"; i4 "nnzA"; p "csrSortedValA";
      p "csrSortedRowPtrA"; p "csrSortedColIndA"; h "descrB"; i4 "nnzB"; p "csrSortedValB";
      p "csrSortedRowPtrB"; p "csrSortedColIndB"; p "beta"; h "descrD"; i4 "nnzD"; p "csrSortedValD";
      p "csrSortedRowPtrD"; p "csrSortedColIndD"; h "descrC"; p "csrSortedValC"; p "csrSortedRowPtrC";
      p "csrSortedColIndC"; h "info"; p "pBuffer"] code;
   aborts 1186 "cusparseDcsrgemm2"
     [h "handle"; i4 "m"; i4 "n"; i4 "k"; p "alpha"; h "descrA"; i4 "nnzA"; p "csrSortedValA";
      p "csrSortedRowPtrA"; p "csrSortedColIndA"; h "descrB"; i4 "nnzB"; p "csrSortedValB";
      p "csrSortedRowPtrB"; p "csrSortedColIndB"; p "beta"; h "descrD"; i4 "nnzD"; p "csrSortedValD";
      p "csrSortedRowPtrD"; p "csrSortedColIndD"; h "descrC"; p "csrSortedValC"; p "csrSortedRowPtrC";
      p "csrSortedColIndC"; h "info"; p "pBuffer"] code;
   aborts 1187 "cusparseCcsrgemm2"
     [h "handle"; i4 "m"; i4 "n"; i4 "k"; p "alpha"; h "descrA"; i4 "nnzA"; p "csrSortedValA";
      p "csrSortedRowPtrA"; p "csrSortedColIndA"; h "descrB"; i4 "nnzB"; p "csrSortedValB";
      p "csrSortedRowPtrB"; p "csrSortedColIndB"; p "beta"; h "descrD"; i4 "nnzD"; p "csrSortedValD";
      p "csrSortedRowPtrD"; p "csrSortedColIndD"; h "descrC"; p "csrSortedValC"; p "csrSortedRowPtrC";
      p "csrSortedColIndC"; h "info"; p "pBuffer"] code;
   aborts 1188 "cusparseZcsrgemm2"
     [h "handle"; i4 "m"; i4 "n"; i4 "k"; p "alpha"; h "descrA"; i4 "nnzA"; p "csrSortedValA";
      p "csrSortedRowPtrA"; p "csrSortedColIndA"; h "descrB"; i4 "nnzB"; p "csrSortedValB";
      p "csrSortedRowPtrB"; p "csrSortedColIndB"; p "beta"; h "descrD"; i4 "nnzD"; p "csrSortedValD";
      p "csrSortedRowPtrD"; p "csrSortedColIndD"; h "descrC"; p "csrSortedValC"; p "csrSortedRowPtrC";
      p "csrSortedColIndC"; h "info"; p "pBuffer"] code].

Definition cusparse_40 : list aborting :=
  [aborts 1189 "cusparseScsrgeam2_bufferSizeExt"
     [h "handle"; i4 "m"; i4 "n"; p "alpha"; h "descrA"; i4 "nnzA"; p "csrSortedValA";
      p "csrSortedRowPtrA"; p "csrSortedColIndA"; p "beta"; h "descrB"; i4 "nnzB"; p "csrSortedValB";
      p "csrSortedRowPtrB"; p "csrSortedColIndB"; h "descrC"; p "csrSortedValC"; p "csrSortedRowPtrC";
      p "csrSortedColIndC"; p "pBufferSizeInBytes"] code;
   aborts 1190 "cusparseDcsrgeam2_bufferSizeExt"
     [h "handle"; i4 "m"; i4 "n"; p "alpha"; h "descrA"; i4 "nnzA"; p "csrSortedValA";
      p "csrSortedRowPtrA"; p "csrSortedColIndA"; p "beta"; h "descrB"; i4 "nnzB"; p "csrSortedValB";
      p "csrSortedRowPtrB"; p "csrSortedColIndB"; h "descrC"; p "csrSortedValC"; p "csrSortedRowPtrC";
      p "csrSortedColIndC"; p "pBufferSizeInBytes"] code;
   aborts 1191 "cusparseCcsrgeam2_bufferSizeExt"
     [h "handle"; i4 "m"; i4 "n"; p "alpha"; h "descrA"; i4 "nnzA"; p "csrSortedValA";
      p "csrSortedRowPtrA"; p "csrSortedColIndA"; p "beta"; h "descrB"; i4 "nnzB"; p "csrSortedValB";
      p "csrSortedRowPtrB"; p "csrSortedColIndB"; h "descrC"; p "csrSortedValC"; p "csrSortedRowPtrC";
      p "csrSortedColIndC"; p "pBufferSizeInBytes"] code;
   aborts 1192 "cusparseZcsrgeam2_bufferSizeExt"
     [h "handle"; i4 "m"; i4 "n"; p "alpha"; h "descrA"; i4 "nnzA"; p "csrSortedValA";
      p "csrSortedRowPtrA"; p "csrSortedColIndA"; p "beta"; h "descrB"; i4 "nnzB"; p "csrSortedValB";
      p "csrSortedRowPtrB"; p "csrSortedColIndB"; h "descrC"; p "csrSortedValC"; p "csrSortedRowPtrC";
      p "csrSortedColIndC"; p "pBufferSizeInBytes"] code;
   aborts 1193 "cusparseXcsrgeam2Nnz"
     [h "handle"; i4 "m"; i4 "n"; h "descrA"; i4 "nnzA"; p "csrSortedRowPtrA"; p "csrSortedColIndA";
      h "descrB"; i4 "nnzB"; p "csrSortedRowPtrB"; p "csrSortedColIndB"; h "descrC"; p "csrSortedRowPtrC";
      p "nnzTotalDevHostPtr"; p "workspace"] code].

Definition cusparse_41 : list aborting :=
  [aborts 1194 "cusparseScsrgeam2"
     [h "handle"; i4 "m"; i4 "n"; p "alpha"; h "descrA"; i4 "nnzA"; p "csrSortedValA";
      p "csrSortedRowPtrA"; p "csrSortedColIndA"; p "beta"; h "descrB"; i4 "nnzB"; p "csrSortedValB";
      p "csrSortedRowPtrB"; p "csrSortedColIndB"; h "descrC"; p "csrSortedValC"; p "csrSortedRowPtrC";
      p "csrSortedColIndC"; p "pBuffer"] code;
   aborts 1195 "cusparseDcsrgeam2"
     [h "handle"; i4 "m"; i4 "n"; p "alpha"; h "descrA"; i4 "nnzA"; p "csrSortedValA";
      p "csrSortedRowPtrA"; p "csrSortedColIndA"; p "beta"; h "descrB"; i4 "nnzB"; p "csrSortedValB";
      p "csrSortedRowPtrB"; p "csrSortedColIndB"; h "descrC"; p "csrSortedValC"; p "csrSortedRowPtrC";
      p "csrSortedColIndC"; p "pBuffer"] code;
   aborts 1196 "cusparseCcsrgeam2"
     [h "handle"; i4 "m"; i4 "n"; p "alpha"; h "descrA"; i4 "nnzA"; p "csrSortedValA";
      p "csrSortedRowPtrA"; p "csrSortedColIndA"; p "beta"; h "descrB"; i4 "nnzB"; p "csrSortedValB";
      p "csrSortedRowPtrB"; p "csrSortedColIndB"; h "descrC"; p "csrSortedValC"; p "csrSortedRowPtrC";
      p "csrSortedColIndC"; p "pBuffer"] code;
   aborts 1197 "cusparseZcsrgeam2"
     [h "handle"; i4 "m"; i4 "n"; p "alpha"; h "descrA"; i4 "nnzA"; p "csrSortedValA";
      p "csrSortedRowPtrA"; p "csrSortedColIndA"; p "beta"; h "descrB"; i4 "nnzB"; p "csrSortedValB";
      p "csrSortedRowPtrB"; p "csrSortedColIndB"; h "descrC"; p "csrSortedValC"; p "csrSortedRowPtrC";
      p "csrSortedColIndC"; p "pBuffer"] code].

Definition cusparse_42 : list aborting :=
  [aborts 1198 "cusparseScsrcolor"
     [h "handle"; i4 "m"; i4 "nnz"; h "descrA"; p "csrSortedValA"; p "csrSortedRowPtrA";
      p "csrSortedColIndA"; p "fractionToColor"; p "ncolors"; p "coloring"; p "reordering"; h "info"] code;
   aborts 1199 "cusparseDcsrcolor"
     [h "handle"; i4 "m"; i4 "nnz"; h "descrA"; p "csrSortedValA"; p "csrSortedRowPtrA";
      p "csrSortedColIndA"; p "fractionToColor"; p "ncolors"; p "coloring"; p "reordering"; h "info"] code;
   aborts 1200 "cusparseCcsrcolor"
     [h "handle"; i4 "m"; i4 "nnz"; h "descrA"; p "csrSortedValA"; p "csrSortedRowPtrA";
      p "csrSortedColIndA"; p "fractionToColor"; p "ncolors"; p "coloring"; p "reordering"; h "info"] code;
   aborts 1201 "cusparseZcsrcolor"
     [h "handle"; i4 "m"; i4 "nnz"; h "descrA"; p "csrSortedValA"; p "csrSortedRowPtrA";
      p "csrSortedColIndA"; p "fractionToColor"; p "ncolors"; p "coloring"; p "reordering"; h "info"] code].

Definition cusparse_43 : list aborting :=
  [aborts 1202 "cusparseSnnz"
     [h "handle"; u4 "dirA"; i4 "m"; i4 "n"; h "descrA"; p "A"; i4 "lda"; p "nnzPerRowCol";
      p "nnzTotalDevHostPtr"] code;
   aborts 1203 "cusparseDnnz"
     [h "handle"; u4 "dirA"; i4 "m"; i4 "n"; h "descrA"; p "A"; i4 "lda"; p "nnzPerRowCol";
      p "nnzTotalDevHostPtr"] code;
   aborts 1204 "cusparseCnnz"
     [h "handle"; u4 "dirA"; i4 "m"; i4 "n"; h "descrA"; p "A"; i4 "lda"; p "nnzPerRowCol";
      p "nnzTotalDevHostPtr"] code;
   aborts 1205 "cusparseZnnz"
     [h "handle"; u4 "dirA"; i4 "m"; i4 "n"; h "descrA"; p "A"; i4 "lda"; p "nnzPerRowCol";
      p "nnzTotalDevHostPtr"] code].

Definition cusparse_44 : list aborting :=
  [aborts 1206 "cusparseSnnz_compress"
     [h "handle"; i4 "m"; h "descr"; p "csrSortedValA"; p "csrSortedRowPtrA"; p "nnzPerRow"; p "nnzC";
      u4 "tol"] code;
   aborts 1207 "cusparseDnnz_compress"
     [h "handle"; i4 "m"; h "descr"; p "csrSortedValA"; p "csrSortedRowPtrA"; p "nnzPerRow"; p "nnzC";
      u8 "tol"] code;
   aborts 1208 "cusparseCnnz_compress"
     [h "handle"; i4 "m"; h "descr"; p "csrSortedValA"; p "csrSortedRowPtrA"; p "nnzPerRow"; p "nnzC";
      u8 "tol"] code;
   aborts 1209 "cusparseZnnz_compress"
     [h "handle"; i4 "m"; h "descr"; p "csrSortedValA"; p "csrSortedRowPtrA"; p "nnzPerRow"; p "nnzC";
      u16 "tol"] code;
   aborts 1210 "cusparseScsr2csr_compress"
     [h "handle"; i4 "m"; i4 "n"; h "descrA"; p "csrSortedValA"; p "csrSortedColIndA";
      p "csrSortedRowPtrA"; i4 "nnzA"; p "nnzPerRow"; p "csrSortedValC"; p "csrSortedColIndC";
      p "csrSortedRowPtrC"; u4 "tol"] code;
   aborts 1211 "cusparseDcsr2csr_compress"
     [h "handle"; i4 "m"; i4 "n"; h "descrA"; p "csrSortedValA"; p "csrSortedColIndA";
      p "csrSortedRowPtrA"; i4 "nnzA"; p "nnzPerRow"; p "csrSortedValC"; p "csrSortedColIndC";
      p "csrSortedRowPtrC"; u8 "tol"] code;
   aborts 1212 "cusparseCcsr2csr_compress"
     [h "handle"; i4 "m"; i4 "n"; h "descrA"; p "csrSortedValA"; p "csrSortedColIndA";
      p "csrSortedRowPtrA"; i4 "nnzA"; p "nnzPerRow"; p "csrSortedValC"; p "csrSortedColIndC";
      p "csrSortedRowPtrC"; u8 "tol"] code;
   aborts 1213 "cusparseZcsr2csr_compress"
     [h "handle"; i4 "m"; i4 "n"; h "descrA"; p "csrSortedValA"; p "csrSortedColIndA";
      p "csrSortedRowPtrA"; i4 "nnzA"; p "nnzPerRow"; p "csrSortedValC"; p "csrSortedColIndC";
      p "csrSortedRowPtrC"; u16 "tol"] code].

Definition cusparse_45 : list aborting :=
  [aborts 1214 "cusparseSdense2csr"
     [h "handle"; i4 "m"; i4 "n"; h "descrA"; p "A"; i4 "lda"; p "nnzPerRow"; p "csrSortedValA";
      p "csrSortedRowPtrA"; p "csrSortedColIndA"] code;
   aborts 1215 "cusparseDdense2csr"
     [h "handle"; i4 "m"; i4 "n"; h "descrA"; p "A"; i4 "lda"; p "nnzPerRow"; p "csrSortedValA";
      p "csrSortedRowPtrA"; p "csrSortedColIndA"] code;
   aborts 1216 "cusparseCdense2csr"
     [h "handle"; i4 "m"; i4 "n"; h "descrA"; p "A"; i4 "lda"; p "nnzPerRow"; p "csrSortedValA";
      p "csrSortedRowPtrA"; p "csrSortedColIndA"] code;
   aborts 1217 "cusparseZdense2csr"
     [h "handle"; i4 "m"; i4 "n"; h "descrA"; p "A"; i4 "lda"; p "nnzPerRow"; p "csrSortedValA";
      p "csrSortedRowPtrA"; p "csrSortedColIndA"] code;
   aborts 1218 "cusparseScsr2dense"
     [h "handle"; i4 "m"; i4 "n"; h "descrA"; p "csrSortedValA"; p "csrSortedRowPtrA";
      p "csrSortedColIndA"; p "A"; i4 "lda"] code;
   aborts 1219 "cusparseDcsr2dense"
     [h "handle"; i4 "m"; i4 "n"; h "descrA"; p "csrSortedValA"; p "csrSortedRowPtrA";
      p "csrSortedColIndA"; p "A"; i4 "lda"] code;
   aborts 1220 "cusparseCcsr2dense"
     [h "handle"; i4 "m"; i4 "n"; h "descrA"; p "csrSortedValA"; p "csrSortedRowPtrA";
      p "csrSortedColIndA"; p "A"; i4 "lda"] code;
   aborts 1221 "cusparseZcsr2dense"
     [h "handle"; i4 "m"; i4 "n"; h "descrA"; p "csrSortedValA"; p "csrSortedRowPtrA";
      p "csrSortedColIndA"; p "A"; i4 "lda"] code;
   aborts 1222 "cusparseSdense2csc"
     [h "handle"; i4 "m"; i4 "n"; h "descrA"; p "A"; i4 "lda"; p "nnzPerCol"; p "cscSortedValA";
      p "cscSortedRowIndA"; p "cscSortedColPtrA"] code].

Definition cusparse_46 : list aborting :=
  [aborts 1223 "cusparseDdense2csc"
     [h "handle"; i4 "m"; i4 "n"; h "descrA"; p "A"; i4 "lda"; p "nnzPerCol"; p "cscSortedValA";
      p "cscSortedRowIndA"; p "cscSortedColPtrA"] code;
   aborts 1224 "cusparseCdense2csc"
     [h "handle"; i4 "m"; i4 "n"; h "descrA"; p "A"; i4 "lda"; p "nnzPerCol"; p "cscSortedValA";
      p "cscSortedRowIndA"; p "cscSortedColPtrA"] code;
   aborts 1225 "cusparseZdense2csc"
     [h "handle"; i4 "m"; i4 "n"; h "descrA"; p "A"; i4 "lda"; p "nnzPerCol"; p "cscSortedValA";
      p "cscSortedRowIndA"; p "cscSortedColPtrA"] code;
   aborts 1226 "cusparseScsc2dense"
     [h "handle"; i4 "m"; i4 "n"; h "descrA"; p "cscSortedValA"; p "cscSortedRowIndA";
      p "cscSortedColPtrA"; p "A"; i4 "lda"] code;
   aborts 1227 "cusparseDcsc2dense"
     [h "handle"; i4 "m"; i4 "n"; h "descrA"; p "cscSortedValA"; p "cscSortedRowIndA";
      p "cscSortedColPtrA"; p "A"; i4 "lda"] code;
   aborts 1228 "cusparseCcsc2dense"
     [h "handle"; i4 "m"; i4 "n"; h "descrA"; p "cscSortedValA"; p "cscSortedRowIndA";
      p "cscSortedColPtrA"; p "A"; i4 "lda"] code;
   aborts 1229 "cusparseZcsc2dense"
     [h "handle"; i4 "m"; i4 "n"; h "descrA"; p "cscSortedValA"; p "cscSortedRowIndA";
      p "cscSortedColPtrA"; p "A"; i4 "lda"] code;
   aborts 1230 "cusparseXcoo2csr"
     [h "handle"; p "cooRowInd"; i4 "nnz"; i4 "m"; p "csrSortedRowPtr"; u4 "idxBase"] code;
   aborts 1231 "cusparseXcsr2coo"
     [h "handle"; p "csrSortedRowPtr"; i4 "nnz"; i4 "m"; p "cooRowInd"; u4 "idxBase"] code].

Definition cusparse_47 : list aborting :=
  [aborts 1232 "cusparseSdense2hyb"
     [h "handle"; i4 "m"; i4 "n"; h "descrA"; p "A"; i4 "lda"; p "nnzPerRow"; h "hybA"; i4 "userEllWidth";
      u4 "partitionType"] code;
   aborts 1233 "cusparseDdense2hyb"
     [h "handle"; i4 "m"; i4 "n"; h "descrA"; p "A"; i4 "lda"; p "nnzPerRow"; h "hybA"; i4 "userEllWidth";
      u4 "partitionType"] code;
   aborts 1234 "cusparseCdense2hyb"
     [h "handle"; i4 "m"; i4 "n"; h "descrA"; p "A"; i4 "lda"; p "nnzPerRow"; h "hybA"; i4 "userEllWidth";
      u4 "partitionType"] code;
   aborts 1235 "cusparseZdense2hyb"
     [h "handle"; i4 "m"; i4 "n"; h "descrA"; p "A"; i4 "lda"; p "nnzPerRow"; h "hybA"; i4 "userEllWidth";
      u4 "partitionType"] code;
   aborts 1236 "cusparseShyb2dense" [h "handle"; h "descrA"; h "hybA"; p "A"; i4 "lda"] code;
   aborts 1237 "cusparseDhyb2dense" [h "handle"; h "descrA"; h "hybA"; p "A"; i4 "lda"] code;
   aborts 1238 "cusparseChyb2dense" [h "handle"; h "descrA"; h "hybA"; p "A"; i4 "lda"] code;
   aborts 1239 "cusparseZhyb2dense" [h "handle"; h "descrA"; h "hybA"; p "A"; i4 "lda"] code;
   aborts 1240 "cusparseScsr2hyb"
     [h "handle"; i4 "m"; i4 "n"; h "descrA"; p "csrSortedValA"; p "csrSortedRowPtrA";
      p "csrSortedColIndA"; h "hybA"; i4 "userEllWidth"; u4 "partitionType"] code;
   aborts 1241 "cusparseDcsr2hyb"
     [h "handle"; i4 "m"; i4 "n"; h "descrA"; p "csrSortedValA"; p "csrSortedRowPtrA";
      p "csrSortedColIndA"; h "hybA"; i4 "userEllWidth"; u4 "partitionType"] code].

Definition cusparse_48 : list aborting :=
  [aborts 1242 "cusparseCcsr2hyb"
     [h "handle"; i4 "m"; i4 "n"; h "descrA"; p "csrSortedValA"; p "csrSortedRowPtrA";
      p "csrSortedColIndA"; h "hybA"; i4 "userEllWidth"; u4 "partitionType"] code;
   aborts 1243 "cusparseZcsr2hyb"
     [h "handle"; i4 "m"; i4 "n"; h "descrA"; p "csrSortedValA"; p "csrSortedRowPtrA";
      p "csrSortedColIndA"; h "hybA"; i4 "userEllWidth"; u4 "partitionType"] code;
   aborts 1244 "cusparseShyb2csr"
     [h "handle"; h "descrA"; h "hybA"; p "csrSortedValA"; p "csrSortedRowPtrA"; p "csrSortedColIndA"] code;
   aborts 1245 "cusparseDhyb2csr"
     [h "handle"; h "descrA"; h "hybA"; p "csrSortedValA"; p "csrSortedRowPtrA"; p "csrSortedColIndA"] code;
   aborts 1246 "cusparseChyb2csr"
     [h "handle"; h "descrA"; h "hybA"; p "csrSortedValA"; p "csrSortedRowPtrA"; p "csrSortedColIndA"] code;
   aborts 1247 "cusparseZhyb2csr"
     [h "handle"; h "descrA"; h "hybA"; p "csrSortedValA"; p "csrSortedRowPtrA"; p "csrSortedColIndA"] code;
   aborts 1248 "cusparseScsc2hyb"
     [h "handle"; i4 "m"; i4 "n"; h "descrA"; p "cscSortedValA"; p "cscSortedRowIndA";
      p "cscSortedColPtrA"; h "hybA"; i4 "userEllWidth"; u4 "partitionType"] code;
   aborts 1249 "cusparseDcsc2hyb"
     [h "handle"; i4 "m"; i4 "n"; h "descrA"; p "cscSortedValA"; p "cscSortedRowIndA";
      p "cscSortedColPtrA"; h "hybA"; i4 "userEllWidth"; u4 "partitionType"] code;
   aborts 1250 "cusparseCcsc2hyb"
     [h "handle"; i4 "m"; i4 "n"; h "descrA"; p "cscSortedValA"; p "cscSortedRowIndA";
      p "cscSortedColPtrA"; h "hybA"; i4 "userEllWidth"; u4 "partitionType"] code].

Definition cusparse_49 : list aborting :=
  [aborts 1251 "cusparseZcsc2hyb"
     [h "handle"; i4 "m"; i4 "n"; h "descrA"; p "cscSortedValA"; p "cscSortedRowIndA";
      p "cscSortedColPtrA"; h "hybA"; i4 "userEllWidth"; u4 "partitionType"] code;
   aborts 1252 "cusparseShyb2csc"
     [h "handle"; h "descrA"; h "hybA"; p "cscSortedVal"; p "cscSortedRowInd"; p "cscSortedColPtr"] code;
   aborts 1253 "cusparseDhyb2csc"
     [h "handle"; h "descrA"; h "hybA"; p "cscSortedVal"; p "cscSortedRowInd"; p "cscSortedColPtr"] code;
   aborts 1254 "cusparseChyb2csc"
     [h "handle"; h "descrA"; h "hybA"; p "cscSortedVal"; p "cscSortedRowInd"; p "cscSortedColPtr"] code;
   aborts 1255 "cusparseZhyb2csc"
     [h "handle"; h "descrA"; h "hybA"; p "cscSortedVal"; p "cscSortedRowInd"; p "cscSortedColPtr"] code;
   aborts 1256 "cusparseXcsr2bsrNnz"
     [h "handle"; u4 "dirA"; i4 "m"; i4 "n"; h "descrA"; p "csrSortedRowPtrA"; p "csrSortedColIndA";
      i4 "blockDim"; h "descrC"; p "bsrSortedRowPtrC"; p "nnzTotalDevHostPtr"] code;
   aborts 1257 "cusparseScsr2bsr"
     [h "handle"; u4 "dirA"; i4 "m"; i4 "n"; h "descrA"; p "csrSortedValA"; p "csrSortedRowPtrA";
      p "csrSortedColIndA"; i4 "blockDim"; h "descrC"; p "bsrSortedValC"; p "bsrSortedRowPtrC";
      p "bsrSortedColIndC"] code;
   aborts 1258 "cusparseDcsr2bsr"
     [h "handle"; u4 "dirA"; i4 "m"; i4 "n"; h "descrA"; p "csrSortedValA"; p "csrSortedRowPtrA";
      p "csrSortedColIndA"; i4 "blockDim"; h "descrC"; p "bsrSortedValC"; p "bsrSortedRowPtrC";
      p "bsrSortedColIndC"] code;
   aborts 1259 "cusparseCcsr2bsr"
     [h "handle"; u4 "dirA"; i4 "m"; i4 "n"; h "descrA"; p "csrSortedValA"; p "csrSortedRowPtrA";
      p "csrSortedColIndA"; i4 "blockDim"; h "descrC"; p "bsrSortedValC"; p "bsrSortedRowPtrC";
      p "bsrSortedColIndC"] code].

Definition cusparse_50 : list aborting :=
  [aborts 1260 "cusparseZcsr2bsr"
     [h "handle"; u4 "dirA"; i4 "m"; i4 "n"; h "descrA"; p "csrSortedValA"; p "csrSortedRowPtrA";
      p "csrSortedColIndA"; i4 "blockDim"; h "descrC"; p "bsrSortedValC"; p "bsrSortedRowPtrC";
      p "bsrSortedColIndC"] code;
   aborts 1261 "cusparseSbsr2csr"
     [h "handle"; u4 "dirA"; i4 "mb"; i4 "nb"; h "descrA"; p "bsrSortedValA"; p "bsrSortedRowPtrA";
      p "bsrSortedColIndA"; i4 "blockDim"; h "descrC"; p "csrSortedValC"; p "csrSortedRowPtrC";
      p "csrSortedColIndC"] code;
   aborts 1262 "cusparseDbsr2csr"
     [h "handle"; u4 "dirA"; i4 "mb"; i4 "nb"; h "descrA"; p "bsrSortedValA"; p "bsrSortedRowPtrA";
      p "bsrSortedColIndA"; i4 "blockDim"; h "descrC"; p "csrSortedValC"; p "csrSortedRowPtrC";
      p "csrSortedColIndC"] code;
   aborts 1263 "cusparseCbsr2csr"
     [h "handle"; u4 "dirA"; i4 "mb"; i4 "nb"; h "descrA"; p "bsrSortedValA"; p "bsrSortedRowPtrA";
      p "bsrSortedColIndA"; i4 "blockDim"; h "descrC"; p "csrSortedValC"; p "csrSortedRowPtrC";
      p "csrSortedColIndC"] code;
   aborts 1264 "cusparseZbsr2csr"
     [h "handle"; u4 "dirA"; i4 "mb"; i4 "nb"; h "descrA"; p "bsrSortedValA"; p "bsrSortedRowPtrA";
      p "bsrSortedColIndA"; i4 "blockDim"; h "descrC"; p "csrSortedValC"; p "csrSortedRowPtrC";
      p "csrSortedColIndC"] code;
   aborts 1265 "cusparseSgebsr2gebsc_bufferSize"
     [h "handle"; i4 "mb"; i4 "nb"; i4 "nnzb"; p "bsrSortedVal"; p "bsrSortedRowPtr"; p "bsrSortedColInd";
      i4 "rowBlockDim"; i4 "colBlockDim"; p "pBufferSizeInBytes"] code;
   aborts 1266 "cusparseDgebsr2gebsc_bufferSize"
     [h "handle"; i4 "mb"; i4 "nb"; i4 "nnzb"; p "bsrSortedVal"; p "bsrSortedRowPtr"; p "bsrSortedColInd";
      i4 "rowBlockDim"; i4 "colBlockDim"; p "pBufferSizeInBytes"] code;
   aborts 1267 "cusparseCgebsr2gebsc_bufferSize"
     [h "handle"; i4 "mb"; i4 "nb"; i4 "nnzb"; p "bsrSortedVal"; p "bsrSortedRowPtr"; p "bsrSortedColInd";
      i4 "rowBlockDim"; i4 "colBlockDim"; p "pBufferSizeInBytes"] code].

Definition cusparse_51 : list aborting :=
  [aborts 1268 "cusparseZgebsr2gebsc_bufferSize"
     [h "handle"; i4 "mb"; i4 "nb"; i4 "nnzb"; p "bsrSortedVal"; p "bsrSortedRowPtr"; p "bsrSortedColInd";
      i4 "rowBlockDim"; i4 "colBlockDim"; p "pBufferSizeInBytes"] code;
   aborts 1269 "cusparseSgebsr2gebsc_bufferSizeExt"
     [h "handle"; i4 "mb"; i4 "nb"; i4 "nnzb"; p "bsrSortedVal"; p "bsrSortedRowPtr"; p "bsrSortedColInd";
      i4 "rowBlockDim"; i4 "colBlockDim"; p "pBufferSize"] code;
   aborts 1270 "cusparseDgebsr2gebsc_bufferSizeExt"
     [h "handle"; i4 "mb"; i4 "nb"; i4 "nnzb"; p "bsrSortedVal"; p "bsrSortedRowPtr"; p "bsrSortedColInd";
      i4 "rowBlockDim"; i4 "colBlockDim"; p "pBufferSize"] code;
   aborts 1271 "cusparseCgebsr2gebsc_bufferSizeExt"
     [h "handle"; i4 "mb"; i4 "nb"; i4 "nnzb"; p "bsrSortedVal"; p "bsrSortedRowPtr"; p "bsrSortedColInd";
      i4 "rowBlockDim"; i4 "colBlockDim"; p "pBufferSize"] code;
   aborts 1272 "cusparseZgebsr2gebsc_bufferSizeExt"
     [h "handle"; i4 "mb"; i4 "nb"; i4 "nnzb"; p "bsrSortedVal"; p "bsrSortedRowPtr"; p "bsrSortedColInd";
      i4 "rowBlockDim"; i4 "colBlockDim"; p "pBufferSize"] code;
   aborts 1273 "cusparseSgebsr2gebsc"
     [h "handle"; i4 "mb"; i4 "nb"; i4 "nnzb"; p "bsrSortedVal"; p "bsrSortedRowPtr"; p "bsrSortedColInd";
      i4 "rowBlockDim"; i4 "colBlockDim"; p "bscVal"; p "bscRowInd"; p "bscColPtr"; u4 "copyValues";
      u4 "idxBase"; p "pBuffer"] code;
   aborts 1274 "cusparseDgebsr2gebsc"
     [h "handle"; i4 "mb"; i4 "nb"; i4 "nnzb"; p "bsrSortedVal"; p "bsrSortedRowPtr"; p "bsrSortedColInd";
      i4 "rowBlockDim"; i4 "colBlockDim"; p "bscVal"; p "bscRowInd"; p "bscColPtr"; u4 "copyValues";
      u4 "idxBase"; p "pBuffer"] code;
   aborts 1275 "cusparseCgebsr2gebsc"
     [h "handle"; i4 "mb"; i4 "nb"; i4 "nnzb"; p "bsrSortedVal"; p "bsrSortedRowPtr"; p "bsrSortedColInd";
      i4 "rowBlockDim"; i4 "colBlockDim"; p "bscVal"; p "bscRowInd"; p "bscColPtr"; u4 "copyValues";
      u4 "idxBase"; p "pBuffer"] code].

Definition cusparse_52 : list aborting :=
  [aborts 1276 "cusparseZgebsr2gebsc"
     [h "handle"; i4 "mb"; i4 "nb"; i4 "nnzb"; p "bsrSortedVal"; p "bsrSortedRowPtr"; p "bsrSortedColInd";
      i4 "rowBlockDim"; i4 "colBlockDim"; p "bscVal"; p "bscRowInd"; p "bscColPtr"; u4 "copyValues";
      u4 "idxBase"; p "pBuffer"] code;
   aborts 1277 "cusparseXgebsr2csr"
     [h "handle"; u4 "dirA"; i4 "mb"; i4 "nb"; h "descrA"; p "bsrSortedRowPtrA"; p "bsrSortedColIndA";
      i4 "rowBlockDim"; i4 "colBlockDim"; h "descrC"; p "csrSortedRowPtrC"; p "csrSortedColIndC"] code;
   aborts 1278 "cusparseSgebsr2csr"
     [h "handle"; u4 "dirA"; i4 "mb"; i4 "nb"; h "descrA"; p "bsrSortedValA"; p "bsrSortedRowPtrA";
      p "bsrSortedColIndA"; i4 "rowBlockDim"; i4 "colBlockDim"; h "descrC"; p "csrSortedValC";
      p "csrSortedRowPtrC"; p "csrSortedColIndC"] code;
   aborts 1279 "cusparseDgebsr2csr"
     [h "handle"; u4 "dirA"; i4 "mb"; i4 "nb"; h "descrA"; p "bsrSortedValA"; p "bsrSortedRowPtrA";
      p "bsrSortedColIndA"; i4 "rowBlockDim"; i4 "colBlockDim"; h "descrC"; p "csrSortedValC";
      p "csrSortedRowPtrC"; p "csrSortedColIndC"] code;
   aborts 1280 "cusparseCgebsr2csr"
     [h "handle"; u4 "dirA"; i4 "mb"; i4 "nb"; h "descrA"; p "bsrSortedValA"; p "bsrSortedRowPtrA";
      p "bsrSortedColIndA"; i4 "rowBlockDim"; i4 "colBlockDim"; h "descrC"; p "csrSortedValC";
      p "csrSortedRowPtrC"; p "csrSortedColIndC"] code;
   aborts 1281 "cusparseZgebsr2csr"
     [h "handle"; u4 "dirA"; i4 "mb"; i4 "nb"; h "descrA"; p "bsrSortedValA"; p "bsrSortedRowPtrA";
      p "bsrSortedColIndA"; i4 "rowBlockDim"; i4 "colBlockDim"; h "descrC"; p "csrSortedValC";
      p "csrSortedRowPtrC"; p "csrSortedColIndC"] code;
   aborts 1282 "cusparseScsr2gebsr_bufferSize"
     [h "handle"; u4 "dirA"; i4 "m"; i4 "n"; h "descrA"; p "csrSortedValA"; p "csrSortedRowPtrA";
      p "csrSortedColIndA"; i4 "rowBlockDim"; i4 "colBlockDim"; p "pBufferSizeInBytes"] code].

Definition cusparse_53 : list aborting :=
  [aborts 1283 "cusparseDcsr2gebsr_bufferSize"
     [h "handle"; u4 "dirA"; i4 "m"; i4 "n"; h "descrA"; p "csrSortedValA"; p "csrSortedRowPtrA";
      p "csrSortedColIndA"; i4 "rowBlockDim"; i4 "colBlockDim"; p "pBufferSizeInBytes"] code;
   aborts 1284 "cusparseCcsr2gebsr_bufferSize"
     [h "handle"; u4 "dirA"; i4 "m"; i4 "n"; h "descrA"; p "csrSortedValA"; p "csrSortedRowPtrA";
      p "csrSortedColIndA"; i4 "rowBlockDim"; i4 "colBlockDim"; p "pBufferSizeInBytes"] code;
   aborts 1285 "cusparseZcsr2gebsr_bufferSize"
     [h "handle"; u4 "dirA"; i4 "m"; i4 "n"; h "descrA"; p "csrSortedValA"; p "csrSortedRowPtrA";
      p "csrSortedColIndA"; i4 "rowBlockDim"; i4 "colBlockDim"; p "pBufferSizeInBytes"] code;
   aborts 1286 "cusparseScsr2gebsr_bufferSizeExt"
     [h "handle"; u4 "dirA"; i4 "m"; i4 "n"; h "descrA"; p "csrSortedValA"; p "csrSortedRowPtrA";
      p "csrSortedColIndA"; i4 "rowBlockDim"; i4 "colBlockDim"; p "pBufferSize"] code;
   aborts 1287 "cusparseDcsr2gebsr_bufferSizeExt"
     [h "handle"; u4 "dirA"; i4 "m"; i4 "n"; h "descrA"; p "csrSortedValA"; p "csrSortedRowPtrA";
      p "csrSortedColIndA"; i4 "rowBlockDim"; i4 "colBlockDim"; p "pBufferSize"] code;
   aborts 1288 "cusparseCcsr2gebsr_bufferSizeExt"
     [h "handle"; u4 "dirA"; i4 "m"; i4 "n"; h "descrA"; p "csrSortedValA"; p "csrSortedRowPtrA";
      p "csrSortedColIndA"; i4 "rowBlockDim"; i4 "colBlockDim"; p "pBufferSize"] code;
   aborts 1289 "cusparseZcsr2gebsr_bufferSizeExt"
     [h "handle"; u4 "dirA"; i4 "m"; i4 "n"; h "descrA"; p "csrSortedValA"; p "csrSortedRowPtrA";
      p "csrSortedColIndA"; i4 "rowBlockDim"; i4 "colBlockDim"; p "pBufferSize"] code;
   aborts 1290 "cusparseXcsr2gebsrNnz"
     [h "handle"; u4 "dirA"; i4 "m"; i4 "n"; h "descrA"; p "csrSortedRowPtrA"; p "csrSortedColIndA";
      h "descrC"; p "bsrSortedRowPtrC"; i4 "rowBlockDim"; i4 "colBlockDim"; p "nnzTotalDevHostPtr";
      p "pBuffer"] code].

Definition cusparse_54 : list aborting :=
  [aborts 1291 "cusparseScsr2gebsr"
     [h "handle"; u4 "dirA"; i4 "m"; i4 "n"; h "descrA"; p "csrSortedValA"; p "csrSortedRowPtrA";
      p "csrSortedColIndA"; h "descrC"; p "bsrSortedValC"; p "bsrSortedRowPtrC"; p "bsrSortedColIndC";
      i4 "rowBlockDim"; i4 "colBlockDim"; p "pBuffer"] code;
   aborts 1292 "cusparseDcsr2gebsr"
     [h "handle"; u4 "dirA"; i4 "m"; i4 "n"; h "descrA"; p "csrSortedValA"; p "csrSortedRowPtrA";
      p "csrSortedColIndA"; h "descrC"; p "bsrSortedValC"; p "bsrSortedRowPtrC"; p "bsrSortedColIndC";
      i4 "rowBlockDim"; i4 "colBlockDim"; p "pBuffer"] code;
   aborts 1293 "cusparseCcsr2gebsr"
     [h "handle"; u4 "dirA"; i4 "m"; i4 "n"; h "descrA"; p "csrSortedValA"; p "csrSortedRowPtrA";
      p "csrSortedColIndA"; h "descrC"; p "bsrSortedValC"; p "bsrSortedRowPtrC"; p "bsrSortedColIndC";
      i4 "rowBlockDim"; i4 "colBlockDim"; p "pBuffer"] code;
   aborts 1294 "cusparseZcsr2gebsr"
     [h "handle"; u4 "dirA"; i4 "m"; i4 "n"; h "descrA"; p "csrSortedValA"; p "csrSortedRowPtrA";
      p "csrSortedColIndA"; h "descrC"; p "bsrSortedValC"; p "bsrSortedRowPtrC"; p "bsrSortedColIndC";
      i4 "rowBlockDim"; i4 "colBlockDim"; p "pBuffer"] code;
   aborts 1295 "cusparseSgebsr2gebsr_bufferSize"
     [h "handle"; u4 "dirA"; i4 "mb"; i4 "nb"; i4 "nnzb"; h "descrA"; p "bsrSortedValA";
      p "bsrSortedRowPtrA"; p "bsrSortedColIndA"; i4 "rowBlockDimA"; i4 "colBlockDimA"; i4 "rowBlockDimC";
      i4 "colBlockDimC"; p "pBufferSizeInBytes"] code;
   aborts 1296 "cusparseDgebsr2gebsr_bufferSize"
     [h "handle"; u4 "dirA"; i4 "mb"; i4 "nb"; i4 "nnzb"; h "descrA"; p "bsrSortedValA";
      p "bsrSortedRowPtrA"; p "bsrSortedColIndA"; i4 "rowBlockDimA"; i4 "colBlockDimA"; i4 "rowBlockDimC";
      i4 "colBlockDimC"; p "pBufferSizeInBytes"] code;
   aborts 1297 "cusparseCgebsr2gebsr_bufferSize"
     [h "handle"; u4 "dirA"; i4 "mb"; i4 "nb"; i4 "nnzb"; h "descrA"; p "bsrSortedValA";
      p "bsrSortedRowPtrA"; p "bsrSortedColIndA"; i4 "rowBlockDimA"; i4 "colBlockDimA"; i4 "rowBlockDimC";
      i4 "colBlockDimC"; p "pBufferSizeInBytes"] code].

Definition cusparse_55 : list aborting :=
  [aborts 1298 "cusparseZgebsr2gebsr_bufferSize"
     [h "handle"; u4 "dirA"; i4 "mb"; i4 "nb"; i4 "nnzb"; h "descrA"; p "bsrSortedValA";
      p "bsrSortedRowPtrA"; p "bsrSortedColIndA"; i4 "rowBlockDimA"; i4 "colBlockDimA"; i4 "rowBlockDimC";
      i4 "colBlockDimC"; p "pBufferSizeInBytes"] code;
   aborts 1299 "cusparseSgebsr2gebsr_bufferSizeExt"
     [h "handle"; u4 "dirA"; i4 "mb"; i4 "nb"; i4 "nnzb"; h "descrA"; p "bsrSortedValA";
      p "bsrSortedRowPtrA"; p "bsrSortedColIndA"; i4 "rowBlockDimA"; i4 "colBlockDimA"; i4 "rowBlockDimC";
      i4 "colBlockDimC"; p "pBufferSize"] code;
   aborts 1300 "cusparseDgebsr2gebsr_bufferSizeExt"
     [h "handle"; u4 "dirA"; i4 "mb"; i4 "nb"; i4 "nnzb"; h "descrA"; p "bsrSortedValA";
      p "bsrSortedRowPtrA"; p "bsrSortedColIndA"; i4 "rowBlockDimA"; i4 "colBlockDimA"; i4 "rowBlockDimC";
      i4 "colBlockDimC"; p "pBufferSize"] code;
   aborts 1301 "cusparseCgebsr2gebsr_bufferSizeExt"
     [h "handle"; u4 "dirA"; i4 "mb"; i4 "nb"; i4 "nnzb"; h "descrA"; p "bsrSortedValA";
      p "bsrSortedRowPtrA"; p "bsrSortedColIndA"; i4 "rowBlockDimA"; i4 "colBlockDimA"; i4 "rowBlockDimC";
      i4 "colBlockDimC"; p "pBufferSize"] code;
   aborts 1302 "cusparseZgebsr2gebsr_bufferSizeExt"
     [h "handle"; u4 "dirA"; i4 "mb"; i4 "nb"; i4 "nnzb"; h "descrA"; p "bsrSortedValA";
      p "bsrSortedRowPtrA"; p "bsrSortedColIndA"; i4 "rowBlockDimA"; i4 "colBlockDimA"; i4 "rowBlockDimC";
      i4 "colBlockDimC"; p "pBufferSize"] code;
   aborts 1303 "cusparseXgebsr2gebsrNnz"
     [h "handle"; u4 "dirA"; i4 "mb"; i4 "nb"; i4 "nnzb"; h "descrA"; p "bsrSortedRowPtrA";
      p "bsrSortedColIndA"; i4 "rowBlockDimA"; i4 "colBlockDimA"; h "descrC"; p "bsrSortedRowPtrC";
      i4 "rowBlockDimC"; i4 "colBlockDimC"; p "nnzTotalDevHostPtr"; p "pBuffer"] code].

Definition cusparse_56 : list aborting :=
  [aborts 1304 "cusparseSgebsr2gebsr"
     [h "handle"; u4 "dirA"; i4 "mb"; i4 "nb"; i4 "nnzb"; h "descrA"; p "bsrSortedValA";
      p "bsrSortedRowPtrA"; p "bsrSortedColIndA"; i4 "rowBlockDimA"; i4 "colBlockDimA"; h "descrC";
      p "bsrSortedValC"; p "bsrSortedRowPtrC"; p "bsrSortedColIndC"; i4 "rowBlockDimC"; i4 "colBlockDimC";
      p "pBuffer"] code;
   aborts 1305 "cusparseDgebsr2gebsr"
     [h "handle"; u4 "dirA"; i4 "mb"; i4 "nb"; i4 "nnzb"; h "descrA"; p "bsrSortedValA";
      p "bsrSortedRowPtrA"; p "bsrSortedColIndA"; i4 "rowBlockDimA"; i4 "colBlockDimA"; h "descrC";
      p "bsrSortedValC"; p "bsrSortedRowPtrC"; p "bsrSortedColIndC"; i4 "rowBlockDimC"; i4 "colBlockDimC";
      p "pBuffer"] code;
   aborts 1306 "cusparseCgebsr2gebsr"
     [h "handle"; u4 "dirA"; i4 "mb"; i4 "nb"; i4 "nnzb"; h "descrA"; p "bsrSortedValA";
      p "bsrSortedRowPtrA"; p "bsrSortedColIndA"; i4 "rowBlockDimA"; i4 "colBlockDimA"; h "descrC";
      p "bsrSortedValC"; p "bsrSortedRowPtrC"; p "bsrSortedColIndC"; i4 "rowBlockDimC"; i4 "colBlockDimC";
      p "pBuffer"] code;
   aborts 1307 "cusparseZgebsr2gebsr"
     [h "handle"; u4 "dirA"; i4 "mb"; i4 "nb"; i4 "nnzb"; h "descrA"; p "bsrSortedValA";
      p "bsrSortedRowPtrA"; p "bsrSortedColIndA"; i4 "rowBlockDimA"; i4 "colBlockDimA"; h "descrC";
      p "bsrSortedValC"; p "bsrSortedRowPtrC"; p "bsrSortedColIndC"; i4 "rowBlockDimC"; i4 "colBlockDimC";
      p "pBuffer"] code].

Definition cusparse_57 : list aborting :=
  [aborts 1308 "cusparseCreateIdentityPermutation" [h "handle"; i4 "n"; p "p"] code;
   aborts 1309 "cusparseXcoosort_bufferSizeExt"
     [h "handle"; i4 "m"; i4 "n"; i4 "nnz"; p "cooRowsA"; p "cooColsA"; p "pBufferSizeInBytes"] code;
   aborts 1310 "cusparseXcoosortByRow"
     [h "handle"; i4 "m"; i4 "n"; i4 "nnz"; p "cooRowsA"; p "cooColsA"; p "P"; p "pBuffer"] code;
   aborts 1311 "cusparseXcoosortByColumn"
     [h "handle"; i4 "m"; i4 "n"; i4 "nnz"; p "cooRowsA"; p "cooColsA"; p "P"; p "pBuffer"] code;
   aborts 1312 "cusparseXcsrsort_bufferSizeExt"
     [h "handle"; i4 "m"; i4 "n"; i4 "nnz"; p "csrRowPtrA"; p "csrColIndA"; p "pBufferSizeInBytes"] code;
   aborts 1313 "cusparseXcsrsort"
     [h "handle"; i4 "m"; i4 "n"; i4 "nnz"; h "descrA"; p "csrRowPtrA"; p "csrColIndA"; p "P"; p "pBuffer"] code;
   aborts 1314 "cusparseXcscsort_bufferSizeExt"
     [h "handle"; i4 "m"; i4 "n"; i4 "nnz"; p "cscColPtrA"; p "cscRowIndA"; p "pBufferSizeInBytes"] code;
   aborts 1315 "cusparseXcscsort"
     [h "handle"; i4 "m"; i4 "n"; i4 "nnz"; h "descrA"; p "cscColPtrA"; p "cscRowIndA"; p "P"; p "pBuffer"] code;
   aborts 1316 "cusparseScsru2csr_bufferSizeExt"
     [h "handle"; i4 "m"; i4 "n"; i4 "nnz"; p "csrVal"; p "csrRowPtr"; p "csrColInd"; h "info";
      p "pBufferSizeInBytes"] code;
   aborts 1317 "cusparseDcsru2csr_bufferSizeExt"
     [h "handle"; i4 "m"; i4 "n"; i4 "nnz"; p "csrVal"; p "csrRowPtr"; p "csrColInd"; h "info";
      p "pBufferSizeInBytes"] code].

Definition cusparse_58 : list aborting :=
  [aborts 1318 "cusparseCcsru2csr_bufferSizeExt"
     [h "handle"; i4 "m"; i4 "n"; i4 "nnz"; p "csrVal"; p "csrRowPtr"; p "csrColInd"; h "info";
      p "pBufferSizeInBytes"] code;
   aborts 1319 "cusparseZcsru2csr_bufferSizeExt"
     [h "handle"; i4 "m"; i4 "n"; i4 "nnz"; p "csrVal"; p "csrRowPtr"; p "csrColInd"; h "info";
      p "pBufferSizeInBytes"] code;
   aborts 1320 "cusparseScsru2csr"
     [h "handle"; i4 "m"; i4 "n"; i4 "nnz"; h "descrA"; p "csrVal"; p "csrRowPtr"; p "csrColInd"; h "info";
      p "pBuffer"] code;
   aborts 1321 "cusparseDcsru2csr"
     [h "handle"; i4 "m"; i4 "n"; i4 "nnz"; h "descrA"; p "csrVal"; p "csrRowPtr"; p "csrColInd"; h "info";
      p "pBuffer"] code;
   aborts 1322 "cusparseCcsru2csr"
     [h "handle"; i4 "m"; i4 "n"; i4 "nnz"; h "descrA"; p "csrVal"; p "csrRowPtr"; p "csrColInd"; h "info";
      p "pBuffer"] code;
   aborts 1323 "cusparseZcsru2csr"
     [h "handle"; i4 "m"; i4 "n"; i4 "nnz"; h "descrA"; p "csrVal"; p "csrRowPtr"; p "csrColInd"; h "info";
      p "pBuffer"] code;
   aborts 1324 "cusparseScsr2csru"
     [h "handle"; i4 "m"; i4 "n"; i4 "nnz"; h "descrA"; p "csrVal"; p "csrRowPtr"; p "csrColInd"; h "info";
      p "pBuffer"] code;
   aborts 1325 "cusparseDcsr2csru"
     [h "handle"; i4 "m"; i4 "n"; i4 "nnz"; h "descrA"; p "csrVal"; p "csrRowPtr"; p "csrColInd"; h "info";
      p "pBuffer"] code;
   aborts 1326 "cusparseCcsr2csru"
     [h "handle"; i4 "m"; i4 "n"; i4 "nnz"; h "descrA"; p "csrVal"; p "csrRowPtr"; p "csrColInd"; h "info";
      p "pBuffer"] code].

Definition cusparse_59 : list aborting :=
  [aborts 1327 "cusparseZcsr2csru"
     [h "handle"; i4 "m"; i4 "n"; i4 "nnz"; h "descrA"; p "csrVal"; p "csrRowPtr"; p "csrColInd"; h "info";
      p "pBuffer"] code].

Definition cusparse_60 : list aborting :=
  [aborts 1328 "cusparseHpruneDense2csr_bufferSizeExt"
     [h "handle"; i4 "m"; i4 "n"; p "A"; i4 "lda"; p "threshold"; h "descrC"; p "csrSortedValC";
      p "csrSortedRowPtrC"; p "csrSortedColIndC"; p "pBufferSizeInBytes"] code].

Definition cusparse_61 : list aborting :=
  [aborts 1329 "cusparseSpruneDense2csr_bufferSizeExt"
     [h "handle"; i4 "m"; i4 "n"; p "A"; i4 "lda"; p "threshold"; h "descrC"; p "csrSortedValC";
      p "csrSortedRowPtrC"; p "csrSortedColIndC"; p "pBufferSizeInBytes"] code;
   aborts 1330 "cusparseDpruneDense2csr_bufferSizeExt"
     [h "handle"; i4 "m"; i4 "n"; p "A"; i4 "lda"; p "threshold"; h "descrC"; p "csrSortedValC";
      p "csrSortedRowPtrC"; p "csrSortedColIndC"; p "pBufferSizeInBytes"] code].

Definition cusparse_62 : list aborting :=
  [aborts 1331 "cusparseHpruneDense2csrNnz"
     [h "handle"; i4 "m"; i4 "n"; p "A"; i4 "lda"; p "threshold"; h "descrC"; p "csrRowPtrC";
      p "nnzTotalDevHostPtr"; p "pBuffer"] code].

Definition cusparse_63 : list aborting :=
  [aborts 1332 "cusparseSpruneDense2csrNnz"
     [h "handle"; i4 "m"; i4 "n"; p "A"; i4 "lda"; p "threshold"; h "descrC"; p "csrRowPtrC";
      p "nnzTotalDevHostPtr"; p "pBuffer"] code;
   aborts 1333 "cusparseDpruneDense2csrNnz"
     [h "handle"; i4 "m"; i4 "n"; p "A"; i4 "lda"; p "threshold"; h "descrC"; p "csrSortedRowPtrC";
      p "nnzTotalDevHostPtr"; p "pBuffer"] code].

Definition cusparse_64 : list aborting :=
  [aborts 1334 "cusparseHpruneDense2csr"
     [h "handle"; i4 "m"; i4 "n"; p "A"; i4 "lda"; p "threshold"; h "descrC"; p "csrSortedValC";
      p "csrSortedRowPtrC"; p "csrSortedColIndC"; p "pBuffer"] code].

Definition cusparse_65 : list aborting :=
  [aborts 1335 "cusparseSpruneDense2csr"
     [h "handle"; i4 "m"; i4 "n"; p "A"; i4 "lda"; p "threshold"; h "descrC"; p "csrSortedValC";
      p "csrSortedRowPtrC"; p "csrSortedColIndC"; p "pBuffer"] code;
   aborts 1336 "cusparseDpruneDense2csr"
     [h "handle"; i4 "m"; i4 "n"; p "A"; i4 "lda"; p "threshold"; h "descrC"; p "csrSortedValC";
      p "csrSortedRowPtrC"; p "csrSortedColIndC"; p "pBuffer"] code].

Definition cusparse_66 : list aborting :=
  [aborts 1337 "cusparseHpruneCsr2csr_bufferSizeExt"
     [h "handle"; i4 "m"; i4 "n"; i4 "nnzA"; h "descrA"; p "csrSortedValA"; p "csrSortedRowPtrA";
      p "csrSortedColIndA"; p "threshold"; h "descrC"; p "csrSortedValC"; p "csrSortedRowPtrC";
      p "csrSortedColIndC"; p "pBufferSizeInBytes"] code].

Definition cusparse_67 : list aborting :=
  [aborts 1338 "cusparseSpruneCsr2csr_bufferSizeExt"
     [h "handle"; i4 "m"; i4 "n"; i4 "nnzA"; h "descrA"; p "csrSortedValA"; p "csrSortedRowPtrA";
      p "csrSortedColIndA"; p "threshold"; h "descrC"; p "csrSortedValC"; p "csrSortedRowPtrC";
      p "csrSortedColIndC"; p "pBufferSizeInBytes"] code;
   aborts 1339 "cusparseDpruneCsr2csr_bufferSizeExt"
     [h "handle"; i4 "m"; i4 "n"; i4 "nnzA"; h "descrA"; p "csrSortedValA"; p "csrSortedRowPtrA";
      p "csrSortedColIndA"; p "threshold"; h "descrC"; p "csrSortedValC"; p "csrSortedRowPtrC";
      p "csrSortedColIndC"; p "pBufferSizeInBytes"] code].

Definition cusparse_68 : list aborting :=
  [aborts 1340 "cusparseHpruneCsr2csrNnz"
     [h "handle"; i4 "m"; i4 "n"; i4 "nnzA"; h "descrA"; p "csrSortedValA"; p "csrSortedRowPtrA";
      p "csrSortedColIndA"; p "threshold"; h "descrC"; p "csrSortedRowPtrC"; p "nnzTotalDevHostPtr";
      p "pBuffer"] code].

Definition cusparse_69 : list aborting :=
  [aborts 1341 "cusparseSpruneCsr2csrNnz"
     [h "handle"; i4 "m"; i4 "n"; i4 "nnzA"; h "descrA"; p "csrSortedValA"; p "csrSortedRowPtrA";
      p "csrSortedColIndA"; p "threshold"; h "descrC"; p "csrSortedRowPtrC"; p "nnzTotalDevHostPtr";
      p "pBuffer"] code;
   aborts 1342 "cusparseDpruneCsr2csrNnz"
     [h "handle"; i4 "m"; i4 "n"; i4 "nnzA"; h "descrA"; p "csrSortedValA"; p "csrSortedRowPtrA";
      p "csrSortedColIndA"; p "threshold"; h "descrC"; p "csrSortedRowPtrC"; p "nnzTotalDevHostPtr";
      p "pBuffer"] code].

Definition cusparse_70 : list aborting :=
  [aborts 1343 "cusparseHpruneCsr2csr"
     [h "handle"; i4 "m"; i4 "n"; i4 "nnzA"; h "descrA"; p "csrSortedValA"; p "csrSortedRowPtrA";
      p "csrSortedColIndA"; p "threshold"; h "descrC"; p "csrSortedValC"; p "csrSortedRowPtrC";
      p "csrSortedColIndC"; p "pBuffer"] code].

Definition cusparse_71 : list aborting :=
  [aborts 1344 "cusparseSpruneCsr2csr"
     [h "handle"; i4 "m"; i4 "n"; i4 "nnzA"; h "descrA"; p "csrSortedValA"; p "csrSortedRowPtrA";
      p "csrSortedColIndA"; p "threshold"; h "descrC"; p "csrSortedValC"; p "csrSortedRowPtrC";
      p "csrSortedColIndC"; p "pBuffer"] code;
   aborts 1345 "cusparseDpruneCsr2csr"
     [h "handle"; i4 "m"; i4 "n"; i4 "nnzA"; h "descrA"; p "csrSortedValA"; p "csrSortedRowPtrA";
      p "csrSortedColIndA"; p "threshold"; h "descrC"; p "csrSortedValC"; p "csrSortedRowPtrC";
      p "csrSortedColIndC"; p "pBuffer"] code].

Definition cusparse_72 : list aborting :=
  [aborts 1346 "cusparseHpruneDense2csrByPercentage_bufferSizeExt"
     [h "handle"; i4 "m"; i4 "n"; p "A"; i4 "lda"; u4 "percentage"; h "descrC"; p "csrSortedValC";
      p "csrSortedRowPtrC"; p "csrSortedColIndC"; h "info"; p "pBufferSizeInBytes"] code].

Definition cusparse_73 : list aborting :=
  [aborts 1347 "cusparseSpruneDense2csrByPercentage_bufferSizeExt"
     [h "handle"; i4 "m"; i4 "n"; p "A"; i4 "lda"; u4 "percentage"; h "descrC"; p "csrSortedValC";
      p "csrSortedRowPtrC"; p "csrSortedColIndC"; h "info"; p "pBufferSizeInBytes"] code;
   aborts 1348 "cusparseDpruneDense2csrByPercentage_bufferSizeExt"
     [h "handle"; i4 "m"; i4 "n"; p "A"; i4 "lda"; u4 "percentage"; h "descrC"; p "csrSortedValC";
      p "csrSortedRowPtrC"; p "csrSortedColIndC"; h "info"; p "pBufferSizeInBytes"] code].

Definition cusparse_74 : list aborting :=
  [aborts 1349 "cusparseHpruneDense2csrNnzByPercentage"
     [h "handle"; i4 "m"; i4 "n"; p "A"; i4 "lda"; u4 "percentage"; h "descrC"; p "csrRowPtrC";
      p "nnzTotalDevHostPtr"; h "info"; p "pBuffer"] code].

Definition cusparse_75 : list aborting :=
  [aborts 1350 "cusparseSpruneDense2csrNnzByPercentage"
     [h "handle"; i4 "m"; i4 "n"; p "A"; i4 "lda"; u4 "percentage"; h "descrC"; p "csrRowPtrC";
      p "nnzTotalDevHostPtr"; h "info"; p "pBuffer"] code;
   aborts 1351 "cusparseDpruneDense2csrNnzByPercentage"
     [h "handle"; i4 "m"; i4 "n"; p "A"; i4 "lda"; u4 "percentage"; h "descrC"; p "csrRowPtrC";
      p "nnzTotalDevHostPtr"; h "info"; p "pBuffer"] code].

Definition cusparse_76 : list aborting :=
  [aborts 1352 "cusparseHpruneDense2csrByPercentage"
     [h "handle"; i4 "m"; i4 "n"; p "A"; i4 "lda"; u4 "percentage"; h "descrC"; p "csrSortedValC";
      p "csrSortedRowPtrC"; p "csrSortedColIndC"; h "info"; p "pBuffer"] code].

Definition cusparse_77 : list aborting :=
  [aborts 1353 "cusparseSpruneDense2csrByPercentage"
     [h "handle"; i4 "m"; i4 "n"; p "A"; i4 "lda"; u4 "percentage"; h "descrC"; p "csrSortedValC";
      p "csrSortedRowPtrC"; p "csrSortedColIndC"; h "info"; p "pBuffer"] code;
   aborts 1354 "cusparseDpruneDense2csrByPercentage"
     [h "handle"; i4 "m"; i4 "n"; p "A"; i4 "lda"; u4 "percentage"; h "descrC"; p "csrSortedValC";
      p "csrSortedRowPtrC"; p "csrSortedColIndC"; h "info"; p "pBuffer"] code].

Definition cusparse_78 : list aborting :=
  [aborts 1355 "cusparseHpruneCsr2csrByPercentage_bufferSizeExt"
     [h "handle"; i4 "m"; i4 "n"; i4 "nnzA"; h "descrA"; p "csrSortedValA"; p "csrSortedRowPtrA";
      p "csrSortedColIndA"; u4 "percentage"; h "descrC"; p "csrSortedValC"; p "csrSortedRowPtrC";
      p "csrSortedColIndC"; h "info"; p "pBufferSizeInBytes"] code].

Definition cusparse_79 : list aborting :=
  [aborts 1356 "cusparseSpruneCsr2csrByPercentage_bufferSizeExt"
     [h "handle"; i4 "m"; i4 "n"; i4 "nnzA"; h "descrA"; p "csrSortedValA"; p "csrSortedRowPtrA";
      p "csrSortedColIndA"; u4 "percentage"; h "descrC"; p "csrSortedValC"; p "csrSortedRowPtrC";
      p "csrSortedColIndC"; h "info"; p "pBufferSizeInBytes"] code;
   aborts 1357 "cusparseDpruneCsr2csrByPercentage_bufferSizeExt"
     [h "handle"; i4 "m"; i4 "n"; i4 "nnzA"; h "descrA"; p "csrSortedValA"; p "csrSortedRowPtrA";
      p "csrSortedColIndA"; u4 "percentage"; h "descrC"; p "csrSortedValC"; p "csrSortedRowPtrC";
      p "csrSortedColIndC"; h "info"; p "pBufferSizeInBytes"] code].

Definition cusparse_80 : list aborting :=
  [aborts 1358 "cusparseHpruneCsr2csrNnzByPercentage"
     [h "handle"; i4 "m"; i4 "n"; i4 "nnzA"; h "descrA"; p "csrSortedValA"; p "csrSortedRowPtrA";
      p "csrSortedColIndA"; u4 "percentage"; h "descrC"; p "csrSortedRowPtrC"; p "nnzTotalDevHostPtr";
      h "info"; p "pBuffer"] code].

Definition cusparse_81 : list aborting :=
  [aborts 1359 "cusparseSpruneCsr2csrNnzByPercentage"
     [h "handle"; i4 "m"; i4 "n"; i4 "nnzA"; h "descrA"; p "csrSortedValA"; p "csrSortedRowPtrA";
      p "csrSortedColIndA"; u4 "percentage"; h "descrC"; p "csrSortedRowPtrC"; p "nnzTotalDevHostPtr";
      h "info"; p "pBuffer"] code;
   aborts 1360 "cusparseDpruneCsr2csrNnzByPercentage"
     [h "handle"; i4 "m"; i4 "n"; i4 "nnzA"; h "descrA"; p "csrSortedValA"; p "csrSortedRowPtrA";
      p "csrSortedColIndA"; u4 "percentage"; h "descrC"; p "csrSortedRowPtrC"; p "nnzTotalDevHostPtr";
      h "info"; p "pBuffer"] code].

Definition cusparse_82 : list aborting :=
  [aborts 1361 "cusparseHpruneCsr2csrByPercentage"
     [h "handle"; i4 "m"; i4 "n"; i4 "nnzA"; h "descrA"; p "csrSortedValA"; p "csrSortedRowPtrA";
      p "csrSortedColIndA"; u4 "percentage"; h "descrC"; p "csrSortedValC"; p "csrSortedRowPtrC";
      p "csrSortedColIndC"; h "info"; p "pBuffer"] code].

Definition cusparse_83 : list aborting :=
  [aborts 1362 "cusparseSpruneCsr2csrByPercentage"
     [h "handle"; i4 "m"; i4 "n"; i4 "nnzA"; h "descrA"; p "csrSortedValA"; p "csrSortedRowPtrA";
      p "csrSortedColIndA"; u4 "percentage"; h "descrC"; p "csrSortedValC"; p "csrSortedRowPtrC";
      p "csrSortedColIndC"; h "info"; p "pBuffer"] code;
   aborts 1363 "cusparseDpruneCsr2csrByPercentage"
     [h "handle"; i4 "m"; i4 "n"; i4 "nnzA"; h "descrA"; p "csrSortedValA"; p "csrSortedRowPtrA";
      p "csrSortedColIndA"; u4 "percentage"; h "descrC"; p "csrSortedValC"; p "csrSortedRowPtrC";
      p "csrSortedColIndC"; h "info"; p "pBuffer"] code].

Definition cusparse_84 : list aborting :=
  [aborts 1364 "cusparseCsr2cscEx2"
     [h "handle"; i4 "m"; i4 "n"; i4 "nnz"; p "csrVal"; p "csrRowPtr"; p "csrColInd"; p "cscVal";
      p "cscColPtr"; p "cscRowInd"; u4 "valType"; u4 "copyValues"; u4 "idxBase"; u4 "alg"; p "buffer"] code;
   aborts 1365 "cusparseCsr2cscEx2_bufferSize"
     [h "handle"; i4 "m"; i4 "n"; i4 "nnz"; p "csrVal"; p "csrRowPtr"; p "csrColInd"; p "cscVal";
      p "cscColPtr"; p "cscRowInd"; u4 "valType"; u4 "copyValues"; u4 "idxBase"; u4 "alg"; p "bufferSize"] code].

Definition cusparse_85 : list aborting :=
  [aborts 1366 "cusparseCreateSpVec"
     [p "spVecDescr"; i8 "size"; i8 "nnz"; p "indices"; p "values"; u4 "idxType"; u4 "idxBase";
      u4 "valueType"] code;
   aborts 1367 "cusparseDestroySpVec" [h "spVecDescr"] code;
   aborts 1368 "cusparseSpVecGet"
     [h "spVecDescr"; p "size"; p "nnz"; p "indices"; p "values"; p "idxType"; p "idxBase"; p "valueType"] code;
   aborts 1369 "cusparseSpVecGetIndexBase" [h "spVecDescr"; p "idxBase"] code;
   aborts 1370 "cusparseSpVecGetValues" [h "spVecDescr"; p "values"] code;
   aborts 1371 "cusparseSpVecSetValues" [h "spVecDescr"; p "values"] code].

Definition cusparse_86 : list aborting :=
  [aborts 1372 "cusparseCreateDnVec" [p "dnVecDescr"; i8 "size"; p "values"; u4 "valueType"] code;
   aborts 1373 "cusparseDestroyDnVec" [h "dnVecDescr"] code;
   aborts 1374 "cusparseDnVecGet" [h "dnVecDescr"; p "size"; p "values"; p "valueType"] code;
   aborts 1375 "cusparseDnVecGetValues" [h "dnVecDescr"; p "values"] code;
   aborts 1376 "cusparseDnVecSetValues" [h "dnVecDescr"; p "values"] code].

Definition cusparse_87 : list aborting :=
  [aborts 1377 "cusparseCreateCoo"
     [p "spMatDescr"; i8 "rows"; i8 "cols"; i8 "nnz"; p "cooRowInd"; p "cooColInd"; p "cooValues";
      u4 "cooIdxType"; u4 "idxBase"; u4 "valueType"] code;
   aborts 1378 "cusparseCreateCsr"
     [p "spMatDescr"; i8 "rows"; i8 "cols"; i8 "nnz"; p "csrRowOffsets"; p "csrColInd"; p "csrValues";
      u4 "csrRowOffsetsType"; u4 "csrColIndType"; u4 "idxBase"; u4 "valueType"] code;
   aborts 1379 "cusparseCreateCooAoS"
     [p "spMatDescr"; i8 "rows"; i8 "cols"; i8 "nnz"; p "cooInd"; p "cooValues"; u4 "cooIdxType";
      u4 "idxBase"; u4 "valueType"] code;
   aborts 1380 "cusparseDestroySpMat" [h "spMatDescr"] code;
   aborts 1381 "cusparseCooGet"
     [h "spMatDescr"; p "rows"; p "cols"; p "nnz"; p "cooRowInd"; p "cooColInd"; p "cooValues";
      p "idxType"; p "idxBase"; p "valueType"] code;
   aborts 1382 "cusparseCooAoSGet"
     [h "spMatDescr"; p "rows"; p "cols"; p "nnz"; p "cooInd"; p "cooValues"; p "idxType"; p "idxBase";
      p "valueType"] code;
   aborts 1383 "cusparseCsrGet"
     [h "spMatDescr"; p "rows"; p "cols"; p "nnz"; p "csrRowOffsets"; p "csrColInd"; p "csrValues";
      p "csrRowOffsetsType"; p "csrColIndType"; p "idxBase"; p "valueType"] code;
   aborts 1384 "cusparseSpMatGetFormat" [h "spMatDescr"; p "format"] code;
   aborts 1385 "cusparseSpMatGetIndexBase" [h "spMatDescr"; p "idxBase"] code;
   aborts 1386 "cusparseSpMatGetValues" [h "spMatDescr"; p "values"] code;
   aborts 1387 "cusparseSpMatSetValues" [h "spMatDescr"; p "values"] code].

Definition cusparse_88 : list aborting :=
  [aborts 1388 "cusparseSpMatSetStridedBatch" [h "spMatDescr"; i4 "batchCount"] code;
   aborts 1389 "cusparseSpMatGetStridedBatch" [h "spMatDescr"; p "batchCount"] code].

Definition cusparse_89 : list aborting :=
  [aborts 1390 "cusparseCreateDnMat"
     [p "dnMatDescr"; i8 "rows"; i8 "cols"; i8 "ld"; p "values"; u4 "valueType"; u4 "order"] code;
   aborts 1391 "cusparseDestroyDnMat" [h "dnMatDescr"] code;
   aborts 1392 "cusparseDnMatGet"
     [h "dnMatDescr"; p "rows"; p "cols"; p "ld"; p "values"; p "type"; p "order"] code;
   aborts 1393 "cusparseDnMatGetValues" [h "dnMatDescr"; p "values"] code;
   aborts 1394 "cusparseDnMatSetValues" [h "dnMatDescr"; p "values"] code;
   aborts 1395 "cusparseDnMatSetStridedBatch" [h "dnMatDescr"; i4 "batchCount"; i8 "batchStride"] code;
   aborts 1396 "cusparseDnMatGetStridedBatch" [h "dnMatDescr"; p "batchCount"; p "batchStride"] code].

Definition cusparse_90 : list aborting :=
  [aborts 1397 "cusparseSpVV"
     [h "handle"; u4 "opX"; h "vecX"; h "vecY"; p "result"; u4 "computeType"; p "externalBuffer"] code;
   aborts 1398 "cusparseSpVV_bufferSize"
     [h "handle"; u4 "opX"; h "vecX"; h "vecY"; p "result"; u4 "computeType"; p "bufferSize"] code].

Definition cusparse_91 : list aborting :=
  [aborts 1399 "cusparseSpMV"
     [h "handle"; u4 "opA"; p "alpha"; h "matA"; h "vecX"; p "beta"; h "vecY"; u4 "computeType"; u4 "alg";
      p "externalBuffer"] code;
   aborts 1400 "cusparseSpMV_bufferSize"
     [h "handle"; u4 "opA"; p "alpha"; h "matA"; h "vecX"; p "beta"; h "vecY"; u4 "computeType"; u4 "alg";
      p "bufferSize"] code].

Definition cusparse_92 : list aborting :=
  [aborts 1401 "cusparseSpMM"
     [h "handle"; u4 "opA"; u4 "opB"; p "alpha"; h "matA"; h "matB"; p "beta"; h "matC"; u4 "computeType";
      u4 "alg"; p "externalBuffer"] code;
   aborts 1402 "cusparseSpMM_bufferSize"
     [h "handle"; u4 "opA"; u4 "opB"; p "alpha"; h "matA"; h "matB"; p "beta"; h "matC"; u4 "computeType";
      u4 "alg"; p "bufferSize"] code].

Definition cuda_1 : list aborting :=
  [aborts 1403 "cudaDeviceSetLimit" [u4 "limit"; u8 "value"] status;
   aborts 1404 "cudaDeviceGetLimit" [p "pValue"; u4 "limit"] status;
   aborts 1405 "cudaDeviceGetCacheConfig" [p "pCacheConfig"] status;
   aborts 1406 "cudaDeviceGetStreamPriorityRange" [p "leastPriority"; p "greatestPriority"] status;
   aborts 1407 "cudaDeviceSetCacheConfig" [u4 "cacheConfig"] status;
   aborts 1408 "cudaDeviceGetSharedMemConfig" [p "pConfig"] status;
   aborts 1409 "cudaDeviceSetSharedMemConfig" [u4 "config"] status;
   aborts 1410 "cudaDeviceGetByPCIBusId" [p "device"; p "pciBusId"] status;
   aborts 1411 "cudaDeviceGetPCIBusId" [p "pciBusId"; i4 "len"; i4 "device"] status].

Definition cuda_2 : list aborting :=
  [aborts 1413 "cudaDeviceGetP2PAttribute" [p "value"; u4 "attr"; i4 "srcDevice"; i4 "dstDevice"] status;
   aborts 1414 "cudaChooseDevice" [p "device"; p "prop"] status;
   aborts 1415 "cudaSetValidDevices" [p "device_arr"; i4 "len"] status;
   aborts 1416 "cudaSetDeviceFlags" [u4 "flags"] status;
   aborts 1417 "cudaGetDeviceFlags" [p "flags"] status;
   aborts 1418 "cudaStreamCreate" [p "pStream"] status].

Definition cuda_3 : list aborting :=
  [aborts 1420 "cudaStreamCreateWithPriority" [p "pStream"; u4 "flags"; i4 "priority"] status;
   aborts 1421 "cudaStreamGetPriority" [h "hStream"; p "priority"] status;
   aborts 1422 "cudaStreamGetFlags" [h "hStream"; p "flags"] status].

Definition cuda_4 : list aborting :=
  [aborts 1424 "cudaStreamWaitEvent" [h "stream"; h "event"; u4 "flags"] status].

Definition cuda_5 : list aborting :=
  [aborts 1427 "cudaStreamBeginCapture" [h "stream"; u4 "mode"] status;
   aborts 1428 "cudaThreadExchangeStreamCaptureMode" [p "mode"] status;
   aborts 1429 "cudaStreamEndCapture" [h "stream"; p "pGraph"] status;
   aborts 1430 "cudaStreamIsCapturing" [h "stream"; p "pCaptureStatus"] status;
   aborts 1431 "cudaStreamGetCaptureInfo" [h "stream"; p "pCaptureStatus"; p "pId"] status].

Definition cuda_6 : list aborting :=
  [aborts 1433 "cudaImportExternalMemory" [p "extMem_out"; p "memHandleDesc"] status;
   aborts 1434 "cudaExternalMemoryGetMappedBuffer" [p "devPtr"; h "extMem"; p "bufferDesc"] status;
   aborts 1435 "cudaExternalMemoryGetMappedMipmappedArray" [p "mipmap"; h "extMem"; p "mipmapDesc"] status;
   aborts 1436 "cudaDestroyExternalMemory" [h "extMem"] status;
   aborts 1437 "cudaImportExternalSemaphore" [p "extSem_out"; p "semHandleDesc"] status;
   aborts 1438 "cudaSignalExternalSemaphoresAsync"
     [p "extSemArray"; p "paramsArray"; u4 "numExtSems"; h "stream"] status;
   aborts 1439 "cudaWaitExternalSemaphoresAsync"
     [p "extSemArray"; p "paramsArray"; u4 "numExtSems"; h "stream"] status;
   aborts 1440 "cudaDestroyExternalSemaphore" [h "extSem"] status;
   aborts 1441 "cudaLaunchCooperativeKernel"
     [p "func"; by_value 12 4 "gridDim"; by_value 12 4 "blockDim"; p "args"; u8 "sharedMem"; h "stream"] status;
   aborts 1442 "cudaLaunchCooperativeKernelMultiDevice"
     [p "launchParamsList"; u4 "numDevices"; u4 "flags"] status;
   aborts 1443 "cudaFuncSetCacheConfig" [p "func"; u4 "cacheConfig"] status;
   aborts 1444 "cudaFuncSetSharedMemConfig" [p "func"; u4 "config"] status].

Definition cuda_7 : list aborting :=
  [aborts 1446 "cudaFuncSetAttribute" [p "func"; u4 "attr"; i4 "value"] status;
   aborts 1447 "cudaLaunchHostFunc" [h "stream"; u8 "fn"; p "userData"] status].

Definition cuda_8 : list aborting :=
  [aborts 1450 "cudaMallocManaged" [p "devPtr"; u8 "size"; u4 "flags"] status;
   aborts 1451 "cudaMallocPitch" [p "devPtr"; p "pitch"; u8 "width"; u8 "height"] status;
   aborts 1452 "cudaFreeArray" [h "array"] status;
   aborts 1453 "cudaFreeMipmappedArray" [h "mipmappedArray"] status;
   aborts 1454 "cudaHostAlloc" [p "pHost"; u8 "size"; u4 "flags"] status;
   aborts 1455 "cudaHostRegister" [p "ptr"; u8 "size"; u4 "flags"] status;
   aborts 1456 "cudaHostUnregister" [p "ptr"] status;
   aborts 1457 "cudaHostGetDevicePointer" [p "pDevice"; p "pHost"; u4 "flags"] status;
   aborts 1458 "cudaHostGetFlags" [p "pFlags"; p "pHost"] status;
   aborts 1459 "cudaMalloc3D" [p "pitchedDevPtr"; by_value 24 8 "extent"] status;
   aborts 1460 "cudaMalloc3DArray" [p "array"; p "desc"; by_value 24 8 "extent"; u4 "flags"] status;
   aborts 1461 "cudaMallocMipmappedArray"
     [p "mipmappedArray"; p "desc"; by_value 24 8 "extent"; u4 "numLevels"; u4 "flags"] status;
   aborts 1462 "cudaGetMipmappedArrayLevel" [p "levelArray"; h "mipmappedArray"; u4 "level"] status;
   aborts 1463 "cudaMemcpy3D" [p "p"] status;
   aborts 1464 "cudaMemcpy3DPeer" [p "p"] status;
   aborts 1465 "cudaMemcpy3DAsync" [p "p"; h "stream"] status;
   aborts 1466 "cudaMemcpy3DPeerAsync" [p "p"; h "stream"] status;
   aborts 1467 "cudaArrayGetInfo" [p "desc"; p "extent"; p "flags"; h "array"] status;
   aborts 1468 "cudaMemcpyPeer" [p "dst"; i4 "dstDevice"; p "src"; i4 "srcDevice"; u8 "count"] status;
   aborts 1469 "cudaMemcpy2D"
     [p "dst"; u8 "dpitch"; p "src"; u8 "spitch"; u8 "width"; u8 "height"; u4 "kind"] status;
   aborts 1470 "cudaMemcpy2DToArray"
     [h "dst"; u8 "wOffset"; u8 "hOffset"; p "src"; u8 "spitch"; u8 "width"; u8 "height"; u4 "kind"] status;
   aborts 1471 "cudaMemcpy2DFromArray"
     [p "dst"; u8 "dpitch"; h "src"; u8 "wOffset"; u8 "hOffset"; u8 "width"; u8 "height"; u4 "kind"] status;
   aborts 1472 "cudaMemcpy2DArrayToArray"
     [h "dst"; u8 "wOffsetDst"; u8 "hOffsetDst"; h "src"; u8 "wOffsetSrc"; u8 "hOffsetSrc"; u8 "width";
      u8 "height"; u4 "kind"] status;
   aborts 1473 "cudaMemcpyFromSymbol" [p "dst"; p "symbol"; u8 "count"; u8 "offset"; u4 "kind"] status;
   aborts 1474 "cudaMemcpyPeerAsync"
     [p "dst"; i4 "dstDevice"; p "src"; i4 "srcDevice"; u8 "count"; h "stream"] status].

Definition cuda_9 : list aborting :=
  [aborts 1475 "cudaMemcpy2DAsync"
     [p "dst"; u8 "dpitch"; p "src"; u8 "spitch"; u8 "width"; u8 "height"; u4 "kind"; h "stream"] status;
   aborts 1476 "cudaMemcpy2DToArrayAsync"
     [h "dst"; u8 "wOffset"; u8 "hOffset"; p "src"; u8 "spitch"; u8 "width"; u8 "height"; u4 "kind";
      h "stream"] status;
   aborts 1477 "cudaMemcpy2DFromArrayAsync"
     [p "dst"; u8 "dpitch"; h "src"; u8 "wOffset"; u8 "hOffset"; u8 "width"; u8 "height"; u4 "kind";
      h "stream"] status;
   aborts 1478 "cudaMemcpyToSymbolAsync"
     [p "symbol"; p "src"; u8 "count"; u8 "offset"; u4 "kind"; h "stream"] status;
   aborts 1479 "cudaMemcpyFromSymbolAsync"
     [p "dst"; p "symbol"; u8 "count"; u8 "offset"; u4 "kind"; h "stream"] status;
   aborts 1480 "cudaMemset2D" [p "devPtr"; u8 "pitch"; i4 "value"; u8 "width"; u8 "height"] status;
   aborts 1481 "cudaMemset3D" [by_value 32 8 "pitchedDevPtr"; i4 "value"; by_value 24 8 "extent"] status;
   aborts 1482 "cudaMemsetAsync" [p "devPtr"; i4 "value"; u8 "count"; h "stream"] status;
   aborts 1483 "cudaMemset2DAsync"
     [p "devPtr"; u8 "pitch"; i4 "value"; u8 "width"; u8 "height"; h "stream"] status;
   aborts 1484 "cudaMemset3DAsync"
     [by_value 32 8 "pitchedDevPtr"; i4 "value"; by_value 24 8 "extent"; h "stream"] status;
   aborts 1485 "cudaGetSymbolAddress" [p "devPtr"; p "symbol"] status;
   aborts 1486 "cudaGetSymbolSize" [p "size"; p "symbol"] status;
   aborts 1487 "cudaMemPrefetchAsync" [p "devPtr"; u8 "count"; i4 "dstDevice"; h "stream"] status;
   aborts 1488 "cudaMemAdvise" [p "devPtr"; u8 "count"; u4 "advice"; i4 "device"] status;
   aborts 1489 "cudaMemRangeGetAttribute"
     [p "data"; u8 "dataSize"; u4 "attribute"; p "devPtr"; u8 "count"] status;
   aborts 1490 "cudaMemRangeGetAttributes"
     [p "data"; p "dataSizes"; p "attributes"; u8 "numAttributes"; p "devPtr"; u8 "count"] status;
   aborts 1491 "cudaDeviceCanAccessPeer" [p "canAccessPeer"; i4 "device"; i4 "peerDevice"] status;
   aborts 1492 "cudaDeviceEnablePeerAccess" [i4 "peerDevice"; u4 "flags"] status;
   aborts 1493 "cudaDeviceDisablePeerAccess" [i4 "peerDevice"] status;
   aborts 1494 "cudaGraphicsUnregisterResource" [h "resource"] status;
   aborts 1495 "cudaGraphicsResourceSetMapFlags" [h "resource"; u4 "flags"] status;
   aborts 1496 "cudaGraphicsMapResources" [i4 "count"; p "resources"; h "stream"] status;
   aborts 1497 "cudaGraphicsUnmapResources" [i4 "count"; p "resources"; h "stream"] status;
   aborts 1498 "cudaGraphicsResourceGetMappedPointer" [p "devPtr"; p "size"; h "resource"] status;
   aborts 1499 "cudaGraphicsSubResourceGetMappedArray"
     [p "array"; h "resource"; u4 "arrayIndex"; u4 "mipLevel"] status].

Definition cuda_10 : list aborting :=
  [aborts 1500 "cudaGraphicsResourceGetMappedMipmappedArray" [p "mipmappedArray"; h "resource"] status;
   aborts 1501 "cudaBindTexture" [p "offset"; p "texref"; p "devPtr"; p "desc"; u8 "size"] status;
   aborts 1502 "cudaBindTexture2D"
     [p "offset"; p "texref"; p "devPtr"; p "desc"; u8 "width"; u8 "height"; u8 "pitch"] status;
   aborts 1503 "cudaBindTextureToArray" [p "texref"; h "array"; p "desc"] status;
   aborts 1504 "cudaBindTextureToMipmappedArray" [p "texref"; h "mipmappedArray"; p "desc"] status;
   aborts 1505 "cudaUnbindTexture" [p "texref"] status;
   aborts 1506 "cudaGetTextureAlignmentOffset" [p "offset"; p "texref"] status;
   aborts 1507 "cudaGetTextureReference" [p "texref"; p "symbol"] status;
   aborts 1508 "cudaBindSurfaceToArray" [p "surfref"; h "array"; p "desc"] status;
   aborts 1509 "cudaGetSurfaceReference" [p "surfref"; p "symbol"] status;
   aborts 1510 "cudaGetChannelDesc" [p "desc"; h "array"] status;
   aborts 1511 "cudaCreateChannelDesc"
     [i4 "x"; i4 "y"; i4 "z"; i4 "w"; u4 "f"] (Some (struct_value 20 4), None);
   aborts 1512 "cudaCreateTextureObject"
     [p "pTexObject"; p "pResDesc"; p "pTexDesc"; p "pResViewDesc"] status;
   aborts 1513 "cudaDestroyTextureObject" [u8 "texObject"] status;
   aborts 1514 "cudaGetTextureObjectResourceDesc" [p "pResDesc"; u8 "texObject"] status;
   aborts 1515 "cudaGetTextureObjectTextureDesc" [p "pTexDesc"; u8 "texObject"] status;
   aborts 1516 "cudaGetTextureObjectResourceViewDesc" [p "pResViewDesc"; u8 "texObject"] status;
   aborts 1517 "cudaCreateSurfaceObject" [p "pSurfObject"; p "pResDesc"] status;
   aborts 1518 "cudaDestroySurfaceObject" [u8 "surfObject"] status;
   aborts 1519 "cudaGetSurfaceObjectResourceDesc" [p "pResDesc"; u8 "surfObject"] status;
   aborts 1520 "cudaDriverGetVersion" [p "driverVersion"] status;
   aborts 1521 "cudaRuntimeGetVersion" [p "runtimeVersion"] status;
   aborts 1522 "cudaGraphCreate" [p "pGraph"; u4 "flags"] status;
   aborts 1523 "cudaGraphAddKernelNode"
     [p "pGraphNode"; h "graph"; p "pDependencies"; u8 "numDependencies"; p "pNodeParams"] status;
   aborts 1524 "cudaGraphKernelNodeGetParams" [h "node"; p "pNodeParams"] status].

Definition cuda_11 : list aborting :=
  [aborts 1525 "cudaGraphKernelNodeSetParams" [h "node"; p "pNodeParams"] status;
   aborts 1526 "cudaGraphAddMemcpyNode"
     [p "pGraphNode"; h "graph"; p "pDependencies"; u8 "numDependencies"; p "pCopyParams"] status;
   aborts 1527 "cudaGraphMemcpyNodeGetParams" [h "node"; p "pNodeParams"] status;
   aborts 1528 "cudaGraphMemcpyNodeSetParams" [h "node"; p "pNodeParams"] status;
   aborts 1529 "cudaGraphAddMemsetNode"
     [p "pGraphNode"; h "graph"; p "pDependencies"; u8 "numDependencies"; p "pMemsetParams"] status;
   aborts 1530 "cudaGraphMemsetNodeGetParams" [h "node"; p "pNodeParams"] status;
   aborts 1531 "cudaGraphMemsetNodeSetParams" [h "node"; p "pNodeParams"] status;
   aborts 1532 "cudaGraphAddHostNode"
     [p "pGraphNode"; h "graph"; p "pDependencies"; u8 "numDependencies"; p "pNodeParams"] status;
   aborts 1533 "cudaGraphHostNodeGetParams" [h "node"; p "pNodeParams"] status;
   aborts 1534 "cudaGraphHostNodeSetParams" [h "node"; p "pNodeParams"] status;
   aborts 1535 "cudaGraphAddChildGraphNode"
     [p "pGraphNode"; h "graph"; p "pDependencies"; u8 "numDependencies"; h "childGraph"] status;
   aborts 1536 "cudaGraphChildGraphNodeGetGraph" [h "node"; p "pGraph"] status;
   aborts 1537 "cudaGraphAddEmptyNode"
     [p "pGraphNode"; h "graph"; p "pDependencies"; u8 "numDependencies"] status;
   aborts 1538 "cudaGraphClone" [p "pGraphClone"; h "originalGraph"] status;
   aborts 1539 "cudaGraphNodeFindInClone" [p "pNode"; h "originalNode"; h "clonedGraph"] status;
   aborts 1540 "cudaGraphNodeGetType" [h "node"; p "pType"] status;
   aborts 1541 "cudaGraphGetNodes" [h "graph"; p "nodes"; p "numNodes"] status;
   aborts 1542 "cudaGraphGetRootNodes" [h "graph"; p "pRootNodes"; p "pNumRootNodes"] status;
   aborts 1543 "cudaGraphGetEdges" [h "graph"; p "from"; p "to"; p "numEdges"] status;
   aborts 1544 "cudaGraphNodeGetDependencies" [h "node"; p "pDependencies"; p "pNumDependencies"] status;
   aborts 1545 "cudaGraphNodeGetDependentNodes"
     [h "node"; p "pDependentNodes"; p "pNumDependentNodes"] status;
   aborts 1546 "cudaGraphAddDependencies" [h "graph"; p "from"; p "to"; u8 "numDependencies"] status;
   aborts 1547 "cudaGraphRemoveDependencies" [h "graph"; p "from"; p "to"; u8 "numDependencies"] status;
   aborts 1548 "cudaGraphDestroyNode" [h "node"] status;
   aborts 1549 "cudaGraphInstantiate"
     [p "pGraphExec"; h "graph"; p "pErrorNode"; p "pLogBuffer"; u8 "bufferSize"] status].

Definition cuda_12 : list aborting :=
  [aborts 1550 "cudaGraphExecKernelNodeSetParams" [h "hGraphExec"; h "node"; p "pNodeParams"] status;
   aborts 1551 "cudaGraphLaunch" [h "graphExec"; h "stream"] status;
   aborts 1552 "cudaGraphExecDestroy" [h "graphExec"] status;
   aborts 1553 "cudaGraphDestroy" [h "graph"] status].

Definition cublas_31 : list aborting :=
  [aborts 1554 "cublasHgemmBatched"
     [h "handle"; u4 "transa"; u4 "transb"; i4 "m"; i4 "n"; i4 "k"; p "alpha"; p "Aarray"; i4 "lda";
      p "Barray"; i4 "ldb"; p "beta"; p "Carray"; i4 "ldc"; i4 "batchCount"] status;
   aborts 1555 "cublasHgemmStridedBatched"
     [h "handle"; u4 "transa"; u4 "transb"; i4 "m"; i4 "n"; i4 "k"; p "alpha"; p "A"; i4 "lda";
      i8 "strideA"; p "B"; i4 "ldb"; i8 "strideB"; p "beta"; p "C"; i4 "ldc"; i8 "strideC"; i4 "batchCount"] status].

Definition onnx_opt_aborting : list aborting := concat
  [cu_1; cublas_1; cublas_2; cublas_3; cublas_4; cublas_5; cublas_6; cublas_7; cublas_8; cublas_9;
   cublas_10; cublas_11; cublas_12; cublas_13; cublas_14; cublas_15; cublas_16; cublas_17; cublas_18;
   cublas_19; cublas_20; cublas_21; cublas_22; cublas_23; cublas_24; cublas_25; cublas_26; cublas_27;
   cublas_28; cublas_29; cublas_30; cudnn_1; cudnn_2; cudnn_3; cudnn_4; cudnn_5; cudnn_6; cudnn_7; cudnn_8;
   cudnn_9; cudnn_10; cudnn_11; cudnn_12; cudnn_13; cudnn_14; cudnn_15; cudnn_16; cudnn_17; cudnn_18;
   cudnn_19; cudnn_20; cudnn_21; cudnn_22; cudnn_23; cudnn_24; cudnn_25; cudnn_26; cudnn_27; cudnn_28;
   cudnn_29; cudnn_30; cudnn_31; cudnn_32; curand_1; curand_2; curand_3; curand_4; curand_5; cufft_1;
   cufft_2; cufft_3; cusolver_1; cusolver_2; cusolver_3; cusolver_4; cusolver_5; cusolver_6; cusolver_7;
   cusolver_8; cusolver_9; cusolver_10; cusolver_11; cusolver_12; cusolver_13; cusolver_14; cusolver_15;
   cusolver_16; cusolver_17; cusolver_18; cusolver_19; cusolver_20; cusolver_21; cusolver_22; cusolver_23;
   cusolver_24; cusolver_25; cusolver_26; cusolver_27; cusolver_28; cusolver_29; cusolver_30; cusolver_31;
   cusolver_32; cusolver_33; cusolver_34; cusolver_35; cusolver_36; cusolver_37; cusolver_38; cusolver_39;
   cusolver_40; cusolver_41; cusolver_42; cusolver_43; cusolver_44; cusolver_45; cusolver_46; cusolver_47;
   cusolver_48; cusolver_49; cusolver_50; cusolver_51; cusolver_52; cusolver_53; cusolver_54; cusolver_55;
   cusolver_56; cusolver_57; cusparse_1; cusparse_2; cusparse_3; cusparse_4; cusparse_5; cusparse_6;
   cusparse_7; cusparse_8; cusparse_9; cusparse_10; cusparse_11; cusparse_12; cusparse_13; cusparse_14;
   cusparse_15; cusparse_16; cusparse_17; cusparse_18; cusparse_19; cusparse_20; cusparse_21; cusparse_22;
   cusparse_23; cusparse_24; cusparse_25; cusparse_26; cusparse_27; cusparse_28; cusparse_29; cusparse_30;
   cusparse_31; cusparse_32; cusparse_33; cusparse_34; cusparse_35; cusparse_36; cusparse_37; cusparse_38;
   cusparse_39; cusparse_40; cusparse_41; cusparse_42; cusparse_43; cusparse_44; cusparse_45; cusparse_46;
   cusparse_47; cusparse_48; cusparse_49; cusparse_50; cusparse_51; cusparse_52; cusparse_53; cusparse_54;
   cusparse_55; cusparse_56; cusparse_57; cusparse_58; cusparse_59; cusparse_60; cusparse_61; cusparse_62;
   cusparse_63; cusparse_64; cusparse_65; cusparse_66; cusparse_67; cusparse_68; cusparse_69; cusparse_70;
   cusparse_71; cusparse_72; cusparse_73; cusparse_74; cusparse_75; cusparse_76; cusparse_77; cusparse_78;
   cusparse_79; cusparse_80; cusparse_81; cusparse_82; cusparse_83; cusparse_84; cusparse_85; cusparse_86;
   cusparse_87; cusparse_88; cusparse_89; cusparse_90; cusparse_91; cusparse_92; cuda_1; cuda_2; cuda_3;
   cuda_4; cuda_5; cuda_6; cuda_7; cuda_8; cuda_9; cuda_10; cuda_11; cuda_12; cublas_31].

(** The numbers of the remaining functions, which are implemented with annotations that the tables do
    not have. *)
Definition onnx_opt_others : list Z :=
  [10; 11; 14; 20; 34; 36; 38; 39; 46; 64; 65; 66; 80; 342; 343; 348; 350; 358; 415; 447; 879; 880; 1412;
   1445; 1448; 1449; 1556].
