(* ===== verification/AbortOnnxDump.v ===== *)
(** * Functions that are not implemented for CUDA under ONNX Runtime, when kernels are dumped
      (cava/samples/onnxruntime/onnx_dump.c)

    The declarations whose body prints that the function is not implemented and aborts: the number
    of the function in the API, its name, its arguments and its result.  A table has declarations
    that follow one another in the source. *)

From S2P Require Import Prelude Cava SpecCheck Aborting.
Import Signature.
Local Open Scope Z_scope.

Definition cu_1 : list aborting :=
  [aborts 76 "cuOccupancyMaxActiveBlocksPerMultiprocessor"
     [arg_out "numBlocks" (buffer (EInt 1) (scalar 4 true)) []; h "func"; i4 "blockSize";
      u8 "dynamicSMemSize"] status;
   aborts 77 "cuOccupancyMaxActiveBlocksPerMultiprocessorWithFlags"
     [arg_out "numBlocks" (buffer (EInt 1) (scalar 4 true)) []; h "func"; i4 "blockSize";
      u8 "dynamicSMemSize"; u4 "flags"] status].

Definition cublas_1 : list aborting :=
  [aborts 79 "cublasGetAtomicsMode" [h "handle"; p "mode"] status;
   aborts 80 "cublasSetAtomicsMode" [h "handle"; u4 "mode"] status;
   aborts 81 "cublasLoggerConfigure"
     [i4 "logIsOn"; i4 "logToStdOut"; i4 "logToStdErr"; p "logFileName"] status;
   aborts 82 "cublasSetLoggerCallback" [u8 "userCallback"] status;
   aborts 83 "cublasGetLoggerCallback" [p "userCallback"] status;
   aborts 84 "cublasSetVector" [i4 "n"; i4 "elemSize"; p "x"; i4 "incx"; p "devicePtr"; i4 "incy"] status;
   aborts 85 "cublasGetVector" [i4 "n"; i4 "elemSize"; p "x"; i4 "incx"; p "y"; i4 "incy"] status;
   aborts 86 "cublasGetMathMode" [h "handle"; p "mode"] status;
   aborts 87 "cublasSetMathMode" [h "handle"; u4 "mode"] status].

Definition cublas_2 : list aborting :=
  [aborts 90 "cublasSetMatrixAsync"
     [i4 "rows"; i4 "cols"; i4 "elemSize"; p "A"; i4 "lda"; p "B"; i4 "ldb"; h "stream"] status;
   aborts 91 "cublasGetMatrixAsync"
     [i4 "rows"; i4 "cols"; i4 "elemSize"; p "A"; i4 "lda"; p "B"; i4 "ldb"; h "stream"] status].

Definition cublas_3 : list aborting :=
  [aborts 92 "cublasNrm2Ex"
     [h "handle"; i4 "n"; p "x"; u4 "xType"; i4 "incx"; p "result"; u4 "resultType"; u4 "executionType"] status;
   aborts 93 "cublasSnrm2_v2" [h "handle"; i4 "n"; p "x"; i4 "incx"; p "result"] status;
   aborts 94 "cublasDnrm2_v2" [h "handle"; i4 "n"; p "x"; i4 "incx"; p "result"] status;
   aborts 95 "cublasScnrm2_v2" [h "handle"; i4 "n"; p "x"; i4 "incx"; p "result"] status;
   aborts 96 "cublasDznrm2_v2" [h "handle"; i4 "n"; p "x"; i4 "incx"; p "result"] status;
   aborts 97 "cublasDotEx"
     [h "handle"; i4 "n"; p "x"; u4 "xType"; i4 "incx"; p "y"; u4 "yType"; i4 "incy"; p "result";
      u4 "resultType"; u4 "executionType"] status;
   aborts 98 "cublasDotcEx"
     [h "handle"; i4 "n"; p "x"; u4 "xType"; i4 "incx"; p "y"; u4 "yType"; i4 "incy"; p "result";
      u4 "resultType"; u4 "executionType"] status;
   aborts 99 "cublasSdot_v2" [h "handle"; i4 "n"; p "x"; i4 "incx"; p "y"; i4 "incy"; p "result"] status;
   aborts 100 "cublasDdot_v2" [h "handle"; i4 "n"; p "x"; i4 "incx"; p "y"; i4 "incy"; p "result"] status;
   aborts 101 "cublasCdotu_v2" [h "handle"; i4 "n"; p "x"; i4 "incx"; p "y"; i4 "incy"; p "result"] status;
   aborts 102 "cublasCdotc_v2" [h "handle"; i4 "n"; p "x"; i4 "incx"; p "y"; i4 "incy"; p "result"] status;
   aborts 103 "cublasZdotu_v2" [h "handle"; i4 "n"; p "x"; i4 "incx"; p "y"; i4 "incy"; p "result"] status].

Definition cublas_4 : list aborting :=
  [aborts 104 "cublasZdotc_v2" [h "handle"; i4 "n"; p "x"; i4 "incx"; p "y"; i4 "incy"; p "result"] status;
   aborts 105 "cublasScalEx"
     [h "handle"; i4 "n"; p "alpha"; u4 "alphaType"; p "x"; u4 "xType"; i4 "incx"; u4 "executionType"] status;
   aborts 106 "cublasDscal_v2" [h "handle"; i4 "n"; p "alpha"; p "x"; i4 "incx"] status;
   aborts 107 "cublasCscal_v2" [h "handle"; i4 "n"; p "alpha"; p "x"; i4 "incx"] status;
   aborts 108 "cublasCsscal_v2" [h "handle"; i4 "n"; p "alpha"; p "x"; i4 "incx"] status;
   aborts 109 "cublasZscal_v2" [h "handle"; i4 "n"; p "alpha"; p "x"; i4 "incx"] status;
   aborts 110 "cublasZdscal_v2" [h "handle"; i4 "n"; p "alpha"; p "x"; i4 "incx"] status;
   aborts 111 "cublasAxpyEx"
     [h "handle"; i4 "n"; p "alpha"; u4 "alphaType"; p "x"; u4 "xType"; i4 "incx"; p "y"; u4 "yType";
      i4 "incy"; u4 "executiontype"] status;
   aborts 112 "cublasSaxpy_v2" [h "handle"; i4 "n"; p "alpha"; p "x"; i4 "incx"; p "y"; i4 "incy"] status;
   aborts 113 "cublasDaxpy_v2" [h "handle"; i4 "n"; p "alpha"; p "x"; i4 "incx"; p "y"; i4 "incy"] status;
   aborts 114 "cublasCaxpy_v2" [h "handle"; i4 "n"; p "alpha"; p "x"; i4 "incx"; p "y"; i4 "incy"] status;
   aborts 115 "cublasZaxpy_v2" [h "handle"; i4 "n"; p "alpha"; p "x"; i4 "incx"; p "y"; i4 "incy"] status].

Definition cublas_5 : list aborting :=
  [aborts 116 "cublasCopyEx"
     [h "handle"; i4 "n"; p "x"; u4 "xType"; i4 "incx"; p "y"; u4 "yType"; i4 "incy"] status;
   aborts 117 "cublasScopy_v2" [h "handle"; i4 "n"; p "x"; i4 "incx"; p "y"; i4 "incy"] status;
   aborts 118 "cublasDcopy_v2" [h "handle"; i4 "n"; p "x"; i4 "incx"; p "y"; i4 "incy"] status;
   aborts 119 "cublasCcopy_v2" [h "handle"; i4 "n"; p "x"; i4 "incx"; p "y"; i4 "incy"] status;
   aborts 120 "cublasZcopy_v2" [h "handle"; i4 "n"; p "x"; i4 "incx"; p "y"; i4 "incy"] status;
   aborts 121 "cublasSswap_v2" [h "handle"; i4 "n"; p "x"; i4 "incx"; p "y"; i4 "incy"] status;
   aborts 122 "cublasDswap_v2" [h "handle"; i4 "n"; p "x"; i4 "incx"; p "y"; i4 "incy"] status;
   aborts 123 "cublasCswap_v2" [h "handle"; i4 "n"; p "x"; i4 "incx"; p "y"; i4 "incy"] status;
   aborts 124 "cublasZswap_v2" [h "handle"; i4 "n"; p "x"; i4 "incx"; p "y"; i4 "incy"] status;
   aborts 125 "cublasSwapEx"
     [h "handle"; i4 "n"; p "x"; u4 "xType"; i4 "incx"; p "y"; u4 "yType"; i4 "incy"] status;
   aborts 126 "cublasIsamax_v2" [h "handle"; i4 "n"; p "x"; i4 "incx"; p "result"] status;
   aborts 127 "cublasIdamax_v2" [h "handle"; i4 "n"; p "x"; i4 "incx"; p "result"] status;
   aborts 128 "cublasIcamax_v2" [h "handle"; i4 "n"; p "x"; i4 "incx"; p "result"] status].

Definition cublas_6 : list aborting :=
  [aborts 129 "cublasIzamax_v2" [h "handle"; i4 "n"; p "x"; i4 "incx"; p "result"] status;
   aborts 130 "cublasIamaxEx" [h "handle"; i4 "n"; p "x"; u4 "xType"; i4 "incx"; p "result"] status;
   aborts 131 "cublasIsamin_v2" [h "handle"; i4 "n"; p "x"; i4 "incx"; p "result"] status;
   aborts 132 "cublasIdamin_v2" [h "handle"; i4 "n"; p "x"; i4 "incx"; p "result"] status;
   aborts 133 "cublasIcamin_v2" [h "handle"; i4 "n"; p "x"; i4 "incx"; p "result"] status;
   aborts 134 "cublasIzamin_v2" [h "handle"; i4 "n"; p "x"; i4 "incx"; p "result"] status;
   aborts 135 "cublasIaminEx" [h "handle"; i4 "n"; p "x"; u4 "xType"; i4 "incx"; p "result"] status;
   aborts 136 "cublasAsumEx"
     [h "handle"; i4 "n"; p "x"; u4 "xType"; i4 "incx"; p "result"; u4 "resultType"; u4 "executiontype"] status;
   aborts 137 "cublasSasum_v2" [h "handle"; i4 "n"; p "x"; i4 "incx"; p "result"] status;
   aborts 138 "cublasDasum_v2" [h "handle"; i4 "n"; p "x"; i4 "incx"; p "result"] status;
   aborts 139 "cublasScasum_v2" [h "handle"; i4 "n"; p "x"; i4 "incx"; p "result"] status;
   aborts 140 "cublasDzasum_v2" [h "handle"; i4 "n"; p "x"; i4 "incx"; p "result"] status;
   aborts 141 "cublasSrot_v2" [h "handle"; i4 "n"; p "x"; i4 "incx"; p "y"; i4 "incy"; p "c"; p "s"] status].

Definition cublas_7 : list aborting :=
  [aborts 142 "cublasDrot_v2" [h "handle"; i4 "n"; p "x"; i4 "incx"; p "y"; i4 "incy"; p "c"; p "s"] status;
   aborts 143 "cublasCrot_v2" [h "handle"; i4 "n"; p "x"; i4 "incx"; p "y"; i4 "incy"; p "c"; p "s"] status;
   aborts 144 "cublasCsrot_v2"
     [h "handle"; i4 "n"; p "x"; i4 "incx"; p "y"; i4 "incy"; p "c"; p "s"] status;
   aborts 145 "cublasZrot_v2" [h "handle"; i4 "n"; p "x"; i4 "incx"; p "y"; i4 "incy"; p "c"; p "s"] status;
   aborts 146 "cublasZdrot_v2"
     [h "handle"; i4 "n"; p "x"; i4 "incx"; p "y"; i4 "incy"; p "c"; p "s"] status;
   aborts 147 "cublasRotEx"
     [h "handle"; i4 "n"; p "x"; u4 "xType"; i4 "incx"; p "y"; u4 "yType"; i4 "incy"; p "c"; p "s";
      u4 "csType"; u4 "executiontype"] status;
   aborts 148 "cublasSrotg_v2" [h "handle"; p "a"; p "b"; p "c"; p "s"] status;
   aborts 149 "cublasDrotg_v2" [h "handle"; p "a"; p "b"; p "c"; p "s"] status;
   aborts 150 "cublasCrotg_v2" [h "handle"; p "a"; p "b"; p "c"; p "s"] status;
   aborts 151 "cublasZrotg_v2" [h "handle"; p "a"; p "b"; p "c"; p "s"] status;
   aborts 152 "cublasRotgEx"
     [h "handle"; p "a"; p "b"; u4 "abType"; p "c"; p "s"; u4 "csType"; u4 "executiontype"] status;
   aborts 153 "cublasSrotm_v2" [h "handle"; i4 "n"; p "x"; i4 "incx"; p "y"; i4 "incy"; p "param"] status].

Definition cublas_8 : list aborting :=
  [aborts 154 "cublasDrotm_v2" [h "handle"; i4 "n"; p "x"; i4 "incx"; p "y"; i4 "incy"; p "param"] status;
   aborts 155 "cublasRotmEx"
     [h "handle"; i4 "n"; p "x"; u4 "xType"; i4 "incx"; p "y"; u4 "yType"; i4 "incy"; p "param";
      u4 "paramType"; u4 "executiontype"] status;
   aborts 156 "cublasSrotmg_v2" [h "handle"; p "d1"; p "d2"; p "x1"; p "y1"; p "param"] status;
   aborts 157 "cublasDrotmg_v2" [h "handle"; p "d1"; p "d2"; p "x1"; p "y1"; p "param"] status;
   aborts 158 "cublasRotmgEx"
     [h "handle"; p "d1"; u4 "d1Type"; p "d2"; u4 "d2Type"; p "x1"; u4 "x1Type"; p "y1"; u4 "y1Type";
      p "param"; u4 "paramType"; u4 "executiontype"] status].

Definition cublas_9 : list aborting :=
  [aborts 159 "cublasSgemv_v2"
     [h "handle"; u4 "trans"; i4 "m"; i4 "n"; p "alpha"; p "A"; i4 "lda"; p "x"; i4 "incx"; p "beta";
      p "y"; i4 "incy"] status;
   aborts 160 "cublasDgemv_v2"
     [h "handle"; u4 "trans"; i4 "m"; i4 "n"; p "alpha"; p "A"; i4 "lda"; p "x"; i4 "incx"; p "beta";
      p "y"; i4 "incy"] status;
   aborts 161 "cublasCgemv_v2"
     [h "handle"; u4 "trans"; i4 "m"; i4 "n"; p "alpha"; p "A"; i4 "lda"; p "x"; i4 "incx"; p "beta";
      p "y"; i4 "incy"] status;
   aborts 162 "cublasZgemv_v2"
     [h "handle"; u4 "trans"; i4 "m"; i4 "n"; p "alpha"; p "A"; i4 "lda"; p "x"; i4 "incx"; p "beta";
      p "y"; i4 "incy"] status;
   aborts 163 "cublasSgbmv_v2"
     [h "handle"; u4 "trans"; i4 "m"; i4 "n"; i4 "kl"; i4 "ku"; p "alpha"; p "A"; i4 "lda"; p "x";
      i4 "incx"; p "beta"; p "y"; i4 "incy"] status;
   aborts 164 "cublasDgbmv_v2"
     [h "handle"; u4 "trans"; i4 "m"; i4 "n"; i4 "kl"; i4 "ku"; p "alpha"; p "A"; i4 "lda"; p "x";
      i4 "incx"; p "beta"; p "y"; i4 "incy"] status;
   aborts 165 "cublasCgbmv_v2"
     [h "handle"; u4 "trans"; i4 "m"; i4 "n"; i4 "kl"; i4 "ku"; p "alpha"; p "A"; i4 "lda"; p "x";
      i4 "incx"; p "beta"; p "y"; i4 "incy"] status;
   aborts 166 "cublasZgbmv_v2"
     [h "handle"; u4 "trans"; i4 "m"; i4 "n"; i4 "kl"; i4 "ku"; p "alpha"; p "A"; i4 "lda"; p "x";
      i4 "incx"; p "beta"; p "y"; i4 "incy"] status].

Definition cublas_10 : list aborting :=
  [aborts 167 "cublasStrmv_v2"
     [h "handle"; u4 "uplo"; u4 "trans"; u4 "diag"; i4 "n"; p "A"; i4 "lda"; p "x"; i4 "incx"] status;
   aborts 168 "cublasDtrmv_v2"
     [h "handle"; u4 "uplo"; u4 "trans"; u4 "diag"; i4 "n"; p "A"; i4 "lda"; p "x"; i4 "incx"] status;
   aborts 169 "cublasCtrmv_v2"
     [h "handle"; u4 "uplo"; u4 "trans"; u4 "diag"; i4 "n"; p "A"; i4 "lda"; p "x"; i4 "incx"] status;
   aborts 170 "cublasZtrmv_v2"
     [h "handle"; u4 "uplo"; u4 "trans"; u4 "diag"; i4 "n"; p "A"; i4 "lda"; p "x"; i4 "incx"] status;
   aborts 171 "cublasStbmv_v2"
     [h "handle"; u4 "uplo"; u4 "trans"; u4 "diag"; i4 "n"; i4 "k"; p "A"; i4 "lda"; p "x"; i4 "incx"] status;
   aborts 172 "cublasDtbmv_v2"
     [h "handle"; u4 "uplo"; u4 "trans"; u4 "diag"; i4 "n"; i4 "k"; p "A"; i4 "lda"; p "x"; i4 "incx"] status;
   aborts 173 "cublasCtbmv_v2"
     [h "handle"; u4 "uplo"; u4 "trans"; u4 "diag"; i4 "n"; i4 "k"; p "A"; i4 "lda"; p "x"; i4 "incx"] status;
   aborts 174 "cublasZtbmv_v2"
     [h "handle"; u4 "uplo"; u4 "trans"; u4 "diag"; i4 "n"; i4 "k"; p "A"; i4 "lda"; p "x"; i4 "incx"] status;
   aborts 175 "cublasStpmv_v2"
     [h "handle"; u4 "uplo"; u4 "trans"; u4 "diag"; i4 "n"; p "AP"; p "x"; i4 "incx"] status;
   aborts 176 "cublasDtpmv_v2"
     [h "handle"; u4 "uplo"; u4 "trans"; u4 "diag"; i4 "n"; p "AP"; p "x"; i4 "incx"] status].

Definition cublas_11 : list aborting :=
  [aborts 177 "cublasCtpmv_v2"
     [h "handle"; u4 "uplo"; u4 "trans"; u4 "diag"; i4 "n"; p "AP"; p "x"; i4 "incx"] status;
   aborts 178 "cublasZtpmv_v2"
     [h "handle"; u4 "uplo"; u4 "trans"; u4 "diag"; i4 "n"; p "AP"; p "x"; i4 "incx"] status;
   aborts 179 "cublasStrsv_v2"
     [h "handle"; u4 "uplo"; u4 "trans"; u4 "diag"; i4 "n"; p "A"; i4 "lda"; p "x"; i4 "incx"] status;
   aborts 180 "cublasDtrsv_v2"
     [h "handle"; u4 "uplo"; u4 "trans"; u4 "diag"; i4 "n"; p "A"; i4 "lda"; p "x"; i4 "incx"] status;
   aborts 181 "cublasCtrsv_v2"
     [h "handle"; u4 "uplo"; u4 "trans"; u4 "diag"; i4 "n"; p "A"; i4 "lda"; p "x"; i4 "incx"] status;
   aborts 182 "cublasZtrsv_v2"
     [h "handle"; u4 "uplo"; u4 "trans"; u4 "diag"; i4 "n"; p "A"; i4 "lda"; p "x"; i4 "incx"] status;
   aborts 183 "cublasStpsv_v2"
     [h "handle"; u4 "uplo"; u4 "trans"; u4 "diag"; i4 "n"; p "AP"; p "x"; i4 "incx"] status;
   aborts 184 "cublasDtpsv_v2"
     [h "handle"; u4 "uplo"; u4 "trans"; u4 "diag"; i4 "n"; p "AP"; p "x"; i4 "incx"] status;
   aborts 185 "cublasCtpsv_v2"
     [h "handle"; u4 "uplo"; u4 "trans"; u4 "diag"; i4 "n"; p "AP"; p "x"; i4 "incx"] status;
   aborts 186 "cublasZtpsv_v2"
     [h "handle"; u4 "uplo"; u4 "trans"; u4 "diag"; i4 "n"; p "AP"; p "x"; i4 "incx"] status;
   aborts 187 "cublasStbsv_v2"
     [h "handle"; u4 "uplo"; u4 "trans"; u4 "diag"; i4 "n"; i4 "k"; p "A"; i4 "lda"; p "x"; i4 "incx"] status].

Definition cublas_12 : list aborting :=
  [aborts 188 "cublasDtbsv_v2"
     [h "handle"; u4 "uplo"; u4 "trans"; u4 "diag"; i4 "n"; i4 "k"; p "A"; i4 "lda"; p "x"; i4 "incx"] status;
   aborts 189 "cublasCtbsv_v2"
     [h "handle"; u4 "uplo"; u4 "trans"; u4 "diag"; i4 "n"; i4 "k"; p "A"; i4 "lda"; p "x"; i4 "incx"] status;
   aborts 190 "cublasZtbsv_v2"
     [h "handle"; u4 "uplo"; u4 "trans"; u4 "diag"; i4 "n"; i4 "k"; p "A"; i4 "lda"; p "x"; i4 "incx"] status;
   aborts 191 "cublasSsymv_v2"
     [h "handle"; u4 "uplo"; i4 "n"; p "alpha"; p "A"; i4 "lda"; p "x"; i4 "incx"; p "beta"; p "y";
      i4 "incy"] status;
   aborts 192 "cublasDsymv_v2"
     [h "handle"; u4 "uplo"; i4 "n"; p "alpha"; p "A"; i4 "lda"; p "x"; i4 "incx"; p "beta"; p "y";
      i4 "incy"] status;
   aborts 193 "cublasCsymv_v2"
     [h "handle"; u4 "uplo"; i4 "n"; p "alpha"; p "A"; i4 "lda"; p "x"; i4 "incx"; p "beta"; p "y";
      i4 "incy"] status;
   aborts 194 "cublasZsymv_v2"
     [h "handle"; u4 "uplo"; i4 "n"; p "alpha"; p "A"; i4 "lda"; p "x"; i4 "incx"; p "beta"; p "y";
      i4 "incy"] status;
   aborts 195 "cublasChemv_v2"
     [h "handle"; u4 "uplo"; i4 "n"; p "alpha"; p "A"; i4 "lda"; p "x"; i4 "incx"; p "beta"; p "y";
      i4 "incy"] status;
   aborts 196 "cublasZhemv_v2"
     [h "handle"; u4 "uplo"; i4 "n"; p "alpha"; p "A"; i4 "lda"; p "x"; i4 "incx"; p "beta"; p "y";
      i4 "incy"] status].

Definition cublas_13 : list aborting :=
  [aborts 197 "cublasSsbmv_v2"
     [h "handle"; u4 "uplo"; i4 "n"; i4 "k"; p "alpha"; p "A"; i4 "lda"; p "x"; i4 "incx"; p "beta"; p "y";
      i4 "incy"] status;
   aborts 198 "cublasDsbmv_v2"
     [h "handle"; u4 "uplo"; i4 "n"; i4 "k"; p "alpha"; p "A"; i4 "lda"; p "x"; i4 "incx"; p "beta"; p "y";
      i4 "incy"] status;
   aborts 199 "cublasChbmv_v2"
     [h "handle"; u4 "uplo"; i4 "n"; i4 "k"; p "alpha"; p "A"; i4 "lda"; p "x"; i4 "incx"; p "beta"; p "y";
      i4 "incy"] status;
   aborts 200 "cublasZhbmv_v2"
     [h "handle"; u4 "uplo"; i4 "n"; i4 "k"; p "alpha"; p "A"; i4 "lda"; p "x"; i4 "incx"; p "beta"; p "y";
      i4 "incy"] status;
   aborts 201 "cublasSspmv_v2"
     [h "handle"; u4 "uplo"; i4 "n"; p "alpha"; p "AP"; p "x"; i4 "incx"; p "beta"; p "y"; i4 "incy"] status;
   aborts 202 "cublasDspmv_v2"
     [h "handle"; u4 "uplo"; i4 "n"; p "alpha"; p "AP"; p "x"; i4 "incx"; p "beta"; p "y"; i4 "incy"] status;
   aborts 203 "cublasChpmv_v2"
     [h "handle"; u4 "uplo"; i4 "n"; p "alpha"; p "AP"; p "x"; i4 "incx"; p "beta"; p "y"; i4 "incy"] status;
   aborts 204 "cublasZhpmv_v2"
     [h "handle"; u4 "uplo"; i4 "n"; p "alpha"; p "AP"; p "x"; i4 "incx"; p "beta"; p "y"; i4 "incy"] status;
   aborts 205 "cublasSger_v2"
     [h "handle"; i4 "m"; i4 "n"; p "alpha"; p "x"; i4 "incx"; p "y"; i4 "incy"; p "A"; i4 "lda"] status].

Definition cublas_14 : list aborting :=
  [aborts 206 "cublasDger_v2"
     [h "handle"; i4 "m"; i4 "n"; p "alpha"; p "x"; i4 "incx"; p "y"; i4 "incy"; p "A"; i4 "lda"] status;
   aborts 207 "cublasCgeru_v2"
     [h "handle"; i4 "m"; i4 "n"; p "alpha"; p "x"; i4 "incx"; p "y"; i4 "incy"; p "A"; i4 "lda"] status;
   aborts 208 "cublasCgerc_v2"
     [h "handle"; i4 "m"; i4 "n"; p "alpha"; p "x"; i4 "incx"; p "y"; i4 "incy"; p "A"; i4 "lda"] status;
   aborts 209 "cublasZgeru_v2"
     [h "handle"; i4 "m"; i4 "n"; p "alpha"; p "x"; i4 "incx"; p "y"; i4 "incy"; p "A"; i4 "lda"] status;
   aborts 210 "cublasZgerc_v2"
     [h "handle"; i4 "m"; i4 "n"; p "alpha"; p "x"; i4 "incx"; p "y"; i4 "incy"; p "A"; i4 "lda"] status;
   aborts 211 "cublasSsyr_v2"
     [h "handle"; u4 "uplo"; i4 "n"; p "alpha"; p "x"; i4 "incx"; p "A"; i4 "lda"] status;
   aborts 212 "cublasDsyr_v2"
     [h "handle"; u4 "uplo"; i4 "n"; p "alpha"; p "x"; i4 "incx"; p "A"; i4 "lda"] status;
   aborts 213 "cublasCsyr_v2"
     [h "handle"; u4 "uplo"; i4 "n"; p "alpha"; p "x"; i4 "incx"; p "A"; i4 "lda"] status;
   aborts 214 "cublasZsyr_v2"
     [h "handle"; u4 "uplo"; i4 "n"; p "alpha"; p "x"; i4 "incx"; p "A"; i4 "lda"] status;
   aborts 215 "cublasCher_v2"
     [h "handle"; u4 "uplo"; i4 "n"; p "alpha"; p "x"; i4 "incx"; p "A"; i4 "lda"] status].

Definition cublas_15 : list aborting :=
  [aborts 216 "cublasZher_v2"
     [h "handle"; u4 "uplo"; i4 "n"; p "alpha"; p "x"; i4 "incx"; p "A"; i4 "lda"] status;
   aborts 217 "cublasSspr_v2" [h "handle"; u4 "uplo"; i4 "n"; p "alpha"; p "x"; i4 "incx"; p "AP"] status;
   aborts 218 "cublasDspr_v2" [h "handle"; u4 "uplo"; i4 "n"; p "alpha"; p "x"; i4 "incx"; p "AP"] status;
   aborts 219 "cublasChpr_v2" [h "handle"; u4 "uplo"; i4 "n"; p "alpha"; p "x"; i4 "incx"; p "AP"] status;
   aborts 220 "cublasZhpr_v2" [h "handle"; u4 "uplo"; i4 "n"; p "alpha"; p "x"; i4 "incx"; p "AP"] status;
   aborts 221 "cublasSsyr2_v2"
     [h "handle"; u4 "uplo"; i4 "n"; p "alpha"; p "x"; i4 "incx"; p "y"; i4 "incy"; p "A"; i4 "lda"] status;
   aborts 222 "cublasDsyr2_v2"
     [h "handle"; u4 "uplo"; i4 "n"; p "alpha"; p "x"; i4 "incx"; p "y"; i4 "incy"; p "A"; i4 "lda"] status;
   aborts 223 "cublasCsyr2_v2"
     [h "handle"; u4 "uplo"; i4 "n"; p "alpha"; p "x"; i4 "incx"; p "y"; i4 "incy"; p "A"; i4 "lda"] status;
   aborts 224 "cublasZsyr2_v2"
     [h "handle"; u4 "uplo"; i4 "n"; p "alpha"; p "x"; i4 "incx"; p "y"; i4 "incy"; p "A"; i4 "lda"] status;
   aborts 225 "cublasCher2_v2"
     [h "handle"; u4 "uplo"; i4 "n"; p "alpha"; p "x"; i4 "incx"; p "y"; i4 "incy"; p "A"; i4 "lda"] status].

Definition cublas_16 : list aborting :=
  [aborts 226 "cublasZher2_v2"
     [h "handle"; u4 "uplo"; i4 "n"; p "alpha"; p "x"; i4 "incx"; p "y"; i4 "incy"; p "A"; i4 "lda"] status;
   aborts 227 "cublasSspr2_v2"
     [h "handle"; u4 "uplo"; i4 "n"; p "alpha"; p "x"; i4 "incx"; p "y"; i4 "incy"; p "AP"] status;
   aborts 228 "cublasDspr2_v2"
     [h "handle"; u4 "uplo"; i4 "n"; p "alpha"; p "x"; i4 "incx"; p "y"; i4 "incy"; p "AP"] status;
   aborts 229 "cublasChpr2_v2"
     [h "handle"; u4 "uplo"; i4 "n"; p "alpha"; p "x"; i4 "incx"; p "y"; i4 "incy"; p "AP"] status;
   aborts 230 "cublasZhpr2_v2"
     [h "handle"; u4 "uplo"; i4 "n"; p "alpha"; p "x"; i4 "incx"; p "y"; i4 "incy"; p "AP"] status].

Definition cublas_17 : list aborting :=
  [aborts 232 "cublasDgemm_v2"
     [h "handle"; u4 "transa"; u4 "transb"; i4 "m"; i4 "n"; i4 "k"; p "alpha"; p "A"; i4 "lda"; p "B";
      i4 "ldb"; p "beta"; p "C"; i4 "ldc"] status;
   aborts 233 "cublasCgemm_v2"
     [h "handle"; u4 "transa"; u4 "transb"; i4 "m"; i4 "n"; i4 "k"; p "alpha"; p "A"; i4 "lda"; p "B";
      i4 "ldb"; p "beta"; p "C"; i4 "ldc"] status;
   aborts 234 "cublasCgemm3m"
     [h "handle"; u4 "transa"; u4 "transb"; i4 "m"; i4 "n"; i4 "k"; p "alpha"; p "A"; i4 "lda"; p "B";
      i4 "ldb"; p "beta"; p "C"; i4 "ldc"] status;
   aborts 235 "cublasCgemm3mEx"
     [h "handle"; u4 "transa"; u4 "transb"; i4 "m"; i4 "n"; i4 "k"; p "alpha"; p "A"; u4 "Atype"; i4 "lda";
      p "B"; u4 "Btype"; i4 "ldb"; p "beta"; p "C"; u4 "Ctype"; i4 "ldc"] status;
   aborts 236 "cublasZgemm_v2"
     [h "handle"; u4 "transa"; u4 "transb"; i4 "m"; i4 "n"; i4 "k"; p "alpha"; p "A"; i4 "lda"; p "B";
      i4 "ldb"; p "beta"; p "C"; i4 "ldc"] status;
   aborts 237 "cublasZgemm3m"
     [h "handle"; u4 "transa"; u4 "transb"; i4 "m"; i4 "n"; i4 "k"; p "alpha"; p "A"; i4 "lda"; p "B";
      i4 "ldb"; p "beta"; p "C"; i4 "ldc"] status;
   aborts 238 "cublasHgemm"
     [h "handle"; u4 "transa"; u4 "transb"; i4 "m"; i4 "n"; i4 "k"; p "alpha"; p "A"; i4 "lda"; p "B";
      i4 "ldb"; p "beta"; p "C"; i4 "ldc"] status].

Definition cublas_18 : list aborting :=
  [aborts 239 "cublasSgemmEx"
     [h "handle"; u4 "transa"; u4 "transb"; i4 "m"; i4 "n"; i4 "k"; p "alpha"; p "A"; u4 "Atype"; i4 "lda";
      p "B"; u4 "Btype"; i4 "ldb"; p "beta"; p "C"; u4 "Ctype"; i4 "ldc"] status;
   aborts 240 "cublasGemmEx"
     [h "handle"; u4 "transa"; u4 "transb"; i4 "m"; i4 "n"; i4 "k"; p "alpha"; p "A"; u4 "Atype"; i4 "lda";
      p "B"; u4 "Btype"; i4 "ldb"; p "beta"; p "C"; u4 "Ctype"; i4 "ldc"; u4 "computeType"; u4 "algo"] status;
   aborts 241 "cublasCgemmEx"
     [h "handle"; u4 "transa"; u4 "transb"; i4 "m"; i4 "n"; i4 "k"; p "alpha"; p "A"; u4 "Atype"; i4 "lda";
      p "B"; u4 "Btype"; i4 "ldb"; p "beta"; p "C"; u4 "Ctype"; i4 "ldc"] status;
   aborts 242 "cublasUint8gemmBias"
     [h "handle"; u4 "transa"; u4 "transb"; u4 "transc"; i4 "m"; i4 "n"; i4 "k"; p "A"; i4 "A_bias";
      i4 "lda"; p "B"; i4 "B_bias"; i4 "ldb"; p "C"; i4 "C_bias"; i4 "ldc"; i4 "C_mult"; i4 "C_shift"] status;
   aborts 243 "cublasSsyrk_v2"
     [h "handle"; u4 "uplo"; u4 "trans"; i4 "n"; i4 "k"; p "alpha"; p "A"; i4 "lda"; p "beta"; p "C";
      i4 "ldc"] status;
   aborts 244 "cublasDsyrk_v2"
     [h "handle"; u4 "uplo"; u4 "trans"; i4 "n"; i4 "k"; p "alpha"; p "A"; i4 "lda"; p "beta"; p "C";
      i4 "ldc"] status;
   aborts 245 "cublasCsyrk_v2"
     [h "handle"; u4 "uplo"; u4 "trans"; i4 "n"; i4 "k"; p "alpha"; p "A"; i4 "lda"; p "beta"; p "C";
      i4 "ldc"] status;
   aborts 246 "cublasZsyrk_v2"
     [h "handle"; u4 "uplo"; u4 "trans"; i4 "n"; i4 "k"; p "alpha"; p "A"; i4 "lda"; p "beta"; p "C";
      i4 "ldc"] status].

Definition cublas_19 : list aborting :=
  [aborts 247 "cublasCsyrkEx"
     [h "handle"; u4 "uplo"; u4 "trans"; i4 "n"; i4 "k"; p "alpha"; p "A"; u4 "Atype"; i4 "lda"; p "beta";
      p "C"; u4 "Ctype"; i4 "ldc"] status;
   aborts 248 "cublasCsyrk3mEx"
     [h "handle"; u4 "uplo"; u4 "trans"; i4 "n"; i4 "k"; p "alpha"; p "A"; u4 "Atype"; i4 "lda"; p "beta";
      p "C"; u4 "Ctype"; i4 "ldc"] status;
   aborts 249 "cublasCherk_v2"
     [h "handle"; u4 "uplo"; u4 "trans"; i4 "n"; i4 "k"; p "alpha"; p "A"; i4 "lda"; p "beta"; p "C";
      i4 "ldc"] status;
   aborts 250 "cublasZherk_v2"
     [h "handle"; u4 "uplo"; u4 "trans"; i4 "n"; i4 "k"; p "alpha"; p "A"; i4 "lda"; p "beta"; p "C";
      i4 "ldc"] status;
   aborts 251 "cublasCherkEx"
     [h "handle"; u4 "uplo"; u4 "trans"; i4 "n"; i4 "k"; p "alpha"; p "A"; u4 "Atype"; i4 "lda"; p "beta";
      p "C"; u4 "Ctype"; i4 "ldc"] status;
   aborts 252 "cublasCherk3mEx"
     [h "handle"; u4 "uplo"; u4 "trans"; i4 "n"; i4 "k"; p "alpha"; p "A"; u4 "Atype"; i4 "lda"; p "beta";
      p "C"; u4 "Ctype"; i4 "ldc"] status].

Definition cublas_20 : list aborting :=
  [aborts 253 "cublasSsyr2k_v2"
     [h "handle"; u4 "uplo"; u4 "trans"; i4 "n"; i4 "k"; p "alpha"; p "A"; i4 "lda"; p "B"; i4 "ldb";
      p "beta"; p "C"; i4 "ldc"] status;
   aborts 254 "cublasDsyr2k_v2"
     [h "handle"; u4 "uplo"; u4 "trans"; i4 "n"; i4 "k"; p "alpha"; p "A"; i4 "lda"; p "B"; i4 "ldb";
      p "beta"; p "C"; i4 "ldc"] status;
   aborts 255 "cublasCsyr2k_v2"
     [h "handle"; u4 "uplo"; u4 "trans"; i4 "n"; i4 "k"; p "alpha"; p "A"; i4 "lda"; p "B"; i4 "ldb";
      p "beta"; p "C"; i4 "ldc"] status;
   aborts 256 "cublasZsyr2k_v2"
     [h "handle"; u4 "uplo"; u4 "trans"; i4 "n"; i4 "k"; p "alpha"; p "A"; i4 "lda"; p "B"; i4 "ldb";
      p "beta"; p "C"; i4 "ldc"] status;
   aborts 257 "cublasCher2k_v2"
     [h "handle"; u4 "uplo"; u4 "trans"; i4 "n"; i4 "k"; p "alpha"; p "A"; i4 "lda"; p "B"; i4 "ldb";
      p "beta"; p "C"; i4 "ldc"] status;
   aborts 258 "cublasZher2k_v2"
     [h "handle"; u4 "uplo"; u4 "trans"; i4 "n"; i4 "k"; p "alpha"; p "A"; i4 "lda"; p "B"; i4 "ldb";
      p "beta"; p "C"; i4 "ldc"] status;
   aborts 259 "cublasSsyrkx"
     [h "handle"; u4 "uplo"; u4 "trans"; i4 "n"; i4 "k"; p "alpha"; p "A"; i4 "lda"; p "B"; i4 "ldb";
      p "beta"; p "C"; i4 "ldc"] status;
   aborts 260 "cublasDsyrkx"
     [h "handle"; u4 "uplo"; u4 "trans"; i4 "n"; i4 "k"; p "alpha"; p "A"; i4 "lda"; p "B"; i4 "ldb";
      p "beta"; p "C"; i4 "ldc"] status].

Definition cublas_21 : list aborting :=
  [aborts 261 "cublasCsyrkx"
     [h "handle"; u4 "uplo"; u4 "trans"; i4 "n"; i4 "k"; p "alpha"; p "A"; i4 "lda"; p "B"; i4 "ldb";
      p "beta"; p "C"; i4 "ldc"] status;
   aborts 262 "cublasZsyrkx"
     [h "handle"; u4 "uplo"; u4 "trans"; i4 "n"; i4 "k"; p "alpha"; p "A"; i4 "lda"; p "B"; i4 "ldb";
      p "beta"; p "C"; i4 "ldc"] status;
   aborts 263 "cublasCherkx"
     [h "handle"; u4 "uplo"; u4 "trans"; i4 "n"; i4 "k"; p "alpha"; p "A"; i4 "lda"; p "B"; i4 "ldb";
      p "beta"; p "C"; i4 "ldc"] status;
   aborts 264 "cublasZherkx"
     [h "handle"; u4 "uplo"; u4 "trans"; i4 "n"; i4 "k"; p "alpha"; p "A"; i4 "lda"; p "B"; i4 "ldb";
      p "beta"; p "C"; i4 "ldc"] status;
   aborts 265 "cublasSsymm_v2"
     [h "handle"; u4 "side"; u4 "uplo"; i4 "m"; i4 "n"; p "alpha"; p "A"; i4 "lda"; p "B"; i4 "ldb";
      p "beta"; p "C"; i4 "ldc"] status;
   aborts 266 "cublasDsymm_v2"
     [h "handle"; u4 "side"; u4 "uplo"; i4 "m"; i4 "n"; p "alpha"; p "A"; i4 "lda"; p "B"; i4 "ldb";
      p "beta"; p "C"; i4 "ldc"] status;
   aborts 267 "cublasCsymm_v2"
     [h "handle"; u4 "side"; u4 "uplo"; i4 "m"; i4 "n"; p "alpha"; p "A"; i4 "lda"; p "B"; i4 "ldb";
      p "beta"; p "C"; i4 "ldc"] status;
   aborts 268 "cublasZsymm_v2"
     [h "handle"; u4 "side"; u4 "uplo"; i4 "m"; i4 "n"; p "alpha"; p "A"; i4 "lda"; p "B"; i4 "ldb";
      p "beta"; p "C"; i4 "ldc"] status].

Definition cublas_22 : list aborting :=
  [aborts 269 "cublasChemm_v2"
     [h "handle"; u4 "side"; u4 "uplo"; i4 "m"; i4 "n"; p "alpha"; p "A"; i4 "lda"; p "B"; i4 "ldb";
      p "beta"; p "C"; i4 "ldc"] status;
   aborts 270 "cublasZhemm_v2"
     [h "handle"; u4 "side"; u4 "uplo"; i4 "m"; i4 "n"; p "alpha"; p "A"; i4 "lda"; p "B"; i4 "ldb";
      p "beta"; p "C"; i4 "ldc"] status;
   aborts 271 "cublasStrsm_v2"
     [h "handle"; u4 "side"; u4 "uplo"; u4 "trans"; u4 "diag"; i4 "m"; i4 "n"; p "alpha"; p "A"; i4 "lda";
      p "B"; i4 "ldb"] status;
   aborts 272 "cublasDtrsm_v2"
     [h "handle"; u4 "side"; u4 "uplo"; u4 "trans"; u4 "diag"; i4 "m"; i4 "n"; p "alpha"; p "A"; i4 "lda";
      p "B"; i4 "ldb"] status;
   aborts 273 "cublasCtrsm_v2"
     [h "handle"; u4 "side"; u4 "uplo"; u4 "trans"; u4 "diag"; i4 "m"; i4 "n"; p "alpha"; p "A"; i4 "lda";
      p "B"; i4 "ldb"] status;
   aborts 274 "cublasZtrsm_v2"
     [h "handle"; u4 "side"; u4 "uplo"; u4 "trans"; u4 "diag"; i4 "m"; i4 "n"; p "alpha"; p "A"; i4 "lda";
      p "B"; i4 "ldb"] status;
   aborts 275 "cublasStrmm_v2"
     [h "handle"; u4 "side"; u4 "uplo"; u4 "trans"; u4 "diag"; i4 "m"; i4 "n"; p "alpha"; p "A"; i4 "lda";
      p "B"; i4 "ldb"; p "C"; i4 "ldc"] status;
   aborts 276 "cublasDtrmm_v2"
     [h "handle"; u4 "side"; u4 "uplo"; u4 "trans"; u4 "diag"; i4 "m"; i4 "n"; p "alpha"; p "A"; i4 "lda";
      p "B"; i4 "ldb"; p "C"; i4 "ldc"] status].

Definition cublas_23 : list aborting :=
  [aborts 277 "cublasCtrmm_v2"
     [h "handle"; u4 "side"; u4 "uplo"; u4 "trans"; u4 "diag"; i4 "m"; i4 "n"; p "alpha"; p "A"; i4 "lda";
      p "B"; i4 "ldb"; p "C"; i4 "ldc"] status;
   aborts 278 "cublasZtrmm_v2"
     [h "handle"; u4 "side"; u4 "uplo"; u4 "trans"; u4 "diag"; i4 "m"; i4 "n"; p "alpha"; p "A"; i4 "lda";
      p "B"; i4 "ldb"; p "C"; i4 "ldc"] status;
   aborts 279 "cublasSgemmBatched"
     [h "handle"; u4 "transa"; u4 "transb"; i4 "m"; i4 "n"; i4 "k"; p "alpha"; p "Aarray"; i4 "lda";
      p "Barray"; i4 "ldb"; p "beta"; p "Carray"; i4 "ldc"; i4 "batchCount"] status;
   aborts 280 "cublasDgemmBatched"
     [h "handle"; u4 "transa"; u4 "transb"; i4 "m"; i4 "n"; i4 "k"; p "alpha"; p "Aarray"; i4 "lda";
      p "Barray"; i4 "ldb"; p "beta"; p "Carray"; i4 "ldc"; i4 "batchCount"] status;
   aborts 281 "cublasCgemmBatched"
     [h "handle"; u4 "transa"; u4 "transb"; i4 "m"; i4 "n"; i4 "k"; p "alpha"; p "Aarray"; i4 "lda";
      p "Barray"; i4 "ldb"; p "beta"; p "Carray"; i4 "ldc"; i4 "batchCount"] status;
   aborts 282 "cublasCgemm3mBatched"
     [h "handle"; u4 "transa"; u4 "transb"; i4 "m"; i4 "n"; i4 "k"; p "alpha"; p "Aarray"; i4 "lda";
      p "Barray"; i4 "ldb"; p "beta"; p "Carray"; i4 "ldc"; i4 "batchCount"] status;
   aborts 283 "cublasZgemmBatched"
     [h "handle"; u4 "transa"; u4 "transb"; i4 "m"; i4 "n"; i4 "k"; p "alpha"; p "Aarray"; i4 "lda";
      p "Barray"; i4 "ldb"; p "beta"; p "Carray"; i4 "ldc"; i4 "batchCount"] status].

Definition cublas_24 : list aborting :=
  [aborts 285 "cublasGemmStridedBatchedEx"
     [h "handle"; u4 "transa"; u4 "transb"; i4 "m"; i4 "n"; i4 "k"; p "alpha"; p "A"; u4 "Atype"; i4 "lda";
      i8 "strideA"; p "B"; u4 "Btype"; i4 "ldb"; i8 "strideB"; p "beta"; p "C"; u4 "Ctype"; i4 "ldc";
      i8 "strideC"; i4 "batchCount"; u4 "computeType"; u4 "algo"] status;
   aborts 286 "cublasSgemmStridedBatched"
     [h "handle"; u4 "transa"; u4 "transb"; i4 "m"; i4 "n"; i4 "k"; p "alpha"; p "A"; i4 "lda";
      i8 "strideA"; p "B"; i4 "ldb"; i8 "strideB"; p "beta"; p "C"; i4 "ldc"; i8 "strideC"; i4 "batchCount"] status;
   aborts 287 "cublasDgemmStridedBatched"
     [h "handle"; u4 "transa"; u4 "transb"; i4 "m"; i4 "n"; i4 "k"; p "alpha"; p "A"; i4 "lda";
      i8 "strideA"; p "B"; i4 "ldb"; i8 "strideB"; p "beta"; p "C"; i4 "ldc"; i8 "strideC"; i4 "batchCount"] status;
   aborts 288 "cublasCgemmStridedBatched"
     [h "handle"; u4 "transa"; u4 "transb"; i4 "m"; i4 "n"; i4 "k"; p "alpha"; p "A"; i4 "lda";
      i8 "strideA"; p "B"; i4 "ldb"; i8 "strideB"; p "beta"; p "C"; i4 "ldc"; i8 "strideC"; i4 "batchCount"] status;
   aborts 289 "cublasCgemm3mStridedBatched"
     [h "handle"; u4 "transa"; u4 "transb"; i4 "m"; i4 "n"; i4 "k"; p "alpha"; p "A"; i4 "lda";
      i8 "strideA"; p "B"; i4 "ldb"; i8 "strideB"; p "beta"; p "C"; i4 "ldc"; i8 "strideC"; i4 "batchCount"] status;
   aborts 290 "cublasZgemmStridedBatched"
     [h "handle"; u4 "transa"; u4 "transb"; i4 "m"; i4 "n"; i4 "k"; p "alpha"; p "A"; i4 "lda";
      i8 "strideA"; p "B"; i4 "ldb"; i8 "strideB"; p "beta"; p "C"; i4 "ldc"; i8 "strideC"; i4 "batchCount"] status].

Definition cublas_25 : list aborting :=
  [aborts 292 "cublasDgeam"
     [h "handle"; u4 "transa"; u4 "transb"; i4 "m"; i4 "n"; p "alpha"; p "A"; i4 "lda"; p "beta"; p "B";
      i4 "ldb"; p "C"; i4 "ldc"] status;
   aborts 293 "cublasCgeam"
     [h "handle"; u4 "transa"; u4 "transb"; i4 "m"; i4 "n"; p "alpha"; p "A"; i4 "lda"; p "beta"; p "B";
      i4 "ldb"; p "C"; i4 "ldc"] status;
   aborts 294 "cublasZgeam"
     [h "handle"; u4 "transa"; u4 "transb"; i4 "m"; i4 "n"; p "alpha"; p "A"; i4 "lda"; p "beta"; p "B";
      i4 "ldb"; p "C"; i4 "ldc"] status;
   aborts 295 "cublasSgetrfBatched"
     [h "handle"; i4 "n"; p "A"; i4 "lda"; p "P"; p "info"; i4 "batchSize"] status;
   aborts 296 "cublasDgetrfBatched"
     [h "handle"; i4 "n"; p "A"; i4 "lda"; p "P"; p "info"; i4 "batchSize"] status;
   aborts 297 "cublasCgetrfBatched"
     [h "handle"; i4 "n"; p "A"; i4 "lda"; p "P"; p "info"; i4 "batchSize"] status;
   aborts 298 "cublasZgetrfBatched"
     [h "handle"; i4 "n"; p "A"; i4 "lda"; p "P"; p "info"; i4 "batchSize"] status;
   aborts 299 "cublasSgetriBatched"
     [h "handle"; i4 "n"; p "A"; i4 "lda"; p "P"; p "C"; i4 "ldc"; p "info"; i4 "batchSize"] status;
   aborts 300 "cublasDgetriBatched"
     [h "handle"; i4 "n"; p "A"; i4 "lda"; p "P"; p "C"; i4 "ldc"; p "info"; i4 "batchSize"] status;
   aborts 301 "cublasCgetriBatched"
     [h "handle"; i4 "n"; p "A"; i4 "lda"; p "P"; p "C"; i4 "ldc"; p "info"; i4 "batchSize"] status].

Definition cublas_26 : list aborting :=
  [aborts 302 "cublasZgetriBatched"
     [h "handle"; i4 "n"; p "A"; i4 "lda"; p "P"; p "C"; i4 "ldc"; p "info"; i4 "batchSize"] status].

Definition cublas_27 : list aborting :=
  [aborts 303 "cublasSgetrsBatched"
     [h "handle"; u4 "trans"; i4 "n"; i4 "nrhs"; p "Aarray"; i4 "lda"; p "devIpiv"; p "Barray"; i4 "ldb";
      p "info"; i4 "batchSize"] status;
   aborts 304 "cublasDgetrsBatched"
     [h "handle"; u4 "trans"; i4 "n"; i4 "nrhs"; p "Aarray"; i4 "lda"; p "devIpiv"; p "Barray"; i4 "ldb";
      p "info"; i4 "batchSize"] status;
   aborts 305 "cublasCgetrsBatched"
     [h "handle"; u4 "trans"; i4 "n"; i4 "nrhs"; p "Aarray"; i4 "lda"; p "devIpiv"; p "Barray"; i4 "ldb";
      p "info"; i4 "batchSize"] status;
   aborts 306 "cublasZgetrsBatched"
     [h "handle"; u4 "trans"; i4 "n"; i4 "nrhs"; p "Aarray"; i4 "lda"; p "devIpiv"; p "Barray"; i4 "ldb";
      p "info"; i4 "batchSize"] status].

Definition cublas_28 : list aborting :=
  [aborts 307 "cublasStrsmBatched"
     [h "handle"; u4 "side"; u4 "uplo"; u4 "trans"; u4 "diag"; i4 "m"; i4 "n"; p "alpha"; p "A"; i4 "lda";
      p "B"; i4 "ldb"; i4 "batchCount"] status;
   aborts 308 "cublasDtrsmBatched"
     [h "handle"; u4 "side"; u4 "uplo"; u4 "trans"; u4 "diag"; i4 "m"; i4 "n"; p "alpha"; p "A"; i4 "lda";
      p "B"; i4 "ldb"; i4 "batchCount"] status;
   aborts 309 "cublasCtrsmBatched"
     [h "handle"; u4 "side"; u4 "uplo"; u4 "trans"; u4 "diag"; i4 "m"; i4 "n"; p "alpha"; p "A"; i4 "lda";
      p "B"; i4 "ldb"; i4 "batchCount"] status;
   aborts 310 "cublasZtrsmBatched"
     [h "handle"; u4 "side"; u4 "uplo"; u4 "trans"; u4 "diag"; i4 "m"; i4 "n"; p "alpha"; p "A"; i4 "lda";
      p "B"; i4 "ldb"; i4 "batchCount"] status;
   aborts 311 "cublasSmatinvBatched"
     [h "handle"; i4 "n"; p "A"; i4 "lda"; p "Ainv"; i4 "lda_inv"; p "info"; i4 "batchSize"] status;
   aborts 312 "cublasDmatinvBatched"
     [h "handle"; i4 "n"; p "A"; i4 "lda"; p "Ainv"; i4 "lda_inv"; p "info"; i4 "batchSize"] status;
   aborts 313 "cublasCmatinvBatched"
     [h "handle"; i4 "n"; p "A"; i4 "lda"; p "Ainv"; i4 "lda_inv"; p "info"; i4 "batchSize"] status;
   aborts 314 "cublasZmatinvBatched"
     [h "handle"; i4 "n"; p "A"; i4 "lda"; p "Ainv"; i4 "lda_inv"; p "info"; i4 "batchSize"] status;
   aborts 315 "cublasSgeqrfBatched"
     [h "handle"; i4 "m"; i4 "n"; p "Aarray"; i4 "lda"; p "TauArray"; p "info"; i4 "batchSize"] status].

Definition cublas_29 : list aborting :=
  [aborts 316 "cublasDgeqrfBatched"
     [h "handle"; i4 "m"; i4 "n"; p "Aarray"; i4 "lda"; p "TauArray"; p "info"; i4 "batchSize"] status;
   aborts 317 "cublasCgeqrfBatched"
     [h "handle"; i4 "m"; i4 "n"; p "Aarray"; i4 "lda"; p "TauArray"; p "info"; i4 "batchSize"] status;
   aborts 318 "cublasZgeqrfBatched"
     [h "handle"; i4 "m"; i4 "n"; p "Aarray"; i4 "lda"; p "TauArray"; p "info"; i4 "batchSize"] status;
   aborts 319 "cublasSgelsBatched"
     [h "handle"; u4 "trans"; i4 "m"; i4 "n"; i4 "nrhs"; p "Aarray"; i4 "lda"; p "Carray"; i4 "ldc";
      p "info"; p "devInfoArray"; i4 "batchSize"] status;
   aborts 320 "cublasDgelsBatched"
     [h "handle"; u4 "trans"; i4 "m"; i4 "n"; i4 "nrhs"; p "Aarray"; i4 "lda"; p "Carray"; i4 "ldc";
      p "info"; p "devInfoArray"; i4 "batchSize"] status;
   aborts 321 "cublasCgelsBatched"
     [h "handle"; u4 "trans"; i4 "m"; i4 "n"; i4 "nrhs"; p "Aarray"; i4 "lda"; p "Carray"; i4 "ldc";
      p "info"; p "devInfoArray"; i4 "batchSize"] status;
   aborts 322 "cublasZgelsBatched"
     [h "handle"; u4 "trans"; i4 "m"; i4 "n"; i4 "nrhs"; p "Aarray"; i4 "lda"; p "Carray"; i4 "ldc";
      p "info"; p "devInfoArray"; i4 "batchSize"] status;
   aborts 323 "cublasSdgmm"
     [h "handle"; u4 "mode"; i4 "m"; i4 "n"; p "A"; i4 "lda"; p "x"; i4 "incx"; p "C"; i4 "ldc"] status;
   aborts 324 "cublasDdgmm"
     [h "handle"; u4 "mode"; i4 "m"; i4 "n"; p "A"; i4 "lda"; p "x"; i4 "incx"; p "C"; i4 "ldc"] status].

Definition cublas_30 : list aborting :=
  [aborts 325 "cublasCdgmm"
     [h "handle"; u4 "mode"; i4 "m"; i4 "n"; p "A"; i4 "lda"; p "x"; i4 "incx"; p "C"; i4 "ldc"] status;
   aborts 326 "cublasZdgmm"
     [h "handle"; u4 "mode"; i4 "m"; i4 "n"; p "A"; i4 "lda"; p "x"; i4 "incx"; p "C"; i4 "ldc"] status;
   aborts 327 "cublasStpttr" [h "handle"; u4 "uplo"; i4 "n"; p "AP"; p "A"; i4 "lda"] status;
   aborts 328 "cublasDtpttr" [h "handle"; u4 "uplo"; i4 "n"; p "AP"; p "A"; i4 "lda"] status;
   aborts 329 "cublasCtpttr" [h "handle"; u4 "uplo"; i4 "n"; p "AP"; p "A"; i4 "lda"] status;
   aborts 330 "cublasZtpttr" [h "handle"; u4 "uplo"; i4 "n"; p "AP"; p "A"; i4 "lda"] status;
   aborts 331 "cublasStrttp" [h "handle"; u4 "uplo"; i4 "n"; p "A"; i4 "lda"; p "AP"] status;
   aborts 332 "cublasDtrttp" [h "handle"; u4 "uplo"; i4 "n"; p "A"; i4 "lda"; p "AP"] status;
   aborts 333 "cublasCtrttp" [h "handle"; u4 "uplo"; i4 "n"; p "A"; i4 "lda"; p "AP"] status;
   aborts 334 "cublasZtrttp" [h "handle"; u4 "uplo"; i4 "n"; p "A"; i4 "lda"; p "AP"] status].

Definition cudnn_1 : list aborting :=
  [aborts_pretty 366 "cudnnSetRNNDescriptor"
     [h "handle"; h "rnnDesc"; i4 "hiddenSize"; i4 "numLayers"; h "dropoutDesc"; u4 "inputMode";
      u4 "direction"; u4 "mode"; u4 "algo"; u4 "mathPrec"] status;
   aborts_pretty 367 "cudnnGetRNNDescriptor"
     [h "handle"; h "rnnDesc"; p "hiddenSize"; p "numLayers"; p "dropoutDesc"; p "inputMode";
      p "direction"; p "mode"; p "algo"; p "mathPrec"] status;
   aborts_pretty 368 "cudnnSetRNNMatrixMathType" [h "rnnDesc"; u4 "mType"] status;
   aborts_pretty 369 "cudnnGetRNNMatrixMathType" [h "rnnDesc"; p "mType"] status;
   aborts_pretty 370 "cudnnRNNSetClip"
     [h "handle"; h "rnnDesc"; u4 "clipMode"; u4 "clipNanOpt"; u8 "lclip"; u8 "rclip"] status;
   aborts_pretty 371 "cudnnRNNGetClip"
     [h "handle"; h "rnnDesc"; p "clipMode"; p "clipNanOpt"; p "lclip"; p "rclip"] status;
   aborts_pretty 372 "cudnnSetRNNProjectionLayers"
     [h "handle"; h "rnnDesc"; i4 "recProjSize"; i4 "outProjSize"] status;
   aborts_pretty 373 "cudnnGetRNNProjectionLayers"
     [h "handle"; h "rnnDesc"; p "recProjSize"; p "outProjSize"] status;
   aborts_pretty 374 "cudnnCreatePersistentRNNPlan"
     [h "rnnDesc"; i4 "minibatch"; u4 "dataType"; p "plan"] status;
   aborts_pretty 375 "cudnnDestroyPersistentRNNPlan" [h "plan"] status;
   aborts_pretty 376 "cudnnSetPersistentRNNPlan" [h "rnnDesc"; h "plan"] status;
   aborts_pretty 377 "cudnnGetRNNWorkspaceSize"
     [h "handle"; h "rnnDesc"; i4 "seqLength"; p "xDesc"; p "sizeInBytes"] status;
   aborts_pretty 378 "cudnnGetRNNTrainingReserveSize"
     [h "handle"; h "rnnDesc"; i4 "seqLength"; p "xDesc"; p "sizeInBytes"] status;
   aborts_pretty 379 "cudnnGetRNNParamsSize"
     [h "handle"; h "rnnDesc"; h "xDesc"; p "sizeInBytes"; u4 "dataType"] status].

Definition cudnn_2 : list aborting :=
  [aborts_pretty 380 "cudnnGetRNNLinLayerMatrixParams"
     [h "handle"; h "rnnDesc"; i4 "pseudoLayer"; h "xDesc"; h "wDesc"; p "w"; i4 "linLayerID";
      h "linLayerMatDesc"; p "linLayerMat"] status;
   aborts_pretty 381 "cudnnGetRNNLinLayerBiasParams"
     [h "handle"; h "rnnDesc"; i4 "pseudoLayer"; h "xDesc"; h "wDesc"; p "w"; i4 "linLayerID";
      h "linLayerBiasDesc"; p "linLayerBias"] status;
   aborts_pretty 382 "cudnnRNNForwardInference"
     [h "handle"; h "rnnDesc"; i4 "seqLength"; p "xDesc"; p "x"; h "hxDesc"; p "hx"; h "cxDesc"; p "cx";
      h "wDesc"; p "w"; p "yDesc"; p "y"; h "hyDesc"; p "hy"; h "cyDesc"; p "cy"; p "workspace";
      u8 "workSpaceSizeInBytes"] status;
   aborts_pretty 383 "cudnnRNNForwardTraining"
     [h "handle"; h "rnnDesc"; i4 "seqLength"; p "xDesc"; p "x"; h "hxDesc"; p "hx"; h "cxDesc"; p "cx";
      h "wDesc"; p "w"; p "yDesc"; p "y"; h "hyDesc"; p "hy"; h "cyDesc"; p "cy"; p "workspace";
      u8 "workSpaceSizeInBytes"; p "reserveSpace"; u8 "reserveSpaceSizeInBytes"] status;
   aborts_pretty 384 "cudnnRNNBackwardData"
     [h "handle"; h "rnnDesc"; i4 "seqLength"; p "yDesc"; p "y"; p "dyDesc"; p "dy"; h "dhyDesc"; p "dhy";
      h "dcyDesc"; p "dcy"; h "wDesc"; p "w"; h "hxDesc"; p "hx"; h "cxDesc"; p "cx"; p "dxDesc"; p "dx";
      h "dhxDesc"; p "dhx"; h "dcxDesc"; p "dcx"; p "workspace"; u8 "workSpaceSizeInBytes";
      p "reserveSpace"; u8 "reserveSpaceSizeInBytes"] status;
   aborts_pretty 385 "cudnnRNNBackwardWeights"
     [h "handle"; h "rnnDesc"; i4 "seqLength"; p "xDesc"; p "x"; h "hxDesc"; p "hx"; p "yDesc"; p "y";
      p "workspace"; u8 "workSpaceSizeInBytes"; h "dwDesc"; p "dw"; p "reserveSpace";
      u8 "reserveSpaceSizeInBytes"] status].

Definition cudnn_3 : list aborting :=
  [aborts_pretty 386 "cudnnSetRNNPaddingMode" [h "rnnDesc"; u4 "paddingMode"] status;
   aborts_pretty 387 "cudnnGetRNNPaddingMode" [h "rnnDesc"; p "paddingMode"] status;
   aborts_pretty 388 "cudnnCreateRNNDataDescriptor" [p "rnnDataDesc"] status;
   aborts_pretty 389 "cudnnDestroyRNNDataDescriptor" [h "rnnDataDesc"] status;
   aborts_pretty 390 "cudnnSetRNNDataDescriptor"
     [h "rnnDataDesc"; u4 "dataType"; u4 "layout"; i4 "maxSeqLength"; i4 "batchSize"; i4 "vectorSize";
      p "seqLengthArray"; p "paddingFill"] status;
   aborts_pretty 391 "cudnnGetRNNDataDescriptor"
     [h "rnnDataDesc"; p "dataType"; p "layout"; p "maxSeqLength"; p "batchSize"; p "vectorSize";
      i4 "arrayLengthRequested"; p "seqLengthArray"; p "paddingFill"] status;
   aborts_pretty 392 "cudnnRNNForwardTrainingEx"
     [h "handle"; h "rnnDesc"; h "xDesc"; p "x"; h "hxDesc"; p "hx"; h "cxDesc"; p "cx"; h "wDesc"; p "w";
      h "yDesc"; p "y"; h "hyDesc"; p "hy"; h "cyDesc"; p "cy"; h "kDesc"; p "keys"; h "cDesc"; p "cAttn";
      h "iDesc"; p "iAttn"; h "qDesc"; p "queries"; p "workSpace"; u8 "workSpaceSizeInBytes";
      p "reserveSpace"; u8 "reserveSpaceSizeInBytes"] status;
   aborts_pretty 393 "cudnnRNNForwardInferenceEx"
     [h "handle"; h "rnnDesc"; h "xDesc"; p "x"; h "hxDesc"; p "hx"; h "cxDesc"; p "cx"; h "wDesc"; p "w";
      h "yDesc"; p "y"; h "hyDesc"; p "hy"; h "cyDesc"; p "cy"; h "kDesc"; p "keys"; h "cDesc"; p "cAttn";
      h "iDesc"; p "iAttn"; h "qDesc"; p "queries"; p "workSpace"; u8 "workSpaceSizeInBytes"] status].

Definition cudnn_4 : list aborting :=
  [aborts_pretty 394 "cudnnRNNBackwardDataEx"
     [h "handle"; h "rnnDesc"; h "yDesc"; p "y"; h "dyDesc"; p "dy"; h "dcDesc"; p "dcAttn"; h "dhyDesc";
      p "dhy"; h "dcyDesc"; p "dcy"; h "wDesc"; p "w"; h "hxDesc"; p "hx"; h "cxDesc"; p "cx"; h "dxDesc";
      p "dx"; h "dhxDesc"; p "dhx"; h "dcxDesc"; p "dcx"; h "dkDesc"; p "dkeys"; p "workSpace";
      u8 "workSpaceSizeInBytes"; p "reserveSpace"; u8 "reserveSpaceSizeInBytes"] status;
   aborts_pretty 395 "cudnnRNNBackwardWeightsEx"
     [h "handle"; h "rnnDesc"; h "xDesc"; p "x"; h "hxDesc"; p "hx"; h "yDesc"; p "y"; p "workSpace";
      u8 "workSpaceSizeInBytes"; h "dwDesc"; p "dw"; p "reserveSpace"; u8 "reserveSpaceSizeInBytes"] status].

Definition cudnn_5 : list aborting :=
  [aborts_pretty 396 "cudnnSetRNNAlgorithmDescriptor" [h "handle"; h "rnnDesc"; h "algoDesc"] status;
   aborts_pretty 397 "cudnnGetRNNForwardInferenceAlgorithmMaxCount"
     [h "handle"; h "rnnDesc"; p "count"] status;
   aborts_pretty 398 "cudnnFindRNNForwardInferenceAlgorithmEx"
     [h "handle"; h "rnnDesc"; i4 "seqLength"; p "xDesc"; p "x"; h "hxDesc"; p "hx"; h "cxDesc"; p "cx";
      h "wDesc"; p "w"; p "yDesc"; p "y"; h "hyDesc"; p "hy"; h "cyDesc"; p "cy"; u4 "findIntensity";
      i4 "requestedAlgoCount"; p "returnedAlgoCount"; p "perfResults"; p "workspace";
      u8 "workSpaceSizeInBytes"] status;
   aborts_pretty 399 "cudnnGetRNNForwardTrainingAlgorithmMaxCount"
     [h "handle"; h "rnnDesc"; p "count"] status;
   aborts_pretty 400 "cudnnFindRNNForwardTrainingAlgorithmEx"
     [h "handle"; h "rnnDesc"; i4 "seqLength"; p "xDesc"; p "x"; h "hxDesc"; p "hx"; h "cxDesc"; p "cx";
      h "wDesc"; p "w"; p "yDesc"; p "y"; h "hyDesc"; p "hy"; h "cyDesc"; p "cy"; u4 "findIntensity";
      i4 "requestedAlgoCount"; p "returnedAlgoCount"; p "perfResults"; p "workspace";
      u8 "workSpaceSizeInBytes"; p "reserveSpace"; u8 "reserveSpaceSizeInBytes"] status;
   aborts_pretty 401 "cudnnGetRNNBackwardDataAlgorithmMaxCount" [h "handle"; h "rnnDesc"; p "count"] status;
   aborts_pretty 402 "cudnnFindRNNBackwardDataAlgorithmEx"
     [h "handle"; h "rnnDesc"; i4 "seqLength"; p "yDesc"; p "y"; p "dyDesc"; p "dy"; h "dhyDesc"; p "dhy";
      h "dcyDesc"; p "dcy"; h "wDesc"; p "w"; h "hxDesc"; p "hx"; h "cxDesc"; p "cx"; p "dxDesc"; p "dx";
      h "dhxDesc"; p "dhx"; h "dcxDesc"; p "dcx"; u4 "findIntensity"; i4 "requestedAlgoCount";
      p "returnedAlgoCount"; p "perfResults"; p "workspace"; u8 "workSpaceSizeInBytes"; p "reserveSpace";
      u8 "reserveSpaceSizeInBytes"] status;
   aborts_pretty 403 "cudnnGetRNNBackwardWeightsAlgorithmMaxCount"
     [h "handle"; h "rnnDesc"; p "count"] status].

Definition cudnn_6 : list aborting :=
  [aborts_pretty 404 "cudnnFindRNNBackwardWeightsAlgorithmEx"
     [h "handle"; h "rnnDesc"; i4 "seqLength"; p "xDesc"; p "x"; h "hxDesc"; p "hx"; p "yDesc"; p "y";
      u4 "findIntensity"; i4 "requestedAlgoCount"; p "returnedAlgoCount"; p "perfResults"; p "workspace";
      u8 "workSpaceSizeInBytes"; h "dwDesc"; p "dw"; p "reserveSpace"; u8 "reserveSpaceSizeInBytes"] status].

Definition cudnn_7 : list aborting :=
  [aborts_pretty 405 "cudnnSetRNNDescriptor_v6"
     [h "handle"; h "rnnDesc"; i4 "hiddenSize"; i4 "numLayers"; h "dropoutDesc"; u4 "inputMode";
      u4 "direction"; u4 "mode"; u4 "algo"; u4 "mathPrec"] status;
   aborts_pretty 406 "cudnnSetRNNDescriptor_v5"
     [h "rnnDesc"; i4 "hiddenSize"; i4 "numLayers"; h "dropoutDesc"; u4 "inputMode"; u4 "direction";
      u4 "mode"; u4 "mathPrec"] status;
   aborts 407 "cudnnSetTensor4dDescriptor"
     [h "tensorDesc"; u4 "format"; u4 "dataType"; i4 "n"; i4 "c"; i4 "h"; i4 "w"] status;
   aborts 408 "cudnnSetTensor4dDescriptorEx"
     [h "tensorDesc"; u4 "dataType"; i4 "n"; i4 "c"; i4 "h"; i4 "w"; i4 "nStride"; i4 "cStride";
      i4 "hStride"; i4 "wStride"] status;
   aborts 409 "cudnnGetTensor4dDescriptor"
     [h "tensorDesc"; p "dataType"; p "n"; p "c"; p "h"; p "w"; p "nStride"; p "cStride"; p "hStride";
      p "wStride"] status;
   aborts 410 "cudnnGetTensorNdDescriptor"
     [h "tensorDesc"; i4 "nbDimsRequested"; p "dataType"; p "nbDims"; p "dimA"; p "strideA"] status;
   aborts 411 "cudnnGetTensorSizeInBytes" [h "tensorDesc"; p "size"] status;
   aborts 412 "cudnnInitTransformDest"
     [h "transformDesc"; h "srcDesc"; h "destDesc"; p "destSizeInBytes"] status;
   aborts 413 "cudnnCreateTensorTransformDescriptor" [p "transformDesc"] status;
   aborts 414 "cudnnSetTensorTransformDescriptor"
     [h "transformDesc"; u4 "nbDims"; u4 "destFormat"; p "padBeforeA"; p "padAfterA"; p "foldA";
      u4 "direction"] status].

Definition cudnn_8 : list aborting :=
  [aborts 415 "cudnnGetTensorTransformDescriptor"
     [h "transformDesc"; u4 "nbDimsRequested"; p "destFormat"; p "padBeforeA"; p "padAfterA"; p "foldA";
      p "direction"] status].

Definition cudnn_9 : list aborting :=
  [aborts 416 "cudnnDestroyTensorTransformDescriptor" [h "transformDesc"] status;
   aborts 417 "cudnnTransformTensor"
     [h "handle"; p "alpha"; h "xDesc"; p "x"; p "beta"; h "yDesc"; p "y"] status;
   aborts 418 "cudnnTransformTensorEx"
     [h "handle"; h "transDesc"; p "alpha"; h "srcDesc"; p "srcData"; p "beta"; h "destDesc"; p "destData"] status;
   aborts 419 "cudnnGetFoldedConvBackwardDataDescriptors"
     [h "handle"; h "filterDesc"; h "diffDesc"; h "convDesc"; h "gradDesc"; u4 "transformFormat";
      h "foldedFilterDesc"; h "paddedDiffDesc"; h "foldedConvDesc"; h "foldedGradDesc";
      h "filterFoldTransDesc"; h "diffPadTransDesc"; h "gradFoldTransDesc"; h "gradUnfoldTransDesc"] status].

Definition cudnn_10 : list aborting :=
  [aborts 421 "cudnnCreateOpTensorDescriptor" [p "opTensorDesc"] status;
   aborts 422 "cudnnSetOpTensorDescriptor"
     [h "opTensorDesc"; u4 "opTensorOp"; u4 "opTensorCompType"; u4 "opTensorNanOpt"] status;
   aborts 423 "cudnnGetOpTensorDescriptor"
     [h "opTensorDesc"; p "opTensorOp"; p "opTensorCompType"; p "opTensorNanOpt"] status;
   aborts 424 "cudnnDestroyOpTensorDescriptor" [h "opTensorDesc"] status].

Definition cudnn_11 : list aborting :=
  [aborts 425 "cudnnOpTensor"
     [h "handle"; h "opTensorDesc"; p "alpha1"; h "aDesc"; p "A"; p "alpha2"; h "bDesc"; p "B"; p "beta";
      h "cDesc"; p "C"] status;
   aborts 426 "cudnnCreateReduceTensorDescriptor" [p "reduceTensorDesc"] status;
   aborts 427 "cudnnSetReduceTensorDescriptor"
     [h "reduceTensorDesc"; u4 "reduceTensorOp"; u4 "reduceTensorCompType"; u4 "reduceTensorNanOpt";
      u4 "reduceTensorIndices"; u4 "reduceTensorIndicesType"] status;
   aborts 428 "cudnnGetReduceTensorDescriptor"
     [h "reduceTensorDesc"; p "reduceTensorOp"; p "reduceTensorCompType"; p "reduceTensorNanOpt";
      p "reduceTensorIndices"; p "reduceTensorIndicesType"] status;
   aborts 429 "cudnnDestroyReduceTensorDescriptor" [h "reduceTensorDesc"] status].

Definition cudnn_12 : list aborting :=
  [aborts 430 "cudnnGetReductionIndicesSize"
     [h "handle"; h "reduceTensorDesc"; h "aDesc"; h "cDesc"; p "sizeInBytes"] status].

Definition cudnn_13 : list aborting :=
  [aborts 431 "cudnnGetReductionWorkspaceSize"
     [h "handle"; h "reduceTensorDesc"; h "aDesc"; h "cDesc"; p "sizeInBytes"] status].

Definition cudnn_14 : list aborting :=
  [aborts 432 "cudnnReduceTensor"
     [h "handle"; h "reduceTensorDesc"; p "indices"; u8 "indicesSizeInBytes"; p "workspace";
      u8 "workspaceSizeInBytes"; p "alpha"; h "aDesc"; p "A"; p "beta"; h "cDesc"; p "C"] status;
   aborts 433 "cudnnSetTensor" [h "handle"; h "yDesc"; p "y"; p "valuePtr"] status;
   aborts 434 "cudnnScaleTensor" [h "handle"; h "yDesc"; p "y"; p "alpha"] status;
   aborts 435 "cudnnSetFilter4dDescriptor"
     [h "filterDesc"; u4 "dataType"; u4 "format"; i4 "k"; i4 "c"; i4 "h"; i4 "w"] status;
   aborts 436 "cudnnGetFilter4dDescriptor"
     [h "filterDesc"; p "dataType"; p "format"; p "k"; p "c"; p "h"; p "w"] status;
   aborts 437 "cudnnGetFilterNdDescriptor"
     [h "filterDesc"; i4 "nbDimsRequested"; p "dataType"; p "format"; p "nbDims"; p "filterDimA"] status;
   aborts 438 "cudnnGetFilterSizeInBytes" [h "filterDesc"; p "size"] status;
   aborts 439 "cudnnTransformFilter"
     [h "handle"; h "transDesc"; p "alpha"; h "srcDesc"; p "srcData"; p "beta"; h "destDesc"; p "destData"] status;
   aborts 440 "cudnnReorderFilterAndBias"
     [h "handle"; h "filterDesc"; u4 "reorderType"; p "filterData"; p "reorderedFilterData";
      i4 "reorderBias"; p "biasData"; p "reorderedBiasData"] status;
   aborts 441 "cudnnGetConvolutionMathType" [h "convDesc"; p "mathType"] status;
   aborts 442 "cudnnGetConvolutionGroupCount" [h "convDesc"; p "groupCount"] status;
   aborts 443 "cudnnSetConvolutionReorderType" [h "convDesc"; u4 "reorderType"] status;
   aborts 444 "cudnnGetConvolutionReorderType" [h "convDesc"; p "reorderType"] status;
   aborts 445 "cudnnSetConvolution2dDescriptor"
     [h "convDesc"; i4 "pad_h"; i4 "pad_w"; i4 "u"; i4 "v"; i4 "dilation_h"; i4 "dilation_w"; u4 "mode";
      u4 "computeType"] status].

Definition cudnn_15 : list aborting :=
  [aborts 446 "cudnnGetConvolution2dDescriptor"
     [h "convDesc"; p "pad_h"; p "pad_w"; p "u"; p "v"; p "dilation_h"; p "dilation_w"; p "mode";
      p "computeType"] status;
   aborts 447 "cudnnGetConvolution2dForwardOutputDim"
     [h "convDesc"; h "inputTensorDesc"; h "filterDesc"; p "n"; p "c"; p "h"; p "w"] status;
   aborts 448 "cudnnGetConvolutionNdDescriptor"
     [h "convDesc"; i4 "arrayLengthRequested"; p "arrayLength"; p "padA"; p "strideA"; p "dilationA";
      p "mode"; p "computeType"] status;
   aborts 449 "cudnnGetConvolutionNdForwardOutputDim"
     [h "convDesc"; h "inputTensorDesc"; h "filterDesc"; i4 "nbDims"; p "tensorOuputDimA"] status;
   aborts 450 "cudnnGetConvolutionForwardAlgorithmMaxCount" [h "handle"; p "count"] status;
   aborts 451 "cudnnFindConvolutionForwardAlgorithm"
     [h "handle"; h "xDesc"; h "wDesc"; h "convDesc"; h "yDesc"; i4 "requestedAlgoCount";
      p "returnedAlgoCount"; p "perfResults"] status].

Definition cudnn_16 : list aborting :=
  [aborts 453 "cudnnConvolutionBiasActivationForward"
     [h "handle"; p "alpha1"; h "xDesc"; p "x"; h "wDesc"; p "w"; h "convDesc"; u4 "algo"; p "workSpace";
      u8 "workSpaceSizeInBytes"; p "alpha2"; h "zDesc"; p "z"; h "biasDesc"; p "bias"; h "activationDesc";
      h "yDesc"; p "y"] status;
   aborts 454 "cudnnConvolutionBackwardBias"
     [h "handle"; p "alpha"; h "dyDesc"; p "dy"; p "beta"; h "dbDesc"; p "db"] status;
   aborts 455 "cudnnGetConvolutionBackwardFilterAlgorithmMaxCount" [h "handle"; p "count"] status;
   aborts 456 "cudnnFindConvolutionBackwardFilterAlgorithm"
     [h "handle"; h "xDesc"; h "dyDesc"; h "convDesc"; h "dwDesc"; i4 "requestedAlgoCount";
      p "returnedAlgoCount"; p "perfResults"] status;
   aborts 457 "cudnnFindConvolutionBackwardFilterAlgorithmEx"
     [h "handle"; h "xDesc"; p "x"; h "dyDesc"; p "y"; h "convDesc"; h "dwDesc"; p "dw";
      i4 "requestedAlgoCount"; p "returnedAlgoCount"; p "perfResults"; p "workSpace";
      u8 "workSpaceSizeInBytes"] status;
   aborts 458 "cudnnGetConvolutionBackwardFilterAlgorithm"
     [h "handle"; h "xDesc"; h "dyDesc"; h "convDesc"; h "dwDesc"; u4 "preference";
      u8 "memoryLimitInBytes"; p "algo"] status;
   aborts 459 "cudnnGetConvolutionBackwardFilterAlgorithm_v7"
     [h "handle"; h "srcDesc"; h "diffDesc"; h "convDesc"; h "gradDesc"; i4 "requestedAlgoCount";
      p "returnedAlgoCount"; p "perfResults"] status].

Definition cudnn_17 : list aborting :=
  [aborts 460 "cudnnGetConvolutionBackwardFilterWorkspaceSize"
     [h "handle"; h "xDesc"; h "dyDesc"; h "convDesc"; h "gradDesc"; u4 "algo"; p "sizeInBytes"] status;
   aborts 461 "cudnnConvolutionBackwardFilter"
     [h "handle"; p "alpha"; h "xDesc"; p "x"; h "dyDesc"; p "dy"; h "convDesc"; u4 "algo"; p "workSpace";
      u8 "workSpaceSizeInBytes"; p "beta"; h "dwDesc"; p "dw"] status;
   aborts 462 "cudnnGetConvolutionBackwardDataAlgorithmMaxCount" [h "handle"; p "count"] status;
   aborts 463 "cudnnFindConvolutionBackwardDataAlgorithm"
     [h "handle"; h "wDesc"; h "dyDesc"; h "convDesc"; h "dxDesc"; i4 "requestedAlgoCount";
      p "returnedAlgoCount"; p "perfResults"] status;
   aborts 464 "cudnnFindConvolutionBackwardDataAlgorithmEx"
     [h "handle"; h "wDesc"; p "w"; h "dyDesc"; p "dy"; h "convDesc"; h "dxDesc"; p "dx";
      i4 "requestedAlgoCount"; p "returnedAlgoCount"; p "perfResults"; p "workSpace";
      u8 "workSpaceSizeInBytes"] status;
   aborts 465 "cudnnGetConvolutionBackwardDataAlgorithm"
     [h "handle"; h "wDesc"; h "dyDesc"; h "convDesc"; h "dxDesc"; u4 "preference";
      u8 "memoryLimitInBytes"; p "algo"] status;
   aborts 466 "cudnnGetConvolutionBackwardDataAlgorithm_v7"
     [h "handle"; h "filterDesc"; h "diffDesc"; h "convDesc"; h "gradDesc"; i4 "requestedAlgoCount";
      p "returnedAlgoCount"; p "perfResults"] status;
   aborts 467 "cudnnGetConvolutionBackwardDataWorkspaceSize"
     [h "handle"; h "wDesc"; h "dyDesc"; h "convDesc"; h "dxDesc"; u4 "algo"; p "sizeInBytes"] status;
   aborts 468 "cudnnConvolutionBackwardData"
     [h "handle"; p "alpha"; h "wDesc"; p "w"; h "dyDesc"; p "dy"; h "convDesc"; u4 "algo"; p "workSpace";
      u8 "workSpaceSizeInBytes"; p "beta"; h "dxDesc"; p "dx"] status;
   aborts 469 "cudnnIm2Col" [h "handle"; h "xDesc"; p "x"; h "wDesc"; h "convDesc"; p "colBuffer"] status].

Definition cudnn_18 : list aborting :=
  [aborts 470 "cudnnSoftmaxForward"
     [h "handle"; u4 "algo"; u4 "mode"; p "alpha"; h "xDesc"; p "x"; p "beta"; h "yDesc"; p "y"] status;
   aborts 471 "cudnnSoftmaxBackward"
     [h "handle"; u4 "algo"; u4 "mode"; p "alpha"; h "yDesc"; p "y"; h "dyDesc"; p "dy"; p "beta";
      h "dxDesc"; p "dx"] status;
   aborts 472 "cudnnSetPooling2dDescriptor"
     [h "poolingDesc"; u4 "mode"; u4 "maxpoolingNanOpt"; i4 "windowHeight"; i4 "windowWidth";
      i4 "verticalPadding"; i4 "horizontalPadding"; i4 "verticalStride"; i4 "horizontalStride"] status;
   aborts 473 "cudnnGetPooling2dDescriptor"
     [h "poolingDesc"; p "mode"; p "maxpoolingNanOpt"; p "windowHeight"; p "windowWidth";
      p "verticalPadding"; p "horizontalPadding"; p "verticalStride"; p "horizontalStride"] status;
   aborts 474 "cudnnGetPoolingNdDescriptor"
     [h "poolingDesc"; i4 "nbDimsRequested"; p "mode"; p "maxpoolingNanOpt"; p "nbDims"; p "windowDimA";
      p "paddingA"; p "strideA"] status;
   aborts 475 "cudnnGetPoolingNdForwardOutputDim"
     [h "poolingDesc"; h "inputTensorDesc"; i4 "nbDims"; p "outputTensorDimA"] status;
   aborts 476 "cudnnGetPooling2dForwardOutputDim"
     [h "poolingDesc"; h "inputTensorDesc"; p "n"; p "c"; p "h"; p "w"] status].

Definition cudnn_19 : list aborting :=
  [aborts 477 "cudnnCreateActivationDescriptor" [p "activationDesc"] status;
   aborts 478 "cudnnSetActivationDescriptor"
     [h "activationDesc"; u4 "mode"; u4 "reluNanOpt"; u8 "coef"] status;
   aborts 479 "cudnnGetActivationDescriptor"
     [h "activationDesc"; p "mode"; p "reluNanOpt"; p "coef"] status;
   aborts 480 "cudnnDestroyActivationDescriptor" [h "activationDesc"] status;
   aborts 481 "cudnnActivationForward"
     [h "handle"; h "activationDesc"; p "alpha"; h "xDesc"; p "x"; p "beta"; h "yDesc"; p "y"] status;
   aborts 482 "cudnnActivationBackward"
     [h "handle"; h "activationDesc"; p "alpha"; h "yDesc"; p "y"; h "dyDesc"; p "dy"; h "xDesc"; p "x";
      p "beta"; h "dxDesc"; p "dx"] status].

Definition cudnn_20 : list aborting :=
  [aborts 483 "cudnnCreateLRNDescriptor" [p "normDesc"] status].

Definition cudnn_21 : list aborting :=
  [aborts 484 "cudnnSetLRNDescriptor"
     [h "normDesc"; u4 "lrnN"; u8 "lrnAlpha"; u8 "lrnBeta"; u8 "lrnK"] status].

Definition cudnn_22 : list aborting :=
  [aborts 485 "cudnnGetLRNDescriptor" [h "normDesc"; p "lrnN"; p "lrnAlpha"; p "lrnBeta"; p "lrnK"] status;
   aborts 486 "cudnnDestroyLRNDescriptor" [h "lrnDesc"] status].

Definition cudnn_23 : list aborting :=
  [aborts 487 "cudnnLRNCrossChannelForward"
     [h "handle"; h "normDesc"; u4 "lrnMode"; p "alpha"; h "xDesc"; p "x"; p "beta"; h "yDesc"; p "y"] status;
   aborts 488 "cudnnLRNCrossChannelBackward"
     [h "handle"; h "normDesc"; u4 "lrnMode"; p "alpha"; h "yDesc"; p "y"; h "dyDesc"; p "dy"; h "xDesc";
      p "x"; p "beta"; h "dxDesc"; p "dx"] status;
   aborts 489 "cudnnDivisiveNormalizationForward"
     [h "handle"; h "normDesc"; u4 "mode"; p "alpha"; h "xDesc"; p "x"; p "means"; p "temp"; p "temp2";
      p "beta"; h "yDesc"; p "y"] status;
   aborts 490 "cudnnDivisiveNormalizationBackward"
     [h "handle"; h "normDesc"; u4 "mode"; p "alpha"; h "xDesc"; p "x"; p "means"; p "dy"; p "temp";
      p "temp2"; p "beta"; h "dXdMeansDesc"; p "dx"; p "dMeans"] status].

Definition cudnn_24 : list aborting :=
  [aborts 492 "cudnnGetBatchNormalizationBackwardExWorkspaceSize"
     [h "handle"; u4 "mode"; u4 "bnOps"; h "xDesc"; h "yDesc"; h "dyDesc"; h "dzDesc"; h "dxDesc";
      h "dBnScaleBiasDesc"; h "activationDesc"; p "sizeInBytes"] status;
   aborts 493 "cudnnGetBatchNormalizationTrainingExReserveSpaceSize"
     [h "handle"; u4 "mode"; u4 "bnOps"; h "activationDesc"; h "xDesc"; p "sizeInBytes"] status;
   aborts 494 "cudnnBatchNormalizationForwardTraining"
     [h "handle"; u4 "mode"; p "alpha"; p "beta"; h "xDesc"; p "x"; h "yDesc"; p "y";
      h "bnScaleBiasMeanVarDesc"; p "bnScale"; p "bnBias"; u8 "exponentialAverageFactor";
      p "resultRunningMean"; p "resultRunningVariance"; u8 "epsilon"; p "resultSaveMean";
      p "resultSaveInvVariance"] status;
   aborts 495 "cudnnBatchNormalizationForwardTrainingEx"
     [h "handle"; u4 "mode"; u4 "bnOps"; p "alpha"; p "beta"; h "xDesc"; p "xData"; h "zDesc"; p "zData";
      h "yDesc"; p "yData"; h "bnScaleBiasMeanVarDesc"; p "bnScale"; p "bnBias";
      u8 "exponentialAverageFactor"; p "resultRunningMean"; p "resultRunningVariance"; u8 "epsilon";
      p "resultSaveMean"; p "resultSaveInvVariance"; h "activationDesc"; p "workspace";
      u8 "workSpaceSizeInBytes"; p "reserveSpace"; u8 "reserveSpaceSizeInBytes"] status].

Definition cudnn_25 : list aborting :=
  [aborts 496 "cudnnBatchNormalizationBackward"
     [h "handle"; u4 "mode"; p "alphaDataDiff"; p "betaDataDiff"; p "alphaParamDiff"; p "betaParamDiff";
      h "xDesc"; p "x"; h "dyDesc"; p "dy"; h "dxDesc"; p "dx"; h "dBnScaleBiasDesc"; p "bnScale";
      p "dBnScaleResult"; p "dBnBiasResult"; u8 "epsilon"; p "savedMean"; p "savedInvVariance"] status;
   aborts 497 "cudnnBatchNormalizationBackwardEx"
     [h "handle"; u4 "mode"; u4 "bnOps"; p "alphaDataDiff"; p "betaDataDiff"; p "alphaParamDiff";
      p "betaParamDiff"; h "xDesc"; p "xData"; h "yDesc"; p "yData"; h "dyDesc"; p "dyData"; h "dzDesc";
      p "dzData"; h "dxDesc"; p "dxData"; h "dBnScaleBiasDesc"; p "bnScaleData"; p "bnBiasData";
      p "dBnScaleData"; p "dBnBiasData"; u8 "epsilon"; p "savedMean"; p "savedInvVariance";
      h "activationDesc"; p "workSpace"; u8 "workSpaceSizeInBytes"; p "reserveSpace";
      u8 "reserveSpaceSizeInBytes"] status;
   aborts 498 "cudnnCreateSpatialTransformerDescriptor" [p "stDesc"] status;
   aborts 499 "cudnnSetSpatialTransformerNdDescriptor"
     [h "stDesc"; u4 "samplerType"; u4 "dataType"; i4 "nbDims"; p "dimA"] status;
   aborts 500 "cudnnDestroySpatialTransformerDescriptor" [h "stDesc"] status;
   aborts 501 "cudnnSpatialTfGridGeneratorForward" [h "handle"; h "stDesc"; p "theta"; p "grid"] status;
   aborts 502 "cudnnSpatialTfGridGeneratorBackward" [h "handle"; h "stDesc"; p "dgrid"; p "dtheta"] status;
   aborts 503 "cudnnSpatialTfSamplerForward"
     [h "handle"; h "stDesc"; p "alpha"; h "xDesc"; p "x"; p "grid"; p "beta"; h "yDesc"; p "y"] status].

Definition cudnn_26 : list aborting :=
  [aborts 504 "cudnnSpatialTfSamplerBackward"
     [h "handle"; h "stDesc"; p "alpha"; h "xDesc"; p "x"; p "beta"; h "dxDesc"; p "dx"; p "alphaDgrid";
      h "dyDesc"; p "dy"; p "grid"; p "betaDgrid"; p "dgrid"] status;
   aborts 505 "cudnnCreateDropoutDescriptor" [p "dropoutDesc"] status;
   aborts 506 "cudnnDestroyDropoutDescriptor" [h "dropoutDesc"] status;
   aborts 507 "cudnnDropoutGetStatesSize" [h "handle"; p "sizeInBytes"] status;
   aborts 508 "cudnnDropoutGetReserveSpaceSize" [h "xdesc"; p "sizeInBytes"] status;
   aborts 509 "cudnnSetDropoutDescriptor"
     [h "dropoutDesc"; h "handle"; u4 "dropout"; p "states"; u8 "stateSizeInBytes"; u8 "seed"] status;
   aborts 510 "cudnnRestoreDropoutDescriptor"
     [h "dropoutDesc"; h "handle"; u4 "dropout"; p "states"; u8 "stateSizeInBytes"; u8 "seed"] status;
   aborts 511 "cudnnGetDropoutDescriptor"
     [h "dropoutDesc"; h "handle"; p "dropout"; p "states"; p "seed"] status;
   aborts 512 "cudnnDropoutForward"
     [h "handle"; h "dropoutDesc"; h "xdesc"; p "x"; h "ydesc"; p "y"; p "reserveSpace";
      u8 "reserveSpaceSizeInBytes"] status;
   aborts 513 "cudnnDropoutBackward"
     [h "handle"; h "dropoutDesc"; h "dydesc"; p "dy"; h "dxdesc"; p "dx"; p "reserveSpace";
      u8 "reserveSpaceSizeInBytes"] status;
   aborts 514 "cudnnSetRNNBiasMode" [h "rnnDesc"; u4 "biasMode"] status;
   aborts 515 "cudnnGetRNNBiasMode" [h "rnnDesc"; p "biasMode"] status].

Definition cudnn_27 : list aborting :=
  [aborts 516 "cudnnCreateSeqDataDescriptor" [p "seqDataDesc"] status;
   aborts 517 "cudnnDestroySeqDataDescriptor" [h "seqDataDesc"] status;
   aborts 518 "cudnnSetSeqDataDescriptor"
     [h "seqDataDesc"; u4 "dataType"; i4 "nbDims"; p "dimA"; p "axes"; u8 "seqLengthArraySize";
      p "seqLengthArray"; p "paddingFill"] status;
   aborts 519 "cudnnGetSeqDataDescriptor"
     [h "seqDataDesc"; p "dataType"; p "nbDims"; i4 "nbDimsRequested"; p "dimA"; p "axes";
      p "seqLengthArraySize"; u8 "seqLengthSizeRequested"; p "seqLengthArray"; p "paddingFill"] status].

Definition cudnn_28 : list aborting :=
  [aborts 520 "cudnnCreateAttnDescriptor" [p "attnDesc"] status;
   aborts 521 "cudnnDestroyAttnDescriptor" [h "attnDesc"] status;
   aborts 522 "cudnnSetAttnDescriptor"
     [h "attnDesc"; u4 "attnMode"; i4 "nHeads"; u8 "smScaler"; u4 "dataType"; u4 "computePrec";
      u4 "mathType"; h "attnDropoutDesc"; h "postDropoutDesc"; i4 "qSize"; i4 "kSize"; i4 "vSize";
      i4 "qProjSize"; i4 "kProjSize"; i4 "vProjSize"; i4 "oProjSize"; i4 "qoMaxSeqLength";
      i4 "kvMaxSeqLength"; i4 "maxBatchSize"; i4 "maxBeamSize"] status;
   aborts 523 "cudnnGetAttnDescriptor"
     [h "attnDesc"; p "attnMode"; p "nHeads"; p "smScaler"; p "dataType"; p "computePrec"; p "mathType";
      p "attnDropoutDesc"; p "postDropoutDesc"; p "qSize"; p "kSize"; p "vSize"; p "qProjSize";
      p "kProjSize"; p "vProjSize"; p "oProjSize"; p "qoMaxSeqLength"; p "kvMaxSeqLength";
      p "maxBatchSize"; p "maxBeamSize"] status;
   aborts 524 "cudnnGetMultiHeadAttnBuffers"
     [h "handle"; h "attnDesc"; p "weightSizeInBytes"; p "workSpaceSizeInBytes";
      p "reserveSpaceSizeInBytes"] status;
   aborts 525 "cudnnGetMultiHeadAttnWeights"
     [h "handle"; h "attnDesc"; u4 "wKind"; u8 "weightSizeInBytes"; p "weights"; h "wDesc"; p "wAddr"] status;
   aborts 526 "cudnnMultiHeadAttnForward"
     [h "handle"; h "attnDesc"; i4 "currIdx"; p "loWinIdx"; p "hiWinIdx"; p "devSeqLengthsQO";
      p "devSeqLengthsKV"; h "qDesc"; p "queries"; p "residuals"; h "kDesc"; p "keys"; h "vDesc";
      p "values"; h "oDesc"; p "out"; u8 "weightSizeInBytes"; p "weights"; u8 "workSpaceSizeInBytes";
      p "workSpace"; u8 "reserveSpaceSizeInBytes"; p "reserveSpace"] status;
   aborts 527 "cudnnMultiHeadAttnBackwardData"
     [h "handle"; h "attnDesc"; p "loWinIdx"; p "hiWinIdx"; p "devSeqLengthsDQDO"; p "devSeqLengthsDKDV";
      h "doDesc"; p "dout"; h "dqDesc"; p "dqueries"; p "queries"; h "dkDesc"; p "dkeys"; p "keys";
      h "dvDesc"; p "dvalues"; p "values"; u8 "weightSizeInBytes"; p "weights"; u8 "workSpaceSizeInBytes";
      p "workSpace"; u8 "reserveSpaceSizeInBytes"; p "reserveSpace"] status].

Definition cudnn_29 : list aborting :=
  [aborts 528 "cudnnMultiHeadAttnBackwardWeights"
     [h "handle"; h "attnDesc"; u4 "addGrad"; h "qDesc"; p "queries"; h "kDesc"; p "keys"; h "vDesc";
      p "values"; h "doDesc"; p "dout"; u8 "weightSizeInBytes"; p "weights"; p "dweights";
      u8 "workSpaceSizeInBytes"; p "workSpace"; u8 "reserveSpaceSizeInBytes"; p "reserveSpace"] status].

Definition cudnn_30 : list aborting :=
  [aborts 529 "cudnnCreateCTCLossDescriptor" [p "ctcLossDesc"] status;
   aborts 530 "cudnnSetCTCLossDescriptor" [h "ctcLossDesc"; u4 "compType"] status;
   aborts 531 "cudnnSetCTCLossDescriptorEx"
     [h "ctcLossDesc"; u4 "compType"; u4 "normMode"; u4 "gradMode"] status;
   aborts 532 "cudnnGetCTCLossDescriptor" [h "ctcLossDesc"; p "compType"] status;
   aborts 533 "cudnnGetCTCLossDescriptorEx"
     [h "ctcLossDesc"; p "compType"; p "normMode"; p "gradMode"] status;
   aborts 534 "cudnnDestroyCTCLossDescriptor" [h "ctcLossDesc"] status;
   aborts 535 "cudnnCTCLoss"
     [h "handle"; h "probsDesc"; p "probs"; p "labels"; p "labelLengths"; p "inputLengths"; p "costs";
      h "gradientsDesc"; p "gradients"; u4 "algo"; h "ctcLossDesc"; p "workspace";
      u8 "workSpaceSizeInBytes"] status;
   aborts 536 "cudnnGetCTCLossWorkspaceSize"
     [h "handle"; h "probsDesc"; h "gradientsDesc"; p "labels"; p "labelLengths"; p "inputLengths";
      u4 "algo"; h "ctcLossDesc"; p "sizeInBytes"] status;
   aborts 537 "cudnnCreateAlgorithmDescriptor" [p "algoDesc"] status;
   aborts 538 "cudnnSetAlgorithmDescriptor" [h "algoDesc"; by_value 4 4 "algorithm"] status;
   aborts 539 "cudnnGetAlgorithmDescriptor" [h "algoDesc"; p "algorithm"] status;
   aborts 540 "cudnnCopyAlgorithmDescriptor" [h "src"; h "dest"] status;
   aborts 541 "cudnnDestroyAlgorithmDescriptor" [h "algoDesc"] status;
   aborts 542 "cudnnCreateAlgorithmPerformance" [p "algoPerf"; i4 "numberToCreate"] status;
   aborts 543 "cudnnSetAlgorithmPerformance"
     [h "algoPerf"; h "algoDesc"; u4 "status"; u4 "time"; u8 "memory"] status].

Definition cudnn_31 : list aborting :=
  [aborts 544 "cudnnGetAlgorithmPerformance"
     [h "algoPerf"; p "algoDesc"; p "status"; p "time"; p "memory"] status;
   aborts 545 "cudnnDestroyAlgorithmPerformance" [p "algoPerf"; i4 "numberToDestroy"] status;
   aborts 546 "cudnnGetAlgorithmSpaceSize" [h "handle"; h "algoDesc"; p "algoSpaceSizeInBytes"] status;
   aborts 547 "cudnnSaveAlgorithm"
     [h "handle"; h "algoDesc"; p "algoSpace"; u8 "algoSpaceSizeInBytes"] status;
   aborts 548 "cudnnRestoreAlgorithm"
     [h "handle"; p "algoSpace"; u8 "algoSpaceSizeInBytes"; h "algoDesc"] status;
   aborts 549 "cudnnSetCallback" [u4 "mask"; p "udata"; u8 "fptr"] status;
   aborts 550 "cudnnGetCallback" [p "mask"; p "udata"; p "fptr"] status;
   aborts 551 "cudnnCreateFusedOpsConstParamPack" [p "constPack"; u4 "ops"] status;
   aborts 552 "cudnnDestroyFusedOpsConstParamPack" [h "constPack"] status;
   aborts 553 "cudnnSetFusedOpsConstParamPackAttribute" [h "constPack"; u4 "paramLabel"; p "param"] status;
   aborts 554 "cudnnGetFusedOpsConstParamPackAttribute"
     [h "constPack"; u4 "paramLabel"; p "param"; p "isNULL"] status;
   aborts 555 "cudnnCreateFusedOpsVariantParamPack" [p "varPack"; u4 "ops"] status;
   aborts 556 "cudnnDestroyFusedOpsVariantParamPack" [h "varPack"] status;
   aborts 557 "cudnnSetFusedOpsVariantParamPackAttribute" [h "varPack"; u4 "paramLabel"; p "ptr"] status;
   aborts 558 "cudnnGetFusedOpsVariantParamPackAttribute" [h "varPack"; u4 "paramLabel"; p "ptr"] status;
   aborts 559 "cudnnCreateFusedOpsPlan" [p "plan"; u4 "ops"] status;
   aborts 560 "cudnnDestroyFusedOpsPlan" [h "plan"] status;
   aborts 561 "cudnnMakeFusedOpsPlan"
     [h "handle"; h "plan"; h "constPack"; p "workspaceSizeInBytes"] status].

Definition cudnn_32 : list aborting :=
  [aborts 562 "cudnnFusedOpsExecute" [h "handle"; h "plan"; h "varPack"] status].

Definition curand_1 : list aborting :=
  [aborts 564 "curandCreateGeneratorHost" [p "generator"; u4 "rng_type"] code].

Definition curand_2 : list aborting :=
  [aborts 566 "curandGetVersion" [p "version"] code;
   aborts 567 "curandGetProperty" [u4 "type"; p "value"] code;
   aborts 568 "curandSetStream" [h "generator"; h "stream"] code;
   aborts 569 "curandSetPseudoRandomGeneratorSeed" [h "generator"; u8 "seed"] code;
   aborts 570 "curandSetGeneratorOffset" [h "generator"; u8 "offset"] code;
   aborts 571 "curandSetGeneratorOrdering" [h "generator"; u4 "order"] code;
   aborts 572 "curandSetQuasiRandomGeneratorDimensions" [h "generator"; u4 "num_dimensions"] code;
   aborts 573 "curandGenerate" [h "generator"; p "outputPtr"; u8 "num"] code;
   aborts 574 "curandGenerateLongLong" [h "generator"; p "outputPtr"; u8 "num"] code;
   aborts 575 "curandGenerateUniform" [h "generator"; p "outputPtr"; u8 "num"] code;
   aborts 576 "curandGenerateUniformDouble" [h "generator"; p "outputPtr"; u8 "num"] code;
   aborts 577 "curandGenerateNormal" [h "generator"; p "outputPtr"; u8 "n"; u4 "mean"; u4 "stddev"] code;
   aborts 578 "curandGenerateNormalDouble"
     [h "generator"; p "outputPtr"; u8 "n"; u8 "mean"; u8 "stddev"] code;
   aborts 579 "curandGenerateLogNormal" [h "generator"; p "outputPtr"; u8 "n"; u4 "mean"; u4 "stddev"] code;
   aborts 580 "curandGenerateLogNormalDouble"
     [h "generator"; p "outputPtr"; u8 "n"; u8 "mean"; u8 "stddev"] code;
   aborts 581 "curandCreatePoissonDistribution" [u8 "lambda"; p "discrete_distribution"] code;
   aborts 582 "curandDestroyDistribution" [h "discrete_distribution"] code;
   aborts 583 "curandGeneratePoisson" [h "generator"; p "outputPtr"; u8 "n"; u8 "lambda"] code;
   aborts 584 "curandGeneratePoissonMethod"
     [h "generator"; p "outputPtr"; u8 "n"; u8 "lambda"; u4 "method"] code].

Definition curand_3 : list aborting :=
  [aborts 585 "curandGenerateBinomial" [h "generator"; p "outputPtr"; u8 "num"; u4 "n"; u8 "p"] code;
   aborts 586 "curandGenerateBinomialMethod"
     [h "generator"; p "outputPtr"; u8 "num"; u4 "n"; u8 "p"; u4 "method"] code;
   aborts 587 "curandGenerateSeeds" [h "generator"] code].

Definition curand_4 : list aborting :=
  [aborts 588 "curandGetScrambleConstants32" [p "constants"] code].

Definition curand_5 : list aborting :=
  [aborts 589 "curandGetScrambleConstants64" [p "constants"] code].

Definition cufft_1 : list aborting :=
  [aborts 590 "cufftPlan1d" [p "plan"; i4 "nx"; u4 "type"; i4 "batch"] code;
   aborts 591 "cufftPlan2d" [p "plan"; i4 "nx"; i4 "ny"; u4 "type"] code;
   aborts 592 "cufftPlan3d" [p "plan"; i4 "nx"; i4 "ny"; i4 "nz"; u4 "type"] code;
   aborts 593 "cufftPlanMany"
     [p "plan"; i4 "rank"; p "n"; p "inembed"; i4 "istride"; i4 "idist"; p "onembed"; i4 "ostride";
      i4 "odist"; u4 "type"; i4 "batch"] code;
   aborts 594 "cufftMakePlan1d" [i4 "plan"; i4 "nx"; u4 "type"; i4 "batch"; p "workSize"] code;
   aborts 595 "cufftMakePlan2d" [i4 "plan"; i4 "nx"; i4 "ny"; u4 "type"; p "workSize"] code;
   aborts 596 "cufftMakePlan3d" [i4 "plan"; i4 "nx"; i4 "ny"; i4 "nz"; u4 "type"; p "workSize"] code;
   aborts 597 "cufftMakePlanMany"
     [i4 "plan"; i4 "rank"; p "n"; p "inembed"; i4 "istride"; i4 "idist"; p "onembed"; i4 "ostride";
      i4 "odist"; u4 "type"; i4 "batch"; p "workSize"] code;
   aborts 598 "cufftMakePlanMany64"
     [i4 "plan"; i4 "rank"; p "n"; p "inembed"; i8 "istride"; i8 "idist"; p "onembed"; i8 "ostride";
      i8 "odist"; u4 "type"; i8 "batch"; p "workSize"] code;
   aborts 599 "cufftGetSizeMany64"
     [i4 "plan"; i4 "rank"; p "n"; p "inembed"; i8 "istride"; i8 "idist"; p "onembed"; i8 "ostride";
      i8 "odist"; u4 "type"; i8 "batch"; p "workSize"] code;
   aborts 600 "cufftEstimate1d" [i4 "nx"; u4 "type"; i4 "batch"; p "workSize"] code;
   aborts 601 "cufftEstimate2d" [i4 "nx"; i4 "ny"; u4 "type"; p "workSize"] code;
   aborts 602 "cufftEstimate3d" [i4 "nx"; i4 "ny"; i4 "nz"; u4 "type"; p "workSize"] code;
   aborts 603 "cufftEstimateMany"
     [i4 "rank"; p "n"; p "inembed"; i4 "istride"; i4 "idist"; p "onembed"; i4 "ostride"; i4 "odist";
      u4 "type"; i4 "batch"; p "workSize"] code].

Definition cufft_2 : list aborting :=
  [aborts 604 "cufftCreate" [p "handle"] code;
   aborts 605 "cufftGetSize1d" [i4 "handle"; i4 "nx"; u4 "type"; i4 "batch"; p "workSize"] code;
   aborts 606 "cufftGetSize2d" [i4 "handle"; i4 "nx"; i4 "ny"; u4 "type"; p "workSize"] code;
   aborts 607 "cufftGetSize3d" [i4 "handle"; i4 "nx"; i4 "ny"; i4 "nz"; u4 "type"; p "workSize"] code;
   aborts 608 "cufftGetSizeMany"
     [i4 "handle"; i4 "rank"; p "n"; p "inembed"; i4 "istride"; i4 "idist"; p "onembed"; i4 "ostride";
      i4 "odist"; u4 "type"; i4 "batch"; p "workArea"] code;
   aborts 609 "cufftGetSize" [i4 "handle"; p "workSize"] code;
   aborts 610 "cufftSetWorkArea" [i4 "plan"; p "workArea"] code;
   aborts 611 "cufftSetAutoAllocation" [i4 "plan"; i4 "autoAllocate"] code;
   aborts 612 "cufftExecC2C" [i4 "plan"; p "idata"; p "odata"; i4 "direction"] code;
   aborts 613 "cufftExecR2C" [i4 "plan"; p "idata"; p "odata"] code;
   aborts 614 "cufftExecC2R" [i4 "plan"; p "idata"; p "odata"] code;
   aborts 615 "cufftExecZ2Z" [i4 "plan"; p "idata"; p "odata"; i4 "direction"] code;
   aborts 616 "cufftExecD2Z" [i4 "plan"; p "idata"; p "odata"] code;
   aborts 617 "cufftExecZ2D" [i4 "plan"; p "idata"; p "odata"] code].

Definition cufft_3 : list aborting :=
  [aborts 618 "cufftSetStream" [i4 "plan"; h "stream"] code;
   aborts 619 "cufftDestroy" [i4 "plan"] code;
   aborts 620 "cufftGetVersion" [p "version"] code;
   aborts 621 "cufftGetProperty" [u4 "type"; p "value"] code].

Definition cusolver_1 : list aborting :=
  [aborts 622 "cusolverDnCreate" [p "handle"] code;
   aborts 623 "cusolverDnDestroy" [h "handle"] code;
   aborts 624 "cusolverDnSetStream" [h "handle"; h "streamId"] code;
   aborts 625 "cusolverDnGetStream" [h "handle"; p "streamId"] code].

Definition cusolver_2 : list aborting :=
  [aborts 626 "cusolverDnSpotrf_bufferSize"
     [h "handle"; u4 "uplo"; i4 "n"; p "A"; i4 "lda"; p "Lwork"] code;
   aborts 627 "cusolverDnDpotrf_bufferSize"
     [h "handle"; u4 "uplo"; i4 "n"; p "A"; i4 "lda"; p "Lwork"] code;
   aborts 628 "cusolverDnCpotrf_bufferSize"
     [h "handle"; u4 "uplo"; i4 "n"; p "A"; i4 "lda"; p "Lwork"] code;
   aborts 629 "cusolverDnZpotrf_bufferSize"
     [h "handle"; u4 "uplo"; i4 "n"; p "A"; i4 "lda"; p "Lwork"] code;
   aborts 630 "cusolverDnSpotrf"
     [h "handle"; u4 "uplo"; i4 "n"; p "A"; i4 "lda"; p "Workspace"; i4 "Lwork"; p "devInfo"] code;
   aborts 631 "cusolverDnDpotrf"
     [h "handle"; u4 "uplo"; i4 "n"; p "A"; i4 "lda"; p "Workspace"; i4 "Lwork"; p "devInfo"] code].

Definition cusolver_3 : list aborting :=
  [aborts 632 "cusolverDnCpotrf"
     [h "handle"; u4 "uplo"; i4 "n"; p "A"; i4 "lda"; p "Workspace"; i4 "Lwork"; p "devInfo"] code;
   aborts 633 "cusolverDnZpotrf"
     [h "handle"; u4 "uplo"; i4 "n"; p "A"; i4 "lda"; p "Workspace"; i4 "Lwork"; p "devInfo"] code].

Definition cusolver_4 : list aborting :=
  [aborts 634 "cusolverDnSpotrs"
     [h "handle"; u4 "uplo"; i4 "n"; i4 "nrhs"; p "A"; i4 "lda"; p "B"; i4 "ldb"; p "devInfo"] code;
   aborts 635 "cusolverDnDpotrs"
     [h "handle"; u4 "uplo"; i4 "n"; i4 "nrhs"; p "A"; i4 "lda"; p "B"; i4 "ldb"; p "devInfo"] code;
   aborts 636 "cusolverDnCpotrs"
     [h "handle"; u4 "uplo"; i4 "n"; i4 "nrhs"; p "A"; i4 "lda"; p "B"; i4 "ldb"; p "devInfo"] code;
   aborts 637 "cusolverDnZpotrs"
     [h "handle"; u4 "uplo"; i4 "n"; i4 "nrhs"; p "A"; i4 "lda"; p "B"; i4 "ldb"; p "devInfo"] code].

Definition cusolver_5 : list aborting :=
  [aborts 638 "cusolverDnSpotrfBatched"
     [h "handle"; u4 "uplo"; i4 "n"; p "Aarray"; i4 "lda"; p "infoArray"; i4 "batchSize"] code;
   aborts 639 "cusolverDnDpotrfBatched"
     [h "handle"; u4 "uplo"; i4 "n"; p "Aarray"; i4 "lda"; p "infoArray"; i4 "batchSize"] code;
   aborts 640 "cusolverDnCpotrfBatched"
     [h "handle"; u4 "uplo"; i4 "n"; p "Aarray"; i4 "lda"; p "infoArray"; i4 "batchSize"] code;
   aborts 641 "cusolverDnZpotrfBatched"
     [h "handle"; u4 "uplo"; i4 "n"; p "Aarray"; i4 "lda"; p "infoArray"; i4 "batchSize"] code;
   aborts 642 "cusolverDnSpotrsBatched"
     [h "handle"; u4 "uplo"; i4 "n"; i4 "nrhs"; p "A"; i4 "lda"; p "B"; i4 "ldb"; p "d_info";
      i4 "batchSize"] code;
   aborts 643 "cusolverDnDpotrsBatched"
     [h "handle"; u4 "uplo"; i4 "n"; i4 "nrhs"; p "A"; i4 "lda"; p "B"; i4 "ldb"; p "d_info";
      i4 "batchSize"] code;
   aborts 644 "cusolverDnCpotrsBatched"
     [h "handle"; u4 "uplo"; i4 "n"; i4 "nrhs"; p "A"; i4 "lda"; p "B"; i4 "ldb"; p "d_info";
      i4 "batchSize"] code;
   aborts 645 "cusolverDnZpotrsBatched"
     [h "handle"; u4 "uplo"; i4 "n"; i4 "nrhs"; p "A"; i4 "lda"; p "B"; i4 "ldb"; p "d_info";
      i4 "batchSize"] code].

Definition cusolver_6 : list aborting :=
  [aborts 646 "cusolverDnSpotri_bufferSize"
     [h "handle"; u4 "uplo"; i4 "n"; p "A"; i4 "lda"; p "lwork"] code;
   aborts 647 "cusolverDnDpotri_bufferSize"
     [h "handle"; u4 "uplo"; i4 "n"; p "A"; i4 "lda"; p "lwork"] code;
   aborts 648 "cusolverDnCpotri_bufferSize"
     [h "handle"; u4 "uplo"; i4 "n"; p "A"; i4 "lda"; p "lwork"] code;
   aborts 649 "cusolverDnZpotri_bufferSize"
     [h "handle"; u4 "uplo"; i4 "n"; p "A"; i4 "lda"; p "lwork"] code;
   aborts 650 "cusolverDnSpotri"
     [h "handle"; u4 "uplo"; i4 "n"; p "A"; i4 "lda"; p "work"; i4 "lwork"; p "devInfo"] code;
   aborts 651 "cusolverDnDpotri"
     [h "handle"; u4 "uplo"; i4 "n"; p "A"; i4 "lda"; p "work"; i4 "lwork"; p "devInfo"] code;
   aborts 652 "cusolverDnCpotri"
     [h "handle"; u4 "uplo"; i4 "n"; p "A"; i4 "lda"; p "work"; i4 "lwork"; p "devInfo"] code;
   aborts 653 "cusolverDnZpotri"
     [h "handle"; u4 "uplo"; i4 "n"; p "A"; i4 "lda"; p "work"; i4 "lwork"; p "devInfo"] code;
   aborts 654 "cusolverDnStrtri_bufferSize"
     [h "handle"; u4 "uplo"; u4 "diag"; i4 "n"; p "A"; i4 "lda"; p "lwork"] code;
   aborts 655 "cusolverDnDtrtri_bufferSize"
     [h "handle"; u4 "uplo"; u4 "diag"; i4 "n"; p "A"; i4 "lda"; p "lwork"] code].

Definition cusolver_7 : list aborting :=
  [aborts 656 "cusolverDnCtrtri_bufferSize"
     [h "handle"; u4 "uplo"; u4 "diag"; i4 "n"; p "A"; i4 "lda"; p "lwork"] code;
   aborts 657 "cusolverDnZtrtri_bufferSize"
     [h "handle"; u4 "uplo"; u4 "diag"; i4 "n"; p "A"; i4 "lda"; p "lwork"] code;
   aborts 658 "cusolverDnStrtri"
     [h "handle"; u4 "uplo"; u4 "diag"; i4 "n"; p "A"; i4 "lda"; p "work"; i4 "lwork"; p "devInfo"] code;
   aborts 659 "cusolverDnDtrtri"
     [h "handle"; u4 "uplo"; u4 "diag"; i4 "n"; p "A"; i4 "lda"; p "work"; i4 "lwork"; p "devInfo"] code;
   aborts 660 "cusolverDnCtrtri"
     [h "handle"; u4 "uplo"; u4 "diag"; i4 "n"; p "A"; i4 "lda"; p "work"; i4 "lwork"; p "devInfo"] code;
   aborts 661 "cusolverDnZtrtri"
     [h "handle"; u4 "uplo"; u4 "diag"; i4 "n"; p "A"; i4 "lda"; p "work"; i4 "lwork"; p "devInfo"] code].

Definition cusolver_8 : list aborting :=
  [aborts 662 "cusolverDnSlauum_bufferSize"
     [h "handle"; u4 "uplo"; i4 "n"; p "A"; i4 "lda"; p "lwork"] code;
   aborts 663 "cusolverDnDlauum_bufferSize"
     [h "handle"; u4 "uplo"; i4 "n"; p "A"; i4 "lda"; p "lwork"] code;
   aborts 664 "cusolverDnClauum_bufferSize"
     [h "handle"; u4 "uplo"; i4 "n"; p "A"; i4 "lda"; p "lwork"] code;
   aborts 665 "cusolverDnZlauum_bufferSize"
     [h "handle"; u4 "uplo"; i4 "n"; p "A"; i4 "lda"; p "lwork"] code;
   aborts 666 "cusolverDnSlauum"
     [h "handle"; u4 "uplo"; i4 "n"; p "A"; i4 "lda"; p "work"; i4 "lwork"; p "devInfo"] code;
   aborts 667 "cusolverDnDlauum"
     [h "handle"; u4 "uplo"; i4 "n"; p "A"; i4 "lda"; p "work"; i4 "lwork"; p "devInfo"] code;
   aborts 668 "cusolverDnClauum"
     [h "handle"; u4 "uplo"; i4 "n"; p "A"; i4 "lda"; p "work"; i4 "lwork"; p "devInfo"] code;
   aborts 669 "cusolverDnZlauum"
     [h "handle"; u4 "uplo"; i4 "n"; p "A"; i4 "lda"; p "work"; i4 "lwork"; p "devInfo"] code].

Definition cusolver_9 : list aborting :=
  [aborts 670 "cusolverDnSgetrf_bufferSize" [h "handle"; i4 "m"; i4 "n"; p "A"; i4 "lda"; p "Lwork"] code;
   aborts 671 "cusolverDnDgetrf_bufferSize" [h "handle"; i4 "m"; i4 "n"; p "A"; i4 "lda"; p "Lwork"] code;
   aborts 672 "cusolverDnCgetrf_bufferSize" [h "handle"; i4 "m"; i4 "n"; p "A"; i4 "lda"; p "Lwork"] code;
   aborts 673 "cusolverDnZgetrf_bufferSize" [h "handle"; i4 "m"; i4 "n"; p "A"; i4 "lda"; p "Lwork"] code].

Definition cusolver_10 : list aborting :=
  [aborts 674 "cusolverDnSgetrf"
     [h "handle"; i4 "m"; i4 "n"; p "A"; i4 "lda"; p "Workspace"; p "devIpiv"; p "devInfo"] code;
   aborts 675 "cusolverDnDgetrf"
     [h "handle"; i4 "m"; i4 "n"; p "A"; i4 "lda"; p "Workspace"; p "devIpiv"; p "devInfo"] code;
   aborts 676 "cusolverDnCgetrf"
     [h "handle"; i4 "m"; i4 "n"; p "A"; i4 "lda"; p "Workspace"; p "devIpiv"; p "devInfo"] code;
   aborts 677 "cusolverDnZgetrf"
     [h "handle"; i4 "m"; i4 "n"; p "A"; i4 "lda"; p "Workspace"; p "devIpiv"; p "devInfo"] code].

Definition cusolver_11 : list aborting :=
  [aborts 678 "cusolverDnSlaswp"
     [h "handle"; i4 "n"; p "A"; i4 "lda"; i4 "k1"; i4 "k2"; p "devIpiv"; i4 "incx"] code;
   aborts 679 "cusolverDnDlaswp"
     [h "handle"; i4 "n"; p "A"; i4 "lda"; i4 "k1"; i4 "k2"; p "devIpiv"; i4 "incx"] code;
   aborts 680 "cusolverDnClaswp"
     [h "handle"; i4 "n"; p "A"; i4 "lda"; i4 "k1"; i4 "k2"; p "devIpiv"; i4 "incx"] code;
   aborts 681 "cusolverDnZlaswp"
     [h "handle"; i4 "n"; p "A"; i4 "lda"; i4 "k1"; i4 "k2"; p "devIpiv"; i4 "incx"] code].

Definition cusolver_12 : list aborting :=
  [aborts 682 "cusolverDnSgetrs"
     [h "handle"; u4 "trans"; i4 "n"; i4 "nrhs"; p "A"; i4 "lda"; p "devIpiv"; p "B"; i4 "ldb"; p "devInfo"] code;
   aborts 683 "cusolverDnDgetrs"
     [h "handle"; u4 "trans"; i4 "n"; i4 "nrhs"; p "A"; i4 "lda"; p "devIpiv"; p "B"; i4 "ldb"; p "devInfo"] code;
   aborts 684 "cusolverDnCgetrs"
     [h "handle"; u4 "trans"; i4 "n"; i4 "nrhs"; p "A"; i4 "lda"; p "devIpiv"; p "B"; i4 "ldb"; p "devInfo"] code;
   aborts 685 "cusolverDnZgetrs"
     [h "handle"; u4 "trans"; i4 "n"; i4 "nrhs"; p "A"; i4 "lda"; p "devIpiv"; p "B"; i4 "ldb"; p "devInfo"] code].

Definition cusolver_13 : list aborting :=
  [aborts 686 "cusolverDnSgeqrf_bufferSize" [h "handle"; i4 "m"; i4 "n"; p "A"; i4 "lda"; p "lwork"] code;
   aborts 687 "cusolverDnDgeqrf_bufferSize" [h "handle"; i4 "m"; i4 "n"; p "A"; i4 "lda"; p "lwork"] code;
   aborts 688 "cusolverDnCgeqrf_bufferSize" [h "handle"; i4 "m"; i4 "n"; p "A"; i4 "lda"; p "lwork"] code;
   aborts 689 "cusolverDnZgeqrf_bufferSize" [h "handle"; i4 "m"; i4 "n"; p "A"; i4 "lda"; p "lwork"] code;
   aborts 690 "cusolverDnSgeqrf"
     [h "handle"; i4 "m"; i4 "n"; p "A"; i4 "lda"; p "TAU"; p "Workspace"; i4 "Lwork"; p "devInfo"] code;
   aborts 691 "cusolverDnDgeqrf"
     [h "handle"; i4 "m"; i4 "n"; p "A"; i4 "lda"; p "TAU"; p "Workspace"; i4 "Lwork"; p "devInfo"] code;
   aborts 692 "cusolverDnCgeqrf"
     [h "handle"; i4 "m"; i4 "n"; p "A"; i4 "lda"; p "TAU"; p "Workspace"; i4 "Lwork"; p "devInfo"] code;
   aborts 693 "cusolverDnZgeqrf"
     [h "handle"; i4 "m"; i4 "n"; p "A"; i4 "lda"; p "TAU"; p "Workspace"; i4 "Lwork"; p "devInfo"] code].

Definition cusolver_14 : list aborting :=
  [aborts 694 "cusolverDnSorgqr_bufferSize"
     [h "handle"; i4 "m"; i4 "n"; i4 "k"; p "A"; i4 "lda"; p "tau"; p "lwork"] code;
   aborts 695 "cusolverDnDorgqr_bufferSize"
     [h "handle"; i4 "m"; i4 "n"; i4 "k"; p "A"; i4 "lda"; p "tau"; p "lwork"] code;
   aborts 696 "cusolverDnCungqr_bufferSize"
     [h "handle"; i4 "m"; i4 "n"; i4 "k"; p "A"; i4 "lda"; p "tau"; p "lwork"] code;
   aborts 697 "cusolverDnZungqr_bufferSize"
     [h "handle"; i4 "m"; i4 "n"; i4 "k"; p "A"; i4 "lda"; p "tau"; p "lwork"] code;
   aborts 698 "cusolverDnSorgqr"
     [h "handle"; i4 "m"; i4 "n"; i4 "k"; p "A"; i4 "lda"; p "tau"; p "work"; i4 "lwork"; p "info"] code;
   aborts 699 "cusolverDnDorgqr"
     [h "handle"; i4 "m"; i4 "n"; i4 "k"; p "A"; i4 "lda"; p "tau"; p "work"; i4 "lwork"; p "info"] code;
   aborts 700 "cusolverDnCungqr"
     [h "handle"; i4 "m"; i4 "n"; i4 "k"; p "A"; i4 "lda"; p "tau"; p "work"; i4 "lwork"; p "info"] code;
   aborts 701 "cusolverDnZungqr"
     [h "handle"; i4 "m"; i4 "n"; i4 "k"; p "A"; i4 "lda"; p "tau"; p "work"; i4 "lwork"; p "info"] code].

Definition cusolver_15 : list aborting :=
  [aborts 702 "cusolverDnSormqr_bufferSize"
     [h "handle"; u4 "side"; u4 "trans"; i4 "m"; i4 "n"; i4 "k"; p "A"; i4 "lda"; p "tau"; p "C"; i4 "ldc";
      p "lwork"] code;
   aborts 703 "cusolverDnDormqr_bufferSize"
     [h "handle"; u4 "side"; u4 "trans"; i4 "m"; i4 "n"; i4 "k"; p "A"; i4 "lda"; p "tau"; p "C"; i4 "ldc";
      p "lwork"] code;
   aborts 704 "cusolverDnCunmqr_bufferSize"
     [h "handle"; u4 "side"; u4 "trans"; i4 "m"; i4 "n"; i4 "k"; p "A"; i4 "lda"; p "tau"; p "C"; i4 "ldc";
      p "lwork"] code;
   aborts 705 "cusolverDnZunmqr_bufferSize"
     [h "handle"; u4 "side"; u4 "trans"; i4 "m"; i4 "n"; i4 "k"; p "A"; i4 "lda"; p "tau"; p "C"; i4 "ldc";
      p "lwork"] code;
   aborts 706 "cusolverDnSormqr"
     [h "handle"; u4 "side"; u4 "trans"; i4 "m"; i4 "n"; i4 "k"; p "A"; i4 "lda"; p "tau"; p "C"; i4 "ldc";
      p "work"; i4 "lwork"; p "devInfo"] code;
   aborts 707 "cusolverDnDormqr"
     [h "handle"; u4 "side"; u4 "trans"; i4 "m"; i4 "n"; i4 "k"; p "A"; i4 "lda"; p "tau"; p "C"; i4 "ldc";
      p "work"; i4 "lwork"; p "devInfo"] code;
   aborts 708 "cusolverDnCunmqr"
     [h "handle"; u4 "side"; u4 "trans"; i4 "m"; i4 "n"; i4 "k"; p "A"; i4 "lda"; p "tau"; p "C"; i4 "ldc";
      p "work"; i4 "lwork"; p "devInfo"] code].

Definition cusolver_16 : list aborting :=
  [aborts 709 "cusolverDnZunmqr"
     [h "handle"; u4 "side"; u4 "trans"; i4 "m"; i4 "n"; i4 "k"; p "A"; i4 "lda"; p "tau"; p "C"; i4 "ldc";
      p "work"; i4 "lwork"; p "devInfo"] code].

Definition cusolver_17 : list aborting :=
  [aborts 710 "cusolverDnSsytrf_bufferSize" [h "handle"; i4 "n"; p "A"; i4 "lda"; p "lwork"] code;
   aborts 711 "cusolverDnDsytrf_bufferSize" [h "handle"; i4 "n"; p "A"; i4 "lda"; p "lwork"] code;
   aborts 712 "cusolverDnCsytrf_bufferSize" [h "handle"; i4 "n"; p "A"; i4 "lda"; p "lwork"] code;
   aborts 713 "cusolverDnZsytrf_bufferSize" [h "handle"; i4 "n"; p "A"; i4 "lda"; p "lwork"] code;
   aborts 714 "cusolverDnSsytrf"
     [h "handle"; u4 "uplo"; i4 "n"; p "A"; i4 "lda"; p "ipiv"; p "work"; i4 "lwork"; p "info"] code;
   aborts 715 "cusolverDnDsytrf"
     [h "handle"; u4 "uplo"; i4 "n"; p "A"; i4 "lda"; p "ipiv"; p "work"; i4 "lwork"; p "info"] code;
   aborts 716 "cusolverDnCsytrf"
     [h "handle"; u4 "uplo"; i4 "n"; p "A"; i4 "lda"; p "ipiv"; p "work"; i4 "lwork"; p "info"] code;
   aborts 717 "cusolverDnZsytrf"
     [h "handle"; u4 "uplo"; i4 "n"; p "A"; i4 "lda"; p "ipiv"; p "work"; i4 "lwork"; p "info"] code].

Definition cusolver_18 : list aborting :=
  [aborts 718 "cusolverDnSsytrs_bufferSize"
     [h "handle"; u4 "uplo"; i4 "n"; i4 "nrhs"; p "A"; i4 "lda"; p "ipiv"; p "B"; i4 "ldb"; p "lwork"] code;
   aborts 719 "cusolverDnDsytrs_bufferSize"
     [h "handle"; u4 "uplo"; i4 "n"; i4 "nrhs"; p "A"; i4 "lda"; p "ipiv"; p "B"; i4 "ldb"; p "lwork"] code;
   aborts 720 "cusolverDnCsytrs_bufferSize"
     [h "handle"; u4 "uplo"; i4 "n"; i4 "nrhs"; p "A"; i4 "lda"; p "ipiv"; p "B"; i4 "ldb"; p "lwork"] code;
   aborts 721 "cusolverDnZsytrs_bufferSize"
     [h "handle"; u4 "uplo"; i4 "n"; i4 "nrhs"; p "A"; i4 "lda"; p "ipiv"; p "B"; i4 "ldb"; p "lwork"] code;
   aborts 722 "cusolverDnSsytrs"
     [h "handle"; u4 "uplo"; i4 "n"; i4 "nrhs"; p "A"; i4 "lda"; p "ipiv"; p "B"; i4 "ldb"; p "work";
      i4 "lwork"; p "info"] code;
   aborts 723 "cusolverDnDsytrs"
     [h "handle"; u4 "uplo"; i4 "n"; i4 "nrhs"; p "A"; i4 "lda"; p "ipiv"; p "B"; i4 "ldb"; p "work";
      i4 "lwork"; p "info"] code;
   aborts 724 "cusolverDnCsytrs"
     [h "handle"; u4 "uplo"; i4 "n"; i4 "nrhs"; p "A"; i4 "lda"; p "ipiv"; p "B"; i4 "ldb"; p "work";
      i4 "lwork"; p "info"] code;
   aborts 725 "cusolverDnZsytrs"
     [h "handle"; u4 "uplo"; i4 "n"; i4 "nrhs"; p "A"; i4 "lda"; p "ipiv"; p "B"; i4 "ldb"; p "work";
      i4 "lwork"; p "info"] code].

Definition cusolver_19 : list aborting :=
  [aborts 726 "cusolverDnSsytri_bufferSize"
     [h "handle"; u4 "uplo"; i4 "n"; p "A"; i4 "lda"; p "ipiv"; p "lwork"] code;
   aborts 727 "cusolverDnDsytri_bufferSize"
     [h "handle"; u4 "uplo"; i4 "n"; p "A"; i4 "lda"; p "ipiv"; p "lwork"] code;
   aborts 728 "cusolverDnCsytri_bufferSize"
     [h "handle"; u4 "uplo"; i4 "n"; p "A"; i4 "lda"; p "ipiv"; p "lwork"] code;
   aborts 729 "cusolverDnZsytri_bufferSize"
     [h "handle"; u4 "uplo"; i4 "n"; p "A"; i4 "lda"; p "ipiv"; p "lwork"] code;
   aborts 730 "cusolverDnSsytri"
     [h "handle"; u4 "uplo"; i4 "n"; p "A"; i4 "lda"; p "ipiv"; p "work"; i4 "lwork"; p "info"] code;
   aborts 731 "cusolverDnDsytri"
     [h "handle"; u4 "uplo"; i4 "n"; p "A"; i4 "lda"; p "ipiv"; p "work"; i4 "lwork"; p "info"] code;
   aborts 732 "cusolverDnCsytri"
     [h "handle"; u4 "uplo"; i4 "n"; p "A"; i4 "lda"; p "ipiv"; p "work"; i4 "lwork"; p "info"] code;
   aborts 733 "cusolverDnZsytri"
     [h "handle"; u4 "uplo"; i4 "n"; p "A"; i4 "lda"; p "ipiv"; p "work"; i4 "lwork"; p "info"] code].

Definition cusolver_20 : list aborting :=
  [aborts 734 "cusolverDnSgebrd_bufferSize" [h "handle"; i4 "m"; i4 "n"; p "Lwork"] code;
   aborts 735 "cusolverDnDgebrd_bufferSize" [h "handle"; i4 "m"; i4 "n"; p "Lwork"] code;
   aborts 736 "cusolverDnCgebrd_bufferSize" [h "handle"; i4 "m"; i4 "n"; p "Lwork"] code;
   aborts 737 "cusolverDnZgebrd_bufferSize" [h "handle"; i4 "m"; i4 "n"; p "Lwork"] code;
   aborts 738 "cusolverDnSgebrd"
     [h "handle"; i4 "m"; i4 "n"; p "A"; i4 "lda"; p "D"; p "E"; p "TAUQ"; p "TAUP"; p "Work"; i4 "Lwork";
      p "devInfo"] code;
   aborts 739 "cusolverDnDgebrd"
     [h "handle"; i4 "m"; i4 "n"; p "A"; i4 "lda"; p "D"; p "E"; p "TAUQ"; p "TAUP"; p "Work"; i4 "Lwork";
      p "devInfo"] code;
   aborts 740 "cusolverDnCgebrd"
     [h "handle"; i4 "m"; i4 "n"; p "A"; i4 "lda"; p "D"; p "E"; p "TAUQ"; p "TAUP"; p "Work"; i4 "Lwork";
      p "devInfo"] code;
   aborts 741 "cusolverDnZgebrd"
     [h "handle"; i4 "m"; i4 "n"; p "A"; i4 "lda"; p "D"; p "E"; p "TAUQ"; p "TAUP"; p "Work"; i4 "Lwork";
      p "devInfo"] code].

Definition cusolver_21 : list aborting :=
  [aborts 742 "cusolverDnSorgbr_bufferSize"
     [h "handle"; u4 "side"; i4 "m"; i4 "n"; i4 "k"; p "A"; i4 "lda"; p "tau"; p "lwork"] code;
   aborts 743 "cusolverDnDorgbr_bufferSize"
     [h "handle"; u4 "side"; i4 "m"; i4 "n"; i4 "k"; p "A"; i4 "lda"; p "tau"; p "lwork"] code;
   aborts 744 "cusolverDnCungbr_bufferSize"
     [h "handle"; u4 "side"; i4 "m"; i4 "n"; i4 "k"; p "A"; i4 "lda"; p "tau"; p "lwork"] code;
   aborts 745 "cusolverDnZungbr_bufferSize"
     [h "handle"; u4 "side"; i4 "m"; i4 "n"; i4 "k"; p "A"; i4 "lda"; p "tau"; p "lwork"] code;
   aborts 746 "cusolverDnSorgbr"
     [h "handle"; u4 "side"; i4 "m"; i4 "n"; i4 "k"; p "A"; i4 "lda"; p "tau"; p "work"; i4 "lwork";
      p "info"] code;
   aborts 747 "cusolverDnDorgbr"
     [h "handle"; u4 "side"; i4 "m"; i4 "n"; i4 "k"; p "A"; i4 "lda"; p "tau"; p "work"; i4 "lwork";
      p "info"] code;
   aborts 748 "cusolverDnCungbr"
     [h "handle"; u4 "side"; i4 "m"; i4 "n"; i4 "k"; p "A"; i4 "lda"; p "tau"; p "work"; i4 "lwork";
      p "info"] code;
   aborts 749 "cusolverDnZungbr"
     [h "handle"; u4 "side"; i4 "m"; i4 "n"; i4 "k"; p "A"; i4 "lda"; p "tau"; p "work"; i4 "lwork";
      p "info"] code].

Definition cusolver_22 : list aborting :=
  [aborts 750 "cusolverDnSsytrd_bufferSize"
     [h "handle"; u4 "uplo"; i4 "n"; p "A"; i4 "lda"; p "d"; p "e"; p "tau"; p "lwork"] code;
   aborts 751 "cusolverDnDsytrd_bufferSize"
     [h "handle"; u4 "uplo"; i4 "n"; p "A"; i4 "lda"; p "d"; p "e"; p "tau"; p "lwork"] code;
   aborts 752 "cusolverDnChetrd_bufferSize"
     [h "handle"; u4 "uplo"; i4 "n"; p "A"; i4 "lda"; p "d"; p "e"; p "tau"; p "lwork"] code;
   aborts 753 "cusolverDnZhetrd_bufferSize"
     [h "handle"; u4 "uplo"; i4 "n"; p "A"; i4 "lda"; p "d"; p "e"; p "tau"; p "lwork"] code].

Definition cusolver_23 : list aborting :=
  [aborts 754 "cusolverDnSsytrd"
     [h "handle"; u4 "uplo"; i4 "n"; p "A"; i4 "lda"; p "d"; p "e"; p "tau"; p "work"; i4 "lwork"; p "info"] code;
   aborts 755 "cusolverDnDsytrd"
     [h "handle"; u4 "uplo"; i4 "n"; p "A"; i4 "lda"; p "d"; p "e"; p "tau"; p "work"; i4 "lwork"; p "info"] code;
   aborts 756 "cusolverDnChetrd"
     [h "handle"; u4 "uplo"; i4 "n"; p "A"; i4 "lda"; p "d"; p "e"; p "tau"; p "work"; i4 "lwork"; p "info"] code;
   aborts 757 "cusolverDnZhetrd"
     [h "handle"; u4 "uplo"; i4 "n"; p "A"; i4 "lda"; p "d"; p "e"; p "tau"; p "work"; i4 "lwork"; p "info"] code].

Definition cusolver_24 : list aborting :=
  [aborts 758 "cusolverDnSorgtr_bufferSize"
     [h "handle"; u4 "uplo"; i4 "n"; p "A"; i4 "lda"; p "tau"; p "lwork"] code;
   aborts 759 "cusolverDnDorgtr_bufferSize"
     [h "handle"; u4 "uplo"; i4 "n"; p "A"; i4 "lda"; p "tau"; p "lwork"] code;
   aborts 760 "cusolverDnCungtr_bufferSize"
     [h "handle"; u4 "uplo"; i4 "n"; p "A"; i4 "lda"; p "tau"; p "lwork"] code;
   aborts 761 "cusolverDnZungtr_bufferSize"
     [h "handle"; u4 "uplo"; i4 "n"; p "A"; i4 "lda"; p "tau"; p "lwork"] code;
   aborts 762 "cusolverDnSorgtr"
     [h "handle"; u4 "uplo"; i4 "n"; p "A"; i4 "lda"; p "tau"; p "work"; i4 "lwork"; p "info"] code;
   aborts 763 "cusolverDnDorgtr"
     [h "handle"; u4 "uplo"; i4 "n"; p "A"; i4 "lda"; p "tau"; p "work"; i4 "lwork"; p "info"] code;
   aborts 764 "cusolverDnCungtr"
     [h "handle"; u4 "uplo"; i4 "n"; p "A"; i4 "lda"; p "tau"; p "work"; i4 "lwork"; p "info"] code;
   aborts 765 "cusolverDnZungtr"
     [h "handle"; u4 "uplo"; i4 "n"; p "A"; i4 "lda"; p "tau"; p "work"; i4 "lwork"; p "info"] code].

Definition cusolver_25 : list aborting :=
  [aborts 766 "cusolverDnSormtr_bufferSize"
     [h "handle"; u4 "side"; u4 "uplo"; u4 "trans"; i4 "m"; i4 "n"; p "A"; i4 "lda"; p "tau"; p "C";
      i4 "ldc"; p "lwork"] code;
   aborts 767 "cusolverDnDormtr_bufferSize"
     [h "handle"; u4 "side"; u4 "uplo"; u4 "trans"; i4 "m"; i4 "n"; p "A"; i4 "lda"; p "tau"; p "C";
      i4 "ldc"; p "lwork"] code;
   aborts 768 "cusolverDnCunmtr_bufferSize"
     [h "handle"; u4 "side"; u4 "uplo"; u4 "trans"; i4 "m"; i4 "n"; p "A"; i4 "lda"; p "tau"; p "C";
      i4 "ldc"; p "lwork"] code;
   aborts 769 "cusolverDnZunmtr_bufferSize"
     [h "handle"; u4 "side"; u4 "uplo"; u4 "trans"; i4 "m"; i4 "n"; p "A"; i4 "lda"; p "tau"; p "C";
      i4 "ldc"; p "lwork"] code;
   aborts 770 "cusolverDnSormtr"
     [h "handle"; u4 "side"; u4 "uplo"; u4 "trans"; i4 "m"; i4 "n"; p "A"; i4 "lda"; p "tau"; p "C";
      i4 "ldc"; p "work"; i4 "lwork"; p "info"] code;
   aborts 771 "cusolverDnDormtr"
     [h "handle"; u4 "side"; u4 "uplo"; u4 "trans"; i4 "m"; i4 "n"; p "A"; i4 "lda"; p "tau"; p "C";
      i4 "ldc"; p "work"; i4 "lwork"; p "info"] code;
   aborts 772 "cusolverDnCunmtr"
     [h "handle"; u4 "side"; u4 "uplo"; u4 "trans"; i4 "m"; i4 "n"; p "A"; i4 "lda"; p "tau"; p "C";
      i4 "ldc"; p "work"; i4 "lwork"; p "info"] code].

Definition cusolver_26 : list aborting :=
  [aborts 773 "cusolverDnZunmtr"
     [h "handle"; u4 "side"; u4 "uplo"; u4 "trans"; i4 "m"; i4 "n"; p "A"; i4 "lda"; p "tau"; p "C";
      i4 "ldc"; p "work"; i4 "lwork"; p "info"] code].

Definition cusolver_27 : list aborting :=
  [aborts 774 "cusolverDnSgesvd_bufferSize" [h "handle"; i4 "m"; i4 "n"; p "lwork"] code;
   aborts 775 "cusolverDnDgesvd_bufferSize" [h "handle"; i4 "m"; i4 "n"; p "lwork"] code;
   aborts 776 "cusolverDnCgesvd_bufferSize" [h "handle"; i4 "m"; i4 "n"; p "lwork"] code;
   aborts 777 "cusolverDnZgesvd_bufferSize" [h "handle"; i4 "m"; i4 "n"; p "lwork"] code;
   aborts 778 "cusolverDnSgesvd"
     [h "handle"; i1 "jobu"; i1 "jobvt"; i4 "m"; i4 "n"; p "A"; i4 "lda"; p "S"; p "U"; i4 "ldu"; p "VT";
      i4 "ldvt"; p "work"; i4 "lwork"; p "rwork"; p "info"] code;
   aborts 779 "cusolverDnDgesvd"
     [h "handle"; i1 "jobu"; i1 "jobvt"; i4 "m"; i4 "n"; p "A"; i4 "lda"; p "S"; p "U"; i4 "ldu"; p "VT";
      i4 "ldvt"; p "work"; i4 "lwork"; p "rwork"; p "info"] code;
   aborts 780 "cusolverDnCgesvd"
     [h "handle"; i1 "jobu"; i1 "jobvt"; i4 "m"; i4 "n"; p "A"; i4 "lda"; p "S"; p "U"; i4 "ldu"; p "VT";
      i4 "ldvt"; p "work"; i4 "lwork"; p "rwork"; p "info"] code;
   aborts 781 "cusolverDnZgesvd"
     [h "handle"; i1 "jobu"; i1 "jobvt"; i4 "m"; i4 "n"; p "A"; i4 "lda"; p "S"; p "U"; i4 "ldu"; p "VT";
      i4 "ldvt"; p "work"; i4 "lwork"; p "rwork"; p "info"] code].

Definition cusolver_28 : list aborting :=
  [aborts 782 "cusolverDnSsyevd_bufferSize"
     [h "handle"; u4 "jobz"; u4 "uplo"; i4 "n"; p "A"; i4 "lda"; p "W"; p "lwork"] code;
   aborts 783 "cusolverDnDsyevd_bufferSize"
     [h "handle"; u4 "jobz"; u4 "uplo"; i4 "n"; p "A"; i4 "lda"; p "W"; p "lwork"] code;
   aborts 784 "cusolverDnCheevd_bufferSize"
     [h "handle"; u4 "jobz"; u4 "uplo"; i4 "n"; p "A"; i4 "lda"; p "W"; p "lwork"] code;
   aborts 785 "cusolverDnZheevd_bufferSize"
     [h "handle"; u4 "jobz"; u4 "uplo"; i4 "n"; p "A"; i4 "lda"; p "W"; p "lwork"] code;
   aborts 786 "cusolverDnSsyevd"
     [h "handle"; u4 "jobz"; u4 "uplo"; i4 "n"; p "A"; i4 "lda"; p "W"; p "work"; i4 "lwork"; p "info"] code;
   aborts 787 "cusolverDnDsyevd"
     [h "handle"; u4 "jobz"; u4 "uplo"; i4 "n"; p "A"; i4 "lda"; p "W"; p "work"; i4 "lwork"; p "info"] code;
   aborts 788 "cusolverDnCheevd"
     [h "handle"; u4 "jobz"; u4 "uplo"; i4 "n"; p "A"; i4 "lda"; p "W"; p "work"; i4 "lwork"; p "info"] code;
   aborts 789 "cusolverDnZheevd"
     [h "handle"; u4 "jobz"; u4 "uplo"; i4 "n"; p "A"; i4 "lda"; p "W"; p "work"; i4 "lwork"; p "info"] code].

Definition cusolver_29 : list aborting :=
  [aborts 790 "cusolverDnSsyevdx_bufferSize"
     [h "handle"; u4 "jobz"; u4 "range"; u4 "uplo"; i4 "n"; p "A"; i4 "lda"; u4 "vl"; u4 "vu"; i4 "il";
      i4 "iu"; p "meig"; p "W"; p "lwork"] code;
   aborts 791 "cusolverDnDsyevdx_bufferSize"
     [h "handle"; u4 "jobz"; u4 "range"; u4 "uplo"; i4 "n"; p "A"; i4 "lda"; u8 "vl"; u8 "vu"; i4 "il";
      i4 "iu"; p "meig"; p "W"; p "lwork"] code;
   aborts 792 "cusolverDnCheevdx_bufferSize"
     [h "handle"; u4 "jobz"; u4 "range"; u4 "uplo"; i4 "n"; p "A"; i4 "lda"; u4 "vl"; u4 "vu"; i4 "il";
      i4 "iu"; p "meig"; p "W"; p "lwork"] code;
   aborts 793 "cusolverDnZheevdx_bufferSize"
     [h "handle"; u4 "jobz"; u4 "range"; u4 "uplo"; i4 "n"; p "A"; i4 "lda"; u8 "vl"; u8 "vu"; i4 "il";
      i4 "iu"; p "meig"; p "W"; p "lwork"] code;
   aborts 794 "cusolverDnSsyevdx"
     [h "handle"; u4 "jobz"; u4 "range"; u4 "uplo"; i4 "n"; p "A"; i4 "lda"; u4 "vl"; u4 "vu"; i4 "il";
      i4 "iu"; p "meig"; p "W"; p "work"; i4 "lwork"; p "info"] code;
   aborts 795 "cusolverDnDsyevdx"
     [h "handle"; u4 "jobz"; u4 "range"; u4 "uplo"; i4 "n"; p "A"; i4 "lda"; u8 "vl"; u8 "vu"; i4 "il";
      i4 "iu"; p "meig"; p "W"; p "work"; i4 "lwork"; p "info"] code].

Definition cusolver_30 : list aborting :=
  [aborts 796 "cusolverDnCheevdx"
     [h "handle"; u4 "jobz"; u4 "range"; u4 "uplo"; i4 "n"; p "A"; i4 "lda"; u4 "vl"; u4 "vu"; i4 "il";
      i4 "iu"; p "meig"; p "W"; p "work"; i4 "lwork"; p "info"] code;
   aborts 797 "cusolverDnZheevdx"
     [h "handle"; u4 "jobz"; u4 "range"; u4 "uplo"; i4 "n"; p "A"; i4 "lda"; u8 "vl"; u8 "vu"; i4 "il";
      i4 "iu"; p "meig"; p "W"; p "work"; i4 "lwork"; p "info"] code].

Definition cusolver_31 : list aborting :=
  [aborts 798 "cusolverDnSsygvdx_bufferSize"
     [h "handle"; u4 "itype"; u4 "jobz"; u4 "range"; u4 "uplo"; i4 "n"; p "A"; i4 "lda"; p "B"; i4 "ldb";
      u4 "vl"; u4 "vu"; i4 "il"; i4 "iu"; p "meig"; p "W"; p "lwork"] code;
   aborts 799 "cusolverDnDsygvdx_bufferSize"
     [h "handle"; u4 "itype"; u4 "jobz"; u4 "range"; u4 "uplo"; i4 "n"; p "A"; i4 "lda"; p "B"; i4 "ldb";
      u8 "vl"; u8 "vu"; i4 "il"; i4 "iu"; p "meig"; p "W"; p "lwork"] code;
   aborts 800 "cusolverDnChegvdx_bufferSize"
     [h "handle"; u4 "itype"; u4 "jobz"; u4 "range"; u4 "uplo"; i4 "n"; p "A"; i4 "lda"; p "B"; i4 "ldb";
      u4 "vl"; u4 "vu"; i4 "il"; i4 "iu"; p "meig"; p "W"; p "lwork"] code;
   aborts 801 "cusolverDnZhegvdx_bufferSize"
     [h "handle"; u4 "itype"; u4 "jobz"; u4 "range"; u4 "uplo"; i4 "n"; p "A"; i4 "lda"; p "B"; i4 "ldb";
      u8 "vl"; u8 "vu"; i4 "il"; i4 "iu"; p "meig"; p "W"; p "lwork"] code].

Definition cusolver_32 : list aborting :=
  [aborts 802 "cusolverDnSsygvdx"
     [h "handle"; u4 "itype"; u4 "jobz"; u4 "range"; u4 "uplo"; i4 "n"; p "A"; i4 "lda"; p "B"; i4 "ldb";
      u4 "vl"; u4 "vu"; i4 "il"; i4 "iu"; p "meig"; p "W"; p "work"; i4 "lwork"; p "info"] code;
   aborts 803 "cusolverDnDsygvdx"
     [h "handle"; u4 "itype"; u4 "jobz"; u4 "range"; u4 "uplo"; i4 "n"; p "A"; i4 "lda"; p "B"; i4 "ldb";
      u8 "vl"; u8 "vu"; i4 "il"; i4 "iu"; p "meig"; p "W"; p "work"; i4 "lwork"; p "info"] code;
   aborts 804 "cusolverDnChegvdx"
     [h "handle"; u4 "itype"; u4 "jobz"; u4 "range"; u4 "uplo"; i4 "n"; p "A"; i4 "lda"; p "B"; i4 "ldb";
      u4 "vl"; u4 "vu"; i4 "il"; i4 "iu"; p "meig"; p "W"; p "work"; i4 "lwork"; p "info"] code;
   aborts 805 "cusolverDnZhegvdx"
     [h "handle"; u4 "itype"; u4 "jobz"; u4 "range"; u4 "uplo"; i4 "n"; p "A"; i4 "lda"; p "B"; i4 "ldb";
      u8 "vl"; u8 "vu"; i4 "il"; i4 "iu"; p "meig"; p "W"; p "work"; i4 "lwork"; p "info"] code].

Definition cusolver_33 : list aborting :=
  [aborts 806 "cusolverDnSsygvd_bufferSize"
     [h "handle"; u4 "itype"; u4 "jobz"; u4 "uplo"; i4 "n"; p "A"; i4 "lda"; p "B"; i4 "ldb"; p "W";
      p "lwork"] code;
   aborts 807 "cusolverDnDsygvd_bufferSize"
     [h "handle"; u4 "itype"; u4 "jobz"; u4 "uplo"; i4 "n"; p "A"; i4 "lda"; p "B"; i4 "ldb"; p "W";
      p "lwork"] code;
   aborts 808 "cusolverDnChegvd_bufferSize"
     [h "handle"; u4 "itype"; u4 "jobz"; u4 "uplo"; i4 "n"; p "A"; i4 "lda"; p "B"; i4 "ldb"; p "W";
      p "lwork"] code;
   aborts 809 "cusolverDnZhegvd_bufferSize"
     [h "handle"; u4 "itype"; u4 "jobz"; u4 "uplo"; i4 "n"; p "A"; i4 "lda"; p "B"; i4 "ldb"; p "W";
      p "lwork"] code].

Definition cusolver_34 : list aborting :=
  [aborts 810 "cusolverDnSsygvd"
     [h "handle"; u4 "itype"; u4 "jobz"; u4 "uplo"; i4 "n"; p "A"; i4 "lda"; p "B"; i4 "ldb"; p "W";
      p "work"; i4 "lwork"; p "info"] code;
   aborts 811 "cusolverDnDsygvd"
     [h "handle"; u4 "itype"; u4 "jobz"; u4 "uplo"; i4 "n"; p "A"; i4 "lda"; p "B"; i4 "ldb"; p "W";
      p "work"; i4 "lwork"; p "info"] code;
   aborts 812 "cusolverDnChegvd"
     [h "handle"; u4 "itype"; u4 "jobz"; u4 "uplo"; i4 "n"; p "A"; i4 "lda"; p "B"; i4 "ldb"; p "W";
      p "work"; i4 "lwork"; p "info"] code;
   aborts 813 "cusolverDnZhegvd"
     [h "handle"; u4 "itype"; u4 "jobz"; u4 "uplo"; i4 "n"; p "A"; i4 "lda"; p "B"; i4 "ldb"; p "W";
      p "work"; i4 "lwork"; p "info"] code].

Definition cusolver_35 : list aborting :=
  [aborts 814 "cusolverDnCreateSyevjInfo" [p "info"] code;
   aborts 815 "cusolverDnDestroySyevjInfo" [h "info"] code;
   aborts 816 "cusolverDnXsyevjSetTolerance" [h "info"; u8 "tolerance"] code;
   aborts 817 "cusolverDnXsyevjSetMaxSweeps" [h "info"; i4 "max_sweeps"] code;
   aborts 818 "cusolverDnXsyevjSetSortEig" [h "info"; i4 "sort_eig"] code;
   aborts 819 "cusolverDnXsyevjGetResidual" [h "handle"; h "info"; p "residual"] code;
   aborts 820 "cusolverDnXsyevjGetSweeps" [h "handle"; h "info"; p "executed_sweeps"] code].

Definition cusolver_36 : list aborting :=
  [aborts 821 "cusolverDnSsyevjBatched_bufferSize"
     [h "handle"; u4 "jobz"; u4 "uplo"; i4 "n"; p "A"; i4 "lda"; p "W"; p "lwork"; h "params";
      i4 "batchSize"] code;
   aborts 822 "cusolverDnDsyevjBatched_bufferSize"
     [h "handle"; u4 "jobz"; u4 "uplo"; i4 "n"; p "A"; i4 "lda"; p "W"; p "lwork"; h "params";
      i4 "batchSize"] code;
   aborts 823 "cusolverDnCheevjBatched_bufferSize"
     [h "handle"; u4 "jobz"; u4 "uplo"; i4 "n"; p "A"; i4 "lda"; p "W"; p "lwork"; h "params";
      i4 "batchSize"] code;
   aborts 824 "cusolverDnZheevjBatched_bufferSize"
     [h "handle"; u4 "jobz"; u4 "uplo"; i4 "n"; p "A"; i4 "lda"; p "W"; p "lwork"; h "params";
      i4 "batchSize"] code].

Definition cusolver_37 : list aborting :=
  [aborts 825 "cusolverDnSsyevjBatched"
     [h "handle"; u4 "jobz"; u4 "uplo"; i4 "n"; p "A"; i4 "lda"; p "W"; p "work"; i4 "lwork"; p "info";
      h "params"; i4 "batchSize"] code;
   aborts 826 "cusolverDnDsyevjBatched"
     [h "handle"; u4 "jobz"; u4 "uplo"; i4 "n"; p "A"; i4 "lda"; p "W"; p "work"; i4 "lwork"; p "info";
      h "params"; i4 "batchSize"] code;
   aborts 827 "cusolverDnCheevjBatched"
     [h "handle"; u4 "jobz"; u4 "uplo"; i4 "n"; p "A"; i4 "lda"; p "W"; p "work"; i4 "lwork"; p "info";
      h "params"; i4 "batchSize"] code;
   aborts 828 "cusolverDnZheevjBatched"
     [h "handle"; u4 "jobz"; u4 "uplo"; i4 "n"; p "A"; i4 "lda"; p "W"; p "work"; i4 "lwork"; p "info";
      h "params"; i4 "batchSize"] code].

Definition cusolver_38 : list aborting :=
  [aborts 829 "cusolverDnSsyevj_bufferSize"
     [h "handle"; u4 "jobz"; u4 "uplo"; i4 "n"; p "A"; i4 "lda"; p "W"; p "lwork"; h "params"] code].

Definition cusolver_39 : list aborting :=
  [aborts 830 "cusolverDnDsyevj_bufferSize"
     [h "handle"; u4 "jobz"; u4 "uplo"; i4 "n"; p "A"; i4 "lda"; p "W"; p "lwork"; h "params"] code].

Definition cusolver_40 : list aborting :=
  [aborts 831 "cusolverDnCheevj_bufferSize"
     [h "handle"; u4 "jobz"; u4 "uplo"; i4 "n"; p "A"; i4 "lda"; p "W"; p "lwork"; h "params"] code].

Definition cusolver_41 : list aborting :=
  [aborts 832 "cusolverDnZheevj_bufferSize"
     [h "handle"; u4 "jobz"; u4 "uplo"; i4 "n"; p "A"; i4 "lda"; p "W"; p "lwork"; h "params"] code].

Definition cusolver_42 : list aborting :=
  [aborts 833 "cusolverDnSsyevj"
     [h "handle"; u4 "jobz"; u4 "uplo"; i4 "n"; p "A"; i4 "lda"; p "W"; p "work"; i4 "lwork"; p "info";
      h "params"] code].

Definition cusolver_43 : list aborting :=
  [aborts 834 "cusolverDnDsyevj"
     [h "handle"; u4 "jobz"; u4 "uplo"; i4 "n"; p "A"; i4 "lda"; p "W"; p "work"; i4 "lwork"; p "info";
      h "params"] code].

Definition cusolver_44 : list aborting :=
  [aborts 835 "cusolverDnCheevj"
     [h "handle"; u4 "jobz"; u4 "uplo"; i4 "n"; p "A"; i4 "lda"; p "W"; p "work"; i4 "lwork"; p "info";
      h "params"] code].

Definition cusolver_45 : list aborting :=
  [aborts 836 "cusolverDnZheevj"
     [h "handle"; u4 "jobz"; u4 "uplo"; i4 "n"; p "A"; i4 "lda"; p "W"; p "work"; i4 "lwork"; p "info";
      h "params"] code].

Definition cusolver_46 : list aborting :=
  [aborts 837 "cusolverDnSsygvj_bufferSize"
     [h "handle"; u4 "itype"; u4 "jobz"; u4 "uplo"; i4 "n"; p "A"; i4 "lda"; p "B"; i4 "ldb"; p "W";
      p "lwork"; h "params"] code;
   aborts 838 "cusolverDnDsygvj_bufferSize"
     [h "handle"; u4 "itype"; u4 "jobz"; u4 "uplo"; i4 "n"; p "A"; i4 "lda"; p "B"; i4 "ldb"; p "W";
      p "lwork"; h "params"] code;
   aborts 839 "cusolverDnChegvj_bufferSize"
     [h "handle"; u4 "itype"; u4 "jobz"; u4 "uplo"; i4 "n"; p "A"; i4 "lda"; p "B"; i4 "ldb"; p "W";
      p "lwork"; h "params"] code;
   aborts 840 "cusolverDnZhegvj_bufferSize"
     [h "handle"; u4 "itype"; u4 "jobz"; u4 "uplo"; i4 "n"; p "A"; i4 "lda"; p "B"; i4 "ldb"; p "W";
      p "lwork"; h "params"] code;
   aborts 841 "cusolverDnSsygvj"
     [h "handle"; u4 "itype"; u4 "jobz"; u4 "uplo"; i4 "n"; p "A"; i4 "lda"; p "B"; i4 "ldb"; p "W";
      p "work"; i4 "lwork"; p "info"; h "params"] code;
   aborts 842 "cusolverDnDsygvj"
     [h "handle"; u4 "itype"; u4 "jobz"; u4 "uplo"; i4 "n"; p "A"; i4 "lda"; p "B"; i4 "ldb"; p "W";
      p "work"; i4 "lwork"; p "info"; h "params"] code;
   aborts 843 "cusolverDnChegvj"
     [h "handle"; u4 "itype"; u4 "jobz"; u4 "uplo"; i4 "n"; p "A"; i4 "lda"; p "B"; i4 "ldb"; p "W";
      p "work"; i4 "lwork"; p "info"; h "params"] code].

Definition cusolver_47 : list aborting :=
  [aborts 844 "cusolverDnZhegvj"
     [h "handle"; u4 "itype"; u4 "jobz"; u4 "uplo"; i4 "n"; p "A"; i4 "lda"; p "B"; i4 "ldb"; p "W";
      p "work"; i4 "lwork"; p "info"; h "params"] code].

Definition cusolver_48 : list aborting :=
  [aborts 845 "cusolverDnCreateGesvdjInfo" [p "info"] code;
   aborts 846 "cusolverDnDestroyGesvdjInfo" [h "info"] code;
   aborts 847 "cusolverDnXgesvdjSetTolerance" [h "info"; u8 "tolerance"] code;
   aborts 848 "cusolverDnXgesvdjSetMaxSweeps" [h "info"; i4 "max_sweeps"] code;
   aborts 849 "cusolverDnXgesvdjSetSortEig" [h "info"; i4 "sort_svd"] code;
   aborts 850 "cusolverDnXgesvdjGetResidual" [h "handle"; h "info"; p "residual"] code;
   aborts 851 "cusolverDnXgesvdjGetSweeps" [h "handle"; h "info"; p "executed_sweeps"] code;
   aborts 852 "cusolverDnSgesvdjBatched_bufferSize"
     [h "handle"; u4 "jobz"; i4 "m"; i4 "n"; p "A"; i4 "lda"; p "S"; p "U"; i4 "ldu"; p "V"; i4 "ldv";
      p "lwork"; h "params"; i4 "batchSize"] code;
   aborts 853 "cusolverDnDgesvdjBatched_bufferSize"
     [h "handle"; u4 "jobz"; i4 "m"; i4 "n"; p "A"; i4 "lda"; p "S"; p "U"; i4 "ldu"; p "V"; i4 "ldv";
      p "lwork"; h "params"; i4 "batchSize"] code;
   aborts 854 "cusolverDnCgesvdjBatched_bufferSize"
     [h "handle"; u4 "jobz"; i4 "m"; i4 "n"; p "A"; i4 "lda"; p "S"; p "U"; i4 "ldu"; p "V"; i4 "ldv";
      p "lwork"; h "params"; i4 "batchSize"] code;
   aborts 855 "cusolverDnZgesvdjBatched_bufferSize"
     [h "handle"; u4 "jobz"; i4 "m"; i4 "n"; p "A"; i4 "lda"; p "S"; p "U"; i4 "ldu"; p "V"; i4 "ldv";
      p "lwork"; h "params"; i4 "batchSize"] code].

Definition cusolver_49 : list aborting :=
  [aborts 856 "cusolverDnSgesvdjBatched"
     [h "handle"; u4 "jobz"; i4 "m"; i4 "n"; p "A"; i4 "lda"; p "S"; p "U"; i4 "ldu"; p "V"; i4 "ldv";
      p "work"; i4 "lwork"; p "info"; h "params"; i4 "batchSize"] code;
   aborts 857 "cusolverDnDgesvdjBatched"
     [h "handle"; u4 "jobz"; i4 "m"; i4 "n"; p "A"; i4 "lda"; p "S"; p "U"; i4 "ldu"; p "V"; i4 "ldv";
      p "work"; i4 "lwork"; p "info"; h "params"; i4 "batchSize"] code;
   aborts 858 "cusolverDnCgesvdjBatched"
     [h "handle"; u4 "jobz"; i4 "m"; i4 "n"; p "A"; i4 "lda"; p "S"; p "U"; i4 "ldu"; p "V"; i4 "ldv";
      p "work"; i4 "lwork"; p "info"; h "params"; i4 "batchSize"] code;
   aborts 859 "cusolverDnZgesvdjBatched"
     [h "handle"; u4 "jobz"; i4 "m"; i4 "n"; p "A"; i4 "lda"; p "S"; p "U"; i4 "ldu"; p "V"; i4 "ldv";
      p "work"; i4 "lwork"; p "info"; h "params"; i4 "batchSize"] code;
   aborts 860 "cusolverDnSgesvdj_bufferSize"
     [h "handle"; u4 "jobz"; i4 "econ"; i4 "m"; i4 "n"; p "A"; i4 "lda"; p "S"; p "U"; i4 "ldu"; p "V";
      i4 "ldv"; p "lwork"; h "params"] code;
   aborts 861 "cusolverDnDgesvdj_bufferSize"
     [h "handle"; u4 "jobz"; i4 "econ"; i4 "m"; i4 "n"; p "A"; i4 "lda"; p "S"; p "U"; i4 "ldu"; p "V";
      i4 "ldv"; p "lwork"; h "params"] code].

Definition cusolver_50 : list aborting :=
  [aborts 862 "cusolverDnCgesvdj_bufferSize"
     [h "handle"; u4 "jobz"; i4 "econ"; i4 "m"; i4 "n"; p "A"; i4 "lda"; p "S"; p "U"; i4 "ldu"; p "V";
      i4 "ldv"; p "lwork"; h "params"] code;
   aborts 863 "cusolverDnZgesvdj_bufferSize"
     [h "handle"; u4 "jobz"; i4 "econ"; i4 "m"; i4 "n"; p "A"; i4 "lda"; p "S"; p "U"; i4 "ldu"; p "V";
      i4 "ldv"; p "lwork"; h "params"] code;
   aborts 864 "cusolverDnSgesvdj"
     [h "handle"; u4 "jobz"; i4 "econ"; i4 "m"; i4 "n"; p "A"; i4 "lda"; p "S"; p "U"; i4 "ldu"; p "V";
      i4 "ldv"; p "work"; i4 "lwork"; p "info"; h "params"] code;
   aborts 865 "cusolverDnDgesvdj"
     [h "handle"; u4 "jobz"; i4 "econ"; i4 "m"; i4 "n"; p "A"; i4 "lda"; p "S"; p "U"; i4 "ldu"; p "V";
      i4 "ldv"; p "work"; i4 "lwork"; p "info"; h "params"] code;
   aborts 866 "cusolverDnCgesvdj"
     [h "handle"; u4 "jobz"; i4 "econ"; i4 "m"; i4 "n"; p "A"; i4 "lda"; p "S"; p "U"; i4 "ldu"; p "V";
      i4 "ldv"; p "work"; i4 "lwork"; p "info"; h "params"] code;
   aborts 867 "cusolverDnZgesvdj"
     [h "handle"; u4 "jobz"; i4 "econ"; i4 "m"; i4 "n"; p "A"; i4 "lda"; p "S"; p "U"; i4 "ldu"; p "V";
      i4 "ldv"; p "work"; i4 "lwork"; p "info"; h "params"] code].

Definition cusolver_51 : list aborting :=
  [aborts 868 "cusolverDnSgesvdaStridedBatched_bufferSize"
     [h "handle"; u4 "jobz"; i4 "rank"; i4 "m"; i4 "n"; p "d_A"; i4 "lda"; i8 "strideA"; p "d_S";
      i8 "strideS"; p "d_U"; i4 "ldu"; i8 "strideU"; p "d_V"; i4 "ldv"; i8 "strideV"; p "lwork";
      i4 "batchSize"] code].

Definition cusolver_52 : list aborting :=
  [aborts 869 "cusolverDnDgesvdaStridedBatched_bufferSize"
     [h "handle"; u4 "jobz"; i4 "rank"; i4 "m"; i4 "n"; p "d_A"; i4 "lda"; i8 "strideA"; p "d_S";
      i8 "strideS"; p "d_U"; i4 "ldu"; i8 "strideU"; p "d_V"; i4 "ldv"; i8 "strideV"; p "lwork";
      i4 "batchSize"] code].

Definition cusolver_53 : list aborting :=
  [aborts 870 "cusolverDnCgesvdaStridedBatched_bufferSize"
     [h "handle"; u4 "jobz"; i4 "rank"; i4 "m"; i4 "n"; p "d_A"; i4 "lda"; i8 "strideA"; p "d_S";
      i8 "strideS"; p "d_U"; i4 "ldu"; i8 "strideU"; p "d_V"; i4 "ldv"; i8 "strideV"; p "lwork";
      i4 "batchSize"] code;
   aborts 871 "cusolverDnZgesvdaStridedBatched_bufferSize"
     [h "handle"; u4 "jobz"; i4 "rank"; i4 "m"; i4 "n"; p "d_A"; i4 "lda"; i8 "strideA"; p "d_S";
      i8 "strideS"; p "d_U"; i4 "ldu"; i8 "strideU"; p "d_V"; i4 "ldv"; i8 "strideV"; p "lwork";
      i4 "batchSize"] code].

Definition cusolver_54 : list aborting :=
  [aborts 872 "cusolverDnSgesvdaStridedBatched"
     [h "handle"; u4 "jobz"; i4 "rank"; i4 "m"; i4 "n"; p "d_A"; i4 "lda"; i8 "strideA"; p "d_S";
      i8 "strideS"; p "d_U"; i4 "ldu"; i8 "strideU"; p "d_V"; i4 "ldv"; i8 "strideV"; p "d_work";
      i4 "lwork"; p "d_info"; p "h_R_nrmF"; i4 "batchSize"] code].

Definition cusolver_55 : list aborting :=
  [aborts 873 "cusolverDnDgesvdaStridedBatched"
     [h "handle"; u4 "jobz"; i4 "rank"; i4 "m"; i4 "n"; p "d_A"; i4 "lda"; i8 "strideA"; p "d_S";
      i8 "strideS"; p "d_U"; i4 "ldu"; i8 "strideU"; p "d_V"; i4 "ldv"; i8 "strideV"; p "d_work";
      i4 "lwork"; p "d_info"; p "h_R_nrmF"; i4 "batchSize"] code].

Definition cusolver_56 : list aborting :=
  [aborts 874 "cusolverDnCgesvdaStridedBatched"
     [h "handle"; u4 "jobz"; i4 "rank"; i4 "m"; i4 "n"; p "d_A"; i4 "lda"; i8 "strideA"; p "d_S";
      i8 "strideS"; p "d_U"; i4 "ldu"; i8 "strideU"; p "d_V"; i4 "ldv"; i8 "strideV"; p "d_work";
      i4 "lwork"; p "d_info"; p "h_R_nrmF"; i4 "batchSize"] code].

Definition cusolver_57 : list aborting :=
  [aborts 875 "cusolverDnZgesvdaStridedBatched"
     [h "handle"; u4 "jobz"; i4 "rank"; i4 "m"; i4 "n"; p "d_A"; i4 "lda"; i8 "strideA"; p "d_S";
      i8 "strideS"; p "d_U"; i4 "ldu"; i8 "strideU"; p "d_V"; i4 "ldv"; i8 "strideV"; p "d_work";
      i4 "lwork"; p "d_info"; p "h_R_nrmF"; i4 "batchSize"] code].

Definition cusparse_1 : list aborting :=
  [aborts 876 "cusparseCreate" [p "handle"] code;
   aborts 877 "cusparseDestroy" [h "handle"] code;
   aborts 878 "cusparseGetVersion" [h "handle"; p "version"] code;
   aborts 879 "cusparseGetProperty" [u4 "type"; p "value"] code;
   aborts 880 "cusparseSetStream" [h "handle"; h "streamId"] code;
   aborts 881 "cusparseGetStream" [h "handle"; p "streamId"] code;
   aborts 882 "cusparseGetPointerMode" [h "handle"; p "mode"] code;
   aborts 883 "cusparseSetPointerMode" [h "handle"; u4 "mode"] code].

Definition cusparse_2 : list aborting :=
  [aborts 886 "cusparseCreateMatDescr" [p "descrA"] code;
   aborts 887 "cusparseDestroyMatDescr" [h "descrA"] code;
   aborts 888 "cusparseCopyMatDescr" [h "dest"; h "src"] code;
   aborts 889 "cusparseSetMatType" [h "descrA"; u4 "type"] code;
   aborts 890 "cusparseGetMatType" [h "descrA"] code;
   aborts 891 "cusparseSetMatFillMode" [h "descrA"; u4 "fillMode"] code;
   aborts 892 "cusparseGetMatFillMode" [h "descrA"] code;
   aborts 893 "cusparseSetMatDiagType" [h "descrA"; u4 "diagType"] code;
   aborts 894 "cusparseGetMatDiagType" [h "descrA"] code;
   aborts 895 "cusparseSetMatIndexBase" [h "descrA"; u4 "base_"] code;
   aborts 896 "cusparseGetMatIndexBase" [h "descrA"] code;
   aborts 897 "cusparseCreateSolveAnalysisInfo" [p "info"] code;
   aborts 898 "cusparseDestroySolveAnalysisInfo" [h "info"] code;
   aborts 899 "cusparseGetLevelInfo" [h "handle"; h "info"; p "nlevels"; p "levelPtr"; p "levelInd"] code;
   aborts 900 "cusparseCreateCsrsv2Info" [p "info"] code;
   aborts 901 "cusparseDestroyCsrsv2Info" [h "info"] code;
   aborts 902 "cusparseCreateCsric02Info" [p "info"] code].

Definition cusparse_3 : list aborting :=
  [aborts 903 "cusparseDestroyCsric02Info" [h "info"] code;
   aborts 904 "cusparseCreateBsric02Info" [p "info"] code;
   aborts 905 "cusparseDestroyBsric02Info" [h "info"] code;
   aborts 906 "cusparseCreateCsrilu02Info" [p "info"] code;
   aborts 907 "cusparseDestroyCsrilu02Info" [h "info"] code;
   aborts 908 "cusparseCreateBsrilu02Info" [p "info"] code;
   aborts 909 "cusparseDestroyBsrilu02Info" [h "info"] code;
   aborts 910 "cusparseCreateBsrsv2Info" [p "info"] code;
   aborts 911 "cusparseDestroyBsrsv2Info" [h "info"] code;
   aborts 912 "cusparseCreateBsrsm2Info" [p "info"] code;
   aborts 913 "cusparseDestroyBsrsm2Info" [h "info"] code;
   aborts 914 "cusparseCreateHybMat" [p "hybA"] code;
   aborts 915 "cusparseDestroyHybMat" [h "hybA"] code;
   aborts 916 "cusparseCreateCsru2csrInfo" [p "info"] code;
   aborts 917 "cusparseDestroyCsru2csrInfo" [h "info"] code;
   aborts 918 "cusparseCreateColorInfo" [p "info"] code;
   aborts 919 "cusparseDestroyColorInfo" [h "info"] code;
   aborts 920 "cusparseSetColorAlgs" [h "info"; u4 "alg"] code].

Definition cusparse_4 : list aborting :=
  [aborts 921 "cusparseGetColorAlgs" [h "info"; p "alg"] code;
   aborts 922 "cusparseCreatePruneInfo" [p "info"] code;
   aborts 923 "cusparseDestroyPruneInfo" [h "info"] code].

Definition cusparse_5 : list aborting :=
  [aborts 924 "cusparseSaxpyi"
     [h "handle"; i4 "nnz"; p "alpha"; p "xVal"; p "xInd"; p "y"; u4 "idxBase"] code;
   aborts 925 "cusparseDaxpyi"
     [h "handle"; i4 "nnz"; p "alpha"; p "xVal"; p "xInd"; p "y"; u4 "idxBase"] code;
   aborts 926 "cusparseCaxpyi"
     [h "handle"; i4 "nnz"; p "alpha"; p "xVal"; p "xInd"; p "y"; u4 "idxBase"] code;
   aborts 927 "cusparseZaxpyi"
     [h "handle"; i4 "nnz"; p "alpha"; p "xVal"; p "xInd"; p "y"; u4 "idxBase"] code;
   aborts 928 "cusparseSgthr" [h "handle"; i4 "nnz"; p "y"; p "xVal"; p "xInd"; u4 "idxBase"] code;
   aborts 929 "cusparseDgthr" [h "handle"; i4 "nnz"; p "y"; p "xVal"; p "xInd"; u4 "idxBase"] code;
   aborts 930 "cusparseCgthr" [h "handle"; i4 "nnz"; p "y"; p "xVal"; p "xInd"; u4 "idxBase"] code;
   aborts 931 "cusparseZgthr" [h "handle"; i4 "nnz"; p "y"; p "xVal"; p "xInd"; u4 "idxBase"] code;
   aborts 932 "cusparseSgthrz" [h "handle"; i4 "nnz"; p "y"; p "xVal"; p "xInd"; u4 "idxBase"] code;
   aborts 933 "cusparseDgthrz" [h "handle"; i4 "nnz"; p "y"; p "xVal"; p "xInd"; u4 "idxBase"] code;
   aborts 934 "cusparseCgthrz" [h "handle"; i4 "nnz"; p "y"; p "xVal"; p "xInd"; u4 "idxBase"] code].

Definition cusparse_6 : list aborting :=
  [aborts 935 "cusparseZgthrz" [h "handle"; i4 "nnz"; p "y"; p "xVal"; p "xInd"; u4 "idxBase"] code;
   aborts 936 "cusparseSsctr" [h "handle"; i4 "nnz"; p "xVal"; p "xInd"; p "y"; u4 "idxBase"] code;
   aborts 937 "cusparseDsctr" [h "handle"; i4 "nnz"; p "xVal"; p "xInd"; p "y"; u4 "idxBase"] code;
   aborts 938 "cusparseCsctr" [h "handle"; i4 "nnz"; p "xVal"; p "xInd"; p "y"; u4 "idxBase"] code;
   aborts 939 "cusparseZsctr" [h "handle"; i4 "nnz"; p "xVal"; p "xInd"; p "y"; u4 "idxBase"] code;
   aborts 940 "cusparseSroti"
     [h "handle"; i4 "nnz"; p "xVal"; p "xInd"; p "y"; p "c"; p "s"; u4 "idxBase"] code;
   aborts 941 "cusparseDroti"
     [h "handle"; i4 "nnz"; p "xVal"; p "xInd"; p "y"; p "c"; p "s"; u4 "idxBase"] code].

Definition cusparse_7 : list aborting :=
  [aborts 942 "cusparseSgemvi"
     [h "handle"; u4 "transA"; i4 "m"; i4 "n"; p "alpha"; p "A"; i4 "lda"; i4 "nnz"; p "xVal"; p "xInd";
      p "beta"; p "y"; u4 "idxBase"; p "pBuffer"] code;
   aborts 943 "cusparseSgemvi_bufferSize"
     [h "handle"; u4 "transA"; i4 "m"; i4 "n"; i4 "nnz"; p "pBufferSize"] code;
   aborts 944 "cusparseDgemvi"
     [h "handle"; u4 "transA"; i4 "m"; i4 "n"; p "alpha"; p "A"; i4 "lda"; i4 "nnz"; p "xVal"; p "xInd";
      p "beta"; p "y"; u4 "idxBase"; p "pBuffer"] code;
   aborts 945 "cusparseDgemvi_bufferSize"
     [h "handle"; u4 "transA"; i4 "m"; i4 "n"; i4 "nnz"; p "pBufferSize"] code;
   aborts 946 "cusparseCgemvi"
     [h "handle"; u4 "transA"; i4 "m"; i4 "n"; p "alpha"; p "A"; i4 "lda"; i4 "nnz"; p "xVal"; p "xInd";
      p "beta"; p "y"; u4 "idxBase"; p "pBuffer"] code;
   aborts 947 "cusparseCgemvi_bufferSize"
     [h "handle"; u4 "transA"; i4 "m"; i4 "n"; i4 "nnz"; p "pBufferSize"] code;
   aborts 948 "cusparseZgemvi"
     [h "handle"; u4 "transA"; i4 "m"; i4 "n"; p "alpha"; p "A"; i4 "lda"; i4 "nnz"; p "xVal"; p "xInd";
      p "beta"; p "y"; u4 "idxBase"; p "pBuffer"] code;
   aborts 949 "cusparseZgemvi_bufferSize"
     [h "handle"; u4 "transA"; i4 "m"; i4 "n"; i4 "nnz"; p "pBufferSize"] code].

Definition cusparse_8 : list aborting :=
  [aborts 950 "cusparseCsrmvEx_bufferSize"
     [h "handle"; u4 "alg"; u4 "transA"; i4 "m"; i4 "n"; i4 "nnz"; p "alpha"; u4 "alphatype"; h "descrA";
      p "csrValA"; u4 "csrValAtype"; p "csrRowPtrA"; p "csrColIndA"; p "x"; u4 "xtype"; p "beta";
      u4 "betatype"; p "y"; u4 "ytype"; u4 "executiontype"; p "bufferSizeInBytes"] code;
   aborts 951 "cusparseCsrmvEx"
     [h "handle"; u4 "alg"; u4 "transA"; i4 "m"; i4 "n"; i4 "nnz"; p "alpha"; u4 "alphatype"; h "descrA";
      p "csrValA"; u4 "csrValAtype"; p "csrRowPtrA"; p "csrColIndA"; p "x"; u4 "xtype"; p "beta";
      u4 "betatype"; p "y"; u4 "ytype"; u4 "executiontype"; p "buffer"] code;
   aborts 952 "cusparseShybmv"
     [h "handle"; u4 "transA"; p "alpha"; h "descrA"; h "hybA"; p "x"; p "beta"; p "y"] code;
   aborts 953 "cusparseDhybmv"
     [h "handle"; u4 "transA"; p "alpha"; h "descrA"; h "hybA"; p "x"; p "beta"; p "y"] code;
   aborts 954 "cusparseChybmv"
     [h "handle"; u4 "transA"; p "alpha"; h "descrA"; h "hybA"; p "x"; p "beta"; p "y"] code;
   aborts 955 "cusparseZhybmv"
     [h "handle"; u4 "transA"; p "alpha"; h "descrA"; h "hybA"; p "x"; p "beta"; p "y"] code;
   aborts 956 "cusparseSbsrmv"
     [h "handle"; u4 "dirA"; u4 "transA"; i4 "mb"; i4 "nb"; i4 "nnzb"; p "alpha"; h "descrA";
      p "bsrSortedValA"; p "bsrSortedRowPtrA"; p "bsrSortedColIndA"; i4 "blockDim"; p "x"; p "beta"; p "y"] code].

Definition cusparse_9 : list aborting :=
  [aborts 957 "cusparseDbsrmv"
     [h "handle"; u4 "dirA"; u4 "transA"; i4 "mb"; i4 "nb"; i4 "nnzb"; p "alpha"; h "descrA";
      p "bsrSortedValA"; p "bsrSortedRowPtrA"; p "bsrSortedColIndA"; i4 "blockDim"; p "x"; p "beta"; p "y"] code;
   aborts 958 "cusparseCbsrmv"
     [h "handle"; u4 "dirA"; u4 "transA"; i4 "mb"; i4 "nb"; i4 "nnzb"; p "alpha"; h "descrA";
      p "bsrSortedValA"; p "bsrSortedRowPtrA"; p "bsrSortedColIndA"; i4 "blockDim"; p "x"; p "beta"; p "y"] code;
   aborts 959 "cusparseZbsrmv"
     [h "handle"; u4 "dirA"; u4 "transA"; i4 "mb"; i4 "nb"; i4 "nnzb"; p "alpha"; h "descrA";
      p "bsrSortedValA"; p "bsrSortedRowPtrA"; p "bsrSortedColIndA"; i4 "blockDim"; p "x"; p "beta"; p "y"] code;
   aborts 960 "cusparseSbsrxmv"
     [h "handle"; u4 "dirA"; u4 "transA"; i4 "sizeOfMask"; i4 "mb"; i4 "nb"; i4 "nnzb"; p "alpha";
      h "descrA"; p "bsrSortedValA"; p "bsrSortedMaskPtrA"; p "bsrSortedRowPtrA"; p "bsrSortedEndPtrA";
      p "bsrSortedColIndA"; i4 "blockDim"; p "x"; p "beta"; p "y"] code;
   aborts 961 "cusparseDbsrxmv"
     [h "handle"; u4 "dirA"; u4 "transA"; i4 "sizeOfMask"; i4 "mb"; i4 "nb"; i4 "nnzb"; p "alpha";
      h "descrA"; p "bsrSortedValA"; p "bsrSortedMaskPtrA"; p "bsrSortedRowPtrA"; p "bsrSortedEndPtrA";
      p "bsrSortedColIndA"; i4 "blockDim"; p "x"; p "beta"; p "y"] code;
   aborts 962 "cusparseCbsrxmv"
     [h "handle"; u4 "dirA"; u4 "transA"; i4 "sizeOfMask"; i4 "mb"; i4 "nb"; i4 "nnzb"; p "alpha";
      h "descrA"; p "bsrSortedValA"; p "bsrSortedMaskPtrA"; p "bsrSortedRowPtrA"; p "bsrSortedEndPtrA";
      p "bsrSortedColIndA"; i4 "blockDim"; p "x"; p "beta"; p "y"] code].

Definition cusparse_10 : list aborting :=
  [aborts 963 "cusparseZbsrxmv"
     [h "handle"; u4 "dirA"; u4 "transA"; i4 "sizeOfMask"; i4 "mb"; i4 "nb"; i4 "nnzb"; p "alpha";
      h "descrA"; p "bsrSortedValA"; p "bsrSortedMaskPtrA"; p "bsrSortedRowPtrA"; p "bsrSortedEndPtrA";
      p "bsrSortedColIndA"; i4 "blockDim"; p "x"; p "beta"; p "y"] code;
   aborts 964 "cusparseXcsrsv2_zeroPivot" [h "handle"; h "info"; p "position"] code;
   aborts 965 "cusparseScsrsv2_bufferSize"
     [h "handle"; u4 "transA"; i4 "m"; i4 "nnz"; h "descrA"; p "csrSortedValA"; p "csrSortedRowPtrA";
      p "csrSortedColIndA"; h "info"; p "pBufferSizeInBytes"] code;
   aborts 966 "cusparseDcsrsv2_bufferSize"
     [h "handle"; u4 "transA"; i4 "m"; i4 "nnz"; h "descrA"; p "csrSortedValA"; p "csrSortedRowPtrA";
      p "csrSortedColIndA"; h "info"; p "pBufferSizeInBytes"] code;
   aborts 967 "cusparseCcsrsv2_bufferSize"
     [h "handle"; u4 "transA"; i4 "m"; i4 "nnz"; h "descrA"; p "csrSortedValA"; p "csrSortedRowPtrA";
      p "csrSortedColIndA"; h "info"; p "pBufferSizeInBytes"] code;
   aborts 968 "cusparseZcsrsv2_bufferSize"
     [h "handle"; u4 "transA"; i4 "m"; i4 "nnz"; h "descrA"; p "csrSortedValA"; p "csrSortedRowPtrA";
      p "csrSortedColIndA"; h "info"; p "pBufferSizeInBytes"] code;
   aborts 969 "cusparseScsrsv2_bufferSizeExt"
     [h "handle"; u4 "transA"; i4 "m"; i4 "nnz"; h "descrA"; p "csrSortedValA"; p "csrSortedRowPtrA";
      p "csrSortedColIndA"; h "info"; p "pBufferSize"] code;
   aborts 970 "cusparseDcsrsv2_bufferSizeExt"
     [h "handle"; u4 "transA"; i4 "m"; i4 "nnz"; h "descrA"; p "csrSortedValA"; p "csrSortedRowPtrA";
      p "csrSortedColIndA"; h "info"; p "pBufferSize"] code].

Definition cusparse_11 : list aborting :=
  [aborts 971 "cusparseCcsrsv2_bufferSizeExt"
     [h "handle"; u4 "transA"; i4 "m"; i4 "nnz"; h "descrA"; p "csrSortedValA"; p "csrSortedRowPtrA";
      p "csrSortedColIndA"; h "info"; p "pBufferSize"] code;
   aborts 972 "cusparseZcsrsv2_bufferSizeExt"
     [h "handle"; u4 "transA"; i4 "m"; i4 "nnz"; h "descrA"; p "csrSortedValA"; p "csrSortedRowPtrA";
      p "csrSortedColIndA"; h "info"; p "pBufferSize"] code;
   aborts 973 "cusparseScsrsv2_analysis"
     [h "handle"; u4 "transA"; i4 "m"; i4 "nnz"; h "descrA"; p "csrSortedValA"; p "csrSortedRowPtrA";
      p "csrSortedColIndA"; h "info"; u4 "policy"; p "pBuffer"] code;
   aborts 974 "cusparseDcsrsv2_analysis"
     [h "handle"; u4 "transA"; i4 "m"; i4 "nnz"; h "descrA"; p "csrSortedValA"; p "csrSortedRowPtrA";
      p "csrSortedColIndA"; h "info"; u4 "policy"; p "pBuffer"] code;
   aborts 975 "cusparseCcsrsv2_analysis"
     [h "handle"; u4 "transA"; i4 "m"; i4 "nnz"; h "descrA"; p "csrSortedValA"; p "csrSortedRowPtrA";
      p "csrSortedColIndA"; h "info"; u4 "policy"; p "pBuffer"] code;
   aborts 976 "cusparseZcsrsv2_analysis"
     [h "handle"; u4 "transA"; i4 "m"; i4 "nnz"; h "descrA"; p "csrSortedValA"; p "csrSortedRowPtrA";
      p "csrSortedColIndA"; h "info"; u4 "policy"; p "pBuffer"] code;
   aborts 977 "cusparseScsrsv2_solve"
     [h "handle"; u4 "transA"; i4 "m"; i4 "nnz"; p "alpha"; h "descrA"; p "csrSortedValA";
      p "csrSortedRowPtrA"; p "csrSortedColIndA"; h "info"; p "f"; p "x"; u4 "policy"; p "pBuffer"] code;
   aborts 978 "cusparseDcsrsv2_solve"
     [h "handle"; u4 "transA"; i4 "m"; i4 "nnz"; p "alpha"; h "descrA"; p "csrSortedValA";
      p "csrSortedRowPtrA"; p "csrSortedColIndA"; h "info"; p "f"; p "x"; u4 "policy"; p "pBuffer"] code].

Definition cusparse_12 : list aborting :=
  [aborts 979 "cusparseCcsrsv2_solve"
     [h "handle"; u4 "transA"; i4 "m"; i4 "nnz"; p "alpha"; h "descrA"; p "csrSortedValA";
      p "csrSortedRowPtrA"; p "csrSortedColIndA"; h "info"; p "f"; p "x"; u4 "policy"; p "pBuffer"] code;
   aborts 980 "cusparseZcsrsv2_solve"
     [h "handle"; u4 "transA"; i4 "m"; i4 "nnz"; p "alpha"; h "descrA"; p "csrSortedValA";
      p "csrSortedRowPtrA"; p "csrSortedColIndA"; h "info"; p "f"; p "x"; u4 "policy"; p "pBuffer"] code;
   aborts 981 "cusparseXbsrsv2_zeroPivot" [h "handle"; h "info"; p "position"] code;
   aborts 982 "cusparseSbsrsv2_bufferSize"
     [h "handle"; u4 "dirA"; u4 "transA"; i4 "mb"; i4 "nnzb"; h "descrA"; p "bsrSortedValA";
      p "bsrSortedRowPtrA"; p "bsrSortedColIndA"; i4 "blockDim"; h "info"; p "pBufferSizeInBytes"] code;
   aborts 983 "cusparseDbsrsv2_bufferSize"
     [h "handle"; u4 "dirA"; u4 "transA"; i4 "mb"; i4 "nnzb"; h "descrA"; p "bsrSortedValA";
      p "bsrSortedRowPtrA"; p "bsrSortedColIndA"; i4 "blockDim"; h "info"; p "pBufferSizeInBytes"] code;
   aborts 984 "cusparseCbsrsv2_bufferSize"
     [h "handle"; u4 "dirA"; u4 "transA"; i4 "mb"; i4 "nnzb"; h "descrA"; p "bsrSortedValA";
      p "bsrSortedRowPtrA"; p "bsrSortedColIndA"; i4 "blockDim"; h "info"; p "pBufferSizeInBytes"] code;
   aborts 985 "cusparseZbsrsv2_bufferSize"
     [h "handle"; u4 "dirA"; u4 "transA"; i4 "mb"; i4 "nnzb"; h "descrA"; p "bsrSortedValA";
      p "bsrSortedRowPtrA"; p "bsrSortedColIndA"; i4 "blockDim"; h "info"; p "pBufferSizeInBytes"] code;
   aborts 986 "cusparseSbsrsv2_bufferSizeExt"
     [h "handle"; u4 "dirA"; u4 "transA"; i4 "mb"; i4 "nnzb"; h "descrA"; p "bsrSortedValA";
      p "bsrSortedRowPtrA"; p "bsrSortedColIndA"; i4 "blockSize"; h "info"; p "pBufferSize"] code].

Definition cusparse_13 : list aborting :=
  [aborts 987 "cusparseDbsrsv2_bufferSizeExt"
     [h "handle"; u4 "dirA"; u4 "transA"; i4 "mb"; i4 "nnzb"; h "descrA"; p "bsrSortedValA";
      p "bsrSortedRowPtrA"; p "bsrSortedColIndA"; i4 "blockSize"; h "info"; p "pBufferSize"] code;
   aborts 988 "cusparseCbsrsv2_bufferSizeExt"
     [h "handle"; u4 "dirA"; u4 "transA"; i4 "mb"; i4 "nnzb"; h "descrA"; p "bsrSortedValA";
      p "bsrSortedRowPtrA"; p "bsrSortedColIndA"; i4 "blockSize"; h "info"; p "pBufferSize"] code;
   aborts 989 "cusparseZbsrsv2_bufferSizeExt"
     [h "handle"; u4 "dirA"; u4 "transA"; i4 "mb"; i4 "nnzb"; h "descrA"; p "bsrSortedValA";
      p "bsrSortedRowPtrA"; p "bsrSortedColIndA"; i4 "blockSize"; h "info"; p "pBufferSize"] code;
   aborts 990 "cusparseSbsrsv2_analysis"
     [h "handle"; u4 "dirA"; u4 "transA"; i4 "mb"; i4 "nnzb"; h "descrA"; p "bsrSortedValA";
      p "bsrSortedRowPtrA"; p "bsrSortedColIndA"; i4 "blockDim"; h "info"; u4 "policy"; p "pBuffer"] code;
   aborts 991 "cusparseDbsrsv2_analysis"
     [h "handle"; u4 "dirA"; u4 "transA"; i4 "mb"; i4 "nnzb"; h "descrA"; p "bsrSortedValA";
      p "bsrSortedRowPtrA"; p "bsrSortedColIndA"; i4 "blockDim"; h "info"; u4 "policy"; p "pBuffer"] code;
   aborts 992 "cusparseCbsrsv2_analysis"
     [h "handle"; u4 "dirA"; u4 "transA"; i4 "mb"; i4 "nnzb"; h "descrA"; p "bsrSortedValA";
      p "bsrSortedRowPtrA"; p "bsrSortedColIndA"; i4 "blockDim"; h "info"; u4 "policy"; p "pBuffer"] code;
   aborts 993 "cusparseZbsrsv2_analysis"
     [h "handle"; u4 "dirA"; u4 "transA"; i4 "mb"; i4 "nnzb"; h "descrA"; p "bsrSortedValA";
      p "bsrSortedRowPtrA"; p "bsrSortedColIndA"; i4 "blockDim"; h "info"; u4 "policy"; p "pBuffer"] code].

Definition cusparse_14 : list aborting :=
  [aborts 994 "cusparseSbsrsv2_solve"
     [h "handle"; u4 "dirA"; u4 "transA"; i4 "mb"; i4 "nnzb"; p "alpha"; h "descrA"; p "bsrSortedValA";
      p "bsrSortedRowPtrA"; p "bsrSortedColIndA"; i4 "blockDim"; h "info"; p "f"; p "x"; u4 "policy";
      p "pBuffer"] code;
   aborts 995 "cusparseDbsrsv2_solve"
     [h "handle"; u4 "dirA"; u4 "transA"; i4 "mb"; i4 "nnzb"; p "alpha"; h "descrA"; p "bsrSortedValA";
      p "bsrSortedRowPtrA"; p "bsrSortedColIndA"; i4 "blockDim"; h "info"; p "f"; p "x"; u4 "policy";
      p "pBuffer"] code;
   aborts 996 "cusparseCbsrsv2_solve"
     [h "handle"; u4 "dirA"; u4 "transA"; i4 "mb"; i4 "nnzb"; p "alpha"; h "descrA"; p "bsrSortedValA";
      p "bsrSortedRowPtrA"; p "bsrSortedColIndA"; i4 "blockDim"; h "info"; p "f"; p "x"; u4 "policy";
      p "pBuffer"] code;
   aborts 997 "cusparseZbsrsv2_solve"
     [h "handle"; u4 "dirA"; u4 "transA"; i4 "mb"; i4 "nnzb"; p "alpha"; h "descrA"; p "bsrSortedValA";
      p "bsrSortedRowPtrA"; p "bsrSortedColIndA"; i4 "blockDim"; h "info"; p "f"; p "x"; u4 "policy";
      p "pBuffer"] code;
   aborts 998 "cusparseShybsv_analysis" [h "handle"; u4 "transA"; h "descrA"; h "hybA"; h "info"] code;
   aborts 999 "cusparseDhybsv_analysis" [h "handle"; u4 "transA"; h "descrA"; h "hybA"; h "info"] code;
   aborts 1000 "cusparseChybsv_analysis" [h "handle"; u4 "transA"; h "descrA"; h "hybA"; h "info"] code;
   aborts 1001 "cusparseZhybsv_analysis" [h "handle"; u4 "transA"; h "descrA"; h "hybA"; h "info"] code].

Definition cusparse_15 : list aborting :=
  [aborts 1002 "cusparseShybsv_solve"
     [h "handle"; u4 "trans"; p "alpha"; h "descrA"; h "hybA"; h "info"; p "f"; p "x"] code;
   aborts 1003 "cusparseChybsv_solve"
     [h "handle"; u4 "trans"; p "alpha"; h "descrA"; h "hybA"; h "info"; p "f"; p "x"] code;
   aborts 1004 "cusparseDhybsv_solve"
     [h "handle"; u4 "trans"; p "alpha"; h "descrA"; h "hybA"; h "info"; p "f"; p "x"] code;
   aborts 1005 "cusparseZhybsv_solve"
     [h "handle"; u4 "trans"; p "alpha"; h "descrA"; h "hybA"; h "info"; p "f"; p "x"] code].

Definition cusparse_16 : list aborting :=
  [aborts 1006 "cusparseSbsrmm"
     [h "handle"; u4 "dirA"; u4 "transA"; u4 "transB"; i4 "mb"; i4 "n"; i4 "kb"; i4 "nnzb"; p "alpha";
      h "descrA"; p "bsrSortedValA"; p "bsrSortedRowPtrA"; p "bsrSortedColIndA"; i4 "blockSize"; p "B";
      i4 "ldb"; p "beta"; p "C"; i4 "ldc"] code;
   aborts 1007 "cusparseDbsrmm"
     [h "handle"; u4 "dirA"; u4 "transA"; u4 "transB"; i4 "mb"; i4 "n"; i4 "kb"; i4 "nnzb"; p "alpha";
      h "descrA"; p "bsrSortedValA"; p "bsrSortedRowPtrA"; p "bsrSortedColIndA"; i4 "blockSize"; p "B";
      i4 "ldb"; p "beta"; p "C"; i4 "ldc"] code;
   aborts 1008 "cusparseCbsrmm"
     [h "handle"; u4 "dirA"; u4 "transA"; u4 "transB"; i4 "mb"; i4 "n"; i4 "kb"; i4 "nnzb"; p "alpha";
      h "descrA"; p "bsrSortedValA"; p "bsrSortedRowPtrA"; p "bsrSortedColIndA"; i4 "blockSize"; p "B";
      i4 "ldb"; p "beta"; p "C"; i4 "ldc"] code;
   aborts 1009 "cusparseZbsrmm"
     [h "handle"; u4 "dirA"; u4 "transA"; u4 "transB"; i4 "mb"; i4 "n"; i4 "kb"; i4 "nnzb"; p "alpha";
      h "descrA"; p "bsrSortedValA"; p "bsrSortedRowPtrA"; p "bsrSortedColIndA"; i4 "blockSize"; p "B";
      i4 "ldb"; p "beta"; p "C"; i4 "ldc"] code;
   aborts 1010 "cusparseSgemmi"
     [h "handle"; i4 "m"; i4 "n"; i4 "k"; i4 "nnz"; p "alpha"; p "A"; i4 "lda"; p "cscValB";
      p "cscColPtrB"; p "cscRowIndB"; p "beta"; p "C"; i4 "ldc"] code;
   aborts 1011 "cusparseDgemmi"
     [h "handle"; i4 "m"; i4 "n"; i4 "k"; i4 "nnz"; p "alpha"; p "A"; i4 "lda"; p "cscValB";
      p "cscColPtrB"; p "cscRowIndB"; p "beta"; p "C"; i4 "ldc"] code].

Definition cusparse_17 : list aborting :=
  [aborts 1012 "cusparseCgemmi"
     [h "handle"; i4 "m"; i4 "n"; i4 "k"; i4 "nnz"; p "alpha"; p "A"; i4 "lda"; p "cscValB";
      p "cscColPtrB"; p "cscRowIndB"; p "beta"; p "C"; i4 "ldc"] code;
   aborts 1013 "cusparseZgemmi"
     [h "handle"; i4 "m"; i4 "n"; i4 "k"; i4 "nnz"; p "alpha"; p "A"; i4 "lda"; p "cscValB";
      p "cscColPtrB"; p "cscRowIndB"; p "beta"; p "C"; i4 "ldc"] code;
   aborts 1014 "cusparseCreateCsrsm2Info" [p "info"] code;
   aborts 1015 "cusparseDestroyCsrsm2Info" [h "info"] code;
   aborts 1016 "cusparseXcsrsm2_zeroPivot" [h "handle"; h "info"; p "position"] code;
   aborts 1017 "cusparseScsrsm2_bufferSizeExt"
     [h "handle"; i4 "algo"; u4 "transA"; u4 "transB"; i4 "m"; i4 "nrhs"; i4 "nnz"; p "alpha"; h "descrA";
      p "csrSortedValA"; p "csrSortedRowPtrA"; p "csrSortedColIndA"; p "B"; i4 "ldb"; h "info";
      u4 "policy"; p "pBufferSize"] code;
   aborts 1018 "cusparseDcsrsm2_bufferSizeExt"
     [h "handle"; i4 "algo"; u4 "transA"; u4 "transB"; i4 "m"; i4 "nrhs"; i4 "nnz"; p "alpha"; h "descrA";
      p "csrSortedValA"; p "csrSortedRowPtrA"; p "csrSortedColIndA"; p "B"; i4 "ldb"; h "info";
      u4 "policy"; p "pBufferSize"] code;
   aborts 1019 "cusparseCcsrsm2_bufferSizeExt"
     [h "handle"; i4 "algo"; u4 "transA"; u4 "transB"; i4 "m"; i4 "nrhs"; i4 "nnz"; p "alpha"; h "descrA";
      p "csrSortedValA"; p "csrSortedRowPtrA"; p "csrSortedColIndA"; p "B"; i4 "ldb"; h "info";
      u4 "policy"; p "pBufferSize"] code].

Definition cusparse_18 : list aborting :=
  [aborts 1020 "cusparseZcsrsm2_bufferSizeExt"
     [h "handle"; i4 "algo"; u4 "transA"; u4 "transB"; i4 "m"; i4 "nrhs"; i4 "nnz"; p "alpha"; h "descrA";
      p "csrSortedValA"; p "csrSortedRowPtrA"; p "csrSortedColIndA"; p "B"; i4 "ldb"; h "info";
      u4 "policy"; p "pBufferSize"] code;
   aborts 1021 "cusparseScsrsm2_analysis"
     [h "handle"; i4 "algo"; u4 "transA"; u4 "transB"; i4 "m"; i4 "nrhs"; i4 "nnz"; p "alpha"; h "descrA";
      p "csrSortedValA"; p "csrSortedRowPtrA"; p "csrSortedColIndA"; p "B"; i4 "ldb"; h "info";
      u4 "policy"; p "pBuffer"] code;
   aborts 1022 "cusparseDcsrsm2_analysis"
     [h "handle"; i4 "algo"; u4 "transA"; u4 "transB"; i4 "m"; i4 "nrhs"; i4 "nnz"; p "alpha"; h "descrA";
      p "csrSortedValA"; p "csrSortedRowPtrA"; p "csrSortedColIndA"; p "B"; i4 "ldb"; h "info";
      u4 "policy"; p "pBuffer"] code;
   aborts 1023 "cusparseCcsrsm2_analysis"
     [h "handle"; i4 "algo"; u4 "transA"; u4 "transB"; i4 "m"; i4 "nrhs"; i4 "nnz"; p "alpha"; h "descrA";
      p "csrSortedValA"; p "csrSortedRowPtrA"; p "csrSortedColIndA"; p "B"; i4 "ldb"; h "info";
      u4 "policy"; p "pBuffer"] code;
   aborts 1024 "cusparseZcsrsm2_analysis"
     [h "handle"; i4 "algo"; u4 "transA"; u4 "transB"; i4 "m"; i4 "nrhs"; i4 "nnz"; p "alpha"; h "descrA";
      p "csrSortedValA"; p "csrSortedRowPtrA"; p "csrSortedColIndA"; p "B"; i4 "ldb"; h "info";
      u4 "policy"; p "pBuffer"] code;
   aborts 1025 "cusparseScsrsm2_solve"
     [h "handle"; i4 "algo"; u4 "transA"; u4 "transB"; i4 "m"; i4 "nrhs"; i4 "nnz"; p "alpha"; h "descrA";
      p "csrSortedValA"; p "csrSortedRowPtrA"; p "csrSortedColIndA"; p "B"; i4 "ldb"; h "info";
      u4 "policy"; p "pBuffer"] code].

Definition cusparse_19 : list aborting :=
  [aborts 1026 "cusparseDcsrsm2_solve"
     [h "handle"; i4 "algo"; u4 "transA"; u4 "transB"; i4 "m"; i4 "nrhs"; i4 "nnz"; p "alpha"; h "descrA";
      p "csrSortedValA"; p "csrSortedRowPtrA"; p "csrSortedColIndA"; p "B"; i4 "ldb"; h "info";
      u4 "policy"; p "pBuffer"] code;
   aborts 1027 "cusparseCcsrsm2_solve"
     [h "handle"; i4 "algo"; u4 "transA"; u4 "transB"; i4 "m"; i4 "nrhs"; i4 "nnz"; p "alpha"; h "descrA";
      p "csrSortedValA"; p "csrSortedRowPtrA"; p "csrSortedColIndA"; p "B"; i4 "ldb"; h "info";
      u4 "policy"; p "pBuffer"] code;
   aborts 1028 "cusparseZcsrsm2_solve"
     [h "handle"; i4 "algo"; u4 "transA"; u4 "transB"; i4 "m"; i4 "nrhs"; i4 "nnz"; p "alpha"; h "descrA";
      p "csrSortedValA"; p "csrSortedRowPtrA"; p "csrSortedColIndA"; p "B"; i4 "ldb"; h "info";
      u4 "policy"; p "pBuffer"] code;
   aborts 1029 "cusparseXbsrsm2_zeroPivot" [h "handle"; h "info"; p "position"] code;
   aborts 1030 "cusparseSbsrsm2_bufferSize"
     [h "handle"; u4 "dirA"; u4 "transA"; u4 "transXY"; i4 "mb"; i4 "n"; i4 "nnzb"; h "descrA";
      p "bsrSortedVal"; p "bsrSortedRowPtr"; p "bsrSortedColInd"; i4 "blockSize"; h "info";
      p "pBufferSizeInBytes"] code;
   aborts 1031 "cusparseDbsrsm2_bufferSize"
     [h "handle"; u4 "dirA"; u4 "transA"; u4 "transXY"; i4 "mb"; i4 "n"; i4 "nnzb"; h "descrA";
      p "bsrSortedVal"; p "bsrSortedRowPtr"; p "bsrSortedColInd"; i4 "blockSize"; h "info";
      p "pBufferSizeInBytes"] code;
   aborts 1032 "cusparseCbsrsm2_bufferSize"
     [h "handle"; u4 "dirA"; u4 "transA"; u4 "transXY"; i4 "mb"; i4 "n"; i4 "nnzb"; h "descrA";
      p "bsrSortedVal"; p "bsrSortedRowPtr"; p "bsrSortedColInd"; i4 "blockSize"; h "info";
      p "pBufferSizeInBytes"] code].

Definition cusparse_20 : list aborting :=
  [aborts 1033 "cusparseZbsrsm2_bufferSize"
     [h "handle"; u4 "dirA"; u4 "transA"; u4 "transXY"; i4 "mb"; i4 "n"; i4 "nnzb"; h "descrA";
      p "bsrSortedVal"; p "bsrSortedRowPtr"; p "bsrSortedColInd"; i4 "blockSize"; h "info";
      p "pBufferSizeInBytes"] code;
   aborts 1034 "cusparseSbsrsm2_bufferSizeExt"
     [h "handle"; u4 "dirA"; u4 "transA"; u4 "transB"; i4 "mb"; i4 "n"; i4 "nnzb"; h "descrA";
      p "bsrSortedVal"; p "bsrSortedRowPtr"; p "bsrSortedColInd"; i4 "blockSize"; h "info"; p "pBufferSize"] code;
   aborts 1035 "cusparseDbsrsm2_bufferSizeExt"
     [h "handle"; u4 "dirA"; u4 "transA"; u4 "transB"; i4 "mb"; i4 "n"; i4 "nnzb"; h "descrA";
      p "bsrSortedVal"; p "bsrSortedRowPtr"; p "bsrSortedColInd"; i4 "blockSize"; h "info"; p "pBufferSize"] code;
   aborts 1036 "cusparseCbsrsm2_bufferSizeExt"
     [h "handle"; u4 "dirA"; u4 "transA"; u4 "transB"; i4 "mb"; i4 "n"; i4 "nnzb"; h "descrA";
      p "bsrSortedVal"; p "bsrSortedRowPtr"; p "bsrSortedColInd"; i4 "blockSize"; h "info"; p "pBufferSize"] code;
   aborts 1037 "cusparseZbsrsm2_bufferSizeExt"
     [h "handle"; u4 "dirA"; u4 "transA"; u4 "transB"; i4 "mb"; i4 "n"; i4 "nnzb"; h "descrA";
      p "bsrSortedVal"; p "bsrSortedRowPtr"; p "bsrSortedColInd"; i4 "blockSize"; h "info"; p "pBufferSize"] code;
   aborts 1038 "cusparseSbsrsm2_analysis"
     [h "handle"; u4 "dirA"; u4 "transA"; u4 "transXY"; i4 "mb"; i4 "n"; i4 "nnzb"; h "descrA";
      p "bsrSortedVal"; p "bsrSortedRowPtr"; p "bsrSortedColInd"; i4 "blockSize"; h "info"; u4 "policy";
      p "pBuffer"] code;
   aborts 1039 "cusparseDbsrsm2_analysis"
     [h "handle"; u4 "dirA"; u4 "transA"; u4 "transXY"; i4 "mb"; i4 "n"; i4 "nnzb"; h "descrA";
      p "bsrSortedVal"; p "bsrSortedRowPtr"; p "bsrSortedColInd"; i4 "blockSize"; h "info"; u4 "policy";
      p "pBuffer"] code].

Definition cusparse_21 : list aborting :=
  [aborts 1040 "cusparseCbsrsm2_analysis"
     [h "handle"; u4 "dirA"; u4 "transA"; u4 "transXY"; i4 "mb"; i4 "n"; i4 "nnzb"; h "descrA";
      p "bsrSortedVal"; p "bsrSortedRowPtr"; p "bsrSortedColInd"; i4 "blockSize"; h "info"; u4 "policy";
      p "pBuffer"] code;
   aborts 1041 "cusparseZbsrsm2_analysis"
     [h "handle"; u4 "dirA"; u4 "transA"; u4 "transXY"; i4 "mb"; i4 "n"; i4 "nnzb"; h "descrA";
      p "bsrSortedVal"; p "bsrSortedRowPtr"; p "bsrSortedColInd"; i4 "blockSize"; h "info"; u4 "policy";
      p "pBuffer"] code;
   aborts 1042 "cusparseSbsrsm2_solve"
     [h "handle"; u4 "dirA"; u4 "transA"; u4 "transXY"; i4 "mb"; i4 "n"; i4 "nnzb"; p "alpha"; h "descrA";
      p "bsrSortedVal"; p "bsrSortedRowPtr"; p "bsrSortedColInd"; i4 "blockSize"; h "info"; p "B";
      i4 "ldb"; p "X"; i4 "ldx"; u4 "policy"; p "pBuffer"] code;
   aborts 1043 "cusparseDbsrsm2_solve"
     [h "handle"; u4 "dirA"; u4 "transA"; u4 "transXY"; i4 "mb"; i4 "n"; i4 "nnzb"; p "alpha"; h "descrA";
      p "bsrSortedVal"; p "bsrSortedRowPtr"; p "bsrSortedColInd"; i4 "blockSize"; h "info"; p "B";
      i4 "ldb"; p "X"; i4 "ldx"; u4 "policy"; p "pBuffer"] code;
   aborts 1044 "cusparseCbsrsm2_solve"
     [h "handle"; u4 "dirA"; u4 "transA"; u4 "transXY"; i4 "mb"; i4 "n"; i4 "nnzb"; p "alpha"; h "descrA";
      p "bsrSortedVal"; p "bsrSortedRowPtr"; p "bsrSortedColInd"; i4 "blockSize"; h "info"; p "B";
      i4 "ldb"; p "X"; i4 "ldx"; u4 "policy"; p "pBuffer"] code;
   aborts 1045 "cusparseZbsrsm2_solve"
     [h "handle"; u4 "dirA"; u4 "transA"; u4 "transXY"; i4 "mb"; i4 "n"; i4 "nnzb"; p "alpha"; h "descrA";
      p "bsrSortedVal"; p "bsrSortedRowPtr"; p "bsrSortedColInd"; i4 "blockSize"; h "info"; p "B";
      i4 "ldb"; p "X"; i4 "ldx"; u4 "policy"; p "pBuffer"] code].

Definition cusparse_22 : list aborting :=
  [aborts 1046 "cusparseCsrilu0Ex"
     [h "handle"; u4 "trans"; i4 "m"; h "descrA"; p "csrSortedValA_ValM"; u4 "csrSortedValA_ValMtype";
      p "csrSortedRowPtrA"; p "csrSortedColIndA"; h "info"; u4 "executiontype"] code;
   aborts 1047 "cusparseScsrilu0"
     [h "handle"; u4 "trans"; i4 "m"; h "descrA"; p "csrSortedValA_ValM"; p "csrSortedRowPtrA";
      p "csrSortedColIndA"; h "info"] code;
   aborts 1048 "cusparseDcsrilu0"
     [h "handle"; u4 "trans"; i4 "m"; h "descrA"; p "csrSortedValA_ValM"; p "csrSortedRowPtrA";
      p "csrSortedColIndA"; h "info"] code;
   aborts 1049 "cusparseCcsrilu0"
     [h "handle"; u4 "trans"; i4 "m"; h "descrA"; p "csrSortedValA_ValM"; p "csrSortedRowPtrA";
      p "csrSortedColIndA"; h "info"] code;
   aborts 1050 "cusparseZcsrilu0"
     [h "handle"; u4 "trans"; i4 "m"; h "descrA"; p "csrSortedValA_ValM"; p "csrSortedRowPtrA";
      p "csrSortedColIndA"; h "info"] code;
   aborts 1051 "cusparseScsrilu02_numericBoost"
     [h "handle"; h "info"; i4 "enable_boost"; p "tol"; p "boost_val"] code;
   aborts 1052 "cusparseDcsrilu02_numericBoost"
     [h "handle"; h "info"; i4 "enable_boost"; p "tol"; p "boost_val"] code;
   aborts 1053 "cusparseCcsrilu02_numericBoost"
     [h "handle"; h "info"; i4 "enable_boost"; p "tol"; p "boost_val"] code;
   aborts 1054 "cusparseZcsrilu02_numericBoost"
     [h "handle"; h "info"; i4 "enable_boost"; p "tol"; p "boost_val"] code;
   aborts 1055 "cusparseXcsrilu02_zeroPivot" [h "handle"; h "info"; p "position"] code;
   aborts 1056 "cusparseScsrilu02_bufferSize"
     [h "handle"; i4 "m"; i4 "nnz"; h "descrA"; p "csrSortedValA"; p "csrSortedRowPtrA";
      p "csrSortedColIndA"; h "info"; p "pBufferSizeInBytes"] code].

Definition cusparse_23 : list aborting :=
  [aborts 1057 "cusparseDcsrilu02_bufferSize"
     [h "handle"; i4 "m"; i4 "nnz"; h "descrA"; p "csrSortedValA"; p "csrSortedRowPtrA";
      p "csrSortedColIndA"; h "info"; p "pBufferSizeInBytes"] code;
   aborts 1058 "cusparseCcsrilu02_bufferSize"
     [h "handle"; i4 "m"; i4 "nnz"; h "descrA"; p "csrSortedValA"; p "csrSortedRowPtrA";
      p "csrSortedColIndA"; h "info"; p "pBufferSizeInBytes"] code;
   aborts 1059 "cusparseZcsrilu02_bufferSize"
     [h "handle"; i4 "m"; i4 "nnz"; h "descrA"; p "csrSortedValA"; p "csrSortedRowPtrA";
      p "csrSortedColIndA"; h "info"; p "pBufferSizeInBytes"] code;
   aborts 1060 "cusparseScsrilu02_bufferSizeExt"
     [h "handle"; i4 "m"; i4 "nnz"; h "descrA"; p "csrSortedVal"; p "csrSortedRowPtr"; p "csrSortedColInd";
      h "info"; p "pBufferSize"] code;
   aborts 1061 "cusparseDcsrilu02_bufferSizeExt"
     [h "handle"; i4 "m"; i4 "nnz"; h "descrA"; p "csrSortedVal"; p "csrSortedRowPtr"; p "csrSortedColInd";
      h "info"; p "pBufferSize"] code;
   aborts 1062 "cusparseCcsrilu02_bufferSizeExt"
     [h "handle"; i4 "m"; i4 "nnz"; h "descrA"; p "csrSortedVal"; p "csrSortedRowPtr"; p "csrSortedColInd";
      h "info"; p "pBufferSize"] code;
   aborts 1063 "cusparseZcsrilu02_bufferSizeExt"
     [h "handle"; i4 "m"; i4 "nnz"; h "descrA"; p "csrSortedVal"; p "csrSortedRowPtr"; p "csrSortedColInd";
      h "info"; p "pBufferSize"] code;
   aborts 1064 "cusparseScsrilu02_analysis"
     [h "handle"; i4 "m"; i4 "nnz"; h "descrA"; p "csrSortedValA"; p "csrSortedRowPtrA";
      p "csrSortedColIndA"; h "info"; u4 "policy"; p "pBuffer"] code;
   aborts 1065 "cusparseDcsrilu02_analysis"
     [h "handle"; i4 "m"; i4 "nnz"; h "descrA"; p "csrSortedValA"; p "csrSortedRowPtrA";
      p "csrSortedColIndA"; h "info"; u4 "policy"; p "pBuffer"] code].

Definition cusparse_24 : list aborting :=
  [aborts 1066 "cusparseCcsrilu02_analysis"
     [h "handle"; i4 "m"; i4 "nnz"; h "descrA"; p "csrSortedValA"; p "csrSortedRowPtrA";
      p "csrSortedColIndA"; h "info"; u4 "policy"; p "pBuffer"] code;
   aborts 1067 "cusparseZcsrilu02_analysis"
     [h "handle"; i4 "m"; i4 "nnz"; h "descrA"; p "csrSortedValA"; p "csrSortedRowPtrA";
      p "csrSortedColIndA"; h "info"; u4 "policy"; p "pBuffer"] code;
   aborts 1068 "cusparseScsrilu02"
     [h "handle"; i4 "m"; i4 "nnz"; h "descrA"; p "csrSortedValA_valM"; p "csrSortedRowPtrA";
      p "csrSortedColIndA"; h "info"; u4 "policy"; p "pBuffer"] code;
   aborts 1069 "cusparseDcsrilu02"
     [h "handle"; i4 "m"; i4 "nnz"; h "descrA"; p "csrSortedValA_valM"; p "csrSortedRowPtrA";
      p "csrSortedColIndA"; h "info"; u4 "policy"; p "pBuffer"] code;
   aborts 1070 "cusparseCcsrilu02"
     [h "handle"; i4 "m"; i4 "nnz"; h "descrA"; p "csrSortedValA_valM"; p "csrSortedRowPtrA";
      p "csrSortedColIndA"; h "info"; u4 "policy"; p "pBuffer"] code;
   aborts 1071 "cusparseZcsrilu02"
     [h "handle"; i4 "m"; i4 "nnz"; h "descrA"; p "csrSortedValA_valM"; p "csrSortedRowPtrA";
      p "csrSortedColIndA"; h "info"; u4 "policy"; p "pBuffer"] code;
   aborts 1072 "cusparseSbsrilu02_numericBoost"
     [h "handle"; h "info"; i4 "enable_boost"; p "tol"; p "boost_val"] code;
   aborts 1073 "cusparseDbsrilu02_numericBoost"
     [h "handle"; h "info"; i4 "enable_boost"; p "tol"; p "boost_val"] code;
   aborts 1074 "cusparseCbsrilu02_numericBoost"
     [h "handle"; h "info"; i4 "enable_boost"; p "tol"; p "boost_val"] code;
   aborts 1075 "cusparseZbsrilu02_numericBoost"
     [h "handle"; h "info"; i4 "enable_boost"; p "tol"; p "boost_val"] code].

Definition cusparse_25 : list aborting :=
  [aborts 1076 "cusparseXbsrilu02_zeroPivot" [h "handle"; h "info"; p "position"] code;
   aborts 1077 "cusparseSbsrilu02_bufferSize"
     [h "handle"; u4 "dirA"; i4 "mb"; i4 "nnzb"; h "descrA"; p "bsrSortedVal"; p "bsrSortedRowPtr";
      p "bsrSortedColInd"; i4 "blockDim"; h "info"; p "pBufferSizeInBytes"] code;
   aborts 1078 "cusparseDbsrilu02_bufferSize"
     [h "handle"; u4 "dirA"; i4 "mb"; i4 "nnzb"; h "descrA"; p "bsrSortedVal"; p "bsrSortedRowPtr";
      p "bsrSortedColInd"; i4 "blockDim"; h "info"; p "pBufferSizeInBytes"] code;
   aborts 1079 "cusparseCbsrilu02_bufferSize"
     [h "handle"; u4 "dirA"; i4 "mb"; i4 "nnzb"; h "descrA"; p "bsrSortedVal"; p "bsrSortedRowPtr";
      p "bsrSortedColInd"; i4 "blockDim"; h "info"; p "pBufferSizeInBytes"] code;
   aborts 1080 "cusparseZbsrilu02_bufferSize"
     [h "handle"; u4 "dirA"; i4 "mb"; i4 "nnzb"; h "descrA"; p "bsrSortedVal"; p "bsrSortedRowPtr";
      p "bsrSortedColInd"; i4 "blockDim"; h "info"; p "pBufferSizeInBytes"] code;
   aborts 1081 "cusparseSbsrilu02_bufferSizeExt"
     [h "handle"; u4 "dirA"; i4 "mb"; i4 "nnzb"; h "descrA"; p "bsrSortedVal"; p "bsrSortedRowPtr";
      p "bsrSortedColInd"; i4 "blockSize"; h "info"; p "pBufferSize"] code;
   aborts 1082 "cusparseDbsrilu02_bufferSizeExt"
     [h "handle"; u4 "dirA"; i4 "mb"; i4 "nnzb"; h "descrA"; p "bsrSortedVal"; p "bsrSortedRowPtr";
      p "bsrSortedColInd"; i4 "blockSize"; h "info"; p "pBufferSize"] code;
   aborts 1083 "cusparseCbsrilu02_bufferSizeExt"
     [h "handle"; u4 "dirA"; i4 "mb"; i4 "nnzb"; h "descrA"; p "bsrSortedVal"; p "bsrSortedRowPtr";
      p "bsrSortedColInd"; i4 "blockSize"; h "info"; p "pBufferSize"] code].

Definition cusparse_26 : list aborting :=
  [aborts 1084 "cusparseZbsrilu02_bufferSizeExt"
     [h "handle"; u4 "dirA"; i4 "mb"; i4 "nnzb"; h "descrA"; p "bsrSortedVal"; p "bsrSortedRowPtr";
      p "bsrSortedColInd"; i4 "blockSize"; h "info"; p "pBufferSize"] code;
   aborts 1085 "cusparseSbsrilu02_analysis"
     [h "handle"; u4 "dirA"; i4 "mb"; i4 "nnzb"; h "descrA"; p "bsrSortedVal"; p "bsrSortedRowPtr";
      p "bsrSortedColInd"; i4 "blockDim"; h "info"; u4 "policy"; p "pBuffer"] code;
   aborts 1086 "cusparseDbsrilu02_analysis"
     [h "handle"; u4 "dirA"; i4 "mb"; i4 "nnzb"; h "descrA"; p "bsrSortedVal"; p "bsrSortedRowPtr";
      p "bsrSortedColInd"; i4 "blockDim"; h "info"; u4 "policy"; p "pBuffer"] code;
   aborts 1087 "cusparseCbsrilu02_analysis"
     [h "handle"; u4 "dirA"; i4 "mb"; i4 "nnzb"; h "descrA"; p "bsrSortedVal"; p "bsrSortedRowPtr";
      p "bsrSortedColInd"; i4 "blockDim"; h "info"; u4 "policy"; p "pBuffer"] code;
   aborts 1088 "cusparseZbsrilu02_analysis"
     [h "handle"; u4 "dirA"; i4 "mb"; i4 "nnzb"; h "descrA"; p "bsrSortedVal"; p "bsrSortedRowPtr";
      p "bsrSortedColInd"; i4 "blockDim"; h "info"; u4 "policy"; p "pBuffer"] code;
   aborts 1089 "cusparseSbsrilu02"
     [h "handle"; u4 "dirA"; i4 "mb"; i4 "nnzb"; h "descrA"; p "bsrSortedVal"; p "bsrSortedRowPtr";
      p "bsrSortedColInd"; i4 "blockDim"; h "info"; u4 "policy"; p "pBuffer"] code;
   aborts 1090 "cusparseDbsrilu02"
     [h "handle"; u4 "dirA"; i4 "mb"; i4 "nnzb"; h "descrA"; p "bsrSortedVal"; p "bsrSortedRowPtr";
      p "bsrSortedColInd"; i4 "blockDim"; h "info"; u4 "policy"; p "pBuffer"] code;
   aborts 1091 "cusparseCbsrilu02"
     [h "handle"; u4 "dirA"; i4 "mb"; i4 "nnzb"; h "descrA"; p "bsrSortedVal"; p "bsrSortedRowPtr";
      p "bsrSortedColInd"; i4 "blockDim"; h "info"; u4 "policy"; p "pBuffer"] code].

Definition cusparse_27 : list aborting :=
  [aborts 1092 "cusparseZbsrilu02"
     [h "handle"; u4 "dirA"; i4 "mb"; i4 "nnzb"; h "descrA"; p "bsrSortedVal"; p "bsrSortedRowPtr";
      p "bsrSortedColInd"; i4 "blockDim"; h "info"; u4 "policy"; p "pBuffer"] code;
   aborts 1093 "cusparseScsric0"
     [h "handle"; u4 "trans"; i4 "m"; h "descrA"; p "csrSortedValA_ValM"; p "csrSortedRowPtrA";
      p "csrSortedColIndA"; h "info"] code;
   aborts 1094 "cusparseDcsric0"
     [h "handle"; u4 "trans"; i4 "m"; h "descrA"; p "csrSortedValA_ValM"; p "csrSortedRowPtrA";
      p "csrSortedColIndA"; h "info"] code;
   aborts 1095 "cusparseCcsric0"
     [h "handle"; u4 "trans"; i4 "m"; h "descrA"; p "csrSortedValA_ValM"; p "csrSortedRowPtrA";
      p "csrSortedColIndA"; h "info"] code;
   aborts 1096 "cusparseZcsric0"
     [h "handle"; u4 "trans"; i4 "m"; h "descrA"; p "csrSortedValA_ValM"; p "csrSortedRowPtrA";
      p "csrSortedColIndA"; h "info"] code;
   aborts 1097 "cusparseXcsric02_zeroPivot" [h "handle"; h "info"; p "position"] code;
   aborts 1098 "cusparseScsric02_bufferSize"
     [h "handle"; i4 "m"; i4 "nnz"; h "descrA"; p "csrSortedValA"; p "csrSortedRowPtrA";
      p "csrSortedColIndA"; h "info"; p "pBufferSizeInBytes"] code;
   aborts 1099 "cusparseDcsric02_bufferSize"
     [h "handle"; i4 "m"; i4 "nnz"; h "descrA"; p "csrSortedValA"; p "csrSortedRowPtrA";
      p "csrSortedColIndA"; h "info"; p "pBufferSizeInBytes"] code;
   aborts 1100 "cusparseCcsric02_bufferSize"
     [h "handle"; i4 "m"; i4 "nnz"; h "descrA"; p "csrSortedValA"; p "csrSortedRowPtrA";
      p "csrSortedColIndA"; h "info"; p "pBufferSizeInBytes"] code].

Definition cusparse_28 : list aborting :=
  [aborts 1101 "cusparseZcsric02_bufferSize"
     [h "handle"; i4 "m"; i4 "nnz"; h "descrA"; p "csrSortedValA"; p "csrSortedRowPtrA";
      p "csrSortedColIndA"; h "info"; p "pBufferSizeInBytes"] code;
   aborts 1102 "cusparseScsric02_bufferSizeExt"
     [h "handle"; i4 "m"; i4 "nnz"; h "descrA"; p "csrSortedVal"; p "csrSortedRowPtr"; p "csrSortedColInd";
      h "info"; p "pBufferSize"] code;
   aborts 1103 "cusparseDcsric02_bufferSizeExt"
     [h "handle"; i4 "m"; i4 "nnz"; h "descrA"; p "csrSortedVal"; p "csrSortedRowPtr"; p "csrSortedColInd";
      h "info"; p "pBufferSize"] code;
   aborts 1104 "cusparseCcsric02_bufferSizeExt"
     [h "handle"; i4 "m"; i4 "nnz"; h "descrA"; p "csrSortedVal"; p "csrSortedRowPtr"; p "csrSortedColInd";
      h "info"; p "pBufferSize"] code;
   aborts 1105 "cusparseZcsric02_bufferSizeExt"
     [h "handle"; i4 "m"; i4 "nnz"; h "descrA"; p "csrSortedVal"; p "csrSortedRowPtr"; p "csrSortedColInd";
      h "info"; p "pBufferSize"] code;
   aborts 1106 "cusparseScsric02_analysis"
     [h "handle"; i4 "m"; i4 "nnz"; h "descrA"; p "csrSortedValA"; p "csrSortedRowPtrA";
      p "csrSortedColIndA"; h "info"; u4 "policy"; p "pBuffer"] code;
   aborts 1107 "cusparseDcsric02_analysis"
     [h "handle"; i4 "m"; i4 "nnz"; h "descrA"; p "csrSortedValA"; p "csrSortedRowPtrA";
      p "csrSortedColIndA"; h "info"; u4 "policy"; p "pBuffer"] code;
   aborts 1108 "cusparseCcsric02_analysis"
     [h "handle"; i4 "m"; i4 "nnz"; h "descrA"; p "csrSortedValA"; p "csrSortedRowPtrA";
      p "csrSortedColIndA"; h "info"; u4 "policy"; p "pBuffer"] code;
   aborts 1109 "cusparseZcsric02_analysis"
     [h "handle"; i4 "m"; i4 "nnz"; h "descrA"; p "csrSortedValA"; p "csrSortedRowPtrA";
      p "csrSortedColIndA"; h "info"; u4 "policy"; p "pBuffer"] code].

Definition cusparse_29 : list aborting :=
  [aborts 1110 "cusparseScsric02"
     [h "handle"; i4 "m"; i4 "nnz"; h "descrA"; p "csrSortedValA_valM"; p "csrSortedRowPtrA";
      p "csrSortedColIndA"; h "info"; u4 "policy"; p "pBuffer"] code;
   aborts 1111 "cusparseDcsric02"
     [h "handle"; i4 "m"; i4 "nnz"; h "descrA"; p "csrSortedValA_valM"; p "csrSortedRowPtrA";
      p "csrSortedColIndA"; h "info"; u4 "policy"; p "pBuffer"] code;
   aborts 1112 "cusparseCcsric02"
     [h "handle"; i4 "m"; i4 "nnz"; h "descrA"; p "csrSortedValA_valM"; p "csrSortedRowPtrA";
      p "csrSortedColIndA"; h "info"; u4 "policy"; p "pBuffer"] code;
   aborts 1113 "cusparseZcsric02"
     [h "handle"; i4 "m"; i4 "nnz"; h "descrA"; p "csrSortedValA_valM"; p "csrSortedRowPtrA";
      p "csrSortedColIndA"; h "info"; u4 "policy"; p "pBuffer"] code;
   aborts 1114 "cusparseXbsric02_zeroPivot" [h "handle"; h "info"; p "position"] code;
   aborts 1115 "cusparseSbsric02_bufferSize"
     [h "handle"; u4 "dirA"; i4 "mb"; i4 "nnzb"; h "descrA"; p "bsrSortedVal"; p "bsrSortedRowPtr";
      p "bsrSortedColInd"; i4 "blockDim"; h "info"; p "pBufferSizeInBytes"] code;
   aborts 1116 "cusparseDbsric02_bufferSize"
     [h "handle"; u4 "dirA"; i4 "mb"; i4 "nnzb"; h "descrA"; p "bsrSortedVal"; p "bsrSortedRowPtr";
      p "bsrSortedColInd"; i4 "blockDim"; h "info"; p "pBufferSizeInBytes"] code;
   aborts 1117 "cusparseCbsric02_bufferSize"
     [h "handle"; u4 "dirA"; i4 "mb"; i4 "nnzb"; h "descrA"; p "bsrSortedVal"; p "bsrSortedRowPtr";
      p "bsrSortedColInd"; i4 "blockDim"; h "info"; p "pBufferSizeInBytes"] code;
   aborts 1118 "cusparseZbsric02_bufferSize"
     [h "handle"; u4 "dirA"; i4 "mb"; i4 "nnzb"; h "descrA"; p "bsrSortedVal"; p "bsrSortedRowPtr";
      p "bsrSortedColInd"; i4 "blockDim"; h "info"; p "pBufferSizeInBytes"] code].

Definition cusparse_30 : list aborting :=
  [aborts 1119 "cusparseSbsric02_bufferSizeExt"
     [h "handle"; u4 "dirA"; i4 "mb"; i4 "nnzb"; h "descrA"; p "bsrSortedVal"; p "bsrSortedRowPtr";
      p "bsrSortedColInd"; i4 "blockSize"; h "info"; p "pBufferSize"] code;
   aborts 1120 "cusparseDbsric02_bufferSizeExt"
     [h "handle"; u4 "dirA"; i4 "mb"; i4 "nnzb"; h "descrA"; p "bsrSortedVal"; p "bsrSortedRowPtr";
      p "bsrSortedColInd"; i4 "blockSize"; h "info"; p "pBufferSize"] code;
   aborts 1121 "cusparseCbsric02_bufferSizeExt"
     [h "handle"; u4 "dirA"; i4 "mb"; i4 "nnzb"; h "descrA"; p "bsrSortedVal"; p "bsrSortedRowPtr";
      p "bsrSortedColInd"; i4 "blockSize"; h "info"; p "pBufferSize"] code;
   aborts 1122 "cusparseZbsric02_bufferSizeExt"
     [h "handle"; u4 "dirA"; i4 "mb"; i4 "nnzb"; h "descrA"; p "bsrSortedVal"; p "bsrSortedRowPtr";
      p "bsrSortedColInd"; i4 "blockSize"; h "info"; p "pBufferSize"] code;
   aborts 1123 "cusparseSbsric02_analysis"
     [h "handle"; u4 "dirA"; i4 "mb"; i4 "nnzb"; h "descrA"; p "bsrSortedVal"; p "bsrSortedRowPtr";
      p "bsrSortedColInd"; i4 "blockDim"; h "info"; u4 "policy"; p "pInputBuffer"] code;
   aborts 1124 "cusparseDbsric02_analysis"
     [h "handle"; u4 "dirA"; i4 "mb"; i4 "nnzb"; h "descrA"; p "bsrSortedVal"; p "bsrSortedRowPtr";
      p "bsrSortedColInd"; i4 "blockDim"; h "info"; u4 "policy"; p "pInputBuffer"] code;
   aborts 1125 "cusparseCbsric02_analysis"
     [h "handle"; u4 "dirA"; i4 "mb"; i4 "nnzb"; h "descrA"; p "bsrSortedVal"; p "bsrSortedRowPtr";
      p "bsrSortedColInd"; i4 "blockDim"; h "info"; u4 "policy"; p "pInputBuffer"] code;
   aborts 1126 "cusparseZbsric02_analysis"
     [h "handle"; u4 "dirA"; i4 "mb"; i4 "nnzb"; h "descrA"; p "bsrSortedVal"; p "bsrSortedRowPtr";
      p "bsrSortedColInd"; i4 "blockDim"; h "info"; u4 "policy"; p "pInputBuffer"] code].

Definition cusparse_31 : list aborting :=
  [aborts 1127 "cusparseSbsric02"
     [h "handle"; u4 "dirA"; i4 "mb"; i4 "nnzb"; h "descrA"; p "bsrSortedVal"; p "bsrSortedRowPtr";
      p "bsrSortedColInd"; i4 "blockDim"; h "info"; u4 "policy"; p "pBuffer"] code;
   aborts 1128 "cusparseDbsric02"
     [h "handle"; u4 "dirA"; i4 "mb"; i4 "nnzb"; h "descrA"; p "bsrSortedVal"; p "bsrSortedRowPtr";
      p "bsrSortedColInd"; i4 "blockDim"; h "info"; u4 "policy"; p "pBuffer"] code;
   aborts 1129 "cusparseCbsric02"
     [h "handle"; u4 "dirA"; i4 "mb"; i4 "nnzb"; h "descrA"; p "bsrSortedVal"; p "bsrSortedRowPtr";
      p "bsrSortedColInd"; i4 "blockDim"; h "info"; u4 "policy"; p "pBuffer"] code;
   aborts 1130 "cusparseZbsric02"
     [h "handle"; u4 "dirA"; i4 "mb"; i4 "nnzb"; h "descrA"; p "bsrSortedVal"; p "bsrSortedRowPtr";
      p "bsrSortedColInd"; i4 "blockDim"; h "info"; u4 "policy"; p "pBuffer"] code;
   aborts 1131 "cusparseSgtsv" [h "handle"; i4 "m"; i4 "n"; p "dl"; p "d"; p "du"; p "B"; i4 "ldb"] code;
   aborts 1132 "cusparseDgtsv" [h "handle"; i4 "m"; i4 "n"; p "dl"; p "d"; p "du"; p "B"; i4 "ldb"] code;
   aborts 1133 "cusparseCgtsv" [h "handle"; i4 "m"; i4 "n"; p "dl"; p "d"; p "du"; p "B"; i4 "ldb"] code;
   aborts 1134 "cusparseZgtsv" [h "handle"; i4 "m"; i4 "n"; p "dl"; p "d"; p "du"; p "B"; i4 "ldb"] code].

Definition cusparse_32 : list aborting :=
  [aborts 1135 "cusparseSgtsv2_bufferSizeExt"
     [h "handle"; i4 "m"; i4 "n"; p "dl"; p "d"; p "du"; p "B"; i4 "ldb"; p "bufferSizeInBytes"] code;
   aborts 1136 "cusparseDgtsv2_bufferSizeExt"
     [h "handle"; i4 "m"; i4 "n"; p "dl"; p "d"; p "du"; p "B"; i4 "ldb"; p "bufferSizeInBytes"] code;
   aborts 1137 "cusparseCgtsv2_bufferSizeExt"
     [h "handle"; i4 "m"; i4 "n"; p "dl"; p "d"; p "du"; p "B"; i4 "ldb"; p "bufferSizeInBytes"] code;
   aborts 1138 "cusparseZgtsv2_bufferSizeExt"
     [h "handle"; i4 "m"; i4 "n"; p "dl"; p "d"; p "du"; p "B"; i4 "ldb"; p "bufferSizeInBytes"] code;
   aborts 1139 "cusparseSgtsv2"
     [h "handle"; i4 "m"; i4 "n"; p "dl"; p "d"; p "du"; p "B"; i4 "ldb"; p "pBuffer"] code;
   aborts 1140 "cusparseDgtsv2"
     [h "handle"; i4 "m"; i4 "n"; p "dl"; p "d"; p "du"; p "B"; i4 "ldb"; p "pBuffer"] code;
   aborts 1141 "cusparseCgtsv2"
     [h "handle"; i4 "m"; i4 "n"; p "dl"; p "d"; p "du"; p "B"; i4 "ldb"; p "pBuffer"] code;
   aborts 1142 "cusparseZgtsv2"
     [h "handle"; i4 "m"; i4 "n"; p "dl"; p "d"; p "du"; p "B"; i4 "ldb"; p "pBuffer"] code;
   aborts 1143 "cusparseSgtsv_nopivot"
     [h "handle"; i4 "m"; i4 "n"; p "dl"; p "d"; p "du"; p "B"; i4 "ldb"] code].

Definition cusparse_33 : list aborting :=
  [aborts 1144 "cusparseDgtsv_nopivot"
     [h "handle"; i4 "m"; i4 "n"; p "dl"; p "d"; p "du"; p "B"; i4 "ldb"] code;
   aborts 1145 "cusparseCgtsv_nopivot"
     [h "handle"; i4 "m"; i4 "n"; p "dl"; p "d"; p "du"; p "B"; i4 "ldb"] code;
   aborts 1146 "cusparseZgtsv_nopivot"
     [h "handle"; i4 "m"; i4 "n"; p "dl"; p "d"; p "du"; p "B"; i4 "ldb"] code;
   aborts 1147 "cusparseSgtsv2_nopivot_bufferSizeExt"
     [h "handle"; i4 "m"; i4 "n"; p "dl"; p "d"; p "du"; p "B"; i4 "ldb"; p "bufferSizeInBytes"] code;
   aborts 1148 "cusparseDgtsv2_nopivot_bufferSizeExt"
     [h "handle"; i4 "m"; i4 "n"; p "dl"; p "d"; p "du"; p "B"; i4 "ldb"; p "bufferSizeInBytes"] code;
   aborts 1149 "cusparseCgtsv2_nopivot_bufferSizeExt"
     [h "handle"; i4 "m"; i4 "n"; p "dl"; p "d"; p "du"; p "B"; i4 "ldb"; p "bufferSizeInBytes"] code;
   aborts 1150 "cusparseZgtsv2_nopivot_bufferSizeExt"
     [h "handle"; i4 "m"; i4 "n"; p "dl"; p "d"; p "du"; p "B"; i4 "ldb"; p "bufferSizeInBytes"] code;
   aborts 1151 "cusparseSgtsv2_nopivot"
     [h "handle"; i4 "m"; i4 "n"; p "dl"; p "d"; p "du"; p "B"; i4 "ldb"; p "pBuffer"] code;
   aborts 1152 "cusparseDgtsv2_nopivot"
     [h "handle"; i4 "m"; i4 "n"; p "dl"; p "d"; p "du"; p "B"; i4 "ldb"; p "pBuffer"] code].

Definition cusparse_34 : list aborting :=
  [aborts 1153 "cusparseCgtsv2_nopivot"
     [h "handle"; i4 "m"; i4 "n"; p "dl"; p "d"; p "du"; p "B"; i4 "ldb"; p "pBuffer"] code;
   aborts 1154 "cusparseZgtsv2_nopivot"
     [h "handle"; i4 "m"; i4 "n"; p "dl"; p "d"; p "du"; p "B"; i4 "ldb"; p "pBuffer"] code;
   aborts 1155 "cusparseSgtsvStridedBatch"
     [h "handle"; i4 "m"; p "dl"; p "d"; p "du"; p "x"; i4 "batchCount"; i4 "batchStride"] code;
   aborts 1156 "cusparseDgtsvStridedBatch"
     [h "handle"; i4 "m"; p "dl"; p "d"; p "du"; p "x"; i4 "batchCount"; i4 "batchStride"] code;
   aborts 1157 "cusparseCgtsvStridedBatch"
     [h "handle"; i4 "m"; p "dl"; p "d"; p "du"; p "x"; i4 "batchCount"; i4 "batchStride"] code;
   aborts 1158 "cusparseZgtsvStridedBatch"
     [h "handle"; i4 "m"; p "dl"; p "d"; p "du"; p "x"; i4 "batchCount"; i4 "batchStride"] code;
   aborts 1159 "cusparseSgtsv2StridedBatch_bufferSizeExt"
     [h "handle"; i4 "m"; p "dl"; p "d"; p "du"; p "x"; i4 "batchCount"; i4 "batchStride";
      p "bufferSizeInBytes"] code;
   aborts 1160 "cusparseDgtsv2StridedBatch_bufferSizeExt"
     [h "handle"; i4 "m"; p "dl"; p "d"; p "du"; p "x"; i4 "batchCount"; i4 "batchStride";
      p "bufferSizeInBytes"] code;
   aborts 1161 "cusparseCgtsv2StridedBatch_bufferSizeExt"
     [h "handle"; i4 "m"; p "dl"; p "d"; p "du"; p "x"; i4 "batchCount"; i4 "batchStride";
      p "bufferSizeInBytes"] code].

Definition cusparse_35 : list aborting :=
  [aborts 1162 "cusparseZgtsv2StridedBatch_bufferSizeExt"
     [h "handle"; i4 "m"; p "dl"; p "d"; p "du"; p "x"; i4 "batchCount"; i4 "batchStride";
      p "bufferSizeInBytes"] code;
   aborts 1163 "cusparseSgtsv2StridedBatch"
     [h "handle"; i4 "m"; p "dl"; p "d"; p "du"; p "x"; i4 "batchCount"; i4 "batchStride"; p "pBuffer"] code;
   aborts 1164 "cusparseDgtsv2StridedBatch"
     [h "handle"; i4 "m"; p "dl"; p "d"; p "du"; p "x"; i4 "batchCount"; i4 "batchStride"; p "pBuffer"] code;
   aborts 1165 "cusparseCgtsv2StridedBatch"
     [h "handle"; i4 "m"; p "dl"; p "d"; p "du"; p "x"; i4 "batchCount"; i4 "batchStride"; p "pBuffer"] code;
   aborts 1166 "cusparseZgtsv2StridedBatch"
     [h "handle"; i4 "m"; p "dl"; p "d"; p "du"; p "x"; i4 "batchCount"; i4 "batchStride"; p "pBuffer"] code;
   aborts 1167 "cusparseSgtsvInterleavedBatch_bufferSizeExt"
     [h "handle"; i4 "algo"; i4 "m"; p "dl"; p "d"; p "du"; p "x"; i4 "batchCount"; p "pBufferSizeInBytes"] code;
   aborts 1168 "cusparseDgtsvInterleavedBatch_bufferSizeExt"
     [h "handle"; i4 "algo"; i4 "m"; p "dl"; p "d"; p "du"; p "x"; i4 "batchCount"; p "pBufferSizeInBytes"] code;
   aborts 1169 "cusparseCgtsvInterleavedBatch_bufferSizeExt"
     [h "handle"; i4 "algo"; i4 "m"; p "dl"; p "d"; p "du"; p "x"; i4 "batchCount"; p "pBufferSizeInBytes"] code;
   aborts 1170 "cusparseZgtsvInterleavedBatch_bufferSizeExt"
     [h "handle"; i4 "algo"; i4 "m"; p "dl"; p "d"; p "du"; p "x"; i4 "batchCount"; p "pBufferSizeInBytes"] code].

Definition cusparse_36 : list aborting :=
  [aborts 1171 "cusparseSgtsvInterleavedBatch"
     [h "handle"; i4 "algo"; i4 "m"; p "dl"; p "d"; p "du"; p "x"; i4 "batchCount"; p "pBuffer"] code;
   aborts 1172 "cusparseDgtsvInterleavedBatch"
     [h "handle"; i4 "algo"; i4 "m"; p "dl"; p "d"; p "du"; p "x"; i4 "batchCount"; p "pBuffer"] code;
   aborts 1173 "cusparseCgtsvInterleavedBatch"
     [h "handle"; i4 "algo"; i4 "m"; p "dl"; p "d"; p "du"; p "x"; i4 "batchCount"; p "pBuffer"] code;
   aborts 1174 "cusparseZgtsvInterleavedBatch"
     [h "handle"; i4 "algo"; i4 "m"; p "dl"; p "d"; p "du"; p "x"; i4 "batchCount"; p "pBuffer"] code;
   aborts 1175 "cusparseSgpsvInterleavedBatch_bufferSizeExt"
     [h "handle"; i4 "algo"; i4 "m"; p "ds"; p "dl"; p "d"; p "du"; p "dw"; p "x"; i4 "batchCount";
      p "pBufferSizeInBytes"] code;
   aborts 1176 "cusparseDgpsvInterleavedBatch_bufferSizeExt"
     [h "handle"; i4 "algo"; i4 "m"; p "ds"; p "dl"; p "d"; p "du"; p "dw"; p "x"; i4 "batchCount";
      p "pBufferSizeInBytes"] code;
   aborts 1177 "cusparseCgpsvInterleavedBatch_bufferSizeExt"
     [h "handle"; i4 "algo"; i4 "m"; p "ds"; p "dl"; p "d"; p "du"; p "dw"; p "x"; i4 "batchCount";
      p "pBufferSizeInBytes"] code;
   aborts 1178 "cusparseZgpsvInterleavedBatch_bufferSizeExt"
     [h "handle"; i4 "algo"; i4 "m"; p "ds"; p "dl"; p "d"; p "du"; p "dw"; p "x"; i4 "batchCount";
      p "pBufferSizeInBytes"] code].

Definition cusparse_37 : list aborting :=
  [aborts 1179 "cusparseSgpsvInterleavedBatch"
     [h "handle"; i4 "algo"; i4 "m"; p "ds"; p "dl"; p "d"; p "du"; p "dw"; p "x"; i4 "batchCount";
      p "pBuffer"] code;
   aborts 1180 "cusparseDgpsvInterleavedBatch"
     [h "handle"; i4 "algo"; i4 "m"; p "ds"; p "dl"; p "d"; p "du"; p "dw"; p "x"; i4 "batchCount";
      p "pBuffer"] code;
   aborts 1181 "cusparseCgpsvInterleavedBatch"
     [h "handle"; i4 "algo"; i4 "m"; p "ds"; p "dl"; p "d"; p "du"; p "dw"; p "x"; i4 "batchCount";
      p "pBuffer"] code;
   aborts 1182 "cusparseZgpsvInterleavedBatch"
     [h "handle"; i4 "algo"; i4 "m"; p "ds"; p "dl"; p "d"; p "du"; p "dw"; p "x"; i4 "batchCount";
      p "pBuffer"] code].

Definition cusparse_38 : list aborting :=
  [aborts 1183 "cusparseCreateCsrgemm2Info" [p "info"] code;
   aborts 1184 "cusparseDestroyCsrgemm2Info" [h "info"] code;
   aborts 1185 "cusparseScsrgemm2_bufferSizeExt"
     [h "handle"; i4 "m"; i4 "n"; i4 "k"; p "alpha"; h "descrA"; i4 "nnzA"; p "csrSortedRowPtrA";
      p "csrSortedColIndA"; h "descrB"; i4 "nnzB"; p "csrSortedRowPtrB"; p "csrSortedColIndB"; p "beta";
      h "descrD"; i4 "nnzD"; p "csrSortedRowPtrD"; p "csrSortedColIndD"; h "info"; p "pBufferSizeInBytes"] code;
   aborts 1186 "cusparseDcsrgemm2_bufferSizeExt"
     [h "handle"; i4 "m"; i4 "n"; i4 "k"; p "alpha"; h "descrA"; i4 "nnzA"; p "csrSortedRowPtrA";
      p "csrSortedColIndA"; h "descrB"; i4 "nnzB"; p "csrSortedRowPtrB"; p "csrSortedColIndB"; p "beta";
      h "descrD"; i4 "nnzD"; p "csrSortedRowPtrD"; p "csrSortedColIndD"; h "info"; p "pBufferSizeInBytes"] code;
   aborts 1187 "cusparseCcsrgemm2_bufferSizeExt"
     [h "handle"; i4 "m"; i4 "n"; i4 "k"; p "alpha"; h "descrA"; i4 "nnzA"; p "csrSortedRowPtrA";
      p "csrSortedColIndA"; h "descrB"; i4 "nnzB"; p "csrSortedRowPtrB"; p "csrSortedColIndB"; p "beta";
      h "descrD"; i4 "nnzD"; p "csrSortedRowPtrD"; p "csrSortedColIndD"; h "info"; p "pBufferSizeInBytes"] code;
   aborts 1188 "cusparseZcsrgemm2_bufferSizeExt"
     [h "handle"; i4 "m"; i4 "n"; i4 "k"; p "alpha"; h "descrA"; i4 "nnzA"; p "csrSortedRowPtrA";
      p "csrSortedColIndA"; h "descrB"; i4 "nnzB"; p "csrSortedRowPtrB"; p "csrSortedColIndB"; p "beta";
      h "descrD"; i4 "nnzD"; p "csrSortedRowPtrD"; p "csrSortedColIndD"; h "info"; p "pBufferSizeInBytes"] code;
   aborts 1189 "cusparseXcsrgemm2Nnz"
     [h "handle"; i4 "m"; i4 "n"; i4 "k"; h "descrA"; i4 "nnzA"; p "csrSortedRowPtrA";
      p "csrSortedColIndA"; h "descrB"; i4 "nnzB"; p "csrSortedRowPtrB"; p "csrSortedColIndB"; h "descrD";
      i4 "nnzD"; p "csrSortedRowPtrD"; p "csrSortedColIndD"; h "descrC"; p "csrSortedRowPtrC";
      p "nnzTotalDevHostPtr"; h "info"; p "pBuffer"] code].

Definition cusparse_39 : list aborting :=
  [aborts 1190 "cusparseScsrgemm2"
     [h "handle"; i4 "m"; i4 "n"; i4 "k"; p "alpha"; h "descrA"; i4 "nnzA"; p "csrSortedValA";
      p "csrSortedRowPtrA"; p "csrSortedColIndA"; h "descrB"; i4 "nnzB"; p "csrSortedValB";
      p "csrSortedRowPtrB"; p "csrSortedColIndB"; p "beta"; h "descrD"; i4 "nnzD"; p "csrSortedValD";
      p "csrSortedRowPtrD"; p "csrSortedColIndD"; h "descrC"; p "csrSortedValC"; p "csrSortedRowPtrC";
      p "csrSortedColIndC"; h "info"; p "pBuffer"] code;
   aborts 1191 "cusparseDcsrgemm2"
     [h "handle"; i4 "m"; i4 "n"; i4 "k"; p "alpha"; h "descrA"; i4 "nnzA"; p "csrSortedValA";
      p "csrSortedRowPtrA"; p "csrSortedColIndA"; h "descrB"; i4 "nnzB"; p "csrSortedValB";
      p "csrSortedRowPtrB"; p "csrSortedColIndB"; p "beta"; h "descrD"; i4 "nnzD"; p "csrSortedValD";
      p "csrSortedRowPtrD"; p "csrSortedColIndD"; h "descrC"; p "csrSortedValC"; p "csrSortedRowPtrC";
      p "csrSortedColIndC"; h "info"; p "pBuffer"] code;
   aborts 1192 "cusparseCcsrgemm2"
     [h "handle"; i4 "m"; i4 "n"; i4 "k"; p "alpha"; h "descrA"; i4 "nnzA"; p "csrSortedValA";
      p "csrSortedRowPtrA"; p "csrSortedColIndA"; h "descrB"; i4 "nnzB"; p "csrSortedValB";
      p "csrSortedRowPtrB"; p "csrSortedColIndB"; p "beta"; h "descrD"; i4 "nnzD"; p "csrSortedValD";
      p "csrSortedRowPtrD"; p "csrSortedColIndD"; h "descrC"; p "csrSortedValC"; p "csrSortedRowPtrC";
      p "csrSortedColIndC"; h "info"; p "pBuffer"] code;
   aborts 1193 "cusparseZcsrgemm2"
     [h "handle"; i4 "m"; i4 "n"; i4 "k"; p "alpha"; h "descrA"; i4 "nnzA"; p "csrSortedValA";
      p "csrSortedRowPtrA"; p "csrSortedColIndA"; h "descrB"; i4 "nnzB"; p "csrSortedValB";
      p "csrSortedRowPtrB"; p "csrSortedColIndB"; p "beta"; h "descrD"; i4 "nnzD"; p "csrSortedValD";
      p "csrSortedRowPtrD"; p "csrSortedColIndD"; h "descrC"; p "csrSortedValC"; p "csrSortedRowPtrC";
      p "csrSortedColIndC"; h "info"; p "pBuffer"] code].

Definition cusparse_40 : list aborting :=
  [aborts 1194 "cusparseScsrgeam2_bufferSizeExt"
     [h "handle"; i4 "m"; i4 "n"; p "alpha"; h "descrA"; i4 "nnzA"; p "csrSortedValA";
      p "csrSortedRowPtrA"; p "csrSortedColIndA"; p "beta"; h "descrB"; i4 "nnzB"; p "csrSortedValB";
      p "csrSortedRowPtrB"; p "csrSortedColIndB"; h "descrC"; p "csrSortedValC"; p "csrSortedRowPtrC";
      p "csrSortedColIndC"; p "pBufferSizeInBytes"] code;
   aborts 1195 "cusparseDcsrgeam2_bufferSizeExt"
     [h "handle"; i4 "m"; i4 "n"; p "alpha"; h "descrA"; i4 "nnzA"; p "csrSortedValA";
      p "csrSortedRowPtrA"; p "csrSortedColIndA"; p "beta"; h "descrB"; i4 "nnzB"; p "csrSortedValB";
      p "csrSortedRowPtrB"; p "csrSortedColIndB"; h "descrC"; p "csrSortedValC"; p "csrSortedRowPtrC";
      p "csrSortedColIndC"; p "pBufferSizeInBytes"] code;
   aborts 1196 "cusparseCcsrgeam2_bufferSizeExt"
     [h "handle"; i4 "m"; i4 "n"; p "alpha"; h "descrA"; i4 "nnzA"; p "csrSortedValA";
      p "csrSortedRowPtrA"; p "csrSortedColIndA"; p "beta"; h "descrB"; i4 "nnzB"; p "csrSortedValB";
      p "csrSortedRowPtrB"; p "csrSortedColIndB"; h "descrC"; p "csrSortedValC"; p "csrSortedRowPtrC";
      p "csrSortedColIndC"; p "pBufferSizeInBytes"] code;
   aborts 1197 "cusparseZcsrgeam2_bufferSizeExt"
     [h "handle"; i4 "m"; i4 "n"; p "alpha"; h "descrA"; i4 "nnzA"; p "csrSortedValA";
      p "csrSortedRowPtrA"; p "csrSortedColIndA"; p "beta"; h "descrB"; i4 "nnzB"; p "csrSortedValB";
      p "csrSortedRowPtrB"; p "csrSortedColIndB"; h "descrC"; p "csrSortedValC"; p "csrSortedRowPtrC";
      p "csrSortedColIndC"; p "pBufferSizeInBytes"] code;
   aborts 1198 "cusparseXcsrgeam2Nnz"
     [h "handle"; i4 "m"; i4 "n"; h "descrA"; i4 "nnzA"; p "csrSortedRowPtrA"; p "csrSortedColIndA";
      h "descrB"; i4 "nnzB"; p "csrSortedRowPtrB"; p "csrSortedColIndB"; h "descrC"; p "csrSortedRowPtrC";
      p "nnzTotalDevHostPtr"; p "workspace"] code].

Definition cusparse_41 : list aborting :=
  [aborts 1199 "cusparseScsrgeam2"
     [h "handle"; i4 "m"; i4 "n"; p "alpha"; h "descrA"; i4 "nnzA"; p "csrSortedValA";
      p "csrSortedRowPtrA"; p "csrSortedColIndA"; p "beta"; h "descrB"; i4 "nnzB"; p "csrSortedValB";
      p "csrSortedRowPtrB"; p "csrSortedColIndB"; h "descrC"; p "csrSortedValC"; p "csrSortedRowPtrC";
      p "csrSortedColIndC"; p "pBuffer"] code;
   aborts 1200 "cusparseDcsrgeam2"
     [h "handle"; i4 "m"; i4 "n"; p "alpha"; h "descrA"; i4 "nnzA"; p "csrSortedValA";
      p "csrSortedRowPtrA"; p "csrSortedColIndA"; p "beta"; h "descrB"; i4 "nnzB"; p "csrSortedValB";
      p "csrSortedRowPtrB"; p "csrSortedColIndB"; h "descrC"; p "csrSortedValC"; p "csrSortedRowPtrC";
      p "csrSortedColIndC"; p "pBuffer"] code;
   aborts 1201 "cusparseCcsrgeam2"
     [h "handle"; i4 "m"; i4 "n"; p "alpha"; h "descrA"; i4 "nnzA"; p "csrSortedValA";
      p "csrSortedRowPtrA"; p "csrSortedColIndA"; p "beta"; h "descrB"; i4 "nnzB"; p "csrSortedValB";
      p "csrSortedRowPtrB"; p "csrSortedColIndB"; h "descrC"; p "csrSortedValC"; p "csrSortedRowPtrC";
      p "csrSortedColIndC"; p "pBuffer"] code;
   aborts 1202 "cusparseZcsrgeam2"
     [h "handle"; i4 "m"; i4 "n"; p "alpha"; h "descrA"; i4 "nnzA"; p "csrSortedValA";
      p "csrSortedRowPtrA"; p "csrSortedColIndA"; p "beta"; h "descrB"; i4 "nnzB"; p "csrSortedValB";
      p "csrSortedRowPtrB"; p "csrSortedColIndB"; h "descrC"; p "csrSortedValC"; p "csrSortedRowPtrC";
      p "csrSortedColIndC"; p "pBuffer"] code].

Definition cusparse_42 : list aborting :=
  [aborts 1203 "cusparseScsrcolor"
     [h "handle"; i4 "m"; i4 "nnz"; h "descrA"; p "csrSortedValA"; p "csrSortedRowPtrA";
      p "csrSortedColIndA"; p "fractionToColor"; p "ncolors"; p "coloring"; p "reordering"; h "info"] code;
   aborts 1204 "cusparseDcsrcolor"
     [h "handle"; i4 "m"; i4 "nnz"; h "descrA"; p "csrSortedValA"; p "csrSortedRowPtrA";
      p "csrSortedColIndA"; p "fractionToColor"; p "ncolors"; p "coloring"; p "reordering"; h "info"] code;
   aborts 1205 "cusparseCcsrcolor"
     [h "handle"; i4 "m"; i4 "nnz"; h "descrA"; p "csrSortedValA"; p "csrSortedRowPtrA";
      p "csrSortedColIndA"; p "fractionToColor"; p "ncolors"; p "coloring"; p "reordering"; h "info"] code;
   aborts 1206 "cusparseZcsrcolor"
     [h "handle"; i4 "m"; i4 "nnz"; h "descrA"; p "csrSortedValA"; p "csrSortedRowPtrA";
      p "csrSortedColIndA"; p "fractionToColor"; p "ncolors"; p "coloring"; p "reordering"; h "info"] code].

Definition cusparse_43 : list aborting :=
  [aborts 1207 "cusparseSnnz"
     [h "handle"; u4 "dirA"; i4 "m"; i4 "n"; h "descrA"; p "A"; i4 "lda"; p "nnzPerRowCol";
      p "nnzTotalDevHostPtr"] code;
   aborts 1208 "cusparseDnnz"
     [h "handle"; u4 "dirA"; i4 "m"; i4 "n"; h "descrA"; p "A"; i4 "lda"; p "nnzPerRowCol";
      p "nnzTotalDevHostPtr"] code;
   aborts 1209 "cusparseCnnz"
     [h "handle"; u4 "dirA"; i4 "m"; i4 "n"; h "descrA"; p "A"; i4 "lda"; p "nnzPerRowCol";
      p "nnzTotalDevHostPtr"] code;
   aborts 1210 "cusparseZnnz"
     [h "handle"; u4 "dirA"; i4 "m"; i4 "n"; h "descrA"; p "A"; i4 "lda"; p "nnzPerRowCol";
      p "nnzTotalDevHostPtr"] code].

Definition cusparse_44 : list aborting :=
  [aborts 1211 "cusparseSnnz_compress"
     [h "handle"; i4 "m"; h "descr"; p "csrSortedValA"; p "csrSortedRowPtrA"; p "nnzPerRow"; p "nnzC";
      u4 "tol"] code;
   aborts 1212 "cusparseDnnz_compress"
     [h "handle"; i4 "m"; h "descr"; p "csrSortedValA"; p "csrSortedRowPtrA"; p "nnzPerRow"; p "nnzC";
      u8 "tol"] code;
   aborts 1213 "cusparseCnnz_compress"
     [h "handle"; i4 "m"; h "descr"; p "csrSortedValA"; p "csrSortedRowPtrA"; p "nnzPerRow"; p "nnzC";
      u8 "tol"] code;
   aborts 1214 "cusparseZnnz_compress"
     [h "handle"; i4 "m"; h "descr"; p "csrSortedValA"; p "csrSortedRowPtrA"; p "nnzPerRow"; p "nnzC";
      u16 "tol"] code;
   aborts 1215 "cusparseScsr2csr_compress"
     [h "handle"; i4 "m"; i4 "n"; h "descrA"; p "csrSortedValA"; p "csrSortedColIndA";
      p "csrSortedRowPtrA"; i4 "nnzA"; p "nnzPerRow"; p "csrSortedValC"; p "csrSortedColIndC";
      p "csrSortedRowPtrC"; u4 "tol"] code;
   aborts 1216 "cusparseDcsr2csr_compress"
     [h "handle"; i4 "m"; i4 "n"; h "descrA"; p "csrSortedValA"; p "csrSortedColIndA";
      p "csrSortedRowPtrA"; i4 "nnzA"; p "nnzPerRow"; p "csrSortedValC"; p "csrSortedColIndC";
      p "csrSortedRowPtrC"; u8 "tol"] code;
   aborts 1217 "cusparseCcsr2csr_compress"
     [h "handle"; i4 "m"; i4 "n"; h "descrA"; p "csrSortedValA"; p "csrSortedColIndA";
      p "csrSortedRowPtrA"; i4 "nnzA"; p "nnzPerRow"; p "csrSortedValC"; p "csrSortedColIndC";
      p "csrSortedRowPtrC"; u8 "tol"] code;
   aborts 1218 "cusparseZcsr2csr_compress"
     [h "handle"; i4 "m"; i4 "n"; h "descrA"; p "csrSortedValA"; p "csrSortedColIndA";
      p "csrSortedRowPtrA"; i4 "nnzA"; p "nnzPerRow"; p "csrSortedValC"; p "csrSortedColIndC";
      p "csrSortedRowPtrC"; u16 "tol"] code].

Definition cusparse_45 : list aborting :=
  [aborts 1219 "cusparseSdense2csr"
     [h "handle"; i4 "m"; i4 "n"; h "descrA"; p "A"; i4 "lda"; p "nnzPerRow"; p "csrSortedValA";
      p "csrSortedRowPtrA"; p "csrSortedColIndA"] code;
   aborts 1220 "cusparseDdense2csr"
     [h "handle"; i4 "m"; i4 "n"; h "descrA"; p "A"; i4 "lda"; p "nnzPerRow"; p "csrSortedValA";
      p "csrSortedRowPtrA"; p "csrSortedColIndA"] code;
   aborts 1221 "cusparseCdense2csr"
     [h "handle"; i4 "m"; i4 "n"; h "descrA"; p "A"; i4 "lda"; p "nnzPerRow"; p "csrSortedValA";
      p "csrSortedRowPtrA"; p "csrSortedColIndA"] code;
   aborts 1222 "cusparseZdense2csr"
     [h "handle"; i4 "m"; i4 "n"; h "descrA"; p "A"; i4 "lda"; p "nnzPerRow"; p "csrSortedValA";
      p "csrSortedRowPtrA"; p "csrSortedColIndA"] code;
   aborts 1223 "cusparseScsr2dense"
     [h "handle"; i4 "m"; i4 "n"; h "descrA"; p "csrSortedValA"; p "csrSortedRowPtrA";
      p "csrSortedColIndA"; p "A"; i4 "lda"] code;
   aborts 1224 "cusparseDcsr2dense"
     [h "handle"; i4 "m"; i4 "n"; h "descrA"; p "csrSortedValA"; p "csrSortedRowPtrA";
      p "csrSortedColIndA"; p "A"; i4 "lda"] code;
   aborts 1225 "cusparseCcsr2dense"
     [h "handle"; i4 "m"; i4 "n"; h "descrA"; p "csrSortedValA"; p "csrSortedRowPtrA";
      p "csrSortedColIndA"; p "A"; i4 "lda"] code;
   aborts 1226 "cusparseZcsr2dense"
     [h "handle"; i4 "m"; i4 "n"; h "descrA"; p "csrSortedValA"; p "csrSortedRowPtrA";
      p "csrSortedColIndA"; p "A"; i4 "lda"] code;
   aborts 1227 "cusparseSdense2csc"
     [h "handle"; i4 "m"; i4 "n"; h "descrA"; p "A"; i4 "lda"; p "nnzPerCol"; p "cscSortedValA";
      p "cscSortedRowIndA"; p "cscSortedColPtrA"] code].

Definition cusparse_46 : list aborting :=
  [aborts 1228 "cusparseDdense2csc"
     [h "handle"; i4 "m"; i4 "n"; h "descrA"; p "A"; i4 "lda"; p "nnzPerCol"; p "cscSortedValA";
      p "cscSortedRowIndA"; p "cscSortedColPtrA"] code;
   aborts 1229 "cusparseCdense2csc"
     [h "handle"; i4 "m"; i4 "n"; h "descrA"; p "A"; i4 "lda"; p "nnzPerCol"; p "cscSortedValA";
      p "cscSortedRowIndA"; p "cscSortedColPtrA"] code;
   aborts 1230 "cusparseZdense2csc"
     [h "handle"; i4 "m"; i4 "n"; h "descrA"; p "A"; i4 "lda"; p "nnzPerCol"; p "cscSortedValA";
      p "cscSortedRowIndA"; p "cscSortedColPtrA"] code;
   aborts 1231 "cusparseScsc2dense"
     [h "handle"; i4 "m"; i4 "n"; h "descrA"; p "cscSortedValA"; p "cscSortedRowIndA";
      p "cscSortedColPtrA"; p "A"; i4 "lda"] code;
   aborts 1232 "cusparseDcsc2dense"
     [h "handle"; i4 "m"; i4 "n"; h "descrA"; p "cscSortedValA"; p "cscSortedRowIndA";
      p "cscSortedColPtrA"; p "A"; i4 "lda"] code;
   aborts 1233 "cusparseCcsc2dense"
     [h "handle"; i4 "m"; i4 "n"; h "descrA"; p "cscSortedValA"; p "cscSortedRowIndA";
      p "cscSortedColPtrA"; p "A"; i4 "lda"] code;
   aborts 1234 "cusparseZcsc2dense"
     [h "handle"; i4 "m"; i4 "n"; h "descrA"; p "cscSortedValA"; p "cscSortedRowIndA";
      p "cscSortedColPtrA"; p "A"; i4 "lda"] code;
   aborts 1235 "cusparseXcoo2csr"
     [h "handle"; p "cooRowInd"; i4 "nnz"; i4 "m"; p "csrSortedRowPtr"; u4 "idxBase"] code;
   aborts 1236 "cusparseXcsr2coo"
     [h "handle"; p "csrSortedRowPtr"; i4 "nnz"; i4 "m"; p "cooRowInd"; u4 "idxBase"] code].

Definition cusparse_47 : list aborting :=
  [aborts 1237 "cusparseSdense2hyb"
     [h "handle"; i4 "m"; i4 "n"; h "descrA"; p "A"; i4 "lda"; p "nnzPerRow"; h "hybA"; i4 "userEllWidth";
      u4 "partitionType"] code;
   aborts 1238 "cusparseDdense2hyb"
     [h "handle"; i4 "m"; i4 "n"; h "descrA"; p "A"; i4 "lda"; p "nnzPerRow"; h "hybA"; i4 "userEllWidth";
      u4 "partitionType"] code;
   aborts 1239 "cusparseCdense2hyb"
     [h "handle"; i4 "m"; i4 "n"; h "descrA"; p "A"; i4 "lda"; p "nnzPerRow"; h "hybA"; i4 "userEllWidth";
      u4 "partitionType"] code;
   aborts 1240 "cusparseZdense2hyb"
     [h "handle"; i4 "m"; i4 "n"; h "descrA"; p "A"; i4 "lda"; p "nnzPerRow"; h "hybA"; i4 "userEllWidth";
      u4 "partitionType"] code;
   aborts 1241 "cusparseShyb2dense" [h "handle"; h "descrA"; h "hybA"; p "A"; i4 "lda"] code;
   aborts 1242 "cusparseDhyb2dense" [h "handle"; h "descrA"; h "hybA"; p "A"; i4 "lda"] code;
   aborts 1243 "cusparseChyb2dense" [h "handle"; h "descrA"; h "hybA"; p "A"; i4 "lda"] code;
   aborts 1244 "cusparseZhyb2dense" [h "handle"; h "descrA"; h "hybA"; p "A"; i4 "lda"] code;
   aborts 1245 "cusparseScsr2hyb"
     [h "handle"; i4 "m"; i4 "n"; h "descrA"; p "csrSortedValA"; p "csrSortedRowPtrA";
      p "csrSortedColIndA"; h "hybA"; i4 "userEllWidth"; u4 "partitionType"] code;
   aborts 1246 "cusparseDcsr2hyb"
     [h "handle"; i4 "m"; i4 "n"; h "descrA"; p "csrSortedValA"; p "csrSortedRowPtrA";
      p "csrSortedColIndA"; h "hybA"; i4 "userEllWidth"; u4 "partitionType"] code].

Definition cusparse_48 : list aborting :=
  [aborts 1247 "cusparseCcsr2hyb"
     [h "handle"; i4 "m"; i4 "n"; h "descrA"; p "csrSortedValA"; p "csrSortedRowPtrA";
      p "csrSortedColIndA"; h "hybA"; i4 "userEllWidth"; u4 "partitionType"] code;
   aborts 1248 "cusparseZcsr2hyb"
     [h "handle"; i4 "m"; i4 "n"; h "descrA"; p "csrSortedValA"; p "csrSortedRowPtrA";
      p "csrSortedColIndA"; h "hybA"; i4 "userEllWidth"; u4 "partitionType"] code;
   aborts 1249 "cusparseShyb2csr"
     [h "handle"; h "descrA"; h "hybA"; p "csrSortedValA"; p "csrSortedRowPtrA"; p "csrSortedColIndA"] code;
   aborts 1250 "cusparseDhyb2csr"
     [h "handle"; h "descrA"; h "hybA"; p "csrSortedValA"; p "csrSortedRowPtrA"; p "csrSortedColIndA"] code;
   aborts 1251 "cusparseChyb2csr"
     [h "handle"; h "descrA"; h "hybA"; p "csrSortedValA"; p "csrSortedRowPtrA"; p "csrSortedColIndA"] code;
   aborts 1252 "cusparseZhyb2csr"
     [h "handle"; h "descrA"; h "hybA"; p "csrSortedValA"; p "csrSortedRowPtrA"; p "csrSortedColIndA"] code;
   aborts 1253 "cusparseScsc2hyb"
     [h "handle"; i4 "m"; i4 "n"; h "descrA"; p "cscSortedValA"; p "cscSortedRowIndA";
      p "cscSortedColPtrA"; h "hybA"; i4 "userEllWidth"; u4 "partitionType"] code;
   aborts 1254 "cusparseDcsc2hyb"
     [h "handle"; i4 "m"; i4 "n"; h "descrA"; p "cscSortedValA"; p "cscSortedRowIndA";
      p "cscSortedColPtrA"; h "hybA"; i4 "userEllWidth"; u4 "partitionType"] code;
   aborts 1255 "cusparseCcsc2hyb"
     [h "handle"; i4 "m"; i4 "n"; h "descrA"; p "cscSortedValA"; p "cscSortedRowIndA";
      p "cscSortedColPtrA"; h "hybA"; i4 "userEllWidth"; u4 "partitionType"] code].

Definition cusparse_49 : list aborting :=
  [aborts 1256 "cusparseZcsc2hyb"
     [h "handle"; i4 "m"; i4 "n"; h "descrA"; p "cscSortedValA"; p "cscSortedRowIndA";
      p "cscSortedColPtrA"; h "hybA"; i4 "userEllWidth"; u4 "partitionType"] code;
   aborts 1257 "cusparseShyb2csc"
     [h "handle"; h "descrA"; h "hybA"; p "cscSortedVal"; p "cscSortedRowInd"; p "cscSortedColPtr"] code;
   aborts 1258 "cusparseDhyb2csc"
     [h "handle"; h "descrA"; h "hybA"; p "cscSortedVal"; p "cscSortedRowInd"; p "cscSortedColPtr"] code;
   aborts 1259 "cusparseChyb2csc"
     [h "handle"; h "descrA"; h "hybA"; p "cscSortedVal"; p "cscSortedRowInd"; p "cscSortedColPtr"] code;
   aborts 1260 "cusparseZhyb2csc"
     [h "handle"; h "descrA"; h "hybA"; p "cscSortedVal"; p "cscSortedRowInd"; p "cscSortedColPtr"] code;
   aborts 1261 "cusparseXcsr2bsrNnz"
     [h "handle"; u4 "dirA"; i4 "m"; i4 "n"; h "descrA"; p "csrSortedRowPtrA"; p "csrSortedColIndA";
      i4 "blockDim"; h "descrC"; p "bsrSortedRowPtrC"; p "nnzTotalDevHostPtr"] code;
   aborts 1262 "cusparseScsr2bsr"
     [h "handle"; u4 "dirA"; i4 "m"; i4 "n"; h "descrA"; p "csrSortedValA"; p "csrSortedRowPtrA";
      p "csrSortedColIndA"; i4 "blockDim"; h "descrC"; p "bsrSortedValC"; p "bsrSortedRowPtrC";
      p "bsrSortedColIndC"] code;
   aborts 1263 "cusparseDcsr2bsr"
     [h "handle"; u4 "dirA"; i4 "m"; i4 "n"; h "descrA"; p "csrSortedValA"; p "csrSortedRowPtrA";
      p "csrSortedColIndA"; i4 "blockDim"; h "descrC"; p "bsrSortedValC"; p "bsrSortedRowPtrC";
      p "bsrSortedColIndC"] code;
   aborts 1264 "cusparseCcsr2bsr"
     [h "handle"; u4 "dirA"; i4 "m"; i4 "n"; h "descrA"; p "csrSortedValA"; p "csrSortedRowPtrA";
      p "csrSortedColIndA"; i4 "blockDim"; h "descrC"; p "bsrSortedValC"; p "bsrSortedRowPtrC";
      p "bsrSortedColIndC"] code].

Definition cusparse_50 : list aborting :=
  [aborts 1265 "cusparseZcsr2bsr"
     [h "handle"; u4 "dirA"; i4 "m"; i4 "n"; h "descrA"; p "csrSortedValA"; p "csrSortedRowPtrA";
      p "csrSortedColIndA"; i4 "blockDim"; h "descrC"; p "bsrSortedValC"; p "bsrSortedRowPtrC";
      p "bsrSortedColIndC"] code;
   aborts 1266 "cusparseSbsr2csr"
     [h "handle"; u4 "dirA"; i4 "mb"; i4 "nb"; h "descrA"; p "bsrSortedValA"; p "bsrSortedRowPtrA";
      p "bsrSortedColIndA"; i4 "blockDim"; h "descrC"; p "csrSortedValC"; p "csrSortedRowPtrC";
      p "csrSortedColIndC"] code;
   aborts 1267 "cusparseDbsr2csr"
     [h "handle"; u4 "dirA"; i4 "mb"; i4 "nb"; h "descrA"; p "bsrSortedValA"; p "bsrSortedRowPtrA";
      p "bsrSortedColIndA"; i4 "blockDim"; h "descrC"; p "csrSortedValC"; p "csrSortedRowPtrC";
      p "csrSortedColIndC"] code;
   aborts 1268 "cusparseCbsr2csr"
     [h "handle"; u4 "dirA"; i4 "mb"; i4 "nb"; h "descrA"; p "bsrSortedValA"; p "bsrSortedRowPtrA";
      p "bsrSortedColIndA"; i4 "blockDim"; h "descrC"; p "csrSortedValC"; p "csrSortedRowPtrC";
      p "csrSortedColIndC"] code;
   aborts 1269 "cusparseZbsr2csr"
     [h "handle"; u4 "dirA"; i4 "mb"; i4 "nb"; h "descrA"; p "bsrSortedValA"; p "bsrSortedRowPtrA";
      p "bsrSortedColIndA"; i4 "blockDim"; h "descrC"; p "csrSortedValC"; p "csrSortedRowPtrC";
      p "csrSortedColIndC"] code;
   aborts 1270 "cusparseSgebsr2gebsc_bufferSize"
     [h "handle"; i4 "mb"; i4 "nb"; i4 "nnzb"; p "bsrSortedVal"; p "bsrSortedRowPtr"; p "bsrSortedColInd";
      i4 "rowBlockDim"; i4 "colBlockDim"; p "pBufferSizeInBytes"] code;
   aborts 1271 "cusparseDgebsr2gebsc_bufferSize"
     [h "handle"; i4 "mb"; i4 "nb"; i4 "nnzb"; p "bsrSortedVal"; p "bsrSortedRowPtr"; p "bsrSortedColInd";
      i4 "rowBlockDim"; i4 "colBlockDim"; p "pBufferSizeInBytes"] code;
   aborts 1272 "cusparseCgebsr2gebsc_bufferSize"
     [h "handle"; i4 "mb"; i4 "nb"; i4 "nnzb"; p "bsrSortedVal"; p "bsrSortedRowPtr"; p "bsrSortedColInd";
      i4 "rowBlockDim"; i4 "colBlockDim"; p "pBufferSizeInBytes"] code].

Definition cusparse_51 : list aborting :=
  [aborts 1273 "cusparseZgebsr2gebsc_bufferSize"
     [h "handle"; i4 "mb"; i4 "nb"; i4 "nnzb"; p "bsrSortedVal"; p "bsrSortedRowPtr"; p "bsrSortedColInd";
      i4 "rowBlockDim"; i4 "colBlockDim"; p "pBufferSizeInBytes"] code;
   aborts 1274 "cusparseSgebsr2gebsc_bufferSizeExt"
     [h "handle"; i4 "mb"; i4 "nb"; i4 "nnzb"; p "bsrSortedVal"; p "bsrSortedRowPtr"; p "bsrSortedColInd";
      i4 "rowBlockDim"; i4 "colBlockDim"; p "pBufferSize"] code;
   aborts 1275 "cusparseDgebsr2gebsc_bufferSizeExt"
     [h "handle"; i4 "mb"; i4 "nb"; i4 "nnzb"; p "bsrSortedVal"; p "bsrSortedRowPtr"; p "bsrSortedColInd";
      i4 "rowBlockDim"; i4 "colBlockDim"; p "pBufferSize"] code;
   aborts 1276 "cusparseCgebsr2gebsc_bufferSizeExt"
     [h "handle"; i4 "mb"; i4 "nb"; i4 "nnzb"; p "bsrSortedVal"; p "bsrSortedRowPtr"; p "bsrSortedColInd";
      i4 "rowBlockDim"; i4 "colBlockDim"; p "pBufferSize"] code;
   aborts 1277 "cusparseZgebsr2gebsc_bufferSizeExt"
     [h "handle"; i4 "mb"; i4 "nb"; i4 "nnzb"; p "bsrSortedVal"; p "bsrSortedRowPtr"; p "bsrSortedColInd";
      i4 "rowBlockDim"; i4 "colBlockDim"; p "pBufferSize"] code;
   aborts 1278 "cusparseSgebsr2gebsc"
     [h "handle"; i4 "mb"; i4 "nb"; i4 "nnzb"; p "bsrSortedVal"; p "bsrSortedRowPtr"; p "bsrSortedColInd";
      i4 "rowBlockDim"; i4 "colBlockDim"; p "bscVal"; p "bscRowInd"; p "bscColPtr"; u4 "copyValues";
      u4 "idxBase"; p "pBuffer"] code;
   aborts 1279 "cusparseDgebsr2gebsc"
     [h "handle"; i4 "mb"; i4 "nb"; i4 "nnzb"; p "bsrSortedVal"; p "bsrSortedRowPtr"; p "bsrSortedColInd";
      i4 "rowBlockDim"; i4 "colBlockDim"; p "bscVal"; p "bscRowInd"; p "bscColPtr"; u4 "copyValues";
      u4 "idxBase"; p "pBuffer"] code;
   aborts 1280 "cusparseCgebsr2gebsc"
     [h "handle"; i4 "mb"; i4 "nb"; i4 "nnzb"; p "bsrSortedVal"; p "bsrSortedRowPtr"; p "bsrSortedColInd";
      i4 "rowBlockDim"; i4 "colBlockDim"; p "bscVal"; p "bscRowInd"; p "bscColPtr"; u4 "copyValues";
      u4 "idxBase"; p "pBuffer"] code].

Definition cusparse_52 : list aborting :=
  [aborts 1281 "cusparseZgebsr2gebsc"
     [h "handle"; i4 "mb"; i4 "nb"; i4 "nnzb"; p "bsrSortedVal"; p "bsrSortedRowPtr"; p "bsrSortedColInd";
      i4 "rowBlockDim"; i4 "colBlockDim"; p "bscVal"; p "bscRowInd"; p "bscColPtr"; u4 "copyValues";
      u4 "idxBase"; p "pBuffer"] code;
   aborts 1282 "cusparseXgebsr2csr"
     [h "handle"; u4 "dirA"; i4 "mb"; i4 "nb"; h "descrA"; p "bsrSortedRowPtrA"; p "bsrSortedColIndA";
      i4 "rowBlockDim"; i4 "colBlockDim"; h "descrC"; p "csrSortedRowPtrC"; p "csrSortedColIndC"] code;
   aborts 1283 "cusparseSgebsr2csr"
     [h "handle"; u4 "dirA"; i4 "mb"; i4 "nb"; h "descrA"; p "bsrSortedValA"; p "bsrSortedRowPtrA";
      p "bsrSortedColIndA"; i4 "rowBlockDim"; i4 "colBlockDim"; h "descrC"; p "csrSortedValC";
      p "csrSortedRowPtrC"; p "csrSortedColIndC"] code;
   aborts 1284 "cusparseDgebsr2csr"
     [h "handle"; u4 "dirA"; i4 "mb"; i4 "nb"; h "descrA"; p "bsrSortedValA"; p "bsrSortedRowPtrA";
      p "bsrSortedColIndA"; i4 "rowBlockDim"; i4 "colBlockDim"; h "descrC"; p "csrSortedValC";
      p "csrSortedRowPtrC"; p "csrSortedColIndC"] code;
   aborts 1285 "cusparseCgebsr2csr"
     [h "handle"; u4 "dirA"; i4 "mb"; i4 "nb"; h "descrA"; p "bsrSortedValA"; p "bsrSortedRowPtrA";
      p "bsrSortedColIndA"; i4 "rowBlockDim"; i4 "colBlockDim"; h "descrC"; p "csrSortedValC";
      p "csrSortedRowPtrC"; p "csrSortedColIndC"] code;
   aborts 1286 "cusparseZgebsr2csr"
     [h "handle"; u4 "dirA"; i4 "mb"; i4 "nb"; h "descrA"; p "bsrSortedValA"; p "bsrSortedRowPtrA";
      p "bsrSortedColIndA"; i4 "rowBlockDim"; i4 "colBlockDim"; h "descrC"; p "csrSortedValC";
      p "csrSortedRowPtrC"; p "csrSortedColIndC"] code;
   aborts 1287 "cusparseScsr2gebsr_bufferSize"
     [h "handle"; u4 "dirA"; i4 "m"; i4 "n"; h "descrA"; p "csrSortedValA"; p "csrSortedRowPtrA";
      p "csrSortedColIndA"; i4 "rowBlockDim"; i4 "colBlockDim"; p "pBufferSizeInBytes"] code].

Definition cusparse_53 : list aborting :=
  [aborts 1288 "cusparseDcsr2gebsr_bufferSize"
     [h "handle"; u4 "dirA"; i4 "m"; i4 "n"; h "descrA"; p "csrSortedValA"; p "csrSortedRowPtrA";
      p "csrSortedColIndA"; i4 "rowBlockDim"; i4 "colBlockDim"; p "pBufferSizeInBytes"] code;
   aborts 1289 "cusparseCcsr2gebsr_bufferSize"
     [h "handle"; u4 "dirA"; i4 "m"; i4 "n"; h "descrA"; p "csrSortedValA"; p "csrSortedRowPtrA";
      p "csrSortedColIndA"; i4 "rowBlockDim"; i4 "colBlockDim"; p "pBufferSizeInBytes"] code;
   aborts 1290 "cusparseZcsr2gebsr_bufferSize"
     [h "handle"; u4 "dirA"; i4 "m"; i4 "n"; h "descrA"; p "csrSortedValA"; p "csrSortedRowPtrA";
      p "csrSortedColIndA"; i4 "rowBlockDim"; i4 "colBlockDim"; p "pBufferSizeInBytes"] code;
   aborts 1291 "cusparseScsr2gebsr_bufferSizeExt"
     [h "handle"; u4 "dirA"; i4 "m"; i4 "n"; h "descrA"; p "csrSortedValA"; p "csrSortedRowPtrA";
      p "csrSortedColIndA"; i4 "rowBlockDim"; i4 "colBlockDim"; p "pBufferSize"] code;
   aborts 1292 "cusparseDcsr2gebsr_bufferSizeExt"
     [h "handle"; u4 "dirA"; i4 "m"; i4 "n"; h "descrA"; p "csrSortedValA"; p "csrSortedRowPtrA";
      p "csrSortedColIndA"; i4 "rowBlockDim"; i4 "colBlockDim"; p "pBufferSize"] code;
   aborts 1293 "cusparseCcsr2gebsr_bufferSizeExt"
     [h "handle"; u4 "dirA"; i4 "m"; i4 "n"; h "descrA"; p "csrSortedValA"; p "csrSortedRowPtrA";
      p "csrSortedColIndA"; i4 "rowBlockDim"; i4 "colBlockDim"; p "pBufferSize"] code;
   aborts 1294 "cusparseZcsr2gebsr_bufferSizeExt"
     [h "handle"; u4 "dirA"; i4 "m"; i4 "n"; h "descrA"; p "csrSortedValA"; p "csrSortedRowPtrA";
      p "csrSortedColIndA"; i4 "rowBlockDim"; i4 "colBlockDim"; p "pBufferSize"] code;
   aborts 1295 "cusparseXcsr2gebsrNnz"
     [h "handle"; u4 "dirA"; i4 "m"; i4 "n"; h "descrA"; p "csrSortedRowPtrA"; p "csrSortedColIndA";
      h "descrC"; p "bsrSortedRowPtrC"; i4 "rowBlockDim"; i4 "colBlockDim"; p "nnzTotalDevHostPtr";
      p "pBuffer"] code].

Definition cusparse_54 : list aborting :=
  [aborts 1296 "cusparseScsr2gebsr"
     [h "handle"; u4 "dirA"; i4 "m"; i4 "n"; h "descrA"; p "csrSortedValA"; p "csrSortedRowPtrA";
      p "csrSortedColIndA"; h "descrC"; p "bsrSortedValC"; p "bsrSortedRowPtrC"; p "bsrSortedColIndC";
      i4 "rowBlockDim"; i4 "colBlockDim"; p "pBuffer"] code;
   aborts 1297 "cusparseDcsr2gebsr"
     [h "handle"; u4 "dirA"; i4 "m"; i4 "n"; h "descrA"; p "csrSortedValA"; p "csrSortedRowPtrA";
      p "csrSortedColIndA"; h "descrC"; p "bsrSortedValC"; p "bsrSortedRowPtrC"; p "bsrSortedColIndC";
      i4 "rowBlockDim"; i4 "colBlockDim"; p "pBuffer"] code;
   aborts 1298 "cusparseCcsr2gebsr"
     [h "handle"; u4 "dirA"; i4 "m"; i4 "n"; h "descrA"; p "csrSortedValA"; p "csrSortedRowPtrA";
      p "csrSortedColIndA"; h "descrC"; p "bsrSortedValC"; p "bsrSortedRowPtrC"; p "bsrSortedColIndC";
      i4 "rowBlockDim"; i4 "colBlockDim"; p "pBuffer"] code;
   aborts 1299 "cusparseZcsr2gebsr"
     [h "handle"; u4 "dirA"; i4 "m"; i4 "n"; h "descrA"; p "csrSortedValA"; p "csrSortedRowPtrA";
      p "csrSortedColIndA"; h "descrC"; p "bsrSortedValC"; p "bsrSortedRowPtrC"; p "bsrSortedColIndC";
      i4 "rowBlockDim"; i4 "colBlockDim"; p "pBuffer"] code;
   aborts 1300 "cusparseSgebsr2gebsr_bufferSize"
     [h "handle"; u4 "dirA"; i4 "mb"; i4 "nb"; i4 "nnzb"; h "descrA"; p "bsrSortedValA";
      p "bsrSortedRowPtrA"; p "bsrSortedColIndA"; i4 "rowBlockDimA"; i4 "colBlockDimA"; i4 "rowBlockDimC";
      i4 "colBlockDimC"; p "pBufferSizeInBytes"] code;
   aborts 1301 "cusparseDgebsr2gebsr_bufferSize"
     [h "handle"; u4 "dirA"; i4 "mb"; i4 "nb"; i4 "nnzb"; h "descrA"; p "bsrSortedValA";
      p "bsrSortedRowPtrA"; p "bsrSortedColIndA"; i4 "rowBlockDimA"; i4 "colBlockDimA"; i4 "rowBlockDimC";
      i4 "colBlockDimC"; p "pBufferSizeInBytes"] code;
   aborts 1302 "cusparseCgebsr2gebsr_bufferSize"
     [h "handle"; u4 "dirA"; i4 "mb"; i4 "nb"; i4 "nnzb"; h "descrA"; p "bsrSortedValA";
      p "bsrSortedRowPtrA"; p "bsrSortedColIndA"; i4 "rowBlockDimA"; i4 "colBlockDimA"; i4 "rowBlockDimC";
      i4 "colBlockDimC"; p "pBufferSizeInBytes"] code].

Definition cusparse_55 : list aborting :=
  [aborts 1303 "cusparseZgebsr2gebsr_bufferSize"
     [h "handle"; u4 "dirA"; i4 "mb"; i4 "nb"; i4 "nnzb"; h "descrA"; p "bsrSortedValA";
      p "bsrSortedRowPtrA"; p "bsrSortedColIndA"; i4 "rowBlockDimA"; i4 "colBlockDimA"; i4 "rowBlockDimC";
      i4 "colBlockDimC"; p "pBufferSizeInBytes"] code;
   aborts 1304 "cusparseSgebsr2gebsr_bufferSizeExt"
     [h "handle"; u4 "dirA"; i4 "mb"; i4 "nb"; i4 "nnzb"; h "descrA"; p "bsrSortedValA";
      p "bsrSortedRowPtrA"; p "bsrSortedColIndA"; i4 "rowBlockDimA"; i4 "colBlockDimA"; i4 "rowBlockDimC";
      i4 "colBlockDimC"; p "pBufferSize"] code;
   aborts 1305 "cusparseDgebsr2gebsr_bufferSizeExt"
     [h "handle"; u4 "dirA"; i4 "mb"; i4 "nb"; i4 "nnzb"; h "descrA"; p "bsrSortedValA";
      p "bsrSortedRowPtrA"; p "bsrSortedColIndA"; i4 "rowBlockDimA"; i4 "colBlockDimA"; i4 "rowBlockDimC";
      i4 "colBlockDimC"; p "pBufferSize"] code;
   aborts 1306 "cusparseCgebsr2gebsr_bufferSizeExt"
     [h "handle"; u4 "dirA"; i4 "mb"; i4 "nb"; i4 "nnzb"; h "descrA"; p "bsrSortedValA";
      p "bsrSortedRowPtrA"; p "bsrSortedColIndA"; i4 "rowBlockDimA"; i4 "colBlockDimA"; i4 "rowBlockDimC";
      i4 "colBlockDimC"; p "pBufferSize"] code;
   aborts 1307 "cusparseZgebsr2gebsr_bufferSizeExt"
     [h "handle"; u4 "dirA"; i4 "mb"; i4 "nb"; i4 "nnzb"; h "descrA"; p "bsrSortedValA";
      p "bsrSortedRowPtrA"; p "bsrSortedColIndA"; i4 "rowBlockDimA"; i4 "colBlockDimA"; i4 "rowBlockDimC";
      i4 "colBlockDimC"; p "pBufferSize"] code;
   aborts 1308 "cusparseXgebsr2gebsrNnz"
     [h "handle"; u4 "dirA"; i4 "mb"; i4 "nb"; i4 "nnzb"; h "descrA"; p "bsrSortedRowPtrA";
      p "bsrSortedColIndA"; i4 "rowBlockDimA"; i4 "colBlockDimA"; h "descrC"; p "bsrSortedRowPtrC";
      i4 "rowBlockDimC"; i4 "colBlockDimC"; p "nnzTotalDevHostPtr"; p "pBuffer"] code].

Definition cusparse_56 : list aborting :=
  [aborts 1309 "cusparseSgebsr2gebsr"
     [h "handle"; u4 "dirA"; i4 "mb"; i4 "nb"; i4 "nnzb"; h "descrA"; p "bsrSortedValA";
      p "bsrSortedRowPtrA"; p "bsrSortedColIndA"; i4 "rowBlockDimA"; i4 "colBlockDimA"; h "descrC";
      p "bsrSortedValC"; p "bsrSortedRowPtrC"; p "bsrSortedColIndC"; i4 "rowBlockDimC"; i4 "colBlockDimC";
      p "pBuffer"] code;
   aborts 1310 "cusparseDgebsr2gebsr"
     [h "handle"; u4 "dirA"; i4 "mb"; i4 "nb"; i4 "nnzb"; h "descrA"; p "bsrSortedValA";
      p "bsrSortedRowPtrA"; p "bsrSortedColIndA"; i4 "rowBlockDimA"; i4 "colBlockDimA"; h "descrC";
      p "bsrSortedValC"; p "bsrSortedRowPtrC"; p "bsrSortedColIndC"; i4 "rowBlockDimC"; i4 "colBlockDimC";
      p "pBuffer"] code;
   aborts 1311 "cusparseCgebsr2gebsr"
     [h "handle"; u4 "dirA"; i4 "mb"; i4 "nb"; i4 "nnzb"; h "descrA"; p "bsrSortedValA";
      p "bsrSortedRowPtrA"; p "bsrSortedColIndA"; i4 "rowBlockDimA"; i4 "colBlockDimA"; h "descrC";
      p "bsrSortedValC"; p "bsrSortedRowPtrC"; p "bsrSortedColIndC"; i4 "rowBlockDimC"; i4 "colBlockDimC";
      p "pBuffer"] code;
   aborts 1312 "cusparseZgebsr2gebsr"
     [h "handle"; u4 "dirA"; i4 "mb"; i4 "nb"; i4 "nnzb"; h "descrA"; p "bsrSortedValA";
      p "bsrSortedRowPtrA"; p "bsrSortedColIndA"; i4 "rowBlockDimA"; i4 "colBlockDimA"; h "descrC";
      p "bsrSortedValC"; p "bsrSortedRowPtrC"; p "bsrSortedColIndC"; i4 "rowBlockDimC"; i4 "colBlockDimC";
      p "pBuffer"] code].

Definition cusparse_57 : list aborting :=
  [aborts 1313 "cusparseCreateIdentityPermutation" [h "handle"; i4 "n"; p "p"] code;
   aborts 1314 "cusparseXcoosort_bufferSizeExt"
     [h "handle"; i4 "m"; i4 "n"; i4 "nnz"; p "cooRowsA"; p "cooColsA"; p "pBufferSizeInBytes"] code;
   aborts 1315 "cusparseXcoosortByRow"
     [h "handle"; i4 "m"; i4 "n"; i4 "nnz"; p "cooRowsA"; p "cooColsA"; p "P"; p "pBuffer"] code;
   aborts 1316 "cusparseXcoosortByColumn"
     [h "handle"; i4 "m"; i4 "n"; i4 "nnz"; p "cooRowsA"; p "cooColsA"; p "P"; p "pBuffer"] code;
   aborts 1317 "cusparseXcsrsort_bufferSizeExt"
     [h "handle"; i4 "m"; i4 "n"; i4 "nnz"; p "csrRowPtrA"; p "csrColIndA"; p "pBufferSizeInBytes"] code;
   aborts 1318 "cusparseXcsrsort"
     [h "handle"; i4 "m"; i4 "n"; i4 "nnz"; h "descrA"; p "csrRowPtrA"; p "csrColIndA"; p "P"; p "pBuffer"] code;
   aborts 1319 "cusparseXcscsort_bufferSizeExt"
     [h "handle"; i4 "m"; i4 "n"; i4 "nnz"; p "cscColPtrA"; p "cscRowIndA"; p "pBufferSizeInBytes"] code;
   aborts 1320 "cusparseXcscsort"
     [h "handle"; i4 "m"; i4 "n"; i4 "nnz"; h "descrA"; p "cscColPtrA"; p "cscRowIndA"; p "P"; p "pBuffer"] code;
   aborts 1321 "cusparseScsru2csr_bufferSizeExt"
     [h "handle"; i4 "m"; i4 "n"; i4 "nnz"; p "csrVal"; p "csrRowPtr"; p "csrColInd"; h "info";
      p "pBufferSizeInBytes"] code;
   aborts 1322 "cusparseDcsru2csr_bufferSizeExt"
     [h "handle"; i4 "m"; i4 "n"; i4 "nnz"; p "csrVal"; p "csrRowPtr"; p "csrColInd"; h "info";
      p "pBufferSizeInBytes"] code].

Definition cusparse_58 : list aborting :=
  [aborts 1323 "cusparseCcsru2csr_bufferSizeExt"
     [h "handle"; i4 "m"; i4 "n"; i4 "nnz"; p "csrVal"; p "csrRowPtr"; p "csrColInd"; h "info";
      p "pBufferSizeInBytes"] code;
   aborts 1324 "cusparseZcsru2csr_bufferSizeExt"
     [h "handle"; i4 "m"; i4 "n"; i4 "nnz"; p "csrVal"; p "csrRowPtr"; p "csrColInd"; h "info";
      p "pBufferSizeInBytes"] code;
   aborts 1325 "cusparseScsru2csr"
     [h "handle"; i4 "m"; i4 "n"; i4 "nnz"; h "descrA"; p "csrVal"; p "csrRowPtr"; p "csrColInd"; h "info";
      p "pBuffer"] code;
   aborts 1326 "cusparseDcsru2csr"
     [h "handle"; i4 "m"; i4 "n"; i4 "nnz"; h "descrA"; p "csrVal"; p "csrRowPtr"; p "csrColInd"; h "info";
      p "pBuffer"] code;
   aborts 1327 "cusparseCcsru2csr"
     [h "handle"; i4 "m"; i4 "n"; i4 "nnz"; h "descrA"; p "csrVal"; p "csrRowPtr"; p "csrColInd"; h "info";
      p "pBuffer"] code;
   aborts 1328 "cusparseZcsru2csr"
     [h "handle"; i4 "m"; i4 "n"; i4 "nnz"; h "descrA"; p "csrVal"; p "csrRowPtr"; p "csrColInd"; h "info";
      p "pBuffer"] code;
   aborts 1329 "cusparseScsr2csru"
     [h "handle"; i4 "m"; i4 "n"; i4 "nnz"; h "descrA"; p "csrVal"; p "csrRowPtr"; p "csrColInd"; h "info";
      p "pBuffer"] code;
   aborts 1330 "cusparseDcsr2csru"
     [h "handle"; i4 "m"; i4 "n"; i4 "nnz"; h "descrA"; p "csrVal"; p "csrRowPtr"; p "csrColInd"; h "info";
      p "pBuffer"] code;
   aborts 1331 "cusparseCcsr2csru"
     [h "handle"; i4 "m"; i4 "n"; i4 "nnz"; h "descrA"; p "csrVal"; p "csrRowPtr"; p "csrColInd"; h "info";
      p "pBuffer"] code].

Definition cusparse_59 : list aborting :=
  [aborts 1332 "cusparseZcsr2csru"
     [h "handle"; i4 "m"; i4 "n"; i4 "nnz"; h "descrA"; p "csrVal"; p "csrRowPtr"; p "csrColInd"; h "info";
      p "pBuffer"] code].

Definition cusparse_60 : list aborting :=
  [aborts 1333 "cusparseHpruneDense2csr_bufferSizeExt"
     [h "handle"; i4 "m"; i4 "n"; p "A"; i4 "lda"; p "threshold"; h "descrC"; p "csrSortedValC";
      p "csrSortedRowPtrC"; p "csrSortedColIndC"; p "pBufferSizeInBytes"] code].

Definition cusparse_61 : list aborting :=
  [aborts 1334 "cusparseSpruneDense2csr_bufferSizeExt"
     [h "handle"; i4 "m"; i4 "n"; p "A"; i4 "lda"; p "threshold"; h "descrC"; p "csrSortedValC";
      p "csrSortedRowPtrC"; p "csrSortedColIndC"; p "pBufferSizeInBytes"] code;
   aborts 1335 "cusparseDpruneDense2csr_bufferSizeExt"
     [h "handle"; i4 "m"; i4 "n"; p "A"; i4 "lda"; p "threshold"; h "descrC"; p "csrSortedValC";
      p "csrSortedRowPtrC"; p "csrSortedColIndC"; p "pBufferSizeInBytes"] code].

Definition cusparse_62 : list aborting :=
  [aborts 1336 "cusparseHpruneDense2csrNnz"
     [h "handle"; i4 "m"; i4 "n"; p "A"; i4 "lda"; p "threshold"; h "descrC"; p "csrRowPtrC";
      p "nnzTotalDevHostPtr"; p "pBuffer"] code].

Definition cusparse_63 : list aborting :=
  [aborts 1337 "cusparseSpruneDense2csrNnz"
     [h "handle"; i4 "m"; i4 "n"; p "A"; i4 "lda"; p "threshold"; h "descrC"; p "csrRowPtrC";
      p "nnzTotalDevHostPtr"; p "pBuffer"] code;
   aborts 1338 "cusparseDpruneDense2csrNnz"
     [h "handle"; i4 "m"; i4 "n"; p "A"; i4 "lda"; p "threshold"; h "descrC"; p "csrSortedRowPtrC";
      p "nnzTotalDevHostPtr"; p "pBuffer"] code].

Definition cusparse_64 : list aborting :=
  [aborts 1339 "cusparseHpruneDense2csr"
     [h "handle"; i4 "m"; i4 "n"; p "A"; i4 "lda"; p "threshold"; h "descrC"; p "csrSortedValC";
      p "csrSortedRowPtrC"; p "csrSortedColIndC"; p "pBuffer"] code].

Definition cusparse_65 : list aborting :=
  [aborts 1340 "cusparseSpruneDense2csr"
     [h "handle"; i4 "m"; i4 "n"; p "A"; i4 "lda"; p "threshold"; h "descrC"; p "csrSortedValC";
      p "csrSortedRowPtrC"; p "csrSortedColIndC"; p "pBuffer"] code;
   aborts 1341 "cusparseDpruneDense2csr"
     [h "handle"; i4 "m"; i4 "n"; p "A"; i4 "lda"; p "threshold"; h "descrC"; p "csrSortedValC";
      p "csrSortedRowPtrC"; p "csrSortedColIndC"; p "pBuffer"] code].

Definition cusparse_66 : list aborting :=
  [aborts 1342 "cusparseHpruneCsr2csr_bufferSizeExt"
     [h "handle"; i4 "m"; i4 "n"; i4 "nnzA"; h "descrA"; p "csrSortedValA"; p "csrSortedRowPtrA";
      p "csrSortedColIndA"; p "threshold"; h "descrC"; p "csrSortedValC"; p "csrSortedRowPtrC";
      p "csrSortedColIndC"; p "pBufferSizeInBytes"] code].

Definition cusparse_67 : list aborting :=
  [aborts 1343 "cusparseSpruneCsr2csr_bufferSizeExt"
     [h "handle"; i4 "m"; i4 "n"; i4 "nnzA"; h "descrA"; p "csrSortedValA"; p "csrSortedRowPtrA";
      p "csrSortedColIndA"; p "threshold"; h "descrC"; p "csrSortedValC"; p "csrSortedRowPtrC";
      p "csrSortedColIndC"; p "pBufferSizeInBytes"] code;
   aborts 1344 "cusparseDpruneCsr2csr_bufferSizeExt"
     [h "handle"; i4 "m"; i4 "n"; i4 "nnzA"; h "descrA"; p "csrSortedValA"; p "csrSortedRowPtrA";
      p "csrSortedColIndA"; p "threshold"; h "descrC"; p "csrSortedValC"; p "csrSortedRowPtrC";
      p "csrSortedColIndC"; p "pBufferSizeInBytes"] code].

Definition cusparse_68 : list aborting :=
  [aborts 1345 "cusparseHpruneCsr2csrNnz"
     [h "handle"; i4 "m"; i4 "n"; i4 "nnzA"; h "descrA"; p "csrSortedValA"; p "csrSortedRowPtrA";
      p "csrSortedColIndA"; p "threshold"; h "descrC"; p "csrSortedRowPtrC"; p "nnzTotalDevHostPtr";
      p "pBuffer"] code].

Definition cusparse_69 : list aborting :=
  [aborts 1346 "cusparseSpruneCsr2csrNnz"
     [h "handle"; i4 "m"; i4 "n"; i4 "nnzA"; h "descrA"; p "csrSortedValA"; p "csrSortedRowPtrA";
      p "csrSortedColIndA"; p "threshold"; h "descrC"; p "csrSortedRowPtrC"; p "nnzTotalDevHostPtr";
      p "pBuffer"] code;
   aborts 1347 "cusparseDpruneCsr2csrNnz"
     [h "handle"; i4 "m"; i4 "n"; i4 "nnzA"; h "descrA"; p "csrSortedValA"; p "csrSortedRowPtrA";
      p "csrSortedColIndA"; p "threshold"; h "descrC"; p "csrSortedRowPtrC"; p "nnzTotalDevHostPtr";
      p "pBuffer"] code].

Definition cusparse_70 : list aborting :=
  [aborts 1348 "cusparseHpruneCsr2csr"
     [h "handle"; i4 "m"; i4 "n"; i4 "nnzA"; h "descrA"; p "csrSortedValA"; p "csrSortedRowPtrA";
      p "csrSortedColIndA"; p "threshold"; h "descrC"; p "csrSortedValC"; p "csrSortedRowPtrC";
      p "csrSortedColIndC"; p "pBuffer"] code].

Definition cusparse_71 : list aborting :=
  [aborts 1349 "cusparseSpruneCsr2csr"
     [h "handle"; i4 "m"; i4 "n"; i4 "nnzA"; h "descrA"; p "csrSortedValA"; p "csrSortedRowPtrA";
      p "csrSortedColIndA"; p "threshold"; h "descrC"; p "csrSortedValC"; p "csrSortedRowPtrC";
      p "csrSortedColIndC"; p "pBuffer"] code;
   aborts 1350 "cusparseDpruneCsr2csr"
     [h "handle"; i4 "m"; i4 "n"; i4 "nnzA"; h "descrA"; p "csrSortedValA"; p "csrSortedRowPtrA";
      p "csrSortedColIndA"; p "threshold"; h "descrC"; p "csrSortedValC"; p "csrSortedRowPtrC";
      p "csrSortedColIndC"; p "pBuffer"] code].

Definition cusparse_72 : list aborting :=
  [aborts 1351 "cusparseHpruneDense2csrByPercentage_bufferSizeExt"
     [h "handle"; i4 "m"; i4 "n"; p "A"; i4 "lda"; u4 "percentage"; h "descrC"; p "csrSortedValC";
      p "csrSortedRowPtrC"; p "csrSortedColIndC"; h "info"; p "pBufferSizeInBytes"] code].

Definition cusparse_73 : list aborting :=
  [aborts 1352 "cusparseSpruneDense2csrByPercentage_bufferSizeExt"
     [h "handle"; i4 "m"; i4 "n"; p "A"; i4 "lda"; u4 "percentage"; h "descrC"; p "csrSortedValC";
      p "csrSortedRowPtrC"; p "csrSortedColIndC"; h "info"; p "pBufferSizeInBytes"] code;
   aborts 1353 "cusparseDpruneDense2csrByPercentage_bufferSizeExt"
     [h "handle"; i4 "m"; i4 "n"; p "A"; i4 "lda"; u4 "percentage"; h "descrC"; p "csrSortedValC";
      p "csrSortedRowPtrC"; p "csrSortedColIndC"; h "info"; p "pBufferSizeInBytes"] code].

Definition cusparse_74 : list aborting :=
  [aborts 1354 "cusparseHpruneDense2csrNnzByPercentage"
     [h "handle"; i4 "m"; i4 "n"; p "A"; i4 "lda"; u4 "percentage"; h "descrC"; p "csrRowPtrC";
      p "nnzTotalDevHostPtr"; h "info"; p "pBuffer"] code].

Definition cusparse_75 : list aborting :=
  [aborts 1355 "cusparseSpruneDense2csrNnzByPercentage"
     [h "handle"; i4 "m"; i4 "n"; p "A"; i4 "lda"; u4 "percentage"; h "descrC"; p "csrRowPtrC";
      p "nnzTotalDevHostPtr"; h "info"; p "pBuffer"] code;
   aborts 1356 "cusparseDpruneDense2csrNnzByPercentage"
     [h "handle"; i4 "m"; i4 "n"; p "A"; i4 "lda"; u4 "percentage"; h "descrC"; p "csrRowPtrC";
      p "nnzTotalDevHostPtr"; h "info"; p "pBuffer"] code].

Definition cusparse_76 : list aborting :=
  [aborts 1357 "cusparseHpruneDense2csrByPercentage"
     [h "handle"; i4 "m"; i4 "n"; p "A"; i4 "lda"; u4 "percentage"; h "descrC"; p "csrSortedValC";
      p "csrSortedRowPtrC"; p "csrSortedColIndC"; h "info"; p "pBuffer"] code].

Definition cusparse_77 : list aborting :=
  [aborts 1358 "cusparseSpruneDense2csrByPercentage"
     [h "handle"; i4 "m"; i4 "n"; p "A"; i4 "lda"; u4 "percentage"; h "descrC"; p "csrSortedValC";
      p "csrSortedRowPtrC"; p "csrSortedColIndC"; h "info"; p "pBuffer"] code;
   aborts 1359 "cusparseDpruneDense2csrByPercentage"
     [h "handle"; i4 "m"; i4 "n"; p "A"; i4 "lda"; u4 "percentage"; h "descrC"; p "csrSortedValC";
      p "csrSortedRowPtrC"; p "csrSortedColIndC"; h "info"; p "pBuffer"] code].

Definition cusparse_78 : list aborting :=
  [aborts 1360 "cusparseHpruneCsr2csrByPercentage_bufferSizeExt"
     [h "handle"; i4 "m"; i4 "n"; i4 "nnzA"; h "descrA"; p "csrSortedValA"; p "csrSortedRowPtrA";
      p "csrSortedColIndA"; u4 "percentage"; h "descrC"; p "csrSortedValC"; p "csrSortedRowPtrC";
      p "csrSortedColIndC"; h "info"; p "pBufferSizeInBytes"] code].

Definition cusparse_79 : list aborting :=
  [aborts 1361 "cusparseSpruneCsr2csrByPercentage_bufferSizeExt"
     [h "handle"; i4 "m"; i4 "n"; i4 "nnzA"; h "descrA"; p "csrSortedValA"; p "csrSortedRowPtrA";
      p "csrSortedColIndA"; u4 "percentage"; h "descrC"; p "csrSortedValC"; p "csrSortedRowPtrC";
      p "csrSortedColIndC"; h "info"; p "pBufferSizeInBytes"] code;
   aborts 1362 "cusparseDpruneCsr2csrByPercentage_bufferSizeExt"
     [h "handle"; i4 "m"; i4 "n"; i4 "nnzA"; h "descrA"; p "csrSortedValA"; p "csrSortedRowPtrA";
      p "csrSortedColIndA"; u4 "percentage"; h "descrC"; p "csrSortedValC"; p "csrSortedRowPtrC";
      p "csrSortedColIndC"; h "info"; p "pBufferSizeInBytes"] code].

Definition cusparse_80 : list aborting :=
  [aborts 1363 "cusparseHpruneCsr2csrNnzByPercentage"
     [h "handle"; i4 "m"; i4 "n"; i4 "nnzA"; h "descrA"; p "csrSortedValA"; p "csrSortedRowPtrA";
      p "csrSortedColIndA"; u4 "percentage"; h "descrC"; p "csrSortedRowPtrC"; p "nnzTotalDevHostPtr";
      h "info"; p "pBuffer"] code].

Definition cusparse_81 : list aborting :=
  [aborts 1364 "cusparseSpruneCsr2csrNnzByPercentage"
     [h "handle"; i4 "m"; i4 "n"; i4 "nnzA"; h "descrA"; p "csrSortedValA"; p "csrSortedRowPtrA";
      p "csrSortedColIndA"; u4 "percentage"; h "descrC"; p "csrSortedRowPtrC"; p "nnzTotalDevHostPtr";
      h "info"; p "pBuffer"] code;
   aborts 1365 "cusparseDpruneCsr2csrNnzByPercentage"
     [h "handle"; i4 "m"; i4 "n"; i4 "nnzA"; h "descrA"; p "csrSortedValA"; p "csrSortedRowPtrA";
      p "csrSortedColIndA"; u4 "percentage"; h "descrC"; p "csrSortedRowPtrC"; p "nnzTotalDevHostPtr";
      h "info"; p "pBuffer"] code].

Definition cusparse_82 : list aborting :=
  [aborts 1366 "cusparseHpruneCsr2csrByPercentage"
     [h "handle"; i4 "m"; i4 "n"; i4 "nnzA"; h "descrA"; p "csrSortedValA"; p "csrSortedRowPtrA";
      p "csrSortedColIndA"; u4 "percentage"; h "descrC"; p "csrSortedValC"; p "csrSortedRowPtrC";
      p "csrSortedColIndC"; h "info"; p "pBuffer"] code].

Definition cusparse_83 : list aborting :=
  [aborts 1367 "cusparseSpruneCsr2csrByPercentage"
     [h "handle"; i4 "m"; i4 "n"; i4 "nnzA"; h "descrA"; p "csrSortedValA"; p "csrSortedRowPtrA";
      p "csrSortedColIndA"; u4 "percentage"; h "descrC"; p "csrSortedValC"; p "csrSortedRowPtrC";
      p "csrSortedColIndC"; h "info"; p "pBuffer"] code;
   aborts 1368 "cusparseDpruneCsr2csrByPercentage"
     [h "handle"; i4 "m"; i4 "n"; i4 "nnzA"; h "descrA"; p "csrSortedValA"; p "csrSortedRowPtrA";
      p "csrSortedColIndA"; u4 "percentage"; h "descrC"; p "csrSortedValC"; p "csrSortedRowPtrC";
      p "csrSortedColIndC"; h "info"; p "pBuffer"] code].

Definition cusparse_84 : list aborting :=
  [aborts 1369 "cusparseCsr2cscEx2"
     [h "handle"; i4 "m"; i4 "n"; i4 "nnz"; p "csrVal"; p "csrRowPtr"; p "csrColInd"; p "cscVal";
      p "cscColPtr"; p "cscRowInd"; u4 "valType"; u4 "copyValues"; u4 "idxBase"; u4 "alg"; p "buffer"] code;
   aborts 1370 "cusparseCsr2cscEx2_bufferSize"
     [h "handle"; i4 "m"; i4 "n"; i4 "nnz"; p "csrVal"; p "csrRowPtr"; p "csrColInd"; p "cscVal";
      p "cscColPtr"; p "cscRowInd"; u4 "valType"; u4 "copyValues"; u4 "idxBase"; u4 "alg"; p "bufferSize"] code].

Definition cusparse_85 : list aborting :=
  [aborts 1371 "cusparseCreateSpVec"
     [p "spVecDescr"; i8 "size"; i8 "nnz"; p "indices"; p "values"; u4 "idxType"; u4 "idxBase";
      u4 "valueType"] code;
   aborts 1372 "cusparseDestroySpVec" [h "spVecDescr"] code;
   aborts 1373 "cusparseSpVecGet"
     [h "spVecDescr"; p "size"; p "nnz"; p "indices"; p "values"; p "idxType"; p "idxBase"; p "valueType"] code;
   aborts 1374 "cusparseSpVecGetIndexBase" [h "spVecDescr"; p "idxBase"] code;
   aborts 1375 "cusparseSpVecGetValues" [h "spVecDescr"; p "values"] code;
   aborts 1376 "cusparseSpVecSetValues" [h "spVecDescr"; p "values"] code].

Definition cusparse_86 : list aborting :=
  [aborts 1377 "cusparseCreateDnVec" [p "dnVecDescr"; i8 "size"; p "values"; u4 "valueType"] code;
   aborts 1378 "cusparseDestroyDnVec" [h "dnVecDescr"] code;
   aborts 1379 "cusparseDnVecGet" [h "dnVecDescr"; p "size"; p "values"; p "valueType"] code;
   aborts 1380 "cusparseDnVecGetValues" [h "dnVecDescr"; p "values"] code;
   aborts 1381 "cusparseDnVecSetValues" [h "dnVecDescr"; p "values"] code].

Definition cusparse_87 : list aborting :=
  [aborts 1382 "cusparseCreateCoo"
     [p "spMatDescr"; i8 "rows"; i8 "cols"; i8 "nnz"; p "cooRowInd"; p "cooColInd"; p "cooValues";
      u4 "cooIdxType"; u4 "idxBase"; u4 "valueType"] code;
   aborts 1383 "cusparseCreateCsr"
     [p "spMatDescr"; i8 "rows"; i8 "cols"; i8 "nnz"; p "csrRowOffsets"; p "csrColInd"; p "csrValues";
      u4 "csrRowOffsetsType"; u4 "csrColIndType"; u4 "idxBase"; u4 "valueType"] code;
   aborts 1384 "cusparseCreateCooAoS"
     [p "spMatDescr"; i8 "rows"; i8 "cols"; i8 "nnz"; p "cooInd"; p "cooValues"; u4 "cooIdxType";
      u4 "idxBase"; u4 "valueType"] code;
   aborts 1385 "cusparseDestroySpMat" [h "spMatDescr"] code;
   aborts 1386 "cusparseCooGet"
     [h "spMatDescr"; p "rows"; p "cols"; p "nnz"; p "cooRowInd"; p "cooColInd"; p "cooValues";
      p "idxType"; p "idxBase"; p "valueType"] code;
   aborts 1387 "cusparseCooAoSGet"
     [h "spMatDescr"; p "rows"; p "cols"; p "nnz"; p "cooInd"; p "cooValues"; p "idxType"; p "idxBase";
      p "valueType"] code;
   aborts 1388 "cusparseCsrGet"
     [h "spMatDescr"; p "rows"; p "cols"; p "nnz"; p "csrRowOffsets"; p "csrColInd"; p "csrValues";
      p "csrRowOffsetsType"; p "csrColIndType"; p "idxBase"; p "valueType"] code;
   aborts 1389 "cusparseSpMatGetFormat" [h "spMatDescr"; p "format"] code;
   aborts 1390 "cusparseSpMatGetIndexBase" [h "spMatDescr"; p "idxBase"] code;
   aborts 1391 "cusparseSpMatGetValues" [h "spMatDescr"; p "values"] code;
   aborts 1392 "cusparseSpMatSetValues" [h "spMatDescr"; p "values"] code].

Definition cusparse_88 : list aborting :=
  [aborts 1393 "cusparseSpMatSetStridedBatch" [h "spMatDescr"; i4 "batchCount"] code;
   aborts 1394 "cusparseSpMatGetStridedBatch" [h "spMatDescr"; p "batchCount"] code].

Definition cusparse_89 : list aborting :=
  [aborts 1395 "cusparseCreateDnMat"
     [p "dnMatDescr"; i8 "rows"; i8 "cols"; i8 "ld"; p "values"; u4 "valueType"; u4 "order"] code;
   aborts 1396 "cusparseDestroyDnMat" [h "dnMatDescr"] code;
   aborts 1397 "cusparseDnMatGet"
     [h "dnMatDescr"; p "rows"; p "cols"; p "ld"; p "values"; p "type"; p "order"] code;
   aborts 1398 "cusparseDnMatGetValues" [h "dnMatDescr"; p "values"] code;
   aborts 1399 "cusparseDnMatSetValues" [h "dnMatDescr"; p "values"] code;
   aborts 1400 "cusparseDnMatSetStridedBatch" [h "dnMatDescr"; i4 "batchCount"; i8 "batchStride"] code;
   aborts 1401 "cusparseDnMatGetStridedBatch" [h "dnMatDescr"; p "batchCount"; p "batchStride"] code].

Definition cusparse_90 : list aborting :=
  [aborts 1402 "cusparseSpVV"
     [h "handle"; u4 "opX"; h "vecX"; h "vecY"; p "result"; u4 "computeType"; p "externalBuffer"] code;
   aborts 1403 "cusparseSpVV_bufferSize"
     [h "handle"; u4 "opX"; h "vecX"; h "vecY"; p "result"; u4 "computeType"; p "bufferSize"] code].

Definition cusparse_91 : list aborting :=
  [aborts 1404 "cusparseSpMV"
     [h "handle"; u4 "opA"; p "alpha"; h "matA"; h "vecX"; p "beta"; h "vecY"; u4 "computeType"; u4 "alg";
      p "externalBuffer"] code;
   aborts 1405 "cusparseSpMV_bufferSize"
     [h "handle"; u4 "opA"; p "alpha"; h "matA"; h "vecX"; p "beta"; h "vecY"; u4 "computeType"; u4 "alg";
      p "bufferSize"] code].

Definition cusparse_92 : list aborting :=
  [aborts 1406 "cusparseSpMM"
     [h "handle"; u4 "opA"; u4 "opB"; p "alpha"; h "matA"; h "matB"; p "beta"; h "matC"; u4 "computeType";
      u4 "alg"; p "externalBuffer"] code;
   aborts 1407 "cusparseSpMM_bufferSize"
     [h "handle"; u4 "opA"; u4 "opB"; p "alpha"; h "matA"; h "matB"; p "beta"; h "matC"; u4 "computeType";
      u4 "alg"; p "bufferSize"] code].

Definition cuda_1 : list aborting :=
  [aborts 1408 "cudaDeviceSetLimit" [u4 "limit"; u8 "value"] status;
   aborts 1409 "cudaDeviceGetLimit" [p "pValue"; u4 "limit"] status;
   aborts 1410 "cudaDeviceGetCacheConfig" [p "pCacheConfig"] status;
   aborts 1411 "cudaDeviceGetStreamPriorityRange" [p "leastPriority"; p "greatestPriority"] status;
   aborts 1412 "cudaDeviceSetCacheConfig" [u4 "cacheConfig"] status;
   aborts 1413 "cudaDeviceGetSharedMemConfig" [p "pConfig"] status;
   aborts 1414 "cudaDeviceSetSharedMemConfig" [u4 "config"] status;
   aborts 1415 "cudaDeviceGetByPCIBusId" [p "device"; p "pciBusId"] status;
   aborts 1416 "cudaDeviceGetPCIBusId" [p "pciBusId"; i4 "len"; i4 "device"] status].

Definition cuda_2 : list aborting :=
  [aborts 1419 "cudaDeviceGetP2PAttribute" [p "value"; u4 "attr"; i4 "srcDevice"; i4 "dstDevice"] status;
   aborts 1420 "cudaChooseDevice" [p "device"; p "prop"] status;
   aborts 1421 "cudaSetValidDevices" [p "device_arr"; i4 "len"] status;
   aborts 1422 "cudaSetDeviceFlags" [u4 "flags"] status;
   aborts 1423 "cudaGetDeviceFlags" [p "flags"] status;
   aborts 1424 "cudaStreamCreate" [p "pStream"] status].

Definition cuda_3 : list aborting :=
  [aborts 1426 "cudaStreamCreateWithPriority" [p "pStream"; u4 "flags"; i4 "priority"] status;
   aborts 1427 "cudaStreamGetPriority" [h "hStream"; p "priority"] status;
   aborts 1428 "cudaStreamGetFlags" [h "hStream"; p "flags"] status].

Definition cuda_4 : list aborting :=
  [aborts 1430 "cudaStreamWaitEvent" [h "stream"; h "event"; u4 "flags"] status].

Definition cuda_5 : list aborting :=
  [aborts 1433 "cudaStreamBeginCapture" [h "stream"; u4 "mode"] status;
   aborts 1434 "cudaThreadExchangeStreamCaptureMode" [p "mode"] status;
   aborts 1435 "cudaStreamEndCapture" [h "stream"; p "pGraph"] status;
   aborts 1436 "cudaStreamIsCapturing" [h "stream"; p "pCaptureStatus"] status;
   aborts 1437 "cudaStreamGetCaptureInfo" [h "stream"; p "pCaptureStatus"; p "pId"] status].

Definition cuda_6 : list aborting :=
  [aborts 1440 "cudaImportExternalMemory" [p "extMem_out"; p "memHandleDesc"] status;
   aborts 1441 "cudaExternalMemoryGetMappedBuffer" [p "devPtr"; h "extMem"; p "bufferDesc"] status;
   aborts 1442 "cudaExternalMemoryGetMappedMipmappedArray" [p "mipmap"; h "extMem"; p "mipmapDesc"] status;
   aborts 1443 "cudaDestroyExternalMemory" [h "extMem"] status;
   aborts 1444 "cudaImportExternalSemaphore" [p "extSem_out"; p "semHandleDesc"] status;
   aborts 1445 "cudaSignalExternalSemaphoresAsync"
     [p "extSemArray"; p "paramsArray"; u4 "numExtSems"; h "stream"] status;
   aborts 1446 "cudaWaitExternalSemaphoresAsync"
     [p "extSemArray"; p "paramsArray"; u4 "numExtSems"; h "stream"] status;
   aborts 1447 "cudaDestroyExternalSemaphore" [h "extSem"] status;
   aborts 1448 "cudaLaunchCooperativeKernel"
     [p "func"; by_value 12 4 "gridDim"; by_value 12 4 "blockDim"; p "args"; u8 "sharedMem"; h "stream"] status;
   aborts 1449 "cudaLaunchCooperativeKernelMultiDevice"
     [p "launchParamsList"; u4 "numDevices"; u4 "flags"] status;
   aborts 1450 "cudaFuncSetCacheConfig" [p "func"; u4 "cacheConfig"] status;
   aborts 1451 "cudaFuncSetSharedMemConfig" [p "func"; u4 "config"] status].

Definition cuda_7 : list aborting :=
  [aborts 1453 "cudaFuncSetAttribute" [p "func"; u4 "attr"; i4 "value"] status;
   aborts 1454 "cudaLaunchHostFunc" [h "stream"; u8 "fn"; p "userData"] status].

Definition cuda_8 : list aborting :=
  [aborts 1457 "cudaMallocManaged" [p "devPtr"; u8 "size"; u4 "flags"] status].

Definition cuda_9 : list aborting :=
  [aborts 1458 "cudaMallocPitch" [p "devPtr"; p "pitch"; u8 "width"; u8 "height"] status;
   aborts 1459 "cudaFreeArray" [h "array"] status;
   aborts 1460 "cudaFreeMipmappedArray" [h "mipmappedArray"] status;
   aborts 1461 "cudaHostAlloc" [p "pHost"; u8 "size"; u4 "flags"] status;
   aborts 1462 "cudaHostRegister" [p "ptr"; u8 "size"; u4 "flags"] status;
   aborts 1463 "cudaHostUnregister" [p "ptr"] status;
   aborts 1464 "cudaHostGetDevicePointer" [p "pDevice"; p "pHost"; u4 "flags"] status;
   aborts 1465 "cudaHostGetFlags" [p "pFlags"; p "pHost"] status;
   aborts 1466 "cudaMalloc3D" [p "pitchedDevPtr"; by_value 24 8 "extent"] status;
   aborts 1467 "cudaMalloc3DArray" [p "array"; p "desc"; by_value 24 8 "extent"; u4 "flags"] status;
   aborts 1468 "cudaMallocMipmappedArray"
     [p "mipmappedArray"; p "desc"; by_value 24 8 "extent"; u4 "numLevels"; u4 "flags"] status;
   aborts 1469 "cudaGetMipmappedArrayLevel" [p "levelArray"; h "mipmappedArray"; u4 "level"] status;
   aborts 1470 "cudaMemcpy3D" [p "p"] status;
   aborts 1471 "cudaMemcpy3DPeer" [p "p"] status;
   aborts 1472 "cudaMemcpy3DAsync" [p "p"; h "stream"] status;
   aborts 1473 "cudaMemcpy3DPeerAsync" [p "p"; h "stream"] status].

Definition cuda_10 : list aborting :=
  [aborts 1475 "cudaArrayGetInfo" [p "desc"; p "extent"; p "flags"; h "array"] status;
   aborts 1476 "cudaMemcpyPeer" [p "dst"; i4 "dstDevice"; p "src"; i4 "srcDevice"; u8 "count"] status;
   aborts 1477 "cudaMemcpy2D"
     [p "dst"; u8 "dpitch"; p "src"; u8 "spitch"; u8 "width"; u8 "height"; u4 "kind"] status;
   aborts 1478 "cudaMemcpy2DToArray"
     [h "dst"; u8 "wOffset"; u8 "hOffset"; p "src"; u8 "spitch"; u8 "width"; u8 "height"; u4 "kind"] status;
   aborts 1479 "cudaMemcpy2DFromArray"
     [p "dst"; u8 "dpitch"; h "src"; u8 "wOffset"; u8 "hOffset"; u8 "width"; u8 "height"; u4 "kind"] status;
   aborts 1480 "cudaMemcpy2DArrayToArray"
     [h "dst"; u8 "wOffsetDst"; u8 "hOffsetDst"; h "src"; u8 "wOffsetSrc"; u8 "hOffsetSrc"; u8 "width";
      u8 "height"; u4 "kind"] status].

Definition cuda_11 : list aborting :=
  [aborts 1482 "cudaMemcpyPeerAsync"
     [p "dst"; i4 "dstDevice"; p "src"; i4 "srcDevice"; u8 "count"; h "stream"] status;
   aborts 1483 "cudaMemcpy2DAsync"
     [p "dst"; u8 "dpitch"; p "src"; u8 "spitch"; u8 "width"; u8 "height"; u4 "kind"; h "stream"] status;
   aborts 1484 "cudaMemcpy2DToArrayAsync"
     [h "dst"; u8 "wOffset"; u8 "hOffset"; p "src"; u8 "spitch"; u8 "width"; u8 "height"; u4 "kind";
      h "stream"] status;
   aborts 1485 "cudaMemcpy2DFromArrayAsync"
     [p "dst"; u8 "dpitch"; h "src"; u8 "wOffset"; u8 "hOffset"; u8 "width"; u8 "height"; u4 "kind";
      h "stream"] status;
   aborts 1486 "cudaMemcpyToSymbolAsync"
     [p "symbol"; p "src"; u8 "count"; u8 "offset"; u4 "kind"; h "stream"] status;
   aborts 1487 "cudaMemcpyFromSymbolAsync"
     [p "dst"; p "symbol"; u8 "count"; u8 "offset"; u4 "kind"; h "stream"] status;
   aborts 1488 "cudaMemset2D" [p "devPtr"; u8 "pitch"; i4 "value"; u8 "width"; u8 "height"] status;
   aborts 1489 "cudaMemset3D" [by_value 32 8 "pitchedDevPtr"; i4 "value"; by_value 24 8 "extent"] status;
   aborts 1490 "cudaMemsetAsync" [p "devPtr"; i4 "value"; u8 "count"; h "stream"] status;
   aborts 1491 "cudaMemset2DAsync"
     [p "devPtr"; u8 "pitch"; i4 "value"; u8 "width"; u8 "height"; h "stream"] status;
   aborts 1492 "cudaMemset3DAsync"
     [by_value 32 8 "pitchedDevPtr"; i4 "value"; by_value 24 8 "extent"; h "stream"] status;
   aborts 1493 "cudaGetSymbolAddress" [p "devPtr"; p "symbol"] status;
   aborts 1494 "cudaGetSymbolSize" [p "size"; p "symbol"] status;
   aborts 1495 "cudaMemPrefetchAsync" [p "devPtr"; u8 "count"; i4 "dstDevice"; h "stream"] status;
   aborts 1496 "cudaMemAdvise" [p "devPtr"; u8 "count"; u4 "advice"; i4 "device"] status;
   aborts 1497 "cudaMemRangeGetAttribute"
     [p "data"; u8 "dataSize"; u4 "attribute"; p "devPtr"; u8 "count"] status;
   aborts 1498 "cudaMemRangeGetAttributes"
     [p "data"; p "dataSizes"; p "attributes"; u8 "numAttributes"; p "devPtr"; u8 "count"] status;
   aborts 1499 "cudaDeviceCanAccessPeer" [p "canAccessPeer"; i4 "device"; i4 "peerDevice"] status;
   aborts 1500 "cudaDeviceEnablePeerAccess" [i4 "peerDevice"; u4 "flags"] status;
   aborts 1501 "cudaDeviceDisablePeerAccess" [i4 "peerDevice"] status;
   aborts 1502 "cudaGraphicsUnregisterResource" [h "resource"] status;
   aborts 1503 "cudaGraphicsResourceSetMapFlags" [h "resource"; u4 "flags"] status;
   aborts 1504 "cudaGraphicsMapResources" [i4 "count"; p "resources"; h "stream"] status;
   aborts 1505 "cudaGraphicsUnmapResources" [i4 "count"; p "resources"; h "stream"] status;
   aborts 1506 "cudaGraphicsResourceGetMappedPointer" [p "devPtr"; p "size"; h "resource"] status].

Definition cuda_12 : list aborting :=
  [aborts 1507 "cudaGraphicsSubResourceGetMappedArray"
     [p "array"; h "resource"; u4 "arrayIndex"; u4 "mipLevel"] status;
   aborts 1508 "cudaGraphicsResourceGetMappedMipmappedArray" [p "mipmappedArray"; h "resource"] status;
   aborts 1509 "cudaBindTexture" [p "offset"; p "texref"; p "devPtr"; p "desc"; u8 "size"] status;
   aborts 1510 "cudaBindTexture2D"
     [p "offset"; p "texref"; p "devPtr"; p "desc"; u8 "width"; u8 "height"; u8 "pitch"] status;
   aborts 1511 "cudaBindTextureToArray" [p "texref"; h "array"; p "desc"] status;
   aborts 1512 "cudaBindTextureToMipmappedArray" [p "texref"; h "mipmappedArray"; p "desc"] status;
   aborts 1513 "cudaUnbindTexture" [p "texref"] status;
   aborts 1514 "cudaGetTextureAlignmentOffset" [p "offset"; p "texref"] status;
   aborts 1515 "cudaGetTextureReference" [p "texref"; p "symbol"] status;
   aborts 1516 "cudaBindSurfaceToArray" [p "surfref"; h "array"; p "desc"] status;
   aborts 1517 "cudaGetSurfaceReference" [p "surfref"; p "symbol"] status;
   aborts 1518 "cudaGetChannelDesc" [p "desc"; h "array"] status;
   aborts 1519 "cudaCreateChannelDesc"
     [i4 "x"; i4 "y"; i4 "z"; i4 "w"; u4 "f"] (Some (struct_value 20 4), None);
   aborts 1520 "cudaCreateTextureObject"
     [p "pTexObject"; p "pResDesc"; p "pTexDesc"; p "pResViewDesc"] status;
   aborts 1521 "cudaDestroyTextureObject" [u8 "texObject"] status;
   aborts 1522 "cudaGetTextureObjectResourceDesc" [p "pResDesc"; u8 "texObject"] status;
   aborts 1523 "cudaGetTextureObjectTextureDesc" [p "pTexDesc"; u8 "texObject"] status;
   aborts 1524 "cudaGetTextureObjectResourceViewDesc" [p "pResViewDesc"; u8 "texObject"] status;
   aborts 1525 "cudaCreateSurfaceObject" [p "pSurfObject"; p "pResDesc"] status;
   aborts 1526 "cudaDestroySurfaceObject" [u8 "surfObject"] status;
   aborts 1527 "cudaGetSurfaceObjectResourceDesc" [p "pResDesc"; u8 "surfObject"] status;
   aborts 1528 "cudaDriverGetVersion" [p "driverVersion"] status;
   aborts 1529 "cudaRuntimeGetVersion" [p "runtimeVersion"] status;
   aborts 1530 "cudaGraphCreate" [p "pGraph"; u4 "flags"] status;
   aborts 1531 "cudaGraphAddKernelNode"
     [p "pGraphNode"; h "graph"; p "pDependencies"; u8 "numDependencies"; p "pNodeParams"] status].

Definition cuda_13 : list aborting :=
  [aborts 1532 "cudaGraphKernelNodeGetParams" [h "node"; p "pNodeParams"] status;
   aborts 1533 "cudaGraphKernelNodeSetParams" [h "node"; p "pNodeParams"] status;
   aborts 1534 "cudaGraphAddMemcpyNode"
     [p "pGraphNode"; h "graph"; p "pDependencies"; u8 "numDependencies"; p "pCopyParams"] status;
   aborts 1535 "cudaGraphMemcpyNodeGetParams" [h "node"; p "pNodeParams"] status;
   aborts 1536 "cudaGraphMemcpyNodeSetParams" [h "node"; p "pNodeParams"] status;
   aborts 1537 "cudaGraphAddMemsetNode"
     [p "pGraphNode"; h "graph"; p "pDependencies"; u8 "numDependencies"; p "pMemsetParams"] status;
   aborts 1538 "cudaGraphMemsetNodeGetParams" [h "node"; p "pNodeParams"] status;
   aborts 1539 "cudaGraphMemsetNodeSetParams" [h "node"; p "pNodeParams"] status;
   aborts 1540 "cudaGraphAddHostNode"
     [p "pGraphNode"; h "graph"; p "pDependencies"; u8 "numDependencies"; p "pNodeParams"] status;
   aborts 1541 "cudaGraphHostNodeGetParams" [h "node"; p "pNodeParams"] status;
   aborts 1542 "cudaGraphHostNodeSetParams" [h "node"; p "pNodeParams"] status;
   aborts 1543 "cudaGraphAddChildGraphNode"
     [p "pGraphNode"; h "graph"; p "pDependencies"; u8 "numDependencies"; h "childGraph"] status;
   aborts 1544 "cudaGraphChildGraphNodeGetGraph" [h "node"; p "pGraph"] status;
   aborts 1545 "cudaGraphAddEmptyNode"
     [p "pGraphNode"; h "graph"; p "pDependencies"; u8 "numDependencies"] status;
   aborts 1546 "cudaGraphClone" [p "pGraphClone"; h "originalGraph"] status;
   aborts 1547 "cudaGraphNodeFindInClone" [p "pNode"; h "originalNode"; h "clonedGraph"] status;
   aborts 1548 "cudaGraphNodeGetType" [h "node"; p "pType"] status;
   aborts 1549 "cudaGraphGetNodes" [h "graph"; p "nodes"; p "numNodes"] status;
   aborts 1550 "cudaGraphGetRootNodes" [h "graph"; p "pRootNodes"; p "pNumRootNodes"] status;
   aborts 1551 "cudaGraphGetEdges" [h "graph"; p "from"; p "to"; p "numEdges"] status;
   aborts 1552 "cudaGraphNodeGetDependencies" [h "node"; p "pDependencies"; p "pNumDependencies"] status;
   aborts 1553 "cudaGraphNodeGetDependentNodes"
     [h "node"; p "pDependentNodes"; p "pNumDependentNodes"] status;
   aborts 1554 "cudaGraphAddDependencies" [h "graph"; p "from"; p "to"; u8 "numDependencies"] status;
   aborts 1555 "cudaGraphRemoveDependencies" [h "graph"; p "from"; p "to"; u8 "numDependencies"] status;
   aborts 1556 "cudaGraphDestroyNode" [h "node"] status].

Definition cuda_14 : list aborting :=
  [aborts 1557 "cudaGraphInstantiate"
     [p "pGraphExec"; h "graph"; p "pErrorNode"; p "pLogBuffer"; u8 "bufferSize"] status;
   aborts 1558 "cudaGraphExecKernelNodeSetParams" [h "hGraphExec"; h "node"; p "pNodeParams"] status;
   aborts 1559 "cudaGraphLaunch" [h "graphExec"; h "stream"] status;
   aborts 1560 "cudaGraphExecDestroy" [h "graphExec"] status;
   aborts 1561 "cudaGraphDestroy" [h "graph"] status].

Definition cublas_31 : list aborting :=
  [aborts 1562 "cublasHgemmBatched"
     [h "handle"; u4 "transa"; u4 "transb"; i4 "m"; i4 "n"; i4 "k"; p "alpha"; p "Aarray"; i4 "lda";
      p "Barray"; i4 "ldb"; p "beta"; p "Carray"; i4 "ldc"; i4 "batchCount"] status;
   aborts 1563 "cublasHgemmStridedBatched"
     [h "handle"; u4 "transa"; u4 "transb"; i4 "m"; i4 "n"; i4 "k"; p "alpha"; p "A"; i4 "lda";
      i8 "strideA"; p "B"; i4 "ldb"; i8 "strideB"; p "beta"; p "C"; i4 "ldc"; i8 "strideC"; i4 "batchCount"] status].

Definition onnx_dump_aborting : list aborting := concat
  [cu_1; cublas_1; cublas_2; cublas_3; cublas_4; cublas_5; cublas_6; cublas_7; cublas_8; cublas_9;
   cublas_10; cublas_11; cublas_12; cublas_13; cublas_14; cublas_15; cublas_16; cublas_17; cublas_18;
   cublas_19; cublas_20; cublas_21; cublas_22; cublas_23; cublas_24; cublas_25; cublas_26; cublas_27;
   cublas_28; cublas_29; cublas_30; cudnn_1; cudnn_2; cudnn_3; cudnn_4; cudnn_5; cudnn_6; cudnn_7; cudnn_8;
   cudnn_9; cudnn_10; cudnn_11; cudnn_12; cudnn_13; cudnn_14; cudnn_15; cudnn_16; cudnn_17; cudnn_18;
   cudnn_19; cudnn_20; cudnn_21; cudnn_22; cudnn_23; cudnn_24; cudnn_25; cudnn_26; cudnn_27; cudnn_28;
   cudnn_29; cudnn_30; cudnn_31; cudnn_32; curand_1; curand_2; curand_3; curand_4; curand_5; cufft_1;
   cufft_2; cufft_3; cusolver_1; cusolver_2; cusolver_3; cusolver_4; cusolver_5; cusolver_6; cusolver_7;
   cusolver_8; cusolver_9; cusolver_10; cusolver_11; cusolver_12; cusolver_13; cusolver_14; cusolver_15;
   cusolver_16; cusolver_17; cusolver_18; cusolver_19; cusolver_20; cusolver_21; cusolver_22; cusolver_23;
   cusolver_24; cusolver_25; cusolver_26; cusolver_27; cusolver_28; cusolver_29; cusolver_30; cusolver_31;
   cusolver_32; cusolver_33; cusolver_34; cusolver_35; cusolver_36; cusolver_37; cusolver_38; cusolver_39;
   cusolver_40; cusolver_41; cusolver_42; cusolver_43; cusolver_44; cusolver_45; cusolver_46; cusolver_47;
   cusolver_48; cusolver_49; cusolver_50; cusolver_51; cusolver_52; cusolver_53; cusolver_54; cusolver_55;
   cusolver_56; cusolver_57; cusparse_1; cusparse_2; cusparse_3; cusparse_4; cusparse_5; cusparse_6;
   cusparse_7; cusparse_8; cusparse_9; cusparse_10; cusparse_11; cusparse_12; cusparse_13; cusparse_14;
   cusparse_15; cusparse_16; cusparse_17; cusparse_18; cusparse_19; cusparse_20; cusparse_21; cusparse_22;
   cusparse_23; cusparse_24; cusparse_25; cusparse_26; cusparse_27; cusparse_28; cusparse_29; cusparse_30;
   cusparse_31; cusparse_32; cusparse_33; cusparse_34; cusparse_35; cusparse_36; cusparse_37; cusparse_38;
   cusparse_39; cusparse_40; cusparse_41; cusparse_42; cusparse_43; cusparse_44; cusparse_45; cusparse_46;
   cusparse_47; cusparse_48; cusparse_49; cusparse_50; cusparse_51; cusparse_52; cusparse_53; cusparse_54;
   cusparse_55; cusparse_56; cusparse_57; cusparse_58; cusparse_59; cusparse_60; cusparse_61; cusparse_62;
   cusparse_63; cusparse_64; cusparse_65; cusparse_66; cusparse_67; cusparse_68; cusparse_69; cusparse_70;
   cusparse_71; cusparse_72; cusparse_73; cusparse_74; cusparse_75; cusparse_76; cusparse_77; cusparse_78;
   cusparse_79; cusparse_80; cusparse_81; cusparse_82; cusparse_83; cusparse_84; cusparse_85; cusparse_86;
   cusparse_87; cusparse_88; cusparse_89; cusparse_90; cusparse_91; cusparse_92; cuda_1; cuda_2; cuda_3;
   cuda_4; cuda_5; cuda_6; cuda_7; cuda_8; cuda_9; cuda_10; cuda_11; cuda_12; cuda_13; cuda_14; cublas_31].

(** The numbers of the remaining functions, which are implemented with annotations that the tables do
    not have. *)
Definition onnx_dump_others : list Z :=
  [1; 2; 3; 4; 5; 6; 12; 19; 27; 30; 31; 36; 54; 55; 56; 57; 58; 75; 338; 339; 353; 355; 363; 420; 452;
   884; 885; 1418; 1452; 1455; 1456; 1564].
