(* ===== verification/ApiAborts.v ===== *)
(** * Calls of functions that are not implemented

    The specifications for TensorFlow and ONNX Runtime declare the CUDA libraries in full; all but
    about a hundred of the functions abort.  A call of such a function ends the guest with a message
    before the send code runs, and all functions together have the numbers from 0 on. *)

From S2P Require Import Prelude Channel HandlePool Socket LogChannel ShmChannel SocketChannel Endpoint Dispatch Cava Stub Remote RemoteCall RemoteRefinement RemoteSocket SpecCheck BatchedStub ApiCalls.
From S2P Require Batching.
From S2P Require Import SpecTfOpt SpecTfDump SpecOnnxOpt SpecOnnxDump Aborting.
From S2P Require AbortTfOpt AbortTfDump AbortOnnxOpt AbortOnnxDump.
Local Open Scope Z_scope.

(** The functions that are implemented and those that abort, with the numbers of the rest and how many
    functions there are. *)
Record cuda_api := mk_cuda_api {
  implemented : list func;
  not_implemented_functions : list aborting;
  other_numbers : list Z;
  functions_declared : Z
}.
Definition cuda_apis : list cuda_api :=
  [mk_cuda_api tf_opt_functions AbortTfOpt.tf_opt_aborting AbortTfOpt.tf_opt_others 1556;
   mk_cuda_api tf_dump_functions AbortTfDump.tf_dump_aborting AbortTfDump.tf_dump_others 1563;
   mk_cuda_api onnx_opt_functions AbortOnnxOpt.onnx_opt_aborting AbortOnnxOpt.onnx_opt_others 1557;
   mk_cuda_api onnx_dump_functions AbortOnnxDump.onnx_dump_aborting AbortOnnxDump.onnx_dump_others 1565].

Definition declared (p : cuda_api) : list func := implemented p ++ (ab_func <$> not_implemented_functions p).

(** ** Numbers *)

Definition number (f : func) : Z := f_call_id f / 2.
Definition numbered (f : func) : bool := (f_call_id f =? 2 * number f) && (f_ret_id f =? 2 * number f + 1).

Lemma numbers_ids (fs : list func) : forallb numbered fs = true → NoDup (number <$> fs) → ids_ok fs [].
Proof.
  intros Hn Hnd. unfold ids_ok. rewrite app_nil_r. rewrite forallb_forall in Hn.
  assert (f_call_id <$> fs = (λ n, 2 * n) <$> (number <$> fs) ∧ f_ret_id <$> fs = (λ n, 2 * n + 1) <$> (number <$> fs)) as [-> ->].
  { rewrite <- !list_fmap_compose. split; apply list_fmap_ext; intros i f Hf;
      specialize (Hn f (proj1 (list_elem_of_In _ _) (list_elem_of_lookup_2 _ _ _ Hf)));
      apply andb_true_iff in Hn as [?%Z.eqb_eq ?%Z.eqb_eq]; done. }
  apply NoDup_app. split_and!.
  - apply NoDup_fmap_2; [intros x y ?; lia|done].
  - intros z (x & -> & _)%list_elem_of_fmap (y & Hy & _)%list_elem_of_fmap. lia.
  - apply NoDup_fmap_2; [intros x y ?; lia|done].
Qed.

Definition numbers (p : cuda_api) : list Z := (number <$> declared p) ++ other_numbers p.

Definition well_declared (p : cuda_api) : bool :=
  forallb numbered (declared p) &&
  bool_decide (merge_sort Z.le (numbers p) = seqZ 0 (functions_declared p)) &&
  forallb (λ f, plain_arguments (ab_func f) &&
    bool_decide (ab_prologue f ∈ [not_implemented __func__; not_implemented __PRETTY_FUNCTION__]) &&
    bool_decide (is_Some (toposort_flatten (f_arguments (ab_func f))))) (not_implemented_functions p).

Lemma cuda_declared : forallb well_declared cuda_apis = true.
Proof. by vm_compute. Qed.

Lemma declared_well p : p ∈ cuda_apis →
  numbers p ≡ₚ seqZ 0 (functions_declared p) ∧ ids_ok (declared p) [] ∧
  ∀ f, f ∈ not_implemented_functions p → plain_arguments (ab_func f) = true ∧
    run_statements (f_name (ab_func f)) (ab_prologue f) EmptyString =
      Stop (AssertFailed (f_name (ab_func f) +:+ " is not implemented" +:+ newline)) ∧
    toposort_flatten (f_arguments (ab_func f)) = Some (ordered (ab_func f)).
Proof.
  intros Hp. pose proof (forallb_elem _ _ _ cuda_declared Hp) as Hw. unfold well_declared in Hw.
  apply andb_true_iff in Hw as [[Hn Hm%bool_decide_eq_true]%andb_true_iff Hf].
  assert (numbers p ≡ₚ seqZ 0 (functions_declared p)) as Hperm by (rewrite <- Hm; symmetry; apply merge_sort_Permutation).
  split; [done|]. split.
  - apply numbers_ids; [done|]. apply (NoDup_app (number <$> declared p) (other_numbers p)).
    fold (numbers p). rewrite Hperm. apply NoDup_seqZ.
  - intros f Hin. pose proof (forallb_elem _ _ _ Hf Hin) as Hc. cbv beta in Hc.
    apply andb_true_iff in Hc as [[Hpl Hmsg%bool_decide_eq_true]%andb_true_iff [o Ho]%bool_decide_eq_true].
    split_and!; [done| |unfold ordered; by rewrite Ho].
    apply elem_of_cons in Hmsg as [->| ->%list_elem_of_singleton]; apply not_implemented_aborts.
Qed.

(** C7. The functions that the specifications for TensorFlow and ONNX Runtime declare with a body
    that prints and aborts, about 1430 in each, end the guest with the message that they are not
    implemented, for all arguments, and before the send code runs, whatever that would do,
    provided the channel has room for the command.  Such a function keeps its place in the
    enumeration of commands all the same: the numbers of these functions, of those that are
    implemented, and of the rest are those from 0 on, each once. *)
Theorem unimplemented_calls_abort {A B} `{Channel A} `{Channel B} (conn : A → B → Prop) `{!Link A B conn} {T}
    (send_code : bool → command → A → heap → T → res (A * heap * T)) (p : cuda_api) (f : aborting) (api thread : Z)
    (args : gmap string Z) (g : guest A) (b : B) (t : T) :
  p ∈ cuda_apis → f ∈ not_implemented_functions p → conn (g_chan g) b →
  room (conn := conn) (sizeof_struct (call_types (ordered (ab_func f)))) 0 →
  aborting_implementation send_code f (ordered (ab_func f)) api thread args g t =
    Stop (AssertFailed (f_name (ab_func f) +:+ " is not implemented" +:+ newline)) ∧
  ids_ok (declared p) [] ∧ numbers p ≡ₚ seqZ 0 (functions_declared p).
Proof.
  intros Hp Hf Hc Hr. destruct (declared_well _ Hp) as (Hnum & Hids & Hall). destruct (Hall f Hf) as (Hpl & Hrun & Ho).
  split; [by eapply aborting_stub|done].
Qed.

(** The norm of a vector, the 97th function for TensorFlow. *)
Definition snrm2 : aborting :=
  aborts 96 "cublasSnrm2_v2" [Signature.h "handle"; Signature.i4 "n"; Signature.p "x"; Signature.i4 "incx"; Signature.p "result"] Signature.status.

Section sample.
Import Sample.

(** The stub does not get to the queue of the batching thread. *)
Lemma unimplemented_calls_abort_witness :
  aborting_implementation (opt_send_code 1 (ab_func snrm2)) snrm2 (ordered (ab_func snrm2)) 9 1 ∅ guest0
    Batching.cmd_batch_thread_init = Stop (AssertFailed ("cublasSnrm2_v2 is not implemented" +:+ newline)).
Proof.
  apply (unimplemented_calls_abort sock_conn (opt_send_code 1 (ab_func snrm2))
    (mk_cuda_api tf_opt_functions AbortTfOpt.tf_opt_aborting AbortTfOpt.tf_opt_others 1556) snrm2 9 1 ∅ guest0
    (mk_csock empty_sock PollIn 1 4001 0)).
  - left.
  - apply (list_elem_of_lookup_2 _ 14). reflexivity.
  - split; split; reflexivity.
  - by vm_compute.
Defined.
End sample.
